(* ===== verification/_CoqProject ===== *)
-Q . S2P
Prelude.v
Bytes.v
Kstring.v
Spinlock.v
Console.v
ConsoleSpec.v
Mutex.v
Kernel.v
Disk.v
Buf.v
BufSpec.v
Bitmap.v
BitmapSpec.v
Inode.v
InodeMeta.v
InodeSpec.v
InodeData.v
InodeDataSpec.v
Dir.v
DirSpec.v
PathSpec.v
Pmem.v
Vmem.v
VmemTree.v
VmemSpec.v
Uvm.v
UvmSpec.v
UvmHeap.v
UvmDestroy.v
UvmCopy.v
File.v
FileSpec.v
Fs.v
Mkfs.v
MkfsSpec.v
MkfsImage.v
MkfsRead.v
FsSpec.v
Proc.v
ProcSpec.v
SchedSpec.v
ProcAlloc.v
ProcFork.v
ProcExit.v
SwitchSpec.v
Syscall.v
SyscallSpec.v
ProcWait.v
SyscallMem.v
Virtio.v
VirtioSpec.v
Trap.v
TrapSpec.v
Boot.v
BootSpec.v
Asm.v
AsmSpec.v
User.v
AsmLink.v
