(* ===== verification/Prelude.v ===== *)
(** * A verified model of whu-os-riscv, a small RISC-V operating system

    The repository holds a kernel in C for two harts of a RISC-V machine with Sv39
    paging (src/kernel, headers in src/include), four files of assembly, a program
    that builds the disk image (src/mkfs) and a first user program (src/user).  The
    library models all of it as executable definitions over explicit states and
    proves what its parts promise to one another.

    ** How the code is represented

    A function of C is a computation [M S A]: from a state [S] it gives [Ret] with a
    result and a new state, or [Panic] (a failed [assert] or [panic]), [Spin] (a loop
    that never ends, such as a lock that nobody will release), [Fault] (behaviour that
    C does not define: NULL, an index out of range), or [NoFuel].  Machine integers
    are [Z] with the wrap-around written where C has it ([u8], [u16], [u32], [u64],
    [s32]); physical memory is a finite map of bytes; a pointer into a static array
    is an index.  Each layer's state contains the one below: [cpu] and locks, the
    kernel's globals [kstate], the processes [pstate], the hart's control registers
    and devices [tstate], the state of the boot [bstate].  A call of a lower layer
    is lifted ([on_k], [on_ps], [on_con], ...).  Definitions have the names of the
    functions that they translate, in the order of the source file.

    ** Files

    Foundations
    - Prelude, Bytes: the monad, integers, memory, encodings; lemmas and automation.
    - Kernel: the structs of src/include and the record of the kernel's globals.
    Library (kernel/lib, kernel/dev)
    - Kstring: string.c, functional behaviour against list functions.
    - Spinlock, Mutex: spinlock.c for one hart, and harts interleaved at every access
      to memory (C4, mutual exclusion).
    - Console, ConsoleSpec: uart.c, print.c (C22, what printf shows).
    - Disk, Virtio, VirtioSpec: the contract of the disk, and virtio.c against a
      device, with sleep, interrupt and wakeup (C30).
    File system (kernel/fs)
    - Buf, BufSpec: buf.c; the buffer cache refines a disk with blocks checked out (C2).
    - Bitmap, BitmapSpec: bitmap.c; the search is "first clear bit" (C3).
    - Inode, InodeMeta, InodeSpec, InodeData, InodeDataSpec: inode.c; inodes on the
      disk (C10), the cache (C11), the block map (C9), file contents (C1).
    - Dir, DirSpec, PathSpec: dir.c; directories as finite maps (C7, C8), paths (C6).
    - File, FileSpec: file.c; the reference counts (C21).  Fs: fs.c, start-up.
    - Mkfs, MkfsSpec, MkfsImage, MkfsRead: mkfs.c; the image as the kernel reads it
      (C34), and the blocks of programs that it cannot reach (C35).
    - FsSpec: from the image through [fs_mount] to the files (C33).
    Memory (kernel/mem)
    - Pmem: pmem.c refines two sets of free pages (C5).
    - Vmem, VmemTree, VmemSpec: vmem.c; page tables as finite maps (C12, C13).
    - Uvm, UvmSpec, UvmHeap, UvmDestroy, UvmCopy: uvm.c; copying between the spaces
      (C14), copying an address space (C20), the heap.  UvmDestroy says what a
      process owns ([owned]: its tables, its pages, each mapped once, beside the
      borrowed trampoline and trapframe) and that tearing down frees just that (C15).
    Processes (kernel/proc, kernel/syscall, kernel/trap)
    - Proc, ProcSpec, SchedSpec, ProcAlloc, ProcFork, ProcExit, ProcWait, SwitchSpec:
      proc.c, cpu.c; creation (C17; what [proc_alloc] makes is [owned]), fork (C16),
      exit (C26) and wait (C27: the exit state, the pages, the files and the slot of
      the child), the scheduler (C18), and the wakeups and interrupts that get lost
      (C19, C28, C29).  [SwitchSpec.resumed] puts together operations of Proc in the
      order of one pass of [proc_scheduler] around its call of [swtch]; the looks it
      takes at other slots meanwhile are part of its argument.
    - Syscall, SyscallSpec, SyscallMem: syscall.c, sysfunc.c, sysfile.c (C23 to C25).
    - Trap, TrapSpec: trap_user.c, trap_kernel.c, timer.c, plic.c; a timer interrupt
      in user mode resumes the program (C31), one in the kernel loses sepc (C32).
    Start and the borders of the C code
    - Boot, BootSpec: start.c, main.c, [timer_init], [fork_return] (C36).
    - Asm, AsmSpec: entry.S, trampoline.S, trap.S, swtch.S as instructions (C37, C38).
    - User, AsmLink: src/user; what a program passes is what the kernel reads (C40);
      the row that [timer_init] fills makes the timer periodic (C39).

    ** How the parts interact

    A program traps through [user_vector] (Asm) to [trap_user_handler] (Trap), which
    runs [syscall] (Syscall); that calls File, Dir, Inode, Bitmap and Buf for files, Uvm,
    Vmem and Pmem for memory, and Proc.  Buf reaches the disk through the class
    [DiskDriver] with its contract [DiskDriverOk] (Disk); everything above is proved
    against that contract, and VirtioSpec shows that the driver with a device
    ([VirtioRegs], [VioDevice]) moves the same blocks.  [BlockDev] with
    [BlockDevLaws] is the medium; [Uart] and [Plic] are the registers of the
    console and of the interrupt controller.

    ** Abstract specifications and refinement

    BufSpec has a disk with checked-out blocks; Pmem two lists of free pages; DirSpec
    a finite map [dir_map]; VmemTree a map [pt_map] from pages to entries; InodeData
    the reference map [bmap] and the contents [file_bytes]; PathSpec [follow];
    BitmapSpec [first_clear].  The theorems relate the code to these on every branch,
    the panics included.

    ** Fuel and bounds

    Loops over arrays are structural.  Where a loop has fuel, the caller computes it
    from the argument: a page loop the number of pages, [loop_fuel] the number of
    blocks, the copying loops the number of bytes, [search_loop] the length of the
    path, [copy_loop] the blocks of the file, [locate_block] its two levels; the
    theorems show a result, never [NoFuel].  [PGTBL_FUEL] is one more than the three
    levels of a page table, which C15 and C27 show to be enough for every address space
    of a process; [NAME_FUEL] bounds the length of a string argument.  The endless loop of
    [proc_scheduler] takes its number of turns as an argument.

    ** What is not modelled

    - Output that only informs ([buf_print], [inode_print], [dir_print], [vm_print],
      the messages of start-up and traps); the text of [printf] itself is modelled.
    - Concurrency of harts outside Mutex: the other components run on one hart, and
      what others do between a call of [swtch] and its return is a parameter, which
      SwitchSpec, VirtioSpec and TrapSpec instantiate.  Weak memory is not modelled.
    - Hardware: the medium, the device of the disk, the UART, the interrupt controller
      and the page-table walk are interfaces or parameters.
    - initcode.h, the machine code of the first program, is a parameter of
      [proc_make_first]; the linker script's addresses are parameters too. *)

From Stdlib Require Export ZArith Lia.
From stdpp Require Export base gmap strings numbers option.
From stdpp Require Export list_basics list_relations list_monad list_misc list_tactics list_numbers list.

#[global] Open Scope Z_scope.

(** ** Machine integers

    An unsigned [w]-bit integer is a [Z] in [0, 2^w); arithmetic that can
    leave that range is wrapped where the C code assigns or combines it. *)

Definition u8 (z : Z) : Z := z mod 2 ^ 8.
Definition u16 (z : Z) : Z := z mod 2 ^ 16.
Definition u32 (z : Z) : Z := z mod 2 ^ 32.
Definition u64 (z : Z) : Z := z mod 2 ^ 64.

(** The value a C [int] takes when it is assigned a 32-bit pattern. *)
Definition s32 (z : Z) : Z :=
  let w := u32 z in if w <? 2 ^ 31 then w else w - 2 ^ 32.

Lemma u16_small z : 0 <= z < 2 ^ 16 -> u16 z = z.
Proof. apply Z.mod_small. Qed.
Lemma u32_small z : 0 <= z < 2 ^ 32 -> u32 z = z.
Proof. apply Z.mod_small. Qed.
Lemma u64_small z : 0 <= z < 2 ^ 64 -> u64 z = z.
Proof. apply Z.mod_small. Qed.
Lemma u32_range z : 0 <= u32 z < 2 ^ 32.
Proof. apply Z.mod_pos_bound. lia. Qed.
Lemma u64_range z : 0 <= u64 z < 2 ^ 64.
Proof. apply Z.mod_pos_bound. lia. Qed.
Lemma u8_range z : 0 <= u8 z < 2 ^ 8.
Proof. apply Z.mod_pos_bound. lia. Qed.

(** ** Computations

    A kernel function is a state transformer that returns, or stops in one of
    the ways the C code can stop. *)

Inductive outcome (S A : Type) : Type :=
  | Ret (a : A) (s : S)          (** the function returned *)
  | Panic (msg : string) (s : S) (** [panic(msg)] was called: the kernel loops forever *)
  | Spin                         (** busy-waits on a lock that another CPU holds *)
  | Fault                        (** access through an invalid pointer *)
  | NoFuel.                      (** the loop bound of the model ran out *)
Arguments Ret {S A} a s.
Arguments Panic {S A} msg s.
Arguments Spin {S A}.
Arguments Fault {S A}.
Arguments NoFuel {S A}.

Definition M (S A : Type) : Type := S -> outcome S A.

#[export] Instance M_ret {S} : MRet (M S) := fun A a s => Ret a s.
#[export] Instance M_bind {S} : MBind (M S) := fun A B k m s =>
  match m s with
  | Ret a s' => k a s'
  | Panic msg s' => Panic msg s'
  | Spin => Spin
  | Fault => Fault
  | NoFuel => NoFuel
  end.

Definition panic {S A} (msg : string) : M S A := fun s => Panic msg s.
Definition spin {S A} : M S A := fun _ => Spin.
Definition fault {S A} : M S A := fun _ => Fault.
Definition no_fuel {S A} : M S A := fun _ => NoFuel.
Definition gets {S A} (f : S -> A) : M S A := fun s => Ret (f s) s.
Definition modify {S} (f : S -> S) : M S unit := fun s => Ret tt (f s).
Definition when {S} (b : bool) (m : M S unit) : M S unit := if b then m else mret tt.

(** A value that the C code would read out of bounds is a [Fault]. *)
Definition some_or_fault {S A} (o : option A) : M S A :=
  match o with Some a => mret a | None => fault end.

(** [for (i in l) body(i)] without and with a [return] inside the body. *)
Fixpoint for_each {S I} (l : list I) (body : I -> M S unit) : M S unit :=
  match l with
  | [] => mret tt
  | i :: l' => body i;; for_each l' body
  end.

Fixpoint for_return {S I R} (l : list I) (body : I -> M S (option R)) : M S (option R) :=
  match l with
  | [] => mret None
  | i :: l' => r ← body i; match r with Some v => mret (Some v) | None => for_return l' body end
  end.

(** *** Reasoning: a computation returns and satisfies its postcondition *)

Definition returns {S A} (m : M S A) (s : S) (Q : A -> S -> Prop) : Prop :=
  match m s with Ret a s' => Q a s' | _ => False end.

(** A computation panics with a message, in a state that satisfies [Q]. *)
Definition panics {S A} (m : M S A) (s : S) (msg : string) (Q : S -> Prop) : Prop :=
  match m s with Panic msg' s' => msg' = msg /\ Q s' | _ => False end.

Section Returns.
Context {S A B : Type}.
Implicit Types (s : S).

Lemma returns_ret (a : A) s Q : Q a s -> returns (mret a : M S A) s Q.
Proof. done. Qed.

Lemma returns_bind (m : M S A) (k : A -> M S B) s Q :
  returns m s (fun a s' => returns (k a) s' Q) -> returns (m ≫= k) s Q.
Proof. unfold returns, mbind, M_bind. destruct (m s); done. Qed.

Lemma returns_mono (m : M S A) s (Q Q' : A -> S -> Prop) :
  returns m s Q -> (forall a s', Q a s' -> Q' a s') -> returns m s Q'.
Proof. unfold returns. destruct (m s); eauto. Qed.

Lemma returns_elim (m : M S A) s Q :
  returns m s Q -> exists a s', m s = Ret a s' /\ Q a s'.
Proof. unfold returns. destruct (m s); eauto; done. Qed.

Lemma returns_intro (m : M S A) s a s' Q : m s = Ret a s' -> Q a s' -> returns m s Q.
Proof. unfold returns. by intros ->. Qed.

Lemma panics_bind_l (m : M S A) (k : A -> M S B) s msg Q :
  panics m s msg Q -> panics (m ≫= k) s msg Q.
Proof. unfold panics, mbind, M_bind. destruct (m s); done. Qed.

Lemma panics_bind_r (m : M S A) (k : A -> M S B) s msg Q :
  returns m s (fun a s' => panics (k a) s' msg Q) -> panics (m ≫= k) s msg Q.
Proof. unfold panics, returns, mbind, M_bind. destruct (m s); done. Qed.
End Returns.

Lemma panics_elim {S A} (m : M S A) s msg Q : panics m s msg Q -> exists s', m s = Panic msg s' /\ Q s'.
Proof. unfold panics. destruct (m s) as [|msg' s'| | |]; try done. intros [-> H]. by exists s'. Qed.

Lemma panics_intro {S A} (m : M S A) s msg s' (Q : S -> Prop) : m s = Panic msg s' -> Q s' -> panics m s msg Q.
Proof. unfold panics. by intros ->. Qed.

Lemma bind_ret_eq {S A B} (m : M S A) (k : A -> M S B) s a s' :
  m s = Ret a s' -> (m ≫= k) s = k a s'.
Proof. unfold mbind, M_bind. by intros ->. Qed.

Lemma bind_panic_eq {S A B} (m : M S A) (k : A -> M S B) s msg s' :
  m s = Panic msg s' -> (m ≫= k) s = Panic msg s'.
Proof. unfold mbind, M_bind. by intros ->. Qed.

(** ** Lists *)

Lemma Forall_elem {A} (P : A -> Prop) (l : list A) x : Forall P l -> x ∈ l -> P x.
Proof. intros H. by apply (proj1 (list.Forall_forall P l) H). Qed.

Lemma Forall_of_elem {A} (P : A -> Prop) (l : list A) : (forall x, x ∈ l -> P x) -> Forall P l.
Proof. apply list.Forall_forall. Qed.

Lemma Forall_impl_elem {A} (P Q : A -> Prop) (l : list A) :
  Forall P l -> (forall x, x ∈ l -> P x -> Q x) -> Forall Q l.
Proof. intros HP H. apply Forall_of_elem. intros x Hx. apply H; [done|]. by eapply Forall_elem. Qed.

Lemma elem_of_rev {A} (l : list A) x : x ∈ rev l <-> x ∈ l.
Proof. by rewrite !list_elem_of_In, <- in_rev. Qed.

(** ** Running a computation step by step *)

Section Run.
Context {S A B C : Type}.
Implicit Types (s : S).

Lemma bind_gets (f : S -> A) (k : A -> M S B) s : (gets f ≫= k) s = k (f s) s.
Proof. done. Qed.
Lemma bind_modify (f : S -> S) (k : unit -> M S B) s : (modify f ≫= k) s = k tt (f s).
Proof. done. Qed.
Lemma bind_mret (a : A) (k : A -> M S B) s : ((mret a : M S A) ≫= k) s = k a s.
Proof. done. Qed.
Lemma bind_panic (msg : string) (k : A -> M S B) s : (panic msg ≫= k) s = Panic msg s.
Proof. done. Qed.
Lemma bind_when_false (m : M S unit) (k : unit -> M S B) s : (when false m ≫= k) s = k tt s.
Proof. done. Qed.
Lemma bind_when_true (m : M S unit) (k : unit -> M S B) s : (when true m ≫= k) s = (m ≫= k) s.
Proof. done. Qed.
Lemma bind_bind (m : M S A) (f : A -> M S B) (k : B -> M S C) s :
  ((m ≫= f) ≫= k) s = (m ≫= (fun a => f a ≫= k)) s.
Proof. unfold mbind, M_bind. by destruct (m s). Qed.
Lemma bind_ret_r (m : M S A) s : (m ≫= mret) s = m s.
Proof. unfold mbind, M_bind. by destruct (m s). Qed.
Lemma bind_some (a : A) (k : A -> M S B) s : (some_or_fault (Some a) ≫= k) s = k a s.
Proof. done. Qed.
End Run.

(** A [for] loop with a [return]: the iterations that do nothing are skipped. *)
Section ForReturn.
Context {S I R : Type}.
Implicit Types (s : S) (body : I -> M S (option R)).

Lemma for_return_none l body s :
  (forall i, i ∈ l -> body i s = Ret None s) -> for_return l body s = Ret None s.
Proof.
  induction l as [|i l IH]; intros Hb; [done|]. cbn [for_return].
  rewrite (bind_ret_eq _ _ _ _ _ (Hb i ltac:(set_solver))). apply IH. set_solver.
Qed.

Lemma for_return_skip l1 l2 body s :
  (forall i, i ∈ l1 -> body i s = Ret None s) -> for_return (l1 ++ l2) body s = for_return l2 body s.
Proof.
  induction l1 as [|i l1 IH]; intros Hb; [done|]. cbn [for_return app].
  rewrite (bind_ret_eq _ _ _ _ _ (Hb i ltac:(set_solver))). apply IH. set_solver.
Qed.

Lemma for_return_hit l1 i l2 body s r s' :
  (forall j, j ∈ l1 -> body j s = Ret None s) -> body i s = Ret (Some r) s' ->
  for_return (l1 ++ i :: l2) body s = Ret (Some r) s'.
Proof.
  intros Hb Hi. rewrite for_return_skip by done. cbn [for_return].
  by rewrite (bind_ret_eq _ _ _ _ _ Hi).
Qed.

Lemma for_return_panic l1 i l2 body s msg s' :
  (forall j, j ∈ l1 -> body j s = Ret None s) -> body i s = Panic msg s' ->
  for_return (l1 ++ i :: l2) body s = Panic msg s'.
Proof.
  intros Hb Hi. rewrite for_return_skip by done. cbn [for_return]. by apply bind_panic_eq.
Qed.
End ForReturn.

(** [0, 1, ..., n-1] around one of its elements. *)
Lemma seqZ_split (n k : Z) : 0 <= k < n -> seqZ 0 n = seqZ 0 k ++ k :: seqZ (k + 1) (n - k - 1).
Proof.
  intros Hk. replace n with (k + (n - k)) at 1 by lia. rewrite seqZ_app by lia. f_equal.
  rewrite Z.add_0_l, seqZ_cons by lia. by rewrite <- Z.add_1_r, <- Z.sub_1_r.
Qed.

Create Rewrite HintDb mrun.
#[export] Hint Rewrite @bind_gets @bind_modify @bind_mret @bind_panic @bind_when_false @bind_when_true
  @bind_bind @bind_some : mrun.

(** Run the [gets]/[modify]/[mret] steps at the head of a computation. *)
Ltac mrun := autorewrite with mrun; cbv beta; try change (negb true) with false;
  try change (negb false) with true.
Ltac mrun_in H := autorewrite with mrun in H; cbv beta in H.

(** Run a step whose result is given by an equation. *)
Ltac mstep lem := first [erewrite bind_ret_eq by lem | rewrite lem]; mrun.
