(* ===== verification/Bytes.v ===== *)
(** * Bytes: physical memory, little-endian encoding, slices of byte arrays

    The C program reads and writes objects through typed pointers.  Physical
    memory is a map from byte addresses to bytes; a 64-bit access is eight byte
    accesses in little-endian order (RISC-V).  An array that the program only
    reaches through its own name (a disk buffer, a name) is a list of bytes. *)

From S2P Require Import Prelude.

(** ** Physical memory *)

Abbreviation mem := (gmap Z Z).

Definition load8 (m : mem) (a : Z) : Z := u8 (default 0 (m !! a)).
Definition store8 (m : mem) (a v : Z) : mem := <[a := u8 v]> m.

Fixpoint le_bytes (n : nat) (v : Z) : list Z :=
  match n with
  | O => []
  | S n' => u8 v :: le_bytes n' (v / 2 ^ 8)
  end.

Fixpoint le_value (l : list Z) : Z :=
  match l with
  | [] => 0
  | b :: l' => b + 2 ^ 8 * le_value l'
  end.

Fixpoint read_bytes (m : mem) (a : Z) (n : nat) : list Z :=
  match n with
  | O => []
  | S n' => load8 m a :: read_bytes m (a + 1) n'
  end.

Fixpoint write_bytes (m : mem) (a : Z) (l : list Z) : mem :=
  match l with
  | [] => m
  | b :: l' => write_bytes (store8 m a b) (a + 1) l'
  end.

Definition load64 (m : mem) (a : Z) : Z := le_value (read_bytes m a 8).
Definition store64 (m : mem) (a v : Z) : mem := write_bytes m a (le_bytes 8 v).

(** A list of bytes. *)
Definition is_bytes (l : list Z) : Prop := Forall (fun b => 0 <= b < 2 ^ 8) l.

Lemma u8_idemp z : u8 (u8 z) = u8 z.
Proof. apply Z.mod_small, u8_range. Qed.

Lemma u8_byte b : 0 <= b < 2 ^ 8 -> u8 b = b.
Proof. apply Z.mod_small. Qed.

Lemma load8_range m a : 0 <= load8 m a < 2 ^ 8.
Proof. apply u8_range. Qed.

Lemma load8_store8 m a v x :
  load8 (store8 m a v) x = if decide (a = x) then u8 v else load8 m x.
Proof.
  unfold load8, store8. rewrite lookup_insert.
  case_decide; simpl; [apply u8_idemp | done].
Qed.

Lemma length_le_bytes n v : length (le_bytes n v) = n.
Proof. revert v; induction n; simpl; auto. Qed.

Lemma is_bytes_le_bytes n v : is_bytes (le_bytes n v).
Proof. revert v; induction n; constructor; [apply u8_range | apply IHn]. Qed.

Lemma length_read_bytes m a n : length (read_bytes m a n) = n.
Proof. revert a; induction n; simpl; auto. Qed.

Lemma is_bytes_read_bytes m a n : is_bytes (read_bytes m a n).
Proof. revert a; induction n; constructor; [apply load8_range | apply IHn]. Qed.

Lemma read_bytes_lookup m a n i :
  (i < n)%nat -> read_bytes m a n !! i = Some (load8 m (a + Z.of_nat i)).
Proof.
  revert a i; induction n as [|n IH]; intros a i Hi; [lia|].
  destruct i as [|i]; simpl; [by rewrite Z.add_0_r|].
  rewrite IH by lia. do 2 f_equal. lia.
Qed.

Lemma read_bytes_ext m m' a a' n :
  (forall i, 0 <= i < Z.of_nat n -> load8 m (a + i) = load8 m' (a' + i)) ->
  read_bytes m a n = read_bytes m' a' n.
Proof.
  intros H. apply list_eq; intros i.
  destruct (decide (i < n)%nat) as [Hi|Hi].
  - rewrite !read_bytes_lookup by done. f_equal. apply H. lia.
  - rewrite !lookup_ge_None_2; rewrite ?length_read_bytes; (done || lia).
Qed.

Lemma load8_write_bytes m a l x :
  load8 (write_bytes m a l) x =
    if decide (a <= x < a + Z.of_nat (length l))
    then u8 (l !!! Z.to_nat (x - a)) else load8 m x.
Proof.
  revert m a; induction l as [|b l IH]; intros m a; simpl.
  { case_decide; [lia | done]. }
  rewrite IH, load8_store8.
  destruct (decide (a = x)) as [->|Hne].
  - rewrite decide_False by lia. rewrite decide_True by lia.
    by replace (x - x) with 0 by lia.
  - destruct (decide (a + 1 <= x < a + 1 + Z.of_nat (length l))) as [Hin|Hout].
    + rewrite decide_True by lia.
      by replace (Z.to_nat (x - a)) with (S (Z.to_nat (x - (a + 1)))) by lia.
    + rewrite decide_False by lia. done.
Qed.

Lemma load8_write_bytes_out m a l x :
  ~ (a <= x < a + Z.of_nat (length l)) -> load8 (write_bytes m a l) x = load8 m x.
Proof. intros H. rewrite load8_write_bytes. by rewrite decide_False. Qed.

Lemma read_write_bytes m a l : is_bytes l -> read_bytes (write_bytes m a l) a (length l) = l.
Proof.
  intros Hb. apply list_eq; intros i.
  destruct (decide (i < length l)%nat) as [Hi|Hi].
  - rewrite read_bytes_lookup by done. rewrite load8_write_bytes, decide_True by lia.
    replace (Z.to_nat (a + Z.of_nat i - a)) with i by lia.
    destruct (lookup_lt_is_Some_2 l i Hi) as [b Hl].
    rewrite Hl, (list_lookup_total_correct _ _ _ Hl), u8_byte; [done|].
    by eapply Forall_lookup_1 in Hb.
  - rewrite !lookup_ge_None_2; rewrite ?length_read_bytes; (done || lia).
Qed.

(** ** Little-endian words *)

Lemma le_value_le_bytes n v : le_value (le_bytes n v) = v mod 2 ^ (8 * Z.of_nat n).
Proof.
  revert v; induction n as [|n IH]; intros v; cbn [le_bytes le_value].
  { by rewrite Z.mod_1_r. }
  rewrite IH. unfold u8.
  replace (8 * Z.of_nat (S n)) with (8 + 8 * Z.of_nat n) by lia.
  rewrite Z.pow_add_r by lia. rewrite Z.rem_mul_r; lia.
Qed.

Lemma le_value_range l : is_bytes l -> 0 <= le_value l < 2 ^ (8 * Z.of_nat (length l)).
Proof.
  induction 1 as [|b l Hb _ IH]; [simpl; lia|].
  cbn [le_value length]. replace (8 * Z.of_nat (S (length l))) with (8 + 8 * Z.of_nat (length l)) by lia.
  rewrite Z.pow_add_r by lia. lia.
Qed.

Lemma le_bytes_le_value l : is_bytes l -> le_bytes (length l) (le_value l) = l.
Proof.
  induction 1 as [|b l Hb _ IH]; [done|]. cbn [length le_bytes le_value]. f_equal.
  - unfold u8. rewrite Z.mul_comm, Z.mod_add by lia. by apply Z.mod_small.
  - rewrite Z.mul_comm, Z.div_add by lia. rewrite Z.div_small by lia. apply IH.
Qed.

Lemma load64_range m a : 0 <= load64 m a < 2 ^ 64.
Proof.
  unfold load64. pose proof (le_value_range (read_bytes m a 8) (is_bytes_read_bytes _ _ _)) as H.
  by rewrite length_read_bytes in H.
Qed.

Lemma load64_store64_eq m a v : 0 <= v < 2 ^ 64 -> load64 (store64 m a v) a = v.
Proof.
  intros Hv. unfold load64, store64.
  pose proof (read_write_bytes m a (le_bytes 8 v) (is_bytes_le_bytes 8 v)) as H.
  rewrite length_le_bytes in H. rewrite H, le_value_le_bytes. by apply Z.mod_small.
Qed.

Lemma load8_store64_ne m a v x : ~ (a <= x < a + 8) -> load8 (store64 m a v) x = load8 m x.
Proof.
  intros H. apply load8_write_bytes_out. rewrite length_le_bytes. lia.
Qed.

Lemma load64_ext m m' a :
  (forall x, a <= x < a + 8 -> load8 m x = load8 m' x) -> load64 m a = load64 m' a.
Proof.
  intros H. unfold load64. f_equal. apply read_bytes_ext. intros i Hi. apply H. lia.
Qed.

Lemma load64_store64_ne m a v b :
  a + 8 <= b \/ b + 8 <= a -> load64 (store64 m a v) b = load64 m b.
Proof. intros H. apply load64_ext. intros x Hx. apply load8_store64_ne. lia. Qed.

Lemma load64_empty a : load64 ∅ a = 0.
Proof. unfold load64, load8. cbn [read_bytes]. unfold load8. by rewrite !lookup_empty. Qed.

Lemma write_bytes_app m a l l' :
  write_bytes m a (l ++ l') = write_bytes (write_bytes m a l) (a + Z.of_nat (length l)) l'.
Proof.
  revert m a; induction l as [|b l IH]; intros m a; simpl; [by rewrite Z.add_0_r|].
  rewrite IH. f_equal. lia.
Qed.

(** ** Byte arrays as lists *)

Definition slice (l : list Z) (off n : Z) : list Z :=
  take (Z.to_nat n) (drop (Z.to_nat off) l).

(** [memmove(l + off, src, length src)] on an array, when it stays inside. *)
Definition blit (l : list Z) (off : Z) (src : list Z) : list Z :=
  take (Z.to_nat off) l ++ src ++ drop (Z.to_nat off + length src) l.

Definition byte_at (l : list Z) (i : Z) : Z := l !!! Z.to_nat i.

Lemma length_blit l off src :
  0 <= off -> off + Z.of_nat (length src) <= Z.of_nat (length l) ->
  length (blit l off src) = length l.
Proof. intros. unfold blit. rewrite !length_app, length_take, length_drop. lia. Qed.

Lemma length_slice l off n :
  0 <= off -> 0 <= n -> off + n <= Z.of_nat (length l) -> length (slice l off n) = Z.to_nat n.
Proof. intros. unfold slice. rewrite length_take, length_drop. lia. Qed.

Lemma slice_blit_eq l off src :
  0 <= off -> off + Z.of_nat (length src) <= Z.of_nat (length l) ->
  slice (blit l off src) off (Z.of_nat (length src)) = src.
Proof.
  intros. unfold slice, blit. rewrite Nat2Z.id.
  rewrite drop_app_length' by (rewrite length_take; lia).
  by rewrite take_app_length.
Qed.

Lemma lookup_blit_out l off src (i : nat) :
  0 <= off -> off + Z.of_nat (length src) <= Z.of_nat (length l) ->
  Z.of_nat i < off \/ off + Z.of_nat (length src) <= Z.of_nat i ->
  blit l off src !! i = l !! i.
Proof.
  intros H0 H1 [Hi|Hi]; unfold blit.
  - rewrite lookup_app_l by (rewrite length_take; lia). apply lookup_take_lt. lia.
  - rewrite !lookup_app_r; rewrite ?length_take; try lia.
    rewrite lookup_drop. f_equal. lia.
Qed.

Lemma byte_at_blit_len l o src j :
  0 <= o -> o + Z.of_nat (length src) <= Z.of_nat (length l) -> 0 <= j ->
  byte_at (blit l o src) j = if decide (o <= j < o + Z.of_nat (length src)) then byte_at src (j - o) else byte_at l j.
Proof.
  intros Ho Hle Hj. unfold byte_at. rewrite !list_lookup_total_alt. case_decide as Hin; f_equal.
  - unfold blit. rewrite lookup_app_r by (rewrite length_take; lia).
    rewrite lookup_app_l by (rewrite length_take; lia). f_equal. rewrite length_take. lia.
  - apply lookup_blit_out; lia.
Qed.

Lemma slice_blit_disjoint l off src o n :
  0 <= off -> off + Z.of_nat (length src) <= Z.of_nat (length l) ->
  0 <= o -> 0 <= n ->
  o + n <= off \/ off + Z.of_nat (length src) <= o ->
  slice (blit l off src) o n = slice l o n.
Proof.
  intros Hoff Hlen Ho Hn Hd. apply list_eq; intros i. unfold slice.
  destruct (decide (i < Z.to_nat n)%nat) as [Hi|Hi].
  - rewrite !lookup_take_lt, !lookup_drop by done. apply lookup_blit_out; [done..|]. lia.
  - by rewrite !lookup_take_ge by lia.
Qed.

Lemma is_bytes_slice l off n : is_bytes l -> is_bytes (slice l off n).
Proof. intros H. by apply Forall_take, Forall_drop. Qed.

Lemma is_bytes_blit l off src : is_bytes l -> is_bytes src -> is_bytes (blit l off src).
Proof.
  intros Hl Hs. unfold blit, is_bytes. rewrite !Forall_app.
  split_and!; [by apply Forall_take | done | by apply Forall_drop].
Qed.

Create HintDb bytes.
#[export] Hint Resolve is_bytes_slice is_bytes_blit is_bytes_le_bytes is_bytes_read_bytes
  load8_range load64_range : bytes.
