(* ===== verification/Kstring.v ===== *)
(** * Kstring: kernel/lib/string.c

    The functions that write memory transform a [mem]; those that only read
    their arguments ([memcmp], [strncmp], [strlen]) take a C pointer as its
    view [p i = p\[i\]], so that the same definition serves a pointer into
    physical memory ([mem_view]) and an array ([arr_view]). *)

From S2P Require Import Prelude Bytes.

(** What [p\[i\]] reads, for a pointer into memory and for an array. *)
Definition mem_view (m : mem) (p : Z) : Z -> Z := fun i => load8 m (p + i).
Definition arr_view (l : list Z) : Z -> Z := fun i => byte_at l i.

(** ** The operations *)

(** [for (i = 0; i < n; i++) cdst\[i\] = c] *)
Fixpoint memset_loop (k : nat) (m : mem) (d c : Z) : mem :=
  match k with
  | O => m
  | S k' => memset_loop k' (store8 m d c) (d + 1) c
  end.
Definition memset (m : mem) (dst c n : Z) : mem := memset_loop (Z.to_nat n) m dst c.

Fixpoint memcmp_from (s1 s2 : Z -> Z) (i : Z) (k : nat) : Z :=
  match k with
  | O => 0
  | S k' => if s1 i =? s2 i then memcmp_from s1 s2 (i + 1) k' else s1 i - s2 i
  end.
Definition memcmp (v1 v2 : Z -> Z) (n : Z) : Z := memcmp_from v1 v2 0 (Z.to_nat n).

(** [while (n-- > 0) *d++ = *s++] *)
Fixpoint copy_up (k : nat) (m : mem) (d s : Z) : mem :=
  match k with
  | O => m
  | S k' => copy_up k' (store8 m d (load8 m s)) (d + 1) (s + 1)
  end.

(** [while (n-- > 0) *--d = *--s] *)
Fixpoint copy_down (k : nat) (m : mem) (d s : Z) : mem :=
  match k with
  | O => m
  | S k' => copy_down k' (store8 m (d - 1) (load8 m (s - 1))) (d - 1) (s - 1)
  end.

Definition memmove (m : mem) (dst src n : Z) : mem :=
  if n =? 0 then m
  else if (src <? dst) && (dst <? src + n)
       then copy_down (Z.to_nat n) m (dst + n) (src + n)
       else copy_up (Z.to_nat n) m dst src.

(** [n] is a [uint64] here and a [uint] in [memmove]. *)
Definition memcpy (m : mem) (dst src n : Z) : mem := memmove m dst src (u32 n).

Fixpoint strncmp_from (p q : Z -> Z) (i : Z) (k : nat) : Z :=
  match k with
  | O => 0
  | S k' =>
      if negb (p i =? 0) && (p i =? q i) then strncmp_from p q (i + 1) k'
      else p i - q i
  end.
Definition strncmp (p q : Z -> Z) (n : Z) : Z := strncmp_from p q 0 (Z.to_nat n).

(** [while (n-- > 0 && ( *s++ = *t++ ) != 0);] with the values of [s] and [n] after it. *)
Fixpoint strncpy_copy (k : nat) (m : mem) (s t : Z) : mem * Z * nat :=
  match k with
  | O => (m, s, O)
  | S k' =>
      let c := load8 m t in
      let m' := store8 m s c in
      if c =? 0 then (m', s + 1, k') else strncpy_copy k' m' (s + 1) (t + 1)
  end.

(** [while (n-- > 0) *s++ = 0;] is the loop of [memset] with 0. *)
Definition strncpy (m : mem) (s t n : Z) : mem :=
  let '(m', s', k) := strncpy_copy (Z.to_nat n) m s t in memset_loop k m' s' 0.

Definition safestrcpy (m : mem) (s t n : Z) : mem :=
  if n <=? 0 then m
  else let '(m', s', _) := strncpy_copy (Z.to_nat (n - 1)) m s t in store8 m' s' 0.

(** [fuel] bounds the scan: the C loop runs until it meets a NUL. *)
Fixpoint strlen_from (fuel : nat) (s : Z -> Z) (n : Z) : option Z :=
  match fuel with
  | O => None
  | S fuel' => if s n =? 0 then Some n else strlen_from fuel' s (n + 1)
  end.
Definition strlen (fuel : nat) (s : Z -> Z) : option Z := strlen_from fuel s 0.

(** ** The string at a pointer: the bytes before the first NUL, [k] at most *)

Fixpoint cstr_from (p : Z -> Z) (i : Z) (k : nat) : list Z :=
  match k with
  | O => []
  | S k' => if p i =? 0 then [] else p i :: cstr_from p (i + 1) k'
  end.
Definition cstr (p : Z -> Z) (n : Z) : list Z := cstr_from p 0 (Z.to_nat n).

(** [strncpy] on an array of [n] bytes: the string, then zeros. *)
Definition strncpy_bytes (p : Z -> Z) (n : Z) : list Z :=
  let c := cstr p n in c ++ replicate (Z.to_nat n - length c) 0.

Lemma cstr_from_ext p q i k :
  (forall j, i <= j < i + Z.of_nat k -> p j = q j) -> cstr_from p i k = cstr_from q i k.
Proof.
  revert i; induction k as [|k IH]; intros i H; [done|]. cbn [cstr_from].
  rewrite (H i) by lia. case_match; [done|]. f_equal. apply IH. intros j Hj. apply H. lia.
Qed.

Lemma cstr_from_shift p i d k : cstr_from (fun j => p (d + j)) i k = cstr_from p (d + i) k.
Proof.
  revert i; induction k as [|k IH]; intros i; [done|]. cbn [cstr_from].
  case_match; [done|]. f_equal. rewrite IH. f_equal. lia.
Qed.

Lemma length_cstr_from p i k : (length (cstr_from p i k) <= k)%nat.
Proof. revert i; induction k as [|k IH]; intros i; simpl; [lia|]. case_match; simpl; [lia|]. specialize (IH (i+1)). lia. Qed.

Lemma length_cstr p n : (length (cstr p n) <= Z.to_nat n)%nat.
Proof. apply length_cstr_from. Qed.

Lemma cstr_from_lookup_lt p i k j :
  (j < length (cstr_from p i k))%nat -> cstr_from p i k !! j = Some (p (i + Z.of_nat j)) /\ p (i + Z.of_nat j) <> 0.
Proof.
  revert i j; induction k as [|k IH]; intros i j; simpl; [lia|].
  destruct (Z.eqb_spec (p i) 0) as [?|Hne]; simpl; [lia|]. intros Hj.
  destruct j as [|j]; simpl; [by rewrite Z.add_0_r|].
  destruct (IH (i + 1) j ltac:(lia)) as [-> ?].
  by replace (i + Z.of_nat (S j)) with (i + 1 + Z.of_nat j) by lia.
Qed.

Lemma cstr_from_end p i k :
  (length (cstr_from p i k) < k)%nat -> p (i + Z.of_nat (length (cstr_from p i k))) = 0.
Proof.
  revert i; induction k as [|k IH]; intros i; simpl; [lia|].
  destruct (Z.eqb_spec (p i) 0) as [H|Hne]; simpl; [by rewrite Z.add_0_r|].
  intros Hk. rewrite <- (IH (i + 1)) by lia. f_equal. lia.
Qed.

(** ** Copying *)

Lemma memset_loop_spec k m d c a :
  load8 (memset_loop k m d c) a = if decide (d <= a < d + Z.of_nat k) then u8 c else load8 m a.
Proof.
  revert m d; induction k as [|k IH]; intros m d; cbn [memset_loop].
  { by rewrite decide_False by lia. }
  rewrite IH, load8_store8. repeat case_decide; (done || lia).
Qed.

Lemma copy_up_spec k m d s a :
  d <= s \/ s + Z.of_nat k <= d ->
  load8 (copy_up k m d s) a =
    if decide (d <= a < d + Z.of_nat k) then load8 m (s + (a - d)) else load8 m a.
Proof.
  revert m d s; induction k as [|k IH]; intros m d s Hds; cbn [copy_up].
  { by rewrite decide_False by lia. }
  rewrite IH by lia. rewrite !load8_store8.
  destruct (decide (d = a)) as [->|Hne].
  - rewrite decide_False, decide_True by lia.
    rewrite u8_byte by apply load8_range. f_equal. lia.
  - repeat case_decide; first [done | lia | f_equal; lia].
Qed.

Lemma copy_down_spec k m d s a :
  s <= d ->
  load8 (copy_down k m d s) a =
    if decide (d - Z.of_nat k <= a < d) then load8 m (s + (a - d)) else load8 m a.
Proof.
  revert m d s; induction k as [|k IH]; intros m d s Hds; cbn [copy_down].
  { by rewrite decide_False by lia. }
  rewrite IH by lia. rewrite !load8_store8.
  destruct (decide (d - 1 = a)) as [<-|Hne].
  - rewrite decide_False, decide_True by lia.
    rewrite u8_byte by apply load8_range. f_equal. lia.
  - repeat case_decide; first [done | lia | f_equal; lia].
Qed.

(** What [memmove] leaves in memory, shared by its clients. *)
Lemma load8_memmove m dst src n a :
  0 <= n ->
  load8 (memmove m dst src n) a =
    if decide (dst <= a < dst + n) then load8 m (src + (a - dst)) else load8 m a.
Proof.
  intros Hn. unfold memmove.
  destruct (Z.eqb_spec n 0) as [->|Hn0]; [by rewrite decide_False by lia|].
  destruct ((src <? dst) && (dst <? src + n)) eqn:Hov.
  - rewrite copy_down_spec by lia. rewrite Z2Nat.id by lia.
    repeat case_decide; first [done | lia | f_equal; lia].
  - rewrite copy_up_spec by (rewrite Z2Nat.id by lia; lia). by rewrite Z2Nat.id by lia.
Qed.

(** ** Comparing *)

Lemma strncmp_from_zero p q i k :
  strncmp_from p q i k = 0 <-> cstr_from p i k = cstr_from q i k.
Proof.
  revert i; induction k as [|k IH]; intros i; cbn [strncmp_from cstr_from]; [done|].
  destruct (Z.eqb_spec (p i) 0) as [Hp|Hp]; simpl.
  - destruct (Z.eqb_spec (q i) 0) as [Hq|Hq]; split; (done || lia).
  - destruct (Z.eqb_spec (p i) (q i)) as [Hpq|Hpq].
    + rewrite <- Hpq. destruct (Z.eqb_spec (p i) 0); [done|].
      rewrite IH. split; [by intros -> | by intros [=]].
    + split; [lia|]. destruct (Z.eqb_spec (q i) 0); [done|]. by intros [=].
Qed.

Lemma strncmp_zero p q n : strncmp p q n = 0 <-> cstr p n = cstr q n.
Proof. apply strncmp_from_zero. Qed.

(** ** Copying strings *)

Definition disjoint (a : Z) (n : Z) (b : Z) (k : Z) : Prop := a + n <= b \/ b + k <= a.

Lemma mem_view_store8_out m a v t :
  forall i, a <> t + i -> mem_view (store8 m a v) t i = mem_view m t i.
Proof. intros i H. unfold mem_view. rewrite load8_store8. by rewrite decide_False. Qed.

Lemma cstr_mem_view_S m t k :
  cstr_from (mem_view m t) 0 (S k) =
    if load8 m t =? 0 then [] else load8 m t :: cstr_from (mem_view m (t + 1)) 0 k.
Proof.
  cbn [cstr_from]. unfold mem_view at 1 2. rewrite Z.add_0_r.
  case_match; [done|]. f_equal.
  rewrite (cstr_from_ext _ (fun j => mem_view m t (1 + j)) 0).
  - by rewrite cstr_from_shift.
  - intros j _. unfold mem_view. f_equal. lia.
Qed.

(** The copying loop writes the string and, when it meets the end within the
    bound, its NUL; it reports where it stopped. *)
Lemma strncpy_copy_spec k m s t :
  disjoint s (Z.of_nat k) t (Z.of_nat k) ->
  let c := cstr_from (mem_view m t) 0 k in
  let done_ := if (length c <? k)%nat then c ++ [0] else c in
  strncpy_copy k m s t =
    (write_bytes m s done_, s + Z.of_nat (length done_), (k - length done_)%nat).
Proof.
  revert m s t; induction k as [|k IH]; intros m s t Hd; cbv zeta.
  { simpl. by rewrite Z.add_0_r. }
  rewrite cstr_mem_view_S. cbn [strncpy_copy].
  destruct (Z.eqb_spec (load8 m t) 0) as [H0|H0].
  { rewrite H0. simpl. do 2 f_equal; lia. }
  rewrite IH by (unfold disjoint in *; lia).
  rewrite (cstr_from_ext (mem_view (store8 m s (load8 m t)) (t + 1)) (mem_view m (t + 1))).
  2:{ intros j Hj. apply mem_view_store8_out. unfold disjoint in Hd. lia. }
  set (c := cstr_from (mem_view m (t + 1)) 0 k).
  change (length (load8 m t :: c) <? S k)%nat with (length c <? k)%nat.
  destruct (length c <? k)%nat; cbn [app write_bytes length];
    (do 2 f_equal; rewrite ?length_app; simpl; lia).
Qed.

Lemma memset_loop_write k m d c : memset_loop k m d c = write_bytes m d (replicate k c).
Proof. revert m d; induction k as [|k IH]; intros m d; [done|]. apply IH. Qed.


Lemma strncpy_write m s t n :
  0 <= n -> disjoint s n t n ->
  strncpy m s t n = write_bytes m s (strncpy_bytes (mem_view m t) n).
Proof.
  intros Hn Hd. unfold strncpy, strncpy_bytes, cstr.
  rewrite strncpy_copy_spec by (by rewrite Z2Nat.id).
  set (c := cstr_from _ _ _). cbv zeta.
  assert (length c <= Z.to_nat n)%nat as Hc by apply length_cstr_from.
  rewrite memset_loop_write, <- write_bytes_app. f_equal.
  destruct (Nat.ltb_spec (length c) (Z.to_nat n)) as [Hlt|Hge].
  - rewrite length_app. simpl. rewrite <- app_assoc. f_equal.
    by replace (Z.to_nat n - length c)%nat with (S (Z.to_nat n - (length c + 1))) by lia.
  - done.
Qed.

Lemma safestrcpy_write m s t n :
  0 < n -> disjoint s n t n ->
  exists pad, safestrcpy m s t n = write_bytes m s (cstr (mem_view m t) (n - 1) ++ [0] ++ pad)
    /\ Forall (eq 0) pad /\ Z.of_nat (length (cstr (mem_view m t) (n - 1))) + 1 + Z.of_nat (length pad) <= n.
Proof.
  intros Hn Hd. unfold safestrcpy, cstr. rewrite (proj2 (Z.leb_gt n 0)) by lia.
  rewrite strncpy_copy_spec by (unfold disjoint in *; rewrite Z2Nat.id by lia; lia).
  set (c := cstr_from _ _ _). cbv zeta.
  assert (length c <= Z.to_nat (n - 1))%nat as Hc by apply length_cstr_from.
  destruct (Nat.ltb_spec (length c) (Z.to_nat (n - 1))) as [Hlt|Hge].
  - exists [0]. rewrite !app_assoc, (write_bytes_app _ _ (c ++ [0])).
    split_and!; [done | by repeat constructor | simpl; lia].
  - exists []. rewrite app_nil_r, (write_bytes_app _ _ c).
    split_and!; [done | constructor | simpl; lia].
Qed.

Lemma strlen_from_spec p i k fuel :
  p (i + Z.of_nat k) = 0 -> (forall j, (j < k)%nat -> p (i + Z.of_nat j) <> 0) ->
  (k < fuel)%nat -> strlen_from fuel p i = Some (i + Z.of_nat k).
Proof.
  revert i fuel; induction k as [|k IH]; intros i fuel H0 Hne Hf;
    (destruct fuel as [|fuel]; [lia|]); cbn [strlen_from].
  - rewrite Z.add_0_r in *. by rewrite H0.
  - pose proof (Hne O ltac:(lia)) as Hi. rewrite Z.add_0_r in Hi.
    rewrite (proj2 (Z.eqb_neq _ _) Hi). rewrite (IH (i + 1)); [f_equal; lia | | | lia].
    + by replace (i + 1 + Z.of_nat k) with (i + Z.of_nat (S k)) by lia.
    + intros j Hj. replace (i + 1 + Z.of_nat j) with (i + Z.of_nat (S j)) by lia. apply Hne. lia.
Qed.

Lemma is_bytes_cstr_view p n : (forall i, 0 <= p i < 2 ^ 8) -> is_bytes (cstr p n).
Proof.
  intros H. unfold cstr. generalize 0. induction (Z.to_nat n) as [|k IH]; intros i; [constructor|].
  cbn [cstr_from]. case_match; [constructor|]. constructor; [apply H | apply IH].
Qed.

Lemma length_strncpy_bytes p n : length (strncpy_bytes p n) = Z.to_nat n.
Proof.
  unfold strncpy_bytes. rewrite length_app, length_replicate.
  pose proof (length_cstr p n). lia.
Qed.

Lemma is_bytes_strncpy_bytes p n : (forall i, 0 <= p i < 2 ^ 8) -> is_bytes (strncpy_bytes p n).
Proof.
  intros H. unfold strncpy_bytes, is_bytes. rewrite Forall_app. split; [by apply is_bytes_cstr_view|].
  apply Forall_replicate. lia.
Qed.

Lemma cstr_from_no_nul p i k : Forall (fun c => c <> 0) (cstr_from p i k).
Proof.
  revert i; induction k as [|k IH]; intros i; [constructor|].
  cbn [cstr_from]. destruct (Z.eqb_spec (p i) 0); constructor; [done | apply IH].
Qed.

Lemma cstr_no_nul p n : Forall (fun c => c <> 0) (cstr p n).
Proof. apply cstr_from_no_nul. Qed.

(** A string that was written with its NUL is read back. *)
Lemma cstr_write_bytes m s c pad n :
  is_bytes c -> Forall (fun b => b <> 0) c -> Z.of_nat (length c) < n ->
  cstr (mem_view (write_bytes m s (c ++ [0] ++ pad)) s) n = c.
Proof.
  intros Hb Hc Hn. unfold cstr. set (v := mem_view _ _).
  assert (forall j, (j < length c)%nat -> v (Z.of_nat j) = c !!! j) as Hv.
  { intros j Hj. unfold v, mem_view. rewrite load8_write_bytes, decide_True
      by (rewrite !length_app; simpl; lia).
    replace (Z.to_nat (s + Z.of_nat j - s)) with j by lia.
    rewrite lookup_total_app_l by done. apply u8_byte.
    eapply Forall_lookup_total_1 in Hb; done. }
  assert (v (Z.of_nat (length c)) = 0) as H0.
  { unfold v, mem_view. rewrite load8_write_bytes, decide_True by (rewrite !length_app; simpl; lia).
    replace (Z.to_nat _) with (length c + 0)%nat by lia.
    by rewrite lookup_total_app_r, Nat.add_comm, Nat.add_sub by lia. }
  clearbody v. clear Hb. replace (Z.to_nat n) with (length c + S (Z.to_nat n - length c - 1))%nat by lia.
  generalize (Z.to_nat n - length c - 1)%nat as k. intros k.
  assert (forall i, (i <= length c)%nat ->
    cstr_from v (Z.of_nat i) (length c - i + S k) = drop i c) as Hgo.
  { intros i Hi. remember (length c - i)%nat as d eqn:Hd. revert i Hi Hd.
    induction d as [|d IH]; intros i Hi Hd; cbn [cstr_from Nat.add].
    - replace i with (length c) by lia. by rewrite H0, drop_all.
    - destruct (lookup_lt_is_Some_2 c i ltac:(lia)) as [x Hx].
      rewrite Hv, (list_lookup_total_correct _ _ _ Hx) by lia.
      pose proof (Forall_lookup_1 _ _ _ _ Hc Hx). rewrite (proj2 (Z.eqb_neq _ _)) by done.
      rewrite (drop_S _ _ _ Hx). f_equal. replace (Z.of_nat i + 1) with (Z.of_nat (S i)) by lia.
      apply IH; lia. }
  specialize (Hgo O ltac:(lia)). by rewrite Nat.sub_0_r, drop_0 in Hgo.
Qed.

(** ** Properties *)

(** The difference of the first characters at which two strings differ; the end
    of a string counts as character 0. *)
Fixpoint lex_diff (a b : list Z) : Z :=
  match a, b with
  | [], [] => 0
  | [], y :: _ => - y
  | x :: _, [] => x
  | x :: a', y :: b' => if x =? y then lex_diff a' b' else x - y
  end.

Lemma strncmp_from_lex p q i k :
  strncmp_from p q i k = lex_diff (cstr_from p i k) (cstr_from q i k).
Proof.
  revert i; induction k as [|k IH]; intros i; [done|]. cbn [strncmp_from cstr_from].
  destruct (Z.eqb_spec (p i) 0) as [Hp|Hp], (Z.eqb_spec (q i) 0) as [Hq|Hq]; simpl; try lia.
  - rewrite (proj2 (Z.eqb_neq _ _)) by lia. lia.
  - case_match; [apply IH | done].
Qed.

(** [memmove] copies the source bytes as they were before the call, whether
    or not the two areas overlap, and changes nothing else; [memcpy] is the same
    for a length that fits its [uint] parameter. *)
Theorem memmove_overlap (m : mem) (dst src n : Z) :
  0 <= n ->
  read_bytes (memmove m dst src n) dst (Z.to_nat n) = read_bytes m src (Z.to_nat n)
  /\ (forall a, ~ (dst <= a < dst + n) -> load8 (memmove m dst src n) a = load8 m a)
  /\ (n < 2 ^ 32 -> memcpy m dst src n = memmove m dst src n).
Proof.
  intros Hn. split_and!.
  - apply read_bytes_ext. intros i Hi. rewrite load8_memmove, decide_True by lia. f_equal. lia.
  - intros a Ha. by rewrite load8_memmove, decide_False.
  - intros Hlt. unfold memcpy. by rewrite u32_small.
Qed.

Lemma memmove_overlap_witness :
  let m := write_bytes ∅ 100 [1; 2; 3; 4; 5] in
  read_bytes (memmove m 102 100 5) 102 5 = [1; 2; 3; 4; 5].
Proof.
  intros m. destruct (memmove_overlap m 102 100 5 ltac:(lia)) as [H _].
  transitivity (read_bytes m 100 5); [exact H | vm_compute; reflexivity].
Defined.

(** [strncmp] compares the strings at its arguments up to [n] characters in
    lexicographic order; in particular it returns 0 exactly when the two
    strings, cut at [n] characters, are equal. *)
Theorem strncmp_lexicographic (p q : Z -> Z) (n : Z) :
  strncmp p q n = lex_diff (cstr p n) (cstr q n)
  /\ (strncmp p q n = 0 <-> cstr p n = cstr q n).
Proof. split; [apply strncmp_from_lex | apply strncmp_zero]. Qed.

(** on areas that do not overlap, [strncpy] fills exactly the [n] bytes of
    the destination with the source string and NUL padding, and [safestrcpy]
    always leaves a NUL-terminated string: the source cut at [n - 1] characters;
    neither writes outside the [n] bytes. *)
Theorem strncpy_safestrcpy (m : mem) (s t n : Z) :
  0 < n -> disjoint s n t n ->
  read_bytes (strncpy m s t n) s (Z.to_nat n) = strncpy_bytes (mem_view m t) n
  /\ cstr (mem_view (safestrcpy m s t n) s) n = cstr (mem_view m t) (n - 1)
  /\ (forall a, ~ (s <= a < s + n) ->
       load8 (strncpy m s t n) a = load8 m a /\ load8 (safestrcpy m s t n) a = load8 m a).
Proof.
  intros Hn Hd. rewrite strncpy_write by (done || lia).
  destruct (safestrcpy_write m s t n Hn Hd) as (pad & Hw & _ & Hlen). rewrite Hw.
  pose proof (fun i => load8_range m (t + i)) as Hr.
  pose proof (length_strncpy_bytes (mem_view m t) n) as Hl. split_and!.
  - rewrite <- Hl. by apply read_write_bytes, is_bytes_strncpy_bytes.
  - apply cstr_write_bytes; [by apply is_bytes_cstr_view | apply cstr_no_nul | lia].
  - intros a Ha. rewrite !load8_write_bytes_out; [done | | by rewrite Hl, Z2Nat.id by lia].
    rewrite !length_app. simpl. lia.
Qed.

Lemma strncpy_safestrcpy_witness :
  let m := write_bytes ∅ 100 [104; 105; 0; 7; 7] in
  cstr (mem_view (safestrcpy m 200 100 5) 200) 5 = [104; 105].
Proof.
  intros m. destruct (strncpy_safestrcpy m 200 100 5 ltac:(lia) ltac:(right; lia)) as (_ & H & _).
  transitivity (cstr (mem_view m 100) 4); [exact H | vm_compute; reflexivity].
Defined.
