(* ===== verification/Spinlock.v ===== *)
(** * Spinlock: kernel/lib/spinlock.c

    The operations of one hart on its own [cpu_t] and on one lock, as the hart
    runs them with nothing else running in between.  A lock that another hart
    holds makes the test-and-set loop [Spin].  The interleaved execution of
    several harts is in [Mutex]. *)

From S2P Require Import Prelude.

(** ** Data (include/lib/lock.h, include/proc/cpu.h) *)

Record spinlock := mk_spinlock { locked : Z; lk_name : string; lk_cpuid : Z }.

(** The fields of [cpu_t] that the locks use, the hart's id ([tp]) and the
    interrupt-enable bit of its [sstatus]. *)
Record cpu := mk_cpu { hartid : Z; sie : bool; noff : Z; origin : bool }.

(** ** Operations *)

Definition intr_get : M cpu bool := gets sie.
Definition intr_off : M cpu unit :=
  modify (fun c => mk_cpu (hartid c) false (noff c) (origin c)).
Definition intr_on : M cpu unit :=
  modify (fun c => mk_cpu (hartid c) true (noff c) (origin c)).
Definition set_origin (b : bool) : M cpu unit :=
  modify (fun c => mk_cpu (hartid c) (sie c) (noff c) b).
Definition set_noff (n : Z) : M cpu unit :=
  modify (fun c => mk_cpu (hartid c) (sie c) n (origin c)).

Definition push_off : M cpu unit :=
  old ← intr_get;
  intr_off;;
  n ← gets noff;
  when (n =? 0) (set_origin old);;
  n ← gets noff;
  set_noff (n + 1).

Definition pop_off : M cpu unit :=
  on ← intr_get;
  when on (panic "pop_off - interruptible");;
  n ← gets noff;
  when (n <? 1) (panic "pop_off");;
  set_noff (n - 1);;
  n ← gets noff;
  o ← gets origin;
  when ((n =? 0) && o) intr_on.

(** The state of the lock operations: the hart and the lock at [lk]. *)
Abbreviation lstate := (cpu * spinlock)%type (only parsing).

Definition on_cpu {A} (m : M cpu A) : M lstate A := fun '(c, l) =>
  match m c with
  | Ret a c' => Ret a (c', l)
  | Panic msg c' => Panic msg (c', l)
  | Spin => Spin
  | Fault => Fault
  | NoFuel => NoFuel
  end.

Definition spinlock_holding : M lstate bool :=
  gets (fun '(c, l) => negb (locked l =? 0) && (lk_cpuid l =? hartid c)).

Definition spinlock_init (name : string) : M lstate unit :=
  modify (fun '(c, _) => (c, mk_spinlock 0 name 0)).

(** [while (__sync_lock_test_and_set(&lk->locked, 1) != 0);] *)
Definition test_and_set_loop : M lstate unit :=
  old ← gets (fun '(_, l) => locked l);
  modify (fun '(c, l) => (c, mk_spinlock 1 (lk_name l) (lk_cpuid l)));;
  if old =? 0 then mret tt else spin.

Definition spinlock_acquire : M lstate unit :=
  on_cpu push_off;;
  h ← spinlock_holding;
  when h (panic "acquire");;
  test_and_set_loop;;
  modify (fun '(c, l) => (c, mk_spinlock (locked l) (lk_name l) (hartid c))).

Definition spinlock_release : M lstate unit :=
  h ← spinlock_holding;
  when (negb h) (panic "release");;
  modify (fun '(c, l) => (c, mk_spinlock (locked l) (lk_name l) (-1)));;
  modify (fun '(c, l) => (c, mk_spinlock 0 (lk_name l) (lk_cpuid l)));;
  on_cpu pop_off.

(** ** What they do *)

(** While interrupts are pushed off they are disabled, and the depth is a count. *)
Definition cpu_wf (c : cpu) : Prop := 0 <= noff c /\ (0 < noff c -> sie c = false).

Definition cpu_push (c : cpu) : cpu :=
  mk_cpu (hartid c) false (noff c + 1) (if noff c =? 0 then sie c else origin c).

Definition cpu_pop (c : cpu) : cpu :=
  mk_cpu (hartid c) ((noff c - 1 =? 0) && origin c || sie c) (noff c - 1) (origin c).

(** A balanced pair leaves a trace in [origin] only. *)
Definition cpu_touch (c : cpu) : cpu :=
  mk_cpu (hartid c) (sie c) (noff c) (if noff c =? 0 then sie c else origin c).

Definition held_by (h : Z) (l : spinlock) : Prop := locked l <> 0 /\ lk_cpuid l = h.
Definition is_free (l : spinlock) : Prop := locked l = 0.

Definition take_lock (h : Z) (l : spinlock) : spinlock := mk_spinlock 1 (lk_name l) h.
Definition drop_lock (l : spinlock) : spinlock := mk_spinlock 0 (lk_name l) (-1).

Lemma push_off_eq c : push_off c = Ret tt (cpu_push c).
Proof.
  destruct c as [h e n o]. unfold push_off, cpu_push, when, mbind, M_bind. simpl.
  by destruct (n =? 0).
Qed.

Lemma pop_off_eq c : cpu_wf c -> 0 < noff c -> pop_off c = Ret tt (cpu_pop c).
Proof.
  intros [_ He] Hn. specialize (He Hn). destruct c as [h e n o]; simpl in *; subst e.
  unfold pop_off, cpu_pop, when, mbind, M_bind. simpl.
  rewrite (proj2 (Z.ltb_ge n 1)) by lia. simpl. by destruct (n - 1 =? 0), o.
Qed.

Lemma cpu_push_wf c : cpu_wf c -> cpu_wf (cpu_push c).
Proof. unfold cpu_wf, cpu_push. simpl. split; [lia | done]. Qed.

Lemma cpu_pop_wf c : cpu_wf c -> 0 < noff c -> cpu_wf (cpu_pop c).
Proof.
  intros [H0 He] Hn. split; simpl; [lia|]. intros Hn'. rewrite (He Hn).
  by rewrite (proj2 (Z.eqb_neq _ _)) by lia.
Qed.

Lemma cpu_touch_wf c : cpu_wf c -> cpu_wf (cpu_touch c).
Proof. done. Qed.

Lemma cpu_touch_idemp c : cpu_touch (cpu_touch c) = cpu_touch c.
Proof. destruct c as [h e n o]. unfold cpu_touch; simpl. by destruct (n =? 0). Qed.

Lemma cpu_touch_push c : cpu_touch (cpu_push c) = cpu_push c \/ noff c < 0.
Proof.
  destruct (decide (noff c < 0)); [by right | left].
  unfold cpu_touch, cpu_push. simpl. by rewrite (proj2 (Z.eqb_neq _ _)) by lia.
Qed.

Lemma cpu_pop_push c : cpu_wf c -> cpu_pop (cpu_push c) = cpu_touch c.
Proof.
  intros [H0 He]. destruct c as [h e n o]; unfold cpu_pop, cpu_push, cpu_touch; simpl in *.
  replace (n + 1 - 1) with n by lia.
  destruct (Z.eqb_spec n 0) as [->|Hn]; simpl; [by rewrite orb_false_r|].
  by rewrite He by lia.
Qed.

(** Pushes commute with the trace of a balanced pair. *)
Lemma cpu_push_touch c : cpu_push (cpu_touch c) = cpu_push c.
Proof. destruct c as [h e n o]; unfold cpu_push, cpu_touch; simpl. by destruct (n =? 0). Qed.

Lemma spinlock_acquire_free c l :
  is_free l -> spinlock_acquire (c, l) = Ret tt (cpu_push c, take_lock (hartid c) l).
Proof.
  intros Hf. unfold spinlock_acquire, mbind, M_bind, on_cpu. rewrite push_off_eq.
  unfold is_free in Hf. cbn -[cpu_push]. rewrite Hf. simpl.
  unfold test_and_set_loop, mbind, M_bind. simpl. by rewrite Hf.
Qed.

Lemma spinlock_acquire_held c l :
  held_by (hartid c) l -> spinlock_acquire (c, l) = Panic "acquire" (cpu_push c, l).
Proof.
  intros [Hl Hc]. unfold spinlock_acquire, mbind, M_bind, on_cpu. rewrite push_off_eq.
  cbn -[cpu_push]. rewrite Hc. rewrite (proj2 (Z.eqb_neq _ _) Hl). simpl. by rewrite Z.eqb_refl.
Qed.

Lemma spinlock_acquire_other c l :
  locked l <> 0 -> lk_cpuid l <> hartid c -> spinlock_acquire (c, l) = Spin.
Proof.
  intros Hl Hc. unfold spinlock_acquire, mbind, M_bind, on_cpu. rewrite push_off_eq.
  cbn -[cpu_push]. rewrite (proj2 (Z.eqb_neq _ _) Hl). simpl.
  rewrite (proj2 (Z.eqb_neq _ _) Hc). simpl.
  unfold test_and_set_loop, mbind, M_bind. simpl. by rewrite (proj2 (Z.eqb_neq _ _) Hl).
Qed.

Lemma spinlock_release_held c l :
  cpu_wf c -> 0 < noff c -> held_by (hartid c) l ->
  spinlock_release (c, l) = Ret tt (cpu_pop c, drop_lock l).
Proof.
  intros Hwf Hn [Hl Hc]. unfold spinlock_release, mbind, M_bind, on_cpu.
  cbn -[pop_off cpu_pop]. rewrite (proj2 (Z.eqb_neq _ _) Hl), Hc, Z.eqb_refl.
  cbn -[pop_off cpu_pop]. by rewrite pop_off_eq.
Qed.

Lemma spinlock_release_not_held c l :
  ~ held_by (hartid c) l -> spinlock_release (c, l) = Panic "release" (c, l).
Proof.
  intros Hn. unfold spinlock_release, mbind, M_bind. cbn -[pop_off].
  destruct (Z.eqb_spec (locked l) 0); [done|]. destruct (Z.eqb_spec (lk_cpuid l) (hartid c)); [|done].
  by destruct Hn.
Qed.

#[export] Instance is_free_dec l : Decision (is_free l) := decide (locked l = 0).
#[export] Instance held_by_dec h l : Decision (held_by h l).
Proof. unfold held_by. apply _. Defined.

Lemma take_lock_held h l : held_by h (take_lock h l).
Proof. by split. Qed.

Lemma drop_lock_free l : is_free (drop_lock l).
Proof. done. Qed.

Create HintDb locks.
#[export] Hint Resolve take_lock_held drop_lock_free cpu_push_wf cpu_pop_wf cpu_touch_wf : locks.

(** ** Properties *)

Inductive nest_call := CallPush | CallPop.

Definition run_nest (l : list nest_call) : M cpu unit :=
  for_each l (fun c => match c with CallPush => push_off | CallPop => pop_off end).

(** The depth after the calls, when no prefix pops more than it pushed. *)
Fixpoint nest_depth (d : Z) (l : list nest_call) : option Z :=
  match l with
  | [] => Some d
  | CallPush :: l' => nest_depth (d + 1) l'
  | CallPop :: l' => if d <? 1 then None else nest_depth (d - 1) l'
  end.

Lemma run_nest_inv l c b d :
  cpu_wf c -> (if noff c =? 0 then sie c = b else origin c = b) ->
  nest_depth (noff c) l = Some d ->
  exists c', run_nest l c = Ret tt c' /\ cpu_wf c' /\ noff c' = d /\ hartid c' = hartid c /\
    (if noff c' =? 0 then sie c' = b else origin c' = b).
Proof.
  revert c; induction l as [|[|] l IH]; intros c Hwf Hb Hd; cbn [nest_depth] in Hd.
  - injection Hd as <-. by exists c.
  - destruct (IH (cpu_push c)) as (c' & ? & ? & ? & ? & ?); [auto with locks | | done | ].
    { unfold cpu_push; simpl. rewrite (proj2 (Z.eqb_neq _ _)) by (destruct Hwf; lia).
      by destruct (noff c =? 0). }
    exists c'. split_and!; [|done..]. unfold run_nest. cbn [for_each].
    by erewrite bind_ret_eq by apply push_off_eq.
  - destruct (Z.ltb_spec (noff c) 1) as [|Hn]; [done|]. rewrite (proj2 (Z.eqb_neq (noff c) 0)) in Hb by lia.
    destruct (IH (cpu_pop c)) as (c' & ? & ? & ? & ? & ?); [apply cpu_pop_wf; [done | lia] | | done |].
    { destruct Hwf as [H0 He]. unfold cpu_pop; simpl. rewrite He by lia. subst b.
      destruct (noff c - 1 =? 0); simpl; [by rewrite orb_false_r | done]. }
    exists c'. split_and!; [|done..]. unfold run_nest. cbn [for_each].
    by erewrite bind_ret_eq by (apply pop_off_eq; [done | lia]).
Qed.

(** calls of [push_off] and [pop_off] nest: after any sequence of calls in
    which no prefix pops more than it pushed, interrupts are disabled while the
    depth is positive and have their initial setting when it is 0 again, and
    [noff] is the depth; one more [pop_off] at depth 0 panics. *)
Theorem push_pop_nest (l : list nest_call) (c : cpu) (d : Z) :
  noff c = 0 -> nest_depth 0 l = Some d ->
  exists c', run_nest l c = Ret tt c' /\ noff c' = d
    /\ sie c' = (if d =? 0 then sie c else false)
    /\ (d = 0 -> exists msg, pop_off c' = Panic msg c').
Proof.
  intros H0 Hd.
  destruct (run_nest_inv l c (sie c) d) as (c' & Hr & [Hn He] & Hnd & _ & Hb).
  { split; [lia | lia]. }
  { by rewrite H0. }
  { by rewrite H0. }
  exists c'. rewrite Hnd in *. split_and!; [done..| |].
  - destruct (Z.eqb_spec d 0); [done | apply He; lia].
  - intros ->. destruct c' as [h e n o]; simpl in *. subst n. unfold pop_off, mbind, M_bind, when.
    simpl. destruct e; eexists; reflexivity.
Qed.

Lemma push_pop_nest_witness :
  exists c', run_nest [CallPush; CallPush; CallPop; CallPop] (mk_cpu 0 true 0 false) = Ret tt c'
    /\ sie c' = true.
Proof.
  destruct (push_pop_nest [CallPush; CallPush; CallPop; CallPop] (mk_cpu 0 true 0 false) 0
              eq_refl eq_refl) as (c' & H & _ & Hs & _).
  exists c'. split; [exact H | exact Hs].
Defined.

(** the protocol of one lock, on every branch: taking a free lock disables
    interrupts and records the hart; releasing it frees the lock and restores
    the interrupt state; taking it twice, or releasing a lock the hart does not
    hold, panics; a lock held by another hart is waited for. *)
Theorem spinlock_protocol (c : cpu) (l : spinlock) :
  cpu_wf c ->
  (is_free l ->
    spinlock_acquire (c, l) = Ret tt (cpu_push c, take_lock (hartid c) l)
    /\ spinlock_release (cpu_push c, take_lock (hartid c) l) = Ret tt (cpu_touch c, drop_lock l)
    /\ spinlock_acquire (cpu_push c, take_lock (hartid c) l)
       = Panic "acquire" (cpu_push (cpu_push c), take_lock (hartid c) l))
  /\ (~ held_by (hartid c) l -> spinlock_release (c, l) = Panic "release" (c, l))
  /\ (locked l <> 0 -> lk_cpuid l <> hartid c -> spinlock_acquire (c, l) = Spin).
Proof.
  intros Hwf. split_and!.
  - intros Hf. split_and!.
    + by apply spinlock_acquire_free.
    + rewrite spinlock_release_held; [by rewrite cpu_pop_push | auto with locks | | apply take_lock_held].
      destruct Hwf; simpl; lia.
    + by apply spinlock_acquire_held, take_lock_held.
  - apply spinlock_release_not_held.
  - apply spinlock_acquire_other.
Qed.

Lemma spinlock_protocol_witness :
  cpu_wf (mk_cpu 1 true 0 false) /\
  spinlock_release (cpu_push (mk_cpu 1 true 0 false), take_lock 1 (mk_spinlock 0 "pid" 0))
  = Ret tt (cpu_touch (mk_cpu 1 true 0 false), mk_spinlock 0 "pid" (-1)).
Proof.
  split; [split; simpl; (lia || done)|].
  apply (proj1 (spinlock_protocol (mk_cpu 1 true 0 false) (mk_spinlock 0 "pid" 0)
                  ltac:(split; simpl; (lia || done))) eq_refl).
Defined.
