(* ===== verification/Console.v ===== *)
(** * Console: kernel/dev/uart.c and kernel/lib/print.c

    The UART itself is a device: its registers are reached through the class
    [Uart].  A C string is the list of its bytes before the NUL. *)

From Stdlib Require Import Ascii.
From S2P Require Import Prelude Spinlock.

(** ** The device (kernel/dev/uart.c) *)

(** Reads and writes of the registers of the 16550a. *)
Class Uart (U : Type) : Type := {
  reg_read : Z -> U -> Z * U;
  reg_write : Z -> Z -> U -> U
}.

Definition RHR : Z := 0.
Definition THR : Z := 0.
Definition IER : Z := 1.
Definition IER_TX_ENABLE : Z := Z.shiftl 1 0.
Definition IER_RX_ENABLE : Z := Z.shiftl 1 1.
Definition FCR : Z := 2.
Definition FCR_FIFO_ENABLE : Z := Z.shiftl 1 0.
Definition FCR_FIFO_CLEAR : Z := Z.shiftl 3 1.
Definition LCR : Z := 3.
Definition LCR_EIGHT_BITS : Z := Z.shiftl 3 0.
Definition LCR_BAUD_LATCH : Z := Z.shiftl 1 7.
Definition LSR : Z := 5.
Definition LSR_TX_IDLE : Z := Z.shiftl 1 5.

(** The globals of print.c, with the device and the hart that runs. *)
Record console {U : Type} := mk_console {
  c_cpu : cpu;
  c_uart : U;
  print_lk : spinlock;
  panicked : Z
}.
Arguments console U : clear implicits.
Arguments mk_console {U}.

Definition set_c_cpu {U} (v : cpu) (s : console U) : console U := mk_console v (c_uart s) (print_lk s) (panicked s).
Definition set_c_uart {U} (v : U) (s : console U) : console U := mk_console (c_cpu s) v (print_lk s) (panicked s).
Definition set_print_lk {U} (v : spinlock) (s : console U) : console U := mk_console (c_cpu s) (c_uart s) v (panicked s).
Definition set_panicked {U} (v : Z) (s : console U) : console U := mk_console (c_cpu s) (c_uart s) (print_lk s) v.

(** The arguments behind the format, each in a slot of 64 bits: a number, or the
    string at the pointer (None is the null pointer). *)
Inductive varg := va_word (v : Z) | va_ptr (s : option (list Z)).

Definition ch (c : ascii) : Z := Z.of_N (N_of_ascii c).
Arguments ch c%_char.
Definition cstr (s : string) : list Z := ch <$> String.list_ascii_of_string s.

Section Ops.
Context {U : Type} `{!Uart U}.

Definition c_hart {A} (m : M cpu A) : M (console U) A := fun s =>
  match m (c_cpu s) with
  | Ret a c => Ret a (set_c_cpu c s)
  | Panic msg c => Panic msg (set_c_cpu c s)
  | Spin => Spin
  | Fault => Fault
  | NoFuel => NoFuel
  end.

Definition c_lock {A} (m : M (cpu * spinlock) A) : M (console U) A := fun s =>
  match m (c_cpu s, print_lk s) with
  | Ret a (c, l) => Ret a (set_print_lk l (set_c_cpu c s))
  | Panic msg (c, l) => Panic msg (set_print_lk l (set_c_cpu c s))
  | Spin => Spin
  | Fault => Fault
  | NoFuel => NoFuel
  end.

Definition ReadReg (reg : Z) : M (console U) Z :=
  r ← gets (fun s => reg_read reg (c_uart s));
  modify (set_c_uart r.2);;
  mret r.1.
Definition WriteReg (reg v : Z) : M (console U) unit :=
  modify (fun s => set_c_uart (reg_write reg (u8 v) (c_uart s)) s).

Definition uart_init : M (console U) unit :=
  WriteReg IER 0x00;;
  WriteReg LCR LCR_BAUD_LATCH;;
  WriteReg 0 0x03;;
  WriteReg 1 0x00;;
  WriteReg LCR LCR_EIGHT_BITS;;
  WriteReg FCR (Z.lor FCR_FIFO_ENABLE FCR_FIFO_CLEAR);;
  WriteReg IER (Z.lor IER_TX_ENABLE IER_RX_ENABLE).

(** [polls] bounds the number of times the loop finds the transmitter busy. *)
Fixpoint tx_wait (polls : nat) : M (console U) unit :=
  v ← ReadReg LSR;
  if Z.land v LSR_TX_IDLE =? 0 then
    match polls with O => no_fuel | S polls' => tx_wait polls' end
  else mret tt.

Variable polls : nat.

Definition uart_putc_sync (c : Z) : M (console U) unit :=
  c_hart push_off;;
  tx_wait polls;;
  WriteReg THR c;;
  c_hart pop_off.

(** The result is an [int]. *)
Definition uart_getc_sync : M (console U) Z :=
  v ← ReadReg LSR;
  if negb (Z.land v 0x01 =? 0) then ReadReg RHR else mret (-1).

(** [fuel] bounds the number of characters that wait. *)
Fixpoint uart_intr (fuel : nat) : M (console U) unit :=
  c ← uart_getc_sync;
  if c =? -1 then mret tt else
  uart_putc_sync c;;
  match fuel with O => no_fuel | S fuel' => uart_intr fuel' end.

(** ** Formatted output (kernel/lib/print.c) *)

Definition BACKSPACE : Z := 0x100.
Definition digits : list Z := cstr "0123456789abcdef".

Definition consputc (c : Z) : M (console U) unit :=
  if c =? BACKSPACE then uart_putc_sync 8;; uart_putc_sync (ch " ");; uart_putc_sync 8
  else uart_putc_sync c.

Definition print_init : M (console U) unit := c_lock (spinlock_init "printf").

(** [x] is shifted left four bits per digit. *)
Fixpoint printptr_loop (n : nat) (x : Z) : M (console U) unit :=
  match n with
  | O => mret tt
  | S n' =>
      d ← some_or_fault (digits !! Z.to_nat (Z.shiftr x (8 * 8 - 4)));
      consputc d;;
      printptr_loop n' (u64 (Z.shiftl x 4))
  end.

Definition printptr (x : Z) : M (console U) unit :=
  consputc (ch "0");;
  consputc (ch "x");;
  printptr_loop (Z.to_nat (8 * 2)) x.

(** [buf\[i\] = c] in an array: a write behind its end is a fault. *)
Definition put_at (buf : list Z) (i : nat) (c : Z) : M (console U) (list Z) :=
  if (i <? length buf)%nat then mret (<[i := c]> buf) else fault.

Fixpoint printint_loop (fuel : nat) (buf : list Z) (i : nat) (x base : Z) : M (console U) (list Z * nat) :=
  d ← some_or_fault (digits !! Z.to_nat (x mod base));
  buf ← put_at buf i d;
  let x := x / base in
  if x =? 0 then mret (buf, S i) else
  match fuel with O => no_fuel | S fuel' => printint_loop fuel' buf (S i) x base end.

(** [while(--i >= 0) consputc(buf\[i\]);] *)
Fixpoint print_back (buf : list Z) (i : nat) : M (console U) unit :=
  match i with
  | O => mret tt
  | S i' => c ← some_or_fault (buf !! i'); consputc c;; print_back buf i'
  end.

(** [xx] is a [long long]; [buf] has 20 bytes, so 20 steps are enough. *)
Definition printint (xx base : Z) (sign : bool) : M (console U) unit :=
  let sign := sign && (xx <? 0) in
  let x := if sign then u64 (- xx) else u64 xx in
  '(buf, i) ← printint_loop 20 (replicate 20 0) 0 x base;
  '(buf, i) ← (if sign then b ← put_at buf i (ch "-"); mret (b, S i) else mret (buf, i));
  print_back buf i.

(** [va_arg]: the next slot, read as a type of 64 bits. *)
Definition va_next (args : list varg) : M (console U) (varg * list varg) :=
  match args with
  | [] => fault
  | a :: args' => mret (a, args')
  end.
Definition va_num (a : varg) : M (console U) Z :=
  match a with va_word v => mret v | va_ptr _ => fault end.
Definition va_str (a : varg) : M (console U) (option (list Z)) :=
  match a with va_ptr s => mret s | va_word v => if v =? 0 then mret None else fault end.

Definition s64 (v : Z) : Z := let w := u64 v in if w <? 2 ^ 63 then w else w - 2 ^ 64.

(** The conversion at the head of the format behind '%': what it prints, and how
    many characters behind the first it takes. *)
Inductive conv := C_int (arg : Z -> Z) (base : Z) (sign : bool) | C_ptr | C_char | C_str | C_percent | C_end | C_unknown.

Definition conversion (c0 c1 c2 : Z) : conv * nat :=
  if c0 =? ch "d" then (C_int s32 10 true, 0%nat)
  else if (c0 =? ch "l") && (c1 =? ch "d") then (C_int s64 10 true, 1%nat)
  else if (c0 =? ch "l") && (c1 =? ch "l") && (c2 =? ch "d") then (C_int s64 10 true, 2%nat)
  else if c0 =? ch "u" then (C_int u32 10 false, 0%nat)
  else if (c0 =? ch "l") && (c1 =? ch "u") then (C_int s64 10 false, 1%nat)
  else if (c0 =? ch "l") && (c1 =? ch "l") && (c2 =? ch "u") then (C_int s64 10 false, 2%nat)
  else if c0 =? ch "x" then (C_int u32 16 false, 0%nat)
  else if (c0 =? ch "l") && (c1 =? ch "x") then (C_int s64 16 false, 1%nat)
  else if (c0 =? ch "l") && (c1 =? ch "l") && (c2 =? ch "x") then (C_int s64 16 false, 2%nat)
  else if c0 =? ch "p" then (C_ptr, 0%nat)
  else if c0 =? ch "c" then (C_char, 0%nat)
  else if c0 =? ch "s" then (C_str, 0%nat)
  else if c0 =? ch "%" then (C_percent, 0%nat)
  else if c0 =? 0 then (C_end, 0%nat)
  else (C_unknown, 0%nat).

(** What one conversion does with the arguments; [c0] is its first character. *)
Definition print_conv (k : conv) (c0 : Z) (args : list varg) : M (console U) (list varg) :=
  match k with
  | C_int arg base sign =>
      '(a, args) ← va_next args; v ← va_num a;
      printint (arg v) base sign;; mret args
  | C_ptr => '(a, args) ← va_next args; v ← va_num a; printptr (u64 v);; mret args
  | C_char => '(a, args) ← va_next args; v ← va_num a; consputc (s32 v);; mret args
  | C_str =>
      '(a, args) ← va_next args; s ← va_str a;
      for_each (default (cstr "(null)") s) consputc;; mret args
  | C_percent => consputc (ch "%");; mret args
  | C_end => mret args
  | C_unknown => consputc (ch "%");; consputc c0;; mret args
  end.

(** [fmt\[n\] & 0xff], 0 at the end of the string. *)
Definition fmt_at (fmt : list Z) (n : nat) : Z := default 0 (fmt !! n).

(** [fuel] is at least the length of the format. *)
Fixpoint printf_loop (fuel : nat) (fmt : list Z) (args : list varg) : M (console U) unit :=
  match fuel with
  | O => no_fuel
  | S fuel' =>
      let cx := fmt_at fmt 0 in
      if cx =? 0 then mret tt else
      if negb (cx =? ch "%") then consputc cx;; printf_loop fuel' (drop 1 fmt) args else
      let c0 := fmt_at fmt 1 in
      let c1 := if c0 =? 0 then 0 else fmt_at fmt 2 in
      let c2 := if c1 =? 0 then 0 else fmt_at fmt 3 in
      let k := conversion c0 c1 c2 in
      args ← print_conv k.1 c0 args;
      match k.1 with
      | C_end => mret tt
      | _ => printf_loop fuel' (drop (2 + k.2) fmt) args
      end
  end.

Definition printf (fmt : list Z) (args : list varg) : M (console U) unit :=
  p ← gets panicked;
  when (p =? 0) (c_lock spinlock_acquire);;
  printf_loop (S (length fmt)) fmt args;;
  p ← gets panicked;
  when (p =? 0) (c_lock spinlock_release).

(** [panic] ends in an endless loop. *)
Definition panic_msg (s : string) : M (console U) unit :=
  uart_putc_sync (ch "f");;
  modify (set_panicked 1);;
  printf (cstr "panic: ") [];;
  printf (cstr "%s" ++ [10]) [va_ptr (Some (cstr s))];;
  modify (set_panicked 1);;
  panic s.

Definition assert (condition : bool) (warning : string) : M (console U) unit :=
  when (negb condition) (panic_msg warning).
End Ops.
