(* ===== verification/ConsoleSpec.v ===== *)
(** * ConsoleSpec: what the console prints *)

From Stdlib Require Import Ascii.
From S2P Require Import Prelude Spinlock Console.

(** ** The digits of a number *)

(** Least significant digit first. *)
Fixpoint lsd (fuel : nat) (x base : Z) : list Z :=
  x mod base :: (if x / base =? 0 then [] else match fuel with O => [] | S fuel' => lsd fuel' (x / base) base end).

Definition lsd_value (base : Z) (l : list Z) : Z := foldr (fun d a => d + base * a) 0 l.

Lemma lsd_pos fuel x base : lsd fuel x base <> [].
Proof. by destruct fuel. Qed.

Lemma lsd_range fuel x base : 1 < base -> Forall (fun d => 0 <= d < base) (lsd fuel x base).
Proof.
  intros Hb. revert x. induction fuel as [|fuel IH]; intros x; cbn [lsd]; constructor; try (apply Z.mod_pos_bound; lia);
    destruct (x / base =? 0); by try constructor.
Qed.

Lemma lsd_spec k fuel x base : 1 < base -> 0 <= x < base ^ Z.of_nat (S k) -> (k <= fuel)%nat ->
  lsd_value base (lsd fuel x base) = x /\ (length (lsd fuel x base) <= S k)%nat /\ (last (lsd fuel x base) = Some 0 -> x = 0).
Proof.
  intros Hb. revert fuel x. induction k as [|k IH]; intros fuel x Hx Hf.
  - rewrite Z.pow_1_r in Hx. destruct fuel; cbn [lsd]; rewrite Z.div_small, Z.mod_small by lia; simpl; split_and!; try lia; congruence.
  - destruct (decide (x < base)) as [Hlt|Hge].
    { destruct fuel as [|fuel]; [lia|]. cbn [lsd]. rewrite Z.div_small, Z.mod_small by lia. simpl. split_and!; [lia | lia | congruence]. }
    destruct fuel as [|fuel]; [lia|]. cbn [lsd]. assert (1 <= x / base) as Hq by (apply Z.div_le_lower_bound; lia).
    rewrite (proj2 (Z.eqb_neq (x / base) 0)) by lia.
    assert (0 <= x / base < base ^ Z.of_nat (S k)) as Hr.
    { rewrite (Nat2Z.inj_succ (S k)), Z.pow_succ_r in Hx by lia. split; [lia|]. apply Z.div_lt_upper_bound; lia. }
    destruct (IH fuel (x / base) Hr) as (Hv & Hl & Hlast); [lia|]. split_and!.
    + cbn [lsd_value foldr]. unfold lsd_value in Hv. rewrite Hv. pose proof (Z.div_mod x base). lia.
    + cbn [length]. lia.
    + rewrite last_cons. destruct (last (lsd fuel (x / base) base)) as [d|] eqn:Hd; [|by apply last_None in Hd; apply lsd_pos in Hd].
      intros [= ->]. specialize (Hlast eq_refl). lia.
Qed.

(** ** The notation of a number *)

(** The character of a digit, and back. *)
Definition digit (d : Z) : Z := default 0 (digits !! Z.to_nat d).
Definition digit_value (c : Z) : Z := if c <=? ch "9" then c - ch "0" else c - ch "a" + 10.

Definition parse_digits (base : Z) (l : list Z) : Z := foldl (fun a c => a * base + digit_value c) 0 l.

(** [l] is the number [z] in the given base: digits, no leading zeros, '-' for a
    negative number. *)
Definition numeral (base z : Z) (l : list Z) : Prop :=
  exists ds, l = (if z <? 0 then [ch "-"] else []) ++ ds /\ parse_digits base ds = Z.abs z /\ ds <> [] /\
    Forall (fun c => c ∈ take (Z.to_nat base) digits) ds /\ (head ds = Some (ch "0") -> ds = [ch "0"]).

Lemma digit_lookup d : 0 <= d < 16 -> digits !! Z.to_nat d = Some (digit d).
Proof.
  intros Hd. unfold digit. destruct (lookup_lt_is_Some_2 digits (Z.to_nat d)) as [c Hc]; [change (length digits) with 16%nat; lia|]. by rewrite Hc.
Qed.

Lemma digit_value_digit d : 0 <= d < 16 -> digit_value (digit d) = d.
Proof.
  intros Hd. assert (Forall (fun d => digit_value (digit d) = d) (seqZ 0 16)) as H by (apply (bool_decide_unpack _); by vm_compute).
  apply (Forall_elem _ _ d) in H; [done | apply elem_of_seqZ; lia].
Qed.

Lemma digit_not_zero d : 0 <= d < 16 -> digit d = ch "0" -> d = 0.
Proof. intros Hd He. apply (f_equal digit_value) in He. rewrite digit_value_digit in He by done. exact He. Qed.

Lemma parse_rev base l : Forall (fun d => 0 <= d < 16) l -> parse_digits base (rev (digit <$> l)) = lsd_value base l.
Proof.
  intros Hl. unfold parse_digits. induction Hl as [|d l Hd _ IH]; [done|].
  cbn [fmap list_fmap rev]. rewrite foldl_app, IH. cbn [foldl lsd_value foldr]. rewrite digit_value_digit by done. unfold lsd_value. lia.
Qed.

(** ** The device *)

Section Spec.
Context {U : Type} `{!Uart U}.
Implicit Types (s : console U) (u : U).

(** [n] reads of the line status find the transmitter busy, the next one idle. *)
Inductive waits : nat -> U -> U -> Prop :=
  | waits_idle u v u' : reg_read LSR u = (v, u') -> Z.land v LSR_TX_IDLE <> 0 -> waits 0 u u'
  | waits_busy n u v u1 u2 : reg_read LSR u = (v, u1) -> Z.land v LSR_TX_IDLE = 0 -> waits n u1 u2 -> waits (S n) u u2.

(** The documented behaviour of the 16550a: the transmitter becomes idle, and what
    is then written to THR is sent. *)
Record uart_ok (polls : nat) (sent : U -> list Z) : Prop := {
  uo_idle : forall u, exists n u', (n <= polls)%nat /\ waits n u u' /\ sent u' = sent u;
  uo_send : forall n u u' c, waits n u u' -> 0 <= c < 2 ^ 8 -> sent (reg_write THR c u') = sent u' ++ [c]
}.

Context (polls : nat) (sent : U -> list Z) (Hok : uart_ok polls sent).

(** From [s] to [s'] exactly [l] was sent. *)
Record emits s s' (l : list Z) : Prop := {
  em_sent : sent (c_uart s') = sent (c_uart s) ++ l;
  em_cpu : c_cpu s' = cpu_touch (c_cpu s) \/ c_cpu s' = c_cpu s /\ l = [];
  em_rest : print_lk s' = print_lk s /\ panicked s' = panicked s
}.

Lemma emits_nil s : emits s s [].
Proof. split; [by rewrite app_nil_r | by right | done]. Qed.

Lemma emits_trans s1 s2 s3 l1 l2 : emits s1 s2 l1 -> emits s2 s3 l2 -> emits s1 s3 (l1 ++ l2).
Proof.
  intros [A1 B1 [C1 D1]] [A2 B2 [C2 D2]]. split; [by rewrite A2, A1, app_assoc | | by rewrite C2, D2].
  destruct B1 as [B1|[B1 ->]], B2 as [B2|[B2 ->]]; rewrite ?B2, ?B1, ?cpu_touch_idemp; (by left) || (by right).
Qed.

Lemma emits_wf s s' l : emits s s' l -> cpu_wf (c_cpu s) -> cpu_wf (c_cpu s').
Proof. intros [_ [->|[-> _]] _]; [apply cpu_touch_wf | done]. Qed.

Lemma waits_run n u u' : waits n u u' -> forall k s, (n <= k)%nat -> c_uart s = u -> tx_wait k s = Ret tt (set_c_uart u' s).
Proof.
  induction 1 as [u v u' Hr Hv|n u v u1 u2 Hr Hv _ IH]; intros k s Hk <-.
  - destruct k; cbn [tx_wait]; unfold ReadReg; mrun; rewrite Hr; cbn [fst snd]; by rewrite (proj2 (Z.eqb_neq _ 0)).
  - destruct k as [|k]; [lia|]. cbn [tx_wait]. unfold ReadReg. mrun. rewrite Hr. cbn [fst snd]. rewrite Hv. cbn [Z.eqb].
    rewrite (IH k) by (done || lia). by destruct s.
Qed.

Lemma putc_ok c s : cpu_wf (c_cpu s) -> exists s', uart_putc_sync polls c s = Ret tt s' /\ emits s s' [u8 c].
Proof.
  intros Hc. destruct (uo_idle _ _ Hok (c_uart s)) as (n & u' & Hn & Hw & Hs).
  exists (set_c_uart (reg_write THR (u8 c) u') (set_c_cpu (cpu_touch (c_cpu s)) s)). split.
  - unfold uart_putc_sync. rewrite (bind_ret_eq _ _ _ tt (set_c_cpu (cpu_push (c_cpu s)) s)) by (unfold c_hart; by rewrite push_off_eq).
    rewrite (bind_ret_eq _ _ _ _ _ (waits_run _ _ _ Hw _ (set_c_cpu (cpu_push (c_cpu s)) s) Hn eq_refl)).
    unfold WriteReg, c_hart. mrun. simpl. rewrite pop_off_eq; [| by apply cpu_push_wf | destruct Hc; simpl; lia].
    rewrite cpu_pop_push by done. done.
  - split; [| by left | done]. cbn. rewrite (uo_send _ _ Hok _ _ _ _ Hw (u8_range _)). by rewrite Hs.
Qed.

Lemma consputc_ok c s : cpu_wf (c_cpu s) -> 0 <= c < 2 ^ 8 -> exists s', consputc polls c s = Ret tt s' /\ emits s s' [c].
Proof.
  intros Hc Hr. unfold consputc, BACKSPACE. rewrite (proj2 (Z.eqb_neq c 0x100)) by lia.
  destruct (putc_ok c s Hc) as (s' & H & He). exists s'. split; [done|]. unfold u8 in He. by rewrite Z.mod_small in He.
Qed.

Lemma puts_ok l : forall s, cpu_wf (c_cpu s) -> Forall (fun c => 0 <= c < 2 ^ 8) l ->
  exists s', for_each l (consputc polls) s = Ret tt s' /\ emits s s' l.
Proof.
  induction l as [|c l IH]; intros s Hc Hl; [exists s; split; [done | apply emits_nil]|].
  apply list.Forall_cons in Hl as [Hr Hl]. destruct (consputc_ok c s Hc Hr) as (s1 & H1 & He1).
  destruct (IH s1 (emits_wf _ _ _ He1 Hc) Hl) as (s2 & H2 & He2). exists s2. split; [cbn [for_each]; by rewrite (bind_ret_eq _ _ _ _ _ H1)|].
  exact (emits_trans _ _ _ _ _ He1 He2).
Qed.

(** ** Numbers *)

Lemma inserts_step (buf : list Z) i c l : (i < length buf)%nat -> list_inserts (S i) l (<[i := c]> buf) = list_inserts i (c :: l) buf.
Proof. intros Hi. cbn [list_inserts]. by rewrite list_insert_inserts_lt by lia. Qed.

Lemma printint_loop_eq fuel : forall buf i x base s, 1 < base <= 16 -> 0 <= x ->
  (i + length (lsd fuel x base) <= length buf)%nat -> (lsd_value base (lsd fuel x base) = x) ->
  printint_loop fuel buf i x base s = Ret (list_inserts i (digit <$> lsd fuel x base) buf, (i + length (lsd fuel x base))%nat) s.
Proof.
  induction fuel as [|fuel IH]; intros buf i x base s Hb Hx Hl Hv; pose proof (Z.mod_pos_bound x base ltac:(lia)) as Hm.
  - cbn [printint_loop lsd length] in *. rewrite digit_lookup by lia. mrun. unfold put_at. rewrite (proj2 (Nat.ltb_lt i (length buf))) by lia. mrun.
    cbn [lsd_value foldr] in Hv. destruct (Z.eqb_spec (x / base) 0) as [Hq|Hq].
    + cbn [length fmap list_fmap list_inserts]. by rewrite Nat.add_1_r.
    + pose proof (Z.div_mod x base). simpl in Hv. nia.
  - cbn [printint_loop lsd] in *. rewrite digit_lookup by lia. mrun. unfold put_at. rewrite (proj2 (Nat.ltb_lt i (length buf))) by (simpl in Hl; lia). mrun.
    destruct (Z.eqb_spec (x / base) 0) as [Hq|Hq].
    + cbn [length fmap list_fmap list_inserts]. by rewrite Nat.add_1_r.
    + cbn [length fmap list_fmap lsd_value foldr] in *. rewrite IH; [| done | apply Z.div_pos; lia | rewrite length_insert; lia |].
      * rewrite inserts_step by lia. by rewrite Nat.add_succ_r.
      * pose proof (Z.div_mod x base). unfold lsd_value. nia.
Qed.

Lemma print_back_ok l : forall buf s, cpu_wf (c_cpu s) -> Forall (fun c => 0 <= c < 2 ^ 8) l -> take (length l) buf = l ->
  exists s', print_back polls buf (length l) s = Ret tt s' /\ emits s s' (rev l).
Proof.
  induction l as [|c l IH] using rev_ind; intros buf s Hc Hl Ht; [exists s; split; [done | apply emits_nil]|].
  rewrite length_app, Nat.add_1_r in *. apply Forall_app in Hl as [Hl Hcc]. apply list.Forall_cons in Hcc as [Hcc _].
  assert (buf !! length l = Some c) as Hlk.
  { rewrite <- (lookup_take_lt buf (S (length l))) by lia. rewrite Ht. by rewrite list_lookup_middle. }
  destruct (consputc_ok c s Hc Hcc) as (s1 & H1 & He1).
  destruct (IH buf s1 (emits_wf _ _ _ He1 Hc) Hl) as (s2 & H2 & He2).
  { apply (f_equal (take (length l))) in Ht. rewrite take_take, Nat.min_l, take_app_length in Ht by lia. exact Ht. }
  exists s2. split; [cbn [print_back]; rewrite Hlk; mrun; by rewrite (bind_ret_eq _ _ _ _ _ H1)|].
  rewrite rev_unit. exact (emits_trans _ _ _ _ _ He1 He2).
Qed.

Lemma take_inserts (l buf : list Z) : (length l <= length buf)%nat -> take (length l) (list_inserts 0 l buf) = l.
Proof.
  intros Hl. apply list_eq. intros i. rewrite lookup_take. destruct (decide (i < length l)%nat) as [Hi|Hi].
  - rewrite list_lookup_inserts by lia. by rewrite Nat.sub_0_r.
  - symmetry. apply lookup_ge_None_2. lia.
Qed.

Lemma length_inserts (l buf : list Z) i : length (list_inserts i l buf) = length buf.
Proof. revert i. induction l as [|c l IH]; intros i; cbn [list_inserts]; [done|]. by rewrite length_insert. Qed.

Lemma digit_in base d : 1 < base <= 16 -> 0 <= d < base -> digit d ∈ take (Z.to_nat base) digits.
Proof.
  intros Hb Hd. apply list_elem_of_lookup. exists (Z.to_nat d). rewrite lookup_take_lt by lia. apply digit_lookup. lia.
Qed.

Lemma digit_range d : 0 <= d < 16 -> 0 <= digit d < 2 ^ 8.
Proof.
  intros Hd. assert (Forall (fun d => 0 <= digit d < 2 ^ 8) (seqZ 0 16)) as H by (apply (bool_decide_unpack _); by vm_compute).
  apply (Forall_elem _ _ d) in H; [done | apply elem_of_seqZ; lia].
Qed.

(** The digits of [x], in reading order. *)
Definition digits_of (x base : Z) : list Z := rev (digit <$> lsd 20 x base).

Lemma digits_of_spec k x base : 1 < base <= 16 -> 0 <= x < base ^ Z.of_nat (S k) -> (k <= 20)%nat ->
  parse_digits base (digits_of x base) = x /\ (length (digits_of x base) <= S k)%nat /\ digits_of x base <> [] /\
  Forall (fun c => c ∈ take (Z.to_nat base) digits) (digits_of x base) /\ Forall (fun c => 0 <= c < 2 ^ 8) (digits_of x base) /\
  (head (digits_of x base) = Some (ch "0") -> digits_of x base = [ch "0"]).
Proof.
  intros Hb Hx Hk. destruct (lsd_spec k 20 x base ltac:(lia) Hx Hk) as (Hv & Hl & Hz). pose proof (lsd_range 20 x base ltac:(lia)) as Hr.
  assert (Forall (fun d => 0 <= d < 16) (lsd 20 x base)) as H16 by (eapply Forall_impl; [exact Hr | simpl; lia]).
  unfold digits_of. split_and!.
  - by rewrite parse_rev.
  - by rewrite length_rev, length_fmap.
  - intros He%(f_equal (@length Z)). rewrite length_rev, length_fmap in He. apply length_zero_iff_nil in He. by apply lsd_pos in He.
  - apply Forall_rev, Forall_fmap. eapply Forall_impl; [exact Hr|]. intros d Hd. by apply digit_in.
  - apply Forall_rev, Forall_fmap. eapply Forall_impl; [exact H16|]. intros d Hd. by apply digit_range.
  - intros Hh. destruct (last (lsd 20 x base)) as [d|] eqn:Hd; [|by apply last_None in Hd; apply lsd_pos in Hd].
    apply last_Some in Hd as [l Hd]. rewrite Hd, fmap_app in Hh. cbn [fmap list_fmap] in Hh. rewrite rev_unit in Hh. injection Hh as Hh.
    rewrite Hd in H16. apply Forall_app in H16 as [_ H16]. apply list.Forall_cons in H16 as [Hd16 _].
    apply digit_not_zero in Hh; [|done]. subst d. assert (x = 0) as -> by (by apply Hz).
    cbn [lsd]. by rewrite Z.div_0_l, Z.mod_0_l by lia.
Qed.

Lemma numeral_digits base k z x : 1 < base <= 16 -> x = Z.abs z -> 0 <= x < base ^ Z.of_nat (S k) -> (k <= 20)%nat ->
  numeral base z ((if z <? 0 then [ch "-"] else []) ++ digits_of x base).
Proof.
  intros Hb -> Hx Hk. destruct (digits_of_spec k _ base Hb Hx Hk) as (Hv & _ & Hn & Hin & _ & Hh). by exists (digits_of (Z.abs z) base).
Qed.

(** Room for the digits of a [long long] and its sign. *)
Lemma width base x : base = 10 \/ base = 16 ->
  (0 <= x < 2 ^ 64 -> 0 <= x < base ^ 20) /\ (0 <= x <= 2 ^ 63 -> 0 <= x < base ^ 19).
Proof. intros [-> | ->]; lia. Qed.

(** Without a sign the number is the 64-bit pattern. *)
Definition int_value (xx : Z) (sign : bool) : Z := if sign then xx else u64 xx.
Definition int_text (xx base : Z) (sign : bool) : list Z :=
  let z := int_value xx sign in (if z <? 0 then [ch "-"] else []) ++ digits_of (Z.abs z) base.

Lemma printint_ok xx base sign s : cpu_wf (c_cpu s) -> base = 10 \/ base = 16 -> - 2 ^ 63 <= xx < 2 ^ 63 ->
  exists s', printint polls xx base sign s = Ret tt s' /\ emits s s' (int_text xx base sign).
Proof.
  intros Hc Hb Hx. assert (1 < base <= 16) as Hb' by lia. unfold printint, int_text, int_value.
  destruct (sign && (xx <? 0)) eqn:Hs.
  - apply andb_true_iff in Hs as [-> Hneg]. rewrite Hneg. apply Z.ltb_lt in Hneg.
    rewrite (u64_small (- xx)) by lia. replace (Z.abs xx) with (- xx) by lia.
    destruct (digits_of_spec 18 (- xx) base Hb') as (Hv & Hl & _ & _ & Hr & _); [apply (width base (- xx) Hb); lia | lia |].
    destruct (lsd_spec 19 20 (- xx) base) as (Hv' & _ & _); [lia | apply (width base (- xx) Hb); lia | lia |].
    assert (length (lsd 20 (- xx) base) <= 19)%nat as Hl' by (unfold digits_of in Hl; by rewrite length_rev, length_fmap in Hl).
    rewrite (bind_ret_eq _ _ _ _ _ (printint_loop_eq 20 (replicate 20 0) 0 (- xx) base s Hb' ltac:(lia) ltac:(rewrite length_replicate; lia) Hv')).
    set (ds := digit <$> lsd 20 (- xx) base) in *. unfold put_at. rewrite length_inserts, length_replicate.
    rewrite (proj2 (Nat.ltb_lt _ 20)) by lia. mrun.
    destruct (print_back_ok (ds ++ [ch "-"]) (<[length (lsd 20 (- xx) base) := ch "-"]> (list_inserts 0 ds (replicate 20 0))) s Hc) as (s' & H' & He).
    + apply Forall_app. split; [|by repeat constructor]. apply Forall_rev in Hr. unfold digits_of in Hr. by rewrite rev_involutive in Hr.
    + assert (length ds = length (lsd 20 (- xx) base)) as Hlen by apply length_fmap. rewrite length_app. cbn [length].
      rewrite Nat.add_1_r, (take_S_r _ _ (ch "-")); [| rewrite <- Hlen; apply list_lookup_insert_eq; rewrite length_inserts, length_replicate; lia].
      rewrite take_insert_ge by lia. f_equal. apply take_inserts. rewrite length_replicate. lia.
    + exists s'. rewrite length_app, Nat.add_1_r in H'. unfold ds in H' at 2. rewrite length_fmap in H'. split; [exact H'|].
      rewrite rev_unit in He. exact He.
  - assert ((if sign then xx else u64 xx) = u64 xx /\ (u64 xx <? 0) = false) as [-> ->].
    { pose proof (u64_range xx). split; [|lia]. destruct sign; [|done]. symmetry. apply u64_small. destruct (Z.ltb_spec xx 0); [done | lia]. }
    pose proof (u64_range xx) as Hu. rewrite (Z.abs_eq (u64 xx)) by lia. cbn [app]. set (x := u64 xx) in *.
    destruct (digits_of_spec 19 x base Hb') as (Hv & Hl & _ & _ & Hr & _); [apply (width base x Hb); lia | lia |].
    destruct (lsd_spec 19 20 x base) as (Hv' & _ & _); [lia | apply (width base x Hb); lia | lia |].
    assert (length (lsd 20 x base) <= 20)%nat as Hl' by (unfold digits_of in Hl; by rewrite length_rev, length_fmap in Hl).
    rewrite (bind_ret_eq _ _ _ _ _ (printint_loop_eq 20 (replicate 20 0) 0 x base s Hb' ltac:(lia) ltac:(rewrite length_replicate; lia) Hv')).
    mrun. set (ds := digit <$> lsd 20 x base) in *.
    destruct (print_back_ok ds (list_inserts 0 ds (replicate 20 0)) s Hc) as (s' & H' & He).
    + apply Forall_rev in Hr. unfold digits_of in Hr. by rewrite rev_involutive in Hr.
    + apply take_inserts. unfold ds. rewrite length_fmap, length_replicate. lia.
    + exists s'. unfold ds in H' at 2. rewrite length_fmap in H'. split; [exact H' | exact He].
Qed.

(** ** Pointers *)

Lemma parse_acc base l a : foldl (fun a c => a * base + digit_value c) a l = a * base ^ Z.of_nat (length l) + parse_digits base l.
Proof.
  unfold parse_digits. revert a. induction l as [|c l IH]; intros a; cbn [foldl length].
  - rewrite Z.pow_0_r. lia.
  - rewrite IH, (IH (0 * base + digit_value c)). rewrite Nat2Z.inj_succ, Z.pow_succ_r by lia. ring.
Qed.

Lemma parse_cons base c l : parse_digits base (c :: l) = digit_value c * base ^ Z.of_nat (length l) + parse_digits base l.
Proof. unfold parse_digits at 1. cbn [foldl]. rewrite parse_acc. ring. Qed.

(** [l] is the number [x] with exactly [n] digits. *)
Definition padded (base x : Z) (n : nat) (l : list Z) : Prop :=
  parse_digits base l = x /\ length l = n /\ Forall (fun c => c ∈ take (Z.to_nat base) digits) l.

Lemma printptr_loop_ok n : forall x s, cpu_wf (c_cpu s) -> 0 <= x < 2 ^ 64 -> (n <= 16)%nat ->
  exists s' l, printptr_loop polls n x s = Ret tt s' /\ emits s s' l /\ padded 16 (x / 2 ^ (64 - 4 * Z.of_nat n)) n l.
Proof.
  induction n as [|n IH]; intros x s Hc Hx Hn.
  - exists s, []. split_and!; [done | apply emits_nil |]. split_and!; [| done | constructor]. by rewrite Z.div_small by lia.
  - cbn [printptr_loop]. change (8 * 8 - 4) with 60. rewrite Z.shiftr_div_pow2, Z.shiftl_mul_pow2 by lia. set (d := x / 2 ^ 60).
    assert (0 <= d < 16) as Hd by (unfold d; split; [apply Z.div_pos; lia | apply Z.div_lt_upper_bound; lia]).
    rewrite digit_lookup by done. mrun. destruct (consputc_ok (digit d) s Hc (digit_range d Hd)) as (s1 & H1 & He1).
    destruct (IH (u64 (x * 2 ^ 4)) s1) as (s2 & l & H2 & He2 & Hp & Hl & Hf); [by eapply emits_wf | apply u64_range | lia |].
    exists s2, (digit d :: l). split_and!; [by rewrite (bind_ret_eq _ _ _ _ _ H1) | exact (emits_trans _ _ _ _ _ He1 He2) |].
    split_and!; [| simpl; lia |].
    + rewrite parse_cons, Hp, Hl, digit_value_digit by done. unfold u64. set (e := 60 - 4 * Z.of_nat n).
      replace (64 - 4 * Z.of_nat (S n)) with e by lia. replace (64 - 4 * Z.of_nat n) with (4 + e) by lia.
      assert (x * 2 ^ 4 mod 2 ^ 64 = (x mod 2 ^ 60) * 2 ^ 4) as ->.
      { change (2 ^ 64) with (2 ^ 60 * 2 ^ 4). by rewrite Z.mul_mod_distr_r. }
      rewrite Z.pow_add_r, (Z.mul_comm (2 ^ 4)) by lia. rewrite Z.div_mul_cancel_r by lia.
      assert (16 ^ Z.of_nat n * 2 ^ e = 2 ^ 60) as Hpow.
      { change 16 with (2 ^ 4). rewrite <- Z.pow_mul_r, <- Z.pow_add_r by lia. f_equal. lia. }
      rewrite (Z.div_mod x (2 ^ 60)) at 2 by lia. fold d.
      replace (2 ^ 60 * d + x mod 2 ^ 60) with (x mod 2 ^ 60 + (d * 16 ^ Z.of_nat n) * 2 ^ e) by (rewrite <- Hpow; ring).
      rewrite Z.div_add by lia. lia.
    + constructor; [by apply digit_in | done].
Qed.

Lemma printptr_ok x s : cpu_wf (c_cpu s) -> 0 <= x < 2 ^ 64 ->
  exists s' l, printptr polls x s = Ret tt s' /\ emits s s' (cstr "0x" ++ l) /\ padded 16 x 16 l.
Proof.
  intros Hc Hx. unfold printptr. destruct (consputc_ok (ch "0") s Hc ltac:(done)) as (s1 & H1 & He1).
  destruct (consputc_ok (ch "x") s1 (emits_wf _ _ _ He1 Hc) ltac:(done)) as (s2 & H2 & He2).
  pose proof (emits_trans _ _ _ _ _ He1 He2) as He. destruct (printptr_loop_ok 16 x s2 (emits_wf _ _ _ He Hc) Hx ltac:(lia)) as (s3 & l & H3 & He3 & Hp).
  exists s3, l. split_and!; [| exact (emits_trans _ _ _ _ _ He He3) | by rewrite Z.div_1_r in Hp].
  rewrite (bind_ret_eq _ _ _ _ _ H1), (bind_ret_eq _ _ _ _ _ H2). exact H3.
Qed.

(** ** Formats *)

(** The directives that the comment of [printf] promises. *)
Inductive radix := R_d | R_u | R_x.
Inductive directive :=
  | D_text (c : Z)
  | D_num (longs : nat) (r : radix)
  | D_ptr
  | D_char
  | D_str
  | D_percent.

Definition letter (r : radix) : Z := match r with R_d => ch "d" | R_u => ch "u" | R_x => ch "x" end.
Definition spell (d : directive) : list Z :=
  match d with
  | D_text c => [c]
  | D_num n r => ch "%" :: replicate n (ch "l") ++ [letter r]
  | D_ptr => cstr "%p"
  | D_char => cstr "%c"
  | D_str => cstr "%s"
  | D_percent => cstr "%%"
  end.

(** The number a directive shows for the 64-bit slot [v]. *)
Definition num_value (n : nat) (r : radix) (v : Z) : Z :=
  match r, n with
  | R_d, O => s32 v
  | R_d, _ => s64 v
  | _, O => u32 v
  | _, _ => u64 v
  end.
Definition num_base (r : radix) : Z := match r with R_x => 16 | _ => 10 end.

(** [shows ds args out]: what the directives show for the arguments. *)
Inductive shows : list directive -> list varg -> list Z -> Prop :=
  | shows_end args : shows [] args []
  | shows_text c ds args out : shows ds args out -> shows (D_text c :: ds) args (c :: out)
  | shows_num n r v l ds args out : numeral (num_base r) (num_value n r v) l -> shows ds args out ->
      shows (D_num n r :: ds) (va_word v :: args) (l ++ out)
  | shows_ptr v l ds args out : padded 16 (u64 v) 16 l -> shows ds args out ->
      shows (D_ptr :: ds) (va_word v :: args) (cstr "0x" ++ l ++ out)
  | shows_char v ds args out : shows ds args out -> shows (D_char :: ds) (va_word v :: args) (u8 v :: out)
  | shows_str (s : option (list Z)) ds args out : shows ds args out -> shows (D_str :: ds) (va_ptr s :: args) (default (cstr "(null)") s ++ out)
  | shows_percent ds args out : shows ds args out -> shows (D_percent :: ds) args (ch "%" :: out).

(** The arguments fit the directives; the characters are bytes, not NUL. *)
Fixpoint fits (ds : list directive) (args : list varg) : Prop :=
  match ds, args with
  | [], _ => True
  | D_text c :: ds, _ => 0 < c < 2 ^ 8 /\ c <> ch "%" /\ fits ds args
  | D_num n _ :: ds, va_word _ :: args => (n <= 2)%nat /\ fits ds args
  | D_ptr :: ds, va_word _ :: args => fits ds args
  | D_char :: ds, va_word v :: args => 0 <= v < 2 ^ 8 /\ fits ds args
  | D_str :: ds, va_ptr s :: args => Forall (fun c => 0 < c < 2 ^ 8) (default [] s) /\ fits ds args
  | D_percent :: ds, _ => fits ds args
  | _, _ => False
  end.

Definition spell_all (ds : list directive) : list Z := concat (spell <$> ds).

Lemma spell_cons d ds : spell_all (d :: ds) = spell d ++ spell_all ds.
Proof. done. Qed.

Lemma num_printed n r v s : cpu_wf (c_cpu s) -> (n <= 2)%nat ->
  exists s' l, (match conversion (fmt_at (spell (D_num n r)) 1) (fmt_at (spell (D_num n r)) 2) (fmt_at (spell (D_num n r)) 3) with
    | (C_int arg base sign, k) => k = n /\ printint polls (arg v) base sign s = Ret tt s'
    | _ => False end) /\ emits s s' l /\ numeral (num_base r) (num_value n r v) l.
Proof.
  intros Hc Hn. assert (forall w, - 2 ^ 63 <= s64 w < 2 ^ 63) as H64.
  { intros w. unfold s64. pose proof (u64_range w). cbv zeta. destruct (Z.ltb_spec (u64 w) (2 ^ 63)); lia. }
  assert (forall w, - 2 ^ 31 <= s32 w < 2 ^ 31) as H32.
  { intros w. unfold s32. pose proof (u32_range w). cbv zeta. destruct (Z.ltb_spec (u32 w) (2 ^ 31)); lia. }
  assert (forall w, u64 (s64 w) = u64 w) as Hu.
  { intros w. unfold s64. pose proof (u64_range w). cbv zeta. destruct (Z.ltb_spec (u64 w) (2 ^ 63)); [by apply u64_small|].
    unfold u64 at 1. replace (u64 w - 2 ^ 64) with (u64 w + (-1) * 2 ^ 64) by lia. rewrite Z.mod_add by lia. by apply u64_small. }
  assert (forall base z sign, base = 10 \/ base = 16 -> - 2 ^ 63 <= z < 2 ^ 63 -> exists s' l, printint polls z base sign s = Ret tt s' /\
      emits s s' l /\ numeral base (int_value z sign) l) as Hrun.
  { intros base z sign Hb Hz. destruct (printint_ok z base sign s Hc Hb Hz) as (s' & H & He). exists s', (int_text z base sign). split_and!; [done..|].
    unfold int_text. cbv zeta. apply (numeral_digits base 19); [lia | done | | lia]. apply (width base); [done|].
    unfold int_value. pose proof (u64_range z). destruct sign; lia. }
  assert (n = 0%nat \/ n = 1%nat \/ n = 2%nat) as Hcases by lia. pose proof (u32_range v) as Hu32.
  destruct r, Hcases as [-> | [-> | ->]]; cbn [num_base num_value].
  - destruct (Hrun 10 (s32 v) true) as (s' & l & H1 & H2 & H3); [lia | specialize (H32 v); lia | by exists s', l].
  - destruct (Hrun 10 (s64 v) true) as (s' & l & H1 & H2 & H3); [lia | apply H64 | by exists s', l].
  - destruct (Hrun 10 (s64 v) true) as (s' & l & H1 & H2 & H3); [lia | apply H64 | by exists s', l].
  - destruct (Hrun 10 (u32 v) false) as (s' & l & H1 & H2 & H3); [lia | lia |].
    unfold int_value in H3. rewrite u64_small in H3 by lia. by exists s', l.
  - destruct (Hrun 10 (s64 v) false) as (s' & l & H1 & H2 & H3); [lia | apply H64 |]. unfold int_value in H3. rewrite Hu in H3. by exists s', l.
  - destruct (Hrun 10 (s64 v) false) as (s' & l & H1 & H2 & H3); [lia | apply H64 |]. unfold int_value in H3. rewrite Hu in H3. by exists s', l.
  - destruct (Hrun 16 (u32 v) false) as (s' & l & H1 & H2 & H3); [lia | lia |].
    unfold int_value in H3. rewrite u64_small in H3 by lia. by exists s', l.
  - destruct (Hrun 16 (s64 v) false) as (s' & l & H1 & H2 & H3); [lia | apply H64 |]. unfold int_value in H3. rewrite Hu in H3. by exists s', l.
  - destruct (Hrun 16 (s64 v) false) as (s' & l & H1 & H2 & H3); [lia | apply H64 |]. unfold int_value in H3. rewrite Hu in H3. by exists s', l.
Qed.

(** The step of the loop for a directive other than text. *)
Lemma printf_dir fuel d ds args args' s s' : match d with D_text _ => False | D_num n _ => (n <= 2)%nat | _ => True end ->
  print_conv polls (conversion (fmt_at (spell d) 1) (fmt_at (spell d) 2) (fmt_at (spell d) 3)).1 (fmt_at (spell d) 1) args s = Ret args' s' ->
  printf_loop polls (S fuel) (spell_all (d :: ds)) args s = printf_loop polls fuel (spell_all ds) args' s'.
Proof.
  intros Hd H. rewrite spell_cons. etransitivity; [|exact (bind_ret_eq _ (fun args => printf_loop polls fuel (spell_all ds) args) _ _ _ H)].
  destruct d as [|n r| | | |]; [done | | reflexivity..]. assert (n = 0%nat \/ n = 1%nat \/ n = 2%nat) as Hcases by lia.
  destruct Hcases as [-> | [-> | ->]], r; reflexivity.
Qed.

(** Fetch the arguments. *)
Local Ltac va_run := do 3 (cbn [fst print_conv va_next va_num va_str]; mrun; cbv iota).

(** One directive with its arguments. *)
Lemma print_dir d ds args s : cpu_wf (c_cpu s) -> fits (d :: ds) args -> match d with D_text _ => False | _ => True end ->
  exists args' s' l, print_conv polls (conversion (fmt_at (spell d) 1) (fmt_at (spell d) 2) (fmt_at (spell d) 3)).1 (fmt_at (spell d) 1) args s = Ret args' s' /\
    emits s s' l /\ fits ds args' /\ forall out, shows ds args' out -> shows (d :: ds) args (l ++ out).
Proof.
  intros Hc Hf Hd. destruct d as [|n r| | | |]; [done | | | | |].
  - destruct args as [|[v|] args]; [done | | done]. destruct Hf as [Hn Hf]. destruct (num_printed n r v s Hc Hn) as (s' & l & Hp & He & Hnum).
    exists args, s', l. split_and!; [| done | done | intros out Ho; by apply shows_num].
    destruct (conversion _ _ _) as [[arg base sign| | | | | |] k]; [|done..]. destruct Hp as [_ Hp]. va_run.
    by rewrite (bind_ret_eq _ _ _ _ _ Hp).
  - destruct args as [|[v|] args]; [done | | done]. destruct (printptr_ok (u64 v) s Hc (u64_range v)) as (s' & l & Hp & He & Hpad).
    exists args, s', (cstr "0x" ++ l). split_and!; [| done | done | intros out Ho; rewrite <- app_assoc; by apply shows_ptr].
    change (('(a, args) ← va_next (va_word v :: args); v ← va_num a; printptr polls (u64 v);; mret args) s = Ret args s'). va_run. by rewrite (bind_ret_eq _ _ _ _ _ Hp).
  - destruct args as [|[v|] args]; [done | | done]. destruct Hf as [Hv Hf].
    assert (s32 v = v) as Hs by (unfold s32; rewrite u32_small by lia; cbv zeta; destruct (Z.ltb_spec v (2 ^ 31)); lia).
    destruct (consputc_ok v s Hc Hv) as (s' & Hp & He).
    exists args, s', [v]. split_and!; [| done | done | intros out Ho; rewrite <- (Z.mod_small v (2 ^ 8)) at 2 by done; by apply shows_char].
    change (('(a, args) ← va_next (va_word v :: args); v ← va_num a; consputc polls (s32 v);; mret args) s = Ret args s'). va_run.
    rewrite Hs. by rewrite (bind_ret_eq _ _ _ _ _ Hp).
  - destruct args as [|[|o] args]; [done..|]. destruct Hf as [Ho Hf].
    destruct (puts_ok (default (cstr "(null)") o) s Hc) as (s' & Hp & He).
    { destruct o; [eapply Forall_impl; [exact Ho | simpl; lia] | apply (bool_decide_unpack _); by vm_compute]. }
    exists args, s', (default (cstr "(null)") o). split_and!; [| done | done | intros out Hs; by apply shows_str].
    change (('(a, args) ← va_next (va_ptr o :: args); s ← va_str a; for_each (default (cstr "(null)") s) (consputc polls);; mret args) s = Ret args s').
    va_run. by rewrite (bind_ret_eq _ _ _ _ _ Hp).
  - destruct (consputc_ok (ch "%") s Hc ltac:(done)) as (s' & Hp & He). exists args, s', [ch "%"].
    split_and!; [| done | done | intros out Ho; by apply shows_percent].
    change ((consputc polls (ch "%");; mret args) s = Ret args s'). by rewrite (bind_ret_eq _ _ _ _ _ Hp).
Qed.

Lemma printf_loop_ok ds : forall args s fuel, cpu_wf (c_cpu s) -> fits ds args -> (length ds < fuel)%nat ->
  exists s' out, printf_loop polls fuel (spell_all ds) args s = Ret tt s' /\ emits s s' out /\ shows ds args out.
Proof.
  induction ds as [|d ds IH]; intros args s fuel Hc Hf Hl; (destruct fuel as [|fuel]; [lia|]).
  { exists s, []. split_and!; [done | apply emits_nil | constructor]. }
  cbn [length] in Hl. assert ((exists c, d = D_text c) \/ match d with D_text _ => False | _ => True end) as [[c ->]|Hd] by (destruct d; eauto).
  - destruct Hf as (Hr & Hp & Hf). destruct (consputc_ok c s Hc ltac:(lia)) as (s1 & H1 & He1).
    destruct (IH args s1 fuel (emits_wf _ _ _ He1 Hc) Hf ltac:(lia)) as (s2 & out & H2 & He2 & Hs).
    exists s2, (c :: out). split_and!; [| exact (emits_trans _ _ _ _ _ He1 He2) | by constructor].
    cbn [printf_loop]. change (fmt_at (spell_all (D_text c :: ds)) 0) with c.
    rewrite (proj2 (Z.eqb_neq c 0)), (proj2 (Z.eqb_neq _ _) Hp) by lia. cbn [negb]. by rewrite (bind_ret_eq _ _ _ _ _ H1).
  - destruct (print_dir d ds args s Hc Hf Hd) as (args' & s1 & l & H1 & He1 & Hf1 & Hs1).
    destruct (IH args' s1 fuel (emits_wf _ _ _ He1 Hc) Hf1 ltac:(lia)) as (s2 & out & H2 & He2 & Hs).
    exists s2, (l ++ out). split_and!; [| exact (emits_trans _ _ _ _ _ He1 He2) | by apply Hs1].
    rewrite <- H2. apply printf_dir; [|done]. destruct d; try done. destruct args as [|[v|] args]; [done | apply Hf | done].
Qed.

Lemma length_spell_all ds : (length ds <= length (spell_all ds))%nat.
Proof.
  induction ds as [|d ds IH]; [done|]. rewrite spell_cons, length_app. cbn [length].
  assert (1 <= length (spell d))%nat by (destruct d; simpl; lia). lia.
Qed.




(** After a panic no lock is taken. *)
Lemma printf_panicked ds args s : cpu_wf (c_cpu s) -> fits ds args -> panicked s <> 0 ->
  exists s' out, printf polls (spell_all ds) args s = Ret tt s' /\ emits s s' out /\ shows ds args out.
Proof.
  intros Hc Hf Hp. pose proof (length_spell_all ds) as Hl.
  destruct (printf_loop_ok ds args s (S (length (spell_all ds))) Hc Hf ltac:(lia)) as (s' & out & H & He & Hsh).
  exists s', out. split_and!; [|done..]. unfold printf. mrun. rewrite (proj2 (Z.eqb_neq _ _) Hp). cbn [when]. mrun.
  rewrite (bind_ret_eq _ _ _ _ _ H). mrun. destruct He as [_ _ [_ ->]]. by rewrite (proj2 (Z.eqb_neq _ _) Hp).
Qed.

Lemma shows_text_all l args : shows (D_text <$> l) args l.
Proof. induction l as [|c l IH]; cbn [fmap list_fmap]; by constructor. Qed.

Lemma shows_inv_text l ds args out : shows ((D_text <$> l) ++ ds) args out -> exists out', out = l ++ out' /\ shows ds args out'.
Proof.
  revert out. induction l as [|c l IH]; intros out H; [by exists out|]. cbn [fmap list_fmap app] in H. inversion H as [|? ? ? out1 H1| | | | |]; subst.
  destruct (IH out1 H1) as (out' & -> & H'). by exists out'.
Qed.

(** [panic] prints its message behind "fpanic: " whatever state the lock of the
    console is in, also when this hart or another one holds it, and does not
    return; from then on [printf] takes no lock. *)
Theorem panic_prints s msg : cpu_wf (c_cpu s) -> Forall (fun c => 0 < c < 2 ^ 8) (cstr msg) ->
  panics (panic_msg polls msg : M (console U) unit) s msg (fun s' =>
    sent (c_uart s') = sent (c_uart s) ++ cstr "fpanic: " ++ cstr msg ++ [10] /\ panicked s' = 1 /\ print_lk s' = print_lk s).
Proof.
  intros Hc Hm. destruct (putc_ok (ch "f") s Hc) as (s1 & H1 & He1). unfold panics, panic_msg. rewrite (bind_ret_eq _ _ _ _ _ H1). mrun.
  assert (cpu_wf (c_cpu (set_panicked 1 s1))) as Hc1 by (by apply (emits_wf s s1 [u8 (ch "f")])).
  destruct (printf_panicked (D_text <$> cstr "panic: ") [] (set_panicked 1 s1) Hc1) as (s2 & o2 & H2 & He2 & Hs2); [by repeat split | done |].
  rewrite <- (app_nil_r (D_text <$> _)) in Hs2. apply shows_inv_text in Hs2 as (o2' & -> & Hs2). inversion Hs2; subst. rewrite app_nil_r in He2.
  change (spell_all (D_text <$> cstr "panic: ")) with (cstr "panic: ") in H2. rewrite (bind_ret_eq _ _ _ _ _ H2).
  assert (cpu_wf (c_cpu s2)) as Hc2 by (by eapply emits_wf). destruct He2 as [Es2 _ [Ek2 Ep2]].
  destruct (printf_panicked [D_str; D_text 10] [va_ptr (Some (cstr msg))] s2 Hc2) as (s3 & o3 & H3 & [Es3 _ [Ek3 Ep3]] & Hs3); [by repeat split | by rewrite Ep2 |].
  inversion Hs3 as [| | | | |? ? ? o4 Hs4|]; subst. inversion Hs4 as [|? ? ? o5 Hs5| | | | |]; subst. inversion Hs5; subst.
  change (spell_all [D_str; D_text 10]) with (cstr "%s" ++ [10]) in H3. rewrite (bind_ret_eq _ _ _ _ _ H3). mrun.
  destruct He1 as [Es1 _ [Ek1 _]]. split_and!; [done | | done | cbn; by rewrite Ek3, Ek2].
  cbn. rewrite Es3, Es2. cbn [c_uart set_panicked]. rewrite Es1, <- !app_assoc. done.
Qed.
End Spec.

(** ** A UART that is busy for one poll before it is idle *)

#[export] Instance demo_uart : Uart (list Z * bool) := {
  reg_read r u := if r =? LSR then (if u.2 then (0, (u.1, false)) else (LSR_TX_IDLE, u)) else (0, u);
  reg_write r v u := if r =? THR then (u.1 ++ [v], true) else u
}.

Lemma demo_uart_ok : uart_ok 1 (fst : list Z * bool -> list Z).
Proof.
  split.
  - intros [l b]. destruct b.
    + exists 1%nat, (l, false). split_and!; [done | | done]. by eapply waits_busy; [done | done | by eapply waits_idle].
    + exists 0%nat, (l, false). split_and!; [lia | | done]. by eapply waits_idle.
  - intros n u u' c _ _. done.
Qed.

Definition demo_console : console (list Z * bool) := mk_console (mk_cpu 0 true 0 false) ([], false) (mk_spinlock 0 "printf" 0) 0.


(** The lock is held by another hart. *)
Lemma panic_prints_witness : exists s', panic_msg 1 "no page" (set_print_lk (mk_spinlock 1 "printf" 1) demo_console) = (Panic "no page" s' : outcome _ unit) /\
  (c_uart s').1 = cstr "fpanic: no page" ++ [10] /\ panicked s' = 1 /\ locked (print_lk s') = 1.
Proof.
  assert (Forall (fun c => 0 < c < 2 ^ 8) (cstr "no page")) as Hm by (apply (bool_decide_unpack _); by vm_compute).
  destruct (panics_elim _ _ _ _ (panic_prints 1 fst demo_uart_ok (set_print_lk (mk_spinlock 1 "printf" 1) demo_console) "no page" ltac:(by split) Hm)) as (s' & Hrun & H1 & H2 & H3).
  exists s'. split_and!; [exact Hrun | exact H1 | exact H2 | by rewrite H3].
Defined.
