(* ===== verification/Mutex.v ===== *)
(** * Mutex: kernel/lib/spinlock.c run by several harts at once

    [Spinlock] runs one hart alone.  Here every hart executes the loop
    "acquire; critical section; release" on one lock, one shared-memory access
    at a time, and a schedule says which hart moves next (sequentially
    consistent memory: the fences of the C code are not modelled). *)

From stdpp Require Import functions.
From S2P Require Import Prelude Spinlock.

(** Where a hart is: the shared access it performs next. *)
Inductive pc :=
  | Idle          (** outside; next: [push_off] and the call of [spinlock_acquire] *)
  | AcqReadLocked (** [spinlock_holding]: reads [lk->locked] *)
  | AcqReadCpuid  (** [spinlock_holding]: [locked] was not 0, reads [lk->cpuid] *)
  | AcqTas        (** [__sync_lock_test_and_set(&lk->locked, 1)] *)
  | AcqSetCpuid   (** [lk->cpuid = mycpuid()] *)
  | Crit          (** [spinlock_acquire] has returned *)
  | RelReadLocked
  | RelReadCpuid
  | RelClearCpuid (** [lk->cpuid = -1] *)
  | RelUnlock     (** [__sync_lock_release(&lk->locked)], then [pop_off] *)
  | Stopped (msg : string). (** [panic(msg)] *)

Record mstate := mk_mstate { m_lock : spinlock; m_pc : Z -> pc }.

Definition move (h : Z) (p : pc) (s : mstate) : mstate := mk_mstate (m_lock s) (<[h := p]> (m_pc s)).
Definition set_locked (v : Z) (s : mstate) : mstate :=
  mk_mstate (mk_spinlock v (lk_name (m_lock s)) (lk_cpuid (m_lock s))) (m_pc s).
Definition set_cpuid (v : Z) (s : mstate) : mstate :=
  mk_mstate (mk_spinlock (locked (m_lock s)) (lk_name (m_lock s)) v) (m_pc s).

(** One step of hart [h]. *)
Definition hart_step (s : mstate) (h : Z) : mstate :=
  let is_locked := negb (locked (m_lock s) =? 0) in
  let is_mine := lk_cpuid (m_lock s) =? h in
  match m_pc s h with
  | Idle => move h AcqReadLocked s
  | AcqReadLocked => move h (if is_locked then AcqReadCpuid else AcqTas) s
  | AcqReadCpuid => move h (if is_mine then Stopped "acquire" else AcqTas) s
  | AcqTas => move h (if is_locked then AcqTas else AcqSetCpuid) (set_locked 1 s)
  | AcqSetCpuid => move h Crit (set_cpuid h s)
  | Crit => move h RelReadLocked s
  | RelReadLocked => move h (if is_locked then RelReadCpuid else Stopped "release") s
  | RelReadCpuid => move h (if is_mine then RelClearCpuid else Stopped "release") s
  | RelClearCpuid => move h RelUnlock (set_cpuid (-1) s)
  | RelUnlock => move h Idle (set_locked 0 s)
  | Stopped msg => s
  end.

Definition run (s : mstate) (schedule : list Z) : mstate := foldl hart_step s schedule.

(** Every hart outside, the lock free, with some value in [cpuid]. *)
Definition start (cpuid : Z) : mstate := mk_mstate (mk_spinlock 0 "" cpuid) (fun _ => Idle).

(** ** Invariant *)

(** The hart has won the test-and-set and has not yet unlocked. *)
Definition owns (p : pc) : bool :=
  match p with
  | AcqSetCpuid | Crit | RelReadLocked | RelReadCpuid | RelClearCpuid | RelUnlock => true
  | _ => false
  end.

(** ... and its id is in [lk->cpuid]. *)
Definition marked (p : pc) : bool :=
  match p with Crit | RelReadLocked | RelReadCpuid | RelClearCpuid => true | _ => false end.

Record minv (s : mstate) : Prop := {
  inv_one : forall h1 h2, owns (m_pc s h1) = true -> owns (m_pc s h2) = true -> h1 = h2;
  inv_locked : forall h, owns (m_pc s h) = true -> locked (m_lock s) = 1;
  inv_marked : forall h, marked (m_pc s h) = true -> lk_cpuid (m_lock s) = h;
  inv_release : forall h, m_pc s h <> Stopped "release"
}.

(** [cpuid] holds the id of hart [h] only while [h] is marked. *)
Definition cpuid_clean (s : mstate) : Prop :=
  forall h, 0 <= h -> lk_cpuid (m_lock s) = h -> marked (m_pc s h) = true.

(** Split on whether a hart is the one that moved. *)
Ltac hart h' h :=
  destruct (decide (h = h')) as [<-|?];
  [rewrite ?fn_lookup_insert in * | rewrite ?fn_lookup_insert_ne in * by done].

(** One step of hart [h] to [p], with the lock left as [l]. *)
Lemma minv_move s h p (l : spinlock) :
  minv s ->
  (owns p = true -> forall h', owns (m_pc s h') = true -> h' = h) ->
  (owns p = true -> locked l = 1) ->
  (forall h', owns (m_pc s h') = true -> h' <> h -> locked l = 1) ->
  (marked p = true -> lk_cpuid l = h) ->
  (forall h', marked (m_pc s h') = true -> h' <> h -> lk_cpuid l = h') ->
  p <> Stopped "release" ->
  minv (mk_mstate l (<[h := p]> (m_pc s))).
Proof.
  intros [H1 HL HM HR] Ho Hl Hl' Hm Hm' Hp. split; simpl.
  - intros h1 h2. hart h1 h; hart h2 h; intros; eauto. symmetry; eauto.
  - intros h'. hart h' h; eauto.
  - intros h'. hart h' h; eauto.
  - intros h'. hart h' h; eauto.
Qed.

Lemma marked_owns p : marked p = true -> owns p = true.
Proof. by destruct p. Qed.

Lemma hart_step_minv s h : minv s -> minv (hart_step s h).
Proof.
  intros Hs. destruct (Hs) as [H1 HL HM HR].
  assert (forall h', owns (m_pc s h) = true -> owns (m_pc s h') = true -> h' = h) as Honly by eauto.
  assert (forall h', owns (m_pc s h) = true -> marked (m_pc s h') = true -> h' = h) as Honlym
    by eauto using marked_owns.
  pose proof (HL h) as HLh. pose proof (HM h) as HMh.
  unfold hart_step, move, set_locked, set_cpuid.
  destruct (m_pc s h) eqn:Hp; simpl in *; try done;
    try specialize (HLh eq_refl); try specialize (HMh eq_refl).
  - by apply minv_move; simpl; eauto.
  - by apply minv_move; simpl; eauto; case_match.
  - by apply minv_move; simpl; eauto; case_match.
  - destruct (Z.eqb_spec (locked (m_lock s)) 0) as [Hl|Hl]; simpl; [|by apply minv_move; simpl; eauto].
    apply minv_move; simpl; eauto; try done.
    intros _ h' Ho. specialize (HL h' Ho). lia.
  - apply minv_move; simpl; eauto; try done. intros h' Hm Hne. by destruct Hne; eauto.
  - by apply minv_move; simpl; eauto.
  - rewrite HLh. by apply minv_move; simpl; eauto.
  - rewrite HMh, Z.eqb_refl. by apply minv_move; simpl; eauto.
  - apply minv_move; simpl; eauto; try done. intros h' Hm Hne. by destruct Hne; eauto.
  - apply minv_move; simpl; eauto; try done. intros h' Hm Hne. by destruct Hne; eauto.
Qed.

Lemma run_minv s schedule : minv s -> minv (run s schedule).
Proof. revert s; induction schedule as [|h l IH]; intros s Hs; [done|]. by apply IH, hart_step_minv. Qed.

Lemma start_minv cpuid : minv (start cpuid).
Proof. by split. Qed.

(** *** When the stale [cpuid] names no hart *)

Record mclean (s : mstate) : Prop := {
  clean_inv : minv s;
  clean_cpuid : cpuid_clean s;
  clean_none : forall h msg, 0 <= h -> m_pc s h <> Stopped msg
}.

Lemma hart_step_clean s h : 0 <= h -> mclean s -> mclean (hart_step s h).
Proof.
  intros Hh [Hi Hc Hn]. pose proof (hart_step_minv s h Hi) as Hi'. split; [done|..].
  all: pose proof (inv_locked _ Hi h) as HL; pose proof (inv_marked _ Hi h) as HM.
  - intros h'. specialize (Hc h'). revert Hc. unfold hart_step, move, set_locked, set_cpuid.
    destruct (m_pc s h) eqn:Hp; simpl in *;
      first [specialize (HL eq_refl) | clear HL]; first [specialize (HM eq_refl) | clear HM].
    all: rewrite ?HL, ?HM, ?Z.eqb_refl; hart h' h; rewrite ?Hp; simpl; intros Hc; try lia; try done.
    all: intros; specialize (Hc ltac:(done) ltac:(done)); done.
  - pose proof (Hc h Hh) as Hch.
    intros h' msg Hh'. specialize (Hn h' msg Hh').
    revert Hn. unfold hart_step, move, set_locked, set_cpuid.
    destruct (m_pc s h) eqn:Hp; simpl in *;
      first [specialize (HL eq_refl) | clear HL]; first [specialize (HM eq_refl) | clear HM].
    all: rewrite ?HL, ?HM, ?Z.eqb_refl; hart h' h; try done.
    + by case_match.
    + destruct (Z.eqb_spec (lk_cpuid (m_lock s)) h); [|done]. by specialize (Hch ltac:(done)).
    + by case_match.
Qed.

Lemma run_clean s schedule : Forall (fun h => 0 <= h) schedule -> mclean s -> mclean (run s schedule).
Proof.
  intros Hf; revert s; induction Hf as [|h l Hh _ IH]; intros s Hs; [done|].
  by apply IH, hart_step_clean.
Qed.

(** ** Properties *)

(** C4: mutual exclusion: in every interleaving of any number of harts, two harts
    are never in the critical section together, the lock is taken while a hart
    is in it, [lk->cpuid] is its id, and no hart ever panics in
    [spinlock_release]. *)
Theorem mutual_exclusion (cpuid : Z) (schedule : list Z) (h1 h2 : Z) :
  let s := run (start cpuid) schedule in
  (m_pc s h1 = Crit -> m_pc s h2 = Crit -> h1 = h2)
  /\ (m_pc s h1 = Crit -> held_by h1 (m_lock s))
  /\ m_pc s h1 <> Stopped "release".
Proof.
  intros s. destruct (run_minv (start cpuid) schedule (start_minv cpuid)) as [H1 HL HM HR].
  fold s in H1, HL, HM, HR. split_and!; [| |apply HR].
  - intros E1 E2. apply H1; by rewrite ?E1, ?E2.
  - intros E1. split; [rewrite (HL h1); [done|] | apply HM]; by rewrite E1.
Qed.

(** when the free lock's [cpuid] names no hart (as [spinlock_release] leaves
    it: -1), no interleaving makes any hart panic. *)
Theorem released_lock_never_panics (schedule : list Z) (h : Z) (msg : string) :
  Forall (fun h => 0 <= h) schedule -> 0 <= h ->
  m_pc (run (start (-1)) schedule) h <> Stopped msg.
Proof.
  intros Hf Hh. apply (clean_none (run (start (-1)) schedule)); [|done].
  apply run_clean; [done|]. split; [apply start_minv | | done].
  intros h' Hh' Hc. simpl in Hc. lia.
Qed.

Lemma released_lock_never_panics_witness :
  m_pc (run (start (-1)) [1; 1; 1; 0; 0; 0; 1; 0]) 0 <> Stopped "acquire".
Proof.
  apply (released_lock_never_panics [1; 1; 1; 0; 0; 0; 1; 0] 0 "acquire"); [|lia].
  repeat constructor; lia.
Defined.

(** [spinlock_init] writes 0, the id of hart 0, into [cpuid].  While another
    hart holds the test-and-set but has not yet written its own id, hart 0 takes
    the lock for its own: on a lock that has never been released it panics with
    "acquire" although it does not hold the lock. *)
Theorem init_cpuid_race (name : string) (c : cpu) :
  match spinlock_init name (c, mk_spinlock 1 "" 7) with
  | Ret _ (_, l) =>
      exists schedule, let s := run (mk_mstate l (fun _ => Idle)) schedule in
        m_pc s 0 = Stopped "acquire" /\ m_pc s 1 = AcqSetCpuid /\ locked (m_lock s) = 1
  | _ => False
  end.
Proof. simpl. by exists [1; 1; 1; 0; 0; 0]. Qed.
