(* ===== verification/Kernel.v ===== *)
(** * Kernel: the data structures of the headers under include/

    One record per C struct and one record [kstate] for the kernel's global
    variables, as the CPU that runs sees them.  A C pointer to an element of a
    static array ([buf_t*], [inode_t*], [file_t*]) is the element's index, an
    [option nat] where it can be NULL. *)

From S2P Require Import Prelude Bytes Spinlock.

(** ** Constants (include/common.h, fs/inode.h, fs/dir.h, fs/file.h) *)

Definition PGSIZE : Z := 4096.
Definition BLOCK_SIZE : Z := 1024.
Definition INODE_DISK_SIZE : Z := 64.
Definition INODE_PER_BLOCK : Z := BLOCK_SIZE / INODE_DISK_SIZE.
Definition INODE_ROOT : Z := 0.
Definition N_ADDRS_1 : Z := 10.
Definition N_ADDRS_2 : Z := 2.
Definition N_ADDRS_3 : Z := 1.
Definition N_ADDRS : Z := N_ADDRS_1 + N_ADDRS_2 + N_ADDRS_3.
Definition ENTRY_PER_BLOCK : Z := BLOCK_SIZE / 4.
Definition INODE_MAXSIZE : Z :=
  (N_ADDRS_1 + N_ADDRS_2 * ENTRY_PER_BLOCK + N_ADDRS_3 * ENTRY_PER_BLOCK * ENTRY_PER_BLOCK) * BLOCK_SIZE.
Definition FT_UNUSED : Z := 0.
Definition FT_DIR : Z := 1.
Definition FT_FILE : Z := 2.
Definition FT_DEVICE : Z := 3.
Definition INODE_NUM_UNUSED : Z := 0xFFFF.
Definition DIR_NAME_LEN : Z := 30.
Definition DIRENT_SIZE : Z := 32.
Definition FD_UNUSED : Z := 0.
Definition FD_DIR : Z := 1.
Definition FD_FILE : Z := 2.
Definition FD_DEVICE : Z := 3.
Definition MODE_CREATE : Z := 0x1.
Definition MODE_READ : Z := 0x2.
Definition MODE_WRITE : Z := 0x4.

(** ** Structs *)

(** [alloc_region_t] (include/mem/pmem.h); [list_head] is [list_head.next]. *)
Record alloc_region := mk_region {
  r_begin : Z;
  r_end : Z;
  r_lk : spinlock;
  allocable : Z;
  list_head : Z
}.

(** [buf_t] (include/fs/buf.h). *)
Record buf := mk_buf {
  slk : spinlock;
  block_num : Z;
  data : list Z;
  buf_ref : Z;
  disk : bool
}.

(** The buffer cache (kernel/fs/buf.c).  [links !! i] holds the [next] and
    [prev] pointers of node [i] of [buf_cache]; the last entry is [head_buf]. *)
Record bcache := mk_bcache {
  bufs : list buf;
  links : list (option nat * option nat);
  lk_buf_cache : spinlock
}.

(** The virtio queue (kernel/dev/virtio.c).  The bus address in a descriptor is
    the object it designates: the request header (type, sector) at a physical
    address of the kernel stack, the data of a buffer, or the status byte of a
    request. *)
Inductive dma_addr :=
  | dma_null
  | dma_hdr (pa type sector : Z)
  | dma_data (b : nat)
  | dma_status (id : nat).

Record vring_desc := mk_desc { addr : dma_addr; len : Z; flags : Z; next : Z }.

Record vdisk := mk_vdisk {
  desc : list vring_desc;
  avail_idx : Z;              (** [avail\[1\]] *)
  avail_ring : list Z;        (** [avail\[2..\]] *)
  used_id : Z;                (** [used->id] *)
  used_elems : list Z;        (** the [id] field of [used->elems] *)
  free : list bool;
  used_idx : Z;
  info : list (option nat * Z);  (** [b] and [status] *)
  vdisk_lock : spinlock
}.

(** [super_block_t] (include/fs/fs.h). *)
Record super_block := mk_sb {
  magic : Z; block_size : Z;
  inode_bitmap_start : Z; inode_start : Z; data_bitmap_start : Z; data_start : Z;
  inode_blocks : Z; data_blocks : Z; total_blocks : Z
}.

(** The first 64 bytes of [inode_t]: the part that is stored on disk. *)
Record dinode := mk_dinode {
  d_type : Z;
  d_major : Z;
  d_minor : Z;
  d_nlink : Z;
  d_size : Z;
  d_addrs : list Z
}.

(** [inode_t] (include/fs/inode.h). *)
Record inode := mk_inode {
  i_d : dinode;
  inode_num : Z;
  i_ref : Z;
  valid : bool;
  i_slk : spinlock
}.
Record icache := mk_icache {
  inodes : list inode;
  lk_icache : spinlock
}.

(** [file_t] (include/fs/file.h); an entry of [devlist] holds the addresses of
    the device's [read] and [write] functions. *)
Record file := mk_file {
  f_type : Z;
  f_readable : bool;
  f_writable : bool;
  f_ref : Z;
  f_major : Z;
  f_offset : Z;
  f_ip : option nat
}.
Record ftable := mk_ftable {
  files : list file;
  lk_ftable : spinlock;
  devlist : list (option Z * option Z)
}.

(** ** The kernel's globals *)

Record kstate {D : Type} := mk_kstate {
  k_cpu : cpu;
  k_mem : mem;
  kern_region : alloc_region;
  user_region : alloc_region;
  kernel_pgtbl : Z;
  k_bc : bcache;
  k_vd : vdisk;
  k_dev : D;
  k_sb : super_block;
  k_ic : icache;
  k_ft : ftable
}.
Arguments kstate D : clear implicits.
Arguments mk_kstate {D}.

Definition set_r_begin (v : Z) (s : alloc_region) : alloc_region :=
  mk_region v (r_end s) (r_lk s) (allocable s) (list_head s).
Definition set_r_end (v : Z) (s : alloc_region) : alloc_region :=
  mk_region (r_begin s) v (r_lk s) (allocable s) (list_head s).
Definition set_r_lk (v : spinlock) (s : alloc_region) : alloc_region :=
  mk_region (r_begin s) (r_end s) v (allocable s) (list_head s).
Definition set_allocable (v : Z) (s : alloc_region) : alloc_region :=
  mk_region (r_begin s) (r_end s) (r_lk s) v (list_head s).
Definition set_list_head (v : Z) (s : alloc_region) : alloc_region :=
  mk_region (r_begin s) (r_end s) (r_lk s) (allocable s) v.
Definition set_desc (v : list vring_desc) (s : vdisk) : vdisk :=
  mk_vdisk v (avail_idx s) (avail_ring s) (used_id s) (used_elems s) (free s) (used_idx s) (info s) (vdisk_lock s).
Definition set_avail_idx (v : Z) (s : vdisk) : vdisk :=
  mk_vdisk (desc s) v (avail_ring s) (used_id s) (used_elems s) (free s) (used_idx s) (info s) (vdisk_lock s).
Definition set_avail_ring (v : list Z) (s : vdisk) : vdisk :=
  mk_vdisk (desc s) (avail_idx s) v (used_id s) (used_elems s) (free s) (used_idx s) (info s) (vdisk_lock s).
Definition set_used_id (v : Z) (s : vdisk) : vdisk :=
  mk_vdisk (desc s) (avail_idx s) (avail_ring s) v (used_elems s) (free s) (used_idx s) (info s) (vdisk_lock s).
Definition set_used_elems (v : list Z) (s : vdisk) : vdisk :=
  mk_vdisk (desc s) (avail_idx s) (avail_ring s) (used_id s) v (free s) (used_idx s) (info s) (vdisk_lock s).
Definition set_free (v : list bool) (s : vdisk) : vdisk :=
  mk_vdisk (desc s) (avail_idx s) (avail_ring s) (used_id s) (used_elems s) v (used_idx s) (info s) (vdisk_lock s).
Definition set_used_idx (v : Z) (s : vdisk) : vdisk :=
  mk_vdisk (desc s) (avail_idx s) (avail_ring s) (used_id s) (used_elems s) (free s) v (info s) (vdisk_lock s).
Definition set_info (v : list (option nat * Z)) (s : vdisk) : vdisk :=
  mk_vdisk (desc s) (avail_idx s) (avail_ring s) (used_id s) (used_elems s) (free s) (used_idx s) v (vdisk_lock s).
Definition set_vdisk_lock (v : spinlock) (s : vdisk) : vdisk :=
  mk_vdisk (desc s) (avail_idx s) (avail_ring s) (used_id s) (used_elems s) (free s) (used_idx s) (info s) v.
Definition set_slk (v : spinlock) (s : buf) : buf :=
  mk_buf v (block_num s) (data s) (buf_ref s) (disk s).
Definition set_block_num (v : Z) (s : buf) : buf :=
  mk_buf (slk s) v (data s) (buf_ref s) (disk s).
Definition set_data (v : list Z) (s : buf) : buf :=
  mk_buf (slk s) (block_num s) v (buf_ref s) (disk s).
Definition set_buf_ref (v : Z) (s : buf) : buf :=
  mk_buf (slk s) (block_num s) (data s) v (disk s).
Definition set_disk (v : bool) (s : buf) : buf :=
  mk_buf (slk s) (block_num s) (data s) (buf_ref s) v.
Definition set_bufs (v : list buf) (s : bcache) : bcache :=
  mk_bcache v (links s) (lk_buf_cache s).
Definition set_links (v : list (option nat * option nat)) (s : bcache) : bcache :=
  mk_bcache (bufs s) v (lk_buf_cache s).
Definition set_lk_buf_cache (v : spinlock) (s : bcache) : bcache :=
  mk_bcache (bufs s) (links s) v.
Definition set_d_type (v : Z) (s : dinode) : dinode :=
  mk_dinode v (d_major s) (d_minor s) (d_nlink s) (d_size s) (d_addrs s).
Definition set_d_major (v : Z) (s : dinode) : dinode :=
  mk_dinode (d_type s) v (d_minor s) (d_nlink s) (d_size s) (d_addrs s).
Definition set_d_minor (v : Z) (s : dinode) : dinode :=
  mk_dinode (d_type s) (d_major s) v (d_nlink s) (d_size s) (d_addrs s).
Definition set_d_nlink (v : Z) (s : dinode) : dinode :=
  mk_dinode (d_type s) (d_major s) (d_minor s) v (d_size s) (d_addrs s).
Definition set_d_size (v : Z) (s : dinode) : dinode :=
  mk_dinode (d_type s) (d_major s) (d_minor s) (d_nlink s) v (d_addrs s).
Definition set_d_addrs (v : list Z) (s : dinode) : dinode :=
  mk_dinode (d_type s) (d_major s) (d_minor s) (d_nlink s) (d_size s) v.
Definition set_i_d (v : dinode) (s : inode) : inode :=
  mk_inode v (inode_num s) (i_ref s) (valid s) (i_slk s).
Definition set_inode_num (v : Z) (s : inode) : inode :=
  mk_inode (i_d s) v (i_ref s) (valid s) (i_slk s).
Definition set_i_ref (v : Z) (s : inode) : inode :=
  mk_inode (i_d s) (inode_num s) v (valid s) (i_slk s).
Definition set_valid (v : bool) (s : inode) : inode :=
  mk_inode (i_d s) (inode_num s) (i_ref s) v (i_slk s).
Definition set_i_slk (v : spinlock) (s : inode) : inode :=
  mk_inode (i_d s) (inode_num s) (i_ref s) (valid s) v.
Definition set_inodes (v : list inode) (s : icache) : icache :=
  mk_icache v (lk_icache s).
Definition set_lk_icache (v : spinlock) (s : icache) : icache :=
  mk_icache (inodes s) v.
Definition set_f_type (v : Z) (s : file) : file :=
  mk_file v (f_readable s) (f_writable s) (f_ref s) (f_major s) (f_offset s) (f_ip s).
Definition set_f_readable (v : bool) (s : file) : file :=
  mk_file (f_type s) v (f_writable s) (f_ref s) (f_major s) (f_offset s) (f_ip s).
Definition set_f_writable (v : bool) (s : file) : file :=
  mk_file (f_type s) (f_readable s) v (f_ref s) (f_major s) (f_offset s) (f_ip s).
Definition set_f_ref (v : Z) (s : file) : file :=
  mk_file (f_type s) (f_readable s) (f_writable s) v (f_major s) (f_offset s) (f_ip s).
Definition set_f_major (v : Z) (s : file) : file :=
  mk_file (f_type s) (f_readable s) (f_writable s) (f_ref s) v (f_offset s) (f_ip s).
Definition set_f_offset (v : Z) (s : file) : file :=
  mk_file (f_type s) (f_readable s) (f_writable s) (f_ref s) (f_major s) v (f_ip s).
Definition set_f_ip (v : option nat) (s : file) : file :=
  mk_file (f_type s) (f_readable s) (f_writable s) (f_ref s) (f_major s) (f_offset s) v.
Definition set_files (v : list file) (s : ftable) : ftable :=
  mk_ftable v (lk_ftable s) (devlist s).
Definition set_lk_ftable (v : spinlock) (s : ftable) : ftable :=
  mk_ftable (files s) v (devlist s).
Definition set_devlist (v : list (option Z * option Z)) (s : ftable) : ftable :=
  mk_ftable (files s) (lk_ftable s) v.
Definition set_k_cpu {D} (v : cpu) (s : kstate D) : kstate D :=
  mk_kstate v (k_mem s) (kern_region s) (user_region s) (kernel_pgtbl s) (k_bc s) (k_vd s) (k_dev s) (k_sb s) (k_ic s) (k_ft s).
Definition set_k_mem {D} (v : mem) (s : kstate D) : kstate D :=
  mk_kstate (k_cpu s) v (kern_region s) (user_region s) (kernel_pgtbl s) (k_bc s) (k_vd s) (k_dev s) (k_sb s) (k_ic s) (k_ft s).
Definition set_kern_region {D} (v : alloc_region) (s : kstate D) : kstate D :=
  mk_kstate (k_cpu s) (k_mem s) v (user_region s) (kernel_pgtbl s) (k_bc s) (k_vd s) (k_dev s) (k_sb s) (k_ic s) (k_ft s).
Definition set_user_region {D} (v : alloc_region) (s : kstate D) : kstate D :=
  mk_kstate (k_cpu s) (k_mem s) (kern_region s) v (kernel_pgtbl s) (k_bc s) (k_vd s) (k_dev s) (k_sb s) (k_ic s) (k_ft s).
Definition set_kernel_pgtbl {D} (v : Z) (s : kstate D) : kstate D :=
  mk_kstate (k_cpu s) (k_mem s) (kern_region s) (user_region s) v (k_bc s) (k_vd s) (k_dev s) (k_sb s) (k_ic s) (k_ft s).
Definition set_k_bc {D} (v : bcache) (s : kstate D) : kstate D :=
  mk_kstate (k_cpu s) (k_mem s) (kern_region s) (user_region s) (kernel_pgtbl s) v (k_vd s) (k_dev s) (k_sb s) (k_ic s) (k_ft s).
Definition set_k_vd {D} (v : vdisk) (s : kstate D) : kstate D :=
  mk_kstate (k_cpu s) (k_mem s) (kern_region s) (user_region s) (kernel_pgtbl s) (k_bc s) v (k_dev s) (k_sb s) (k_ic s) (k_ft s).
Definition set_k_dev {D} (v : D) (s : kstate D) : kstate D :=
  mk_kstate (k_cpu s) (k_mem s) (kern_region s) (user_region s) (kernel_pgtbl s) (k_bc s) (k_vd s) v (k_sb s) (k_ic s) (k_ft s).
Definition set_k_sb {D} (v : super_block) (s : kstate D) : kstate D :=
  mk_kstate (k_cpu s) (k_mem s) (kern_region s) (user_region s) (kernel_pgtbl s) (k_bc s) (k_vd s) (k_dev s) v (k_ic s) (k_ft s).
Definition set_k_ic {D} (v : icache) (s : kstate D) : kstate D :=
  mk_kstate (k_cpu s) (k_mem s) (kern_region s) (user_region s) (kernel_pgtbl s) (k_bc s) (k_vd s) (k_dev s) (k_sb s) v (k_ft s).
Definition set_k_ft {D} (v : ftable) (s : kstate D) : kstate D :=
  mk_kstate (k_cpu s) (k_mem s) (kern_region s) (user_region s) (kernel_pgtbl s) (k_bc s) (k_vd s) (k_dev s) (k_sb s) (k_ic s) v.

(** ** Locks in the kernel state *)

Section Locks.
Context {D : Type}.

(** [&lk]: how to reach a lock inside the state. *)
Record lockref := mk_lockref {
  lk_get : kstate D -> spinlock;
  lk_set : spinlock -> kstate D -> kstate D
}.

Definition with_lock {A} (r : lockref) (m : M (cpu * spinlock) A) : M (kstate D) A := fun s =>
  match m (k_cpu s, lk_get r s) with
  | Ret a (c, l) => Ret a (set_k_cpu c (lk_set r l s))
  | Panic msg (c, l) => Panic msg (set_k_cpu c (lk_set r l s))
  | Spin => Spin
  | Fault => Fault
  | NoFuel => NoFuel
  end.

Definition acquire (r : lockref) : M (kstate D) unit := with_lock r spinlock_acquire.
Definition release (r : lockref) : M (kstate D) unit := with_lock r spinlock_release.
Definition holding (r : lockref) : M (kstate D) bool := with_lock r spinlock_holding.

(** [assert(condition, warning)] of kernel/lib/print.c. *)
Definition kassert (condition : bool) (warning : string) : M (kstate D) unit :=
  when (negb condition) (panic warning).
End Locks.
Arguments lockref D : clear implicits.

Section LockFacts.
Context {D : Type}.
Implicit Types (s : kstate D) (r : lockref D).

Lemma acquire_eq r s :
  is_free (lk_get r s) ->
  acquire r s = Ret tt (set_k_cpu (cpu_push (k_cpu s))
                          (lk_set r (take_lock (hartid (k_cpu s)) (lk_get r s)) s)).
Proof. intros H. unfold acquire, with_lock. by rewrite spinlock_acquire_free. Qed.

Lemma release_eq r s :
  cpu_wf (k_cpu s) -> 0 < noff (k_cpu s) -> held_by (hartid (k_cpu s)) (lk_get r s) ->
  release r s = Ret tt (set_k_cpu (cpu_pop (k_cpu s)) (lk_set r (drop_lock (lk_get r s)) s)).
Proof. intros ? ? ?. unfold release, with_lock. by rewrite spinlock_release_held. Qed.

Lemma acquire_twice r s :
  held_by (hartid (k_cpu s)) (lk_get r s) ->
  exists s', acquire r s = Panic "acquire" s'.
Proof. intros H. unfold acquire, with_lock. rewrite spinlock_acquire_held by done. eauto. Qed.

End LockFacts.

(** ** The state before [main]: every global is zero *)

Definition zero_lock : spinlock := mk_spinlock 0 "" 0.
Definition zero_buf : buf := mk_buf zero_lock 0 (replicate (Z.to_nat BLOCK_SIZE) 0) 0 false.
Definition zero_dinode : dinode := mk_dinode 0 0 0 0 0 (replicate (Z.to_nat N_ADDRS) 0).
Definition zero_inode : inode := mk_inode zero_dinode 0 0 false zero_lock.
Definition zero_file : file := mk_file 0 false false 0 0 0 None.
Definition zero_region : alloc_region := mk_region 0 0 zero_lock 0 0.

Definition bss {D} (dev : D) (hart : Z) : kstate D :=
  mk_kstate (mk_cpu hart false 0 false) ∅ zero_region zero_region 0
    (mk_bcache (replicate 64 zero_buf) (replicate 65 (None, None)) zero_lock)
    (mk_vdisk (replicate 8 (mk_desc dma_null 0 0 0)) 0 (replicate 8 0) 0 (replicate 8 0)
       (replicate 8 false) 0 (replicate 8 (None, 0)) zero_lock)
    dev (mk_sb 0 0 0 0 0 0 0 0 0)
    (mk_icache (replicate 32 zero_inode) zero_lock)
    (mk_ftable (replicate 32 zero_file) zero_lock (replicate 10 (None, None))).
