(* ===== verification/Disk.v ===== *)
(** * Disk: what the block layer promises to the buffer cache (include/dev/vio.h)

    The disk itself is hardware: [BlockDev] is its medium, as the content of the
    two 512-byte sectors that start at a sector number, with the laws of storage.
    [DiskDriver] is the one function of the driver that the file system calls,
    [virtio_disk_rw], with its contract; the file system is verified against the
    contract. *)

From S2P Require Import Prelude Bytes Spinlock Kernel.

(** ** The medium *)

Class BlockDev (D : Type) := {
  dev_read : D -> Z -> list Z;
  dev_write : D -> Z -> list Z -> D
}.

Class BlockDevLaws (D : Type) `{!BlockDev D} := {
  dev_read_length : forall d x, length (dev_read d x) = Z.to_nat BLOCK_SIZE;
  dev_read_bytes : forall d x, is_bytes (dev_read d x);
  dev_read_write_eq : forall d x l,
    length l = Z.to_nat BLOCK_SIZE -> is_bytes l -> dev_read (dev_write d x l) x = l;
  dev_read_write_ne : forall d x y l, x <> y -> Z.even x = true -> Z.even y = true ->
    dev_read (dev_write d x l) y = dev_read d y
}.

(** [uint64 sector = b->block_num * (BLOCK_SIZE / 512)]: the product of a
    [uint32] and an [int] is a [uint32]. *)
Definition sector_of (block_num : Z) : Z := u32 (block_num * (BLOCK_SIZE / 512)).

Lemma sector_of_even b : Z.even (sector_of b) = true.
Proof.
  unfold sector_of, u32, BLOCK_SIZE. change (1024 / 512) with 2.
  rewrite Z.even_spec. exists (b mod 2 ^ 31).
  change (2 ^ 32) with (2 ^ 31 * 2). rewrite Z.mul_mod_distr_r by lia. lia.
Qed.

(** Blocks below 2^31 have sectors of their own. *)
Lemma sector_of_inj b c : 0 <= b < 2 ^ 31 -> 0 <= c < 2 ^ 31 -> sector_of b = sector_of c -> b = c.
Proof.
  unfold sector_of, BLOCK_SIZE. change (1024 / 512) with 2. intros.
  rewrite !u32_small in * by lia. lia.
Qed.

(** Block [b] of a disk. *)
Definition block {D} `{!BlockDev D} (d : D) (b : Z) : list Z := dev_read d (sector_of b).
Definition put_block {D} `{!BlockDev D} (d : D) (b : Z) (l : list Z) : D := dev_write d (sector_of b) l.

Section BlockFacts.
Context {D : Type} `{BlockDevLaws D}.

Lemma length_block d b : length (block d b) = Z.to_nat BLOCK_SIZE.
Proof. apply dev_read_length. Qed.

Lemma is_bytes_block d b : is_bytes (block d b).
Proof. apply dev_read_bytes. Qed.

Lemma block_put_eq d b l :
  length l = Z.to_nat BLOCK_SIZE -> is_bytes l -> block (put_block d b l) b = l.
Proof. apply dev_read_write_eq. Qed.

Lemma block_put_ne d b c l :
  0 <= b < 2 ^ 31 -> 0 <= c < 2 ^ 31 -> b <> c -> block (put_block d b l) c = block d c.
Proof.
  intros Hb Hc Hne. apply dev_read_write_ne; [|apply sector_of_even..].
  intros He. by apply Hne, sector_of_inj.
Qed.
End BlockFacts.

(** ** The driver *)

(** [buf_t] number [i] of the state. *)
Definition buf_of {D} (s : kstate D) (i : nat) : option buf := bufs (k_bc s) !! i.
Definition put_buf {D} (i : nat) (b : buf) (s : kstate D) : kstate D :=
  set_k_bc (set_bufs (<[i := b]> (bufs (k_bc s))) (k_bc s)) s.

Class DiskDriver (D : Type) := virtio_disk_rw : nat -> bool -> M (kstate D) unit.

(** [vd_ready] is the driver's state between requests; only [k_vd], the
    medium, the interrupt bookkeeping and the buffer are touched. *)
Class DiskDriverOk (D : Type) `{!BlockDev D, !DiskDriver D} := {
  vd_ready : vdisk -> Prop;
  disk_read_ok : forall (s : kstate D) i b,
    buf_of s i = Some b -> cpu_wf (k_cpu s) -> vd_ready (k_vd s) ->
    exists vd, vd_ready vd /\
      virtio_disk_rw i false s = Ret tt (set_k_vd vd (set_k_cpu (cpu_touch (k_cpu s))
        (put_buf i (set_disk false (set_data (block (k_dev s) (block_num b)) b)) s)));
  disk_write_ok : forall (s : kstate D) i b,
    buf_of s i = Some b -> cpu_wf (k_cpu s) -> vd_ready (k_vd s) ->
    exists vd, vd_ready vd /\
      virtio_disk_rw i true s = Ret tt (set_k_vd vd (set_k_cpu (cpu_touch (k_cpu s))
        (set_k_dev (put_block (k_dev s) (block_num b) (data b)) (put_buf i (set_disk false b) s))))
}.

(** ** A disk in memory and a driver that only transfers: the interfaces can be met *)

Definition zero_block : list Z := replicate (Z.to_nat BLOCK_SIZE) 0.

(** The blocks that were written; the rest reads as zeros. *)
Record memdisk := mk_memdisk { blocks : gmap Z (list Z) }.

Definition fit_block (l : list Z) : list Z :=
  take (Z.to_nat BLOCK_SIZE) ((u8 <$> l) ++ zero_block).

#[export] Instance memdisk_dev : BlockDev memdisk := {
  dev_read d x := fit_block (default [] (blocks d !! x));
  dev_write d x l := mk_memdisk (<[x := l]> (blocks d))
}.

Lemma fmap_u8_bytes l : is_bytes l -> u8 <$> l = l.
Proof. induction 1 as [|b l Hb _ IH]; [done|]. by rewrite fmap_cons, IH, u8_byte. Qed.

#[export] Instance memdisk_laws : BlockDevLaws memdisk.
Proof.
  split; simpl.
  - intros d x. unfold fit_block, zero_block. rewrite length_take, length_app, length_replicate. lia.
  - intros d x. unfold fit_block. apply Forall_take, Forall_app. split.
    + apply Forall_fmap, Forall_true. intros b. apply u8_range.
    + apply Forall_replicate. lia.
  - intros d x l Hl Hb. rewrite lookup_insert_eq. simpl. unfold fit_block.
    rewrite fmap_u8_bytes by done. by rewrite <- Hl, take_app_length.
  - intros d x y l Hne _ _. by rewrite lookup_insert_ne.
Qed.

(** Transfers the block at once. *)
#[export] Instance transfer_driver {D} `{!BlockDev D} : DiskDriver D | 10 := fun i write =>
  b ← gets (fun s => buf_of s i) ≫= some_or_fault;
  modify (fun s => set_k_cpu (cpu_touch (k_cpu s)) s);;
  if write
  then modify (fun s => set_k_dev (put_block (k_dev s) (block_num b) (data b)) (put_buf i (set_disk false b) s))
  else modify (fun s => put_buf i (set_disk false (set_data (block (k_dev s) (block_num b)) b)) s).

#[export] Instance transfer_driver_ok {D} `{!BlockDev D} : DiskDriverOk D | 10.
Proof.
  refine {| vd_ready := fun _ => True |}; intros s i b Hb Hc _; exists (k_vd s); (split; [done|]);
    unfold virtio_disk_rw, transfer_driver; mrun; rewrite Hb; mrun; by destruct s.
Defined.
