(* ===== verification/Buf.v ===== *)
(** * Buf: kernel/fs/buf.c, the buffer cache

    64 buffers in a circular doubly linked list around [head_buf]: the buffers in
    use come first, the free ones last.  [insert_head] is the list surgery;
    [buf_read], [buf_write] and [buf_release] are the cache's interface. *)

From S2P Require Import Prelude Bytes Spinlock Kernel Disk.

Definition N_BLOCK_BUF : nat := 64.
Definition BLOCK_NUM_UNUSED : Z := 0xFFFFFFFF.

(** [&head_buf] is node 64 of [links]. *)
Definition HEAD : nat := 64.

(** ** Operations *)

Section Ops.
Context {D : Type} `{!DiskDriver D}.

Definition node_links (i : nat) (L : list (option nat * option nat)) : option nat * option nat :=
  default (None, None) (L !! i).
(** [p->next], [p->prev] and the assignments to them. *)
Definition nnext (i : nat) (L : list (option nat * option nat)) : option nat := fst (node_links i L).
Definition nprev (i : nat) (L : list (option nat * option nat)) : option nat := snd (node_links i L).
Definition upd_next (i : nat) (v : option nat) (L : list (option nat * option nat)) :=
  <[i := (v, nprev i L)]> L.
Definition upd_prev (i : nat) (v : option nat) (L : list (option nat * option nat)) :=
  <[i := (nnext i L, v)]> L.

Definition get_next (i : nat) : M (kstate D) (option nat) := gets (fun s => nnext i (links (k_bc s))).
Definition get_prev (i : nat) : M (kstate D) (option nat) := gets (fun s => nprev i (links (k_bc s))).
Definition set_next (i : nat) (v : option nat) : M (kstate D) unit :=
  modify (fun s => set_k_bc (set_links (upd_next i v (links (k_bc s))) (k_bc s)) s).
Definition set_prev (i : nat) (v : option nat) : M (kstate D) unit :=
  modify (fun s => set_k_bc (set_links (upd_prev i v (links (k_bc s))) (k_bc s)) s).

Definition insert_head (buf_node : nat) (head_next : bool) : M (kstate D) unit :=
  on ← get_next buf_node;
  op ← get_prev buf_node;
  match on, op with
  | Some n, Some p => set_prev n (Some p);; n ← get_next buf_node ≫= some_or_fault;
                      p ← get_prev buf_node ≫= some_or_fault; set_next p (Some n)
  | _, _ => mret tt
  end;;
  if head_next then
    set_prev buf_node (Some HEAD);;
    n ← get_next HEAD;
    set_next buf_node n;;
    n ← get_next HEAD ≫= some_or_fault;
    set_prev n (Some buf_node);;
    set_next HEAD (Some buf_node)
  else
    set_next buf_node (Some HEAD);;
    p ← get_prev HEAD;
    set_prev buf_node p;;
    p ← get_prev HEAD ≫= some_or_fault;
    set_next p (Some buf_node);;
    set_prev HEAD (Some buf_node).

(** [buf_cache[i].buf.f = v] *)
Definition upd_buf (i : nat) (f : buf -> buf) : M (kstate D) unit :=
  b ← gets (fun s => buf_of s i) ≫= some_or_fault;
  modify (put_buf i (f b)).
Definition get_buf {A} (i : nat) (f : buf -> A) : M (kstate D) A :=
  b ← gets (fun s => buf_of s i) ≫= some_or_fault; mret (f b).

Definition bc_lk : lockref D :=
  mk_lockref (fun s => lk_buf_cache (k_bc s)) (fun l s => set_k_bc (set_lk_buf_cache l (k_bc s)) s).
Definition buf_slk (i : nat) : lockref D :=
  mk_lockref (fun s => match buf_of s i with Some b => slk b | None => zero_lock end)
             (fun l s => match buf_of s i with Some b => put_buf i (set_slk l b) s | None => s end).

Definition buf_init : M (kstate D) unit :=
  with_lock bc_lk (spinlock_init "buf_cache");;
  set_next HEAD (Some HEAD);;
  set_prev HEAD (Some HEAD);;
  for_each (seq 0 N_BLOCK_BUF) (fun i =>
    upd_buf i (set_block_num BLOCK_NUM_UNUSED);;
    upd_buf i (set_buf_ref 0);;
    upd_buf i (set_disk false);;
    with_lock (buf_slk i) (spinlock_init "buf");;
    upd_buf i (set_data zero_block);;
    insert_head i false).

(** [while (node != &head_buf)]; the list has at most 64 nodes. *)
Fixpoint buf_search (fuel : nat) (node : nat) (block : Z) : M (kstate D) (option nat) :=
  if bool_decide (node = HEAD) then mret None else
  match fuel with
  | O => no_fuel
  | S fuel' =>
      bn ← get_buf node block_num;
      if bn =? block then mret (Some node)
      else n ← get_next node ≫= some_or_fault; buf_search fuel' n block
  end.

Definition buf_read (block : Z) : M (kstate D) nat :=
  acquire bc_lk;;
  node ← get_next HEAD ≫= some_or_fault;
  found ← buf_search N_BLOCK_BUF node block;
  match found with
  | Some node =>
      upd_buf node (fun b => set_buf_ref (u32 (buf_ref b + 1)) b);;
      release bc_lk;;
      acquire (buf_slk node);;
      mret node
  | None =>
      p ← get_prev HEAD;
      when (bool_decide (p = Some HEAD)) (panic "buf_read: no available buffer");;
      buf_node ← get_prev HEAD ≫= some_or_fault;
      r ← get_buf buf_node buf_ref;
      when (negb (r =? 0)) (panic "buf_read: buffer still referenced");;
      upd_buf buf_node (set_block_num block);;
      upd_buf buf_node (set_buf_ref 1);;
      insert_head buf_node true;;
      release bc_lk;;
      acquire (buf_slk buf_node);;
      virtio_disk_rw buf_node false;;
      mret buf_node
  end.

Definition buf_write (buf : nat) : M (kstate D) unit :=
  h ← holding (buf_slk buf);
  when (negb h) (panic "buf_write: buffer not locked");;
  virtio_disk_rw buf true.

Definition buf_release (buf : nat) : M (kstate D) unit :=
  h ← holding (buf_slk buf);
  when (negb h) (panic "buf_release: buffer not locked");;
  release (buf_slk buf);;
  acquire bc_lk;;
  upd_buf buf (fun b => set_buf_ref (u32 (buf_ref b - 1)) b);;
  r ← get_buf buf buf_ref;
  when (r =? 0) (
    upd_buf buf (set_block_num BLOCK_NUM_UNUSED);;
    insert_head buf false);;
  release bc_lk.

Definition index_to_buf (index : Z) : option nat :=
  if (index <? 0) || (Z.of_nat N_BLOCK_BUF <=? index) then None else Some (Z.to_nat index).

(** For a pointer into [buf_cache]. *)
Definition buf_to_index (buf : nat) : Z :=
  let index := Z.of_nat buf in
  if (index <? 0) || (Z.of_nat N_BLOCK_BUF <=? index) then -1 else index.

(** [buf->data[...] = ...], by the holder of the buffer. *)
Definition set_buf_data (i : nat) (l : list Z) : M (kstate D) unit := upd_buf i (set_data l).
Definition upd_data (i : nat) (f : list Z -> list Z) : M (kstate D) unit :=
  upd_buf i (fun b => set_data (f (data b)) b).
End Ops.

(** ** The circular list *)

Section Ring.
Implicit Types (L : list (option nat * option nat)) (xs l : list nat).

Fixpoint path L xs : Prop :=
  match xs with
  | a :: (b :: _) as t => nnext a L = Some b /\ nprev b L = Some a /\ path L t
  | _ => True
  end.

(** The nodes after the head, in the order of [next], are [l]. *)
Record ring L l : Prop := {
  ring_path : path L (HEAD :: l ++ [HEAD]);
  ring_nodup : NoDup (HEAD :: l);
  ring_valid : Forall (fun i => (i < length L)%nat) (HEAD :: l)
}.

Lemma path_app L xs a ys : path L (xs ++ a :: ys) <-> path L (xs ++ [a]) /\ path L (a :: ys).
Proof.
  induction xs as [|x xs IH]; [simpl; tauto|].
  destruct xs as [|x' xs]; [simpl; tauto|].
  cbn [app path] in *. tauto.
Qed.

(** A path only looks at [next] of all nodes but the last and at [prev] of all
    but the first. *)
Lemma path_ext L L' xs a z :
  (forall i, i ∈ a :: xs -> nnext i L' = nnext i L) ->
  (forall i, i ∈ xs ++ [z] -> nprev i L' = nprev i L) ->
  path L (a :: xs ++ [z]) -> path L' (a :: xs ++ [z]).
Proof.
  revert a; induction xs as [|x xs IH]; intros a Hn Hp; cbn [app path].
  - rewrite Hn, Hp by set_solver. tauto.
  - rewrite Hn, Hp by set_solver. intros (?&?&?). split_and!; [done..|].
    apply IH; [set_solver.. | done].
Qed.

Lemma node_links_insert i j v L :
  (i < length L)%nat -> node_links j (<[i := v]> L) = if decide (i = j) then v else node_links j L.
Proof.
  intros Hi. unfold node_links. case_decide as Hij.
  - subst. by rewrite list_lookup_insert_eq.
  - by rewrite list_lookup_insert_ne.
Qed.

Lemma nnext_upd_next i j v L :
  (i < length L)%nat -> nnext j (upd_next i v L) = if decide (i = j) then v else nnext j L.
Proof. intros. unfold nnext, upd_next. rewrite node_links_insert by done. by case_decide. Qed.
Lemma nprev_upd_next i j v L : (i < length L)%nat -> nprev j (upd_next i v L) = nprev j L.
Proof. intros. unfold nprev, upd_next. rewrite node_links_insert by done. by case_decide; subst. Qed.
Lemma nprev_upd_prev i j v L :
  (i < length L)%nat -> nprev j (upd_prev i v L) = if decide (i = j) then v else nprev j L.
Proof. intros. unfold nprev, upd_prev. rewrite node_links_insert by done. by case_decide. Qed.
Lemma nnext_upd_prev i j v L : (i < length L)%nat -> nnext j (upd_prev i v L) = nnext j L.
Proof. intros. unfold nnext, upd_prev. rewrite node_links_insert by done. by case_decide; subst. Qed.
Lemma length_upd_next i v L : length (upd_next i v L) = length L.
Proof. apply length_insert. Qed.
Lemma length_upd_prev i v L : length (upd_prev i v L) = length L.
Proof. apply length_insert. Qed.

Lemma cons_snoc (x : nat) l : exists a p, x :: l = a ++ [p].
Proof.
  revert x; induction l as [|y l IH]; intros x; [by exists [], x|].
  destruct (IH y) as (a & p & ->). by exists (x :: a), p.
Qed.

Lemma snoc_cons (x : nat) l : exists n c, l ++ [x] = n :: c.
Proof. destruct l; simpl; eauto. Qed.

Lemma path_link L a p n c :
  path L (a ++ [p]) -> path L (n :: c) -> nnext p L = Some n -> nprev n L = Some p ->
  path L (a ++ p :: n :: c).
Proof. intros Ha Hc ? ?. apply path_app. split; [done|]. by split_and!. Qed.

(** [path_ext] for the two ends of a node that is cut out or put in. *)
Lemma path_ext_snoc L L' a p :
  (forall i, i ∈ a -> nnext i L' = nnext i L) ->
  (forall i, i ∈ tail (a ++ [p]) -> nprev i L' = nprev i L) ->
  path L (a ++ [p]) -> path L' (a ++ [p]).
Proof. destruct a as [|x a]; [done|]. apply path_ext. Qed.

Lemma path_ext_cons L L' n c z :
  (forall i, i ∈ n :: c -> nnext i L' = nnext i L) ->
  (forall i, i ∈ c ++ [z] -> nprev i L' = nprev i L) ->
  path L (n :: c ++ [z]) -> path L' (n :: c ++ [z]).
Proof. apply path_ext. Qed.

End Ring.

Ltac upd_links :=
  let side := (repeat first [rewrite length_upd_prev | rewrite length_upd_next]; assumption) in
  repeat first [rewrite nnext_upd_next by side | rewrite nnext_upd_prev by side
               | rewrite nprev_upd_next by side | rewrite nprev_upd_prev by side].

Section Surgery.
Implicit Types (L : list (option nat * option nat)) (xs l : list nat).

(** [insert_head]'s two halves as functions on the links. *)
Definition unlink (n p : nat) L := upd_next p (Some n) (upd_prev n (Some p) L).
Definition link_front (x n : nat) L :=
  upd_next HEAD (Some x) (upd_prev n (Some x) (upd_next x (Some n) (upd_prev x (Some HEAD) L))).
Definition link_back (x p : nat) L :=
  upd_prev HEAD (Some x) (upd_next p (Some x) (upd_prev x (Some p) (upd_next x (Some HEAD) L))).

Lemma ring_first L l : ring L l -> exists n, nnext HEAD L = Some n /\ n = default HEAD (head l).
Proof. intros [Hp _ _]. destruct l; simpl in *; naive_solver. Qed.

Lemma ring_last L l : ring L l -> exists p, nprev HEAD L = Some p /\ p = default HEAD (last l).
Proof.
  intros [Hp _ _]. destruct l as [|x l _] using rev_ind; [simpl in *; naive_solver|].
  rewrite last_snoc. exists x. split; [|done].
  rewrite <- app_assoc in Hp. change (HEAD :: l ++ [x] ++ [HEAD]) with ((HEAD :: l) ++ x :: [HEAD]) in Hp.
  apply path_app in Hp. simpl in Hp. tauto.
Qed.

Lemma ring_unlink L l1 x l2 :
  ring L (l1 ++ x :: l2) -> exists n p,
    nnext x L = Some n /\ nprev x L = Some p /\ n <> x /\ p <> x /\
    (n < length L)%nat /\ (p < length L)%nat /\ ring (unlink n p L) (l1 ++ l2).
Proof.
  intros [Hp Hnd Hv]. destruct (cons_snoc HEAD l1) as (a & p & Ha). destruct (snoc_cons HEAD l2) as (n & c & Hc).
  rewrite <- app_assoc in Hp. cbn [app] in Hp. change (HEAD :: l1 ++ x :: l2 ++ [HEAD])
    with ((HEAD :: l1) ++ x :: (l2 ++ [HEAD])) in Hp.
  rewrite Ha, Hc in Hp. rewrite <- app_assoc in Hp. cbn [app] in Hp.
  apply path_app in Hp. destruct Hp as [Hap (Hpx & Hxp & Hxn & Hnx & Hnc)].
  assert (p ∈ HEAD :: l1) as Hpin by (rewrite Ha; set_solver).
  assert (n ∈ l2 ++ [HEAD]) as Hnin by (rewrite Hc; set_solver).
  rewrite list.Forall_forall in Hv. assert (NoDup (a ++ [p])) as Hnda.
  { rewrite <- Ha. rewrite NoDup_cons, NoDup_app in Hnd. apply NoDup_cons. set_solver. }
  assert (NoDup (n :: c)) as Hndc.
  { rewrite <- Hc. apply (NoDup_Permutation_proper _ (HEAD :: l2)); [by rewrite Permutation_app_comm|].
    rewrite NoDup_cons in *. rewrite NoDup_app, NoDup_cons in Hnd. set_solver. }
  rewrite NoDup_cons, NoDup_app, NoDup_cons in Hnd. destruct Hnd as (Hh & Hnd1 & Hd & Hx & Hnd2).
  assert (n < length L)%nat by (apply Hv; set_solver). assert (p < length L)%nat by (apply Hv; set_solver).
  exists n, p. split_and!; [done|done|set_solver|set_solver|done|done|]. split.
  - change (HEAD :: (l1 ++ l2) ++ [HEAD]) with (((HEAD :: l1) ++ l2) ++ [HEAD]).
    rewrite <- app_assoc, Ha, Hc, <- app_assoc. cbn [app]. apply path_link.
    + revert Hap. apply path_ext_snoc.
      * intros i Hi. unfold unlink. upd_links.
        rewrite decide_False; [done|]. apply NoDup_app in Hnda. set_solver.
      * rewrite <- Ha. intros i Hi. cbn [tail] in Hi. unfold unlink.
        upd_links.
        rewrite decide_False; [done|]. set_solver.
    + destruct c as [|y c _] using rev_ind; [done|]. revert Hnc. apply path_ext_cons.
      * intros i Hi. unfold unlink. upd_links.
        rewrite decide_False; [done|].
        assert (l2 = n :: c) as -> by (rewrite app_comm_cons in Hc; by apply app_inj_2 in Hc as [-> _]). set_solver.
      * intros i Hi. unfold unlink. upd_links.
        rewrite decide_False; [done|]. apply NoDup_cons in Hndc. set_solver.
    + unfold unlink. upd_links. by rewrite decide_True.
    + unfold unlink. upd_links. by rewrite decide_True.
  - rewrite NoDup_cons, NoDup_app. set_solver.
  - apply Forall_of_elem. intros i Hi. unfold unlink. rewrite length_upd_next, length_upd_prev. apply Hv. set_solver.
Qed.

Lemma ring_link_front L l x :
  ring L l -> x ∉ HEAD :: l -> (x < length L)%nat -> exists n,
    nnext HEAD L = Some n /\ n <> x /\ (n < length L)%nat /\ ring (link_front x n L) (x :: l).
Proof.
  intros [Hp Hnd Hv] Hx Hlt. destruct (snoc_cons HEAD l) as (n & c & Hc). rewrite Hc in Hp.
  destruct Hp as (Hhn & Hnh & Hnc). assert (n ∈ l ++ [HEAD]) as Hnin by (rewrite Hc; set_solver).
  rewrite list.Forall_forall in Hv. assert (n < length L)%nat by (apply Hv; set_solver).
  assert (NoDup (n :: c)) as Hndc.
  { rewrite <- Hc. apply (NoDup_Permutation_proper _ (HEAD :: l)); [by rewrite Permutation_app_comm | done]. }
  assert (HEAD < length L)%nat by (apply Hv; set_solver).
  assert (n <> x) as Hnx by set_solver.
  exists n. split_and!; [done..|]. unfold link_front. split.
  - cbn [app]. rewrite Hc. apply (path_link _ [HEAD] x n c).
    + cbn [app path]. upd_links. split_and!; repeat case_decide; by simplify_eq.
    + destruct c as [|y c _] using rev_ind; [done|]. revert Hnc. apply path_ext_cons.
      * assert (l = n :: c) as -> by (rewrite app_comm_cons in Hc; by apply app_inj_2 in Hc as [-> _]).
        intros i Hi. upd_links. rewrite NoDup_cons in Hnd. rewrite !decide_False; [done | set_solver..].
      * intros i Hi. upd_links. apply NoDup_cons in Hndc.
        assert (i ∈ l ++ [HEAD]) by (rewrite Hc; set_solver).
        rewrite !decide_False; [done | set_solver..].
    + upd_links. repeat case_decide; set_solver.
    + upd_links. by rewrite decide_True.
  - rewrite NoDup_cons in *. rewrite NoDup_cons. set_solver.
  - apply Forall_of_elem. intros i Hi. rewrite length_upd_next, length_upd_prev, length_upd_next, length_upd_prev.
    rewrite !elem_of_cons in Hi. destruct Hi as [->|[->|Hi]]; [done|done|]. apply Hv. set_solver.
Qed.

Lemma ring_link_back L l x :
  ring L l -> x ∉ HEAD :: l -> (x < length L)%nat -> exists p,
    nprev HEAD L = Some p /\ p <> x /\ (p < length L)%nat /\ ring (link_back x p L) (l ++ [x]).
Proof.
  intros [Hp Hnd Hv] Hx Hlt. destruct (cons_snoc HEAD l) as (a & p & Ha).
  change (HEAD :: l ++ [HEAD]) with ((HEAD :: l) ++ [HEAD]) in Hp.
  rewrite Ha, <- app_assoc in Hp. cbn [app] in Hp. apply path_app in Hp.
  destruct Hp as (Hap & Hph & Hhp & _). assert (p ∈ HEAD :: l) as Hpin by (rewrite Ha; set_solver).
  rewrite list.Forall_forall in Hv. assert (p < length L)%nat by (apply Hv; set_solver).
  assert (NoDup (a ++ [p])) as Hnda by (by rewrite <- Ha).
  assert (HEAD < length L)%nat by (apply Hv; set_solver).
  assert (p <> x) as Hpx by set_solver.
  exists p. split_and!; [done..|]. unfold link_back. split.
  - rewrite <- app_assoc. cbn [app]. change (HEAD :: l ++ [x; HEAD]) with ((HEAD :: l) ++ [x; HEAD]).
    rewrite Ha, <- app_assoc. cbn [app]. apply path_link.
    + revert Hap. apply path_ext_snoc.
      * intros i Hi. upd_links. assert (i ∈ HEAD :: l) by (rewrite Ha; set_solver).
        rewrite NoDup_app in Hnda. rewrite !decide_False; [done | set_solver..].
      * rewrite <- Ha. intros i Hi. cbn [tail] in Hi. upd_links. rewrite NoDup_cons in Hnd.
        rewrite !decide_False; [done | set_solver..].
    + cbn [path]. upd_links. split_and!; repeat case_decide; set_solver.
    + upd_links. by rewrite decide_True.
    + upd_links. repeat case_decide; set_solver.
  - change (HEAD :: l ++ [x]) with ((HEAD :: l) ++ [x]). rewrite NoDup_app. split_and!; [done | set_solver |].
    apply NoDup_singleton.
  - apply Forall_of_elem. intros i Hi. rewrite length_upd_prev, length_upd_next, length_upd_prev, length_upd_next.
    change (HEAD :: l ++ [x]) with ((HEAD :: l) ++ [x]) in Hi. apply elem_of_app in Hi.
    destruct Hi as [Hi|Hi]; [by apply Hv | set_solver].
Qed.

Lemma length_unlink n p L : length (unlink n p L) = length L.
Proof. unfold unlink. by rewrite length_upd_next, length_upd_prev. Qed.
Lemma length_link_front x n L : length (link_front x n L) = length L.
Proof. unfold link_front. by rewrite length_upd_next, length_upd_prev, length_upd_next, length_upd_prev. Qed.
Lemma length_link_back x p L : length (link_back x p L) = length L.
Proof. unfold link_back. by rewrite length_upd_prev, length_upd_next, length_upd_prev, length_upd_next. Qed.

End Surgery.

(** ** [insert_head] moves a node to an end of the list *)

Section Links.
Context {D : Type}.
Implicit Types (s : kstate D) (l : list nat).

Definition put_links L s : kstate D := set_k_bc (set_links L (k_bc s)) s.

Lemma bind_get_next {A} i (k : option nat -> M (kstate D) A) s :
  (get_next i ≫= k) s = k (nnext i (links (k_bc s))) s.
Proof. done. Qed.
Lemma bind_get_prev {A} i (k : option nat -> M (kstate D) A) s :
  (get_prev i ≫= k) s = k (nprev i (links (k_bc s))) s.
Proof. done. Qed.

Lemma insert_new_front L s x n :
  nnext HEAD L = Some n -> n <> x -> (x < length L)%nat -> x <> HEAD -> (HEAD < length L)%nat ->
  (set_prev x (Some HEAD);;
   m ← get_next HEAD; set_next x m;;
   m ← get_next HEAD ≫= some_or_fault; set_prev m (Some x);; set_next HEAD (Some x)) (put_links L s)
  = Ret tt (put_links (link_front x n L) s).
Proof.
  intros Hn Hnx Hx Hxh Hh. unfold set_prev, set_next, get_next. mrun.
  destruct s as [? ? ? ? ? [bf L0 lk] ? ? ? ? ?]; unfold put_links; simpl. mrun.
  rewrite nnext_upd_prev, Hn by done. mrun. simpl. mrun.
  rewrite nnext_upd_next by (by rewrite length_upd_prev). rewrite decide_False by done.
  rewrite nnext_upd_prev, Hn by done. mrun. done.
Qed.

Lemma insert_new_back L s x p :
  nprev HEAD L = Some p -> p <> x -> (x < length L)%nat -> x <> HEAD -> (HEAD < length L)%nat ->
  (set_next x (Some HEAD);;
   m ← get_prev HEAD; set_prev x m;;
   m ← get_prev HEAD ≫= some_or_fault; set_next m (Some x);; set_prev HEAD (Some x)) (put_links L s)
  = Ret tt (put_links (link_back x p L) s).
Proof.
  intros Hp Hpx Hx Hxh Hh. unfold set_prev, set_next, get_prev. mrun.
  destruct s as [? ? ? ? ? [bf L0 lk] ? ? ? ? ?]; unfold put_links; simpl. mrun.
  rewrite nprev_upd_next, Hp by done. mrun. simpl. mrun.
  rewrite nprev_upd_prev by (by rewrite length_upd_next). rewrite decide_False by done.
  rewrite nprev_upd_next, Hp by done. mrun. done.
Qed.

Lemma put_links_id s : put_links (links (k_bc s)) s = s.
Proof. by destruct s as [? ? ? ? ? [] ? ? ? ? ?]. Qed.

Lemma unlink_node s x n p :
  nnext x (links (k_bc s)) = Some n -> nprev x (links (k_bc s)) = Some p -> n <> x ->
  (n < length (links (k_bc s)))%nat ->
  (on ← get_next x; op ← get_prev x;
   match on, op with
   | Some n, Some p => set_prev n (Some p);; n ← get_next x ≫= some_or_fault;
                       p ← get_prev x ≫= some_or_fault; set_next p (Some n)
   | _, _ => mret tt
   end) s = Ret tt (put_links (unlink n p (links (k_bc s))) s).
Proof.
  intros Hn Hp Hnx Hlt. unfold get_next, get_prev, set_prev, set_next. mrun.
  destruct s as [? ? ? ? ? [bf L0 lk] ? ? ? ? ?]; simpl in *. rewrite Hn. mrun. rewrite Hp. mrun. simpl.
  rewrite nnext_upd_prev, Hn by done. mrun.
  simpl. rewrite nprev_upd_prev by done. rewrite decide_False by done. rewrite Hp. mrun. done.
Qed.

(** The node [x] moves to the front or to the back. *)
Lemma insert_head_move s l1 x l2 (b : bool) :
  ring (links (k_bc s)) (l1 ++ x :: l2) ->
  exists L', insert_head x b s = Ret tt (put_links L' s) /\ length L' = length (links (k_bc s)) /\
    ring L' (if b then x :: l1 ++ l2 else (l1 ++ l2) ++ [x]).
Proof.
  intros Hr. pose proof (ring_unlink _ _ _ _ Hr) as (n & p & Hn & Hp & Hnx & Hpx & Hnl & Hpl & Hu).
  set (L := links (k_bc s)) in *.
  destruct Hr as [_ Hnd Hv]. rewrite list.Forall_forall in Hv.
  assert (x ∉ HEAD :: l1 ++ l2 /\ x <> HEAD) as [Hx Hxh].
  { rewrite NoDup_cons, NoDup_app, NoDup_cons in Hnd. set_solver. }
  assert (x < length L)%nat as Hxl by (apply Hv; set_solver).
  assert (HEAD < length L)%nat as Hhl by (apply Hv; set_solver).
  rewrite <- (length_unlink n p) in Hxl, Hhl. unfold insert_head.
  pose proof (unlink_node s x n p Hn Hp Hnx Hnl) as Hunl.
  rewrite bind_get_next, bind_get_prev in Hunl |- *. rewrite (bind_ret_eq _ _ _ _ _ Hunl).
  destruct b.
  - destruct (ring_link_front _ _ _ Hu Hx Hxl) as (n' & Hn' & Hnx' & _ & Hr').
    exists (link_front x n' (unlink n p L)).
    rewrite length_link_front, length_unlink. split_and!; [|done..].
    by apply insert_new_front.
  - destruct (ring_link_back _ _ _ Hu Hx Hxl) as (p' & Hp' & Hpx' & _ & Hr').
    exists (link_back x p' (unlink n p L)).
    rewrite length_link_back, length_unlink. split_and!; [|done..].
    by apply insert_new_back.
Qed.

(** The first insertion of a node, whose pointers are still NULL. *)
Lemma insert_head_fresh s l x :
  ring (links (k_bc s)) l -> x ∉ HEAD :: l -> (x < length (links (k_bc s)))%nat ->
  nnext x (links (k_bc s)) = None ->
  exists L', insert_head x false s = Ret tt (put_links L' s) /\ length L' = length (links (k_bc s)) /\
    ring L' (l ++ [x]) /\ (forall y, y ∉ HEAD :: x :: l -> nnext y L' = nnext y (links (k_bc s))).
Proof.
  intros Hr Hx Hxl Hn. set (L := links (k_bc s)) in *.
  destruct (ring_link_back _ _ _ Hr Hx Hxl) as (p' & Hp' & Hpx' & Hpl & Hr').
  pose proof (ring_last _ _ Hr) as (p'' & Hp'' & Hlast).
  destruct Hr as [_ _ Hv]. apply Forall_cons in Hv as [Hhl _].
  exists (link_back x p' L). rewrite length_link_back. split_and!; [| done | done |].
  - unfold insert_head. rewrite bind_get_next, bind_get_prev. fold L. rewrite Hn. rewrite bind_mret.
    rewrite <- (put_links_id s) at 1. fold L. apply insert_new_back; [done | done | done | set_solver | done].
  - intros y Hy. unfold link_back. upd_links.
    assert (p' = default HEAD (last l)) as Hpe by congruence.
    assert (p' ∈ HEAD :: l).
    { rewrite Hpe. destruct (last l) as [z|] eqn:Hz; simpl; [|set_solver]. apply last_Some_elem_of in Hz. set_solver. }
    rewrite !decide_False; [done | set_solver..].
Qed.
End Links.

(** ** The state of the cache *)

(** A buffer that this hart holds: its index, its block, its content. *)
Abbreviation hbuf := (nat * Z * list Z)%type.
Definition h_idx (h : hbuf) : nat := h.1.1.
Definition h_blk (h : hbuf) : Z := h.1.2.
Definition h_dat (h : hbuf) : list Z := h.2.

Definition good_data (l : list Z) : Prop := length l = Z.to_nat BLOCK_SIZE /\ is_bytes l.

(** Block numbers that the cache can tell from BLOCK_NUM_UNUSED. *)
Definition blk_ok (x : Z) : Prop := 0 <= x < BLOCK_NUM_UNUSED.

Section Cache.
Context {D : Type} `{!BlockDev D, !BlockDevLaws D, !DiskDriver D, !DiskDriverOk D}.
Implicit Types (s : kstate D) (H : list hbuf) (free : list nat).

Definition free_buf s (i : nat) : Prop := exists b,
  buf_of s i = Some b /\ block_num b = BLOCK_NUM_UNUSED /\ buf_ref b = 0 /\ is_free (slk b) /\ good_data (data b).

Definition held_buf s (h : hbuf) : Prop := exists b,
  buf_of s (h_idx h) = Some b /\ block_num b = h_blk h /\ buf_ref b = 1 /\
  held_by (hartid (k_cpu s)) (slk b) /\ data b = h_dat h.

(** The buffers in use are the ones this hart holds, [H]; the others are free. *)
Record cache_inv s H free : Prop := {
  ci_ring : ring (links (k_bc s)) ((h_idx <$> H) ++ free);
  ci_links : length (links (k_bc s)) = S N_BLOCK_BUF;
  ci_perm : Permutation ((h_idx <$> H) ++ free) (seq 0 N_BLOCK_BUF);
  ci_lk : is_free (lk_buf_cache (k_bc s));
  ci_free : Forall (free_buf s) free;
  ci_held : Forall (held_buf s) H;
  ci_data : Forall (fun h => good_data (h_dat h)) H;
  ci_blocks : NoDup (h_blk <$> H);
  ci_unused : Forall (fun h => blk_ok (h_blk h)) H;
  ci_cpu : cpu_wf (k_cpu s);
  ci_noff : Z.of_nat (length H) <= noff (k_cpu s);
  ci_vd : vd_ready (k_vd s)
}.

Definition cache s H : Prop := exists free, cache_inv s H free.

(** Only the cache, the driver, the disk and this CPU's interrupt state differ. *)
Definition frame s s' : Prop :=
  s' = set_k_cpu (k_cpu s') (set_k_bc (k_bc s') (set_k_vd (k_vd s') (set_k_dev (k_dev s') s))).

#[export] Instance frame_equiv : Equivalence frame.
Proof.
  split.
  - intros []. done.
  - intros [] []; unfold frame; simpl. unfold set_k_cpu; simpl. congruence.
  - intros [] [] []; unfold frame, set_k_cpu; simpl. congruence.
Qed.

Lemma ci_count s H free : cache_inv s H free -> (length H + length free)%nat = N_BLOCK_BUF.
Proof.
  intros Hc. pose proof (Permutation_length (ci_perm _ _ _ Hc)) as Hl.
  by rewrite length_app, length_fmap, length_seq in Hl.
Qed.

Lemma ci_idx s H free i : cache_inv s H free -> i ∈ (h_idx <$> H) ++ free -> (i < N_BLOCK_BUF)%nat.
Proof. intros Hc. rewrite (ci_perm _ _ _ Hc), elem_of_seq. lia. Qed.

Lemma buf_of_put i j b s : (i < length (bufs (k_bc s)))%nat ->
  buf_of (put_buf i b s) j = if decide (i = j) then Some b else buf_of s j.
Proof.
  intros Hi. unfold buf_of, put_buf; simpl. case_decide as Hij; subst.
  - by rewrite list_lookup_insert_eq.
  - by rewrite list_lookup_insert_ne.
Qed.

Lemma buf_of_lt s i b : buf_of s i = Some b -> (i < length (bufs (k_bc s)))%nat.
Proof. apply lookup_lt_Some. Qed.

(** The search of [buf_read]: the first node of the list with this block. *)
Definition has_block s (x : Z) (i : nat) : bool :=
  match buf_of s i with Some b => block_num b =? x | None => false end.

Lemma buf_search_eq s xs fuel x :
  path (links (k_bc s)) (xs ++ [HEAD]) -> HEAD ∉ xs -> Forall (fun i => is_Some (buf_of s i)) xs ->
  (length xs <= fuel)%nat ->
  buf_search fuel (default HEAD (head xs)) x s = Ret (List.find (has_block s x) xs) s.
Proof.
  revert fuel; induction xs as [|i xs IH]; intros fuel Hp Hh Hb Hf.
  { by destruct fuel. }
  destruct fuel as [|fuel]; simpl in Hf; [lia|]. change (default HEAD (head (i :: xs))) with i.
  cbn [buf_search List.find].
  rewrite bool_decide_eq_false_2 by set_solver.
  apply Forall_cons in Hb as [[b Hb] Hbs]. unfold get_buf, get_next. mrun.
  unfold has_block at 1. rewrite Hb. mrun. destruct (block_num b =? x); [done|].
  mrun. assert (nnext i (links (k_bc s)) = Some (default HEAD (head xs)) /\
                path (links (k_bc s)) (xs ++ [HEAD])) as [-> Hp'].
  { destruct xs; simpl in *; tauto. }
  mrun. apply IH; [done | set_solver | done | lia].
Qed.

Lemma upd_buf_eq s i f b : buf_of s i = Some b -> upd_buf i f s = Ret tt (put_buf i (f b) s).
Proof. intros Hb. unfold upd_buf. mrun. by rewrite Hb. Qed.

Lemma bind_get_buf {A B} s i (f : buf -> A) b (k : A -> M (kstate D) B) :
  buf_of s i = Some b -> (get_buf i f ≫= k) s = k (f b) s.
Proof. intros Hb. unfold get_buf. mrun. by rewrite Hb. Qed.

(** Every node of the list is a buffer; which block each one has. *)
Lemma ci_node s H free i : cache_inv s H free -> i ∈ (h_idx <$> H) ++ free ->
  exists b, buf_of s i = Some b /\ ((i ∈ free /\ block_num b = BLOCK_NUM_UNUSED) \/
    exists h, h ∈ H /\ h_idx h = i /\ block_num b = h_blk h).
Proof.
  intros Hc [Hi|Hi]%elem_of_app.
  - apply list_elem_of_fmap in Hi as (h & -> & Hh).
    destruct (Forall_elem _ _ _ (ci_held _ _ _ Hc) Hh) as (b & ? & ? & _). eauto 10.
  - destruct (Forall_elem _ _ _ (ci_free _ _ _ Hc) Hi) as (b & ? & ? & _). eauto 10.
Qed.

Lemma ci_search s H free x : cache_inv s H free -> blk_ok x -> x ∉ h_blk <$> H ->
  List.find (has_block s x) ((h_idx <$> H) ++ free) = None.
Proof.
  intros Hc Hx Hnin. destruct (List.find _ _) as [i|] eqn:Hf; [|done].
  apply find_some in Hf as [Hin Hb]. apply list_elem_of_In in Hin.
  destruct (ci_node _ _ _ _ Hc Hin) as (b & Hi & Hblk). unfold has_block in Hb. rewrite Hi in Hb.
  apply Z.eqb_eq in Hb. destruct Hblk as [[_ Hu]|(h & Hh & _ & Hu)].
  - unfold blk_ok in Hx. lia.
  - destruct Hnin. rewrite <- Hb, Hu. by apply list_elem_of_fmap_2.
Qed.

(** Facts about the buffers survive changes to the links, locks and counters. *)
Lemma free_buf_ext s s' i : buf_of s' i = buf_of s i -> free_buf s i -> free_buf s' i.
Proof. unfold free_buf. by intros ->. Qed.
Lemma held_buf_ext s s' h : buf_of s' (h_idx h) = buf_of s (h_idx h) ->
  hartid (k_cpu s') = hartid (k_cpu s) -> held_buf s h -> held_buf s' h.
Proof. unfold held_buf. by intros -> ->. Qed.

Lemma put_buf_twice i b b' s : put_buf i b' (put_buf i b s) = put_buf i b' s.
Proof. unfold put_buf. destruct s as [? ? ? ? ? [] ? ? ? ? ?]. simpl. by rewrite list_insert_insert_eq. Qed.

Lemma find_ring s H free :
  cache_inv s H free ->
  path (links (k_bc s)) (((h_idx <$> H) ++ free) ++ [HEAD]) /\ HEAD ∉ (h_idx <$> H) ++ free /\
  (length ((h_idx <$> H) ++ free) <= N_BLOCK_BUF)%nat /\
  Forall (fun i => is_Some (buf_of s i)) ((h_idx <$> H) ++ free).
Proof.
  intros Hc. destruct (ci_ring _ _ _ Hc) as [Hp Hnd _]. split_and!.
  - destruct ((h_idx <$> H) ++ free); simpl in *; tauto.
  - by apply NoDup_cons in Hnd as [? _].
  - rewrite length_app, length_fmap, (ci_count _ _ _ Hc). done.
  - apply Forall_of_elem. intros i Hi. destruct (ci_node _ _ _ _ Hc Hi) as (b & -> & _). eauto.
Qed.

Lemma acquire_slk s i b : buf_of s i = Some b -> is_free (slk b) ->
  acquire (buf_slk i) s
  = Ret tt (set_k_cpu (cpu_push (k_cpu s)) (put_buf i (set_slk (take_lock (hartid (k_cpu s)) (slk b)) b) s)).
Proof. intros Hb Hf. rewrite acquire_eq; cbn [lk_get lk_set buf_slk]; by rewrite Hb. Qed.

Lemma release_slk s i b : buf_of s i = Some b -> cpu_wf (k_cpu s) -> 0 < noff (k_cpu s) ->
  held_by (hartid (k_cpu s)) (slk b) ->
  release (buf_slk i) s
  = Ret tt (set_k_cpu (cpu_pop (k_cpu s)) (put_buf i (set_slk (drop_lock (slk b)) b) s)).
Proof. intros Hb ? ? ?. rewrite release_eq; cbn [lk_get lk_set buf_slk]; by rewrite ?Hb. Qed.

Lemma holding_slk {B} s i b (k : bool -> M (kstate D) B) : buf_of s i = Some b ->
  (holding (buf_slk i) ≫= k) s = k (negb (locked (slk b) =? 0) && (lk_cpuid (slk b) =? hartid (k_cpu s))) s.
Proof.
  intros Hb. destruct s as [c ? ? ? ? [bs L lk] ? ? ? ? ?], b as [l bn dt rf dk]. unfold buf_of in Hb; simpl in Hb.
  assert (<[i := mk_buf l bn dt rf dk]> bs = bs) as Hid by (by apply list_insert_id).
  unfold holding, with_lock, spinlock_holding, mbind, M_bind, gets, buf_slk, buf_of. simpl. rewrite Hb.
  unfold put_buf, set_slk, set_k_bc, set_bufs, set_k_cpu. simpl. by rewrite Hid.
Qed.

(** The last free buffer becomes the first one in use. *)
Lemma cache_inv_cons s sf H free i b :
  cache_inv s H (free ++ [i]) ->
  (forall j, buf_of sf j = if decide (i = j) then Some b else buf_of s j) ->
  ring (links (k_bc sf)) (i :: (h_idx <$> H) ++ free) ->
  length (links (k_bc sf)) = length (links (k_bc s)) -> is_free (lk_buf_cache (k_bc sf)) ->
  blk_ok (block_num b) -> block_num b ∉ h_blk <$> H -> buf_ref b = 1 ->
  held_by (hartid (k_cpu s)) (slk b) -> good_data (data b) ->
  k_cpu sf = cpu_push (k_cpu s) -> vd_ready (k_vd sf) ->
  cache_inv sf ((i, block_num b, data b) :: H) free.
Proof.
  intros Hc Hbuf Hring Hlen Hlk Hx Hnin Href Hheld Hgood Hcpu Hvd.
  assert (i ∉ (h_idx <$> H) ++ free) as Hinew.
  { destruct Hring as [_ Hnd _]. rewrite !NoDup_cons in Hnd. tauto. }
  split; cbn [fmap list_fmap h_idx h_blk h_dat fst snd app].
  - done.
  - rewrite Hlen. apply (ci_links _ _ _ Hc).
  - rewrite <- (ci_perm _ _ _ Hc), (Permutation_app_comm free [i]). simpl. by rewrite Permutation_middle.
  - done.
  - apply Forall_of_elem. intros j Hj. pose proof (ci_free _ _ _ Hc) as [Hf _]%Forall_app.
    eapply free_buf_ext, Forall_elem, Hj; [|done]. rewrite Hbuf. rewrite decide_False; [done | set_solver].
  - apply list.Forall_cons. split.
    + exists b. rewrite Hbuf, decide_True by done. rewrite Hcpu. by split_and!.
    + apply Forall_of_elem. intros h Hh.
      eapply held_buf_ext; [| |eapply Forall_elem, Hh; apply (ci_held _ _ _ Hc)]; [|by rewrite Hcpu].
      rewrite Hbuf, decide_False; [done|]. intros ->. destruct Hinew. apply elem_of_app. left.
      by apply list_elem_of_fmap_2.
  - apply list.Forall_cons. split; [done | apply (ci_data _ _ _ Hc)].
  - constructor; [done | apply (ci_blocks _ _ _ Hc)].
  - apply list.Forall_cons. split; [done | apply (ci_unused _ _ _ Hc)].
  - rewrite Hcpu. apply cpu_push_wf, (ci_cpu _ _ _ Hc).
  - rewrite Hcpu. pose proof (ci_noff _ _ _ Hc). cbn -[Z.of_nat]. lia.
  - done.
Qed.

(** [buf_read] up to the release of [lk_buf_cache]: the last free buffer is taken. *)
Lemma buf_read_take s H free i x :
  cache_inv s H (free ++ [i]) -> blk_ok x -> x ∉ h_blk <$> H ->
  exists s3 b, buf_read x s = (acquire (buf_slk i);; virtio_disk_rw i false;; mret i) s3 /\
    frame s s3 /\ k_dev s3 = k_dev s /\ k_vd s3 = k_vd s /\ k_cpu s3 = cpu_touch (k_cpu s) /\
    (forall j, buf_of s3 j = if decide (i = j) then Some b else buf_of s j) /\
    is_free (slk b) /\ block_num b = x /\ buf_ref b = 1 /\
    ring (links (k_bc s3)) (i :: (h_idx <$> H) ++ free) /\
    length (links (k_bc s3)) = length (links (k_bc s)) /\ is_free (lk_buf_cache (k_bc s3)).
Proof.
  intros Hc Hx Hnin. pose proof (find_ring _ _ _ Hc) as (Hpath & Hhd & Hlen & Hsome).
  pose proof (ci_search _ _ _ _ Hc Hx Hnin) as Hfind.
  pose proof (ci_ring _ _ _ Hc) as Hring.
  destruct (ring_first _ _ Hring) as (n0 & Hn0 & ->). destruct (ring_last _ _ Hring) as (p0 & Hp0 & ->).
  rewrite app_assoc, last_snoc in Hp0. simpl in Hp0.
  assert (i <> HEAD) as Hih by set_solver.
  assert (free_buf s i) as (b & Hb & _ & Href & Hslk & Hgood).
  { eapply Forall_elem; [apply (ci_free _ _ _ Hc) | set_solver]. }
  pose proof (buf_of_lt _ _ _ Hb) as Hilt. pose proof (ci_cpu _ _ _ Hc) as Hcpu.
  unfold buf_read. mstep ltac:(apply acquire_eq, (ci_lk _ _ _ Hc)).
  set (s1 := set_k_cpu _ _). rewrite bind_get_next. change (links (k_bc s1)) with (links (k_bc s)).
  rewrite Hn0. mrun.
  rewrite (bind_ret_eq _ _ _ _ _ (buf_search_eq s1 _ _ x Hpath Hhd Hsome Hlen)).
  change (has_block s1 x) with (has_block s x). rewrite Hfind.
  rewrite bind_get_prev. change (links (k_bc s1)) with (links (k_bc s)). rewrite Hp0.
  rewrite bool_decide_eq_false_2 by congruence. mrun. rewrite bind_get_prev.
  change (links (k_bc s1)) with (links (k_bc s)). rewrite Hp0. mrun.
  change (buf_of s i) with (buf_of s1 i) in Hb. rewrite (bind_get_buf _ _ _ b) by done.
  rewrite Href. mrun.
  mstep ltac:(by apply upd_buf_eq).
  mstep ltac:(apply upd_buf_eq; rewrite buf_of_put by done; by rewrite decide_True).
  rewrite put_buf_twice. set (b2 := set_buf_ref 1 _).
  destruct (insert_head_move (put_buf i b2 s1) ((h_idx <$> H) ++ free) i [] true) as (L' & Hins & HL' & Hring').
  { by rewrite <- app_assoc. }
  mstep ltac:(exact Hins). clear Hins.
  mstep ltac:(apply release_eq; simpl; [auto with locks | destruct Hcpu; lia | done]).
  eexists _, b2. split; [reflexivity|]. rewrite app_nil_r in Hring'. split_and!; try done.
  - simpl. by rewrite cpu_pop_push.
  - intros j. unfold buf_of, put_buf; simpl. rewrite list_lookup_insert. repeat case_decide; tauto.
Qed.

(** A block that is not in the cache is read into the last free buffer. *)
Lemma buf_read_miss s H free i x :
  cache_inv s H (free ++ [i]) -> blk_ok x -> x ∉ h_blk <$> H ->
  exists s', buf_read x s = Ret i s' /\ frame s s' /\ k_dev s' = k_dev s /\
    k_cpu s' = cpu_push (k_cpu s) /\ cache_inv s' ((i, x, block (k_dev s) x) :: H) free.
Proof.
  intros Hc Hx Hnin. pose proof (ci_cpu _ _ _ Hc) as Hcpu.
  destruct (buf_read_take s H free i x Hc Hx Hnin)
    as (s3 & b & -> & Hfr & Hdev & Hvd3 & Hcpu3 & Hbuf & Hslk & Hbn & Href & Hring & Hlen & Hlk).
  assert (buf_of s3 i = Some b) as Hb by (by rewrite Hbuf, decide_True).
  mstep ltac:(exact (acquire_slk _ _ _ Hb Hslk)).
  assert (cpu_push (k_cpu s3) = cpu_push (k_cpu s)) as -> by (rewrite Hcpu3; apply cpu_push_touch).
  pose proof (buf_of_lt _ _ _ Hb) as Hlt.
  destruct (disk_read_ok (set_k_cpu (cpu_push (k_cpu s))
      (put_buf i (set_slk (take_lock (hartid (k_cpu s3)) (slk b)) b) s3)) i
      (set_slk (take_lock (hartid (k_cpu s3)) (slk b)) b)) as (vd & Hvd & Hrw).
  { change (buf_of (put_buf i (set_slk (take_lock (hartid (k_cpu s3)) (slk b)) b) s3) i
      = Some (set_slk (take_lock (hartid (k_cpu s3)) (slk b)) b)).
    rewrite buf_of_put by done. by rewrite decide_True. }
  { by apply cpu_push_wf. }
  { change (vd_ready (k_vd s3)). rewrite Hvd3. apply (ci_vd _ _ _ Hc). }
  mstep ltac:(exact Hrw). clear Hrw. eexists. split; [done|].
  change (k_cpu (set_k_cpu ?c _)) with c. change (k_dev (set_k_cpu ?c (put_buf i ?b s3))) with (k_dev s3).
  destruct (cpu_touch_push (k_cpu s)) as [Htp|]; [|destruct Hcpu; lia]. rewrite Htp.
  split_and!; [| done | done |].
  { rewrite Hfr. unfold frame. by destruct s as [? ? ? ? ? [] ? ? ? ? ?]. }
  rewrite Hdev. subst x. apply (cache_inv_cons s _ H free i (set_disk false (set_data (block (k_dev s) (block_num b))
    (set_slk (take_lock (hartid (k_cpu s3)) (slk b)) b)))); try done.
  - intros j. unfold buf_of, put_buf; simpl. rewrite list_insert_insert_eq, list_lookup_insert.
    specialize (Hbuf j). unfold buf_of in Hbuf. repeat case_decide; try done; tauto.
  - by rewrite Hcpu3.
  - split; [apply length_block | apply is_bytes_block].
Qed.

Lemma ci_held_mid s H1 i x l H2 free : cache_inv s (H1 ++ (i, x, l) :: H2) free ->
  exists b, buf_of s i = Some b /\ block_num b = x /\ buf_ref b = 1 /\
    held_by (hartid (k_cpu s)) (slk b) /\ data b = l.
Proof.
  intros Hc. change (held_buf s (i, x, l)).
  apply (Forall_elem (held_buf s) (H1 ++ (i, x, l) :: H2)); [apply (ci_held _ _ _ Hc) | set_solver].
Qed.

Lemma ci_touch s H1 h H2 free : cache_inv s (H1 ++ h :: H2) free -> cpu_touch (k_cpu s) = k_cpu s.
Proof.
  intros Hc. pose proof (ci_noff _ _ _ Hc) as Hn. rewrite length_app in Hn. simpl in Hn.
  unfold cpu_touch. rewrite (proj2 (Z.eqb_neq _ _)) by lia. by destruct (k_cpu s).
Qed.

Lemma ci_idx_mid s H1 h H2 free g :
  cache_inv s (H1 ++ h :: H2) free -> g ∈ H1 ++ H2 -> h_idx h <> h_idx g.
Proof.
  intros Hc Hg He. destruct (ci_ring _ _ _ Hc) as [_ Hnd _]. apply NoDup_cons in Hnd as [_ Hnd].
  rewrite fmap_app, fmap_cons, <- app_assoc in Hnd. cbn [app] in Hnd.
  rewrite NoDup_app, NoDup_cons in Hnd. destruct Hnd as (_ & Hd & Hn & _). rewrite He in *.
  apply elem_of_app in Hg as [Hg|Hg]; apply (list_elem_of_fmap_2 h_idx) in Hg; set_solver.
Qed.

(** The content of a buffer in use changes. *)
Lemma cache_inv_upd s sf H1 i x l l' H2 free b :
  cache_inv s (H1 ++ (i, x, l) :: H2) free ->
  (forall j, buf_of sf j = if decide (i = j) then Some b else buf_of s j) ->
  block_num b = x -> buf_ref b = 1 -> held_by (hartid (k_cpu s)) (slk b) -> data b = l' -> good_data l' ->
  links (k_bc sf) = links (k_bc s) -> lk_buf_cache (k_bc sf) = lk_buf_cache (k_bc s) ->
  k_cpu sf = k_cpu s -> vd_ready (k_vd sf) ->
  cache_inv sf (H1 ++ (i, x, l') :: H2) free.
Proof.
  intros Hc Hbuf Hx Href Hheld Hdat Hgood Hl Hlk Hcpu Hvd.
  assert (forall g, g ∈ H1 ++ H2 -> held_buf sf g) as Hother.
  { intros g Hg. eapply held_buf_ext; [| |eapply Forall_elem; [apply (ci_held _ _ _ Hc)|set_solver]].
    - rewrite Hbuf, decide_False; [done|]. by apply (ci_idx_mid _ _ _ _ _ _ Hc).
    - by rewrite Hcpu. }
  destruct Hc as [Hring Hlen Hperm Hlk0 Hfree Hh Hd Hb Hu Hc0 Hn0 Hv].
  rewrite fmap_app, fmap_cons in Hring, Hperm. rewrite fmap_app, fmap_cons in Hb. rewrite length_app in Hn0. simpl in Hn0.
  rewrite Forall_app, list.Forall_cons in Hd, Hu.
  split; rewrite ?fmap_app, ?fmap_cons, ?Hl, ?Hlk, ?Hcpu; try done.
  - apply Forall_of_elem. intros j Hj. eapply free_buf_ext; [|by eapply Forall_elem].
    rewrite Hbuf, decide_False; [done|]. intros <-. destruct Hring as [_ Hnd _].
    rewrite NoDup_cons, NoDup_app in Hnd. set_solver.
  - rewrite Forall_app, list.Forall_cons. split_and!.
    + apply Forall_of_elem. intros g Hg. apply Hother. set_solver.
    + exists b. rewrite Hbuf, decide_True, Hcpu by done. by split_and!.
    + apply Forall_of_elem. intros g Hg. apply Hother. set_solver.
  - rewrite Forall_app, list.Forall_cons. tauto.
  - rewrite Forall_app, list.Forall_cons. tauto.
  - rewrite length_app. simpl. lia.
Qed.

Lemma ci_holding {B} s H1 i x l H2 free (k : bool -> M (kstate D) B) :
  cache_inv s (H1 ++ (i, x, l) :: H2) free -> (holding (buf_slk i) ≫= k) s = k true s.
Proof.
  intros Hc. destruct (ci_held_mid _ _ _ _ _ _ _ Hc) as (b & Hb & _ & _ & [Hl Hh] & _).
  rewrite (holding_slk _ _ _ _ Hb), Hh, Z.eqb_refl, (proj2 (Z.eqb_neq _ _) Hl). done.
Qed.

(** The holder of a buffer writes it to its block. *)
Lemma buf_write_held s H1 i x l H2 free :
  cache_inv s (H1 ++ (i, x, l) :: H2) free ->
  exists s', buf_write i s = Ret tt s' /\ frame s s' /\ k_dev s' = put_block (k_dev s) x l /\
    k_cpu s' = k_cpu s /\ cache_inv s' (H1 ++ (i, x, l) :: H2) free.
Proof.
  intros Hc. unfold buf_write. rewrite (ci_holding _ _ _ _ _ _ _ _ Hc). mrun.
  destruct (ci_held_mid _ _ _ _ _ _ _ Hc) as (b & Hb & Hx & Href & Hheld & Hdat).
  destruct (disk_write_ok s i b Hb (ci_cpu _ _ _ Hc) (ci_vd _ _ _ Hc)) as (vd & Hvd & ->).
  eexists. split; [done|]. rewrite (ci_touch _ _ _ _ _ Hc). split_and!; [| |done|].
  { unfold frame. by destruct s as [? ? ? ? ? [] ? ? ? ? ?]. }
  { by rewrite <- Hx, <- Hdat. }
  eapply (cache_inv_upd s _ H1 i x l l H2 free (set_disk false b)); try done.
  - intros j. unfold buf_of, put_buf; simpl. rewrite list_lookup_insert.
    apply buf_of_lt in Hb. repeat case_decide; tauto.
  - pose proof (ci_data _ _ _ Hc) as Hd. rewrite Forall_app, list.Forall_cons in Hd. tauto.
Qed.

(** The holder of a buffer changes its content. *)
Lemma set_buf_data_held s H1 i x l l' H2 free :
  cache_inv s (H1 ++ (i, x, l) :: H2) free -> good_data l' ->
  exists s', set_buf_data i l' s = Ret tt s' /\ frame s s' /\ k_dev s' = k_dev s /\
    k_cpu s' = k_cpu s /\ cache_inv s' (H1 ++ (i, x, l') :: H2) free.
Proof.
  intros Hc Hgood. destruct (ci_held_mid _ _ _ _ _ _ _ Hc) as (b & Hb & Hx & Href & Hheld & Hdat).
  unfold set_buf_data. rewrite (upd_buf_eq _ _ _ _ Hb). eexists. split; [done|]. split_and!; [|done|done|].
  { unfold frame. by destruct s as [? ? ? ? ? [] ? ? ? ? ?]. }
  apply (cache_inv_upd s _ H1 i x l l' H2 free (set_data l' b)); try done.
  - intros j. apply buf_of_put. by eapply buf_of_lt.
  - apply (ci_vd _ _ _ Hc).
Qed.

Lemma get_buf_held {A B} s H1 i x l H2 free (f : list Z -> A) (k : A -> M (kstate D) B) :
  cache_inv s (H1 ++ (i, x, l) :: H2) free -> (get_buf i (fun b => f (data b)) ≫= k) s = k (f l) s.
Proof.
  intros Hc. destruct (ci_held_mid _ _ _ _ _ _ _ Hc) as (b & Hb & _ & _ & _ & Hdat).
  by rewrite (bind_get_buf _ _ _ _ _ Hb), Hdat.
Qed.

(** A buffer in use goes to the end of the list. *)
Lemma cache_inv_drop s sf H1 i x l H2 free b :
  cache_inv s (H1 ++ (i, x, l) :: H2) free ->
  (forall j, buf_of sf j = if decide (i = j) then Some b else buf_of s j) ->
  ring (links (k_bc sf)) (((h_idx <$> H1) ++ (h_idx <$> H2) ++ free) ++ [i]) ->
  length (links (k_bc sf)) = length (links (k_bc s)) -> is_free (lk_buf_cache (k_bc sf)) ->
  block_num b = BLOCK_NUM_UNUSED -> buf_ref b = 0 -> is_free (slk b) -> data b = l ->
  k_cpu sf = cpu_touch (cpu_pop (k_cpu s)) -> vd_ready (k_vd sf) ->
  cache_inv sf (H1 ++ H2) (free ++ [i]).
Proof.
  intros Hc Hbuf Hr Hl Hlk Hx Href Hslk Hdat Hcpu Hvd.
  assert (forall g, g ∈ H1 ++ H2 -> held_buf sf g) as Hother.
  { intros g Hg. eapply held_buf_ext; [| |eapply Forall_elem; [apply (ci_held _ _ _ Hc)|set_solver]].
    - rewrite Hbuf, decide_False; [done|]. by apply (ci_idx_mid _ _ _ _ _ _ Hc).
    - by rewrite Hcpu. }
  pose proof (ci_count _ _ _ Hc) as Hcnt. rewrite length_app in Hcnt.
  destruct Hc as [Hring Hlen Hperm Hlk0 Hfree Hh Hd Hb Hu Hc0 Hn0 Hv].
  rewrite fmap_app, fmap_cons in Hring, Hperm. rewrite fmap_app, fmap_cons in Hb.
  rewrite length_app in Hn0. simpl in Hn0. rewrite Forall_app, list.Forall_cons in Hd, Hu.
  split; rewrite ?fmap_app; try done.
  - rewrite <- !app_assoc in *. done.
  - by rewrite Hl.
  - rewrite <- Hperm. change (h_idx (i, x, l)) with i. solve_Permutation.
  - rewrite Forall_app. split.
    + apply Forall_of_elem. intros j Hj. eapply free_buf_ext; [|by eapply Forall_elem].
      rewrite Hbuf, decide_False; [done|]. intros <-. destruct Hring as [_ Hnd _].
      rewrite NoDup_cons, NoDup_app in Hnd. set_solver.
    + apply Forall_singleton. exists b. rewrite Hbuf, decide_True by done. split_and!; try done.
      rewrite Hdat. apply Hd.
  - by apply Forall_of_elem.
  - rewrite Forall_app. tauto.
  - rewrite NoDup_app, NoDup_cons in Hb. rewrite NoDup_app. set_solver.
  - rewrite Forall_app. tauto.
  - rewrite Hcpu. apply cpu_touch_wf, cpu_pop_wf; [done | lia].
  - rewrite Hcpu, length_app. simpl. lia.
Qed.

Lemma buf_release_held s H1 i x l H2 free :
  cache_inv s (H1 ++ (i, x, l) :: H2) free ->
  exists s', buf_release i s = Ret tt s' /\ frame s s' /\ k_dev s' = k_dev s /\
    k_cpu s' = cpu_touch (cpu_pop (k_cpu s)) /\ cache_inv s' (H1 ++ H2) (free ++ [i]).
Proof.
  intros Hc. unfold buf_release. rewrite (ci_holding _ _ _ _ _ _ _ _ Hc). mrun.
  destruct (ci_held_mid _ _ _ _ _ _ _ Hc) as (b & Hb & Hx & Href & Hheld & Hdat).
  pose proof (ci_noff _ _ _ Hc) as Hnoff. rewrite length_app in Hnoff. simpl in Hnoff.
  pose proof (ci_cpu _ _ _ Hc) as Hcpu. pose proof (buf_of_lt _ _ _ Hb) as Hlt.
  mstep ltac:(apply (release_slk _ _ _ Hb); [done | lia | done]).
  set (s1 := set_k_cpu _ _).
  mstep ltac:(apply acquire_eq, (ci_lk _ _ _ Hc)).
  set (b1 := set_slk _ b) in *. set (s2 := set_k_cpu _ _).
  assert (forall j, buf_of s2 j = if decide (i = j) then Some b1 else buf_of s j) as Hbuf2.
  { intros j. by rewrite <- (buf_of_put i j b1 s) by done. }
  assert (buf_of s2 i = Some b1) as Hb1 by (by rewrite Hbuf2, decide_True).
  pose proof (buf_of_lt _ _ _ Hb1) as Hlt2.
  mstep ltac:(by apply upd_buf_eq).
  rewrite (bind_get_buf _ _ _ (set_buf_ref (u32 (buf_ref b1 - 1)) b1))
    by (rewrite buf_of_put by done; by rewrite decide_True).
  assert (u32 (buf_ref b1 - 1) = 0) as Hr0 by (change (buf_ref b1) with (buf_ref b); by rewrite Href).
  cbn [buf_ref set_buf_ref]. rewrite Hr0. mrun.
  mstep ltac:(apply upd_buf_eq; rewrite buf_of_put by done; by rewrite decide_True).
  rewrite put_buf_twice. set (b2 := set_block_num _ _).
  pose proof (ci_ring _ _ _ Hc) as Hring. rewrite fmap_app, fmap_cons, <- app_assoc in Hring. cbn [app] in Hring.
  destruct (insert_head_move (put_buf i b2 s2) (h_idx <$> H1) i ((h_idx <$> H2) ++ free) false)
    as (L' & Hins & HL' & Hring'); [exact Hring|].
  mstep ltac:(exact Hins). clear Hins.
  assert (cpu_wf (cpu_pop (k_cpu s))) as Hwf by (apply cpu_pop_wf; [done | lia]).
  rewrite release_eq; [| by apply cpu_push_wf | simpl; lia | done].
  eexists. split; [done|]. split_and!; [done..| |].
  { simpl. by rewrite cpu_pop_push. }
  apply (cache_inv_drop s _ H1 i x l H2 free b2); try done.
  - intros j. unfold buf_of, put_buf; simpl. rewrite list_insert_insert_eq, list_lookup_insert.
    repeat case_decide; tauto.
  - simpl. by rewrite cpu_pop_push.
  - apply (ci_vd _ _ _ Hc).
Qed.

(** A second [buf_read] of a block by its holder. *)
Lemma buf_read_again s H free x :
  cache_inv s H free -> blk_ok x -> x ∈ h_blk <$> H -> exists s', buf_read x s = Panic "acquire" s'.
Proof.
  intros Hc Hx Hin. pose proof (find_ring _ _ _ Hc) as (Hpath & Hhd & Hlen & Hsome).
  destruct (ring_first _ _ (ci_ring _ _ _ Hc)) as (n0 & Hn0 & ->).
  destruct (List.find (has_block s x) ((h_idx <$> H) ++ free)) as [i|] eqn:Hfind.
  2:{ apply list_elem_of_fmap in Hin as ([[i y] l] & -> & Hh).
      destruct (Forall_elem _ _ _ (ci_held _ _ _ Hc) Hh) as (b & Hb & Hy & _).
      assert (In i ((h_idx <$> H) ++ free)) as Hi.
      { apply list_elem_of_In, elem_of_app. left. by apply (list_elem_of_fmap_2 h_idx) in Hh. }
      pose proof (find_none _ _ Hfind _ Hi) as Hf. unfold has_block in Hf.
      change (h_idx (i, y, l)) with i in Hb. rewrite Hb, Hy in Hf. by rewrite Z.eqb_refl in Hf. }
  pose proof (find_some _ _ Hfind) as [Hi Hblk]. apply list_elem_of_In in Hi.
  destruct (ci_node _ _ _ _ Hc Hi) as (b & Hb & Hcase). unfold has_block in Hblk. rewrite Hb in Hblk.
  apply Z.eqb_eq in Hblk. destruct Hcase as [[_ Hu]|([[j y] l] & Hh & Hj & Hu)].
  { unfold blk_ok in Hx. lia. }
  change (j = i) in Hj. subst j.
  destruct (Forall_elem _ _ _ (ci_held _ _ _ Hc) Hh) as (b' & Hb' & _ & _ & Hheld & _).
  change (h_idx (i, y, l)) with i in Hb'. rewrite Hb in Hb'. injection Hb' as <-.
  unfold buf_read. mstep ltac:(apply acquire_eq, (ci_lk _ _ _ Hc)).
  set (s1 := set_k_cpu _ _). rewrite bind_get_next. change (links (k_bc s1)) with (links (k_bc s)).
  rewrite Hn0. mrun.
  rewrite (bind_ret_eq _ _ _ _ _ (buf_search_eq s1 _ _ x Hpath Hhd Hsome Hlen)).
  change (has_block s1 x) with (has_block s x). rewrite Hfind.
  change (buf_of s i) with (buf_of s1 i) in Hb. pose proof (buf_of_lt _ _ _ Hb) as Hlt.
  mstep ltac:(exact (upd_buf_eq _ _ _ _ Hb)). pose proof (ci_cpu _ _ _ Hc) as Hcpu.
  mstep ltac:(apply release_eq; [by apply cpu_push_wf | destruct Hcpu; simpl; lia | done]).
  set (s3 := set_k_cpu _ _).
  destruct (acquire_twice (buf_slk i) s3) as (s' & Ha).
  { subst s3. cbn [lk_get buf_slk]. change (held_by (hartid (k_cpu s)) match buf_of (put_buf i
      (set_buf_ref (u32 (buf_ref b + 1)) b) s1) i with Some b0 => slk b0 | None => zero_lock end).
    rewrite buf_of_put by done. by rewrite decide_True. }
  exists s'. by apply bind_panic_eq.
Qed.

(** All 64 buffers in use. *)
Lemma buf_read_full s H x :
  cache_inv s H [] -> blk_ok x -> x ∉ h_blk <$> H ->
  exists s', buf_read x s = Panic "buf_read: buffer still referenced" s'.
Proof.
  intros Hc Hx Hnin. pose proof (find_ring _ _ _ Hc) as (Hpath & Hhd & Hlen & Hsome).
  pose proof (ci_search _ _ _ _ Hc Hx Hnin) as Hfind. pose proof (ci_ring _ _ _ Hc) as Hring.
  destruct (ring_first _ _ Hring) as (n0 & Hn0 & ->). destruct (ring_last _ _ Hring) as (p0 & Hp0 & ->).
  pose proof (ci_count _ _ _ Hc) as Hcnt.
  destruct H as [|h H _] using rev_ind; [done|]. rewrite fmap_app, app_nil_r in Hp0. simpl in Hp0.
  rewrite last_snoc in Hp0. simpl in Hp0.
  assert (held_buf s h) as (b & Hb & _ & Href & _).
  { eapply Forall_elem; [apply (ci_held _ _ _ Hc) | set_solver]. }
  assert (h_idx h <> HEAD) by set_solver.
  unfold buf_read. mstep ltac:(apply acquire_eq, (ci_lk _ _ _ Hc)).
  set (s1 := set_k_cpu _ _). rewrite bind_get_next. change (links (k_bc s1)) with (links (k_bc s)).
  rewrite Hn0. mrun.
  rewrite (bind_ret_eq _ _ _ _ _ (buf_search_eq s1 _ _ x Hpath Hhd Hsome Hlen)).
  change (has_block s1 x) with (has_block s x). rewrite Hfind.
  rewrite bind_get_prev. change (links (k_bc s1)) with (links (k_bc s)). rewrite Hp0.
  rewrite bool_decide_eq_false_2 by congruence. mrun. rewrite bind_get_prev.
  change (links (k_bc s1)) with (links (k_bc s)). rewrite Hp0. mrun.
  change (buf_of s (h_idx h)) with (buf_of s1 (h_idx h)) in Hb. rewrite (bind_get_buf _ _ _ b) by done.
  rewrite Href. mrun. eauto.
Qed.

(** *** Initialisation *)

Record init_inv (s0 : kstate D) (k : nat) s : Prop := {
  ii_ring : ring (links (k_bc s)) (seq 0 k);
  ii_links : length (links (k_bc s)) = S N_BLOCK_BUF;
  ii_bufs : length (bufs (k_bc s)) = N_BLOCK_BUF;
  ii_null : forall y, (k <= y < N_BLOCK_BUF)%nat -> nnext y (links (k_bc s)) = None;
  ii_free : Forall (free_buf s) (seq 0 k);
  ii_lk : is_free (lk_buf_cache (k_bc s));
  ii_frame : frame s0 s /\ k_dev s = k_dev s0 /\ k_vd s = k_vd s0 /\ k_cpu s = k_cpu s0
}.

Lemma init_slk s i b : buf_of s i = Some b ->
  with_lock (buf_slk i) (spinlock_init "buf") s = Ret tt (put_buf i (set_slk (mk_spinlock 0 "buf" 0) b) s).
Proof.
  intros Hb. unfold with_lock, spinlock_init, modify, buf_slk. simpl. rewrite Hb. by destruct s.
Qed.

Definition init_buf : buf := mk_buf (mk_spinlock 0 "buf" 0) BLOCK_NUM_UNUSED zero_block 0 false.

Lemma init_step s i b :
  buf_of s i = Some b ->
  (upd_buf i (set_block_num BLOCK_NUM_UNUSED);; upd_buf i (set_buf_ref 0);; upd_buf i (set_disk false);;
   with_lock (buf_slk i) (spinlock_init "buf");; upd_buf i (set_data zero_block);; insert_head i false) s
  = insert_head i false (put_buf i init_buf s).
Proof.
  intros Hb. pose proof (buf_of_lt _ _ _ Hb) as Hlt.
  assert (forall c, buf_of (put_buf i c s) i = Some c) as Hput
    by (intros c; rewrite buf_of_put by done; by rewrite decide_True).
  mstep ltac:(by apply upd_buf_eq). mstep ltac:(apply upd_buf_eq, Hput). rewrite put_buf_twice.
  mstep ltac:(apply upd_buf_eq, Hput). rewrite put_buf_twice.
  mstep ltac:(apply init_slk, Hput). rewrite put_buf_twice.
  mstep ltac:(apply upd_buf_eq, Hput). rewrite put_buf_twice. by destruct b.
Qed.

Lemma good_zero_block : good_data zero_block.
Proof.
  split; [by unfold zero_block; rewrite length_replicate|]. apply Forall_replicate. lia.
Qed.

Lemma init_inv_step s0 k s :
  init_inv s0 k s -> (k < N_BLOCK_BUF)%nat ->
  exists s', insert_head k false (put_buf k init_buf s) = Ret tt s' /\ init_inv s0 (S k) s'.
Proof.
  intros [Hring Hlen Hbufs Hnull Hfree Hlk (Hfr & ? & ? & ?)] Hk.
  destruct (insert_head_fresh (put_buf k init_buf s) (seq 0 k) k) as (L' & -> & HL' & Hring' & Hother).
  - done.
  - rewrite elem_of_cons, elem_of_seq. unfold HEAD, N_BLOCK_BUF in *. lia.
  - change (k < length (links (k_bc s)))%nat. rewrite Hlen. lia.
  - apply Hnull. lia.
  - eexists. split; [done|]. split; rewrite ?seq_S; try done.
    + change (length L' = S N_BLOCK_BUF). by rewrite HL'.
    + change (length (<[k := init_buf]> (bufs (k_bc s))) = N_BLOCK_BUF). by rewrite length_insert.
    + intros y Hy. change (nnext y L' = None). rewrite Hother; [apply Hnull; lia|].
      rewrite !elem_of_cons, elem_of_seq. unfold HEAD, N_BLOCK_BUF in *. lia.
    + rewrite Forall_app, Forall_singleton. split.
      * apply Forall_of_elem. intros j Hj. eapply free_buf_ext; [|by eapply Forall_elem].
        change (buf_of (put_buf k init_buf s) j = buf_of s j).
        rewrite buf_of_put by (rewrite Hbufs; lia). rewrite decide_False; [done|].
        apply elem_of_seq in Hj. lia.
      * exists init_buf. split_and!; [|done..|apply good_zero_block].
        change (buf_of (put_buf k init_buf s) k = Some init_buf).
        rewrite buf_of_put by (rewrite Hbufs; lia). by rewrite decide_True.
    + split_and!; [|done..]. rewrite Hfr. unfold frame. by destruct s as [? ? ? ? ? [] ? ? ? ? ?].
Qed.

Lemma init_loop s0 n k s : init_inv s0 k s -> (k + n = N_BLOCK_BUF)%nat ->
  exists s', for_each (seq k n) (fun i =>
    upd_buf i (set_block_num BLOCK_NUM_UNUSED);; upd_buf i (set_buf_ref 0);; upd_buf i (set_disk false);;
    with_lock (buf_slk i) (spinlock_init "buf");; upd_buf i (set_data zero_block);; insert_head i false) s
  = Ret tt s' /\ init_inv s0 N_BLOCK_BUF s'.
Proof.
  revert k s; induction n as [|n IH]; intros k s Hs Hn.
  { exists s. by replace N_BLOCK_BUF with k by lia. }
  destruct (init_inv_step s0 k s Hs) as (s1 & Hstep & Hs1); [lia|].
  destruct (IH (S k) s1 Hs1) as (s2 & Hloop & Hs2); [lia|].
  exists s2. split; [|done]. cbn [seq for_each].
  destruct (lookup_lt_is_Some_2 (bufs (k_bc s)) k) as [b Hb]; [rewrite (ii_bufs _ _ _ Hs); lia|].
  rewrite <- Hloop. erewrite bind_ret_eq; [done|]. by rewrite (init_step s k b).
Qed.

(** Before [buf_init] the cache is zero-initialised memory. *)
Record cache_bss s : Prop := {
  cb_bufs : length (bufs (k_bc s)) = N_BLOCK_BUF;
  cb_links : links (k_bc s) = replicate (S N_BLOCK_BUF) (None, None);
  cb_cpu : cpu_wf (k_cpu s);
  cb_vd : vd_ready (k_vd s)
}.

Lemma buf_init_inv s : cache_bss s ->
  exists s', buf_init s = Ret tt s' /\ frame s s' /\ k_dev s' = k_dev s /\ k_cpu s' = k_cpu s /\
    cache_inv s' [] (seq 0 N_BLOCK_BUF).
Proof.
  intros [Hb Hl Hc Hv]. unfold buf_init.
  set (L0 := <[HEAD := (Some HEAD, Some HEAD)]> (replicate (S N_BLOCK_BUF) (None, None)) : list (option nat * option nat)).
  set (s1 := set_k_bc (mk_bcache (bufs (k_bc s)) L0 (mk_spinlock 0 "buf_cache" 0)) s).
  destruct (init_loop s N_BLOCK_BUF 0 s1) as (s' & Hloop & Hinv); [|done|].
  { split; try done.
    - split; [by split_and! | apply NoDup_singleton |]. by repeat constructor.
    - intros y Hy. change (nnext y L0 = None). unfold nnext, node_links, L0.
      rewrite list_lookup_insert_ne by (unfold HEAD, N_BLOCK_BUF in *; lia).
      by rewrite lookup_replicate_2 by lia. }
  exists s'. destruct Hinv as [Hring Hlen Hbufs _ Hfree Hlk (Hfr & ? & Hvd & Hcpu)].
  assert (frame s s1) as Hfr1 by (by destruct s as [? ? ? ? ? [] ? ? ? ? ?]).
  split_and!; [ | by transitivity s1 | done | done |].
  - rewrite <- Hloop. destruct s as [? ? ? ? ? [bs L lk] ? ? ? ? ?]. simpl in *. by subst L.
  - split; simpl; rewrite ?Hcpu, ?Hvd; try done; try constructor; apply Hc.
Qed.

(** A free buffer is not locked. *)
Lemma free_not_locked {B} s H free i (k : bool -> M (kstate D) B) :
  cache_inv s H free -> i ∈ free -> (holding (buf_slk i) ≫= k) s = k false s.
Proof.
  intros Hc Hi. destruct (Forall_elem _ _ _ (ci_free _ _ _ Hc) Hi) as (b & Hb & _ & _ & Hf & _).
  rewrite (holding_slk _ _ _ _ Hb). by rewrite Hf.
Qed.

(** *** What the clients of the cache use *)

(** From [s] to [s']: the disk is now [d], the CPU [c], the held buffers [H]. *)
Record becomes s (d : D) (c : cpu) H s' : Prop := {
  be_frame : frame s s';
  be_dev : k_dev s' = d;
  be_cpu : k_cpu s' = c;
  be_cache : cache s' H
}.

Lemma becomes_trans s d c H s1 d' c' H' s2 :
  becomes s d c H s1 -> becomes s1 d' c' H' s2 -> becomes s d' c' H' s2.
Proof. intros [] []. split; [by etransitivity | done..]. Qed.

(** The cache does not depend on the rest of the kernel. *)
Lemma cache_inv_ext s s' H free :
  k_bc s' = k_bc s -> k_vd s' = k_vd s -> k_cpu s' = k_cpu s -> cache_inv s H free -> cache_inv s' H free.
Proof.
  intros Hb Hv Hc [? ? ? ? Hf Hh ? ? ? ? ? ?].
  split; rewrite ?Hb, ?Hv, ?Hc; try done.
  - apply Forall_of_elem. intros i Hi. eapply free_buf_ext; [|by eapply Forall_elem].
    unfold buf_of. by rewrite Hb.
  - apply Forall_of_elem. intros h Hi. eapply held_buf_ext; [| |by eapply Forall_elem].
    + unfold buf_of. by rewrite Hb.
    + by rewrite Hc.
Qed.

Lemma cache_ext s s' H :
  k_bc s' = k_bc s -> k_vd s' = k_vd s -> k_cpu s' = k_cpu s -> cache s H -> cache s' H.
Proof. intros ? ? ? [free Hc]. exists free. by apply (cache_inv_ext s). Qed.

(** The interrupt depth may grow, and shrink to the number of held buffers. *)
Lemma cache_cpu s c H :
  hartid c = hartid (k_cpu s) -> cpu_wf c -> Z.of_nat (length H) <= noff c -> cache s H -> cache (set_k_cpu c s) H.
Proof.
  intros Hh Hw Hn [free [? ? ? ? Hf Hd ? ? ? ? ? ?]]. exists free. split; try done.
  apply Forall_of_elem. intros h Hi. eapply held_buf_ext; [| |by eapply Forall_elem]; done.
Qed.

Lemma cache_wf s H : cache s H -> cpu_wf (k_cpu s) /\ Z.of_nat (length H) <= noff (k_cpu s).
Proof. intros [free Hc]. split; apply Hc. Qed.

Lemma buf_read_ok s H x :
  cache s H -> (length H < N_BLOCK_BUF)%nat -> blk_ok x -> x ∉ h_blk <$> H ->
  exists i s', buf_read x s = Ret i s' /\
    becomes s (k_dev s) (cpu_push (k_cpu s)) ((i, x, block (k_dev s) x) :: H) s'.
Proof.
  intros [free Hc] Hl Hx Hn. pose proof (ci_count _ _ _ Hc).
  destruct free as [|i free _] using rev_ind; [simpl in *; lia|].
  destruct (buf_read_miss _ _ _ _ _ Hc Hx Hn) as (s' & ? & ? & ? & ? & ?).
  exists i, s'. split; [done|]. split; [done..|]. by exists free.
Qed.

Lemma buf_write_ok s i x l H :
  cache s ((i, x, l) :: H) -> exists s', buf_write i s = Ret tt s' /\
    becomes s (put_block (k_dev s) x l) (k_cpu s) ((i, x, l) :: H) s'.
Proof.
  intros [free Hc]. destruct (buf_write_held s [] _ _ _ _ _ Hc) as (s' & ? & ? & ? & ? & ?).
  exists s'. split; [done|]. split; [done..|]. by exists free.
Qed.

Lemma set_buf_data_ok s i x l l' H :
  cache s ((i, x, l) :: H) -> good_data l' -> exists s', set_buf_data i l' s = Ret tt s' /\
    becomes s (k_dev s) (k_cpu s) ((i, x, l') :: H) s'.
Proof.
  intros [free Hc] Hl. destruct (set_buf_data_held s [] _ _ _ _ _ _ Hc Hl) as (s' & ? & ? & ? & ? & ?).
  exists s'. split; [done|]. split; [done..|]. by exists free.
Qed.

Lemma upd_data_ok s i x l f H :
  cache s ((i, x, l) :: H) -> good_data (f l) -> exists s', upd_data i f s = Ret tt s' /\
    becomes s (k_dev s) (k_cpu s) ((i, x, f l) :: H) s'.
Proof.
  intros Hc Hl. destruct (set_buf_data_ok s i x l (f l) H Hc Hl) as (s' & Hs & Hb). exists s'. split; [|done].
  destruct Hc as [free Hc]. destruct (ci_held_mid s [] _ _ _ _ _ Hc) as (b & Hb' & _ & _ & _ & Hd).
  rewrite <- Hs. unfold upd_data, set_buf_data. by rewrite !(upd_buf_eq _ _ _ _ Hb'), Hd.
Qed.

Lemma buf_release_ok s i x l H :
  cache s ((i, x, l) :: H) -> exists s', buf_release i s = Ret tt s' /\
    becomes s (k_dev s) (cpu_touch (cpu_pop (k_cpu s))) H s'.
Proof.
  intros [free Hc]. destruct (buf_release_held s [] _ _ _ _ _ Hc) as (s' & ? & ? & ? & ? & ?).
  exists s'. split; [done|]. split; [done..|]. by eexists.
Qed.

Lemma buf_data_ok {A B} s i x l H (f : list Z -> A) (k : A -> M (kstate D) B) :
  cache s ((i, x, l) :: H) -> (get_buf i (fun b => f (data b)) ≫= k) s = k (f l) s.
Proof. intros [free Hc]. apply (get_buf_held s [] _ _ _ _ _ _ _ Hc). Qed.

Lemma cache_data s i x l H : cache s ((i, x, l) :: H) -> good_data l.
Proof. intros [free Hc]. by apply (ci_data _ _ _) in Hc as [? _]%list.Forall_cons. Qed.

(** Reading a buffer and giving it back leaves the CPU as a push and a pop. *)
Lemma cpu_read_release s H : cache s H -> cpu_touch (cpu_pop (cpu_push (k_cpu s))) = cpu_touch (k_cpu s).
Proof. intros [Hc _]%cache_wf. by rewrite cpu_pop_push, cpu_touch_idemp. Qed.

End Cache.
