(* ===== verification/BufSpec.v ===== *)
(** * BufSpec: the buffer cache implements a disk with blocks checked out

    The specification of kernel/fs/buf.c knows the disk, the blocks that are
    checked out with their contents, and the stack of free buffers; the list,
    the reference counts, the locks and the driver are gone.  [buf_refines_spec]
    is the simulation; the other theorems are the error branches, the circular
    list and the initialisation. *)

From S2P Require Import Prelude Bytes Spinlock Kernel Disk Buf.

(** ** The specification *)

Record bspec {D : Type} := mk_bspec { sp_disk : D; sp_held : list hbuf; sp_free : list nat }.
Arguments bspec D : clear implicits.
Arguments mk_bspec {D}.

Inductive bop := BRead (x : Z) | BSet (i : nat) (l : list Z) | BWrite (i : nat) | BRelease (i : nat).

Definition hold (i : nat) (H : list hbuf) : option hbuf := List.find (fun h => h_idx h =? i)%nat H.
Definition drop_hold (i : nat) (H : list hbuf) : list hbuf := List.filter (fun h => negb (h_idx h =? i)%nat) H.
Definition set_hold (i : nat) (l : list Z) (H : list hbuf) : list hbuf :=
  (fun h : hbuf => if (h_idx h =? i)%nat then (h_idx h, h_blk h, l) else h) <$> H.

Definition blk_okb (x : Z) : bool := (0 <=? x) && (x <? BLOCK_NUM_UNUSED).

Definition good_datab (l : list Z) : bool :=
  (length l =? Z.to_nat BLOCK_SIZE)%nat && forallb (fun b => (0 <=? b) && (b <? 2 ^ 8)) l.

(** A read of a block that is checked out, or with every buffer in use, is not
    allowed; nor is the use of a buffer that is not checked out. *)
Definition bspec_step {D} `{!BlockDev D} (o : bop) (t : bspec D) : option (bspec D) :=
  match o with
  | BRead x =>
      if blk_okb x && negb (existsb (fun h => h_blk h =? x) (sp_held t)) then
        match last (sp_free t) with
        | Some i => Some (mk_bspec (sp_disk t) ((i, x, block (sp_disk t) x) :: sp_held t) (removelast (sp_free t)))
        | None => None
        end
      else None
  | BSet i l =>
      match hold i (sp_held t) with
      | Some _ => if good_datab l then Some (mk_bspec (sp_disk t) (set_hold i l (sp_held t)) (sp_free t)) else None
      | None => None
      end
  | BWrite i =>
      match hold i (sp_held t) with
      | Some (_, x, l) => Some (mk_bspec (put_block (sp_disk t) x l) (sp_held t) (sp_free t))
      | None => None
      end
  | BRelease i =>
      match hold i (sp_held t) with
      | Some _ => Some (mk_bspec (sp_disk t) (drop_hold i (sp_held t)) (sp_free t ++ [i]))
      | None => None
      end
  end.

Fixpoint bspec_run {D} `{!BlockDev D} (l : list bop) (t : bspec D) : option (bspec D) :=
  match l with
  | [] => Some t
  | o :: l' => match bspec_step o t with Some t' => bspec_run l' t' | None => None end
  end.

(** The same calls on the cache. *)
Definition bcall {D} `{!DiskDriver D} (o : bop) : M (kstate D) unit :=
  match o with
  | BRead x => buf_read x;; mret tt
  | BSet i l => set_buf_data i l
  | BWrite i => buf_write i
  | BRelease i => buf_release i
  end.

Section Spec.
Context {D : Type} `{!BlockDev D, !BlockDevLaws D, !DiskDriver D, !DiskDriverOk D}.
Implicit Types (s : kstate D) (t : bspec D) (H : list hbuf).

(** The state of the cache is the state of the specification. *)
Definition brel s t : Prop := k_dev s = sp_disk t /\ cache_inv s (sp_held t) (sp_free t).

Lemma hold_split i H h : hold i H = Some h -> exists H1 H2,
  H = H1 ++ h :: H2 /\ h_idx h = i /\ Forall (fun g => h_idx g <> i) H1.
Proof.
  unfold hold. induction H as [|g H IH]; simpl; [done|]. destruct (Nat.eqb_spec (h_idx g) i) as [He|Hne].
  - intros [= ->]. by exists [], H.
  - intros (H1 & H2 & -> & ? & ?)%IH. exists (g :: H1), H2. split_and!; [done..|]. by constructor.
Qed.

Lemma drop_hold_other i H : Forall (fun g => h_idx g <> i) H -> drop_hold i H = H.
Proof.
  induction 1 as [|g H Hg _ IH]; [done|]. unfold drop_hold in *. simpl.
  by rewrite (proj2 (Nat.eqb_neq _ _) Hg), IH.
Qed.

Lemma set_hold_other i l H : Forall (fun g => h_idx g <> i) H -> set_hold i l H = H.
Proof.
  induction 1 as [|g H Hg _ IH]; [done|]. unfold set_hold in *. rewrite fmap_cons.
  by rewrite (proj2 (Nat.eqb_neq _ _) Hg), IH.
Qed.

(** The held buffer of the specification, inside the list. *)
Lemma hold_mid s H free i h :
  cache_inv s H free -> hold i H = Some h -> exists H1 x l H2,
    h = (i, x, l) /\ H = H1 ++ (i, x, l) :: H2 /\ drop_hold i H = H1 ++ H2 /\
    forall l', set_hold i l' H = H1 ++ (i, x, l') :: H2.
Proof.
  intros Hc (H1 & H2 & -> & Hi & Hf1)%hold_split. destruct h as [[j x] l]. change (j = i) in Hi. subst j.
  assert (Forall (fun g => h_idx g <> i) H2) as Hf2.
  { apply Forall_of_elem. intros g Hg He.
    apply (ci_idx_mid _ _ _ _ _ g Hc); [set_solver | done]. }
  exists H1, x, l, H2. split_and!; [done..| |].
  - unfold drop_hold. rewrite List.filter_app. fold (drop_hold i H1). rewrite drop_hold_other by done.
    simpl. rewrite Nat.eqb_refl. simpl. f_equal. by apply drop_hold_other.
  - intros l'. unfold set_hold. rewrite fmap_app, fmap_cons. f_equal; [by apply set_hold_other|].
    simpl. rewrite Nat.eqb_refl. f_equal. by apply set_hold_other.
Qed.

Lemma good_datab_ok l : good_datab l = true -> good_data l.
Proof.
  unfold good_datab, good_data. rewrite andb_true_iff, Nat.eqb_eq, forallb_forall. intros [? Hf].
  split; [done|]. apply Forall_of_elem. intros b Hb%list_elem_of_In. specialize (Hf b Hb). lia.
Qed.

Lemma blk_okb_ok x : blk_okb x = true -> blk_ok x.
Proof. unfold blk_okb, blk_ok. lia. Qed.

Lemma not_checked_out x H : existsb (fun h => h_blk h =? x) H = false -> x ∉ h_blk <$> H.
Proof.
  intros He (h & -> & Hh)%list_elem_of_fmap. apply not_true_iff_false in He. destruct He.
  apply existsb_exists. exists h. split; [by apply list_elem_of_In | apply Z.eqb_refl].
Qed.

Lemma bspec_step_sim o s t t' : brel s t -> bspec_step o t = Some t' ->
  exists s', bcall o s = Ret tt s' /\ frame s s' /\ brel s' t'.
Proof.
  intros [Hd Hc] Hs. destruct t as [d H free]; simpl in *. subst d. destruct o as [x|i l|i|i]; cbn [bspec_step sp_disk sp_held sp_free] in Hs.
  - destruct (blk_okb x) eqn:Hx; [|done]. apply blk_okb_ok in Hx. simpl in Hs.
    destruct (existsb _ H) eqn:Hnin; [done|]. apply not_checked_out in Hnin. simpl in Hs.
    destruct free as [|i free _] using rev_ind; [done|]. rewrite last_snoc, removelast_last in Hs.
    injection Hs as <-. destruct (buf_read_miss _ _ _ _ _ Hc Hx Hnin) as (s' & Hr & ? & ? & _ & ?).
    exists s'. split_and!; [|done|by split]. unfold bcall. mstep ltac:(exact Hr). done.
  - destruct (hold i H) as [h|] eqn:Hh; [|done]. destruct (good_datab l) eqn:Hg; [|done].
    apply good_datab_ok in Hg. injection Hs as <-.
    destruct (hold_mid _ _ _ _ _ Hc Hh) as (H1 & x & l0 & H2 & -> & -> & _ & Hset).
    destruct (set_buf_data_held _ _ _ _ _ l _ _ Hc Hg) as (s' & ? & ? & ? & _ & ?).
    exists s'. split; [done|]. split; [done|]. split; simpl; [done|]. by rewrite Hset.
  - destruct (hold i H) as [h|] eqn:Hh; [|done].
    destruct (hold_mid _ _ _ _ _ Hc Hh) as (H1 & x & l0 & H2 & -> & -> & _). injection Hs as <-.
    destruct (buf_write_held _ _ _ _ _ _ _ Hc) as (s' & ? & ? & ? & _ & ?).
    exists s'. split_and!; [done|done|by split].
  - destruct (hold i H) as [h|] eqn:Hh; [|done]. injection Hs as <-.
    destruct (hold_mid _ _ _ _ _ Hc Hh) as (H1 & x & l0 & H2 & -> & -> & Hdrop & _).
    destruct (buf_release_held _ _ _ _ _ _ _ Hc) as (s' & ? & ? & ? & _ & ?).
    exists s'. split; [done|]. split; [done|]. split; simpl; [done|]. by rewrite Hdrop.
Qed.

(** C2: the cache refines the specification: from related states, every sequence
    of reads, changes, writes and releases that the specification allows
    returns, and leads to related states; nothing but the cache, the driver, the
    disk and the CPU's interrupt depth changes. *)
Theorem buf_refines_spec (l : list bop) s t t' :
  brel s t -> bspec_run l t = Some t' ->
  exists s', for_each l bcall s = Ret tt s' /\ frame s s' /\ brel s' t'.
Proof.
  revert s t; induction l as [|o l IH]; intros s t Hrel Hrun; simpl in *.
  { injection Hrun as <-. by exists s. }
  destruct (bspec_step o t) as [t1|] eqn:Hstep; [|done].
  destruct (bspec_step_sim _ _ _ _ Hrel Hstep) as (s1 & Hs1 & Hf1 & Hrel1).
  destruct (IH s1 t1 Hrel1 Hrun) as (s2 & Hs2 & Hf2 & Hrel2).
  exists s2. split_and!; [|by transitivity s1 | done]. by mstep ltac:(exact Hs1).
Qed.

(** the error branches of the cache: reading a block its holder already has
    panics on the buffer's lock, reading with 64 buffers in use panics on the
    reference count of the last one, and writing or releasing a free buffer panics. *)
Theorem buf_errors s H free x :
  cache_inv s H free -> blk_ok x ->
  (x ∈ h_blk <$> H -> exists s', buf_read x s = Panic "acquire" s')
  /\ (x ∉ h_blk <$> H -> free = [] ->
      exists s', buf_read x s = Panic "buf_read: buffer still referenced" s')
  /\ (forall i, i ∈ free -> buf_write i s = Panic "buf_write: buffer not locked" s
                         /\ buf_release i s = Panic "buf_release: buffer not locked" s).
Proof.
  intros Hc Hx. split_and!.
  - by apply (buf_read_again _ _ _ _ Hc).
  - intros Hn ->. by apply (buf_read_full _ _ _ Hc).
  - intros i Hi. unfold buf_write, buf_release. by rewrite !(free_not_locked _ _ _ _ _ Hc Hi).
Qed.

(** [insert_head] is surgery on a circular doubly linked list: a node of the
    list moves to its front or to its back and the order of the others stays;
    reading [next] from the head visits the new order. *)
Theorem insert_head_moves s l1 x l2 (front : bool) :
  ring (links (k_bc s)) (l1 ++ x :: l2) ->
  exists L', insert_head x front s = Ret tt (put_links L' s) /\
    ring L' (if front then x :: l1 ++ l2 else (l1 ++ l2) ++ [x]) /\ length L' = length (links (k_bc s)).
Proof. intros Hr. destruct (insert_head_move s l1 x l2 front Hr) as (L' & ? & ? & ?). eauto. Qed.

(** [buf_init] turns zeroed memory into a cache whose 64 buffers are free and
    in order, and touches neither the disk nor the rest of the kernel. *)
Theorem buf_init_all_free s :
  cache_bss s ->
  exists s', buf_init s = Ret tt s' /\ frame s s' /\ k_dev s' = k_dev s /\ cache_inv s' [] (seq 0 N_BLOCK_BUF).
Proof. intros Hs. destruct (buf_init_inv s Hs) as (s' & ? & ? & ? & _ & ?). eauto. Qed.

(** a block that is changed, written and released reads back as it was
    written, from the disk; other blocks below 2^31 keep their content; and the
    buffer that was released last is the one that is used again. *)
Theorem buf_write_read_back s H i x l l' :
  cache s ((i, x, l) :: H) -> x ∉ h_blk <$> H -> good_data l' -> blk_ok x ->
  exists s1, (set_buf_data i l';; buf_write i;; buf_release i) s = Ret tt s1 /\
    k_dev s1 = put_block (k_dev s) x l' /\
    (exists s2, buf_read x s1 = Ret i s2 /\ cache s2 ((i, x, l') :: H)) /\
    (forall y, y <> x -> 0 <= x < 2 ^ 31 -> 0 <= y < 2 ^ 31 -> y ∉ h_blk <$> H ->
       exists s2, buf_read y s1 = Ret i s2 /\ cache s2 ((i, y, block (k_dev s) y) :: H)).
Proof.
  intros Hc Hn Hl Hx. destruct Hl as [Hlen Hb].
  destruct (set_buf_data_ok _ _ _ _ l' _ Hc) as (sa & Ha & [_ Hda _ Hca]); [done|].
  destruct (buf_write_ok _ _ _ _ _ Hca) as (sb & Hw & [_ Hdb _ [free Hcb]]).
  destruct (buf_release_held sb [] _ _ _ _ _ Hcb) as (sc & Hr & _ & Hdc & _ & Hcc).
  exists sc. rewrite Hdc, Hdb, Hda. split_and!.
  - mstep ltac:(exact Ha). mstep ltac:(exact Hw). exact Hr.
  - done.
  - destruct (buf_read_miss sc H free i x Hcc Hx Hn) as (s2 & ? & _ & _ & _ & Hc2).
    exists s2. split; [done|]. exists free. rewrite Hdc, Hdb, Hda, block_put_eq in Hc2 by done. done.
  - intros y Hne Hx31 Hy Hny.
    destruct (buf_read_miss sc H free i y) as (s2 & ? & _ & _ & _ & Hc2); [done | | done |].
    { unfold blk_ok, BLOCK_NUM_UNUSED. lia. }
    exists s2. split; [done|]. exists free. rewrite Hdc, Hdb, Hda, block_put_ne in Hc2 by done. done.
Qed.

End Spec.

(** ** Witnesses, on a disk in memory *)

Definition empty_disk : memdisk := mk_memdisk ∅.

Lemma bss_cache (d : memdisk) : cache_bss (bss d 0).
Proof. split; [done | done | split; simpl; lia | done]. Qed.

(** A kernel with an empty cache over any disk and with any superblock. *)
Lemma fresh_cache_on (d : memdisk) (sb : super_block) : exists s : kstate memdisk,
  k_dev s = d /\ k_sb s = sb /\ k_cpu s = mk_cpu 0 false 0 false /\ cache s [].
Proof.
  destruct (buf_init_inv _ (bss_cache d)) as (s & _ & _ & ? & ? & Hc). exists (set_k_sb sb s).
  split_and!; [done..|]. exists (seq 0 N_BLOCK_BUF). by apply (cache_inv_ext s).
Qed.

Lemma fresh_cache : exists s : kstate memdisk,
  k_dev s = empty_disk /\ k_cpu s = mk_cpu 0 false 0 false /\ cache_inv s [] (seq 0 N_BLOCK_BUF).
Proof. destruct (buf_init_inv _ (bss_cache empty_disk)) as (s & _ & _ & ? & ? & ?). by exists s. Qed.

(** ... and with any inode cache. *)
Lemma fresh_kernel (d : memdisk) (sb : super_block) (ic : icache) : exists s : kstate memdisk,
  k_dev s = d /\ k_sb s = sb /\ k_ic s = ic /\ k_cpu s = mk_cpu 0 false 0 false /\ cache s [].
Proof.
  destruct (fresh_cache_on d sb) as (s & Hd & Hsb & Hc & Hca). exists (set_k_ic ic s).
  split_and!; [done..|]. by apply (cache_ext s).
Qed.

(** The cache after one read. *)
Lemma fresh_cache_read x : blk_ok x -> exists s : kstate memdisk,
  k_dev s = empty_disk /\ cache_inv s [(63%nat, x, block empty_disk x)] (seq 0 63).
Proof.
  intros Hx. destruct fresh_cache as (s & Hd & _ & Hc).
  destruct (buf_read_miss s [] (seq 0 63) 63 x Hc Hx) as (s' & _ & _ & Hd' & _ & Hc'); [set_solver|].
  exists s'. rewrite Hd', Hd in *. done.
Qed.

Definition demo_ops : list bop := [BRead 7; BRead 9; BSet 63 zero_block; BWrite 63; BRelease 63; BRelease 62].

Lemma buf_refines_spec_witness : exists s s' : kstate memdisk,
  for_each demo_ops bcall s = Ret tt s' /\ cache_inv s' [] (seq 0 62 ++ [63%nat; 62%nat]).
Proof.
  destruct fresh_cache as (s & Hd & _ & Hc). exists s.
  destruct (buf_refines_spec demo_ops s (mk_bspec empty_disk [] (seq 0 N_BLOCK_BUF))
    (mk_bspec (put_block empty_disk 7 zero_block) [] (seq 0 62 ++ [63%nat; 62%nat])) (conj Hd Hc))
    as (s' & Hrun & _ & _ & Hc'); [vm_compute; reflexivity|].
  exists s'. split; [exact Hrun | exact Hc'].
Defined.

Lemma buf_errors_witness : exists s s' : kstate memdisk, buf_read 5 s = Panic "acquire" s'.
Proof.
  destruct (fresh_cache_read 5) as (s & _ & Hc); [done|]. exists s.
  apply (proj1 (buf_errors s _ _ 5 Hc ltac:(done))). set_solver.
Defined.

Lemma insert_head_moves_witness : exists (s : kstate memdisk) L',
  insert_head 1 true s = Ret tt (put_links L' s) /\ ring L' [1; 0; 2]%nat.
Proof.
  set (L := [(Some 1, Some HEAD); (Some 2, Some 0); (Some HEAD, Some 1)]%nat
              ++ replicate 61 (None, None) ++ [(Some 0, Some 2)]%nat : list (option nat * option nat)).
  set (s := put_links L (bss empty_disk 0)). exists s.
  destruct (insert_head_moves s [0%nat] 1 [2%nat] true) as (L' & Hi & Hr & _).
  { split; [by split_and! | | ]; by repeat constructor; set_solver || lia || (vm_compute; lia). }
  exists L'. split; [exact Hi | exact Hr].
Defined.

Lemma buf_init_all_free_witness : exists s', buf_init (bss empty_disk 0) = Ret tt s'.
Proof.
  destruct (buf_init_all_free (bss empty_disk 0) (bss_cache empty_disk)) as (s' & Hi & _). exists s'. exact Hi.
Defined.

Lemma buf_write_read_back_witness : exists s1 s2 : kstate memdisk,
  buf_read 5 s1 = Ret 63%nat s2 /\ cache s2 [(63%nat, 5, replicate 1024 7)].
Proof.
  destruct (fresh_cache_read 5) as (s & _ & Hc); [done|].
  destruct (buf_write_read_back s [] 63 5 _ (replicate 1024 7) (ex_intro _ _ Hc))
    as (s1 & _ & _ & (s2 & Hr & Hc2) & _).
  - set_solver.
  - split; [done|]. apply Forall_replicate. lia.
  - done.
  - exists s1, s2. split; [exact Hr | exact Hc2].
Defined.
