(* ===== verification/Bitmap.v ===== *)
(** * Bitmap: kernel/fs/bitmap.c, the allocators of data blocks and inodes

    A bitmap is one disk block of 8192 bits.  [bit] and [first_clear] are the
    reference view of it, bit by bit; the code skips the bytes that are 0xFF. *)

From S2P Require Import Prelude Bytes Spinlock Kernel Disk Buf.

(** ** Operations *)

Section Ops.
Context {D : Type} `{!DiskDriver D}.

(** [buf->data[n]] and [buf->data[n] = v]. *)
Definition get_byte (b : nat) (n : Z) : M (kstate D) Z := get_buf b (fun b => byte_at (data b) n).
Definition set_byte (b : nat) (n v : Z) : M (kstate D) unit := upd_data b (fun l => <[Z.to_nat n := v]> l).

Definition bit_mask (bit : Z) : Z := u8 (Z.shiftl 1 bit).

(** The body of the loop over the bits of a byte. *)
Definition try_bit (buf : nat) (byte bit : Z) : M (kstate D) (option Z) :=
  let mask := bit_mask bit in
  d ← get_byte buf byte;
  if Z.land d mask =? 0 then
    set_byte buf byte (Z.lor d mask);;
    buf_write buf;;
    buf_release buf;;
    let bit_num := u32 (byte * 8 + bit) in
    if bit_num =? 0 then mret None else mret (Some bit_num)
  else mret None.

Definition try_byte (buf : nat) (byte : Z) : M (kstate D) (option Z) :=
  d ← get_byte buf byte;
  if d =? 0xFF then mret None else for_return (seqZ 0 8) (try_bit buf byte).

Definition bitmap_search_and_set (bitmap_block : Z) : M (kstate D) Z :=
  buf ← buf_read bitmap_block;
  r ← for_return (seqZ 0 BLOCK_SIZE) (try_byte buf);
  match r with
  | Some bit_num => mret bit_num
  | None => buf_release buf;; mret 0
  end.

Definition bitmap_unset (bitmap_block bit_num : Z) : M (kstate D) unit :=
  if bit_num =? 0 then mret tt else
  buf ← buf_read bitmap_block;
  let byte := bit_num / 8 in
  let bit := bit_num mod 8 in
  if BLOCK_SIZE <=? byte then buf_release buf else
  let mask := bit_mask bit in
  d ← get_byte buf byte;
  set_byte buf byte (u8 (Z.land d (Z.lnot mask)));;
  buf_write buf;;
  buf_release buf.

Definition bitmap_alloc_block : M (kstate D) Z :=
  start ← gets (fun s => data_bitmap_start (k_sb s));
  bit_num ← bitmap_search_and_set start;
  if bit_num =? 0 then mret 0 else
  base ← gets (fun s => data_start (k_sb s));
  mret (u32 (base + bit_num)).

Definition bitmap_free_block (block_num : Z) : M (kstate D) unit :=
  base ← gets (fun s => data_start (k_sb s));
  if block_num <? base then mret tt else
  let bit_num := u32 (block_num - base) in
  start ← gets (fun s => data_bitmap_start (k_sb s));
  bitmap_unset start bit_num.

Definition bitmap_alloc_inode : M (kstate D) Z :=
  start ← gets (fun s => inode_bitmap_start (k_sb s));
  bit_num ← bitmap_search_and_set start;
  if bit_num =? 0 then mret 0 else mret (u16 bit_num).

Definition bitmap_free_inode (inode_num : Z) : M (kstate D) unit :=
  start ← gets (fun s => inode_bitmap_start (k_sb s));
  bitmap_unset start inode_num.
End Ops.

(** ** Bits of a block *)

Definition NBITS : Z := BLOCK_SIZE * 8.

Definition bit (l : list Z) (n : Z) : bool := Z.testbit (byte_at l (n / 8)) (n mod 8).
Definition set_bit (l : list Z) (n : Z) : list Z :=
  <[Z.to_nat (n / 8) := Z.lor (byte_at l (n / 8)) (bit_mask (n mod 8))]> l.
Definition clear_bit (l : list Z) (n : Z) : list Z :=
  <[Z.to_nat (n / 8) := u8 (Z.land (byte_at l (n / 8)) (Z.lnot (bit_mask (n mod 8))))]> l.

(** The first clear bit of the block. *)
Definition first_clear (l : list Z) : option Z := List.find (fun n => negb (bit l n)) (seqZ 0 NBITS).

Definition octets : list Z := seqZ 0 (2 ^ 8).

(** A property of all bytes that the machine can enumerate. *)
Lemma octets_forall (p : Z -> bool) : forallb p octets = true -> forall d, 0 <= d < 2 ^ 8 -> p d = true.
Proof.
  intros Hp d Hd. eapply forallb_forall in Hp; [done|]. apply list_elem_of_In, elem_of_seqZ. lia.
Qed.

Lemma octets_forall2 (p : Z -> Z -> bool) :
  forallb (fun d => forallb (p d) (seqZ 0 8)) octets = true ->
  forall d b, 0 <= d < 2 ^ 8 -> 0 <= b < 8 -> p d b = true.
Proof.
  intros Hp d b Hd Hb. apply octets_forall with (d := d) in Hp; [|done]. eapply forallb_forall in Hp; [done|].
  apply list_elem_of_In, elem_of_seqZ. lia.
Qed.

Lemma land_mask d b : 0 <= d < 2 ^ 8 -> 0 <= b < 8 -> (Z.land d (bit_mask b) =? 0) = negb (Z.testbit d b).
Proof.
  intros Hd Hb. apply eqb_prop. revert d b Hd Hb.
  apply (octets_forall2 (fun d b => Bool.eqb (Z.land d (bit_mask b) =? 0) (negb (Z.testbit d b)))).
  vm_compute. done.
Qed.

Lemma all_set_iff d : 0 <= d < 2 ^ 8 -> (d =? 0xFF) = forallb (Z.testbit d) (seqZ 0 8).
Proof.
  intros Hd. apply eqb_prop. revert d Hd.
  apply (octets_forall (fun d => Bool.eqb (d =? 0xFF) (forallb (Z.testbit d) (seqZ 0 8)))).
  vm_compute. done.
Qed.

Lemma testbit_set d b c : 0 <= d < 2 ^ 8 -> 0 <= b < 8 -> 0 <= c < 8 ->
  Z.testbit (Z.lor d (bit_mask b)) c = (c =? b) || Z.testbit d c.
Proof.
  intros Hd Hb Hc. apply eqb_prop. revert d b Hd Hb c Hc.
  assert (forall d b, 0 <= d < 2 ^ 8 -> 0 <= b < 8 -> forallb (fun c =>
    Bool.eqb (Z.testbit (Z.lor d (bit_mask b)) c) ((c =? b) || Z.testbit d c)) (seqZ 0 8) = true) as H.
  { apply (octets_forall2 (fun d b => forallb (fun c =>
      Bool.eqb (Z.testbit (Z.lor d (bit_mask b)) c) ((c =? b) || Z.testbit d c)) (seqZ 0 8))).
    vm_compute. done. }
  intros d b Hd Hb c Hc. specialize (H d b Hd Hb). eapply forallb_forall in H; [exact H|].
  apply list_elem_of_In, elem_of_seqZ. lia.
Qed.

Lemma testbit_clear d b c : 0 <= d < 2 ^ 8 -> 0 <= b < 8 -> 0 <= c < 8 ->
  Z.testbit (u8 (Z.land d (Z.lnot (bit_mask b)))) c = negb (c =? b) && Z.testbit d c.
Proof.
  intros Hd Hb Hc. apply eqb_prop. revert d b Hd Hb c Hc.
  assert (forall d b, 0 <= d < 2 ^ 8 -> 0 <= b < 8 -> forallb (fun c =>
    Bool.eqb (Z.testbit (u8 (Z.land d (Z.lnot (bit_mask b)))) c) (negb (c =? b) && Z.testbit d c)) (seqZ 0 8) = true) as H.
  { apply (octets_forall2 (fun d b => forallb (fun c =>
      Bool.eqb (Z.testbit (u8 (Z.land d (Z.lnot (bit_mask b)))) c) (negb (c =? b) && Z.testbit d c)) (seqZ 0 8))).
    vm_compute. done. }
  intros d b Hd Hb c Hc. specialize (H d b Hd Hb). eapply forallb_forall in H; [exact H|].
  apply list_elem_of_In, elem_of_seqZ. lia.
Qed.

Lemma lor_mask_range d b : 0 <= d < 2 ^ 8 -> 0 <= b < 8 -> 0 <= Z.lor d (bit_mask b) < 2 ^ 8.
Proof.
  intros Hd Hb. assert ((0 <=? Z.lor d (bit_mask b)) && (Z.lor d (bit_mask b) <? 2 ^ 8) = true) as H; [|lia].
  revert d b Hd Hb.
  apply (octets_forall2 (fun d b => (0 <=? Z.lor d (bit_mask b)) && (Z.lor d (bit_mask b) <? 2 ^ 8))).
  vm_compute. done.
Qed.

Lemma byte_at_range l n : good_data l -> 0 <= n < BLOCK_SIZE -> 0 <= byte_at l n < 2 ^ 8.
Proof.
  intros [Hl Hb] Hn. unfold byte_at.
  destruct (lookup_lt_is_Some_2 l (Z.to_nat n)) as [d Hd]; [rewrite Hl; lia|].
  rewrite (list_lookup_total_correct _ _ _ Hd). by eapply Forall_lookup_1 in Hb.
Qed.

Lemma byte_at_insert l n k v : good_data l -> 0 <= n < BLOCK_SIZE -> 0 <= k < BLOCK_SIZE ->
  byte_at (<[Z.to_nat n := v]> l) k = if n =? k then v else byte_at l k.
Proof.
  intros [Hl _] Hn Hk. unfold byte_at. destruct (Z.eqb_spec n k) as [->|Hne].
  - rewrite list_lookup_total_insert_eq; [done|]. rewrite Hl. lia.
  - apply list_lookup_total_insert_ne. lia.
Qed.

Lemma good_insert l n v : good_data l -> 0 <= v < 2 ^ 8 -> good_data (<[n := v]> l).
Proof. intros [Hl Hb] Hv. split; [by rewrite length_insert|]. by apply Forall_insert. Qed.

Lemma bit_index n : 0 <= n < NBITS -> 0 <= n / 8 < BLOCK_SIZE /\ 0 <= n mod 8 < 8.
Proof.
  unfold NBITS, BLOCK_SIZE. intros Hn. split; [|by apply Z.mod_pos_bound].
  split; [apply Z.div_pos; lia | apply Z.div_lt_upper_bound; lia].
Qed.

Lemma bit_eq n m : n / 8 = m / 8 -> n mod 8 = m mod 8 -> n = m.
Proof. intros H1 H2. rewrite (Z.div_mod n 8), (Z.div_mod m 8), H1, H2 by lia. done. Qed.

Lemma bit_set_bit l n m : good_data l -> 0 <= n < NBITS -> 0 <= m < NBITS ->
  bit (set_bit l n) m = (m =? n) || bit l m.
Proof.
  intros Hl [Hn Hn']%bit_index [Hm Hm']%bit_index. unfold bit, set_bit. rewrite byte_at_insert by done.
  destruct (Z.eqb_spec (n / 8) (m / 8)) as [He|Hne].
  - rewrite testbit_set by (try apply byte_at_range; done). rewrite He. f_equal.
    apply eq_true_iff_eq. rewrite !Z.eqb_eq. split; [|by intros ->]. intros. by apply bit_eq.
  - destruct (Z.eqb_spec m n) as [->|]; [done|]. done.
Qed.

Lemma bit_clear_bit l n m : good_data l -> 0 <= n < NBITS -> 0 <= m < NBITS ->
  bit (clear_bit l n) m = negb (m =? n) && bit l m.
Proof.
  intros Hl [Hn Hn']%bit_index [Hm Hm']%bit_index. unfold bit, clear_bit. rewrite byte_at_insert by done.
  destruct (Z.eqb_spec (n / 8) (m / 8)) as [He|Hne].
  - rewrite testbit_clear by (try apply byte_at_range; done). rewrite He. do 2 f_equal.
    apply eq_true_iff_eq. rewrite !Z.eqb_eq. split; [|by intros ->]. intros. by apply bit_eq.
  - destruct (Z.eqb_spec m n) as [->|]; [done|]. done.
Qed.

Lemma good_set_bit l n : good_data l -> 0 <= n < NBITS -> good_data (set_bit l n).
Proof.
  intros Hl [Hn Hn']%bit_index. apply good_insert; [done|]. apply lor_mask_range; [|done]. by apply byte_at_range.
Qed.
Lemma good_clear_bit l n : good_data l -> good_data (clear_bit l n).
Proof. intros Hl. apply good_insert; [done|]. apply u8_range. Qed.

(** ** The search finds the first clear bit *)

Lemma find_seqZ_some (p : Z -> bool) N a n :
  0 <= N -> List.find p (seqZ a N) = Some n ->
  a <= n < a + N /\ p n = true /\ forall m, a <= m < n -> p m = false.
Proof.
  intros HN. rewrite <- (Z2Nat.id N) by done. generalize (Z.to_nat N). clear HN N. intros k.
  revert a; induction k as [|k IH]; intros a; [done|].
  rewrite seqZ_cons by lia. replace (Z.pred (Z.of_nat (S k))) with (Z.of_nat k) by lia. simpl.
  destruct (p a) eqn:Ha; [intros [= <-]; split_and!; [lia | lia | done | lia]|].
  intros (Hn & Hp & Hm)%IH. split_and!; [lia | lia | done |].
  intros m Hm'. destruct (decide (m = a)) as [->|]; [done|]. apply Hm. lia.
Qed.

Lemma first_clear_some l n : first_clear l = Some n ->
  0 <= n < NBITS /\ bit l n = false /\ forall m, 0 <= m < n -> bit l m = true.
Proof.
  unfold first_clear. intros (Hn & Hp & Hm)%find_seqZ_some; [|done]. split_and!; [lia | lia | |].
  - by apply negb_true_iff.
  - intros m Hm'. by apply negb_false_iff, Hm.
Qed.

Lemma first_clear_none l : first_clear l = None -> forall n, 0 <= n < NBITS -> bit l n = true.
Proof.
  unfold first_clear. intros Hf n Hn. pose proof (find_none _ _ Hf n) as Hb. cbv beta in Hb.
  apply negb_false_iff, Hb, list_elem_of_In, elem_of_seqZ. lia.
Qed.

Lemma bit_index_of byte b : 0 <= b < 8 -> (byte * 8 + b) / 8 = byte /\ (byte * 8 + b) mod 8 = b.
Proof.
  intros Hb. rewrite Z.add_comm, Z.div_add, Z.mod_add, Z.div_small, Z.mod_small by lia. lia.
Qed.

Section Search.
Context {D : Type} `{!BlockDev D, !BlockDevLaws D, !DiskDriver D, !DiskDriverOk D}.
Implicit Types (s : kstate D) (H : list hbuf).

Lemma bind_get_byte {B} s i x l H n (k : Z -> M (kstate D) B) :
  cache s ((i, x, l) :: H) -> (get_byte i n ≫= k) s = k (byte_at l n) s.
Proof. exact (buf_data_ok s i x l H (fun l => byte_at l n) k). Qed.

Lemma try_bit_skip s i x l H byte b :
  cache s ((i, x, l) :: H) -> 0 <= byte < BLOCK_SIZE -> 0 <= b < 8 -> bit l (byte * 8 + b) = true ->
  try_bit i byte b s = Ret None s.
Proof.
  intros Hc Hbyte Hb Hbit. unfold try_bit. rewrite (bind_get_byte _ _ _ _ _ _ _ Hc).
  unfold bit in Hbit. destruct (bit_index_of byte b Hb) as [Hd Hm]. rewrite Hd, Hm in Hbit.
  rewrite land_mask by (try apply byte_at_range; by eauto using cache_data). by rewrite Hbit.
Qed.

Lemma try_bit_hit s i x l H byte b :
  cache s ((i, x, l) :: H) -> 0 <= byte < BLOCK_SIZE -> 0 <= b < 8 -> bit l (byte * 8 + b) = false ->
  exists s', try_bit i byte b s
      = Ret (if byte * 8 + b =? 0 then None else Some (byte * 8 + b)) s' /\
    becomes s (put_block (k_dev s) x (set_bit l (byte * 8 + b))) (cpu_touch (cpu_pop (k_cpu s))) H s'.
Proof.
  intros Hc Hbyte Hb Hbit. unfold try_bit. rewrite (bind_get_byte _ _ _ _ _ _ _ Hc).
  pose proof (cache_data _ _ _ _ _ Hc) as Hl.
  destruct (bit_index_of byte b Hb) as [Hd Hm]. unfold bit in Hbit. rewrite Hd, Hm in Hbit.
  rewrite land_mask by (try apply byte_at_range; done). rewrite Hbit. cbn [negb].
  assert (good_data (set_bit l (byte * 8 + b))) as Hgood.
  { apply good_set_bit; [done|]. unfold NBITS, BLOCK_SIZE in *. lia. }
  destruct (upd_data_ok _ _ _ _ (fun l => <[Z.to_nat byte := Z.lor (byte_at l byte) (bit_mask b)]> l) _ Hc)
    as (s1 & Hs1 & Hb1).
  { unfold set_bit in Hgood. by rewrite Hd, Hm in Hgood. }
  assert (set_byte i byte (Z.lor (byte_at l byte) (bit_mask b)) s = Ret tt s1) as Hset.
  { rewrite <- Hs1. destruct Hc as [free Hc]. destruct (ci_held_mid s [] _ _ _ _ _ Hc) as (bf & Hbf & _ & _ & _ & <-).
    unfold set_byte, upd_data. by rewrite !(upd_buf_eq _ _ _ _ Hbf). }
  mstep ltac:(exact Hset).
  destruct (buf_write_ok _ _ _ _ _ (be_cache _ _ _ _ _ Hb1)) as (s2 & Hs2 & Hb2). mstep ltac:(exact Hs2).
  destruct (buf_release_ok _ _ _ _ _ (be_cache _ _ _ _ _ Hb2)) as (s3 & Hs3 & Hb3). mstep ltac:(exact Hs3).
  exists s3. rewrite u32_small by (unfold BLOCK_SIZE in *; lia). split; [by destruct (_ =? 0)|].
  pose proof (becomes_trans _ _ _ _ _ _ _ _ _ Hb1 (becomes_trans _ _ _ _ _ _ _ _ _ Hb2 Hb3)) as Hbe.
  rewrite (be_dev _ _ _ _ _ Hb2), (be_dev _ _ _ _ _ Hb1), (be_cpu _ _ _ _ _ Hb2), (be_cpu _ _ _ _ _ Hb1) in Hbe.
  unfold set_bit. by rewrite Hd, Hm.
Qed.

(** A byte whose bits are all set is skipped. *)
Lemma try_byte_skip s i x l H byte :
  cache s ((i, x, l) :: H) -> 0 <= byte < BLOCK_SIZE ->
  (forall b, 0 <= b < 8 -> bit l (byte * 8 + b) = true) -> try_byte i byte s = Ret None s.
Proof.
  intros Hc Hbyte Hbits. unfold try_byte. rewrite (bind_get_byte _ _ _ _ _ _ _ Hc).
  rewrite all_set_iff by (apply byte_at_range; by eauto using cache_data).
  replace (forallb _ _) with true; [done|]. symmetry. apply forallb_forall.
  intros b Hb%list_elem_of_In%elem_of_seqZ. specialize (Hbits b ltac:(lia)). unfold bit in Hbits.
  destruct (bit_index_of byte b ltac:(lia)) as [Hd Hm]. by rewrite Hd, Hm in Hbits.
Qed.

Lemma try_byte_open s i x l H byte b :
  cache s ((i, x, l) :: H) -> 0 <= byte < BLOCK_SIZE -> 0 <= b < 8 -> bit l (byte * 8 + b) = false ->
  try_byte i byte s = for_return (seqZ 0 8) (try_bit i byte) s.
Proof.
  intros Hc Hbyte Hb Hbit. unfold try_byte. rewrite (bind_get_byte _ _ _ _ _ _ _ Hc).
  rewrite all_set_iff by (apply byte_at_range; by eauto using cache_data).
  destruct (forallb _ _) eqn:Hall; [|done]. exfalso. unfold bit in Hbit.
  destruct (bit_index_of byte b Hb) as [Hd Hm]. rewrite Hd, Hm in Hbit.
  eapply forallb_forall with (x := b) in Hall; [congruence|]. apply list_elem_of_In, elem_of_seqZ. lia.
Qed.

(** Up to the first clear bit the search changes nothing. *)
Lemma search_to s i x l H n :
  cache s ((i, x, l) :: H) -> first_clear l = Some n ->
  for_return (seqZ 0 BLOCK_SIZE) (try_byte i) s
  = (r ← (fun s => for_return (n mod 8 :: seqZ (n mod 8 + 1) (8 - n mod 8 - 1)) (try_bit i (n / 8)) s);
     match r with
     | Some v => mret (Some v)
     | None => for_return (seqZ (n / 8 + 1) (BLOCK_SIZE - n / 8 - 1)) (try_byte i)
     end) s.
Proof.
  intros Hc (Hn & Hclear & Hset)%first_clear_some. destruct (bit_index n Hn) as [Hq Hr].
  pose proof (Z.div_mod n 8 ltac:(lia)) as Hdm.
  rewrite (seqZ_split BLOCK_SIZE (n / 8)) by done. rewrite for_return_skip.
  - cbn [for_return]. unfold mbind at 1 2, M_bind.
    rewrite (try_byte_open s i x l H (n / 8) (n mod 8)); [|done..|by replace (n / 8 * 8 + n mod 8) with n by lia].
    rewrite (seqZ_split 8 (n mod 8)) by done. rewrite for_return_skip; [done|].
    intros b Hb%elem_of_seqZ. eapply try_bit_skip; [done | done | lia |]. apply Hset. lia.
  - intros byte Hbyte%elem_of_seqZ. eapply try_byte_skip; [done | lia |].
    intros b Hb. apply Hset. lia.
Qed.

Lemma search_found s i x l H n :
  cache s ((i, x, l) :: H) -> first_clear l = Some n -> n <> 0 ->
  exists s', for_return (seqZ 0 BLOCK_SIZE) (try_byte i) s = Ret (Some n) s' /\
    becomes s (put_block (k_dev s) x (set_bit l n)) (cpu_touch (cpu_pop (k_cpu s))) H s'.
Proof.
  intros Hc Hf Hn0. rewrite (search_to _ _ _ _ _ _ Hc Hf).
  destruct (first_clear_some _ _ Hf) as (Hn & Hclear & _). destruct (bit_index n Hn) as [Hq Hr].
  pose proof (Z.div_mod n 8 ltac:(lia)) as Hdm.
  destruct (try_bit_hit s i x l H (n / 8) (n mod 8) Hc Hq Hr) as (s' & Ht & Hb).
  { by replace (n / 8 * 8 + n mod 8) with n by lia. }
  replace (n / 8 * 8 + n mod 8) with n in * by lia. rewrite (proj2 (Z.eqb_neq _ _)) in Ht by done.
  exists s'. split; [|done]. rewrite (bind_ret_eq _ _ _ (Some n) s'); [done|]. cbn [for_return].
  by rewrite (bind_ret_eq _ _ _ _ _ Ht).
Qed.

Lemma search_full s i x l H :
  cache s ((i, x, l) :: H) -> first_clear l = None ->
  for_return (seqZ 0 BLOCK_SIZE) (try_byte i) s = Ret None s.
Proof.
  intros Hc Hf. apply for_return_none. intros byte Hbyte%elem_of_seqZ.
  eapply try_byte_skip; [done | lia |]. intros b Hb. apply first_clear_none; [done|].
  unfold NBITS, BLOCK_SIZE in *. lia.
Qed.

(** *** The two operations, with their effect on the disk *)

(** The bitmap block can be read: it is not checked out and a buffer is free. *)
Definition can_read s H (x : Z) : Prop :=
  cache s H /\ (length H < N_BLOCK_BUF)%nat /\ blk_ok x /\ x ∉ h_blk <$> H.

Lemma can_read_becomes s d c H s' x : becomes s d c H s' -> can_read s H x -> can_read s' H x.
Proof. intros [_ _ _ Hc] (_ & ? & ? & ?). by split_and!. Qed.

Lemma good_block (d : D) x : good_data (block d x).
Proof. split; [apply length_block | apply is_bytes_block]. Qed.

(** The two steps around every access to a block. *)
Lemma becomes_done s H i x l s1 d s2 :
  cache s H -> becomes s (k_dev s) (cpu_push (k_cpu s)) ((i, x, l) :: H) s1 ->
  becomes s1 d (cpu_touch (cpu_pop (k_cpu s1))) H s2 -> becomes s d (cpu_touch (k_cpu s)) H s2.
Proof.
  intros Hc H1 H2. pose proof (becomes_trans _ _ _ _ _ _ _ _ _ H1 H2) as Hb.
  by rewrite (be_cpu _ _ _ _ _ H1), (cpu_read_release _ _ Hc) in Hb.
Qed.

Lemma bitmap_search_some s H x n :
  can_read s H x -> first_clear (block (k_dev s) x) = Some n -> n <> 0 ->
  exists s', bitmap_search_and_set x s = Ret n s' /\
    becomes s (put_block (k_dev s) x (set_bit (block (k_dev s) x) n)) (cpu_touch (k_cpu s)) H s'.
Proof.
  intros (Hc & Hlen & Hx & Hnin) Hf Hn. unfold bitmap_search_and_set.
  destruct (buf_read_ok s H x Hc Hlen Hx Hnin) as (i & s1 & Hr & H1). mstep ltac:(exact Hr).
  destruct (search_found s1 i x _ H n (be_cache _ _ _ _ _ H1) Hf Hn) as (s2 & Hs & H2).
  mstep ltac:(exact Hs). exists s2. split; [done|]. rewrite (be_dev _ _ _ _ _ H1) in H2.
  by eapply becomes_done.
Qed.

Lemma bitmap_search_none s H x :
  can_read s H x -> first_clear (block (k_dev s) x) = None ->
  exists s', bitmap_search_and_set x s = Ret 0 s' /\ becomes s (k_dev s) (cpu_touch (k_cpu s)) H s'.
Proof.
  intros (Hc & Hlen & Hx & Hnin) Hf. unfold bitmap_search_and_set.
  destruct (buf_read_ok s H x Hc Hlen Hx Hnin) as (i & s1 & Hr & H1). mstep ltac:(exact Hr).
  mstep ltac:(exact (search_full s1 i x _ H (be_cache _ _ _ _ _ H1) Hf)).
  destruct (buf_release_ok _ _ _ _ _ (be_cache _ _ _ _ _ H1)) as (s2 & Hs & H2). mstep ltac:(exact Hs).
  exists s2. split; [done|]. rewrite (be_dev _ _ _ _ _ H1) in H2. by eapply becomes_done.
Qed.

Lemma bitmap_unset_ok s H x n :
  can_read s H x -> 0 <= n ->
  exists s', bitmap_unset x n s = Ret tt s' /\
    if n =? 0 then s' = s else
    becomes s (if n <? NBITS then put_block (k_dev s) x (clear_bit (block (k_dev s) x) n) else k_dev s)
      (cpu_touch (k_cpu s)) H s'.
Proof.
  intros (Hc & Hlen & Hx & Hnin) Hn. unfold bitmap_unset. destruct (n =? 0); [by exists s|].
  destruct (buf_read_ok s H x Hc Hlen Hx Hnin) as (i & s1 & Hr & H1). mstep ltac:(exact Hr).
  pose proof (be_cache _ _ _ _ _ H1) as Hc1.
  destruct (Z.leb_spec BLOCK_SIZE (n / 8)) as [Hout|Hin].
  - rewrite (proj2 (Z.ltb_ge n NBITS))
      by (unfold NBITS, BLOCK_SIZE in *; pose proof (Z.mul_div_le n 8 ltac:(lia)); lia).
    destruct (buf_release_ok _ _ _ _ _ Hc1) as (s2 & Hs & H2). exists s2. split; [done|].
    rewrite (be_dev _ _ _ _ _ H1) in H2. by eapply becomes_done.
  - assert (n < NBITS) by (unfold NBITS, BLOCK_SIZE in *; pose proof (Z.div_mod n 8 ltac:(lia)); pose proof (Z.mod_pos_bound n 8 ltac:(lia)); lia).
    rewrite (proj2 (Z.ltb_lt n NBITS)) by done.
    rewrite (bind_get_byte _ _ _ _ _ _ _ Hc1). set (l := block (k_dev s) x) in *.
    destruct (upd_data_ok _ _ _ _ (fun l' => <[Z.to_nat (n / 8) :=
        u8 (Z.land (byte_at l (n / 8)) (Z.lnot (bit_mask (n mod 8))))]> l') _ Hc1) as (s2 & Hs2 & H2).
    { apply good_clear_bit, good_block. }
    mstep ltac:(exact Hs2).
    destruct (buf_write_ok _ _ _ _ _ (be_cache _ _ _ _ _ H2)) as (s3 & Hs3 & H3). mstep ltac:(exact Hs3).
    destruct (buf_release_ok _ _ _ _ _ (be_cache _ _ _ _ _ H3)) as (s4 & Hs4 & H4).
    exists s4. split; [done|]. pose proof (becomes_trans _ _ _ _ _ _ _ _ _ H2 (becomes_trans _ _ _ _ _ _ _ _ _ H3 H4)) as Hb.
    rewrite (be_dev _ _ _ _ _ H3), (be_dev _ _ _ _ _ H2), (be_dev _ _ _ _ _ H1),
      (be_cpu _ _ _ _ _ H3), (be_cpu _ _ _ _ _ H2) in Hb.
    by eapply becomes_done.
Qed.

Lemma k_sb_frame s s' : frame s s' -> k_sb s' = k_sb s.
Proof. intros ->. done. Qed.

Lemma alloc_block_some s H n :
  can_read s H (data_bitmap_start (k_sb s)) ->
  first_clear (block (k_dev s) (data_bitmap_start (k_sb s))) = Some n -> n <> 0 ->
  exists s', bitmap_alloc_block s = Ret (u32 (data_start (k_sb s) + n)) s' /\
    becomes s (put_block (k_dev s) (data_bitmap_start (k_sb s))
                 (set_bit (block (k_dev s) (data_bitmap_start (k_sb s))) n)) (cpu_touch (k_cpu s)) H s'.
Proof.
  intros Hr Hf Hn. unfold bitmap_alloc_block. mrun.
  destruct (bitmap_search_some s H _ n Hr Hf Hn) as (s' & Hs & Hb). mstep ltac:(exact Hs).
  rewrite (proj2 (Z.eqb_neq _ _) Hn). mrun. exists s'. split; [|done].
  by rewrite (k_sb_frame _ _ (be_frame _ _ _ _ _ Hb)).
Qed.

Lemma alloc_block_none s H :
  can_read s H (data_bitmap_start (k_sb s)) ->
  first_clear (block (k_dev s) (data_bitmap_start (k_sb s))) = None ->
  exists s', bitmap_alloc_block s = Ret 0 s' /\ becomes s (k_dev s) (cpu_touch (k_cpu s)) H s'.
Proof.
  intros Hr Hf. unfold bitmap_alloc_block. mrun.
  destruct (bitmap_search_none s H _ Hr Hf) as (s' & Hs & Hb). mstep ltac:(exact Hs). by exists s'.
Qed.

Lemma alloc_inode_some s H n :
  can_read s H (inode_bitmap_start (k_sb s)) ->
  first_clear (block (k_dev s) (inode_bitmap_start (k_sb s))) = Some n -> n <> 0 ->
  exists s', bitmap_alloc_inode s = Ret n s' /\
    becomes s (put_block (k_dev s) (inode_bitmap_start (k_sb s))
                 (set_bit (block (k_dev s) (inode_bitmap_start (k_sb s))) n)) (cpu_touch (k_cpu s)) H s'.
Proof.
  intros Hr Hf Hn. unfold bitmap_alloc_inode. mrun.
  destruct (bitmap_search_some s H _ n Hr Hf Hn) as (s' & Hs & Hb). mstep ltac:(exact Hs).
  rewrite (proj2 (Z.eqb_neq _ _) Hn). exists s'. split; [|done].
  apply first_clear_some in Hf as [Hn' _]. rewrite u16_small; [done|]. unfold NBITS, BLOCK_SIZE in *. lia.
Qed.

Lemma alloc_inode_none s H :
  can_read s H (inode_bitmap_start (k_sb s)) ->
  first_clear (block (k_dev s) (inode_bitmap_start (k_sb s))) = None ->
  exists s', bitmap_alloc_inode s = Ret 0 s' /\ becomes s (k_dev s) (cpu_touch (k_cpu s)) H s'.
Proof.
  intros Hr Hf. unfold bitmap_alloc_inode. mrun.
  destruct (bitmap_search_none s H _ Hr Hf) as (s' & Hs & Hb). mstep ltac:(exact Hs). by exists s'.
Qed.

(** Block [data_start + n] is given back: bit [n] is cleared; bit 0 never is. *)
Lemma free_block_ok s H n :
  can_read s H (data_bitmap_start (k_sb s)) -> 0 <= data_start (k_sb s) -> 0 < n < NBITS ->
  data_start (k_sb s) + n < 2 ^ 32 ->
  exists s', bitmap_free_block (data_start (k_sb s) + n) s = Ret tt s' /\
    becomes s (put_block (k_dev s) (data_bitmap_start (k_sb s))
                 (clear_bit (block (k_dev s) (data_bitmap_start (k_sb s))) n)) (cpu_touch (k_cpu s)) H s'.
Proof.
  intros Hr H0 Hn Hlt. unfold bitmap_free_block. mrun. rewrite (proj2 (Z.ltb_ge _ _)) by lia. mrun.
  replace (data_start (k_sb s) + n - data_start (k_sb s)) with n by lia. rewrite u32_small by lia.
  destruct (bitmap_unset_ok s H _ n Hr) as (s' & Hs & Hb); [lia|]. exists s'. split; [done|].
  rewrite (proj2 (Z.eqb_neq _ _)), (proj2 (Z.ltb_lt _ _)) in Hb by lia. done.
Qed.

(** *** Bit 0 *)

(** Once the buffer is released the loops go on with it, and panic at the next
    clear bit. *)
Definition stuck_or {A} (m : M (kstate D) (option A)) s : Prop :=
  m s = Ret None s \/ exists s', m s = Panic "buf_write: buffer not locked" s'.

Lemma stuck_or_loop {I A} (l : list I) (body : I -> M (kstate D) (option A)) s :
  (forall i, stuck_or (body i) s) -> stuck_or (for_return l body) s.
Proof.
  intros Hb. induction l as [|i l IH]; [by left|]. unfold stuck_or in *. cbn [for_return].
  destruct (Hb i) as [He|(s' & He)].
  - by rewrite (bind_ret_eq _ _ _ _ _ He).
  - right. exists s'. by apply bind_panic_eq.
Qed.

Lemma unlocked_bit s i b byte bt : buf_of s i = Some b -> is_free (slk b) -> stuck_or (try_bit i byte bt) s.
Proof.
  intros Hb Hf. unfold stuck_or, try_bit, get_byte. rewrite (bind_get_buf _ _ _ _ _ Hb).
  destruct (Z.land _ _ =? 0); [|by left]. right. unfold set_byte, upd_data.
  mstep ltac:(exact (upd_buf_eq _ _ _ _ Hb)). pose proof (buf_of_lt _ _ _ Hb).
  set (b' := set_data _ b). unfold buf_write. mrun.
  rewrite (holding_slk _ _ b') by (rewrite buf_of_put by done; by rewrite decide_True).
  change (locked (slk b')) with (locked (slk b)). rewrite Hf. simpl. mrun. eauto.
Qed.

Lemma unlocked_byte s i b byte : buf_of s i = Some b -> is_free (slk b) -> stuck_or (try_byte i byte) s.
Proof.
  intros Hb Hf. unfold stuck_or, try_byte, get_byte. rewrite (bind_get_buf _ _ _ _ _ Hb).
  destruct (_ =? 0xFF); [by left|]. apply stuck_or_loop. intros bt. by apply (unlocked_bit _ _ b).
Qed.

Lemma freed_buf s i x l H s' d c :
  cache s ((i, x, l) :: H) -> becomes s d c H s' -> exists free, cache_inv s' H free /\ i ∈ free.
Proof.
  intros [free0 Hc] [_ _ _ [free Hc']]. exists free. split; [done|].
  assert (i < N_BLOCK_BUF)%nat as Hi.
  { eapply (ci_idx _ _ _ _ Hc). apply elem_of_app. left. by apply elem_of_cons; left. }
  destruct (ci_ring _ _ _ Hc) as [_ Hnd _].
  rewrite NoDup_cons, fmap_cons in Hnd. destruct Hnd as [_ Hnd]. cbn [app] in Hnd. rewrite NoDup_cons in Hnd.
  assert (i ∈ (h_idx <$> H) ++ free) as Hin by (rewrite (ci_perm _ _ _ Hc'), elem_of_seq; lia).
  apply elem_of_app in Hin as [Hin|]; [|done]. destruct Hnd as [Hnd _]. destruct Hnd. apply elem_of_app. by left.
Qed.

Lemma bitmap_search_zero s H x :
  can_read s H x -> first_clear (block (k_dev s) x) = Some 0 ->
  exists msg s', bitmap_search_and_set x s = Panic msg s' /\
    (msg = "buf_write: buffer not locked" \/ msg = "buf_release: buffer not locked").
Proof.
  intros (Hc & Hlen & Hx & Hnin) Hf. unfold bitmap_search_and_set.
  destruct (buf_read_ok s H x Hc Hlen Hx Hnin) as (i & s1 & Hr & H1). mstep ltac:(exact Hr).
  pose proof (be_cache _ _ _ _ _ H1) as Hc1.
  destruct (first_clear_some _ _ Hf) as (_ & Hclear & _).
  destruct (try_bit_hit s1 i x _ H 0 0 Hc1) as (s2 & Hs2 & H2); [done..|].
  pose proof (search_to _ _ _ _ _ _ Hc1 Hf) as Hto. change (0 / 8) with 0 in Hto. change (0 mod 8) with 0 in Hto.
  change (0 * 8 + 0 =? 0) with true in Hs2. cbn iota in Hs2.
  destruct (freed_buf _ _ _ _ _ _ _ _ Hc1 H2) as (free & Hc2 & Hi).
  destruct (Forall_elem _ _ _ (ci_free _ _ _ Hc2) Hi) as (b & Hb & _ & _ & Hbf & _).
  destruct (stuck_or_loop (seqZ (0 + 1) (8 - 0 - 1)) (try_bit i 0) s2) as [Hbits|(s' & Hbits)].
  { intros bt. by apply (unlocked_bit _ _ b). }
  - destruct (stuck_or_loop (seqZ (0 + 1) (BLOCK_SIZE - 0 - 1)) (try_byte i) s2) as [Hbytes|(s' & Hbytes)].
    { intros byte. by apply (unlocked_byte _ _ b). }
    + exists "buf_release: buffer not locked", s2. split; [|by right].
      mstep ltac:(etrans; [exact Hto|]; rewrite (bind_ret_eq _ _ _ None s2);
        [exact Hbytes | cbn [for_return]; rewrite (bind_ret_eq _ _ _ _ _ Hs2); exact Hbits]).
      apply bind_panic_eq. unfold buf_release. by rewrite (free_not_locked _ _ _ _ _ Hc2 Hi).
    + exists "buf_write: buffer not locked", s'. split; [|by left]. apply bind_panic_eq.
      rewrite Hto. rewrite (bind_ret_eq _ _ _ None s2); [exact Hbytes|].
      cbn [for_return]; rewrite (bind_ret_eq _ _ _ _ _ Hs2); exact Hbits.
  - exists "buf_write: buffer not locked", s'. split; [|by left]. apply bind_panic_eq.
    rewrite Hto. apply bind_panic_eq. cbn [for_return]; rewrite (bind_ret_eq _ _ _ _ _ Hs2); exact Hbits.
Qed.

(** *** Round trip *)

Lemma bit_list_eq l l' : good_data l -> good_data l' ->
  (forall n, 0 <= n < NBITS -> bit l n = bit l' n) -> l = l'.
Proof.
  intros Hl Hl' Hb. apply list_eq_same_length with (n := Z.to_nat BLOCK_SIZE); [by destruct Hl' | by destruct Hl |].
  intros k d d' Hk Hd Hd'.
  assert (byte_at l (Z.of_nat k) = d) as <- by (unfold byte_at; rewrite Nat2Z.id; by apply list_lookup_total_correct).
  assert (byte_at l' (Z.of_nat k) = d') as <- by (unfold byte_at; rewrite Nat2Z.id; by apply list_lookup_total_correct).
  assert (0 <= Z.of_nat k < BLOCK_SIZE) as Hk' by lia.
  apply Z.bits_inj_iff'. intros n Hn.
  destruct (decide (n < 8)) as [Hn8|Hn8].
  - specialize (Hb (Z.of_nat k * 8 + n)). unfold bit in Hb.
    destruct (bit_index_of (Z.of_nat k) n) as [Hd1 Hm1]; [lia|]. rewrite Hd1, Hm1 in Hb. apply Hb.
    unfold NBITS, BLOCK_SIZE in *. lia.
  - pose proof (byte_at_range l _ Hl Hk'). pose proof (byte_at_range l' _ Hl' Hk').
    rewrite !Z.bits_above_log2; [done | lia | | lia |].
    + destruct (decide (byte_at l' (Z.of_nat k) = 0)) as [->|]; [simpl; lia|].
      apply Z.log2_lt_pow2; [lia|]. eapply Z.lt_le_trans; [apply H0|]. apply Z.pow_le_mono_r; lia.
    + destruct (decide (byte_at l (Z.of_nat k) = 0)) as [->|]; [simpl; lia|].
      apply Z.log2_lt_pow2; [lia|]. eapply Z.lt_le_trans; [apply H|]. apply Z.pow_le_mono_r; lia.
Qed.

Lemma clear_set_bit l n : good_data l -> 0 <= n < NBITS -> bit l n = false -> clear_bit (set_bit l n) n = l.
Proof.
  intros Hl Hn Hb. apply bit_list_eq; [by apply good_clear_bit, good_set_bit | done |].
  intros m Hm. rewrite bit_clear_bit, bit_set_bit by (try apply good_set_bit; done).
  destruct (Z.eqb_spec m n) as [->|]; [by rewrite Hb | done].
Qed.

End Search.
