(* ===== verification/BitmapSpec.v ===== *)
(** * BitmapSpec: what the block and inode allocators promise *)

From S2P Require Import Prelude Bytes Spinlock Kernel Disk Buf BufSpec Bitmap.

Section Spec.
Context {D : Type} `{!BlockDev D, !BlockDevLaws D, !DiskDriver D, !DiskDriverOk D}.
Implicit Types (s : kstate D) (H : list hbuf).

(** C3: [bitmap_search_and_set], which skips the bytes that are 0xFF, implements
    the search of the first clear bit: it returns its number and the bitmap on
    the disk has exactly this bit more; when no bit is clear it returns 0 and the
    disk is unchanged.  The buffers, the other kernel state and the interrupt
    depth are as before. *)
Theorem bitmap_first_clear s H x :
  can_read s H x -> first_clear (block (k_dev s) x) <> Some 0 ->
  exists s', bitmap_search_and_set x s = Ret (default 0 (first_clear (block (k_dev s) x))) s' /\
    becomes s (match first_clear (block (k_dev s) x) with
               | Some n => put_block (k_dev s) x (set_bit (block (k_dev s) x) n)
               | None => k_dev s
               end) (cpu_touch (k_cpu s)) H s' /\
    (forall n, first_clear (block (k_dev s) x) = Some n ->
       0 < n < NBITS /\ forall m, 0 <= m < NBITS ->
         bit (block (k_dev s') x) m = (m =? n) || bit (block (k_dev s) x) m).
Proof.
  intros Hr Hz. destruct (first_clear _) as [n|] eqn:Hf.
  - destruct (bitmap_search_some s H x n Hr Hf) as (s' & Hs & Hb); [congruence|].
    exists s'. split_and!; [done..|]. intros m [= <-]. apply first_clear_some in Hf as (Hn & _ & _).
    assert (n <> 0) by congruence. split; [lia|]. intros m Hm. rewrite (be_dev _ _ _ _ _ Hb).
    destruct (good_set_bit (block (k_dev s) x) n (good_block _ _) Hn) as [? ?].
    rewrite block_put_eq by done. apply bit_set_bit; [apply good_block | done..].
  - destruct (bitmap_search_none s H x Hr Hf) as (s' & Hs & Hb). by exists s'.
Qed.

(** allocating a data block and freeing it again: the block is
    [data_start + n] for the first clear bit [n], and [bitmap_free_block] gives
    back exactly the disk's bitmap. *)
Theorem bitmap_alloc_free s H n :
  can_read s H (data_bitmap_start (k_sb s)) ->
  first_clear (block (k_dev s) (data_bitmap_start (k_sb s))) = Some n -> n <> 0 ->
  0 <= data_start (k_sb s) -> data_start (k_sb s) + NBITS <= 2 ^ 32 ->
  exists s1 s2, bitmap_alloc_block s = Ret (data_start (k_sb s) + n) s1 /\
    bitmap_free_block (data_start (k_sb s) + n) s1 = Ret tt s2 /\ frame s s2 /\
    block (k_dev s2) (data_bitmap_start (k_sb s)) = block (k_dev s) (data_bitmap_start (k_sb s)).
Proof.
  intros Hr Hf Hn H0 Hlt. destruct (alloc_block_some s H n Hr Hf Hn) as (s1 & Hs1 & Hb1).
  apply first_clear_some in Hf as (Hn' & Hclear & _).
  pose proof (k_sb_frame _ _ (be_frame _ _ _ _ _ Hb1)) as Hsb.
  destruct (free_block_ok s1 H n) as (s2 & Hs2 & Hb2); rewrite ?Hsb; [by eapply can_read_becomes | lia..|].
  rewrite Hsb in Hs2, Hb2. rewrite u32_small in Hs1 by lia.
  exists s1, s2. split_and!; [done..| |].
  { transitivity s1; [apply Hb1 | apply Hb2]. }
  rewrite (be_dev _ _ _ _ _ Hb2), (be_dev _ _ _ _ _ Hb1).
  set (l := block (k_dev s) _) in *. assert (good_data l) as Hl by apply good_block.
  destruct (good_set_bit l n Hl Hn') as [? ?]. rewrite (block_put_eq _ _ (set_bit l n)) by done.
  rewrite clear_set_bit by done. destruct Hl. by rewrite block_put_eq.
Qed.

(** bit 0 is "reserved" only when it is set on the disk: [bitmap_unset]
    never clears it, and if it is clear then the search takes it, releases the
    buffer and goes on with the released buffer until it panics. *)
Theorem bitmap_reserved_bit s H x :
  can_read s H x ->
  bitmap_unset x 0 s = Ret tt s /\
  (bit (block (k_dev s) x) 0 = false ->
   exists msg s', bitmap_search_and_set x s = Panic msg s' /\
     (msg = "buf_write: buffer not locked" \/ msg = "buf_release: buffer not locked")).
Proof.
  intros Hr. split; [done|]. intros Hb. apply (bitmap_search_zero _ H _ Hr).
  unfold first_clear. rewrite seqZ_cons by done. cbn [List.find]. by rewrite Hb.
Qed.

(** an inode number is a bit of the inode bitmap: [bitmap_alloc_inode] gives
    the first clear bit, 0 when there is none, so that its result is a number
    below 8192 and 0 means failure. *)
Theorem bitmap_alloc_inode_first s H :
  can_read s H (inode_bitmap_start (k_sb s)) ->
  first_clear (block (k_dev s) (inode_bitmap_start (k_sb s))) <> Some 0 ->
  exists n s', bitmap_alloc_inode s = Ret n s' /\ 0 <= n < NBITS /\ cache s' H /\ frame s s' /\
    if n =? 0 then k_dev s' = k_dev s
    else bit (block (k_dev s) (inode_bitmap_start (k_sb s))) n = false
      /\ bit (block (k_dev s') (inode_bitmap_start (k_sb s))) n = true.
Proof.
  intros Hr Hz. destruct (first_clear _) as [n|] eqn:Hf.
  - assert (n <> 0) as Hn by congruence. destruct (alloc_inode_some s H n Hr Hf Hn) as (s' & Hs & Hb).
    apply first_clear_some in Hf as (Hn' & Hclear & _). exists n, s'.
    split_and!; [done | lia | lia | apply Hb | apply Hb |]. rewrite (proj2 (Z.eqb_neq _ _) Hn), (be_dev _ _ _ _ _ Hb).
    split; [done|]. set (l := block _ _) in *. assert (good_data l) as Hl by apply good_block.
    destruct (good_set_bit l n Hl Hn'). rewrite block_put_eq, bit_set_bit, Z.eqb_refl by done. done.
  - destruct (alloc_inode_none s H Hr Hf) as (s' & Hs & Hb). exists 0, s'.
    split_and!; [done..| apply Hb | apply Hb | apply (be_dev _ _ _ _ _ Hb)].
Qed.
End Spec.

(** ** Witnesses: a disk whose bitmap has its first byte full and bits 8, 9 set *)

Definition demo_bitmap : list Z := 0xFF :: 3 :: replicate 1022 0.
Definition demo_sb : super_block := mk_sb 0x12345678 1024 1 2 130 131 128 8192 8323.
Definition demo_disk : memdisk := put_block (put_block empty_disk 1 demo_bitmap) 130 demo_bitmap.

Lemma demo_state : exists s : kstate memdisk,
  k_dev s = demo_disk /\ k_sb s = demo_sb /\ can_read s [] 1 /\ can_read s [] 130.
Proof.
  destruct (fresh_cache_on demo_disk demo_sb) as (s & Hd & Hsb & _ & Hc). exists s.
  unfold can_read. split_and!; first [done | apply not_elem_of_nil | unfold N_BLOCK_BUF; simpl; lia].
Qed.

Lemma demo_first : first_clear (block demo_disk 1) = Some 10 /\ first_clear (block demo_disk 130) = Some 10.
Proof. by split; vm_compute. Qed.

Lemma bitmap_first_clear_witness : exists s s' : kstate memdisk,
  bitmap_search_and_set 130 s = Ret 10 s' /\ bit (block (k_dev s') 130) 10 = true.
Proof.
  destruct demo_state as (s & Hd & _ & _ & Hr). exists s.
  destruct (bitmap_first_clear s [] 130 Hr) as (s' & Hs & _ & Hbit).
  { rewrite Hd, (proj2 demo_first). discriminate. }
  assert (first_clear (block (k_dev s) 130) = Some 10) as Hf by (rewrite Hd; apply demo_first).
  rewrite Hf in Hs. exists s'. split; [exact Hs|].
  destruct (Hbit 10 Hf) as [Hn Hm]. rewrite Hm by (unfold NBITS, BLOCK_SIZE; lia). reflexivity.
Defined.

Lemma bitmap_alloc_free_witness : exists s s1 s2 : kstate memdisk,
  bitmap_alloc_block s = Ret 141 s1 /\ bitmap_free_block 141 s1 = Ret tt s2.
Proof.
  destruct demo_state as (s & Hd & Hsb & _ & Hr).
  destruct (bitmap_alloc_free s [] 10) as (s1 & s2 & H1 & H2 & _); rewrite ?Hsb.
  - exact Hr.
  - rewrite Hd. apply demo_first.
  - lia.
  - simpl. lia.
  - vm_compute. discriminate.
  - rewrite Hsb in H1, H2. exists s, s1, s2. split; [exact H1 | exact H2].
Defined.

Lemma bitmap_reserved_bit_witness : exists (s s' : kstate memdisk) msg,
  bitmap_search_and_set 7 s = Panic msg s'.
Proof.
  destruct (fresh_cache_on empty_disk demo_sb) as (s & Hd & _ & _ & Hc). exists s.
  assert (can_read s [] 7) as Hr by (unfold can_read; split_and!; first [done | apply not_elem_of_nil | unfold N_BLOCK_BUF; simpl; lia]).
  destruct (proj2 (bitmap_reserved_bit s [] 7 Hr)) as (msg & s' & Hs & _).
  { rewrite Hd. reflexivity. }
  exists s', msg. exact Hs.
Defined.

Lemma bitmap_alloc_inode_first_witness : exists (s s' : kstate memdisk) n,
  bitmap_alloc_inode s = Ret n s' /\ 0 <= n < 8192.
Proof.
  destruct demo_state as (s & Hd & Hsb & Hr & _). exists s.
  destruct (bitmap_alloc_inode_first s []) as (n & s' & Hs & Hn & _); rewrite ?Hsb.
  - exact Hr.
  - rewrite Hd. cbn [demo_sb inode_bitmap_start]. rewrite (proj1 demo_first). discriminate.
  - exists s', n. split; [exact Hs | exact Hn].
Defined.
