(* ===== verification/Inode.v ===== *)
(** * Inode: kernel/fs/inode.c

    The inode cache (reference counts, locks, the copy of the disk inode) and
    the data of an inode: the mapping of file blocks to disk blocks through
    direct, indirect and doubly indirect entries, reading, writing, freeing.

    A [dst] or [src] pointer is an address of the kernel's memory [k_mem]; the
    code dereferences user pointers the same way.  [memmove] between a disk
    buffer, an inode and memory never overlaps, so it is a copy of bytes. *)

From S2P Require Import Prelude Bytes Spinlock Kernel Disk Buf Bitmap.

Definition N_INODE : nat := 32.

(** ** The 64 bytes of an inode on the disk *)

Definition encode (d : dinode) : list Z :=
  le_bytes 2 (d_type d) ++ le_bytes 2 (d_major d) ++ le_bytes 2 (d_minor d) ++ le_bytes 2 (d_nlink d)
  ++ le_bytes 4 (d_size d) ++ concat (le_bytes 4 <$> d_addrs d).

Definition word (l : list Z) (off n : Z) : Z := le_value (slice l off n).

Definition decode (l : list Z) : dinode :=
  mk_dinode (word l 0 2) (word l 2 2) (word l 4 2) (word l 6 2) (word l 8 4)
    ((fun i => word l (12 + 4 * i) 4) <$> seqZ 0 N_ADDRS).

(** ** Operations *)

Section Ops.
Context {D : Type} `{!DiskDriver D}.

Definition inode_of (s : kstate D) (ip : nat) : option inode := inodes (k_ic s) !! ip.
Definition put_inode (ip : nat) (n : inode) (s : kstate D) : kstate D :=
  set_k_ic (set_inodes (<[ip := n]> (inodes (k_ic s))) (k_ic s)) s.

(** [ip->f] and [ip->f = v] *)
Definition get_inode {A} (ip : nat) (f : inode -> A) : M (kstate D) A :=
  n ← gets (fun s => inode_of s ip) ≫= some_or_fault; mret (f n).
Definition upd_inode (ip : nat) (f : inode -> inode) : M (kstate D) unit :=
  n ← gets (fun s => inode_of s ip) ≫= some_or_fault; modify (put_inode ip (f n)).
Definition upd_dinode (ip : nat) (f : dinode -> dinode) : M (kstate D) unit :=
  upd_inode ip (fun n => set_i_d (f (i_d n)) n).

Definition ic_lk : lockref D :=
  mk_lockref (fun s => lk_icache (k_ic s)) (fun l s => set_k_ic (set_lk_icache l (k_ic s)) s).
Definition inode_slk (ip : nat) : lockref D :=
  mk_lockref (fun s => match inode_of s ip with Some n => i_slk n | None => zero_lock end)
             (fun l s => match inode_of s ip with Some n => put_inode ip (set_i_slk l n) s | None => s end).

Definition inode_init : M (kstate D) unit :=
  with_lock ic_lk (spinlock_init "icache");;
  for_each (seq 0 N_INODE) (fun i =>
    upd_inode i (set_inode_num INODE_NUM_UNUSED);;
    upd_inode i (set_i_ref 0);;
    upd_inode i (set_valid false);;
    with_lock (inode_slk i) (spinlock_init "inode")).

Definition inode_rw (ip : nat) (write : bool) : M (kstate D) unit :=
  h ← holding (inode_slk ip);
  kassert h "inode_rw: no lock";;
  num ← get_inode ip inode_num;
  start ← gets (fun s => inode_start (k_sb s));
  let block_num := u32 (start + num / INODE_PER_BLOCK) in
  let offset := (num mod INODE_PER_BLOCK) * INODE_DISK_SIZE in
  buf ← buf_read block_num;
  (if write then
    d ← get_inode ip i_d;
    upd_data buf (fun l => blit l offset (encode d));;
    buf_write buf
  else
    bytes ← get_buf buf (fun b => slice (data b) offset INODE_DISK_SIZE);
    upd_inode ip (set_i_d (decode bytes));;
    upd_inode ip (set_valid true));;
  buf_release buf.

Definition inode_alloc (num : Z) : M (kstate D) nat :=
  acquire ic_lk;;
  r ← for_return (seq 0 N_INODE) (fun i =>
    n ← get_inode i inode_num;
    if n =? num then
      upd_inode i (fun n => set_i_ref (u32 (i_ref n + 1)) n);;
      release ic_lk;;
      mret (Some i)
    else mret None);
  match r with
  | Some i => mret i
  | None =>
      r ← for_return (seq 0 N_INODE) (fun i =>
        ref ← get_inode i i_ref;
        if ref =? 0 then
          upd_inode i (set_inode_num num);;
          upd_inode i (set_i_ref 1);;
          upd_inode i (set_valid false);;
          release ic_lk;;
          mret (Some i)
        else mret None);
      match r with
      | Some i => mret i
      | None => panic "inode_alloc: no available inode"
      end
  end.

(** [ip] is [None] for NULL. *)
Definition inode_lock (ip : option nat) : M (kstate D) unit :=
  match ip with
  | None => panic "inode_lock: ip is NULL"
  | Some ip =>
      ref ← get_inode ip i_ref;
      kassert (1 <=? ref) "inode_lock: ref < 1";;
      acquire (inode_slk ip);;
      v ← get_inode ip valid;
      when (negb v) (inode_rw ip false)
  end.

Definition inode_unlock (ip : nat) : M (kstate D) unit :=
  h ← holding (inode_slk ip);
  kassert h "inode_unlock: no lock";;
  release (inode_slk ip).

Definition no_addrs : list Z := replicate (Z.to_nat N_ADDRS) 0.

Definition inode_create (type major minor : Z) : M (kstate D) (option nat) :=
  num ← bitmap_alloc_inode;
  if num =? 0 then mret None else
  ip ← inode_alloc num;
  inode_lock (Some ip);;
  upd_dinode ip (set_d_type type);;
  upd_dinode ip (set_d_major major);;
  upd_dinode ip (set_d_minor minor);;
  upd_dinode ip (set_d_nlink 1);;
  upd_dinode ip (set_d_size 0);;
  upd_dinode ip (set_d_addrs no_addrs);;
  inode_rw ip true;;
  inode_unlock ip;;
  mret (Some ip).

Definition inode_dup (ip : nat) : M (kstate D) nat :=
  acquire ic_lk;;
  upd_inode ip (fun n => set_i_ref (u32 (i_ref n + 1)) n);;
  release ic_lk;;
  mret ip.

(** *** The blocks of an inode *)

(** [uint32* entry]: a word of [ip->addrs] or of a buffer's data. *)
Inductive entry_ptr :=
  | in_addrs (ip : nat) (k : Z)
  | in_buf (b : nat) (k : Z).

Definition read_entry (e : entry_ptr) : M (kstate D) Z :=
  match e with
  | in_addrs ip k => get_inode ip (fun n => d_addrs (i_d n) !! Z.to_nat k) ≫= some_or_fault
  | in_buf b k => get_buf b (fun b => word (data b) (4 * k) 4)
  end.
Definition write_entry (e : entry_ptr) (v : Z) : M (kstate D) unit :=
  match e with
  | in_addrs ip k => upd_dinode ip (fun d => set_d_addrs (<[Z.to_nat k := v]> (d_addrs d)) d)
  | in_buf b k => upd_data b (fun l => blit l (4 * k) (le_bytes 4 v))
  end.

(** [size] is 1, 256 or 65536, so two levels of recursion are enough. *)
Fixpoint locate_block (fuel : nat) (entry : entry_ptr) (bn size : Z) : M (kstate D) Z :=
  e ← read_entry entry;
  when (e =? 0) (b ← bitmap_alloc_block; write_entry entry b);;
  if size =? 1 then read_entry entry else
  match fuel with
  | O => no_fuel
  | S fuel' =>
      let next_size := size / ENTRY_PER_BLOCK in
      let next_bn := bn mod next_size in
      e ← read_entry entry;
      buf ← buf_read e;
      let next_entry := in_buf buf (bn / next_size) in
      ret ← locate_block fuel' next_entry next_bn next_size;
      buf_write buf;;
      buf_release buf;;
      mret ret
  end.

Definition inode_locate_block (ip : nat) (bn : Z) : M (kstate D) Z :=
  if bn <? N_ADDRS_1 then
    let addr := in_addrs ip bn in
    a ← read_entry addr;
    when (a =? 0) (b ← bitmap_alloc_block; write_entry addr b);;
    read_entry addr
  else
  let bn := bn - N_ADDRS_1 in
  if bn <? N_ADDRS_2 * ENTRY_PER_BLOCK then
    let addr := in_addrs ip (N_ADDRS_1 + bn / ENTRY_PER_BLOCK) in
    locate_block 2 addr (bn mod ENTRY_PER_BLOCK) ENTRY_PER_BLOCK
  else
  let bn := bn - N_ADDRS_2 * ENTRY_PER_BLOCK in
  if bn <? N_ADDRS_3 * ENTRY_PER_BLOCK * ENTRY_PER_BLOCK then
    let addr := in_addrs ip (N_ADDRS_1 + N_ADDRS_2) in
    locate_block 2 addr bn (ENTRY_PER_BLOCK * ENTRY_PER_BLOCK)
  else panic "inode_locate_block: bn too large".

(** [memmove(dst, bytes, ...)] to memory, and from memory. *)
Definition mem_put (dst : Z) (l : list Z) : M (kstate D) unit :=
  modify (fun s => set_k_mem (write_bytes (k_mem s) dst l) s).
Definition mem_get (src n : Z) : M (kstate D) (list Z) := gets (fun s => read_bytes (k_mem s) src (Z.to_nat n)).

(** [while(total < len)]: an iteration moves at least one byte, and a full block
    unless it is the first or the last. *)
Fixpoint read_loop (fuel : nat) (ip : nat) (dst len total offset : Z) : M (kstate D) Z :=
  if len <=? total then mret total else
  match fuel with
  | O => no_fuel
  | S fuel' =>
      let block_offset := offset mod BLOCK_SIZE in
      block_num ← inode_locate_block ip (offset / BLOCK_SIZE);
      let to_read := Z.min (BLOCK_SIZE - block_offset) (len - total) in
      buf ← buf_read block_num;
      bytes ← get_buf buf (fun b => slice (data b) block_offset to_read);
      mem_put (dst + total) bytes;;
      buf_release buf;;
      read_loop fuel' ip dst len (u32 (total + to_read)) (u32 (offset + to_read))
  end.

Definition loop_fuel (len : Z) : nat := Z.to_nat (len / BLOCK_SIZE + 2).

(** [user] makes no difference. *)
Definition inode_read_data (ip : nat) (offset len dst : Z) (user : bool) : M (kstate D) Z :=
  h ← holding (inode_slk ip);
  kassert h "inode_read_data: no lock";;
  size ← get_inode ip (fun n => d_size (i_d n));
  if size <=? offset then mret 0 else
  let len := if size <? u32 (offset + len) then u32 (size - offset) else len in
  read_loop (loop_fuel len) ip dst len 0 offset.

(** Returns [total] and the final [offset]. *)
Fixpoint write_loop (fuel : nat) (ip : nat) (src len total offset : Z) : M (kstate D) (Z * Z) :=
  if len <=? total then mret (total, offset) else
  match fuel with
  | O => no_fuel
  | S fuel' =>
      let block_offset := offset mod BLOCK_SIZE in
      block_num ← inode_locate_block ip (offset / BLOCK_SIZE);
      let to_write := Z.min (BLOCK_SIZE - block_offset) (len - total) in
      buf ← buf_read block_num;
      bytes ← mem_get (src + total) to_write;
      upd_data buf (fun l => blit l block_offset bytes);;
      buf_write buf;;
      buf_release buf;;
      write_loop fuel' ip src len (u32 (total + to_write)) (u32 (offset + to_write))
  end.

Definition inode_write_data (ip : nat) (offset len src : Z) (user : bool) : M (kstate D) Z :=
  h ← holding (inode_slk ip);
  kassert h "inode_write_data: no lock";;
  if INODE_MAXSIZE <? u32 (offset + len) then mret 0 else
  '(total, offset) ← write_loop (loop_fuel len) ip src len 0 offset;
  size ← get_inode ip (fun n => d_size (i_d n));
  when (size <? offset) (upd_dinode ip (set_d_size offset);; inode_rw ip true);;
  mret total.

(** The loop stops at the first entry that is 0. *)
Fixpoint data_free (level : nat) (block_num : Z) : M (kstate D) unit :=
  kassert (negb (block_num =? 0)) "data_free: block_num = 0";;
  match level with
  | O => mret tt
  | S level' =>
      buf ← buf_read block_num;
      for_return (seqZ 0 ENTRY_PER_BLOCK) (fun k =>
        addr ← read_entry (in_buf buf k);
        if addr =? 0 then mret (Some tt) else data_free level' addr;; mret None);;
      buf_release buf
  end;;
  bitmap_free_block block_num.

Definition free_addr (ip : nat) (level : nat) (k : Z) : M (kstate D) unit :=
  a ← read_entry (in_addrs ip k);
  when (negb (a =? 0)) (data_free level a;; write_entry (in_addrs ip k) 0).

Definition inode_free_data (ip : nat) : M (kstate D) unit :=
  h ← holding (inode_slk ip);
  kassert h "inode_free_data: no lock";;
  for_each (seqZ 0 N_ADDRS_1) (free_addr ip 0);;
  for_each (seqZ 0 N_ADDRS_2) (fun i => free_addr ip 1 (N_ADDRS_1 + i));;
  free_addr ip 2 (N_ADDRS_1 + N_ADDRS_2);;
  upd_dinode ip (set_d_size 0).

(** *** Giving an inode back *)

Definition inode_destroy (ip : nat) : M (kstate D) unit :=
  h ← holding ic_lk;
  kassert h "inode_destroy: no lk_icache";;
  inode_lock (Some ip);;
  inode_free_data ip;;
  upd_dinode ip (set_d_type FT_UNUSED);;
  upd_dinode ip (set_d_major 0);;
  upd_dinode ip (set_d_minor 0);;
  upd_dinode ip (set_d_nlink 0);;
  upd_dinode ip (set_d_size 0);;
  upd_dinode ip (set_d_addrs no_addrs);;
  inode_rw ip true;;
  num ← get_inode ip inode_num;
  bitmap_free_inode num;;
  inode_unlock ip.

Definition inode_free (ip : nat) : M (kstate D) unit :=
  acquire ic_lk;;
  upd_inode ip (fun n => set_i_ref (u32 (i_ref n - 1)) n);;
  ref ← get_inode ip i_ref;
  nlink ← get_inode ip (fun n => d_nlink (i_d n));
  when ((ref =? 0) && (nlink =? 0)) (
    inode_destroy ip;;
    upd_inode ip (set_inode_num INODE_NUM_UNUSED);;
    upd_inode ip (set_valid false));;
  release ic_lk.

Definition inode_unlock_free (ip : nat) : M (kstate D) unit :=
  inode_unlock ip;;
  inode_free ip.
End Ops.
