(* ===== verification/InodeMeta.v ===== *)
(** * InodeMeta: the inode cache and the inodes on the disk

    What [inode_rw], [inode_alloc], [inode_lock], [inode_unlock], [inode_dup],
    [inode_free] and [inode_create] do, on every branch. *)

From S2P Require Import Prelude Bytes Spinlock Kernel Disk Buf BufSpec Bitmap BitmapSpec Inode.

(** ** Encoding *)

Definition dinode_ok (d : dinode) : Prop :=
  0 <= d_type d < 2 ^ 16 /\ 0 <= d_major d < 2 ^ 16 /\ 0 <= d_minor d < 2 ^ 16 /\ 0 <= d_nlink d < 2 ^ 16 /\
  0 <= d_size d < 2 ^ 32 /\ length (d_addrs d) = Z.to_nat N_ADDRS /\ Forall (fun a => 0 <= a < 2 ^ 32) (d_addrs d).

Lemma is_bytes_encode d : is_bytes (encode d).
Proof.
  unfold encode, is_bytes. rewrite !Forall_app. split_and!; try apply is_bytes_le_bytes.
  induction (d_addrs d) as [|a l IH]; [constructor|]. rewrite fmap_cons. cbn [concat].
  rewrite Forall_app. split; [apply is_bytes_le_bytes | done].
Qed.

Lemma length_concat_words (l : list Z) : length (concat (le_bytes 4 <$> l)) = (4 * length l)%nat.
Proof. induction l as [|a l IH]; [done|]. rewrite fmap_cons. cbn [concat length]. rewrite length_app, length_le_bytes, IH. lia. Qed.

Lemma length_encode d : length (d_addrs d) = Z.to_nat N_ADDRS -> length (encode d) = Z.to_nat INODE_DISK_SIZE.
Proof.
  intros Hl. unfold encode. rewrite !length_app, length_concat_words, Hl, !length_le_bytes. done.
Qed.

Lemma slice_app_r l1 l2 off n :
  Z.of_nat (length l1) <= off -> slice (l1 ++ l2) off n = slice l2 (off - Z.of_nat (length l1)) n.
Proof.
  intros Ho. unfold slice. rewrite drop_app_ge by lia. do 2 f_equal. lia.
Qed.

Lemma slice_app_eq l1 l2 n : n = Z.of_nat (length l1) -> slice (l1 ++ l2) 0 n = l1.
Proof. intros ->. unfold slice. rewrite Nat2Z.id. simpl. by rewrite drop_0, take_app_length. Qed.

Lemma word_le_bytes l2 (n : nat) v : 0 <= v < 2 ^ (8 * Z.of_nat n) -> word (le_bytes n v ++ l2) 0 (Z.of_nat n) = v.
Proof.
  intros Hv. unfold word. rewrite slice_app_eq by (by rewrite length_le_bytes).
  rewrite le_value_le_bytes. by apply Z.mod_small.
Qed.

Lemma word_app_r l1 l2 off n :
  Z.of_nat (length l1) <= off -> word (l1 ++ l2) off n = word l2 (off - Z.of_nat (length l1)) n.
Proof. intros Ho. unfold word. by rewrite slice_app_r. Qed.

Lemma words_concat (l : list Z) : Forall (fun a => 0 <= a < 2 ^ 32) l ->
  (fun i => word (concat (le_bytes 4 <$> l)) (4 * i) 4) <$> seqZ 0 (Z.of_nat (length l)) = l.
Proof.
  induction 1 as [|a l Ha Hl IH]; [done|].
  rewrite seqZ_cons by (simpl; lia). rewrite !fmap_cons. cbn [concat]. f_equal.
  - apply word_le_bytes. done.
  - etrans; [|exact IH]. replace (Z.pred (Z.of_nat (length (a :: l)))) with (Z.of_nat (length l)) by (simpl; lia).
    change (Z.succ 0) with (1 + 0). rewrite <- fmap_add_seqZ, <- list_fmap_compose. apply list_fmap_ext. intros i k Hk. unfold compose.
    apply list_elem_of_lookup_2, elem_of_seqZ in Hk.
    rewrite word_app_r by (rewrite length_le_bytes; lia). rewrite length_le_bytes. f_equal. lia.
Qed.

Lemma decode_encode d : dinode_ok d -> decode (encode d) = d.
Proof.
  intros (Ht & Hma & Hmi & Hn & Hs & Hl & Ha). destruct d as [t ma mi n sz ad]; simpl in *.
  unfold decode, encode; cbn [d_type d_major d_minor d_nlink d_size d_addrs]. f_equal.
  - by apply (word_le_bytes _ 2).
  - rewrite word_app_r by (by rewrite length_le_bytes). by apply (word_le_bytes _ 2).
  - do 2 rewrite word_app_r by (rewrite ?length_le_bytes; lia). by apply (word_le_bytes _ 2).
  - do 3 rewrite word_app_r by (rewrite ?length_le_bytes; lia). by apply (word_le_bytes _ 2).
  - do 4 rewrite word_app_r by (rewrite ?length_le_bytes; lia). by apply (word_le_bytes _ 4).
  - etrans; [|exact (words_concat ad Ha)]. rewrite Hl. apply list_fmap_ext. intros i k Hk.
    apply list_elem_of_lookup_2, elem_of_seqZ in Hk.
    do 5 rewrite word_app_r by (rewrite ?length_le_bytes; lia). f_equal. rewrite !length_le_bytes. lia.
Qed.

Lemma word_range l off n : is_bytes l -> 0 <= n -> 0 <= word l off n < 2 ^ (8 * n).
Proof.
  intros Hb Hn. unfold word. pose proof (le_value_range (slice l off n) (is_bytes_slice _ _ _ Hb)) as H.
  assert (Z.of_nat (length (slice l off n)) <= n) as Hl by (unfold slice; rewrite length_take; lia).
  assert (2 ^ (8 * Z.of_nat (length (slice l off n))) <= 2 ^ (8 * n)) by (apply Z.pow_le_mono_r; lia). lia.
Qed.

Lemma decode_ok l : is_bytes l -> dinode_ok (decode l).
Proof.
  intros Hb. unfold dinode_ok, decode; cbn [d_type d_major d_minor d_nlink d_size d_addrs]. split_and!; try (by apply (word_range _ _ 2)); try (by apply (word_range _ _ 4)).
  - by rewrite length_fmap, length_seqZ.
  - apply Forall_of_elem. intros a (i & -> & _)%list_elem_of_fmap. by apply (word_range _ _ 4).
Qed.

(** 64 bytes are the encoding of the inode they decode to. *)
Lemma le_bytes_word l off (n : nat) :
  is_bytes l -> 0 <= off -> off + Z.of_nat n <= Z.of_nat (length l) -> le_bytes n (word l off (Z.of_nat n)) = slice l off (Z.of_nat n).
Proof.
  intros Hb H0 Hl. unfold word. pose proof (le_bytes_le_value _ (is_bytes_slice l off (Z.of_nat n) Hb)) as Hle.
  rewrite length_slice, Nat2Z.id in Hle by lia. done.
Qed.

Lemma le_word2 l off : is_bytes l -> 0 <= off -> off + 2 <= Z.of_nat (length l) ->
  le_bytes 2 (word l off 2) = slice l off 2.
Proof. apply (le_bytes_word l off 2). Qed.
Lemma le_word4 l off : is_bytes l -> 0 <= off -> off + 4 <= Z.of_nat (length l) ->
  le_bytes 4 (word l off 4) = slice l off 4.
Proof. apply (le_bytes_word l off 4). Qed.

Lemma slice_app_slice l off n m : 0 <= off -> 0 <= n -> 0 <= m ->
  slice l off n ++ slice l (off + n) m = slice l off (n + m).
Proof.
  intros. unfold slice.
  replace (Z.to_nat (off + n)) with (Z.to_nat off + Z.to_nat n)%nat by lia.
  replace (Z.to_nat (n + m)) with (Z.to_nat n + Z.to_nat m)%nat by lia.
  rewrite <- drop_drop. generalize (drop (Z.to_nat off) l). intros k.
  rewrite <- (take_drop (Z.to_nat n) (take (Z.to_nat n + Z.to_nat m) k)).
  rewrite take_take, Nat.min_l by lia. f_equal. by rewrite take_drop_commute.
Qed.

Lemma concat_words l off (n : nat) :
  is_bytes l -> 0 <= off -> off + 4 * Z.of_nat n <= Z.of_nat (length l) ->
  concat (le_bytes 4 <$> ((fun i => word l (off + 4 * i) 4) <$> seqZ 0 (Z.of_nat n))) = slice l off (4 * Z.of_nat n).
Proof.
  intros Hb. revert off; induction n as [|n IH]; intros off H0 Hl; [done|].
  rewrite seqZ_cons by lia. rewrite !fmap_cons. cbn [concat].
  replace (off + 4 * 0) with off by lia.
  rewrite le_word4 by (done || lia).
  replace (Z.pred (Z.of_nat (S n))) with (Z.of_nat n) by lia.
  assert ((fun i => word l (off + 4 * i) 4) <$> seqZ (Z.succ 0) (Z.of_nat n)
    = (fun i => word l (off + 4 + 4 * i) 4) <$> seqZ 0 (Z.of_nat n)) as ->.
  { change (Z.succ 0) with (1 + 0). rewrite <- fmap_add_seqZ, <- list_fmap_compose.
    apply list_fmap_ext. intros i k _. unfold compose. f_equal. lia. }
  rewrite (IH (off + 4)) by lia. rewrite slice_app_slice by lia. f_equal. lia.
Qed.

Lemma encode_decode l : length l = Z.to_nat INODE_DISK_SIZE -> is_bytes l -> encode (decode l) = l.
Proof.
  intros Hl Hb. unfold encode, decode. cbn [d_type d_major d_minor d_nlink d_size d_addrs].
  change (seqZ 0 N_ADDRS) with (seqZ 0 (Z.of_nat 13)).
  rewrite (concat_words l 12 13) by (done || (rewrite Hl; unfold INODE_DISK_SIZE; lia)).
  rewrite !le_word2, le_word4 by (done || (rewrite Hl; unfold INODE_DISK_SIZE; lia)).
  change (4 * Z.of_nat 13) with 52.
  assert (slice l 8 4 ++ slice l 12 52 = slice l 8 56) as -> by (by apply (slice_app_slice l 8 4 52)).
  assert (slice l 6 2 ++ slice l 8 56 = slice l 6 58) as -> by (by apply (slice_app_slice l 6 2 56)).
  assert (slice l 4 2 ++ slice l 6 58 = slice l 4 60) as -> by (by apply (slice_app_slice l 4 2 58)).
  assert (slice l 2 2 ++ slice l 4 60 = slice l 2 62) as -> by (by apply (slice_app_slice l 2 2 60)).
  assert (slice l 0 2 ++ slice l 2 62 = slice l 0 64) as -> by (by apply (slice_app_slice l 0 2 62)).
  unfold slice. rewrite drop_0, take_ge; [done|]. rewrite Hl. unfold INODE_DISK_SIZE. lia.
Qed.

(** ** Reading and writing the inode on the disk *)

Definition iblock (sb : super_block) (num : Z) : Z := u32 (inode_start sb + num / INODE_PER_BLOCK).
Definition ioff (num : Z) : Z := (num mod INODE_PER_BLOCK) * INODE_DISK_SIZE.

Lemma ioff_range num : 0 <= ioff num /\ ioff num + INODE_DISK_SIZE <= BLOCK_SIZE.
Proof.
  unfold ioff, INODE_PER_BLOCK, INODE_DISK_SIZE, BLOCK_SIZE. change (1024 / 64) with 16.
  pose proof (Z.mod_pos_bound num 16 ltac:(lia)). lia.
Qed.

Lemma length_good l : good_data l -> Z.of_nat (length l) = BLOCK_SIZE.
Proof. intros [-> _]. done. Qed.

Lemma good_blit l off src : good_data l -> is_bytes src -> 0 <= off -> off + Z.of_nat (length src) <= BLOCK_SIZE ->
  good_data (blit l off src).
Proof.
  intros Hl Hs H0 Hle. pose proof (length_good l Hl) as Hlen. destruct Hl as [Hl Hb]. split.
  - rewrite length_blit by lia. done.
  - by apply is_bytes_blit.
Qed.

Section Meta.
Context {D : Type} `{!BlockDev D, !BlockDevLaws D, !DiskDriver D, !DiskDriverOk D}.
Implicit Types (s : kstate D) (H : list hbuf) (n : inode) (ip : nat).

(** Inode [num] as the disk has it. *)
Definition disk_inode (d : D) (sb : super_block) (num : Z) : dinode :=
  decode (slice (block d (iblock sb num)) (ioff num) INODE_DISK_SIZE).

Lemma inode_of_lt s ip n : inode_of s ip = Some n -> (ip < length (inodes (k_ic s)))%nat.
Proof. apply lookup_lt_Some. Qed.

Lemma inode_of_put s ip n jp : (ip < length (inodes (k_ic s)))%nat ->
  inode_of (put_inode ip n s) jp = if decide (ip = jp) then Some n else inode_of s jp.
Proof.
  intros Hi. unfold inode_of, put_inode; simpl. case_decide as Hij; subst.
  - by rewrite list_lookup_insert_eq.
  - by rewrite list_lookup_insert_ne.
Qed.

Lemma put_inode_twice s ip n m : put_inode ip m (put_inode ip n s) = put_inode ip m s.
Proof. unfold put_inode. destruct s as [? ? ? ? ? ? ? ? ? [] ?]. simpl. by rewrite list_insert_insert_eq. Qed.

Lemma put_inode_id s ip n : inode_of s ip = Some n -> put_inode ip n s = s.
Proof.
  intros Hn. unfold put_inode, inode_of in *. destruct s as [? ? ? ? ? ? ? ? ? [] ?]. simpl in *.
  by rewrite list_insert_id.
Qed.

Lemma bind_get_inode {A B} s ip n (f : inode -> A) (k : A -> M (kstate D) B) :
  inode_of s ip = Some n -> (get_inode ip f ≫= k) s = k (f n) s.
Proof. intros Hn. unfold get_inode. mrun. by rewrite Hn. Qed.

Lemma upd_inode_eq s ip n f : inode_of s ip = Some n -> upd_inode ip f s = Ret tt (put_inode ip (f n) s).
Proof. intros Hn. unfold upd_inode. mrun. by rewrite Hn. Qed.

Lemma upd_dinode_eq s ip n f :
  inode_of s ip = Some n -> upd_dinode ip f s = Ret tt (put_inode ip (set_i_d (f (i_d n)) n) s).
Proof. intros Hn. unfold upd_dinode. by rewrite (upd_inode_eq _ _ _ _ Hn). Qed.

Lemma holding_islk {B} s ip n (k : bool -> M (kstate D) B) : inode_of s ip = Some n ->
  (holding (inode_slk ip) ≫= k) s = k (bool_decide (held_by (hartid (k_cpu s)) (i_slk n))) s.
Proof.
  intros Hn. pose proof (put_inode_id _ _ _ Hn) as Hid.
  assert (set_i_slk (i_slk n) n = n) as Hnn by (by destruct n).
  unfold holding, with_lock, spinlock_holding, mbind, M_bind, gets. cbn [inode_slk lk_get lk_set]. rewrite Hn, Hnn, Hid.
  assert (negb (locked (i_slk n) =? 0) && (lk_cpuid (i_slk n) =? hartid (k_cpu s))
    = bool_decide (held_by (hartid (k_cpu s)) (i_slk n))) as ->; [|by destruct s].
  apply eq_true_iff_eq. rewrite bool_decide_eq_true, andb_true_iff, negb_true_iff, Z.eqb_eq, Z.eqb_neq. done.
Qed.

Lemma kassert_true {B} (b : bool) msg s (k : unit -> M (kstate D) B) : b = true -> (kassert b msg ≫= k) s = k tt s.
Proof. by intros ->. Qed.
Lemma kassert_false {B} (b : bool) msg s (k : unit -> M (kstate D) B) : b = false ->
  (kassert b msg ≫= k) s = Panic msg s.
Proof. by intros ->. Qed.

Lemma holding_inode {B} s ip n msg (k : unit -> M (kstate D) B) :
  inode_of s ip = Some n -> held_by (hartid (k_cpu s)) (i_slk n) ->
  (h ← holding (inode_slk ip); kassert h msg ≫= k) s = k tt s.
Proof.
  intros Hn Hh. rewrite (holding_islk _ _ _ _ Hn). apply kassert_true. by apply bool_decide_eq_true_2.
Qed.

Lemma not_holding_inode {B} s ip n msg (k : unit -> M (kstate D) B) :
  inode_of s ip = Some n -> ~ held_by (hartid (k_cpu s)) (i_slk n) ->
  (h ← holding (inode_slk ip); kassert h msg ≫= k) s = Panic msg s.
Proof.
  intros Hn Hh. rewrite (holding_islk _ _ _ _ Hn). apply kassert_false. by apply bool_decide_eq_false_2.
Qed.

Lemma frame_put_inode s s' ip n : frame s s' -> frame (put_inode ip n s) (put_inode ip n s').
Proof. destruct s, s'. unfold frame, put_inode, set_k_cpu, set_k_ic; simpl. congruence. Qed.

Lemma becomes_put_inode s d c H s' ip n :
  becomes s d c H s' -> becomes (put_inode ip n s) d c H (put_inode ip n s').
Proof.
  intros [Hf Hd Hc Hca]. split; [by apply frame_put_inode | done | done |]. by apply (cache_ext s').
Qed.

Lemma inode_of_frame s s' ip : frame s s' -> inode_of s' ip = inode_of s ip.
Proof. by intros ->. Qed.

Lemma becomes_refl s H : cache s H -> becomes s (k_dev s) (k_cpu s) H s.
Proof. intros Hc. by split; [unfold frame; destruct s | ..]. Qed.

Lemma inode_rw_write s H ip n :
  inode_of s ip = Some n -> held_by (hartid (k_cpu s)) (i_slk n) -> length (d_addrs (i_d n)) = Z.to_nat N_ADDRS ->
  can_read s H (iblock (k_sb s) (inode_num n)) ->
  exists s', inode_rw ip true s = Ret tt s' /\
    becomes s (put_block (k_dev s) (iblock (k_sb s) (inode_num n))
      (blit (block (k_dev s) (iblock (k_sb s) (inode_num n))) (ioff (inode_num n)) (encode (i_d n))))
      (cpu_touch (k_cpu s)) H s'.
Proof.
  intros Hn Hh Hla (Hc & Hlen & Hx & Hnin). unfold inode_rw.
  rewrite (holding_inode _ _ _ _ _ Hn Hh), (bind_get_inode _ _ _ _ _ Hn). mrun.
  set (x := iblock (k_sb s) (inode_num n)) in *. change (u32 _) with x.
  destruct (buf_read_ok s H x Hc Hlen Hx Hnin) as (i & s1 & Hr & H1). mstep ltac:(exact Hr).
  rewrite <- (inode_of_frame s s1) in Hn by apply H1. rewrite (bind_get_inode _ _ _ _ _ Hn). mrun.
  destruct (ioff_range (inode_num n)) as [Ho1 Ho2].
  destruct (upd_data_ok _ _ _ _ (fun l => blit l (ioff (inode_num n)) (encode (i_d n))) _ (be_cache _ _ _ _ _ H1))
    as (s2 & Hs2 & H2).
  { apply good_blit; [apply good_block | apply is_bytes_encode | done |]. rewrite length_encode by done. done. }
  mstep ltac:(exact Hs2).
  destruct (buf_write_ok _ _ _ _ _ (be_cache _ _ _ _ _ H2)) as (s3 & Hs3 & H3). mstep ltac:(exact Hs3).
  destruct (buf_release_ok _ _ _ _ _ (be_cache _ _ _ _ _ H3)) as (s4 & Hs4 & H4).
  exists s4. split; [done|].
  pose proof (becomes_trans _ _ _ _ _ _ _ _ _ H2 (becomes_trans _ _ _ _ _ _ _ _ _ H3 H4)) as Hb.
  rewrite (be_dev _ _ _ _ _ H3), (be_dev _ _ _ _ _ H2), (be_dev _ _ _ _ _ H1),
    (be_cpu _ _ _ _ _ H3), (be_cpu _ _ _ _ _ H2) in Hb.
  by eapply becomes_done.
Qed.

Lemma inode_rw_read s H ip n :
  inode_of s ip = Some n -> held_by (hartid (k_cpu s)) (i_slk n) ->
  can_read s H (iblock (k_sb s) (inode_num n)) ->
  exists s', inode_rw ip false s = Ret tt s' /\
    becomes (put_inode ip (set_valid true (set_i_d (disk_inode (k_dev s) (k_sb s) (inode_num n)) n)) s)
      (k_dev s) (cpu_touch (k_cpu s)) H s'.
Proof.
  intros Hn Hh (Hc & Hlen & Hx & Hnin). unfold inode_rw.
  rewrite (holding_inode _ _ _ _ _ Hn Hh), (bind_get_inode _ _ _ _ _ Hn). mrun.
  set (x := iblock (k_sb s) (inode_num n)) in *. change (u32 _) with x.
  destruct (buf_read_ok s H x Hc Hlen Hx Hnin) as (i & s1 & Hr & H1). mstep ltac:(exact Hr).
  rewrite <- (inode_of_frame s s1) in Hn by apply H1. pose proof (inode_of_lt _ _ _ Hn) as Hlt.
  rewrite (buf_data_ok _ _ _ _ _ (fun l => slice l (ioff (inode_num n)) INODE_DISK_SIZE) _ (be_cache _ _ _ _ _ H1)). mrun.
  mstep ltac:(exact (upd_inode_eq _ _ _ _ Hn)).
  mstep ltac:(apply upd_inode_eq; rewrite inode_of_put by done; by rewrite decide_True).
  rewrite put_inode_twice. fold (disk_inode (k_dev s) (k_sb s) (inode_num n)).
  set (n' := set_valid true _). pose proof (becomes_put_inode _ _ _ _ _ ip n' H1) as H1'.
  destruct (buf_release_ok _ _ _ _ _ (be_cache _ _ _ _ _ H1')) as (s2 & Hs2 & H2).
  exists s2. split; [done|].
  rewrite (be_dev _ _ _ _ _ H1') in H2.
  eapply (becomes_done (put_inode ip n' s)); [by apply (cache_ext s) | exact H1' | exact H2].
Qed.

(** ** Locks *)

Lemma cache_push s H : cache s H -> cache (set_k_cpu (cpu_push (k_cpu s)) s) H.
Proof.
  intros Hc. destruct (cache_wf _ _ Hc) as [Hw Hn]. apply cache_cpu; [done | by apply cpu_push_wf | simpl; lia | done].
Qed.

Lemma cache_pop s H : Z.of_nat (length H) < noff (k_cpu s) -> cache s H -> cache (set_k_cpu (cpu_pop (k_cpu s)) s) H.
Proof.
  intros Hlt Hc. destruct (cache_wf _ _ Hc) as [Hw Hn].
  apply cache_cpu; [done | apply cpu_pop_wf; [done | lia] | simpl; lia | done].
Qed.

Lemma becomes_cpu s H c : cache (set_k_cpu c s) H -> becomes s (k_dev s) c H (set_k_cpu c s).
Proof. intros Hc. split; [unfold frame; by destruct s | done..]. Qed.

Lemma cpu_touch_push_wf c : cpu_wf c -> cpu_touch (cpu_push c) = cpu_push c.
Proof. intros [H0 _]. destruct (cpu_touch_push c) as [|]; [done | lia]. Qed.

Lemma acquire_islk s ip n : inode_of s ip = Some n -> is_free (i_slk n) ->
  acquire (inode_slk ip) s
  = Ret tt (set_k_cpu (cpu_push (k_cpu s)) (put_inode ip (set_i_slk (take_lock (hartid (k_cpu s)) (i_slk n)) n) s)).
Proof. intros Hn Hf. rewrite acquire_eq; cbn [lk_get lk_set inode_slk]; by rewrite Hn. Qed.

Lemma acquire_islk_held s ip n : inode_of s ip = Some n -> held_by (hartid (k_cpu s)) (i_slk n) ->
  exists s', acquire (inode_slk ip) s = Panic "acquire" s'.
Proof. intros Hn Hh. apply acquire_twice. cbn [lk_get inode_slk]. by rewrite Hn. Qed.

Lemma release_islk s ip n : inode_of s ip = Some n -> cpu_wf (k_cpu s) -> 0 < noff (k_cpu s) ->
  held_by (hartid (k_cpu s)) (i_slk n) ->
  release (inode_slk ip) s
  = Ret tt (set_k_cpu (cpu_pop (k_cpu s)) (put_inode ip (set_i_slk (drop_lock (i_slk n)) n) s)).
Proof. intros Hn ? ? ?. rewrite release_eq; cbn [lk_get lk_set inode_slk]; by rewrite ?Hn. Qed.

(** The inode after [inode_lock]. *)
Definition locked_inode (d : D) (sb : super_block) (h : Z) (n : inode) : inode :=
  let n := set_i_slk (take_lock h (i_slk n)) n in
  if valid n then n else set_valid true (set_i_d (disk_inode d sb (inode_num n)) n).

Lemma can_read_cpu s H x c : cache (set_k_cpu c s) H -> can_read s H x -> can_read (set_k_cpu c s) H x.
Proof. intros Hc (_ & ? & ? & ?). by split_and!. Qed.

Lemma can_read_put s H x ip n : can_read s H x -> can_read (put_inode ip n s) H x.
Proof. intros (? & ? & ? & ?). split_and!; try done. by apply (cache_ext s). Qed.

Lemma inode_lock_ok s H ip n :
  inode_of s ip = Some n -> 1 <= i_ref n -> is_free (i_slk n) ->
  can_read s H (iblock (k_sb s) (inode_num n)) ->
  exists s', inode_lock (Some ip) s = Ret tt s' /\
    becomes (put_inode ip (locked_inode (k_dev s) (k_sb s) (hartid (k_cpu s)) n) s)
      (k_dev s) (cpu_push (k_cpu s)) H s'.
Proof.
  intros Hn Href Hf Hr. pose proof (inode_of_lt _ _ _ Hn) as Hlt. destruct Hr as (Hc & Hr).
  destruct (cache_wf _ _ Hc) as [Hw _]. unfold inode_lock. rewrite (bind_get_inode _ _ _ _ _ Hn), kassert_true
    by (by apply Z.leb_le).
  mstep ltac:(exact (acquire_islk _ _ _ Hn Hf)). set (n1 := set_i_slk _ n).
  set (s1 := put_inode ip n1 s).
  assert (cache s1 H) as Hc1 by (by apply (cache_ext s)).
  pose proof (cache_push _ _ Hc1) as Hc2. set (s2 := set_k_cpu _ s1). change (set_k_cpu _ s1) with s2 in Hc2.
  assert (inode_of s2 ip = Some n1) as Hn1.
  { change (inode_of s1 ip = Some n1). subst s1. rewrite inode_of_put by done. by rewrite decide_True. }
  rewrite (bind_get_inode _ _ _ _ _ Hn1). unfold locked_inode. fold n1.
  pose proof (becomes_cpu s1 H _ Hc2) as Hb2.
  destruct (valid n1); cbn [negb when].
  - exists s2. split; [done|]. exact Hb2.
  - destruct (inode_rw_read s2 H ip n1 Hn1) as (s' & Hrw & Hb); [done | by split |].
    exists s'. split; [exact Hrw|]. change (k_cpu s2) with (cpu_push (k_cpu s)) in Hb.
    rewrite cpu_touch_push_wf in Hb by done.
    change (k_dev s2) with (k_dev s) in Hb. change (k_sb s2) with (k_sb s) in Hb.
    set (n2 := set_valid true _) in *.
    eapply becomes_trans; [|exact Hb].
    pose proof (becomes_put_inode _ _ _ _ _ ip n2 Hb2) as Hb3. subst s1.
    rewrite put_inode_twice in Hb3. exact Hb3.
Qed.

(** The error branches of [inode_lock]. *)
Lemma inode_lock_unreferenced s ip n :
  inode_of s ip = Some n -> i_ref n < 1 -> inode_lock (Some ip) s = Panic "inode_lock: ref < 1" s.
Proof.
  intros Hn Href. unfold inode_lock. rewrite (bind_get_inode _ _ _ _ _ Hn). apply kassert_false.
  apply Z.leb_gt. lia.
Qed.

Lemma inode_lock_twice s ip n :
  inode_of s ip = Some n -> 1 <= i_ref n -> held_by (hartid (k_cpu s)) (i_slk n) ->
  exists s', inode_lock (Some ip) s = Panic "acquire" s'.
Proof.
  intros Hn Href Hh. unfold inode_lock. rewrite (bind_get_inode _ _ _ _ _ Hn), kassert_true by (by apply Z.leb_le).
  destruct (acquire_islk_held _ _ _ Hn Hh) as (s' & Ha). exists s'. by apply bind_panic_eq.
Qed.

Lemma inode_unlock_ok s H ip n :
  inode_of s ip = Some n -> held_by (hartid (k_cpu s)) (i_slk n) -> cache s H ->
  Z.of_nat (length H) < noff (k_cpu s) ->
  exists s', inode_unlock ip s = Ret tt s' /\
    becomes (put_inode ip (set_i_slk (drop_lock (i_slk n)) n) s) (k_dev s) (cpu_pop (k_cpu s)) H s'.
Proof.
  intros Hn Hh Hc Hlt. destruct (cache_wf _ _ Hc) as [Hw _]. unfold inode_unlock.
  rewrite (holding_inode _ _ _ _ _ Hn Hh). rewrite (release_islk _ _ _ Hn Hw) by (done || lia).
  eexists. split; [done|]. apply (becomes_cpu (put_inode _ _ _)).
  apply (cache_pop (put_inode _ _ _)); [done|]. by apply (cache_ext s).
Qed.

(** ** The inode cache *)

(** The slot that [inode_alloc] returns and its new content: the entry that has
    the number, referenced or not, else the first one without references. *)
Definition alloc_slot (l : list inode) (num : Z) : option (nat * inode) :=
  match list_find (fun n => inode_num n = num) l with
  | Some (i, n) => Some (i, set_i_ref (u32 (i_ref n + 1)) n)
  | None =>
      match list_find (fun n => i_ref n = 0) l with
      | Some (i, n) => Some (i, mk_inode (i_d n) num 1 false (i_slk n))
      | None => None
      end
  end.

Record ic_ok s : Prop := {
  ic_len : length (inodes (k_ic s)) = N_INODE;
  ic_free_lk : is_free (lk_icache (k_ic s))
}.

(** [lk_icache] was taken and released. *)
Definition ic_touched s : icache := mk_icache (inodes (k_ic s)) (drop_lock (lk_icache (k_ic s))).

Lemma seq_split (n i : nat) : (i < n)%nat -> seq 0 n = seq 0 i ++ i :: seq (S i) (n - i - 1).
Proof.
  intros Hi. replace n with (i + S (n - i - 1))%nat at 1 by lia. by rewrite seq_app.
Qed.

(** A loop over the cache that stops at the first entry with a property. *)
Lemma scan_none {A} (P : inode -> Prop) `{!forall n, Decision (P n)} s (body : nat -> M (kstate D) (option A)) :
  length (inodes (k_ic s)) = N_INODE -> list_find P (inodes (k_ic s)) = None ->
  (forall i n, inode_of s i = Some n -> ~ P n -> body i s = Ret None s) ->
  for_return (seq 0 N_INODE) body s = Ret None s.
Proof.
  intros Hl Hf Hb. apply for_return_none. intros i Hi%elem_of_seq.
  destruct (lookup_lt_is_Some_2 (inodes (k_ic s)) i) as [n Hn]; [lia|].
  apply (Hb i n Hn). apply list_find_None in Hf. by eapply Forall_lookup_1 in Hf.
Qed.

Lemma scan_some {A} (P : inode -> Prop) `{!forall n, Decision (P n)} s (body : nat -> M (kstate D) (option A))
    i n r s' :
  length (inodes (k_ic s)) = N_INODE -> list_find P (inodes (k_ic s)) = Some (i, n) ->
  (forall i n, inode_of s i = Some n -> ~ P n -> body i s = Ret None s) ->
  body i s = Ret (Some r) s' ->
  for_return (seq 0 N_INODE) body s = Ret (Some r) s'.
Proof.
  intros Hl (Hi & HP & Hbefore)%list_find_Some Hb Hr. pose proof (lookup_lt_Some _ _ _ Hi) as Hlt.
  rewrite (seq_split N_INODE i) by lia. apply for_return_hit; [|done].
  intros j Hj%elem_of_seq. destruct (lookup_lt_is_Some_2 (inodes (k_ic s)) j) as [m Hm]; [lia|].
  apply (Hb j m Hm). by apply (Hbefore j m); [|lia].
Qed.

Lemma inode_alloc_eq s num : ic_ok s -> cpu_wf (k_cpu s) ->
  match alloc_slot (inodes (k_ic s)) num with
  | Some (i, n) => inode_alloc num s
      = Ret i (set_k_cpu (cpu_touch (k_cpu s)) (put_inode i n (set_k_ic (ic_touched s) s)))
  | None => exists s', inode_alloc num s = Panic "inode_alloc: no available inode" s'
  end.
Proof.
  intros [Hl Hf] Hw. unfold alloc_slot, inode_alloc.
  destruct (list_find (fun n => inode_num n = num) _) as [[i n]|] eqn:H1;
    [|destruct (list_find (fun n => i_ref n = 0) _) as [[i n]|] eqn:H2].
  all: mstep ltac:(by apply acquire_eq); set (s1 := set_k_cpu _ _);
    assert (forall i, inode_of s1 i = inode_of s i) as Hof by done.
  - pose proof H1 as (Hi & Hn & _)%list_find_Some.
    erewrite bind_ret_eq; [|apply (scan_some (fun n => inode_num n = num) s1 _ i n i
      (set_k_cpu (cpu_touch (k_cpu s)) (put_inode i (set_i_ref (u32 (i_ref n + 1)) n) (set_k_ic (ic_touched s) s)))
      Hl H1)]; [done | |].
    + intros j m Hm Hne. rewrite (bind_get_inode _ _ _ _ _ Hm). by rewrite (proj2 (Z.eqb_neq _ _) Hne).
    + change (inode_of s1 i = Some n) in Hi. rewrite (bind_get_inode _ _ _ _ _ Hi), Hn, Z.eqb_refl.
      mstep ltac:(exact (upd_inode_eq _ _ _ _ Hi)).
      mstep ltac:(apply release_eq; [by apply cpu_push_wf | destruct Hw; simpl; lia | done]).
      f_equal. destruct s as [? ? ? ? ? ? ? ? ? [] ?]. simpl in *. unfold s1, put_inode, ic_touched; simpl.
      by rewrite cpu_pop_push.
  - mstep ltac:(apply (scan_none (fun n => inode_num n = num) s1 _ Hl H1); intros j m Hm Hne;
      rewrite (bind_get_inode _ _ _ _ _ Hm); by rewrite (proj2 (Z.eqb_neq _ _) Hne)).
    pose proof H2 as (Hi & Hn & _)%list_find_Some.
    erewrite bind_ret_eq; [|apply (scan_some (fun n => i_ref n = 0) s1 _ i n i
      (set_k_cpu (cpu_touch (k_cpu s)) (put_inode i (mk_inode (i_d n) num 1 false (i_slk n)) (set_k_ic (ic_touched s) s)))
      Hl H2)]; [done | |].
    + intros j m Hm Hne. rewrite (bind_get_inode _ _ _ _ _ Hm). by rewrite (proj2 (Z.eqb_neq _ _) Hne).
    + change (inode_of s1 i = Some n) in Hi. pose proof (inode_of_lt _ _ _ Hi) as Hlt.
      rewrite (bind_get_inode _ _ _ _ _ Hi), Hn. cbn [Z.eqb].
      assert (forall m, inode_of (put_inode i m s1) i = Some m) as Hput
        by (intros m; rewrite inode_of_put by done; by rewrite decide_True).
      mstep ltac:(exact (upd_inode_eq _ _ _ _ Hi)).
      mstep ltac:(apply upd_inode_eq, Hput). rewrite put_inode_twice.
      mstep ltac:(apply upd_inode_eq, Hput). rewrite put_inode_twice.
      mstep ltac:(apply release_eq; [by apply cpu_push_wf | destruct Hw; simpl; lia | done]).
      f_equal. destruct s as [? ? ? ? ? ? ? ? ? [] ?]. simpl in *. unfold s1, put_inode, ic_touched; simpl.
      by rewrite cpu_pop_push.
  - mstep ltac:(apply (scan_none (fun n => inode_num n = num) s1 _ Hl H1); intros j m Hm Hne;
      rewrite (bind_get_inode _ _ _ _ _ Hm); by rewrite (proj2 (Z.eqb_neq _ _) Hne)).
    cbv iota.     mstep ltac:(apply (scan_none (fun n => i_ref n = 0) s1 _ Hl H2); intros j m Hm Hne;
      rewrite (bind_get_inode _ _ _ _ _ Hm); by rewrite (proj2 (Z.eqb_neq _ _) Hne)).
    by eexists.
Qed.

(** ** Steps that also change the inode cache *)

(** Only the caches, the driver, the disk and this CPU's interrupt state differ. *)
Definition frame_ic s s' : Prop :=
  s' = set_k_cpu (k_cpu s') (set_k_bc (k_bc s') (set_k_vd (k_vd s') (set_k_dev (k_dev s') (set_k_ic (k_ic s') s)))).

#[export] Instance frame_ic_equiv : Equivalence frame_ic.
Proof.
  split.
  - intros []. done.
  - intros [] []; unfold frame_ic; simpl. unfold set_k_cpu; simpl. congruence.
  - intros [] [] []; unfold frame_ic, set_k_cpu; simpl. congruence.
Qed.

(** From [s] to [s'], with the inode cache [ic], the disk [d], the CPU [c] and the
    buffers [H]. *)
Record steps s s' (ic : icache) (d : D) (c : cpu) H : Prop := {
  st_frame : frame_ic s s';
  st_ic : k_ic s' = ic;
  st_dev : k_dev s' = d;
  st_cpu : k_cpu s' = c;
  st_cache : cache s' H
}.

Definition ic_put (ip : nat) (n : inode) (ic : icache) : icache := set_inodes (<[ip := n]> (inodes ic)) ic.

Lemma steps_trans s s1 s2 ic d c H ic' d' c' H' :
  steps s s1 ic d c H -> steps s1 s2 ic' d' c' H' -> steps s s2 ic' d' c' H'.
Proof. intros [] []. split; [by etransitivity | done..]. Qed.

Lemma frame_frame_ic s s' : frame s s' -> frame_ic s s'.
Proof. destruct s, s'. unfold frame, frame_ic, set_k_cpu, set_k_ic; simpl. congruence. Qed.

Lemma frame_ic_put s s' ip n : frame_ic (put_inode ip n s) s' -> frame_ic s s'.
Proof. destruct s, s'. unfold frame_ic, set_k_cpu, set_k_ic; simpl. congruence. Qed.

Lemma becomes_steps s s' d c H : becomes s d c H s' -> steps s s' (k_ic s) d c H.
Proof.
  intros [Hf ? ? ?]. split; [by apply frame_frame_ic | by rewrite Hf | done..].
Qed.

Lemma becomes_put_steps s s' ip n d c H :
  becomes (put_inode ip n s) d c H s' -> steps s s' (ic_put ip n (k_ic s)) d c H.
Proof.
  intros [Hf ? ? ?]. split; [by eapply frame_ic_put, frame_frame_ic | by rewrite Hf | done..].
Qed.

Lemma put_steps s ip n H : cache s H ->
  steps s (put_inode ip n s) (ic_put ip n (k_ic s)) (k_dev s) (k_cpu s) H.
Proof. intros Hc. split; [by destruct s | done..|]. by apply (cache_ext s). Qed.

Lemma k_sb_frame_ic s s' : frame_ic s s' -> k_sb s' = k_sb s.
Proof. by intros ->. Qed.

Lemma inode_of_ic s ic ip : k_ic s = ic -> inode_of s ip = inodes ic !! ip.
Proof. by intros <-. Qed.

Lemma ic_put_lookup ip n ic : (ip < length (inodes ic))%nat -> inodes (ic_put ip n ic) !! ip = Some n.
Proof. intros Hl. simpl. by rewrite list_lookup_insert_eq. Qed.

Lemma ic_put_twice ip n m ic : ic_put ip m (ic_put ip n ic) = ic_put ip m ic.
Proof. destruct ic. unfold ic_put; simpl. by rewrite list_insert_insert_eq. Qed.

Lemma inode_alloc_steps s H num i n : ic_ok s -> cache s H ->
  alloc_slot (inodes (k_ic s)) num = Some (i, n) ->
  exists s', inode_alloc num s = Ret i s' /\
    steps s s' (ic_put i n (ic_touched s)) (k_dev s) (cpu_touch (k_cpu s)) H.
Proof.
  intros Hic Hc Ha. destruct (cache_wf _ _ Hc) as [Hw Hn]. pose proof (inode_alloc_eq s num Hic Hw) as Heq.
  rewrite Ha in Heq. eexists. split; [exact Heq|]. split; [by destruct s as [? ? ? ? ? ? ? ? ? [] ?] | done..|].
  apply cache_cpu; [done | by apply cpu_touch_wf | done |]. by apply (cache_ext s).
Qed.

Lemma inode_dup_steps s H ip n : ic_ok s -> cache s H -> inode_of s ip = Some n ->
  exists s', inode_dup ip s = Ret ip s' /\
    steps s s' (ic_put ip (set_i_ref (u32 (i_ref n + 1)) n) (ic_touched s)) (k_dev s) (cpu_touch (k_cpu s)) H.
Proof.
  intros [_ Hf] Hc Hn. destruct (cache_wf _ _ Hc) as [Hw Hno]. unfold inode_dup.
  mstep ltac:(by apply acquire_eq).
  mstep ltac:(apply upd_inode_eq; exact Hn).
  mstep ltac:(apply release_eq; [by apply cpu_push_wf | destruct Hw; simpl; lia | done]).
  eexists. split; [done|].
  assert (cpu_pop (cpu_push (k_cpu s)) = cpu_touch (k_cpu s)) as Hpp by by apply cpu_pop_push.
  split; [by destruct s as [? ? ? ? ? ? ? ? ? [] ?] | | done | simpl; exact Hpp |].
  - by destruct s as [? ? ? ? ? ? ? ? ? [] ?].
  - apply cache_cpu; [done | simpl; rewrite Hpp; by apply cpu_touch_wf | simpl; lia |].
    apply (cache_ext (set_k_cpu (cpu_push (k_cpu s)) s)); [done..|]. by apply cache_push.
Qed.

(** *** [inode_free] *)

Lemma bind_holding_ic {B} s (k : bool -> M (kstate D) B) :
  (holding ic_lk ≫= k) s = k (bool_decide (held_by (hartid (k_cpu s)) (lk_icache (k_ic s)))) s.
Proof.
  unfold holding, with_lock, spinlock_holding, mbind, M_bind, gets. cbn [ic_lk lk_get lk_set].
  assert (negb (locked (lk_icache (k_ic s)) =? 0) && (lk_cpuid (lk_icache (k_ic s)) =? hartid (k_cpu s))
    = bool_decide (held_by (hartid (k_cpu s)) (lk_icache (k_ic s)))) as ->.
  - apply eq_true_iff_eq. rewrite bool_decide_eq_true, andb_true_iff, negb_true_iff, Z.eqb_eq, Z.eqb_neq. done.
  - by destruct s as [? ? ? ? ? ? ? ? ? [] ?].
Qed.

Lemma inode_free_steps s H ip n : ic_ok s -> cache s H -> inode_of s ip = Some n ->
  (u32 (i_ref n - 1) <> 0 \/ d_nlink (i_d n) <> 0) ->
  exists s', inode_free ip s = Ret tt s' /\
    steps s s' (ic_put ip (set_i_ref (u32 (i_ref n - 1)) n) (ic_touched s)) (k_dev s) (cpu_touch (k_cpu s)) H.
Proof.
  intros [_ Hf] Hc Hn Hkeep. destruct (cache_wf _ _ Hc) as [Hw Hno]. unfold inode_free.
  pose proof (inode_of_lt _ _ _ Hn) as Hlt. set (n' := set_i_ref _ n).
  mstep ltac:(by apply acquire_eq). set (s1 := set_k_cpu _ _).
  assert (inode_of s1 ip = Some n) as Hn1 by done.
  mstep ltac:(exact (upd_inode_eq _ _ _ _ Hn1)). fold n'.
  assert (inode_of (put_inode ip n' s1) ip = Some n') as Hn2 by (rewrite inode_of_put by done; by rewrite decide_True).
  rewrite (bind_get_inode _ _ _ _ _ Hn2), (bind_get_inode _ _ _ _ _ Hn2).
  assert ((i_ref n' =? 0) && (d_nlink (i_d n') =? 0) = false) as ->.
  { apply andb_false_iff. rewrite !Z.eqb_neq. done. }
  mrun. rewrite release_eq; [|by apply cpu_push_wf | destruct Hw; simpl; lia | done].
  eexists. split; [done|].
  assert (cpu_pop (cpu_push (k_cpu s)) = cpu_touch (k_cpu s)) as Hpp by by apply cpu_pop_push.
  split; [by destruct s as [? ? ? ? ? ? ? ? ? [] ?] | | done | simpl; exact Hpp |].
  - by destruct s as [? ? ? ? ? ? ? ? ? [] ?].
  - apply cache_cpu; [done | simpl; rewrite Hpp; by apply cpu_touch_wf | simpl; lia |].
    apply (cache_ext (set_k_cpu (cpu_push (k_cpu s)) s)); [done..|]. by apply cache_push.
Qed.

(** The last reference to an inode without links: [inode_destroy] locks the
    inode, whose reference count is already 0. *)
Lemma inode_free_destroy s ip n : ic_ok s -> inode_of s ip = Some n ->
  i_ref n = 1 -> d_nlink (i_d n) = 0 ->
  exists s', inode_free ip s = Panic "inode_lock: ref < 1" s'.
Proof.
  intros [_ Hf] Hn Href Hnl. unfold inode_free.
  pose proof (inode_of_lt _ _ _ Hn) as Hlt. set (n' := set_i_ref (u32 (1 - 1)) n).
  mstep ltac:(by apply acquire_eq). set (s1 := set_k_cpu _ _).
  assert (inode_of s1 ip = Some n) as Hn1 by done.
  mstep ltac:(exact (upd_inode_eq _ _ _ _ Hn1)). rewrite Href. fold n'.
  assert (inode_of (put_inode ip n' s1) ip = Some n') as Hn2 by (rewrite inode_of_put by done; by rewrite decide_True).
  rewrite (bind_get_inode _ _ _ _ _ Hn2), (bind_get_inode _ _ _ _ _ Hn2).
  change (i_ref n') with 0. change (d_nlink (i_d n')) with (d_nlink (i_d n)). rewrite Hnl. cbn [Z.eqb andb].
  unfold when. unfold inode_destroy. mrun. rewrite bind_holding_ic. cbv beta. mrun. rewrite kassert_true.
  - exists (put_inode ip n' s1). apply bind_panic_eq, bind_panic_eq. by apply (inode_lock_unreferenced _ _ n').
  - apply bool_decide_eq_true_2. apply take_lock_held.
Qed.

(** *** [inode_create] *)

Lemma can_read_steps s s' ic d c H x : steps s s' ic d c H -> can_read s H x -> can_read s' H x.
Proof. intros [] (_ & ? & ? & ?). by split_and!. Qed.

Lemma alloc_slot_num l num i n : alloc_slot l num = Some (i, n) ->
  inode_num n = num /\ (i < length l)%nat.
Proof.
  unfold alloc_slot. destruct (list_find (fun n => inode_num n = num) l) as [[j m]|] eqn:H1.
  - intros [= <- <-]. apply list_find_Some in H1 as (Hj & Hm & _). by apply lookup_lt_Some in Hj.
  - destruct (list_find (fun n => i_ref n = 0) l) as [[j m]|] eqn:H2; [|done].
    intros [= <- <-]. apply list_find_Some in H2 as (Hj & Hm & _). by apply lookup_lt_Some in Hj.
Qed.

(** The six assignments of [inode_create]. *)
Lemma fill_inode {B} s ip n type major minor (k : unit -> M (kstate D) B) : inode_of s ip = Some n ->
  (upd_dinode ip (set_d_type type);; upd_dinode ip (set_d_major major);; upd_dinode ip (set_d_minor minor);;
   upd_dinode ip (set_d_nlink 1);; upd_dinode ip (set_d_size 0);; u ← upd_dinode ip (set_d_addrs no_addrs); k u) s
  = k tt (put_inode ip (set_i_d (mk_dinode type major minor 1 0 no_addrs) n) s).
Proof.
  intros Hn. pose proof (inode_of_lt _ _ _ Hn) as Hlt.
  assert (forall m, inode_of (put_inode ip m s) ip = Some m) as Hput
    by (intros m; rewrite inode_of_put by done; by rewrite decide_True).
  mstep ltac:(exact (upd_dinode_eq _ _ _ _ Hn)).
  do 5 (mstep ltac:(apply upd_dinode_eq, Hput); rewrite put_inode_twice). done.
Qed.

Definition new_dinode (type major minor : Z) : dinode := mk_dinode type major minor 1 0 no_addrs.

Lemma inode_create_steps s H type major minor num ip n :
  ic_ok s -> can_read s H (inode_bitmap_start (k_sb s)) -> can_read s H (iblock (k_sb s) num) ->
  first_clear (block (k_dev s) (inode_bitmap_start (k_sb s))) = Some num -> num <> 0 ->
  alloc_slot (inodes (k_ic s)) num = Some (ip, n) -> is_free (i_slk n) -> 1 <= i_ref n ->
  let d1 := put_block (k_dev s) (inode_bitmap_start (k_sb s))
              (set_bit (block (k_dev s) (inode_bitmap_start (k_sb s))) num) in
  exists s', inode_create type major minor s = Ret (Some ip) s' /\
    steps s s' (ic_put ip (mk_inode (new_dinode type major minor) num (i_ref n) true (drop_lock (i_slk n))) (ic_touched s))
      (put_block d1 (iblock (k_sb s) num)
         (blit (block d1 (iblock (k_sb s) num)) (ioff num) (encode (new_dinode type major minor))))
      (cpu_touch (k_cpu s)) H.
Proof.
  intros [Hil Hif] Hrb Hri Hfc Hnum Hslot Hslk Href d1. unfold inode_create.
  destruct (alloc_slot_num _ _ _ _ Hslot) as [Hnn Hip]. destruct (cache_wf _ _ (proj1 Hrb)) as [Hw Hno].
  destruct (alloc_inode_some s H num Hrb Hfc Hnum) as (s1 & Hs1 & H1%becomes_steps). mstep ltac:(exact Hs1).
  rewrite (proj2 (Z.eqb_neq _ _) Hnum). fold d1 in H1.
  assert (k_ic s1 = k_ic s) as Hic1 by apply H1.
  destruct (inode_alloc_steps s1 H num ip n) as (s2 & Hs2 & H2); [by split; rewrite Hic1 | apply H1 | by rewrite Hic1 |].
  mstep ltac:(exact Hs2).
  assert (inode_of s2 ip = Some n) as Hn2.
  { rewrite (inode_of_ic _ _ _ (st_ic _ _ _ _ _ _ H2)). apply ic_put_lookup. simpl. by rewrite Hic1. }
  assert (k_sb s2 = k_sb s) as Hsb2 by (apply k_sb_frame_ic; etransitivity; [apply H1 | apply H2]).
  destruct (inode_lock_ok s2 H ip n Hn2 Href Hslk) as (s3 & Hs3 & H3).
  { rewrite Hsb2, Hnn. eapply can_read_steps, can_read_steps, Hri; [apply H2 | apply H1]. }
  mstep ltac:(exact Hs3). apply becomes_put_steps in H3. set (n3 := locked_inode _ _ _ n) in H3.
  assert (inode_of s3 ip = Some n3) as Hn3.
  { rewrite (inode_of_ic _ _ _ (st_ic _ _ _ _ _ _ H3)). apply ic_put_lookup. by eapply inode_of_lt. }
  rewrite (fill_inode _ _ _ _ _ _ _ Hn3).
  pose proof (inode_of_lt _ _ _ Hn3) as Hlt3. set (n4 := set_i_d _ n3).
  pose proof (put_steps s3 ip n4 H (st_cache _ _ _ _ _ _ H3)) as H4. set (s4 := put_inode ip n4 s3) in *.
  assert (inode_of s4 ip = Some n4) as Hn4 by (subst s4; rewrite inode_of_put by done; by rewrite decide_True).
  assert (inode_num n4 = num) as Hnum4.
  { unfold n4, n3, locked_inode. simpl. destruct (valid n); done. }
  assert (i_slk n4 = take_lock (hartid (k_cpu s2)) (i_slk n)) as Hslk4.
  { unfold n4, n3, locked_inode. simpl. destruct (valid n); done. }
  assert (k_sb s4 = k_sb s2) as Hsb4 by (apply k_sb_frame_ic; etransitivity; [apply H3 | apply H4]).
  assert (can_read s4 H (iblock (k_sb s) num)) as Hri4.
  { eapply can_read_steps; [apply H4|]. eapply can_read_steps; [apply H3|]. eapply can_read_steps; [apply H2|].
    eapply can_read_steps; [apply H1 | done]. }
  assert (hartid (k_cpu s4) = hartid (k_cpu s2)) as Hh4.
  { rewrite (st_cpu _ _ _ _ _ _ H4), (st_cpu _ _ _ _ _ _ H3). done. }
  destruct (inode_rw_write s4 H ip n4 Hn4) as (s5 & Hs5 & H5); [| done | by rewrite Hsb4, Hsb2, Hnum4 |].
  { rewrite Hslk4, Hh4. apply take_lock_held. }
  mstep ltac:(exact Hs5). apply becomes_steps in H5. rewrite Hsb4, Hsb2, Hnum4 in H5.
  assert (inode_of s5 ip = Some n4) as Hn5 by (by rewrite (inode_of_ic _ _ _ (st_ic _ _ _ _ _ _ H5))).
  assert (k_cpu s2 = cpu_touch (k_cpu s)) as Hcpu2.
  { by rewrite (st_cpu _ _ _ _ _ _ H2), (st_cpu _ _ _ _ _ _ H1), cpu_touch_idemp. }
  assert (k_cpu s5 = cpu_push (k_cpu s)) as Hcpu5.
  { rewrite (st_cpu _ _ _ _ _ _ H5), (st_cpu _ _ _ _ _ _ H4), (st_cpu _ _ _ _ _ _ H3), Hcpu2, cpu_push_touch.
    by apply cpu_touch_push_wf. }
  destruct (inode_unlock_ok s5 H ip n4 Hn5) as (s6 & Hs6 & H6).
  { rewrite Hslk4, Hcpu5, Hcpu2. apply take_lock_held. }
  { apply H5. }
  { rewrite Hcpu5. simpl. lia. }
  mstep ltac:(exact Hs6). apply becomes_put_steps in H6. exists s6. split; [done|].
  pose proof (steps_trans _ _ _ _ _ _ _ _ _ _ _ H1 H2) as Ht.
  pose proof (steps_trans _ _ _ _ _ _ _ _ _ _ _ Ht H3) as Ht3.
  pose proof (steps_trans _ _ _ _ _ _ _ _ _ _ _ Ht3 H4) as Ht4.
  pose proof (steps_trans _ _ _ _ _ _ _ _ _ _ _ Ht4 H5) as Ht5.
  pose proof (steps_trans _ _ _ _ _ _ _ _ _ _ _ Ht5 H6) as Ht6.
  rewrite Hcpu5, cpu_pop_push in Ht6 by done. rewrite (st_dev _ _ _ _ _ _ H5), (st_ic _ _ _ _ _ _ H5),
    (st_dev _ _ _ _ _ _ H4), (st_ic _ _ _ _ _ _ H4), (st_dev _ _ _ _ _ _ H3), (st_ic _ _ _ _ _ _ H3),
    (st_dev _ _ _ _ _ _ H2), (st_ic _ _ _ _ _ _ H2), (st_dev _ _ _ _ _ _ H1), !ic_put_twice in Ht6.
  unfold ic_touched in *. rewrite Hic1 in Ht6.
  assert (set_i_slk (drop_lock (i_slk n4)) n4
    = mk_inode (new_dinode type major minor) num (i_ref n) true (drop_lock (i_slk n))) as Hfin.
  { rewrite Hslk4. unfold n4, n3, locked_inode, set_i_slk, set_i_d, set_valid, drop_lock, take_lock in *.
    simpl in *. destruct (valid n) eqn:Hv; simpl in *; rewrite ?Hv, Hnn; done. }
  rewrite Hfin in Ht6. exact Ht6.
Qed.

End Meta.
