(* ===== verification/InodeSpec.v ===== *)
(** * InodeSpec: what the inode layer promises about inodes *)

From S2P Require Import Prelude Bytes Spinlock Kernel Disk Buf BufSpec Bitmap BitmapSpec Inode InodeMeta.

Lemma ioff_disjoint a b : a mod INODE_PER_BLOCK <> b mod INODE_PER_BLOCK ->
  ioff a + INODE_DISK_SIZE <= ioff b \/ ioff b + INODE_DISK_SIZE <= ioff a.
Proof.
  unfold ioff, INODE_PER_BLOCK, INODE_DISK_SIZE, BLOCK_SIZE. change (1024 / 64) with 16. lia.
Qed.

Section Spec.
Context {D : Type} `{!BlockDev D, !BlockDevLaws D, !DiskDriver D, !DiskDriverOk D}.
Implicit Types (s : kstate D) (H : list hbuf) (n : inode) (ip : nat).

(** The inode area: block numbers that neither wrap nor alias. *)
Definition inum_ok (sb : super_block) (num : Z) : Prop :=
  0 <= num /\ 0 <= inode_start sb /\ inode_start sb + num / INODE_PER_BLOCK < 2 ^ 31.

Lemma iblock_eq sb num : inum_ok sb num -> iblock sb num = inode_start sb + num / INODE_PER_BLOCK /\ 0 <= iblock sb num < 2 ^ 31.
Proof.
  intros (H0 & H1 & H2). assert (0 <= num / INODE_PER_BLOCK) by (apply Z.div_pos; [lia | done]).
  unfold iblock. rewrite u32_small by lia. lia.
Qed.

(** Writing one inode leaves every other inode of the disk alone. *)
Lemma disk_inode_write (d : D) sb num m (e : dinode) :
  inum_ok sb num -> inum_ok sb m -> dinode_ok e ->
  disk_inode (put_block d (iblock sb num) (blit (block d (iblock sb num)) (ioff num) (encode e))) sb m
  = if decide (m = num) then e else disk_inode d sb m.
Proof.
  intros Hn Hm He. destruct (iblock_eq _ _ Hn) as [Hbn Hrn]. destruct (iblock_eq _ _ Hm) as [Hbm Hrm].
  destruct (ioff_range num) as [Ho1 Ho2]. destruct (ioff_range m) as [Hp1 Hp2].
  assert (length (encode e) = Z.to_nat INODE_DISK_SIZE) as Hle by (apply length_encode; apply He).
  assert (Z.of_nat (length (encode e)) = INODE_DISK_SIZE) as HleZ by (by rewrite Hle).
  destruct (good_blit (block d (iblock sb num)) (ioff num) (encode e) (good_block _ _) (is_bytes_encode _))
    as [Hgl Hgb]; [done | lia |].
  pose proof (length_good _ (good_block d (iblock sb num))) as Hlb.
  unfold disk_inode. case_decide as Heq.
  - subst m. rewrite block_put_eq by done. rewrite <- HleZ, slice_blit_eq by lia. by apply decode_encode.
  - destruct (decide (iblock sb num = iblock sb m)) as [Hb|Hb].
    + rewrite <- Hb, block_put_eq by done. f_equal.
      assert (num mod INODE_PER_BLOCK <> m mod INODE_PER_BLOCK) as Hmod.
      { intros Hmod. apply Heq. assert (m / INODE_PER_BLOCK = num / INODE_PER_BLOCK) as Hdiv by lia.
        rewrite (Z.div_mod m INODE_PER_BLOCK), (Z.div_mod num INODE_PER_BLOCK), Hmod, Hdiv by done. done. }
      destruct (ioff_disjoint _ _ Hmod); apply slice_blit_disjoint; unfold INODE_DISK_SIZE in *; lia.
    + by rewrite block_put_ne.
Qed.

(** C10: writing an inode and reading it into any slot of the cache gives the same
    inode; every other inode of the disk, also in the same block, is unchanged. *)
Theorem inode_rw_roundtrip s H ip n :
  inode_of s ip = Some n -> held_by (hartid (k_cpu s)) (i_slk n) -> dinode_ok (i_d n) ->
  inum_ok (k_sb s) (inode_num n) -> can_read s H (iblock (k_sb s) (inode_num n)) ->
  exists s1, inode_rw ip true s = Ret tt s1 /\ frame s s1 /\ cache s1 H /\
    (forall m, inum_ok (k_sb s) m ->
       disk_inode (k_dev s1) (k_sb s) m = if decide (m = inode_num n) then i_d n else disk_inode (k_dev s) (k_sb s) m) /\
    (exists s2, inode_rw ip false s1 = Ret tt s2 /\
       inode_of s2 ip = Some (set_valid true n) /\ k_dev s2 = k_dev s1).
Proof.
  intros Hn Hh Hok Hnum Hr. destruct (inode_rw_write s H ip n Hn Hh) as (s1 & Hs1 & H1); [apply Hok | done |].
  exists s1. pose proof (be_frame _ _ _ _ _ H1) as Hf. split_and!; [done | done | apply H1 | |].
  { intros m Hm. rewrite (be_dev _ _ _ _ _ H1). by apply disk_inode_write. }
  rewrite <- (inode_of_frame s s1) in Hn by done.
  destruct (inode_rw_read s1 H ip n Hn) as (s2 & Hs2 & H2).
  { by rewrite (be_cpu _ _ _ _ _ H1). }
  { rewrite (k_sb_frame _ _ Hf). by eapply can_read_becomes. }
  exists s2. split_and!; [done | | apply H2].
  rewrite (inode_of_frame _ _ _ (be_frame _ _ _ _ _ H2)), inode_of_put by (by eapply inode_of_lt).
  rewrite decide_True by done. rewrite (k_sb_frame _ _ Hf), (be_dev _ _ _ _ _ H1), disk_inode_write by done.
  rewrite decide_True by done. by destruct n.
Qed.

(** the 64 bytes of an inode: decoding inverts encoding on inodes whose fields
    fit, encoding inverts decoding on every 64 bytes. *)
Theorem dinode_bytes_roundtrip (d : dinode) (l : list Z) :
  dinode_ok d -> length l = Z.to_nat INODE_DISK_SIZE -> is_bytes l ->
  decode (encode d) = d /\ length (encode d) = Z.to_nat INODE_DISK_SIZE
  /\ encode (decode l) = l /\ dinode_ok (decode l).
Proof.
  intros Hd Hl Hb. split_and!; [by apply decode_encode | apply length_encode, Hd | by apply encode_decode | by apply decode_ok].
Qed.

(** The entries of the cache have distinct numbers, unused ones apart. *)
Definition ic_distinct (l : list inode) : Prop := forall i j n m,
  l !! i = Some n -> l !! j = Some m -> inode_num n = inode_num m -> inode_num n <> INODE_NUM_UNUSED -> i = j.

Lemma alloc_slot_distinct l num i n :
  ic_distinct l -> alloc_slot l num = Some (i, n) -> ic_distinct (<[i := n]> l).
Proof.
  intros Hd Ha. destruct (alloc_slot_num _ _ _ _ Ha) as [Hnum Hi].
  assert (forall j m, l !! j = Some m -> inode_num m = num -> num <> INODE_NUM_UNUSED -> i = j) as Huniq.
  { intros j m Hj Hm Hu. unfold alloc_slot in Ha. destruct (list_find _ l) as [[k o]|] eqn:Hf.
    - apply list_find_Some in Hf as (Hk & Ho & _). injection Ha as <- <-. apply (Hd k j o m); congruence.
    - apply list_find_None in Hf. eapply Forall_lookup_1 in Hf; [|exact Hj]. done. }
  intros j k a b Hj Hk He Hu. destruct (decide (i = j)) as [<-|Hij], (decide (i = k)) as [<-|Hik].
  - done.
  - rewrite list_lookup_insert_eq in Hj by done. rewrite list_lookup_insert_ne in Hk by done.
    injection Hj as <-. apply (Huniq k b Hk); congruence.
  - rewrite list_lookup_insert_ne in Hj by done. rewrite list_lookup_insert_eq in Hk by done.
    injection Hk as <-. symmetry. apply (Huniq j a Hj); congruence.
  - rewrite list_lookup_insert_ne in Hj, Hk by done. by apply (Hd j k a b).
Qed.

(** C11: [inode_alloc] returns the one slot of the cache that has the number, with
    one reference more and its copy of the inode kept; otherwise the first slot
    without references, emptied; and it panics when every slot is referenced.
    Numbers stay distinct, so that asking again gives the same slot. *)
Theorem inode_alloc_slot s H num :
  ic_ok s -> cache s H -> ic_distinct (inodes (k_ic s)) ->
  match alloc_slot (inodes (k_ic s)) num with
  | Some (i, n) => exists s', inode_alloc num s = Ret i s' /\ inode_of s' i = Some n /\ ic_ok s' /\
      ic_distinct (inodes (k_ic s')) /\ cache s' H /\ k_dev s' = k_dev s /\
      (forall j, j <> i -> inode_of s' j = inode_of s j) /\
      exists s2, inode_alloc num s' = Ret i s2 /\ inode_of s2 i = Some (set_i_ref (u32 (i_ref n + 1)) n)
  | None => exists s', inode_alloc num s = Panic "inode_alloc: no available inode" s'
  end.
Proof.
  intros Hic Hc Hdist. destruct (alloc_slot _ num) as [[i n]|] eqn:Ha.
  2:{ pose proof (inode_alloc_eq s num Hic (proj1 (cache_wf _ _ Hc))) as Heq. by rewrite Ha in Heq. }
  destruct (alloc_slot_num _ _ _ _ Ha) as [Hnum Hi].
  destruct (inode_alloc_steps s H num i n Hic Hc Ha) as (s' & Hs' & [_ Hic' Hd' _ Hc']).
  assert (inode_of s' i = Some n) as Hn by (rewrite (inode_of_ic _ _ _ Hic'); by apply ic_put_lookup).
  assert (inodes (k_ic s') = <[i := n]> (inodes (k_ic s))) as Hin by (by rewrite Hic').
  assert (ic_ok s') as Hok'.
  { split; [rewrite Hin, length_insert; apply Hic | by rewrite Hic']. }
  exists s'. split_and!; [done..| by rewrite Hin; eapply alloc_slot_distinct | done | done | |].
  { intros j Hj. rewrite (inode_of_ic _ _ _ Hic'). simpl. by rewrite list_lookup_insert_ne by done. }
  destruct (inode_alloc_steps s' H num i (set_i_ref (u32 (i_ref n + 1)) n) Hok' Hc') as (s2 & Hs2 & [_ Hic2 _ _ _]).
  - assert (list_find (fun n => inode_num n = num) (inodes (k_ic s')) = Some (i, n)) as Hf.
    { rewrite Hin. apply list_find_Some. split_and!; [by apply list_lookup_insert_eq | done |].
      intros j m Hj Hlt Hm. rewrite list_lookup_insert_ne in Hj by lia.
      unfold alloc_slot in Ha. destruct (list_find (fun n => inode_num n = num) (inodes (k_ic s))) as [[k o]|] eqn:Hf.
      - apply list_find_Some in Hf as (_ & _ & Hbefore). injection Ha as <- <-. by eapply Hbefore.
      - apply list_find_None in Hf. eapply Forall_lookup_1 in Hf; [|exact Hj]. done. }
    unfold alloc_slot. by rewrite Hf.
  - exists s2. split; [done|]. rewrite (inode_of_ic _ _ _ Hic2). apply ic_put_lookup. simpl. by rewrite Hin, length_insert.
Qed.

(** [inode_create] takes the first clear inode number: on the disk the number
    is marked, its inode is a fresh one of the requested type with one link and no
    data, and no other inode changes; in the cache the slot is a valid unlocked
    copy with the number; nothing else of the kernel changes. *)
Theorem inode_create_fresh s H type major minor num ip n :
  ic_ok s -> can_read s H (inode_bitmap_start (k_sb s)) -> can_read s H (iblock (k_sb s) num) ->
  first_clear (block (k_dev s) (inode_bitmap_start (k_sb s))) = Some num -> num <> 0 ->
  alloc_slot (inodes (k_ic s)) num = Some (ip, n) -> is_free (i_slk n) -> 1 <= i_ref n ->
  0 <= type < 2 ^ 16 -> 0 <= major < 2 ^ 16 -> 0 <= minor < 2 ^ 16 ->
  0 <= inode_bitmap_start (k_sb s) < inode_start (k_sb s) -> inum_ok (k_sb s) num ->
  exists s', inode_create type major minor s = Ret (Some ip) s' /\ frame_ic s s' /\ cache s' H /\
    k_cpu s' = cpu_touch (k_cpu s) /\
    bit (block (k_dev s') (inode_bitmap_start (k_sb s))) num = true /\
    (forall m, inum_ok (k_sb s) m -> disk_inode (k_dev s') (k_sb s) m
       = if decide (m = num) then new_dinode type major minor else disk_inode (k_dev s) (k_sb s) m) /\
    inode_of s' ip = Some (mk_inode (new_dinode type major minor) num (i_ref n) true (drop_lock (i_slk n))).
Proof.
  intros Hic Hrb Hri Hfc Hnum Hslot Hslk Href Ht Hma Hmi Hbm Hok.
  destruct (inode_create_steps s H type major minor num ip n Hic Hrb Hri Hfc Hnum Hslot Hslk Href)
    as (s' & Hs' & [Hf Hic' Hd Hc Hca]).
  destruct (alloc_slot_num _ _ _ _ Hslot) as [_ Hip].
  set (d1 := put_block (k_dev s) (inode_bitmap_start (k_sb s)) _) in Hd.
  assert (dinode_ok (new_dinode type major minor)) as Hdok.
  { unfold dinode_ok, new_dinode; cbn [d_type d_major d_minor d_nlink d_size d_addrs].
    split_and!; try done; try lia. unfold no_addrs. apply Forall_replicate. lia. }
  destruct (iblock_eq _ _ Hok) as [Hib Hir]. apply first_clear_some in Hfc as (Hrange & _ & _).
  assert (0 <= num / INODE_PER_BLOCK) by (apply Z.div_pos; [lia | done]).
  destruct (good_set_bit (block (k_dev s) (inode_bitmap_start (k_sb s))) num (good_block _ _) Hrange) as [Hl1 Hb1].
  exists s'. split_and!; [done..| | |].
  - rewrite Hd, block_put_ne by lia. unfold d1. rewrite block_put_eq by done.
    rewrite bit_set_bit by (done || apply good_block). by rewrite Z.eqb_refl.
  - intros m Hm. rewrite Hd, disk_inode_write by done. case_decide; [done|].
    unfold disk_inode, d1. destruct (iblock_eq _ _ Hm) as [Hbm' Hrm].
    assert (0 <= m / INODE_PER_BLOCK) by (apply Z.div_pos; [apply Hm | done]). rewrite block_put_ne by lia. done.
  - rewrite (inode_of_ic _ _ _ Hic'). by apply ic_put_lookup.
Qed.

(** the lock of an inode, on every branch: locking a referenced free inode
    loads it from the disk when the copy is not valid and leaves a valid one;
    unlocking frees it and restores the interrupt state; locking it twice,
    locking it without a reference, locking NULL, and unlocking it without
    holding it panic. *)
Theorem inode_lock_protocol s H ip n :
  inode_of s ip = Some n -> can_read s H (iblock (k_sb s) (inode_num n)) ->
  (1 <= i_ref n -> is_free (i_slk n) ->
   exists s1 n1, inode_lock (Some ip) s = Ret tt s1 /\ inode_of s1 ip = Some n1 /\
     valid n1 = true /\ held_by (hartid (k_cpu s)) (i_slk n1) /\
     i_d n1 = (if valid n then i_d n else disk_inode (k_dev s) (k_sb s) (inode_num n)) /\
     (exists s', inode_lock (Some ip) s1 = Panic "acquire" s') /\
     (exists s2, inode_unlock ip s1 = Ret tt s2 /\ k_cpu s2 = cpu_touch (k_cpu s) /\ cache s2 H /\
        k_dev s2 = k_dev s /\ inode_of s2 ip = Some (set_i_slk (drop_lock (i_slk n1)) n1)))
  /\ (i_ref n < 1 -> inode_lock (Some ip) s = Panic "inode_lock: ref < 1" s)
  /\ inode_lock None s = Panic "inode_lock: ip is NULL" s
  /\ (~ held_by (hartid (k_cpu s)) (i_slk n) -> inode_unlock ip s = Panic "inode_unlock: no lock" s).
Proof.
  intros Hn Hr. destruct (cache_wf _ _ (proj1 Hr)) as [Hw Hno]. split_and!.
  - intros Href Hf. destruct (inode_lock_ok s H ip n Hn Href Hf Hr) as (s1 & Hs1 & Hb%becomes_put_steps).
    destruct Hb as [_ Hic Hd Hc Hca]. set (n1 := locked_inode _ _ _ n) in Hic.
    assert (inode_of s1 ip = Some n1) as Hn1.
    { rewrite (inode_of_ic _ _ _ Hic). apply ic_put_lookup. by eapply inode_of_lt. }
    assert (held_by (hartid (k_cpu s)) (i_slk n1)) as Hheld.
    { unfold n1, locked_inode. simpl. by destruct (valid n). }
    exists s1, n1. split_and!; [done..| | done | | |].
    + unfold n1, locked_inode. simpl. by destruct (valid n) eqn:Hv.
    + unfold n1, locked_inode. simpl. by destruct (valid n).
    + apply (inode_lock_twice _ _ n1); [done | | by rewrite Hc].
      unfold n1, locked_inode. simpl. by destruct (valid n).
    + destruct (inode_unlock_ok s1 H ip n1 Hn1) as (s2 & Hs2 & Hb2%becomes_put_steps); [by rewrite Hc | done | rewrite Hc; simpl; lia |].
      exists s2. split_and!; [done | | apply Hb2 | by rewrite (st_dev _ _ _ _ _ _ Hb2) |].
      * by rewrite (st_cpu _ _ _ _ _ _ Hb2), Hc, cpu_pop_push.
      * rewrite (inode_of_ic _ _ _ (st_ic _ _ _ _ _ _ Hb2)). apply ic_put_lookup. by eapply inode_of_lt.
  - intros Href. by apply (inode_lock_unreferenced _ _ n).
  - done.
  - intros Hh. unfold inode_unlock. apply (not_holding_inode _ _ n); done.
Qed.

(** giving a reference back: while references or links remain [inode_free] only
    counts; the last reference to an inode without links, which should destroy it,
    panics instead, because [inode_destroy] locks an inode whose count is 0. *)
Theorem inode_free_counts s H ip n :
  ic_ok s -> cache s H -> inode_of s ip = Some n -> 1 <= i_ref n < 2 ^ 32 ->
  (i_ref n <> 1 \/ d_nlink (i_d n) <> 0 ->
   exists s', inode_free ip s = Ret tt s' /\ inode_of s' ip = Some (set_i_ref (i_ref n - 1) n) /\
     k_dev s' = k_dev s /\ cache s' H)
  /\ (i_ref n = 1 -> d_nlink (i_d n) = 0 ->
      exists s', inode_free ip s = Panic "inode_lock: ref < 1" s').
Proof.
  intros Hic Hc Hn Href. split.
  - intros Hk. assert (u32 (i_ref n - 1) = i_ref n - 1) as Hu by (apply u32_small; lia).
    destruct (inode_free_steps s H ip n Hic Hc Hn) as (s' & Hs' & [_ Hic' ? _ ?]).
    { rewrite Hu. destruct Hk; [left; lia | by right]. }
    exists s'. split_and!; [done | | done..]. rewrite (inode_of_ic _ _ _ Hic'), Hu.
    apply ic_put_lookup. by eapply inode_of_lt.
  - intros Hr Hl. by apply (inode_free_destroy s ip n).
Qed.

End Spec.

(** ** Witnesses *)

Definition demo_dinode : dinode := mk_dinode FT_FILE 0 0 1 11 (141 :: replicate 12 0).
Definition unused_inode : inode := mk_inode zero_dinode INODE_NUM_UNUSED 0 false zero_lock.
Definition one_inode (n : inode) : icache := mk_icache (n :: replicate 31 unused_inode) zero_lock.

(** Inode 3, locked by hart 0. *)
Definition held_inode : inode := mk_inode demo_dinode 3 1 true (take_lock 0 zero_lock).
(** Inode 3, unlocked and not yet read. *)
Definition idle_inode : inode := mk_inode zero_dinode 3 1 false zero_lock.

Lemma demo_kernel (n : inode) : exists s : kstate memdisk,
  k_dev s = demo_disk /\ k_sb s = demo_sb /\ k_ic s = one_inode n /\ k_cpu s = mk_cpu 0 false 0 false /\
  (forall x, blk_ok x -> can_read s [] x) /\ inode_of s 0 = Some n.
Proof.
  destruct (fresh_kernel demo_disk demo_sb (one_inode n)) as (s & ? & ? & Hic & ? & ?). exists s.
  split_and!; try done.
  - intros x Hx. split_and!; [done | unfold N_BLOCK_BUF; simpl; lia | apply Hx.. | apply not_elem_of_nil].
  - unfold inode_of. by rewrite Hic.
Qed.

Lemma demo_dinode_ok : dinode_ok demo_dinode.
Proof. unfold dinode_ok. simpl. split_and!; try done; repeat constructor; lia. Qed.

Lemma inode_rw_roundtrip_witness : exists s s1 : kstate memdisk,
  inode_rw 0 true s = Ret tt s1 /\ disk_inode (k_dev s1) demo_sb 3 = demo_dinode.
Proof.
  destruct (demo_kernel held_inode) as (s & Hd & Hsb & Hic & Hc & Hr & Hn). exists s.
  destruct (inode_rw_roundtrip s [] 0 held_inode Hn) as (s1 & Hs1 & _ & _ & Hm & _).
  - rewrite Hc. split; [discriminate | reflexivity].
  - apply demo_dinode_ok.
  - rewrite Hsb. unfold inum_ok. simpl. split_and!; [lia | lia | reflexivity].
  - rewrite Hsb. apply Hr. vm_compute. split; [discriminate | reflexivity].
  - exists s1. split; [exact Hs1|]. rewrite Hsb in Hm. specialize (Hm 3).
    rewrite Hm; [reflexivity|]. unfold inum_ok. simpl. split_and!; [lia | lia | reflexivity].
Defined.

Lemma dinode_bytes_roundtrip_witness : decode (encode demo_dinode) = demo_dinode.
Proof.
  apply (dinode_bytes_roundtrip demo_dinode (encode demo_dinode) demo_dinode_ok
    (length_encode demo_dinode eq_refl) (is_bytes_encode demo_dinode)).
Defined.

Lemma inode_alloc_slot_witness : exists s s' : kstate memdisk,
  inode_alloc 7 s = Ret 1%nat s' /\ inode_of s' 1 = Some (mk_inode zero_dinode 7 1 false zero_lock).
Proof.
  destruct (demo_kernel idle_inode) as (s & Hd & Hsb & Hic & Hc & Hr & Hn). exists s.
  pose proof (inode_alloc_slot s [] 7) as Ha. rewrite Hic in Ha.
  destruct Ha as (s' & Hs' & Hof & _).
  - split; rewrite Hic; reflexivity.
  - apply (Hr 1). vm_compute. split; [discriminate | reflexivity].
  - intros i j a b Hi Hj He Hu.
    assert (forall k m, inodes (one_inode idle_inode) !! k = Some m -> inode_num m <> INODE_NUM_UNUSED -> k = 0%nat) as Hz.
    { intros [|k] m Hk Hm; [reflexivity|]. apply lookup_replicate in Hk as [-> _]. destruct Hm. reflexivity. }
    rewrite (Hz i a Hi Hu), (Hz j b Hj); [reflexivity | congruence].
  - exists s'. split; [exact Hs' | exact Hof].
Defined.

Lemma inode_create_fresh_witness : exists s s' : kstate memdisk,
  inode_create FT_FILE 0 0 s = Ret (Some 1%nat) s' /\ disk_inode (k_dev s') demo_sb 10 = new_dinode FT_FILE 0 0.
Proof.
  destruct (demo_kernel idle_inode) as (s & Hd & Hsb & Hic & Hc & Hr & Hn). exists s.
  assert (inum_ok demo_sb 10) as Hok by (unfold inum_ok; simpl; split_and!; [lia | lia | reflexivity]).
  destruct (inode_create_fresh s [] FT_FILE 0 0 10 1 (mk_inode zero_dinode 10 1 false zero_lock))
    as (s' & Hs' & _ & _ & _ & _ & Hm & _); rewrite ?Hsb, ?Hic.
  - split; rewrite Hic; reflexivity.
  - apply Hr. vm_compute. split; [discriminate | reflexivity].
  - apply Hr. vm_compute. split; [discriminate | reflexivity].
  - rewrite Hd. apply demo_first.
  - discriminate.
  - reflexivity.
  - reflexivity.
  - simpl. lia.
  - unfold FT_FILE. lia.
  - lia.
  - lia.
  - simpl. lia.
  - exact Hok.
  - exists s'. split; [exact Hs'|]. rewrite Hsb in Hm. rewrite (Hm 10 Hok). reflexivity.
Defined.

Lemma inode_lock_protocol_witness : exists s s1 : kstate memdisk, inode_lock (Some 0%nat) s = Ret tt s1.
Proof.
  destruct (demo_kernel idle_inode) as (s & Hd & Hsb & Hic & Hc & Hr & Hn). exists s.
  destruct (inode_lock_protocol s [] 0 idle_inode Hn) as (Hl & _).
  - rewrite Hsb. apply Hr. vm_compute. split; [discriminate | reflexivity].
  - destruct Hl as (s1 & _ & Hs1 & _); [simpl; lia | reflexivity |]. exists s1. exact Hs1.
Defined.

Lemma inode_free_counts_witness : exists s s' : kstate memdisk,
  inode_free 0 s = Panic "inode_lock: ref < 1" s'.
Proof.
  destruct (demo_kernel idle_inode) as (s & Hd & Hsb & Hic & Hc & Hr & Hn). exists s.
  apply (proj2 (inode_free_counts s [] 0 idle_inode ltac:(split; rewrite Hic; reflexivity)
    (proj1 (Hr 1 ltac:(vm_compute; split; [discriminate | reflexivity]))) Hn ltac:(simpl; lia))); reflexivity.
Defined.
