(* ===== verification/InodeData.v ===== *)
(** * InodeData: the blocks of an inode

    [bmap] is the reference view of the mapping from file blocks to disk blocks:
    it follows the entries on the disk.  Where the blocks exist,
    [inode_locate_block] computes it without changing the disk, and reading and
    writing move exactly the bytes of the file. *)

From S2P Require Import Prelude Bytes Spinlock Kernel Disk Buf BufSpec Bitmap Inode InodeMeta InodeSpec.

(** ** Disks with the same content *)

Definition same_disk {D} `{!BlockDev D} (d d' : D) : Prop := forall x, block d' x = block d x.

#[export] Instance same_disk_equiv {D} `{!BlockDev D} : Equivalence (same_disk (D := D)).
Proof. split; unfold same_disk; [done | by intros ?? H x | intros ??? H1 H2 x; by rewrite H2, H1]. Qed.

#[export] Instance block_proper {D} `{!BlockDev D} : Proper (same_disk ==> eq ==> eq) (block (D := D)).
Proof. intros d d' Hd x _ <-. symmetry. apply Hd. Qed.

(** ** The reference mapping *)

Definition entry_of (l : list Z) (k : Z) : Z := word l (4 * k) 4.

Section Map.
Context {D : Type} `{!BlockDev D, !BlockDevLaws D}.
Implicit Types (d : D).

(** Follow [l] levels of entries from [e]; 0 when an entry on the way is 0. *)
Fixpoint walk d (l : nat) (e bn : Z) : Z :=
  match l with
  | O => e
  | S l' => if e =? 0 then 0 else walk d l' (entry_of (block d e) (bn / 256 ^ Z.of_nat l')) (bn mod 256 ^ Z.of_nat l')
  end.

(** The metadata blocks on the way. *)
Fixpoint walk_meta d (l : nat) (e bn : Z) : list Z :=
  match l with
  | O => []
  | S l' => e :: walk_meta d l' (entry_of (block d e) (bn / 256 ^ Z.of_nat l')) (bn mod 256 ^ Z.of_nat l')
  end.

(** Level, entry of [addrs] and index below it of file block [bn]. *)
Definition locate (bn : Z) : nat * Z * Z :=
  if bn <? 10 then (0%nat, bn, 0)
  else if bn <? 522 then (1%nat, 10 + (bn - 10) / 256, (bn - 10) mod 256)
  else (2%nat, 12, bn - 522).

Definition addr_of (di : dinode) (k : Z) : Z := default 0 (d_addrs di !! Z.to_nat k).

Definition bmap d (di : dinode) (bn : Z) : Z :=
  let '(l, k, i) := locate bn in walk d l (addr_of di k) i.
Definition bmeta d (di : dinode) (bn : Z) : list Z :=
  let '(l, k, i) := locate bn in walk_meta d l (addr_of di k) i.

Lemma walk_ext d d' l e bn : same_disk d d' -> walk d' l e bn = walk d l e bn.
Proof.
  intros Hd. revert e bn; induction l as [|l IH]; intros e bn; [done|]. cbn [walk]. rewrite (Hd e), IH. done.
Qed.
Lemma walk_meta_ext d d' l e bn : same_disk d d' -> walk_meta d' l e bn = walk_meta d l e bn.
Proof.
  intros Hd. revert e bn; induction l as [|l IH]; intros e bn; [done|]. cbn [walk_meta]. rewrite (Hd e), IH. done.
Qed.

#[export] Instance bmap_proper : Proper (same_disk ==> eq ==> eq ==> eq) bmap.
Proof. intros d d' Hd di _ <- bn _ <-. unfold bmap. destruct (locate bn) as [[l k] i]. symmetry. by apply walk_ext. Qed.
#[export] Instance bmeta_proper : Proper (same_disk ==> eq ==> eq ==> eq) bmeta.
Proof. intros d d' Hd di _ <- bn _ <-. unfold bmeta. destruct (locate bn) as [[l k] i]. symmetry. by apply walk_meta_ext. Qed.

(** Only the metadata blocks matter. *)
Lemma walk_frame d d' l e bn :
  (forall x, x ∈ walk_meta d l e bn -> block d' x = block d x) ->
  walk d' l e bn = walk d l e bn /\ walk_meta d' l e bn = walk_meta d l e bn.
Proof.
  revert e bn; induction l as [|l IH]; intros e bn Hm; [done|]. cbn [walk walk_meta] in *.
  rewrite (Hm e) by set_solver. destruct (IH (entry_of (block d e) (bn / 256 ^ Z.of_nat l)) (bn mod 256 ^ Z.of_nat l))
    as [-> ->]; [set_solver | done].
Qed.

Lemma bmap_frame d d' di bn : (forall x, x ∈ bmeta d di bn -> block d' x = block d x) ->
  bmap d' di bn = bmap d di bn /\ bmeta d' di bn = bmeta d di bn.
Proof. unfold bmap, bmeta. destruct (locate bn) as [[l k] i]. apply walk_frame. Qed.

(** Writing back what was read. *)
Lemma put_same d x : same_disk d (put_block d x (block d x)).
Proof.
  intros y. unfold block, put_block. destruct (decide (sector_of x = sector_of y)) as [He|Hne].
  - rewrite <- He. apply dev_read_write_eq; [apply length_block | apply is_bytes_block].
  - apply dev_read_write_ne; [done | apply sector_of_even..].
Qed.

(** *** Blocks that can be reached *)

(** File block [bn] exists and the way to it can be read with [H] checked out. *)
Definition path_ok (H : list hbuf) d (di : dinode) (bn : Z) : Prop :=
  bmap d di bn <> 0 /\ Forall (fun x => x <> 0 /\ blk_ok x /\ x ∉ h_blk <$> H) (bmeta d di bn) /\ NoDup (bmeta d di bn).

End Map.

Section Locate.
Context {D : Type} `{!BlockDev D, !BlockDevLaws D, !DiskDriver D, !DiskDriverOk D}.
Implicit Types (s : kstate D) (H : list hbuf) (ip : nat).

Definition locate_cpu (l : nat) (c : cpu) : cpu := match l with O => c | S _ => cpu_touch c end.

Lemma locate_walk l : forall fuel s H p e bn,
  cache s H -> read_entry p s = Ret e s -> (l <= fuel)%nat -> 0 <= bn < 256 ^ Z.of_nat l ->
  walk (k_dev s) l e bn <> 0 ->
  Forall (fun x => x <> 0 /\ blk_ok x /\ x ∉ h_blk <$> H) (walk_meta (k_dev s) l e bn) ->
  NoDup (walk_meta (k_dev s) l e bn) -> (length H + l < N_BLOCK_BUF)%nat ->
  exists s' d', locate_block fuel p bn (256 ^ Z.of_nat l) s = Ret (walk (k_dev s) l e bn) s' /\
    becomes s d' (locate_cpu l (k_cpu s)) H s' /\ same_disk (k_dev s) d'.
Proof.
  induction l as [|l IH]; intros fuel s H p e bn Hc He Hf Hbn Hw Hm Hnd Hlen.
  - exists s, (k_dev s). split_and!; [|by apply becomes_refl | done]. cbn [walk] in *.
    assert (forall k : Z -> M (kstate D) Z, (read_entry p ≫= k) s = k e s) as Hre
      by (intros k; by apply bind_ret_eq).
    destruct fuel; cbn [locate_block]; rewrite Hre, (proj2 (Z.eqb_neq _ _) Hw); mrun; exact He.
  - destruct fuel as [|fuel]; [lia|]. cbn [walk walk_meta] in *. destruct (Z.eqb_spec e 0) as [|He0]; [done|].
    apply list.Forall_cons in Hm as [(_ & Hx & Hxn) Hm]. apply NoDup_cons in Hnd as [Hen Hnd].
    assert (0 < 256 ^ Z.of_nat l) as Hp by (apply Z.pow_pos_nonneg; lia).
    assert (256 ^ Z.of_nat (S l) = 256 * 256 ^ Z.of_nat l) as Hpow.
    { rewrite Nat2Z.inj_succ, Z.pow_succ_r by lia. done. }
    assert (forall B (k : Z -> M (kstate D) B), (read_entry p ≫= k) s = k e s) as Hre
      by (intros B k; by apply bind_ret_eq).
    cbn [locate_block]. rewrite Hre, (proj2 (Z.eqb_neq _ _) He0). mrun.
    rewrite Hpow, (proj2 (Z.eqb_neq _ _)) by lia.
    assert (256 * 256 ^ Z.of_nat l / ENTRY_PER_BLOCK = 256 ^ Z.of_nat l) as ->.
    { change ENTRY_PER_BLOCK with 256. rewrite Z.mul_comm. by apply Z.div_mul. }
    rewrite Hre. destruct (buf_read_ok s H e Hc ltac:(lia) Hx Hxn) as (i & s1 & Hr & H1). mstep ltac:(exact Hr).
    set (b := block (k_dev s) e) in *. set (e' := entry_of b (bn / 256 ^ Z.of_nat l)) in *.
    destruct (IH fuel s1 ((i, e, b) :: H) (in_buf i (bn / 256 ^ Z.of_nat l)) e' (bn mod 256 ^ Z.of_nat l))
      as (s2 & d2 & Hs2 & H2 & Hd2); [apply H1 | | lia | by apply Z.mod_pos_bound | | | | simpl; lia |].
    { cbn [read_entry]. pose proof (buf_data_ok s1 i e b H (fun l0 => word l0 (4 * (bn / 256 ^ Z.of_nat l)) 4)
        mret (be_cache _ _ _ _ _ H1)) as Hd. by rewrite bind_ret_r in Hd. }
    { by rewrite (be_dev _ _ _ _ _ H1). }
    { rewrite (be_dev _ _ _ _ _ H1). eapply Forall_impl_elem; [exact Hm|]. intros x Hxin (? & ? & ?).
      split_and!; [done.. |]. rewrite fmap_cons. apply not_elem_of_cons. split; [|done].
      change (x <> e). intros ->. done. }
    { by rewrite (be_dev _ _ _ _ _ H1). }
    rewrite (be_dev _ _ _ _ _ H1) in Hs2, Hd2. mstep ltac:(exact Hs2).
    destruct (buf_write_ok _ _ _ _ _ (be_cache _ _ _ _ _ H2)) as (s3 & Hs3 & H3). mstep ltac:(exact Hs3).
    destruct (buf_release_ok _ _ _ _ _ (be_cache _ _ _ _ _ H3)) as (s4 & Hs4 & H4). mstep ltac:(exact Hs4).
    exists s4, (put_block d2 e b). split; [done|]. split.
    + rewrite (be_dev _ _ _ _ _ H3), (be_dev _ _ _ _ _ H2) in H4. cbn [locate_cpu].
      pose proof (becomes_trans _ _ _ _ _ _ _ _ _ H1 (becomes_trans _ _ _ _ _ _ _ _ _ H2
        (becomes_trans _ _ _ _ _ _ _ _ _ H3 H4))) as Hb.
      destruct (cache_wf _ _ Hc) as [Hw' _].
      assert (k_cpu s3 = cpu_push (k_cpu s)) as Hcpu3.
      { rewrite (be_cpu _ _ _ _ _ H3), (be_cpu _ _ _ _ _ H2), (be_cpu _ _ _ _ _ H1).
        destruct l; simpl; [done|]. by apply cpu_touch_push_wf. }
      rewrite Hcpu3, (cpu_read_release _ _ Hc) in Hb. exact Hb.
    + transitivity d2; [done|]. unfold b. rewrite <- (Hd2 e). apply put_same.
Qed.

Lemma locate_spec bn l k i : 0 <= bn < 66058 -> locate bn = (l, k, i) ->
  0 <= k < N_ADDRS /\ 0 <= i < 256 ^ Z.of_nat l /\ (l <= 2)%nat.
Proof.
  unfold locate, N_ADDRS, N_ADDRS_1, N_ADDRS_2, N_ADDRS_3. intros Hbn.
  destruct (Z.ltb_spec bn 10); [intros [= <- <- <-]; simpl; lia|].
  destruct (Z.ltb_spec bn 522); intros [= <- <- <-].
  - pose proof (Z.mod_pos_bound (bn - 10) 256 ltac:(lia)). change (256 ^ Z.of_nat 1) with 256.
    assert ((bn - 10) / 256 < 2) by (apply Z.div_lt_upper_bound; lia).
    assert (0 <= (bn - 10) / 256) by (apply Z.div_pos; lia). lia.
  - change (256 ^ Z.of_nat 2) with 65536. lia.
Qed.

(** The largest file: 10 + 2 * 256 + 256 * 256 blocks. *)
Definition MAXBN : Z := 66058.

Definition bmap_cpu (bn : Z) (c : cpu) : cpu := locate_cpu (locate bn).1.1 c.

Lemma inode_locate_ok s H ip n bn :
  cache s H -> inode_of s ip = Some n -> length (d_addrs (i_d n)) = Z.to_nat N_ADDRS -> 0 <= bn < MAXBN ->
  path_ok H (k_dev s) (i_d n) bn -> (length H + 2 < N_BLOCK_BUF)%nat ->
  exists s' d', inode_locate_block ip bn s = Ret (bmap (k_dev s) (i_d n) bn) s' /\
    becomes s d' (bmap_cpu bn (k_cpu s)) H s' /\ same_disk (k_dev s) d'.
Proof.
  intros Hc Hn Hl Hbn (Hw & Hm & Hnd) Hlen. unfold bmap, bmeta, bmap_cpu in *.
  destruct (locate bn) as [[l k] i] eqn:Hloc. destruct (locate_spec _ _ _ _ Hbn Hloc) as (Hk & Hi & Hl2).
  assert (read_entry (in_addrs ip k) s = Ret (addr_of (i_d n) k) s) as Hread.
  { cbn [read_entry]. rewrite (bind_get_inode _ _ _ _ _ Hn). unfold addr_of.
    destruct (lookup_lt_is_Some_2 (d_addrs (i_d n)) (Z.to_nat k)) as [a ->]; [rewrite Hl; lia | done]. }
  destruct (locate_walk l 2 s H (in_addrs ip k) (addr_of (i_d n) k) i Hc Hread Hl2 Hi Hw Hm Hnd ltac:(lia))
    as (s' & d' & Hs' & Hb & Hd).
  exists s', d'. split_and!; [|done..]. rewrite <- Hs'.
  unfold locate in Hloc. unfold inode_locate_block. change N_ADDRS_1 with 10. change (N_ADDRS_2 * ENTRY_PER_BLOCK) with 512.
  change (N_ADDRS_3 * ENTRY_PER_BLOCK * ENTRY_PER_BLOCK) with 65536. change ENTRY_PER_BLOCK with 256.
  unfold MAXBN in Hbn. destruct (Z.ltb_spec bn 10).
  - injection Hloc as <- <- <-. cbn [locate_block]. change (256 ^ Z.of_nat 0 =? 1) with true. done.
  - destruct (Z.ltb_spec bn 522); injection Hloc as <- <- <-.
    + rewrite (proj2 (Z.ltb_lt (bn - 10) 512)) by lia. done.
    + rewrite (proj2 (Z.ltb_ge (bn - 10) 512)), (proj2 (Z.ltb_lt (bn - 10 - 512) 65536)) by lia.
      change (10 + N_ADDRS_2) with 12. change (256 ^ Z.of_nat 2) with (256 * 256).
      by replace (bn - 10 - 512) with (bn - 522) by lia.
Qed.

(** *** The bytes of a file *)

Definition file_byte (d : D) (di : dinode) (o : Z) : Z := byte_at (block d (bmap d di (o / BLOCK_SIZE))) (o mod BLOCK_SIZE).
Definition file_bytes (d : D) (di : dinode) (o n : Z) : list Z := file_byte d di <$> seqZ o n.

Lemma file_bytes_ext d d' di o n : same_disk d d' -> file_bytes d' di o n = file_bytes d di o n.
Proof.
  intros Hd. apply list_fmap_ext. intros i k _. unfold file_byte. by rewrite <- Hd.
Qed.

Lemma slice_bytes l o n : good_data l -> 0 <= o -> 0 <= n -> o + n <= BLOCK_SIZE ->
  slice l o n = byte_at l <$> seqZ o n.
Proof.
  intros Hl Ho Hn Hle. pose proof (length_good _ Hl) as Hlen. apply list_eq. intros k.
  destruct (decide (k < Z.to_nat n)%nat) as [Hk|Hk].
  - rewrite list_lookup_fmap, lookup_seqZ_lt by lia. unfold slice. rewrite lookup_take_lt, lookup_drop by lia.
    simpl. unfold byte_at. destruct (lookup_lt_is_Some_2 l (Z.to_nat o + k)) as [b Hb]; [lia|].
    rewrite Hb. symmetry. f_equal. replace (Z.to_nat (o + Z.of_nat k)) with (Z.to_nat o + k)%nat by lia.
    by apply list_lookup_total_correct.
  - rewrite !lookup_ge_None_2; [done | rewrite length_fmap, length_seqZ; lia | rewrite length_slice by lia; lia].
Qed.

(** A piece of a file inside one block. *)
Lemma file_bytes_block d di o n : 0 <= o -> 0 <= n -> o mod BLOCK_SIZE + n <= BLOCK_SIZE ->
  slice (block d (bmap d di (o / BLOCK_SIZE))) (o mod BLOCK_SIZE) n = file_bytes d di o n.
Proof.
  intros Ho Hn Hle. pose proof (Z.mod_pos_bound o BLOCK_SIZE ltac:(done)) as Hmb.
  rewrite slice_bytes by (try apply good_block; lia). unfold file_bytes.
  apply list_eq. intros k. rewrite !list_lookup_fmap. destruct (decide (k < Z.to_nat n)%nat) as [Hk|Hk].
  - rewrite !lookup_seqZ_lt by lia. simpl. f_equal. unfold file_byte.
    assert (o + Z.of_nat k = o mod BLOCK_SIZE + Z.of_nat k + (o / BLOCK_SIZE) * BLOCK_SIZE) as ->
      by (pose proof (Z.div_mod o BLOCK_SIZE ltac:(done)); lia).
    rewrite Z.div_add, Z.mod_add by done. rewrite (Z.div_small (_ + _)), (Z.mod_small (_ + _)) by lia. done.
  - rewrite !lookup_seqZ_ge by lia. done.
Qed.

Lemma file_bytes_app d di o n m : 0 <= n -> 0 <= m ->
  file_bytes d di o (n + m) = file_bytes d di o n ++ file_bytes d di (o + n) m.
Proof. intros. unfold file_bytes. rewrite seqZ_app by done. by rewrite fmap_app. Qed.

Lemma length_file_bytes d di o n : 0 <= n -> Z.of_nat (length (file_bytes d di o n)) = n.
Proof. intros. unfold file_bytes. rewrite length_fmap, length_seqZ. lia. Qed.

(** *** Reading *)

Lemma frame_set_mem s s' m : frame s s' -> frame (set_k_mem m s) (set_k_mem m s').
Proof. destruct s, s'. unfold frame, set_k_cpu, set_k_mem; simpl. congruence. Qed.

Lemma becomes_set_mem s d c H s' m : becomes s d c H s' -> becomes (set_k_mem m s) d c H (set_k_mem m s').
Proof. intros [Hf ? ? Hc]. split; [by apply frame_set_mem | done..|]. by apply (cache_ext s'). Qed.

Lemma k_mem_frame s s' : frame s s' -> k_mem s' = k_mem s.
Proof. by intros ->. Qed.

(** The file blocks of the bytes [o, o + n) can be reached and read. *)
Definition readable (H : list hbuf) (d : D) (di : dinode) (o n : Z) : Prop :=
  forall bn, o / BLOCK_SIZE <= bn -> bn * BLOCK_SIZE < o + n ->
    0 <= bn < MAXBN /\ path_ok H d di bn /\ blk_ok (bmap d di bn) /\ bmap d di bn ∉ h_blk <$> H.

Lemma readable_ext H d d' di o n : same_disk d d' -> readable H d di o n -> readable H d' di o n.
Proof.
  intros Hd Hr bn H1 H2. destruct (Hr bn H1 H2) as (? & Hp & ? & ?). unfold path_ok in *. by rewrite <- Hd.
Qed.

Lemma readable_tail H d di o n m : 0 <= m <= n -> readable H d di o n -> readable H d di (o + m) (n - m).
Proof.
  intros Hm Hr bn H1 H2. apply Hr; [|lia]. etransitivity; [|exact H1]. apply Z.div_le_mono; [done | lia].
Qed.

(** One iteration: the rest of the block, or of the request. *)
Lemma div_step o n : 0 <= o -> 0 < n ->
  let k := Z.min (BLOCK_SIZE - o mod BLOCK_SIZE) n in
  0 < k <= n /\ o mod BLOCK_SIZE + k <= BLOCK_SIZE /\ (o / BLOCK_SIZE) * BLOCK_SIZE < o + n /\
  forall f, n + o mod BLOCK_SIZE <= BLOCK_SIZE * (f + 1) -> n - k <= 0 \/ n - k + (o + k) mod BLOCK_SIZE <= BLOCK_SIZE * f.
Proof.
  intros Ho Hn k. pose proof (Z.mod_pos_bound o BLOCK_SIZE ltac:(done)) as Hm.
  pose proof (Z.div_mod o BLOCK_SIZE ltac:(done)) as Hdm.
  assert (0 < k <= n) by lia. split_and!; [lia | lia | lia | lia |].
  intros f Hf. destruct (decide (n <= BLOCK_SIZE - o mod BLOCK_SIZE)); [left; lia|right].
  assert (k = BLOCK_SIZE - o mod BLOCK_SIZE) as Hk by lia.
  assert (o + k = 0 + (o / BLOCK_SIZE + 1) * BLOCK_SIZE) as -> by lia. rewrite Z.mod_add by done.
  change (0 mod BLOCK_SIZE) with 0. lia.
Qed.

Definition read_cpu (n : Z) (c : cpu) : cpu := if n <=? 0 then c else cpu_touch c.

Lemma read_loop_ok : forall fuel s H ip n di dst len total offset,
  cache s H -> inode_of s ip = Some n -> i_d n = di -> length (d_addrs di) = Z.to_nat N_ADDRS ->
  readable H (k_dev s) di offset (len - total) -> (length H + 2 < N_BLOCK_BUF)%nat ->
  0 <= total <= len -> len < 2 ^ 32 -> 0 <= offset -> offset + (len - total) < 2 ^ 32 ->
  (len - total <= 0 \/ len - total + offset mod BLOCK_SIZE <= BLOCK_SIZE * Z.of_nat fuel) ->
  exists s' d', read_loop fuel ip dst len total offset s = Ret len s' /\
    becomes (set_k_mem (write_bytes (k_mem s) (dst + total) (file_bytes (k_dev s) di offset (len - total))) s)
      d' (read_cpu (len - total) (k_cpu s)) H s' /\ same_disk (k_dev s) d'.
Proof.
  induction fuel as [|fuel IH]; intros s H ip n di dst len total offset Hc Hn Hdi Hl Hr Hlen Ht Hlen32 Ho Ho32 Hf.
  { pose proof (Z.mod_pos_bound offset BLOCK_SIZE ltac:(done)). assert (len = total) as -> by lia.
    exists s, (k_dev s). cbn [read_loop]. rewrite Z.leb_refl, Z.sub_diag. split_and!; [done | | done].
    unfold file_bytes. rewrite seqZ_nil by lia. apply becomes_refl in Hc. by destruct s. }
  cbn [read_loop]. destruct (Z.leb_spec len total) as [Hle|Hlt].
  { assert (len = total) as -> by lia. exists s, (k_dev s). rewrite Z.sub_diag. split_and!; [done | | done].
    unfold file_bytes. rewrite seqZ_nil by lia. apply becomes_refl in Hc. by destruct s. }
  destruct (div_step offset (len - total) Ho ltac:(lia)) as (Hk & Hfit & Hin & Hnext).
  set (k := Z.min (BLOCK_SIZE - offset mod BLOCK_SIZE) (len - total)) in *.
  destruct (Hr (offset / BLOCK_SIZE)) as (Hbn & Hp & Hx & Hxn); [lia | lia |].
  destruct (inode_locate_ok s H ip n (offset / BLOCK_SIZE) Hc Hn) as (s1 & d1 & Hs1 & H1 & Hd1); [by rewrite Hdi | done | by rewrite Hdi | done |].
  rewrite Hdi in Hs1. mstep ltac:(exact Hs1). set (x := bmap (k_dev s) di (offset / BLOCK_SIZE)) in *.
  destruct (buf_read_ok s1 H x (be_cache _ _ _ _ _ H1) ltac:(lia) Hx Hxn) as (i & s2 & Hs2 & H2). mstep ltac:(exact Hs2).
  rewrite (buf_data_ok _ _ _ _ _ (fun l => slice l (offset mod BLOCK_SIZE) k) _ (be_cache _ _ _ _ _ H2)). mrun.
  rewrite (be_dev _ _ _ _ _ H1) in H2. rewrite (be_dev _ _ _ _ _ H1), (Hd1 x).
  unfold x at 1. rewrite file_bytes_block by lia. unfold mem_put. mrun.
  set (l1 := file_bytes (k_dev s) di offset k). set (m1 := write_bytes (k_mem s2) (dst + total) l1).
  pose proof (becomes_set_mem _ _ _ _ _ m1 H2) as H2'.
  destruct (buf_release_ok _ _ _ _ _ (be_cache _ _ _ _ _ H2')) as (s3 & Hs3 & H3). mstep ltac:(exact Hs3).
  rewrite !u32_small by lia.
  pose proof (becomes_set_mem _ _ _ _ _ m1 H1) as H1'.
  pose proof (becomes_trans _ _ _ _ _ _ _ _ _ H1' (becomes_trans _ _ _ _ _ _ _ _ _ H2' H3)) as Hb.
  change (k_dev (set_k_mem m1 s2)) with (k_dev s2) in Hb. change (k_cpu (set_k_mem m1 s2)) with (k_cpu s2) in Hb.
  rewrite (be_dev _ _ _ _ _ H2), (be_cpu _ _ _ _ _ H2), (cpu_read_release _ _ (be_cache _ _ _ _ _ H1)),
    (be_cpu _ _ _ _ _ H1) in Hb.
  assert (inode_of s3 ip = Some n) as Hn3 by (by rewrite (inode_of_frame _ _ _ (be_frame _ _ _ _ _ Hb))).
  assert (k_mem s2 = k_mem s) as Hm2 by (rewrite (k_mem_frame _ _ (be_frame _ _ _ _ _ H2)); apply k_mem_frame, H1).
  assert (k_mem s3 = m1) as Hm3 by (by rewrite (k_mem_frame _ _ (be_frame _ _ _ _ _ Hb))).
  destruct (IH s3 H ip n di dst len (total + k) (offset + k)) as (s4 & d4 & Hs4 & H4 & Hd4);
    [apply Hb | done | done | done | | done | lia | done | lia | lia | |].
  { rewrite (be_dev _ _ _ _ _ Hb). eapply readable_ext; [exact Hd1|].
    replace (len - (total + k)) with (len - total - k) by lia. apply readable_tail; [lia | done]. }
  { replace (len - (total + k)) with (len - total - k) by lia. apply Hnext. lia. }
  exists s4, d4. rewrite (be_dev _ _ _ _ _ Hb), Hm3, (file_bytes_ext _ _ _ _ _ Hd1) in H4.
  rewrite (be_dev _ _ _ _ _ Hb) in Hd4.
  split_and!; [exact Hs4 | | by transitivity d1].
  assert (k_cpu s3 = cpu_touch (k_cpu s)) as Hcpu3.
  { rewrite (be_cpu _ _ _ _ _ Hb). unfold bmap_cpu. destruct (locate _).1.1; simpl; [done | apply cpu_touch_idemp]. }
  assert (read_cpu (len - (total + k)) (k_cpu s3) = read_cpu (len - total) (k_cpu s)) as Hcpu.
  { rewrite Hcpu3. unfold read_cpu. rewrite (proj2 (Z.leb_gt (len - total) 0)) by lia.
    destruct (_ <=? 0); [done | apply cpu_touch_idemp]. }
  rewrite Hcpu in H4.
  assert (write_bytes (k_mem s) (dst + total) (file_bytes (k_dev s) di offset (len - total))
    = write_bytes m1 (dst + (total + k)) (file_bytes (k_dev s) di (offset + k) (len - (total + k)))) as ->.
  { replace (len - total) with (k + (len - (total + k))) by lia. rewrite file_bytes_app by lia.
    rewrite write_bytes_app, length_file_bytes by lia. unfold m1, l1. rewrite Hm2. f_equal. lia. }
  eapply becomes_trans; [|exact H4]. exact (becomes_set_mem _ _ _ _ _ _ Hb).
Qed.

Lemma loop_fuel_enough len offset : 0 <= len -> 0 <= offset ->
  len <= 0 \/ len + offset mod BLOCK_SIZE <= BLOCK_SIZE * Z.of_nat (loop_fuel len).
Proof.
  intros Hl Ho. right. unfold loop_fuel. pose proof (Z.mod_pos_bound offset BLOCK_SIZE ltac:(done)).
  pose proof (Z.mod_pos_bound len BLOCK_SIZE ltac:(done)). pose proof (Z.div_mod len BLOCK_SIZE ltac:(done)).
  assert (0 <= len / BLOCK_SIZE) by (apply Z.div_pos; [lia | done]). rewrite Z2Nat.id by lia. lia.
Qed.

(** *** Writing inside the file *)

(** File blocks [lo, hi) exist, can be reached, are distinct, and none of them is a
    metadata block of the file. *)
Record layout (H : list hbuf) (d : D) (di : dinode) (lo hi : Z) : Prop := {
  ly_path : forall bn, lo <= bn < hi -> 0 <= bn < MAXBN /\ path_ok H d di bn;
  ly_data : forall bn, lo <= bn < hi -> 0 <= bmap d di bn < 2 ^ 31 /\ bmap d di bn ∉ h_blk <$> H;
  ly_meta : forall bn, lo <= bn < hi -> Forall (fun x => 0 <= x < 2 ^ 31) (bmeta d di bn);
  ly_inj : forall bn bn', lo <= bn < hi -> lo <= bn' < hi -> bmap d di bn = bmap d di bn' -> bn = bn';
  ly_sep : forall bn bn', lo <= bn < hi -> lo <= bn' < hi -> bmap d di bn ∉ bmeta d di bn'
}.

Lemma layout_same H d d' di lo hi : same_disk d d' -> layout H d di lo hi -> layout H d' di lo hi.
Proof.
  intros Hd [Hp Hda Hm Hi Hs]. split.
  - intros bn Hbn. destruct (Hp bn Hbn) as [? (? & ? & ?)]. unfold path_ok. rewrite <- Hd. done.
  - intros bn Hbn. rewrite <- Hd. by apply Hda.
  - intros bn Hbn. rewrite <- Hd. by apply Hm.
  - intros bn bn' H1 H2. rewrite <- Hd. by apply Hi.
  - intros bn bn' H1 H2. rewrite <- Hd. by apply Hs.
Qed.

Lemma layout_readable H d di lo hi o n :
  layout H d di lo hi -> lo <= o / BLOCK_SIZE -> o + n <= hi * BLOCK_SIZE -> readable H d di o n.
Proof.
  intros Hl Hlo Hhi bn H1 H2. assert (lo <= bn < hi) as Hbn by (unfold BLOCK_SIZE in *; lia).
  destruct (ly_path _ _ _ _ _ Hl bn Hbn) as [? ?]. destruct (ly_data _ _ _ _ _ Hl bn Hbn) as [? ?].
  split_and!; first [done | lia | unfold blk_ok, BLOCK_NUM_UNUSED; lia].
Qed.

(** Writing a data block of the file. *)
Lemma layout_put H d di lo hi bn l :
  layout H d di lo hi -> lo <= bn < hi -> good_data l ->
  let d' := put_block d (bmap d di bn) l in
  layout H d' di lo hi /\
  forall o, lo <= o / BLOCK_SIZE < hi ->
    file_byte d' di o = if decide (o / BLOCK_SIZE = bn) then byte_at l (o mod BLOCK_SIZE) else file_byte d di o.
Proof.
  intros Hl Hbn [Hg1 Hg2] d'. destruct (ly_data _ _ _ _ _ Hl bn Hbn) as [Hx _].
  assert (forall bn', lo <= bn' < hi -> bmap d' di bn' = bmap d di bn' /\ bmeta d' di bn' = bmeta d di bn') as Hsame.
  { intros bn' Hbn'. apply bmap_frame. intros x Hxin. apply block_put_ne; [done | |].
    - by apply (Forall_elem _ _ _ (ly_meta _ _ _ _ _ Hl bn' Hbn')).
    - intros <-. by apply (ly_sep _ _ _ _ _ Hl bn bn' Hbn Hbn'). }
  split.
  - destruct Hl as [Hp Hda Hm Hi Hs]. split.
    + intros bn' Hb. destruct (Hsame bn' Hb) as [E1 E2]. unfold path_ok. rewrite E1, E2. by apply Hp.
    + intros bn' Hb. destruct (Hsame bn' Hb) as [E1 E2]. rewrite E1. by apply Hda.
    + intros bn' Hb. destruct (Hsame bn' Hb) as [E1 E2]. rewrite E2. by apply Hm.
    + intros b1 b2 Hb1 Hb2. destruct (Hsame b1 Hb1) as [-> _], (Hsame b2 Hb2) as [-> _]. by apply Hi.
    + intros b1 b2 Hb1 Hb2. destruct (Hsame b1 Hb1) as [-> _], (Hsame b2 Hb2) as [_ ->]. by apply Hs.
  - intros o Ho. unfold file_byte. destruct (Hsame _ Ho) as [-> _]. case_decide as He.
    + rewrite He. unfold d'. by rewrite block_put_eq.
    + unfold d'. rewrite block_put_ne; [done | done | by apply (ly_data _ _ _ _ _ Hl) |].
      intros Heq. apply He. symmetry. by apply (ly_inj _ _ _ _ _ Hl).
Qed.

Lemma byte_at_blit l o src j : good_data l -> 0 <= o -> o + Z.of_nat (length src) <= BLOCK_SIZE -> 0 <= j < BLOCK_SIZE ->
  byte_at (blit l o src) j = if decide (o <= j < o + Z.of_nat (length src)) then byte_at src (j - o) else byte_at l j.
Proof. intros Hl Ho Hle Hj. pose proof (length_good _ Hl) as Hlen. apply byte_at_blit_len; lia. Qed.

Lemma length_mem_get (m : mem) a n : 0 <= n -> Z.of_nat (length (read_bytes m a (Z.to_nat n))) = n.
Proof. intros. rewrite length_read_bytes. lia. Qed.

Lemma byte_at_read (m : mem) a n j : 0 <= j < n -> byte_at (read_bytes m a (Z.to_nat n)) j = load8 m (a + j).
Proof.
  intros Hj. unfold byte_at. apply list_lookup_total_correct. rewrite read_bytes_lookup by lia. do 2 f_equal. lia.
Qed.

(** The file after writing [n] bytes of memory from [src] at [o]. *)
Definition written (d : D) (di : dinode) (lo hi o n : Z) (m : mem) (src : Z) (d' : D) : Prop :=
  forall o', lo <= o' / BLOCK_SIZE < hi ->
    file_byte d' di o' = if decide (o <= o' < o + n) then load8 m (src + (o' - o)) else file_byte d di o'.

Lemma write_loop_ok : forall fuel s H ip n di lo hi src len total offset,
  cache s H -> inode_of s ip = Some n -> i_d n = di -> length (d_addrs di) = Z.to_nat N_ADDRS ->
  layout H (k_dev s) di lo hi -> lo <= offset / BLOCK_SIZE -> offset + (len - total) <= hi * BLOCK_SIZE ->
  (length H + 2 < N_BLOCK_BUF)%nat ->
  0 <= total <= len -> len < 2 ^ 32 -> 0 <= offset -> offset + (len - total) < 2 ^ 32 ->
  (len - total <= 0 \/ len - total + offset mod BLOCK_SIZE <= BLOCK_SIZE * Z.of_nat fuel) ->
  exists s' d', write_loop fuel ip src len total offset s = Ret (len, offset + (len - total)) s' /\
    becomes s d' (read_cpu (len - total) (k_cpu s)) H s' /\ layout H d' di lo hi /\
    written (k_dev s) di lo hi offset (len - total) (k_mem s) (src + total) d'.
Proof.
  induction fuel as [|fuel IH]; intros s H ip n di lo hi src len total offset Hc Hn Hdi Hl Hly Hlo Hhi Hlen Ht Hlen32 Ho Ho32 Hf.
  all: assert (len = total -> exists s' d', Ret (len, offset + (len - total)) s = Ret (len, offset + (len - total)) s' /\
    becomes s d' (read_cpu (len - total) (k_cpu s)) H s' /\ layout H d' di lo hi /\
    written (k_dev s) di lo hi offset (len - total) (k_mem s) (src + total) d') as Hdone.
  1, 3: intros ->; exists s, (k_dev s); rewrite Z.sub_diag; split_and!; [done | by apply becomes_refl | done |];
    intros o' _; by rewrite decide_False by lia.
  { pose proof (Z.mod_pos_bound offset BLOCK_SIZE ltac:(done)). assert (len = total) as He by lia.
    destruct (Hdone He) as (s' & d' & Hs' & ?). exists s', d'. split; [|done]. rewrite <- Hs'.
    cbn [write_loop]. rewrite (proj2 (Z.leb_le _ _)) by lia. rewrite He, Z.sub_diag, Z.add_0_r. done. }
  cbn [write_loop]. destruct (Z.leb_spec len total) as [Hle|Hlt].
  { assert (len = total) as He by lia. destruct (Hdone He) as (s' & d' & Hs' & ?). exists s', d'. split; [|done].
    rewrite <- Hs'. rewrite He, Z.sub_diag, Z.add_0_r. done. }
  clear Hdone. destruct (div_step offset (len - total) Ho ltac:(lia)) as (Hk & Hfit & Hin & Hnext).
  set (k := Z.min (BLOCK_SIZE - offset mod BLOCK_SIZE) (len - total)) in *. set (bn := offset / BLOCK_SIZE) in *.
  assert (lo <= bn < hi) as Hbn by (unfold BLOCK_SIZE in *; lia).
  destruct (ly_path _ _ _ _ _ Hly bn Hbn) as [Hbnr Hp]. destruct (ly_data _ _ _ _ _ Hly bn Hbn) as [Hx Hxn].
  destruct (inode_locate_ok s H ip n bn Hc Hn) as (s1 & d1 & Hs1 & H1 & Hd1); [by rewrite Hdi | done | by rewrite Hdi | done |].
  rewrite Hdi in Hs1. mstep ltac:(exact Hs1). set (x := bmap (k_dev s) di bn) in *.
  assert (blk_ok x) as Hxb by (unfold blk_ok, BLOCK_NUM_UNUSED; lia).
  destruct (buf_read_ok s1 H x (be_cache _ _ _ _ _ H1) ltac:(lia) Hxb Hxn) as (i & s2 & Hs2 & H2). mstep ltac:(exact Hs2).
  rewrite (be_dev _ _ _ _ _ H1) in H2. unfold mem_get. mrun. assert (k_mem s2 = k_mem s) as Hm2
    by (rewrite (k_mem_frame _ _ (be_frame _ _ _ _ _ H2)); apply k_mem_frame, H1). rewrite Hm2.
  set (bytes := read_bytes (k_mem s) (src + total) (Z.to_nat k)).
  assert (Z.of_nat (length bytes) = k) as Hbl by (apply length_mem_get; lia).
  pose proof (Z.mod_pos_bound offset BLOCK_SIZE ltac:(done)) as Hmb.
  set (l' := blit (block d1 x) (offset mod BLOCK_SIZE) bytes).
  assert (good_data l') as Hl' by (apply good_blit; [apply good_block | apply is_bytes_read_bytes | lia | lia]).
  destruct (upd_data_ok _ _ _ _ (fun l => blit l (offset mod BLOCK_SIZE) bytes) _ (be_cache _ _ _ _ _ H2) Hl')
    as (s3 & Hs3 & H3). mstep ltac:(exact Hs3).
  destruct (buf_write_ok _ _ _ _ _ (be_cache _ _ _ _ _ H3)) as (s4 & Hs4 & H4). mstep ltac:(exact Hs4).
  destruct (buf_release_ok _ _ _ _ _ (be_cache _ _ _ _ _ H4)) as (s5 & Hs5 & H5). mstep ltac:(exact Hs5).
  rewrite !u32_small by lia.
  pose proof (becomes_trans _ _ _ _ _ _ _ _ _ H1 (becomes_trans _ _ _ _ _ _ _ _ _ H2
    (becomes_trans _ _ _ _ _ _ _ _ _ H3 (becomes_trans _ _ _ _ _ _ _ _ _ H4 H5)))) as Hb.
  rewrite (be_dev _ _ _ _ _ H4), (be_dev _ _ _ _ _ H3), (be_dev _ _ _ _ _ H2),
    (be_cpu _ _ _ _ _ H4), (be_cpu _ _ _ _ _ H3), (be_cpu _ _ _ _ _ H2),
    (cpu_read_release _ _ (be_cache _ _ _ _ _ H1)), (be_cpu _ _ _ _ _ H1) in Hb.
  change (blit (block d1 x) (offset mod BLOCK_SIZE) bytes) with l' in Hb.
  pose proof (layout_same _ _ _ _ _ _ Hd1 Hly) as Hly1.
  destruct (layout_put H d1 di lo hi bn l' Hly1 Hbn Hl') as [Hly2 Hby].
  assert (bmap d1 di bn = x) as Hx1 by (unfold x; by rewrite <- Hd1). rewrite Hx1 in Hly2, Hby.
  set (d2 := put_block d1 x l') in *.
  destruct (IH s5 H ip n di lo hi src len (total + k) (offset + k)) as (s6 & d6 & Hs6 & H6 & Hly6 & Hw6);
    [apply Hb | by rewrite (inode_of_frame _ _ _ (be_frame _ _ _ _ _ Hb)) | done | done | by rewrite (be_dev _ _ _ _ _ Hb)
    | | lia | done | lia | done | lia | lia | |].
  { etransitivity; [exact (proj1 Hbn)|]. apply Z.div_le_mono; [done | lia]. }
  { replace (len - (total + k)) with (len - total - k) by lia. apply Hnext. lia. }
  exists s6, d6. replace (offset + k + (len - (total + k))) with (offset + (len - total)) in Hs6 by lia.
  split_and!; [exact Hs6 | | done |].
  - eapply becomes_trans; [exact Hb|].
    assert (read_cpu (len - (total + k)) (k_cpu s5) = read_cpu (len - total) (k_cpu s)) as <-; [|exact H6].
    rewrite (be_cpu _ _ _ _ _ Hb). unfold read_cpu, bmap_cpu. rewrite (proj2 (Z.leb_gt (len - total) 0)) by lia.
    destruct (locate bn).1.1; simpl; destruct (_ <=? 0); rewrite ?cpu_touch_idemp; done.
  - intros o' Ho'. rewrite Hw6 by done. rewrite (k_mem_frame _ _ (be_frame _ _ _ _ _ Hb)), (be_dev _ _ _ _ _ Hb).
    rewrite Hby by done. pose proof (Z.mod_pos_bound o' BLOCK_SIZE ltac:(done)) as Hom.
    pose proof (Z.div_mod o' BLOCK_SIZE ltac:(done)) as Hod. pose proof (Z.div_mod offset BLOCK_SIZE ltac:(done)) as Hdo. fold bn in Hdo.
    destruct (decide (offset + k <= o' < offset + k + (len - (total + k)))) as [Hi1|Hi1].
    { rewrite decide_True by lia. f_equal. lia. }
    destruct (decide (o' / BLOCK_SIZE = bn)) as [Hob|Hob].
    + unfold l'. rewrite byte_at_blit by (apply good_block || lia). rewrite Hbl.
      destruct (decide (offset mod BLOCK_SIZE <= o' mod BLOCK_SIZE < offset mod BLOCK_SIZE + k)) as [Hi2|Hi2].
      * rewrite decide_True by lia. unfold bytes. rewrite byte_at_read by lia. f_equal. lia.
      * rewrite decide_False by lia. unfold file_byte. rewrite Hob. fold x.
        by rewrite (Hd1 x).
    + assert (~ (offset <= o' < offset + k)) by (clear - Hob Hfit Hod Hdo Hom Hmb; unfold BLOCK_SIZE in *; lia).
      rewrite decide_False by lia. unfold file_byte. rewrite <- Hd1. done.
Qed.

(** *** Freeing the direct blocks *)

(** The bitmap after the blocks [addrs] were given back. *)
Definition cleared (base : Z) (l : list Z) (addrs : list Z) : list Z :=
  foldl (fun l a => if a =? 0 then l else clear_bit l (a - base)) l addrs.

(** Addresses of data blocks, or 0. *)
Definition data_addr (sb : super_block) (a : Z) : Prop :=
  a = 0 \/ (data_start sb < a < data_start sb + NBITS /\ a < 2 ^ 32).

Lemma good_cleared base l addrs : good_data l -> good_data (cleared base l addrs).
Proof.
  revert l; induction addrs as [|a addrs IH]; intros l Hl; [done|]. cbn [cleared foldl].
  apply IH. destruct (a =? 0); [done | by apply good_clear_bit].
Qed.

Lemma bit_cleared sb l addrs m : good_data l -> 0 <= data_start sb -> Forall (data_addr sb) addrs -> 0 <= m < NBITS ->
  bit (cleared (data_start sb) l addrs) m = bit l m && negb (existsb (fun a => negb (a =? 0) && (a - data_start sb =? m)) addrs).
Proof.
  intros Hl H0 Ha Hm. revert l Hl. induction Ha as [|a addrs Ha Has IH]; intros l Hl; [by rewrite andb_true_r|].
  change (cleared (data_start sb) l (a :: addrs))
    with (cleared (data_start sb) (if a =? 0 then l else clear_bit l (a - data_start sb)) addrs).
  cbn [existsb]. destruct (Z.eqb_spec a 0) as [->|Hne].
  - rewrite IH by done. done.
  - destruct Ha as [|Ha]; [done|]. rewrite IH by (by apply good_clear_bit). rewrite bit_clear_bit by (done || lia).
    rewrite (Z.eqb_sym (a - data_start sb) m). destruct (m =? a - data_start sb); simpl; [by rewrite andb_false_r | done].
Qed.

Definition zero_prefix (k : nat) (l : list Z) : list Z := replicate k 0 ++ drop k l.

(** One iteration of the loop over the direct entries. *)
Lemma free_addr_direct s H ip n k a :
  cache s H -> inode_of s ip = Some n -> can_read s H (data_bitmap_start (k_sb s)) ->
  d_addrs (i_d n) !! Z.to_nat k = Some a -> data_addr (k_sb s) a -> 0 <= data_start (k_sb s) ->
  exists s', free_addr ip 0 k s = Ret tt s' /\
    let n' := set_i_d (set_d_addrs (<[Z.to_nat k := 0]> (d_addrs (i_d n))) (i_d n)) n in
    let bm := data_bitmap_start (k_sb s) in
    exists d', steps s s' (ic_put ip n' (k_ic s)) d' (if a =? 0 then k_cpu s else cpu_touch (k_cpu s)) H /\
      block d' bm = cleared (data_start (k_sb s)) (block (k_dev s) bm) [a] /\
      (forall x, 0 <= x < 2 ^ 31 -> 0 <= bm < 2 ^ 31 -> x <> bm -> block d' x = block (k_dev s) x).
Proof.
  intros Hc Hn Hr Ha Hda H0. unfold free_addr. set (n' := set_i_d _ n).
  assert (read_entry (in_addrs ip k) s = Ret a s) as Hre.
  { cbn [read_entry]. by rewrite (bind_get_inode _ _ _ _ _ Hn), Ha. }
  rewrite (bind_ret_eq _ _ _ _ _ Hre). destruct (Z.eqb_spec a 0) as [->|Hne].
  - cbn [negb when]. exists s. split; [done|]. exists (k_dev s). split_and!; [|done..].
    assert (ic_put ip n' (k_ic s) = k_ic s) as ->.
    { unfold ic_put, n'. rewrite (list_insert_id (d_addrs (i_d n)) _ _ Ha). destruct (k_ic s) as [l lk] eqn:Hic, n as [[] ? ? ? ?]. unfold set_inodes.
      simpl. f_equal. apply list_insert_id. by rewrite (inode_of_ic _ _ _ Hic) in Hn. }
    by apply becomes_steps, becomes_refl.
  - cbn [negb when data_free]. rewrite (proj2 (Z.eqb_neq _ _) Hne). destruct Hda as [|[Hlo Hhi]]; [done|].
    destruct (free_block_ok s H (a - data_start (k_sb s)) Hr H0) as (s1 & Hs1 & H1); [lia | lia |].
    replace (data_start (k_sb s) + (a - data_start (k_sb s))) with a in Hs1 by lia. mrun.
    rewrite kassert_true by done. mstep ltac:(exact Hs1).
    rewrite <- (inode_of_frame s s1) in Hn by apply H1. cbn [write_entry].
    rewrite (upd_dinode_eq _ _ _ _ Hn). fold n'. eexists. split; [done|].
    pose proof (becomes_put_inode _ _ _ _ _ ip n' H1) as H2.
    eexists. split_and!; [by apply becomes_put_steps; exact H2 | |].
    + cbn [cleared foldl]. rewrite (proj2 (Z.eqb_neq _ _) Hne).
      destruct (good_clear_bit (block (k_dev s) (data_bitmap_start (k_sb s))) (a - data_start (k_sb s)) (good_block _ _)).
      by rewrite block_put_eq.
    + intros x Hx Hb Hxb. by rewrite block_put_ne.
Qed.

Lemma free_loop_direct : forall (todo : list Z) (k : nat) s H ip n,
  cache s H -> inode_of s ip = Some n -> can_read s H (data_bitmap_start (k_sb s)) -> 0 <= data_start (k_sb s) ->
  Forall (data_addr (k_sb s)) todo -> drop k (d_addrs (i_d n)) = todo ++ drop (k + length todo) (d_addrs (i_d n)) ->
  (k + length todo <= length (d_addrs (i_d n)))%nat ->
  exists s' c, for_each (Z.of_nat <$> seq k (length todo)) (free_addr ip 0) s = Ret tt s' /\
    let ads := take k (d_addrs (i_d n)) ++ replicate (length todo) 0 ++ drop (k + length todo) (d_addrs (i_d n)) in
    let bm := data_bitmap_start (k_sb s) in
    exists d', steps s s' (ic_put ip (set_i_d (set_d_addrs ads (i_d n)) n) (k_ic s)) d' c H /\
      cpu_touch c = cpu_touch (k_cpu s) /\
      block d' bm = cleared (data_start (k_sb s)) (block (k_dev s) bm) todo /\
      (forall x, 0 <= x < 2 ^ 31 -> 0 <= bm < 2 ^ 31 -> x <> bm -> block d' x = block (k_dev s) x).
Proof.
  induction todo as [|a todo IH]; intros k s H ip n Hc Hn Hr H0 Ha Hd Hl.
  - exists s, (k_cpu s). split; [done|]. exists (k_dev s). simpl. rewrite Nat.add_0_r, take_drop.
    split_and!; [|done..].
    assert (ic_put ip (set_i_d (set_d_addrs (d_addrs (i_d n)) (i_d n)) n) (k_ic s) = k_ic s) as ->.
    { unfold ic_put. destruct (k_ic s) as [l lk] eqn:Hic, n as [[] ? ? ? ?]. unfold set_inodes.
      simpl. f_equal. apply list_insert_id. by rewrite (inode_of_ic _ _ _ Hic) in Hn. }
    by apply becomes_steps, becomes_refl.
  - apply list.Forall_cons in Ha as [Ha Has]. simpl in Hl, Hd.
    assert (d_addrs (i_d n) !! k = Some a) as Hka.
    { rewrite <- (Nat.add_0_r k), <- lookup_drop, Hd. done. }
    destruct (free_addr_direct s H ip n (Z.of_nat k) a Hc Hn Hr) as (s1 & Hs1 & d1 & H1 & Hb1 & Hx1);
      [by rewrite Nat2Z.id | done | done |].
    rewrite Nat2Z.id in H1. set (n1 := set_i_d _ n) in H1.
    assert (inode_of s1 ip = Some n1) as Hn1.
    { rewrite (inode_of_ic _ _ _ (st_ic _ _ _ _ _ _ H1)). apply ic_put_lookup. by eapply inode_of_lt. }
    assert (k_sb s1 = k_sb s) as Hsb by apply k_sb_frame_ic, H1.
    assert (length (d_addrs (i_d n1)) = length (d_addrs (i_d n))) as Hl1 by apply length_insert.
    assert (drop (S k) (d_addrs (i_d n1)) = drop (S k) (d_addrs (i_d n))) as Hdr by (by apply drop_insert_lt; lia).
    destruct (IH (S k) s1 H ip n1) as (s2 & c & Hs2 & d2 & H2 & Hcpu & Hb2 & Hx2).
    { apply H1. } { done. } { rewrite Hsb. by eapply can_read_steps. } { by rewrite Hsb. } { by rewrite Hsb. }
    { rewrite Hdr. rewrite (drop_S _ a k Hka) in Hd. injection Hd as Hd. rewrite Hd at 1. f_equal.
      cbn [i_d n1 set_i_d d_addrs set_d_addrs]. rewrite drop_insert_lt by lia. f_equal. lia. }
    { rewrite Hl1. lia. }
    exists s2, c. cbn [length seq fmap list_fmap for_each]. split; [by mstep ltac:(exact Hs1)|].
    exists d2. rewrite Hsb, (st_dev _ _ _ _ _ _ H1) in *. rewrite Hb1 in Hb2.
    assert (cpu_touch c = cpu_touch (k_cpu s)) as Hc'.
    { rewrite Hcpu, (st_cpu _ _ _ _ _ _ H1). destruct (a =? 0); [done | apply cpu_touch_idemp]. }
    split_and!; [| done | exact Hb2 | intros x ? ? ?; rewrite Hx2, Hx1; done].
    pose proof (steps_trans _ _ _ _ _ _ _ _ _ _ _ H1 H2) as H12.
    rewrite (st_ic _ _ _ _ _ _ H1), ic_put_twice in H12.
    assert (set_i_d (set_d_addrs (take (S k) (d_addrs (i_d n1)) ++ replicate (length todo) 0 ++
        drop (S k + length todo) (d_addrs (i_d n1))) (i_d n1)) n1
      = set_i_d (set_d_addrs (take k (d_addrs (i_d n)) ++ replicate (S (length todo)) 0 ++
        drop (k + S (length todo)) (d_addrs (i_d n))) (i_d n)) n) as He; [|by rewrite He in H12].
    assert (take (S k) (d_addrs (i_d n1)) = take k (d_addrs (i_d n)) ++ [0]) as ->.
    { cbn [i_d n1 set_i_d d_addrs set_d_addrs]. rewrite (take_S_r _ _ 0) by (apply list_lookup_insert_eq; lia).
      by rewrite take_insert_ge by lia. }
    assert (drop (S k + length todo) (d_addrs (i_d n1)) = drop (k + S (length todo)) (d_addrs (i_d n))) as ->.
    { cbn [i_d n1 set_i_d d_addrs set_d_addrs]. rewrite drop_insert_lt by lia. f_equal. lia. }
    rewrite <- app_assoc. done.
Qed.

End Locate.
