(* ===== verification/InodeDataSpec.v ===== *)
(** * InodeDataSpec: what the inode layer promises about file contents *)

From S2P Require Import Prelude Bytes Spinlock Kernel Disk Buf BufSpec Bitmap BitmapSpec Inode InodeMeta InodeSpec InodeData.

Section Spec.
Context {D : Type} `{!BlockDev D, !BlockDevLaws D, !DiskDriver D, !DiskDriverOk D}.
Implicit Types (s : kstate D) (H : list hbuf) (ip : nat).

(** C9: where file block [bn] exists, [inode_locate_block], with its recursion
    over indirect blocks, computes the reference mapping: the entry [bn] of
    [addrs], or the entry reached through one or two levels of indirect blocks;
    it terminates, leaves the content of the disk, every buffer and the inode as
    they were, and panics when [bn] is beyond the largest file. *)
Theorem inode_locate_block_maps s H ip n bn :
  cache s H -> inode_of s ip = Some n -> length (d_addrs (i_d n)) = Z.to_nat N_ADDRS -> 0 <= bn < 2 ^ 32 ->
  (bn < MAXBN -> path_ok H (k_dev s) (i_d n) bn -> (length H + 2 < N_BLOCK_BUF)%nat ->
   exists s', inode_locate_block ip bn s = Ret (bmap (k_dev s) (i_d n) bn) s' /\ frame s s' /\
     same_disk (k_dev s) (k_dev s') /\ cache s' H /\ cpu_touch (k_cpu s') = cpu_touch (k_cpu s))
  /\ (MAXBN <= bn -> inode_locate_block ip bn s = Panic "inode_locate_block: bn too large" s).
Proof.
  intros Hc Hn Hl Hbn. split.
  - intros Hmax Hp Hlen. destruct (inode_locate_ok s H ip n bn Hc Hn Hl) as (s' & d' & Hs' & Hb & Hd); [lia | done..|].
    exists s'. split_and!; [done | apply Hb | by rewrite (be_dev _ _ _ _ _ Hb) | apply Hb |].
    rewrite (be_cpu _ _ _ _ _ Hb). unfold bmap_cpu. destruct (locate bn).1.1; simpl; [done | by rewrite cpu_touch_idemp].
  - intros Hmax. unfold inode_locate_block, MAXBN in *. change N_ADDRS_1 with 10.
    change (N_ADDRS_2 * ENTRY_PER_BLOCK) with 512. change (N_ADDRS_3 * ENTRY_PER_BLOCK * ENTRY_PER_BLOCK) with 65536.
    by rewrite (proj2 (Z.ltb_ge bn 10)), (proj2 (Z.ltb_ge (bn - 10) 512)), (proj2 (Z.ltb_ge (bn - 10 - 512) 65536)) by lia.
Qed.

(** The part of the file that is there, without a sum that wraps. *)
Lemma inode_read_inside s H ip n offset len dst user :
  cache s H -> inode_of s ip = Some n -> held_by (hartid (k_cpu s)) (i_slk n) -> dinode_ok (i_d n) ->
  0 <= offset -> 0 <= len -> offset + len < 2 ^ 32 -> (length H + 2 < N_BLOCK_BUF)%nat -> offset < d_size (i_d n) ->
  let m := Z.min len (d_size (i_d n) - offset) in
  readable H (k_dev s) (i_d n) offset m ->
  exists s' d', inode_read_data ip offset len dst user s = Ret m s' /\
    becomes (set_k_mem (write_bytes (k_mem s) dst (file_bytes (k_dev s) (i_d n) offset m)) s) d' (read_cpu m (k_cpu s)) H s' /\
    same_disk (k_dev s) d'.
Proof.
  intros Hc Hn Hh Hok Ho Hlen Hnw HH Hlt m Hr. set (size := d_size (i_d n)) in *. assert (0 <= size < 2 ^ 32) as Hsz by apply Hok.
  unfold inode_read_data. rewrite (holding_inode _ _ _ _ _ Hn Hh), (bind_get_inode _ _ _ _ _ Hn). fold size.
  rewrite (proj2 (Z.leb_gt _ _) Hlt).
  assert ((if size <? u32 (offset + len) then u32 (size - offset) else len) = m) as ->.
  { rewrite u32_small by lia. destruct (Z.ltb_spec size (offset + len)); [rewrite u32_small|]; lia. }
  assert (0 <= m < 2 ^ 32) by lia.
  destruct (read_loop_ok (loop_fuel m) s H ip n (i_d n) dst m 0 offset Hc Hn eq_refl) as (s' & d' & Hs' & Hb & Hd);
    [apply Hok | by rewrite Z.sub_0_r | done | lia | lia | lia | lia | rewrite Z.sub_0_r; apply loop_fuel_enough; lia |].
  rewrite Z.sub_0_r, Z.add_0_r in Hb. by exists s', d'.
Qed.

(** [inode_read_data]: beyond the end it reads nothing; otherwise, when
    [offset + len] does not wrap, it copies to memory exactly the bytes of the file
    from [offset], as many as were asked for and are there, and returns their
    number, leaving the content of the disk as it was; when the sum wraps the
    request is not cut at the end of the file. *)
Theorem inode_read_file s H ip n offset len dst user :
  cache s H -> inode_of s ip = Some n -> held_by (hartid (k_cpu s)) (i_slk n) -> dinode_ok (i_d n) ->
  0 <= offset < 2 ^ 32 -> 0 <= len < 2 ^ 32 -> (length H + 2 < N_BLOCK_BUF)%nat ->
  let size := d_size (i_d n) in
  let m := Z.min len (size - offset) in
  (size <= offset -> inode_read_data ip offset len dst user s = Ret 0 s)
  /\ (offset < size -> offset + len < 2 ^ 32 -> readable H (k_dev s) (i_d n) offset m ->
      exists s', inode_read_data ip offset len dst user s = Ret m s' /\
        k_mem s' = write_bytes (k_mem s) dst (file_bytes (k_dev s) (i_d n) offset m) /\
        same_disk (k_dev s) (k_dev s') /\ cache s' H /\ k_ic s' = k_ic s)
  /\ (offset < size -> 2 ^ 32 <= offset + len -> offset + len - 2 ^ 32 <= size ->
      inode_read_data ip offset len dst user s = read_loop (loop_fuel len) ip dst len 0 offset s).
Proof.
  intros Hc Hn Hh Hok Ho Hlen HH size m. split_and!.
  - intros Hle. unfold inode_read_data. rewrite (holding_inode _ _ _ _ _ Hn Hh), (bind_get_inode _ _ _ _ _ Hn). fold size.
    by rewrite (proj2 (Z.leb_le _ _) Hle).
  - intros Hlt Hnw Hr. destruct (inode_read_inside s H ip n offset len dst user) as (s' & d' & Hs' & Hb & Hd); try done; try lia.
    exists s'. split_and!; [exact Hs' | | by rewrite (be_dev _ _ _ _ _ Hb) | apply Hb |].
    + by rewrite (k_mem_frame _ _ (be_frame _ _ _ _ _ Hb)).
    + by rewrite (be_frame _ _ _ _ _ Hb).
  - intros Hlt Hw Hsm. unfold inode_read_data. rewrite (holding_inode _ _ _ _ _ Hn Hh), (bind_get_inode _ _ _ _ _ Hn). fold size.
    rewrite (proj2 (Z.leb_gt _ _) Hlt). assert (u32 (offset + len) = offset + len - 2 ^ 32) as ->.
    { unfold u32. symmetry. apply (Z.mod_unique _ _ 1); lia. }
    by rewrite (proj2 (Z.ltb_ge _ _) Hsm).
Qed.

(** The inode and the buffers after a write inside the file. *)
Lemma inode_write_inside s H ip n lo hi offset len src user :
  cache s H -> inode_of s ip = Some n -> held_by (hartid (k_cpu s)) (i_slk n) -> dinode_ok (i_d n) ->
  layout H (k_dev s) (i_d n) lo hi -> 0 <= offset -> 0 <= len -> offset + len <= d_size (i_d n) ->
  d_size (i_d n) <= INODE_MAXSIZE -> lo <= offset / BLOCK_SIZE -> offset + len <= hi * BLOCK_SIZE ->
  (length H + 2 < N_BLOCK_BUF)%nat ->
  exists s' d', inode_write_data ip offset len src user s = Ret len s' /\
    becomes s d' (read_cpu len (k_cpu s)) H s' /\ layout H d' (i_d n) lo hi /\
    written (k_dev s) (i_d n) lo hi offset len (k_mem s) src d'.
Proof.
  intros Hc Hn Hh Hok Hly Ho Hl Hsz Hmax Hlo Hhi HH. assert (0 <= d_size (i_d n) < 2 ^ 32) as Hs32 by apply Hok.
  unfold inode_write_data. rewrite (holding_inode _ _ _ _ _ Hn Hh). rewrite u32_small by lia.
  rewrite (proj2 (Z.ltb_ge _ _)) by lia.
  destruct (write_loop_ok (loop_fuel len) s H ip n (i_d n) lo hi src len 0 offset Hc Hn eq_refl)
    as (s' & d' & Hs' & Hb & Hly' & Hw); [apply Hok | done | done | lia | done | lia | lia | lia | lia |
      rewrite Z.sub_0_r; apply loop_fuel_enough; lia |].
  rewrite Z.sub_0_r in Hs', Hb, Hw. rewrite Z.add_0_r in Hw.
  exists s', d'. split_and!; [|done..]. mstep ltac:(exact Hs'). cbv iota.
  rewrite <- (inode_of_frame s s') in Hn by apply Hb. rewrite (bind_get_inode _ _ _ _ _ Hn).
  by rewrite (proj2 (Z.ltb_ge _ _)) by lia.
Qed.

(** C1: [inode_write_data] inside the file replaces exactly the bytes it is asked
    to replace: every other byte of the file's blocks keeps its value, the inode
    and its blocks stay where they are, and [inode_read_data] then reads back what
    was written. *)
Theorem inode_write_read_back s H ip n lo hi offset len src dst user :
  cache s H -> inode_of s ip = Some n -> held_by (hartid (k_cpu s)) (i_slk n) -> dinode_ok (i_d n) ->
  layout H (k_dev s) (i_d n) lo hi -> 0 <= offset -> 0 < len -> offset + len <= d_size (i_d n) ->
  d_size (i_d n) <= INODE_MAXSIZE -> lo <= offset / BLOCK_SIZE -> offset + len <= hi * BLOCK_SIZE ->
  (length H + 2 < N_BLOCK_BUF)%nat ->
  exists s1, inode_write_data ip offset len src user s = Ret len s1 /\
    (forall o, lo <= o / BLOCK_SIZE < hi -> file_byte (k_dev s1) (i_d n) o
       = if decide (offset <= o < offset + len) then load8 (k_mem s) (src + (o - offset)) else file_byte (k_dev s) (i_d n) o) /\
    k_ic s1 = k_ic s /\ k_mem s1 = k_mem s /\ cache s1 H /\
    exists s2, inode_read_data ip offset len dst user s1 = Ret len s2 /\
      k_mem s2 = write_bytes (k_mem s) dst (read_bytes (k_mem s) src (Z.to_nat len)).
Proof.
  intros Hc Hn Hh Hok Hly Ho Hl Hsz Hmax Hlo Hhi HH. assert (0 <= d_size (i_d n) < 2 ^ 32) as Hs32 by apply Hok.
  destruct (inode_write_inside s H ip n lo hi offset len src user Hc Hn Hh Hok Hly Ho ltac:(lia) Hsz Hmax Hlo Hhi HH)
    as (s1 & d1 & Hs1 & Hb & Hly1 & Hw).
  pose proof (be_frame _ _ _ _ _ Hb) as Hf. pose proof (k_mem_frame _ _ Hf) as Hm.
  exists s1. rewrite (be_dev _ _ _ _ _ Hb). split_and!; [done | exact Hw | by rewrite Hf | done | apply Hb |].
  rewrite <- (inode_of_frame s s1) in Hn by done.
  destruct (inode_read_file s1 H ip n offset len dst user (be_cache _ _ _ _ _ Hb) Hn) as (_ & Hr & _);
    [| done | lia | lia | done |].
  { rewrite (be_cpu _ _ _ _ _ Hb). unfold read_cpu. by destruct (_ <=? _). }
  rewrite (be_dev _ _ _ _ _ Hb) in Hr. rewrite Z.min_l in Hr by lia.
  destruct Hr as (s2 & Hs2 & Hm2 & _); [lia | lia | by eapply layout_readable |].
  exists s2. split; [done|]. rewrite Hm2, Hm. f_equal. unfold file_bytes. apply list_eq. intros k.
  rewrite list_lookup_fmap. destruct (decide (k < Z.to_nat len)%nat) as [Hk|Hk].
  - rewrite lookup_seqZ_lt, read_bytes_lookup by lia. simpl. f_equal. rewrite Hw.
    + rewrite decide_True by lia. f_equal. lia.
    + split; [etransitivity; [exact Hlo|]; apply Z.div_le_mono; [done | lia]|].
      apply Z.div_lt_upper_bound; [done|]. lia.
  - rewrite lookup_seqZ_ge by lia. symmetry. apply lookup_ge_None_2. rewrite length_read_bytes. lia.
Qed.

(** An indirect entry that is 0 is skipped. *)
Lemma free_addr_none s ip n (lv : nat) k : inode_of s ip = Some n -> d_addrs (i_d n) !! Z.to_nat k = Some 0 ->
  free_addr ip lv k s = Ret tt s.
Proof.
  intros Hn Ha. unfold free_addr. cbn [read_entry]. mrun. rewrite (bind_get_inode _ _ _ _ _ Hn), Ha. done.
Qed.

(** [inode_free_data] on a file without indirect blocks: it gives back exactly
    its data blocks (their bits of the bitmap are cleared, no other bit and no
    other block of the disk changes), and leaves an inode without blocks and of
    size 0; calling it without the inode's lock panics. *)
Theorem inode_free_data_direct s H ip n :
  cache s H -> inode_of s ip = Some n -> dinode_ok (i_d n) ->
  can_read s H (data_bitmap_start (k_sb s)) -> 0 <= data_start (k_sb s) ->
  0 <= data_bitmap_start (k_sb s) < 2 ^ 31 ->
  Forall (data_addr (k_sb s)) (take 10 (d_addrs (i_d n))) -> drop 10 (d_addrs (i_d n)) = [0; 0; 0] ->
  (held_by (hartid (k_cpu s)) (i_slk n) ->
   exists s', inode_free_data ip s = Ret tt s' /\ cache s' H /\ frame_ic s s' /\
     inode_of s' ip = Some (set_i_d (set_d_size 0 (set_d_addrs no_addrs (i_d n))) n) /\
     (forall m, 0 <= m < NBITS -> bit (block (k_dev s') (data_bitmap_start (k_sb s))) m
        = bit (block (k_dev s) (data_bitmap_start (k_sb s))) m
          && negb (existsb (fun a => negb (a =? 0) && (a - data_start (k_sb s) =? m)) (take 10 (d_addrs (i_d n))))) /\
     (forall x, 0 <= x < 2 ^ 31 -> x <> data_bitmap_start (k_sb s) -> block (k_dev s') x = block (k_dev s) x))
  /\ (~ held_by (hartid (k_cpu s)) (i_slk n) -> inode_free_data ip s = Panic "inode_free_data: no lock" s).
Proof.
  intros Hc Hn Hok Hr H0 Hbm Hda Hind. assert (length (d_addrs (i_d n)) = 13%nat) as Hl by apply Hok.
  split; [|intros Hh; by apply (not_holding_inode _ _ n)].
  intros Hh. unfold inode_free_data. rewrite (holding_inode _ _ _ _ _ Hn Hh).
  set (todo := take 10 (d_addrs (i_d n))) in *.
  assert (length todo = 10%nat) as Hlt by (unfold todo; rewrite length_take; lia).
  destruct (free_loop_direct todo 0 s H ip n Hc Hn Hr H0 Hda) as (s1 & c & Hs1 & d1 & H1 & _ & Hb1 & Hx1).
  { rewrite Hlt, drop_0. by rewrite <- (take_drop 10 (d_addrs (i_d n))) at 1. }
  { rewrite Hlt. lia. }
  rewrite Hlt in Hs1, H1. change (Z.of_nat <$> seq 0 10) with (seqZ 0 N_ADDRS_1) in Hs1.
  mstep ltac:(exact Hs1). cbn [take app] in H1. change (0 + 10)%nat with 10%nat in H1. rewrite Hind in H1.
  change (replicate 10 0 ++ [0; 0; 0]) with no_addrs in H1. set (n1 := set_i_d _ n) in H1.
  assert (inode_of s1 ip = Some n1) as Hn1.
  { rewrite (inode_of_ic _ _ _ (st_ic _ _ _ _ _ _ H1)). apply ic_put_lookup. by eapply inode_of_lt. }
  change (seqZ 0 N_ADDRS_2) with [0; 1]. cbn [for_each]. mrun.
  mstep ltac:(apply (free_addr_none _ _ n1); done). mstep ltac:(apply (free_addr_none _ _ n1); done).
  mstep ltac:(apply (free_addr_none _ _ n1); done). rewrite (upd_dinode_eq _ _ _ _ Hn1).
  set (n2 := set_i_d _ n1). pose proof (put_steps s1 ip n2 H (st_cache _ _ _ _ _ _ H1)) as H2.
  exists (put_inode ip n2 s1). split_and!; [done | apply H2 | | | |].
  - etransitivity; [apply H1 | apply H2].
  - rewrite inode_of_put by (by eapply inode_of_lt). by rewrite decide_True.
  - intros m Hm. rewrite (st_dev _ _ _ _ _ _ H2), (st_dev _ _ _ _ _ _ H1), Hb1. by apply bit_cleared; [apply good_block|..].
  - intros x Hx Hne. rewrite (st_dev _ _ _ _ _ _ H2), (st_dev _ _ _ _ _ _ H1). by apply Hx1.
Qed.

End Spec.

(** ** Witnesses *)

(** A file with a direct block 141 and, at file block 10, a block 151 that is
    reached through the indirect block 150. *)
Definition tree_dinode : dinode := mk_dinode FT_FILE 0 0 1 1000 ([141] ++ replicate 9 0 ++ [150; 0; 0]).
Definition tree_disk : memdisk := put_block demo_disk 150 (le_bytes 4 151 ++ replicate 1020 0).
Definition tree_inode : inode := mk_inode tree_dinode 3 1 true (take_lock 0 zero_lock).

Lemma tree_kernel : exists s : kstate memdisk,
  k_dev s = tree_disk /\ k_sb s = demo_sb /\ k_cpu s = mk_cpu 0 false 0 false /\ cache s [] /\
  inode_of s 0 = Some tree_inode.
Proof.
  destruct (fresh_kernel tree_disk demo_sb (one_inode tree_inode)) as (s & ? & ? & Hic & ? & ?). exists s.
  split_and!; try done. unfold inode_of. by rewrite Hic.
Qed.

Lemma tree_dinode_ok : dinode_ok tree_dinode.
Proof. unfold dinode_ok. simpl. split_and!; try done; repeat constructor; lia. Qed.

Lemma tree_layout : layout [] tree_disk tree_dinode 0 1.
Proof.
  assert (forall bn, 0 <= bn < 1 -> bn = 0) as Hbn by (intros; lia).
  split; [intros bn ->%Hbn..|intros bn bn' ->%Hbn ->%Hbn|intros bn bn' ->%Hbn ->%Hbn].
  - split; [unfold MAXBN; lia|]. split_and!; [by vm_compute | by constructor | by constructor].
  - split; [by vm_compute | apply not_elem_of_nil].
  - by constructor.
  - done.
  - apply not_elem_of_nil.
Qed.

Lemma inode_locate_block_maps_witness : exists s s' : kstate memdisk, inode_locate_block 0 10 s = Ret 151 s'.
Proof.
  destruct tree_kernel as (s & Hd & Hsb & Hcpu & Hc & Hn). exists s.
  assert (bmap tree_disk tree_dinode 10 = 151) as Hm by (vm_compute; reflexivity).
  assert (bmeta tree_disk tree_dinode 10 = [150]) as Hmm by (vm_compute; reflexivity).
  destruct (inode_locate_block_maps s [] 0 tree_inode 10 Hc Hn) as [Hl _]; [reflexivity | lia |].
  destruct Hl as (s' & Hs' & _).
  - unfold MAXBN. lia.
  - rewrite Hd. unfold path_ok. cbn [i_d tree_inode]. rewrite Hm, Hmm. split_and!; [discriminate | | apply NoDup_singleton].
    apply Forall_singleton. split_and!; [discriminate | done | apply not_elem_of_nil].
  - unfold N_BLOCK_BUF. simpl. lia.
  - exists s'. rewrite Hd in Hs'. cbn [i_d tree_inode] in Hs'. rewrite Hm in Hs'. exact Hs'.
Defined.

Lemma inode_read_file_witness : exists s s' : kstate memdisk, inode_read_data 0 990 50 0x80000000 false s = Ret 10 s'.
Proof.
  destruct tree_kernel as (s & Hd & Hsb & Hcpu & Hc & Hn). exists s.
  destruct (inode_read_file s [] 0 tree_inode 990 50 0x80000000 false Hc Hn) as (_ & Hr & _).
  - rewrite Hcpu. split; [discriminate | reflexivity].
  - exact tree_dinode_ok.
  - lia.
  - lia.
  - unfold N_BLOCK_BUF. simpl. lia.
  - destruct Hr as (s' & Hs' & _); [simpl; lia | lia | | exists s'; exact Hs'].
    rewrite Hd. apply (layout_readable _ _ _ 0 1); [exact tree_layout | reflexivity || (vm_compute; discriminate) | simpl; unfold BLOCK_SIZE; lia].
Defined.

Lemma inode_write_read_back_witness : exists s s1 s2 : kstate memdisk,
  inode_write_data 0 100 20 0x80001000 false s = Ret 20 s1 /\ inode_read_data 0 100 20 0x80002000 false s1 = Ret 20 s2.
Proof.
  destruct tree_kernel as (s & Hd & Hsb & Hcpu & Hc & Hn). exists s.
  destruct (inode_write_read_back s [] 0 tree_inode 0 1 100 20 0x80001000 0x80002000 false Hc Hn)
    as (s1 & H1 & _ & _ & _ & _ & s2 & H2 & _).
  - rewrite Hcpu. split; [discriminate | reflexivity].
  - exact tree_dinode_ok.
  - rewrite Hd. exact tree_layout.
  - lia.
  - lia.
  - simpl. lia.
  - vm_compute. discriminate.
  - vm_compute. discriminate.
  - unfold BLOCK_SIZE. lia.
  - unfold N_BLOCK_BUF. simpl. lia.
  - exists s1, s2. split; [exact H1 | exact H2].
Defined.

Lemma inode_free_data_direct_witness : exists s s' : kstate memdisk,
  inode_free_data 0 s = Ret tt s' /\ bit (block (k_dev s') 130) 10 = false.
Proof.
  destruct (demo_kernel held_inode) as (s & Hd & Hsb & Hic & Hcpu & Hr & Hn). exists s.
  destruct (inode_free_data_direct s [] 0 held_inode) as [Hf _]; rewrite ?Hsb.
  - exact (proj1 (Hr 1 ltac:(vm_compute; split; [discriminate | reflexivity]))).
  - exact Hn.
  - exact demo_dinode_ok.
  - apply Hr. vm_compute. split; [discriminate | reflexivity].
  - simpl. lia.
  - simpl. lia.
  - unfold data_addr, NBITS, BLOCK_SIZE. simpl. constructor; [right; lia|]. repeat constructor.
  - reflexivity.
  - destruct Hf as (s' & Hs' & _ & _ & _ & Hb & _).
    + rewrite Hcpu. split; [discriminate | reflexivity].
    + exists s'. split; [exact Hs'|]. rewrite Hsb in Hb. cbn [data_bitmap_start demo_sb] in Hb.
      rewrite (Hb 10); [apply andb_false_r | unfold NBITS, BLOCK_SIZE; lia].
Defined.
