(* ===== verification/Dir.v ===== *)
(** * Dir: kernel/fs/dir.c, directories and paths

    A directory is one block of 32 entries of 32 bytes: a 16-bit inode number and
    a name of 30 bytes, free when the name is empty.  A [char*] argument is the
    view of a string ([Kstring]); a path is the list of its bytes before the NUL;
    a local [char name\[30\]] is the list of its bytes. *)

From S2P Require Import Prelude Bytes Kstring Spinlock Kernel Disk Buf Bitmap Inode.

(** ** One entry of the block, at [offset] *)

Definition de_num (l : list Z) (offset : Z) : Z := word l offset 2.
Definition de_name (l : list Z) (offset : Z) : Z -> Z := fun i => byte_at l (offset + 2 + i).

(** [de->inode_num = num; strncpy(de->name, name, 30); de->name\[29\] = 0] *)
Definition de_fill (num : Z) (name : Z -> Z) (offset : Z) (l : list Z) : list Z :=
  let l := blit l offset (le_bytes 2 num) in
  let l := blit l (offset + 2) (strncpy_bytes name DIR_NAME_LEN) in
  blit l (offset + 2 + (DIR_NAME_LEN - 1)) [0].

(** [de->name\[0\] = 0; de->inode_num = INODE_NUM_UNUSED] *)
Definition de_clear (offset : Z) (l : list Z) : list Z :=
  let l := blit l (offset + 2) [0] in
  blit l offset (le_bytes 2 INODE_NUM_UNUSED).

(** The values of [offset] in the loops over the entries. *)
Definition de_offsets : list Z := (fun k => k * DIRENT_SIZE) <$> seqZ 0 (BLOCK_SIZE / DIRENT_SIZE).

(** Longer strings make the model's [strlen] give up. *)
Definition NAME_FUEL : nat := 4096.

(** [(uint32)-1] *)
Definition ERR : Z := 0xFFFFFFFF.

Section Ops.
Context {D : Type} `{!DiskDriver D}.

(** ** Entries of one directory *)

Definition de_matches (name : Z -> Z) (offset : Z) (l : list Z) : bool :=
  negb (de_name l offset 0 =? 0) && (strncmp (de_name l offset) name DIR_NAME_LEN =? 0).

Definition dir_block (pip : nat) : M (kstate D) Z :=
  get_inode pip (fun n => d_addrs (i_d n) !! 0%nat) ≫= some_or_fault.

Definition dir_assert (pip : nat) (lock not_dir : string) : M (kstate D) unit :=
  h ← holding (inode_slk pip);
  kassert h lock;;
  t ← get_inode pip (fun n => d_type (i_d n));
  kassert (t =? FT_DIR) not_dir.

Definition dir_search_entry (pip : nat) (name : Z -> Z) : M (kstate D) Z :=
  dir_assert pip "dir_search_entry: lock" "dir_search_entry: not dir";;
  a ← dir_block pip;
  buf ← buf_read a;
  r ← for_return de_offsets (fun offset =>
    l ← get_buf buf data;
    if de_matches name offset l then
      let inode_num := de_num l offset in
      buf_release buf;;
      mret (Some inode_num)
    else mret None);
  match r with
  | Some inode_num => mret inode_num
  | None => buf_release buf;; mret INODE_NUM_UNUSED
  end.

Definition dir_add_entry (pip : nat) (inode_num : Z) (name : Z -> Z) : M (kstate D) Z :=
  dir_assert pip "dir_add_entry: lock" "dir_add_entry: not dir";;
  len ← match strlen NAME_FUEL name with Some n => mret n | None => no_fuel end;
  if DIR_NAME_LEN <=? len then mret BLOCK_SIZE else
  found ← dir_search_entry pip name;
  if negb (found =? INODE_NUM_UNUSED) then mret BLOCK_SIZE else
  a ← dir_block pip;
  buf ← buf_read a;
  r ← for_return de_offsets (fun offset =>
    l ← get_buf buf data;
    if de_name l offset 0 =? 0 then
      upd_data buf (de_fill inode_num name offset);;
      buf_write buf;;
      buf_release buf;;
      upd_dinode pip (set_d_size (offset + DIRENT_SIZE));;
      mret (Some offset)
    else mret None);
  match r with
  | Some offset => mret offset
  | None => buf_release buf;; mret BLOCK_SIZE
  end.

Definition dir_delete_entry (pip : nat) (name : Z -> Z) : M (kstate D) Z :=
  dir_assert pip "dir_delete_entry: lock" "dir_delete_entry: not dir";;
  a ← dir_block pip;
  buf ← buf_read a;
  r ← for_return de_offsets (fun offset =>
    l ← get_buf buf data;
    if de_matches name offset l then
      let inode_num := de_num l offset in
      upd_data buf (de_clear offset);;
      buf_write buf;;
      buf_release buf;;
      mret (Some inode_num)
    else mret None);
  match r with
  | Some inode_num => mret inode_num
  | None => buf_release buf;; mret INODE_NUM_UNUSED
  end.

(** [put off bytes] is [memmove(dst + off, bytes, ...)] for the destination. *)
Fixpoint get_entries_loop (offsets : list Z) (buf : nat) (len copied : Z)
    (put : Z -> list Z -> M (kstate D) unit) : M (kstate D) Z :=
  match offsets with
  | [] => mret copied
  | offset :: offsets' =>
      if copied + DIRENT_SIZE <=? len then
        l ← get_buf buf data;
        if negb (de_name l offset 0 =? 0) then
          put copied (slice l offset DIRENT_SIZE);;
          get_entries_loop offsets' buf len (copied + DIRENT_SIZE) put
        else get_entries_loop offsets' buf len copied put
      else mret copied
  end.

Definition dir_get_entries (pip : nat) (len : Z) (put : Z -> list Z -> M (kstate D) unit) : M (kstate D) Z :=
  dir_assert pip "dir_get_entries: lock" "dir_get_entries: not dir";;
  a ← dir_block pip;
  buf ← buf_read a;
  copied ← get_entries_loop de_offsets buf len 0 put;
  buf_release buf;;
  mret copied.

(** ** Paths *)

Definition SLASH : Z := 47.

Fixpoint skip_slashes (path : list Z) : list Z :=
  match path with
  | c :: path' => if c =? SLASH then skip_slashes path' else path
  | [] => []
  end.

(** [while (path\[0\] != '/' && path\[0\] != 0) path++]: what was passed, the rest. *)
Fixpoint take_element (path : list Z) : list Z * list Z :=
  match path with
  | c :: path' => if c =? SLASH then ([], path) else let '(e, r) := take_element path' in (c :: e, r)
  | [] => ([], [])
  end.

(** The rest of the path ([None] for NULL) and the content of [name]. *)
Definition skip_element (path name : list Z) : option (list Z) * list Z :=
  let path := skip_slashes path in
  match path with
  | [] => (None, name)
  | _ =>
      let '(s, path) := take_element path in
      let len := Z.of_nat (length s) in
      let name :=
        if DIR_NAME_LEN <=? len
        then blit (blit name 0 (take (Z.to_nat DIR_NAME_LEN) s)) (DIR_NAME_LEN - 1) [0]
        else blit (blit name 0 s) len [0] in
      (Some (skip_slashes path), name)
  end.

(** [while ((path = skip_element(path, name)) != 0)]: every iteration consumes at
    least one byte of the path. *)
Fixpoint search_loop (fuel : nat) (ip : nat) (path name : list Z) (find_parent : bool)
    : M (kstate D) (option nat * list Z) :=
  match skip_element path name with
  | (None, name) =>
      if find_parent then inode_free ip;; mret (None, name) else mret (Some ip, name)
  | (Some path, name) =>
      match fuel with
      | O => no_fuel
      | S fuel' =>
          inode_lock (Some ip);;
          t ← get_inode ip (fun n => d_type (i_d n));
          if negb (t =? FT_DIR) then inode_unlock_free ip;; mret (None, name) else
          if find_parent && bool_decide (path = []) then inode_unlock ip;; mret (Some ip, name) else
          next_inum ← dir_search_entry ip (arr_view name);
          if next_inum =? INODE_NUM_UNUSED then inode_unlock_free ip;; mret (None, name) else
          inode_unlock ip;;
          inode_free ip;;
          ip ← inode_alloc next_inum;
          search_loop fuel' ip path name find_parent
      end
  end.

(** Absolute or not, the search starts at the root. *)
Definition search_inode (path name : list Z) (find_parent : bool) : M (kstate D) (option nat * list Z) :=
  ip ← inode_alloc INODE_ROOT;
  search_loop (S (length path)) ip path name find_parent.

(** An uninitialised [char name\[DIR_NAME_LEN\]]; its bytes are not used before
    [skip_element] has written the string. *)
Definition name_buf : list Z := replicate (Z.to_nat DIR_NAME_LEN) 0.

Definition path_to_inode (path : list Z) : M (kstate D) (option nat) :=
  '(ip, _) ← search_inode path name_buf false; mret ip.

Definition path_to_pinode (path : list Z) : M (kstate D) (option nat * list Z) :=
  search_inode path name_buf true.

Definition dir_change (path : list Z) : M (kstate D) Z :=
  ip ← path_to_inode path;
  match ip with
  | None => mret ERR
  | Some ip =>
      inode_lock (Some ip);;
      t ← get_inode ip (fun n => d_type (i_d n));
      if negb (t =? FT_DIR) then inode_unlock_free ip;; mret ERR
      else inode_unlock_free ip;; mret 0
  end.

(** A string constant of the source. *)
Definition lit (l : list Z) : Z -> Z := arr_view (l ++ [0]).
Definition DOT : list Z := [46].
Definition DOTDOT : list Z := [46; 46].

Definition path_create_inode (path : list Z) (type major minor : Z) : M (kstate D) (option nat) :=
  '(dir_ip, name) ← path_to_pinode path;
  match dir_ip with
  | None => mret None
  | Some dir_ip =>
      inode_lock (Some dir_ip);;
      found ← dir_search_entry dir_ip (arr_view name);
      if negb (found =? INODE_NUM_UNUSED) then inode_unlock_free dir_ip;; mret None else
      ip ← inode_create type major minor;
      match ip with
      | None => inode_unlock_free dir_ip;; mret None
      | Some ip =>
          inode_lock (Some ip);;
          num ← get_inode ip inode_num;
          offset ← dir_add_entry dir_ip num (arr_view name);
          if offset =? BLOCK_SIZE then
            inode_unlock ip;;
            inode_free_data ip;;
            inode_free ip;;
            inode_unlock_free dir_ip;;
            mret None
          else
          ok ← (if type =? FT_DIR then
            block_num ← bitmap_alloc_block;
            if block_num =? 0 then
              inode_unlock ip;;
              inode_free_data ip;;
              inode_free ip;;
              dir_delete_entry dir_ip (arr_view name);;
              inode_unlock_free dir_ip;;
              mret false
            else
              upd_dinode ip (fun d => set_d_addrs (<[0%nat := block_num]> (d_addrs d)) d);;
              upd_dinode ip (set_d_size 0);;
              num ← get_inode ip inode_num;
              dir_add_entry ip num (lit DOT);;
              dnum ← get_inode dir_ip inode_num;
              dir_add_entry ip dnum (lit DOTDOT);;
              upd_dinode dir_ip (fun d => set_d_nlink (u16 (d_nlink d + 1)) d);;
              inode_rw dir_ip true;;
              mret true
          else mret true);
          if negb ok then mret None else
          upd_dinode ip (set_d_nlink 1);;
          inode_rw ip true;;
          inode_unlock ip;;
          inode_unlock_free dir_ip;;
          mret (Some ip)
      end
  end.

Definition path_link (old_path new_path : list Z) : M (kstate D) Z :=
  old_ip ← path_to_inode old_path;
  match old_ip with
  | None => mret ERR
  | Some old_ip =>
      inode_lock (Some old_ip);;
      t ← get_inode old_ip (fun n => d_type (i_d n));
      if t =? FT_DIR then inode_unlock_free old_ip;; mret ERR else
      '(dir_ip, new_name) ← path_to_pinode new_path;
      match dir_ip with
      | None => inode_unlock_free old_ip;; mret ERR
      | Some dir_ip =>
          inode_lock (Some dir_ip);;
          num ← get_inode old_ip inode_num;
          offset ← dir_add_entry dir_ip num (arr_view new_name);
          if offset =? BLOCK_SIZE then
            inode_unlock_free dir_ip;;
            inode_unlock_free old_ip;;
            mret ERR
          else
          upd_dinode old_ip (fun d => set_d_nlink (u16 (d_nlink d + 1)) d);;
          inode_rw old_ip true;;
          inode_unlock_free dir_ip;;
          inode_unlock_free old_ip;;
          mret 0
      end
  end.

(** The bytes go to a local array that is not read. *)
Definition check_unlink (ip : nat) : M (kstate D) bool :=
  h ← holding (inode_slk ip);
  kassert h "check_unlink: slk";;
  read_len ← dir_get_entries ip (DIRENT_SIZE * 3) (fun _ _ => mret tt);
  if read_len =? DIRENT_SIZE * 3 then mret false
  else if read_len =? DIRENT_SIZE * 2 then mret true
  else panic "check_unlink: read_len".

Definition path_unlink (path : list Z) : M (kstate D) Z :=
  '(dir_ip, name) ← path_to_pinode path;
  match dir_ip with
  | None => mret ERR
  | Some dir_ip =>
      inode_lock (Some dir_ip);;
      if (strncmp (arr_view name) (lit DOT) DIR_NAME_LEN =? 0)
         || (strncmp (arr_view name) (lit DOTDOT) DIR_NAME_LEN =? 0)
      then inode_unlock_free dir_ip;; mret ERR else
      inum ← dir_search_entry dir_ip (arr_view name);
      if inum =? INODE_NUM_UNUSED then inode_unlock_free dir_ip;; mret ERR else
      ip ← inode_alloc inum;
      inode_lock (Some ip);;
      t ← get_inode ip (fun n => d_type (i_d n));
      go ← (if t =? FT_DIR then
        ok ← check_unlink ip;
        if negb ok then
          inode_unlock_free ip;; inode_unlock_free dir_ip;; mret false
        else
          upd_dinode dir_ip (fun d => set_d_nlink (u16 (d_nlink d - 1)) d);;
          inode_rw dir_ip true;;
          mret true
      else mret true);
      if negb go then mret ERR else
      dir_delete_entry dir_ip (arr_view name);;
      inode_unlock_free dir_ip;;
      upd_dinode ip (fun d => set_d_nlink (u16 (d_nlink d - 1)) d);;
      nlink ← get_inode ip (fun n => d_nlink (i_d n));
      when (nlink =? 0) (inode_free_data ip);;
      inode_rw ip true;;
      inode_unlock_free ip;;
      mret 0
  end.
End Ops.
