(* ===== verification/DirSpec.v ===== *)
(** * DirSpec: directories as finite maps, paths as lists of names

    [dfind] is the reference view of a directory block: the first used entry
    whose name is the given string.  The operations search, extend and shrink
    this view; [components] is the reference view of a path. *)

From S2P Require Import Prelude Bytes Kstring Spinlock Kernel Disk Buf BufSpec Bitmap BitmapSpec.
From S2P Require Import Inode InodeMeta InodeSpec InodeData Dir.

(** ** Strings in arrays *)

Lemma cstr_from_unique (p : Z -> Z) (c : list Z) i n :
  (length c <= n)%nat -> (forall j a, c !! j = Some a -> p (i + Z.of_nat j) = a /\ a <> 0) ->
  ((length c < n)%nat -> p (i + Z.of_nat (length c)) = 0) -> cstr_from p i n = c.
Proof.
  revert i n; induction c as [|a c IH]; intros i n Hl Hc He.
  - destruct n as [|n]; [done|]. cbn [cstr_from]. simpl in He. rewrite Z.add_0_r in He. by rewrite He by lia.
  - destruct n as [|n]; [simpl in Hl; lia|]. cbn [cstr_from].
    destruct (Hc 0%nat a eq_refl) as [Ha Hne]. rewrite Z.add_0_r in Ha.
    rewrite Ha, (proj2 (Z.eqb_neq _ _) Hne). f_equal. apply IH.
    + simpl in Hl. lia.
    + intros j b Hj. destruct (Hc (S j) b Hj) as [Hp ?]. split; [|done]. rewrite <- Hp. f_equal. lia.
    + intros Hlt. rewrite <- He by (simpl; lia). f_equal. simpl. lia.
Qed.

Lemma cstr_lookup p n j a : cstr p n !! j = Some a -> p (Z.of_nat j) = a /\ a <> 0.
Proof.
  intros Hj. pose proof (lookup_lt_Some _ _ _ Hj) as Hlt. unfold cstr in *.
  destruct (cstr_from_lookup_lt _ _ _ _ Hlt) as [He Hne]. rewrite He in Hj. injection Hj as <-.
  rewrite Z.add_0_l in *. done.
Qed.

Lemma cstr_of_strncpy_bytes p q n : 0 <= n ->
  (forall j, 0 <= j < n -> q j = byte_at (strncpy_bytes p n) j) -> cstr q n = cstr p n.
Proof.
  intros Hn Hq. pose proof (length_cstr p n) as Hl. unfold cstr at 1. apply cstr_from_unique; [done | |].
  - intros j a Hj. pose proof (lookup_lt_Some _ _ _ Hj) as Hlt. destruct (cstr_lookup _ _ _ _ Hj) as [_ Hne].
    split; [|done]. rewrite Z.add_0_l, Hq by lia. unfold byte_at, strncpy_bytes. rewrite Nat2Z.id.
    apply list_lookup_total_correct. by rewrite lookup_app_l by done.
  - intros Hlt. rewrite Z.add_0_l, Hq by lia. unfold byte_at, strncpy_bytes. rewrite Nat2Z.id.
    apply list_lookup_total_correct. rewrite lookup_app_r by lia. apply lookup_replicate_2. lia.
Qed.

Lemma strlen_cstr p n fuel i len k : strlen_from fuel p i = Some len ->
  k = Z.to_nat n -> Z.of_nat (length (cstr_from p i k)) = Z.min (len - i) (Z.of_nat k) /\ i <= len.
Proof.
  intros Hs _. revert i k Hs; induction fuel as [|fuel IH]; intros i k; cbn [strlen_from]; [done|].
  destruct (Z.eqb_spec (p i) 0) as [H0|H0].
  - intros [= ->]. split; [|lia]. destruct k as [|k]; cbn [cstr_from]; [simpl; lia|].
    rewrite (proj2 (Z.eqb_eq _ _) H0). simpl. lia.
  - intros Hs. destruct k as [|k]; cbn [cstr_from].
    + destruct (IH _ 0%nat Hs). split; [simpl; lia | lia].
    + rewrite (proj2 (Z.eqb_neq _ _) H0). destruct (IH _ k Hs). cbn [length]. lia.
Qed.

Lemma strlen_name fuel p len : strlen fuel p = Some len -> 0 <= len /\
  Z.of_nat (length (cstr p DIR_NAME_LEN)) = Z.min len DIR_NAME_LEN.
Proof.
  intros Hs. destruct (strlen_cstr p DIR_NAME_LEN fuel 0 len (Z.to_nat DIR_NAME_LEN) Hs eq_refl) as [Hl H0].
  split; [done|]. rewrite Z.sub_0_r in Hl. exact Hl.
Qed.

(** ** The entries of a block *)

Definition ename (l : list Z) (o : Z) : list Z := cstr (de_name l o) DIR_NAME_LEN.
Definition used (l : list Z) (o : Z) : bool := negb (de_name l o 0 =? 0).
Definition offset_ok (o : Z) : Prop := exists k, 0 <= k < 32 /\ o = k * 32.

(** The entry that has the name [nm]. *)
Definition dfind (l : list Z) (nm : list Z) : option Z :=
  List.find (fun o => used l o && bool_decide (ename l o = nm)) de_offsets.
(** The first free entry. *)
Definition dfree (l : list Z) : option Z := List.find (fun o => negb (used l o)) de_offsets.

Lemma de_offsets_ok o : o ∈ de_offsets <-> offset_ok o.
Proof.
  unfold de_offsets, offset_ok. rewrite list_elem_of_fmap. change DIRENT_SIZE with 32. change (BLOCK_SIZE / 32) with 32.
  split; intros (k & H1 & H2).
  - apply elem_of_seqZ in H2. exists k. lia.
  - exists k. split; [done|]. apply elem_of_seqZ. lia.
Qed.

#[local] Opaque de_offsets.

Lemma offset_range o : offset_ok o -> 0 <= o /\ o + 32 <= BLOCK_SIZE.
Proof. intros (k & ? & ->). unfold BLOCK_SIZE. lia. Qed.

Lemma offset_sep o o' : offset_ok o -> offset_ok o' -> o <> o' -> o + 32 <= o' \/ o' + 32 <= o.
Proof. intros (k & ? & ->) (k' & ? & ->). lia. Qed.

Lemma de_matches_eq name o l :
  de_matches name o l = used l o && bool_decide (ename l o = cstr name DIR_NAME_LEN).
Proof.
  unfold de_matches, used. f_equal. apply eq_true_iff_eq. rewrite Z.eqb_eq, bool_decide_eq_true. apply strncmp_zero.
Qed.

Lemma length_fill_name name : Z.of_nat (length (strncpy_bytes name DIR_NAME_LEN)) = 30.
Proof. by rewrite length_strncpy_bytes. Qed.

Lemma good_de_fill num name o l : good_data l -> offset_ok o -> (forall i, 0 <= name i < 2 ^ 8) ->
  good_data (de_fill num name o l).
Proof.
  intros Hl Ho Hn. destruct (offset_range o Ho) as [H0 H1]. pose proof (length_fill_name name) as H30.
  unfold de_fill, DIR_NAME_LEN in *.
  apply good_blit; [apply good_blit; [apply good_blit|..]|..]; rewrite ?H30, ?length_le_bytes; try done; try (simpl; lia).
  - apply is_bytes_le_bytes.
  - by apply is_bytes_strncpy_bytes.
  - by repeat constructor.
Qed.

Lemma good_de_clear o l : good_data l -> offset_ok o -> good_data (de_clear o l).
Proof.
  intros Hl Ho. destruct (offset_range o Ho) as [H0 H1]. unfold de_clear.
  apply good_blit; [apply good_blit|..]; rewrite ?length_le_bytes; try done; try (simpl; lia).
  - by repeat constructor.
  - apply is_bytes_le_bytes.
Qed.

(** ** Two blocks that agree on an entry *)

Definition agree (l l' : list Z) (o : Z) : Prop := forall i, o <= i < o + 32 -> byte_at l' i = byte_at l i.

Lemma agree_used l l' o : agree l l' o -> used l' o = used l o.
Proof. intros Ha. unfold used, de_name. by rewrite Ha by lia. Qed.

Lemma agree_ename l l' o : agree l l' o -> ename l' o = ename l o.
Proof. intros Ha. apply cstr_from_ext. intros j Hj. unfold de_name. unfold DIR_NAME_LEN in Hj. apply Ha. lia. Qed.

Lemma word_bytes l o : good_data l -> 0 <= o -> o + 2 <= BLOCK_SIZE -> word l o 2 = byte_at l o + 2 ^ 8 * byte_at l (o + 1).
Proof.
  intros Hl H0 H1. unfold word. rewrite slice_bytes by (done || lia).
  rewrite !seqZ_cons by lia. change (Z.pred (Z.pred 2)) with 0. rewrite !fmap_cons. cbn [le_value seqZ].
  change (le_value (byte_at l <$> seqZ (Z.succ (Z.succ o)) 0)) with 0. unfold Z.succ. lia.
Qed.

Lemma agree_num l l' o : good_data l -> good_data l' -> offset_ok o -> agree l l' o -> de_num l' o = de_num l o.
Proof.
  intros Hl Hl' Ho Ha. destruct (offset_range o Ho) as [H0 H1]. unfold de_num.
  rewrite !word_bytes by (done || lia). by rewrite !Ha by lia.
Qed.

Lemma fill_byte num name o l i : good_data l -> offset_ok o -> (forall i, 0 <= name i < 2 ^ 8) -> 0 <= i < BLOCK_SIZE ->
  byte_at (de_fill num name o l) i
  = if decide (i = o + 31) then 0
    else if decide (o + 2 <= i < o + 32) then byte_at (strncpy_bytes name DIR_NAME_LEN) (i - (o + 2))
    else if decide (o <= i < o + 2) then byte_at (le_bytes 2 num) (i - o) else byte_at l i.
Proof.
  intros Hl Ho Hn Hi. destruct (offset_range o Ho) as [H0 H1]. pose proof (length_fill_name name) as H30.
  assert (good_data (blit l o (le_bytes 2 num))) as Hg1.
  { apply good_blit; [done | apply is_bytes_le_bytes | lia | rewrite length_le_bytes; lia]. }
  assert (good_data (blit (blit l o (le_bytes 2 num)) (o + 2) (strncpy_bytes name DIR_NAME_LEN))) as Hg2.
  { apply good_blit; [done | by apply is_bytes_strncpy_bytes | lia | lia]. }
  unfold de_fill. rewrite byte_at_blit by (try done; simpl; unfold DIR_NAME_LEN; lia).
  replace (o + 2 + (DIR_NAME_LEN - 1)) with (o + 31) by (unfold DIR_NAME_LEN; lia). cbn [length].
  destruct (decide (i = o + 31)) as [->|Hne].
  { rewrite decide_True by lia. by replace (o + 31 - (o + 31)) with 0 by lia. }
  rewrite decide_False by lia. rewrite byte_at_blit by (done || lia). rewrite H30.
  destruct (decide (o + 2 <= i < o + 32)); [by rewrite decide_True by lia|]. rewrite decide_False by lia.
  rewrite byte_at_blit by (rewrite ?length_le_bytes; done || lia). rewrite length_le_bytes. done.
Qed.

Lemma clear_byte o l i : good_data l -> offset_ok o -> 0 <= i < BLOCK_SIZE ->
  byte_at (de_clear o l) i
  = if decide (o <= i < o + 2) then byte_at (le_bytes 2 INODE_NUM_UNUSED) (i - o)
    else if decide (i = o + 2) then 0 else byte_at l i.
Proof.
  intros Hl Ho Hi. destruct (offset_range o Ho) as [H0 H1]. unfold de_clear.
  assert (good_data (blit l (o + 2) [0])) as Hg by (apply good_blit; [done | by repeat constructor | lia | simpl; lia]).
  rewrite byte_at_blit by (rewrite ?length_le_bytes; done || lia). rewrite length_le_bytes.
  destruct (decide (o <= i < o + 2)); [by rewrite decide_True by lia|]. rewrite decide_False by lia.
  rewrite byte_at_blit by (done || simpl; lia). cbn [length].
  destruct (decide (i = o + 2)) as [->|]; [|by rewrite decide_False by lia].
  rewrite decide_True by lia. by replace (o + 2 - (o + 2)) with 0 by lia.
Qed.

Section Entry.
Variables (num : Z) (name : Z -> Z) (o : Z) (l : list Z).
Hypothesis Hl : good_data l.
Hypothesis Ho : offset_ok o.

Lemma clear_agree o' : offset_ok o' -> o <> o' -> agree l (de_clear o l) o'.
Proof.
  intros Ho' Hne i Hi. destruct (offset_range o' Ho') as [H0 H1]. rewrite clear_byte by (done || lia).
  destruct (offset_sep o o' Ho Ho' Hne); by rewrite !decide_False by lia.
Qed.

Lemma clear_used : used (de_clear o l) o = false.
Proof.
  destruct (offset_range o Ho) as [H0 H1]. unfold used, de_name. rewrite clear_byte by (done || lia).
  rewrite decide_False by lia. by rewrite decide_True by lia.
Qed.

Hypothesis Hn : forall i, 0 <= name i < 2 ^ 8.

Lemma fill_agree o' : offset_ok o' -> o <> o' -> agree l (de_fill num name o l) o'.
Proof.
  intros Ho' Hne i Hi. destruct (offset_range o' Ho') as [H0 H1]. rewrite fill_byte by (done || lia).
  destruct (offset_sep o o' Ho Ho' Hne); by rewrite !decide_False by lia.
Qed.

Hypothesis Hlen : Z.of_nat (length (cstr name DIR_NAME_LEN)) < DIR_NAME_LEN.

Lemma strncpy_last : byte_at (strncpy_bytes name DIR_NAME_LEN) 29 = 0.
Proof.
  unfold byte_at, strncpy_bytes. apply list_lookup_total_correct. unfold DIR_NAME_LEN in *.
  rewrite lookup_app_r by lia. apply lookup_replicate_2. lia.
Qed.

Lemma fill_name_byte j : 0 <= j < DIR_NAME_LEN ->
  de_name (de_fill num name o l) o j = byte_at (strncpy_bytes name DIR_NAME_LEN) j.
Proof.
  intros Hj. destruct (offset_range o Ho) as [H0 H1]. unfold de_name. unfold DIR_NAME_LEN in Hj.
  rewrite fill_byte by (done || lia). case_decide.
  - replace j with 29 by lia. by rewrite strncpy_last.
  - rewrite decide_True by lia. f_equal. lia.
Qed.

Lemma fill_ename : ename (de_fill num name o l) o = cstr name DIR_NAME_LEN.
Proof. apply cstr_of_strncpy_bytes; [done|]. apply fill_name_byte. Qed.

Lemma used_ename l' o' : used l' o' = negb (bool_decide (ename l' o' = [])).
Proof.
  unfold used, ename, cstr, DIR_NAME_LEN. change (Z.to_nat 30) with (S 29). cbn [cstr_from].
  destruct (Z.eqb_spec (de_name l' o' 0) 0); by rewrite ?bool_decide_true, ?bool_decide_false by done.
Qed.

Lemma fill_num : 0 <= num < 2 ^ 16 -> de_num (de_fill num name o l) o = num.
Proof.
  intros Hnum. destruct (offset_range o Ho) as [H0 H1]. unfold de_num.
  rewrite word_bytes by (try apply good_de_fill; done || lia).
  rewrite !fill_byte by (done || lia). repeat first [rewrite decide_False by lia | rewrite decide_True by lia].
  replace (o - o) with 0 by lia. replace (o + 1 - o) with 1 by lia.
  unfold byte_at. cbn [le_bytes]. change (Z.to_nat 0) with 0%nat. change (Z.to_nat 1) with 1%nat.
  cbn [lookup_total list_lookup_total]. unfold u8. change (2 ^ 16) with 65536 in Hnum. change (2 ^ 8) with 256. 
  rewrite (Z.mod_small (num / 256)) by (split; [apply Z.div_pos | apply Z.div_lt_upper_bound]; lia). pose proof (Z.div_mod num 256 ltac:(done)). lia.
Qed.
End Entry.

(** ** Directories as finite maps *)

Definition dir_map (l : list Z) : gmap (list Z) Z :=
  list_to_map ((fun o => (ename l o, de_num l o)) <$> filter (fun o => used l o = true) de_offsets).

(** Different entries have different names. *)
Definition names_distinct (l : list Z) : Prop := forall o o',
  offset_ok o -> offset_ok o' -> used l o = true -> used l o' = true -> ename l o = ename l o' -> o = o'.

Lemma find_map (l : list Z) nm offs :
  (list_to_map ((fun o => (ename l o, de_num l o)) <$> filter (fun o => used l o = true) offs) : gmap (list Z) Z) !! nm
  = de_num l <$> List.find (fun o => used l o && bool_decide (ename l o = nm)) offs.
Proof.
  induction offs as [|o offs IH]; [done|]. rewrite filter_cons. cbn [List.find].
  destruct (used l o) eqn:Hu; cbn [andb].
  - rewrite decide_True by done. rewrite fmap_cons, list_to_map_cons, lookup_insert.
    case_decide as He.
    + by rewrite bool_decide_true by done.
    + rewrite bool_decide_false by done. exact IH.
  - by rewrite decide_False by done.
Qed.

Lemma dir_map_lookup l nm : dir_map l !! nm = de_num l <$> dfind l nm.
Proof. apply find_map. Qed.

Lemma dfind_Some l nm o : dfind l nm = Some o -> offset_ok o /\ used l o = true /\ ename l o = nm.
Proof.
  intros [Hin [Hu He%bool_decide_eq_true]%andb_true_iff]%List.find_some.
  split_and!; [|done..]. by apply de_offsets_ok, list_elem_of_In.
Qed.

Lemma dfind_None l nm : dfind l nm = None <-> forall o, offset_ok o -> used l o = true -> ename l o <> nm.
Proof.
  split.
  - intros Hf o Ho Hu He. pose proof (List.find_none (fun o => used l o && bool_decide (ename l o = nm)) de_offsets) as Hn.
    assert (used l o && bool_decide (ename l o = nm) = true) as Ht by (by rewrite Hu, bool_decide_true).
    by rewrite (Hn Hf o) in Ht by (by apply list_elem_of_In, de_offsets_ok).
  - intros Hn. unfold dfind. destruct (List.find _ _) as [o|] eqn:Hf; [|done].
    apply dfind_Some in Hf as (Ho & Hu & He). by destruct (Hn o).
Qed.

Lemma dfind_unique l nm o : names_distinct l -> offset_ok o -> used l o = true -> ename l o = nm -> dfind l nm = Some o.
Proof.
  intros Hd Ho Hu He. destruct (dfind l nm) as [o'|] eqn:Hf.
  - apply dfind_Some in Hf as (Ho' & Hu' & He'). f_equal. apply (Hd o' o Ho' Ho Hu' Hu). congruence.
  - exfalso. exact (proj1 (dfind_None _ _) Hf o Ho Hu He).
Qed.

Lemma dfree_Some l o : dfree l = Some o -> offset_ok o /\ used l o = false.
Proof. intros [Hin Hu%negb_true_iff]%List.find_some. split; [|done]. by apply de_offsets_ok, list_elem_of_In. Qed.

Lemma find_ext {A} (f g : A -> bool) l : (forall x, x ∈ l -> f x = g x) -> List.find f l = List.find g l.
Proof.
  induction l as [|x l IH]; intros Hfg; [done|]. simpl. rewrite Hfg by set_solver. case_match; [done|]. apply IH. set_solver.
Qed.

(** Outside entry [o] nothing changes. *)
Lemma dfind_other l l' o nm : good_data l -> good_data l' -> offset_ok o ->
  (forall o', offset_ok o' -> o <> o' -> agree l l' o') ->
  (used l o = true -> ename l o <> nm) -> (used l' o = true -> ename l' o <> nm) ->
  de_num l' <$> dfind l' nm = de_num l <$> dfind l nm.
Proof.
  intros Hl Hl' Ho Ha H1 H2.
  assert (dfind l' nm = dfind l nm) as Heq.
  { apply find_ext. intros x Hx%de_offsets_ok. cbv beta. destruct (decide (o = x)) as [<-|Hne].
    - transitivity false; [|symmetry]; apply andb_false_iff; rewrite bool_decide_eq_false.
      + destruct (used l' o); auto.
      + destruct (used l o); auto.
    - rewrite (agree_used l l') by auto. rewrite (agree_ename l l') by auto. done. }
  rewrite Heq. destruct (dfind l nm) as [x|] eqn:Hf; [|done]. simpl. f_equal.
  apply dfind_Some in Hf as (Hx & Hu & He). destruct (decide (o = x)) as [<-|Hne]; [by destruct H1|].
  apply agree_num; auto.
Qed.

(** Filling a free entry with a new name is an insertion. *)
Lemma dir_map_fill num name o l nm : good_data l -> names_distinct l -> dfind l nm = None ->
  offset_ok o -> used l o = false -> nm = cstr name DIR_NAME_LEN -> nm <> [] ->
  (forall i, 0 <= name i < 2 ^ 8) -> Z.of_nat (length nm) < DIR_NAME_LEN -> 0 <= num < 2 ^ 16 ->
  dir_map (de_fill num name o l) = <[nm := num]> (dir_map l) /\ names_distinct (de_fill num name o l).
Proof.
  intros Hl Hd Hf Ho Hu -> Hne Hn Hlen Hnum. set (l' := de_fill num name o l).
  assert (good_data l') as Hl' by (by apply good_de_fill).
  assert (ename l' o = cstr name DIR_NAME_LEN) as He' by (by apply fill_ename).
  assert (used l' o = true) as Hu' by (rewrite used_ename, He', bool_decide_false by done; done).
  assert (forall o', offset_ok o' -> o <> o' -> agree l l' o') as Hag by (intros; by apply fill_agree).
  assert (names_distinct l') as Hd'.
  { intros x y Hx Hy Hux Huy Hxy. rewrite dfind_None in Hf.
    destruct (decide (o = x)) as [<-|Hox], (decide (o = y)) as [<-|Hoy]; [done| | |].
    - rewrite (agree_used l) in Huy by auto. rewrite (agree_ename l l' y), He' in Hxy by auto. by destruct (Hf y).
    - rewrite (agree_used l) in Hux by auto. rewrite (agree_ename l l' x), He' in Hxy by auto. by destruct (Hf x).
    - rewrite (agree_used l) in Hux, Huy by auto. rewrite !(agree_ename l l') in Hxy by auto. exact (Hd x y Hx Hy Hux Huy Hxy). }
  split; [|done]. apply map_eq. intros nm. rewrite lookup_insert, !dir_map_lookup.
  case_decide as Hnm.
  - rewrite (dfind_unique l' nm o Hd' Ho Hu') by congruence. simpl. f_equal. by apply fill_num.
  - apply (dfind_other l l' o); auto; congruence.
Qed.

(** Clearing the entry of a name is a deletion. *)
Lemma dir_map_clear o l nm : good_data l -> names_distinct l -> dfind l nm = Some o ->
  dir_map (de_clear o l) = delete nm (dir_map l) /\ names_distinct (de_clear o l).
Proof.
  intros Hl Hd (Ho & Hu & He)%dfind_Some. set (l' := de_clear o l).
  assert (good_data l') as Hl' by (by apply good_de_clear).
  assert (used l' o = false) as Hu' by (by apply clear_used).
  assert (forall o', offset_ok o' -> o <> o' -> agree l l' o') as Hag by (intros; by apply clear_agree).
  assert (names_distinct l') as Hd'.
  { intros x y Hx Hy Hux Huy Hxy.
    assert (o <> x) by congruence. assert (o <> y) by congruence.
    rewrite (agree_used l) in Hux, Huy by auto. rewrite !(agree_ename l l') in Hxy by auto. exact (Hd x y Hx Hy Hux Huy Hxy). }
  split; [|done]. apply map_eq. intros nm'. rewrite lookup_delete, !dir_map_lookup.
  case_decide as Hnm.
  - subst nm'. rewrite (proj2 (dfind_None l' nm)); [done|]. intros x Hx Hux Hex.
    assert (o <> x) as Hox by congruence. rewrite (agree_used l) in Hux by auto.
    rewrite (agree_ename l l') in Hex by auto. apply Hox. apply (Hd o x Ho Hx Hu Hux). congruence.
  - apply (dfind_other l l' o); auto; congruence.
Qed.

(** ** The operations *)

Section Spec.
Context {D : Type} `{!BlockDev D, !BlockDevLaws D, !DiskDriver D, !DiskDriverOk D}.
Implicit Types (s : kstate D) (H : list hbuf) (pip : nat).

(** The inode is a directory that this hart has locked; its block can be read. *)
Record dir_at s H pip (n : inode) (a : Z) : Prop := {
  da_inode : inode_of s pip = Some n;
  da_lock : held_by (hartid (k_cpu s)) (i_slk n);
  da_type : d_type (i_d n) = FT_DIR;
  da_addr : d_addrs (i_d n) !! 0%nat = Some a;
  da_read : can_read s H a
}.

Lemma dir_at_becomes s d c H s' pip n a : becomes s d c H s' -> hartid c = hartid (k_cpu s) ->
  dir_at s H pip n a -> dir_at s' H pip n a.
Proof.
  intros Hb Hh [? ? ? ? ?]. split; try done.
  - by rewrite (inode_of_frame s s') by apply Hb.
  - by rewrite (be_cpu _ _ _ _ _ Hb), Hh.
  - by eapply can_read_becomes.
Qed.

Lemma dir_assert_ok {B} s H pip n a m1 m2 (k : unit -> M (kstate D) B) : dir_at s H pip n a ->
  (dir_assert pip m1 m2 ≫= k) s = k tt s.
Proof.
  intros [Hn Hh Ht _ _]. unfold dir_assert. mrun. rewrite (holding_islk _ _ _ _ Hn), bool_decide_eq_true_2 by done.
  mrun. rewrite kassert_true by done. mrun. rewrite (bind_get_inode _ _ _ _ _ Hn), Ht. done.
Qed.

Lemma dir_block_ok {B} s H pip n a (k : Z -> M (kstate D) B) : dir_at s H pip n a ->
  (dir_block pip ≫= k) s = k a s.
Proof. intros [Hn _ _ Ha _]. unfold dir_block. mrun. rewrite (bind_get_inode _ _ _ _ _ Hn), Ha. done. Qed.

(** The asserts at the head of every operation. *)
Lemma dir_assert_fails {B} s pip n m1 m2 (k : unit -> M (kstate D) B) : inode_of s pip = Some n ->
  (~ held_by (hartid (k_cpu s)) (i_slk n) -> (dir_assert pip m1 m2 ≫= k) s = Panic m1 s) /\
  (held_by (hartid (k_cpu s)) (i_slk n) -> d_type (i_d n) <> FT_DIR -> (dir_assert pip m1 m2 ≫= k) s = Panic m2 s).
Proof.
  intros Hn. unfold dir_assert. split.
  - intros Hh. mrun. rewrite (holding_islk _ _ _ _ Hn), bool_decide_eq_false_2 by done. mrun. by apply kassert_false.
  - intros Hh Ht. mrun. rewrite (holding_islk _ _ _ _ Hn), bool_decide_eq_true_2 by done. mrun.
    rewrite kassert_true by done. mrun. rewrite (bind_get_inode _ _ _ _ _ Hn). apply kassert_false. by apply Z.eqb_neq.
Qed.

(** The loops over the entries of a block. *)
Lemma read_held {B} s H i x l (k : list Z -> M (kstate D) B) : cache s ((i, x, l) :: H) ->
  (get_buf i data ≫= k) s = k l s.
Proof. exact (buf_data_ok s i x l H (fun l => l) k). Qed.

Lemma entry_scan_none {R} s H i x l (p : Z -> list Z -> bool) (hit : Z -> list Z -> M (kstate D) (option R)) offs :
  cache s ((i, x, l) :: H) -> List.find (fun o => p o l) offs = None ->
  for_return offs (fun offset => l ← get_buf i data; if p offset l then hit offset l else mret None) s = Ret None s.
Proof.
  intros Hc Hf. apply for_return_none. intros o Ho. rewrite (read_held _ _ _ _ _ _ Hc).
  by rewrite (List.find_none _ _ Hf o) by (by apply list_elem_of_In).
Qed.

Lemma entry_scan_hit {R} s H i x l (p : Z -> list Z -> bool) (hit : Z -> list Z -> M (kstate D) (option R)) o r s' offs :
  cache s ((i, x, l) :: H) -> List.find (fun o => p o l) offs = Some o -> hit o l s = Ret (Some r) s' ->
  for_return offs (fun offset => l ← get_buf i data; if p offset l then hit offset l else mret None) s
  = Ret (Some r) s'.
Proof.
  intros Hc Hf Hr. induction offs as [|o' offs IH]; [done|]. cbn [for_return List.find] in *.
  rewrite bind_bind, (read_held _ _ _ _ _ _ Hc). destruct (p o' l).
  - injection Hf as ->. by mstep ltac:(exact Hr).
  - mrun. by apply IH.
Qed.

(** *** Search *)

Lemma dir_search_entry_ok s H pip n a name : dir_at s H pip n a ->
  exists s', dir_search_entry pip name s
    = Ret (default INODE_NUM_UNUSED (dir_map (block (k_dev s) a) !! cstr name DIR_NAME_LEN)) s' /\
    becomes s (k_dev s) (cpu_touch (k_cpu s)) H s'.
Proof.
  intros Hd. unfold dir_search_entry. rewrite (dir_assert_ok _ _ _ _ _ _ _ _ Hd), (dir_block_ok _ _ _ _ _ _ Hd).
  destruct (da_read _ _ _ _ _ Hd) as (Hc & Hlen & Hx & Hnin).
  destruct (buf_read_ok s H a Hc Hlen Hx Hnin) as (i & s1 & Hr & H1). mstep ltac:(exact Hr).
  set (l := block (k_dev s) a) in *. pose proof (be_cache _ _ _ _ _ H1) as Hc1.
  destruct (buf_release_ok _ _ _ _ _ Hc1) as (s2 & Hs2 & H2).
  assert (becomes s (k_dev s) (cpu_touch (k_cpu s)) H s2) as Hb.
  { eapply becomes_done; [exact Hc | exact H1 |]. by rewrite (be_dev _ _ _ _ _ H1) in H2. }
  exists s2. split; [|done]. rewrite dir_map_lookup.
  assert (dfind l (cstr name DIR_NAME_LEN) = List.find (fun o => de_matches name o l) de_offsets) as Hfind.
  { apply find_ext. intros o _. by rewrite de_matches_eq. }
  rewrite Hfind. destruct (List.find _ de_offsets) as [o|] eqn:Hf; cbn [fmap option_fmap option_map default].
  - mstep ltac:(eapply (entry_scan_hit s1 _ _ _ _ (de_matches name)); [exact Hc1 | exact Hf | by mstep ltac:(exact Hs2)]). done.
  - mstep ltac:(eapply (entry_scan_none s1 _ _ _ _ (de_matches name)); [exact Hc1 | exact Hf]). cbv iota.
    by mstep ltac:(exact Hs2).
Qed.

(** *** Insertion *)

Lemma k_ic_frame s s' : frame s s' -> k_ic s' = k_ic s.
Proof. by intros ->. Qed.

Lemma add_scan s H pip n a num name : dir_at s H pip n a -> (forall i, 0 <= name i < 2 ^ 8) ->
  let l := block (k_dev s) a in
  exists s', (buf ← buf_read a;
    r ← for_return de_offsets (fun offset =>
      l ← get_buf buf data;
      if de_name l offset 0 =? 0 then
        upd_data buf (de_fill num name offset);;
        buf_write buf;;
        buf_release buf;;
        upd_dinode pip (set_d_size (offset + DIRENT_SIZE));;
        mret (Some offset)
      else mret None);
    match r with
    | Some offset => mret offset
    | None => buf_release buf;; mret BLOCK_SIZE
    end) s = Ret (default BLOCK_SIZE (dfree l)) s' /\
    match dfree l with
    | Some o => steps s s' (ic_put pip (set_i_d (set_d_size (o + DIRENT_SIZE) (i_d n)) n) (k_ic s))
                  (put_block (k_dev s) a (de_fill num name o l)) (cpu_touch (k_cpu s)) H
    | None => becomes s (k_dev s) (cpu_touch (k_cpu s)) H s'
    end.
Proof.
  intros Hd Hname l. destruct (da_read _ _ _ _ _ Hd) as (Hc & Hlen & Hx & Hnin).
  destruct (buf_read_ok s H a Hc Hlen Hx Hnin) as (i & s1 & Hr & H1). fold l in H1.
  pose proof (be_cache _ _ _ _ _ H1) as Hc1.
  assert (dfree l = List.find (fun o => de_name l o 0 =? 0) de_offsets) as Hfree.
  { apply find_ext. intros o _. unfold used. by rewrite negb_involutive. }
  rewrite Hfree. destruct (List.find _ de_offsets) as [o|] eqn:Hf; cbn [default].
  - assert (offset_ok o) as Ho by (apply List.find_some in Hf as [Hin _]; by apply de_offsets_ok, list_elem_of_In).
    destruct (upd_data_ok _ _ _ _ (de_fill num name o) _ Hc1) as (s2 & Hs2 & H2).
    { apply good_de_fill; [apply good_block | done..]. }
    destruct (buf_write_ok _ _ _ _ _ (be_cache _ _ _ _ _ H2)) as (s3 & Hs3 & H3).
    destruct (buf_release_ok _ _ _ _ _ (be_cache _ _ _ _ _ H3)) as (s4 & Hs4 & H4).
    pose proof (becomes_trans _ _ _ _ _ _ _ _ _ H2 (becomes_trans _ _ _ _ _ _ _ _ _ H3 H4)) as Hb.
    rewrite (be_dev _ _ _ _ _ H3), (be_dev _ _ _ _ _ H2), (be_dev _ _ _ _ _ H1), (be_cpu _ _ _ _ _ H3),
      (be_cpu _ _ _ _ _ H2) in Hb.
    pose proof (becomes_done _ _ _ _ _ _ _ _ Hc H1 Hb) as Hb4.
    assert (inode_of s4 pip = Some n) as Hn4.
    { rewrite (inode_of_frame s s4) by apply Hb4. apply Hd. }
    exists (put_inode pip (set_i_d (set_d_size (o + DIRENT_SIZE) (i_d n)) n) s4). split.
    + mstep ltac:(exact Hr).
      erewrite bind_ret_eq; [|eapply (entry_scan_hit s1 _ _ _ _ (fun o l => de_name l o 0 =? 0)
        (fun o _ => upd_data i (de_fill num name o);; buf_write i;; buf_release i;;
           upd_dinode pip (set_d_size (o + DIRENT_SIZE));; mret (Some o))); [exact Hc1 | exact Hf |]]; cycle 1.
      { mstep ltac:(exact Hs2). mstep ltac:(exact Hs3). mstep ltac:(exact Hs4).
        mstep ltac:(exact (upd_dinode_eq _ _ _ _ Hn4)). done. }
      done.
    + pose proof (becomes_steps _ _ _ _ _ Hb4) as Hst.
      pose proof (put_steps s4 pip (set_i_d (set_d_size (o + DIRENT_SIZE) (i_d n)) n) H (st_cache _ _ _ _ _ _ Hst)) as Hp.
      rewrite (st_ic _ _ _ _ _ _ Hst), (st_dev _ _ _ _ _ _ Hst), (st_cpu _ _ _ _ _ _ Hst) in Hp.
      by eapply steps_trans.
  - destruct (buf_release_ok _ _ _ _ _ Hc1) as (s2 & Hs2 & H2). exists s2. split.
    + mstep ltac:(exact Hr). mstep ltac:(eapply (entry_scan_none s1 _ _ _ _ (fun o l => de_name l o 0 =? 0)); [exact Hc1 | exact Hf]).
      cbv iota. by mstep ltac:(exact Hs2).
    + eapply becomes_done; [exact Hc | exact H1 |]. by rewrite (be_dev _ _ _ _ _ H1) in H2.
Qed.
(** [dir_search_entry] is the lookup in the directory's map from names to inode
    numbers: it returns the number under the name (its first 30 bytes), or
    INODE_NUM_UNUSED, and changes neither the disk nor the inodes; without the
    inode's lock, or on an inode that is not a directory, it panics. *)
Theorem dir_search_is_lookup s H pip n a name : inode_of s pip = Some n ->
  (dir_at s H pip n a -> exists s', dir_search_entry pip name s
      = Ret (default INODE_NUM_UNUSED (dir_map (block (k_dev s) a) !! cstr name DIR_NAME_LEN)) s' /\
    frame s s' /\ k_dev s' = k_dev s /\ cache s' H /\ k_cpu s' = cpu_touch (k_cpu s))
  /\ (~ held_by (hartid (k_cpu s)) (i_slk n) -> dir_search_entry pip name s = Panic "dir_search_entry: lock" s)
  /\ (held_by (hartid (k_cpu s)) (i_slk n) -> d_type (i_d n) <> FT_DIR ->
      dir_search_entry pip name s = Panic "dir_search_entry: not dir" s).
Proof.
  intros Hn. split.
  - intros Hd. destruct (dir_search_entry_ok s H pip n a name Hd) as (s' & Hs & []). by exists s'.
  - unfold dir_search_entry. by apply dir_assert_fails.
Qed.

(** C7: [dir_add_entry]: a name of 30 bytes or more, a name that the directory has,
    and a full directory give BLOCK_SIZE and leave the disk as it was; otherwise
    the first free entry is used: the directory's map gets the name with the
    number, all other names keep theirs, names stay distinct, no other block of
    the disk changes, and only the size field of the inode does. *)
Theorem dir_add_entry_inserts s H pip n a num name len :
  dir_at s H pip n a -> strlen NAME_FUEL name = Some len -> (forall i, 0 <= name i < 2 ^ 8) -> 0 < len ->
  0 <= num < 2 ^ 16 -> 0 <= a < 2 ^ 31 -> names_distinct (block (k_dev s) a) ->
  let m := dir_map (block (k_dev s) a) in
  let nm := cstr name DIR_NAME_LEN in
  (DIR_NAME_LEN <= len -> dir_add_entry pip num name s = Ret BLOCK_SIZE s)
  /\ (len < DIR_NAME_LEN -> default INODE_NUM_UNUSED (m !! nm) <> INODE_NUM_UNUSED \/ m !! nm = None /\ dfree (block (k_dev s) a) = None ->
      exists s', dir_add_entry pip num name s = Ret BLOCK_SIZE s' /\ becomes s (k_dev s) (cpu_touch (k_cpu s)) H s')
  /\ (forall o, len < DIR_NAME_LEN -> m !! nm = None -> dfree (block (k_dev s) a) = Some o ->
      exists s', dir_add_entry pip num name s = Ret o s' /\ cache s' H /\ frame_ic s s' /\
        dir_map (block (k_dev s') a) = <[nm := num]> m /\ names_distinct (block (k_dev s') a) /\
        (forall x, 0 <= x < 2 ^ 31 -> x <> a -> block (k_dev s') x = block (k_dev s) x) /\
        k_ic s' = ic_put pip (set_i_d (set_d_size (o + DIRENT_SIZE) (i_d n)) n) (k_ic s)).
Proof.
  intros Hd Hlen Hname H0 Hnum Ha Hdist m nm. destruct (strlen_name _ _ _ Hlen) as [_ Hnl].
  destruct (dir_search_entry_ok s H pip n a name Hd) as (s1 & Hs1 & H1). fold m nm in Hs1.
  assert (dir_at s1 H pip n a) as Hd1 by (by eapply dir_at_becomes).
  destruct (add_scan s1 H pip n a num name Hd1 Hname) as (s2 & Hs2 & H2).
  rewrite (be_dev _ _ _ _ _ H1), (be_cpu _ _ _ _ _ H1), cpu_touch_idemp in *.
  rewrite (k_ic_frame _ _ (be_frame _ _ _ _ _ H1)) in H2.
  unfold dir_add_entry. rewrite (dir_assert_ok _ _ _ _ _ _ _ _ Hd), Hlen. mrun. split_and!.
  - intros Hle. by rewrite (proj2 (Z.leb_le _ _) Hle).
  - intros Hlt Hwhy. rewrite (proj2 (Z.leb_gt _ _) Hlt). mstep ltac:(exact Hs1).
    destruct Hwhy as [Hdup | [-> Hfull]].
    + rewrite (proj2 (Z.eqb_neq _ _) Hdup). by exists s1.
    + cbn [default]. rewrite Z.eqb_refl. cbn [negb]. rewrite (dir_block_ok _ _ _ _ _ _ Hd1), Hs2, Hfull.
      exists s2. rewrite Hfull in H2. split; [done|].
      eapply becomes_trans; [exact H1|]. exact H2.
  - intros o Hlt Hnone Hfree. rewrite (proj2 (Z.leb_gt _ _) Hlt). mstep ltac:(exact Hs1). rewrite Hnone.
    cbn [default]. rewrite Z.eqb_refl. cbn [negb]. rewrite (dir_block_ok _ _ _ _ _ _ Hd1), Hs2, Hfree.
    rewrite Hfree in H2. exists s2. destruct H2 as [Hf2 Hic2 Hdev2 Hcpu2 Hc2]. rewrite Hic2, Hdev2.
    destruct (dfree_Some _ _ Hfree) as [Ho Hu].
    destruct (good_de_fill num name o _ (good_block (k_dev s) a) Ho Hname) as [Hg1 Hg2].
    rewrite block_put_eq by done.
    destruct (dir_map_fill num name o (block (k_dev s) a) nm) as [Hmap Hnd]; try done.
    + apply good_block.
    + unfold m in Hnone. rewrite dir_map_lookup in Hnone. by apply fmap_None in Hnone.
    + unfold nm. intros Hnil. rewrite Hnil in Hnl. unfold DIR_NAME_LEN in Hnl. simpl in Hnl. lia.
    + unfold nm. lia.
    + split_and!; try done.
      * etransitivity; [apply frame_frame_ic, H1 | done].
      * intros x Hx Hne. by rewrite block_put_ne.
Qed.

(** C8: [dir_delete_entry] returns the number under the name and removes exactly
    this name from the directory's map (INODE_NUM_UNUSED and no change of the
    disk when the name is not there); names stay distinct, and no other block of
    the disk and no inode changes. *)
Theorem dir_delete_entry_removes s H pip n a name :
  dir_at s H pip n a -> 0 <= a < 2 ^ 31 -> names_distinct (block (k_dev s) a) ->
  let m := dir_map (block (k_dev s) a) in
  let nm := cstr name DIR_NAME_LEN in
  exists s', dir_delete_entry pip name s = Ret (default INODE_NUM_UNUSED (m !! nm)) s' /\ cache s' H /\ frame s s' /\
    k_cpu s' = cpu_touch (k_cpu s) /\
    dir_map (block (k_dev s') a) = delete nm m /\ names_distinct (block (k_dev s') a) /\
    (m !! nm = None -> k_dev s' = k_dev s) /\
    (forall x, 0 <= x < 2 ^ 31 -> x <> a -> block (k_dev s') x = block (k_dev s) x).
Proof.
  intros Hd Ha Hdist m nm. unfold dir_delete_entry.
  rewrite (dir_assert_ok _ _ _ _ _ _ _ _ Hd), (dir_block_ok _ _ _ _ _ _ Hd).
  destruct (da_read _ _ _ _ _ Hd) as (Hc & Hlen & Hx & Hnin).
  destruct (buf_read_ok s H a Hc Hlen Hx Hnin) as (i & s1 & Hr & H1). mstep ltac:(exact Hr).
  set (l := block (k_dev s) a) in *. pose proof (be_cache _ _ _ _ _ H1) as Hc1.
  assert (dfind l nm = List.find (fun o => de_matches name o l) de_offsets) as Hfind.
  { apply find_ext. intros o _. by rewrite de_matches_eq. }
  assert (m !! nm = de_num l <$> dfind l nm) as Hm by apply dir_map_lookup. rewrite Hm.
  destruct (dfind l nm) as [o|] eqn:Hf; cbn [fmap option_fmap option_map default].
  - destruct (dfind_Some _ _ _ Hf) as [Ho _].
    destruct (upd_data_ok _ _ _ _ (de_clear o) _ Hc1) as (s2 & Hs2 & H2).
    { apply good_de_clear; [apply good_block | done]. }
    destruct (buf_write_ok _ _ _ _ _ (be_cache _ _ _ _ _ H2)) as (s3 & Hs3 & H3).
    destruct (buf_release_ok _ _ _ _ _ (be_cache _ _ _ _ _ H3)) as (s4 & Hs4 & H4).
    pose proof (becomes_trans _ _ _ _ _ _ _ _ _ H2 (becomes_trans _ _ _ _ _ _ _ _ _ H3 H4)) as Hb.
    rewrite (be_dev _ _ _ _ _ H3), (be_dev _ _ _ _ _ H2), (be_dev _ _ _ _ _ H1), (be_cpu _ _ _ _ _ H3),
      (be_cpu _ _ _ _ _ H2) in Hb.
    pose proof (becomes_done _ _ _ _ _ _ _ _ Hc H1 Hb) as Hb4. exists s4.
    destruct (good_de_clear o l (good_block _ _) Ho) as [Hg1 Hg2]. rewrite (be_dev _ _ _ _ _ Hb4), block_put_eq by done.
    destruct (dir_map_clear o l nm (good_block _ _) Hdist Hf) as [Hmap Hnd].
    split_and!; try done; try apply Hb4.
    + mstep ltac:(eapply (entry_scan_hit s1 _ _ _ _ (de_matches name) (fun o l => upd_data i (de_clear o);; buf_write i;; buf_release i;;
        mret (Some (de_num l o)))); [exact Hc1 | by rewrite <- Hfind |
        mstep ltac:(exact Hs2); mstep ltac:(exact Hs3); mstep ltac:(exact Hs4); reflexivity]). done.
    + intros x Hx' Hne. by rewrite block_put_ne.
  - destruct (buf_release_ok _ _ _ _ _ Hc1) as (s2 & Hs2 & H2). exists s2.
    assert (becomes s (k_dev s) (cpu_touch (k_cpu s)) H s2) as Hb.
    { eapply becomes_done; [exact Hc | exact H1 |]. by rewrite (be_dev _ _ _ _ _ H1) in H2. }
    rewrite (be_dev _ _ _ _ _ Hb). split_and!; try done; try apply Hb.
    + mstep ltac:(eapply (entry_scan_none s1 _ _ _ _ (de_matches name)); [exact Hc1 | by rewrite <- Hfind]).
      cbv iota. by mstep ltac:(exact Hs2).
    + fold l m. symmetry. apply delete_id. by rewrite Hm.
Qed.
(** *** Listing *)

Definition used_offsets (l : list Z) : list Z := filter (fun o => used l o = true) de_offsets.
Definition entry_bytes (l : list Z) (offs : list Z) : list Z := concat ((fun o => slice l o DIRENT_SIZE) <$> offs).

Lemma get_entries_loop_ok i x l H len put (mp : Z -> list Z -> mem -> mem) : forall offs s copied,
  (forall off bs s, put off bs s = Ret tt (set_k_mem (mp off bs (k_mem s)) s)) ->
  cache s ((i, x, l) :: H) -> copied <= len ->
  let todo := take (Z.to_nat ((len - copied) / DIRENT_SIZE)) (filter (fun o => used l o = true) offs) in
  exists m, get_entries_loop offs i len copied put s
      = Ret (copied + DIRENT_SIZE * Z.of_nat (length todo)) (set_k_mem m s) /\
    ((forall off bs m, mp off bs m = m) -> m = k_mem s) /\
    (forall dst, (forall off bs m, mp off bs m = write_bytes m (dst + off) bs) -> good_data l -> Forall offset_ok offs ->
       m = write_bytes (k_mem s) (dst + copied) (entry_bytes l todo)).
Proof.
  induction offs as [|o offs IH]; intros s copied Hput Hc Hle; cbn [get_entries_loop].
  - exists (k_mem s). rewrite filter_nil, take_nil. cbn [length]. rewrite Z.mul_0_r, Z.add_0_r.
    split_and!; [by destruct s | done | done].
  - unfold DIRENT_SIZE in *. destruct (Z.leb_spec (copied + 32) len) as [Hroom|Hfull].
    + rewrite (read_held _ _ _ _ _ _ Hc). fold (used l o). rewrite filter_cons.
      destruct (used l o) eqn:Hu; [rewrite decide_True by done | rewrite decide_False by done].
      * assert (Z.to_nat ((len - copied) / 32) = S (Z.to_nat ((len - (copied + 32)) / 32))) as Hk.
        { replace (len - copied) with (len - (copied + 32) + 1 * 32) by lia. rewrite Z.div_add by done.
          pose proof (Z.div_pos (len - (copied + 32)) 32 ltac:(lia) ltac:(lia)). lia. }
        rewrite Hk, firstn_cons. set (s1 := set_k_mem (mp copied (slice l o 32) (k_mem s)) s).
        mstep ltac:(exact (Hput _ _ _)). fold s1.
        destruct (IH s1 (copied + 32) Hput) as (m & Hm & Hid & Hwr); [by apply (cache_ext s) | lia |].
        exists m. rewrite Hm. cbn [length]. split_and!.
        -- f_equal. lia.
        -- intros Hmp. rewrite Hid by done. unfold s1. simpl. by rewrite Hmp.
        -- intros dst Hmp Hl [Ho Hos]%list.Forall_cons. destruct (offset_range _ Ho). rewrite (Hwr dst Hmp Hl Hos).
           unfold entry_bytes. rewrite fmap_cons. cbn [concat]. rewrite write_bytes_app.
           unfold s1. cbn [k_mem set_k_mem]. rewrite Hmp. f_equal.
           pose proof (length_good _ Hl). unfold DIRENT_SIZE. rewrite length_slice by lia. lia.
      * destruct (IH s copied Hput Hc Hle) as (m & Hm & Hid & Hwr). exists m. split_and!; [exact Hm | done |].
        intros dst Hmp Hl [_ Hos]%list.Forall_cons. by apply Hwr.
    + rewrite Z.div_small by lia. cbn [take length]. exists (k_mem s).
      split_and!; [|done|done]. rewrite Z.mul_0_r, Z.add_0_r. by destruct s.
Qed.

Lemma dir_get_entries_ok s H pip n a len put (mp : Z -> list Z -> mem -> mem) :
  dir_at s H pip n a -> 0 <= len ->
  (forall off bs s, put off bs s = Ret tt (set_k_mem (mp off bs (k_mem s)) s)) ->
  let l := block (k_dev s) a in
  let todo := take (Z.to_nat (len / DIRENT_SIZE)) (used_offsets l) in
  exists m s', dir_get_entries pip len put s = Ret (DIRENT_SIZE * Z.of_nat (length todo)) s' /\
    becomes (set_k_mem m s) (k_dev s) (cpu_touch (k_cpu s)) H s' /\
    ((forall off bs m, mp off bs m = m) -> m = k_mem s) /\
    (forall dst, (forall off bs m, mp off bs m = write_bytes m (dst + off) bs) ->
       m = write_bytes (k_mem s) dst (entry_bytes l todo)).
Proof.
  intros Hd Hle Hput l todo. unfold dir_get_entries.
  rewrite (dir_assert_ok _ _ _ _ _ _ _ _ Hd), (dir_block_ok _ _ _ _ _ _ Hd).
  destruct (da_read _ _ _ _ _ Hd) as (Hc & Hlen & Hx & Hnin).
  destruct (buf_read_ok s H a Hc Hlen Hx Hnin) as (i & s1 & Hr & H1). mstep ltac:(exact Hr). fold l in H1.
  destruct (get_entries_loop_ok i a l H len put mp de_offsets s1 0 Hput (be_cache _ _ _ _ _ H1) Hle) as (m & Hm & Hid & Hwr).
  rewrite Z.sub_0_r in Hm, Hwr. mstep ltac:(exact Hm).
  pose proof (becomes_set_mem _ _ _ _ _ m H1) as H1'.
  destruct (buf_release_ok _ _ _ _ _ (be_cache _ _ _ _ _ H1')) as (s2 & Hs2 & H2). mstep ltac:(exact Hs2).
  assert (k_mem s1 = k_mem s) as Hms by (by rewrite (k_mem_frame _ _ (be_frame _ _ _ _ _ H1))).
  exists m, s2. split_and!; [done | | by rewrite <- Hms |].
  - rewrite (be_dev _ _ _ _ _ H1') in H2. eapply (becomes_done (set_k_mem m s)); [by apply (cache_ext s) | exact H1' | exact H2].
  - intros dst Hmp. rewrite (Hwr dst Hmp); [by rewrite Hms, Z.add_0_r | apply good_block |].
    apply Forall_of_elem. intros o Ho. by apply de_offsets_ok.
Qed.

(** [dir_get_entries] copies to [dst] the 32-byte entries in use, in their order
    in the block and as many as fit in [len] bytes, returns the number of bytes
    copied, and leaves the disk as it was. *)
Theorem dir_get_entries_copies s H pip n a len dst : dir_at s H pip n a -> 0 <= len ->
  let l := block (k_dev s) a in
  let copied := take (Z.to_nat (len / DIRENT_SIZE)) (used_offsets l) in
  exists s', dir_get_entries pip len (fun off bs => mem_put (dst + off) bs) s = Ret (DIRENT_SIZE * Z.of_nat (length copied)) s' /\
    DIRENT_SIZE * Z.of_nat (length copied) <= len /\
    k_mem s' = write_bytes (k_mem s) dst (entry_bytes l copied) /\ k_dev s' = k_dev s /\ cache s' H /\ k_ic s' = k_ic s.
Proof.
  intros Hd Hlen l copied.
  destruct (dir_get_entries_ok s H pip n a len (fun off bs => mem_put (dst + off) bs) (fun off bs m => write_bytes m (dst + off) bs) Hd Hlen)
    as (m & s' & Hs' & Hb & _ & Hwr); [done|]. fold l copied in Hs', Hwr.
  exists s'. split_and!; [done | | | apply Hb | apply Hb |].
  - assert (length copied <= Z.to_nat (len / DIRENT_SIZE))%nat by (unfold copied; rewrite length_take; lia).
    pose proof (Z.mul_div_le len DIRENT_SIZE ltac:(done)). pose proof (Z.div_pos len DIRENT_SIZE Hlen ltac:(done)).
    unfold DIRENT_SIZE in *. lia.
  - rewrite (k_mem_frame _ _ (be_frame _ _ _ _ _ Hb)). by apply Hwr.
  - by rewrite (k_ic_frame _ _ (be_frame _ _ _ _ _ Hb)).
Qed.

(** [check_unlink] tells whether a directory can be removed: true when exactly
    two entries are in use ("." and ".."), false when there are more, and panic
    when there are fewer; memory and disk are unchanged. *)
Theorem check_unlink_counts s H pip n a : dir_at s H pip n a ->
  let k := length (used_offsets (block (k_dev s) a)) in
  (2 <= k -> exists s', check_unlink pip s = Ret (bool_decide (k = 2%nat)) s' /\
     becomes s (k_dev s) (cpu_touch (k_cpu s)) H s')%nat
  /\ (k < 2 -> exists s', check_unlink pip s = Panic "check_unlink: read_len" s')%nat.
Proof.
  intros Hd k. unfold check_unlink. rewrite (holding_islk _ _ _ _ (da_inode _ _ _ _ _ Hd)), bool_decide_eq_true_2 by apply Hd.
  rewrite kassert_true by done.
  destruct (dir_get_entries_ok s H pip n a (DIRENT_SIZE * 3) (fun _ _ => (mret tt : M (kstate D) unit)) (fun _ _ m => m) Hd) as (m & s' & Hs' & Hb & Hid & _);
    [unfold DIRENT_SIZE; lia | intros ? ? []; done |].
  rewrite Hid in Hb by done. replace (set_k_mem (k_mem s) s) with s in Hb by (by destruct s).
  change (Z.to_nat (DIRENT_SIZE * 3 / DIRENT_SIZE)) with 3%nat in Hs'. rewrite length_take in Hs'. fold k in Hs'.
  mstep ltac:(exact Hs'). unfold DIRENT_SIZE. split; intros Hk.
  - exists s'. split; [|done]. destruct (decide (k = 2%nat)) as [->|Hne]; [done|].
    rewrite bool_decide_false by done. replace (3 `min` k)%nat with 3%nat by lia. done.
  - exists s'. assert (k = 0 \/ k = 1)%nat as [-> | ->] by lia; done.
Qed.
End Spec.

(** ** Witnesses: the root directory, with the entries ".", ".." and "a" *)

Definition dir_entry (num : Z) (nm : list Z) : list Z := le_bytes 2 num ++ nm ++ replicate (30 - length nm) 0.
Definition demo_dir : list Z :=
  dir_entry 0 [46] ++ dir_entry 0 [46; 46] ++ dir_entry 1 [97] ++ replicate 928 0.
Definition root_dinode : dinode := mk_dinode FT_DIR 0 0 1 96 (141 :: replicate 12 0).
Definition file_dinode : dinode := mk_dinode FT_FILE 0 0 1 0 (replicate 13 0).
Definition dir_disk : memdisk :=
  put_block (put_block demo_disk 2 (encode root_dinode ++ encode file_dinode ++ replicate 896 0)) 141 demo_dir.
Definition root_inode : inode := mk_inode root_dinode 0 1 true (take_lock 0 zero_lock).

Definition distinct_check (l : list Z) : bool :=
  forallb (fun o => forallb (fun o' => negb (used l o && used l o' && bool_decide (ename l o = ename l o')) || (o =? o')) de_offsets)
    de_offsets.

Lemma distinct_check_ok l : distinct_check l = true -> names_distinct l.
Proof.
  intros Hd o o' Ho%de_offsets_ok%list_elem_of_In Ho'%de_offsets_ok%list_elem_of_In Hu Hu' He.
  pose proof (proj1 (List.forallb_forall _ _) Hd o Ho) as Ho2. cbv beta in Ho2.
  pose proof (proj1 (List.forallb_forall _ _) Ho2 o' Ho') as Ho3. cbv beta in Ho3.
  rewrite Hu, Hu', bool_decide_true in Ho3 by done. by apply Z.eqb_eq in Ho3.
Qed.

Lemma dir_kernel : exists s : kstate memdisk,
  k_dev s = dir_disk /\ block (k_dev s) 141 = demo_dir /\ names_distinct demo_dir /\ dir_at s [] 0 root_inode 141.
Proof.
  destruct (fresh_kernel dir_disk demo_sb (one_inode root_inode)) as (s & Hd & Hsb & Hic & Hcpu & Hc). exists s.
  split_and!; [done | rewrite Hd; by vm_compute | by apply distinct_check_ok; vm_compute |].
  split; [unfold inode_of; by rewrite Hic | by rewrite Hcpu | done..|].
  split_and!; [done | unfold N_BLOCK_BUF; simpl; lia | done | apply not_elem_of_nil].
Qed.

(** The string "a" and the new name "b". *)
Definition name_a : Z -> Z := lit [97].
Definition name_b : Z -> Z := lit [98].

Lemma lit_range (l : list Z) : is_bytes l -> forall i, 0 <= lit l i < 2 ^ 8.
Proof.
  intros Hl i. unfold lit, arr_view, byte_at. assert (is_bytes (l ++ [0])) as Hb.
  { apply Forall_app. split; [done | by repeat constructor]. }
  rewrite list_lookup_total_alt. destruct ((l ++ [0]) !! Z.to_nat i) as [b|] eqn:Hi; [|done].
  by apply (Forall_lookup_1 _ _ _ _ Hb Hi).
Qed.

Lemma dir_search_is_lookup_witness : exists s s' : kstate memdisk, dir_search_entry 0 name_a s = Ret 1 s'.
Proof.
  destruct dir_kernel as (s & Hd & Hb & Hnd & Hat). exists s.
  destruct (dir_search_is_lookup s [] 0 root_inode 141 name_a (da_inode _ _ _ _ _ Hat)) as [Hs _].
  destruct (Hs Hat) as (s' & Hs' & _). exists s'. rewrite Hb in Hs'. rewrite Hs'. f_equal; vm_compute; reflexivity.
Defined.

Lemma dir_add_entry_inserts_witness : exists s s' : kstate memdisk,
  dir_add_entry 0 7 name_b s = Ret 96 s' /\ dir_map (block (k_dev s') 141) !! [98] = Some 7.
Proof.
  destruct dir_kernel as (s & Hd & Hb & Hnd & Hat). exists s.
  destruct (dir_add_entry_inserts s [] 0 root_inode 141 7 name_b 1 Hat) as (_ & _ & Hs).
  - vm_compute. reflexivity.
  - apply lit_range. repeat constructor; lia.
  - lia.
  - lia.
  - lia.
  - rewrite Hb. exact Hnd.
  - destruct (Hs 96) as (s' & Hs' & _ & _ & Hm & _).
    + unfold DIR_NAME_LEN. lia.
    + rewrite Hb. vm_compute. reflexivity.
    + rewrite Hb. vm_compute. reflexivity.
    + exists s'. split; [exact Hs'|]. rewrite Hm. apply lookup_insert_eq.
Defined.

Lemma dir_delete_entry_removes_witness : exists s s' : kstate memdisk,
  dir_delete_entry 0 name_a s = Ret 1 s' /\ dir_map (block (k_dev s') 141) !! [97] = None.
Proof.
  destruct dir_kernel as (s & Hd & Hb & Hnd & Hat). exists s.
  destruct (dir_delete_entry_removes s [] 0 root_inode 141 name_a Hat) as (s' & Hs' & _ & _ & _ & Hm & _).
  - lia.
  - rewrite Hb. exact Hnd.
  - exists s'. split; [rewrite Hb in Hs'; rewrite Hs'; f_equal; vm_compute; reflexivity|].
    rewrite Hm. apply lookup_delete_eq.
Defined.

Lemma dir_get_entries_copies_witness : exists s s' : kstate memdisk,
  dir_get_entries 0 100 (fun off bs => mem_put (0x80005000 + off) bs) s = Ret 96 s'.
Proof.
  destruct dir_kernel as (s & Hd & Hb & Hnd & Hat). exists s.
  destruct (dir_get_entries_copies s [] 0 root_inode 141 100 0x80005000 Hat) as (s' & Hs' & _); [lia|].
  exists s'. rewrite Hb in Hs'. rewrite Hs'. f_equal; vm_compute; reflexivity.
Defined.

Lemma check_unlink_counts_witness : exists s s' : kstate memdisk, check_unlink 0 s = Ret false s'.
Proof.
  destruct dir_kernel as (s & Hd & Hb & Hnd & Hat). exists s.
  destruct (check_unlink_counts s [] 0 root_inode 141 Hat) as [Hc _]. rewrite Hb in Hc.
  destruct Hc as (s' & Hs' & _); [vm_compute; lia|]. exists s'. rewrite Hs'. f_equal; vm_compute; reflexivity.
Defined.
