(* ===== verification/PathSpec.v ===== *)
(** * PathSpec: paths as lists of names, and what a path leads to

    [components] is the reference view of a path and [follow] what it means on
    the disk; [path_to_inode] and [path_to_pinode] compute it, and leave no lock
    and no reference behind. *)

From S2P Require Import Prelude Bytes Kstring Spinlock Kernel Disk Buf BufSpec Bitmap BitmapSpec.
From S2P Require Import Inode InodeMeta InodeSpec InodeData Dir DirSpec.

(** ** Components *)

(** The pieces between slashes. *)
Fixpoint split_path (p : list Z) : list (list Z) :=
  match p with
  | [] => [[]]
  | c :: p' =>
      if c =? SLASH then [] :: split_path p'
      else match split_path p' with e :: es => (c :: e) :: es | [] => [[c]] end
  end.
Definition components (p : list Z) : list (list Z) := filter (fun e => e <> []) (split_path p).

(** A name in a local array is cut to 29 bytes. *)
Definition cut (e : list Z) : list Z := take 29 e.

Lemma split_path_cons p : exists e es, split_path p = e :: es.
Proof. induction p as [|c p (e & es & IH)]; simpl; [eauto|]. rewrite IH. destruct (c =? SLASH); eauto. Qed.

Lemma components_slash p : components (SLASH :: p) = components p.
Proof. unfold components. cbn [split_path]. rewrite Z.eqb_refl, filter_cons. by rewrite decide_False by auto. Qed.

Lemma components_skip p : components (skip_slashes p) = components p.
Proof.
  induction p as [|c p IH]; [done|]. cbn [skip_slashes]. destruct (Z.eqb_spec c SLASH) as [->|]; [|done].
  by rewrite components_slash.
Qed.

Lemma length_skip p : (length (skip_slashes p) <= length p)%nat.
Proof. induction p as [|c p IH]; simpl; [lia|]. case_match; simpl; lia. Qed.

Lemma skip_slashes_head c p q : skip_slashes p = c :: q -> c <> SLASH.
Proof.
  induction p as [|c' p IH]; cbn [skip_slashes]; [done|]. destruct (Z.eqb_spec c' SLASH); [done|]. congruence.
Qed.

Lemma take_element_spec p e r : take_element p = (e, r) ->
  p = e ++ r /\ (r = [] \/ exists q, r = SLASH :: q) /\
  split_path p = match split_path r with x :: xs => (e ++ x) :: xs | [] => [e] end.
Proof.
  revert e; induction p as [|c p IH]; intros e; cbn [take_element].
  - intros [= <- <-]. split_and!; [done | by left | done].
  - destruct (Z.eqb_spec c SLASH) as [->|Hc].
    + intros [= <- <-]. split_and!; [done | right; eauto | done].
    + destruct (take_element p) as [e' r'] eqn:Ht. intros [= <- <-]. destruct (IH e' eq_refl) as (-> & Hr & Hs).
      split_and!; [done | done |]. cbn [split_path]. rewrite (proj2 (Z.eqb_neq _ _) Hc), Hs.
      destruct (split_path_cons r') as (x & xs & ->). done.
Qed.

(** The first component and what is behind it. *)
Lemma components_take c p e r : c <> SLASH -> take_element (c :: p) = (e, r) ->
  e <> [] /\ components (c :: p) = e :: components (skip_slashes r).
Proof.
  intros Hc Ht. destruct (take_element_spec _ _ _ Ht) as (Hp & Hr & Hs).
  assert (e <> []) as He.
  { cbn [take_element] in Ht. rewrite (proj2 (Z.eqb_neq _ _) Hc) in Ht. destruct (take_element p). by injection Ht as <- _. }
  split; [done|]. rewrite components_skip. unfold components. rewrite Hs.
  destruct Hr as [-> | (q & ->)].
  - cbn [split_path]. rewrite app_nil_r, filter_cons. by rewrite decide_True by done.
  - cbn [split_path]. rewrite Z.eqb_refl, app_nil_r, !filter_cons. by rewrite decide_True, decide_False by auto.
Qed.

Lemma components_nil p : components p = [] <-> skip_slashes p = [].
Proof.
  rewrite <- components_skip. destruct (skip_slashes p) as [|c q] eqn:Hs; [done|].
  pose proof (skip_slashes_head _ _ _ Hs) as Hc. destruct (take_element (c :: q)) as [e r] eqn:Ht.
  destruct (components_take _ _ _ _ Hc Ht) as [_ ->]. done.
Qed.

Lemma Forall_skip (P : Z -> Prop) p : Forall P p -> Forall P (skip_slashes p).
Proof. induction 1; simpl; [constructor|]. case_match; [done|]. by constructor. Qed.

(** The local array after [name\[len\] = 0]. *)
Lemma cstr_blit_name name e : length name = Z.to_nat DIR_NAME_LEN -> Forall (fun c => c <> 0) e ->
  Z.of_nat (length e) < DIR_NAME_LEN ->
  cstr (arr_view (blit (blit name 0 e) (Z.of_nat (length e)) [0])) DIR_NAME_LEN = e.
Proof.
  intros Hn He Hl. unfold DIR_NAME_LEN in *.
  assert (length (blit name 0 e) = length name) as Hl1 by (apply length_blit; lia).
  assert (forall j, 0 <= j < 30 -> arr_view (blit (blit name 0 e) (Z.of_nat (length e)) [0]) j
    = if decide (j = Z.of_nat (length e)) then 0 else if decide (j < Z.of_nat (length e)) then byte_at e j else byte_at name j) as Hb.
  { intros j Hj. unfold arr_view. rewrite byte_at_blit_len by (rewrite ?Hl1; simpl; lia). cbn [length].
    destruct (decide (j = _)) as [->|Hne].
    - rewrite decide_True by lia. by rewrite Z.sub_diag.
    - rewrite decide_False by lia. rewrite byte_at_blit_len by lia.
      destruct (decide (j < _)); [rewrite decide_True by lia; f_equal; lia | by rewrite decide_False by lia]. }
  unfold cstr. apply cstr_from_unique; [lia | |].
  - intros j a Hj. pose proof (lookup_lt_Some _ _ _ Hj). rewrite Hb, decide_False, decide_True by lia. split.
    + unfold byte_at. replace (Z.to_nat (0 + Z.of_nat j)) with j by lia. by apply list_lookup_total_correct.
    + by eapply Forall_lookup_1 in He.
  - intros Hlt. rewrite Hb, decide_True by lia. done.
Qed.

(** The cut name of a long component. *)
Lemma blit_long name e : length name = Z.to_nat DIR_NAME_LEN -> DIR_NAME_LEN <= Z.of_nat (length e) ->
  blit (blit name 0 (take (Z.to_nat DIR_NAME_LEN) e)) (DIR_NAME_LEN - 1) [0]
  = blit (blit name 0 (cut e)) (Z.of_nat (length (cut e))) [0].
Proof.
  intros Hn Hl. unfold DIR_NAME_LEN in *. change (Z.to_nat 30) with 30%nat in *.
  assert (length (cut e) = 29%nat) as Hc by (unfold cut; rewrite length_take; lia).
  assert (length (take 30 e) = 30%nat) as Ht by (rewrite length_take; lia).
  rewrite Hc. change (30 - 1) with (Z.of_nat 29).
  assert (forall l : list Z, length l = 30%nat -> blit l (Z.of_nat 29) [0] = take 29 l ++ [0]) as Hlast.
  { intros l Hl30. unfold blit. rewrite Nat2Z.id, (drop_ge l) by (simpl; lia). done. }
  rewrite !Hlast by (rewrite length_blit; lia). f_equal. unfold blit. change (Z.to_nat 0) with 0%nat.
  rewrite !take_0, !app_nil_l. rewrite !take_app_le by lia. rewrite take_take, (take_ge (cut e)) by lia. done.
Qed.

(** [skip_element] takes the first component of a path, cut to 29 bytes, into
    [name] and returns the path of the others, without leading slashes and
    shorter; it returns NULL, and leaves [name] alone, when there is none. *)
Theorem skip_element_components path name :
  Forall (fun c => c <> 0) path -> length name = Z.to_nat DIR_NAME_LEN ->
  match components path with
  | [] => skip_element path name = (None, name)
  | e :: es => exists rest name', skip_element path name = (Some rest, name') /\
      components rest = es /\ (rest = [] <-> es = []) /\ (length rest < length path)%nat /\
      length name' = Z.to_nat DIR_NAME_LEN /\ cstr (arr_view name') DIR_NAME_LEN = cut e /\
      Forall (fun c => c <> 0) rest
  end.
Proof.
  intros Hp Hn. rewrite <- components_skip. unfold skip_element.
  pose proof (length_skip path) as Hlp. pose proof (Forall_skip _ _ Hp) as Hsp.
  destruct (skip_slashes path) as [|c q] eqn:Hs; [done|]. pose proof (skip_slashes_head _ _ _ Hs) as Hc.
  destruct (take_element (c :: q)) as [e r] eqn:Ht. destruct (components_take _ _ _ _ Hc Ht) as [Hne ->].
  destruct (take_element_spec _ _ _ Ht) as (Heq & _ & _). rewrite Heq in Hsp, Hlp. apply Forall_app in Hsp as [He Hr].
  rewrite length_app in Hlp. pose proof (length_skip r). assert (0 < length e)%nat by (destruct e; simpl; [done | lia]).
  set (name' := if DIR_NAME_LEN <=? Z.of_nat (length e) then _ else _).
  assert (name' = blit (blit name 0 (cut e)) (Z.of_nat (length (cut e))) [0]) as Hname.
  { unfold name'. destruct (Z.leb_spec DIR_NAME_LEN (Z.of_nat (length e))); [by apply blit_long|].
    unfold cut, DIR_NAME_LEN in *. by rewrite take_ge by lia. }
  assert (Z.of_nat (length (cut e)) < DIR_NAME_LEN) as Hcut by (unfold cut, DIR_NAME_LEN; rewrite length_take; lia).
  exists (skip_slashes r), name'. split_and!; [done | done | | lia | | | by apply Forall_skip].
  - rewrite components_skip, components_nil. done.
  - rewrite Hname. unfold DIR_NAME_LEN in *. rewrite !length_blit; [done | lia | lia | lia |].
    rewrite length_blit by lia. simpl. lia.
  - rewrite Hname. apply cstr_blit_name; [done | | done]. unfold cut. by apply Forall_take.
Qed.

(** ** What a path means on the disk *)

Section Path.
Context {D : Type} `{!BlockDev D, !BlockDevLaws D, !DiskDriver D, !DiskDriverOk D}.
Implicit Types (s : kstate D) (H : list hbuf) (d : D).

Definition addr0 (di : dinode) : Z := default 0 (d_addrs di !! 0%nat).
Definition is_dir d (sb : super_block) (num : Z) : bool := d_type (disk_inode d sb num) =? FT_DIR.

(** The inode number under a name in the directory [num]. *)
Definition dir_step d (sb : super_block) (num : Z) (e : list Z) : option Z :=
  match dir_map (block d (addr0 (disk_inode d sb num))) !! cut e with
  | Some m => if m =? INODE_NUM_UNUSED then None else Some m
  | None => None
  end.

(** The inode that a list of names leads to, from the directory [num]; with
    [parent], the directory that holds the last name. *)
Fixpoint follow (parent : bool) d (sb : super_block) (num : Z) (names : list (list Z)) : option Z :=
  match names with
  | [] => if parent then None else Some num
  | e :: es =>
      if is_dir d sb num then
        if parent && bool_decide (es = []) then Some num
        else match dir_step d sb num e with Some num' => follow parent d sb num' es | None => None end
      else None
  end.

Definition blk_free H (x : Z) : Prop := blk_ok x /\ x ∉ h_blk <$> H.

(** The inodes on the way have links, and they and their blocks can be read. *)
Fixpoint walk_ok H d (sb : super_block) (num : Z) (names : list (list Z)) : Prop :=
  match names with
  | [] => True
  | e :: es =>
      blk_free H (iblock sb num) /\ d_nlink (disk_inode d sb num) <> 0 /\
      (is_dir d sb num = true -> blk_free H (addr0 (disk_inode d sb num))) /\
      (forall num', dir_step d sb num e = Some num' -> walk_ok H d sb num' es)
  end.

(** ** The inode cache during the walk *)

(** A slot is unlocked, and its copy of the inode, when valid, is the disk's. *)
Definition slot_ok d (sb : super_block) (n : inode) : Prop :=
  is_free (i_slk n) /\ (valid n = true -> i_d n = disk_inode d sb (inode_num n)).

Record walk_inv s H d (sb : super_block) (c : cpu) (refs : list Z) : Prop := {
  wi_ic : ic_ok s;
  wi_cache : cache s H;
  wi_dev : k_dev s = d;
  wi_sb : k_sb s = sb;
  wi_cpu : cpu_touch (k_cpu s) = c;
  wi_slots : forall i n, inode_of s i = Some n -> slot_ok d sb n;
  wi_refs : i_ref <$> inodes (k_ic s) = refs
}.

Definition refs_ok (refs : list Z) : Prop := 0 ∈ refs /\ Forall (fun r => 0 <= r < 2 ^ 32 - 1) refs.

Lemma walk_put s H d sb c refs s' i n lk c' :
  walk_inv s H d sb c refs -> steps s s' (ic_put i n (mk_icache (inodes (k_ic s)) lk)) d c' H -> is_free lk ->
  cpu_touch c' = c -> slot_ok d sb n -> walk_inv s' H d sb c (<[i := i_ref n]> refs).
Proof.
  intros [[Hl Hf] Hc Hd Hsb Hcpu Hsl Hr] [Hfr Hic Hd' Hc' Hca] Hlk Ht Hn. split; try done.
  - split; rewrite Hic; simpl; [by rewrite length_insert | done].
  - by rewrite (k_sb_frame_ic _ _ Hfr).
  - by rewrite Hc'.
  - intros j m. rewrite (inode_of_ic _ _ _ Hic). simpl. intros Hj.
    apply list_lookup_insert_Some in Hj as [(<- & <- & _) | [_ Hj]]; [done | by apply (Hsl j)].
  - rewrite Hic. simpl. rewrite list_fmap_insert, Hr. done.
Qed.

Lemma alloc_slot_cases l num i n : alloc_slot l num = Some (i, n) -> exists o, l !! i = Some o /\
  (n = set_i_ref (u32 (i_ref o + 1)) o \/ i_ref o = 0 /\ n = mk_inode (i_d o) num 1 false (i_slk o)).
Proof.
  unfold alloc_slot. destruct (list_find (fun n => inode_num n = num) l) as [[j m]|] eqn:H1.
  - intros [= <- <-]. apply list_find_Some in H1 as (Hj & _). exists m. split; [done | by left].
  - destruct (list_find (fun n => i_ref n = 0) l) as [[j m]|] eqn:H2; [|done].
    intros [= <- <-]. apply list_find_Some in H2 as (Hj & Hm & _). exists m. split; [done | by right].
Qed.

Lemma alloc_slot_exists l num : 0 ∈ i_ref <$> l -> is_Some (alloc_slot l num).
Proof.
  intros (n & Hr & Hn)%list_elem_of_fmap. unfold alloc_slot. destruct (list_find (fun n => inode_num n = num) l) as [[]|]; [eauto|].
  destruct (list_find (fun n => i_ref n = 0) l) as [[]|] eqn:Hf; [eauto|].
  apply list_find_None in Hf. by destruct (Forall_elem _ _ _ Hf Hn).
Qed.

Lemma cpu_touch_touch (x c : cpu) : cpu_touch x = c -> cpu_touch (cpu_touch x) = c.
Proof. intros <-. apply cpu_touch_idemp. Qed.

Lemma walk_alloc s H d sb c refs num : walk_inv s H d sb c refs -> refs_ok refs ->
  exists i s' n r, inode_alloc num s = Ret i s' /\ refs !! i = Some r /\
    walk_inv s' H d sb c (<[i := r + 1]> refs) /\ inode_of s' i = Some n /\ inode_num n = num.
Proof.
  intros Hw [H0 Hrange]. pose proof Hw as [Hic Hc Hd Hsb Hcpu Hsl Hr]. rewrite <- Hr in H0.
  destruct (alloc_slot_exists _ num H0) as [[i n] Ha]. destruct (alloc_slot_num _ _ _ _ Ha) as [Hnum Hlt].
  destruct (alloc_slot_cases _ _ _ _ Ha) as (o & Ho & Hcases).
  destruct (inode_alloc_steps s H num i n Hic Hc Ha) as (s' & Hs' & Hst).
  assert (refs !! i = Some (i_ref o)) as Hro by (rewrite <- Hr, list_lookup_fmap, Ho; done).
  assert (0 <= i_ref o < 2 ^ 32 - 1) as Hor by (by eapply Forall_lookup_1 in Hrange).
  assert (i_ref n = i_ref o + 1) as Hrn.
  { destruct Hcases as [-> | [He ->]]; [|by rewrite He]. cbn [i_ref set_i_ref]. apply u32_small. lia. }
  exists i, s', n, (i_ref o). split_and!; [done..| | |done].
  - rewrite <- Hrn. eapply walk_put; [exact Hw | rewrite <- Hd at 1; exact Hst | done | by apply cpu_touch_touch |].
    destruct (Hsl i o Ho) as [Hf Hv]. destruct Hcases as [-> | [_ ->]]; split; done.
  - rewrite (inode_of_ic _ _ _ (st_ic _ _ _ _ _ _ Hst)). by apply ic_put_lookup.
Qed.

Lemma walk_ref s H d sb c refs i r n : walk_inv s H d sb c (<[i := r]> refs) -> (i < length refs)%nat ->
  inode_of s i = Some n -> i_ref n = r.
Proof.
  intros [_ _ _ _ _ _ Hr] Hlt Hn. assert ((i_ref <$> inodes (k_ic s)) !! i = Some r) as Hi.
  { rewrite Hr. by apply list_lookup_insert_eq. }
  unfold inode_of in Hn. rewrite list_lookup_fmap, Hn in Hi. by injection Hi.
Qed.

Lemma walk_free s H d sb c refs i r n : walk_inv s H d sb c (<[i := r + 1]> refs) -> refs !! i = Some r ->
  refs_ok refs -> inode_of s i = Some n -> d_nlink (i_d n) <> 0 ->
  exists s', inode_free i s = Ret tt s' /\ walk_inv s' H d sb c refs.
Proof.
  intros Hw Hri [_ Hrange] Hn Hl. pose proof (walk_ref _ _ _ _ _ _ _ _ _ Hw (lookup_lt_Some _ _ _ Hri) Hn) as Href.
  pose proof Hw as [Hic Hc Hd Hsb Hcpu Hsl Hr].
  assert (0 <= r < 2 ^ 32 - 1) as Hrr by (by eapply Forall_lookup_1 in Hrange).
  destruct (inode_free_steps s H i n Hic Hc Hn) as (s' & Hs' & Hst); [by right|].
  exists s'. split; [done|]. rewrite Href in Hst. replace (r + 1 - 1) with r in Hst by lia. rewrite u32_small in Hst by lia.
  assert (walk_inv s' H d sb c (<[i := i_ref (set_i_ref r n)]> (<[i := r + 1]> refs))) as Hw'.
  { eapply walk_put; [exact Hw | rewrite <- Hd at 1; exact Hst | done | by apply cpu_touch_touch |].
    destruct (Hsl i n Hn) as [Hf Hv]. by split. }
  cbn [i_ref set_i_ref] in Hw'. by rewrite list_insert_insert_eq, list_insert_id in Hw'.
Qed.
Lemma cpu_touch_pop_push (x c : cpu) : cpu_wf x -> cpu_touch x = c -> cpu_touch (cpu_pop (cpu_push x)) = c.
Proof. intros Hw <-. by rewrite cpu_pop_push, cpu_touch_idemp. Qed.

(** Locking an inode of the walk, and unlocking it again. *)
Lemma walk_lock s H d sb c refs i n : walk_inv s H d sb c refs -> inode_of s i = Some n -> 1 <= i_ref n ->
  blk_free H (iblock sb (inode_num n)) -> (length H < N_BLOCK_BUF)%nat ->
  exists s1 n1, inode_lock (Some i) s = Ret tt s1 /\ inode_of s1 i = Some n1 /\ cache s1 H /\ k_dev s1 = d /\
    k_cpu s1 = cpu_push (k_cpu s) /\
    held_by (hartid (k_cpu s1)) (i_slk n1) /\ i_d n1 = disk_inode d sb (inode_num n) /\
    forall s1', becomes s1 d (k_cpu s1) H s1' -> exists s2 n2, inode_unlock i s1' = Ret tt s2 /\
      walk_inv s2 H d sb c refs /\ inode_of s2 i = Some n2 /\
      i_d n2 = disk_inode d sb (inode_num n) /\ inode_num n2 = inode_num n.
Proof.
  intros Hw Hn Href [Hb1 Hb2] Hlen. pose proof Hw as [Hic Hc Hd Hsb Hcpu Hsl Hr].
  destruct (Hsl i n Hn) as [Hfree Hval]. destruct (cache_wf _ _ Hc) as [Hcw Hno].
  destruct (inode_lock_ok s H i n Hn Href Hfree) as (s1 & Hs1 & Hst%becomes_put_steps); [by rewrite Hsb; split_and! |].
  rewrite Hd, Hsb in Hst. set (n1 := locked_inode d sb (hartid (k_cpu s)) n) in *.
  assert (inode_of s1 i = Some n1) as Hn1.
  { rewrite (inode_of_ic _ _ _ (st_ic _ _ _ _ _ _ Hst)). apply ic_put_lookup. by eapply inode_of_lt. }
  assert (i_d n1 = disk_inode d sb (inode_num n) /\ inode_num n1 = inode_num n /\ i_ref n1 = i_ref n /\
    i_slk n1 = take_lock (hartid (k_cpu s)) (i_slk n)) as (Hd1 & Hnum1 & Href1 & Hlk1).
  { unfold n1, locked_inode. cbn [valid set_i_slk]. destruct (valid n) eqn:Hv; cbn; split_and!; auto. }
  exists s1, n1. split_and!; [done | done | apply Hst | apply Hst | apply Hst | | done |].
  { rewrite (st_cpu _ _ _ _ _ _ Hst), Hlk1. apply take_lock_held. }
  intros s1' Hb. assert (inode_of s1' i = Some n1) as Hn1' by (by rewrite (inode_of_frame s1 s1') by apply Hb).
  assert (hartid (k_cpu s1') = hartid (k_cpu s)) as Hh by (by rewrite (be_cpu _ _ _ _ _ Hb), (st_cpu _ _ _ _ _ _ Hst)).
  destruct (inode_unlock_ok s1' H i n1 Hn1') as (s2 & Hs2 & Hst2%becomes_put_steps).
  { rewrite Hh, Hlk1. apply take_lock_held. }
  { apply Hb. }
  { rewrite (be_cpu _ _ _ _ _ Hb), (st_cpu _ _ _ _ _ _ Hst). simpl. lia. }
  set (n2 := set_i_slk _ n1) in *. exists s2, n2.
  pose proof (steps_trans _ _ _ _ _ _ _ _ _ _ _ (steps_trans _ _ _ _ _ _ _ _ _ _ _ Hst (becomes_steps _ _ _ _ _ Hb)) Hst2) as Hall.
  rewrite (be_dev _ _ _ _ _ Hb), (be_cpu _ _ _ _ _ Hb), (st_cpu _ _ _ _ _ _ Hst),
    (k_ic_frame _ _ (be_frame _ _ _ _ _ Hb)), (st_ic _ _ _ _ _ _ Hst), ic_put_twice in Hall.
  split_and!; [done | | | done | done].
  - assert (walk_inv s2 H d sb c (<[i := i_ref n2]> refs)) as Hw2.
    { eapply (walk_put s); [exact Hw | | apply Hic | by apply cpu_touch_pop_push |].
      - destruct (k_ic s) as [l lk] eqn:Hks. exact Hall.
      - split; [unfold n2; cbn [i_slk set_i_slk]; done | by rewrite <- Hnum1 in Hd1]. }
    rewrite list_insert_id in Hw2; [done|]. rewrite <- Hr, list_lookup_fmap. unfold inode_of in Hn. rewrite Hn. simpl.
    f_equal. unfold n2. by cbn [i_ref set_i_slk].
  - rewrite (inode_of_ic _ _ _ (st_ic _ _ _ _ _ _ Hall)). apply ic_put_lookup. by eapply inode_of_lt.
Qed.

Lemma walk_unlock_free s H d sb c refs i r s1 n num :
  (exists s2 n2, inode_unlock i s1 = Ret tt s2 /\ walk_inv s2 H d sb c (<[i := r + 1]> refs) /\ inode_of s2 i = Some n2 /\
      i_d n2 = disk_inode d sb num /\ inode_num n2 = inode_num n) ->
  refs !! i = Some r -> refs_ok refs -> d_nlink (disk_inode d sb num) <> 0 ->
  exists s3, inode_unlock_free i s1 = Ret tt s3 /\ walk_inv s3 H d sb c refs.
Proof.
  intros (s2 & n2 & Hs2 & Hw2 & Hn2 & Hd2 & Hnum2) Hri Hrefs Hl.
  destruct (walk_free s2 H d sb c refs i r n2 Hw2 Hri Hrefs Hn2) as (s3 & Hs3 & Hw3); [by rewrite Hd2|].
  exists s3. split; [|done]. unfold inode_unlock_free. by mstep ltac:(exact Hs2).
Qed.

(** ** The loop *)

Definition last_name (parent : bool) (names : list (list Z)) (name : list Z) : Prop :=
  parent = true -> cstr (arr_view name) DIR_NAME_LEN = cut (default [] (last names)).

Lemma search_loop_ok parent H d sb c refs : refs_ok refs -> (length H < N_BLOCK_BUF)%nat ->
  forall fuel path name s i r n,
  (length path < fuel)%nat -> Forall (fun x => x <> 0) path -> length name = Z.to_nat DIR_NAME_LEN ->
  (parent = true -> components path <> []) ->
  walk_inv s H d sb c (<[i := r + 1]> refs) -> refs !! i = Some r -> inode_of s i = Some n ->
  walk_ok H d sb (inode_num n) (components path) ->
  exists res name' s', search_loop fuel i path name parent s = Ret (res, name') s' /\
    match follow parent d sb (inode_num n) (components path) with
    | Some num => exists j r' n', res = Some j /\ refs !! j = Some r' /\ walk_inv s' H d sb c (<[j := r' + 1]> refs) /\
        inode_of s' j = Some n' /\ inode_num n' = num /\ last_name parent (components path) name' /\
        length name' = Z.to_nat DIR_NAME_LEN
    | None => res = None /\ walk_inv s' H d sb c refs
    end.
Proof.
  intros Hrefs HH. induction fuel as [|fuel IH]; intros path name s i r n Hfuel Hp Hname Hpar Hw Hri Hn Hok; [lia|].
  pose proof (skip_element_components path name Hp Hname) as Hskip. cbn [search_loop].
  destruct (components path) as [|e es] eqn:Hcomp.
  { rewrite Hskip. destruct parent; [by destruct Hpar|]. exists (Some i), name, s. split; [done|]. cbn [follow].
    exists i, r, n. by split_and!. }
  destruct Hskip as (rest & name' & -> & Hrest & Hnil & Hlen & Hname' & Hcstr & Hnn).
  destruct Hok as (Hblk & Hlink & Hdir & Hnext).
  assert (1 <= i_ref n) as Href.
  { rewrite (walk_ref _ _ _ _ _ _ _ _ _ Hw (lookup_lt_Some _ _ _ Hri) Hn).
    pose proof (Forall_lookup_1 _ _ _ _ (proj2 Hrefs) Hri). simpl in *. lia. }
  destruct (walk_lock s H d sb c _ i n Hw Hn Href Hblk HH) as (s1 & n1 & Hs1 & Hn1 & Hc1 & Hd1 & Hcpu1 & Hheld & Hid & Hun).
  mstep ltac:(exact Hs1). rewrite (bind_get_inode _ _ _ _ _ Hn1), Hid. cbn [follow]. fold (is_dir d sb (inode_num n)).
  assert (becomes s1 d (k_cpu s1) H s1) as Hrefl by (rewrite <- Hd1; by apply becomes_refl).
  destruct (is_dir d sb (inode_num n)) eqn:Hisdir; cbn [negb].
  2:{ destruct (walk_unlock_free s H d sb c refs i r s1 n (inode_num n) (Hun s1 Hrefl) Hri Hrefs Hlink) as (s3 & Hs3 & Hw3).
      mstep ltac:(exact Hs3). by exists None, name', s3. }
  assert (bool_decide (rest = []) = bool_decide (es = [])) as -> by (by apply bool_decide_ext).
  destruct (parent && bool_decide (es = [])) eqn:Hstop.
  { apply andb_true_iff in Hstop as [-> ->%bool_decide_eq_true].
    destruct (Hun s1 Hrefl) as (s2 & n2 & Hs2 & Hw2 & Hn2 & Hd2 & Hnum2). mstep ltac:(exact Hs2).
    exists (Some i), name', s2. split; [done|]. exists i, r, n2. split_and!; try done. intros _. exact Hcstr. }
  assert (exists a l, d_addrs (disk_inode d sb (inode_num n)) = a :: l) as (a & la & Haddr).
  { unfold disk_inode, decode. cbn [d_addrs]. change (seqZ 0 N_ADDRS) with (seqZ 0 13).
    rewrite seqZ_cons by done. rewrite fmap_cons. eauto. }
  assert (dir_at s1 H i n1 a) as Hat.
  { destruct (Hdir eq_refl) as [Hb1 Hb2]. unfold addr0 in Hb1, Hb2. rewrite Haddr in Hb1, Hb2.
    split; [done..| | | by split_and!].
    - rewrite Hid. by apply Z.eqb_eq.
    - by rewrite Hid, Haddr. }
  destruct (dir_search_entry_ok s1 H i n1 a (arr_view name') Hat) as (s2 & Hs2 & Hb2).
  assert (k_cpu s1 = cpu_touch (k_cpu s1)) as Htouch.
  { rewrite Hcpu1. symmetry. apply cpu_touch_push_wf. apply (cache_wf s H). apply Hw. }
  rewrite Hd1, <- Htouch in Hb2. rewrite Hd1, Hcstr in Hs2. mstep ltac:(exact Hs2).
  assert (dir_step d sb (inode_num n) e = let m := default INODE_NUM_UNUSED (dir_map (block d a) !! cut e) in
    if m =? INODE_NUM_UNUSED then None else Some m) as Hstep.
  { unfold dir_step, addr0. rewrite Haddr. cbn [lookup list_lookup default]. by destruct (dir_map _ !! cut e). }
  rewrite Hstep in Hnext |- *. set (m := default _ _) in *. cbv zeta in *.
  destruct (Z.eqb_spec m INODE_NUM_UNUSED) as [Hm|Hm].
  { destruct (walk_unlock_free s H d sb c refs i r s2 n (inode_num n) (Hun s2 Hb2) Hri Hrefs Hlink) as (s3 & Hs3 & Hw3).
    mstep ltac:(exact Hs3). by exists None, name', s3. }
  destruct (Hun s2 Hb2) as (s3 & n3 & Hs3 & Hw3 & Hn3 & Hd3 & _). mstep ltac:(exact Hs3).
  destruct (walk_free s3 H d sb c refs i r n3 Hw3 Hri Hrefs Hn3) as (s4 & Hs4 & Hw4); [by rewrite Hd3|].
  mstep ltac:(exact Hs4).
  destruct (walk_alloc s4 H d sb c refs m Hw4 Hrefs) as (j & s5 & n5 & r5 & Hs5 & Hr5 & Hw5 & Hn5 & Hnum5).
  mstep ltac:(exact Hs5).
  assert (parent = true -> es <> []) as Hpar'.
  { intros -> ->. done. }
  destruct (IH rest name' s5 j r5 n5) as (res & nm & s6 & Hs6 & Hpost); try done; try lia; rewrite ?Hrest, ?Hnum5; auto.
  exists res, nm, s6. split; [done|]. rewrite Hrest, Hnum5 in Hpost.
  destruct (follow parent d sb m es) as [num|]; [|done].
  destruct Hpost as (j' & r' & n' & -> & ? & ? & ? & ? & Hlast & ?). exists j', r', n'. split_and!; try done.
  intros Hpt. rewrite (Hlast Hpt). destruct es; [by destruct (Hpar' Hpt) | done].
Qed.

Lemma path_to_inode_run s H d sb c refs path :
  walk_inv s H d sb c refs -> refs_ok refs -> (length H < N_BLOCK_BUF)%nat -> Forall (fun x => x <> 0) path ->
  walk_ok H d sb INODE_ROOT (components path) ->
  exists res s', path_to_inode path s = Ret res s' /\
    match follow false d sb INODE_ROOT (components path) with
    | Some num => exists i r n, res = Some i /\ refs !! i = Some r /\ walk_inv s' H d sb c (<[i := r + 1]> refs) /\
        inode_of s' i = Some n /\ inode_num n = num
    | None => res = None /\ walk_inv s' H d sb c refs
    end.
Proof.
  intros Hw Hrefs HH Hp Hok. unfold path_to_inode, search_inode.
  destruct (walk_alloc s H d sb c refs INODE_ROOT Hw Hrefs) as (i & s1 & n & r & Hs1 & Hri & Hw1 & Hn & Hnum).
  rewrite bind_bind. mstep ltac:(exact Hs1).
  destruct (search_loop_ok false H d sb c refs Hrefs HH (S (length path)) path name_buf s1 i r n) as (res & nm & s2 & Hs2 & Hpost);
    try done; try lia; [by rewrite Hnum|].
  mstep ltac:(exact Hs2). exists res, s2. split; [done|]. rewrite Hnum in Hpost.
  destruct (follow false _ _ _ _); [|done]. destruct Hpost as (j & r' & n' & ? & ? & ? & ? & ? & _). by exists j, r', n'.
Qed.

(** C6: [path_to_inode] follows a path from the root as the directories on the disk
    say: it returns a referenced, unlocked slot of the inode the path leads to, or
    NULL when a name is missing or an inner inode is not a directory.  It always
    terminates; every other reference, every lock, the buffers and the content of
    the disk are as before. *)
Theorem path_to_inode_follows s H d sb c refs path :
  walk_inv s H d sb c refs -> refs_ok refs -> (length H < N_BLOCK_BUF)%nat -> Forall (fun x => x <> 0) path ->
  walk_ok H d sb INODE_ROOT (components path) ->
  exists res s', path_to_inode path s = Ret res s' /\
    match follow false d sb INODE_ROOT (components path) with
    | Some num => exists i r n, res = Some i /\ refs !! i = Some r /\ walk_inv s' H d sb c (<[i := r + 1]> refs) /\
        inode_of s' i = Some n /\ inode_num n = num
    | None => res = None /\ walk_inv s' H d sb c refs
    end.
Proof. apply path_to_inode_run. Qed.

(** [path_to_pinode] on a path with at least one name: the directory that holds
    the last name, and the name itself, cut to 29 bytes, in the caller's array;
    the last name need not exist. *)
Theorem path_to_pinode_follows s H d sb c refs path :
  walk_inv s H d sb c refs -> refs_ok refs -> (length H < N_BLOCK_BUF)%nat -> Forall (fun x => x <> 0) path ->
  components path <> [] -> walk_ok H d sb INODE_ROOT (components path) ->
  exists res name s', path_to_pinode path s = Ret (res, name) s' /\
    match follow true d sb INODE_ROOT (components path) with
    | Some num => exists i r n, res = Some i /\ refs !! i = Some r /\ walk_inv s' H d sb c (<[i := r + 1]> refs) /\
        inode_of s' i = Some n /\ inode_num n = num /\
        cstr (arr_view name) DIR_NAME_LEN = cut (default [] (last (components path)))
    | None => res = None /\ walk_inv s' H d sb c refs
    end.
Proof.
  intros Hw Hrefs HH Hp Hne Hok. unfold path_to_pinode, search_inode.
  destruct (walk_alloc s H d sb c refs INODE_ROOT Hw Hrefs) as (i & s1 & n & r & Hs1 & Hri & Hw1 & Hn & Hnum).
  mstep ltac:(exact Hs1).
  destruct (search_loop_ok true H d sb c refs Hrefs HH (S (length path)) path name_buf s1 i r n) as (res & nm & s2 & Hs2 & Hpost);
    try done; try lia; [by rewrite Hnum|].
  exists res, nm, s2. split; [done|]. rewrite Hnum in Hpost.
  destruct (follow true _ _ _ _); [|done]. destruct Hpost as (j & r' & n' & ? & ? & ? & ? & ? & Hl & _). exists j, r', n'.
  split_and!; try done. by apply Hl.
Qed.

(** [path_to_pinode] on a path without names ("/", "" or "///") gives up the
    reference to the root that it has just taken without having read the inode:
    in a slot that was not in use and holds no links, it panics instead of
    returning NULL. *)
Theorem path_to_pinode_root s H path i n :
  ic_ok s -> cache s H -> components path = [] ->
  alloc_slot (inodes (k_ic s)) INODE_ROOT = Some (i, n) -> i_ref n = 1 -> d_nlink (i_d n) = 0 ->
  exists s', path_to_pinode path s = Panic "inode_lock: ref < 1" s'.
Proof.
  intros Hic Hc Hcomp Ha Href Hl. destruct (inode_alloc_steps s H INODE_ROOT i n Hic Hc Ha) as (s1 & Hs1 & Hst).
  destruct (alloc_slot_num _ _ _ _ Ha) as [_ Hlt].
  assert (inode_of s1 i = Some n) as Hn by (rewrite (inode_of_ic _ _ _ (st_ic _ _ _ _ _ _ Hst)); by apply ic_put_lookup).
  destruct (inode_free_destroy s1 i n) as (s2 & Hs2); [| done..|].
  { destruct Hst as [_ Hic1 _ _ _]. split; rewrite Hic1; simpl; [rewrite length_insert; apply Hic | done]. }
  exists s2. unfold path_to_pinode, search_inode. mstep ltac:(exact Hs1). cbn [search_loop].
  unfold skip_element. rewrite (proj1 (components_nil path) Hcomp). by apply bind_panic_eq.
Qed.
End Path.

(** ** Witnesses: the paths "/a", "/b" and "/" on the demonstration disk *)

Definition free_ic : icache := mk_icache (replicate 32 unused_inode) zero_lock.

Lemma path_kernel : exists s : kstate memdisk,
  k_sb s = demo_sb /\ k_ic s = free_ic /\ walk_inv s [] dir_disk demo_sb (mk_cpu 0 false 0 false) (replicate 32 0) /\ refs_ok (replicate 32 0).
Proof.
  destruct (fresh_kernel dir_disk demo_sb free_ic) as (s & Hd & Hsb & Hic & Hcpu & Hc). exists s.
  split_and!; [done | done | split; try done | ].
  - by split; rewrite Hic.
  - by rewrite Hcpu.
  - intros i n. unfold inode_of. rewrite Hic. intros [-> _]%lookup_replicate. by split.
  - by rewrite Hic.
  - split; [by left | apply Forall_replicate; lia].
Qed.

Lemma demo_walk e : walk_ok [] dir_disk demo_sb INODE_ROOT [e].
Proof.
  assert (disk_inode dir_disk demo_sb INODE_ROOT = root_dinode) as Hroot by (vm_compute; reflexivity).
  cbn [walk_ok]. rewrite Hroot. unfold blk_free.
  split_and!; [by vm_compute | apply not_elem_of_nil | done | | done].
  intros _. split; [by vm_compute | apply not_elem_of_nil].
Qed.

Lemma skip_element_components_witness : exists name',
  skip_element [47; 47; 97; 98; 47; 99] name_buf = (Some [99], name') /\ cstr (arr_view name') DIR_NAME_LEN = [97; 98].
Proof.
  pose proof (skip_element_components [47; 47; 97; 98; 47; 99] name_buf) as Hs.
  destruct Hs as (rest & name' & Hs & _ & _ & _ & _ & Hn & _); [repeat constructor; discriminate | reflexivity |].
  exists name'. vm_compute in Hs. injection Hs as <- <-. split; [reflexivity | exact Hn].
Defined.

Lemma path_to_inode_follows_witness : exists (s s' : kstate memdisk) i n,
  path_to_inode [47; 97] s = Ret (Some i) s' /\ inode_of s' i = Some n /\ inode_num n = 1.
Proof.
  destruct path_kernel as (s & Hsb & Hic & Hw & Hrefs). exists s.
  destruct (path_to_inode_follows s [] dir_disk demo_sb _ _ [47; 97] Hw Hrefs) as (res & s' & Hs' & Hpost).
  - unfold N_BLOCK_BUF. simpl. lia.
  - repeat constructor; discriminate.
  - exact (demo_walk [97]).
  - assert (follow false dir_disk demo_sb INODE_ROOT (components [47; 97]) = Some 1) as Hf by (vm_compute; reflexivity).
    rewrite Hf in Hpost. destruct Hpost as (i & r & n & -> & _ & _ & Hn & Hnum).
    exists s', i, n. split; [exact Hs' | split; [exact Hn | exact Hnum]].
Defined.

Lemma path_to_pinode_follows_witness : exists (s s' : kstate memdisk) i name,
  path_to_pinode [47; 98] s = Ret (Some i, name) s' /\ cstr (arr_view name) DIR_NAME_LEN = [98].
Proof.
  destruct path_kernel as (s & Hsb & Hic & Hw & Hrefs). exists s.
  destruct (path_to_pinode_follows s [] dir_disk demo_sb _ _ [47; 98] Hw Hrefs) as (res & name & s' & Hs' & Hpost).
  - unfold N_BLOCK_BUF. simpl. lia.
  - repeat constructor; discriminate.
  - discriminate.
  - exact (demo_walk [98]).
  - assert (follow true dir_disk demo_sb INODE_ROOT (components [47; 98]) = Some 0) as Hf by (vm_compute; reflexivity).
    rewrite Hf in Hpost. destruct Hpost as (i & r & n & -> & _ & _ & _ & _ & Hname).
    exists s', i, name. split; [exact Hs' | exact Hname].
Defined.

Lemma path_to_pinode_root_witness : exists s s' : kstate memdisk, path_to_pinode [47] s = Panic "inode_lock: ref < 1" s'.
Proof.
  destruct path_kernel as (s & Hsb & Hic & Hw & Hrefs). exists s.
  apply (path_to_pinode_root s [] [47] 0 (mk_inode zero_dinode 0 1 false zero_lock)).
  - apply Hw.
  - apply Hw.
  - reflexivity.
  - rewrite Hic. vm_compute. reflexivity.
  - reflexivity.
  - reflexivity.
Defined.
