(* ===== verification/Pmem.v ===== *)
(** * Pmem: kernel/mem/pmem.c, the physical page allocator

    Two regions of pages (kernel and user), each a free list threaded through
    the first eight bytes of its free pages, with a lock and a counter. *)

From S2P Require Import Prelude Bytes Spinlock Kernel.

Definition KERNEL_PAGES : Z := 2048.

Section Pmem.
Context {D : Type}.
Implicit Types (s : kstate D) (m : mem) (ps : list Z).

(** [in_kernel ? &kern_region : &user_region] *)
Definition region_of (in_kernel : bool) s : alloc_region :=
  if in_kernel then kern_region s else user_region s.
Definition set_region (in_kernel : bool) (r : alloc_region) s : kstate D :=
  if in_kernel then set_kern_region r s else set_user_region r s.
Definition region_lk (in_kernel : bool) : lockref D :=
  mk_lockref (fun s => r_lk (region_of in_kernel s))
             (fun l s => set_region in_kernel (set_r_lk l (region_of in_kernel s)) s).

(** One [for] loop of [pmem_init]: [k] iterations from index [i] of [n]. *)
Fixpoint link_pages (k : nat) (i n page_addr : Z) (m : mem) : mem :=
  match k with
  | O => m
  | S k' =>
      let next := if i =? n - 1 then 0 else page_addr + PGSIZE in
      link_pages k' (i + 1) n (page_addr + PGSIZE) (store64 m page_addr next)
  end.

(** The assignments of [pmem_init] to the regions, then its two loops. *)
Definition init_regions (kbegin kend uend kalloc ualloc : Z) : M (kstate D) unit :=
  modify (fun s => set_kern_region (mk_region kbegin kend (r_lk (kern_region s)) kalloc
                                      (list_head (kern_region s))) s);;
  modify (fun s => set_user_region (mk_region kend uend (r_lk (user_region s)) ualloc
                                      (list_head (user_region s))) s);;
  modify (fun s => set_k_mem (link_pages (Z.to_nat kalloc) 0 kalloc kbegin (k_mem s)) s);;
  modify (fun s => set_kern_region (set_list_head kbegin (kern_region s)) s);;
  modify (fun s => set_k_mem (link_pages (Z.to_nat ualloc) 0 ualloc kend (k_mem s)) s);;
  modify (fun s => set_user_region (set_list_head kend (user_region s)) s).

(** [ALLOC_BEGIN] and [ALLOC_END] are symbols of the linker script. *)
Definition pmem_init (ALLOC_BEGIN ALLOC_END : Z) : M (kstate D) unit :=
  with_lock (region_lk true) (spinlock_init "kern_region");;
  with_lock (region_lk false) (spinlock_init "user_region");;
  let kend := u64 (ALLOC_BEGIN + KERNEL_PAGES * PGSIZE) in
  let ualloc := u32 (u64 (ALLOC_END - kend) / PGSIZE) in
  init_regions ALLOC_BEGIN kend ALLOC_END KERNEL_PAGES ualloc.

(** The address of the page, 0 for NULL. *)
Definition pmem_alloc (in_kernel : bool) : M (kstate D) Z :=
  acquire (region_lk in_kernel);;
  n ← gets (fun s => allocable (region_of in_kernel s));
  if n =? 0 then release (region_lk in_kernel);; mret 0
  else
    node ← gets (fun s => list_head (region_of in_kernel s));
    if node =? 0 then fault else
    modify (fun s => set_region in_kernel
              (set_list_head (load64 (k_mem s) node) (region_of in_kernel s)) s);;
    modify (fun s => set_region in_kernel
              (set_allocable (u32 (allocable (region_of in_kernel s) - 1)) (region_of in_kernel s)) s);;
    release (region_lk in_kernel);;
    mret node.

Definition pmem_free (page : Z) (in_kernel : bool) : M (kstate D) unit :=
  acquire (region_lk in_kernel);;
  if page =? 0 then fault else
  modify (fun s => set_k_mem (store64 (k_mem s) page (list_head (region_of in_kernel s))) s);;
  modify (fun s => set_region in_kernel (set_list_head page (region_of in_kernel s)) s);;
  modify (fun s => set_region in_kernel
            (set_allocable (u32 (allocable (region_of in_kernel s) + 1)) (region_of in_kernel s)) s);;
  release (region_lk in_kernel).

(** ** The free lists *)

Definition page_ok (p : Z) : Prop := 0 < p /\ p mod PGSIZE = 0 /\ p + PGSIZE <= 2 ^ 64.

(** [hd] heads a linked list whose nodes are exactly [ps], in this order. *)
Fixpoint flist (m : mem) (hd : Z) (ps : list Z) : Prop :=
  match ps with
  | [] => hd = 0
  | p :: ps' => hd = p /\ flist m (load64 m p) ps'
  end.

Definition region_ok (m : mem) (r : alloc_region) ps : Prop :=
  flist m (list_head r) ps /\ allocable r = Z.of_nat (length ps) /\ is_free (r_lk r).

(** The state holds the free lists [kp] and [up]. *)
Record pools s (kp up : list Z) : Prop := {
  pools_kern : region_ok (k_mem s) (kern_region s) kp;
  pools_user : region_ok (k_mem s) (user_region s) up;
  pools_nodup : NoDup (kp ++ up);
  pools_pages : Forall page_ok (kp ++ up);
  pools_count : Z.of_nat (length kp + length up) < 2 ^ 32;
  pools_cpu : cpu_wf (k_cpu s)
}.

Lemma page_sep p q : page_ok p -> page_ok q -> p <> q -> p + PGSIZE <= q \/ q + PGSIZE <= p.
Proof.
  unfold page_ok, PGSIZE. intros (?&Hp&?) (?&Hq&?) Hne.
  apply Z.div_exact in Hp, Hq; [|lia..]. nia.
Qed.

Lemma flist_ext m m' hd ps :
  (forall p, p ∈ ps -> load64 m p = load64 m' p) -> flist m hd ps -> flist m' hd ps.
Proof.
  revert hd; induction ps as [|p ps IH]; intros hd Hm; simpl; [done|].
  intros [-> Hf]. split; [done|]. rewrite <- Hm by set_solver.
  apply IH; [|done]. intros q Hq. apply Hm. set_solver.
Qed.

Lemma flist_head_range m hd ps : Forall page_ok ps -> flist m hd ps -> 0 <= hd < 2 ^ 64.
Proof.
  destruct ps as [|p ps]; simpl; [lia|]. intros Hp [-> _]. apply Forall_cons in Hp.
  destruct Hp as [(?&?&?) _]. unfold PGSIZE in *. lia.
Qed.

(** Writing inside a page that is not on the list leaves the list alone. *)
Lemma flist_store m hd ps p v :
  Forall page_ok ps -> page_ok p -> p ∉ ps -> flist m hd ps -> flist (store64 m p v) hd ps.
Proof.
  intros Hps Hp Hin. apply flist_ext. intros q Hq.
  pose proof (Forall_elem _ _ _ Hps Hq) as Hq'.
  assert (p <> q) as Hne by set_solver.
  rewrite load64_store64_ne; [done|].
  destruct (page_sep p q Hp Hq' Hne); unfold PGSIZE in *; lia.
Qed.

Lemma region_ok_empty m r ps : region_ok m r ps -> (allocable r =? 0) = bool_decide (ps = []).
Proof. intros (_&->&_). by destruct ps. Qed.
(** The state after one page was taken from, or returned to, a region. *)
Definition alloc_post (b : bool) s : kstate D :=
  let r := region_of b s in
  set_k_cpu (cpu_touch (k_cpu s))
    (set_region b (mk_region (r_begin r) (r_end r) (drop_lock (r_lk r)) (u32 (allocable r - 1))
                     (load64 (k_mem s) (list_head r))) s).
Definition free_post (page : Z) (b : bool) s : kstate D :=
  let r := region_of b s in
  set_k_cpu (cpu_touch (k_cpu s)) (set_k_mem (store64 (k_mem s) page (list_head r))
    (set_region b (mk_region (r_begin r) (r_end r) (drop_lock (r_lk r)) (u32 (allocable r + 1)) page) s)).
Definition empty_post (b : bool) s : kstate D :=
  let r := region_of b s in
  set_k_cpu (cpu_touch (k_cpu s)) (set_region b (set_r_lk (drop_lock (r_lk r)) r) s).

Lemma pmem_alloc_some b s :
  is_free (r_lk (region_of b s)) -> cpu_wf (k_cpu s) ->
  allocable (region_of b s) <> 0 -> list_head (region_of b s) <> 0 ->
  pmem_alloc b s = Ret (list_head (region_of b s)) (alloc_post b s).
Proof.
  intros Hl Hc Hn Hh. unfold pmem_alloc.
  mstep ltac:(by apply acquire_eq).
  destruct s, b; simpl in *.
  all: rewrite (proj2 (Z.eqb_neq _ _) Hn); mrun; simpl.
  all: rewrite (proj2 (Z.eqb_neq _ _) Hh); mrun; simpl.
  all: mstep ltac:(apply release_eq; simpl; [auto with locks | destruct Hc; simpl; lia | done]).
  all: simpl; rewrite cpu_pop_push by done; done.
Qed.

Lemma pmem_alloc_none b s :
  is_free (r_lk (region_of b s)) -> cpu_wf (k_cpu s) -> allocable (region_of b s) = 0 ->
  pmem_alloc b s = Ret 0 (empty_post b s).
Proof.
  intros Hl Hc Hn. unfold pmem_alloc.
  mstep ltac:(by apply acquire_eq).
  destruct s, b; simpl in *; rewrite Hn; mrun; simpl.
  all: mstep ltac:(apply release_eq; simpl; [auto with locks | destruct Hc; simpl; lia | done]).
  all: simpl; rewrite cpu_pop_push by done; unfold empty_post; simpl; by destruct (_ : alloc_region).
Qed.

Lemma pmem_free_eq page b s :
  is_free (r_lk (region_of b s)) -> cpu_wf (k_cpu s) -> page <> 0 ->
  pmem_free page b s = Ret tt (free_post page b s).
Proof.
  intros Hl Hc Hp. unfold pmem_free.
  mstep ltac:(by apply acquire_eq).
  rewrite (proj2 (Z.eqb_neq _ _) Hp).
  destruct s, b; simpl in *; mrun; simpl.
  all: rewrite release_eq; simpl; [| auto with locks | destruct Hc; simpl; lia | done].
  all: by rewrite cpu_pop_push.
Qed.

(** ** The allocator keeps two lists of pages *)

Definition pool (b : bool) (kp up : list Z) : list Z := if b then kp else up.
Definition put_pool (b : bool) (ps : list Z) (kp up : list Z) : list Z * list Z :=
  if b then (ps, up) else (kp, ps).

Lemma pools_region b s kp up : pools s kp up -> region_ok (k_mem s) (region_of b s) (pool b kp up).
Proof. intros []. by destruct b. Qed.

Lemma pools_page_ok b s kp up p : pools s kp up -> p ∈ pool b kp up -> page_ok p.
Proof. intros [] Hp. eapply Forall_elem; [done|]. destruct b; set_solver. Qed.

Lemma pool_take b kp up p ps kp' up' :
  pool b kp up = p :: ps -> put_pool b ps kp up = (kp', up') -> (kp ++ up) ≡ₚ (p :: kp' ++ up').
Proof.
  destruct b; simpl; intros -> [= <- <-]; [done|]. by rewrite Permutation_middle.
Qed.

Lemma pool_give b kp up p kp' up' :
  put_pool b (p :: pool b kp up) kp up = (kp', up') -> (kp' ++ up') ≡ₚ (p :: kp ++ up).
Proof. destruct b; simpl; intros [= <- <-]; [done|]. by rewrite Permutation_middle. Qed.

(** The three facts about [kp ++ up], from a permutation of it. *)
Lemma pools_cons_inv s kp up p l :
  pools s kp up -> Permutation (kp ++ up) (p :: l) ->
  (p ∉ l) /\ NoDup l /\ page_ok p /\ Forall page_ok l /\ Z.of_nat (S (length l)) < 2 ^ 32.
Proof.
  intros [_ _ Hnd Hpg Hct _] Hp. rewrite Hp in Hnd, Hpg.
  rewrite <- length_app, Hp in Hct. apply NoDup_cons in Hnd. apply Forall_cons in Hpg.
  simpl in Hct. tauto.
Qed.

Lemma pools_alloc b s kp up p ps kp' up' :
  pools s kp up -> pool b kp up = p :: ps -> put_pool b ps kp up = (kp', up') ->
  pmem_alloc b s = Ret p (alloc_post b s) /\ pools (alloc_post b s) kp' up'.
Proof.
  intros Hs Hp Hput. pose proof (pools_region b _ _ _ Hs) as (Hf & Hn & Hl).
  destruct (pools_cons_inv _ _ _ _ _ Hs (pool_take _ _ _ _ _ _ _ Hp Hput))
    as (_ & Hnd & Hok & Hpg & Hct).
  rewrite length_app in Hct. rewrite Hp in Hf, Hn. destruct Hf as [Hh Hf]. split.
  { rewrite <- Hh. apply pmem_alloc_some; [done | apply Hs | simpl in Hn; lia |].
    rewrite Hh. destruct Hok; lia. }
  destruct Hs as [Hk Hu _ _ Hct' Hcpu].
  assert (u32 (Z.of_nat (length (p :: ps)) - 1) = Z.of_nat (length ps)) as Hu32.
  { rewrite u32_small; destruct b; simpl in *; subst; simpl in *; lia. }
  destruct s, b; simpl in *; injection Hput as <- <-; split; simpl; try done; try lia.
  all: unfold region_ok; simpl; split_and!; [by rewrite Hh | by rewrite Hn | done].
Qed.

Lemma pools_alloc_none b s kp up :
  pools s kp up -> pool b kp up = [] ->
  pmem_alloc b s = Ret 0 (empty_post b s) /\ pools (empty_post b s) kp up.
Proof.
  intros Hs Hp. pose proof (pools_region b _ _ _ Hs) as (Hf & Hn & Hl). rewrite Hp in Hn. split.
  { by apply pmem_alloc_none; [| apply Hs |]. }
  destruct Hs as [[? [? ?]] [? [? ?]] ???Hcpu].
  destruct s, b; simpl in *; split; simpl; try done.
Qed.

Lemma pools_free b s kp up p kp' up' :
  pools s kp up -> page_ok p -> p ∉ kp ++ up ->
  Z.of_nat (S (length kp + length up)) < 2 ^ 32 ->
  put_pool b (p :: pool b kp up) kp up = (kp', up') ->
  pmem_free p b s = Ret tt (free_post p b s) /\ pools (free_post p b s) kp' up'.
Proof.
  intros Hs Hok Hnin Hlt Hput. pose proof (pool_give _ _ _ _ _ _ Hput) as Hperm.
  pose proof (pools_region b _ _ _ Hs) as (Hf & Hn & Hl). split.
  { apply pmem_free_eq; [done | apply Hs |]. destruct Hok; lia. }
  assert (NoDup (kp' ++ up') /\ Forall page_ok (kp' ++ up') /\
          Z.of_nat (length kp' + length up') < 2 ^ 32) as (Hnd & Hpg & Hct).
  { rewrite <- length_app, Hperm, NoDup_cons, Forall_cons. simpl. rewrite length_app.
    destruct Hs. tauto. }
  destruct Hs as [Hk Hu Hnd0 Hpg0 Hct0 Hcpu]. rewrite not_elem_of_app in Hnin.
  rewrite Forall_app in Hpg0. destruct Hpg0 as [Hpgk Hpgu].
  assert (forall r ps, Forall page_ok ps -> p ∉ ps -> region_ok (k_mem s) r ps ->
    region_ok (store64 (k_mem s) p (list_head (region_of b s))) r ps) as Hframe.
  { intros r ps Hps Hp (Hfl & ? & ?). split_and!; [|done..]. by apply flist_store. }
  assert (u32 (allocable (region_of b s) + 1) = Z.of_nat (S (length (pool b kp up)))) as Hu32.
  { rewrite Hn, u32_small; [lia|]. destruct b; simpl in *; lia. }
  assert (region_ok (store64 (k_mem s) p (list_head (region_of b s)))
    (mk_region (r_begin (region_of b s)) (r_end (region_of b s)) (drop_lock (r_lk (region_of b s)))
       (u32 (allocable (region_of b s) + 1)) p) (p :: pool b kp up)) as Hnew.
  { unfold region_ok; simpl. rewrite load64_store64_eq.
    - split_and!; [done | | done | done].
      apply flist_store; [by destruct b | done | destruct b; simpl; tauto | done].
    - eapply flist_head_range, Hf. by destruct b. }
  destruct s, b; simpl in *; injection Hput as <- <-; split; simpl; try done; try lia.
  all: apply Hframe; tauto.
Qed.

(** ** Initialisation *)

Fixpoint page_list (k : nat) (a : Z) : list Z :=
  match k with O => [] | S k' => a :: page_list k' (a + PGSIZE) end.

Lemma length_page_list k a : length (page_list k a) = k.
Proof. revert a; induction k; simpl; auto. Qed.

Lemma elem_of_page_list k a p :
  p ∈ page_list k a -> exists i, 0 <= i < Z.of_nat k /\ p = a + i * PGSIZE.
Proof.
  revert a; induction k as [|k IH]; intros a; simpl; [set_solver|].
  rewrite elem_of_cons. intros [->|Hp]; [exists 0; lia|].
  destruct (IH _ Hp) as (i & ? & ->). exists (i + 1). lia.
Qed.

Lemma NoDup_page_list k a : NoDup (page_list k a).
Proof.
  revert a; induction k as [|k IH]; intros a; simpl; [constructor|]. constructor; [|apply IH].
  intros (i & ? & ?)%elem_of_page_list. unfold PGSIZE in *. lia.
Qed.

Lemma page_list_ok k a :
  0 < a -> a mod PGSIZE = 0 -> a + Z.of_nat k * PGSIZE <= 2 ^ 64 -> Forall page_ok (page_list k a).
Proof.
  intros H0 Ha Hk. apply Forall_of_elem. intros p (i & Hi & ->)%elem_of_page_list.
  unfold page_ok, PGSIZE in *. split_and!; [lia | by rewrite Z.mod_add | nia].
Qed.

Lemma link_pages_out k i n a m x :
  ~ (a <= x < a + Z.of_nat k * PGSIZE) -> load8 (link_pages k i n a m) x = load8 m x.
Proof.
  revert i a m; induction k as [|k IH]; intros i a m Hx; [done|]. cbn [link_pages].
  unfold PGSIZE in *. rewrite IH by lia. apply load8_store64_ne. lia.
Qed.

Lemma link_pages_flist k i n a m :
  i + Z.of_nat (S k) = n -> 0 < a -> a + Z.of_nat (S k) * PGSIZE <= 2 ^ 64 ->
  flist (link_pages (S k) i n a m) a (page_list (S k) a).
Proof.
  revert i a m; induction k as [|k IH]; intros i a m Hn H0 Ha.
  { cbn [link_pages page_list flist]. split; [done|].
    rewrite (proj2 (Z.eqb_eq _ _)) by lia. apply load64_store64_eq. lia. }
  change (link_pages (S (S k)) i n a m) with
    (link_pages (S k) (i + 1) n (a + PGSIZE) (store64 m a (if i =? n - 1 then 0 else a + PGSIZE))).
  cbn [page_list flist]. split; [done|]. rewrite (proj2 (Z.eqb_neq i (n - 1))) by lia.
  unfold PGSIZE in *.
  rewrite (load64_ext _ (store64 m a (a + 4096))).
  - rewrite load64_store64_eq by lia. apply IH; lia.
  - intros x Hx. apply link_pages_out. unfold PGSIZE. lia.
Qed.

Lemma link_pages_region n a m r :
  (0 < n)%nat -> 0 < a -> a + Z.of_nat n * PGSIZE <= 2 ^ 64 ->
  list_head r = a -> allocable r = Z.of_nat n -> is_free (r_lk r) ->
  region_ok (link_pages n 0 (Z.of_nat n) a m) r (page_list n a).
Proof.
  intros Hn H0 Ha Hh Hal Hl. destruct n as [|n]; [lia|]. split_and!; [|by rewrite length_page_list|done].
  rewrite Hh. apply link_pages_flist; [lia | done | done].
Qed.

Lemma region_ok_mem m m' r ps :
  (forall p x, p ∈ ps -> p <= x < p + PGSIZE -> load8 m x = load8 m' x) ->
  region_ok m r ps -> region_ok m' r ps.
Proof.
  intros Hm (Hf & ? & ?). split_and!; [|done..]. eapply flist_ext, Hf.
  intros p Hp. apply load64_ext. intros x Hx. apply (Hm p); [done|]. unfold PGSIZE. lia.
Qed.

(** The pages of the two regions after initialisation. *)
Definition user_pages (ALLOC_BEGIN ALLOC_END : Z) : nat :=
  Z.to_nat ((ALLOC_END - (ALLOC_BEGIN + KERNEL_PAGES * PGSIZE)) / PGSIZE).
Definition init_kern (ALLOC_BEGIN : Z) : list Z := page_list (Z.to_nat KERNEL_PAGES) ALLOC_BEGIN.
Definition init_user (ALLOC_BEGIN ALLOC_END : Z) : list Z :=
  page_list (user_pages ALLOC_BEGIN ALLOC_END) (ALLOC_BEGIN + KERNEL_PAGES * PGSIZE).

(** What the linker script guarantees about its two symbols. *)
Definition layout_ok (ALLOC_BEGIN ALLOC_END : Z) : Prop :=
  0 < ALLOC_BEGIN /\ ALLOC_BEGIN mod PGSIZE = 0 /\
  ALLOC_BEGIN + (KERNEL_PAGES + 1) * PGSIZE <= ALLOC_END /\ ALLOC_END <= 2 ^ 32.

Lemma layout_pages B E :
  layout_ok B E ->
  (0 < user_pages B E)%nat /\ B + KERNEL_PAGES * PGSIZE + Z.of_nat (user_pages B E) * PGSIZE <= E.
Proof.
  unfold layout_ok, user_pages, KERNEL_PAGES, PGSIZE. intros (?&?&?&?).
  assert (1 <= (E - (B + 2048 * 4096)) / 4096) by (apply Z.div_le_lower_bound; lia).
  pose proof (Z.mul_div_le (E - (B + 2048 * 4096)) 4096 ltac:(lia)). lia.
Qed.

#[local] Opaque link_pages page_list.

Lemma page_lists_nodup nk nu a :
  NoDup (page_list nk a ++ page_list nu (a + Z.of_nat nk * PGSIZE)).
Proof.
  apply NoDup_app. split_and!; [apply NoDup_page_list | | apply NoDup_page_list].
  intros p (i & Hi & ->)%elem_of_page_list (j & Hj & Hij)%elem_of_page_list.
  unfold PGSIZE in *. lia.
Qed.

Lemma init_regions_pools s nk nu B E :
  let kend := B + Z.of_nat nk * PGSIZE in
  (0 < nk)%nat -> (0 < nu)%nat -> 0 < B -> B mod PGSIZE = 0 ->
  kend + Z.of_nat nu * PGSIZE <= E -> E <= 2 ^ 32 ->
  cpu_wf (k_cpu s) -> is_free (r_lk (kern_region s)) -> is_free (r_lk (user_region s)) ->
  exists s', init_regions B kend E (Z.of_nat nk) (Z.of_nat nu) s = Ret tt s' /\
    pools s' (page_list nk B) (page_list nu kend) /\
    (forall x, x < B \/ E <= x -> load8 (k_mem s') x = load8 (k_mem s) x).
Proof.
  intros kend Hnk Hnu H0 Ha HE H32 Hc Hlk Hlu. unfold init_regions. rewrite !Nat2Z.id.
  eexists. split; [reflexivity|]. subst kend. unfold PGSIZE in *. split.
  - split; simpl.
    + eapply region_ok_mem; [|by apply link_pages_region; unfold PGSIZE; try done; lia].
      intros p x (i & Hi & ->)%elem_of_page_list Hx. symmetry. apply link_pages_out.
      unfold PGSIZE in *. lia.
    + apply link_pages_region; unfold PGSIZE; try done; lia.
    + apply page_lists_nodup.
    + apply Forall_app. split; apply page_list_ok; try done; unfold PGSIZE; try lia.
      by rewrite Z.mod_add.
    + rewrite !length_page_list. lia.
    + done.
  - intros x Hx. simpl. rewrite !link_pages_out; [done|..]; unfold PGSIZE; lia.
Qed.

(** [pmem_init] turns the range the linker script reserves into two lists
    of pages: 2048 kernel pages from [ALLOC_BEGIN] and the rest of the range
    for users; the pages are aligned, distinct, inside the range and on
    exactly one list, and memory outside the range is untouched. *)
Theorem pmem_init_lists (s : kstate D) (B E : Z) :
  layout_ok B E -> cpu_wf (k_cpu s) ->
  returns (pmem_init B E) s (fun _ s' =>
    pools s' (init_kern B) (init_user B E)
    /\ (forall p, p ∈ init_kern B ++ init_user B E -> B <= p /\ p + PGSIZE <= E)
    /\ (forall x, x < B \/ E <= x -> load8 (k_mem s') x = load8 (k_mem s) x)).
Proof.
  intros HL Hc. pose proof (layout_pages B E HL) as [Hu HuE].
  destruct HL as (H0 & Ha & HE & H32).
  assert (u64 (B + KERNEL_PAGES * PGSIZE) = B + KERNEL_PAGES * PGSIZE) as Hk.
  { apply u64_small. unfold KERNEL_PAGES, PGSIZE in *. lia. }
  assert (u32 (u64 (E - (B + KERNEL_PAGES * PGSIZE)) / PGSIZE) = Z.of_nat (user_pages B E)) as Hn.
  { unfold user_pages, KERNEL_PAGES, PGSIZE in *. rewrite u64_small by lia. rewrite u32_small; lia. }
  unfold returns, pmem_init. rewrite Hk, Hn.
  do 2 (erewrite bind_ret_eq by reflexivity).
  unfold init_kern, init_user.
  set (nk := Z.to_nat KERNEL_PAGES).
  assert (KERNEL_PAGES = Z.of_nat nk /\ (0 < nk)%nat) as [HK Hnk].
  { subst nk. rewrite Z2Nat.id by (unfold KERNEL_PAGES; lia). split; [done | unfold KERNEL_PAGES; lia]. }
  clearbody nk. rewrite HK in *.
  match goal with |- match init_regions _ _ _ _ _ ?s1 with _ => _ end =>
    destruct (init_regions_pools s1 nk (user_pages B E) B E) as (s' & -> & Hp & Hm);
      try done end.
  split_and!; [done | | exact Hm].
  intros p [Hp'|Hp']%elem_of_app; apply elem_of_page_list in Hp' as (i & Hi & ->);
    unfold PGSIZE in *; lia.
Qed.

(** ** Refinement: the allocator as two lists and the set of pages handed out *)

Record pm_spec := mk_spec { sp_kern : list Z; sp_user : list Z; sp_live : gset Z }.
Inductive pm_op := OpAlloc (in_kernel : bool) | OpFree (page : Z) (in_kernel : bool).

Definition exec_op (op : pm_op) : M (kstate D) Z :=
  match op with
  | OpAlloc b => pmem_alloc b
  | OpFree p b => pmem_free p b;; mret 0
  end.

(** [None] is a call the clients must not make: freeing a page not handed out. *)
Definition spec_op (op : pm_op) (a : pm_spec) : option (Z * pm_spec) :=
  match op with
  | OpAlloc b =>
      match pool b (sp_kern a) (sp_user a) with
      | [] => Some (0, a)
      | p :: ps =>
          let '(kp, up) := put_pool b ps (sp_kern a) (sp_user a) in
          Some (p, mk_spec kp up ({[p]} ∪ sp_live a))
      end
  | OpFree p b =>
      if decide (p ∈ sp_live a) then
        let '(kp, up) := put_pool b (p :: pool b (sp_kern a) (sp_user a)) (sp_kern a) (sp_user a) in
        Some (0, mk_spec kp up (sp_live a ∖ {[p]}))
      else None
  end.

Record pm_rel s (a : pm_spec) : Prop := {
  rel_pools : pools s (sp_kern a) (sp_user a);
  rel_live : forall p, p ∈ sp_live a -> page_ok p /\ p ∉ sp_kern a ++ sp_user a;
  rel_count : Z.of_nat (length (sp_kern a ++ sp_user a) + size (sp_live a)) < 2 ^ 32
}.

Lemma rel_alloc s a b p ps kp up :
  pm_rel s a -> pool b (sp_kern a) (sp_user a) = p :: ps ->
  put_pool b ps (sp_kern a) (sp_user a) = (kp, up) ->
  pmem_alloc b s = Ret p (alloc_post b s) /\ p ∉ sp_live a /\
  pm_rel (alloc_post b s) (mk_spec kp up ({[p]} ∪ sp_live a)).
Proof.
  intros [Hs Hlive Hct] Hp Hput. pose proof (pool_take _ _ _ _ _ _ _ Hp Hput) as Hperm.
  destruct (pools_alloc _ _ _ _ _ _ _ _ Hs Hp Hput) as [He Hs'].
  destruct (pools_cons_inv _ _ _ _ _ Hs Hperm) as (Hnin & _ & Hok & _).
  assert (p ∉ sp_live a) as Hfresh.
  { intros Hl. destruct (Hlive p Hl) as [_ Hn]. rewrite Hperm in Hn. set_solver. }
  split_and!; [done..|]. split; simpl; [done| |].
  - intros q [->%elem_of_singleton|Hq]%elem_of_union; [done|].
    destruct (Hlive q Hq) as [? Hn]. rewrite Hperm in Hn. set_solver.
  - rewrite Hperm in Hct. simpl in Hct. rewrite size_union by set_solver. rewrite size_singleton. lia.
Qed.

Lemma rel_free s a b p kp up :
  pm_rel s a -> p ∈ sp_live a ->
  put_pool b (p :: pool b (sp_kern a) (sp_user a)) (sp_kern a) (sp_user a) = (kp, up) ->
  pmem_free p b s = Ret tt (free_post p b s) /\
  pm_rel (free_post p b s) (mk_spec kp up (sp_live a ∖ {[p]})).
Proof.
  intros [Hs Hlive Hct] Hp Hput. pose proof (pool_give _ _ _ _ _ _ Hput) as Hperm.
  destruct (Hlive p Hp) as [Hok Hnin]. rewrite length_app in Hct.
  assert (size ({[p]} : gset Z) <= size (sp_live a))%nat as Hsz by (apply subseteq_size; set_solver).
  rewrite size_singleton in Hsz.
  destruct (pools_free b s _ _ p kp up Hs Hok Hnin ltac:(lia) Hput) as [He Hs'].
  split; [done|]. split; simpl; [done| |].
  - intros q [Hq Hne]%elem_of_difference. destruct (Hlive q Hq) as [? Hn].
    rewrite Hperm. set_solver.
  - rewrite Hperm. simpl. rewrite length_app, size_difference, size_singleton by set_solver. lia.
Qed.

(** C5: the allocator refines its specification: a call of [pmem_alloc] takes the
    first page of the region's list, which no client holds, or returns NULL
    when the list is empty; a call of [pmem_free] gives a page that a client
    holds back to the list; and no call changes a byte of a page that stays
    with a client. *)
Theorem pmem_refines_spec s (a a' : pm_spec) (op : pm_op) (r : Z) :
  pm_rel s a -> spec_op op a = Some (r, a') ->
  returns (exec_op op) s (fun r' s' =>
    r' = r /\ pm_rel s' a' /\ (r <> 0 -> r ∉ sp_live a)
    /\ (forall p x, p ∈ sp_live a -> p ∈ sp_live a' -> p <= x < p + PGSIZE ->
         load8 (k_mem s') x = load8 (k_mem s) x)).
Proof.
  intros Hr Hop. destruct op as [b|p b]; simpl in Hop.
  - destruct (pool b _ _) as [|p ps] eqn:Hp.
    + injection Hop as <- <-. destruct Hr as [Hs Hlive Hct].
      destruct (pools_alloc_none _ _ _ _ Hs Hp) as [He Hs'].
      eapply returns_intro; [apply He|]. split_and!; [done | by split | done | by destruct s, b].
    + destruct (put_pool _ _ _ _) as [kp up] eqn:Hput. injection Hop as <- <-.
      destruct (rel_alloc _ _ _ _ _ _ _ Hr Hp Hput) as (He & Hf & Hr').
      eapply returns_intro; [apply He|]. split_and!; [done | done | done | by destruct s, b].
  - destruct (decide (p ∈ sp_live a)) as [Hp|]; [|done].
    destruct (put_pool _ _ _ _) as [kp up] eqn:Hput. injection Hop as <- <-.
    destruct (rel_free _ _ _ _ _ _ Hr Hp Hput) as [He Hr'].
    unfold returns. simpl. unfold mbind, M_bind. rewrite He. split_and!; [done | done | done |].
    intros q x Hq Hq' Hx. simpl in Hq'. assert (p <> q) as Hne by set_solver.
    destruct (rel_live _ _ Hr p Hp) as [Hpo _], (rel_live _ _ Hr q Hq) as [Hqo _].
    transitivity (load8 (store64 (k_mem s) p (list_head (region_of b s))) x); [by destruct s, b|].
    apply load8_store64_ne. destruct (page_sep p q Hpo Hqo Hne); unfold PGSIZE in *; lia.
Qed.
End Pmem.

Lemma pmem_init_lists_witness :
  layout_ok 0x80020000 0x88000000 /\
  exists s', pmem_init 0x80020000 0x88000000 (bss tt 0) = Ret tt s'
    /\ pools s' (init_kern 0x80020000) (init_user 0x80020000 0x88000000).
Proof.
  assert (layout_ok 0x80020000 0x88000000) as HL by (unfold layout_ok; vm_compute; repeat split; discriminate).
  split; [exact HL|].
  destruct (returns_elim _ _ _ (pmem_init_lists (bss tt 0) 0x80020000 0x88000000 HL
    ltac:(split; simpl; (lia || done)))) as ([] & s' & He & Hp & _).
  exists s'. split; [exact He | exact Hp].
Defined.

Lemma pmem_refines_spec_witness :
  let s := set_kern_region (mk_region 4096 12288 zero_lock 2 4096)
             (set_k_mem (store64 ∅ 4096 8192) (bss tt 0)) in
  returns (pmem_alloc true) s (fun r s' =>
    r = 4096 /\ pools s' [8192] []).
Proof.
  intros s.
  assert (pm_rel s (mk_spec [4096; 8192] [] ∅)) as Hr.
  { split; simpl; [| set_solver | by vm_compute].
    split; simpl; [split_and!; by vm_compute | by split_and! | | | lia | split; simpl; (lia || done)].
    - by apply (bool_decide_unpack _).
    - repeat constructor; vm_compute; congruence. }
  eapply returns_mono; [exact (pmem_refines_spec s _ _ (OpAlloc true) 4096 Hr eq_refl)|].
  intros r s' (-> & Hr' & _). split; [done | exact (rel_pools _ _ Hr')].
Defined.
