(* ===== verification/Vmem.v ===== *)
(** * Vmem: kernel/mem/vmem.c, the Sv39 page tables

    A [pgtbl_t] is the address of a page of 512 entries of 8 bytes in physical
    memory, a [pte_t*] the address of an entry; the entries are read and written
    in the memory of [kstate]. *)

From S2P Require Import Prelude Bytes Kstring Spinlock Kernel Pmem.

(** ** Addresses and entries (include/mem/vmem.h) *)

Definition VA_MAX : Z := Z.shiftl 1 38.
Definition VA_SHIFT (level : Z) : Z := 12 + 9 * level.
Definition VA_TO_VPN (va level : Z) : Z := Z.land (Z.shiftr va (VA_SHIFT level)) 0x1FF.
Definition PA_TO_PTE (pa : Z) : Z := u64 (Z.shiftl (Z.shiftr pa 12) 10).
Definition PTE_TO_PA (pte : Z) : Z := u64 (Z.shiftl (Z.shiftr pte 10) 12).
Definition PTE_V : Z := Z.shiftl 1 0.
Definition PTE_R : Z := Z.shiftl 1 1.
Definition PTE_W : Z := Z.shiftl 1 2.
Definition PTE_X : Z := Z.shiftl 1 3.
Definition PTE_U : Z := Z.shiftl 1 4.
Definition PTE_FLAGS (pte : Z) : Z := Z.land pte 0x3FF.
Definition PTE_CHECK (pte : Z) : bool := Z.land pte (Z.lor (Z.lor PTE_R PTE_W) PTE_X) =? 0.
Definition SATP_SV39 : Z := Z.shiftl 8 60.
Definition MAKE_SATP (pagetable : Z) : Z := Z.lor SATP_SV39 (Z.shiftr pagetable 12).
(** [pte & PTE_V] as a condition. *)
Definition pte_valid (pte : Z) : bool := negb (Z.land pte PTE_V =? 0).

(** ** The memory layout (include/memlayout.h) *)

Definition NCPU : Z := 2.
Definition UART_BASE : Z := 0x10000000.
Definition PLIC_BASE : Z := 0x0c000000.
Definition CLINT_BASE : Z := 0x2000000.
Definition VIRTIO_BASE : Z := 0x10001000.
Definition KSTACK (hartid : Z) : Z := 0x3f80000000 + (hartid + 1) * 2 * PGSIZE.
Definition MEM_START : Z := 0x80000000.
Definition MEM_END : Z := 0x88000000.
Definition KERN_PERM : Z := Z.lor (Z.lor PTE_R PTE_W) PTE_X.

Section Ops.
Context {D : Type}.

Definition mem64 (a : Z) : M (kstate D) Z := gets (fun s => load64 (k_mem s) a).
Definition put64 (a v : Z) : M (kstate D) unit := modify (fun s => set_k_mem (store64 (k_mem s) a v) s).

(** [memset(p, c, n)], which starts at a NULL pointer when [p] is 0. *)
Definition mem_set (p c n : Z) : M (kstate D) unit :=
  if p =? 0 then fault else modify (fun s => set_k_mem (memset (k_mem s) p c n) s).

(** The loop of [vm_getpte]: the table of the last level, [None] for NULL. *)
Fixpoint walk_levels (levels : list Z) (pgtbl va : Z) (alloc : bool) : M (kstate D) (option Z) :=
  match levels with
  | [] => mret (Some pgtbl)
  | level :: levels' =>
      if pgtbl =? 0 then fault else
      let pte := pgtbl + 8 * VA_TO_VPN va level in
      v ← mem64 pte;
      if pte_valid v then walk_levels levels' (PTE_TO_PA v) va alloc
      else if negb alloc then mret None
      else
        newtbl ← pmem_alloc true;
        mem_set newtbl 0 PGSIZE;;
        put64 pte (Z.lor (PA_TO_PTE newtbl) PTE_V);;
        walk_levels levels' newtbl va alloc
  end.

Definition vm_getpte (pgtbl va : Z) (alloc : bool) : M (kstate D) (option Z) :=
  pgtbl ← (if pgtbl =? 0 then gets kernel_pgtbl else mret pgtbl);
  if VA_MAX <=? va then panic "vm_getpte: va out of range" else
  r ← walk_levels [2; 1] pgtbl va alloc;
  match r with
  | Some pgtbl => mret (Some (pgtbl + 8 * VA_TO_VPN va 0))
  | None => mret None
  end.

(** The number of pages from [start] to [end_], the bound of the loops. *)
Definition npages (start end_ : Z) : nat := Z.to_nat ((end_ - start + PGSIZE - 1) / PGSIZE).

Fixpoint map_loop (fuel : nat) (pgtbl start end_ pa perm : Z) : M (kstate D) unit :=
  if start <? end_ then
    match fuel with
    | O => no_fuel
    | S fuel' =>
        pte ← vm_getpte pgtbl start true;
        match pte with
        | None => panic "vm_mappages: getpte fail"
        | Some pte =>
            put64 pte (u64 (Z.lor (Z.lor (PA_TO_PTE pa) perm) PTE_V));;
            map_loop fuel' pgtbl (u64 (start + PGSIZE)) end_ (u64 (pa + PGSIZE)) perm
        end
    end
  else mret tt.

Definition vm_mappages (pgtbl va pa len perm : Z) : M (kstate D) unit :=
  let start := va in
  let end_ := u64 (va + len) in
  map_loop (npages start end_) pgtbl start end_ pa perm.

Fixpoint unmap_loop (fuel : nat) (pgtbl start end_ : Z) (freeit : bool) : M (kstate D) unit :=
  if start <? end_ then
    match fuel with
    | O => no_fuel
    | S fuel' =>
        pte ← vm_getpte pgtbl start false;
        match pte with
        | None => panic "vm_unmappages: not mapped"
        | Some pte =>
            v ← mem64 pte;
            if negb (pte_valid v) then panic "vm_unmappages: not mapped" else
            when freeit (pmem_free (PTE_TO_PA v) true);;
            put64 pte 0;;
            unmap_loop fuel' pgtbl (u64 (start + PGSIZE)) end_ freeit
        end
    end
  else mret tt.

Definition vm_unmappages (pgtbl va len : Z) (freeit : bool) : M (kstate D) unit :=
  let start := va in
  let end_ := u64 (va + len) in
  unmap_loop (npages start end_) pgtbl start end_ freeit.

(** [trampoline] is a symbol of trampoline.S. *)
Definition kvm_init (trampoline : Z) : M (kstate D) unit :=
  p ← pmem_alloc true;
  modify (set_kernel_pgtbl p);;
  mem_set p 0 PGSIZE;;
  vm_mappages p UART_BASE UART_BASE 1000 KERN_PERM;;
  vm_mappages p PLIC_BASE PLIC_BASE 0x400000 KERN_PERM;;
  vm_mappages p CLINT_BASE CLINT_BASE 0x10000 KERN_PERM;;
  vm_mappages p VIRTIO_BASE VIRTIO_BASE PGSIZE KERN_PERM;;
  vm_mappages p MEM_START MEM_START (MEM_END - MEM_START) KERN_PERM;;
  vm_mappages p (VA_MAX - PGSIZE) trampoline PGSIZE (Z.lor PTE_R PTE_X);;
  for_each (seqZ 0 NCPU) (fun i =>
    pa ← pmem_alloc true;
    if pa =? 0 then panic "kvm_init: failed to allocate kstack" else
    vm_mappages p (KSTACK i) pa PGSIZE (Z.lor PTE_R PTE_W)).

(** The value written to [satp]. *)
Definition kvm_inithart : M (kstate D) Z :=
  p ← gets kernel_pgtbl;
  if p =? 0 then panic "kvm_inithart: kernel_pgtbl null" else mret (MAKE_SATP p).
End Ops.
