(* ===== verification/VmemTree.v ===== *)
(** * VmemTree: page tables as finite maps from pages to entries

    [node m root path] is the table that a path of entry numbers leads to.  The
    tables of a tree are distinct pages, none of them free ([pt_ok]); then a
    store into one entry changes exactly one edge of the tree, and the mapping
    [pt_map] of the tree is changed exactly as the operations promise. *)

From S2P Require Import Prelude Bytes Kstring Spinlock Kernel Pmem Vmem.

(** The quotient and remainder of [x] by a constant, for [lia]. *)
Ltac divmod x n :=
  pose proof (Z.div_mod x n ltac:(done)); pose proof (Z.mod_pos_bound x n ltac:(done)).

(** ** Entries *)

Lemma PA_TO_PTE_eq pa : 0 <= pa < 2 ^ 64 -> PA_TO_PTE pa = pa / 4096 * 1024.
Proof.
  intros H. unfold PA_TO_PTE. rewrite Z.shiftr_div_pow2, Z.shiftl_mul_pow2 by done.
  change (2 ^ 12) with 4096. change (2 ^ 10) with 1024. divmod pa 4096. apply u64_small. lia.
Qed.

(** An entry made of a page and ten flag bits. *)
Definition mk_pte (pa flags : Z) : Z := Z.lor (PA_TO_PTE pa) flags.

Lemma mk_pte_eq pa flags : 0 <= pa < 2 ^ 64 -> 0 <= flags < 1024 -> mk_pte pa flags = pa / 4096 * 1024 + flags.
Proof.
  intros Hp Hf. unfold mk_pte. rewrite PA_TO_PTE_eq by done.
  change 1024 with (2 ^ 10). rewrite <- Z.shiftl_mul_pow2 by done.
  rewrite <- Z.lxor_lor, <- Z.add_nocarry_lxor; [done|..].
  all: apply Z.bits_inj'; intros n Hn; rewrite Z.land_spec, Z.bits_0;
    destruct (Z.ltb_spec n 10); [by rewrite Z.shiftl_spec_low|];
    assert (Z.testbit flags n = false) as -> by
      (destruct (decide (flags = 0)) as [->|]; [apply Z.bits_0|]; apply Z.bits_above_log2; [lia|];
       apply Z.lt_le_trans with 10; [apply Z.log2_lt_pow2; lia | done]);
    apply andb_false_r.
Qed.

Lemma mk_pte_range pa flags : 0 <= pa < 2 ^ 64 -> 0 <= flags < 1024 -> 0 <= mk_pte pa flags < 2 ^ 64.
Proof. intros Hp Hf. rewrite mk_pte_eq by done. divmod pa 4096. lia. Qed.

Lemma PTE_TO_PA_mk pa flags : 0 <= pa < 2 ^ 64 -> pa mod PGSIZE = 0 -> 0 <= flags < 1024 -> PTE_TO_PA (mk_pte pa flags) = pa.
Proof.
  intros Hp Ha Hf. rewrite mk_pte_eq by done. unfold PTE_TO_PA, PGSIZE in *.
  rewrite Z.shiftr_div_pow2, Z.shiftl_mul_pow2 by done. change (2 ^ 12) with 4096. change (2 ^ 10) with 1024.
  rewrite Z.div_add_l by done. rewrite (Z.div_small flags) by done. rewrite Z.add_0_r.
  divmod pa 4096. rewrite u64_small; lia.
Qed.

Lemma PTE_FLAGS_mk pa flags : 0 <= pa < 2 ^ 64 -> 0 <= flags < 1024 -> PTE_FLAGS (mk_pte pa flags) = flags.
Proof.
  intros Hp Hf. rewrite mk_pte_eq by done. unfold PTE_FLAGS. change 0x3FF with (Z.ones 10).
  rewrite Z.land_ones by done. change (2 ^ 10) with 1024. rewrite Z.add_comm, Z.mod_add by done. by apply Z.mod_small.
Qed.

Lemma pte_valid_odd v : pte_valid v = Z.odd v.
Proof.
  unfold pte_valid, PTE_V. change (Z.shiftl 1 0) with (Z.ones 1). rewrite Z.land_ones by done.
  change (2 ^ 1) with 2. rewrite Zmod_odd. by destruct (Z.odd v).
Qed.

Lemma pte_valid_mk pa flags : 0 <= pa < 2 ^ 64 -> 0 <= flags < 1024 -> pte_valid (mk_pte pa flags) = Z.odd flags.
Proof.
  intros Hp Hf. rewrite pte_valid_odd, mk_pte_eq by done.
  rewrite Z.odd_add, Z.odd_mul. change (Z.odd 1024) with false. rewrite andb_false_r. by destruct (Z.odd flags).
Qed.

Lemma PTE_CHECK_mk pa flags : 0 <= pa < 2 ^ 64 -> 0 <= flags < 1024 -> PTE_CHECK (mk_pte pa flags) = PTE_CHECK flags.
Proof.
  intros Hp Hf. unfold PTE_CHECK. set (k := Z.lor (Z.lor PTE_R PTE_W) PTE_X). assert (k = Z.land (Z.ones 10) k) as Hk by (by vm_compute).
  rewrite Hk, !Z.land_assoc, !Z.land_ones, mk_pte_eq by done. change (2 ^ 10) with 1024. by rewrite Z.add_comm, Z.mod_add.
Qed.

Lemma lor_flag_range p q : 0 <= p < 1024 -> 0 <= q < 1024 -> 0 <= Z.lor p q < 1024.
Proof.
  intros Hp Hq. split; [apply Z.lor_nonneg; lia|]. destruct (decide (Z.lor p q = 0)) as [->|Hne]; [done|].
  change 1024 with (2 ^ 10). apply Z.log2_lt_pow2; [pose proof (proj2 (Z.lor_nonneg p q)); lia|].
  rewrite Z.log2_lor by lia. apply Z.max_lub_lt.
  - destruct (decide (p = 0)) as [->|]; [done|]. apply Z.log2_lt_pow2; lia.
  - destruct (decide (q = 0)) as [->|]; [done|]. apply Z.log2_lt_pow2; lia.
Qed.

Lemma odd_lor_V p : Z.odd (Z.lor p PTE_V) = true.
Proof. rewrite <- !Z.bit0_odd, Z.lor_spec. apply orb_true_r. Qed.

(** The entry that [vm_mappages] writes. *)
Lemma map_pte pa perm : 0 <= pa < 2 ^ 64 -> 0 <= perm < 1024 ->
  u64 (Z.lor (Z.lor (PA_TO_PTE pa) perm) PTE_V) = mk_pte pa (Z.lor perm PTE_V).
Proof.
  intros Hp Hf. rewrite <- Z.lor_assoc. apply u64_small. apply mk_pte_range; [done|].
  apply lor_flag_range; [done | by vm_compute].
Qed.

(** ** Page numbers *)

Lemma VPN_eq va level : 0 <= level -> VA_TO_VPN va level = va / 2 ^ (12 + 9 * level) mod 512.
Proof.
  intros Hl. unfold VA_TO_VPN, VA_SHIFT. change 0x1FF with (Z.ones 9). rewrite Z.land_ones by done.
  by rewrite Z.shiftr_div_pow2 by lia.
Qed.

Lemma VPN_range va level : 0 <= VA_TO_VPN va level < 512.
Proof.
  unfold VA_TO_VPN. change 0x1FF with (Z.ones 9). rewrite Z.land_ones by done. apply Z.mod_pos_bound. lia.
Qed.

(** The page of an address, and its address from the three numbers. *)
Definition page_of (va : Z) : Z := va / PGSIZE.

Lemma VPN_page va : 0 <= va < VA_MAX ->
  page_of va = (VA_TO_VPN va 2 * 512 + VA_TO_VPN va 1) * 512 + VA_TO_VPN va 0.
Proof.
  intros Hv. rewrite !VPN_eq by done. change (VA_MAX) with (2 ^ 38) in Hv.
  change (2 ^ (12 + 9 * 0)) with 4096. change (2 ^ (12 + 9 * 1)) with (4096 * 512). change (2 ^ (12 + 9 * 2)) with (4096 * 512 * 512).
  unfold page_of, PGSIZE. rewrite <- !Z.div_div by done. set (p := va / 4096).
  assert (0 <= p < 2 ^ 26) as Hp by (unfold p; split; [apply Z.div_pos | apply Z.div_lt_upper_bound]; lia).
  pose proof (Z.div_mod p 512 ltac:(done)). pose proof (Z.div_mod (p / 512) 512 ltac:(done)).
  rewrite (Z.mod_small (p / 512 / 512)); [lia|]. split; [do 2 (apply Z.div_pos; [|done]); lia|].
  do 2 (apply Z.div_lt_upper_bound; [done|]). lia.
Qed.

Lemma same_page va va' : 0 <= va < VA_MAX -> 0 <= va' < VA_MAX ->
  page_of va = page_of va' <->
  VA_TO_VPN va 2 = VA_TO_VPN va' 2 /\ VA_TO_VPN va 1 = VA_TO_VPN va' 1 /\ VA_TO_VPN va 0 = VA_TO_VPN va' 0.
Proof.
  intros Hv Hv'. rewrite !VPN_page by done.
  pose proof (VPN_range va 0). pose proof (VPN_range va 1). pose proof (VPN_range va' 0). pose proof (VPN_range va' 1).
  split; [intros; split_and!; lia | intros (-> & -> & ->); done].
Qed.

(** ** The tree *)

Fixpoint node (m : mem) (root : Z) (path : list Z) : option Z :=
  match path with
  | [] => Some root
  | i :: path' =>
      let v := load64 m (root + 8 * i) in
      if pte_valid v then node m (PTE_TO_PA v) path' else None
  end.

Definition path_ok (p : list Z) : Prop := (length p <= 2)%nat /\ Forall (fun i => 0 <= i < 512) p.

Definition child (m : mem) (t i : Z) : option Z :=
  let v := load64 m (t + 8 * i) in if pte_valid v then Some (PTE_TO_PA v) else None.

Lemma node_snoc m root p i : node m root (p ++ [i]) = t ← node m root p; child m t i.
Proof.
  revert root; induction p as [|j p IH]; intros root; cbn [node app].
  - unfold child. cbn [mbind option_bind]. by destruct (pte_valid _).
  - destruct (pte_valid _); [apply IH | done].
Qed.

Lemma path_ok_snoc p i : path_ok (p ++ [i]) -> path_ok p /\ 0 <= i < 512 /\ (length p <= 1)%nat.
Proof.
  intros [Hl [Hp Hi]%Forall_app]. rewrite length_app in Hl. simpl in Hl. apply list.Forall_cons in Hi as [Hi _].
  split_and!; [split; [lia | done] | lia | lia | lia].
Qed.

(** The tables are distinct pages outside [avoid]. *)
Record pt_ok (m : mem) (root : Z) (avoid : list Z) : Prop := {
  pt_pages : forall p a, path_ok p -> node m root p = Some a -> page_ok a /\ a ∉ avoid;
  pt_inj : forall p q a, path_ok p -> path_ok q -> node m root p = Some a -> node m root q = Some a -> p = q
}.

(** The entries of two tables do not overlap. *)
Lemma entry_sep a b i j : page_ok a -> page_ok b -> 0 <= i < 512 -> 0 <= j < 512 -> a <> b \/ i <> j ->
  a + 8 * i + 8 <= b + 8 * j \/ b + 8 * j + 8 <= a + 8 * i.
Proof.
  intros Ha Hb Hi Hj Hne. destruct (decide (a = b)) as [->|Hab]; [lia|].
  destruct (page_sep a b Ha Hb Hab); unfold PGSIZE in *; lia.
Qed.

(** *** Storing into an entry of a table of the last level *)

Lemma node_store_leaf m root avoid p t i v :
  pt_ok m root avoid -> path_ok p -> length p = 2%nat -> node m root p = Some t -> 0 <= i < 512 ->
  forall r, path_ok r -> node (store64 m (t + 8 * i) v) root r = node m root r.
Proof.
  intros [Hpg Hinj] Hp Hl Ht Hi r. induction r as [|k r IH] using rev_ind; intros Hr; [done|].
  destruct (path_ok_snoc _ _ Hr) as (Hr' & Hk & Hlr). rewrite !node_snoc, IH by done.
  destruct (node m root r) as [a|] eqn:Ha; [|done]. cbn [mbind option_bind]. unfold child.
  rewrite load64_store64_ne; [done|]. apply entry_sep; try done; [by apply (Hpg p) | by apply (Hpg r)|].
  left. intros ->. assert (p = r) by (by eapply Hinj). subst. lia.
Qed.

(** *** Storing a new, empty table into a free entry *)

Section Grow.
Variables (m m1 : mem) (root : Z) (avoid : list Z) (p : list Z) (t i q v : Z).
Hypothesis Hpt : pt_ok m root avoid.
Hypothesis Hp : path_ok (p ++ [i]).
Hypothesis Ht : node m root p = Some t.
Hypothesis Hnone : child m t i = None.
Hypothesis Hq : page_ok q.
Hypothesis Hfresh : forall r, path_ok r -> node m root r <> Some q.
Hypothesis Hnew : load64 m1 (t + 8 * i) = v.
Hypothesis Hv : pte_valid v = true.
Hypothesis Hpa : PTE_TO_PA v = q.
Hypothesis Hzero : forall k, 0 <= k < 512 -> load64 m1 (q + 8 * k) = 0.
Hypothesis Hsame : forall r a k, path_ok r -> node m root r = Some a -> 0 <= k < 512 -> (r, k) <> (p, i) ->
  load64 m1 (a + 8 * k) = load64 m (a + 8 * k).

Lemma node_grow r : path_ok r -> node m1 root r = if decide (r = p ++ [i]) then Some q else node m root r.
Proof.
  destruct (path_ok_snoc _ _ Hp) as (Hp' & Hi & Hlp). destruct Hpt as [Hpg Hinj].
  assert (node m root (p ++ [i]) = None) as Hno by (by rewrite node_snoc, Ht).
  induction r as [|k r IH] using rev_ind; intros Hr.
  { rewrite decide_False by (intros H; by destruct p). done. }
  destruct (path_ok_snoc _ _ Hr) as (Hr' & Hk & Hlr). rewrite !node_snoc, IH by done.
  destruct (decide (r = p ++ [i])) as [->|Hne].
  - rewrite Hno. cbn [mbind option_bind]. unfold child. rewrite Hzero by done. cbn [pte_valid].
    rewrite decide_False; [done|]. intros [He _]%app_inj_2; [|done]. rewrite <- (app_nil_r p) in He at 2. by apply app_inv_head in He.
  - destruct (node m root r) as [a|] eqn:Ha; cbn [mbind option_bind].
    + destruct (decide (r ++ [k] = p ++ [i])) as [[-> Hki]%app_inj_2|Hrk]; [|done|].
      * injection Hki as ->. rewrite Ht in Ha. injection Ha as <-. unfold child. rewrite Hnew, Hv, Hpa. done.
      * unfold child. by rewrite (Hsame r) by (done || congruence).
    + rewrite decide_False; [done|]. intros [-> _]%app_inj_2; [|done]. congruence.
Qed.

Lemma pt_grow avoid' : (forall x, x ∈ avoid' -> x ∈ avoid) -> q ∉ avoid' -> pt_ok m1 root avoid'.
Proof.
  intros Hsub Hqa. destruct Hpt as [Hpg Hinj]. split.
  - intros r a Hr. rewrite node_grow by done. case_decide; [intros [= <-]; done|].
    intros Ha. destruct (Hpg r a Hr Ha) as [? Hna]. split; [done|]. intros Hin. by apply Hna, Hsub.
  - intros r r' a Hr Hr'. rewrite !node_grow by done. do 2 case_decide; subst; try done.
    + intros [= <-] Ha. by destruct (Hfresh r').
    + intros Ha [= <-]. by destruct (Hfresh r).
    + by apply Hinj.
Qed.
End Grow.

(** ** The mapping *)

Definition leaf (m : mem) (root va : Z) : option Z :=
  t ← node m root [VA_TO_VPN va 2; VA_TO_VPN va 1]; Some (t + 8 * VA_TO_VPN va 0).

(** The valid entry of a virtual address. *)
Definition pt_map (m : mem) (root va : Z) : option Z :=
  a ← leaf m root va; let v := load64 m a in if pte_valid v then Some v else None.

Lemma vpn_path va : path_ok [VA_TO_VPN va 2; VA_TO_VPN va 1].
Proof. split; [done|]. repeat constructor; apply VPN_range. Qed.

(** Storing the entry of [va] changes the mapping of its page only. *)
Lemma pt_map_store m root avoid va a v va' : pt_ok m root avoid -> leaf m root va = Some a -> 0 <= v < 2 ^ 64 ->
  0 <= va < VA_MAX -> 0 <= va' < VA_MAX ->
  pt_map (store64 m a v) root va' = if decide (page_of va' = page_of va) then (if pte_valid v then Some v else None)
                                    else pt_map m root va'.
Proof.
  intros Hpt Hleaf Hv Hva Hva'. unfold leaf in Hleaf. destruct (node m root _) as [t|] eqn:Ht; [|done].
  injection Hleaf as <-. pose proof (VPN_range va 0) as H0. pose proof (VPN_range va' 0) as H0'.
  unfold pt_map, leaf.
  rewrite (node_store_leaf m root avoid [VA_TO_VPN va 2; VA_TO_VPN va 1] t) by (done || apply vpn_path).
  destruct (decide (page_of va' = page_of va)) as [Hsp|Hne].
  - apply same_page in Hsp as (H2 & H1 & H0e); [|done..]. rewrite H2, H1, Ht, H0e. cbn [mbind option_bind]. by rewrite load64_store64_eq.
  - destruct (node m root [VA_TO_VPN va' 2; VA_TO_VPN va' 1]) as [t'|] eqn:Ht'; [|done]. cbn [mbind option_bind].
    rewrite load64_store64_ne; [done|].
    destruct Hpt as [Hpg Hinj]. apply entry_sep; [by eapply Hpg; [apply vpn_path|] | by eapply Hpg; [apply vpn_path|] | done | done |].
    destruct (decide (t = t')) as [->|]; [right | by left]. intros He. apply Hne. apply same_page; [done..|].
    pose proof (Hinj _ _ _ (vpn_path va') (vpn_path va) Ht' Ht) as Hp. injection Hp as ? ?. by split_and!.
Qed.

(** ** The state *)

Section State.
Context {D : Type}.
Implicit Types (s : kstate D) (kp up : list Z).

(** The free pages [kp] and [up], and a page table that uses none of them. *)
Record vm_ok s (root : Z) kp up : Prop := {
  vm_pools : pools s kp up;
  vm_tree : pt_ok (k_mem s) root (kp ++ up)
}.

(** Only memory, the allocator and this CPU's interrupt state differ. *)
Definition frame_vm s s' : Prop :=
  s' = set_k_cpu (k_cpu s') (set_k_mem (k_mem s') (set_kern_region (kern_region s') (set_user_region (user_region s') s))).

#[export] Instance frame_vm_equiv : Equivalence frame_vm.
Proof.
  split.
  - intros []. done.
  - intros [] []; unfold frame_vm, set_k_cpu; simpl. congruence.
  - intros [] [] []; unfold frame_vm, set_k_cpu; simpl. congruence.
Qed.

(** An address outside the tables. *)
Definition outside (m : mem) (root x : Z) : Prop :=
  forall p a, path_ok p -> node m root p = Some a -> ~ (a <= x < a + PGSIZE).

(** Every entry of the first two levels is a pointer without permissions, and none is
    in the half of the root that the addresses below [VA_MAX] never reach. *)
Definition regular (m : mem) (root : Z) : Prop :=
  (forall r t i, path_ok (r ++ [i]) -> node m root r = Some t -> pte_valid (load64 m (t + 8 * i)) = true -> PTE_CHECK (load64 m (t + 8 * i)) = true) /\
  (forall i, 256 <= i < 512 -> node m root [i] = None).

(** The tree has grown by the first pages of [kp]. *)
Record grows s s' (root : Z) kp kp' up : Prop := {
  g_vm : vm_ok s' root kp' up;
  g_frame : frame_vm s s';
  g_cpu : cpu_touch (k_cpu s') = cpu_touch (k_cpu s);
  g_nodes : forall r t, path_ok r -> node (k_mem s) root r = Some t -> node (k_mem s') root r = Some t;
  g_used : exists used, kp = used ++ kp';
  g_mem : forall x, outside (k_mem s') root x -> load8 (k_mem s') x = load8 (k_mem s) x;
  g_new : forall r t, path_ok r -> node (k_mem s') root r = Some t -> node (k_mem s) root r = Some t \/ t ∈ kp;
  g_regular : regular (k_mem s) root -> regular (k_mem s') root
}.

Lemma grows_refl s root kp up : vm_ok s root kp up -> grows s s root kp kp up.
Proof. intros Hv. split; try done; [by exists [] | intros r t _ Ht; by left]. Qed.

Lemma grows_trans s s1 s2 root kp kp1 kp2 up :
  grows s s1 root kp kp1 up -> grows s1 s2 root kp1 kp2 up -> grows s s2 root kp kp2 up.
Proof.
  intros [_ Hf Hc Hn [u1 ->] Hm Hw Hreg] [Hv Hf' Hc' Hn' [u2 ->] Hm' Hw' Hreg']. split; try done.
  - by etransitivity.
  - congruence.
  - intros r t Hr Ht. auto.
  - exists (u1 ++ u2). by rewrite app_assoc.
  - intros x Hx. rewrite Hm' by done. apply Hm. intros p a Hp Ha. apply (Hx p a Hp). auto.
  - intros r t Hr Ht. destruct (Hw' r t Hr Ht) as [Ht'|Hin]; [by apply Hw|]. right. apply elem_of_app. by right.
  - auto.
Qed.

(** *** One new table *)

Lemma load8_memset m a c n x : 0 <= n ->
  load8 (memset m a c n) x = if decide (a <= x < a + n) then u8 c else load8 m x.
Proof. intros Hn. unfold memset. rewrite memset_loop_spec. by rewrite Z2Nat.id by done. Qed.

Lemma load64_memset_in m a n b : 0 <= n -> a <= b -> b + 8 <= a + n -> load64 (memset m a 0 n) b = 0.
Proof.
  intros Hn Hab Hb. unfold load64. rewrite (read_bytes_ext _ ∅ b b 8); [reflexivity|].
  intros i Hi. rewrite load8_memset, decide_True by lia. done.
Qed.

Lemma load64_memset_out m a c n b : 0 <= n -> b + 8 <= a \/ a + n <= b -> load64 (memset m a c n) b = load64 m b.
Proof. intros Hn Hb. apply load64_ext. intros x Hx. rewrite load8_memset, decide_False by lia. done. Qed.

Lemma k_mem_alloc_post (b : bool) s : k_mem (alloc_post b s) = k_mem s.
Proof. by destruct s, b. Qed.
Lemma k_cpu_alloc_post (b : bool) s : k_cpu (alloc_post b s) = cpu_touch (k_cpu s).
Proof. by destruct s, b. Qed.
Lemma frame_alloc_post (b : bool) s : frame_vm s (alloc_post b s).
Proof. by destruct s, b. Qed.

Lemma pools_ext s s' kp up : kern_region s' = kern_region s -> user_region s' = user_region s -> k_cpu s' = k_cpu s ->
  (forall p, p ∈ kp ++ up -> load64 (k_mem s') p = load64 (k_mem s) p) -> pools s kp up -> pools s' kp up.
Proof.
  intros Hk Hu Hc Hm [(Hkf & ? & ?) (Huf & ? & ?) ? ? ? ?]. split; rewrite ?Hk, ?Hu, ?Hc; try done.
  - split_and!; [|done..]. eapply flist_ext, Hkf. intros p Hp. symmetry. apply Hm. set_solver.
  - split_and!; [|done..]. eapply flist_ext, Huf. intros p Hp. symmetry. apply Hm. set_solver.
Qed.

Lemma pools_set_mem s kp up m : (forall p, p ∈ kp ++ up -> load64 m p = load64 (k_mem s) p) -> pools s kp up ->
  pools (set_k_mem m s) kp up.
Proof. intros Hm. apply pools_ext; by destruct s. Qed.

(** The memory after a new table [q] was cleared and entered at entry [i] of [t]. *)
Definition table_mem m (q t i : Z) : mem := store64 (memset m q 0 PGSIZE) (t + 8 * i) (mk_pte q PTE_V).

Lemma pte_pointer q : page_ok q -> 0 <= mk_pte q PTE_V < 2 ^ 64 /\
  pte_valid (mk_pte q PTE_V) = true /\ PTE_TO_PA (mk_pte q PTE_V) = q.
Proof.
  intros (H0 & Ha & H64). unfold PGSIZE in *. assert (0 <= q < 2 ^ 64) as Hq by lia.
  assert (0 <= PTE_V < 1024) as HV by (by vm_compute).
  split_and!; [by apply mk_pte_range.. | by rewrite pte_valid_mk | by apply PTE_TO_PA_mk].
Qed.

Section NewTable.
Variables (m : mem) (root q t i : Z) (avoid p : list Z).
Hypothesis Hpt : pt_ok m root (q :: avoid).
Hypothesis Hq : page_ok q.
Hypothesis Hqa : q ∉ avoid.
Hypothesis Hp : path_ok (p ++ [i]).
Hypothesis Ht : node m root p = Some t.
Hypothesis Hnone : child m t i = None.
Let m1 : mem := table_mem m q t i.

Lemma new_not_node r : path_ok r -> node m root r <> Some q.
Proof. intros Hr Hn. destruct (pt_pages _ _ _ Hpt r q Hr Hn) as [_ Hno]. apply Hno, elem_of_cons. by left. Qed.

Lemma new_parent : path_ok p /\ 0 <= i < 512 /\ (length p <= 1)%nat /\ page_ok t /\ t <> q.
Proof.
  destruct (path_ok_snoc _ _ Hp) as (Hp' & Hi & Hl). destruct (pt_pages _ _ _ Hpt p t Hp' Ht) as [Htok _].
  split_and!; try done; try lia. intros ->. exact (new_not_node p Hp' Ht).
Qed.

Lemma new_load_other a k : page_ok a -> 0 <= k < 512 -> a <> q -> a <> t \/ k <> i ->
  load64 m1 (a + 8 * k) = load64 m (a + 8 * k).
Proof.
  intros Ha Hk Haq Hne. destruct new_parent as (_ & Hi & _ & Htok & _). unfold m1, table_mem.
  rewrite load64_store64_ne.
  - apply load64_memset_out; [done|]. destruct (page_sep q a Hq Ha) as [?|?]; [congruence|..]; unfold PGSIZE in *; lia.
  - apply entry_sep; [done..|]. destruct Hne; [left | right]; congruence.
Qed.

Lemma new_load_zero k : 0 <= k < 512 -> load64 m1 (q + 8 * k) = 0.
Proof.
  intros Hk. destruct new_parent as (_ & Hi & _ & Htok & Htq). unfold m1, table_mem. rewrite load64_store64_ne.
  - apply load64_memset_in; unfold PGSIZE; lia.
  - apply entry_sep; [done..|]. by left.
Qed.

Lemma new_load_entry : load64 m1 (t + 8 * i) = mk_pte q PTE_V.
Proof. apply load64_store64_eq. by apply pte_pointer. Qed.

Lemma new_same r a k : path_ok r -> node m root r = Some a -> 0 <= k < 512 -> (r, k) <> (p, i) ->
  load64 m1 (a + 8 * k) = load64 m (a + 8 * k).
Proof.
  intros Hr Har Hk Hne. destruct new_parent as (Hp' & _). destruct (pt_pages _ _ _ Hpt r a Hr Har) as [Ha _].
  apply new_load_other; [done | done | |].
  - intros ->. exact (new_not_node r Hr Har).
  - destruct (decide (a = t)) as [->|]; [right | by left]. intros ->. apply Hne. f_equal.
    exact (pt_inj _ _ _ Hpt r p t Hr Hp' Har Ht).
Qed.

Lemma new_node r : path_ok r -> node m1 root r = if decide (r = p ++ [i]) then Some q else node m root r.
Proof.
  destruct (pte_pointer q Hq) as (_ & Hv & Hpa).
  exact (node_grow m m1 root (q :: avoid) p t i q _ Hpt Hp Ht Hnone new_load_entry Hv Hpa new_load_zero new_same r).
Qed.

Lemma new_pt_ok : pt_ok m1 root avoid.
Proof.
  destruct (pte_pointer q Hq) as (_ & Hv & Hpa).
  apply (pt_grow m m1 root (q :: avoid) p t i q _ Hpt Hp Ht Hnone Hq new_not_node new_load_entry Hv Hpa new_load_zero new_same);
    [|done]. intros x Hx. apply elem_of_cons. by right.
Qed.

Lemma new_pt_map va : pt_map m1 root va = pt_map m root va.
Proof.
  destruct new_parent as (_ & _ & Hlp & _). unfold pt_map, leaf. rewrite new_node by apply vpn_path.
  pose proof (VPN_range va 0) as Hk. case_decide as He.
  - assert (node m root [VA_TO_VPN va 2; VA_TO_VPN va 1] = None) as -> by (rewrite He, node_snoc, Ht; exact Hnone).
    cbn [mbind option_bind]. by rewrite new_load_zero.
  - destruct (node m root [VA_TO_VPN va 2; VA_TO_VPN va 1]) as [a|] eqn:Har; cbn [mbind option_bind]; [|reflexivity].
    rewrite (new_same _ _ _ (vpn_path va) Har Hk); [reflexivity|]. intros [= He' _]. rewrite <- He' in Hlp. simpl in Hlp. lia.
Qed.

Lemma new_outside x : outside m1 root x -> load8 m1 x = load8 m x.
Proof.
  intros Hx. destruct new_parent as (Hp' & Hi & Hlp & Htok & _).
  assert (~ (q <= x < q + PGSIZE)) as Hxq by (apply (Hx (p ++ [i])); [done|]; rewrite new_node by done; by rewrite decide_True).
  assert (~ (t <= x < t + PGSIZE)) as Hxt.
  { apply (Hx p); [done|]. rewrite new_node by done. rewrite decide_False; [done|].
    intros He. apply (f_equal length) in He. rewrite length_app in He. simpl in He. lia. }
  unfold m1, table_mem. rewrite load8_store64_ne by (unfold PGSIZE in *; lia). by rewrite load8_memset, decide_False.
Qed.

Lemma new_regular : hd 0 (p ++ [i]) < 256 -> regular m root -> regular m1 root.
Proof.
  intros Hhd [Hptr Hlow]. destruct (pte_pointer q Hq) as (_ & Hv & _). split.
  - intros r a k Hrk. destruct (path_ok_snoc _ _ Hrk) as (Hr & Hk & _). rewrite new_node by done. case_decide as Hd.
    + intros [= <-]. by rewrite new_load_zero.
    + intros Ha. destruct (decide ((r, k) = (p, i))) as [[= -> ->]|Hne].
      * rewrite Ht in Ha. injection Ha as <-. intros _. rewrite new_load_entry. destruct Hq as (H0 & _ & H64). unfold PGSIZE in *.
        rewrite PTE_CHECK_mk; [by vm_compute | lia | by vm_compute].
      * rewrite (new_same r a k) by done. by apply (Hptr r a k).
  - intros j Hj. rewrite new_node by (split; [simpl; lia | repeat constructor; lia]). rewrite decide_False; [by apply Hlow|].
    intros He. rewrite <- He in Hhd. simpl in Hhd. lia.
Qed.
End NewTable.

Lemma set_k_mem_twice m m' s : set_k_mem m (set_k_mem m' s) = set_k_mem m s.
Proof. by destruct s. Qed.
Lemma frame_set_k_mem m s : frame_vm s (set_k_mem m s).
Proof. by destruct s. Qed.
Lemma k_mem_set m s : k_mem (set_k_mem m s) = m.
Proof. by destruct s. Qed.
Lemma k_cpu_set m s : k_cpu (set_k_mem m s) = k_cpu s.
Proof. by destruct s. Qed.

Lemma new_table s root q kp up p t i : vm_ok s root (q :: kp) up -> path_ok (p ++ [i]) -> hd 0 (p ++ [i]) < 256 ->
  node (k_mem s) root p = Some t -> child (k_mem s) t i = None ->
  let s1 := set_k_mem (table_mem (k_mem s) q t i) (alloc_post true s) in
  (newtbl ← pmem_alloc true; mem_set newtbl 0 PGSIZE;;
   put64 (t + 8 * i) (Z.lor (PA_TO_PTE newtbl) PTE_V);; mret newtbl) s = Ret q s1 /\
  grows s s1 root (q :: kp) kp up.
Proof.
  intros [Hpools Hpt] Hp Hhd Ht Hnone s1.
  destruct (pools_alloc true s (q :: kp) up q kp kp up Hpools eq_refl eq_refl) as [Ha Hpools'].
  destruct (pools_cons_inv _ _ _ _ (kp ++ up) Hpools (reflexivity _)) as (Hqn & _ & Hq & Hpgs & _).
  change ((q :: kp) ++ up) with (q :: kp ++ up) in Hpt.
  destruct (new_parent (k_mem s) root q t i (kp ++ up) p Hpt Hp Ht Hnone) as (Hp' & Hi & Hlp & Htok & Htq).
  assert (k_mem s1 = table_mem (k_mem s) q t i) as Hm by apply k_mem_set. split.
  - mstep ltac:(exact Ha). unfold mem_set. rewrite (proj2 (Z.eqb_neq q 0)) by (destruct Hq; lia). mrun.
    unfold put64. mrun. rewrite set_k_mem_twice, k_mem_set, k_mem_alloc_post. unfold s1, table_mem, mk_pte. reflexivity.
  - split; rewrite ?Hm.
    + split; rewrite ?Hm.
      * apply pools_set_mem; [|exact Hpools']. rewrite k_mem_alloc_post.
        intros a Hin. pose proof (Forall_elem _ _ _ Hpgs Hin) as Haok.
        assert (a <> q) as Haq by (intros ->; exact (Hqn Hin)).
        assert (a <> t) as Hat.
        { intros ->. destruct (pt_pages _ _ _ Hpt p t Hp' Ht) as [_ Hno]. apply Hno, elem_of_cons. by right. }
        pose proof (new_load_other _ _ q t i _ p Hpt Hq Hp Ht Hnone a 0 Haok ltac:(lia) Haq (or_introl Hat)) as E.
        rewrite Z.mul_0_r, Z.add_0_r in E. exact E.
      * by apply (new_pt_ok _ _ q t i (kp ++ up) p).
    + etransitivity; [apply (frame_alloc_post true) | apply frame_set_k_mem].
    + unfold s1. rewrite k_cpu_set, k_cpu_alloc_post. apply cpu_touch_idemp.
    + intros r a Hr Har. rewrite (new_node _ _ q t i (kp ++ up) p) by done. rewrite decide_False; [done|].
      intros ->. rewrite node_snoc, Ht in Har. cbn [mbind option_bind] in Har. by rewrite Hnone in Har.
    + by exists [q].
    + by apply (new_outside _ _ q t i (kp ++ up) p).
    + intros r a Hr Har. rewrite (new_node _ _ q t i (kp ++ up) p) in Har by done. case_decide; [right | by left].
      injection Har as <-. apply elem_of_cons. by left.
    + by apply (new_regular _ _ q t i (kp ++ up) p).
Qed.
(** ** [vm_getpte] *)

(** The tables that the path to [va] lacks. *)
Definition missing (m : mem) (root va : Z) : nat :=
  match node m root [VA_TO_VPN va 2] with
  | None => 2
  | Some _ => match node m root [VA_TO_VPN va 2; VA_TO_VPN va 1] with None => 1 | Some _ => 0 end
  end.

Lemma vm_node_nonzero s root kp up p a : vm_ok s root kp up -> path_ok p -> node (k_mem s) root p = Some a -> (a =? 0) = false.
Proof.
  intros [_ Hpt] Hp Ha. destruct (pt_pages _ _ _ Hpt p a Hp Ha) as [[H0 _] _]. apply Z.eqb_neq. lia.
Qed.

Lemma vpn_path1 va : path_ok [VA_TO_VPN va 2].
Proof. split; [simpl; lia|]. repeat constructor; apply VPN_range. Qed.
Lemma nil_path : path_ok [].
Proof. split; [simpl; lia | constructor]. Qed.

(** One turn of the loop: the entry is followed, or a table is made for it. *)
Lemma walk_follow s root kp up p t i levels va alloc c (level : Z) : vm_ok s root kp up -> path_ok p ->
  node (k_mem s) root p = Some t -> i = VA_TO_VPN va level -> child (k_mem s) t i = Some c ->
  walk_levels (level :: levels) t va alloc s = walk_levels levels c va alloc s.
Proof.
  intros Hv Hp Ht -> Hc. cbn [walk_levels]. rewrite (vm_node_nonzero _ _ _ _ _ _ Hv Hp Ht). unfold mem64. mrun.
  unfold child in Hc. destruct (pte_valid _); [|done]. by injection Hc as ->.
Qed.

Lemma walk_stop s root kp up p t i levels va (level : Z) : vm_ok s root kp up -> path_ok p ->
  node (k_mem s) root p = Some t -> i = VA_TO_VPN va level -> child (k_mem s) t i = None ->
  walk_levels (level :: levels) t va false s = Ret None s.
Proof.
  intros Hv Hp Ht -> Hc. cbn [walk_levels]. rewrite (vm_node_nonzero _ _ _ _ _ _ Hv Hp Ht). unfold mem64. mrun.
  unfold child in Hc. by destruct (pte_valid _).
Qed.

Lemma walk_alloc_table s root q kp up p t i levels va (level : Z) : vm_ok s root (q :: kp) up -> path_ok (p ++ [i]) -> hd 0 (p ++ [i]) < 256 ->
  node (k_mem s) root p = Some t -> i = VA_TO_VPN va level -> child (k_mem s) t i = None ->
  exists s1, walk_levels (level :: levels) t va true s = walk_levels levels q va true s1 /\
    grows s s1 root (q :: kp) kp up /\ node (k_mem s1) root (p ++ [i]) = Some q /\
    (forall j, child (k_mem s1) q j = None \/ ~ (0 <= j < 512)) /\
    (forall va', pt_map (k_mem s1) root va' = pt_map (k_mem s) root va').
Proof.
  intros Hv Hp Hhd Ht -> Hc. destruct (path_ok_snoc _ _ Hp) as (Hp' & _).
  destruct (new_table s root q kp up p t _ Hv Hp Hhd Ht Hc) as [Hrun Hg].
  set (s1 := set_k_mem _ (alloc_post true s)) in *. pose proof Hv as [Hpools Hpt].
  destruct (pools_cons_inv _ _ _ _ (kp ++ up) Hpools (reflexivity _)) as (_ & _ & Hq & _).
  change ((q :: kp) ++ up) with (q :: kp ++ up) in Hpt.
  assert (k_mem s1 = table_mem (k_mem s) q t (VA_TO_VPN va level)) as Hm by apply k_mem_set.
  clearbody s1. exists s1. split_and!; [| done | | |].
  - cbn [walk_levels]. rewrite (vm_node_nonzero _ _ _ _ _ _ Hv Hp' Ht). unfold mem64. mrun.
    unfold child in Hc. destruct (pte_valid _); [discriminate Hc|]. cbn [negb].
    unfold mbind, M_bind in Hrun |- *. destruct (pmem_alloc true s) as [nt s2| | | |]; try discriminate Hrun.
    destruct (mem_set nt 0 PGSIZE s2) as [[] s3| | | |]; try discriminate Hrun.
    unfold put64, modify, mret, M_ret in Hrun |- *. injection Hrun as <- Hs. rewrite <- Hs. reflexivity.
  - rewrite Hm, (new_node _ _ q t _ (kp ++ up) p) by done. by rewrite decide_True.
  - intros j. destruct (decide (0 <= j < 512)) as [Hj|]; [left | by right]. unfold child.
    rewrite Hm, (new_load_zero _ root q t _ (kp ++ up) p) by done. done.
  - intros va'. rewrite Hm. by apply (new_pt_map _ _ q t _ (kp ++ up) p).
Qed.
Lemma node_cons2 m root i j : node m root [i; j] = t ← node m root [i]; child m t j.
Proof. exact (node_snoc m root [i] j). Qed.
Lemma node_cons1 m root i : node m root [i] = child m root i.
Proof. exact (node_snoc m root [] i). Qed.

Lemma vm_getpte_lookup s root kp up va : vm_ok s root kp up ->
  (va < VA_MAX -> vm_getpte root va false s = Ret (leaf (k_mem s) root va) s) /\
  (forall alloc, VA_MAX <= va -> vm_getpte root va alloc s = Panic "vm_getpte: va out of range" s).
Proof.
  intros Hv. unfold vm_getpte. rewrite (vm_node_nonzero s root kp up [] root Hv nil_path eq_refl). split.
  - intros Hlt. mrun. rewrite (proj2 (Z.leb_gt _ _) Hlt). unfold leaf. rewrite node_cons2, node_cons1.
    destruct (child (k_mem s) root (VA_TO_VPN va 2)) as [t1|] eqn:H1; cbn [mbind option_bind].
    + rewrite <- node_cons1 in H1. pose proof H1 as H1'. rewrite node_cons1 in H1'.
      destruct (child (k_mem s) t1 (VA_TO_VPN va 1)) as [t0|] eqn:H0; cbn [mbind option_bind].
      * mstep ltac:(rewrite (walk_follow s root kp up [] root _ [1] va false t1 2 Hv nil_path eq_refl eq_refl H1');
          exact (walk_follow s root kp up _ t1 _ [] va false t0 1 Hv (vpn_path1 va) H1 eq_refl H0)). reflexivity.
      * mstep ltac:(rewrite (walk_follow s root kp up [] root _ [1] va false t1 2 Hv nil_path eq_refl eq_refl H1');
          exact (walk_stop s root kp up _ t1 _ [] va 1 Hv (vpn_path1 va) H1 eq_refl H0)). reflexivity.
    + mstep ltac:(exact (walk_stop s root kp up [] root _ [1] va 2 Hv nil_path eq_refl eq_refl H1)). reflexivity.
  - intros alloc Hle. mrun. by rewrite (proj2 (Z.leb_le _ _) Hle).
Qed.

Lemma VPN2_low va : 0 <= va < VA_MAX -> VA_TO_VPN va 2 < 256.
Proof.
  intros Hv. rewrite VPN_eq by done. change (2 ^ (12 + 9 * 2)) with (2 ^ 30). change VA_MAX with (256 * 2 ^ 30) in Hv.
  rewrite Z.mod_small; [apply Z.div_lt_upper_bound; lia|]. split; [apply Z.div_pos; lia | apply Z.div_lt_upper_bound; lia].
Qed.

(** The second turn of the loop, and the end. *)
Lemma walk_last s root kp up va t1 : vm_ok s root kp up -> 0 <= va < VA_MAX -> node (k_mem s) root [VA_TO_VPN va 2] = Some t1 ->
  (missing (k_mem s) root va <= length kp)%nat ->
  exists s' kp' t0, walk_levels [1] t1 va true s = Ret (Some t0) s' /\
    node (k_mem s') root [VA_TO_VPN va 2; VA_TO_VPN va 1] = Some t0 /\ grows s s' root kp kp' up /\
    (forall va', pt_map (k_mem s') root va' = pt_map (k_mem s) root va') /\
    (length kp = missing (k_mem s) root va + length kp')%nat.
Proof.
  intros Hv Hva H1 Hlen. unfold missing in *. rewrite H1 in Hlen |- *.
  destruct (node (k_mem s) root [VA_TO_VPN va 2; VA_TO_VPN va 1]) as [t0|] eqn:H0.
  - exists s, kp, t0. split_and!; [|done|by apply grows_refl|done|done].
    rewrite node_cons2, H1 in H0. exact (walk_follow s root kp up _ t1 _ [] va true t0 1 Hv (vpn_path1 va) H1 eq_refl H0).
  - destruct kp as [|q kp]; [simpl in Hlen; lia|]. rewrite node_cons2, H1 in H0. cbn [mbind option_bind] in H0.
    destruct (walk_alloc_table s root q kp up [VA_TO_VPN va 2] t1 _ [] va 1 Hv (vpn_path va) (VPN2_low va Hva) H1 eq_refl H0)
      as (s1 & Hs1 & Hg & Hn & _ & Hmap).
    exists s1, kp, q. split_and!; [exact Hs1 | exact Hn | exact Hg | exact Hmap | simpl; lia].
Qed.

Lemma vm_getpte_alloc s root kp up va : vm_ok s root kp up -> 0 <= va < VA_MAX ->
  (missing (k_mem s) root va <= length kp)%nat ->
  exists s' kp' a, vm_getpte root va true s = Ret (Some a) s' /\ leaf (k_mem s') root va = Some a /\
    grows s s' root kp kp' up /\ (forall va', pt_map (k_mem s') root va' = pt_map (k_mem s) root va') /\
    (length kp = missing (k_mem s) root va + length kp')%nat.
Proof.
  intros Hv Hva Hlen. unfold vm_getpte. rewrite (vm_node_nonzero s root kp up [] root Hv nil_path eq_refl).
  mrun. rewrite (proj2 (Z.leb_gt _ _)) by lia.
  destruct (child (k_mem s) root (VA_TO_VPN va 2)) as [t1|] eqn:H1.
  - pose proof H1 as H1'. rewrite <- node_cons1 in H1.
    destruct (walk_last s root kp up va t1 Hv Hva H1 Hlen) as (s' & kp' & t0 & Hs' & H0 & Hg & Hmap & Hk).
    exists s', kp', (t0 + 8 * VA_TO_VPN va 0). split_and!; [|unfold leaf; by rewrite H0 | done..].
    mstep ltac:(rewrite (walk_follow s root kp up [] root _ [1] va true t1 2 Hv nil_path eq_refl eq_refl H1'); exact Hs'). reflexivity.
  - assert (missing (k_mem s) root va = 2%nat) as Hmiss by (unfold missing; by rewrite node_cons1, H1).
    rewrite Hmiss in Hlen |- *. destruct kp as [|q kp]; [simpl in Hlen; lia|].
    destruct (walk_alloc_table s root q kp up [] root _ [1] va 2 Hv (vpn_path1 va) (VPN2_low va Hva) eq_refl eq_refl H1)
      as (s1 & Hs1 & Hg1 & Hn1 & Hz & Hmap1). cbn [app] in Hn1.
    assert (missing (k_mem s1) root va = 1%nat) as Hmiss1.
    { unfold missing. rewrite node_cons2, Hn1. cbn [mbind option_bind].
      destruct (Hz (VA_TO_VPN va 1)) as [-> | []]; [done | apply VPN_range]. }
    destruct (walk_last s1 root kp up va q (g_vm _ _ _ _ _ _ Hg1) Hva Hn1) as (s' & kp' & t0 & Hs' & H0 & Hg & Hmap & Hk).
    { rewrite Hmiss1. simpl in Hlen. lia. }
    rewrite Hmiss1 in Hk.
    exists s', kp', (t0 + 8 * VA_TO_VPN va 0). split_and!; [|unfold leaf; by rewrite H0 | by eapply grows_trans | |simpl; lia].
    + mstep ltac:(rewrite Hs1; exact Hs'). reflexivity.
    + intros va'. by rewrite Hmap, Hmap1.
Qed.
(** ** Storing an entry *)

Lemma leaf_inv m root va a : leaf m root va = Some a -> exists t,
  node m root [VA_TO_VPN va 2; VA_TO_VPN va 1] = Some t /\ a = t + 8 * VA_TO_VPN va 0.
Proof.
  unfold leaf. destruct (node m root _) as [t|]; [|discriminate]. intros H. injection H as <-. by exists t.
Qed.

Lemma put_leaf s root kp up va a v : vm_ok s root kp up -> leaf (k_mem s) root va = Some a -> 0 <= v < 2 ^ 64 ->
  0 <= va < VA_MAX ->
  exists s1, put64 a v s = Ret tt s1 /\ grows s s1 root kp kp up /\
    (forall r, path_ok r -> node (k_mem s1) root r = node (k_mem s) root r) /\
    (forall va', 0 <= va' < VA_MAX -> pt_map (k_mem s1) root va' =
       if decide (page_of va' = page_of va) then (if pte_valid v then Some v else None) else pt_map (k_mem s) root va').
Proof.
  intros [Hpools Hpt] Hleaf Hv Hva. exists (set_k_mem (store64 (k_mem s) a v) s). rewrite !k_mem_set.
  destruct (leaf_inv _ _ _ _ Hleaf) as (t & Ht & Ha). pose proof (VPN_range va 0) as H0.
  destruct (pt_pages _ _ _ Hpt _ t (vpn_path va) Ht) as [Htok Htn].
  assert (forall r, path_ok r -> node (store64 (k_mem s) a v) root r = node (k_mem s) root r) as Hnode.
  { rewrite Ha. by apply (node_store_leaf _ _ (kp ++ up) [VA_TO_VPN va 2; VA_TO_VPN va 1] t); [|apply vpn_path|..]. }
  split_and!; [done| |done|by intros; eapply pt_map_store]. split.
  - split; rewrite ?k_mem_set.
    + apply pools_set_mem; [|done]. intros b Hb. pose proof (Forall_elem _ _ _ (pools_pages _ _ _ Hpools) Hb) as Hbok.
      apply load64_store64_ne. rewrite Ha. replace b with (b + 8 * 0) by lia. apply entry_sep; try done.
      left. by intros ->.
    + destruct Hpt as [Hpg Hinj]. split; [intros r b Hr | intros r r' b Hr Hr']; rewrite !Hnode by done;
        [by apply Hpg | by apply Hinj].
  - apply frame_set_k_mem.
  - by rewrite k_cpu_set.
  - intros r b Hr Hb. rewrite k_mem_set. by rewrite Hnode.
  - by exists [].
  - rewrite k_mem_set. intros x Hx. apply load8_store64_ne. rewrite Ha.
    assert (~ (t <= x < t + PGSIZE)); [|unfold PGSIZE in *; lia].
    apply (Hx _ t (vpn_path va)). by rewrite Hnode by apply vpn_path.
  - rewrite k_mem_set. intros r b Hr Hb. left. by rewrite Hnode in Hb.
  - rewrite k_mem_set. intros [Hptr Hlow]. split.
    + intros r b k Hrk. destruct (path_ok_snoc _ _ Hrk) as (Hr & Hk & Hlr). rewrite Hnode by done. intros Hb.
      rewrite load64_store64_ne; [by apply (Hptr r b k)|]. rewrite Ha. apply entry_sep; [done | by apply (pt_pages _ _ _ Hpt r) | done | done |].
      left. intros <-. pose proof (pt_inj _ _ _ Hpt r _ t Hr (vpn_path va) Hb Ht) as ->. simpl in Hlr. lia.
    + intros i Hi. rewrite Hnode by (split; [simpl; lia | repeat constructor; lia]). by apply Hlow.
Qed.

(** ** [vm_mappages] *)

(** The tables that a run of [n] pages needs: two for each 2 MB block at most. *)
Definition block2m (va : Z) : Z := va / 2 ^ 21.
Definition more_blocks (start : Z) (n : nat) : Z := block2m (start + Z.of_nat n * PGSIZE - 1) - block2m start.

Lemma missing_le m root va : (missing m root va <= 2)%nat.
Proof. unfold missing. repeat case_match; lia. Qed.

Lemma same_block_vpn va va' : block2m va = block2m va' -> VA_TO_VPN va 2 = VA_TO_VPN va' 2 /\ VA_TO_VPN va 1 = VA_TO_VPN va' 1.
Proof.
  unfold block2m. intros Hb. rewrite !VPN_eq by done. change (12 + 9 * 1) with 21. change (2 ^ (12 + 9 * 2)) with (2 ^ 21 * 512).
  rewrite <- !Z.div_div by done. by rewrite Hb.
Qed.

Lemma missing_same_block m root va va' a : leaf m root va = Some a -> block2m va = block2m va' -> missing m root va' = 0%nat.
Proof.
  intros (t & Ht & _)%leaf_inv [H2 H1]%same_block_vpn. unfold missing. rewrite <- H2, <- H1, Ht.
  rewrite node_cons2 in Ht. by destruct (node m root [VA_TO_VPN va 2]).
Qed.

Lemma leaf_nodes m m' root va a : (forall r t, path_ok r -> node m root r = Some t -> node m' root r = Some t) ->
  leaf m root va = Some a -> leaf m' root va = Some a.
Proof. intros Hn (t & Ht & ->)%leaf_inv. unfold leaf. by rewrite (Hn _ _ (vpn_path va) Ht). Qed.

Lemma page_of_lt a b : a mod PGSIZE = 0 -> page_of a = page_of b <-> a <= b < a + PGSIZE.
Proof. unfold page_of, PGSIZE. intros Ha. divmod a 4096. divmod b 4096. split; lia. Qed.

Lemma npages_step start end_ : start < end_ -> npages start end_ = S (npages (start + PGSIZE) end_).
Proof.
  intros Hlt. unfold npages, PGSIZE. replace (end_ - start + 4096 - 1) with (end_ - (start + 4096) + 4096 - 1 + 1 * 4096) by lia.
  rewrite Z.div_add by done. divmod (end_ - (start + 4096) + 4096 - 1) 4096. lia.
Qed.

Lemma npages_end start end_ : end_ <= start -> npages start end_ = 0%nat.
Proof. intros Hle. unfold npages, PGSIZE. divmod (end_ - start + 4096 - 1) 4096. lia. Qed.

Lemma npages_bound start end_ : start < end_ ->
  start + (Z.of_nat (npages start end_) - 1) * PGSIZE < end_ <= start + Z.of_nat (npages start end_) * PGSIZE.
Proof. intros Hlt. unfold npages, PGSIZE. divmod (end_ - start + 4096 - 1) 4096. lia. Qed.

Lemma map_loop_ok root up perm end_ : 0 <= perm < 1024 -> end_ <= VA_MAX -> forall n s kp start pa,
  n = npages start end_ -> vm_ok s root kp up -> 0 <= start -> start mod PGSIZE = 0 ->
  0 <= pa -> pa mod PGSIZE = 0 -> pa + Z.of_nat n * PGSIZE < 2 ^ 64 ->
  (start < end_ -> Z.of_nat (missing (k_mem s) root start) + 2 * more_blocks start n <= Z.of_nat (length kp)) ->
  exists s' kp', map_loop n root start end_ pa perm s = Ret tt s' /\ grows s s' root kp kp' up /\
    (start < end_ -> Z.of_nat (length kp) <= Z.of_nat (length kp') + Z.of_nat (missing (k_mem s) root start) + 2 * more_blocks start n) /\
    (end_ <= start -> kp' = kp) /\
    forall va, 0 <= va < VA_MAX -> pt_map (k_mem s') root va =
      if decide (start <= va < start + Z.of_nat n * PGSIZE) then Some (mk_pte (pa + (page_of va * PGSIZE - start)) (Z.lor perm PTE_V))
      else pt_map (k_mem s) root va.
Proof.
  intros Hperm Hend. assert (0 <= Z.lor perm PTE_V < 1024) as Hfl by (apply lor_flag_range; [done | by vm_compute]).
  induction n as [|n IH]; intros s kp start pa Hn Hv H0 Ha Hpa Hpaa Hpam Hbudget.
  - destruct (Z.ltb_spec start end_) as [Hlt|Hge]; [by rewrite npages_step in Hn|].
    exists s, kp. cbn [map_loop]. rewrite (proj2 (Z.ltb_ge _ _) Hge). split_and!; [done | by apply grows_refl | lia | done |].
    intros va Hva. by rewrite decide_False by lia.
  - destruct (Z.ltb_spec start end_) as [Hlt|Hge]; [|by rewrite npages_end in Hn].
    pose proof (npages_bound start end_ Hlt) as Hbd. rewrite <- Hn in Hbd. rewrite npages_step in Hn by done. injection Hn as Hn.
    cbn [map_loop]. rewrite (proj2 (Z.ltb_lt _ _) Hlt). assert (0 <= start < VA_MAX) as Hst by lia.
    specialize (Hbudget Hlt). assert (0 <= more_blocks start (S n)) as Hmb.
    { unfold more_blocks, block2m. assert (start / 2 ^ 21 <= (start + Z.of_nat (S n) * PGSIZE - 1) / 2 ^ 21); [|lia].
      apply Z.div_le_mono; [done|]. unfold PGSIZE. lia. }
    destruct (vm_getpte_alloc s root kp up start Hv Hst) as (s1 & kp1 & a & Hs1 & Hleaf & Hg1 & Hmap1 & Hk1); [lia|].
    mstep ltac:(exact Hs1). assert (0 <= pa < 2 ^ 64) as Hpa64 by (unfold PGSIZE in *; lia). rewrite map_pte by done.
    destruct (put_leaf s1 root kp1 up start a (mk_pte pa (Z.lor perm PTE_V)) (g_vm _ _ _ _ _ _ Hg1) Hleaf)
      as (s2 & Hs2 & Hg2 & Hn2 & Hmap2); [by apply mk_pte_range | done |].
    mstep ltac:(exact Hs2). rewrite pte_valid_mk, odd_lor_V in Hmap2 by done.
    assert (VA_MAX = 2 ^ 38) as Hmax by done.
    rewrite (u64_small (start + PGSIZE)), (u64_small (pa + PGSIZE)) by (unfold PGSIZE in *; lia).
    assert ((start + PGSIZE) mod PGSIZE = 0) as Ha' by (rewrite <- (Z.mul_1_l PGSIZE) at 1; by rewrite Z.mod_add).
    assert (start + PGSIZE < end_ -> Z.of_nat (missing (k_mem s2) root (start + PGSIZE)) + 2 * more_blocks (start + PGSIZE) n
      <= 2 * more_blocks start (S n)) as Hbl.
    { intros Hlt'. assert (start + PGSIZE + Z.of_nat n * PGSIZE = start + Z.of_nat (S n) * PGSIZE) as Heq by lia.
      unfold more_blocks. rewrite Heq. pose proof (missing_le (k_mem s2) root (start + PGSIZE)) as Hml.
      destruct (decide (block2m start = block2m (start + PGSIZE))) as [Hsame|Hdiff].
      - rewrite (missing_same_block (k_mem s2) root start (start + PGSIZE) a) by (try done; eapply leaf_nodes, Hleaf; apply Hg2).
        lia.
      - assert (block2m start + 1 <= block2m (start + PGSIZE)); [|lia]. unfold block2m in *.
        assert (start / 2 ^ 21 <= (start + PGSIZE) / 2 ^ 21) by (apply Z.div_le_mono; unfold PGSIZE; lia). lia. }
    destruct (IH s2 kp1 (start + PGSIZE) (pa + PGSIZE) Hn (g_vm _ _ _ _ _ _ Hg2)) as (s3 & kp3 & Hs3 & Hg3 & Hu3 & He3 & Hmap3);
      [unfold PGSIZE in *; lia | done | unfold PGSIZE in *; lia | | unfold PGSIZE in *; lia | |].
    { rewrite <- (Z.mul_1_l PGSIZE) at 1. by rewrite Z.mod_add. }
    { intros Hlt'. specialize (Hbl Hlt'). lia. }
    exists s3, kp3. split_and!; [done | by eapply grows_trans; [eapply grows_trans|] | | lia |].
    { intros _. destruct (Z.ltb_spec (start + PGSIZE) end_) as [Hlt'|Hge']; [specialize (Hbl Hlt'); specialize (Hu3 Hlt'); lia|].
      rewrite (He3 Hge'). lia. }
    intros va Hva. rewrite Hmap3 by done. destruct (decide (start + PGSIZE <= va < start + PGSIZE + Z.of_nat n * PGSIZE)) as [Hin|Hout].
    + rewrite decide_True by (unfold PGSIZE in *; lia). do 2 f_equal. lia.
    + rewrite Hmap2 by done. destruct (decide (page_of va = page_of start)) as [Hp|Hp].
      * symmetry in Hp. pose proof (proj1 (page_of_lt start va Ha) Hp). rewrite decide_True by (unfold PGSIZE in *; lia).
        do 2 f_equal. rewrite <- Hp. unfold page_of, PGSIZE in *. divmod start 4096. lia.
      * assert (~ (start <= va < start + PGSIZE)) as Hno by (intros Hr; apply Hp; symmetry; by apply page_of_lt).
        rewrite decide_False by (unfold PGSIZE in *; lia). apply Hmap1.
Qed.
(** ** Memory that the page table does not use *)

(** Two memories with the same tables. *)
Definition same_tree (m m' : mem) (root : Z) : Prop := forall p a i, path_ok p -> node m root p = Some a -> 0 <= i < 512 ->
  load64 m' (a + 8 * i) = load64 m (a + 8 * i).

Lemma same_tree_node m m' root : same_tree m m' root -> forall r, path_ok r -> node m' root r = node m root r.
Proof.
  intros Hs r. induction r as [|k r IH] using rev_ind; intros Hr; [done|].
  destruct (path_ok_snoc _ _ Hr) as (Hr' & Hk & _). rewrite !node_snoc, IH by done.
  destruct (node m root r) as [a|] eqn:Ha; [|done]. cbn [mbind option_bind]. unfold child. by rewrite (Hs r a k).
Qed.

Lemma same_tree_map m m' root va : same_tree m m' root -> pt_map m' root va = pt_map m root va.
Proof.
  intros Hs. unfold pt_map, leaf. rewrite (same_tree_node _ _ _ Hs) by apply vpn_path.
  destruct (node m root [VA_TO_VPN va 2; VA_TO_VPN va 1]) as [t|] eqn:Ht; cbn [mbind option_bind]; [|reflexivity].
  by rewrite (Hs _ t (VA_TO_VPN va 0) (vpn_path va) Ht (VPN_range va 0)).
Qed.

Lemma same_tree_leaf m m' root va : same_tree m m' root -> leaf m' root va = leaf m root va.
Proof. intros Hs. unfold leaf. by rewrite (same_tree_node _ _ _ Hs) by apply vpn_path. Qed.

Lemma same_tree_pt m m' root avoid avoid' : same_tree m m' root -> pt_ok m root avoid ->
  (forall r a, path_ok r -> node m root r = Some a -> a ∉ avoid') -> pt_ok m' root avoid'.
Proof.
  intros Hs [Hpg Hinj] Hav. pose proof (same_tree_node _ _ _ Hs) as Hn.
  split; [intros r a Hr | intros r r' a Hr Hr']; rewrite !Hn by done; [|by apply Hinj].
  intros Ha. split; [by apply (Hpg r a) | by apply (Hav r a)].
Qed.

(** A page that is neither free nor a table of the tree. *)
Definition data_page s root kp up (q : Z) : Prop :=
  page_ok q /\ q ∉ kp ++ up /\ forall r, path_ok r -> node (k_mem s) root r <> Some q.

Lemma same_tree_outside s root kp up q m' : vm_ok s root kp up -> data_page s root kp up q ->
  (forall x, ~ (q <= x < q + PGSIZE) -> load8 m' x = load8 (k_mem s) x) -> same_tree (k_mem s) m' root.
Proof.
  intros [_ Hpt] (Hq & _ & Hn) Hm p a i Hp Ha Hi. apply load64_ext. intros x Hx. apply Hm.
  destruct (pt_pages _ _ _ Hpt p a Hp Ha) as [Hok _]. assert (q <> a) as Hqa by (intros ->; by apply (Hn p)).
  destruct (page_sep q a Hq Hok Hqa); unfold PGSIZE in *; lia.
Qed.

Lemma frame_free_post q b s : frame_vm s (free_post q b s).
Proof. by destruct s, b. Qed.
Lemma k_mem_free_post q b s : k_mem (free_post q b s) = store64 (k_mem s) q (list_head (region_of b s)).
Proof. by destruct s, b. Qed.
Lemma k_cpu_free_post q b s : k_cpu (free_post q b s) = cpu_touch (k_cpu s).
Proof. by destruct s, b. Qed.

(** Giving back a page that the tree does not use. *)
Lemma free_data s root kp up q b kp' up' : vm_ok s root kp up -> data_page s root kp up q ->
  Z.of_nat (S (length kp + length up)) < 2 ^ 32 -> put_pool b (q :: pool b kp up) kp up = (kp', up') ->
  exists s1, pmem_free q b s = Ret tt s1 /\ vm_ok s1 root kp' up' /\ same_tree (k_mem s) (k_mem s1) root /\
    frame_vm s s1 /\ cpu_touch (k_cpu s1) = cpu_touch (k_cpu s) /\
    (forall x, ~ (q <= x < q + PGSIZE) -> load8 (k_mem s1) x = load8 (k_mem s) x).
Proof.
  intros Hv Hq Hlt Hput. pose proof Hv as [Hpools Hpt]. pose proof Hq as (Hok & Hnin & Hnn).
  destruct (pools_free b s kp up q kp' up' Hpools Hok Hnin Hlt Hput) as [Hrun Hpools'].
  assert (forall x, ~ (q <= x < q + PGSIZE) -> load8 (k_mem (free_post q b s)) x = load8 (k_mem s) x) as Hm.
  { intros x Hx. rewrite k_mem_free_post. apply load8_store64_ne. unfold PGSIZE in *. lia. }
  pose proof (same_tree_outside s root kp up q _ Hv Hq Hm) as Hst.
  exists (free_post q b s). split_and!; [done| |done|apply frame_free_post|rewrite k_cpu_free_post; apply cpu_touch_idemp|done].
  split; [done|]. apply (same_tree_pt (k_mem s) _ root (kp ++ up)); [done..|].
  intros r a Hr Ha. rewrite (pool_give _ _ _ _ _ _ Hput). rewrite not_elem_of_cons.
  split; [intros ->; by apply (Hnn r) | by apply (pt_pages _ _ _ Hpt r a)].
Qed.
End State.
