(* ===== verification/VmemSpec.v ===== *)
(** * VmemSpec: what kernel/mem/vmem.c promises *)

From S2P Require Import Prelude Bytes Kstring Spinlock Kernel Pmem Vmem VmemTree.

Section Spec.
Context {D : Type}.
Implicit Types (s : kstate D) (kp up : list Z).

(** The entries of the tree hold pages: the valid entry of an address. *)
Lemma pt_map_inv m root va v : pt_map m root va = Some v -> exists a,
  leaf m root va = Some a /\ load64 m a = v /\ pte_valid v = true.
Proof.
  unfold pt_map. destruct (leaf m root va) as [a|]; cbn [mbind option_bind]; [|discriminate].
  destruct (pte_valid _) eqn:Hv; [|discriminate]. intros H. injection H as <-. by exists a.
Qed.

(** [vm_getpte]: without [alloc] it changes nothing and returns the entry that
    the three-level walk reaches, or NULL when a table is missing; with [alloc] it
    makes exactly the missing tables, of zeroed kernel pages, changes the mapping
    of no address and no memory outside the tables; beyond the largest address
    it panics. *)
Theorem vm_getpte_walks s root kp up va : vm_ok s root kp up -> 0 <= va ->
  (va < VA_MAX -> vm_getpte root va false s = Ret (leaf (k_mem s) root va) s)
  /\ (va < VA_MAX -> (missing (k_mem s) root va <= length kp)%nat ->
      exists s' kp' a, vm_getpte root va true s = Ret (Some a) s' /\ leaf (k_mem s') root va = Some a /\
        vm_ok s' root kp' up /\ length kp = (missing (k_mem s) root va + length kp')%nat /\ frame_vm s s' /\
        (forall va', pt_map (k_mem s') root va' = pt_map (k_mem s) root va') /\
        (forall x, outside (k_mem s') root x -> load8 (k_mem s') x = load8 (k_mem s) x))
  /\ (VA_MAX <= va -> forall alloc, vm_getpte root va alloc s = Panic "vm_getpte: va out of range" s).
Proof.
  intros Hv H0. destruct (vm_getpte_lookup s root kp up va Hv) as [Hl Hp]. split_and!; [done | | by intros; apply Hp].
  intros Hlt Hm. destruct (vm_getpte_alloc s root kp up va Hv) as (s' & kp' & a & Hs' & Hleaf & [? ? ? ? ? ? ? _] & Hmap & Hk); [done..|].
  exists s', kp', a. by split_and!.
Qed.

(** What [vm_mappages] does to the mapping. *)
Definition map_range (f : Z -> option Z) (va len pa perm : Z) (x : Z) : option Z :=
  if decide (va <= x < va + Z.of_nat (npages va (va + len)) * PGSIZE)
  then Some (mk_pte (pa + (page_of x * PGSIZE - va)) (Z.lor perm PTE_V)) else f x.

(** The kernel pages that are enough for its tables. *)
Definition map_cost (va len : Z) : Z := 2 * (more_blocks va (npages va (va + len)) + 1).

Definition map_args (va pa len perm : Z) : Prop :=
  0 <= va /\ va mod PGSIZE = 0 /\ 0 <= pa /\ pa mod PGSIZE = 0 /\ 0 <= perm < 1024 /\ 0 < len /\ va + len <= VA_MAX /\
  pa + len + PGSIZE < 2 ^ 64.

Lemma vm_mappages_ok s root kp up va pa len perm : vm_ok s root kp up -> map_args va pa len perm ->
  map_cost va len <= Z.of_nat (length kp) ->
  exists s' kp', vm_mappages root va pa len perm s = Ret tt s' /\ grows s s' root kp kp' up /\
    Z.of_nat (length kp) <= Z.of_nat (length kp') + map_cost va len /\
    forall x, 0 <= x < VA_MAX -> pt_map (k_mem s') root x = map_range (pt_map (k_mem s) root) va len pa perm x.
Proof.
  intros Hv (Hva & Hal & Hpa & Hpal & Hperm & Hlen & Hmax & Hpmax) Hb. unfold vm_mappages, map_cost, map_range in *.
  assert (VA_MAX = 2 ^ 38) as HM by done.
  rewrite u64_small by lia. pose proof (npages_bound va (va + len) ltac:(lia)) as Hbd.
  pose proof (missing_le (k_mem s) root va) as Hml.
  destruct (map_loop_ok root up perm (va + len) Hperm Hmax (npages va (va + len)) s kp va pa eq_refl Hv)
    as (s' & kp' & Hs' & Hg & Hu & _ & Hmap); try done; [unfold PGSIZE in *; lia | lia |].
  exists s', kp'. split_and!; [done | done | | done]. specialize (Hu ltac:(lia)). lia.
Qed.

(** C13: [vm_mappages] on whole pages: afterwards each page of the range translates
    to the corresponding physical page, with the permissions and the valid bit;
    every other page of the address space keeps its entry, memory outside the
    tables is unchanged, and the loop terminates. *)
Theorem vm_mappages_maps s root kp up va pa len perm : vm_ok s root kp up -> map_args va pa len perm ->
  map_cost va len <= Z.of_nat (length kp) ->
  exists s' kp', vm_mappages root va pa len perm s = Ret tt s' /\ vm_ok s' root kp' up /\ frame_vm s s' /\
    (forall x, outside (k_mem s') root x -> load8 (k_mem s') x = load8 (k_mem s) x) /\
    (forall i, 0 <= i < Z.of_nat (npages va (va + len)) -> exists v, pt_map (k_mem s') root (va + i * PGSIZE) = Some v /\
       PTE_TO_PA v = pa + i * PGSIZE /\ PTE_FLAGS v = Z.lor perm PTE_V) /\
    (forall x, 0 <= x < VA_MAX -> ~ (va <= x < va + Z.of_nat (npages va (va + len)) * PGSIZE) ->
       pt_map (k_mem s') root x = pt_map (k_mem s) root x).
Proof.
  intros Hv Hargs Hb. destruct (vm_mappages_ok s root kp up va pa len perm Hv Hargs Hb) as (s' & kp' & Hs' & Hg & _ & Hmap).
  destruct Hargs as (Hva & Hal & Hpa & Hpal & Hperm & Hlen & Hmax & Hpmax). destruct Hg as [Hv' Hf _ _ _ Hmem _ _].
  pose proof (npages_bound va (va + len) ltac:(lia)) as Hbd.
  assert (0 <= Z.lor perm PTE_V < 1024) as Hfl by (apply lor_flag_range; [done | by vm_compute]).
  assert (VA_MAX = 2 ^ 38 /\ va / PGSIZE * PGSIZE = va) as [HM Hvp] by (unfold PGSIZE in *; divmod va 4096; split; [done | lia]).
  exists s', kp'. split_and!; try done.
  - intros i Hi. assert (0 <= i * PGSIZE) by (unfold PGSIZE; lia).
    assert (i * PGSIZE + PGSIZE <= Z.of_nat (npages va (va + len)) * PGSIZE) by (unfold PGSIZE; lia).
    rewrite Hmap by (unfold PGSIZE in *; lia). unfold map_range. rewrite decide_True by (unfold PGSIZE in *; lia).
    assert (pa + (page_of (va + i * PGSIZE) * PGSIZE - va) = pa + i * PGSIZE) as ->.
    { unfold page_of. rewrite Z.div_add by done. lia. }
    eexists. split; [done|]. split; [apply PTE_TO_PA_mk | apply PTE_FLAGS_mk]; try done; [unfold PGSIZE in *; lia | | unfold PGSIZE in *; lia].
    by rewrite Z.mod_add.
  - intros x Hx Hout. rewrite Hmap by done. unfold map_range. by rewrite decide_False.
Qed.

(** *** Removing mappings *)

Definition mapped_to (m : mem) (root start : Z) (pas : list Z) : Prop := forall i q, pas !! i = Some q ->
  exists v, pt_map m root (start + Z.of_nat i * PGSIZE) = Some v /\ PTE_TO_PA v = q.

Definition freed (freeit : bool) (pas kp : list Z) : list Z := if freeit then rev pas ++ kp else kp.

Lemma mapped_tail m m' root start q pas : mapped_to m root start (q :: pas) ->
  (forall i, (i < length pas)%nat -> pt_map m' root (start + PGSIZE + Z.of_nat i * PGSIZE) = pt_map m root (start + PGSIZE + Z.of_nat i * PGSIZE)) ->
  mapped_to m' root (start + PGSIZE) pas.
Proof.
  intros Hm Hs i r Hi. destruct (Hm (S i) r Hi) as (v & Hv & Hr). exists v. split; [|done].
  rewrite Hs by (by eapply lookup_lt_Some). rewrite <- Hv. f_equal. lia.
Qed.

(** One turn of the loop. *)
Lemma unmap_one s root kp up start q freeit v : vm_ok s root kp up -> 0 <= start < VA_MAX ->
  pt_map (k_mem s) root start = Some v -> PTE_TO_PA v = q ->
  (freeit = true -> data_page s root kp up q /\ Z.of_nat (S (length kp + length up)) < 2 ^ 32) ->
  exists s', (forall end_ n, start < end_ -> unmap_loop (S n) root start end_ freeit s = unmap_loop n root (u64 (start + PGSIZE)) end_ freeit s') /\
    vm_ok s' root (freed freeit [q] kp) up /\ frame_vm s s' /\
    (forall r, path_ok r -> node (k_mem s') root r = node (k_mem s) root r) /\
    (forall va, 0 <= va < VA_MAX -> pt_map (k_mem s') root va = if decide (page_of va = page_of start) then None else pt_map (k_mem s) root va).
Proof.
  intros Hv Hst Hpt Hq Hfree. destruct (pt_map_inv _ _ _ _ Hpt) as (a & Hleaf & Hload & Hvalid).
  destruct (vm_getpte_lookup s root kp up start Hv) as [Hget _]. specialize (Hget ltac:(lia)). rewrite Hleaf in Hget.
  assert (exists s1, when freeit (pmem_free q true) s = Ret tt s1 /\ vm_ok s1 root (freed freeit [q] kp) up /\
    same_tree (k_mem s) (k_mem s1) root /\ frame_vm s s1) as (s1 & Hs1 & Hv1 & Hst1 & Hf1).
  { destruct freeit; [|by exists s]. destruct (Hfree eq_refl) as [Hd Hct].
    destruct (free_data s root kp up q true (q :: kp) up Hv Hd Hct eq_refl) as (s1 & ? & ? & ? & ? & _). by exists s1. }
  assert (leaf (k_mem s1) root start = Some a) as Hleaf1 by (by rewrite (same_tree_leaf _ _ _ _ Hst1)).
  destruct (put_leaf s1 root _ up start a 0 Hv1 Hleaf1) as (s2 & Hs2 & Hg2 & Hn2 & Hm2); [lia | done |].
  exists s2. split_and!.
  - intros end_ n Hlt. cbn [unmap_loop]. rewrite (proj2 (Z.ltb_lt _ _) Hlt). mstep ltac:(exact Hget).
    unfold mem64. mrun. rewrite Hload, Hvalid, Hq. cbn [negb]. mstep ltac:(exact Hs1). mstep ltac:(exact Hs2). reflexivity.
  - apply Hg2.
  - etransitivity; [exact Hf1 | apply Hg2].
  - intros r Hr. rewrite Hn2 by done. by apply same_tree_node.
  - intros va Hva. rewrite Hm2 by done. case_decide; [done|]. by apply same_tree_map.
Qed.

Lemma unmap_loop_ok root up freeit end_ : end_ <= VA_MAX -> forall pas s kp start,
  length pas = npages start end_ -> vm_ok s root kp up -> 0 <= start -> start mod PGSIZE = 0 ->
  mapped_to (k_mem s) root start pas ->
  (freeit = true -> NoDup pas /\ Forall (data_page s root kp up) pas /\ Z.of_nat (length pas + length kp + length up) < 2 ^ 32) ->
  exists s', unmap_loop (length pas) root start end_ freeit s = Ret tt s' /\ vm_ok s' root (freed freeit pas kp) up /\
    frame_vm s s' /\
    forall va, 0 <= va < VA_MAX -> pt_map (k_mem s') root va =
      if decide (start <= va < start + Z.of_nat (length pas) * PGSIZE) then None else pt_map (k_mem s) root va.
Proof.
  intros Hend. induction pas as [|q pas IH]; intros s kp start Hn Hv H0 Hal Hmap Hfree.
  - destruct (Z.ltb_spec start end_) as [Hlt|Hge]; [by rewrite npages_step in Hn|].
    exists s. cbn [length unmap_loop]. rewrite (proj2 (Z.ltb_ge _ _) Hge). split_and!; [done | by destruct freeit | done |].
    intros va Hva. by rewrite decide_False by lia.
  - destruct (Z.ltb_spec start end_) as [Hlt|Hge]; [|by rewrite npages_end in Hn].
    pose proof (npages_bound start end_ Hlt) as Hbd. rewrite <- Hn in Hbd. rewrite npages_step in Hn by done. injection Hn as Hn.
    destruct (Hmap 0%nat q eq_refl) as (v & Hv0 & Hq). rewrite Z.add_0_r in Hv0.
    destruct (unmap_one s root kp up start q freeit v Hv) as (s1 & Hs1 & Hv1 & Hf1 & Hn1 & Hm1); [lia | done..| |].
    { intros Hb. destruct (Hfree Hb) as (_ & [Hd _]%list.Forall_cons & Hct). split; [done|]. simpl in Hct. lia. }
    assert (VA_MAX = 2 ^ 38) as HM by done. cbn [length] in Hbd |- *.
    rewrite (Hs1 end_ (length pas) Hlt), u64_small by (unfold PGSIZE in *; lia).
    assert (forall x, start + PGSIZE <= x -> page_of x <> page_of start) as Hne.
    { intros x Hx Hp. symmetry in Hp. apply page_of_lt in Hp; [lia | done]. }
    destruct (IH s1 (freed freeit [q] kp) (start + PGSIZE)) as (s2 & Hs2 & Hv2 & Hf2 & Hm2); [done..| | | | |].
    + unfold PGSIZE in *; lia.
    + rewrite <- (Z.mul_1_l PGSIZE) at 1. by rewrite Z.mod_add.
    + eapply mapped_tail; [exact Hmap|]. intros i Hi. rewrite Hm1 by (unfold PGSIZE in *; lia).
      rewrite decide_False; [done|]. apply Hne. unfold PGSIZE. lia.
    + intros Hb. destruct (Hfree Hb) as ([Hqn Hnd]%NoDup_cons & [_ Hd]%list.Forall_cons & Hct). subst freeit. cbn [freed rev app].
      split_and!; [done | | simpl in Hct |- *; lia]. apply (Forall_impl_elem _ _ _ Hd). intros r Hr (Hok & Hnin & Hnn).
      split_and!; [done | |].
      * cbn [app]. rewrite not_elem_of_cons. split; [|done]. intros ->. done.
      * intros p Hp. rewrite Hn1 by done. by apply Hnn.
    + exists s2. split_and!; [done | | by etransitivity |].
      * destruct freeit; [|done]. cbn [freed rev app] in Hv2 |- *. by rewrite <- app_assoc.
      * intros va Hva. rewrite Hm2 by done. case_decide as Hin.
        -- rewrite decide_True by (unfold PGSIZE in *; lia). done.
        -- rewrite Hm1 by done. case_decide as Hp.
           ++ symmetry in Hp. apply page_of_lt in Hp; [|done]. rewrite decide_True by (unfold PGSIZE in *; lia). done.
           ++ rewrite decide_False; [done|]. intros Hr. apply Hp. symmetry. apply page_of_lt; [done|]. unfold PGSIZE in *. lia.
Qed.

(** [vm_unmappages] on a range of mapped pages removes exactly the mappings of
    the range; with [freeit] it gives the physical pages back, always to the
    kernel's region; it panics at a page that is not mapped. *)
Theorem vm_unmappages_unmaps s root kp up va len freeit pas : vm_ok s root kp up ->
  0 <= va -> va mod PGSIZE = 0 -> 0 <= len -> va + len <= VA_MAX ->
  length pas = npages va (va + len) -> mapped_to (k_mem s) root va pas ->
  (freeit = true -> NoDup pas /\ Forall (data_page s root kp up) pas /\ Z.of_nat (length pas + length kp + length up) < 2 ^ 32) ->
  (exists s', vm_unmappages root va len freeit s = Ret tt s' /\ vm_ok s' root (freed freeit pas kp) up /\ frame_vm s s' /\
    forall x, 0 <= x < VA_MAX -> pt_map (k_mem s') root x =
      if decide (va <= x < va + Z.of_nat (length pas) * PGSIZE) then None else pt_map (k_mem s) root x)
  /\ (forall x n, 0 <= x < VA_MAX -> pt_map (k_mem s) root x = None -> x + n < 2 ^ 64 -> 0 < n ->
      vm_unmappages root x n freeit s = Panic "vm_unmappages: not mapped" s).
Proof.
  intros Hv Hva Hal Hlen Hmax Hn Hmap Hfree. assert (VA_MAX = 2 ^ 38) as HM by done. split.
  - unfold vm_unmappages. rewrite u64_small by lia. rewrite <- Hn. by apply unmap_loop_ok.
  - intros x n Hx Hnone Hxn Hn0. unfold vm_unmappages. rewrite u64_small by lia. rewrite npages_step by lia. cbn [unmap_loop].
    rewrite (proj2 (Z.ltb_lt x (x + n))) by lia. destruct (vm_getpte_lookup s root kp up x Hv) as [Hget _].
    mstep ltac:(exact (Hget (proj2 Hx))). unfold pt_map in Hnone. destruct (leaf (k_mem s) root x) as [a|]; [|done].
    cbn [mbind option_bind] in Hnone. unfold mem64. mrun. by destruct (pte_valid _).
Qed.

(** ** The kernel's page table *)

(** A cleared page is an empty page table. *)
Lemma zero_root m p avoid : page_ok p -> p ∉ avoid -> (forall i, 0 <= i < 512 -> load64 m (p + 8 * i) = 0) ->
  pt_ok m p avoid /\ forall va, pt_map m p va = None.
Proof.
  intros Hp Hn Hz. assert (forall r a, path_ok r -> node m p r = Some a -> r = [] /\ a = p) as Honly.
  { intros [|i r] a [_ Hr] Ha; [by injection Ha as <-|]. apply list.Forall_cons in Hr as [Hi _].
    cbn [node] in Ha. rewrite Hz in Ha by done. by vm_compute in Ha. }
  split; [split|].
  - intros r a Hr Ha. by destruct (Honly r a Hr Ha) as [_ ->].
  - intros r r' a Hr Hr' Ha Ha'. destruct (Honly r a Hr Ha) as [-> _], (Honly r' a Hr' Ha') as [-> _]. done.
  - intros va. unfold pt_map, leaf. destruct (node m p [VA_TO_VPN va 2; VA_TO_VPN va 1]) as [a|] eqn:Ha; [|done].
    by destruct (Honly _ a (vpn_path va) Ha).
Qed.

(** A sequence of calls of [vm_mappages]: (va, pa, len, perm). *)
Abbreviation region := (Z * Z * Z * Z)%type.
Definition map_call (root : Z) (r : region) : M (kstate D) unit :=
  let '(va, pa, len, perm) := r in vm_mappages root va pa len perm.
Definition map_regions (f : Z -> option Z) (rs : list region) : Z -> option Z :=
  foldl (fun f '(va, pa, len, perm) => map_range f va len pa perm) f rs.
Definition region_args (r : region) : Prop := let '(va, pa, len, perm) := r in map_args va pa len perm.
Definition regions_cost (rs : list region) : Z := foldr (fun '(va, _, len, _) c => map_cost va len + c) 0 rs.

Lemma map_range_ext f g va len pa perm : (forall x, 0 <= x < VA_MAX -> f x = g x) ->
  forall x, 0 <= x < VA_MAX -> map_range f va len pa perm x = map_range g va len pa perm x.
Proof. intros Hfg x Hx. unfold map_range. case_decide; [done | by apply Hfg]. Qed.

Lemma map_regions_ok root up rs : Forall region_args rs -> Forall (fun '(va, _, len, _) => 0 <= map_cost va len) rs ->
  forall s kp f, vm_ok s root kp up -> (forall x, 0 <= x < VA_MAX -> pt_map (k_mem s) root x = f x) ->
  regions_cost rs <= Z.of_nat (length kp) ->
  exists s' kp', for_each rs (map_call root) s = Ret tt s' /\ vm_ok s' root kp' up /\ frame_vm s s' /\
    cpu_touch (k_cpu s') = cpu_touch (k_cpu s) /\ (exists used, kp = used ++ kp') /\
    Z.of_nat (length kp) <= Z.of_nat (length kp') + regions_cost rs /\
    forall x, 0 <= x < VA_MAX -> pt_map (k_mem s') root x = map_regions f rs x.
Proof.
  induction rs as [|[[[va pa] len] perm] rs IH]; intros Hargs Hcost s kp f Hv Hf Hb.
  - exists s, kp. cbn. split_and!; try done; [by exists [] | lia].
  - apply list.Forall_cons in Hargs as [Ha Hargs], Hcost as [Hc Hcost]. cbn [regions_cost foldr] in Hb |- *.
    fold (regions_cost rs) in Hb |- *. assert (0 <= regions_cost rs) as H0.
    { clear -Hcost. induction Hcost as [|[[[? ?] ?] ?] ? ? ? IH]; cbn [regions_cost foldr]; [done|]. fold (regions_cost l). lia. }
    destruct (vm_mappages_ok s root kp up va pa len perm Hv Ha) as (s1 & kp1 & Hs1 & [Hv1 Hf1 Hc1 _ [u1 Hu1] _ _] & Hl1 & Hm1); [lia|].
    destruct (IH Hargs Hcost s1 kp1 (map_range f va len pa perm) Hv1) as (s2 & kp2 & Hs2 & Hv2 & Hf2 & Hc2 & [u2 Hu2] & Hl2 & Hm2).
    { intros x Hx. rewrite Hm1 by done. by apply map_range_ext. }
    { lia. }
    exists s2, kp2. split_and!; [| done | by etransitivity | congruence | exists (u1 ++ u2); by rewrite Hu1, Hu2, app_assoc | lia | done].
    cbn [for_each map_call]. mstep ltac:(exact Hs1). exact Hs2.
Qed.

(** The calls of [kvm_init]: the regions, then the stacks. *)
Definition kvm_regions (trampoline : Z) : list region :=
  [(UART_BASE, UART_BASE, 1000, KERN_PERM); (PLIC_BASE, PLIC_BASE, 0x400000, KERN_PERM);
   (CLINT_BASE, CLINT_BASE, 0x10000, KERN_PERM); (VIRTIO_BASE, VIRTIO_BASE, PGSIZE, KERN_PERM);
   (MEM_START, MEM_START, MEM_END - MEM_START, KERN_PERM); (VA_MAX - PGSIZE, trampoline, PGSIZE, Z.lor PTE_R PTE_X)].
Definition kstack_region (i pa : Z) : region := (KSTACK i, pa, PGSIZE, Z.lor PTE_R PTE_W).
Definition kvm_map (trampoline k0 k1 : Z) : Z -> option Z :=
  map_regions (fun _ => None) (kvm_regions trampoline ++ [kstack_region 0 k0; kstack_region 1 k1]).

(** [map_args] of closed arguments is computed. *)
Definition map_argsb (va pa len perm : Z) : bool :=
  forallb id [0 <=? va; va mod PGSIZE =? 0; 0 <=? pa; pa mod PGSIZE =? 0; 0 <=? perm; perm <? 1024; 0 <? len;
    va + len <=? VA_MAX; pa + len + PGSIZE <? 2 ^ 64].

Lemma map_argsb_ok va pa len perm : map_argsb va pa len perm = true -> map_args va pa len perm.
Proof.
  unfold map_argsb, map_args, id. cbn [forallb]. rewrite !andb_true_iff, !Z.leb_le, !Z.ltb_lt, !Z.eqb_eq. tauto.
Qed.

(** The range of virtual addresses is good, whatever the physical page. *)
Lemma map_args_page va pa perm : map_argsb va 0 PGSIZE perm = true -> 0 <= pa < 2 ^ 63 -> pa mod PGSIZE = 0 ->
  map_args va pa PGSIZE perm.
Proof.
  intros H%map_argsb_ok Hpa Hal. destruct H as (? & ? & _ & _ & ? & ? & ? & _). unfold map_args, PGSIZE in *.
  split_and!; try tauto; lia.
Qed.

Lemma kvm_regions_ok trampoline : 0 <= trampoline < 2 ^ 63 -> trampoline mod PGSIZE = 0 ->
  Forall region_args (kvm_regions trampoline) /\ Forall (fun '(va, _, len, _) => 0 <= map_cost va len) (kvm_regions trampoline) /\
  regions_cost (kvm_regions trampoline) = 140.
Proof.
  intros Ht Ha. unfold kvm_regions. split_and!; [| |by vm_compute].
  - do 5 (apply list.Forall_cons; split; [by apply map_argsb_ok; vm_compute|]).
    apply list.Forall_cons; split; [|by apply list.Forall_nil]. apply map_args_page; [by vm_compute | done | done].
  - do 6 (apply list.Forall_cons; split; [by vm_compute|]). by apply list.Forall_nil.
Qed.

Lemma kstack_ok i pa : 0 <= i < 2 -> page_ok pa -> pa < 2 ^ 63 -> Forall region_args [kstack_region i pa] /\
  Forall (fun '(va, _, len, _) => 0 <= map_cost va len) [kstack_region i pa] /\ regions_cost [kstack_region i pa] = 2.
Proof.
  intros Hi (H0 & Ha & _) Hpa. unfold kstack_region. rewrite !list.Forall_singleton.
  assert (i = 0 \/ i = 1) as [-> | ->] by lia; (split_and!; [apply map_args_page; [by vm_compute | lia | done] | by vm_compute..]).
Qed.

(** A page taken for other uses than tables. *)
Lemma take_page s root q kp up : vm_ok s root (q :: kp) up ->
  exists s', pmem_alloc true s = Ret q s' /\ vm_ok s' root kp up /\ k_mem s' = k_mem s /\ frame_vm s s' /\
    cpu_touch (k_cpu s') = cpu_touch (k_cpu s) /\ page_ok q.
Proof.
  intros [Hpools Hpt]. destruct (pools_alloc true s (q :: kp) up q kp kp up Hpools eq_refl eq_refl) as [Ha Hpools'].
  exists (alloc_post true s). rewrite k_mem_alloc_post, k_cpu_alloc_post, cpu_touch_idemp.
  split_and!; [done | | done | apply frame_alloc_post | done |].
  - split; [done|]. rewrite k_mem_alloc_post. destruct Hpt as [Hpg Hinj]. split; [|done].
    intros r a Hr Hn. destruct (Hpg r a Hr Hn) as [? Hno]. split; [done|]. intros Hin. apply Hno. apply elem_of_cons. by right.
  - apply (Forall_elem _ _ q (pools_pages _ _ _ Hpools)). cbn [app]. apply elem_of_cons. by left.
Qed.

(** A page that is cleared to become the root of a page table. *)
Lemma clear_root s p kp up : pools s kp up -> page_ok p -> p ∉ kp ++ up ->
  exists s', mem_set p 0 PGSIZE s = Ret tt s' /\ s' = set_k_mem (k_mem s') s /\ vm_ok s' p kp up /\ (forall x, pt_map (k_mem s') p x = None) /\
    (forall i, 0 <= i < 512 -> load64 (k_mem s') (p + 8 * i) = 0) /\
    (forall x, ~ (p <= x < p + PGSIZE) -> load8 (k_mem s') x = load8 (k_mem s) x).
Proof.
  intros Hpools Hp Hpn. set (m := memset (k_mem s) p 0 PGSIZE). exists (set_k_mem m s). rewrite k_mem_set.
  assert (forall i, 0 <= i < 512 -> load64 m (p + 8 * i) = 0) as Hz by (intros i Hi; apply load64_memset_in; unfold PGSIZE; lia).
  destruct (zero_root m p (kp ++ up) Hp Hpn Hz) as [Hpt Hnone]. split_and!; [| done | | done | done |].
  - unfold mem_set. by rewrite (proj2 (Z.eqb_neq p 0)) by (destruct Hp; lia).
  - split; [|by rewrite k_mem_set]. apply pools_set_mem; [|done].
    intros q Hq. pose proof (Forall_elem _ _ _ (pools_pages _ _ _ Hpools) Hq) as Hqok. assert (p <> q) as Hne by (intros ->; exact (Hpn Hq)).
    apply load64_memset_out; [done|]. destruct (page_sep p q Hp Hqok Hne); unfold PGSIZE in *; lia.
  - intros x Hx. unfold m. by rewrite load8_memset, decide_False.
Qed.

(** The root of the kernel's page table, taken and cleared. *)
Lemma kvm_root s p kp up : pools s (p :: kp) up ->
  exists s', pmem_alloc true s = Ret p (alloc_post true s) /\ page_ok p /\
    mem_set p 0 PGSIZE (set_kernel_pgtbl p (alloc_post true s)) = Ret tt s' /\
    vm_ok s' p kp up /\ kernel_pgtbl s' = p /\ cpu_touch (k_cpu s') = cpu_touch (k_cpu s) /\
    (forall x, pt_map (k_mem s') p x = None) /\ forall i, 0 <= i < 512 -> load64 (k_mem s') (p + 8 * i) = 0.
Proof.
  intros Hpools. destruct (pools_alloc true s (p :: kp) up p kp kp up Hpools eq_refl eq_refl) as [Ha Hpools'].
  destruct (pools_cons_inv _ _ _ _ (kp ++ up) Hpools (reflexivity _)) as (Hpn & _ & Hp & _).
  destruct (clear_root (set_kernel_pgtbl p (alloc_post true s)) p kp up) as (s' & H1 & He & H2 & H3 & H4 & _); [|done..|].
  { apply (pools_ext (alloc_post true s)); [by destruct s..|done]. }
  exists s'. split_and!; [done | done | done | done | by rewrite He; destruct s | by rewrite He; destruct s; apply cpu_touch_idemp | done | done].
Qed.

Lemma frame_pgtbl s s' : frame_vm s s' -> kernel_pgtbl s' = kernel_pgtbl s.
Proof. by intros ->. Qed.

(** A page and its mapping as a stack. *)
Lemma kvm_stack s root q kp up i f : vm_ok s root (q :: kp) up -> 0 <= i < 2 -> q < 2 ^ 63 ->
  (forall x, 0 <= x < VA_MAX -> pt_map (k_mem s) root x = f x) -> 2 <= Z.of_nat (length kp) ->
  exists s' kp', (pa ← pmem_alloc true;
      if pa =? 0 then panic "kvm_init: failed to allocate kstack" else
      vm_mappages root (KSTACK i) pa PGSIZE (Z.lor PTE_R PTE_W)) s = Ret tt s' /\ vm_ok s' root kp' up /\ frame_vm s s' /\
    cpu_touch (k_cpu s') = cpu_touch (k_cpu s) /\ (exists used, kp = used ++ kp') /\
    Z.of_nat (length kp) <= Z.of_nat (length kp') + 2 /\
    forall x, 0 <= x < VA_MAX -> pt_map (k_mem s') root x = map_regions f [kstack_region i q] x.
Proof.
  intros Hv Hi Hq64 Hf Hlen. destruct (take_page s root q kp up Hv) as (s1 & Hs1 & Hv1 & Hm1 & Hf1 & Hc1 & Hq).
  destruct (kstack_ok i q Hi Hq Hq64) as (Hargs & Hcost & Hsum).
  destruct (map_regions_ok root up _ Hargs Hcost s1 kp f Hv1) as (s2 & kp2 & Hs2 & Hv2 & Hf2 & Hc2 & Hu & Hl & Hm2);
    [by rewrite Hm1 | lia |].
  rewrite Hsum in Hl. exists s2, kp2. split_and!; [| done | by etransitivity | congruence | done | done | done].
  mstep ltac:(exact Hs1). rewrite (proj2 (Z.eqb_neq q 0)) by (destruct Hq; lia).
  cbn [for_each map_call kstack_region] in Hs2. unfold mbind, M_bind in Hs2.
  destruct (vm_mappages _ _ _ _ _ s1) as [[] s3| | | |]; try discriminate Hs2. by injection Hs2 as <-.
Qed.

(** A loop followed by [k] is the sequence of its bodies followed by [k]. *)
Lemma for_each_seq {S I B} (l : list I) (f : I -> M S unit) (k : M S B) (s s' : S) :
  for_each l f s = Ret tt s' -> foldr (fun x m => f x;; m) k l s = k s'.
Proof.
  revert s. induction l as [|x l IH]; intros s; cbn [for_each foldr]; [intros H; by injection H as <-|].
  unfold mbind, M_bind. destruct (f x s) as [[] s1| | | |]; try discriminate. apply IH.
Qed.

(** The turn of the loop over the harts. *)
Definition kstack_turn (p i : Z) : M (kstate D) unit :=
  pa ← pmem_alloc true;
  if pa =? 0 then panic "kvm_init: failed to allocate kstack" else
  vm_mappages p (KSTACK i) pa PGSIZE (Z.lor PTE_R PTE_W).

Lemma map_call_eq p va pa len perm : map_call p (va, pa, len, perm) = vm_mappages p va pa len perm.
Proof. reflexivity. Qed.

Lemma kvm_init_run trampoline p s sa s0 s1 s2 s3 : pmem_alloc true s = Ret p sa ->
  mem_set p 0 PGSIZE (set_kernel_pgtbl p sa) = Ret tt s0 ->
  for_each (kvm_regions trampoline) (map_call p) s0 = Ret tt s1 ->
  kstack_turn p 0 s1 = Ret tt s2 -> kstack_turn p 1 s2 = Ret tt s3 -> kvm_init trampoline s = Ret tt s3.
Proof.
  intros Ha Hz Hs1 Hs2 Hs3. unfold kvm_init. mstep ltac:(exact Ha). mstep ltac:(exact Hz).
  assert (for_each (seqZ 0 NCPU) (kstack_turn p) s1 = Ret tt s3) as Hk.
  { change (seqZ 0 NCPU) with [0; 1]. cbn [for_each].
    rewrite (bind_ret_eq _ _ _ tt s2 Hs2), (bind_ret_eq _ _ _ tt s3 Hs3). reflexivity. }
  pose proof (for_each_seq _ _ (for_each (seqZ 0 NCPU) (kstack_turn p)) _ _ Hs1) as Hseq. rewrite Hk in Hseq. clear Hk.
  unfold kvm_regions in Hseq. rewrite !foldr_cons in Hseq. unfold kstack_turn in Hseq.
  rewrite !map_call_eq in Hseq. cbn [foldr] in Hseq. exact Hseq.
Qed.

Lemma stacks_distinct (p : Z) u1 k0 u2 k1 u3 : NoDup (p :: u1 ++ k0 :: u2 ++ k1 :: u3) ->
  k0 ∈ p :: u1 ++ k0 :: u2 ++ k1 :: u3 /\ k1 ∈ p :: u1 ++ k0 :: u2 ++ k1 :: u3 /\ k0 <> k1 /\ p <> k0 /\ p <> k1.
Proof. rewrite NoDup_cons, NoDup_app, NoDup_cons. set_solver. Qed.

Lemma map_range_out f va len pa perm x n : Z.of_nat (npages va (va + len)) = n -> x < va \/ va + n * PGSIZE <= x ->
  map_range f va len pa perm x = f x.
Proof. intros <- Hx. unfold map_range. rewrite decide_False; [done | lia]. Qed.

(** No page is mapped where the stack of process [NCPU] or above should be. *)
Lemma kvm_map_no_stack trampoline k0 k1 i : NCPU <= i < 64 -> kvm_map trampoline k0 k1 (KSTACK i) = None.
Proof.
  intros Hi. unfold NCPU in Hi. assert (KSTACK i = 0x3f80000000 + (i + 1) * 8192) as Hk by (unfold KSTACK, PGSIZE; lia).
  unfold kvm_map, map_regions, kvm_regions, kstack_region. cbn [app foldl]. rewrite Hk.
  rewrite (map_range_out _ (KSTACK 1) _ _ _ _ 1), (map_range_out _ (KSTACK 0) _ _ _ _ 1), (map_range_out _ (VA_MAX - PGSIZE) _ _ _ _ 1),
    (map_range_out _ MEM_START _ _ _ _ 32768), (map_range_out _ VIRTIO_BASE _ _ _ _ 1), (map_range_out _ CLINT_BASE _ _ _ _ 16),
    (map_range_out _ PLIC_BASE _ _ _ _ 1024), (map_range_out _ UART_BASE _ _ _ _ 1);
    lazymatch goal with
    | |- Z.of_nat _ = _ => vm_compute; reflexivity
    | |- _ \/ _ => change VA_MAX with (2 ^ 38); change (KSTACK 0) with 0x3f80002000; change (KSTACK 1) with 0x3f80004000;
        unfold PGSIZE, MEM_START, VIRTIO_BASE, CLINT_BASE, PLIC_BASE, UART_BASE; lia
    | |- _ => reflexivity
    end.
Qed.

(** C12: [kvm_init] builds the kernel's address space: the registers of the devices
    and the memory from 0x80000000 to 0x88000000 are mapped to themselves, the
    trampoline at the highest page, and for each hart a kernel page as its stack;
    no other address is mapped, and so none of the stacks [KSTACK i] that
    [proc_alloc] gives to the processes from the third slot on.  With 200 free kernel pages (of 2048) it never
    fails. *)
Theorem kvm_init_maps s kp up trampoline : pools s kp up -> 200 <= Z.of_nat (length kp) ->
  Forall (fun q => q < 2 ^ 63) kp -> 0 <= trampoline < 2 ^ 63 -> trampoline mod PGSIZE = 0 ->
  exists s' root k0 k1 kp', kvm_init trampoline s = Ret tt s' /\ kernel_pgtbl s' = root /\ vm_ok s' root kp' up /\
    k0 ∈ kp /\ k1 ∈ kp /\ k0 <> k1 /\ root <> k0 /\ root <> k1 /\
    cpu_touch (k_cpu s') = cpu_touch (k_cpu s) /\
    (forall x, 0 <= x < VA_MAX -> pt_map (k_mem s') root x = kvm_map trampoline k0 k1 x) /\
    forall i, NCPU <= i < 64 -> pt_map (k_mem s') root (KSTACK i) = None.
Proof.
  intros Hpools Hlen Hlow Ht Hta. destruct kp as [|p kp]; [simpl in Hlen; lia|]. cbn [length] in Hlen.
  pose proof (pools_nodup _ _ _ Hpools) as [Hnd _]%NoDup_app.
  destruct (kvm_root s p kp up Hpools) as (s0 & Ha & Hp & Hz & Hv0 & Hk0 & Hc0 & Hm0 & _).
  destruct (kvm_regions_ok trampoline Ht Hta) as (Hargs & Hcost & Hsum).
  destruct (map_regions_ok p up _ Hargs Hcost s0 kp (fun _ => None) Hv0) as (s1 & kp1 & Hs1 & Hv1 & Hf1 & Hc1 & [u1 ->] & Hl1 & Hm1);
    [done | lia |]. rewrite Hsum, length_app in *.
  destruct kp1 as [|k0 kp1]; [simpl in *; lia|]. cbn [length] in *.
  assert (forall q, q ∈ k0 :: kp1 -> q < 2 ^ 63) as Hq64.
  { intros q Hq. apply (Forall_elem _ _ q Hlow). apply elem_of_cons. right. apply elem_of_app. by right. }
  destruct (kvm_stack s1 p k0 kp1 up 0 _ Hv1 ltac:(lia) (Hq64 k0 ltac:(apply elem_of_cons; by left)) Hm1 ltac:(lia))
    as (s2 & kp2 & Hs2 & Hv2 & Hf2 & Hc2 & [u2 ->] & Hl2 & Hm2). rewrite length_app in *.
  destruct kp2 as [|k1 kp2]; [simpl in *; lia|]. cbn [length] in *.
  destruct (kvm_stack s2 p k1 kp2 up 1 (map_regions (map_regions (fun _ => None) (kvm_regions trampoline)) [kstack_region 0 k0]) Hv2
    ltac:(lia)) as (s3 & kp3 & Hs3 & Hv3 & Hf3 & Hc3 & [u3 ->] & Hl3 & Hm3).
  { apply Hq64. apply elem_of_cons. right. apply elem_of_app. right. apply elem_of_cons. by left. }
  { exact Hm2. }
  { lia. }
  exists s3, p, k0, k1, kp3. destruct (stacks_distinct p u1 k0 u2 k1 (u3 ++ kp3) Hnd) as (Hin0 & Hin1 & H01 & Hp0 & Hp1).
  assert (forall x, 0 <= x < VA_MAX -> pt_map (k_mem s3) p x = kvm_map trampoline k0 k1 x) as Hmap.
  { intros x Hx. rewrite (Hm3 x Hx). unfold kvm_map, map_regions. by rewrite foldl_app. }
  split_and!; [| | done | done | done | done | done | done | congruence | done |].
  - exact (kvm_init_run trampoline p s _ s0 s1 s2 s3 Ha Hz Hs1 Hs2 Hs3).
  - rewrite (frame_pgtbl _ _ Hf3), (frame_pgtbl _ _ Hf2), (frame_pgtbl _ _ Hf1). exact Hk0.
  - intros i Hi. rewrite Hmap; [by apply kvm_map_no_stack|]. unfold NCPU in Hi. unfold KSTACK, PGSIZE. change VA_MAX with (2 ^ 38). lia.
Qed.
End Spec.

(** ** A state after [pmem_init] and the allocation of a root *)

Definition demo_kp : list Z := page_list 256 0x80020000.
Definition demo_up : list Z := page_list 256 0x80120000.

Lemma demo_pools : exists s : kstate unit, pools s demo_kp demo_up.
Proof.
  assert (cpu_wf (k_cpu (bss tt 0))) as Hc by (split; simpl; (lia || done)).
  destruct (init_regions_pools (bss tt 0) 256 256 0x80020000 0x88000000) as (s' & _ & Hp & _);
    [lia | lia | lia | done | by vm_compute | lia | exact Hc | by vm_compute | by vm_compute |]. exists s'. exact Hp.
Qed.

Lemma demo_kp_cons : demo_kp = 0x80020000 :: page_list 255 0x80021000.
Proof. by vm_compute. Qed.

Lemma demo_vm : exists s : kstate unit, vm_ok s 0x80020000 (page_list 255 0x80021000) demo_up /\
  forall i, 0 <= i < 512 -> load64 (k_mem s) (0x80020000 + 8 * i) = 0.
Proof.
  destruct demo_pools as [s Hp]. rewrite demo_kp_cons in Hp.
  destruct (kvm_root s _ _ _ Hp) as (s' & _ & _ & _ & Hv & _ & _ & _ & Hz). by exists s'.
Qed.

(** The same with the first page of the UART mapped. *)
Lemma demo_mapped : exists (s : kstate unit) kp, vm_ok s 0x80020000 kp demo_up /\ (250 <= length kp)%nat /\
  mapped_to (k_mem s) 0x80020000 UART_BASE [UART_BASE].
Proof.
  destruct demo_vm as (s & Hv & _).
  destruct (vm_mappages_ok s _ _ _ UART_BASE UART_BASE 1000 KERN_PERM Hv) as (s' & kp' & _ & Hg & Hl & Hm);
    [by apply map_argsb_ok; vm_compute | by vm_compute |].
  exists s', kp'. split_and!; [apply Hg | rewrite length_page_list in Hl; assert (map_cost UART_BASE 1000 = 2) as Hc by (by vm_compute); lia |].
  intros [|i] q Hq; [|done]. injection Hq as <-. rewrite Hm by (by vm_compute).
  eexists. split; [unfold map_range; rewrite decide_True by (by vm_compute); reflexivity | by vm_compute].
Qed.

Lemma vm_getpte_walks_witness : exists (s : kstate unit) a, vm_getpte 0x80020000 UART_BASE false s = Ret (Some a) s /\
  PTE_TO_PA (load64 (k_mem s) a) = UART_BASE /\ vm_getpte 0x80020000 VA_MAX true s = Panic "vm_getpte: va out of range" s.
Proof.
  destruct demo_mapped as (s & kp & Hv & _ & Hm). destruct (Hm 0%nat UART_BASE eq_refl) as (v & Hpt & Hq).
  change (UART_BASE + Z.of_nat 0 * PGSIZE) with UART_BASE in Hpt.
  destruct (pt_map_inv _ _ _ _ Hpt) as (a & Hleaf & Hload & _). exists s, a.
  pose proof (vm_getpte_walks s _ _ _ UART_BASE Hv ltac:(by vm_compute)) as (H1 & _ & _).
  pose proof (vm_getpte_walks s _ _ _ VA_MAX Hv ltac:(by vm_compute)) as (_ & _ & H2).
  split_and!; [| congruence | by apply H2]. rewrite (H1 ltac:(by vm_compute)). by rewrite Hleaf.
Defined.

Lemma vm_mappages_maps_witness : exists s s' : kstate unit,
  vm_mappages 0x80020000 UART_BASE PLIC_BASE 4097 KERN_PERM s = Ret tt s' /\
  exists v, pt_map (k_mem s') 0x80020000 (UART_BASE + PGSIZE) = Some v /\ PTE_TO_PA v = PLIC_BASE + PGSIZE /\ PTE_FLAGS v = 0xf.
Proof.
  destruct demo_vm as (s & Hv & _).
  destruct (vm_mappages_maps s _ _ _ UART_BASE PLIC_BASE 4097 KERN_PERM Hv) as (s' & kp' & Hs' & _ & _ & _ & Hm & _);
    [by apply map_argsb_ok; vm_compute | by vm_compute |].
  exists s, s'. split; [exact Hs'|]. destruct (Hm 1) as (v & H1 & H2 & H3); [by vm_compute|].
  rewrite Z.mul_1_l in H1, H2. exists v. by split_and!.
Defined.

Lemma vm_unmappages_unmaps_witness : exists s s' : kstate unit,
  vm_unmappages 0x80020000 UART_BASE 1000 false s = Ret tt s' /\ pt_map (k_mem s') 0x80020000 UART_BASE = None /\
  vm_unmappages 0x80020000 UART_BASE 1000 false s' = Panic "vm_unmappages: not mapped" s'.
Proof.
  destruct demo_mapped as (s & kp & Hv & _ & Hm).
  destruct (vm_unmappages_unmaps s _ _ _ UART_BASE 1000 false [UART_BASE] Hv) as [(s1 & H1 & Hv1 & _ & Hm1) _];
    [by vm_compute.. | exact Hm | done |].
  assert (pt_map (k_mem s1) 0x80020000 UART_BASE = None) as Hn.
  { rewrite Hm1 by (by vm_compute). by rewrite decide_True by (by vm_compute). }
  exists s, s1. split_and!; [exact H1 | exact Hn |].
  destruct (vm_unmappages_unmaps s1 _ _ _ UART_BASE 0 false [] Hv1) as [_ H2]; [by vm_compute.. | intros i q Hi; done | done |].
  apply H2; [by vm_compute | exact Hn | by vm_compute | by vm_compute].
Defined.

Lemma kvm_init_maps_witness : exists s s' : kstate unit, kvm_init 0x80001000 s = Ret tt s' /\
  pt_map (k_mem s') (kernel_pgtbl s') UART_BASE = Some (mk_pte UART_BASE 0xf) /\
  pt_map (k_mem s') (kernel_pgtbl s') (VA_MAX - PGSIZE) = Some (mk_pte 0x80001000 0xb) /\
  pt_map (k_mem s') (kernel_pgtbl s') 0x1000 = None.
Proof.
  destruct demo_pools as [s Hp].
  destruct (kvm_init_maps s demo_kp demo_up 0x80001000 Hp) as (s' & root & k0 & k1 & kp' & Hs' & <- & _ & _ & _ & _ & _ & _ & _ & Hm & _);
    [by vm_compute | by apply (bool_decide_unpack _); vm_compute | done | done |].
  exists s, s'. split; [exact Hs'|]. rewrite !Hm by (by vm_compute).
  unfold kvm_map, map_regions, kvm_regions, kstack_region. cbn [app foldl]. unfold map_range.
  split_and!; repeat first [rewrite decide_True by (by vm_compute) | rewrite decide_False by (vm_compute; lia)]; by vm_compute.
Defined.
