(* ===== verification/Uvm.v ===== *)
(** * Uvm: kernel/mem/uvm.c, the memory of user processes

    Physical memory is the memory of [kstate]; user addresses are translated by
    the page tables of Vmem.  The copying loops [dst[i] = src[i]] are [copy_up]
    of Kstring; a copy from or to a NULL pointer is a [Fault]. *)

From S2P Require Import Prelude Bytes Kstring Spinlock Kernel Pmem Vmem.

(** [(a + PGSIZE - 1) & ~(PGSIZE - 1)] on [uint64]. *)
Definition page_up (a : Z) : Z := Z.land (u64 (a + PGSIZE - 1)) (u64 (Z.lnot (PGSIZE - 1))).

(** The special pages, as [uvm_destroy_pgtbl] and [uvm_copy_pgtbl] compute them. *)
Definition TRAMPOLINE : Z := VA_MAX - PGSIZE.
Definition TRAPFRAME : Z := TRAMPOLINE - PGSIZE.
Definition USTACK_BASE : Z := TRAPFRAME - PGSIZE.

Section Ops.
Context {D : Type}.

(** [for(i = 0; i < n; i++) dst[i] = src[i]] *)
Definition copy_bytes (dst src n : Z) : M (kstate D) unit :=
  if (0 <? n) && ((dst =? 0) || (src =? 0)) then fault
  else modify (fun s => set_k_mem (copy_up (Z.to_nat n) (k_mem s) dst src) s).

(** [fuel] bounds the depth of the tree. *)
Fixpoint destroy_pgtbl (fuel : nat) (pgtbl level : Z) : M (kstate D) unit :=
  match fuel with
  | O => no_fuel
  | S fuel' =>
      if pgtbl =? 0 then fault else
      for_each (seqZ 0 512) (fun i =>
        pte ← mem64 (pgtbl + 8 * i);
        if pte_valid pte && PTE_CHECK pte then
          let child_pa := PTE_TO_PA pte in
          destroy_pgtbl fuel' child_pa (u32 (level - 1))
        else when (pte_valid pte) (
          let pa := PTE_TO_PA pte in
          pmem_free pa false));;
      pmem_free pgtbl false
  end.

(** Clear an entry when there is one and it is valid. *)
Definition clear_pte (pte : option Z) : M (kstate D) unit :=
  match pte with
  | None => mret tt
  | Some pte => v ← mem64 pte; when (pte_valid v) (put64 pte 0)
  end.

Definition uvm_destroy_pgtbl (fuel : nat) (pgtbl level : Z) : M (kstate D) unit :=
  if pgtbl =? 0 then mret tt else
  trampoline_pte ← vm_getpte pgtbl TRAMPOLINE false;
  clear_pte trampoline_pte;;
  trapframe_pte ← vm_getpte pgtbl TRAPFRAME false;
  clear_pte trapframe_pte;;
  destroy_pgtbl fuel pgtbl level.

(** The body of the loops of [uvm_copy_pgtbl]: copy the page at [va]. *)
Definition copy_page (old new va : Z) : M (kstate D) unit :=
  pte ← vm_getpte old va false;
  match pte with
  | None => mret tt
  | Some pte =>
      v ← mem64 pte;
      when (pte_valid v) (
        let pa := PTE_TO_PA v in
        let flags := PTE_FLAGS v in
        new_pa ← pmem_alloc false;
        if new_pa =? 0 then panic "uvm_copy_pgtbl: pmem_alloc failed" else
        copy_bytes new_pa pa PGSIZE;;
        vm_mappages new va new_pa PGSIZE flags)
  end.

Fixpoint copy_heap_loop (fuel : nat) (old new va heap_top : Z) : M (kstate D) unit :=
  if va <? heap_top then
    match fuel with
    | O => no_fuel
    | S fuel' => copy_page old new va;; copy_heap_loop fuel' old new (u64 (va + PGSIZE)) heap_top
    end
  else mret tt.

Definition uvm_copy_pgtbl (old new heap_top ustack_pages : Z) : M (kstate D) unit :=
  copy_heap_loop (npages 0 heap_top) old new 0 heap_top;;
  for_each (seqZ 0 ustack_pages) (fun i => copy_page old new (u64 (USTACK_BASE - u32 (i * PGSIZE)))).

(** These two are still empty in the source. *)
Definition uvm_mmap (begin npages : Z) : M (kstate D) unit :=
  if npages =? 0 then mret tt else kassert (begin mod PGSIZE =? 0) "uvm_mmap: begin not aligned".
Definition uvm_munmap (begin npages : Z) : M (kstate D) unit :=
  if npages =? 0 then mret tt else kassert (begin mod PGSIZE =? 0) "uvm_munmap: begin not aligned".

(** The loops that give mapped pages back: from [va] to [end_]. *)
Fixpoint release_loop (fuel : nat) (pgtbl va end_ : Z) : M (kstate D) unit :=
  if va <? end_ then
    match fuel with
    | O => no_fuel
    | S fuel' =>
        pte ← vm_getpte pgtbl va false;
        match pte with
        | None => mret tt
        | Some pte =>
            v ← mem64 pte;
            when (pte_valid v) (
              let pa := PTE_TO_PA v in
              pmem_free pa false;;
              put64 pte 0)
        end;;
        release_loop fuel' pgtbl (u64 (va + PGSIZE)) end_
    end
  else mret tt.

(** [Some] is a [return] inside the loop. *)
Fixpoint heap_grow_loop (fuel : nat) (pgtbl heap_top old_heap_aligned va new_heap_aligned : Z) : M (kstate D) (option Z) :=
  if va <? new_heap_aligned then
    match fuel with
    | O => no_fuel
    | S fuel' =>
        pa ← pmem_alloc false;
        if pa =? 0 then
          release_loop (npages old_heap_aligned va) pgtbl old_heap_aligned va;;
          mret (Some heap_top)
        else
          mem_set pa 0 PGSIZE;;
          vm_mappages pgtbl va pa PGSIZE (Z.lor (Z.lor PTE_R PTE_W) PTE_U);;
          heap_grow_loop fuel' pgtbl heap_top old_heap_aligned (u64 (va + PGSIZE)) new_heap_aligned
    end
  else mret None.

Definition uvm_heap_grow (pgtbl heap_top len : Z) : M (kstate D) Z :=
  let new_heap_top := u64 (heap_top + len) in
  let old_heap_aligned := page_up heap_top in
  let new_heap_aligned := page_up new_heap_top in
  r ← heap_grow_loop (npages old_heap_aligned new_heap_aligned) pgtbl heap_top old_heap_aligned old_heap_aligned new_heap_aligned;
  mret (default new_heap_top r).

Definition uvm_heap_ungrow (pgtbl heap_top len : Z) : M (kstate D) Z :=
  let new_heap_top := u64 (heap_top - len) in
  let new_heap_top := if heap_top <? new_heap_top then 0 else new_heap_top in
  let new_heap_aligned := page_up new_heap_top in
  let old_heap_aligned := page_up heap_top in
  release_loop (npages new_heap_aligned old_heap_aligned) pgtbl new_heap_aligned old_heap_aligned;;
  mret new_heap_top.

(** ** Copying between user and kernel space *)

(** The translation at the head of the three loops: the physical address of [va]
    and the bytes left in its page. *)
Definition translate (pgtbl va : Z) (msg : string) : M (kstate D) (Z * Z) :=
  pte ← vm_getpte pgtbl va false;
  match pte with
  | None => panic msg
  | Some pte =>
      v ← mem64 pte;
      if negb (pte_valid v) then panic msg else
      let pa := PTE_TO_PA v in
      let page_offset := Z.land va (PGSIZE - 1) in
      mret (u64 (pa + page_offset), u32 (PGSIZE - page_offset))
  end.

(** Each turn copies at least a byte, so [len] is enough fuel. *)
Fixpoint copyin_loop (fuel : nat) (pgtbl dst_addr src_va copied len : Z) : M (kstate D) unit :=
  if copied <? len then
    match fuel with
    | O => no_fuel
    | S fuel' =>
        '(src_pa, bytes_in_page) ← translate pgtbl src_va "uvm_copyin: invalid virtual address";
        let bytes_to_copy := if u32 (len - copied) <? bytes_in_page then u32 (len - copied) else bytes_in_page in
        copy_bytes dst_addr src_pa bytes_to_copy;;
        copyin_loop fuel' pgtbl (u64 (dst_addr + bytes_to_copy)) (u64 (src_va + bytes_to_copy)) (u32 (copied + bytes_to_copy)) len
    end
  else mret tt.

Definition uvm_copyin (pgtbl dst src len : Z) : M (kstate D) unit :=
  if len =? 0 then mret tt else copyin_loop (Z.to_nat len) pgtbl dst src 0 len.

Fixpoint copyout_loop (fuel : nat) (pgtbl dst_va src_addr copied len : Z) : M (kstate D) unit :=
  if copied <? len then
    match fuel with
    | O => no_fuel
    | S fuel' =>
        '(dst_pa, bytes_in_page) ← translate pgtbl dst_va "uvm_copyout: invalid virtual address";
        let bytes_to_copy := if u32 (len - copied) <? bytes_in_page then u32 (len - copied) else bytes_in_page in
        copy_bytes dst_pa src_addr bytes_to_copy;;
        copyout_loop fuel' pgtbl (u64 (dst_va + bytes_to_copy)) (u64 (src_addr + bytes_to_copy)) (u32 (copied + bytes_to_copy)) len
    end
  else mret tt.

Definition uvm_copyout (pgtbl dst src len : Z) : M (kstate D) unit :=
  if len =? 0 then mret tt else copyout_loop (Z.to_nat len) pgtbl dst src 0 len.

(** The inner loop of [uvm_copyin_str]: the bytes copied so far, and whether a
    terminator was met. *)
Fixpoint str_chunk (k : nat) (m : mem) (dst src : Z) : mem * bool :=
  match k with
  | O => (m, false)
  | S k' =>
      let m' := store8 m dst (load8 m src) in
      if load8 m' src =? 0 then (m', true) else str_chunk k' m' (dst + 1) (src + 1)
  end.

Definition copy_str (dst src n : Z) : M (kstate D) bool :=
  if (0 <? n) && ((dst =? 0) || (src =? 0)) then fault
  else fun s => let '(m, r) := str_chunk (Z.to_nat n) (k_mem s) dst src in Ret r (set_k_mem m s).

Fixpoint copyin_str_loop (fuel : nat) (pgtbl dst_addr src_va copied maxlen : Z) : M (kstate D) unit :=
  if copied <? maxlen then
    match fuel with
    | O => no_fuel
    | S fuel' =>
        '(src_pa, bytes_in_page) ← translate pgtbl src_va "uvm_copyin_str: invalid virtual address";
        let remaining := u32 (maxlen - copied) in
        let bytes_to_check := if remaining <? bytes_in_page then remaining else bytes_in_page in
        ended ← copy_str dst_addr src_pa bytes_to_check;
        if (ended : bool) then mret tt else
        copyin_str_loop fuel' pgtbl (u64 (dst_addr + bytes_to_check)) (u64 (src_va + bytes_to_check))
          (u32 (copied + bytes_to_check)) maxlen
    end
  else if copied =? maxlen then modify (fun s => set_k_mem (store8 (k_mem s) (dst_addr - 1) 0) s)
  else mret tt.

Definition uvm_copyin_str (pgtbl dst src maxlen : Z) : M (kstate D) unit :=
  if maxlen =? 0 then mret tt else copyin_str_loop (Z.to_nat maxlen) pgtbl dst src 0 maxlen.
End Ops.
