(* ===== verification/UvmSpec.v ===== *)
(** * UvmSpec: what the copying functions of kernel/mem/uvm.c promise *)

From S2P Require Import Prelude Bytes Kstring Spinlock Kernel Pmem Vmem VmemTree VmemSpec Uvm.

(** ** Translation of user addresses *)

(** The physical address of [va], and the byte a user program reads there. *)
Definition phys (m : mem) (root va : Z) : option Z := v ← pt_map m root va; Some (PTE_TO_PA v + va mod PGSIZE).
Definition uload (m : mem) (root va : Z) : option Z := load8 m <$> phys m root va.

Lemma PTE_TO_PA_page v : 0 <= PTE_TO_PA v /\ PTE_TO_PA v + PGSIZE <= 2 ^ 64 /\ PTE_TO_PA v mod PGSIZE = 0.
Proof.
  unfold PTE_TO_PA, u64, PGSIZE. rewrite Z.shiftl_mul_pow2 by lia. change (2 ^ 12) with 4096. set (a := Z.shiftr v 10).
  change (2 ^ 64) with (2 ^ 52 * 4096). rewrite Z.mul_mod_distr_r by done.
  pose proof (Z.mod_pos_bound a (2 ^ 52) ltac:(lia)). rewrite Z.mod_mul by done. lia.
Qed.

Lemma phys_range m root va p : phys m root va = Some p -> 0 <= p < 2 ^ 64.
Proof.
  unfold phys. destruct (pt_map m root va) as [v|]; cbn [mbind option_bind]; [|discriminate]. intros H. injection H as <-.
  pose proof (PTE_TO_PA_page v). unfold PGSIZE in *. pose proof (Z.mod_pos_bound va 4096 ltac:(done)). lia.
Qed.

Lemma pt_map_page m root va va' : 0 <= va < VA_MAX -> 0 <= va' < VA_MAX -> page_of va = page_of va' ->
  pt_map m root va = pt_map m root va'.
Proof. intros Hv Hv' Hp. apply (same_page va va' Hv Hv') in Hp as (H2 & H1 & H0). unfold pt_map, leaf. by rewrite H2, H1, H0. Qed.

(** The bytes of a page are contiguous. *)
Lemma phys_add m root va j p : 0 <= va -> va + j < VA_MAX -> 0 <= j < PGSIZE - va mod PGSIZE ->
  phys m root va = Some p -> phys m root (va + j) = Some (p + j).
Proof.
  intros H0 Hm Hj. unfold phys. assert (va mod PGSIZE + j = (va + j) mod PGSIZE /\ page_of va = page_of (va + j)) as [Hmod Hpg].
  { unfold page_of, PGSIZE in *. divmod va 4096. divmod (va + j) 4096. lia. }
  rewrite (pt_map_page m root va (va + j)) by (try done; lia). destruct (pt_map m root (va + j)) as [v|]; cbn [mbind option_bind]; [|done].
  intros H. injection H as <-. f_equal. lia.
Qed.

Lemma same_tree_phys m m' root va : same_tree m m' root -> phys m' root va = phys m root va.
Proof. intros Hs. unfold phys. by rewrite (same_tree_map m m' root va Hs). Qed.

(** Memory that neither the tables nor the free pages use. *)
Definition plain (m : mem) (root : Z) (kp up : list Z) (x : Z) : Prop :=
  outside m root x /\ forall p, p ∈ kp ++ up -> ~ (p <= x < p + PGSIZE).

Section Spec.
Context {D : Type}.
Implicit Types (s : kstate D) (kp up : list Z).

(** Writing plain memory keeps the allocator, the tree and the translation. *)
Lemma plain_write s root kp up m' : vm_ok s root kp up ->
  (forall x, ~ plain (k_mem s) root kp up x -> load8 m' x = load8 (k_mem s) x) ->
  vm_ok (set_k_mem m' s) root kp up /\ same_tree (k_mem s) m' root.
Proof.
  intros [Hpools Hpt] Hm. assert (same_tree (k_mem s) m' root) as Hst.
  { intros p a i Hp Ha Hi. apply load64_ext. intros x Hx. apply Hm. intros [Ho _]. apply (Ho p a Hp Ha). unfold PGSIZE. lia. }
  split; [|done]. split.
  - apply pools_set_mem; [|done]. intros p Hp. apply load64_ext. intros x Hx. apply Hm. intros [_ Hf]. apply (Hf p Hp). unfold PGSIZE. lia.
  - rewrite k_mem_set. apply (same_tree_pt _ _ _ _ _ Hst Hpt). intros r a Hr Ha. by apply (pt_pages _ _ _ Hpt r a).
Qed.

Lemma plain_same_tree m m' root kp up x : same_tree m m' root -> plain m' root kp up x <-> plain m root kp up x.
Proof.
  intros Hst. unfold plain, outside. pose proof (same_tree_node _ _ _ Hst) as Hn.
  split; intros [Ho Hf]; (split; [|done]); intros p a Hp Ha; apply (Ho p a Hp); rewrite ?Hn in * by done; done.
Qed.

(** [translate] in terms of [phys]. *)
Lemma translate_eq s root kp up va msg : vm_ok s root kp up -> 0 <= va < VA_MAX ->
  translate root va msg s =
    match phys (k_mem s) root va with Some p => Ret (p, PGSIZE - va mod PGSIZE) s | None => Panic msg s end.
Proof.
  intros Hv Hva. destruct (vm_getpte_lookup s root kp up va Hv) as [Hg _]. specialize (Hg (proj2 Hva)).
  unfold translate. mstep ltac:(exact Hg). unfold phys, pt_map. destruct (leaf (k_mem s) root va) as [a|]; cbn [mbind option_bind]; [|done].
  unfold mem64. mrun. destruct (pte_valid _) eqn:Hval; cbn [negb mbind option_bind]; [|done].
  set (v := load64 (k_mem s) a). pose proof (PTE_TO_PA_page v). change (PGSIZE - 1) with (Z.ones 12). rewrite Z.land_ones by done.
  change (2 ^ 12) with 4096. unfold PGSIZE in *. pose proof (Z.mod_pos_bound va 4096 ltac:(done)).
  rewrite u64_small, u32_small by lia. done.
Qed.

(** The number of bytes that a turn copies. *)
Definition chunk (va left_ : Z) : Z := Z.min left_ (PGSIZE - va mod PGSIZE).

Lemma chunk_bounds va l : 0 < l -> 0 < chunk va l <= l /\ chunk va l <= PGSIZE - va mod PGSIZE.
Proof. unfold chunk, PGSIZE. pose proof (Z.mod_pos_bound va 4096 ltac:(done)). lia. Qed.

Lemma chunk_eq va len copied : 0 <= copied < len -> len < 2 ^ 32 ->
  (if u32 (len - copied) <? PGSIZE - va mod PGSIZE then u32 (len - copied) else PGSIZE - va mod PGSIZE) = chunk va (len - copied).
Proof. intros Hc Hl. unfold chunk. rewrite u32_small by lia. destruct (Z.ltb_spec (len - copied) (PGSIZE - va mod PGSIZE)); lia. Qed.

Lemma copy_bytes_eq dst src n s : 0 < dst -> 0 < src -> copy_bytes dst src n s = Ret tt (set_k_mem (copy_up (Z.to_nat n) (k_mem s) dst src) s).
Proof.
  intros Hd Hs. unfold copy_bytes. rewrite (proj2 (Z.eqb_neq dst 0)), (proj2 (Z.eqb_neq src 0)), andb_false_r by lia. done.
Qed.

Lemma set_k_mem_self s : set_k_mem (k_mem s) s = s.
Proof. by destruct s. Qed.

(** A chunk never goes beyond the first address that is not mapped. *)
Lemma chunk_stop m root va n p l lim : 0 <= va -> va + l <= VA_MAX -> n = chunk va l -> 0 < l -> phys m root va = Some p ->
  0 <= lim <= l -> (lim = l \/ phys m root (va + lim) = None) -> n <= lim.
Proof.
  intros H0 Hm -> Hl Hp Hlim [->|Hn]; [pose proof (chunk_bounds va l Hl); lia|].
  destruct (chunk_bounds va l Hl) as [? Hb]. destruct (Z.le_gt_cases (chunk va l) lim) as [|Hgt]; [done|].
  by rewrite (phys_add m root va lim p) in Hn by (done || lia).
Qed.

(** ** [uvm_copyin] *)

Section CopyIn.
Variables (s0 : kstate D) (root dst src len lim : Z) (kp up : list Z).
Hypothesis Hv : vm_ok s0 root kp up.
Hypothesis Hdst : 0 < dst /\ dst + len < 2 ^ 64.
Hypothesis Hsrc : 0 <= src /\ src + len <= VA_MAX.
Hypothesis Hlen : 0 <= lim <= len /\ 0 < len < 2 ^ 32.
Hypothesis Hbuf : forall x, dst <= x < dst + len -> plain (k_mem s0) root kp up x.
Hypothesis Hread : forall i, 0 <= i < lim -> exists p, phys (k_mem s0) root (src + i) = Some p /\ 0 < p /\ ~ (dst <= p < dst + len).
Hypothesis Hstop : lim = len \/ phys (k_mem s0) root (src + lim) = None.

(** The memory after [c] bytes. *)
Definition copied_in (m : mem) (c : Z) : Prop :=
  (forall i, 0 <= i < c -> Some (load8 m (dst + i)) = uload (k_mem s0) root (src + i)) /\
  (forall x, ~ (dst <= x < dst + c) -> load8 m x = load8 (k_mem s0) x).

Lemma copied_in_vm m c : c <= len -> copied_in m c -> vm_ok (set_k_mem m s0) root kp up /\ same_tree (k_mem s0) m root.
Proof. intros Hc [_ Hm]. apply plain_write; [done|]. intros x Hx. apply Hm. intros Hr. apply Hx, Hbuf. lia. Qed.

(** [n] bytes of one page. *)
Lemma copied_in_chunk m c p n : 0 <= c -> copied_in m c -> phys (k_mem s0) root (src + c) = Some p ->
  0 < n <= lim - c -> n <= PGSIZE - (src + c) mod PGSIZE ->
  0 < p /\ (forall j, 0 <= j < n -> Some (load8 m (p + j)) = uload (k_mem s0) root (src + c + j)) /\
  (dst + c <= p \/ p + n <= dst + c) /\ copied_in (copy_up (Z.to_nat n) m (dst + c) p) (c + n).
Proof.
  intros Hc [Hin Hout] Hp Hn Hn1.
  assert (forall j, 0 <= j < n -> phys (k_mem s0) root (src + c + j) = Some (p + j) /\ 0 < p + j /\ ~ (dst <= p + j < dst + len)) as Hpj.
  { intros j Hj. destruct (Hread (c + j) ltac:(lia)) as (q & Hq & Hq0 & Hqd). rewrite Z.add_assoc in Hq.
    rewrite (phys_add _ _ _ j p) in Hq |- * by (try done; lia). injection Hq as <-. done. }
  assert (dst + c <= p \/ p + n <= dst + c) as Hsep.
  { destruct (Z.le_gt_cases (dst + c) p); [by left|]. right. destruct (Z.le_gt_cases (p + n) (dst + c)); [lia|].
    destruct (Hpj (dst + c - p) ltac:(lia)) as (_ & _ & Hno). lia. }
  assert (forall j, 0 <= j < n -> Some (load8 m (p + j)) = uload (k_mem s0) root (src + c + j)) as Hb.
  { intros j Hj. destruct (Hpj j Hj) as (Hq & _ & Hno). unfold uload. rewrite Hq. cbn [fmap option_fmap option_map].
    f_equal. apply Hout. lia. }
  split_and!; [destruct (Hpj 0); lia | done | done |]. split.
  - intros i Hi. rewrite copy_up_spec by lia. rewrite Z2Nat.id by lia. case_decide as Hd; [|apply Hin; lia].
    replace (p + (dst + i - (dst + c))) with (p + (i - c)) by lia. rewrite Hb by lia. f_equal. lia.
  - intros x Hx. rewrite copy_up_spec by lia. rewrite Z2Nat.id by lia. rewrite decide_False by lia. apply Hout. lia.
Qed.

Lemma copyin_loop_ok : forall fuel c m, len - c <= Z.of_nat fuel -> 0 <= c <= lim -> copied_in m c ->
  exists m', copyin_loop fuel root (dst + c) (src + c) c len (set_k_mem m s0) =
    (if decide (lim = len) then Ret tt (set_k_mem m' s0) else Panic "uvm_copyin: invalid virtual address" (set_k_mem m' s0)) /\
    copied_in m' lim.
Proof.
  induction fuel as [|fuel IH]; intros c m Hf Hc Hm.
  { exists m. assert (c = lim /\ lim = len) as [-> ->] by lia. cbn [copyin_loop]. rewrite Z.ltb_irrefl, decide_True by done. by split. }
  cbn [copyin_loop]. destruct (Z.ltb_spec c len) as [Hlt|Hge].
  2: { exists m. assert (c = lim /\ lim = len) as [-> ->] by lia. rewrite decide_True by done. by split. }
  destruct (copied_in_vm m c ltac:(lia) Hm) as [Hv1 Hst].
  pose proof (translate_eq (set_k_mem m s0) root kp up (src + c) "uvm_copyin: invalid virtual address" Hv1 ltac:(lia)) as Ht.
  rewrite k_mem_set, (same_tree_phys _ _ _ _ Hst) in Ht. destruct (phys (k_mem s0) root (src + c)) as [p|] eqn:Hp.
  2: { exists m. assert (c = lim) as ->.
       { destruct (decide (c = lim)); [done|]. destruct (Hread c ltac:(lia)) as (q & Hq & _). congruence. }
       rewrite decide_False by lia. split; [|done]. rewrite (bind_panic_eq _ _ _ _ _ Ht). done. }
  mstep ltac:(exact Ht). cbv iota zeta. rewrite chunk_eq by lia.
  destruct (chunk_bounds (src + c) (len - c) ltac:(lia)) as [Hn0 Hn1].
  assert (chunk (src + c) (len - c) <= lim - c) as Hn.
  { apply (chunk_stop (k_mem s0) root (src + c) _ p (len - c)); try done; try lia.
    destruct Hstop as [->|Hs]; [by left|]. right. replace (src + c + (lim - c)) with (src + lim) by lia. done. }
  destruct (copied_in_chunk m c p _ ltac:(lia) Hm Hp (conj (proj1 Hn0) Hn) Hn1) as (Hp0 & _ & _ & Hm1).
  set (n := chunk (src + c) (len - c)) in *. clearbody n.
  mstep ltac:(apply copy_bytes_eq; [lia | exact Hp0]). rewrite k_mem_set, set_k_mem_twice.
  assert (VA_MAX = 2 ^ 38) as HM by done. rewrite !u64_small, u32_small by lia.
  replace (dst + c + n) with (dst + (c + n)) by lia. replace (src + c + n) with (src + (c + n)) by lia.
  apply IH; [lia | lia | exact Hm1].
Qed.
End CopyIn.

(** ** [uvm_copyout] *)

Section CopyOut.
Variables (s0 : kstate D) (root dst src len lim : Z) (kp up : list Z).
Hypothesis Hv : vm_ok s0 root kp up.
Hypothesis Hsrc : 0 < src /\ src + len < 2 ^ 64.
Hypothesis Hdst : 0 <= dst /\ dst + len <= VA_MAX.
Hypothesis Hlen : 0 <= lim <= len /\ 0 < len < 2 ^ 32.
Hypothesis Hwrite : forall i, 0 <= i < lim -> exists p, phys (k_mem s0) root (dst + i) = Some p /\ 0 < p /\
  plain (k_mem s0) root kp up p /\ ~ (src <= p < src + len).
Hypothesis Hinj : forall i j p, 0 <= i < lim -> 0 <= j < lim -> phys (k_mem s0) root (dst + i) = Some p ->
  phys (k_mem s0) root (dst + j) = Some p -> i = j.
Hypothesis Hstop : lim = len \/ phys (k_mem s0) root (dst + lim) = None.

Definition copied_out (m : mem) (c : Z) : Prop :=
  (forall i p, 0 <= i < c -> phys (k_mem s0) root (dst + i) = Some p -> load8 m p = load8 (k_mem s0) (src + i)) /\
  (forall x, (forall i, 0 <= i < c -> phys (k_mem s0) root (dst + i) <> Some x) -> load8 m x = load8 (k_mem s0) x).

Lemma copied_out_vm m c : c <= lim -> copied_out m c -> vm_ok (set_k_mem m s0) root kp up /\ same_tree (k_mem s0) m root.
Proof.
  intros Hc [_ Hm]. apply plain_write; [done|]. intros x Hx. apply Hm. intros i Hi Hp.
  destruct (Hwrite i ltac:(lia)) as (p & Hp' & _ & Hpl & _). rewrite Hp in Hp'. injection Hp' as <-. done.
Qed.

Lemma copied_out_chunk m c p : 0 <= c < len -> copied_out m c -> phys (k_mem s0) root (dst + c) = Some p ->
  chunk (dst + c) (len - c) <= lim - c ->
  0 < p /\ copied_out (copy_up (Z.to_nat (chunk (dst + c) (len - c))) m p (src + c)) (c + chunk (dst + c) (len - c)).
Proof.
  intros Hc [Hin Hout] Hp Hn. destruct (chunk_bounds (dst + c) (len - c) ltac:(lia)) as [Hn0 Hn1].
  set (n := chunk (dst + c) (len - c)) in *. clearbody n.
  assert (forall j, 0 <= j < n -> phys (k_mem s0) root (dst + (c + j)) = Some (p + j)) as Hph.
  { intros j Hj. rewrite Z.add_assoc. apply phys_add; (done || lia). }
  assert (forall i, 0 <= i < c + n -> i < c \/ phys (k_mem s0) root (dst + i) = Some (p + (i - c))) as Hsplit.
  { intros i Hi. destruct (Z.lt_ge_cases i c); [by left|]. right. rewrite <- Hph by lia. f_equal. lia. }
  assert (forall j, 0 <= j < n -> 0 < p + j /\ ~ (src <= p + j < src + len)) as Hpj.
  { intros j Hj. destruct (Hwrite (c + j) ltac:(lia)) as (q & Hq & Hq0 & _ & Hqd). rewrite Hph in Hq by done. by injection Hq as <-. }
  split; [specialize (Hpj 0); lia|].
  assert (p <= src + c \/ src + c + Z.of_nat (Z.to_nat n) <= p) as Hsep.
  { destruct (Z.le_gt_cases p (src + c)); [by left|]. right. destruct (Z.le_gt_cases (src + c + n) p); [lia|].
    destruct (Hpj 0 ltac:(lia)) as [_ Hno]. lia. }
  assert (forall i q, 0 <= i < c -> phys (k_mem s0) root (dst + i) = Some q -> ~ (p <= q < p + n)) as Hold.
  { intros i q Hi Hq Hr. assert (i = c + (q - p)); [|lia]. apply (Hinj _ _ q); [lia | lia | done |].
    rewrite Hph by lia. f_equal. lia. }
  assert (forall i q, 0 <= i < c + n -> phys (k_mem s0) root (dst + i) = Some q -> src <= q < src + len -> False) as Hsrc'.
  { intros i q Hi Hq Hr. destruct (Hwrite i ltac:(lia)) as (q' & Hq' & _ & _ & Hno). rewrite Hq in Hq'. injection Hq' as <-. done. }
  split.
  - intros i q Hi Hq. rewrite copy_up_spec by done. rewrite Z2Nat.id by lia. destruct (Hsplit i Hi) as [Hic|Hic].
    + rewrite decide_False by (exact (Hold i q ltac:(lia) Hq)). apply Hin; [lia | done].
    + destruct (Z.lt_ge_cases i c).
      { rewrite decide_False by (exact (Hold i q ltac:(lia) Hq)). apply Hin; [lia | done]. }
      rewrite Hq in Hic. injection Hic as ->. rewrite decide_True by lia.
      replace (src + c + (p + (i - c) - p)) with (src + i) by lia. apply Hout. intros j Hj Hpj'.
      apply (Hsrc' j _ ltac:(lia) Hpj'). lia.
  - intros x Hx. rewrite copy_up_spec by done. rewrite Z2Nat.id by lia. rewrite decide_False.
    + apply Hout. intros i Hi. apply Hx. lia.
    + intros Hr. apply (Hx (c + (x - p))); [lia|]. rewrite Hph by lia. f_equal. lia.
Qed.

Lemma copyout_loop_ok : forall fuel c m, len - c <= Z.of_nat fuel -> 0 <= c <= lim -> copied_out m c ->
  exists m', copyout_loop fuel root (dst + c) (src + c) c len (set_k_mem m s0) =
    (if decide (lim = len) then Ret tt (set_k_mem m' s0) else Panic "uvm_copyout: invalid virtual address" (set_k_mem m' s0)) /\
    copied_out m' lim.
Proof.
  induction fuel as [|fuel IH]; intros c m Hf Hc Hm.
  { exists m. assert (c = lim /\ lim = len) as [-> ->] by lia. cbn [copyout_loop]. rewrite Z.ltb_irrefl, decide_True by done. by split. }
  cbn [copyout_loop]. destruct (Z.ltb_spec c len) as [Hlt|Hge].
  2: { exists m. assert (c = lim /\ lim = len) as [-> ->] by lia. rewrite decide_True by done. by split. }
  destruct (copied_out_vm m c ltac:(lia) Hm) as [Hv1 Hst].
  pose proof (translate_eq (set_k_mem m s0) root kp up (dst + c) "uvm_copyout: invalid virtual address" Hv1 ltac:(lia)) as Ht.
  rewrite k_mem_set, (same_tree_phys _ _ _ _ Hst) in Ht. destruct (phys (k_mem s0) root (dst + c)) as [p|] eqn:Hp.
  2: { exists m. assert (c = lim) as ->.
       { destruct (decide (c = lim)); [done|]. destruct (Hwrite c ltac:(lia)) as (q & Hq & _). congruence. }
       rewrite decide_False by lia. split; [|done]. rewrite (bind_panic_eq _ _ _ _ _ Ht). done. }
  mstep ltac:(exact Ht). cbv iota zeta. rewrite chunk_eq by lia.
  destruct (chunk_bounds (dst + c) (len - c) ltac:(lia)) as [Hn0 _].
  assert (chunk (dst + c) (len - c) <= lim - c) as Hn.
  { apply (chunk_stop (k_mem s0) root (dst + c) _ p (len - c)); try done; try lia.
    destruct Hstop as [->|Hs]; [by left|]. right. replace (dst + c + (lim - c)) with (dst + lim) by lia. done. }
  destruct (copied_out_chunk m c p ltac:(lia) Hm Hp Hn) as [Hp0 Hm1].
  set (n := chunk (dst + c) (len - c)) in *. clearbody n.
  mstep ltac:(apply copy_bytes_eq; [exact Hp0 | lia]). rewrite k_mem_set, set_k_mem_twice.
  assert (VA_MAX = 2 ^ 38) as HM by done. rewrite !u64_small, u32_small by lia.
  replace (dst + c + n) with (dst + (c + n)) by lia. replace (src + c + n) with (src + (c + n)) by lia.
  apply IH; [lia | lia | exact Hm1].
Qed.
End CopyOut.

(** ** [uvm_copyin_str] *)

Section CopyStr.
Variables (s0 : kstate D) (root dst src len lim : Z) (kp up : list Z).
Hypothesis Hv : vm_ok s0 root kp up.
Hypothesis Hdst : 0 < dst /\ dst + len < 2 ^ 64.
Hypothesis Hsrc : 0 <= src /\ src + len <= VA_MAX.
Hypothesis Hlen : 0 <= lim < len /\ len < 2 ^ 32.
Hypothesis Hbuf : forall x, dst <= x < dst + len -> plain (k_mem s0) root kp up x.
(** The string ends at [lim] or does not end in the first [len] bytes. *)
Hypothesis Hread : forall i, 0 <= i <= lim -> exists p, phys (k_mem s0) root (src + i) = Some p /\ 0 < p /\ ~ (dst <= p < dst + len).
Hypothesis Hchars : forall i, 0 <= i < lim -> uload (k_mem s0) root (src + i) <> Some 0.
Hypothesis Hend : uload (k_mem s0) root (src + lim) = Some 0 \/ lim = len - 1.

Lemma load8_store8_self m d a : load8 (store8 m d (load8 m a)) a = load8 m a.
Proof. rewrite load8_store8. case_decide; [|done]. unfold load8, u8. by rewrite Zmod_mod. Qed.

Lemma str_chunk_spec k m d a : d <= a \/ a + Z.of_nat k <= d -> (forall j, 0 <= j < Z.of_nat k -> load8 m (a + j) <> 0) ->
  str_chunk k m d a = (copy_up k m d a, false).
Proof.
  revert m d a. induction k as [|k IH]; intros m d a Hds Hc; [done|]. cbn [str_chunk copy_up].
  pose proof (Hc 0 ltac:(lia)) as H0. rewrite Z.add_0_r in H0. rewrite load8_store8_self, (proj2 (Z.eqb_neq _ _) H0).
  apply IH; [lia|]. intros j Hj. rewrite load8_store8, decide_False by lia.
  replace (a + 1 + j) with (a + (1 + j)) by lia. apply Hc. lia.
Qed.

Lemma str_chunk_end k j m d a : d <= a \/ a + Z.of_nat (S j) <= d -> (j < k)%nat ->
  (forall i, 0 <= i < Z.of_nat j -> load8 m (a + i) <> 0) -> load8 m (a + Z.of_nat j) = 0 ->
  str_chunk k m d a = (copy_up (S j) m d a, true).
Proof.
  revert j m d a. induction k as [|k IH]; intros j m d a Hds Hj Hc H0; [lia|]. cbn [str_chunk copy_up].
  rewrite load8_store8_self. destruct j as [|j].
  - rewrite Z.add_0_r in H0. by rewrite H0.
  - pose proof (Hc 0 ltac:(lia)) as Hz. rewrite Z.add_0_r in Hz. rewrite (proj2 (Z.eqb_neq _ _) Hz).
    apply IH; [lia | lia | |].
    + intros i Hi. rewrite load8_store8, decide_False by lia. replace (a + 1 + i) with (a + (1 + i)) by lia. apply Hc. lia.
    + rewrite load8_store8, decide_False by lia. rewrite <- H0. f_equal. lia.
Qed.

Definition copied_str (m : mem) : Prop :=
  (forall i, 0 <= i < lim -> Some (load8 m (dst + i)) = uload (k_mem s0) root (src + i)) /\ load8 m (dst + lim) = 0 /\
  (forall x, ~ (dst <= x < dst + len) -> load8 m x = load8 (k_mem s0) x).

Abbreviation copied := (copied_in s0 root dst src).

Lemma copied_str_ended m : copied m (lim + 1) -> uload (k_mem s0) root (src + lim) = Some 0 -> copied_str m.
Proof.
  intros [Hin Hout] Hz. split_and!.
  - intros i Hi. apply Hin. lia.
  - pose proof (Hin lim ltac:(lia)) as Hl. rewrite Hz in Hl. by injection Hl.
  - intros x Hx. apply Hout. lia.
Qed.

Lemma copied_str_full m : copied m len -> lim = len - 1 -> copied_str (store8 m (dst + len - 1) 0).
Proof.
  intros [Hin Hout] Hl. split_and!.
  - intros i Hi. rewrite load8_store8, decide_False by lia. apply Hin. lia.
  - rewrite load8_store8, decide_True by lia. done.
  - intros x Hx. rewrite load8_store8, decide_False by lia. by apply Hout.
Qed.

Lemma copy_str_eq d a n s : 0 < d -> 0 < a -> copy_str d a n s =
  let '(m, r) := str_chunk (Z.to_nat n) (k_mem s) d a in Ret r (set_k_mem m s).
Proof.
  intros Hd Ha. unfold copy_str. rewrite (proj2 (Z.eqb_neq d 0)), (proj2 (Z.eqb_neq a 0)), andb_false_r by lia. done.
Qed.

(** One chunk: it ends at [lim], or the loop goes on. *)
Lemma copied_str_chunk m c p : 0 <= c <= lim -> copied m c -> phys (k_mem s0) root (src + c) = Some p ->
  let n := chunk (src + c) (len - c) in
  exists m1 r, str_chunk (Z.to_nat n) m (dst + c) p = (m1, r) /\ 0 < p /\
    if r then copied_str m1 else copied m1 (c + n) /\ (c + n <= lim \/ c + n = len /\ lim = len - 1).
Proof.
  intros Hc Hm Hp n. destruct (chunk_bounds (src + c) (len - c) ltac:(lia)) as [Hn0 Hn1]. fold n in Hn0, Hn1. clearbody n.
  assert (forall i, 0 <= i < lim + 1 -> exists p, phys (k_mem s0) root (src + i) = Some p /\ 0 < p /\ ~ (dst <= p < dst + len)) as Hr
    by (intros i Hi; apply Hread; lia).
  assert (forall q, c + q <= lim + 1 -> 0 < q -> q <= PGSIZE - (src + c) mod PGSIZE -> 0 < p /\
    (forall j, 0 <= j < q -> Some (load8 m (p + j)) = uload (k_mem s0) root (src + c + j)) /\
    (dst + c <= p \/ p + q <= dst + c) /\ copied (copy_up (Z.to_nat q) m (dst + c) p) (c + q)) as Hpiece.
  { intros q Hq Hq0 Hq1. apply (copied_in_chunk s0 root dst src len (lim + 1)); try done; lia. }
  destruct (decide (uload (k_mem s0) root (src + lim) = Some 0 /\ lim < c + n)) as [[Hz Hlt]|Hno].
  - destruct (Hpiece (lim + 1 - c)) as (Hp0 & Hb & Hsep & Hm1); [lia..|].
    exists (copy_up (Z.to_nat (lim + 1 - c)) m (dst + c) p), true. split_and!; [|done|].
    + replace (Z.to_nat (lim + 1 - c)) with (S (Z.to_nat (lim - c))) by lia. apply str_chunk_end; [lia | lia | |].
      * intros i Hi H0. apply (Hchars (c + i)); [lia|]. rewrite Z.add_assoc, <- Hb by lia. by rewrite H0.
      * rewrite Z2Nat.id by lia. assert (Some (load8 m (p + (lim - c))) = Some 0) as He; [|by injection He].
        rewrite Hb by lia. rewrite <- Hz. f_equal. lia.
    + apply copied_str_ended; [|done]. by replace (c + (lim + 1 - c)) with (lim + 1) in Hm1 by lia.
  - assert (c + n <= lim \/ c + n = len /\ lim = len - 1) as Hnext.
    { destruct (Z.le_gt_cases (c + n) lim); [by left|]. right. destruct Hend as [Hz|Hl]; [by destruct Hno | lia]. }
    destruct (Hpiece n) as (Hp0 & Hb & Hsep & Hm1); [lia..|].
    exists (copy_up (Z.to_nat n) m (dst + c) p), false. split_and!; [|done | done | done].
    apply str_chunk_spec; [lia|]. rewrite Z2Nat.id by lia. intros j Hj H0. specialize (Hb j Hj). rewrite H0 in Hb.
    destruct (decide (c + j = lim)) as [He|Hne].
    + apply Hno. split; [|lia]. rewrite Hb. f_equal. lia.
    + apply (Hchars (c + j)); [lia|]. rewrite Z.add_assoc. by rewrite Hb.
Qed.

Lemma copyin_str_loop_ok : forall fuel c m, len - c <= Z.of_nat fuel -> 0 <= c -> c <= lim \/ c = len /\ lim = len - 1 -> copied m c ->
  exists m', copyin_str_loop fuel root (dst + c) (src + c) c len (set_k_mem m s0) = Ret tt (set_k_mem m' s0) /\ copied_str m'.
Proof.
  induction fuel as [|fuel IH]; intros c m Hf H0 Hc Hm.
  - assert (c = len /\ lim = len - 1) as [-> Hl] by lia. exists (store8 m (dst + len - 1) 0). cbn [copyin_str_loop].
    rewrite Z.ltb_irrefl, Z.eqb_refl. split; [unfold modify; by rewrite k_mem_set, set_k_mem_twice | by apply copied_str_full].
  - cbn [copyin_str_loop]. destruct (Z.ltb_spec c len) as [Hlt|Hge].
    2: { assert (c = len /\ lim = len - 1) as [-> Hl] by lia. exists (store8 m (dst + len - 1) 0).
         rewrite Z.eqb_refl. split; [unfold modify; by rewrite k_mem_set, set_k_mem_twice | by apply copied_str_full]. }
    assert (c <= lim) as Hcl by lia. clear Hc.
    destruct (copied_in_vm s0 root dst src len kp up Hv Hbuf m c ltac:(lia) Hm) as [Hv1 Hst].
    destruct (Hread c ltac:(lia)) as (p & Hp & Hp0 & _).
    pose proof (translate_eq (set_k_mem m s0) root kp up (src + c) "uvm_copyin_str: invalid virtual address" Hv1 ltac:(lia)) as Ht.
    rewrite k_mem_set, (same_tree_phys _ _ _ _ Hst), Hp in Ht. mstep ltac:(exact Ht). cbv iota zeta. rewrite chunk_eq by lia.
    destruct (chunk_bounds (src + c) (len - c) ltac:(lia)) as [Hn0 _].
    destruct (copied_str_chunk m c p ltac:(lia) Hm Hp) as (m1 & r & Hs & _ & Hr).
    set (n := chunk (src + c) (len - c)) in *. clearbody n.
    assert (copy_str (dst + c) p n (set_k_mem m s0) = Ret r (set_k_mem m1 s0)) as Hcp.
    { rewrite copy_str_eq, k_mem_set, Hs, set_k_mem_twice by lia. done. }
    mstep ltac:(exact Hcp). destruct r; [by exists m1|]. destruct Hr as [Hm1 Hnext].
    assert (VA_MAX = 2 ^ 38) as HM by done. rewrite !u64_small, u32_small by lia.
    replace (dst + c + n) with (dst + (c + n)) by lia. replace (src + c + n) with (src + (c + n)) by lia.
    apply IH; [lia | lia | lia | exact Hm1].
Qed.
End CopyStr.

(** ** The theorems *)

(** The addresses of a copy: a kernel buffer and a range of user addresses. *)
Definition copy_args (kaddr uaddr len : Z) : Prop :=
  0 < kaddr /\ kaddr + len < 2 ^ 64 /\ 0 <= uaddr /\ uaddr + len <= VA_MAX /\ 0 < len < 2 ^ 32.

(** The first [lim] user addresses are mapped, and the next one is not unless
    [lim] is [len]. *)
Definition mapped_until (m : mem) (root uaddr len lim : Z) : Prop :=
  0 <= lim <= len /\ (forall i, 0 <= i < lim -> phys m root (uaddr + i) <> None) /\
  (lim = len \/ phys m root (uaddr + lim) = None).

(** C14: [uvm_copyin] copies the bytes a user program would read at [src], across
    page boundaries, into the kernel buffer and touches nothing else; it stops
    with a panic at the first address that is not mapped. *)
Theorem uvm_copyin_copies s root kp up dst src len lim : vm_ok s root kp up -> copy_args dst src len ->
  mapped_until (k_mem s) root src len lim -> (forall x, dst <= x < dst + len -> plain (k_mem s) root kp up x) ->
  (forall i p, 0 <= i < lim -> phys (k_mem s) root (src + i) = Some p -> 0 < p /\ ~ (dst <= p < dst + len)) ->
  exists m', uvm_copyin root dst src len s =
      (if decide (lim = len) then Ret tt (set_k_mem m' s) else Panic "uvm_copyin: invalid virtual address" (set_k_mem m' s)) /\
    (forall i, 0 <= i < lim -> Some (load8 m' (dst + i)) = uload (k_mem s) root (src + i)) /\
    (forall x, ~ (dst <= x < dst + lim) -> load8 m' x = load8 (k_mem s) x).
Proof.
  intros Hv (Hd & Hd2 & Hs & Hs2 & Hl) (Hlim & Hmap & Hstop) Hbuf Hsep.
  destruct (copyin_loop_ok s root dst src len lim kp up Hv) with (fuel := Z.to_nat len) (c := 0) (m := k_mem s)
    as (m' & Hrun & Hin & Hout); try done; [|lia|lia| |].
  - intros i Hi. destruct (phys (k_mem s) root (src + i)) as [p|] eqn:Hp; [|by destruct (Hmap i Hi)].
    exists p. split; [done | by apply (Hsep i p)].
  - split; [intros i Hi; lia | done].
  - exists m'. split; [|done]. unfold uvm_copyin. rewrite (proj2 (Z.eqb_neq len 0)) by lia.
    rewrite !Z.add_0_r, set_k_mem_self in Hrun. exact Hrun.
Qed.

(** [uvm_copyout] is its inverse: afterwards a user program reads the kernel's
    bytes at [dst] (the pages of the range are distinct), every other byte of
    physical memory is unchanged and the translation too; it stops with a panic at
    the first address that is not mapped. *)
Theorem uvm_copyout_copies s root kp up dst src len lim : vm_ok s root kp up -> copy_args src dst len ->
  mapped_until (k_mem s) root dst len lim ->
  (forall i p, 0 <= i < lim -> phys (k_mem s) root (dst + i) = Some p ->
     0 < p /\ plain (k_mem s) root kp up p /\ ~ (src <= p < src + len)) ->
  (forall i j p, 0 <= i < lim -> 0 <= j < lim -> phys (k_mem s) root (dst + i) = Some p ->
     phys (k_mem s) root (dst + j) = Some p -> i = j) ->
  exists m', uvm_copyout root dst src len s =
      (if decide (lim = len) then Ret tt (set_k_mem m' s) else Panic "uvm_copyout: invalid virtual address" (set_k_mem m' s)) /\
    (forall i, 0 <= i < lim -> uload m' root (dst + i) = Some (load8 (k_mem s) (src + i))) /\
    (forall va, pt_map m' root va = pt_map (k_mem s) root va) /\
    (forall x, (forall i, 0 <= i < lim -> phys (k_mem s) root (dst + i) <> Some x) -> load8 m' x = load8 (k_mem s) x).
Proof.
  intros Hv (Hd & Hd2 & Hs & Hs2 & Hl) (Hlim & Hmap & Hstop) Hsep Hinj.
  assert (forall i, 0 <= i < lim -> exists p, phys (k_mem s) root (dst + i) = Some p /\ 0 < p /\
    plain (k_mem s) root kp up p /\ ~ (src <= p < src + len)) as Hw.
  { intros i Hi. destruct (phys (k_mem s) root (dst + i)) as [p|] eqn:Hp; [|by destruct (Hmap i Hi)].
    exists p. split; [done | by apply (Hsep i p)]. }
  destruct (copyout_loop_ok s root dst src len lim kp up Hv) with (fuel := Z.to_nat len) (c := 0) (m := k_mem s)
    as (m' & Hrun & Hc); try done; [lia|lia| |].
  - split; [intros i p Hi; lia | done].
  - destruct (copied_out_vm s root dst src len lim kp up Hv Hw m' lim ltac:(lia) Hc) as [_ Hst]. destruct Hc as [Hin Hout].
    exists m'. split_and!; [| | intros va; by apply same_tree_map | done].
    + unfold uvm_copyout. rewrite (proj2 (Z.eqb_neq len 0)) by lia. rewrite !Z.add_0_r, set_k_mem_self in Hrun. exact Hrun.
    + intros i Hi. unfold uload. rewrite (same_tree_phys _ _ _ _ Hst). destruct (Hw i Hi) as (p & Hp & _). rewrite Hp.
      cbn [fmap option_fmap option_map]. f_equal. by apply Hin.
Qed.

(** [uvm_copyin_str]: for a string that ends at [lim], or does not end within
    [maxlen] bytes ([lim] = [maxlen] - 1), the buffer holds its first [lim] bytes
    and a terminator; it never writes more than [maxlen] bytes and terminates. *)
Theorem uvm_copyin_str_copies s root kp up dst src maxlen lim : vm_ok s root kp up -> copy_args dst src maxlen ->
  0 <= lim < maxlen -> (forall i, 0 <= i <= lim -> phys (k_mem s) root (src + i) <> None) ->
  (forall i, 0 <= i < lim -> uload (k_mem s) root (src + i) <> Some 0) ->
  uload (k_mem s) root (src + lim) = Some 0 \/ lim = maxlen - 1 ->
  (forall x, dst <= x < dst + maxlen -> plain (k_mem s) root kp up x) ->
  (forall i p, 0 <= i <= lim -> phys (k_mem s) root (src + i) = Some p -> 0 < p /\ ~ (dst <= p < dst + maxlen)) ->
  exists m', uvm_copyin_str root dst src maxlen s = Ret tt (set_k_mem m' s) /\
    (forall i, 0 <= i < lim -> Some (load8 m' (dst + i)) = uload (k_mem s) root (src + i)) /\ load8 m' (dst + lim) = 0 /\
    (forall x, ~ (dst <= x < dst + maxlen) -> load8 m' x = load8 (k_mem s) x).
Proof.
  intros Hv (Hd & Hd2 & Hs & Hs2 & Hl) Hlim Hmap Hchars Hend Hbuf Hsep.
  destruct (copyin_str_loop_ok s root dst src maxlen lim kp up Hv) with (fuel := Z.to_nat maxlen) (c := 0) (m := k_mem s)
    as (m' & Hrun & Hc); try done; [lia| |lia|lia| |].
  - intros i Hi. destruct (phys (k_mem s) root (src + i)) as [p|] eqn:Hp; [|by destruct (Hmap i Hi)].
    exists p. split; [done | by apply (Hsep i p)].
  - split; [intros i Hi; lia | done].
  - exists m'. split; [|done]. unfold uvm_copyin_str. rewrite (proj2 (Z.eqb_neq maxlen 0)) by lia.
    rewrite !Z.add_0_r, set_k_mem_self in Hrun. exact Hrun.
Qed.

(** *** Pages of user memory *)

Lemma data_page_plain s root kp up q x : vm_ok s root kp up -> data_page s root kp up q -> q <= x < q + PGSIZE ->
  plain (k_mem s) root kp up x.
Proof.
  intros [Hpools Hpt] (Hq & Hnin & Hnn) Hx. split.
  - intros p a Hp Ha Hr. destruct (pt_pages _ _ _ Hpt p a Hp Ha) as [Hok _]. assert (q <> a) as Hne by (intros ->; by apply (Hnn p)).
    destruct (page_sep q a Hq Hok Hne); lia.
  - intros a Ha Hr. pose proof (Forall_elem _ _ _ (pools_pages _ _ _ Hpools) Ha) as Hok.
    assert (q <> a) as Hne by (by intros ->). destruct (page_sep q a Hq Hok Hne); lia.
Qed.

Lemma data_page_grows s s' root kp kp' up q : grows s s' root kp kp' up -> data_page s root kp up q -> data_page s' root kp' up q.
Proof.
  intros [_ _ _ _ [u ->] _ Hnew] (Hq & Hnin & Hnn). split_and!; [done | |].
  - intros Hin. apply Hnin. rewrite !elem_of_app in *. tauto.
  - intros r Hr Ha. destruct (Hnew r q Hr Ha) as [Hold|Hin]; [by apply (Hnn r)|]. apply Hnin, elem_of_app. by left.
Qed.

Lemma take_user s root kp q up : vm_ok s root kp (q :: up) ->
  exists s', pmem_alloc false s = Ret q s' /\ vm_ok s' root kp up /\ k_mem s' = k_mem s /\ frame_vm s s' /\
    cpu_touch (k_cpu s') = cpu_touch (k_cpu s) /\ data_page s' root kp up q.
Proof.
  intros [Hpools Hpt]. destruct (pools_alloc false s kp (q :: up) q up kp up Hpools eq_refl eq_refl) as [Ha Hpools'].
  exists (alloc_post false s). rewrite k_mem_alloc_post, k_cpu_alloc_post, cpu_touch_idemp.
  assert (forall x, x ∈ kp ++ up -> x ∈ kp ++ q :: up) as Hsub.
  { intros x. rewrite !elem_of_app, elem_of_cons. tauto. }
  assert (q ∈ kp ++ q :: up) as Hqin by (rewrite elem_of_app, elem_of_cons; tauto).
  split_and!; [done | | done | apply frame_alloc_post | done |].
  - split; [done|]. rewrite k_mem_alloc_post. destruct Hpt as [Hpg Hinj]. split; [|done].
    intros r a Hr Hn. destruct (Hpg r a Hr Hn) as [? Hno]. split; [done|]. intros Hin. by apply Hno, Hsub.
  - split_and!.
    + by apply (Forall_elem _ _ q (pools_pages _ _ _ Hpools)).
    + pose proof (pools_nodup _ _ _ Hpools) as Hnd. apply NoDup_app in Hnd as (_ & Hd & [Hq _]%NoDup_cons).
      intros [Hk|Hu]%elem_of_app; [|done]. apply (Hd q Hk). apply elem_of_cons. by left.
    + rewrite k_mem_alloc_post. intros r Hr Hn. by destruct (pt_pages _ _ _ Hpt r q Hr Hn) as [_ []].
Qed.
End Spec.


(** ** A process with one page of memory at 0x1000, and a kernel buffer *)

Lemma demo_up_cons : demo_up = 0x80120000 :: 0x80121000 :: page_list 254 0x80122000.
Proof. by vm_compute. Qed.

Lemma demo_user : exists (s : kstate unit) kp, vm_ok s 0x80020000 kp (page_list 254 0x80122000) /\
  (forall i, 0 <= i < 4096 -> phys (k_mem s) 0x80020000 (0x1000 + i) = Some (0x80120000 + i)) /\
  (forall x, 0x80120000 <= x < 0x80122000 -> plain (k_mem s) 0x80020000 kp (page_list 254 0x80122000) x).
Proof.
  destruct demo_vm as (s0 & Hv0 & _).
  destruct (vm_mappages_ok s0 _ _ _ 0x1000 0x80120000 PGSIZE 0x17 Hv0) as (s1 & kp & _ & Hg & _ & Hm);
    [by apply map_argsb_ok; vm_compute | by vm_compute |].
  pose proof (g_vm _ _ _ _ _ _ Hg) as Hv1. rewrite demo_up_cons in Hv1.
  destruct (take_user s1 _ _ _ _ Hv1) as (s2 & _ & Hv2 & Hm2 & _ & _ & Hq1).
  destruct (take_user s2 _ _ _ _ Hv2) as (s3 & _ & Hv3 & Hm3 & _ & _ & Hq2).
  assert (data_page s3 0x80020000 kp (page_list 254 0x80122000) 0x80120000) as Hq1'.
  { destruct Hq1 as (Hok & Hnin & Hnn). split_and!; [done | | by rewrite Hm3].
    intros Hin. apply Hnin. rewrite !elem_of_app, elem_of_cons in *. tauto. }
  exists s3, kp. split_and!; [done | |].
  - rewrite Hm3, Hm2. intros i Hi. apply phys_add; [lia | change VA_MAX with (2 ^ 38); lia | change (4096 mod PGSIZE) with 0; unfold PGSIZE; lia |].
    unfold phys. rewrite Hm by (by vm_compute). unfold map_range. rewrite decide_True by (by vm_compute). by vm_compute.
  - intros x Hx. destruct (Z.lt_ge_cases x 0x80121000).
    + apply (data_page_plain s3 _ _ _ 0x80120000); [done | done | unfold PGSIZE; lia].
    + apply (data_page_plain s3 _ _ _ 0x80121000); [done | done | unfold PGSIZE; lia].
Qed.

Lemma uvm_copyin_copies_witness : exists (s : kstate unit) m', uvm_copyin 0x80020000 0x80121000 0x1ff8 8 s = Ret tt (set_k_mem m' s) /\
  forall i, 0 <= i < 8 -> load8 m' (0x80121000 + i) = load8 (k_mem s) (0x80120ff8 + i).
Proof.
  destruct demo_user as (s & kp & Hv & Hp & Hpl). exists s.
  destruct (uvm_copyin_copies s _ _ _ 0x80121000 0x1ff8 8 8 Hv) as (m' & Hrun & Hin & _).
  - unfold copy_args. change VA_MAX with (2 ^ 38). lia.
  - split_and!; [lia | lia | | by left]. intros i Hi. replace (0x1ff8 + i) with (0x1000 + (0xff8 + i)) by lia. by rewrite Hp by lia.
  - intros x Hx. apply Hpl. lia.
  - intros i p Hi. replace (0x1ff8 + i) with (0x1000 + (0xff8 + i)) by lia. rewrite Hp by lia. intros [= <-]. lia.
  - exists m'. split; [exact Hrun|]. intros i Hi. specialize (Hin i Hi). unfold uload in Hin.
    replace (0x1ff8 + i) with (0x1000 + (0xff8 + i)) in Hin by lia. rewrite Hp in Hin by lia.
    injection Hin as ->. f_equal. lia.
Defined.

Lemma uvm_copyout_copies_witness : exists (s : kstate unit) m', uvm_copyout 0x80020000 0x1010 0x80121000 8 s = Ret tt (set_k_mem m' s) /\
  forall i, 0 <= i < 8 -> uload m' 0x80020000 (0x1010 + i) = Some (load8 (k_mem s) (0x80121000 + i)).
Proof.
  destruct demo_user as (s & kp & Hv & Hp & Hpl). exists s.
  assert (forall i, 0 <= i < 8 -> phys (k_mem s) 0x80020000 (0x1010 + i) = Some (0x80120010 + i)) as Hq.
  { intros i Hi. replace (0x1010 + i) with (0x1000 + (0x10 + i)) by lia. rewrite Hp by lia. f_equal. lia. }
  destruct (uvm_copyout_copies s _ _ _ 0x1010 0x80121000 8 8 Hv) as (m' & Hrun & Hin & _).
  - unfold copy_args. change VA_MAX with (2 ^ 38). lia.
  - split_and!; [lia | lia | | by left]. intros i Hi. by rewrite Hq.
  - intros i p Hi. rewrite Hq by done. intros [= <-]. split_and!; [lia | apply Hpl; lia | lia].
  - intros i j p Hi Hj. rewrite !Hq by done. intros [= <-] [= ?]. lia.
  - exists m'. split; [exact Hrun | exact Hin].
Defined.

Lemma uvm_copyin_str_copies_witness : exists (s : kstate unit) m', uvm_copyin_str 0x80020000 0x80121000 0x1000 1 s = Ret tt (set_k_mem m' s) /\
  load8 m' 0x80121000 = 0.
Proof.
  destruct demo_user as (s & kp & Hv & Hp & Hpl). exists s.
  destruct (uvm_copyin_str_copies s _ _ _ 0x80121000 0x1000 1 0 Hv) as (m' & Hrun & _ & Hz & _).
  - unfold copy_args. change VA_MAX with (2 ^ 38). lia.
  - lia.
  - intros i Hi. by rewrite Hp by lia.
  - lia.
  - by right.
  - intros x Hx. apply Hpl. lia.
  - intros i p Hi. rewrite Hp by lia. intros [= <-]. lia.
  - exists m'. split; [exact Hrun | exact Hz].
Defined.
