(* ===== verification/UvmHeap.v ===== *)
(** * UvmHeap: growing and shrinking the heap of a process (kernel/mem/uvm.c) *)

From S2P Require Import Prelude Bytes Kstring Spinlock Kernel Pmem Vmem VmemTree VmemSpec Uvm UvmSpec.

Section Spec.
Context {D : Type}.
Implicit Types (s : kstate D) (kp up : list Z).

Definition same_page_bytes s s' (q : Z) : Prop := forall x, q <= x < q + PGSIZE -> load8 (k_mem s') x = load8 (k_mem s) x.

Definition HEAP_PERM : Z := Z.lor (Z.lor PTE_R PTE_W) PTE_U.

(** Clearing a page that nobody uses. *)
Lemma clear_data s root kp up q : vm_ok s root kp up -> data_page s root kp up q ->
  exists s', mem_set q 0 PGSIZE s = Ret tt s' /\ vm_ok s' root kp up /\ same_tree (k_mem s) (k_mem s') root /\ frame_vm s s' /\
    cpu_touch (k_cpu s') = cpu_touch (k_cpu s) /\
    forall x, load8 (k_mem s') x = if decide (q <= x < q + PGSIZE) then 0 else load8 (k_mem s) x.
Proof.
  intros Hv Hd. pose proof Hd as (Hq & _). set (m := memset (k_mem s) q 0 PGSIZE).
  assert (forall x, load8 m x = if decide (q <= x < q + PGSIZE) then 0 else load8 (k_mem s) x) as Hm
    by (intros x; apply load8_memset; done).
  destruct (plain_write s root kp up m Hv) as [Hv' Hst].
  { intros x Hx. rewrite Hm, decide_False; [done|]. intros Hr. by apply Hx, (data_page_plain s root kp up q). }
  exists (set_k_mem m s). rewrite k_mem_set, k_cpu_set. split_and!; [| done | done | apply frame_set_k_mem | done | done].
  unfold mem_set. by rewrite (proj2 (Z.eqb_neq q 0)) by (destruct Hq; lia).
Qed.

Lemma data_page_tree s s' root kp up up' q : same_tree (k_mem s) (k_mem s') root -> (forall x, x ∈ kp ++ up' -> x ∈ kp ++ up) ->
  data_page s root kp up q -> data_page s' root kp up' q.
Proof.
  intros Hst Hsub (Hok & Hnin & Hnn). split_and!; [done | by intros Hin; apply Hnin, Hsub |].
  intros r Hr. rewrite (same_tree_node _ _ _ Hst) by done. by apply Hnn.
Qed.

Lemma data_page_ne s root kp q up r : vm_ok s root kp (q :: up) -> data_page s root kp (q :: up) r -> r <> q.
Proof. intros _ (_ & Hnin & _) ->. apply Hnin. rewrite elem_of_app, elem_of_cons. tauto. Qed.

(** What one new heap page does. *)
Record grown s s' (root : Z) kp kp' up (va q : Z) : Prop := {
  gr_vm : vm_ok s' root kp' up;
  gr_frame : frame_vm s s';
  gr_page : data_page s' root kp' up q;
  gr_data : forall r, data_page s root kp (q :: up) r -> data_page s' root kp' up r /\ same_page_bytes s s' r;
  gr_zero : forall x, q <= x < q + PGSIZE -> load8 (k_mem s') x = 0;
  gr_kp : Z.of_nat (length kp') <= Z.of_nat (length kp) <= Z.of_nat (length kp') + 2;
  gr_map : forall x, 0 <= x < VA_MAX -> pt_map (k_mem s') root x =
    if decide (page_of x = page_of va) then Some (mk_pte q 0x17) else pt_map (k_mem s) root x
}.

Lemma npages_one va : npages va (va + PGSIZE) = 1%nat.
Proof. unfold npages. by replace (va + PGSIZE - va + PGSIZE - 1) with (1 * PGSIZE + (PGSIZE - 1)) by lia. Qed.

Lemma map_cost_page va : va mod PGSIZE = 0 -> map_cost va PGSIZE = 2.
Proof.
  intros Ha. unfold map_cost. rewrite npages_one. unfold more_blocks, block2m. unfold PGSIZE in *.
  replace (va + Z.of_nat 1 * 4096 - 1) with (va + 4095) by lia. divmod va 4096. change (2 ^ 21) with (4096 * 512).
  rewrite <- !Z.div_div by done. replace ((va + 4095) / 4096) with (va / 4096); [lia|]. divmod (va + 4095) 4096. lia.
Qed.

(** A page mapped alone, with the tables that its address lacks. *)
Lemma map_page_exact s root kp up va pa perm : vm_ok s root kp up -> 0 <= va -> va mod PGSIZE = 0 -> va + PGSIZE <= VA_MAX ->
  page_ok pa -> pa < 2 ^ 63 -> 0 <= perm < 1024 -> (missing (k_mem s) root va <= length kp)%nat ->
  exists s' kp', vm_mappages root va pa PGSIZE perm s = Ret tt s' /\ grows s s' root kp kp' up /\
    (length kp' <= length kp <= length kp' + missing (k_mem s) root va)%nat /\
    forall x, 0 <= x < VA_MAX -> pt_map (k_mem s') root x =
      if decide (page_of x = page_of va) then Some (mk_pte pa (Z.lor perm PTE_V)) else pt_map (k_mem s) root x.
Proof.
  intros Hv H0 Ha Hm (Hpa & Hpal & _) Hpm Hperm Hkp. pose proof (map_cost_page va Ha) as Hc. unfold map_cost in Hc.
  assert (npages va (va + PGSIZE) = 1%nat) as Hn1 by apply npages_one. assert (VA_MAX = 2 ^ 38) as HM by done. rewrite Hn1 in Hc.
  destruct (map_loop_ok root up perm (va + PGSIZE) Hperm ltac:(lia) 1 s kp va pa ltac:(done) Hv H0 Ha ltac:(lia) Hpal) as
    (s' & kp' & Hs' & Hg & Hl & _ & Hmap); [unfold PGSIZE in *; lia | lia |]. specialize (Hl ltac:(unfold PGSIZE; lia)).
  destruct (g_used _ _ _ _ _ _ Hg) as [u Hu]. apply (f_equal length) in Hu. rewrite length_app in Hu.
  exists s', kp'. split_and!; [| done | lia | lia |].
  { unfold vm_mappages. rewrite u64_small by (unfold PGSIZE in *; lia). by rewrite Hn1. }
  intros x Hx. rewrite Hmap by done. pose proof (page_of_lt va x Ha) as Hp. rewrite Z.mul_1_l. case_decide as Hd.
  - apply Hp in Hd. rewrite decide_True by done. do 2 f_equal. rewrite <- Hd. unfold page_of, PGSIZE in *. divmod va 4096. lia.
  - rewrite decide_False; [done|]. intros He. apply Hd, Hp. done.
Qed.

Lemma map_one_page s root kp up va pa perm : vm_ok s root kp up -> 0 <= va -> va mod PGSIZE = 0 -> va + PGSIZE <= VA_MAX ->
  page_ok pa -> pa < 2 ^ 63 -> 0 <= perm < 1024 -> 2 <= Z.of_nat (length kp) ->
  exists s' kp', vm_mappages root va pa PGSIZE perm s = Ret tt s' /\ grows s s' root kp kp' up /\
    Z.of_nat (length kp') <= Z.of_nat (length kp) <= Z.of_nat (length kp') + 2 /\
    forall x, 0 <= x < VA_MAX -> pt_map (k_mem s') root x =
      if decide (page_of x = page_of va) then Some (mk_pte pa (Z.lor perm PTE_V)) else pt_map (k_mem s) root x.
Proof.
  intros Hv H0 Ha Hm Hpa Hpm Hperm Hkp. pose proof (missing_le (k_mem s) root va) as Hl.
  destruct (map_page_exact s root kp up va pa perm) as (s' & kp' & H1 & H2 & H3 & H4); try done; [lia|]. exists s', kp'. split_and!; done || lia.
Qed.

Lemma grow_one s root kp q up va : vm_ok s root kp (q :: up) -> 0 <= va -> va mod PGSIZE = 0 -> va + PGSIZE <= VA_MAX ->
  q < 2 ^ 63 -> 2 <= Z.of_nat (length kp) ->
  exists sa sb s' kp', pmem_alloc false s = Ret q sa /\ mem_set q 0 PGSIZE sa = Ret tt sb /\
    vm_mappages root va q PGSIZE HEAP_PERM sb = Ret tt s' /\ grown s s' root kp kp' up va q.
Proof.
  intros Hv H0 Ha Hm Hq Hkp. destruct (take_user s root kp q up Hv) as (sa & Hsa & Hva & Hma & Hfa & _ & Hda).
  destruct (clear_data sa root kp up q Hva Hda) as (sb & Hsb & Hvb & Hst & Hfb & _ & Hmb).
  pose proof Hda as (Hqok & _). destruct (map_one_page sb root kp up va q HEAP_PERM Hvb) as (s' & kp' & Hs' & Hg & Hl & Hmap);
    try done.
  exists sa, sb, s', kp'. split_and!; try done.
  assert (forall x, x ∈ kp ++ up -> x ∈ kp ++ q :: up) as Hsub by (intros x; rewrite !elem_of_app, elem_of_cons; tauto).
  assert (forall r, data_page sa root kp up r -> data_page s' root kp' up r) as Hdata.
  { intros r Hr. apply (data_page_grows sb s' root kp kp' up r Hg). by apply (data_page_tree sa sb root kp up up r Hst). }
  assert (forall r, data_page sa root kp up r -> forall x, r <= x < r + PGSIZE -> load8 (k_mem s') x = load8 (k_mem sb) x) as Hkeep.
  { intros r Hr x Hx. apply (g_mem _ _ _ _ _ _ Hg). apply (data_page_plain s' root kp' up r x); [apply Hg | by apply Hdata | done]. }
  split; try done.
  - apply Hg.
  - etransitivity; [exact Hfa|]. etransitivity; [exact Hfb | apply Hg].
  - by apply Hdata.
  - intros r Hr. assert (data_page sa root kp up r) as Hra.
    { destruct Hr as (Hok & Hnin & Hnn). split_and!; [done | by intros Hin; apply Hnin, Hsub | by rewrite Hma]. }
    split; [by apply Hdata|]. intros x Hx. rewrite (Hkeep r Hra x Hx), Hmb, Hma. rewrite decide_False; [done|].
    pose proof (data_page_ne s root kp q up r Hv Hr) as Hne. destruct Hr as (Hok & _).
    destruct (page_sep r q Hok Hqok Hne); lia.
  - intros x Hx. rewrite (Hkeep q Hda x Hx), Hmb. by rewrite decide_True.
  - intros x Hx. rewrite Hmap by done. rewrite (same_tree_map _ _ _ x Hst), Hma. done.
Qed.

(** ** Giving mapped pages back *)

Definition page_at (v : option Z) : list Z := match v with Some v => [PTE_TO_PA v] | None => [] end.

(** The physical pages mapped at the [n] pages from [va]. *)
Fixpoint range_pages (m : mem) (root va : Z) (n : nat) : list Z :=
  match n with
  | O => []
  | S n' => page_at (pt_map m root va) ++ range_pages m root (va + PGSIZE) n'
  end.

Lemma range_pages_ext m m' root va n :
  (forall i, (i < n)%nat -> pt_map m' root (va + Z.of_nat i * PGSIZE) = pt_map m root (va + Z.of_nat i * PGSIZE)) ->
  range_pages m' root va n = range_pages m root va n.
Proof.
  revert va. induction n as [|n IH]; intros va Hm; [done|]. cbn [range_pages]. f_equal.
  - pose proof (Hm 0%nat ltac:(lia)) as H0. rewrite Z.add_0_r in H0. by rewrite H0.
  - apply IH. intros i Hi. replace (va + PGSIZE + Z.of_nat i * PGSIZE) with (va + Z.of_nat (S i) * PGSIZE) by lia. apply Hm. lia.
Qed.

Lemma release_page s root kp up va a : vm_ok s root kp up -> 0 <= va < VA_MAX -> leaf (k_mem s) root va = Some a ->
  let q := PTE_TO_PA (load64 (k_mem s) a) in data_page s root kp up q -> Z.of_nat (S (length kp + length up)) < 2 ^ 32 ->
  exists s1 s2, pmem_free q false s = Ret tt s1 /\ put64 a 0 s1 = Ret tt s2 /\ vm_ok s2 root kp (q :: up) /\ frame_vm s s2 /\
    (forall r, path_ok r -> node (k_mem s2) root r = node (k_mem s) root r) /\
    (forall x, 0 <= x < VA_MAX -> pt_map (k_mem s2) root x = if decide (page_of x = page_of va) then None else pt_map (k_mem s) root x).
Proof.
  intros Hv Hva Hleaf q Hd Hct. destruct (free_data s root kp up q false kp (q :: up) Hv Hd Hct eq_refl) as (s1 & H1 & Hv1 & Hst & Hf1 & _).
  rewrite <- (same_tree_leaf _ _ _ va Hst) in Hleaf.
  destruct (put_leaf s1 root _ _ va a 0 Hv1 Hleaf) as (s2 & H2 & Hg & Hn & Hm); [lia | done |].
  exists s1, s2. split_and!; [done | done | apply Hg | etransitivity; [exact Hf1 | apply Hg] | |].
  - intros r Hr. rewrite Hn by done. by apply same_tree_node.
  - intros x Hx. rewrite Hm by done. case_decide; [done|]. by apply same_tree_map.
Qed.

(** One turn of the loop, whether the page is mapped or not. *)
Lemma release_one s root kp up va end_ n : vm_ok s root kp up -> 0 <= va < VA_MAX -> va < end_ ->
  let ps := page_at (pt_map (k_mem s) root va) in
  Forall (data_page s root kp up) ps -> Z.of_nat (length ps + length kp + length up) < 2 ^ 32 ->
  exists s', release_loop (S n) root va end_ s = release_loop n root (u64 (va + PGSIZE)) end_ s' /\
    vm_ok s' root kp (rev ps ++ up) /\ frame_vm s s' /\
    (forall r, path_ok r -> node (k_mem s') root r = node (k_mem s) root r) /\
    (forall x, 0 <= x < VA_MAX -> pt_map (k_mem s') root x = if decide (page_of x = page_of va) then None else pt_map (k_mem s) root x).
Proof.
  intros Hv Hva Hlt. cbn [release_loop]. rewrite (proj2 (Z.ltb_lt _ _) Hlt).
  destruct (vm_getpte_lookup s root kp up va Hv) as [Hget _]. specialize (Hget (proj2 Hva)).
  assert (pt_map (k_mem s) root va = None -> forall x, 0 <= x < VA_MAX ->
    pt_map (k_mem s) root x = if decide (page_of x = page_of va) then None else pt_map (k_mem s) root x) as Hsame.
  { intros Hn x Hx. case_decide as Hp; [|done]. by rewrite (pt_map_page _ _ x va). }
  cbv zeta. remember (pt_map (k_mem s) root va) as o eqn:Ho.
  unfold pt_map in Ho. destruct (leaf (k_mem s) root va) as [a|] eqn:Hleaf; cbn [mbind option_bind] in Ho.
  2: { rewrite Ho. cbn [page_at rev app]. intros _ _. exists s. split_and!; [| done | done | done | by apply Hsame].
       mstep ltac:(exact Hget). reflexivity. }
  destruct (pte_valid (load64 (k_mem s) a)) eqn:Hval; rewrite Ho; cbn [page_at rev app].
  - intros [Hd _]%list.Forall_cons Hct. cbn [page_at length] in Hct.
    destruct (release_page s root kp up va a Hv Hva Hleaf Hd) as (s1 & s2 & H1 & H2 & Hv2 & Hf & Hn & Hm); [lia|].
    exists s2. split_and!; try done. mstep ltac:(exact Hget). unfold mem64. mrun. rewrite Hval. mrun.
    mstep ltac:(exact H1). mstep ltac:(exact H2). reflexivity.
  - intros _ _. exists s. split_and!; [| done | done | done |].
    + mstep ltac:(exact Hget). unfold mem64. mrun. rewrite Hval. reflexivity.
    + by apply Hsame.
Qed.

Lemma release_loop_ok root kp end_ : end_ <= VA_MAX -> forall n s up va, n = npages va end_ -> vm_ok s root kp up -> 0 <= va ->
  va mod PGSIZE = 0 -> let ps := range_pages (k_mem s) root va n in
  NoDup ps -> Forall (data_page s root kp up) ps -> Z.of_nat (length ps + length kp + length up) < 2 ^ 32 ->
  exists s', release_loop n root va end_ s = Ret tt s' /\ vm_ok s' root kp (rev ps ++ up) /\ frame_vm s s' /\
    forall x, 0 <= x < VA_MAX -> pt_map (k_mem s') root x =
      if decide (va <= x < va + Z.of_nat n * PGSIZE) then None else pt_map (k_mem s) root x.
Proof.
  intros Hend. induction n as [|n IH]; intros s up va Hn Hv H0 Ha ps Hnd Hd Hct.
  - destruct (Z.ltb_spec va end_) as [Hlt|Hge]; [by rewrite npages_step in Hn|].
    exists s. cbn [release_loop]. rewrite (proj2 (Z.ltb_ge _ _) Hge). split_and!; [done..|]. intros x Hx. by rewrite decide_False by lia.
  - destruct (Z.ltb_spec va end_) as [Hlt|Hge]; [|by rewrite npages_end in Hn].
    pose proof (npages_bound va end_ Hlt) as Hbd. rewrite <- Hn in Hbd. rewrite npages_step in Hn by done. injection Hn as Hn.
    subst ps. cbn [range_pages] in Hnd, Hd, Hct |- *. set (p1 := page_at _) in *. assert (VA_MAX = 2 ^ 38) as HM by done.
    apply Forall_app in Hd as [Hd1 Hd2]. rewrite length_app in Hct. apply NoDup_app in Hnd as (_ & Hdis & Hnd2).
    destruct (release_one s root kp up va end_ n Hv) as (s1 & Hs1 & Hv1 & Hf1 & Hn1 & Hm1); [lia | done | done | fold p1; lia |].
    fold p1 in Hv1. assert (forall x, va + PGSIZE <= x -> page_of x <> page_of va) as Hne.
    { intros x Hx Hp. symmetry in Hp. apply page_of_lt in Hp; [lia | done]. }
    assert (range_pages (k_mem s1) root (va + PGSIZE) n = range_pages (k_mem s) root (va + PGSIZE) n) as Hps.
    { apply range_pages_ext. intros i Hi. rewrite Hm1 by (unfold PGSIZE in *; lia). rewrite decide_False; [done|]. apply Hne. unfold PGSIZE. lia. }
    rewrite Hs1, u64_small by (unfold PGSIZE in *; lia).
    destruct (IH s1 (rev p1 ++ up) (va + PGSIZE) Hn Hv1) as (s2 & Hs2 & Hv2 & Hf2 & Hm2).
    + unfold PGSIZE in *; lia.
    + rewrite <- (Z.mul_1_l PGSIZE) at 1. by rewrite Z.mod_add.
    + by rewrite Hps.
    + rewrite Hps. apply (Forall_impl_elem _ _ _ Hd2). intros q Hq (Hok & Hnin & Hnn). split_and!; [done | |].
      * rewrite elem_of_app in Hnin |- *. rewrite elem_of_app, elem_of_rev. intros [?|[Hin|?]]; [tauto | by apply (Hdis q Hin) | tauto].
      * intros r Hr. rewrite Hn1 by done. by apply Hnn.
    + rewrite Hps, length_app, length_rev. lia.
    + rewrite Hps in Hv2. exists s2. split_and!; [done | | by etransitivity |].
      * by rewrite rev_app_distr, <- app_assoc.
      * intros x Hx. rewrite Hm2 by done. destruct (decide (va + PGSIZE <= x < va + PGSIZE + Z.of_nat n * PGSIZE)) as [Hin|Hout].
        -- rewrite decide_True by (unfold PGSIZE in *; lia). done.
        -- rewrite Hm1 by done. destruct (decide (page_of x = page_of va)) as [Hp|Hp].
           ++ symmetry in Hp. apply page_of_lt in Hp; [|done]. rewrite decide_True by (unfold PGSIZE in *; lia). done.
           ++ rewrite decide_False; [done|]. intros Hr. apply Hp. symmetry. apply page_of_lt; [done|]. unfold PGSIZE in *. lia.
Qed.

(** ** Growing *)

Lemma alloc_empty s root kp : vm_ok s root kp [] -> pmem_alloc false s = Ret 0 (empty_post false s) /\
  vm_ok (empty_post false s) root kp [] /\ frame_vm s (empty_post false s) /\ k_mem (empty_post false s) = k_mem s.
Proof.
  intros [Hpools Hpt]. destruct (pools_alloc_none false s kp [] Hpools eq_refl) as [Ha Hp].
  assert (k_mem (empty_post false s) = k_mem s) as Hm by (by destruct s).
  split_and!; [done | split; [done | by rewrite Hm] | by destruct s | done].
Qed.

(** The pages [qs] as the pages of the heap from [va]. *)
Definition heap_map (f : Z -> option Z) (va : Z) (qs : list Z) (x : Z) : option Z :=
  if decide (va <= x < va + Z.of_nat (length qs) * PGSIZE)
  then (fun q => mk_pte q 0x17) <$> qs !! Z.to_nat ((x - va) / PGSIZE) else f x.

Lemma heap_map_cons f va q qs x : va mod PGSIZE = 0 ->
  heap_map (fun x => if decide (page_of x = page_of va) then Some (mk_pte q 0x17) else f x) (va + PGSIZE) qs x = heap_map f va (q :: qs) x.
Proof.
  intros Ha. unfold heap_map. cbn [length]. pose proof (page_of_lt va x Ha) as Hp.
  destruct (decide (va + PGSIZE <= x < va + PGSIZE + Z.of_nat (length qs) * PGSIZE)) as [Hin|Hout].
  - rewrite decide_True by (unfold PGSIZE in *; lia).
    replace ((x - va) / PGSIZE) with ((x - (va + PGSIZE)) / PGSIZE + 1).
    2: { replace (x - va) with (x - (va + PGSIZE) + 1 * PGSIZE) by lia. by rewrite Z.div_add. }
    assert (0 <= (x - (va + PGSIZE)) / PGSIZE) by (apply Z.div_pos; [lia | done]).
    by rewrite Z.add_1_r, Z2Nat.inj_succ by done.
  - destruct (decide (page_of x = page_of va)) as [He|He].
    + symmetry in He. apply Hp in He. rewrite decide_True by (unfold PGSIZE in *; lia).
      by rewrite (Z.div_small (x - va) PGSIZE) by lia.
    + rewrite decide_False; [done|]. intros Hr. apply He. symmetry. apply Hp. unfold PGSIZE in *. lia.
Qed.

Record heap_grown s s' (root : Z) kp kp' up (va : Z) (k : nat) : Prop := {
  hg_vm : vm_ok s' root kp' (drop k up);
  hg_frame : frame_vm s s';
  hg_kp : (length kp' <= length kp)%nat;
  hg_data : forall r, data_page s root kp up r -> data_page s' root kp' (drop k up) r /\ same_page_bytes s s' r;
  hg_new : forall q, q ∈ take k up -> data_page s' root kp' (drop k up) q /\ forall x, q <= x < q + PGSIZE -> load8 (k_mem s') x = 0;
  hg_map : forall x, 0 <= x < VA_MAX -> pt_map (k_mem s') root x = heap_map (pt_map (k_mem s) root) va (take k up) x
}.

Lemma grow_loop_ok root old top end_ : end_ <= VA_MAX -> forall n s kp up va, n = npages va end_ -> vm_ok s root kp up -> 0 <= va ->
  va mod PGSIZE = 0 -> Forall (fun q => q < 2 ^ 63) up -> 2 * Z.of_nat n <= Z.of_nat (length kp) ->
  exists s' kp', heap_grown s s' root kp kp' up va n /\
    heap_grow_loop n root top old va end_ s =
      if decide (n <= length up)%nat then Ret None s' else
      (release_loop (npages old (va + Z.of_nat (length up) * PGSIZE)) root old (va + Z.of_nat (length up) * PGSIZE);;
       mret (Some top)) (empty_post false s').
Proof.
  intros Hend. induction n as [|n IH]; intros s kp up va Hn Hv H0 Ha Hlow Hkp.
  { destruct (Z.ltb_spec va end_) as [Hlt|Hge]; [by rewrite npages_step in Hn|].
    exists s, kp. cbn [heap_grow_loop]. rewrite (proj2 (Z.ltb_ge _ _) Hge), decide_True by lia. split; [|done].
    split; rewrite ?take_0, ?drop_0; try done; [intros q Hq; by apply elem_of_nil in Hq|].
    intros x Hx. unfold heap_map. cbn [length]. by rewrite decide_False by lia. }
  destruct (Z.ltb_spec va end_) as [Hlt|Hge]; [|by rewrite npages_end in Hn].
  pose proof (npages_bound va end_ Hlt) as Hbd. rewrite <- Hn in Hbd. rewrite npages_step in Hn by done. injection Hn as Hn.
  cbn [heap_grow_loop]. rewrite (proj2 (Z.ltb_lt _ _) Hlt). destruct up as [|q up].
  { destruct (alloc_empty s root kp Hv) as (Hal & _). exists s, kp. cbn [length]. rewrite decide_False, Z.mul_0_l, Z.add_0_r by lia. split.
    - split; rewrite ?take_nil, ?drop_nil; try done; [intros q Hq; by apply elem_of_nil in Hq|].
      intros x Hx. unfold heap_map. cbn [length]. by rewrite decide_False by lia.
    - mstep ltac:(exact Hal). reflexivity. }
  apply list.Forall_cons in Hlow as [Hq Hlow]. assert (VA_MAX = 2 ^ 38) as HM by done.
  assert (va + PGSIZE <= VA_MAX) as Hpg.
  { change VA_MAX with (67108864 * 4096) in *. unfold PGSIZE in *. divmod va 4096. lia. }
  destruct (grow_one s root kp q up va Hv H0 Ha Hpg Hq) as (sa & sb & s1 & kp1 & H1 & H2 & H3 & [Hv1 Hf1 Hd1 Hold Hz1 Hk1 Hm1]); [lia|].
  assert ((va + PGSIZE) mod PGSIZE = 0) as Ha' by (rewrite <- (Z.mul_1_l PGSIZE) at 1; by rewrite Z.mod_add).
  destruct (IH s1 kp1 up (va + PGSIZE) Hn Hv1) as (s2 & kp2 & [Hv2 Hf2 Hk2 Hold2 Hnew2 Hm2] & Hrun); [unfold PGSIZE in *; lia | done | done | lia |].
  exists s2, kp2. split.
  - split; cbn [take drop].
    + done.
    + by etransitivity.
    + lia.
    + intros r Hr. destruct (Hold r Hr) as [Hr1 Hb1]. destruct (Hold2 r Hr1) as [Hr2 Hb2]. split; [done|].
      intros x Hx. by rewrite Hb2, Hb1.
    + intros p [->|Hp]%elem_of_cons; [|by apply Hnew2]. destruct (Hold2 q Hd1) as [Hq2 Hb2]. split; [done|].
      intros x Hx. rewrite Hb2 by done. by apply Hz1.
    + intros x Hx. rewrite Hm2, <- heap_map_cons by done. unfold heap_map.
      destruct (decide (va + PGSIZE <= x < _)); [reflexivity | by rewrite Hm1].
  - mstep ltac:(exact H1). rewrite (proj2 (Z.eqb_neq q 0)) by (destruct Hd1 as [[? _] _]; lia).
    mstep ltac:(exact H2). mstep ltac:(exact H3). rewrite u64_small by (unfold PGSIZE in *; lia). rewrite Hrun. cbn [length].
    replace (va + PGSIZE + Z.of_nat (length up) * PGSIZE) with (va + Z.of_nat (S (length up)) * PGSIZE) by lia.
    destruct (decide (n <= length up)%nat); [by rewrite decide_True by lia | by rewrite decide_False by lia].
Qed.

Lemma heap_map_lookup f va qs i q : qs !! i = Some q -> heap_map f va qs (va + Z.of_nat i * PGSIZE) = Some (mk_pte q 0x17).
Proof.
  intros Hi. pose proof (lookup_lt_Some _ _ _ Hi). unfold heap_map. rewrite decide_True by (unfold PGSIZE; lia).
  replace (va + Z.of_nat i * PGSIZE - va) with (Z.of_nat i * PGSIZE) by lia. rewrite Z.div_mul by done. by rewrite Nat2Z.id, Hi.
Qed.

Lemma range_pages_heap m root va qs : Forall page_ok qs ->
  (forall i q, qs !! i = Some q -> pt_map m root (va + Z.of_nat i * PGSIZE) = Some (mk_pte q 0x17)) ->
  range_pages m root va (length qs) = qs.
Proof.
  revert va. induction qs as [|q qs IH]; intros va Hok Hm; [done|]. apply list.Forall_cons in Hok as [(Hq & Hqa & Hq64) Hok].
  cbn [length range_pages]. pose proof (Hm 0%nat q eq_refl) as H0. rewrite Z.add_0_r in H0. rewrite H0. cbn [page_at app]. f_equal.
  - apply PTE_TO_PA_mk; unfold PGSIZE in *; [lia | done | lia].
  - apply IH; [done|]. intros i p Hi. replace (va + PGSIZE + Z.of_nat i * PGSIZE) with (va + Z.of_nat (S i) * PGSIZE) by lia. by apply Hm.
Qed.

Lemma page_up_eq a : 0 <= a -> a + PGSIZE < 2 ^ 64 -> page_up a = (a + PGSIZE - 1) / PGSIZE * PGSIZE /\ a <= page_up a < a + PGSIZE /\
  page_up a mod PGSIZE = 0.
Proof.
  intros H0 H1. unfold page_up, PGSIZE in *. rewrite u64_small by lia.
  assert (Z.land (a + 4096 - 1) (u64 (Z.lnot (4096 - 1))) = (a + 4096 - 1) / 4096 * 4096) as ->.
  { change (u64 (Z.lnot (4096 - 1))) with (2 ^ 64 - 2 ^ 12). set (b := a + 4096 - 1). assert (0 <= b < 2 ^ 64) as Hb by lia. clearbody b.
    apply Z.bits_inj'. intros i Hi. rewrite Z.land_spec. change 4096 with (2 ^ 12). rewrite <- Z.shiftl_mul_pow2, <- Z.shiftr_div_pow2 by lia.
    rewrite Z.shiftl_spec by done. assert (Z.testbit (2 ^ 64 - 2 ^ 12) i = (12 <=? i) && (i <? 64)) as ->.
    { change (2 ^ 64 - 2 ^ 12) with (Z.shiftl (Z.ones 52) 12). rewrite Z.shiftl_spec by done. destruct (Z.leb_spec 12 i); simpl.
      - rewrite Z.testbit_ones by lia. destruct (Z.ltb_spec (i - 12) 52), (Z.ltb_spec i 64), (Z.leb_spec 0 (i - 12)); (done || lia).
      - by rewrite Z.testbit_neg_r by lia. }
    destruct (Z.leb_spec 12 i) as [Hle|Hlt]; simpl.
    - rewrite Z.shiftr_spec by lia. replace (i - 12 + 12) with i by lia. destruct (Z.ltb_spec i 64); [by rewrite andb_true_r|].
      rewrite andb_false_r. symmetry. destruct (decide (b = 0)) as [->|]; [by rewrite Z.testbit_0_l|].
      apply Z.bits_above_log2; [lia|]. apply Z.log2_lt_pow2; [lia|]. eapply Z.lt_le_trans; [apply Hb|]. apply Z.pow_le_mono_r; lia.
    - rewrite andb_false_r. by rewrite Z.testbit_neg_r by lia. }
  split; [done|]. rewrite Z.mod_mul by done. divmod (a + 4096 - 1) 4096. lia.
Qed.

(** Where the loop stops when the user pages run out. *)
Lemma npages_partial va k : (0 < k)%nat -> npages va (va + Z.of_nat k * PGSIZE) = k.
Proof.
  intros Hk. unfold npages. replace (va + Z.of_nat k * PGSIZE - va + PGSIZE - 1) with (Z.of_nat k * PGSIZE + (PGSIZE - 1)) by lia.
  rewrite Z.div_add_l by done. change ((PGSIZE - 1) / PGSIZE) with 0. rewrite Z.add_0_r. apply Nat2Z.id.
Qed.

(** The rollback: the pages taken so far are given back. *)
Lemma rollback_ok s s1 root kp kp1 up va n : 0 <= va -> va mod PGSIZE = 0 -> va + Z.of_nat (length up) * PGSIZE <= VA_MAX ->
  (length up <= n)%nat -> Z.of_nat (length up + length kp1) < 2 ^ 32 ->
  NoDup up -> heap_grown s s1 root kp kp1 up va n ->
  (forall i, (i < length up)%nat -> pt_map (k_mem s) root (va + Z.of_nat i * PGSIZE) = None) ->
  exists s2, release_loop (npages va (va + Z.of_nat (length up) * PGSIZE)) root va (va + Z.of_nat (length up) * PGSIZE) (empty_post false s1) = Ret tt s2 /\
    vm_ok s2 root kp1 (rev up) /\ frame_vm s s2 /\
    forall x, 0 <= x < VA_MAX -> pt_map (k_mem s2) root x = pt_map (k_mem s) root x.
Proof.
  intros H0 Ha Hmax Hn Hct Hnd [Hv Hf _ _ Hnew Hm] Hnone. rewrite take_ge in Hnew, Hm by done. rewrite drop_ge in Hv, Hnew by done.
  destruct (alloc_empty s1 root kp1 Hv) as (_ & Hv' & Hf' & Hmm).
  assert (0 <= Z.of_nat (length up) * PGSIZE) as Hlen by (unfold PGSIZE; lia).
  assert (npages va (va + Z.of_nat (length up) * PGSIZE) = length up) as Hnp.
  { destruct up as [|q up]; [|apply npages_partial; simpl; lia]. rewrite npages_end; [done | simpl; lia]. }
  rewrite Hnp. assert (range_pages (k_mem (empty_post false s1)) root va (length up) = up) as Hps.
  { rewrite Hmm. apply range_pages_heap; [apply Forall_of_elem; intros q Hq; by apply (Hnew q Hq)|].
    intros i q Hi. pose proof (lookup_lt_Some _ _ _ Hi) as Hlt. rewrite Hm by (unfold PGSIZE in *; lia). by apply heap_map_lookup. }
  destruct (release_loop_ok root kp1 (va + Z.of_nat (length up) * PGSIZE) Hmax (length up) (empty_post false s1) [] va)
    as (s2 & Hs2 & Hv2 & Hf2 & Hm2); rewrite ?Hps; try done.
  { apply Forall_of_elem. intros q Hq. destruct (Hnew q Hq) as [(Hok & Hnin & Hnn) _]. split_and!; [done | done | by rewrite Hmm]. }
  { simpl. lia. }
  rewrite Hps, app_nil_r in Hv2. exists s2. split_and!; [done | done | etransitivity; [exact Hf|]; etransitivity; [exact Hf' | exact Hf2] |].
  intros x Hx. rewrite Hm2, Hmm, Hm by done. unfold heap_map. case_decide as Hin; [|done]. symmetry.
  set (i := (x - va) / PGSIZE). assert (0 <= i < Z.of_nat (length up) /\ va + i * PGSIZE <= x < va + i * PGSIZE + PGSIZE) as [Hi Hxi].
  { subst i. unfold PGSIZE in *. divmod (x - va) 4096. lia. }
  rewrite (pt_map_page _ _ x (va + Z.of_nat (Z.to_nat i) * PGSIZE)); [apply Hnone; lia | done | |]; rewrite Z2Nat.id by lia.
  - unfold PGSIZE in *. lia.
  - symmetry. apply page_of_lt; [by rewrite Z.mod_add | done].
Qed.

(** The pages that [uvm_heap_grow] needs. *)
Definition heap_pages (heap_top len : Z) : nat := npages (page_up heap_top) (page_up (heap_top + len)).

(** [uvm_heap_grow]: with enough free pages the new part of the heap is mapped
    readable and writable for the user and reads as zeros, and nothing else of the
    address space changes; when the user pages run out, the pages already taken
    are given back, the old top is returned and the address space is as before. *)
Theorem uvm_heap_grow_grows s root kp up heap_top len : vm_ok s root kp up -> 0 <= heap_top -> 0 <= len ->
  page_up (heap_top + len) <= VA_MAX -> Forall (fun q => q < 2 ^ 63) up ->
  heap_top + len + PGSIZE < 2 ^ 64 -> 2 * Z.of_nat (heap_pages heap_top len) <= Z.of_nat (length kp) ->
  ((heap_pages heap_top len <= length up)%nat ->
     exists s' kp', uvm_heap_grow root heap_top len s = Ret (heap_top + len) s' /\ frame_vm s s' /\
       vm_ok s' root kp' (drop (heap_pages heap_top len) up) /\
       (forall x, page_up heap_top <= x < page_up (heap_top + len) -> uload (k_mem s') root x = Some 0 /\
          exists v, pt_map (k_mem s') root x = Some v /\ PTE_FLAGS v = Z.lor HEAP_PERM PTE_V) /\
       (forall x, 0 <= x < VA_MAX -> ~ (page_up heap_top <= x < page_up (heap_top + len)) ->
          pt_map (k_mem s') root x = pt_map (k_mem s) root x))
  /\ ((length up < heap_pages heap_top len)%nat ->
     (forall x, page_up heap_top <= x < page_up (heap_top + len) -> pt_map (k_mem s) root x = None) ->
     exists s' kp', uvm_heap_grow root heap_top len s = Ret heap_top s' /\ frame_vm s s' /\ vm_ok s' root kp' (rev up) /\
       (forall x, 0 <= x < VA_MAX -> pt_map (k_mem s') root x = pt_map (k_mem s) root x)).
Proof.
  intros Hv Ht Hl Hmax Hlow H64 Hkp. destruct (page_up_eq heap_top ltac:(lia) ltac:(lia)) as (_ & Hb1 & Ha1).
  destruct (page_up_eq (heap_top + len) ltac:(lia) H64) as (_ & Hb2 & Ha2).
  set (va := page_up heap_top) in *. set (end_ := page_up (heap_top + len)) in *. set (n := heap_pages heap_top len) in *.
  assert (n = npages va end_) as Hn by done. assert (u64 (heap_top + len) = heap_top + len) as Hu by (apply u64_small; unfold PGSIZE in *; lia).
  assert (va <= end_ /\ end_ = va + Z.of_nat n * PGSIZE) as [Hle Hend].
  { destruct (Z.lt_ge_cases va end_) as [Hlt|Hge].
    - pose proof (npages_bound va end_ Hlt). rewrite <- Hn in *. unfold PGSIZE in *. divmod va 4096. divmod end_ 4096. lia.
    - rewrite Hn, npages_end by done. unfold PGSIZE in *. divmod va 4096. divmod end_ 4096. lia. }
  destruct (grow_loop_ok root va heap_top end_ Hmax n s kp up va Hn Hv ltac:(lia) Ha1 Hlow Hkp) as (s1 & kp1 & Hg & Hrun).
  unfold uvm_heap_grow. rewrite Hu. fold va end_ n. rewrite <- Hn. clearbody va end_ n. split; intros Hup.
  - rewrite decide_True in Hrun by done. destruct Hg as [Hv1 Hf1 _ _ Hnew Hm]. exists s1, kp1. split_and!; [| done | done | |].
    + mstep ltac:(exact Hrun). reflexivity.
    + intros x Hx. assert (length (take n up) = n) as Hlt by (rewrite length_take; lia).
      assert (0 <= (x - va) / PGSIZE < Z.of_nat n) as Hi by (unfold PGSIZE in *; divmod (x - va) 4096; lia).
      destruct (lookup_lt_is_Some_2 (take n up) (Z.to_nat ((x - va) / PGSIZE))) as [q Hq]; [lia|].
      assert (pt_map (k_mem s1) root x = Some (mk_pte q 0x17)) as Hpt.
      { rewrite Hm by lia. unfold heap_map. rewrite Hlt, decide_True, Hq by lia. done. }
      destruct (Hnew q (list_elem_of_lookup_2 _ _ _ Hq)) as [[(Hq0 & Hqa & Hq64) _] Hz].
      unfold uload, phys. rewrite Hpt. cbn [mbind option_bind fmap option_fmap option_map]. split.
      * f_equal. apply Hz. rewrite PTE_TO_PA_mk by (try done; unfold PGSIZE in *; lia).
        unfold PGSIZE. pose proof (Z.mod_pos_bound x 4096 ltac:(done)). lia.
      * eexists. split; [done|]. apply PTE_FLAGS_mk; (done || unfold PGSIZE in *; lia).
    + intros x Hx Hout. rewrite Hm by done. unfold heap_map. rewrite length_take, decide_False; [done|]. unfold PGSIZE in *; lia.
  - intros Hnone. rewrite decide_False in Hrun by lia. pose proof (vm_pools _ _ _ _ Hv) as Hp.
    assert (Z.of_nat (length up + length kp1) < 2 ^ 32) as Hct.
    { pose proof (hg_kp _ _ _ _ _ _ _ _ Hg). pose proof (pools_count _ _ _ Hp). lia. }
    destruct (rollback_ok s s1 root kp kp1 up va n) as (s2 & Hs2 & Hv2 & Hf2 & Hm2); try done; try lia.
    + unfold PGSIZE in *; lia.
    + pose proof (pools_nodup _ _ _ Hp) as Hnd. by apply NoDup_app in Hnd as (_ & _ & Hnd).
    + intros i Hi. apply Hnone. unfold PGSIZE in *. lia.
    + exists s2, kp1. split_and!; [| done | done | done]. rewrite (bind_ret_eq _ _ _ tt s2 Hs2) in Hrun. mstep ltac:(exact Hrun). reflexivity.
Qed.

(** [uvm_heap_ungrow] lowers the top by [len], to 0 at least; the whole pages
    beyond the new top are unmapped and given back to the user region, each once,
    and every other mapping stays; pages of the range that are not mapped are
    skipped. *)
Theorem uvm_heap_ungrow_shrinks s root kp up heap_top len : vm_ok s root kp up -> 0 <= heap_top -> 0 <= len < 2 ^ 32 ->
  heap_top <= VA_MAX - PGSIZE ->
  let new := if decide (len <= heap_top) then heap_top - len else 0 in
  let ps := range_pages (k_mem s) root (page_up new) (npages (page_up new) (page_up heap_top)) in
  NoDup ps -> Forall (data_page s root kp up) ps -> Z.of_nat (length ps + length kp + length up) < 2 ^ 32 ->
  exists s', uvm_heap_ungrow root heap_top len s = Ret new s' /\ vm_ok s' root kp (rev ps ++ up) /\ frame_vm s s' /\
    forall x, 0 <= x < VA_MAX -> pt_map (k_mem s') root x =
      if decide (page_up new <= x < page_up heap_top) then None else pt_map (k_mem s) root x.
Proof.
  intros Hv Ht Hl Hmax new ps Hnd Hd Hct. assert (VA_MAX = 2 ^ 38) as HM by done.
  assert ((if heap_top <? u64 (heap_top - len) then 0 else u64 (heap_top - len)) = new) as Hnew.
  { unfold new. case_decide.
    - rewrite u64_small by (unfold PGSIZE in *; lia). by rewrite (proj2 (Z.ltb_ge _ _)) by lia.
    - unfold u64. rewrite <- (Z.mod_add _ 1), Z.mod_small by (unfold PGSIZE in *; lia).
      by rewrite (proj2 (Z.ltb_lt _ _)) by (unfold PGSIZE in *; lia). }
  assert (0 <= new <= heap_top) as Hb by (unfold new; case_decide; lia).
  destruct (page_up_eq new ltac:(lia) ltac:(unfold PGSIZE in *; lia)) as (_ & Hb1 & Ha1).
  destruct (page_up_eq heap_top ltac:(lia) ltac:(unfold PGSIZE in *; lia)) as (_ & Hb2 & Ha2).
  unfold uvm_heap_ungrow. rewrite Hnew.
  destruct (release_loop_ok root kp (page_up heap_top) ltac:(lia) _ s up (page_up new) eq_refl Hv ltac:(lia) Ha1 Hnd Hd Hct)
    as (s' & Hs' & Hv' & Hf' & Hm').
  exists s'. split_and!; [| done | done |].
  - mstep ltac:(exact Hs'). reflexivity.
  - intros x Hx. rewrite Hm' by done. set (a := page_up new) in *. set (b := page_up heap_top) in *.
    assert (a < b -> b = a + Z.of_nat (npages a b) * PGSIZE) as Heq.
    { intros Hlt. pose proof (npages_bound a b Hlt). unfold PGSIZE in *. divmod a 4096. divmod b 4096. lia. }
    destruct (Z.lt_ge_cases a b) as [Hlt|Hge]; [by rewrite <- Heq|]. rewrite npages_end by done.
    rewrite !decide_False by lia. done.
Qed.
End Spec.

(** ** Witnesses: from the empty address space of the demonstration *)

Lemma demo_low : Forall (fun q => q < 2 ^ 63) demo_up.
Proof. apply (bool_decide_unpack _). by vm_compute. Qed.

Lemma uvm_heap_grow_grows_witness : exists s s' : kstate unit,
  uvm_heap_grow 0x80020000 0x1800 0x1000 s = Ret 0x2800 s' /\ uload (k_mem s') 0x80020000 0x2123 = Some 0 /\
  pt_map (k_mem s') 0x80020000 0x3000 = pt_map (k_mem s) 0x80020000 0x3000.
Proof.
  destruct demo_vm as (s & Hv & Hn). exists s.
  destruct (uvm_heap_grow_grows s _ _ _ 0x1800 0x1000 Hv) as [Hok _];
    [by vm_compute | by vm_compute | by vm_compute | exact demo_low | by vm_compute | by vm_compute |].
  destruct Hok as (s' & kp' & Hs' & _ & _ & Hz & Hsame); [by apply (bool_decide_unpack _); vm_compute|].
  change (0x1800 + 0x1000) with 0x2800 in Hs', Hz, Hsame. change (page_up 0x1800) with 0x2000 in Hz, Hsame.
  change (page_up 0x2800) with 0x3000 in Hz, Hsame. exists s'.
  split; [exact Hs'|]. split; [apply Hz; lia | apply Hsame; [by vm_compute | lia]].
Defined.

(** A heap of one page at 0x1000. *)
Lemma demo_heap : exists (s : kstate unit) kp, vm_ok s 0x80020000 kp (page_list 255 0x80121000) /\ (length kp <= 255)%nat /\
  data_page s 0x80020000 kp (page_list 255 0x80121000) 0x80120000 /\ pt_map (k_mem s) 0x80020000 0x1000 = Some (mk_pte 0x80120000 0x17).
Proof.
  destruct demo_vm as (s & Hv & _). assert (demo_up = 0x80120000 :: page_list 255 0x80121000) as Hup by (by vm_compute).
  rewrite Hup in Hv. destruct (grow_one s _ _ _ _ 0x1000 Hv) as (sa & sb & s' & kp' & _ & _ & _ & [Hv' _ Hd _ _ Hl Hm]);
    [by vm_compute.. |]. rewrite length_page_list in Hl.
  exists s', kp'. split; [exact Hv'|]. split; [lia|]. split; [exact Hd|].
  assert (0 <= 0x1000 < VA_MAX) as Hx by (split; [lia | by vm_compute]).
  clear - Hm Hx. rewrite (Hm 0x1000 Hx). by rewrite decide_True by reflexivity.
Qed.

Lemma uvm_heap_ungrow_shrinks_witness : exists s s' : kstate unit,
  pt_map (k_mem s) 0x80020000 0x1000 <> None /\ uvm_heap_ungrow 0x80020000 0x2000 0x1800 s = Ret 0x800 s' /\
  pt_map (k_mem s') 0x80020000 0x1000 = None.
Proof.
  destruct demo_heap as (s & kp & Hv & Hl & Hd & Hm). exists s.
  assert (range_pages (k_mem s) 0x80020000 (page_up 0x800) (npages (page_up 0x800) (page_up 0x2000)) = [0x80120000]) as Hps.
  { change (page_up 0x800) with 0x1000. change (npages 0x1000 (page_up 0x2000)) with 1%nat. cbn [range_pages]. by rewrite Hm. }
  destruct (uvm_heap_ungrow_shrinks s _ _ _ 0x2000 0x1800 Hv) as (s' & Hs' & _ & _ & Hm');
    [by vm_compute | by vm_compute | by vm_compute | | | |].
  - change (if decide (0x1800 <= 0x2000) then 0x2000 - 0x1800 else 0) with 0x800. rewrite Hps. by apply (bool_decide_unpack _); vm_compute.
  - change (if decide (0x1800 <= 0x2000) then 0x2000 - 0x1800 else 0) with 0x800. rewrite Hps. by apply list.Forall_singleton.
  - change (if decide (0x1800 <= 0x2000) then 0x2000 - 0x1800 else 0) with 0x800. rewrite Hps, length_page_list. cbn [length]. lia.
  - exists s'. split_and!; [by rewrite Hm | exact Hs' |]. rewrite Hm' by (by vm_compute). by rewrite decide_True by (by vm_compute).
Defined.




