(* ===== verification/UvmDestroy.v ===== *)
(** * UvmDestroy: tearing an address space down (kernel/mem/uvm.c, destroy_pgtbl) *)

From S2P Require Import Prelude Bytes Kstring Spinlock Kernel Pmem Vmem VmemTree VmemSpec Uvm UvmSpec.

(** The pages that hang below the table [p], in the order in which they are
    freed; [None] when the tree is deeper than [fuel]. *)
Fixpoint tree_pages (fuel : nat) (m : mem) (p : Z) : option (list Z) :=
  match fuel with
  | O => None
  | S fuel' =>
      ls ← mapM (fun i =>
        let v := load64 m (p + 8 * i) in
        if pte_valid v && PTE_CHECK v then tree_pages fuel' m (PTE_TO_PA v)
        else Some (if pte_valid v then [PTE_TO_PA v] else [])) (seqZ 0 512);
      Some (concat ls ++ [p])
  end.

(** Memory that differs at most in the pages [ps]. *)
Definition same_off (m m' : mem) (ps : list Z) : Prop :=
  forall x, (forall q, q ∈ ps -> ~ (q <= x < q + PGSIZE)) -> load8 m' x = load8 m x.

Lemma same_off_trans m m1 m2 ps qs : same_off m m1 ps -> same_off m1 m2 qs -> same_off m m2 (ps ++ qs).
Proof.
  intros H1 H2 x Hx. rewrite H2, H1; [done | |]; intros q Hq; apply Hx; apply elem_of_app; tauto.
Qed.

(** A page apart from [ps] keeps its contents. *)
Lemma same_off_page m m' ps p a : same_off m m' ps -> page_ok p -> Forall page_ok ps -> p ∉ ps -> p <= a -> a + 8 <= p + PGSIZE ->
  load64 m' a = load64 m a.
Proof.
  intros Hs Hp Hps Hn Ha Ha'. apply load64_ext. intros x Hx. apply Hs. intros q Hq Hr.
  assert (p <> q) as Hne by (by intros ->). destruct (page_sep p q Hp (Forall_elem _ _ _ Hps Hq) Hne); lia.
Qed.

Lemma load8_page_off m m' ps qs x q : same_off m m' ps -> Forall page_ok (ps ++ qs) -> NoDup (ps ++ qs) -> q ∈ qs -> q <= x < q + PGSIZE ->
  load8 m' x = load8 m x.
Proof.
  intros Hs [Hps Hqs]%Forall_app Hnd Hq Hx. apply Hs. intros p Hp Hr. apply NoDup_app in Hnd as (_ & Hd & _).
  assert (p <> q) as Hne by (intros ->; by apply (Hd q)).
  destruct (page_sep p q (Forall_elem _ _ _ Hps Hp) (Forall_elem _ _ _ Hqs Hq) Hne); lia.
Qed.

(** ** The pages of an address space *)

(** Paths of entry numbers from the root, down to the mapped pages. *)
Definition full_path (r : list Z) : Prop := (length r <= 3)%nat /\ Forall (fun i => 0 <= i < 512) r.

(** The path of [va]. *)
Definition vpns (va : Z) : list Z := [VA_TO_VPN va 2; VA_TO_VPN va 1; VA_TO_VPN va 0].

Lemma vpns_path r va : path_ok r -> r <> vpns va.
Proof. intros [Hl _] ->. cbn in Hl. lia. Qed.

#[export] Instance page_ok_dec p : Decision (page_ok p).
Proof. unfold page_ok. apply _. Defined.

(** The special pages, which the address space does not own. *)
Definition borrowed (r : list Z) : Prop := r = vpns TRAMPOLINE \/ r = vpns TRAPFRAME.

#[export] Instance borrowed_dec r : Decision (borrowed r).
Proof. unfold borrowed. apply _. Defined.

(** A tree of three levels: the entries of the first two are pointers to tables,
    those of the last have permissions.  The tables and pages that the paths in
    [own] lead to are different pages outside [avoid]. *)
Record space_ok (own : list Z -> Prop) (m : mem) (root : Z) (avoid : list Z) : Prop := {
  so_kind : forall r t i, full_path (r ++ [i]) -> node m root r = Some t -> pte_valid (load64 m (t + 8 * i)) = true ->
    PTE_CHECK (load64 m (t + 8 * i)) = bool_decide (length r < 2)%nat;
  so_page : forall r q, full_path r -> own r -> node m root r = Some q -> page_ok q /\ q < 2 ^ 44 /\ q ∉ avoid;
  so_inj : forall r r' q, full_path r -> own r -> full_path r' -> own r' -> node m root r = Some q -> node m root r' = Some q -> r = r'
}.

Lemma full_path_app r r' : full_path (r ++ r') -> full_path r.
Proof. intros [Hl [Hr _]%Forall_app]. rewrite length_app in Hl. split; [lia | done]. Qed.

Lemma full_path_snoc r i : full_path (r ++ [i]) <-> path_ok r /\ 0 <= i < 512.
Proof.
  unfold full_path, path_ok. rewrite length_app, Forall_app, list.Forall_singleton. simpl. split; intros; split_and!; tauto || lia.
Qed.

Lemma path_full r : path_ok r -> full_path r.
Proof. intros [Hl Hr]. split; [lia | done]. Qed.

Lemma node_app m root p r : node m root (p ++ r) = t ← node m root p; node m t r.
Proof. revert root. induction p as [|i p IH]; intros root; [done|]. cbn [node app]. destruct (pte_valid _); [apply IH | done]. Qed.

(** Lists that a computation makes for every element, and their concatenation. *)
Lemma mapM_all {A B} (f : A -> option B) (P : A -> B -> Prop) l : (forall i, i ∈ l -> exists y, f i = Some y /\ P i y) ->
  exists ys, mapM f l = Some ys /\ Forall2 P l ys.
Proof.
  induction l as [|i l IH]; intros H; [by exists []|]. destruct (H i) as (y & Hy & HP); [apply elem_of_cons; by left|].
  destruct IH as (ys & Hys & HPs); [intros j Hj; apply H, elem_of_cons; by right|].
  exists (y :: ys). split; [cbn [mapM]; rewrite Hy; cbn [mbind option_bind]; by rewrite Hys | by constructor].
Qed.

Lemma concat_elem {A B} (P : A -> list B -> Prop) (Q : A -> B -> Prop) l ls : Forall2 P l ls -> (forall i y q, P i y -> q ∈ y <-> Q i q) ->
  forall q, q ∈ concat ls <-> exists i, i ∈ l /\ Q i q.
Proof.
  intros H HQ q. induction H as [|i y l ls Hi _ IH]; cbn [concat].
  - split; [by intros ?%elem_of_nil | by intros (i & ?%elem_of_nil & _)].
  - rewrite elem_of_app, IH, (HQ i y q Hi). setoid_rewrite elem_of_cons. split.
    + intros [?|(j & ? & ?)]; [exists i | exists j]; tauto.
    + intros (j & [->|?] & ?); [by left | right; by exists j].
Qed.

Lemma concat_nodup {A B} (P : A -> list B -> Prop) (Q : A -> B -> Prop) l ls : Forall2 P l ls -> (forall i y q, P i y -> q ∈ y <-> Q i q) ->
  (forall i y, P i y -> NoDup y) -> NoDup l -> (forall i j q, i ∈ l -> j ∈ l -> Q i q -> Q j q -> i = j) -> NoDup (concat ls).
Proof.
  intros H HQ HN Hnd Hd. induction H as [|i y l ls Hi Hls IH]; cbn [concat]; [constructor|].
  apply NoDup_cons in Hnd as [Hni Hnd]. apply NoDup_app. split_and!; [by apply (HN i) | |].
  - intros q Hq Hc. apply (concat_elem P Q l ls Hls HQ) in Hc as (j & Hj & HQj). apply Hni.
    rewrite (Hd i j q); [done | apply elem_of_cons; by left | apply elem_of_cons; by right | by apply (HQ i y) | done].
  - apply IH; [done|]. intros j k q Hj Hk. apply Hd; apply elem_of_cons; by right.
Qed.

(** [destroy_pgtbl] needs as much fuel as there are levels of tables, and the pages
    below a table are the ends of the paths through it. *)
Section Tree.
Variables (m : mem) (root : Z) (avoid : list Z).
Hypothesis Hok : space_ok (fun _ => True) m root avoid.

Definition below (r : list Z) (q : Z) : Prop := exists r', full_path (r ++ r') /\ node m root (r ++ r') = Some q.

Lemma below_entry r t q : path_ok r -> node m root r = Some t ->
  (below r q <-> q = t \/ exists i, i ∈ seqZ 0 512 /\ below (r ++ [i]) q).
Proof.
  intros Hr Ht. split.
  - intros ([|i r'] & Hp & Hn); [left; rewrite app_nil_r in Hn; congruence|]. right. exists i. rewrite cons_middle, app_assoc in Hp, Hn.
    split; [|by exists r']. apply full_path_app, full_path_snoc in Hp as [_ Hi]. apply elem_of_seqZ. lia.
  - intros [->|(i & _ & r' & Hp & Hn)].
    + exists []. rewrite app_nil_r. split; [by apply path_full | done].
    + exists (i :: r'). by rewrite cons_middle, app_assoc.
Qed.

(** What entry [i] of the table [t] contributes. *)
Lemma entry_pages fuel r t i : path_ok r -> node m root r = Some t -> 0 <= i < 512 ->
  ((length r < 2)%nat -> forall t', node m root (r ++ [i]) = Some t' -> exists ps, tree_pages fuel m t' = Some ps /\
     NoDup ps /\ forall q, q ∈ ps <-> below (r ++ [i]) q) ->
  exists qs, (let v := load64 m (t + 8 * i) in
      if pte_valid v && PTE_CHECK v then tree_pages fuel m (PTE_TO_PA v) else Some (if pte_valid v then [PTE_TO_PA v] else [])) = Some qs /\
    NoDup qs /\ forall q, q ∈ qs <-> below (r ++ [i]) q.
Proof.
  intros Hr Ht Hi Hsub. assert (full_path (r ++ [i])) as Hp by (by apply full_path_snoc).
  assert (node m root (r ++ [i]) = child m t i) as Hc by (by rewrite node_snoc, Ht). unfold child in Hc. cbv zeta in Hc |- *.
  pose proof (so_kind _ _ _ _ Hok r t i Hp Ht) as Hk. destruct (pte_valid (load64 m (t + 8 * i))); cbn [andb].
  - rewrite Hk by done. case_bool_decide as Hl; [by apply Hsub|]. eexists. split_and!; [done | apply NoDup_singleton |].
    intros q. rewrite list_elem_of_singleton. split.
    + intros ->. exists []. rewrite app_nil_r. by split.
    + intros ([|j r'] & [Hl' _] & Hn); [rewrite app_nil_r in Hn; congruence|]. rewrite !length_app in Hl'. simpl in Hl'. lia.
  - exists []. split_and!; [done | constructor |]. intros q. split; [by intros ?%elem_of_nil|].
    intros (r' & _ & Hn). by rewrite node_app, Hc in Hn.
Qed.

Lemma tree_pages_ok : forall fuel r t, path_ok r -> node m root r = Some t -> (3 <= fuel + length r)%nat ->
  exists ps, tree_pages fuel m t = Some (ps ++ [t]) /\ NoDup (ps ++ [t]) /\ forall q, q ∈ ps ++ [t] <-> below r q.
Proof.
  induction fuel as [|fuel IH]; intros r t Hr Ht Hf; [destruct Hr; lia|]. cbn [tree_pages].
  destruct (mapM_all (fun i => let v := load64 m (t + 8 * i) in
        if pte_valid v && PTE_CHECK v then tree_pages fuel m (PTE_TO_PA v) else Some (if pte_valid v then [PTE_TO_PA v] else []))
      (fun i y => NoDup y /\ forall q, q ∈ y <-> below (r ++ [i]) q) (seqZ 0 512)) as (ls & Hls & HP).
  { intros i Hi%elem_of_seqZ. apply (entry_pages fuel r t i Hr Ht); [lia|]. intros Hlt t' Ht'.
    destruct (IH (r ++ [i]) t') as (ps & H1 & H2 & H3); [split; [rewrite length_app; simpl; lia|] | done | rewrite length_app; simpl; lia |].
    - apply Forall_app. split; [apply Hr|]. apply list.Forall_singleton. lia.
    - by exists (ps ++ [t']). }
  cbv zeta in Hls |- *. rewrite Hls. cbn [mbind option_bind]. exists (concat ls). split; [done|].
  assert (forall i y q, (NoDup y /\ forall q, q ∈ y <-> below (r ++ [i]) q) -> q ∈ y <-> below (r ++ [i]) q) as HQ by (by intros i y q [_ ?]).
  assert (forall i, i ∈ seqZ 0 512 -> ~ below (r ++ [i]) t) as Hnt.
  { intros i _ (r' & Hp & Hn). rewrite <- app_assoc in Hp, Hn. pose proof (so_inj _ _ _ _ Hok _ _ t Hp I (path_full r Hr) I Hn Ht) as He.
    rewrite <- (app_nil_r r) in He at 2. by apply app_inv_head in He. }
  split; [|intros q; rewrite (below_entry r t q Hr Ht), elem_of_app, list_elem_of_singleton, (concat_elem _ _ _ _ HP HQ); tauto].
  apply NoDup_app. split_and!; [| | apply NoDup_singleton].
  - apply (concat_nodup _ _ _ _ HP HQ); [by intros i y [? _] | apply NoDup_seqZ |].
    intros i j q _ _ (r1 & Hp1 & Hn1) (r2 & Hp2 & Hn2). pose proof (so_inj _ _ _ _ Hok _ _ q Hp1 I Hp2 I Hn1 Hn2) as He.
    rewrite <- !app_assoc in He. apply app_inv_head in He. by injection He.
  - intros q Hq ->%list_elem_of_singleton. apply (concat_elem _ _ _ _ HP HQ) in Hq as (i & Hi & Hb). by apply (Hnt i).
Qed.
End Tree.

(** At most [n] different pages fit below [n * PGSIZE], and the page 0 is no page. *)
Lemma pages_count n ps : 0 < n -> NoDup ps -> Forall (fun q => page_ok q /\ q < n * PGSIZE) ps -> Z.of_nat (length ps) < n.
Proof.
  intros Hn Hnd Hps. assert (ps ⊆+ (fun i => i * PGSIZE) <$> seqZ 1 (n - 1)) as Hsub.
  { apply NoDup_submseteq; [done|]. intros q Hq. destruct (Forall_elem _ _ _ Hps Hq) as [(H0 & Ha & _) Hlt]. unfold PGSIZE in *.
    apply list_elem_of_fmap. divmod q 4096. exists (q / 4096). split; [lia | apply elem_of_seqZ; lia]. }
  apply submseteq_length in Hsub. rewrite length_fmap, length_seqZ in Hsub. lia.
Qed.

(** ** Clearing one entry *)

Definition clear_mem (m : mem) (root va : Z) : mem :=
  match leaf m root va with Some a => if pte_valid (load64 m a) then store64 m a 0 else m | None => m end.

Section Clear.
Variables (m : mem) (root : Z) (avoid : list Z) (va : Z).
Hypothesis Hpt : pt_ok m root avoid.

Lemma vpns_full r i : r ++ [i] = vpns va -> r = [VA_TO_VPN va 2; VA_TO_VPN va 1] /\ i = VA_TO_VPN va 0.
Proof. intros H. apply (app_inj_2 r [VA_TO_VPN va 2; VA_TO_VPN va 1] [i] [VA_TO_VPN va 0] eq_refl) in H as [-> H]. by injection H. Qed.

Lemma clear_load r i t : path_ok r -> 0 <= i < 512 -> node m root r = Some t ->
  if decide (r ++ [i] = vpns va) then pte_valid (load64 (clear_mem m root va) (t + 8 * i)) = false
  else load64 (clear_mem m root va) (t + 8 * i) = load64 m (t + 8 * i).
Proof.
  intros Hr Hi Ht. unfold clear_mem, leaf. case_decide as Hd.
  - apply vpns_full in Hd as [-> ->]. rewrite Ht. cbn [mbind option_bind]. destruct (pte_valid (load64 m (t + 8 * VA_TO_VPN va 0))) eqn:Hv; [|done].
    by rewrite load64_store64_eq.
  - destruct (node m root [VA_TO_VPN va 2; VA_TO_VPN va 1]) as [t'|] eqn:Ht'; cbn [mbind option_bind]; [|done]. destruct (pte_valid _); [|done].
    apply load64_store64_ne. apply entry_sep; [apply (pt_pages _ _ _ Hpt _ t' (vpn_path va) Ht') | by apply (pt_pages _ _ _ Hpt r) | apply VPN_range | done |].
    destruct (decide (t' = t)) as [->|]; [right | by left]. intros <-. apply Hd. by rewrite (pt_inj _ _ _ Hpt _ _ _ Hr (vpn_path va) Ht Ht').
Qed.

Lemma clear_node r : full_path r -> node (clear_mem m root va) root r = if decide (r = vpns va) then None else node m root r.
Proof.
  induction r as [|i r IH] using rev_ind; intros Hr; [by rewrite decide_False|]. apply full_path_snoc in Hr as [Hr Hi].
  rewrite !node_snoc, (IH (path_full r Hr)), (decide_False (P := r = vpns va)) by (by apply vpns_path).
  destruct (node m root r) as [t|] eqn:Ht; cbn [mbind option_bind]; [|by destruct (decide (r ++ [i] = vpns va))].
  pose proof (clear_load r i t Hr Hi Ht) as Hl. unfold child. cbv zeta. destruct (decide (r ++ [i] = vpns va)); by rewrite Hl.
Qed.

Lemma clear_space own : space_ok own m root avoid -> space_ok (fun r => own r \/ r = vpns va) (clear_mem m root va) root avoid.
Proof.
  intros [Hk Hp Hi]. assert (forall r q, full_path r -> own r \/ r = vpns va -> node (clear_mem m root va) root r = Some q ->
    own r /\ node m root r = Some q) as Hown.
  { intros r q Hr Ho. rewrite clear_node by done. case_decide; [done|]. tauto. }
  split.
  - intros r t i Hr. pose proof Hr as [Hr' Hi']%full_path_snoc. rewrite (clear_node r (path_full r Hr')), (decide_False (P := r = vpns va)) by (by apply vpns_path).
    intros Ht. pose proof (clear_load r i t Hr' Hi' Ht) as Hl. case_decide; [by rewrite Hl|]. rewrite Hl. by apply Hk.
  - intros r q Hr Ho Hn. destruct (Hown r q Hr Ho Hn). by apply (Hp r).
  - intros r r' q Hr Ho Hr' Ho' Hn Hn'. destruct (Hown r q Hr Ho Hn), (Hown r' q Hr' Ho' Hn'). by apply (Hi r r' q).
Qed.

(** Only the table with the entry changes. *)
Lemma clear_off x : outside m root x -> load8 (clear_mem m root va) x = load8 m x.
Proof.
  intros Hx. unfold clear_mem, leaf. destruct (node m root [VA_TO_VPN va 2; VA_TO_VPN va 1]) as [t|] eqn:Ht; cbn [mbind option_bind]; [|done].
  destruct (pte_valid _); [|done]. apply load8_store64_ne. intros Hr. apply (Hx _ t (vpn_path va) Ht).
  pose proof (VPN_range va 0). unfold PGSIZE. lia.
Qed.
End Clear.

(** ** Paths and addresses *)

Lemma vpns_range x : full_path (vpns x).
Proof. split; [simpl; lia|]. repeat constructor; apply VPN_range. Qed.

Lemma vpns_of i j k : 0 <= i < 256 -> 0 <= j < 512 -> 0 <= k < 512 ->
  0 <= ((i * 512 + j) * 512 + k) * PGSIZE < VA_MAX /\ vpns (((i * 512 + j) * 512 + k) * PGSIZE) = [i; j; k].
Proof.
  intros Hi Hj Hk. set (x := ((i * 512 + j) * 512 + k) * PGSIZE). assert (0 <= x < VA_MAX) as Hx.
  { unfold x, PGSIZE. change VA_MAX with (256 * 512 * 512 * 4096). lia. }
  split; [done|]. pose proof (VPN_page x Hx) as He. unfold page_of in He. unfold x at 1 in He. rewrite Z.div_mul in He by done.
  pose proof (VPN_range x 0). pose proof (VPN_range x 1). unfold vpns. f_equal; [|f_equal; [|f_equal]]; lia.
Qed.

Lemma map_node m root x v : pt_map m root x = Some v -> node m root (vpns x) = Some (PTE_TO_PA v).
Proof.
  intros (a & (t & Ht & ->)%leaf_inv & <- & Hval)%pt_map_inv. change (vpns x) with ([VA_TO_VPN x 2; VA_TO_VPN x 1] ++ [VA_TO_VPN x 0]).
  rewrite node_snoc, Ht. cbn [mbind option_bind]. unfold child. by rewrite Hval.
Qed.

Lemma node_map m root x q : node m root (vpns x) = Some q -> exists v, pt_map m root x = Some v /\ PTE_TO_PA v = q.
Proof.
  change (vpns x) with ([VA_TO_VPN x 2; VA_TO_VPN x 1] ++ [VA_TO_VPN x 0]). rewrite node_snoc. unfold pt_map, leaf.
  destruct (node m root _) as [t|]; cbn [mbind option_bind]; [|done]. unfold child. cbv zeta.
  destruct (pte_valid (load64 m (t + 8 * VA_TO_VPN x 0))); [|done]. intros [= <-]. by eexists.
Qed.

(** A path leads to a table or is the path of an address. *)
Lemma full_cases m root r q : (forall i, 256 <= i < 512 -> node m root [i] = None) -> full_path r -> node m root r = Some q ->
  path_ok r \/ exists x, 0 <= x < VA_MAX /\ r = vpns x.
Proof.
  intros Hlow [Hl Hr] Hn. destruct (decide (length r <= 2)%nat) as [|Hl3]; [by left|]. right.
  destruct r as [|i [|j [|k [|]]]]; try (simpl in *; lia). apply list.Forall_cons in Hr as [Hi Hr]. apply list.Forall_cons in Hr as [Hj Hr].
  apply list.Forall_cons in Hr as [Hk _]. destruct (Z.lt_ge_cases i 256) as [Hlt|Hge].
  - destruct (vpns_of i j k) as [Hx He]; [lia..|]. by eexists.
  - change [i; j; k] with ([i] ++ [j; k]) in Hn. rewrite node_app, Hlow in Hn by lia. done.
Qed.

Lemma space_pt m root avoid : space_ok (fun r => ~ borrowed r) m root avoid -> pt_ok m root avoid.
Proof.
  intros [_ Hp Hi]. assert (forall r, path_ok r -> ~ borrowed r) as Hb by (intros r Hr [H|H]; by apply (vpns_path _ _ Hr) in H).
  split.
  - intros r a Hr Hn. destruct (Hp r a) as (? & _ & ?); auto using path_full.
  - intros r r' a Hr Hr'. apply Hi; auto using path_full.
Qed.

Section Spec.
Context {D : Type}.
Implicit Types (s : kstate D) (kp up : list Z).

(** Pages that may be given back to the user region. *)
Definition freeable kp up (ps : list Z) : Prop :=
  NoDup ps /\ Forall page_ok ps /\ (forall q, q ∈ ps -> q ∉ kp ++ up) /\ Z.of_nat (length ps + length kp + length up) < 2 ^ 32.

(** A computation that frees [ps]. *)
Definition frees (m : M (kstate D) unit) s kp up (ps : list Z) : Prop :=
  exists s', m s = Ret tt s' /\ pools s' kp (rev ps ++ up) /\ same_off (k_mem s) (k_mem s') ps /\ frame_vm s s' /\
    cpu_touch (k_cpu s') = cpu_touch (k_cpu s).

Lemma freeable_app kp up ps qs : freeable kp up (ps ++ qs) -> freeable kp up ps /\ freeable kp (rev ps ++ up) qs.
Proof.
  intros (Hnd & [Hp Hq]%Forall_app & Hn & Hc). apply NoDup_app in Hnd as (Hnd1 & Hd & Hnd2). rewrite length_app in Hc.
  split; (split_and!; [done | done | | rewrite ?length_app, ?length_rev; lia]).
  - intros x Hx. apply Hn. apply elem_of_app. by left.
  - intros x Hx. assert (x ∉ kp ++ up) as Hno by (apply Hn, elem_of_app; by right). rewrite elem_of_app in Hno.
    rewrite !elem_of_app, elem_of_rev. intros [?|[Hin|?]]; [tauto | by apply (Hd x Hin) | tauto].
Qed.

Lemma free_one s kp up q : pools s kp up -> freeable kp up [q] -> frees (pmem_free q false) s kp up [q].
Proof.
  intros Hp (_ & Hok & Hn & Hc). apply list.Forall_cons in Hok as [Hok _]. cbn [length] in Hc.
  destruct (pools_free false s kp up q kp (q :: up) Hp Hok) as [Hrun Hp']; [apply Hn; by apply list_elem_of_singleton | lia | done |].
  exists (free_post q false s). split_and!; [done | done | | apply frame_free_post | rewrite k_cpu_free_post; apply cpu_touch_idemp].
  intros x Hx. rewrite k_mem_free_post. apply load8_store64_ne. intros Hr. apply (Hx q); [by apply list_elem_of_singleton | unfold PGSIZE; lia].
Qed.

Lemma frees_bind m1 m2 s kp up ps qs : frees m1 s kp up ps ->
  (forall s', pools s' kp (rev ps ++ up) -> same_off (k_mem s) (k_mem s') ps -> frees m2 s' kp (rev ps ++ up) qs) ->
  frees (m1;; m2) s kp up (ps ++ qs).
Proof.
  intros (s1 & H1 & Hp1 & Hm1 & Hf1 & Hc1) H2. destruct (H2 s1 Hp1 Hm1) as (s2 & H2' & Hp2 & Hm2 & Hf2 & Hc2).
  exists s2. split_and!; [mstep ltac:(exact H1); exact H2' | by rewrite rev_app_distr, <- app_assoc | by eapply same_off_trans | by etransitivity | congruence].
Qed.

Lemma frees_nil s kp up : pools s kp up -> frees (mret tt) s kp up [].
Proof. intros Hp. exists s. split_and!; done. Qed.

Lemma freeable_mid kp up ps qs rs : freeable kp up (ps ++ qs ++ rs) -> freeable kp (rev ps ++ up) (qs ++ rs) /\ freeable kp up ps.
Proof. intros H. by apply freeable_app in H as [? ?]. Qed.

(** The loop over the entries of [p], of which each body frees its pages. *)
Lemma for_each_frees kp m0 p (body : Z -> M (kstate D) unit) (f : Z -> option (list Z)) l ls :
  Forall2 (fun i qs => f i = Some qs) l ls -> (forall i, i ∈ l -> 0 <= i < 512) ->
  (forall i qs s up, i ∈ l -> f i = Some qs -> pools s kp up -> freeable kp up qs ->
     (forall q x, q ∈ qs -> q <= x < q + PGSIZE -> load8 (k_mem s) x = load8 m0 x) ->
     load64 (k_mem s) (p + 8 * i) = load64 m0 (p + 8 * i) -> frees (body i) s kp up qs) ->
  forall s up, pools s kp up -> freeable kp up (concat ls ++ [p]) ->
  (forall q x, q ∈ concat ls ++ [p] -> q <= x < q + PGSIZE -> load8 (k_mem s) x = load8 m0 x) ->
  frees (for_each l body) s kp up (concat ls).
Proof.
  intros Hall. induction Hall as [|i qs l ls Hi Hall IH]; intros Hrange Hbody s up Hp Hfr Hsame; [by apply frees_nil|].
  cbn [concat for_each] in *. rewrite <- app_assoc in Hfr, Hsame. destruct (freeable_mid _ _ _ _ _ Hfr) as [Hfr2 Hfr1].
  apply frees_bind.
  - apply Hbody; [by apply elem_of_cons; left | done | done | done | |].
    + intros q x Hq. apply Hsame. apply elem_of_app. by left.
    + apply load64_ext. intros x Hx. apply (Hsame p); [rewrite !elem_of_app, list_elem_of_singleton; tauto|].
      pose proof (Hrange i ltac:(apply elem_of_cons; by left)). unfold PGSIZE. lia.
  - intros s' Hp' Hoff. apply IH; [| | done | done |].
    + intros j Hj. apply Hrange. apply elem_of_cons. by right.
    + intros j rs s2 up2 Hj. apply Hbody. apply elem_of_cons. by right.
    + intros q x Hq Hx. destruct Hfr as (Hnd & Hok & _).
      rewrite (load8_page_off _ _ qs (concat ls ++ [p]) x q Hoff Hok Hnd Hq Hx). apply (Hsame q); [|done]. apply elem_of_app. by right.
Qed.

Lemma destroy_frees kp m0 : forall fuel p level ps s up, tree_pages fuel m0 p = Some ps -> pools s kp up -> freeable kp up ps ->
  (forall q x, q ∈ ps -> q <= x < q + PGSIZE -> load8 (k_mem s) x = load8 m0 x) ->
  frees (destroy_pgtbl fuel p level) s kp up ps.
Proof.
  induction fuel as [|fuel IH]; intros p level ps s up Ht Hp Hfr Hsame; [done|]. cbn [tree_pages] in Ht.
  destruct (mapM _ (seqZ 0 512)) as [ls|] eqn:Hls; cbn [mbind option_bind] in Ht; [|done]. injection Ht as <-.
  apply mapM_Some in Hls. assert (page_ok p) as Hpok by (destruct Hfr as (_ & [_ Hq]%Forall_app & _); by apply list.Forall_cons in Hq as [Hq _]).
  cbn [destroy_pgtbl]. rewrite (proj2 (Z.eqb_neq p 0)) by (destruct Hpok; lia).
  apply frees_bind; [|intros s' Hp' _; apply free_one; [done | by apply freeable_app in Hfr as [_ Hfr]]].
  apply (for_each_frees kp m0 p _ _ _ _ Hls); [intros i Hi; apply elem_of_seqZ in Hi; lia | | done | done | done].
  clear s up Hp Hfr Hsame. intros i qs s up _ Hi Hp Hfr Hsame Hload. unfold frees, mem64. cbv beta zeta in Hi. mrun. rewrite Hload.
  destruct (pte_valid _) eqn:Hval; [destruct (PTE_CHECK _) eqn:Hck|]; cbn [andb] in Hi |- *.
  - exact (IH _ _ _ s up Hi Hp Hfr Hsame).
  - injection Hi as <-. exact (free_one s kp up _ Hp Hfr).
  - injection Hi as <-. exact (frees_nil s kp up Hp).
Qed.

Lemma clear_pte_eq s root kp up va : vm_ok s root kp up -> 0 <= va < VA_MAX -> exists a,
  vm_getpte root va false s = Ret a s /\ clear_pte a s = Ret tt (set_k_mem (clear_mem (k_mem s) root va) s) /\
  vm_ok (set_k_mem (clear_mem (k_mem s) root va) s) root kp up.
Proof.
  intros Hv Hva. destruct (vm_getpte_lookup s root kp up va Hv) as [Hget _]. exists (leaf (k_mem s) root va). split; [by apply Hget, Hva|].
  unfold clear_mem. destruct (leaf (k_mem s) root va) as [a|] eqn:Hleaf; [|by rewrite set_k_mem_self].
  unfold clear_pte, mem64. mrun. destruct (pte_valid (load64 (k_mem s) a)); [|by rewrite set_k_mem_self].
  destruct (put_leaf s root kp up va a 0 Hv Hleaf) as (s' & H1 & Hg & _); [done..|]. injection H1 as <-. split; [done | apply Hg].
Qed.

(** Addresses other than those of the special pages. *)
Definition user_va (x : Z) : Prop := page_of x <> page_of TRAMPOLINE /\ page_of x <> page_of TRAPFRAME.

Lemma borrowed_vpns x : 0 <= x < VA_MAX -> user_va x <-> ~ borrowed (vpns x).
Proof.
  intros Hx. assert (forall y, 0 <= y < VA_MAX -> page_of x = page_of y <-> vpns x = vpns y) as Hp.
  { intros y Hy. rewrite (same_page x y Hx Hy). unfold vpns. split; [intros (-> & -> & ->); done | by intros [= ? ? ?]]. }
  unfold user_va, borrowed. rewrite (Hp TRAMPOLINE), (Hp TRAPFRAME) by (by vm_compute). tauto.
Qed.

(** The tables of the address space and the pages it maps, the special ones apart. *)
Definition space_page (m : mem) (root q : Z) : Prop :=
  (exists r, path_ok r /\ node m root r = Some q) \/
  exists x v, 0 <= x < VA_MAX /\ user_va x /\ pt_map m root x = Some v /\ PTE_TO_PA v = q.

(** An address space whose pages are its own: the entries of the upper levels are
    pointers and the mapped pages have permissions; no page is free, a table, or
    mapped twice, the special pages apart; all memory is below 2^44, where the
    32-bit counters of the free pages cannot overflow. *)
Record owned s (root : Z) kp up : Prop := {
  ow_vm : vm_ok s root kp up;
  ow_regular : regular (k_mem s) root;
  ow_perm : forall x v, 0 <= x < VA_MAX -> pt_map (k_mem s) root x = Some v -> PTE_CHECK v = false;
  ow_data : forall x v, 0 <= x < VA_MAX -> user_va x -> pt_map (k_mem s) root x = Some v -> data_page s root kp up (PTE_TO_PA v);
  ow_once : forall x y v w, 0 <= x < VA_MAX -> 0 <= y < VA_MAX -> user_va x -> user_va y -> pt_map (k_mem s) root x = Some v ->
    pt_map (k_mem s) root y = Some w -> PTE_TO_PA v = PTE_TO_PA w -> page_of x = page_of y;
  ow_small : forall q, q ∈ kp ++ up \/ space_page (k_mem s) root q -> q < 2 ^ 44
}.

Lemma owned_space s root kp up : owned s root kp up -> space_ok (fun r => ~ borrowed r) (k_mem s) root (kp ++ up).
Proof.
  intros [Hv [Hptr Hlow] Hperm Hdata Honce Hsmall]. pose proof (vm_tree _ _ _ _ Hv) as [Hpg Hinj].
  assert (forall r q, full_path r -> ~ borrowed r -> node (k_mem s) root r = Some q -> path_ok r \/
    exists x v, 0 <= x < VA_MAX /\ user_va x /\ r = vpns x /\ pt_map (k_mem s) root x = Some v /\ PTE_TO_PA v = q) as Hcase.
  { intros r q Hr Hb Hn. destruct (full_cases _ _ _ _ Hlow Hr Hn) as [?|(x & Hx & ->)]; [by left|]. right.
    destruct (node_map _ _ _ _ Hn) as (v & Hm & Hq). exists x, v. split; [done|]. split; [by apply borrowed_vpns | done]. }
  split.
  - intros r t i Hr Hn Hval. case_bool_decide as Hl; [apply (Hptr r); try done; apply full_path_snoc in Hr as [[? ?] ?]; split;
      [rewrite length_app; simpl; lia | by apply Forall_app; split; [|by apply list.Forall_singleton]]|].
    destruct (full_cases (k_mem s) root (r ++ [i]) (PTE_TO_PA (load64 (k_mem s) (t + 8 * i))) Hlow Hr) as [[Hlen _]|(x & Hx & He)].
    + rewrite node_snoc, Hn. cbn [mbind option_bind]. unfold child. by rewrite Hval.
    + rewrite length_app in Hlen. simpl in Hlen. lia.
    + apply (Hperm x); [done|]. destruct (vpns_full x r i He) as [-> ->]. unfold pt_map, leaf. rewrite Hn. cbn [mbind option_bind]. by rewrite Hval.
  - intros r q Hr Hb Hn. destruct (Hcase r q Hr Hb Hn) as [Hp|(x & v & Hx & Hu & -> & Hm & <-)].
    + destruct (Hpg r q Hp Hn). split_and!; [done | | done]. apply Hsmall. right. left. by exists r.
    + destruct (Hdata x v Hx Hu Hm) as (? & ? & _). split_and!; [done | | done]. apply Hsmall. right. right. by exists x, v.
  - intros r r' q Hr Hb Hr' Hb' Hn Hn'.
    destruct (Hcase r q Hr Hb Hn) as [Hp|(x & v & Hx & Hu & -> & Hm & Hq)], (Hcase r' q Hr' Hb' Hn') as [Hp'|(y & w & Hy & Hw & -> & Hm' & Hq')].
    + by apply (Hinj r r' q).
    + destruct (Hdata y w Hy Hw Hm') as (_ & _ & Hno). by rewrite Hq' in Hno; destruct (Hno r Hp).
    + destruct (Hdata x v Hx Hu Hm) as (_ & _ & Hno). by rewrite Hq in Hno; destruct (Hno r' Hp').
    + assert (page_of x = page_of y) as (H2 & H1 & H0)%same_page by (by apply (Honce x y v w); try done; congruence); try done. unfold vpns. congruence.
Qed.

(** The other direction, for a tree given by its paths. *)
Lemma space_owned s root kp up : pools s kp up -> space_ok (fun r => ~ borrowed r) (k_mem s) root (kp ++ up) ->
  (forall i, 256 <= i < 512 -> node (k_mem s) root [i] = None) -> Forall (fun q => q < 2 ^ 44) (kp ++ up) -> owned s root kp up.
Proof.
  intros Hpools Hsp Hlow Hsmall. pose proof (space_pt _ _ _ Hsp) as Hpt. destruct Hsp as [Hk Hp Hi].
  assert (forall x v, 0 <= x < VA_MAX -> user_va x -> pt_map (k_mem s) root x = Some v -> ~ borrowed (vpns x) /\ node (k_mem s) root (vpns x) = Some (PTE_TO_PA v)) as Hmap.
  { intros x v Hx Hu Hm. split; [by apply borrowed_vpns | by apply map_node]. }
  split.
  - by split.
  - split; [|done]. intros r t i Hr Hn Hval. destruct (path_ok_snoc _ _ Hr) as (Hr' & Hi' & Hl).
    rewrite (Hk r t i); [by apply bool_decide_true; lia | by apply path_full | done | done].
  - intros x v Hx (a & (t & Ht & ->)%leaf_inv & <- & Hval)%pt_map_inv.
    rewrite (Hk [VA_TO_VPN x 2; VA_TO_VPN x 1] t); [done | apply (vpns_range x) | done | done].
  - intros x v Hx Hu Hm. destruct (Hmap x v Hx Hu Hm) as [Hb Hn]. destruct (Hp _ _ (vpns_range x) Hb Hn) as (Hok & _ & Hnin).
    split_and!; [done | done |]. intros r Hr Hn'. apply (vpns_path r x Hr).
    apply (Hi r (vpns x) (PTE_TO_PA v)); [by apply path_full | intros [H|H]; by apply (vpns_path _ _ Hr) in H | apply vpns_range | done..].
  - intros x y v w Hx Hy Hu Hw Hm Hm' Heq. destruct (Hmap x v Hx Hu Hm) as [Hb Hn], (Hmap y w Hy Hw Hm') as [Hb' Hn']. apply same_page; [done..|].
    rewrite <- Heq in Hn'. pose proof (Hi _ _ _ (vpns_range x) Hb (vpns_range y) Hb' Hn Hn') as He. by injection He.
  - intros q [Hq|[(r & Hr & Hn)|(x & v & Hx & Hu & Hm & <-)]]; [by apply (Forall_elem _ _ _ Hsmall) | |].
    + destruct (Hp r q) as (_ & ? & _); [by apply path_full | intros [H|H]; by apply (vpns_path _ _ Hr) in H | done | done].
    + destruct (Hmap x v Hx Hu Hm) as [Hb Hn]. by destruct (Hp _ _ (vpns_range x) Hb Hn) as (_ & ? & _).
Qed.

(** The tree without its special pages. *)
Lemma cleared_space s root kp up : owned s root kp up -> exists m1,
  (forall fuel level, uvm_destroy_pgtbl fuel root level s = destroy_pgtbl fuel root level (set_k_mem m1 s)) /\
  vm_ok (set_k_mem m1 s) root kp up /\ space_ok (fun _ => True) m1 root (kp ++ up) /\
  (forall r, full_path r -> node m1 root r = if decide (r = vpns TRAPFRAME) then None else if decide (r = vpns TRAMPOLINE) then None else node (k_mem s) root r) /\
  (forall x, outside (k_mem s) root x -> load8 m1 x = load8 (k_mem s) x).
Proof.
  intros Ho. pose proof (owned_space _ _ _ _ Ho) as Hsp. pose proof (ow_vm _ _ _ _ Ho) as Hv.
  destruct (clear_pte_eq s root kp up TRAMPOLINE Hv ltac:(by vm_compute)) as (a0 & H1 & H2 & Hv0).
  set (m0 := clear_mem (k_mem s) root TRAMPOLINE) in *.
  destruct (clear_pte_eq (set_k_mem m0 s) root kp up TRAPFRAME Hv0 ltac:(by vm_compute)) as (a1 & H3 & H4 & Hv1).
  rewrite set_k_mem_twice, k_mem_set in H4, Hv1. set (m1 := clear_mem m0 root TRAPFRAME) in *. pose proof (vm_tree _ _ _ _ Hv0) as Hpt0. rewrite k_mem_set in Hpt0.
  assert (forall r, full_path r -> node m0 root r = if decide (r = vpns TRAMPOLINE) then None else node (k_mem s) root r) as Hn0
    by (intros r Hr; by apply (clear_node _ _ (kp ++ up)); [apply Hv|]).
  exists m1. split_and!.
  - intros fuel level. unfold uvm_destroy_pgtbl. rewrite (vm_node_nonzero s root kp up [] root Hv nil_path eq_refl).
    mstep ltac:(exact H1). mstep ltac:(exact H2). mstep ltac:(exact H3). by mstep ltac:(exact H4).
  - done.
  - destruct (clear_space _ _ _ TRAPFRAME Hpt0 _ (clear_space _ _ _ TRAMPOLINE (vm_tree _ _ _ _ Hv) _ Hsp)) as [Hk Hp Hi].
    assert (forall r, (~ borrowed r \/ r = vpns TRAMPOLINE) \/ r = vpns TRAPFRAME) as Hall.
    { intros r. unfold borrowed. destruct (decide (r = vpns TRAMPOLINE)), (decide (r = vpns TRAPFRAME)); tauto. }
    split; [exact Hk | intros r q Hr _; by apply Hp | intros r r' q Hr _ Hr' _; by apply Hi].
  - intros r Hr. unfold m1. rewrite (clear_node _ _ _ TRAPFRAME Hpt0 r Hr). by rewrite Hn0.
  - intros x Hx. unfold m1. rewrite clear_off; [by apply clear_off|]. intros r t Hr. rewrite (Hn0 r (path_full r Hr)), (decide_False (P := r = _)) by (by apply vpns_path).
    by apply Hx.
Qed.

Lemma space_page_path m root q : (forall i, 256 <= i < 512 -> node m root [i] = None) ->
  space_page m root q <-> exists r, full_path r /\ ~ borrowed r /\ node m root r = Some q.
Proof.
  intros Hlow. split.
  - intros [(r & Hr & Hn)|(x & v & Hx & Hu & Hm & <-)].
    + exists r. split; [by apply path_full|]. split; [|done]. intros [H|H]; by apply (vpns_path _ _ Hr) in H.
    + exists (vpns x). split; [apply vpns_range|]. split; [by apply borrowed_vpns | by apply map_node].
  - intros (r & Hr & Hb & Hn). destruct (full_cases _ _ _ _ Hlow Hr Hn) as [Hp|(x & Hx & ->)]; [left; by exists r|]. right.
    destruct (node_map _ _ _ _ Hn) as (v & Hm & Hq). exists x, v. split; [done|]. split; [by apply borrowed_vpns | done].
Qed.

Lemma destroy_owned s root kp up fuel level : owned s root kp up -> (3 <= fuel)%nat ->
  exists s' ps, uvm_destroy_pgtbl fuel root level s = Ret tt s' /\ pools s' kp (root :: ps ++ up) /\ NoDup (root :: ps) /\
    (forall q, q ∈ root :: ps <-> space_page (k_mem s) root q) /\ same_off (k_mem s) (k_mem s') (root :: ps) /\ frame_vm s s' /\
    cpu_touch (k_cpu s') = cpu_touch (k_cpu s).
Proof.
  intros Ho Hf. destruct (cleared_space s root kp up Ho) as (m1 & Hrun & Hv1 & Hsp & Hn & Hoff). pose proof (ow_vm _ _ _ _ Ho) as Hv.
  destruct (tree_pages_ok m1 root (kp ++ up) Hsp fuel [] root nil_path eq_refl) as (ls & Ht & Hnd & Hin); [simpl; lia|].
  assert (forall q, q ∈ ls ++ [root] <-> space_page (k_mem s) root q) as Hin'.
  { intros q. rewrite Hin, (space_page_path _ _ _ (proj2 (ow_regular _ _ _ _ Ho))). unfold below, borrowed. cbn [app]. split.
    - intros (r & Hr & Hq). rewrite Hn in Hq by done. exists r. do 2 (case_decide; [done|]). tauto.
    - intros (r & Hr & Hb & Hq). exists r. rewrite Hn by done. rewrite !decide_False by tauto. done. }
  assert (forall q, q ∈ ls ++ [root] -> page_ok q /\ q < 2 ^ 44 /\ q ∉ kp ++ up) as Hpg.
  { intros q (r & Hr & Hq)%Hin. by apply (so_page _ _ _ _ Hsp r). }
  assert (freeable kp up (ls ++ [root])) as Hfr.
  { split_and!; [done | apply Forall_of_elem; intros q Hq; by apply Hpg | intros q Hq; by apply Hpg |].
    rewrite <- !length_app, <- app_assoc. apply pages_count; [done | |].
    - apply NoDup_app. split_and!; [done | intros q Hq; by apply Hpg | apply (vm_pools _ _ _ _ Hv)].
    - change (2 ^ 32 * PGSIZE) with (2 ^ 44). apply Forall_app. split; [apply Forall_of_elem; intros q Hq; by destruct (Hpg q Hq) as (? & ? & _)|].
      apply Forall_of_elem. intros q Hq. split; [by apply (Forall_elem _ _ _ (pools_pages _ _ _ (vm_pools _ _ _ _ Hv))) | apply (ow_small _ _ _ _ Ho); by left]. }
  destruct (destroy_frees kp m1 fuel root level _ (set_k_mem m1 s) up Ht (vm_pools _ _ _ _ Hv1) Hfr) as (s' & Hs' & Hp & Hso & Hf' & Hc'); [by rewrite k_mem_set|].
  rewrite rev_app_distr in Hp. rewrite k_mem_set in Hso. exists s', (rev ls).
  assert (forall q, q ∈ root :: rev ls <-> q ∈ ls ++ [root]) as Hrev by (intros q; rewrite elem_of_cons, elem_of_app, list_elem_of_singleton, elem_of_rev; tauto).
  split_and!.
  - by rewrite Hrun.
  - exact Hp.
  - replace (root :: rev ls) with (rev (ls ++ [root])) by apply rev_app_distr. by apply NoDup_ListNoDup, List.NoDup_rev, NoDup_ListNoDup.
  - intros q. by rewrite Hrev.
  - intros x Hx. rewrite Hso by (intros q Hq; by apply Hx, Hrev). apply Hoff. intros r t Hr Ht'.
    apply (Hx t), Hrev, Hin'. left. by exists r.
  - etransitivity; [apply (frame_set_k_mem m1 s) | exact Hf'].
  - by rewrite Hc', k_cpu_set.
Qed.

(** The address space depends on its tables, not on the contents of its pages. *)
Lemma same_tree_space m m' root q : same_tree m m' root -> space_page m' root q <-> space_page m root q.
Proof.
  intros Hst. unfold space_page. pose proof (same_tree_node _ _ _ Hst) as Hn. split; (intros [(r & Hr & H)|(x & v & Hx & Hu & Hm & H)]; [left | right]).
  - exists r. by rewrite <- Hn.
  - exists x, v. by rewrite <- (same_tree_map _ _ _ x Hst).
  - exists r. by rewrite Hn.
  - exists x, v. by rewrite (same_tree_map _ _ _ x Hst).
Qed.

Lemma owned_tree s s' root kp up kp' up' : owned s root kp up -> same_tree (k_mem s) (k_mem s') root -> pools s' kp' up' ->
  (forall q, q ∈ kp' ++ up' -> ~ space_page (k_mem s) root q /\ q < 2 ^ 44) -> owned s' root kp' up'.
Proof.
  intros [Hv [Hptr Hlow] Hperm Hdata Honce Hsmall] Hst Hp Hq. pose proof (same_tree_node _ _ _ Hst) as Hn.
  assert (forall x, pt_map (k_mem s') root x = pt_map (k_mem s) root x) as Hm by (intros x; by apply same_tree_map).
  assert (forall r a, path_ok r -> node (k_mem s) root r = Some a -> a ∉ kp' ++ up') as Hno.
  { intros r a Hr Ha Hin. destruct (Hq a Hin) as [Hns _]. apply Hns. left. by exists r. }
  split.
  - split; [done|]. apply (same_tree_pt _ _ _ _ _ Hst (vm_tree _ _ _ _ Hv)). done.
  - split; [|intros i Hi; rewrite Hn by (split; [simpl; lia | apply list.Forall_singleton; lia]); by apply Hlow].
    intros r t i Hr. destruct (path_ok_snoc _ _ Hr) as (Hr' & Hi & _). rewrite Hn by done. intros Ht. rewrite (Hst r t i) by done. by apply (Hptr r).
  - intros x v Hx. rewrite Hm. by apply Hperm.
  - intros x v Hx Hu. rewrite Hm. intros Hv'. destruct (Hdata x v Hx Hu Hv') as (Hok & _ & Hnn). split_and!; [done | |].
    + intros Hin. destruct (Hq _ Hin) as [Hns _]. apply Hns. right. by exists x, v.
    + intros r Hr. rewrite Hn by done. by apply Hnn.
  - intros x y v w Hx Hy Hu Hw. rewrite !Hm. by apply Honce.
  - intros q [Hin|Hsp]; [by apply (Hq q)|]. apply Hsmall. right. by apply (same_tree_space _ _ _ _ Hst).
Qed.

(** C15: [uvm_destroy_pgtbl] terminates: [PGTBL_FUEL] or any fuel from the three levels
    of tables on is enough for every address space.  It gives back every table of the
    address space and every page that it maps, the trampoline's and the trapframe's
    apart, each exactly once and the root last, all of them to the user region; no
    other memory and no other part of the state changes. *)
Theorem uvm_destroy_frees s root kp up fuel level : owned s root kp up -> (3 <= fuel)%nat ->
  exists s' ps, uvm_destroy_pgtbl fuel root level s = Ret tt s' /\ pools s' kp (root :: ps ++ up) /\ NoDup (root :: ps) /\
    (forall q, q ∈ root :: ps <-> space_page (k_mem s) root q) /\ same_off (k_mem s) (k_mem s') (root :: ps) /\ frame_vm s s' /\
    cpu_touch (k_cpu s') = cpu_touch (k_cpu s).
Proof. exact (destroy_owned s root kp up fuel level). Qed.
End Spec.

(** ** Trees in a memory given by its entries *)

Definition mem_of (es : list (Z * Z)) : mem := foldr (fun e m => store64 m e.1 e.2) ∅ es.

Definition entries_ok (es : list (Z * Z)) : Prop := Forall (fun e => e.1 mod 8 = 0 /\ 0 <= e.2 < 2 ^ 64) es.

Lemma mem_of_load es a : entries_ok es -> a mod 8 = 0 -> load64 (mem_of es) a = 0 \/ (a, load64 (mem_of es) a) ∈ es.
Proof.
  intros Hes Ha. induction es as [|[b v] es IH]; [left; apply load64_empty|]. apply list.Forall_cons in Hes as [[Hb Hv] Hes].
  cbn [mem_of foldr fst snd] in *. destruct (decide (a = b)) as [->|Hne].
  - right. rewrite load64_store64_eq by done. apply elem_of_cons. by left.
  - rewrite load64_store64_ne by (divmod a 8; divmod b 8; lia). rewrite elem_of_cons. destruct (IH Hes); tauto.
Qed.

(** [ns] lists the paths and what they lead to. *)
Definition nodes_of (es : list (Z * Z)) (ns : list (list Z * Z)) : Prop :=
  Forall (fun n => (length n.1 <= 2)%nat -> page_ok n.2 /\ Forall (fun e => n.2 <= e.1 < n.2 + PGSIZE ->
    PTE_CHECK e.2 = bool_decide (length n.1 < 2)%nat /\ (n.1 ++ [(e.1 - n.2) / 8], PTE_TO_PA e.2) ∈ ns) es) ns.

Section Nodes.
Variables (es : list (Z * Z)) (ns : list (list Z * Z)) (root : Z).
Hypothesis Hes : entries_ok es.
Hypothesis Hns : nodes_of es ns.
Hypothesis Hroot : ([], root) ∈ ns.

Lemma nodes_entry r t i : (r, t) ∈ ns -> path_ok r -> 0 <= i < 512 -> pte_valid (load64 (mem_of es) (t + 8 * i)) = true ->
  PTE_CHECK (load64 (mem_of es) (t + 8 * i)) = bool_decide (length r < 2)%nat /\ (r ++ [i], PTE_TO_PA (load64 (mem_of es) (t + 8 * i))) ∈ ns.
Proof.
  intros Hin [Hl _] Hi Hv. destruct (Forall_elem _ _ _ Hns Hin Hl) as [(_ & Ha & _) Hall]. unfold PGSIZE in *.
  destruct (mem_of_load es (t + 8 * i) Hes) as [H0|He].
  - cbn in Ha. divmod t 4096. apply Z.mod_divide; [done|]. exists (512 * (t / 4096) + i). lia.
  - by rewrite H0 in Hv.
  - pose proof (Forall_elem _ _ _ Hall He) as Hc. cbn [fst snd] in Hc. destruct (Hc ltac:(lia)) as [Hk Hn]. split; [done|].
    replace ((t + 8 * i - t) / 8) with i in Hn by (replace (t + 8 * i - t) with (i * 8) by lia; by rewrite Z.div_mul). exact Hn.
Qed.

Lemma nodes_node r q : full_path r -> node (mem_of es) root r = Some q -> (r, q) ∈ ns.
Proof.
  revert q. induction r as [|i r IH] using rev_ind; intros q Hr Hn; [by injection Hn as <-|]. apply full_path_snoc in Hr as [Hr Hi].
  rewrite node_snoc in Hn. destruct (node (mem_of es) root r) as [t|]; [|done]. cbn [mbind option_bind] in Hn. unfold child in Hn. cbv zeta in Hn.
  destruct (pte_valid (load64 (mem_of es) (t + 8 * i))) eqn:Hv; [|done]. injection Hn as <-.
  apply (nodes_entry r t i); [by apply IH; [apply path_full|] | done..].
Qed.

Lemma nodes_space own avoid : Forall (fun n => own n.1 -> page_ok n.2 /\ n.2 < 2 ^ 44 /\ n.2 ∉ avoid) ns ->
  Forall (fun n => Forall (fun n' => own n.1 -> own n'.1 -> n.2 = n'.2 -> n.1 = n'.1) ns) ns -> space_ok own (mem_of es) root avoid.
Proof.
  intros Hp Hi. split.
  - intros r t i Hr Hn Hv. apply full_path_snoc in Hr as [Hr Hi']. apply (nodes_entry r t i); [by apply nodes_node; [apply path_full|] | done..].
  - intros r q Hr Ho Hn. apply nodes_node in Hn; [|done]. by apply (Forall_elem _ _ _ Hp Hn).
  - intros r r' q Hr Ho Hr' Ho' Hn Hn'. apply nodes_node in Hn, Hn'; [|done..].
    exact (Forall_elem _ _ _ (Forall_elem _ _ _ Hi Hn) Hn' Ho Ho' eq_refl).
Qed.

Lemma nodes_low i : Forall (fun n => hd 0 n.1 < 256) ns -> 256 <= i < 512 -> node (mem_of es) root [i] = None.
Proof.
  intros Hl Hi. destruct (node (mem_of es) root [i]) as [q|] eqn:Hn; [|done]. exfalso.
  apply nodes_node in Hn; [|split; [simpl; lia | apply list.Forall_singleton; lia]]. pose proof (Forall_elem _ _ _ Hl Hn) as H. simpl in H. lia.
Qed.

Lemma nodes_owned {D} (s : kstate D) kp up : k_mem s = mem_of es -> pools s kp up -> Forall (fun n => hd 0 n.1 < 256) ns ->
  Forall (fun q => q < 2 ^ 44) (kp ++ up) ->
  Forall (fun n => ~ borrowed n.1 -> page_ok n.2 /\ n.2 < 2 ^ 44 /\ n.2 ∉ kp ++ up) ns ->
  Forall (fun n => Forall (fun n' => ~ borrowed n.1 -> ~ borrowed n'.1 -> n.2 = n'.2 -> n.1 = n'.1) ns) ns -> owned s root kp up.
Proof.
  intros Hm Hp Hl Hs Hpg Hinj. apply space_owned; [done | | | done]; rewrite Hm.
  - by apply nodes_space.
  - intros i Hi. by apply nodes_low.
Qed.
End Nodes.

(** No entry is at [a]. *)
Lemma mem_of_none es a : entries_ok es -> a mod 8 = 0 -> Forall (fun e => e.1 <> a) es -> load64 (mem_of es) a = 0.
Proof. intros He Ha Hn. destruct (mem_of_load es a He Ha) as [H|H]; [done|]. by destruct (Forall_elem _ _ _ Hn H). Qed.

(** A process with one page of code at 0, the trampoline and the trapframe, as
    [proc_pgtbl_init] and [vm_mappages] leave it; one kernel and one user page are
    free. *)
Definition demo_entries : list (Z * Z) :=
  [(0x80020000 + 8 * 255, mk_pte 0x80021000 PTE_V); (0x80021000 + 8 * 511, mk_pte 0x80022000 PTE_V);
   (0x80022000 + 8 * 511, mk_pte 0x80001000 0xb); (0x80022000 + 8 * 510, mk_pte 0x80030000 0x7);
   (0x80020000, mk_pte 0x80023000 PTE_V); (0x80023000, mk_pte 0x80024000 PTE_V); (0x80024000, mk_pte 0x80120000 0x17)].

Definition demo_nodes : list (list Z * Z) :=
  [([], 0x80020000); ([255], 0x80021000); ([255; 511], 0x80022000); ([255; 511; 511], 0x80001000); ([255; 511; 510], 0x80030000);
   ([0], 0x80023000); ([0; 0], 0x80024000); ([0; 0; 0], 0x80120000)].

Definition demo_space : kstate unit :=
  set_k_mem (mem_of demo_entries) (set_kern_region (mk_region 0x80025000 0x80026000 zero_lock 1 0x80025000)
    (set_user_region (mk_region 0x80121000 0x80122000 zero_lock 1 0x80121000) (bss tt 0))).

Lemma demo_space_nodes : entries_ok demo_entries /\ nodes_of demo_entries demo_nodes /\ ([], 0x80020000) ∈ demo_nodes.
Proof. split_and!; apply (bool_decide_unpack _); by vm_compute. Qed.

Lemma demo_owned : owned demo_space 0x80020000 [0x80025000] [0x80121000].
Proof.
  destruct demo_space_nodes as (He & Hn & Hr).
  assert (forall a, a = 0x80025000 \/ a = 0x80121000 -> load64 (mem_of demo_entries) a = 0) as H0.
  { intros a Ha. apply mem_of_none; [done | by destruct Ha as [-> | ->]|]. destruct Ha as [-> | ->]; apply (bool_decide_unpack _); by vm_compute. }
  apply (nodes_owned demo_entries demo_nodes _ He Hn Hr); [done | | apply (bool_decide_unpack _); by vm_compute..].
  split; [split_and!; [split; [done | by apply H0; left] | done..] | split_and!; [split; [done | by apply H0; right] | done..] | | | done | split; simpl; (lia || done)];
    apply (bool_decide_unpack _); by vm_compute.
Qed.

Lemma uvm_destroy_frees_witness : exists s' ps, uvm_destroy_pgtbl 4 0x80020000 3 demo_space = Ret tt s' /\
  pools s' [0x80025000] (0x80020000 :: ps ++ [0x80121000]) /\ NoDup (0x80020000 :: ps) /\
  (0x80022000 ∈ 0x80020000 :: ps) /\ (0x80120000 ∈ 0x80020000 :: ps) /\ (0x80001000 ∉ 0x80020000 :: ps) /\ (0x80030000 ∉ 0x80020000 :: ps).
Proof.
  destruct (uvm_destroy_frees demo_space 0x80020000 [0x80025000] [0x80121000] 4 3 demo_owned ltac:(lia)) as (s' & ps & Hrun & Hp & Hnd & Hin & _).
  exists s', ps. split; [exact Hrun|]. split; [exact Hp|]. split; [exact Hnd|].
  assert (forall q, q = 0x80001000 \/ q = 0x80030000 -> q ∉ 0x80020000 :: ps) as Hno.
  { intros q Hq Hsp%Hin. apply (space_page_path _ _ _ (proj2 (ow_regular _ _ _ _ demo_owned))) in Hsp as (r & Hr & Hb & Hn).
    destruct demo_space_nodes as (He & Hns & Hroot).
    pose proof (nodes_node demo_entries demo_nodes _ He Hns Hroot r q Hr Hn) as Hd.
    assert (Forall (fun n => (n.2 = 0x80001000 \/ n.2 = 0x80030000) -> borrowed n.1) demo_nodes) as Hbo by (apply (bool_decide_unpack _); by vm_compute).
    exact (Hb (Forall_elem _ _ _ Hbo Hd Hq)). }
  split_and!; [| | by apply Hno; left | by apply Hno; right]; apply Hin.
  - left. exists [255; 511]. split; [split; [simpl; lia|]|]; apply (bool_decide_unpack _); by vm_compute.
  - right. exists 0, (mk_pte 0x80120000 0x17). split; [change VA_MAX with (2 ^ 38); lia|]. split; [split; apply (bool_decide_unpack _); by vm_compute|].
    split; apply (bool_decide_unpack _); by vm_compute.
Defined.
