(* ===== verification/UvmCopy.v ===== *)
(** * UvmCopy: copying an address space (kernel/mem/uvm.c, uvm_copy_pgtbl)

    Two page tables share the allocator; their tables are different pages. *)

From S2P Require Import Prelude Bytes Kstring Spinlock Kernel Pmem Vmem VmemTree VmemSpec Uvm UvmSpec UvmHeap.

Section Loops.
Context {S I : Type}.

Lemma for_each_app (l1 l2 : list I) (f : I -> M S unit) s s1 :
  for_each l1 f s = Ret tt s1 -> for_each (l1 ++ l2) f s = for_each l2 f s1.
Proof.
  revert s. induction l1 as [|i l1 IH]; intros s; cbn [for_each app]; [by intros [= ->]|].
  unfold mbind, M_bind. destruct (f i s) as [[] s2| | | |]; try discriminate. apply IH.
Qed.

Lemma for_each_fmap {J} (g : J -> I) (l : list J) (f : I -> M S unit) s : for_each (g <$> l) f s = for_each l (fun j => f (g j)) s.
Proof. revert s. induction l as [|j l IH]; intros s; [done|]. cbn. unfold mbind, M_bind. destruct (f (g j) s) as [[] s2| | | |]; [apply IH | done..]. Qed.

Lemma for_each_ext (l : list I) (f g : I -> M S unit) s : (forall i, i ∈ l -> f i = g i) -> for_each l f s = for_each l g s.
Proof.
  revert s. induction l as [|j l IH]; intros s H; [done|]. cbn. rewrite H by (apply elem_of_cons; by left).
  unfold mbind, M_bind. destruct (g j s) as [[] s2| | | |]; [|done..]. apply IH. intros i Hi. apply H, elem_of_cons. by right.
Qed.
End Loops.

Section Spec.
Context {D : Type}.
Implicit Types (s : kstate D) (kp up : list Z).

(** A page that is neither free nor a table of one of the two trees. *)
Definition private s old new kp up (q : Z) : Prop := data_page s old kp up q /\ data_page s new kp up q.

Record two_spaces s old new kp up : Prop := {
  ts_old : vm_ok s old kp up;
  ts_new : vm_ok s new kp up;
  ts_sep : forall r a, path_ok r -> node (k_mem s) old r = Some a -> data_page s new kp up a
}.

Lemma data_page_less s s' root kp kp' up up' q : k_mem s' = k_mem s -> (forall x, x ∈ kp' ++ up' -> x ∈ kp ++ up) ->
  data_page s root kp up q -> data_page s' root kp' up' q.
Proof. intros Hm Hsub (Hok & Hn & Hnode). split_and!; [done | by intros ?%Hsub | by rewrite Hm]. Qed.

Lemma data_page_same s s' root kp up q : same_tree (k_mem s) (k_mem s') root -> data_page s root kp up q -> data_page s' root kp up q.
Proof. intros Hst. by apply data_page_tree. Qed.

(** A page of the user region. *)
Lemma take_copy s old new kp n up : two_spaces s old new kp (n :: up) ->
  exists s', pmem_alloc false s = Ret n s' /\ two_spaces s' old new kp up /\ k_mem s' = k_mem s /\ frame_vm s s' /\
    cpu_touch (k_cpu s') = cpu_touch (k_cpu s) /\ private s' old new kp up n.
Proof.
  intros [Ho Hn Hs]. destruct (take_user s old kp n up Ho) as (s1 & H1 & Hv1 & Hm1 & Hf1 & Hc1 & Hd1).
  destruct (take_user s new kp n up Hn) as (s2 & H2 & Hv2 & Hm2 & _ & _ & Hd2). rewrite H1 in H2. injection H2 as <-.
  exists s1. split_and!; try done. split; [done | done|]. intros r a Hr Ha. rewrite Hm1 in Ha.
  apply (data_page_less s s1 _ kp kp (n :: up)); [done | | by apply (Hs r)]. intros x. rewrite !elem_of_app, elem_of_cons. tauto.
Qed.

(** The bytes of page [q] copied to the page [n]. *)
Definition copied_page (m : mem) (n q : Z) : mem := copy_up (Z.to_nat PGSIZE) m n q.

Lemma copied_page_spec m n q x : page_ok n -> page_ok q -> n <> q ->
  load8 (copied_page m n q) x = if decide (n <= x < n + PGSIZE) then load8 m (q + (x - n)) else load8 m x.
Proof.
  intros Hn Hq Hne. unfold copied_page. rewrite copy_up_spec; rewrite Z2Nat.id by done; [done|].
  destruct (page_sep n q Hn Hq Hne); lia.
Qed.

Lemma private_outside s old new kp up q m' : two_spaces s old new kp up -> private s old new kp up q ->
  (forall x, ~ (q <= x < q + PGSIZE) -> load8 m' x = load8 (k_mem s) x) ->
  two_spaces (set_k_mem m' s) old new kp up /\ same_tree (k_mem s) (k_mem (set_k_mem m' s)) old /\
  same_tree (k_mem s) (k_mem (set_k_mem m' s)) new.
Proof.
  intros [Ho Hn Hs] [Hqo Hqn] Hm.
  destruct (plain_write s old kp up m' Ho) as [Hvo Hto].
  { intros x Hx. apply Hm. intros Hr. apply Hx. by apply (data_page_plain s old kp up q). }
  destruct (plain_write s new kp up m' Hn) as [Hvn Htn].
  { intros x Hx. apply Hm. intros Hr. apply Hx. by apply (data_page_plain s new kp up q). }
  split_and!; [|done..]. split; [done | done|]. intros r a Hr. rewrite k_mem_set, (same_tree_node _ _ _ Hto r Hr). intros Ha.
  apply (data_page_same s); [by rewrite k_mem_set | by apply (Hs r)].
Qed.

(** The new tree grows, the old one stays. *)
Lemma two_spaces_grow s s' old new kp kp' up : two_spaces s old new kp up -> grows s s' new kp kp' up ->
  two_spaces s' old new kp' up /\ same_tree (k_mem s) (k_mem s') old /\
  (forall p, private s old new kp up p -> private s' old new kp' up p /\ forall x, p <= x < p + PGSIZE -> load8 (k_mem s') x = load8 (k_mem s) x).
Proof.
  intros [Ho Hn Hs] Hg. assert (forall p, data_page s new kp up p -> forall x, p <= x < p + PGSIZE -> load8 (k_mem s') x = load8 (k_mem s) x) as Hkeep.
  { intros p Hp x Hx. apply (g_mem _ _ _ _ _ _ Hg). apply (data_page_plain s' new kp' up p x); [apply Hg | by apply (data_page_grows s s' new kp) | done]. }
  assert (same_tree (k_mem s) (k_mem s') old) as Hst.
  { intros r a i Hr Ha Hi. apply load64_ext. intros x Hx. apply (Hkeep a (Hs r a Hr Ha)). unfold PGSIZE. lia. }
  assert (forall x, x ∈ kp' ++ up -> x ∈ kp ++ up) as Hsub.
  { destruct (g_used _ _ _ _ _ _ Hg) as [u ->]. intros x. rewrite !elem_of_app. tauto. }
  split_and!; [| done |].
  - split; [split; [apply Hg |] | apply Hg |].
    + apply (same_tree_pt _ _ _ _ _ Hst (vm_tree _ _ _ _ Ho)). intros r a Hr Ha Hin.
      by apply (proj2 (pt_pages _ _ _ (vm_tree _ _ _ _ Ho) r a Hr Ha)), Hsub.
    + intros r a Hr. rewrite (same_tree_node _ _ _ Hst r Hr). intros Ha. by apply (data_page_grows s s' new kp), (Hs r).
  - intros p [Hpo Hpn]. split; [split; [|by apply (data_page_grows s s' new kp)] | by apply Hkeep].
    destruct Hpo as (Hok & Hnin & Hnn). split_and!; [done | by intros ?%Hsub |]. intros r Hr. rewrite (same_tree_node _ _ _ Hst r Hr). by apply Hnn.
Qed.

Lemma PTE_FLAGS_range v : 0 <= PTE_FLAGS v < 1024.
Proof. unfold PTE_FLAGS. change 0x3ff with (Z.ones 10). rewrite Z.land_ones by done. by apply Z.mod_pos_bound. Qed.

Lemma PTE_FLAGS_V v : pte_valid v = true -> Z.lor (PTE_FLAGS v) PTE_V = PTE_FLAGS v.
Proof.
  rewrite pte_valid_odd. intros Hv. pose proof (PTE_FLAGS_range v) as Hr. apply Z.bits_inj'. intros i Hi. rewrite Z.lor_spec.
  destruct (decide (i = 0)) as [->|Hne].
  - unfold PTE_FLAGS. change 0x3ff with (Z.ones 10). rewrite Z.land_spec, Z.testbit_ones_nonneg by done. rewrite (Z.bit0_odd v), Hv. done.
  - rewrite (Z.bits_above_log2 PTE_V i); [by rewrite orb_false_r | done | change (Z.log2 PTE_V) with 0; lia].
Qed.

(** What the copy into page [n] achieves. *)
Record copied_va s s' old new kp kp' up n : Prop := {
  cv_ok : two_spaces s' old new kp' up;
  cv_frame : frame_vm s s';
  cv_cpu : cpu_touch (k_cpu s') = cpu_touch (k_cpu s);
  cv_tree : same_tree (k_mem s) (k_mem s') old;
  cv_cost : Z.of_nat (length kp) <= Z.of_nat (length kp') + 2;
  cv_used : exists used, kp = used ++ kp';
  cv_page : private s' old new kp' up n;
  cv_keep : forall p, private s old new kp (n :: up) p -> private s' old new kp' up p /\
              forall x, p <= x < p + PGSIZE -> load8 (k_mem s') x = load8 (k_mem s) x
}.

Lemma copy_one s old new kp n up va v : two_spaces s old new kp (n :: up) -> 0 <= va -> va mod PGSIZE = 0 -> va + PGSIZE <= VA_MAX ->
  pt_map (k_mem s) old va = Some v -> private s old new kp (n :: up) (PTE_TO_PA v) -> n < 2 ^ 63 -> 2 <= Z.of_nat (length kp) ->
  exists s' kp', copy_page old new va s = Ret tt s' /\ copied_va s s' old new kp kp' up n /\
    (forall x, 0 <= x < VA_MAX -> pt_map (k_mem s') new x =
       if decide (page_of x = page_of va) then Some (mk_pte n (PTE_FLAGS v)) else pt_map (k_mem s) new x) /\
    (forall i, 0 <= i < PGSIZE -> load8 (k_mem s') (n + i) = load8 (k_mem s) (PTE_TO_PA v + i)).
Proof.
  intros Hts H0 Ha Hmax Hmap Hq Hn Hkp. set (q := PTE_TO_PA v) in *. destruct (pt_map_inv _ _ _ _ Hmap) as (a & Hleaf & Hload & Hvalid).
  destruct (vm_getpte_lookup s old kp _ va (ts_old _ _ _ _ _ Hts)) as [Hget _]. specialize (Hget ltac:(unfold PGSIZE in *; lia)). rewrite Hleaf in Hget.
  destruct (take_copy s old new kp n up Hts) as (sa & Hsa & Htsa & Hma & Hfa & Hca & Hpa).
  assert (n ∈ kp ++ n :: up) as Hnin by (rewrite elem_of_app, elem_of_cons; tauto).
  assert (n <> q) as Hne by (intros Heq; rewrite Heq in Hnin at 1; by apply Hq in Hnin).
  pose proof (proj1 (proj1 Hpa)) as Hnok. pose proof (proj1 (proj1 Hq)) as Hqok.
  set (mb := copied_page (k_mem sa) n q).
  destruct (private_outside sa old new kp up n mb Htsa Hpa) as (Htsb & Htob & Htnb).
  { intros x Hx. unfold mb. by rewrite copied_page_spec, decide_False. }
  set (sb := set_k_mem mb sa) in *.
  assert (copy_bytes n q PGSIZE sa = Ret tt sb) as Hcopy by (unfold sb, mb, copied_page; apply copy_bytes_eq; [apply Hnok | apply Hqok]).
  destruct (map_one_page sb new kp up va n (PTE_FLAGS v)) as (s' & kp' & Hs' & Hg & Hl & Hm'); try done; [apply Htsb | apply PTE_FLAGS_range |].
  destruct (two_spaces_grow sb s' old new kp kp' up Htsb Hg) as (Hts' & Hto' & Hkeep').
  assert (private sb old new kp up n) as Hpb.
  { destruct Hpa as [Hpo Hpn]. split; eapply data_page_same; [|exact Hpo| |exact Hpn]; done. }
  exists s', kp'. split_and!.
  - unfold copy_page. mstep ltac:(exact Hget). cbv iota. unfold mem64. mrun. rewrite Hload, Hvalid. unfold when. mrun.
    mstep ltac:(exact Hsa). rewrite (proj2 (Z.eqb_neq n 0)) by (destruct Hnok; lia).
    mstep ltac:(exact Hcopy). exact Hs'.
  - split.
    + done.
    + etransitivity; [exact Hfa|]. etransitivity; [apply (frame_set_k_mem mb) | apply Hg].
    + rewrite (g_cpu _ _ _ _ _ _ Hg), <- Hca. unfold sb. by rewrite k_cpu_set.
    + intros r b i Hr Hb Hi. rewrite <- Hma in Hb |- *. rewrite (Hto' r b i Hr); [| by rewrite (same_tree_node _ _ _ Htob r Hr) | done].
      by apply (Htob r).
    + lia.
    + apply Hg.
    + by apply Hkeep'.
    + intros p Hp. assert (private sb old new kp up p) as Hpp.
      { destruct Hp as [Hpo Hpn]. split; (eapply data_page_same; [|eapply data_page_less; [exact Hma | | done]]); try done;
          intros x; rewrite !elem_of_app, elem_of_cons; tauto. }
      destruct (Hkeep' p Hpp) as [Hp' Hx']. split; [done|]. intros x Hx. rewrite (Hx' x Hx). unfold sb. rewrite k_mem_set. unfold mb.
      rewrite copied_page_spec by done. rewrite decide_False, Hma; [done|]. intros Hr. pose proof (proj1 (proj1 Hp)) as Hpok.
      assert (p <> n) as Hpn by (intros ->; by apply (proj1 (proj2 (proj1 Hp)))). destruct (page_sep p n Hpok Hnok Hpn); lia.
  - intros x Hx. rewrite Hm' by done. rewrite (PTE_FLAGS_V v Hvalid). case_decide; [done|]. rewrite <- Hma. by apply same_tree_map.
  - intros i Hi. destruct (Hkeep' n Hpb) as [_ Hx']. rewrite Hx' by lia. unfold sb. rewrite k_mem_set. unfold mb.
    rewrite copied_page_spec, decide_True by (done || lia). rewrite Hma. f_equal. lia.
Qed.

Lemma copy_none s old new kp up va : two_spaces s old new kp up -> 0 <= va < VA_MAX -> pt_map (k_mem s) old va = None -> copy_page old new va s = Ret tt s.
Proof.
  intros Hts Hva Hmap. destruct (vm_getpte_lookup s old kp up va (ts_old _ _ _ _ _ Hts)) as [Hget _]. specialize (Hget (proj2 Hva)).
  unfold copy_page. mstep ltac:(exact Hget). unfold pt_map in Hmap. destruct (leaf (k_mem s) old va) as [a|]; [|done].
  cbn [mbind option_bind] in Hmap. cbv zeta in Hmap. unfold mem64. mrun. by destruct (pte_valid (load64 (k_mem s) a)).
Qed.

(** ** The loops *)

Definition va_ok (va : Z) : Prop := 0 <= va /\ va mod PGSIZE = 0 /\ va + PGSIZE <= VA_MAX.

Lemma va_ok_range va : va_ok va -> 0 <= va < VA_MAX.
Proof. unfold va_ok, PGSIZE. lia. Qed.

Lemma va_ok_inj va va' : va_ok va -> va_ok va' -> page_of va = page_of va' -> va = va'.
Proof. intros (_ & Ha & _) (_ & Ha' & _) Hp. unfold page_of, PGSIZE in *. divmod va 4096. divmod va' 4096. lia. Qed.

(** [x] of the old space has a copy in the new one. *)
Definition has_copy s s' old new kp' up up' x : Prop := forall v, pt_map (k_mem s) old x = Some v ->
  exists n, n ∈ up /\ pt_map (k_mem s') new x = Some (mk_pte n (PTE_FLAGS v)) /\ private s' old new kp' up' n /\
    forall i, 0 <= i < PGSIZE -> load8 (k_mem s') (n + i) = load8 (k_mem s) (PTE_TO_PA v + i).

Record copied_all s s' old new kp kp' up up' (l : list Z) : Prop := {
  c_ok : two_spaces s' old new kp' up';
  c_frame : frame_vm s s';
  c_cpu : cpu_touch (k_cpu s') = cpu_touch (k_cpu s);
  c_tree : same_tree (k_mem s) (k_mem s') old;
  c_used : exists used, kp = used ++ kp';
  c_usedu : exists used, up = used ++ up';
  c_keep : forall p, private s old new kp up p -> private s' old new kp' up' p /\ forall x, p <= x < p + PGSIZE -> load8 (k_mem s') x = load8 (k_mem s) x;
  c_other : forall x, 0 <= x < VA_MAX -> (forall va, va ∈ l -> page_of x <> page_of va) \/ pt_map (k_mem s) old x = None ->
    pt_map (k_mem s') new x = pt_map (k_mem s) new x;
  c_copy : forall va x, va ∈ l -> 0 <= x < VA_MAX -> page_of x = page_of va -> has_copy s s' old new kp' up up' x
}.

Definition mapped_count (m : mem) (old : Z) (l : list Z) : nat := length (filter (fun va => is_Some (pt_map m old va)) l).

Lemma mapped_count_same m m' old l : same_tree m m' old -> mapped_count m' old l = mapped_count m old l.
Proof.
  intros Hst. unfold mapped_count. induction l as [|va l IH]; [done|]. rewrite !filter_cons. rewrite (same_tree_map _ _ _ va Hst).
  case_decide; simpl; by rewrite IH.
Qed.

Lemma copied_nil s old new kp up : two_spaces s old new kp up -> copied_all s s old new kp kp up up [].
Proof. intros Hts. split; try done; [by exists [] | by exists [] | intros va x Hin; by apply elem_of_nil in Hin]. Qed.

(** The first page has no mapping. *)
Lemma copied_skip s s' old new kp kp' up up' va l : va_ok va -> pt_map (k_mem s) old va = None ->
  copied_all s s' old new kp kp' up up' l -> copied_all s s' old new kp kp' up up' (va :: l).
Proof.
  intros Hva Hmap [H1 H2 Hcpu H3 H4 H5 H6 H7 H8]. split; try done.
  - intros x Hx [Hno|Hnone]; apply H7; [done | left | done | by right]. intros va' Hin. apply Hno, elem_of_cons. by right.
  - intros va' x [->|Hin]%elem_of_cons Hx Hp; [|by apply (H8 va' x)]. intros v Hv.
    rewrite (pt_map_page _ _ x va Hx (va_ok_range _ Hva) Hp) in Hv. congruence.
Qed.

Lemma copied_step s s1 s' old new kp kp1 kp' n up up' va v l : va_ok va -> Forall va_ok l -> va ∉ l ->
  (forall x v, 0 <= x < VA_MAX -> pt_map (k_mem s) old x = Some v -> private s old new kp (n :: up) (PTE_TO_PA v)) ->
  pt_map (k_mem s) old va = Some v -> copied_va s s1 old new kp kp1 up n ->
  (forall x, 0 <= x < VA_MAX -> pt_map (k_mem s1) new x = if decide (page_of x = page_of va) then Some (mk_pte n (PTE_FLAGS v)) else pt_map (k_mem s) new x) ->
  (forall i, 0 <= i < PGSIZE -> load8 (k_mem s1) (n + i) = load8 (k_mem s) (PTE_TO_PA v + i)) ->
  copied_all s1 s' old new kp1 kp' up up' l -> copied_all s s' old new kp kp' (n :: up) up' (va :: l).
Proof.
  intros Hva Hl Hnin Hpriv Hmap [K1 K2 Kcpu K3 K4 K5 K6 K7] Hnew Hbytes [H1 H2 Hcpu H3 H4 H5 H6 H7 H8].
  assert (forall x, 0 <= x < VA_MAX -> page_of x = page_of va -> forall va', va' ∈ l -> page_of x <> page_of va') as Hother.
  { intros x _ Hp va' Hin He. apply Hnin. rewrite (va_ok_inj va va'); [done | done | by apply (Forall_elem _ _ _ Hl) | congruence]. }
  split.
  - done.
  - by etransitivity.
  - by rewrite Hcpu.
  - intros r a i Hr Ha Hi. rewrite (H3 r a i Hr); [by apply (K3 r) | by rewrite (same_tree_node _ _ _ K3 r Hr) | done].
  - destruct K5 as [u ->], H4 as [u' ->]. exists (u ++ u'). by rewrite app_assoc.
  - destruct H5 as [u ->]. by exists (n :: u).
  - intros p Hp. destruct (K7 p Hp) as [Hp1 Hx1]. destruct (H6 p Hp1) as [Hp2 Hx2]. split; [done|]. intros x Hx. by rewrite Hx2, Hx1.
  - intros x Hx Hc. rewrite H7; [| done |].
    + rewrite Hnew by done. rewrite decide_False; [done|]. intros Hp. destruct Hc as [Hno|Hnone]; [by apply (Hno va); [apply elem_of_cons; left|]|].
      rewrite (pt_map_page _ _ x va Hx (va_ok_range _ Hva) Hp) in Hnone. congruence.
    + destruct Hc as [Hno|Hnone]; [left; intros va' Hin; apply Hno, elem_of_cons; by right | right; by rewrite (same_tree_map _ _ _ x K3)].
  - intros va' x [->|Hin]%elem_of_cons Hx Hp w Hw.
    + assert (w = v) as -> by (rewrite (pt_map_page _ _ x va Hx (va_ok_range _ Hva) Hp) in Hw; congruence).
      exists n. destruct (H6 n K6) as [Hn Hb]. split_and!; [apply elem_of_cons; by left | | done |].
      * rewrite H7 by (done || (left; by apply Hother)). rewrite Hnew by done. by rewrite decide_True.
      * intros i Hi. rewrite Hb by lia. by apply Hbytes.
    + destruct (H8 va' x Hin Hx Hp w) as (n' & Hn' & Hm' & Hp' & Hb'); [by rewrite (same_tree_map _ _ _ x K3)|].
      exists n'. split_and!; [apply elem_of_cons; by right | done | done |]. intros i Hi. rewrite Hb' by done.
      destruct (K7 (PTE_TO_PA w) (Hpriv x w Hx Hw)) as [_ Hk]. apply Hk. lia.
Qed.

Lemma copy_all old new l : forall s kp up, two_spaces s old new kp up -> Forall va_ok l -> NoDup l ->
  (forall x v, 0 <= x < VA_MAX -> pt_map (k_mem s) old x = Some v -> private s old new kp up (PTE_TO_PA v)) ->
  (mapped_count (k_mem s) old l <= length up)%nat -> Forall (fun n => n < 2 ^ 63) up -> 2 * Z.of_nat (length l) <= Z.of_nat (length kp) ->
  exists s' kp' up', for_each l (copy_page old new) s = Ret tt s' /\ copied_all s s' old new kp kp' up up' l.
Proof.
  induction l as [|va l IH]; intros s kp up Hts Hl Hnd Hpriv Hcnt Hup Hkp.
  { exists s, kp, up. split; [done | by apply copied_nil]. }
  apply list.Forall_cons in Hl as [Hva Hl]. apply NoDup_cons in Hnd as [Hnin Hnd]. cbn [for_each length] in *.
  unfold mapped_count in Hcnt. rewrite filter_cons in Hcnt. destruct (pt_map (k_mem s) old va) as [v|] eqn:Hmap.
  - rewrite decide_True in Hcnt by done. cbn [length] in Hcnt. destruct up as [|n up]; cbn [length] in Hcnt; [lia|].
    apply list.Forall_cons in Hup as [Hn Hup]. pose proof Hva as (H0 & Ha & Hmax).
    destruct (copy_one s old new kp n up va v Hts H0 Ha Hmax Hmap) as (s1 & kp1 & H1 & Hc1 & Hnew & Hb); [by apply (Hpriv va); [apply va_ok_range|] | done | lia |].
    destruct (IH s1 kp1 up) as (s2 & kp2 & up2 & H2 & Hc2); [apply Hc1 | done | done | | | done | |].
    + intros x w Hx. rewrite (same_tree_map _ _ _ x (cv_tree _ _ _ _ _ _ _ _ Hc1)). intros Hw. by apply (cv_keep _ _ _ _ _ _ _ _ Hc1), (Hpriv x).
    + rewrite (mapped_count_same _ _ _ _ (cv_tree _ _ _ _ _ _ _ _ Hc1)). unfold mapped_count. lia.
    + pose proof (cv_cost _ _ _ _ _ _ _ _ Hc1). lia.
    + exists s2, kp2, up2. split; [by rewrite (bind_ret_eq _ _ _ _ _ H1)|]. by eapply copied_step.
  - rewrite decide_False in Hcnt by (intros [? [=]]). destruct (IH s kp up) as (s2 & kp2 & up2 & H2 & Hc2); try done; [lia|].
    exists s2, kp2, up2. split; [| by apply copied_skip].
    by rewrite (bind_ret_eq _ _ _ tt s (copy_none s old new kp up va Hts (va_ok_range _ Hva) Hmap)).
Qed.

(** ** A second, empty address space *)

Lemma new_space s old p kp up : vm_ok s old (p :: kp) up ->
  exists s1 s', pmem_alloc true s = Ret p s1 /\ mem_set p 0 PGSIZE s1 = Ret tt s' /\ two_spaces s' old p kp up /\ frame_vm s s' /\
    cpu_touch (k_cpu s') = cpu_touch (k_cpu s) /\ same_tree (k_mem s) (k_mem s') old /\ (forall x, pt_map (k_mem s') p x = None) /\
    (forall q, private s old p (p :: kp) up q \/ data_page s old (p :: kp) up q -> private s' old p kp up q) /\
    (forall x, ~ (p <= x < p + PGSIZE) -> load8 (k_mem s') x = load8 (k_mem s) x) /\
    (forall i, 0 <= i < 512 -> load64 (k_mem s') (p + 8 * i) = 0).
Proof.
  intros Hv. pose proof (vm_pools _ _ _ _ Hv) as Hpools. destruct (take_page s old p kp up Hv) as (s1 & H1 & Hv1 & Hm1 & Hf1 & Hc1 & Hp).
  destruct (pools_cons_inv _ _ _ _ (kp ++ up) Hpools (reflexivity _)) as (Hpn & _ & _ & _).
  destruct (clear_root s1 p kp up (vm_pools _ _ _ _ Hv1) Hp Hpn) as (s' & H2 & Hs' & Hv2 & Hnone & Hz & Hout).
  assert (forall r, path_ok r -> node (k_mem s) old r <> Some p) as Hnn.
  { intros r Hr Ha. apply (proj2 (pt_pages _ _ _ (vm_tree _ _ _ _ Hv) r p Hr Ha)). apply elem_of_app. left. apply elem_of_cons. by left. }
  assert (data_page s1 old kp up p) as Hd1 by (split_and!; [done | done | by rewrite Hm1]).
  destruct (plain_write s1 old kp up (k_mem s') Hv1) as [Hvo Hto].
  { intros x Hx. apply Hout. intros Hr. apply Hx. by apply (data_page_plain s1 old kp up p). }
  assert (forall r a, path_ok r -> node (k_mem s') p r = Some a -> a = p) as Honly.
  { intros [|i r] a [_ Hr] Ha; [by injection Ha|]. apply list.Forall_cons in Hr as [Hi _]. cbn [node] in Ha. rewrite Hz in Ha by done. by vm_compute in Ha. }
  assert (forall q, page_ok q -> q ∉ kp ++ up -> q <> p -> data_page s' p kp up q) as Hdp.
  { intros q Hok Hn Hne. split_and!; [done | done |]. intros r Hr Ha. by apply Hne, (Honly r). }
  exists s1, s'. split_and!; [done | done | | | by rewrite Hs' | | done | | | done].
  - split; [by rewrite Hs' | done |]. intros r a Hr. rewrite (same_tree_node _ _ _ Hto r Hr), Hm1. intros Ha.
    destruct (pt_pages _ _ _ (vm_tree _ _ _ _ Hv) r a Hr Ha) as [Hok Hn]. apply Hdp; [done | | intros ->; by apply (Hnn r)].
    intros Hin. apply Hn. cbn [app]. apply elem_of_cons. by right.
  - etransitivity; [exact Hf1|]. rewrite Hs'. apply frame_set_k_mem.
  - rewrite <- Hm1. exact Hto.
  - intros q Hq. assert (data_page s old (p :: kp) up q) as (Hok & Hn & Hnode) by (by destruct Hq as [[? _]|?]).
    assert (q ∉ kp ++ up) as Hn' by (intros Hin; apply Hn; cbn [app]; apply elem_of_cons; by right).
    split.
    + apply (data_page_same s1); [done|]. split_and!; [done | done | by rewrite Hm1].
    + apply Hdp; [done | done | intros ->; apply Hn; cbn [app]; apply elem_of_cons; by left].
  - intros x Hx. by rewrite Hout, Hm1.
Qed.

(** ** [uvm_copy_pgtbl] *)

Definition heap_vas (heap_top : Z) : list Z := page_list (npages 0 heap_top) 0.
Definition stack_vas (u : Z) : list Z := (fun i => USTACK_BASE - i * PGSIZE) <$> seqZ 0 u.

Lemma copy_heap_loop_each old new top : top <= VA_MAX -> forall n va s, n = npages va top -> 0 <= va ->
  copy_heap_loop n old new va top s = for_each (page_list n va) (copy_page old new) s.
Proof.
  intros Htop. induction n as [|n IH]; intros va s Hn Hva; cbn [copy_heap_loop page_list for_each].
  - destruct (Z.ltb_spec va top) as [Hlt|]; [|done]. rewrite npages_step in Hn by done. done.
  - destruct (Z.ltb_spec va top) as [Hlt|Hge]; [|by rewrite npages_end in Hn].
    rewrite npages_step in Hn by done. injection Hn as Hn. assert (VA_MAX = 2 ^ 38) as HV by done. rewrite u64_small by (unfold PGSIZE; lia).
    unfold mbind, M_bind. destruct (copy_page old new va s) as [[] s1| | | |]; try done. apply IH; [done | unfold PGSIZE; lia].
Qed.

Lemma copy_pgtbl_each old new top u s : top <= VA_MAX -> 0 <= u <= 2 ^ 19 ->
  uvm_copy_pgtbl old new top u s = (for_each (heap_vas top) (copy_page old new);; for_each (stack_vas u) (copy_page old new)) s.
Proof.
  intros Htop Hu. unfold uvm_copy_pgtbl. unfold mbind at 1 2, M_bind at 1 2. rewrite copy_heap_loop_each by done. fold (heap_vas top).
  destruct (for_each (heap_vas top) _ s) as [[] s1| | | |]; try done. unfold stack_vas. rewrite for_each_fmap.
  apply for_each_ext. intros i Hi%elem_of_seqZ. f_equal. change USTACK_BASE with (2 ^ 38 - 3 * 4096). unfold PGSIZE.
  rewrite (u32_small (i * 4096)) by lia. apply u64_small. lia.
Qed.

Definition covered (top u x : Z) : Prop :=
  0 <= x < Z.of_nat (npages 0 top) * PGSIZE \/ USTACK_BASE + PGSIZE - u * PGSIZE <= x < USTACK_BASE + PGSIZE.

Lemma npages_heap top : 0 <= top -> top <= Z.of_nat (npages 0 top) * PGSIZE < top + PGSIZE.
Proof. intros H. unfold npages, PGSIZE. rewrite Z2Nat.id by (apply Z.div_pos; lia). divmod (top - 0 + 4096 - 1) 4096. lia. Qed.

Lemma page_list_elem k a i : 0 <= i < Z.of_nat k -> a + i * PGSIZE ∈ page_list k a.
Proof.
  revert a i. induction k as [|k IH]; intros a i Hi; [lia|]. cbn [page_list]. apply elem_of_cons. destruct (decide (i = 0)) as [->|Hne]; [left; lia|].
  right. replace (a + i * PGSIZE) with (a + PGSIZE + (i - 1) * PGSIZE) by lia. apply IH. lia.
Qed.

Lemma vas_ok top u : 0 <= top -> 0 <= u -> top + u * PGSIZE <= USTACK_BASE + PGSIZE -> Forall va_ok (heap_vas top ++ stack_vas u) /\ NoDup (heap_vas top ++ stack_vas u).
Proof.
  intros Ht Hu Hb. pose proof (npages_heap top Ht) as Hn. change USTACK_BASE with (2 ^ 38 - 3 * 4096) in Hb. unfold PGSIZE in Hb, Hn.
  assert (forall va, va ∈ heap_vas top -> exists i, 0 <= i < Z.of_nat (npages 0 top) /\ va = i * 4096) as Hheap.
  { intros va Hin. apply elem_of_page_list in Hin as (i & Hi & ->). exists i. split; [done | unfold PGSIZE; lia]. }
  assert (forall va, va ∈ stack_vas u -> exists i, 0 <= i < u /\ va = 2 ^ 38 - 3 * 4096 - i * 4096) as Hstack.
  { intros va Hin. apply list_elem_of_fmap in Hin as (i & -> & Hi%elem_of_seqZ). exists i. split; [lia | done]. }
  split.
  - apply Forall_of_elem. intros va [Hin|Hin]%elem_of_app; unfold va_ok, PGSIZE; change VA_MAX with (2 ^ 38).
    + destruct (Hheap va Hin) as (i & Hi & ->). rewrite Z.mod_mul by done. lia.
    + destruct (Hstack va Hin) as (i & Hi & ->). split_and!; [lia | | lia].
      replace (2 ^ 38 - 3 * 4096 - i * 4096) with ((2 ^ 26 - 3 - i) * 4096) by lia. by rewrite Z.mod_mul.
  - apply NoDup_app. split_and!.
    + apply NoDup_page_list.
    + intros va Hin Hin'. destruct (Hheap va Hin) as (i & Hi & ->), (Hstack _ Hin') as (j & Hj & He). lia.
    + unfold stack_vas. apply NoDup_fmap_2; [intros i j; unfold PGSIZE; lia | apply NoDup_seqZ].
Qed.

Lemma covered_page top u x : 0 <= top -> 0 <= u -> top + u * PGSIZE <= USTACK_BASE + PGSIZE -> 0 <= x ->
  covered top u x <-> exists va, va ∈ heap_vas top ++ stack_vas u /\ page_of x = page_of va.
Proof.
  intros Ht Hu Hb Hx. pose proof (npages_heap top Ht) as Hn. unfold covered. change USTACK_BASE with (2 ^ 38 - 3 * 4096) in *. unfold PGSIZE in *.
  setoid_rewrite elem_of_app. split.
  - intros [Hc|Hc].
    + exists (x / 4096 * 4096). split.
      * left. replace (x / 4096 * 4096) with (0 + x / 4096 * PGSIZE) by (unfold PGSIZE; lia). apply page_list_elem. divmod x 4096. lia.
      * unfold page_of, PGSIZE. by rewrite Z.div_mul.
    + exists (x / 4096 * 4096). split.
      * right. apply list_elem_of_fmap. exists (2 ^ 26 - 3 - x / 4096). rewrite elem_of_seqZ. change USTACK_BASE with (2 ^ 38 - 3 * 4096). unfold PGSIZE.
        divmod x 4096. lia.
      * unfold page_of, PGSIZE. by rewrite Z.div_mul.
  - intros (va & [Hin|Hin] & Hp); unfold page_of, PGSIZE in Hp.
    + apply elem_of_page_list in Hin as (i & Hi & ->). left. unfold PGSIZE in Hp. rewrite Z.add_0_l, Z.div_mul in Hp by done. divmod x 4096. lia.
    + apply list_elem_of_fmap in Hin as (i & -> & Hi%elem_of_seqZ). right. change USTACK_BASE with (2 ^ 38 - 3 * 4096) in Hp. unfold PGSIZE in Hp.
      replace (2 ^ 38 - 3 * 4096 - i * 4096) with ((2 ^ 26 - 3 - i) * 4096) in Hp by lia. rewrite Z.div_mul in Hp by done. divmod x 4096. lia.
Qed.

Lemma has_copy_uload s s' old new kp' up up' x v : has_copy s s' old new kp' up up' x -> pt_map (k_mem s) old x = Some v ->
  exists n, n ∈ up /\ pt_map (k_mem s') new x = Some (mk_pte n (PTE_FLAGS v)) /\ uload (k_mem s') new x = uload (k_mem s) old x.
Proof.
  intros Hc Hv. destruct (Hc v Hv) as (n & Hn & Hm & Hp & Hb). exists n. split_and!; [done..|].
  unfold uload, phys. rewrite Hm, Hv. cbn [mbind option_bind fmap option_fmap option_map]. destruct (proj1 (proj1 Hp)) as (Hn0 & Hal & Hn64).
  rewrite PTE_TO_PA_mk; [| unfold PGSIZE in *; lia | done | apply PTE_FLAGS_range]. f_equal. apply Hb. by apply Z.mod_pos_bound.
Qed.

(** What a copy needs: the stack above the heap, mapped pages that belong to the
    process, free pages for them and for the tables. *)
Record copy_ready s old new kp up top u : Prop := {
  cr_top : 0 <= top;
  cr_u : 0 <= u;
  cr_apart : top + u * PGSIZE <= USTACK_BASE + PGSIZE;
  cr_private : forall x v, 0 <= x < VA_MAX -> pt_map (k_mem s) old x = Some v -> private s old new kp up (PTE_TO_PA v);
  cr_user : (mapped_count (k_mem s) old (heap_vas top ++ stack_vas u) <= length up)%nat;
  cr_low : Forall (fun n => n < 2 ^ 63) up;
  cr_tables : 2 * (Z.of_nat (npages 0 top) + u) <= Z.of_nat (length kp) < 2 ^ 20
}.

Lemma uvm_copy_ok s old new kp up top u : two_spaces s old new kp up -> copy_ready s old new kp up top u ->
  exists s' kp' up', uvm_copy_pgtbl old new top u s = Ret tt s' /\ copied_all s s' old new kp kp' up up' (heap_vas top ++ stack_vas u).
Proof.
  intros Hts [Ht Hu Hb Hpriv Hcnt Hup Hkp]. destruct (vas_ok top u Ht Hu Hb) as [Hok Hnd].
  destruct (copy_all old new (heap_vas top ++ stack_vas u) s kp up Hts Hok Hnd Hpriv Hcnt Hup) as (s' & kp' & up' & Hrun & Hc).
  { rewrite length_app. unfold heap_vas, stack_vas. rewrite length_page_list, length_fmap, length_seqZ. lia. }
  assert (top <= VA_MAX) as Htop by (change USTACK_BASE with (2 ^ 38 - 3 * 4096) in Hb; change VA_MAX with (2 ^ 38); unfold PGSIZE in Hb; lia).
  exists s', kp', up'. split; [|done]. rewrite copy_pgtbl_each by (done || lia). rewrite <- Hrun. clear - s. revert s.
  induction (heap_vas top) as [|va l IH]; intros s; [done|].
  cbn [for_each app]. unfold mbind, M_bind in *. destruct (copy_page old new va s) as [[] s1| | | |]; [apply IH | done..].
Qed.

(** C20: [uvm_copy_pgtbl] gives the child of a fork a copy of its own of the parent's
    memory: at every address of the heap and of the user stack the child reads the
    byte the parent reads, with the same permissions, from pages that were free
    before; the parent's address space, its bytes and every other mapping are
    unchanged, and the loops end. *)
Theorem uvm_copy_pgtbl_copies s old new kp up top u : two_spaces s old new kp up -> copy_ready s old new kp up top u ->
  exists s' kp' up', uvm_copy_pgtbl old new top u s = Ret tt s' /\ two_spaces s' old new kp' up' /\ frame_vm s s' /\
    (forall x, 0 <= x < VA_MAX -> uload (k_mem s') old x = uload (k_mem s) old x /\ pt_map (k_mem s') old x = pt_map (k_mem s) old x) /\
    (forall x v, 0 <= x < VA_MAX -> covered top u x -> pt_map (k_mem s) old x = Some v ->
       exists n, n ∈ up /\ pt_map (k_mem s') new x = Some (mk_pte n (PTE_FLAGS v)) /\ uload (k_mem s') new x = uload (k_mem s) old x) /\
    (forall x, 0 <= x < VA_MAX -> ~ covered top u x \/ pt_map (k_mem s) old x = None -> pt_map (k_mem s') new x = pt_map (k_mem s) new x).
Proof.
  intros Hts Hr. destruct (uvm_copy_ok s old new kp up top u Hts Hr) as (s' & kp' & up' & Hrun & Hc). destruct Hr as [Ht Hu Hb Hpriv _ _ _].
  exists s', kp', up'. split_and!; [done | apply Hc | apply Hc | | |].
  - intros x Hx. pose proof (same_tree_map _ _ _ x (c_tree _ _ _ _ _ _ _ _ _ Hc)) as Hmap. split; [|done]. unfold uload, phys. rewrite Hmap.
    destruct (pt_map (k_mem s) old x) as [v|] eqn:Hv; [|done]. cbn. f_equal. apply (c_keep _ _ _ _ _ _ _ _ _ Hc (PTE_TO_PA v)); [by apply (Hpriv x)|].
    pose proof (Z.mod_pos_bound x PGSIZE ltac:(done)). lia.
  - intros x v Hx Hcov Hv. apply (covered_page top u x Ht Hu Hb (proj1 Hx)) in Hcov as (va & Hin & Hp).
    by apply (has_copy_uload s s' old new kp' up up'); [apply (c_copy _ _ _ _ _ _ _ _ _ Hc va)|].
  - intros x Hx Hno. apply (c_other _ _ _ _ _ _ _ _ _ Hc x Hx). destruct Hno as [Hno|Hno]; [left | by right].
    intros va Hin Hp. apply Hno, (covered_page top u x Ht Hu Hb (proj1 Hx)). by exists va.
Qed.
End Spec.

(** A parent with one page at 0x1000, and the empty address space of its child. *)
Lemma demo_fork : exists (s : kstate unit) new kp, two_spaces s 0x80020000 new kp (page_list 255 0x80121000) /\ (240 <= length kp < 256)%nat /\
  (forall x, 0 <= x < VA_MAX -> pt_map (k_mem s) 0x80020000 x = if decide (page_of x = 1) then Some (mk_pte 0x80120000 0x17) else None) /\
  private s 0x80020000 new kp (page_list 255 0x80121000) 0x80120000.
Proof.
  destruct demo_vm as (s0 & Hv0 & Hz). change demo_up with (0x80120000 :: page_list 255 0x80121000) in Hv0.
  destruct (take_user s0 _ _ _ _ Hv0) as (s1 & _ & Hv1 & Hm1 & _ & _ & Hd1).
  destruct (map_one_page s1 0x80020000 _ _ 0x1000 0x80120000 0x16 Hv1) as (s2 & kp2 & _ & Hg & Hl & Hmap); [by vm_compute..|].
  destruct kp2 as [|p kp2]; [change (length (page_list 255 0x80021000)) with 255%nat in Hl; cbn [length] in Hl; lia|].
  pose proof (g_vm _ _ _ _ _ _ Hg) as Hv2. destruct (new_space s2 _ _ _ _ Hv2) as (_ & s3 & _ & _ & Hts & _ & _ & Hst & _ & Hpriv & _).
  exists s3, p, kp2. split_and!; [exact Hts | | | |].
  - change (length (page_list 255 0x80021000)) with 255%nat in Hl. cbn [length] in Hl. lia.
  - change (length (page_list 255 0x80021000)) with 255%nat in Hl. cbn [length] in Hl. lia.
  - intros x Hx. rewrite (same_tree_map _ _ _ x Hst), Hmap by done. change (page_of 0x1000) with 1. case_decide; [by vm_compute|].
    rewrite Hm1. unfold pt_map, leaf. cbn [node]. rewrite Hz by apply VPN_range. done.
  - apply Hpriv. right. by apply (data_page_grows s1 s2 0x80020000 (page_list 255 0x80021000)).
Qed.

Lemma uvm_copy_pgtbl_copies_witness : exists (s s' : kstate unit) new, uvm_copy_pgtbl 0x80020000 new 0x2000 0 s = Ret tt s' /\
  pt_map (k_mem s) 0x80020000 0x1008 = Some (mk_pte 0x80120000 0x17) /\ uload (k_mem s') new 0x1008 = uload (k_mem s) 0x80020000 0x1008.
Proof.
  destruct demo_fork as (s & new & kp & Hts & Hkp & Hmap & Hp). exists s.
  assert (pt_map (k_mem s) 0x80020000 0x1008 = Some (mk_pte 0x80120000 0x17)) as H8 by (rewrite Hmap by (by vm_compute); by vm_compute).
  destruct (uvm_copy_pgtbl_copies s 0x80020000 new kp _ 0x2000 0 Hts) as (s' & kp' & up' & Hrun & _ & _ & _ & Hc & _); [split|].
  - lia.
  - lia.
  - by vm_compute.
  - intros x v Hx. rewrite Hmap by done. case_decide; [|done]. intros [= <-]. exact Hp.
  - unfold mapped_count. etransitivity; [apply length_filter|]. apply Nat.leb_le. by vm_compute.
  - apply (bool_decide_unpack _). by vm_compute.
  - change (npages 0 0x2000) with 2%nat. lia.
  - exists s', new. split_and!; [exact Hrun | exact H8 |]. destruct (Hc 0x1008 (mk_pte 0x80120000 0x17)) as (n & _ & _ & Hu); [by vm_compute | left; by vm_compute | exact H8 | exact Hu].
Defined.
