(* ===== verification/File.v ===== *)
(** * File: kernel/fs/file.c, the table of open files

    A [file_t*] is the index of an entry of [ftable], NULL is [None].  [dev_fn]
    stands for the functions that drivers enter in [devlist]: the source
    registers none. *)

From S2P Require Import Prelude Bytes Kstring Spinlock Kernel Disk Buf Bitmap Inode Dir Pmem Vmem Uvm.

Definition N_FILE : Z := 32.
Definition N_DEV : Z := 10.
Definition LSEEK_SET : Z := 0.
Definition LSEEK_ADD : Z := 1.
Definition LSEEK_SUB : Z := 2.

Section Ops.
Context {D : Type} `{!DiskDriver D}.
(** [dev_fn f len addr user]: the device function at address [f]. *)
Variable dev_fn : Z -> Z -> Z -> bool -> M (kstate D) Z.

Definition file_of (s : kstate D) (i : nat) : option file := files (k_ft s) !! i.
Definition put_file (i : nat) (f : file) (s : kstate D) : kstate D :=
  set_k_ft (set_files (<[i := f]> (files (k_ft s))) (k_ft s)) s.
Definition get_file {A} (i : nat) (f : file -> A) : M (kstate D) A :=
  x ← gets (fun s => file_of s i) ≫= some_or_fault; mret (f x).
Definition upd_file (i : nat) (f : file -> file) : M (kstate D) unit :=
  x ← gets (fun s => file_of s i) ≫= some_or_fault; modify (put_file i (f x)).

Definition ft_lk : lockref D :=
  mk_lockref (fun s => lk_ftable (k_ft s)) (fun l s => set_k_ft (set_lk_ftable l (k_ft s)) s).

(** What [file_init], [file_alloc] and [file_close] write into an entry; they
    leave [major] alone. *)
Definition fill_file (type ref : Z) (f : file) : file :=
  set_f_type type (set_f_ref ref (set_f_readable false (set_f_writable false (set_f_ip None (set_f_offset 0 f))))).

Definition file_init : M (kstate D) unit :=
  with_lock ft_lk (spinlock_init "ftable");;
  for_each (seq 0 (Z.to_nat N_FILE)) (fun i => upd_file i (fill_file FD_UNUSED 0));;
  modify (fun s => set_k_ft (set_devlist (replicate (Z.to_nat N_DEV) (None, None)) (k_ft s)) s).

Definition file_alloc : M (kstate D) nat :=
  acquire ft_lk;;
  r ← for_return (seq 0 (Z.to_nat N_FILE)) (fun i =>
    t ← get_file i f_type;
    if t =? FD_UNUSED then
      upd_file i (fill_file FD_FILE 1);;
      release ft_lk;;
      mret (Some i)
    else mret None);
  match r with
  | Some i => mret i
  | None => release ft_lk;; panic "file_alloc: no free file entries"
  end.

Definition file_create_dev (path : list Z) (major minor : Z) : M (kstate D) (option nat) :=
  ip ← path_create_inode path FT_DEVICE major minor;
  match ip with
  | None => mret None
  | Some ip =>
      file ← file_alloc;
      upd_file file (set_f_type FD_DEVICE);;
      upd_file file (set_f_readable true);;
      upd_file file (set_f_writable true);;
      upd_file file (set_f_major major);;
      upd_file file (set_f_ip (Some ip));;
      mret (Some file)
  end.

Definition flag (open_mode mode : Z) : bool := negb (Z.land open_mode mode =? 0).

Definition file_open (path : list Z) (open_mode : Z) : M (kstate D) (option nat) :=
  ip ← (if flag open_mode MODE_CREATE then path_create_inode path FT_FILE 0 0 else path_to_inode path);
  match ip with
  | None => mret None
  | Some ip =>
      inode_lock (Some ip);;
      t ← get_inode ip (fun n => d_type (i_d n));
      if (t =? FT_DIR) && flag open_mode MODE_WRITE then inode_unlock_free ip;; mret None else
      file ← file_alloc;
      (if t =? FT_DIR then upd_file file (set_f_type FD_DIR)
       else if t =? FT_FILE then upd_file file (set_f_type FD_FILE)
       else when (t =? FT_DEVICE) (
         upd_file file (set_f_type FD_DEVICE);;
         major ← get_inode ip (fun n => d_major (i_d n));
         upd_file file (set_f_major major)));;
      upd_file file (set_f_readable (flag open_mode MODE_READ));;
      upd_file file (set_f_writable (flag open_mode MODE_WRITE));;
      upd_file file (set_f_ip (Some ip));;
      upd_file file (set_f_offset 0);;
      inode_unlock ip;;
      mret (Some file)
  end.

Definition file_close (file : nat) : M (kstate D) unit :=
  acquire ft_lk;;
  ref ← get_file file f_ref;
  if ref <? 1 then panic "file_close: ref count" else
  upd_file file (fun f => set_f_ref (u32 (f_ref f - 1)) f);;
  temp ← get_file file id;
  if f_ref temp =? 0 then
    upd_file file (fill_file FD_UNUSED 0);;
    release ft_lk;;
    match f_ip temp with
    | Some ip => inode_free ip
    | None => mret tt
    end
  else release ft_lk.

Definition file_read (file : nat) (len dst : Z) (user : bool) : M (kstate D) Z :=
  r ← get_file file f_readable;
  if negb r then mret 0 else
  t ← get_file file f_type;
  if (t =? FD_FILE) || (t =? FD_DIR) then
    ip ← get_file file f_ip;
    inode_lock ip;;
    ip ← some_or_fault ip;
    t ← get_file file f_type;
    if t =? FD_DIR then
      read_len ← dir_get_entries ip len (fun off bytes => mem_put (dst + off) bytes);
      inode_unlock ip;;
      mret read_len
    else
      offset ← get_file file f_offset;
      read_len ← inode_read_data ip offset len dst user;
      upd_file file (fun f => set_f_offset (u32 (f_offset f + read_len)) f);;
      inode_unlock ip;;
      mret read_len
  else if t =? FD_DEVICE then
    major ← get_file file f_major;
    if N_DEV <=? major then mret 0 else
    d ← gets (fun s => devlist (k_ft s) !! Z.to_nat major) ≫= some_or_fault;
    match d.1 with
    | None => mret 0
    | Some f => dev_fn f len dst user
    end
  else mret 0.

Definition file_write (file : nat) (len src : Z) (user : bool) : M (kstate D) Z :=
  w ← get_file file f_writable;
  if negb w then mret 0 else
  t ← get_file file f_type;
  if t =? FD_FILE then
    ip ← get_file file f_ip;
    inode_lock ip;;
    ip ← some_or_fault ip;
    offset ← get_file file f_offset;
    written ← inode_write_data ip offset len src user;
    upd_file file (fun f => set_f_offset (u32 (f_offset f + written)) f);;
    inode_unlock ip;;
    mret written
  else if t =? FD_DEVICE then
    major ← get_file file f_major;
    if N_DEV <=? major then mret 0 else
    d ← gets (fun s => devlist (k_ft s) !! Z.to_nat major) ≫= some_or_fault;
    match d.2 with
    | None => mret 0
    | Some f => dev_fn f len src user
    end
  else mret 0.

Definition file_lseek (file : nat) (offset flags : Z) : M (kstate D) Z :=
  t ← get_file file f_type;
  if negb (t =? FD_FILE) then mret ERR else
  if flags =? LSEEK_SET then
    upd_file file (set_f_offset offset);;
    get_file file f_offset
  else if flags =? LSEEK_ADD then
    upd_file file (fun f => set_f_offset (u32 (f_offset f + offset)) f);;
    get_file file f_offset
  else if flags =? LSEEK_SUB then
    upd_file file (fun f => set_f_offset (if offset <=? f_offset f then f_offset f - offset else 0) f);;
    get_file file f_offset
  else mret ERR.

Definition file_dup (file : nat) : M (kstate D) nat :=
  acquire ft_lk;;
  ref ← get_file file f_ref;
  kassert (0 <? ref) "file_dup: ref";;
  upd_file file (fun f => set_f_ref (u32 (f_ref f + 1)) f);;
  release ft_lk;;
  mret file.

(** [file_state_t] at [addr]: three [uint16], two bytes of padding that are not
    written, an [uint32]. *)
Definition put_state (addr type num nlink size : Z) : M (kstate D) unit :=
  mem_put addr (le_bytes 2 type ++ le_bytes 2 num ++ le_bytes 2 nlink);;
  mem_put (addr + 8) (le_bytes 4 size).
Definition FILE_STATE_SIZE : Z := 12.

(** [pgtbl] is [myproc()->pgtbl], [state] the address of the local variable; the
    result is an [int]. *)
Definition file_stat (pgtbl state : Z) (file : nat) (addr : Z) : M (kstate D) Z :=
  t ← get_file file f_type;
  if (t =? FD_FILE) || (t =? FD_DIR) then
    ip ← get_file file f_ip;
    inode_lock ip;;
    ip ← some_or_fault ip;
    type ← get_inode ip (fun n => d_type (i_d n));
    num ← get_inode ip inode_num;
    nlink ← get_inode ip (fun n => d_nlink (i_d n));
    size ← get_inode ip (fun n => d_size (i_d n));
    put_state state type num nlink size;;
    inode_unlock ip;;
    uvm_copyout pgtbl addr state FILE_STATE_SIZE;;
    mret 0
  else mret (-1).
End Ops.
