(* ===== verification/FileSpec.v ===== *)
(** * FileSpec: what kernel/fs/file.c promises *)

From S2P Require Import Prelude Bytes Kstring Spinlock Kernel Disk Buf BufSpec Bitmap BitmapSpec Inode InodeMeta InodeSpec InodeData InodeDataSpec Dir Pmem Vmem Uvm File.

Section Spec.
Context {D : Type} `{!DiskDriver D}.
Implicit Types (s : kstate D) (i : nat).

(** ** The table under its lock *)

(** The state with entry [i] replaced, after a critical section on the table. *)
Definition ft_post (f : list file -> list file) s : kstate D :=
  set_k_cpu (cpu_touch (k_cpu s)) (set_k_ft (mk_ftable (f (files (k_ft s))) (drop_lock (lk_ftable (k_ft s))) (devlist (k_ft s))) s).

Definition ft_locked s : kstate D :=
  set_k_cpu (cpu_push (k_cpu s)) (set_k_ft (set_lk_ftable (take_lock (hartid (k_cpu s)) (lk_ftable (k_ft s))) (k_ft s)) s).

Lemma ft_acquire s : is_free (lk_ftable (k_ft s)) -> acquire ft_lk s = Ret tt (ft_locked s).
Proof. intros Hf. by rewrite acquire_eq. Qed.

Lemma ft_release s l : cpu_wf (k_cpu s) ->
  release ft_lk (set_k_ft (set_files l (k_ft (ft_locked s))) (ft_locked s)) = Ret tt (ft_post (fun _ => l) s).
Proof.
  intros Hc. destruct s; simpl in *. rewrite release_eq; simpl; [| auto with locks | destruct Hc; simpl; lia | done].
  rewrite cpu_pop_push by done. done.
Qed.

Lemma ft_release_same s : cpu_wf (k_cpu s) -> release ft_lk (ft_locked s) = Ret tt (ft_post id s).
Proof.
  intros Hc. destruct s; simpl in *. rewrite release_eq; simpl; [| auto with locks | destruct Hc; simpl; lia | done].
  rewrite cpu_pop_push by done. done.
Qed.

Lemma file_of_locked s i : file_of (ft_locked s) i = file_of s i.
Proof. by destruct s. Qed.

Lemma get_file_eq {A B} i (g : file -> A) (k : A -> M (kstate D) B) s f : file_of s i = Some f -> (get_file i g ≫= k) s = k (g f) s.
Proof. intros Hf. unfold get_file. mrun. by rewrite Hf. Qed.

Lemma upd_file_eq {B} i (g : file -> file) (k : unit -> M (kstate D) B) s f : file_of s i = Some f ->
  (upd_file i g ≫= k) s = k tt (put_file i (g f) s).
Proof. intros Hf. unfold upd_file. mrun. by rewrite Hf. Qed.

Lemma put_file_set i f s : put_file i f s = set_k_ft (set_files (<[i := f]> (files (k_ft s))) (k_ft s)) s.
Proof. done. Qed.

(** ** The reference counts *)

(** The open files and their counts: the specification's view of the table. *)
Record ft_rel s (a : gmap nat Z) : Prop := {
  ft_len : length (files (k_ft s)) = Z.to_nat N_FILE;
  ft_free : is_free (lk_ftable (k_ft s));
  ft_cpu : cpu_wf (k_cpu s);
  ft_entry : forall i f, file_of s i = Some f ->
    match a !! i with
    | Some r => f_type f <> FD_UNUSED /\ f_ref f = r /\ 1 <= r < 2 ^ 32
    | None => f_type f = FD_UNUSED /\ f_ref f = 0
    end
}.

(** Only the table and this CPU's interrupt state differ. *)
Definition frame_ft s s' : Prop := s' = set_k_cpu (k_cpu s') (set_k_ft (k_ft s') s).

Lemma frame_ft_post g s : frame_ft s (ft_post g s).
Proof. by destruct s. Qed.

Lemma ft_lookup s a i : ft_rel s a -> (i < Z.to_nat N_FILE)%nat -> exists f, file_of s i = Some f.
Proof. intros Hr Hi. apply lookup_lt_is_Some_2. by rewrite (ft_len _ _ Hr). Qed.

Lemma ft_post_rel s a a' i f g : ft_rel s a -> file_of s i = Some f -> (forall j, j <> i -> a' !! j = a !! j) ->
  match a' !! i with
  | Some r => f_type g <> FD_UNUSED /\ f_ref g = r /\ 1 <= r < 2 ^ 32
  | None => f_type g = FD_UNUSED /\ f_ref g = 0
  end -> ft_rel (ft_post (fun _ => <[i := g]> (files (k_ft s))) s) a' /\
         file_of (ft_post (fun _ => <[i := g]> (files (k_ft s))) s) i = Some g.
Proof.
  intros [Hl Hf Hc He] Hi Ha Hg. assert (i < length (files (k_ft s)))%nat as Hlt by (by eapply lookup_lt_Some).
  assert (file_of (ft_post (fun _ => <[i := g]> (files (k_ft s))) s) i = Some g) as Hsame.
  { unfold file_of. destruct s; simpl in *. by rewrite list_lookup_insert_eq. }
  split; [|done]. split.
  - destruct s; simpl in *. by rewrite length_insert.
  - by destruct s.
  - destruct s; simpl in *. by apply cpu_touch_wf.
  - intros j x Hx. destruct (decide (j = i)) as [->|Hne].
    + rewrite Hsame in Hx. by injection Hx as <-.
    + rewrite Ha by done. apply (He j). revert Hx. unfold file_of. destruct s; simpl in *. by rewrite list_lookup_insert_ne by done.
Qed.

Lemma put_file_twice i f g s : put_file i f (put_file i g s) = put_file i f s.
Proof. rewrite !put_file_set. destruct s; simpl. by rewrite list_insert_insert_eq. Qed.

Lemma file_of_put i f s : (i < length (files (k_ft s)))%nat -> file_of (put_file i f s) i = Some f.
Proof. intros Hi. unfold file_of. rewrite put_file_set. destruct s; simpl in *. by rewrite list_lookup_insert_eq. Qed.

Lemma locked_put_release s i f : cpu_wf (k_cpu s) ->
  release ft_lk (put_file i f (ft_locked s)) = Ret tt (ft_post (fun _ => <[i := f]> (files (k_ft s))) s).
Proof. intros Hc. rewrite put_file_set. assert (files (k_ft (ft_locked s)) = files (k_ft s)) as -> by (by destruct s). by apply ft_release. Qed.

(** The inode behind an entry. *)
Definition inode_behind s i : option nat := f ← file_of s i; f_ip f.

Lemma behind_post s i f g j : file_of s i = Some f -> (j = i -> f_ip g = f_ip f) ->
  inode_behind (ft_post (fun _ => <[i := g]> (files (k_ft s))) s) j = inode_behind s j.
Proof.
  intros Hf Hg. unfold inode_behind, file_of in *. destruct s; simpl in *. destruct (decide (j = i)) as [->|Hne].
  - rewrite list_lookup_insert_eq, Hf by (by eapply lookup_lt_Some). by apply Hg.
  - by rewrite list_lookup_insert_ne.
Qed.

(** The scan of [file_alloc] skips the open files. *)
Lemma alloc_skip s a j : ft_rel s a -> (j < Z.to_nat N_FILE)%nat -> a !! j <> None ->
  (t ← get_file j f_type;
    if t =? FD_UNUSED then upd_file j (fill_file FD_FILE 1);; release ft_lk;; mret (Some j) else mret None) (ft_locked s) = Ret None (ft_locked s).
Proof.
  intros Hr Hj Ha. destruct (ft_lookup s a j Hr Hj) as [f Hf]. pose proof (ft_entry _ _ Hr j f Hf) as He.
  rewrite <- file_of_locked in Hf. rewrite (get_file_eq _ _ _ _ _ Hf).
  destruct (a !! j); [|done]. destruct He as [Ht _]. by rewrite (proj2 (Z.eqb_neq _ _) Ht).
Qed.

Lemma file_alloc_ok s a i : ft_rel s a -> (i < Z.to_nat N_FILE)%nat -> a !! i = None -> (forall j, (j < i)%nat -> a !! j <> None) ->
  exists f, file_of s i = Some f /\
    file_alloc s = Ret i (ft_post (fun _ => <[i := fill_file FD_FILE 1 f]> (files (k_ft s))) s).
Proof.
  intros Hr Hi Ha Hj. destruct (ft_lookup s a i Hr Hi) as [f Hf]. exists f. split; [done|].
  unfold file_alloc. mstep ltac:(by apply ft_acquire, (ft_free _ _ Hr)).
  replace (Z.to_nat N_FILE) with (i + S (Z.to_nat N_FILE - i - 1))%nat by lia. rewrite seq_app, <- cons_seq. cbn [Nat.add].
  pose proof (ft_entry _ _ Hr i f Hf) as He. rewrite Ha in He. destruct He as [Ht _].
  rewrite (bind_ret_eq _ _ _ (Some i) (ft_post (fun _ => <[i := fill_file FD_FILE 1 f]> (files (k_ft s))) s)); [done|].
  apply for_return_hit.
  - intros j [_ Hlt]%elem_of_seq. apply (alloc_skip s a); [done | lia | apply Hj; lia].
  - rewrite <- file_of_locked in Hf. rewrite (get_file_eq _ _ _ _ _ Hf), Ht, Z.eqb_refl, (upd_file_eq _ _ _ _ _ Hf).
    mstep ltac:(apply locked_put_release; apply Hr). done.
Qed.

Lemma file_alloc_full s a : ft_rel s a -> (forall i, (i < Z.to_nat N_FILE)%nat -> a !! i <> None) ->
  file_alloc s = Panic "file_alloc: no free file entries" (ft_post id s).
Proof.
  intros Hr Ha. unfold file_alloc. mstep ltac:(by apply ft_acquire, (ft_free _ _ Hr)).
  mstep ltac:(apply for_return_none; intros j [_ Hj]%elem_of_seq; apply (alloc_skip s a); [done | lia | apply Ha; lia]).
  cbv iota. mstep ltac:(apply ft_release_same; apply Hr). done.
Qed.

Lemma file_dup_ok s a i r : ft_rel s a -> a !! i = Some r -> (i < Z.to_nat N_FILE)%nat -> r + 1 < 2 ^ 32 ->
  exists s', file_dup i s = Ret i s' /\ ft_rel s' (<[i := r + 1]> a) /\ frame_ft s s' /\ k_cpu s' = cpu_touch (k_cpu s).
Proof.
  intros Hr. pose proof (ft_cpu _ _ Hr) as Hc. pose proof (ft_free _ _ Hr) as Hfree.
  intros Ha Hi Hr32. destruct (ft_lookup s a i Hr Hi) as [f Hf]. pose proof (ft_entry _ _ Hr i f Hf) as He.
  rewrite Ha in He. destruct He as (Ht & Href & Hb). eexists. split_and!; [| | apply frame_ft_post | by destruct s].
  + unfold file_dup. mstep ltac:(by apply ft_acquire). pose proof Hf as Hf'. rewrite <- file_of_locked in Hf'.
    rewrite (get_file_eq _ _ _ _ _ Hf'), Href. unfold kassert. rewrite (proj2 (Z.ltb_lt 0 r)) by lia. mrun.
    rewrite (upd_file_eq _ _ _ _ _ Hf'). mstep ltac:(by apply locked_put_release). reflexivity.
  + eapply ft_post_rel; [done | exact Hf | intros j Hne; by rewrite lookup_insert_ne |].
    rewrite lookup_insert_eq. destruct f; simpl in *. subst. rewrite u32_small by lia. split_and!; [done | done | lia | lia].
Qed.

Lemma file_close_ok s a i r f : ft_rel s a -> a !! i = Some r -> file_of s i = Some f ->
  exists s', frame_ft s s' /\
    (1 < r -> file_close i s = Ret tt s' /\ ft_rel s' (<[i := r - 1]> a)) /\
    (r = 1 -> file_close i s = match f_ip f with Some ip => inode_free ip s' | None => Ret tt s' end /\ ft_rel s' (delete i a)) /\
    (forall j, (j = i -> 1 < r) -> inode_behind s' j = inode_behind s j) /\ k_cpu s' = cpu_touch (k_cpu s).
Proof.
  intros Hr. pose proof (ft_cpu _ _ Hr) as Hc. pose proof (ft_free _ _ Hr) as Hfree.
  intros Ha Hf. pose proof (ft_entry _ _ Hr i f Hf) as He. rewrite Ha in He. destruct He as (Ht & Href & Hb).
  assert (i < length (files (k_ft s)))%nat as Hlt by (by eapply lookup_lt_Some).
  assert (i < length (files (k_ft (ft_locked s))))%nat as Hlt' by (by destruct s).
  pose proof Hf as Hf'. rewrite <- file_of_locked in Hf'. set (g := set_f_ref (u32 (f_ref f - 1)) f).
  assert (f_ref g = r - 1 /\ f_type g = f_type f /\ f_ip g = f_ip f) as (Hg & Hgt & Hgi).
  { unfold g. destruct f; simpl in *. subst. by rewrite u32_small by lia. }
  assert (forall A (k : file -> M (kstate D) A), (ref ← get_file i f_ref; if ref <? 1 then panic "file_close: ref count" else
    upd_file i (fun f => set_f_ref (u32 (f_ref f - 1)) f);; temp ← get_file i id; k temp) (ft_locked s) = k g (put_file i g (ft_locked s))) as Hrun.
  { intros A k. rewrite (get_file_eq _ _ _ _ _ Hf'), Href, (proj2 (Z.ltb_ge r 1)) by lia. rewrite (upd_file_eq _ _ _ _ _ Hf').
    by rewrite (get_file_eq _ _ _ _ _ (file_of_put i g _ Hlt')). }
  destruct (Z.eq_dec r 1) as [->|Hr1].
  + eexists. split_and!; [apply (frame_ft_post (fun _ => <[i := fill_file FD_UNUSED 0 g]> (files (k_ft s)))) | intros; lia | | intros j Hj; apply (behind_post s i f); [done | intros ->; by specialize (Hj eq_refl)] | by destruct s]. intros _. split.
    * unfold file_close. mstep ltac:(by apply ft_acquire). rewrite Hrun, Hg. change (1 - 1 =? 0) with true. cbv iota.
      rewrite (upd_file_eq _ _ _ _ _ (file_of_put i g _ Hlt')), put_file_twice.
      mstep ltac:(by apply locked_put_release). rewrite Hgi. by destruct (f_ip f).
    * eapply ft_post_rel; [done | exact Hf | intros j Hne; by rewrite lookup_delete_ne | rewrite lookup_delete_eq; done].
  + eexists. split_and!; [apply (frame_ft_post (fun _ => <[i := g]> (files (k_ft s)))) | | intros; lia | intros j _; apply (behind_post s i f); [done | intros _; exact Hgi] | by destruct s]. intros _. split.
    * unfold file_close. mstep ltac:(by apply ft_acquire). rewrite Hrun, Hg, (proj2 (Z.eqb_neq (r - 1) 0)) by lia.
      by apply locked_put_release.
    * eapply ft_post_rel; [done | exact Hf | intros j Hne; by rewrite lookup_insert_ne |].
      rewrite lookup_insert_eq, Hgt, Hg. split_and!; [done | done | lia | lia].
Qed.

Lemma file_not_open s a i : ft_rel s a -> a !! i = None -> (i < Z.to_nat N_FILE)%nat ->
  (exists s', file_dup i s = Panic "file_dup: ref" s') /\ exists s', file_close i s = Panic "file_close: ref count" s'.
Proof.
  intros Hr. pose proof (ft_free _ _ Hr) as Hfree.
  intros Ha Hi. destruct (ft_lookup s a i Hr Hi) as [f Hf]. pose proof (ft_entry _ _ Hr i f Hf) as He.
  rewrite Ha in He. destruct He as (Ht & Href). rewrite <- file_of_locked in Hf. split; eexists.
  + unfold file_dup. mstep ltac:(by apply ft_acquire). rewrite (get_file_eq _ _ _ _ _ Hf), Href. reflexivity.
  + unfold file_close. mstep ltac:(by apply ft_acquire). rewrite (get_file_eq _ _ _ _ _ Hf), Href. reflexivity.
Qed.

(** C21: The reference counts of the table of open files.  [file_alloc] opens the
    first entry that is not in use with one reference, and panics when all are;
    [file_dup] adds a reference; [file_close] takes one away, and with the last one
    the entry becomes free and its inode is released exactly once; [file_dup] and
    [file_close] of a file that is not open panic.  Every operation releases the
    table's lock. *)
Theorem file_refs_count s a : ft_rel s a ->
  (forall i, (i < Z.to_nat N_FILE)%nat -> a !! i = None -> (forall j, (j < i)%nat -> a !! j <> None) ->
     exists s', file_alloc s = Ret i s' /\ ft_rel s' (<[i := 1]> a) /\ frame_ft s s')
  /\ ((forall i, (i < Z.to_nat N_FILE)%nat -> a !! i <> None) -> exists s', file_alloc s = Panic "file_alloc: no free file entries" s')
  /\ (forall i r, a !! i = Some r -> (i < Z.to_nat N_FILE)%nat -> r + 1 < 2 ^ 32 ->
     exists s', file_dup i s = Ret i s' /\ ft_rel s' (<[i := r + 1]> a) /\ frame_ft s s')
  /\ (forall i r f, a !! i = Some r -> file_of s i = Some f ->
     exists s', frame_ft s s' /\
       (1 < r -> file_close i s = Ret tt s' /\ ft_rel s' (<[i := r - 1]> a)) /\
       (r = 1 -> file_close i s = match f_ip f with Some ip => inode_free ip s' | None => Ret tt s' end /\ ft_rel s' (delete i a)))
  /\ (forall i, a !! i = None -> (i < Z.to_nat N_FILE)%nat ->
     (exists s', file_dup i s = Panic "file_dup: ref" s') /\ exists s', file_close i s = Panic "file_close: ref count" s').
Proof.
  intros Hr. split_and!.
  - intros i Hi Ha Hj. destruct (file_alloc_ok s a i Hr Hi Ha Hj) as (f & Hf & Hs). eexists. split_and!; [exact Hs | | apply frame_ft_post].
    eapply ft_post_rel; [done | exact Hf | intros j Hne; by rewrite lookup_insert_ne | rewrite lookup_insert_eq; done].
  - intros Ha. eexists. by apply file_alloc_full with a.
  - intros i r Ha Hi Hlt. destruct (file_dup_ok s a i r Hr Ha Hi Hlt) as (s' & ? & ? & ? & _). by exists s'.
  - intros i r f Ha Hf. destruct (file_close_ok s a i r f Hr Ha Hf) as (s' & ? & ? & ? & _). by exists s'.
  - intros i. by apply file_not_open.
Qed.
End Spec.

(** ** Reading and the offset *)

Section Rw.
Context {D : Type} `{!BlockDev D, !BlockDevLaws D, !DiskDriver D, !DiskDriverOk D}.
Implicit Types (s : kstate D) (H : list hbuf).
Variable dev_fn : Z -> Z -> Z -> bool -> M (kstate D) Z.

(** An open regular file [i] on the inode [ip], which is in the cache and not
    locked. *)
Record open_file s H i f ip n : Prop := {
  of_cache : cache s H;
  of_file : file_of s i = Some f;
  of_type : f_type f = FD_FILE;
  of_ip : f_ip f = Some ip;
  of_inode : inode_of s ip = Some n;
  of_valid : valid n = true;
  of_ref : 1 <= i_ref n;
  of_free : is_free (i_slk n);
  of_ok : dinode_ok (i_d n);
  of_blk : can_read s H (iblock (k_sb s) (inode_num n));
  of_room : (length H + 2 < N_BLOCK_BUF)%nat
}.

Lemma file_of_frame s s' i : k_ft s' = k_ft s -> file_of s' i = file_of s i.
Proof. unfold file_of. by intros ->. Qed.

(** Locking the inode of an open file. *)
Lemma open_file_lock s H i f ip n : open_file s H i f ip n -> exists s1,
  inode_lock (Some ip) s = Ret tt s1 /\ cache s1 H /\ k_dev s1 = k_dev s /\ k_mem s1 = k_mem s /\ k_cpu s1 = cpu_push (k_cpu s) /\
  k_ft s1 = k_ft s /\ inode_of s1 ip = Some (set_i_slk (take_lock (hartid (k_cpu s)) (i_slk n)) n).
Proof.
  intros [Hc Hf Ht Hi Hn Hval Href Hfree Hok Hblk HH].
  destruct (inode_lock_ok s H ip n Hn Href Hfree Hblk) as (s1 & Hs1 & Hb%becomes_put_steps).
  unfold locked_inode in Hb. change (valid (set_i_slk _ n)) with (valid n) in Hb. rewrite Hval in Hb. pose proof (st_frame _ _ _ _ _ _ Hb) as Hfr.
  exists s1. split_and!; [done | apply Hb | apply Hb | by rewrite Hfr | apply Hb | by rewrite Hfr |].
  rewrite (inode_of_ic _ _ _ (st_ic _ _ _ _ _ _ Hb)). apply ic_put_lookup. by eapply inode_of_lt.
Qed.

(** Unlocking it after the offset was advanced. *)
Lemma open_file_unlock s H ip n : inode_of s ip = Some n -> held_by (hartid (k_cpu s)) (i_slk n) -> cache s H ->
  Z.of_nat (length H) < noff (k_cpu s) ->
  exists s', inode_unlock ip s = Ret tt s' /\ cache s' H /\ k_dev s' = k_dev s /\ k_mem s' = k_mem s /\ k_cpu s' = cpu_pop (k_cpu s) /\
    k_ft s' = k_ft s /\ inode_of s' ip = Some (set_i_slk (drop_lock (i_slk n)) n).
Proof.
  intros Hn Hh Hc Hlt. destruct (inode_unlock_ok s H ip n Hn Hh Hc Hlt) as (s' & Hs' & Hb%becomes_put_steps).
  pose proof (st_frame _ _ _ _ _ _ Hb) as Hfr. exists s'.
  split_and!; [done | apply Hb | apply Hb | by rewrite Hfr | apply Hb | by rewrite Hfr |].
  rewrite (inode_of_ic _ _ _ (st_ic _ _ _ _ _ _ Hb)). apply ic_put_lookup. by eapply inode_of_lt.
Qed.

Lemma fd_file_cases : (FD_FILE =? FD_FILE) || (FD_FILE =? FD_DIR) = true.
Proof. done. Qed.

(** The rest of [file_read] after the bytes were read, in a state that only
    differs in memory and the buffers. *)
Lemma read_tail s1 s2 H i f ip n m d : becomes s1 d (read_cpu m (k_cpu s1)) H s2 -> file_of s1 i = Some f ->
  inode_of s1 ip = Some n -> held_by (hartid (k_cpu s1)) (i_slk n) -> Z.of_nat (length H) < noff (k_cpu s1) ->
  exists s', (upd_file i (fun f => set_f_offset (u32 (f_offset f + m)) f);; inode_unlock ip;; mret m) s2 = Ret m s' /\
    file_of s' i = Some (set_f_offset (u32 (f_offset f + m)) f) /\ k_mem s' = k_mem s1 /\ k_dev s' = d /\ cache s' H /\
    inode_of s' ip = Some (set_i_slk (drop_lock (i_slk n)) n).
Proof.
  intros Hb Hf Hn Hh Hlt. pose proof (be_frame _ _ _ _ _ Hb) as Hfr.
  rewrite <- (file_of_frame s1 s2) in Hf by (by rewrite Hfr). rewrite <- (inode_of_frame s1 s2) in Hn by done.
  rewrite (upd_file_eq _ _ _ _ _ Hf). set (g := set_f_offset _ f). set (s3 := put_file i g s2).
  assert (k_cpu s3 = k_cpu s2 /\ k_bc s3 = k_bc s2 /\ k_vd s3 = k_vd s2 /\ k_ic s3 = k_ic s2 /\ k_mem s3 = k_mem s2 /\ k_dev s3 = k_dev s2)
    as (Hc3 & Hb3 & Hv3 & Hi3 & Hm3 & Hd3) by (unfold s3; rewrite put_file_set; by destruct s2).
  assert (hartid (k_cpu s2) = hartid (k_cpu s1) /\ noff (k_cpu s2) = noff (k_cpu s1)) as [Hh2 Hn2].
  { rewrite (be_cpu _ _ _ _ _ Hb). unfold read_cpu. by destruct (_ <=? _). }
  assert (file_of s3 i = Some g) as Hf3 by (apply file_of_put; by eapply lookup_lt_Some).
  clearbody s3. destruct (open_file_unlock s3 H ip n) as (s4 & Hs4 & Hc4 & Hd4 & Hm4 & _ & Hft4 & Hn4).
  { unfold inode_of. by rewrite Hi3. }
  { by rewrite Hc3, Hh2. }
  { apply (cache_ext s2); [done.. | apply Hb]. }
  { by rewrite Hc3, Hn2. }
  exists s4. split_and!; [by mstep ltac:(exact Hs4) | by rewrite (file_of_frame s3 s4) | | | done | done].
  - by rewrite Hm4, Hm3, (k_mem_frame _ _ Hfr).
  - by rewrite Hd4, Hd3, (be_dev _ _ _ _ _ Hb).
Qed.

(** [file_read] of a regular file: the bytes from the offset, as many as are
    asked for and are there, are copied to memory, the offset advances by exactly
    that number, so that the next read continues behind them, the inode is locked
    during the read and free afterwards; a file that is not readable gives nothing. *)
Theorem file_read_advances s H i f ip n len dst user : open_file s H i f ip n ->
  0 <= f_offset f -> 0 <= len -> f_offset f + len < 2 ^ 32 ->
  let m := Z.max 0 (Z.min len (d_size (i_d n) - f_offset f)) in
  (f_readable f = true -> readable H (k_dev s) (i_d n) (f_offset f) m ->
   exists s' n', file_read dev_fn i len dst user s = Ret m s' /\
     file_of s' i = Some (set_f_offset (f_offset f + m) f) /\
     k_mem s' = write_bytes (k_mem s) dst (file_bytes (k_dev s) (i_d n) (f_offset f) m) /\
     same_disk (k_dev s) (k_dev s') /\ cache s' H /\
     inode_of s' ip = Some n' /\ is_free (i_slk n') /\ i_d n' = i_d n /\ i_ref n' = i_ref n)
  /\ (f_readable f = false -> file_read dev_fn i len dst user s = Ret 0 s).
Proof.
  intros Hop Ho Hl Hnw m. pose proof Hop as [Hc Hf Ht Hi Hn Hval Href Hfree Hok Hblk HH].
  destruct (cache_wf _ _ Hc) as [[Hw0 _] Hno]. assert (0 <= d_size (i_d n) < 2 ^ 32) as Hsz by apply Hok.
  split; intros Hrd; unfold file_read; rewrite (get_file_eq _ _ _ _ _ Hf), Hrd; [|done]. cbn [negb]. intros Hr.
  rewrite (get_file_eq _ _ _ _ _ Hf), Ht, fd_file_cases, (get_file_eq _ _ _ _ _ Hf), Hi.
  destruct (open_file_lock s H i f ip n Hop) as (s1 & Hs1 & Hc1 & Hd1 & Hm1 & Hcpu1 & Hft1 & Hn1).
  mstep ltac:(exact Hs1). rewrite <- (file_of_frame s s1 i Hft1) in Hf. rewrite (get_file_eq _ _ _ _ _ Hf), Ht.
  change (FD_FILE =? FD_DIR) with false. cbv iota. rewrite (get_file_eq _ _ _ _ _ Hf). set (n1 := set_i_slk _ n) in Hn1.
  assert (held_by (hartid (k_cpu s1)) (i_slk n1)) as Hheld by (rewrite Hcpu1; apply take_lock_held).
  assert (i_d n1 = i_d n) as Hid by done.
  assert (exists s2 d', inode_read_data ip (f_offset f) len dst user s1 = Ret m s2 /\ same_disk (k_dev s) d' /\
    becomes (set_k_mem (write_bytes (k_mem s1) dst (file_bytes (k_dev s) (i_d n) (f_offset f) m)) s1) d' (read_cpu m (k_cpu s1)) H s2)
    as (s2 & d' & Hs2 & Hd2 & Hb2).
  { destruct (Z.le_gt_cases (d_size (i_d n)) (f_offset f)) as [Hle|Hgt].
    - assert (m = 0) as -> by lia. exists s1, (k_dev s). split_and!; [|done|].
      + unfold inode_read_data. rewrite (holding_inode _ _ _ _ _ Hn1 Hheld), (bind_get_inode _ _ _ _ _ Hn1), Hid.
        by rewrite (proj2 (Z.leb_le _ _) Hle).
      + unfold file_bytes. rewrite seqZ_nil by lia. apply becomes_refl in Hc1. rewrite Hd1 in Hc1. by destruct s1.
    - destruct (inode_read_inside s1 H ip n1 (f_offset f) len dst user) as (s2 & d' & Hs2 & Hb2 & Hd2); try done.
      + rewrite Hid, Hd1. by replace (Z.min len (d_size (i_d n) - f_offset f)) with m by lia.
      + rewrite Hid, Hd1 in *. replace (Z.min len (d_size (i_d n) - f_offset f)) with m in * by lia. by exists s2, d'. }
  mstep ltac:(exact Hs2). set (s1' := set_k_mem _ s1) in Hb2.
  destruct (read_tail s1' s2 H i f ip n1 m d') as (s3 & Hs3 & Hf3 & Hm3 & Hd3 & Hc3 & Hn3); [by destruct s1 | by destruct s1 | by destruct s1 | done | |].
  { assert (k_cpu s1' = k_cpu s1) as -> by (by destruct s1). rewrite Hcpu1. simpl. lia. }
  exists s3, (set_i_slk (drop_lock (i_slk n1)) n1). split_and!; try done.
  - rewrite Hf3. rewrite u32_small by lia. done.
  - rewrite Hm3. unfold s1'. destruct s1; simpl in *. by subst.
  - by rewrite Hd3.
Qed.

(** [file_lseek]: the new offset is the sum or the difference cut at 0 on 32
    bits, it is what the call returns, and it is always a [uint32]; a sum beyond
    2^32 wraps to a small offset; other flags and files that are not regular are
    refused with -1 and change nothing. *)
Theorem file_lseek_moves s i f offset flags : file_of s i = Some f -> 0 <= f_offset f < 2 ^ 32 -> 0 <= offset < 2 ^ 32 ->
  (f_type f = FD_FILE -> flags = LSEEK_SET \/ flags = LSEEK_ADD \/ flags = LSEEK_SUB ->
   let new := if flags =? LSEEK_SET then offset
     else if flags =? LSEEK_ADD then (if decide (f_offset f + offset < 2 ^ 32) then f_offset f + offset else f_offset f + offset - 2 ^ 32)
     else Z.max 0 (f_offset f - offset) in
   0 <= new < 2 ^ 32 /\ file_lseek i offset flags s = Ret new (put_file i (set_f_offset new f) s))
  /\ (f_type f <> FD_FILE \/ ~ (0 <= flags <= 2) -> file_lseek i offset flags s = Ret ERR s).
Proof.
  intros Hf Ho Hoff. assert (i < length (files (k_ft s)))%nat as Hlt by (by eapply lookup_lt_Some).
  assert (forall g, (upd_file i g;; get_file i f_offset) s = Ret (f_offset (g f)) (put_file i (g f) s)) as Hrun.
  { intros g. rewrite (upd_file_eq _ _ _ _ _ Hf). unfold get_file. mrun. by rewrite (file_of_put _ _ _ Hlt). }
  split.
  - intros Ht Hfl new. unfold file_lseek. rewrite (get_file_eq _ _ _ _ _ Hf), Ht. change (FD_FILE =? FD_FILE) with true. cbn [negb].
    destruct Hfl as [-> | [-> | ->]]; cbv beta iota delta [Z.eqb Pos.eqb LSEEK_SET LSEEK_ADD LSEEK_SUB] in new |- *; rewrite Hrun; cbn [f_offset set_f_offset].
    + by split.
    + assert (u32 (f_offset f + offset) = new) as ->; [|split; [unfold new; case_decide; lia | done]].
      unfold new. case_decide; [by rewrite u32_small by lia|]. unfold u32. symmetry. apply (Z.mod_unique _ _ 1); lia.
    + assert ((if offset <=? f_offset f then f_offset f - offset else 0) = new) as ->; [|split; [unfold new; lia | done]].
      unfold new. destruct (Z.leb_spec offset (f_offset f)); lia.
  - unfold file_lseek. rewrite (get_file_eq _ _ _ _ _ Hf). intros [Ht|Hfl]; [by rewrite (proj2 (Z.eqb_neq _ _) Ht)|]. destruct (negb _); [done|].
    unfold LSEEK_SET, LSEEK_ADD, LSEEK_SUB. by rewrite !(proj2 (Z.eqb_neq flags _)) by lia.
Qed.
End Rw.

(** ** Witnesses *)

Lemma bss_files : ft_rel (bss demo_disk 0) ∅.
Proof.
  split; [done | done | split; simpl; (lia || done) |]. intros i f Hf. rewrite lookup_empty. change (replicate 32 zero_file !! i = Some f) in Hf.
  apply list_elem_of_lookup_2, elem_of_replicate in Hf as [-> _]. done.
Qed.

Lemma file_refs_count_witness : exists s1 s2 : kstate memdisk,
  file_alloc (bss demo_disk 0) = Ret 0%nat s1 /\ file_dup 0 s1 = Ret 0%nat s2 /\ ft_rel s2 {[0%nat := 2]}.
Proof.
  destruct (file_refs_count (bss demo_disk 0) ∅ bss_files) as (H1 & _).
  destruct (H1 0%nat) as (s1 & Hs1 & Hr1 & _); [by vm_compute; lia | done | lia |].
  destruct (file_refs_count s1 _ Hr1) as (_ & _ & H2 & _). destruct (H2 0%nat 1) as (s2 & Hs2 & Hr2 & _); [done | vm_compute; lia | lia |].
  exists s1, s2. split; [exact Hs1 | split; [exact Hs2 | exact Hr2]].
Defined.

(** A file of 1000 bytes, open at offset 990. *)
Definition open_inode : inode := mk_inode tree_dinode 3 1 true zero_lock.
Definition open_entry : file := mk_file FD_FILE true true 1 0 990 (Some 0%nat).

Lemma open_kernel : exists s : kstate memdisk, open_file s [] 0 open_entry 0 open_inode /\ k_dev s = tree_disk.
Proof.
  destruct (fresh_kernel tree_disk demo_sb (one_inode open_inode)) as (s & Hd & Hsb & Hic & Hcpu & Hc).
  exists (put_file 0 open_entry (set_k_ft (mk_ftable (replicate 32 zero_file) zero_lock []) s)). rewrite put_file_set.
  assert (cache (put_file 0 open_entry (set_k_ft (mk_ftable (replicate 32 zero_file) zero_lock []) s)) []) as Hc'
    by (apply (cache_ext s); [by destruct s..|done]).
  split; [|by destruct s]. split; try done.
  - unfold inode_of. destruct s; simpl in *. by rewrite Hic.
  - exact tree_dinode_ok.
  - split_and!; [exact Hc' | unfold N_BLOCK_BUF; simpl; lia | | ]; destruct s; simpl in *; rewrite Hsb; [by vm_compute | apply not_elem_of_nil].
  - unfold N_BLOCK_BUF; simpl; lia.
Qed.

Lemma file_read_advances_witness : exists s s' : kstate memdisk,
  file_read (fun _ _ _ _ => mret 0) 0 50 0x80000000 false s = Ret 10 s' /\ file_of s' 0 = Some (set_f_offset 1000 open_entry).
Proof.
  destruct open_kernel as (s & Hop & Hd). exists s.
  destruct (file_read_advances (fun _ _ _ _ => mret 0) s [] 0 open_entry 0 open_inode 50 0x80000000 false Hop) as [Hr _];
    [simpl; lia | lia | simpl; lia |].
  destruct Hr as (s' & n' & Hs' & Hf' & _).
  - reflexivity.
  - rewrite Hd. apply (layout_readable _ _ _ 0 1); [exact tree_layout | vm_compute; discriminate | simpl; unfold BLOCK_SIZE; lia].
  - exists s'. split; [exact Hs' | exact Hf'].
Defined.

Lemma file_lseek_moves_witness : exists s : kstate memdisk,
  file_lseek 0 0xFFFFFFFF LSEEK_ADD s = Ret 989 (put_file 0 (set_f_offset 989 open_entry) s) /\ file_lseek 0 5 7 s = Ret ERR s.
Proof.
  destruct open_kernel as (s & Hop & _). exists s. pose proof (of_file _ _ _ _ _ _ Hop) as Hf.
  destruct (file_lseek_moves s 0 open_entry 0xFFFFFFFF LSEEK_ADD Hf) as [H1 _]; [simpl; lia | lia |].
  destruct (file_lseek_moves s 0 open_entry 5 7 Hf) as [_ H2]; [simpl; lia | lia |].
  split; [apply H1; [reflexivity | right; left; reflexivity] | apply H2; right; lia].
Defined.

