(* ===== verification/Fs.v ===== *)
(** * Fs: kernel/fs/fs.c, the start-up of the file system

    [fs_init] runs in the first process.  It reads the super block and then exercises
    the inode and directory operations on the disk it has mounted.  The messages it
    prints ([sb_print], [inode_print], [dir_print], "success" or "fail") are left out;
    the comparison behind the last one is [blockcmp]. *)

From S2P Require Import Prelude Bytes Kstring Spinlock Kernel Disk Buf Bitmap Inode Dir File.

Definition FS_MAGIC : Z := 0x12345678.
Definition SB_BLOCK_NUM : Z := 0.

(** [memmove(&sb, buf->data, sizeof(sb))] *)
Definition decode_sb (l : list Z) : super_block :=
  mk_sb (word l 0 4) (word l 4 4) (word l 8 4) (word l 12 4) (word l 16 4) (word l 20 4) (word l 24 4) (word l 28 4) (word l 32 4).

Section Ops.
Context {D : Type} `{!DiskDriver D}.
(** Addresses: the globals [str] and [tmp], the constant "hello world", the local array [str]. *)
Variables (str tmp hello str_local : Z).

(** Both arrays have [2 * BLOCK_SIZE] bytes. *)
Definition blockcmp (arr1 arr2 : Z) : M (kstate D) bool :=
  gets (fun s => bool_decide (read_bytes (k_mem s) arr1 (Z.to_nat (2 * BLOCK_SIZE)) = read_bytes (k_mem s) arr2 (Z.to_nat (2 * BLOCK_SIZE)))).


Definition USER : list Z := [117; 115; 101; 114].
Definition WORK : list Z := [119; 111; 114; 107].
Definition HELLO_TXT : list Z := [104; 101; 108; 108; 111; 46; 116; 120; 116].
Definition DOT_TXT : list Z := [46; 116; 120; 116].
Definition A_TXT : list Z := 97 :: DOT_TXT.
Definition B_TXT : list Z := 98 :: DOT_TXT.
Definition C_TXT : list Z := 99 :: DOT_TXT.
Definition D_TXT : list Z := 100 :: DOT_TXT.
Definition HELLO_PATH : list Z := SLASH :: USER ++ SLASH :: WORK ++ SLASH :: HELLO_TXT.

(** Lines 58-70: the mount. *)
Definition fs_mount : M (kstate D) unit :=
  buf_init;;
  buf ← buf_read SB_BLOCK_NUM;
  l ← get_buf buf data;
  modify (set_k_sb (decode_sb l));;
  m ← gets (fun s => magic (k_sb s));
  kassert (m =? FS_MAGIC) "fs_init: magic";;
  b ← gets (fun s => block_size (k_sb s));
  kassert (b =? BLOCK_SIZE) "fs_init: block size";;
  buf_release buf;;
  inode_init;;
  file_init.

(** Lines 71-104: a new file is written in two parts and read back. *)
Definition fs_test_inode : M (kstate D) bool :=
  modify (fun s => set_k_mem (write_bytes (k_mem s) str (u8 <$> seqZ 0 (BLOCK_SIZE * 2))) s);;
  nip ← inode_create FT_FILE 0 0;
  inode_lock nip;;
  ip ← some_or_fault nip;
  ret ← inode_write_data ip 0 (BLOCK_SIZE / 2) str false;
  kassert (ret =? BLOCK_SIZE / 2) "inode_write_data: fail";;
  ret ← inode_write_data ip (BLOCK_SIZE / 2) (BLOCK_SIZE + BLOCK_SIZE / 2) (str + BLOCK_SIZE / 2) false;
  kassert (ret =? BLOCK_SIZE + BLOCK_SIZE / 2) "inode_write_data: fail";;
  ret ← inode_read_data ip 0 (BLOCK_SIZE * 2) tmp false;
  kassert (ret =? BLOCK_SIZE * 2) "inode_read_data: fail";;
  inode_unlock_free ip;;
  blockcmp tmp str.

(** Lines 107-155: two directories and a file below the root, found again by their path. *)
Definition fs_test_path : M (kstate D) unit :=
  ip ← inode_alloc INODE_ROOT;
  ip_1 ← inode_create FT_DIR 0 0;
  ip_2 ← inode_create FT_DIR 0 0;
  ip_3 ← inode_create FT_FILE 0 0;
  inode_lock (Some ip);;
  inode_lock ip_1;;
  inode_lock ip_2;;
  inode_lock ip_3;;
  i1 ← some_or_fault ip_1;
  i2 ← some_or_fault ip_2;
  i3 ← some_or_fault ip_3;
  n1 ← get_inode i1 inode_num;
  dir_add_entry ip n1 (lit USER);;
  n2 ← get_inode i2 inode_num;
  dir_add_entry i1 n2 (lit WORK);;
  n3 ← get_inode i3 inode_num;
  dir_add_entry i2 n3 (lit HELLO_TXT);;
  inode_write_data i3 0 11 hello false;;
  inode_unlock i3;;
  inode_unlock i2;;
  inode_unlock i1;;
  inode_unlock ip;;
  '(tmp_1, _) ← path_to_pinode HELLO_PATH;
  tmp_2 ← path_to_inode HELLO_PATH;
  kassert (bool_decide (is_Some tmp_1)) "tmp1 = NULL";;
  kassert (bool_decide (is_Some tmp_2)) "tmp2 = NULL";;
  inode_lock tmp_1;;
  t1 ← some_or_fault tmp_1;
  inode_unlock_free t1;;
  inode_lock tmp_2;;
  t2 ← some_or_fault tmp_2;
  modify (fun s => set_k_mem (store8 (k_mem s) (str_local + 11) 0) s);;
  size ← get_inode t2 (fun n => d_size (i_d n));
  inode_read_data t2 0 size str_local false;;
  inode_unlock_free t2.

(** Lines 158-193: entries of the root are added, found and removed. *)
Definition fs_test_dir : M (kstate D) unit :=
  inode_init;;
  ip ← inode_alloc INODE_ROOT;
  inode_lock (Some ip);;
  dir_add_entry ip 1 (lit A_TXT);;
  dir_add_entry ip 2 (lit B_TXT);;
  dir_add_entry ip 3 (lit C_TXT);;
  b ← dir_search_entry ip (lit B_TXT);
  kassert (b =? 2) "error-1";;
  dir_delete_entry ip (lit A_TXT);;
  dir_add_entry ip 1 (lit D_TXT);;
  off ← dir_add_entry ip 4 (lit D_TXT);
  kassert (off =? BLOCK_SIZE) "error-2";;
  inode_unlock ip.

(** The result is the comparison of lines 101-104. *)
Definition fs_init : M (kstate D) bool :=
  fs_mount;;
  same ← fs_test_inode;
  fs_test_path;;
  fs_test_dir;;
  mret same.
End Ops.
