(* ===== verification/Mkfs.v ===== *)
(** * Mkfs: mkfs/mkfs.c, the program that builds the disk image

    It runs on the build host, a little-endian machine.  [exit(1)] and a failed
    [assert] are [Panic], the loops that stop the program are [Spin].  The image is
    the file it writes, block by block; a block that was skipped reads as zeros.
    [inode_disk_t] has the fields of the kernel's [dinode] in the same order, so
    [encode] and [decode] describe both. *)

From S2P Require Import Prelude Bytes Spinlock Kernel Disk Buf Bitmap Inode Dir Fs.

Definition N_DATA_BLOCK : Z := 8192.
Definition N_INODE_BLOCK : Z := 128.
Definition N_BLOCK : Z := N_DATA_BLOCK + N_INODE_BLOCK + 3.

(** [fsfd]: the blocks of the file and their number. *)
Record mkfs := mk_mkfs {
  image : gmap Z (list Z);
  image_blocks : Z;
  m_sb : super_block
}.

Definition set_image (v : gmap Z (list Z)) (s : mkfs) : mkfs := mk_mkfs v (image_blocks s) (m_sb s).
Definition set_image_blocks (v : Z) (s : mkfs) : mkfs := mk_mkfs (image s) v (m_sb s).
Definition set_m_sb (v : super_block) (s : mkfs) : mkfs := mk_mkfs (image s) (image_blocks s) v.

Definition xshort (x : Z) : Z := le_value (le_bytes 2 x).
Definition xint (x : Z) : Z := le_value (le_bytes 4 x).

(** Block [n] of the image. *)
Definition blk (s : mkfs) (n : Z) : list Z := default zero_block (image s !! n).

(** [lseek(fsfd, BLOCK_SIZE * block_num, 0)], a 32-bit product, as a block number. *)
Definition seek (block_num : Z) : Z := u32 (BLOCK_SIZE * block_num) / BLOCK_SIZE.

Definition block_write (block_num : Z) (buf : list Z) : M mkfs unit :=
  let n := seek block_num in
  modify (fun s => set_image_blocks (Z.max (image_blocks s) (n + 1)) (set_image (<[n := buf]> (image s)) s)).

Definition block_read (block_num : Z) : M mkfs (list Z) :=
  let n := seek block_num in
  size ← gets image_blocks;
  if n <? size then gets (fun s => blk s n) else panic "read".

(** The two loops over a bitmap in [block_alloc] and [inode_alloc]. *)
Definition find_clear (l : list Z) : M mkfs (option (Z * Z)) :=
  for_return (seqZ 0 BLOCK_SIZE) (fun byte =>
    for_return (seqZ 0 8) (fun shift =>
      if Z.land (bit_mask shift) (byte_at l byte) =? 0 then mret (Some (byte, shift)) else mret None)).

Definition alloc_bit (bitmap : Z) : M mkfs Z :=
  l ← block_read bitmap;
  r ← find_clear l;
  match r with
  | None => spin
  | Some (byte, shift) =>
      block_write bitmap (<[Z.to_nat byte := Z.lor (byte_at l byte) (bit_mask shift)]> l);;
      mret (u32 (byte * 8 + shift))
  end.

Definition block_alloc : M mkfs Z :=
  b ← gets (fun s => data_bitmap_start (m_sb s));
  n ← alloc_bit b;
  start ← gets (fun s => data_start (m_sb s));
  mret (u32 (n + start)).

Definition inode_alloc : M mkfs Z :=
  b ← gets (fun s => inode_bitmap_start (m_sb s));
  n ← alloc_bit b;
  mret (u16 n).

Definition INODE_LOCATE_BLOCK (inum : Z) (sb : super_block) : Z := u32 (inum / INODE_PER_BLOCK + inode_start sb).

Definition inode_read (inode_num : Z) : M mkfs dinode :=
  block_num ← gets (fun s => INODE_LOCATE_BLOCK inode_num (m_sb s));
  l ← block_read block_num;
  mret (decode (slice l ((inode_num mod INODE_PER_BLOCK) * INODE_DISK_SIZE) INODE_DISK_SIZE)).

Definition inode_write (inode_num : Z) (ip : dinode) : M mkfs unit :=
  block_num ← gets (fun s => INODE_LOCATE_BLOCK inode_num (m_sb s));
  l ← block_read block_num;
  block_write block_num (blit l ((inode_num mod INODE_PER_BLOCK) * INODE_DISK_SIZE) (encode ip)).

(** The value that [inode] has afterwards. *)
Definition inode_create (inode_num type : Z) : M mkfs dinode :=
  let inode := mk_dinode (xshort type) (xshort 0) (xshort 0) (xshort 1) (xint 0) (replicate (Z.to_nat N_ADDRS) (xint 0)) in
  inode_write inode_num inode;;
  mret inode.

Section Ops.
(** The bytes of the uninitialised [de.name] when the entry at an offset is made. *)
Variable junk : Z -> list Z.

Definition dirent_create (dir_block offset : Z) (name : list Z) (inode_num : Z) : M mkfs Z :=
  if 30 <=? Z.of_nat (length name) then panic "strlen(name) < 30" else
  let de := le_bytes 2 (xint inode_num) ++ blit (junk offset) 0 (name ++ [0]) in
  dir_buf ← block_read dir_block;
  if BLOCK_SIZE <? offset + DIRENT_SIZE then fault else
  block_write dir_block (blit dir_buf offset de);;
  mret (u32 (offset + DIRENT_SIZE)).

(** The value of [*entry] afterwards and the result.  [next_entry] points into the
    local [buf]. *)
Fixpoint locate_block (fuel : nat) (entry bn size : Z) : M mkfs (Z * Z) :=
  entry ← (if entry =? 0 then block_alloc else mret entry);
  if size =? 1 then mret (entry, entry) else
  match fuel with
  | O => no_fuel
  | S fuel' =>
      let next_size := size / ENTRY_PER_BLOCK in
      let next_bn := bn mod next_size in
      buf ← block_read entry;
      '(_, ret) ← locate_block fuel' (word buf (4 * (bn / next_size)) 4) next_bn next_size;
      mret (entry, ret)
  end.

Definition locate_addr (ip : dinode) (k bn size : Z) : M mkfs (dinode * Z) :=
  e ← some_or_fault (d_addrs ip !! Z.to_nat k);
  '(e, ret) ← locate_block 2 e bn size;
  mret (set_d_addrs (<[Z.to_nat k := e]> (d_addrs ip)) ip, ret).

Definition inode_locate_block (ip : dinode) (bn : Z) : M mkfs (dinode * Z) :=
  if bn <? N_ADDRS_1 then locate_addr ip bn bn 1 else
  let bn := bn - N_ADDRS_1 in
  if bn <? N_ADDRS_2 * ENTRY_PER_BLOCK then
    locate_addr ip (N_ADDRS_1 + bn / ENTRY_PER_BLOCK) (bn mod ENTRY_PER_BLOCK) ENTRY_PER_BLOCK
  else
  let bn := bn - N_ADDRS_2 * ENTRY_PER_BLOCK in
  if bn <? N_ADDRS_3 * ENTRY_PER_BLOCK * ENTRY_PER_BLOCK then
    let size := ENTRY_PER_BLOCK * ENTRY_PER_BLOCK in
    locate_addr ip (N_ADDRS_1 + N_ADDRS_2 + bn / size) (bn mod size) size
  else spin.

(** [while(1)] over the rest [content] of a host file; [read] returns a full block
    except at the end.  Afterwards: the inode, [bn], [buf]. *)
Fixpoint copy_loop (fuel : nat) (content : list Z) (inode : dinode) (bn : Z) (buf : list Z) : M mkfs (dinode * Z * list Z) :=
  match fuel with
  | O => no_fuel
  | S fuel' =>
      let chunk := take (Z.to_nat BLOCK_SIZE) content in
      let read_len := Z.of_nat (length chunk) in
      let buf := blit buf 0 chunk in
      '(inode, block_num) ← inode_locate_block inode bn;
      block_write block_num buf;;
      let inode := set_d_size (u32 (d_size inode + read_len)) inode in
      if read_len <? BLOCK_SIZE then mret (inode, u32 (bn + 1), buf)
      else copy_loop fuel' (drop (Z.to_nat BLOCK_SIZE) content) inode (u32 (bn + 1)) buf
  end.

(** [argv\[i\]] and the content of that file, [None] if it cannot be opened. *)
Definition program : Type := list Z * option (list Z).

(** One iteration of the loop over the arguments; [offset], [bn] and [buf] live on. *)
Definition add_program (rooti_block : Z) (arg : program) (offset bn : Z) (buf : list Z) : M mkfs (Z * Z * list Z) :=
  match drop 7 (arg.1 ++ [0]) with
  | c :: shortname =>
      if negb (c =? 95) then panic "*shortname == '_'" else
      let shortname := removelast shortname in
      if bool_decide (SLASH ∈ shortname) then panic "index(shortname, '/') == 0" else
      inum ← inode_alloc;
      inode ← inode_create inum FT_FILE;
      offset ← dirent_create rooti_block offset shortname inum;
      match arg.2 with
      | None => panic "open"
      | Some content =>
          '(inode, bn, buf) ← copy_loop (S (Z.to_nat (Z.of_nat (length content) / BLOCK_SIZE))) content inode bn buf;
          inode_write inum (set_d_size (xint (d_size inode)) (set_d_addrs (xint <$> d_addrs inode) inode));;
          mret (offset, bn, buf)
      end
  | [] => fault
  end.

Fixpoint add_programs (rooti_block : Z) (args : list program) (offset bn : Z) (buf : list Z) : M mkfs unit :=
  match args with
  | [] => mret tt
  | arg :: args' =>
      '(offset, bn, buf) ← add_program rooti_block arg offset bn buf;
      add_programs rooti_block args' offset bn buf
  end.

Definition new_sb : super_block :=
  mk_sb FS_MAGIC (xint BLOCK_SIZE) (xint 1) (xint (1 + 1)) (xint (1 + 1 + N_INODE_BLOCK)) (xint (1 + 1 + N_INODE_BLOCK + 1))
    (xint N_INODE_BLOCK) (xint N_DATA_BLOCK) (xint N_BLOCK).

Definition encode_sb (sb : super_block) : list Z :=
  concat (le_bytes 4 <$> [magic sb; block_size sb; inode_bitmap_start sb; inode_start sb; data_bitmap_start sb; data_start sb;
    inode_blocks sb; data_blocks sb; total_blocks sb]).

(** [main] with the arguments [argv\[2\]], ... *)
Definition main (args : list program) : M mkfs unit :=
  modify (set_m_sb new_sb);;
  for_each (seqZ 0 N_BLOCK) (fun i => block_write i zero_block);;
  sb ← gets m_sb;
  let buf := blit zero_block 0 (encode_sb sb) in
  block_write 0 buf;;
  root_inum ← inode_alloc;
  rooti_block ← block_alloc;
  (if negb (root_inum =? 0) then spin else mret tt);;
  rooti ← inode_create root_inum FT_DIR;
  offset ← dirent_create rooti_block 0 DOT root_inum;
  offset ← dirent_create rooti_block offset DOTDOT root_inum;
  add_programs rooti_block args offset 0 buf;;
  inode_write root_inum (set_d_size (xint (DIRENT_SIZE * (2 + Z.of_nat (length args))))
    (set_d_addrs (<[0%nat := xint rooti_block]> (d_addrs rooti)) rooti)).
End Ops.

(** The file before [main]: open truncates it. *)
Definition no_image : mkfs := mk_mkfs ∅ 0 (mk_sb 0 0 0 0 0 0 0 0 0).
