(* ===== verification/MkfsSpec.v ===== *)
(** * MkfsSpec: the disk image that mkfs builds (mkfs/mkfs.c)

    The image is described with the kernel's own reading of a disk: [decode_sb],
    [decode] for inodes, [de_num] and [ename] for directory entries. *)

From S2P Require Import Prelude Bytes Kstring Spinlock Kernel Disk Buf Bitmap Inode InodeMeta InodeData Dir DirSpec PathSpec Fs Mkfs.

Implicit Types (s : mkfs) (n m k : Z) (d : dinode).

(** ** Blocks *)

(** The program has started to fill an image of full size. *)
Record sized s : Prop := { sz_sb : m_sb s = new_sb; sz_blocks : image_blocks s = N_BLOCK; sz_good : forall n, good_data (blk s n) }.

Definition put n (l : list Z) s : mkfs := set_image (<[n := l]> (image s)) s.

Lemma blk_put n l s x : blk (put n l s) x = if decide (x = n) then l else blk s x.
Proof. unfold blk, put. simpl. case_decide as Hx; [subst; by rewrite lookup_insert_eq | by rewrite lookup_insert_ne]. Qed.

Lemma sized_put n l s : sized s -> good_data l -> sized (put n l s).
Proof. intros [? ? Hg] Hl. split; [done | done |]. intros x. rewrite blk_put. by case_decide. Qed.

Lemma seek_small n : 0 <= n < N_BLOCK -> seek n = n.
Proof.
  unfold seek, N_BLOCK, N_DATA_BLOCK, N_INODE_BLOCK, BLOCK_SIZE. intros Hn. rewrite u32_small by lia.
  rewrite Z.mul_comm. by apply Z.div_mul.
Qed.

Lemma block_write_run s n l : sized s -> 0 <= n < N_BLOCK -> block_write n l s = Ret tt (put n l s).
Proof.
  intros [_ Hb _] Hn. unfold block_write, modify, put. rewrite seek_small by done. simpl. do 2 f_equal.
  destruct s as [i b sb]. unfold set_image_blocks, set_image in *. simpl in *. f_equal. lia.
Qed.

Lemma block_read_run s n : sized s -> 0 <= n < N_BLOCK -> block_read n s = Ret (blk s n) s.
Proof. intros [_ Hb _] Hn. unfold block_read. mrun. rewrite seek_small by done. by rewrite Hb, (proj2 (Z.ltb_lt _ _)) by lia. Qed.

(** ** Bitmaps *)

(** The first [m] bits of a bitmap are set. *)
Definition first_bits (l : list Z) m : Prop := forall i, 0 <= i < NBITS -> bit l i = (i <? m).

Lemma find_clear_run s l m : good_data l -> first_bits l m -> 0 <= m < NBITS -> find_clear l s = Ret (Some (m / 8, m mod 8)) s.
Proof.
  intros Hl Hb Hm. destruct (bit_index m Hm) as [H1 H2]. unfold find_clear.
  assert (forall y b, 0 <= y < BLOCK_SIZE -> 0 <= b < 8 ->
    (if Z.land (bit_mask b) (byte_at l y) =? 0 then mret (Some (y, b)) else mret None : M mkfs _) s = Ret (if y * 8 + b <? m then None else Some (y, b)) s) as Hbit.
  { intros y b Hy Hb8. rewrite Z.land_comm, land_mask by (try apply byte_at_range; done).
    assert (0 <= y * 8 + b < NBITS) as Hi by (unfold NBITS, BLOCK_SIZE in *; lia). rewrite <- (Hb _ Hi). unfold bit.
    replace ((y * 8 + b) / 8) with y by (rewrite Z.div_add_l by lia; rewrite Z.div_small by lia; lia).
    replace ((y * 8 + b) mod 8) with b by (rewrite Z.add_comm, Z.mod_add by lia; by rewrite Z.mod_small).
    by destruct (Z.testbit _ _). }
  rewrite (seqZ_split BLOCK_SIZE (m / 8)) by done. apply for_return_hit.
  - intros y Hy. apply elem_of_seqZ in Hy. apply for_return_none. intros b Hb8. apply elem_of_seqZ in Hb8.
    rewrite Hbit by lia. by rewrite (proj2 (Z.ltb_lt _ _)) by (pose proof (Z.div_mod m 8); lia).
  - rewrite (seqZ_split 8 (m mod 8)) by done. apply for_return_hit.
    + intros b Hb8. apply elem_of_seqZ in Hb8. rewrite Hbit by lia. by rewrite (proj2 (Z.ltb_lt _ _)) by (pose proof (Z.div_mod m 8); lia).
    + rewrite Hbit by lia. by rewrite (proj2 (Z.ltb_ge _ _)) by (pose proof (Z.div_mod m 8); lia).
Qed.

Lemma first_bits_set l m : good_data l -> first_bits l m -> 0 <= m < NBITS -> first_bits (set_bit l m) (m + 1).
Proof.
  intros Hl Hb Hm i Hi. rewrite bit_set_bit, (Hb i Hi) by done.
  destruct (Z.eqb_spec i m), (Z.ltb_spec i m), (Z.ltb_spec i (m + 1)); (done || lia).
Qed.

Lemma alloc_bit_run s x m : sized s -> 0 <= x < N_BLOCK -> first_bits (blk s x) m -> 0 <= m < NBITS ->
  alloc_bit x s = Ret m (put x (set_bit (blk s x) m) s).
Proof.
  intros Hs Hx Hb Hm. pose proof (sz_good s Hs x) as Hl. unfold alloc_bit.
  mstep ltac:(by apply block_read_run). mstep ltac:(by apply find_clear_run). cbv beta iota. mstep ltac:(by apply block_write_run).
  unfold set_bit. rewrite Z.mul_comm, <- Z.div_mod, u32_small by (unfold NBITS, BLOCK_SIZE in *; lia). done.
Qed.

(** The image has [k] inodes and [m] data blocks in use; the other data blocks are still zero. *)
Record img s k m : Prop := {
  im_sized : sized s;
  im_inodes : first_bits (blk s 1) k;
  im_data : first_bits (blk s 130) m;
  im_fresh : forall n, 131 + m <= n -> blk s n = zero_block;
  im_k : 0 <= k <= NBITS;
  im_m : 1 <= m <= NBITS
}.

(** Blocks that only change when they are written as data: neither a bitmap nor new. *)
Definition same_but (P : Z -> Prop) s s' : Prop := forall n, ~ P n -> blk s' n = blk s n.

Lemma same_but_trans (P : Z -> Prop) s1 s2 s3 : same_but P s1 s2 -> same_but P s2 s3 -> same_but P s1 s3.
Proof. intros H1 H2 n Hn. by rewrite H2, H1. Qed.

Lemma same_but_weaken (P Q : Z -> Prop) s s' : (forall n, P n -> Q n) -> same_but P s s' -> same_but Q s s'.
Proof. intros HPQ H n Hn. apply H. intros Hp. by apply Hn, HPQ. Qed.

Lemma img_block s k m n l : img s k m -> good_data l -> 131 <= n < 131 + m -> img (put n l s) k m.
Proof.
  intros [Hs Hi Hd Hf ? ?] Hl Hn. split; rewrite ?blk_put, ?decide_False by lia; try done; [by apply sized_put|].
  intros x Hx. rewrite blk_put, decide_False by lia. by apply Hf.
Qed.

Lemma img_meta s k m n l : img s k m -> good_data l -> 1 < n < 130 -> img (put n l s) k m.
Proof.
  intros [Hs Hi Hd Hf ? ?] Hl Hn. split; rewrite ?blk_put, ?decide_False by lia; try done; [by apply sized_put|].
  intros x Hx. rewrite blk_put, decide_False by lia. by apply Hf.
Qed.

Lemma block_alloc_run s k m : img s k m -> m < NBITS ->
  exists s', block_alloc s = Ret (131 + m) s' /\ img s' k (m + 1) /\ same_but (eq 130) s s'.
Proof.
  intros [Hs Hi Hd Hf ? ?] Hm. assert (good_data (blk s 130)) as Hg by apply Hs. exists (put 130 (set_bit (blk s 130) m) s). split_and!.
  - unfold block_alloc. mrun. rewrite (sz_sb s Hs). change (data_bitmap_start new_sb) with 130.
    mstep ltac:(apply alloc_bit_run; (done || lia)). unfold put at 1. simpl. rewrite (sz_sb s Hs). change (data_start new_sb) with 131.
    rewrite u32_small by (unfold NBITS, BLOCK_SIZE in *; lia). unfold mret, M_ret. f_equal. lia.
  - split; rewrite ?blk_put; try done; try lia.
    + apply sized_put; [done|]. apply good_set_bit; [done | lia].
    + apply first_bits_set; (done || lia).
    + intros n Hn. rewrite blk_put, decide_False by lia. apply Hf. lia.
  - intros n Hn. by rewrite blk_put, decide_False by (by intros ->).
Qed.

Lemma inode_alloc_run s k m : img s k m -> k < NBITS ->
  exists s', inode_alloc s = Ret k s' /\ img s' (k + 1) m /\ same_but (eq 1) s s'.
Proof.
  intros [Hs Hi Hd Hf ? ?] Hk. assert (good_data (blk s 1)) as Hg by apply Hs. exists (put 1 (set_bit (blk s 1) k) s). split_and!.
  - unfold inode_alloc. mrun. rewrite (sz_sb s Hs). change (inode_bitmap_start new_sb) with 1.
    mstep ltac:(apply alloc_bit_run; (done || lia)). unfold u16. by rewrite Z.mod_small by (unfold NBITS, BLOCK_SIZE in *; lia).
  - split; rewrite ?blk_put; try done; try lia.
    + apply sized_put; [done|]. apply good_set_bit; [done | lia].
    + apply first_bits_set; (done || lia).
    + intros n Hn. rewrite blk_put, decide_False by lia. by apply Hf.
  - intros n Hn. by rewrite blk_put, decide_False by (by intros ->).
Qed.

(** ** Inodes *)

Definition inode_at s k : dinode := decode (slice (blk s (2 + k / INODE_PER_BLOCK)) (ioff k) INODE_DISK_SIZE).

(** The kernel finds the same inode on a disk with these blocks. *)
Lemma inode_at_disk {D} `{!BlockDev D} (dev : D) s k : (forall n, 0 <= n < N_BLOCK -> block dev n = blk s n) -> 0 <= k < 2048 ->
  disk_inode dev new_sb k = inode_at s k.
Proof.
  intros Hd Hk. unfold disk_inode, inode_at, iblock. change (inode_start new_sb) with 2.
  assert (0 <= k / INODE_PER_BLOCK < 128) as Hr by (change INODE_PER_BLOCK with 16; split; [apply Z.div_pos | apply Z.div_lt_upper_bound]; lia).
  rewrite u32_small by lia. rewrite Hd; [done | unfold N_BLOCK, N_DATA_BLOCK, N_INODE_BLOCK; lia].
Qed.

Lemma ioff_sep i j : 0 <= i -> 0 <= j -> i <> j -> i / INODE_PER_BLOCK = j / INODE_PER_BLOCK ->
  ioff i + INODE_DISK_SIZE <= ioff j \/ ioff j + INODE_DISK_SIZE <= ioff i.
Proof.
  unfold ioff. change INODE_PER_BLOCK with 16. change INODE_DISK_SIZE with 64. intros Hi Hj Hne Hd.
  pose proof (Z.div_mod i 16 ltac:(lia)). pose proof (Z.div_mod j 16 ltac:(lia)). lia.
Qed.

Lemma inode_write_run s k m i d : img s k m -> 0 <= i < 2048 -> dinode_ok d ->
  exists s', inode_write i d s = Ret tt s' /\ img s' k m /\ same_but (eq (2 + i / INODE_PER_BLOCK)) s s' /\ inode_at s' i = d /\
    (forall j, 0 <= j < 2048 -> j <> i -> inode_at s' j = inode_at s j).
Proof.
  intros Himg Hi Hok. pose proof (im_sized _ _ _ Himg) as Hs. set (x := 2 + i / INODE_PER_BLOCK).
  assert (2 <= x < 130) as Hx.
  { unfold x. change INODE_PER_BLOCK with 16. pose proof (Z.div_pos i 16). pose proof (Z.div_lt_upper_bound i 16 128). lia. }
  assert (length (encode d) = 64%nat) as Hlen by (apply (length_encode d), Hok).
  destruct (ioff_range i) as [H0 H1]. change INODE_DISK_SIZE with 64 in *. pose proof (sz_good s Hs x) as Hg. pose proof (length_good _ Hg) as Hgl.
  set (l := blit (blk s x) (ioff i) (encode d)).
  assert (good_data l) as Hl by (apply good_blit; [done | apply is_bytes_encode | done | rewrite Hlen; lia]).
  exists (put x l s). split_and!.
  - unfold inode_write, INODE_LOCATE_BLOCK. mrun. rewrite (sz_sb s Hs). change (inode_start new_sb) with 2. rewrite (Z.add_comm _ 2), u32_small by (unfold x in Hx; lia). fold x.
    mstep ltac:(apply block_read_run; [done | unfold N_BLOCK, N_DATA_BLOCK, N_INODE_BLOCK; lia]).
    apply block_write_run; [done | unfold N_BLOCK, N_DATA_BLOCK, N_INODE_BLOCK; lia].
  - apply img_meta; [done | done | lia].
  - intros n Hn. by rewrite blk_put, decide_False by (by intros ->).
  - unfold inode_at. rewrite blk_put, decide_True by done. unfold l. replace INODE_DISK_SIZE with (Z.of_nat (length (encode d))) by (by rewrite Hlen).
    rewrite slice_blit_eq by (rewrite ?Hlen; lia). by apply decode_encode.
  - intros j Hj Hne. unfold inode_at. rewrite blk_put. case_decide as He; [|done]. f_equal. rewrite He. unfold l. change INODE_DISK_SIZE with 64.
    assert (i / INODE_PER_BLOCK = j / INODE_PER_BLOCK) as Hd by (unfold x in He; lia).
    pose proof (ioff_sep i j ltac:(lia) ltac:(lia) (not_eq_sym Hne) Hd) as Hsep. change INODE_DISK_SIZE with 64 in Hsep. pose proof (ioff_range j) as [? ?].
    apply slice_blit_disjoint; rewrite ?Hlen; lia.
Qed.

Definition created (type : Z) : dinode := mk_dinode type 0 0 1 0 no_addrs.

Lemma created_ok type : 0 <= type < 2 ^ 16 -> dinode_ok (created type).
Proof. intros Ht. split_and!; simpl; try lia; [done|]. apply Forall_replicate. lia. Qed.

Lemma inode_create_run s k m i type : img s k m -> 0 <= i < 2048 -> 0 <= type < 2 ^ 16 ->
  exists s', inode_create i type s = Ret (created type) s' /\ img s' k m /\ same_but (eq (2 + i / INODE_PER_BLOCK)) s s' /\ inode_at s' i = created type /\
    (forall j, 0 <= j < 2048 -> j <> i -> inode_at s' j = inode_at s j).
Proof.
  intros Himg Hi Ht. destruct (inode_write_run s k m i (created type) Himg Hi (created_ok type Ht)) as (s' & H & Hrest).
  exists s'. split; [|done]. unfold inode_create. replace (xshort type) with type by (unfold xshort; rewrite le_value_le_bytes; by rewrite Z.mod_small).
  change (mk_dinode type _ _ _ _ _) with (created type). by rewrite (bind_ret_eq _ _ _ _ _ H).
Qed.

(** ** Directory entries *)

Definition ROOT_BLOCK : Z := 131.

(** A name that fits into an entry. *)
Definition name_ok (nm : list Z) : Prop := Z.of_nat (length nm) < DIR_NAME_LEN /\ Forall (fun c => 0 < c < 2 ^ 8) nm.

Section Names.
Variable junk : Z -> list Z.
Hypothesis junk_ok : forall o, length (junk o) = Z.to_nat DIR_NAME_LEN /\ is_bytes (junk o).

Definition new_entry (o : Z) (nm : list Z) (num : Z) : list Z := le_bytes 2 (xint num) ++ blit (junk o) 0 (nm ++ [0]).

Lemma new_entry_good o nm num : name_ok nm -> length (new_entry o nm num) = 32%nat /\ is_bytes (new_entry o nm num).
Proof.
  intros [Hl Hb]. destruct (junk_ok o) as [Hj Hjb]. unfold new_entry, DIR_NAME_LEN in *. split.
  - rewrite length_app, length_le_bytes, length_blit by (rewrite ?length_app, ?Hj; simpl; lia). by rewrite Hj.
  - apply Forall_app. split; [apply is_bytes_le_bytes|]. apply is_bytes_blit; [done|]. apply Forall_app. split; [|repeat constructor; lia].
    eapply Forall_impl_elem; [exact Hb|]. simpl. lia.
Qed.

Lemma new_entry_name o nm num i : name_ok nm -> 0 <= i <= Z.of_nat (length nm) ->
  byte_at (new_entry o nm num) (2 + i) = byte_at (nm ++ [0]) i.
Proof.
  intros [Hl Hb] Hi. destruct (junk_ok o) as [Hj Hjb]. unfold new_entry, DIR_NAME_LEN in *.
  assert (forall l : list Z, byte_at (le_bytes 2 (xint num) ++ l) (2 + i) = byte_at l i) as ->.
  { intros l. unfold byte_at. rewrite !list_lookup_total_alt, lookup_app_r by (rewrite length_le_bytes; lia). do 2 f_equal. rewrite length_le_bytes. lia. }
  rewrite byte_at_blit_len by (rewrite ?length_app, ?Hj; simpl; lia). rewrite decide_True by (rewrite length_app; simpl; lia). f_equal. lia.
Qed.

(** The block after the entry was written. *)
Lemma entry_written l o nm num : good_data l -> offset_ok o -> name_ok nm ->
  let l' := blit l o (new_entry o nm num) in
  good_data l' /\ de_num l' o = u16 num /\ ename l' o = nm /\ forall o', offset_ok o' -> o' <> o -> agree l l' o'.
Proof.
  intros Hl Ho Hn l'. destruct (new_entry_good o nm num Hn) as [Hlen Hbytes]. destruct (offset_range o Ho) as [H0 H1]. pose proof (length_good _ Hl) as Hll.
  assert (forall i, 0 <= i < 32 -> byte_at l' (o + i) = byte_at (new_entry o nm num) i) as Hin.
  { intros i Hi. unfold l'. rewrite byte_at_blit_len by (rewrite ?Hlen; lia). rewrite decide_True by (rewrite Hlen; lia). f_equal. lia. }
  assert (good_data l') as Hg by (apply good_blit; [done | done | done | rewrite Hlen; lia]). split_and!; [done | | |].
  - unfold de_num, word. replace (slice l' o 2) with (le_bytes 2 (xint num)).
    + rewrite le_value_le_bytes. unfold xint. rewrite le_value_le_bytes. unfold u16. rewrite Z.mod_mod_divide; [done|]. by exists (2 ^ 16).
    + unfold l', slice, blit. rewrite drop_app_length' by (rewrite length_take; lia). unfold new_entry. rewrite <- !app_assoc. done.
  - unfold ename, cstr. destruct Hn as [Hlt Hnz]. unfold DIR_NAME_LEN in *. apply cstr_from_unique; [lia | |].
    + intros j a Hj. pose proof (lookup_lt_Some _ _ _ Hj). unfold de_name. replace (o + 2 + (0 + Z.of_nat j)) with (o + (2 + Z.of_nat j)) by lia.
      rewrite Hin, new_entry_name by (done || lia). unfold byte_at. rewrite Nat2Z.id. rewrite (list_lookup_total_correct (nm ++ [0]) j a) by (by apply lookup_app_l_Some).
      split; [done|]. eapply Forall_lookup_1 in Hnz; [|exact Hj]. simpl in Hnz. lia.
    + intros Hlt'. unfold de_name. replace (o + 2 + (0 + Z.of_nat (length nm))) with (o + (2 + Z.of_nat (length nm))) by lia.
      rewrite Hin, new_entry_name by (done || lia). unfold byte_at. rewrite Nat2Z.id. apply list_lookup_total_correct. by rewrite lookup_app_r, Nat.sub_diag by lia.
  - intros o' Ho' Hne i Hi. pose proof (offset_sep o o' Ho Ho' (not_eq_sym Hne)). unfold l'.
    rewrite byte_at_blit_len by (rewrite ?Hlen; destruct (offset_range o' Ho'); lia). by rewrite decide_False by (rewrite Hlen; lia).
Qed.

Lemma dirent_create_run s k m o nm num : img s k m -> offset_ok o -> name_ok nm ->
  dirent_create junk ROOT_BLOCK o nm num s = Ret (o + 32) (put ROOT_BLOCK (blit (blk s ROOT_BLOCK) o (new_entry o nm num)) s) /\
  img (put ROOT_BLOCK (blit (blk s ROOT_BLOCK) o (new_entry o nm num)) s) k m.
Proof.
  intros Himg Ho Hn. pose proof (im_sized _ _ _ Himg) as Hs. destruct (offset_range o Ho) as [H0 H1]. pose proof (im_m _ _ _ Himg).
  destruct (entry_written (blk s ROOT_BLOCK) o nm num (sz_good s Hs _) Ho Hn) as (Hg & _). split; [|apply img_block; [done | done | unfold ROOT_BLOCK; lia]].
  unfold dirent_create. destruct Hn as [Hlt _]. unfold DIR_NAME_LEN in Hlt. rewrite (proj2 (Z.leb_gt _ _)) by lia.
  mstep ltac:(apply block_read_run; [done | unfold N_BLOCK, N_DATA_BLOCK, N_INODE_BLOCK, ROOT_BLOCK; lia]). unfold DIRENT_SIZE.
  rewrite (proj2 (Z.ltb_ge _ _)) by lia.
  mstep ltac:(apply block_write_run; [done | unfold N_BLOCK, N_DATA_BLOCK, N_INODE_BLOCK, ROOT_BLOCK; lia]).
  by rewrite u32_small by (unfold BLOCK_SIZE in *; lia).
Qed.
End Names.

(** ** The blocks of a file *)

(** An entry of [addrs] behind which no block number was stored: it is free, or its
    block is zero. *)
Definition hollow s m e : Prop := e = 0 \/ (131 <= e < 131 + m /\ blk s e = zero_block).

Lemma word_zero_block o n : 0 <= n -> word zero_block o n = 0.
Proof.
  intros Hn. unfold word, slice, zero_block. rewrite drop_replicate, take_replicate.
  generalize (min (Z.to_nat n) (Z.to_nat BLOCK_SIZE - Z.to_nat o)). intros r. induction r as [|r IH]; [done|]. simpl. by rewrite IH.
Qed.

Lemma hollow_same s s' m m' e : hollow s m e -> m <= m' -> same_but (eq 130) s s' -> hollow s' m' e.
Proof. intros [He|[He Hz]] Hm Hsame; [by left|]. right. split; [lia|]. rewrite Hsame by lia. done. Qed.

(** The entry after [locate_block] has passed it: the block is allocated and stays
    zero unless it is the data block itself. *)
Lemma locate_block_run l : forall fuel s k m e bn, (l <= fuel)%nat -> img s k m -> m + Z.of_nat l < NBITS ->
  (if decide (l = O) then e = 0 else hollow s m e) ->
  exists s' m' e', locate_block fuel e bn (ENTRY_PER_BLOCK ^ Z.of_nat l) s = Ret (e', 131 + (m' - 1)) s' /\ m < m' <= m + Z.of_nat l + 1 /\
    img s' k m' /\ same_but (eq 130) s s' /\ 131 <= e' < 131 + m' /\
    (if decide (l = O) then e' = 131 + (m' - 1) else hollow s' m' e' /\ e' <> 131 + (m' - 1)).
Proof.
  induction l as [|l IH]; intros fuel s k m e bn Hf Himg Hm He.
  - rewrite decide_True in He by done. subst e. destruct (block_alloc_run s k m Himg ltac:(lia)) as (s1 & H1 & Himg1 & Hsame1).
    exists s1, (m + 1), (131 + m). split_and!; try done; try (pose proof (im_m _ _ _ Himg); lia); [|rewrite decide_True by done; lia].
    destruct fuel; cbn [locate_block Z.eqb]; (mstep ltac:(exact H1)); change (ENTRY_PER_BLOCK ^ Z.of_nat 0 =? 1) with true; cbv iota; unfold mret, M_ret; do 2 f_equal; lia.
  - rewrite decide_False in He by done. destruct fuel as [|fuel]; [lia|].
    assert (exists s1 m1 e1, (if e =? 0 then block_alloc else mret e) s = Ret e1 s1 /\ m <= m1 <= m + 1 /\ img s1 k m1 /\ same_but (eq 130) s s1 /\
      131 <= e1 < 131 + m1 /\ blk s1 e1 = zero_block) as (s1 & m1 & e1 & H1 & Hm1 & Himg1 & Hsame1 & He1 & Hz1).
    { destruct He as [->|[Hr Hz]].
      - destruct (block_alloc_run s k m Himg ltac:(lia)) as (s1 & H1 & Himg1 & Hsame1). exists s1, (m + 1), (131 + m). pose proof (im_m _ _ _ Himg).
        split_and!; try done; try lia. rewrite Hsame1 by lia. apply (im_fresh _ _ _ Himg). lia.
      - exists s, m, e. rewrite (proj2 (Z.eqb_neq _ _)) by lia. by split_and!; (done || lia). }
    set (size := ENTRY_PER_BLOCK ^ Z.of_nat (S l)). assert (size / ENTRY_PER_BLOCK = ENTRY_PER_BLOCK ^ Z.of_nat l) as Hdiv.
    { unfold size. rewrite Nat2Z.inj_succ, Z.pow_succ_r, Z.mul_comm by lia. by apply Z.div_mul. }
    assert (size <> 1) as Hsize.
    { unfold size. rewrite Nat2Z.inj_succ, Z.pow_succ_r by lia. change ENTRY_PER_BLOCK with 256. pose proof (Z.pow_pos_nonneg 256 (Z.of_nat l)). lia. }
    destruct (IH fuel s1 k m1 0 (bn mod (size / ENTRY_PER_BLOCK)) ltac:(lia) Himg1 ltac:(lia)) as (s2 & m2 & e2 & H2 & Hm2 & Himg2 & Hsame2 & He2 & Hlast).
    { case_decide; [done | by left]. }
    exists s2, m2, e1. split_and!; try done; try lia.
    + cbn [locate_block]. mstep ltac:(exact H1). rewrite (proj2 (Z.eqb_neq size 1)) by done.
      mstep ltac:(apply block_read_run; [apply Himg1 | pose proof (im_m _ _ _ Himg1); unfold N_BLOCK, N_DATA_BLOCK, N_INODE_BLOCK, NBITS, BLOCK_SIZE in *; lia]).
      rewrite Hz1, word_zero_block by lia. fold size. rewrite Hdiv in *. by rewrite (bind_ret_eq _ _ _ _ _ H2).
    + by eapply same_but_trans.
    + rewrite decide_False by done. split; [right; split; [lia|]; rewrite Hsame2 by lia; done | lia].
Qed.

(** The inode of a file that has been copied up to block [bn]. *)
Record filled s m d bn : Prop := {
  fi_ok : dinode_ok d;
  fi_direct : forall j, bn <= j < 10 -> addr_of d j = 0;
  fi_indirect : forall j, 10 <= j < 13 -> hollow s m (addr_of d j)
}.

Lemma addr_of_set d k j v : length (d_addrs d) = 13%nat -> 0 <= k < 13 -> 0 <= j ->
  addr_of (set_d_addrs (<[Z.to_nat k := v]> (d_addrs d)) d) j = if decide (j = k) then v else addr_of d j.
Proof.
  intros Hl Hk Hj. unfold addr_of. simpl. case_decide as He.
  - subst. by rewrite list_lookup_insert_eq by lia.
  - by rewrite list_lookup_insert_ne by lia.
Qed.

Lemma dinode_ok_set d (k : nat) v : dinode_ok d -> 0 <= v < 2 ^ 32 -> dinode_ok (set_d_addrs (<[k := v]> (d_addrs d)) d).
Proof. intros (?&?&?&?&?&Hl&Ha) Hv. split_and!; simpl; try done; try lia; [by rewrite length_insert | by apply Forall_insert]. Qed.

Lemma locate_addr_run l s k m d i bn b : img s k m -> filled s m d b -> (l <= 2)%nat -> m + Z.of_nat l < NBITS -> 0 <= i < 13 -> 0 <= b ->
  (if decide (l = O) then i = b /\ b < 10 else 10 <= i) ->
  exists s' m' d', locate_addr d i bn (ENTRY_PER_BLOCK ^ Z.of_nat l) s = Ret (d', 131 + (m' - 1)) s' /\ m < m' <= m + 3 /\ img s' k m' /\
    same_but (eq 130) s s' /\ filled s' m' d' (b + 1) /\ (forall j, 10 <= j < 13 -> addr_of d' j <> 131 + (m' - 1)) /\
    set_d_addrs [] d' = set_d_addrs [] d /\ (l = O -> addr_of d' i = 131 + (m' - 1)) /\ (forall j, 0 <= j -> j <> i -> addr_of d' j = addr_of d j).
Proof.
  intros Himg [Hok Hd Hind] Hl Hm Hi Hb Hcase. assert (length (d_addrs d) = 13%nat) as Hlen by apply Hok.
  destruct (lookup_lt_is_Some_2 (d_addrs d) (Z.to_nat i)) as [e He]; [lia|]. assert (addr_of d i = e) as Hae by (unfold addr_of; by rewrite He).
  destruct (locate_block_run l 2 s k m e bn Hl Himg Hm) as (s' & m' & e' & H & Hm' & Himg' & Hsame & He' & Hlast).
  { case_decide; [rewrite <- Hae; apply Hd; lia | rewrite <- Hae; apply Hind; lia]. }
  pose proof (im_m _ _ _ Himg'). assert (0 <= e' < 2 ^ 32) as Hr by (unfold NBITS, BLOCK_SIZE in *; lia).
  assert (m' <= m + 3) as Hm3 by lia. assert (forall j, 10 <= j < 13 -> hollow s' m' (addr_of d j)) as Hold by (intros j Hj; apply (hollow_same s s' m); [by apply Hind | lia | done]).
  exists s', m', (set_d_addrs (<[Z.to_nat i := e']> (d_addrs d)) d). split_and!; try done; try lia.
  - unfold locate_addr. rewrite He. mrun. by rewrite (bind_ret_eq _ _ _ _ _ H).
  - split; [by apply dinode_ok_set | |]; intros j Hj; rewrite addr_of_set by (done || lia).
    + rewrite decide_False; [apply Hd; lia|]. case_decide; lia.
    + destruct (decide (j = i)); [|by apply Hold]. rewrite decide_False in Hlast by (intros ->; rewrite decide_True in Hcase by done; lia). apply Hlast.
  - intros j Hj. rewrite addr_of_set by (done || lia). destruct (decide (j = i)).
    + rewrite decide_False in Hlast by (intros ->; rewrite decide_True in Hcase by done; lia). lia.
    + destruct (Hind j Hj) as [-> | [? _]]; lia.
  - intros ->. rewrite addr_of_set, decide_True by (done || lia). by rewrite decide_True in Hlast by done.
  - intros j Hj Hne. by rewrite addr_of_set, decide_False by (done || lia).
Qed.

Lemma inode_locate_run s k m d bn : img s k m -> filled s m d bn -> 0 <= bn < MAXBN -> m + 3 <= NBITS ->
  exists s' m' d', inode_locate_block d bn s = Ret (d', 131 + (m' - 1)) s' /\ m < m' <= m + 3 /\ img s' k m' /\
    same_but (eq 130) s s' /\ filled s' m' d' (bn + 1) /\ (forall j, 10 <= j < 13 -> addr_of d' j <> 131 + (m' - 1)) /\
    set_d_addrs [] d' = set_d_addrs [] d /\ (bn < 10 -> addr_of d' bn = 131 + (m' - 1)) /\ (forall j, 0 <= j < 10 -> j <> bn -> addr_of d' j = addr_of d j).
Proof.
  intros Himg Hf Hbn Hm. unfold inode_locate_block, MAXBN in *. change N_ADDRS_1 with 10. change (N_ADDRS_2 * ENTRY_PER_BLOCK) with 512.
  change (N_ADDRS_3 * ENTRY_PER_BLOCK * ENTRY_PER_BLOCK) with 65536. change (10 + N_ADDRS_2) with 12.
  destruct (Z.ltb_spec bn 10) as [H10|H10].
  - destruct (locate_addr_run 0 s k m d bn bn bn Himg Hf ltac:(lia) ltac:(lia) ltac:(lia) ltac:(lia)) as (s' & m' & d' & H & Hm' & Hi & Hs & Hf' & Hne & Hd & Ha & Ho); [by rewrite decide_True|].
    exists s', m', d'. split_and!; try done; try lia; intros; first [by apply Ha | apply Ho; lia].
  - destruct (Z.ltb_spec (bn - 10) 512) as [H5|H5].
    + assert (0 <= (bn - 10) / ENTRY_PER_BLOCK < 2) as Hq by (change ENTRY_PER_BLOCK with 256; split; [apply Z.div_pos | apply Z.div_lt_upper_bound]; lia).
      destruct (locate_addr_run 1 s k m d (10 + (bn - 10) / ENTRY_PER_BLOCK) ((bn - 10) mod ENTRY_PER_BLOCK) bn Himg Hf ltac:(lia) ltac:(lia) ltac:(lia) ltac:(lia)) as (s' & m' & d' & H & Hm' & Hi & Hs & Hf' & Hne & Hd & _ & Ho); [rewrite decide_False by done; lia|].
      exists s', m', d'. split_and!; try done; try lia. intros j Hj _. apply Ho; lia.
    + rewrite (proj2 (Z.ltb_lt _ _)) by lia. change (ENTRY_PER_BLOCK * ENTRY_PER_BLOCK) with (ENTRY_PER_BLOCK ^ Z.of_nat 2). change (ENTRY_PER_BLOCK ^ Z.of_nat 2) with 65536 at 1 2.
      replace ((bn - 10 - 512) / 65536) with 0 by (rewrite Z.div_small by lia; done).
      destruct (locate_addr_run 2 s k m d 12 ((bn - 10 - 512) mod 65536) bn Himg Hf ltac:(lia) ltac:(lia) ltac:(lia) ltac:(lia)) as (s' & m' & d' & H & Hm' & Hi & Hs & Hf' & Hne & Hd & _ & Ho); [rewrite decide_False by done; lia|].
      exists s', m', d'. split_and!; try done; try lia. intros j Hj _. apply Ho; lia.
Qed.

(** ** Copying a file *)

(** The last full blocks and one more, which is empty when the length is a multiple of the block size. *)
Definition nblocks (content : list Z) : Z := Z.of_nat (length content) / BLOCK_SIZE + 1.
Definition chunk (content : list Z) (j : Z) : list Z := take (Z.to_nat BLOCK_SIZE) (drop (Z.to_nat (BLOCK_SIZE * j)) content).

Lemma length_chunk content j : (length (chunk content j) <= Z.to_nat BLOCK_SIZE)%nat.
Proof. unfold chunk. rewrite length_take. lia. Qed.

Lemma is_bytes_chunk content j : is_bytes content -> is_bytes (chunk content j).
Proof. intros H. by apply Forall_take, Forall_drop. Qed.

Lemma chunk_next content j : 0 <= j -> chunk (drop (Z.to_nat BLOCK_SIZE) content) j = chunk content (j + 1).
Proof. intros Hj. unfold chunk. rewrite drop_drop. do 2 f_equal. unfold BLOCK_SIZE. lia. Qed.

(** Block [b] holds a part of a file. *)
Definition holds s (b : Z) (bytes : list Z) : Prop := slice (blk s b) 0 (Z.of_nat (length bytes)) = bytes.

Lemma chunk_written buf bytes : good_data buf -> is_bytes bytes -> (length bytes <= Z.to_nat BLOCK_SIZE)%nat ->
  good_data (blit buf 0 bytes) /\ slice (blit buf 0 bytes) 0 (Z.of_nat (length bytes)) = bytes.
Proof.
  intros Hb Hc Hl. pose proof (length_good _ Hb) as Hlen. split; [apply good_blit; (done || lia) | apply slice_blit_eq; lia].
Qed.

(** What copying the rest [content] of a file does from block [bn] of the inode on. *)
Record copied s m d bn (content : list Z) s' m' d' : Prop := {
  co_m : m <= m' <= m + 3 * nblocks content;
  co_same : same_but (fun n => n = 130 \/ 131 + m <= n) s s';
  co_filled : filled s' m' d' (bn + nblocks content);
  co_type : d_type d' = d_type d /\ d_major d' = d_major d /\ d_minor d' = d_minor d /\ d_nlink d' = d_nlink d;
  co_size : d_size d' = u32 (d_size d + Z.of_nat (length content));
  co_old : forall j, 0 <= j < bn -> j < 10 -> addr_of d' j = addr_of d j;
  co_data : forall j, 0 <= j < nblocks content -> bn + j < 10 ->
    131 + m <= addr_of d' (bn + j) < 131 + m' /\ holds s' (addr_of d' (bn + j)) (chunk content j)
}.

Lemma filled_put s m d bn n l : filled s m d bn -> (forall j, 10 <= j < 13 -> addr_of d j <> n) -> filled (put n l s) m d bn.
Proof.
  intros [? ? Hi] Hn. split; [done | done |]. intros j Hj. destruct (Hi j Hj) as [?|[? ?]]; [by left|]. right. split; [done|].
  rewrite blk_put, decide_False; [done|]. by apply Hn.
Qed.

Lemma filled_size s m d bn z : filled s m d bn -> 0 <= z < 2 ^ 32 -> filled s m (set_d_size z d) bn.
Proof. intros [Hok ? ?] Hz. split; [|done..]. destruct Hok as (?&?&?&?&?&?&?). split_and!; simpl; (done || lia). Qed.

(** One iteration. *)
Lemma copy_step s k m d bn bytes buf : img s k m -> filled s m d bn -> good_data buf -> is_bytes bytes -> (length bytes <= Z.to_nat BLOCK_SIZE)%nat ->
  0 <= bn < MAXBN -> m + 3 <= NBITS ->
  exists s' m' d', (forall A (f : dinode -> M mkfs A), ('(d0, b) ← inode_locate_block d bn; block_write b (blit buf 0 bytes);;
      f (set_d_size (u32 (d_size d0 + Z.of_nat (length bytes))) d0)) s = f d' s') /\
    img s' k m' /\ m < m' <= m + 3 /\ same_but (fun n => n = 130 \/ 131 + m <= n) s s' /\ filled s' m' d' (bn + 1) /\
    (d_type d' = d_type d /\ d_major d' = d_major d /\ d_minor d' = d_minor d /\ d_nlink d' = d_nlink d) /\
    d_size d' = u32 (d_size d + Z.of_nat (length bytes)) /\
    (forall j, 0 <= j < 10 -> j <> bn -> addr_of d' j = addr_of d j) /\
    (bn < 10 -> 131 + m <= addr_of d' bn < 131 + m' /\ holds s' (addr_of d' bn) bytes).
Proof.
  intros Himg Hf Hbuf Hbytes Hlen Hbn Hm. destruct (inode_locate_run s k m d bn Himg Hf Hbn Hm) as (s1 & m' & d1 & H1 & Hm' & Himg1 & Hs1 & Hf1 & Hne & Hd & Ha & Ho).
  destruct (chunk_written buf bytes Hbuf Hbytes Hlen) as [Hg Hsl]. pose proof (im_m _ _ _ Himg) as [Hm1 _]. pose proof (im_m _ _ _ Himg1) as [_ Hm2]. set (b := 131 + (m' - 1)) in *.
  exists (put b (blit buf 0 bytes) s1), m', (set_d_size (u32 (d_size d1 + Z.of_nat (length bytes))) d1).
  assert (d_size d1 = d_size d /\ d_type d1 = d_type d /\ d_major d1 = d_major d /\ d_minor d1 = d_minor d /\ d_nlink d1 = d_nlink d) as (Hz & Ht)
    by (split_and!; [apply (f_equal d_size) in Hd | apply (f_equal d_type) in Hd | apply (f_equal d_major) in Hd | apply (f_equal d_minor) in Hd | apply (f_equal d_nlink) in Hd]; exact Hd).
  split_and!; try lia; try (by apply Ht).
  - intros A f. rewrite (bind_ret_eq _ _ _ _ _ H1). rewrite (bind_ret_eq _ _ _ _ _ (block_write_run s1 b _ (im_sized _ _ _ Himg1) ltac:(unfold b, N_BLOCK, N_DATA_BLOCK, N_INODE_BLOCK, NBITS, BLOCK_SIZE in *; lia))). done.
  - apply img_block; [done | done | lia].
  - intros n Hn. rewrite blk_put, decide_False by (intros ->; apply Hn; right; lia). apply Hs1. intros <-. apply Hn. by left.
  - apply filled_size, u32_range. by apply filled_put.
  - simpl. by rewrite Hz.
  - intros j Hj Hnj. by apply Ho.
  - intros Hlt. change (addr_of (set_d_size _ d1) bn) with (addr_of d1 bn). rewrite (Ha Hlt). split; [lia|]. unfold holds. by rewrite blk_put, decide_True.
Qed.

Lemma nblocks_short content : Z.of_nat (length content) < BLOCK_SIZE -> nblocks content = 1.
Proof. intros H. unfold nblocks. rewrite Z.div_small by lia. done. Qed.

Lemma nblocks_long content : BLOCK_SIZE <= Z.of_nat (length content) -> nblocks content = 1 + nblocks (drop (Z.to_nat BLOCK_SIZE) content).
Proof.
  intros H. unfold nblocks, BLOCK_SIZE in * . rewrite length_drop. replace (Z.of_nat (length content)) with (Z.of_nat (length content - Z.to_nat 1024) + 1 * 1024) by lia.
  rewrite Z.div_add by lia. lia.
Qed.

Lemma nblocks_pos content : 1 <= nblocks content.
Proof. unfold nblocks. pose proof (Z.div_pos (Z.of_nat (length content)) BLOCK_SIZE ltac:(lia) ltac:(unfold BLOCK_SIZE; lia)). lia. Qed.

Lemma holds_same s s' m b bytes : same_but (fun n => n = 130 \/ 131 + m <= n) s s' -> 131 <= b < 131 + m -> holds s b bytes -> holds s' b bytes.
Proof. intros Hs Hb Hh. unfold holds in *. by rewrite Hs by lia. Qed.

Lemma copied_cons s m d bn bytes s1 m1 d1 content s2 m2 d2 : 0 <= bn -> 1 <= m ->
  length bytes = Z.to_nat BLOCK_SIZE -> bytes = chunk content 0 -> BLOCK_SIZE <= Z.of_nat (length content) ->
  m < m1 <= m + 3 -> same_but (fun n => n = 130 \/ 131 + m <= n) s s1 ->
  (d_type d1 = d_type d /\ d_major d1 = d_major d /\ d_minor d1 = d_minor d /\ d_nlink d1 = d_nlink d) ->
  d_size d1 = u32 (d_size d + Z.of_nat (length bytes)) ->
  (forall j, 0 <= j < 10 -> j <> bn -> addr_of d1 j = addr_of d j) ->
  (bn < 10 -> 131 + m <= addr_of d1 bn < 131 + m1 /\ holds s1 (addr_of d1 bn) bytes) ->
  copied s1 m1 d1 (bn + 1) (drop (Z.to_nat BLOCK_SIZE) content) s2 m2 d2 -> copied s m d bn content s2 m2 d2.
Proof.
  intros Hbn Hm1 Hl -> Hlen Hm Hs Ht Hz Ho Ha [Cm Cs Cf Ct Cz Co Cd]. set (rest := drop _ content) in *.
  assert (nblocks content = 1 + nblocks rest) as Hn by (by apply nblocks_long). split; rewrite ?Hn.
  - lia.
  - apply (same_but_trans _ _ s1); [done|]. apply (same_but_weaken (fun n => n = 130 \/ 131 + m1 <= n)); [lia | done].
  - by rewrite Z.add_assoc.
  - destruct Ct as (-> & -> & -> & ->). done.
  - rewrite Cz, Hz. unfold u32. rewrite Zplus_mod_idemp_l. f_equal. rewrite Hl. unfold rest. rewrite length_drop. lia.
  - intros j Hj Hj10. rewrite Co, Ho by lia. done.
  - intros j Hj Hj10. destruct (decide (j = 0)) as [->|Hne].
    + rewrite Z.add_0_r in *. rewrite Co by lia. destruct (Ha ltac:(lia)) as [Hr Hh]. split; [lia|]. by apply (holds_same s1 s2 m1); [|lia|].
    + destruct (Cd (j - 1) ltac:(lia) ltac:(lia)) as [Hr Hh]. replace (bn + 1 + (j - 1)) with (bn + j) in * by lia. split; [lia|].
      unfold rest in Hh. rewrite chunk_next in Hh by lia. by replace (j - 1 + 1) with j in Hh by lia.
Qed.

Lemma copy_loop_run : forall fuel content s k m d bn buf, img s k m -> filled s m d bn -> good_data buf -> is_bytes content ->
  nblocks content <= Z.of_nat fuel -> 0 <= bn -> bn + nblocks content <= MAXBN -> m + 3 * nblocks content <= NBITS ->
  exists s' m' d' buf', copy_loop fuel content d bn buf s = Ret (d', bn + nblocks content, buf') s' /\ img s' k m' /\ good_data buf' /\
    copied s m d bn content s' m' d'.
Proof.
  induction fuel as [|fuel IH]; intros content s k m d bn buf Himg Hf Hbuf Hbytes Hfuel Hbn Hmax Hm; pose proof (nblocks_pos content); [lia|].
  assert (is_bytes (chunk content 0)) as Hcb by (by apply is_bytes_chunk). pose proof (length_chunk content 0) as Hcl.
  destruct (copy_step s k m d bn (chunk content 0) buf Himg Hf Hbuf Hcb Hcl ltac:(lia) ltac:(lia)) as (s1 & m1 & d1 & Hrun & Himg1 & Hm1 & Hs1 & Hf1 & Ht1 & Hz1 & Ho1 & Ha1).
  destruct (chunk_written buf (chunk content 0) Hbuf Hcb Hcl) as [Hg1 _]. pose proof (im_m _ _ _ Himg) as [Hmm _].
  assert (take (Z.to_nat BLOCK_SIZE) content = chunk content 0) as Htake by done.
  set (buf1 := blit buf 0 (chunk content 0)) in *. assert (u32 (bn + 1) = bn + 1) as Hbn1 by (apply u32_small; unfold MAXBN in *; lia).
  assert (copy_loop (S fuel) content d bn buf s = (if Z.of_nat (length (chunk content 0)) <? BLOCK_SIZE then mret (d1, bn + 1, buf1)
    else copy_loop fuel (drop (Z.to_nat BLOCK_SIZE) content) d1 (bn + 1) buf1) s1) as ->.
  { rewrite <- Hbn1. exact (Hrun _ (fun x => if Z.of_nat (length (chunk content 0)) <? BLOCK_SIZE then mret (x, u32 (bn + 1), buf1)
      else copy_loop fuel (drop (Z.to_nat BLOCK_SIZE) content) x (u32 (bn + 1)) buf1)). }
  assert (Z.of_nat (length (chunk content 0)) = Z.min BLOCK_SIZE (Z.of_nat (length content))) as Hclen.
  { rewrite <- Htake, length_take. unfold BLOCK_SIZE. lia. }
  destruct (Z.ltb_spec (Z.of_nat (length (chunk content 0))) BLOCK_SIZE) as [Hlt|Hge].
  - assert (nblocks content = 1) as Hn by (apply nblocks_short; lia). exists s1, m1, d1, buf1. rewrite Hn.
    split_and!; [done | done | done |]. split; rewrite ?Hn; try done; try lia.
    + rewrite Hz1, Hclen. do 2 f_equal. lia.
    + intros j Hj Hj10. apply Ho1; lia.
    + intros j Hj Hj10. replace j with 0 in * by lia. rewrite Z.add_0_r in *. by apply Ha1.
  - pose proof (nblocks_long content ltac:(lia)) as Hn. set (rest := drop (Z.to_nat BLOCK_SIZE) content) in *.
    destruct (IH rest s1 k m1 d1 (bn + 1) buf1 Himg1 Hf1 Hg1 ltac:(by apply Forall_drop) ltac:(lia) ltac:(lia) ltac:(lia) ltac:(lia)) as (s2 & m2 & d2 & buf2 & H2 & Himg2 & Hg2 & Hc2).
    exists s2, m2, d2, buf2. split_and!; [| done | done |].
    + rewrite H2. f_equal. do 2 f_equal. lia.
    + apply (copied_cons s m d bn (chunk content 0) s1 m1 d1 content); try done; unfold BLOCK_SIZE in *; lia.
Qed.
