(* ===== verification/MkfsImage.v ===== *)
(** * MkfsImage: what a kernel finds on the image (mkfs/mkfs.c, [main]) *)

From S2P Require Import Prelude Bytes Kstring Spinlock Kernel Disk Buf Bitmap Inode InodeMeta InodeData Dir DirSpec PathSpec Fs Mkfs MkfsSpec.

Implicit Types (s : mkfs) (k m b : Z) (d : dinode) (nm content : list Z).

(** ** Programs on the command line *)

(** The argument "./user/_nm" (any seven characters before the underscore) names a file with this content. *)
Definition is_program (arg : program) nm content : Prop :=
  exists pre, length pre = 7%nat /\ arg = (pre ++ (95 :: nm), Some content) /\ (SLASH ∉ nm) /\ name_ok nm /\ is_bytes content.

Definition entry_off (j : Z) : Z := 32 * j.

Lemma entry_off_ok j : 0 <= j < 32 -> offset_ok (entry_off j).
Proof. intros Hj. exists j. unfold entry_off. lia. Qed.

(** Program [nm] is on the image as inode [k], with its first block at index [b]. *)
Record stored s m k b nm content : Prop := {
  so_num : de_num (blk s ROOT_BLOCK) (entry_off (k + 1)) = k;
  so_name : ename (blk s ROOT_BLOCK) (entry_off (k + 1)) = nm;
  so_type : d_type (inode_at s k) = FT_FILE;
  so_nlink : d_nlink (inode_at s k) = 1;
  so_size : d_size (inode_at s k) = u32 (Z.of_nat (length content));
  so_hole : forall j, 0 <= j < b -> j < 10 -> addr_of (inode_at s k) j = 0;
  so_data : forall j, 0 <= j < nblocks content -> b + j < 10 ->
    131 < addr_of (inode_at s k) (b + j) < 131 + m /\ holds s (addr_of (inode_at s k) (b + j)) (chunk content j);
  so_indirect : forall j, 10 <= j < 13 -> let a := addr_of (inode_at s k) j in a = 0 \/ (131 < a < 131 + m /\ blk s a = zero_block)
}.

(** What was on the image stays while programs are added. *)
Record grown s s' k m : Prop := {
  gr_sb : blk s' 0 = blk s 0;
  gr_inodes : forall j, 0 <= j < k -> inode_at s' j = inode_at s j;
  gr_entries : forall j, 0 <= j < k + 1 -> agree (blk s ROOT_BLOCK) (blk s' ROOT_BLOCK) (entry_off j);
  gr_blocks : forall n, 131 < n < 131 + m -> blk s' n = blk s n
}.

Lemma agree_trans l1 l2 l3 o : agree l1 l2 o -> agree l2 l3 o -> agree l1 l3 o.
Proof. intros H1 H2 i Hi. by rewrite H2, H1. Qed.

Lemma grown_refl s k m : grown s s k m.
Proof. by split. Qed.

Lemma grown_trans s1 s2 s3 k m k' m' : grown s1 s2 k m -> k <= k' -> m <= m' -> grown s2 s3 k' m' -> grown s1 s3 k m.
Proof.
  intros [Ha Hb Hc Hd] Hk Hm [Ha' Hb' Hc' Hd']. split.
  - by rewrite Ha'.
  - intros j Hj. by rewrite Hb', Hb by lia.
  - intros j Hj. eapply agree_trans; [apply Hc | apply Hc']; lia.
  - intros n Hn. by rewrite Hd', Hd by lia.
Qed.

Lemma entry_same l l' o num nm : good_data l -> good_data l' -> offset_ok o -> agree l l' o ->
  de_num l o = num /\ ename l o = nm -> de_num l' o = num /\ ename l' o = nm.
Proof. intros Hl Hl' Ho Ha [Hn He]. split; [rewrite (agree_num l l' o Hl Hl' Ho Ha); exact Hn | rewrite (agree_ename l l' o Ha); exact He]. Qed.

Lemma stored_grown s s' m m' k k' b nm content : sized s -> sized s' -> 0 <= k < k' -> k' <= 31 -> m <= m' -> grown s s' k' m ->
  stored s m k b nm content -> stored s' m' k b nm content.
Proof.
  intros Hs Hs' Hk H31 Hm [_ Hb Hc Hd] [Hn He Ht Hl Hz Hh Hdata Hind].
  assert (agree (blk s ROOT_BLOCK) (blk s' ROOT_BLOCK) (entry_off (k + 1))) as Ha by (apply Hc; lia).
  split; rewrite ?(Hb k) by lia; try done.
  - rewrite (agree_num (blk s ROOT_BLOCK)); [done | apply Hs | apply Hs' | apply entry_off_ok; lia | done].
  - by rewrite (agree_ename (blk s ROOT_BLOCK)).
  - intros j Hj Hj10. destruct (Hdata j Hj Hj10) as [Hr Hh']. split; [lia|]. unfold holds in *. by rewrite Hd.
  - intros j Hj. destruct (Hind j Hj) as [?|[Hr Hz0]]; [by left | right]. split; [lia | by rewrite Hd].
Qed.

Lemma stored_same s s' m k b nm content : inode_at s' k = inode_at s k -> blk s' ROOT_BLOCK = blk s ROOT_BLOCK ->
  (forall n, 131 < n < 131 + m -> blk s' n = blk s n) -> stored s m k b nm content -> stored s' m k b nm content.
Proof.
  intros Hi Hr Hb [Hn He Ht Hl Hz Hh Hd Hind]. split; rewrite ?Hi, ?Hr; try assumption.
  - intros j Hj Hj10. destruct (Hd j Hj Hj10) as [H1 H2]. split; [exact H1|]. unfold holds in *. rewrite Hb by lia. exact H2.
  - intros j Hj. destruct (Hind j Hj) as [?|[H1 H2]]; [by left | right]. split; [exact H1|]. rewrite Hb by lia. exact H2.
Qed.

Section Image.
Variable junk : Z -> list Z.
Hypothesis junk_ok : forall o, length (junk o) = Z.to_nat DIR_NAME_LEN /\ is_bytes (junk o).

Lemma filled_created s m b : filled s m (created FT_FILE) b.
Proof.
  assert (forall j, addr_of (created FT_FILE) j = 0) as Hz.
  { intros j. unfold addr_of. simpl. destruct (no_addrs !! Z.to_nat j) as [x|] eqn:E; [|done]. by apply lookup_replicate in E as [-> _]. }
  split; [by apply created_ok | by intros j _; rewrite Hz | intros j _; left; apply Hz].
Qed.

Lemma xint_small x : 0 <= x < 2 ^ 32 -> xint x = x.
Proof. intros Hx. unfold xint. rewrite le_value_le_bytes. by apply Z.mod_small. Qed.

Lemma written_back d : dinode_ok d -> set_d_size (xint (d_size d)) (set_d_addrs (xint <$> d_addrs d) d) = d.
Proof.
  intros (_&_&_&_&Hz&_&Ha). rewrite xint_small by done. assert (xint <$> d_addrs d = d_addrs d) as ->; [|by destruct d].
  induction Ha as [|a l Hx _ IH]; [done|]. by rewrite fmap_cons, IH, xint_small.
Qed.

Lemma inode_block_range k : 0 <= k < 2048 -> 2 <= 2 + k / INODE_PER_BLOCK < 130.
Proof. intros Hk. change INODE_PER_BLOCK with 16. pose proof (Z.div_pos k 16). pose proof (Z.div_lt_upper_bound k 16 128). lia. Qed.

(** The inodes are in blocks that neither bitmaps nor data touch. *)
Lemma inode_at_same P s s' j : same_but P s s' -> ~ P (2 + j / INODE_PER_BLOCK) -> inode_at s' j = inode_at s j.
Proof. intros H Hn. unfold inode_at. by rewrite H. Qed.

Lemma inode_at_put s n l j : n <> 2 + j / INODE_PER_BLOCK -> inode_at (put n l s) j = inode_at s j.
Proof. intros Hn. unfold inode_at. by rewrite blk_put, decide_False by done. Qed.

(** The steps before the content is copied. *)
Lemma new_file_run s k m nm : img s k m -> 1 <= k <= 30 -> name_ok nm ->
  exists s', (forall A (f : Z -> dinode -> Z -> M mkfs A), (inum ← inode_alloc; inode ← inode_create inum FT_FILE;
      offset ← dirent_create junk ROOT_BLOCK (entry_off (k + 1)) nm inum; f inum inode offset) s = f k (created FT_FILE) (entry_off (k + 2)) s') /\
    img s' (k + 1) m /\ grown s s' k m /\ inode_at s' k = created FT_FILE /\
    de_num (blk s' ROOT_BLOCK) (entry_off (k + 1)) = k /\ ename (blk s' ROOT_BLOCK) (entry_off (k + 1)) = nm.
Proof.
  intros Himg Hk Hn. pose proof (inode_block_range k ltac:(lia)) as Hkb. pose proof (im_m _ _ _ Himg) as [Hm1 _].
  destruct (inode_alloc_run s k m Himg ltac:(unfold NBITS, BLOCK_SIZE; lia)) as (s1 & H1 & Himg1 & Hs1).
  destruct (inode_create_run s1 (k + 1) m k FT_FILE Himg1 ltac:(lia) ltac:(unfold FT_FILE; lia)) as (s2 & H2 & Himg2 & Hs2 & Hi2 & Ho2).
  assert (offset_ok (entry_off (k + 1))) as Hoff by (apply entry_off_ok; lia).
  destruct (dirent_create_run junk junk_ok s2 (k + 1) m _ nm k Himg2 Hoff Hn) as [H3 Himg3]. set (s3 := put _ _ s2) in *.
  destruct (entry_written junk junk_ok (blk s2 ROOT_BLOCK) _ nm k (sz_good _ (im_sized _ _ _ Himg2) _) Hoff Hn) as (_ & Hnum & Hname & Hagree).
  assert (blk s3 ROOT_BLOCK = blit (blk s2 ROOT_BLOCK) (entry_off (k + 1)) (new_entry junk (entry_off (k + 1)) nm k)) as Hb3 by (unfold s3; by rewrite blk_put, decide_True).
  assert (forall n, n <> 1 -> n <> 2 + k / INODE_PER_BLOCK -> blk s2 n = blk s n) as Hs12 by (intros n Ha Hb; rewrite Hs2, Hs1 by congruence; done).
  assert (forall n, n <> ROOT_BLOCK -> blk s3 n = blk s2 n) as Hs3 by (intros n Ha; unfold s3; by rewrite blk_put, decide_False).
  exists s3. split_and!.
  - intros A f. rewrite (bind_ret_eq _ _ _ _ _ H1), (bind_ret_eq _ _ _ _ _ H2), (bind_ret_eq _ _ _ _ _ H3). f_equal. unfold entry_off. lia.
  - done.
  - split.
    + rewrite Hs3, Hs12 by (unfold ROOT_BLOCK; lia). done.
    + intros j Hj. pose proof (inode_block_range j ltac:(lia)). unfold s3. rewrite inode_at_put by (unfold ROOT_BLOCK; lia). rewrite Ho2 by lia. apply (inode_at_same _ _ _ _ Hs1). lia.
    + intros j Hj. rewrite Hb3, <- (Hs12 ROOT_BLOCK) by (unfold ROOT_BLOCK; lia). apply Hagree; [apply entry_off_ok; lia | unfold entry_off; lia].
    + intros n Hn'. rewrite Hs3, Hs12 by (unfold ROOT_BLOCK; lia). done.
  - unfold s3. by rewrite inode_at_put by (unfold ROOT_BLOCK; lia).
  - rewrite Hb3, Hnum. unfold u16. apply Z.mod_small. lia.
  - by rewrite Hb3.
Qed.

(** The steps after it. *)
Lemma file_closed_run s3 s4 k m m' d b nm content : img s3 (k + 1) m -> img s4 (k + 1) m' -> 1 <= k <= 30 ->
  de_num (blk s3 ROOT_BLOCK) (entry_off (k + 1)) = k -> ename (blk s3 ROOT_BLOCK) (entry_off (k + 1)) = nm ->
  0 <= b -> copied s3 m (created FT_FILE) b content s4 m' d ->
  exists s', inode_write k (set_d_size (xint (d_size d)) (set_d_addrs (xint <$> d_addrs d) d)) s4 = Ret tt s' /\
    img s' (k + 1) m' /\ grown s3 s' k m /\ stored s' m' k b nm content.
Proof.
  intros Himg3 Himg4 Hk Hnum Hname Hb [Cm Cs Cf Ct Cz Co Cd]. pose proof (inode_block_range k ltac:(lia)) as Hkb. pose proof (im_m _ _ _ Himg3) as [Hm1 _].
  rewrite written_back by apply Cf. destruct (inode_write_run s4 (k + 1) m' k d Himg4 ltac:(lia) (fi_ok _ _ _ _ Cf)) as (s5 & H5 & Himg5 & Hs5 & Hi5 & Ho5).
  assert (forall n, n <> 130 -> n < 131 + m -> n <> 2 + k / INODE_PER_BLOCK -> blk s5 n = blk s3 n) as Hs35 by (intros n ? ? ?; rewrite Hs5, Cs by lia; done).
  assert (blk s5 ROOT_BLOCK = blk s3 ROOT_BLOCK) as Hroot by (apply Hs35; unfold ROOT_BLOCK; lia).
  exists s5. split_and!; [done | done | |].
  - split.
    + apply Hs35; lia.
    + intros j Hj. pose proof (inode_block_range j ltac:(lia)). rewrite Ho5 by lia. apply (inode_at_same _ _ _ _ Cs). lia.
    + intros j Hj. by rewrite Hroot.
    + intros n Hn. apply Hs35; lia.
  - destruct Ct as (Ht & _ & _ & Hl). split; rewrite ?Hroot, ?Hi5; try done.
    + intros j Hj Hj10. rewrite Co by lia. apply (fi_direct _ _ _ _ (filled_created s3 m 0)). lia.
    + intros j Hj Hj10. destruct (Cd j Hj Hj10) as [Hr Hh]. split; [lia|]. unfold holds in *. rewrite Hs5 by lia. done.
    + intros j Hj. destruct (fi_indirect _ _ _ _ Cf j Hj) as [?|[Hr Hz]]; [by left | right].
      assert (addr_of d j <> 131) as Hne131.
      { intros He. rewrite He, (Cs 131) in Hz by lia. apply (f_equal (fun l => de_num l (entry_off (k + 1)))) in Hz.
        unfold ROOT_BLOCK in Hnum. rewrite Hnum in Hz. unfold de_num in Hz. rewrite word_zero_block in Hz by lia. lia. }
      split; [lia|]. rewrite Hs5 by lia. exact Hz.
Qed.

Lemma shortname_of pre nm : length pre = 7%nat -> exists r, drop 7 ((pre ++ 95 :: nm) ++ [0]) = 95 :: r /\ removelast r = nm.
Proof.
  intros Hl. exists (nm ++ [0]). split; [|by rewrite removelast_last]. rewrite <- app_assoc. by rewrite drop_app_length' by done.
Qed.

Lemma add_program_run s k m b arg nm content buf : img s k m -> 1 <= k <= 30 -> good_data buf -> is_program arg nm content ->
  0 <= b -> b + nblocks content <= MAXBN -> m + 3 * nblocks content <= NBITS ->
  exists s' m' buf', add_program junk ROOT_BLOCK arg (entry_off (k + 1)) b buf s = Ret (entry_off (k + 2), b + nblocks content, buf') s' /\
    img s' (k + 1) m' /\ good_data buf' /\ m <= m' <= m + 3 * nblocks content /\ grown s s' k m /\ stored s' m' k b nm content.
Proof.
  intros Himg Hk Hbuf (pre & Hpre & -> & Hslash & Hname & Hbytes) Hb Hmax Hm.
  destruct (new_file_run s k m nm Himg Hk Hname) as (s3 & H3 & Himg3 & Hg3 & Hi3 & Hnum3 & Hname3).
  set (fuel := S (Z.to_nat (Z.of_nat (length content) / BLOCK_SIZE))).
  assert (nblocks content <= Z.of_nat fuel) as Hfuel by (unfold nblocks, fuel; lia).
  destruct (copy_loop_run fuel content s3 (k + 1) m (created FT_FILE) b buf Himg3 (filled_created s3 m b) Hbuf Hbytes Hfuel Hb Hmax Hm) as (s4 & m' & d & buf' & H4 & Himg4 & Hbuf' & Hc).
  destruct (file_closed_run s3 s4 k m m' d b nm content Himg3 Himg4 Hk Hnum3 Hname3 Hb Hc) as (s5 & H5 & Himg5 & Hg5 & Hst).
  exists s5, m', buf'. split_and!; try done; try apply Hc; [|by apply (grown_trans s s3 s5 k m k m); (done || lia)].
  unfold add_program. destruct (shortname_of pre nm Hpre) as (r & Hr & Hlast). cbn [fst snd]. rewrite Hr. cbn [Z.eqb Pos.eqb negb]. rewrite Hlast, bool_decide_false by done.
  refine (eq_trans (H3 _ (fun inum inode offset => '(inode, bn, buf) ← copy_loop fuel content inode b buf;
    inode_write inum (set_d_size (xint (d_size inode)) (set_d_addrs (xint <$> d_addrs inode) inode));; mret (offset, bn, buf))) _).
  cbv beta. by rewrite (bind_ret_eq _ _ _ _ _ H4), (bind_ret_eq _ _ _ _ _ H5).
Qed.

(** The blocks of the first programs together. *)
Definition total (ps : list (list Z * list Z)) : Z := foldr (fun p a => nblocks p.2 + a) 0 ps.

Lemma total_nonneg ps : 0 <= total ps.
Proof. induction ps as [|p ps IH]; simpl; [lia|]. pose proof (nblocks_pos p.2). lia. Qed.

Lemma add_programs_run args ps : Forall2 (fun a p => is_program a p.1 p.2) args ps -> forall s k m b buf, img s k m -> good_data buf ->
  1 <= k -> k + Z.of_nat (length ps) <= 31 -> 0 <= b -> b + total ps <= MAXBN -> m + 3 * total ps <= NBITS ->
  exists s' m', add_programs junk ROOT_BLOCK args (entry_off (k + 1)) b buf s = Ret tt s' /\ img s' (k + Z.of_nat (length ps)) m' /\ m <= m' /\ grown s s' k m /\
    forall i p, ps !! i = Some p -> stored s' m' (k + Z.of_nat i) (b + total (take i ps)) p.1 p.2.
Proof.
  induction 1 as [|arg [nm content] args ps Hp _ IH]; intros s k m b buf Himg Hbuf Hk Hn Hb Hmax Hm.
  - exists s, m. split_and!; [done | by rewrite Z.add_0_r | done | apply grown_refl | done].
  - cbn [total foldr fst snd] in *. fold (total ps) in *. pose proof (total_nonneg ps) as Ht. pose proof (nblocks_pos content).
    destruct (add_program_run s k m b arg nm content buf Himg ltac:(simpl in Hn; lia) Hbuf Hp Hb ltac:(lia) ltac:(lia)) as (s1 & m1 & buf1 & H1 & Himg1 & Hbuf1 & Hm1 & Hg1 & Hst).
    destruct (IH s1 (k + 1) m1 (b + nblocks content) buf1 Himg1 Hbuf1 ltac:(lia) ltac:(simpl in Hn; lia) ltac:(lia) ltac:(lia) ltac:(lia)) as (s2 & m2 & H2 & Himg2 & Hm2 & Hg2 & Hall).
    exists s2, m2. split_and!; [| by replace (k + Z.of_nat (length ((nm, content) :: ps))) with (k + 1 + Z.of_nat (length ps)) by (simpl; lia) | lia | by apply (grown_trans s s1 s2 k m (k + 1) m1); (done || lia) |].
    + cbn [add_programs]. rewrite (bind_ret_eq _ _ _ _ _ H1). by replace (k + 2) with (k + 1 + 1) by lia.
    + intros [|i] p Hi; simpl in Hi.
      * injection Hi as <-. simpl. rewrite !Z.add_0_r. apply (stored_grown s1 s2 m1 m2 k (k + 1)); (apply Himg1 || apply Himg2 || done || simpl in Hn; lia || done).
      * pose proof (Hall i p Hi) as Hp'. simpl take. cbn [total foldr snd]. fold (total (take i ps)).
        replace (k + Z.of_nat (S i)) with (k + 1 + Z.of_nat i) by lia. by rewrite Z.add_assoc.
Qed.

(** ** [main] *)

Lemma zero_blocks_run (n : nat) : forall s i, (forall x, blk s x = zero_block) -> image_blocks s = i -> 0 <= i -> i + Z.of_nat n <= N_BLOCK ->
  exists s', for_each (seqZ i (Z.of_nat n)) (fun j => block_write j zero_block) s = Ret tt s' /\ (forall x, blk s' x = zero_block) /\
    image_blocks s' = i + Z.of_nat n /\ m_sb s' = m_sb s.
Proof.
  induction n as [|n IH]; intros s i Hz Hi H0 Hle.
  - exists s. rewrite Z.add_0_r. by split_and!.
  - rewrite seqZ_cons by lia. cbn [for_each].
    set (s1 := set_image_blocks (i + 1) (set_image (<[i := zero_block]> (image s)) s)).
    destruct (IH s1 (i + 1)) as (s' & H & Hz' & Hi' & Hsb).
    + intros x. unfold blk, s1. simpl. destruct (decide (x = i)) as [->|Hne]; [by rewrite lookup_insert_eq | rewrite lookup_insert_ne by done; apply Hz].
    + done.
    + lia.
    + lia.
    + exists s'. split_and!; [| done | rewrite Hi'; lia | done].
      rewrite (bind_ret_eq _ _ s tt s1); [by replace (Z.pred (Z.of_nat (S n))) with (Z.of_nat n) by lia|].
      unfold block_write, modify. rewrite seek_small by lia. rewrite Hi. by replace (i `max` (i + 1)) with (i + 1) by lia.
Qed.

Definition sb_block : list Z := blit zero_block 0 (encode_sb new_sb).

Lemma sb_block_ok : good_data sb_block /\ decode_sb sb_block = new_sb.
Proof. split; [apply good_blit; [apply good_zero_block | apply (bool_decide_unpack _); vm_compute; done | done | by vm_compute] | vm_compute; done]. Qed.

Lemma blank_run : exists s, (modify (set_m_sb new_sb);; for_each (seqZ 0 N_BLOCK) (fun i => block_write i zero_block)) no_image = Ret tt s /\
  sized s /\ forall n, blk s n = zero_block.
Proof.
  destruct (zero_blocks_run (Z.to_nat N_BLOCK) (set_m_sb new_sb no_image) 0) as (s & H & Hz & Hb & Hsb).
  - intros x. unfold blk, no_image. simpl. by rewrite lookup_empty.
  - done.
  - done.
  - rewrite Z2Nat.id by (unfold N_BLOCK, N_DATA_BLOCK, N_INODE_BLOCK; lia). lia.
  - rewrite Z2Nat.id in * by (unfold N_BLOCK, N_DATA_BLOCK, N_INODE_BLOCK; lia). exists s. split_and!; [by rewrite bind_modify | | done].
    split; [done | done |]. intros n. rewrite Hz. apply good_zero_block.
Qed.

Lemma first_bits_zero : first_bits zero_block 0.
Proof.
  intros i Hi. unfold bit, byte_at, zero_block. destruct (bit_index i Hi) as [? ?]. rewrite (proj2 (Z.ltb_ge _ _)) by lia.
  rewrite list_lookup_total_alt, lookup_replicate_2 by (unfold BLOCK_SIZE in *; lia). apply Z.bits_0.
Qed.

(** The super block is written and the first inode and block are taken. *)
Lemma root_taken_run s : sized s -> (forall n, blk s n = zero_block) ->
  exists s', (forall A (f : Z -> Z -> M mkfs A), (block_write 0 sb_block;; i ← inode_alloc; b ← block_alloc; f i b) s = f 0 ROOT_BLOCK s') /\ img s' 1 1 /\ blk s' 0 = sb_block.
Proof.
  intros Hs Hz. destruct sb_block_ok as [Hg _]. set (s1 := put 0 sb_block s). assert (sized s1) as Hs1 by (by apply sized_put).
  assert (forall n, n <> 0 -> blk s1 n = zero_block) as Hz1 by (intros n Hn; unfold s1; by rewrite blk_put, decide_False).
  assert (first_bits (blk s1 1) 0 /\ first_bits (blk s1 130) 0) as [Hb1 Hb130] by (rewrite !Hz1 by lia; split; apply first_bits_zero).
  set (s2 := put 1 (set_bit (blk s1 1) 0) s1). assert (sized s2) as Hs2 by (apply sized_put; [done | apply good_set_bit; [apply Hs1 | done]]).
  assert (blk s2 130 = blk s1 130) as H130 by (unfold s2; by rewrite blk_put, decide_False).
  set (s3 := put 130 (set_bit (blk s2 130) 0) s2). exists s3. split_and!.
  - intros A f. rewrite (bind_ret_eq _ _ _ _ _ (block_write_run s 0 sb_block Hs ltac:(done))). fold s1. unfold inode_alloc, block_alloc. mrun. rewrite (sz_sb _ Hs1). change (inode_bitmap_start new_sb) with 1.
    mstep ltac:(apply (alloc_bit_run s1 1 0); done). fold s2. rewrite (sz_sb _ Hs2). change (data_bitmap_start new_sb) with 130.
    mstep ltac:(apply (alloc_bit_run s2 130 0); [done | done | by rewrite H130 | done]). fold s3. change (m_sb s3) with (m_sb s2). by rewrite (sz_sb _ Hs2).
  - split; try done.
    + apply sized_put; [done|]. apply good_set_bit; [apply Hs2 | done].
    + unfold s3, s2. rewrite blk_put, decide_False, blk_put, decide_True by done. apply first_bits_set; [apply Hs1 | done | done].
    + unfold s3. rewrite blk_put, decide_True by done. apply first_bits_set; [apply Hs2 | by rewrite H130 | done].
    + intros n Hn. unfold s3, s2. rewrite !blk_put, !decide_False by lia. apply Hz1. lia.
  - unfold s3, s2, s1. rewrite !blk_put. by rewrite (decide_False (P := 0 = 130)), (decide_False (P := 0 = 1)) by lia.
Qed.

Definition root_of (n : Z) : dinode := mk_dinode FT_DIR 0 0 1 (32 * (2 + n)) (ROOT_BLOCK :: replicate 12 0).

(** The image holds these programs in the root directory. *)
Record built s m (ps : list (list Z * list Z)) : Prop := {
  bu_good : forall n, good_data (blk s n);
  bu_m : m <= NBITS;
  bu_sb : decode_sb (blk s 0) = new_sb;
  bu_root : inode_at s 0 = root_of (Z.of_nat (length ps));
  bu_dot : de_num (blk s ROOT_BLOCK) (entry_off 0) = 0 /\ ename (blk s ROOT_BLOCK) (entry_off 0) = DOT;
  bu_dotdot : de_num (blk s ROOT_BLOCK) (entry_off 1) = 0 /\ ename (blk s ROOT_BLOCK) (entry_off 1) = DOTDOT;
  bu_programs : forall i p, ps !! i = Some p -> stored s m (1 + Z.of_nat i) (total (take i ps)) p.1 p.2
}.

Lemma dot_names : name_ok DOT /\ name_ok DOTDOT.
Proof. by split; split; repeat constructor. Qed.

Lemma dots_run s : img s 1 1 ->
  exists s', (forall A (f : dinode -> Z -> M mkfs A), (rooti ← inode_create 0 FT_DIR; offset ← dirent_create junk ROOT_BLOCK 0 DOT 0;
      offset ← dirent_create junk ROOT_BLOCK offset DOTDOT 0; f rooti offset) s = f (created FT_DIR) (entry_off 2) s') /\
    img s' 1 1 /\ blk s' 0 = blk s 0 /\
    (de_num (blk s' ROOT_BLOCK) (entry_off 0) = 0 /\ ename (blk s' ROOT_BLOCK) (entry_off 0) = DOT) /\
    (de_num (blk s' ROOT_BLOCK) (entry_off 1) = 0 /\ ename (blk s' ROOT_BLOCK) (entry_off 1) = DOTDOT).
Proof.
  intros Himg. destruct dot_names as [Hd Hdd]. assert (offset_ok (entry_off 0) /\ offset_ok (entry_off 1)) as [O0 O1] by (split; apply entry_off_ok; lia).
  destruct (inode_create_run s 1 1 0 FT_DIR Himg ltac:(lia) ltac:(unfold FT_DIR; lia)) as (s1 & H1 & Himg1 & Hs1 & _ & _).
  destruct (dirent_create_run junk junk_ok s1 1 1 (entry_off 0) DOT 0 Himg1 O0 Hd) as [H2 Himg2]. set (s2 := put _ _ s1) in *.
  destruct (entry_written junk junk_ok (blk s1 ROOT_BLOCK) (entry_off 0) DOT 0 (sz_good _ (im_sized _ _ _ Himg1) _) O0 Hd) as (_ & Hn0 & He0 & _).
  destruct (dirent_create_run junk junk_ok s2 1 1 (entry_off 1) DOTDOT 0 Himg2 O1 Hdd) as [H3 Himg3]. set (s3 := put _ _ s2) in *.
  destruct (entry_written junk junk_ok (blk s2 ROOT_BLOCK) (entry_off 1) DOTDOT 0 (sz_good _ (im_sized _ _ _ Himg2) _) O1 Hdd) as (_ & Hn1 & He1 & Hag).
  assert (blk s2 ROOT_BLOCK = blit (blk s1 ROOT_BLOCK) (entry_off 0) (new_entry junk (entry_off 0) DOT 0)) as Hb2 by (unfold s2; by rewrite blk_put, decide_True).
  assert (blk s3 ROOT_BLOCK = blit (blk s2 ROOT_BLOCK) (entry_off 1) (new_entry junk (entry_off 1) DOTDOT 0)) as Hb3 by (unfold s3; by rewrite blk_put, decide_True).
  pose proof (Hag (entry_off 0) O0 ltac:(unfold entry_off; lia)) as Ha.
  exists s3. split_and!.
  - intros A f. rewrite (bind_ret_eq _ _ _ _ _ H1), (bind_ret_eq _ _ _ _ _ H2), (bind_ret_eq _ _ _ _ _ H3). done.
  - done.
  - unfold s3, s2. rewrite !blk_put, !decide_False by (unfold ROOT_BLOCK; lia). apply Hs1. change (2 + 0 / INODE_PER_BLOCK) with 2. lia.
  - rewrite Hb3, (agree_num (blk s2 ROOT_BLOCK)); [by rewrite Hb2, Hn0 | apply Himg2 | rewrite <- Hb3; apply Himg3 | done | done].
  - rewrite Hb3, (agree_ename (blk s2 ROOT_BLOCK)) by done. by rewrite Hb2, He0.
  - rewrite Hb3, Hn1. done.
  - by rewrite Hb3, He1.
Qed.

Lemma root_of_ok n : 0 <= n <= 30 -> dinode_ok (root_of n).
Proof.
  intros Hn. unfold dinode_ok. cbn [root_of d_type d_major d_minor d_nlink d_size d_addrs]. unfold FT_DIR, ROOT_BLOCK.
  do 5 (split; [lia|]). split; [reflexivity|]. constructor; [lia|]. apply Forall_replicate. lia.
Qed.

Lemma main_run args ps : Forall2 (fun a p => is_program a p.1 p.2) args ps -> (length ps <= 30)%nat -> 1 + 3 * total ps <= NBITS ->
  exists s m, main junk args no_image = Ret tt s /\ built s m ps.
Proof.
  intros Hps Hn Hm. pose proof (total_nonneg ps) as Ht. destruct sb_block_ok as [Hsbg Hsbd].
  destruct blank_run as (s0 & H0 & Hs0 & Hz0). destruct (root_taken_run s0 Hs0 Hz0) as (s1 & H1 & Himg1 & Hb1).
  destruct (dots_run s1 Himg1) as (s2 & H2 & Himg2 & Hb2 & Hdot & Hdotdot).
  destruct (add_programs_run args ps Hps s2 1 1 0 sb_block Himg2 Hsbg ltac:(lia) ltac:(lia) ltac:(lia) ltac:(unfold MAXBN, NBITS, BLOCK_SIZE in *; lia) Hm) as (s3 & m & H3 & Himg3 & Hm3 & Hg3 & Hall).
  assert (length args = length ps) as Hlen by (by eapply Forall2_length).
  set (root := set_d_size (xint (DIRENT_SIZE * (2 + Z.of_nat (length args)))) (set_d_addrs (<[0%nat := xint ROOT_BLOCK]> (d_addrs (created FT_DIR))) (created FT_DIR))).
  assert (root = root_of (Z.of_nat (length ps))) as Hroot by (unfold root; rewrite Hlen, xint_small by (unfold DIRENT_SIZE; lia); done).
  assert (dinode_ok root) as Hok by (rewrite Hroot; apply root_of_ok; lia).
  destruct (inode_write_run s3 _ m 0 root Himg3 ltac:(lia) Hok) as (s4 & H4 & Himg4 & Hs4 & Hi4 & Ho4).
  assert (forall n, n <> 2 -> blk s4 n = blk s3 n) as Hsame by (intros n Hne; apply Hs4; change (2 + 0 / INODE_PER_BLOCK) with 2; congruence).
  exists s4, m. split.
  - unfold main. rewrite bind_modify. pose proof H0 as H0'. rewrite bind_modify in H0'. rewrite (bind_ret_eq _ _ _ _ _ H0'), bind_gets, (sz_sb _ Hs0). cbv zeta. fold sb_block.
    rewrite H1. change (negb (0 =? 0)) with false. cbv iota. rewrite bind_mret, H2. rewrite (bind_ret_eq _ _ _ _ _ H3). fold root. exact H4.
  - split.
    + apply (im_sized _ _ _ Himg4).
    + apply (im_m _ _ _ Himg4).
    + rewrite Hsame by lia. by rewrite (gr_sb _ _ _ _ Hg3), Hb2, Hb1.
    + by rewrite Hi4, Hroot.
    + rewrite Hsame by (unfold ROOT_BLOCK; lia). refine (entry_same (blk s2 ROOT_BLOCK) _ _ _ _ (sz_good _ (im_sized _ _ _ Himg2) _) (sz_good _ (im_sized _ _ _ Himg3) _) (entry_off_ok 0 ltac:(lia)) (gr_entries _ _ _ _ Hg3 0 ltac:(lia)) Hdot).
    + rewrite Hsame by (unfold ROOT_BLOCK; lia). refine (entry_same (blk s2 ROOT_BLOCK) _ _ _ _ (sz_good _ (im_sized _ _ _ Himg2) _) (sz_good _ (im_sized _ _ _ Himg3) _) (entry_off_ok 1 ltac:(lia)) (gr_entries _ _ _ _ Hg3 1 ltac:(lia)) Hdotdot).
    + intros i p Hi. pose proof (lookup_lt_Some _ _ _ Hi). apply (stored_same s3); [apply Ho4; lia | apply Hsame; unfold ROOT_BLOCK; lia | intros n Hnn; apply Hsame; lia | exact (Hall i p Hi)].
Qed.
End Image.
