(* ===== verification/MkfsRead.v ===== *)
(** * MkfsRead: the image as the kernel reads it (mkfs/mkfs.c and kernel/fs/)

    What the kernel's reference views ([disk_inode], [follow], [bmap], [file_bytes])
    give on a disk that holds the blocks of the image. *)

From S2P Require Import Prelude Bytes Kstring Spinlock Kernel Disk Buf BufSpec Bitmap BitmapSpec Inode InodeMeta InodeSpec InodeData Dir DirSpec PathSpec Fs Mkfs MkfsSpec MkfsImage.

Implicit Types (s : mkfs) (nm content : list Z).

(** ** Names *)

Lemma split_path_plain nm : SLASH ∉ nm -> split_path nm = [nm].
Proof.
  induction nm as [|c nm IH]; intros Hn; [done|]. apply not_elem_of_cons in Hn as [Hc Hn]. cbn [split_path]. rewrite (IH Hn).
  by rewrite (proj2 (Z.eqb_neq c SLASH)) by congruence.
Qed.

Lemma components_file nm : SLASH ∉ nm -> nm <> [] -> components (SLASH :: nm) = [nm].
Proof. intros Hs Hn. rewrite components_slash. unfold components. rewrite split_path_plain by done. by rewrite filter_cons, decide_True. Qed.

Lemma cut_short nm : name_ok nm -> cut nm = nm.
Proof. intros [Hl _]. unfold cut, DIR_NAME_LEN in *. apply take_ge. lia. Qed.

(** An entry with a name is in use. *)
Lemma ename_used l o : ename l o <> [] -> used l o = true.
Proof.
  unfold ename, used, cstr. change (Z.to_nat DIR_NAME_LEN) with (S 29). cbn [cstr_from]. destruct (de_name l o 0 =? 0); [by intros []|done].
Qed.

Lemma find_app {A} (f : A -> bool) l l' : List.find f (l ++ l') = match List.find f l with Some x => Some x | None => List.find f l' end.
Proof. induction l as [|x l IH]; [done|]. simpl. by destruct (f x). Qed.

(** The first entry with a name is the one that is found. *)
Lemma dfind_first l nm j : 0 <= j < 32 -> nm <> [] -> ename l (entry_off j) = nm -> (forall i, 0 <= i < j -> ename l (entry_off i) <> nm) ->
  dfind l nm = Some (entry_off j).
Proof.
  intros Hj Hne He Hbefore. unfold dfind, de_offsets. change (BLOCK_SIZE / DIRENT_SIZE) with 32. rewrite (seqZ_split 32 j) by done.
  rewrite fmap_app, fmap_cons, find_app. replace (j * DIRENT_SIZE) with (entry_off j) by (unfold entry_off, DIRENT_SIZE; lia).
  assert (forall f : Z -> bool, (forall i, 0 <= i < j -> f (i * DIRENT_SIZE) = false) -> List.find f ((fun k => k * DIRENT_SIZE) <$> seqZ 0 j) = None) as Hnone.
  { intros f Hf. apply eq_None_not_Some. intros [x [Hin Hx]%List.find_some]. apply list_elem_of_In, list_elem_of_fmap in Hin as (i & -> & Hi%elem_of_seqZ).
    rewrite Hf in Hx by lia. done. }
  rewrite Hnone.
  - cbn [List.find]. by rewrite He, bool_decide_true, (ename_used l) by (try done; by rewrite He).
  - intros i Hi. replace (i * DIRENT_SIZE) with (entry_off i) by (unfold entry_off, DIRENT_SIZE; lia). rewrite bool_decide_false by (by apply Hbefore). apply andb_false_r.
Qed.

(** ** The disk *)

Section Read.
Context {D : Type} `{!BlockDev D, !BlockDevLaws D}.
Implicit Types (dev : D).

(** The disk holds the blocks of the image. *)
Definition loaded dev s : Prop := forall n, 0 <= n < N_BLOCK -> block dev n = blk s n.

Lemma loaded_inode dev s m ps k : loaded dev s -> built s m ps -> 0 <= k < 31 -> disk_inode dev new_sb k = inode_at s k.
Proof. intros Hd _ Hk. apply inode_at_disk; [exact Hd | lia]. Qed.

Lemma root_block_in : 0 <= ROOT_BLOCK < N_BLOCK.
Proof. unfold ROOT_BLOCK, N_BLOCK, N_DATA_BLOCK, N_INODE_BLOCK. lia. Qed.

(** The names of the root directory, in the order of its entries. *)
Definition root_names (ps : list (list Z * list Z)) : list (list Z) := DOT :: DOTDOT :: (fst <$> ps).

Lemma root_entries s m ps j nm : built s m ps -> root_names ps !! Z.to_nat j = Some nm -> 0 <= j ->
  ename (blk s ROOT_BLOCK) (entry_off j) = nm /\ de_num (blk s ROOT_BLOCK) (entry_off j) = Z.max 0 (j - 1).
Proof.
  intros [_ _ _ _ [Hd0 Hd] [Hdd0 Hdd] Hps] Hj H0. unfold root_names in Hj.
  destruct (decide (j = 0)) as [->|]; [injection Hj as <-; by split|]. destruct (decide (j = 1)) as [->|]; [injection Hj as <-; by split|].
  replace (Z.to_nat j) with (S (S (Z.to_nat (j - 2)))) in Hj by lia. simpl in Hj. rewrite list_lookup_fmap in Hj.
  destruct (ps !! Z.to_nat (j - 2)) as [p|] eqn:Hp; [|done]. injection Hj as <-. destruct (Hps _ _ Hp) as [Hn He _ _ _ _ _ _].
  replace (1 + Z.of_nat (Z.to_nat (j - 2)) + 1) with j in * by lia. split; [done | lia].
Qed.

Lemma root_step dev s m ps j nm : loaded dev s -> built s m ps -> (length ps <= 30)%nat -> NoDup (root_names ps) -> name_ok nm -> nm <> [] ->
  0 <= j -> root_names ps !! Z.to_nat j = Some nm -> dir_step dev new_sb INODE_ROOT nm = Some (Z.max 0 (j - 1)).
Proof.
  intros Hdev Hb Hlen Hnd Hok Hne H0 Hj. destruct (root_entries s m ps j nm Hb Hj H0) as [He Hn].
  assert (length (root_names ps) = S (S (length ps))) as Hrl by (unfold root_names; simpl; by rewrite length_fmap).
  pose proof (lookup_lt_Some _ _ _ Hj) as Hlt. unfold dir_step. rewrite (loaded_inode dev s m ps INODE_ROOT Hdev Hb) by (unfold INODE_ROOT; lia).
  unfold INODE_ROOT. rewrite (bu_root _ _ _ Hb). change (addr0 (root_of (Z.of_nat (length ps)))) with ROOT_BLOCK.
  rewrite Hdev by apply root_block_in. rewrite cut_short, dir_map_lookup by done. rewrite (dfind_first _ nm j); [| lia | done | done |].
  - cbn [fmap option_fmap option_map]. rewrite Hn. unfold INODE_NUM_UNUSED. by rewrite (proj2 (Z.eqb_neq _ _)) by lia.
  - intros i Hi Heq. destruct (lookup_lt_is_Some_2 (root_names ps) (Z.to_nat i)) as [nm' Hi']; [lia|].
    destruct (root_entries s m ps i nm' Hb Hi') as [He' _]; [lia|]. rewrite He' in Heq. subst nm'.
    pose proof (NoDup_lookup _ _ _ _ Hnd Hi' Hj). lia.
Qed.

Lemma root_is_dir dev s m ps : loaded dev s -> built s m ps -> is_dir dev new_sb INODE_ROOT = true.
Proof. intros Hd Hb. unfold is_dir. rewrite (loaded_inode dev s m ps INODE_ROOT Hd Hb) by (unfold INODE_ROOT; lia). unfold INODE_ROOT. by rewrite (bu_root _ _ _ Hb). Qed.

Lemma root_follow dev s m ps j nm : loaded dev s -> built s m ps -> (length ps <= 30)%nat -> NoDup (root_names ps) -> name_ok nm -> nm <> [] ->
  0 <= j -> root_names ps !! Z.to_nat j = Some nm -> follow false dev new_sb INODE_ROOT [nm] = Some (Z.max 0 (j - 1)).
Proof.
  intros Hdev Hb Hlen Hnd Hok Hne H0 Hj. cbn [follow]. rewrite (root_is_dir dev s m ps Hdev Hb). cbn [andb]. by rewrite (root_step dev s m ps j nm Hdev Hb Hlen Hnd Hok Hne H0 Hj).
Qed.

Lemma root_walk dev s m ps nm : loaded dev s -> built s m ps -> walk_ok [] dev new_sb INODE_ROOT [nm].
Proof.
  intros Hd Hb. cbn [walk_ok]. rewrite (loaded_inode dev s m ps INODE_ROOT Hd Hb) by (unfold INODE_ROOT; lia). unfold INODE_ROOT at 2 3 4. rewrite (bu_root _ _ _ Hb).
  change (addr0 (root_of (Z.of_nat (length ps)))) with ROOT_BLOCK. change (iblock new_sb INODE_ROOT) with 2.
  assert (forall x, 0 <= x < 200 -> blk_free [] x) as Hfree by (intros x Hx; split; [unfold blk_ok, BLOCK_NUM_UNUSED; lia | apply not_elem_of_nil]).
  split; [apply Hfree; lia|]. split; [done|]. split; [|done]. intros _. apply Hfree. unfold ROOT_BLOCK. lia.
Qed.

(** ** The content of a file *)

Lemma byte_of_slice l r n : 0 <= r < n -> (Z.to_nat r < length (slice l 0 n))%nat -> byte_at (slice l 0 n) r = byte_at l r.
Proof.
  intros Hr Hl. unfold slice, byte_at in *. rewrite drop_0, !list_lookup_total_alt, lookup_take_lt by lia. done.
Qed.

Lemma byte_of_chunk content j r : 0 <= j -> 0 <= r < BLOCK_SIZE -> byte_at (chunk content j) r = byte_at content (BLOCK_SIZE * j + r).
Proof.
  intros Hj Hr. unfold chunk, byte_at. rewrite !list_lookup_total_alt, lookup_take_lt, lookup_drop by (unfold BLOCK_SIZE in *; lia).
  do 2 f_equal. unfold BLOCK_SIZE in *. lia.
Qed.

Lemma length_chunk_eq content j : 0 <= j -> Z.of_nat (length (chunk content j)) = Z.max 0 (Z.min BLOCK_SIZE (Z.of_nat (length content) - BLOCK_SIZE * j)).
Proof. intros Hj. unfold chunk. rewrite length_take, length_drop. unfold BLOCK_SIZE. lia. Qed.

Lemma bmap_direct dev d j : 0 <= j < 10 -> bmap dev d j = addr_of d j.
Proof. intros Hj. unfold bmap, locate. by rewrite (proj2 (Z.ltb_lt _ _)) by lia. Qed.

(** The first program is read back byte by byte. *)
Lemma stored_reads dev s m nm content : (forall n, 0 <= n < N_BLOCK -> block dev n = blk s n) -> 131 + m <= N_BLOCK -> stored s m 1 0 nm content ->
  Z.of_nat (length content) <= 10 * BLOCK_SIZE -> file_bytes dev (inode_at s 1) 0 (Z.of_nat (length content)) = content.
Proof.
  intros Hdev Hm [_ _ _ _ _ _ Hdata _] Hlen. apply list_eq. intros i. unfold file_bytes. rewrite list_lookup_fmap.
  destruct (decide (i < length content)%nat) as [Hi|Hi]; [|rewrite lookup_seqZ_ge, lookup_ge_None_2 by lia; done].
  rewrite lookup_seqZ_lt by lia. cbn [fmap option_fmap option_map]. rewrite Z.add_0_l. set (o := Z.of_nat i).
  pose proof (Z.div_mod o BLOCK_SIZE ltac:(done)) as Ho. pose proof (Z.mod_pos_bound o BLOCK_SIZE ltac:(done)) as Hr.
  set (j := o / BLOCK_SIZE) in *. set (r := o mod BLOCK_SIZE) in *. assert (0 <= j < 10) as Hj by (unfold BLOCK_SIZE in *; lia).
  assert (j < nblocks content) as Hjn by (unfold nblocks, j; apply Z.lt_succ_r, Z.div_le_mono; [done | lia]).
  destruct (Hdata j ltac:(lia) ltac:(lia)) as [Ha Hh]. rewrite Z.add_0_l in *. unfold file_byte. fold j r. rewrite bmap_direct, Hdev by lia.
  unfold holds in Hh. pose proof (length_chunk_eq content j ltac:(lia)) as Hcl.
  rewrite <- (byte_of_slice _ r (Z.of_nat (length (chunk content j)))) by (rewrite ?Hh; lia). rewrite Hh, byte_of_chunk by lia.
  rewrite <- Ho. unfold byte_at, o. rewrite Nat2Z.id. symmetry. by apply list_lookup_lookup_total_lt.
Qed.

(** ** Blocks that are lost *)

Lemma entry_of_zero i : 0 <= i -> entry_of zero_block i = 0.
Proof. intros Hi. unfold entry_of. by apply word_zero_block. Qed.

Lemma walk_zero dev l i : (l <> O) -> walk dev l 0 i = 0.
Proof. by destruct l. Qed.

Lemma walk_lost dev l e i : (l <> O) -> 0 <= i -> e = 0 \/ block dev e = zero_block -> walk dev l e i = 0.
Proof.
  intros Hl Hi [->|Hz]; [by apply walk_zero|]. destruct l as [|l]; [done|]. cbn [walk]. destruct (e =? 0); [done|].
  rewrite Hz, entry_of_zero by (apply Z.div_pos; lia). by destruct l.
Qed.

Lemma bmap_lost dev d j : 10 <= j < MAXBN -> (forall k, 10 <= k < 13 -> addr_of d k = 0 \/ block dev (addr_of d k) = zero_block) -> bmap dev d j = 0.
Proof.
  intros Hj Hk. unfold bmap, locate. rewrite (proj2 (Z.ltb_ge j 10)) by lia. destruct (Z.ltb_spec j 522).
  - apply walk_lost; [done | apply Z.mod_pos_bound; lia |]. apply Hk. pose proof (Z.div_pos (j - 10) 256). pose proof (Z.div_lt_upper_bound (j - 10) 256 2). lia.
  - apply walk_lost; [done | lia |]. apply Hk. lia.
Qed.

(** ** What [main] promises *)

Variable junk : Z -> list Z.
Hypothesis junk_ok : forall o, length (junk o) = Z.to_nat DIR_NAME_LEN /\ is_bytes (junk o).

(** [main] of mkfs returns for programs that fit, and on a disk with its image the
    kernel reads back the super block, finds "." and ".." in the root directory, and
    finds every program under its path as a file with one link and its size.  *)
Theorem mkfs_programs_found args ps :
  Forall2 (fun a p => is_program a p.1 p.2) args ps -> (length ps <= 30)%nat -> 1 + 3 * total ps <= NBITS ->
  Forall (fun p => p.1 <> []) ps -> NoDup (root_names ps) ->
  exists s, main junk args no_image = Ret tt s /\ forall dev, loaded dev s ->
    decode_sb (block dev SB_BLOCK_NUM) = new_sb /\
    follow false dev new_sb INODE_ROOT [DOT] = Some INODE_ROOT /\ follow false dev new_sb INODE_ROOT [DOTDOT] = Some INODE_ROOT /\
    forall i p, ps !! i = Some p ->
      let path := SLASH :: p.1 in let num := 1 + Z.of_nat i in let di := disk_inode dev new_sb num in
      walk_ok [] dev new_sb INODE_ROOT (components path) /\ follow false dev new_sb INODE_ROOT (components path) = Some num /\
      d_type di = FT_FILE /\ d_nlink di = 1 /\ d_size di = u32 (Z.of_nat (length p.2)).
Proof.
  intros Hps Hlen Hm Hne Hnd. destruct (main_run junk junk_ok args ps Hps Hlen Hm) as (s & m & Hs & Hb). exists s. split; [exact Hs|].
  intros dev Hdev. destruct dot_names as [Hd Hdd]. split; [|split; [|split]].
  - rewrite Hdev; [apply Hb | unfold SB_BLOCK_NUM, N_BLOCK, N_DATA_BLOCK, N_INODE_BLOCK; lia].
  - apply (root_follow dev s m ps 0 DOT); (assumption || done).
  - apply (root_follow dev s m ps 1 DOTDOT); (assumption || done).
  - intros i p Hi. cbv zeta. destruct (Forall2_lookup_r _ _ _ _ _ Hps Hi) as (a & _ & pre & _ & _ & Hslash & Hok & _).
    pose proof (Forall_lookup_1 _ _ _ _ Hne Hi) as Hpn. pose proof (lookup_lt_Some _ _ _ Hi) as Hlt.
    rewrite components_file by assumption. rewrite (loaded_inode dev s m ps _ Hdev Hb) by lia.
    destruct (bu_programs _ _ _ Hb i p Hi) as [_ _ Ht Hl Hz _ _ _]. split; [by apply (root_walk dev s m ps)|].
    split; [|exact (conj Ht (conj Hl Hz))].
    rewrite (root_follow dev s m ps (2 + Z.of_nat i) p.1); (assumption || lia || idtac); [f_equal; lia|].
    replace (Z.to_nat (2 + Z.of_nat i)) with (S (S i)) by lia. unfold root_names. simpl. by rewrite list_lookup_fmap, Hi.
Qed.

(** C34: the kernel reads the first program of the command line, up to ten blocks, back
    from the image byte by byte.  *)
Theorem mkfs_first_program_reads args nm content ps :
  Forall2 (fun a p => is_program a p.1 p.2) args ((nm, content) :: ps) -> (length ps < 30)%nat -> 1 + 3 * total ((nm, content) :: ps) <= NBITS ->
  Z.of_nat (length content) <= 10 * BLOCK_SIZE ->
  exists s, main junk args no_image = Ret tt s /\ forall dev, loaded dev s ->
    d_size (disk_inode dev new_sb 1) = Z.of_nat (length content) /\
    file_bytes dev (disk_inode dev new_sb 1) 0 (Z.of_nat (length content)) = content.
Proof.
  intros Hps Hlen Hm Hsmall. destruct (main_run junk junk_ok args _ Hps ltac:(simpl; lia) Hm) as (s & m & Hs & Hb). exists s. split; [exact Hs|].
  intros dev Hdev. pose proof (bu_programs _ _ _ Hb 0%nat _ eq_refl) as Hst. pose proof (bu_m _ _ _ Hb) as Hmm.
  rewrite (loaded_inode dev s m _ 1 Hdev Hb) by lia. split.
  - refine (eq_trans (so_size _ _ _ _ _ _ Hst) _). apply u32_small. unfold BLOCK_SIZE in *. simpl. lia.
  - apply (stored_reads dev s m nm content Hdev); [unfold N_BLOCK, N_DATA_BLOCK, N_INODE_BLOCK, NBITS, BLOCK_SIZE in *; lia | exact Hst | exact Hsmall].
Qed.

(** C35: [bn] is not reset between the programs and indirect blocks are not written back:
    the kernel finds no block at the start of any program but the first, and none of
    the blocks from the eleventh on of any program.  *)
Theorem mkfs_loses_blocks args ps :
  Forall2 (fun a p => is_program a p.1 p.2) args ps -> (length ps <= 30)%nat -> 1 + 3 * total ps <= NBITS ->
  exists s, main junk args no_image = Ret tt s /\ forall dev, loaded dev s -> forall i p, ps !! i = Some p ->
    let di := disk_inode dev new_sb (1 + Z.of_nat i) in
    d_size di = u32 (Z.of_nat (length p.2)) /\
    ((0 < i)%nat -> bmap dev di 0 = 0) /\
    (forall j, 0 <= j < total (take i ps) -> j < 10 -> bmap dev di j = 0) /\
    (forall j, 10 <= j < MAXBN -> bmap dev di j = 0).
Proof.
  intros Hps Hlen Hm. destruct (main_run junk junk_ok args _ Hps Hlen Hm) as (s & m & Hs & Hb). exists s. split; [exact Hs|].
  intros dev Hdev i p Hi. cbv zeta. pose proof (lookup_lt_Some _ _ _ Hi) as Hlt. rewrite (loaded_inode dev s m ps _ Hdev Hb) by lia.
  destruct (bu_programs _ _ _ Hb i p Hi) as [_ _ _ _ Hz Hh _ Hind]. pose proof (bu_m _ _ _ Hb) as Hmm.
  assert (forall j, 0 <= j < total (take i ps) -> j < 10 -> bmap dev (inode_at s (1 + Z.of_nat i)) j = 0) as Hhole
    by (intros j Hj Hj10; rewrite bmap_direct by lia; by apply Hh).
  split; [exact Hz|]. split; [|split; [exact Hhole|]].
  - intros Hi0. apply Hhole; [|lia]. destruct ps as [|q ps]; [done|]. destruct i as [|i]; [lia|]. simpl take. cbn [total foldr].
    pose proof (nblocks_pos q.2). pose proof (total_nonneg (take i ps)) as Ht. unfold total in Ht. lia.
  - intros j Hj. apply bmap_lost; [exact Hj|]. intros k Hk. destruct (Hind k Hk) as [?|[Ha Hz0]]; [by left | right].
    rewrite Hdev; [exact Hz0 | unfold N_BLOCK, N_DATA_BLOCK, N_INODE_BLOCK, NBITS, BLOCK_SIZE in *; lia].
Qed.
End Read.

(** ** Witnesses: two programs "a" and "b" *)

Lemma disk_of_image s n : (forall x, good_data (blk s x)) -> Z.of_nat n <= N_BLOCK -> exists dev : memdisk, forall x, 0 <= x < Z.of_nat n -> block dev x = blk s x.
Proof.
  intros Hg. induction n as [|n IH]; intros Hn; [exists empty_disk; intros x Hx; lia|]. destruct IH as [dev Hdev]; [lia|].
  exists (put_block dev (Z.of_nat n) (blk s (Z.of_nat n))). intros x Hx. destruct (decide (x = Z.of_nat n)) as [->|Hne].
  - pose proof (length_good _ (Hg (Z.of_nat n))) as Hl. apply block_put_eq; [unfold BLOCK_SIZE in *; lia | apply Hg].
  - rewrite block_put_ne by (unfold N_BLOCK, N_DATA_BLOCK, N_INODE_BLOCK in *; lia). apply Hdev. lia.
Qed.

Definition demo_junk (_ : Z) : list Z := replicate 30 0.
Definition demo_programs : list (list Z * list Z) := [([97], [1; 2; 3]); ([98], [4])].
Definition demo_args : list program :=
  (fun p => ([46; 47; 117; 115; 101; 114; 47] ++ 95 :: p.1, Some p.2)) <$> demo_programs.

Lemma demo_junk_ok o : length (demo_junk o) = Z.to_nat DIR_NAME_LEN /\ is_bytes (demo_junk o).
Proof. split; [reflexivity | apply Forall_replicate; lia]. Qed.

Lemma demo_args_ok : Forall2 (fun a p => is_program a p.1 p.2) demo_args demo_programs.
Proof.
  repeat constructor; exists [46; 47; 117; 115; 101; 114; 47]; (split; [reflexivity|]); (split; [reflexivity|]);
    (split; [apply (bool_decide_unpack _); reflexivity|]); (split; [split; [reflexivity | repeat constructor]|]); repeat constructor; lia.
Qed.

(** A disk with the image exists. *)
Lemma demo_disk_loaded s : main demo_junk demo_args no_image = Ret tt s -> exists dev : memdisk, loaded dev s.
Proof.
  intros Hs. destruct (main_run demo_junk demo_junk_ok demo_args demo_programs demo_args_ok) as (s' & m & Hs' & Hb); [simpl; lia | vm_compute; discriminate |].
  pose proof (eq_trans (eq_sym Hs) Hs') as He. injection He as ->.
  destruct (disk_of_image s' (Z.to_nat N_BLOCK) (bu_good _ _ _ Hb)) as [dev Hdev]; [vm_compute; discriminate|].
  exists dev. intros n Hn. apply Hdev. rewrite Z2Nat.id by lia. exact Hn.
Qed.

Lemma mkfs_programs_found_witness : exists s (dev : memdisk), main demo_junk demo_args no_image = Ret tt s /\ loaded dev s /\
  follow false dev new_sb INODE_ROOT (components [47; 98]) = Some 2.
Proof.
  destruct (mkfs_programs_found (D := memdisk) demo_junk demo_junk_ok demo_args demo_programs demo_args_ok) as (s & Hs & Hall).
  - simpl. lia.
  - reflexivity || (vm_compute; discriminate).
  - repeat constructor; discriminate.
  - apply (bool_decide_unpack _). reflexivity.
  - destruct (demo_disk_loaded s Hs) as [dev Hdev]. exists s, dev. split; [exact Hs|]. split; [exact Hdev|]. destruct (Hall dev Hdev) as (_ & _ & _ & Hp). exact (proj1 (proj2 (Hp 1%nat _ eq_refl))).
Defined.

Lemma mkfs_first_program_reads_witness : exists s (dev : memdisk), main demo_junk demo_args no_image = Ret tt s /\ loaded dev s /\
  file_bytes dev (disk_inode dev new_sb 1) 0 3 = [1; 2; 3].
Proof.
  destruct (mkfs_first_program_reads (D := memdisk) demo_junk demo_junk_ok demo_args [97] [1; 2; 3] [([98], [4])] demo_args_ok) as (s & Hs & Hall).
  - simpl. lia.
  - vm_compute. discriminate.
  - vm_compute. discriminate.
  - destruct (demo_disk_loaded s Hs) as [dev Hdev]. exists s, dev. split; [exact Hs|]. split; [exact Hdev|]. exact (proj2 (Hall dev Hdev)).
Defined.

Lemma mkfs_loses_blocks_witness : exists s (dev : memdisk), main demo_junk demo_args no_image = Ret tt s /\ loaded dev s /\
  d_size (disk_inode dev new_sb 2) = 1 /\ bmap dev (disk_inode dev new_sb 2) 0 = 0.
Proof.
  destruct (mkfs_loses_blocks (D := memdisk) demo_junk demo_junk_ok demo_args demo_programs demo_args_ok) as (s & Hs & Hall).
  - simpl. lia.
  - vm_compute. discriminate.
  - destruct (demo_disk_loaded s Hs) as [dev Hdev]. exists s, dev. split; [exact Hs|]. split; [exact Hdev|]. destruct (Hall dev Hdev 1%nat _ eq_refl) as (Hz & Hb & _).
    split; [exact Hz | apply Hb; lia].
Defined.
