(* ===== verification/FsSpec.v ===== *)
(** * FsSpec: mounting the file system (kernel/fs/fs.c, [fs_mount])

    [inode_init] and [file_init] clear their tables; then a kernel that has just
    started finds what mkfs has put on the disk. *)

From S2P Require Import Prelude Bytes Kstring Spinlock Kernel Disk Buf BufSpec Bitmap BitmapSpec Inode InodeMeta InodeSpec InodeData Dir DirSpec PathSpec File FileSpec Fs Mkfs MkfsSpec MkfsImage MkfsRead.

Section Mount.
Context {D : Type} `{!BlockDev D, !BlockDevLaws D, !DiskDriver D, !DiskDriverOk D}.
Implicit Types (s : kstate D) (d : D).

(** ** The tables *)

Definition cleared (m : inode) : Prop := is_free (i_slk m) /\ valid m = false /\ i_ref m = 0 /\ inode_num m = INODE_NUM_UNUSED.

Definition clear_inode (m : inode) : inode :=
  set_i_slk (mk_spinlock 0 "inode" 0) (set_valid false (set_i_ref 0 (set_inode_num INODE_NUM_UNUSED m))).

Lemma with_slk_init s i m : inode_of s i = Some m ->
  with_lock (inode_slk i) (spinlock_init "inode") s = Ret tt (put_inode i (set_i_slk (mk_spinlock 0 "inode" 0) m) s).
Proof. intros Hm. unfold with_lock. simpl. rewrite Hm. by destruct s. Qed.

Lemma clear_run s i m : inode_of s i = Some m ->
  (upd_inode i (set_inode_num INODE_NUM_UNUSED);; upd_inode i (set_i_ref 0);; upd_inode i (set_valid false);;
   with_lock (inode_slk i) (spinlock_init "inode")) s = Ret tt (put_inode i (clear_inode m) s).
Proof.
  intros Hm. assert (forall m', inode_of (put_inode i m' s) i = Some m') as Hput by (intros m'; rewrite inode_of_put by (by eapply lookup_lt_Some); by rewrite decide_True).
  mstep ltac:(exact (upd_inode_eq _ _ _ _ Hm)). mstep ltac:(apply upd_inode_eq, Hput). rewrite put_inode_twice.
  mstep ltac:(apply upd_inode_eq, Hput). rewrite put_inode_twice. rewrite (with_slk_init _ _ _ (Hput _)). by rewrite put_inode_twice.
Qed.

Lemma clear_loop n : forall j s, length (inodes (k_ic s)) = (j + n)%nat -> exists ic,
  for_each (seq j n) (fun i => upd_inode i (set_inode_num INODE_NUM_UNUSED);; upd_inode i (set_i_ref 0);; upd_inode i (set_valid false);;
    with_lock (inode_slk i) (spinlock_init "inode")) s = Ret tt (set_k_ic ic s) /\
  length (inodes ic) = (j + n)%nat /\ lk_icache ic = lk_icache (k_ic s) /\
  forall i m, inodes ic !! i = Some m -> if decide (i < j)%nat then inode_of s i = Some m else cleared m.
Proof.
  induction n as [|n IH]; intros j s Hl.
  - exists (k_ic s). split_and!; [by destruct s | done | done |]. intros i m Hi. pose proof (lookup_lt_Some _ _ _ Hi). by rewrite decide_True by lia.
  - destruct (lookup_lt_is_Some_2 (inodes (k_ic s)) j) as [m Hm]; [lia|]. cbn [seq for_each]. rewrite (bind_ret_eq _ _ _ _ _ (clear_run s j m Hm)).
    destruct (IH (S j) (put_inode j (clear_inode m) s)) as (ic & Hrun & Hlen & Hlk & Hall); [simpl; rewrite length_insert; lia|].
    exists ic. split_and!; [rewrite Hrun; by destruct s | lia | by rewrite Hlk |]. intros i m' Hi. specialize (Hall i m' Hi).
    case_decide as H1; [|rewrite decide_False by lia; exact Hall]. rewrite inode_of_put in Hall by lia.
    destruct (decide (j = i)) as [->|Hne]; [|by rewrite decide_True by lia]. injection Hall as <-. by rewrite decide_False by lia.
Qed.

Lemma inode_init_run s : length (inodes (k_ic s)) = N_INODE -> exists ic, inode_init s = Ret tt (set_k_ic ic s) /\
  length (inodes ic) = N_INODE /\ is_free (lk_icache ic) /\ forall i m, inodes ic !! i = Some m -> cleared m.
Proof.
  intros Hl. unfold inode_init. set (s1 := set_k_ic (set_lk_icache (mk_spinlock 0 "icache" 0) (k_ic s)) s).
  assert (with_lock ic_lk (spinlock_init "icache") s = Ret tt s1) as H1 by (unfold with_lock, s1; simpl; by destruct s).
  rewrite (bind_ret_eq _ _ _ _ _ H1). destruct (clear_loop N_INODE 0 s1 Hl) as (ic & Hrun & Hlen & Hlk & Hall).
  exists ic. split_and!; [rewrite Hrun; by destruct s | done | by rewrite Hlk | exact Hall].
Qed.

Lemma fill_loop n : forall j s, length (files (k_ft s)) = (j + n)%nat -> exists ft,
  for_each (seq j n) (fun i => upd_file i (fill_file FD_UNUSED 0)) s = Ret tt (set_k_ft ft s) /\ length (files ft) = (j + n)%nat /\
  forall i f, files ft !! i = Some f -> if decide (i < j)%nat then file_of s i = Some f else f_type f = FD_UNUSED /\ f_ref f = 0.
Proof.
  induction n as [|n IH]; intros j s Hl.
  - exists (k_ft s). split_and!; [by destruct s | done |]. intros i m Hi. pose proof (lookup_lt_Some _ _ _ Hi). by rewrite decide_True by lia.
  - destruct (lookup_lt_is_Some_2 (files (k_ft s)) j) as [m Hm]; [lia|]. cbn [seq for_each]. rewrite (upd_file_eq _ _ _ _ _ Hm).
    destruct (IH (S j) (put_file j (fill_file FD_UNUSED 0 m) s)) as (ft & Hrun & Hlen & Hall); [simpl; rewrite length_insert; lia|].
    exists ft. split_and!; [rewrite Hrun; by destruct s | lia |]. intros i m' Hi. specialize (Hall i m' Hi). unfold file_of, put_file in Hall. simpl in Hall.
    case_decide as H1; [|rewrite decide_False by lia; exact Hall].
    destruct (decide (j = i)) as [->|Hne]; [|by rewrite decide_True, list_lookup_insert_ne in * by lia].
    rewrite list_lookup_insert_eq in Hall by lia. injection Hall as <-. by rewrite decide_False by lia.
Qed.

Lemma file_init_run s : length (files (k_ft s)) = Z.to_nat N_FILE -> exists ft, file_init s = Ret tt (set_k_ft ft s) /\
  forall i f, files ft !! i = Some f -> f_type f = FD_UNUSED /\ f_ref f = 0.
Proof.
  intros Hl. unfold file_init. set (s1 := set_k_ft (set_lk_ftable (mk_spinlock 0 "ftable" 0) (k_ft s)) s).
  assert (with_lock ft_lk (spinlock_init "ftable") s = Ret tt s1) as H1 by (unfold with_lock, s1; simpl; by destruct s).
  rewrite (bind_ret_eq _ _ _ _ _ H1). destruct (fill_loop (Z.to_nat N_FILE) 0 s1 Hl) as (ft & Hrun & Hlen & Hall).
  rewrite (bind_ret_eq _ _ _ _ _ Hrun). eexists. split; [unfold modify; destruct s; reflexivity|]. exact Hall.
Qed.

(** ** [fs_mount] *)

(** The kernel's memory at power-on, as far as the file system has it. *)
Record powered_on s : Prop := {
  po_cache : cache_bss s;
  po_inodes : length (inodes (k_ic s)) = N_INODE;
  po_files : length (files (k_ft s)) = Z.to_nat N_FILE
}.

Definition no_refs : list Z := replicate N_INODE 0.

Lemma no_refs_ok : refs_ok no_refs.
Proof. split; [by left | apply Forall_replicate; lia]. Qed.

Lemma fs_mount_run s sb : powered_on s -> decode_sb (block (k_dev s) SB_BLOCK_NUM) = sb -> magic sb = FS_MAGIC -> block_size sb = BLOCK_SIZE ->
  exists s', fs_mount s = Ret tt s' /\ walk_inv s' [] (k_dev s) sb (cpu_touch (k_cpu s)) no_refs /\
    forall i f, file_of s' i = Some f -> f_type f = FD_UNUSED /\ f_ref f = 0.
Proof.
  intros [Hbss Hni Hnf] Hsb Hmagic Hbs. destruct (buf_init_inv s Hbss) as (s1 & H1 & Hf1 & Hd1 & Hc1 & Hinv1). assert (cache s1 []) as Hca1 by (by eexists).
  destruct (buf_read_ok s1 [] SB_BLOCK_NUM Hca1) as (b & s2 & H2 & Hb2); [unfold N_BLOCK_BUF; simpl; lia | unfold blk_ok, SB_BLOCK_NUM, BLOCK_NUM_UNUSED; lia | apply not_elem_of_nil |].
  set (s3 := set_k_sb sb s2). assert (cache s3 [(b, SB_BLOCK_NUM, block (k_dev s1) SB_BLOCK_NUM)]) as Hca3 by (by apply (cache_ext s2), Hb2).
  destruct (buf_release_ok s3 b SB_BLOCK_NUM _ [] Hca3) as (s4 & H4 & Hb4).
  assert (frame s3 s4) as Hf4 by apply Hb4. assert (k_ic s4 = k_ic s) as Hic4.
  { rewrite (k_ic_frame _ _ Hf4). change (k_ic s3) with (k_ic s2). rewrite (k_ic_frame _ _ (be_frame _ _ _ _ _ Hb2)). by apply k_ic_frame. }
  assert (k_ft s4 = k_ft s) as Hft4.
  { transitivity (k_ft s3); [by rewrite Hf4|]. change (k_ft s3) with (k_ft s2). transitivity (k_ft s1); [by rewrite (be_frame _ _ _ _ _ Hb2) | by rewrite Hf1]. }
  destruct (inode_init_run s4) as (ic & H5 & Hlen & Hlk & Hall); [by rewrite Hic4|].
  destruct (file_init_run (set_k_ic ic s4)) as (ft & H6 & Hfiles); [simpl; by rewrite Hft4|].
  exists (set_k_ft ft (set_k_ic ic s4)). split; [|split; [|exact Hfiles]].
  - unfold fs_mount. mstep ltac:(exact H1). mstep ltac:(exact H2). rewrite (buf_data_ok s2 b SB_BLOCK_NUM _ [] (fun l => l) _ (be_cache _ _ _ _ _ Hb2)). mrun.
    rewrite Hd1, Hsb. fold s3. change (k_sb s3) with sb. rewrite Hmagic, Z.eqb_refl. unfold kassert. mrun. change (k_sb s3) with sb.
    rewrite Hbs, Z.eqb_refl. mrun. mstep ltac:(exact H4). mstep ltac:(exact H5). exact H6.
  - assert (k_dev s4 = k_dev s /\ k_cpu s4 = cpu_touch (cpu_pop (cpu_push (k_cpu s)))) as [Hd4 Hc4].
    { rewrite (be_dev _ _ _ _ _ Hb4), (be_cpu _ _ _ _ _ Hb4). change (k_dev s3) with (k_dev s2). change (k_cpu s3) with (k_cpu s2).
      by rewrite (be_dev _ _ _ _ _ Hb2), (be_cpu _ _ _ _ _ Hb2), Hd1, Hc1. }
    assert (forall i n, ic.(inodes) !! i = Some n -> i_ref n = 0) as Hz by (intros i n Hn; apply (Hall i n Hn)).
    split; simpl.
    + by split.
    + apply (cache_ext s4); [done..|]. apply Hb4.
    + exact Hd4.
    + by rewrite (k_sb_frame _ _ Hf4).
    + rewrite Hc4. rewrite cpu_touch_idemp. rewrite cpu_pop_push by (by apply Hbss). by rewrite cpu_touch_idemp.
    + intros i n Hn. destruct (Hall i n Hn) as (Hfr & Hv & _). split; [exact Hfr | by rewrite Hv].
    + apply list_eq. intros i. rewrite list_lookup_fmap. unfold no_refs. destruct (inodes ic !! i) as [n|] eqn:Hn; cbn [fmap option_fmap option_map].
      * rewrite (Hz i n Hn), lookup_replicate_2; [done|]. rewrite <- Hlen. by eapply lookup_lt_Some.
      * symmetry. apply lookup_ge_None_2. rewrite length_replicate, <- Hlen. by apply lookup_ge_None_1.
Qed.

(** ** From the image to the files *)

Variable junk : Z -> list Z.
Hypothesis junk_ok : forall o, length (junk o) = Z.to_nat DIR_NAME_LEN /\ is_bytes (junk o).

(** C33: a kernel that starts on the image of mkfs mounts it, with the super block
    that mkfs has written and empty tables, and [path_to_inode] then leads from
    "/name" of every program to its inode, referenced once, without changing the disk. *)
Theorem mkfs_image_mounts args ps :
  Forall2 (fun a p => is_program a p.1 p.2) args ps -> (length ps <= 30)%nat -> 1 + 3 * total ps <= NBITS ->
  Forall (fun p => p.1 <> []) ps -> NoDup (root_names ps) ->
  exists img, main junk args no_image = Ret tt img /\ forall s, powered_on s -> loaded (k_dev s) img ->
    exists s1, fs_mount s = Ret tt s1 /\ k_sb s1 = new_sb /\ k_dev s1 = k_dev s /\ i_ref <$> inodes (k_ic s1) = no_refs /\
      (forall i f, file_of s1 i = Some f -> f_type f = FD_UNUSED /\ f_ref f = 0) /\
      forall i p, ps !! i = Some p -> exists ip s2 n, path_to_inode (SLASH :: p.1) s1 = Ret (Some ip) s2 /\
        inode_of s2 ip = Some n /\ inode_num n = 1 + Z.of_nat i /\ i_ref n = 1 /\ k_dev s2 = k_dev s1.
Proof.
  intros Hps Hlen Hm Hne Hnd. destruct (mkfs_programs_found (D := D) junk junk_ok args ps Hps Hlen Hm Hne Hnd) as (img & Himg & Hfound).
  exists img. split; [exact Himg|]. intros s Hon Hdev. destruct (Hfound _ Hdev) as (Hsb & _ & _ & Hprog).
  destruct (fs_mount_run s new_sb Hon Hsb) as (s1 & H1 & Hw & Hfiles); [done | done |].
  exists s1. split; [exact H1|]. split; [apply Hw|]. split; [apply Hw|]. split; [apply Hw|]. split; [exact Hfiles|].
  intros i p Hp. destruct (Hprog i p Hp) as (Hwalk & Hfollow & _). destruct (Forall2_lookup_r _ _ _ _ _ Hps Hp) as (a & _ & pre & _ & _ & _ & [_ Hchars] & _).
  destruct (path_to_inode_run s1 [] (k_dev s) new_sb _ no_refs (SLASH :: p.1) Hw no_refs_ok) as (res & s2 & H2 & Hpost);
    [unfold N_BLOCK_BUF; simpl; lia | | exact Hwalk |].
  { constructor; [done|]. eapply Forall_impl; [exact Hchars|]. simpl. lia. }
  rewrite Hfollow in Hpost. destruct Hpost as (ip & r & n & -> & Hr & Hw2 & Hn & Hnum). exists ip, s2, n. split; [exact H2|]. split; [exact Hn|]. split; [exact Hnum|]. split.
  - rewrite (walk_ref _ _ _ _ _ _ _ _ _ Hw2 (lookup_lt_Some _ _ _ Hr) Hn). apply lookup_replicate in Hr as [-> _]. done.
  - rewrite (wi_dev _ _ _ _ _ _ Hw2). symmetry. apply Hw.
Qed.
End Mount.

(** ** Witness: two programs *)

Lemma powered_on_disk (d : memdisk) : exists s : kstate memdisk, powered_on s /\ k_dev s = d.
Proof.
  exists (set_k_ft (mk_ftable (replicate 32 zero_file) zero_lock []) (set_k_ic free_ic (bss d 0))). split; [|done]. split; [|done|done].
  destruct (bss_cache d). by split.
Qed.

Lemma mkfs_image_mounts_witness : exists (s s1 s2 : kstate memdisk) ip n, fs_mount s = Ret tt s1 /\
  path_to_inode [47; 98] s1 = Ret (Some ip) s2 /\ inode_of s2 ip = Some n /\ inode_num n = 2.
Proof.
  destruct (mkfs_image_mounts (D := memdisk) demo_junk demo_junk_ok demo_args demo_programs demo_args_ok) as (img & Himg & Hall).
  - simpl. lia.
  - vm_compute. discriminate.
  - repeat constructor; discriminate.
  - apply (bool_decide_unpack _). reflexivity.
  - destruct (demo_disk_loaded img Himg) as [dev Hdev]. destruct (powered_on_disk dev) as (s & Hon & Hd).
    destruct (Hall s Hon) as (s1 & H1 & _ & _ & _ & _ & Hp); [by rewrite Hd|].
    destruct (Hp 1%nat _ eq_refl) as (ip & s2 & n & H2 & Hn & Hnum & _). exists s, s1, s2, ip, n.
    split; [exact H1|]. split; [exact H2|]. split; [exact Hn | exact Hnum].
Defined.
