(* ===== verification/Proc.v ===== *)
(** * Proc: kernel/proc/proc.c and cpu.c, processes and the scheduler

    A [proc_t*] is the index of an entry of [procs], NULL is [None]; the trapframe
    is in the memory of [kstate].  The functions are run by one hart.  What happens
    between a call of [swtch] (swtch.S) and its return, on this hart or others, is
    the parameter [swtch]; printed messages are left out. *)

From S2P Require Import Prelude Bytes Kstring Spinlock Kernel Disk Buf Bitmap Inode Dir Pmem Vmem Uvm File.

(** ** Data (include/proc/proc.h, include/proc/cpu.h) *)

Inductive proc_state := UNUSED | RUNNABLE | RUNNING | SLEEPING | ZOMBIE.
#[export] Instance proc_state_eq_dec : EqDecision proc_state.
Proof. solve_decision. Defined.

(** The [void*] that a process sleeps on: NULL, a process, another object. *)
Inductive chan := ch_null | ch_proc (i : nat) | ch_addr (a : Z).
#[export] Instance chan_eq_dec : EqDecision chan.
Proof. solve_decision. Defined.

Definition NPROC : Z := 64.
Definition FILE_PER_PROC : Z := 16.
Definition TIME_SLICE : Z := 10.

Record proc := mk_proc {
  p_lk : spinlock;
  pid : Z;
  p_state : proc_state;
  parent : option nat;
  exit_state : Z;
  sleep_space : chan;
  filelist : list (option nat);
  time_slice : Z;
  total_time : Z;
  pgtbl : Z;
  heap_top : Z;
  ustack_pages : Z;
  mmap : Z;
  tf : Z;
  kstack : Z;
  ctx : list Z
}.

Definition set_p_lk (v : spinlock) (p : proc) : proc :=
  mk_proc v (pid p) (p_state p) (parent p) (exit_state p) (sleep_space p) (filelist p) (time_slice p) (total_time p) (pgtbl p) (heap_top p) (ustack_pages p) (mmap p) (tf p) (kstack p) (ctx p).
Definition set_pid (v : Z) (p : proc) : proc :=
  mk_proc (p_lk p) v (p_state p) (parent p) (exit_state p) (sleep_space p) (filelist p) (time_slice p) (total_time p) (pgtbl p) (heap_top p) (ustack_pages p) (mmap p) (tf p) (kstack p) (ctx p).
Definition set_p_state (v : proc_state) (p : proc) : proc :=
  mk_proc (p_lk p) (pid p) v (parent p) (exit_state p) (sleep_space p) (filelist p) (time_slice p) (total_time p) (pgtbl p) (heap_top p) (ustack_pages p) (mmap p) (tf p) (kstack p) (ctx p).
Definition set_parent (v : option nat) (p : proc) : proc :=
  mk_proc (p_lk p) (pid p) (p_state p) v (exit_state p) (sleep_space p) (filelist p) (time_slice p) (total_time p) (pgtbl p) (heap_top p) (ustack_pages p) (mmap p) (tf p) (kstack p) (ctx p).
Definition set_exit_state (v : Z) (p : proc) : proc :=
  mk_proc (p_lk p) (pid p) (p_state p) (parent p) v (sleep_space p) (filelist p) (time_slice p) (total_time p) (pgtbl p) (heap_top p) (ustack_pages p) (mmap p) (tf p) (kstack p) (ctx p).
Definition set_sleep_space (v : chan) (p : proc) : proc :=
  mk_proc (p_lk p) (pid p) (p_state p) (parent p) (exit_state p) v (filelist p) (time_slice p) (total_time p) (pgtbl p) (heap_top p) (ustack_pages p) (mmap p) (tf p) (kstack p) (ctx p).
Definition set_filelist (v : list (option nat)) (p : proc) : proc :=
  mk_proc (p_lk p) (pid p) (p_state p) (parent p) (exit_state p) (sleep_space p) v (time_slice p) (total_time p) (pgtbl p) (heap_top p) (ustack_pages p) (mmap p) (tf p) (kstack p) (ctx p).
Definition set_time_slice (v : Z) (p : proc) : proc :=
  mk_proc (p_lk p) (pid p) (p_state p) (parent p) (exit_state p) (sleep_space p) (filelist p) v (total_time p) (pgtbl p) (heap_top p) (ustack_pages p) (mmap p) (tf p) (kstack p) (ctx p).
Definition set_total_time (v : Z) (p : proc) : proc :=
  mk_proc (p_lk p) (pid p) (p_state p) (parent p) (exit_state p) (sleep_space p) (filelist p) (time_slice p) v (pgtbl p) (heap_top p) (ustack_pages p) (mmap p) (tf p) (kstack p) (ctx p).
Definition set_pgtbl (v : Z) (p : proc) : proc :=
  mk_proc (p_lk p) (pid p) (p_state p) (parent p) (exit_state p) (sleep_space p) (filelist p) (time_slice p) (total_time p) v (heap_top p) (ustack_pages p) (mmap p) (tf p) (kstack p) (ctx p).
Definition set_heap_top (v : Z) (p : proc) : proc :=
  mk_proc (p_lk p) (pid p) (p_state p) (parent p) (exit_state p) (sleep_space p) (filelist p) (time_slice p) (total_time p) (pgtbl p) v (ustack_pages p) (mmap p) (tf p) (kstack p) (ctx p).
Definition set_ustack_pages (v : Z) (p : proc) : proc :=
  mk_proc (p_lk p) (pid p) (p_state p) (parent p) (exit_state p) (sleep_space p) (filelist p) (time_slice p) (total_time p) (pgtbl p) (heap_top p) v (mmap p) (tf p) (kstack p) (ctx p).
Definition set_mmap (v : Z) (p : proc) : proc :=
  mk_proc (p_lk p) (pid p) (p_state p) (parent p) (exit_state p) (sleep_space p) (filelist p) (time_slice p) (total_time p) (pgtbl p) (heap_top p) (ustack_pages p) v (tf p) (kstack p) (ctx p).
Definition set_tf (v : Z) (p : proc) : proc :=
  mk_proc (p_lk p) (pid p) (p_state p) (parent p) (exit_state p) (sleep_space p) (filelist p) (time_slice p) (total_time p) (pgtbl p) (heap_top p) (ustack_pages p) (mmap p) v (kstack p) (ctx p).
Definition set_kstack (v : Z) (p : proc) : proc :=
  mk_proc (p_lk p) (pid p) (p_state p) (parent p) (exit_state p) (sleep_space p) (filelist p) (time_slice p) (total_time p) (pgtbl p) (heap_top p) (ustack_pages p) (mmap p) (tf p) v (ctx p).
Definition set_ctx (v : list Z) (p : proc) : proc :=
  mk_proc (p_lk p) (pid p) (p_state p) (parent p) (exit_state p) (sleep_space p) (filelist p) (time_slice p) (total_time p) (pgtbl p) (heap_top p) (ustack_pages p) (mmap p) (tf p) (kstack p) v.

(** The kernel, the process table and the globals of proc.c; [cur] and [intena] are
    the fields [proc] and [intena] of this hart's [cpu_t], [last_scheduled] is the
    static variable of [proc_scheduler]. *)
Record pstate {D : Type} := mk_pstate {
  ps_k : kstate D;
  procs : list proc;
  proczero : option nat;
  global_pid : Z;
  lk_pid : spinlock;
  cur : option nat;
  intena : Z;
  last_scheduled : Z
}.
Arguments pstate D : clear implicits.
Arguments mk_pstate {D}.

Definition set_ps_k {D} (v : kstate D) (s : pstate D) : pstate D :=
  mk_pstate v (procs s) (proczero s) (global_pid s) (lk_pid s) (cur s) (intena s) (last_scheduled s).
Definition set_procs {D} (v : list proc) (s : pstate D) : pstate D :=
  mk_pstate (ps_k s) v (proczero s) (global_pid s) (lk_pid s) (cur s) (intena s) (last_scheduled s).
Definition set_proczero {D} (v : option nat) (s : pstate D) : pstate D :=
  mk_pstate (ps_k s) (procs s) v (global_pid s) (lk_pid s) (cur s) (intena s) (last_scheduled s).
Definition set_global_pid {D} (v : Z) (s : pstate D) : pstate D :=
  mk_pstate (ps_k s) (procs s) (proczero s) v (lk_pid s) (cur s) (intena s) (last_scheduled s).
Definition set_lk_pid {D} (v : spinlock) (s : pstate D) : pstate D :=
  mk_pstate (ps_k s) (procs s) (proczero s) (global_pid s) v (cur s) (intena s) (last_scheduled s).
Definition set_cur {D} (v : option nat) (s : pstate D) : pstate D :=
  mk_pstate (ps_k s) (procs s) (proczero s) (global_pid s) (lk_pid s) v (intena s) (last_scheduled s).
Definition set_intena {D} (v : Z) (s : pstate D) : pstate D :=
  mk_pstate (ps_k s) (procs s) (proczero s) (global_pid s) (lk_pid s) (cur s) v (last_scheduled s).
Definition set_last_scheduled {D} (v : Z) (s : pstate D) : pstate D :=
  mk_pstate (ps_k s) (procs s) (proczero s) (global_pid s) (lk_pid s) (cur s) (intena s) v.

(** Offsets in [trapframe_t]. *)
Definition TF_KERNEL_SATP : Z := 0.
Definition TF_KERNEL_SP : Z := 8.
Definition TF_KERNEL_TRAP : Z := 16.
Definition TF_EPC : Z := 24.
Definition TF_KERNEL_HARTID : Z := 32.
Definition TF_SP : Z := 48.
Definition TF_A0 : Z := 112.
Definition TF_A7 : Z := 168.
Definition TRAPFRAME_SIZE : Z := 288.

(** [context_t]: 14 words, of which [ra] and [sp] are the first two. *)
Definition new_ctx (ra sp : Z) : list Z := [ra; sp] ++ replicate 12 0.

Section Ops.
Context {D : Type} `{!DiskDriver D}.
(** Addresses of symbols: trampoline.S, [fork_return], [trap_user_return]; and of
    [procs\[i\].exit_state]. *)
Variables (trampoline fork_return trap_user_return : Z) (exit_addr : nat -> Z).
(** [swtch(old, new)] until it returns. *)
Variable swtch : M (pstate D) unit.

Definition on_k {A} (m : M (kstate D) A) : M (pstate D) A := fun s =>
  match m (ps_k s) with
  | Ret a k => Ret a (set_ps_k k s)
  | Panic msg k => Panic msg (set_ps_k k s)
  | Spin => Spin
  | Fault => Fault
  | NoFuel => NoFuel
  end.

(** An operation on this hart's [cpu_t] and a lock outside [kstate]. *)
Definition on_lock {A} (lk : pstate D -> option spinlock) (put : spinlock -> pstate D -> pstate D) (m : M (cpu * spinlock) A)
    : M (pstate D) A := fun s =>
  match lk s with
  | None => Fault
  | Some l =>
      match m (k_cpu (ps_k s), l) with
      | Ret a (c, l) => Ret a (put l (set_ps_k (set_k_cpu c (ps_k s)) s))
      | Panic msg (c, l) => Panic msg (put l (set_ps_k (set_k_cpu c (ps_k s)) s))
      | Spin => Spin
      | Fault => Fault
      | NoFuel => NoFuel
      end
  end.

Definition proc_of (s : pstate D) (i : nat) : option proc := procs s !! i.
Definition put_proc (i : nat) (p : proc) (s : pstate D) : pstate D := set_procs (<[i := p]> (procs s)) s.
Definition get_proc {A} (i : nat) (f : proc -> A) : M (pstate D) A :=
  p ← gets (fun s => proc_of s i) ≫= some_or_fault; mret (f p).
Definition upd_proc (i : nat) (f : proc -> proc) : M (pstate D) unit :=
  p ← gets (fun s => proc_of s i) ≫= some_or_fault; modify (put_proc i (f p)).

Definition put_plk (i : nat) (l : spinlock) (s : pstate D) : pstate D :=
  match proc_of s i with Some p => put_proc i (set_p_lk l p) s | None => s end.
Definition plock {A} (i : nat) (m : M (cpu * spinlock) A) : M (pstate D) A :=
  on_lock (fun s => p_lk <$> proc_of s i) (put_plk i) m.
Definition pidlock {A} (m : M (cpu * spinlock) A) : M (pstate D) A :=
  on_lock (fun s => Some (lk_pid s)) set_lk_pid m.

(** [myproc()], dereferenced. *)
Definition myproc : M (pstate D) nat := gets cur ≫= some_or_fault.

Definition pseq : list nat := seq 0 (Z.to_nat NPROC).
Definition fseq : list nat := seq 0 (Z.to_nat FILE_PER_PROC).

(** ** Creation and release *)

Definition alloc_pid : M (pstate D) Z :=
  pidlock spinlock_acquire;;
  g ← gets global_pid;
  when (negb (0 <=? g)) (panic "alloc_pid: overflow");;
  modify (set_global_pid (s32 (g + 1)));;
  pidlock spinlock_release;;
  mret g.

Definition proc_init : M (pstate D) unit :=
  pidlock (spinlock_init "pid");;
  for_each pseq (fun i =>
    plock i (spinlock_init "proc");;
    upd_proc i (set_p_state UNUSED);;
    upd_proc i (set_pid 0);;
    upd_proc i (set_parent None);;
    upd_proc i (set_exit_state 0);;
    upd_proc i (set_sleep_space ch_null);;
    upd_proc i (set_pgtbl 0);;
    upd_proc i (set_tf 0);;
    upd_proc i (set_kstack 0);;
    upd_proc i (set_heap_top 0);;
    upd_proc i (set_ustack_pages 0);;
    upd_proc i (set_mmap 0);;
    upd_proc i (set_time_slice TIME_SLICE);;
    upd_proc i (set_total_time 0)).

Definition proc_pgtbl_init (trapframe : Z) : M (kstate D) Z :=
  pgtbl ← pmem_alloc true;
  if pgtbl =? 0 then mret 0 else
  mem_set pgtbl 0 PGSIZE;;
  vm_mappages pgtbl TRAMPOLINE trampoline PGSIZE (Z.lor PTE_R PTE_X);;
  vm_mappages pgtbl TRAPFRAME trapframe PGSIZE (Z.lor PTE_R PTE_W);;
  mret pgtbl.

(** A user page table has three levels of tables; one more level of fuel. *)
Definition PGTBL_FUEL : nat := 4.

Definition proc_free (p : nat) : M (pstate D) unit :=
  t ← get_proc p tf;
  when (negb (t =? 0)) (on_k (pmem_free t true));;
  upd_proc p (set_tf 0);;
  g ← get_proc p pgtbl;
  when (negb (g =? 0)) (on_k (uvm_destroy_pgtbl PGTBL_FUEL g 3));;
  upd_proc p (set_pgtbl 0);;
  upd_proc p (set_heap_top 0);;
  upd_proc p (set_pid 0);;
  upd_proc p (set_parent None);;
  for_each fseq (fun i =>
    f ← get_proc p (fun q => filelist q !! i) ≫= some_or_fault;
    match f with
    | Some f =>
        on_k (file_close f);;
        upd_proc p (fun q => set_filelist (<[i := None]> (filelist q)) q)
    | None => mret tt
    end);;
  upd_proc p (set_sleep_space ch_null);;
  upd_proc p (set_exit_state 0);;
  upd_proc p (set_p_state UNUSED);;
  upd_proc p (set_time_slice TIME_SLICE);;
  upd_proc p (set_total_time 0).

Definition proc_alloc : M (pstate D) (option nat) :=
  r ← for_return pseq (fun p =>
    plock p spinlock_acquire;;
    st ← get_proc p p_state;
    if bool_decide (st = UNUSED) then mret (Some p)
    else plock p spinlock_release;; mret None);
  match r with
  | None => mret None
  | Some p =>
      n ← alloc_pid;
      upd_proc p (set_pid n);;
      upd_proc p (set_p_state RUNNABLE);;
      for_each fseq (fun i => upd_proc p (fun q => set_filelist (<[i := None]> (filelist q)) q));;
      upd_proc p (set_time_slice TIME_SLICE);;
      upd_proc p (set_total_time 0);;
      t ← on_k (pmem_alloc true);
      upd_proc p (set_tf t);;
      if t =? 0 then
        proc_free p;;
        plock p spinlock_release;;
        mret None
      else
      g ← on_k (proc_pgtbl_init t);
      upd_proc p (set_pgtbl g);;
      if g =? 0 then
        proc_free p;;
        plock p spinlock_release;;
        mret None
      else
      upd_proc p (set_kstack (KSTACK (Z.of_nat p)));;
      k ← get_proc p kstack;
      upd_proc p (set_ctx (new_ctx fork_return (u64 (k + PGSIZE))));;
      mret (Some p)
  end.

(** [satp] is the value of the CSR, [initcode] the program in initcode.h. *)
Definition proc_make_first (satp : Z) (initcode : list Z) : M (pstate D) unit :=
  let p := 0%nat in
  modify (set_proczero (Some p));;
  plock p spinlock_acquire;;
  upd_proc p (set_p_state RUNNABLE);;
  n ← alloc_pid;
  upd_proc p (set_pid n);;
  upd_proc p (set_time_slice TIME_SLICE);;
  upd_proc p (set_total_time 0);;
  trapframe_pa ← on_k (pmem_alloc true);
  if trapframe_pa =? 0 then panic "proc_make_first: failed to allocate trapframe" else
  upd_proc p (set_tf trapframe_pa);;
  g ← on_k (proc_pgtbl_init trapframe_pa);
  upd_proc p (set_pgtbl g);;
  if g =? 0 then panic "proc_make_first: failed to initialize page table" else
  ustack_pa1 ← on_k (pmem_alloc true);
  ustack_pa2 ← on_k (pmem_alloc true);
  if (ustack_pa1 =? 0) || (ustack_pa2 =? 0) then panic "proc_make_first: failed to allocate user stack" else
  let ustack_va := TRAPFRAME - 2 * PGSIZE in
  let uperm := Z.lor (Z.lor PTE_R PTE_W) PTE_U in
  on_k (vm_mappages g ustack_va ustack_pa1 PGSIZE uperm);;
  on_k (vm_mappages g (ustack_va + PGSIZE) ustack_pa2 PGSIZE uperm);;
  upd_proc p (set_ustack_pages 2);;
  when (negb (Z.of_nat (length initcode) <=? PGSIZE)) (panic "proc_make_first: initcode too big
");;
  code_pa ← on_k (pmem_alloc true);
  if code_pa =? 0 then panic "proc_make_first: failed to allocate code page" else
  let code_va := PGSIZE in
  on_k (vm_mappages g code_va code_pa PGSIZE (Z.lor (Z.lor (Z.lor PTE_R PTE_W) PTE_X) PTE_U));;
  on_k (mem_put code_pa initcode);;
  upd_proc p (set_heap_top (code_va + 2 * PGSIZE));;
  on_k (mem_set trapframe_pa 0 TRAPFRAME_SIZE);;
  on_k (put64 (trapframe_pa + TF_EPC) code_va);;
  on_k (put64 (trapframe_pa + TF_SP) (ustack_va + PGSIZE));;
  on_k (put64 (trapframe_pa + TF_KERNEL_SATP) satp);;
  h ← gets (fun s => hartid (k_cpu (ps_k s)));
  on_k (put64 (trapframe_pa + TF_KERNEL_HARTID) h);;
  upd_proc p (set_kstack (KSTACK h));;
  on_k (put64 (trapframe_pa + TF_KERNEL_SP) (KSTACK h + PGSIZE));;
  on_k (put64 (trapframe_pa + TF_KERNEL_TRAP) trap_user_return);;
  upd_proc p (set_ctx (new_ctx fork_return (u64 (KSTACK h + PGSIZE))));;
  modify (set_cur (Some p));;
  plock p spinlock_release.

Definition proc_fork : M (pstate D) Z :=
  curr ← myproc;
  child ← proc_alloc;
  match child with
  | None => mret (-1)
  | Some child =>
      cg ← get_proc curr pgtbl;
      g ← get_proc child pgtbl;
      h ← get_proc curr heap_top;
      u ← get_proc curr ustack_pages;
      on_k (uvm_copy_pgtbl cg g h (u32 u));;
      upd_proc child (set_heap_top h);;
      ct ← get_proc curr tf;
      t ← get_proc child tf;
      on_k (modify (fun k => set_k_mem (memcpy (k_mem k) t ct TRAPFRAME_SIZE) k));;
      on_k (put64 (t + TF_A0) 0);;
      for_each fseq (fun i =>
        f ← get_proc curr (fun q => filelist q !! i) ≫= some_or_fault;
        match f with
        | Some f =>
            d ← on_k (file_dup f);
            upd_proc child (fun q => set_filelist (<[i := Some d]> (filelist q)) q)
        | None => mret tt
        end);;
      n ← get_proc child pid;
      plock child spinlock_release;;
      upd_proc child (set_parent (Some curr));;
      plock child spinlock_acquire;;
      upd_proc child (set_p_state RUNNABLE);;
      plock child spinlock_release;;
      mret n
  end.

(** ** Scheduling *)

Definition proc_reset_time_slice (p : nat) : M (pstate D) unit := upd_proc p (set_time_slice TIME_SLICE).

Definition proc_sched : M (pstate D) unit :=
  p ← myproc;
  h ← plock p spinlock_holding;
  if negb h then panic "sched p->lock" else
  st ← get_proc p p_state;
  if bool_decide (st = RUNNING) then panic "sched RUNNING" else
  on ← gets (fun s => sie (k_cpu (ps_k s)));
  if (on : bool) then panic "sched interruptible" else
  i ← gets intena;
  swtch;;
  modify (set_intena i).

Definition proc_yield : M (pstate D) unit :=
  p ← myproc;
  plock p spinlock_acquire;;
  upd_proc p (set_p_state RUNNABLE);;
  proc_sched;;
  plock p spinlock_release.

(** [proc_sleep] after the condition lock was released. *)
Definition sleep_tail (channel : chan) : M (pstate D) unit :=
  p ← myproc;
  plock p spinlock_acquire;;
  upd_proc p (set_sleep_space channel);;
  upd_proc p (set_p_state SLEEPING);;
  proc_sched;;
  upd_proc p (set_sleep_space ch_null);;
  plock p spinlock_release.

Definition proc_sleep (channel : chan) (x : option (lockref D)) : M (pstate D) unit :=
  match x with Some x => on_k (release x) | None => mret tt end;;
  sleep_tail channel;;
  match x with Some x => on_k (acquire x) | None => mret tt end.

Definition proc_wakeup (channel : chan) : M (pstate D) unit :=
  for_each pseq (fun p =>
    c ← gets cur;
    when (negb (bool_decide (c = Some p))) (
      plock p spinlock_acquire;;
      q ← get_proc p id;
      when (bool_decide (p_state q = SLEEPING /\ sleep_space q = channel)) (upd_proc p (set_p_state RUNNABLE));;
      plock p spinlock_release)).

Definition proc_wakeup_one (p : nat) : M (pstate D) unit :=
  h ← plock p spinlock_holding;
  when (negb h) (panic "proc_wakeup_one: lock");;
  q ← get_proc p id;
  when (bool_decide (p_state q = SLEEPING /\ sleep_space q = ch_proc p)) (upd_proc p (set_p_state RUNNABLE)).

Definition chan_of (p : option nat) : chan := match p with Some i => ch_proc i | None => ch_null end.

Definition proc_reparent (par : nat) : M (pstate D) unit :=
  for_each pseq (fun pp =>
    q ← get_proc pp parent;
    when (bool_decide (q = Some par)) (
      z ← gets proczero;
      upd_proc pp (set_parent z);;
      z ← gets proczero;
      proc_wakeup (chan_of z))).

(** [proc_exit] before and after the parent was woken. *)
Definition exit_head (curr : nat) : M (pstate D) unit :=
  proc_reparent curr;;
  par ← get_proc curr parent;
  proc_wakeup (chan_of par).

Definition exit_tail (curr : nat) (st : Z) : M (pstate D) unit :=
  plock curr spinlock_acquire;;
  upd_proc curr (set_exit_state st);;
  upd_proc curr (set_p_state ZOMBIE);;
  proc_sched;;
  panic "zombie exit".

Definition proc_exit (st : Z) : M (pstate D) unit :=
  curr ← myproc;
  z ← gets proczero;
  if bool_decide (z = Some curr) then panic "init exiting" else
  exit_head curr;;
  exit_tail curr st.

(** One scan of [proc_wait]: whether there are children, and the pid of the one
    that was released. *)
Fixpoint wait_scan (l : list nat) (curr : nat) (addr : Z) (havekids : bool) : M (pstate D) (bool * option Z) :=
  match l with
  | [] => mret (havekids, None)
  | pp :: l' =>
      par ← get_proc pp parent;
      if bool_decide (par = Some curr) then
        plock pp spinlock_acquire;;
        q ← get_proc pp id;
        if bool_decide (p_state q = ZOMBIE) then
          when (negb (addr =? 0)) (
            g ← get_proc curr pgtbl;
            on_k (mem_put (exit_addr pp) (le_bytes 4 (u32 (exit_state q))));;
            on_k (uvm_copyout g addr (exit_addr pp) 4));;
          proc_free pp;;
          plock pp spinlock_release;;
          mret (true, Some (pid q))
        else
          plock pp spinlock_release;;
          wait_scan l' curr addr true
      else wait_scan l' curr addr havekids
  end.

(** [fuel] bounds the number of times the process is woken without finding a
    zombie child. *)
Fixpoint proc_wait (fuel : nat) (addr : Z) : M (pstate D) Z :=
  match fuel with
  | O => no_fuel
  | S fuel' =>
      curr ← myproc;
      '(havekids, r) ← wait_scan pseq curr addr false;
      match r with
      | Some n => mret n
      | None =>
          if negb havekids then mret (-1) else
          proc_sleep (ch_proc curr) None;;
          proc_wait fuel' addr
      end
  end.

(** One turn of [proc_scheduler]'s endless loop: the process that ran, or [None]
    when the hart waits for an interrupt. *)
Definition on_cpuf {A} (m : M cpu A) : M (pstate D) A := fun s =>
  match m (k_cpu (ps_k s)) with
  | Ret a c => Ret a (set_ps_k (set_k_cpu c (ps_k s)) s)
  | Panic msg c => Panic msg (set_ps_k (set_k_cpu c (ps_k s)) s)
  | Spin => Spin
  | Fault => Fault
  | NoFuel => NoFuel
  end.

Definition scheduler_turn : M (pstate D) (option nat) :=
  on_cpuf intr_on;;
  on_cpuf intr_off;;
  last ← gets last_scheduled;
  let start_idx := Z.rem (last + 1) NPROC in
  for_return (seqZ 0 NPROC) (fun i =>
    let idx := Z.rem (start_idx + i) NPROC in
    let p := Z.to_nat idx in
    plock p spinlock_acquire;;
    st ← get_proc p p_state;
    if bool_decide (st = RUNNABLE) then
      upd_proc p (set_p_state RUNNING);;
      modify (set_cur (Some p));;
      modify (set_last_scheduled idx);;
      proc_reset_time_slice p;;
      swtch;;
      modify (set_cur None);;
      plock p spinlock_release;;
      mret (Some p)
    else
      plock p spinlock_release;;
      mret None).

Fixpoint scheduler_turns (n : nat) : M (pstate D) unit :=
  match n with
  | O => mret tt
  | S n' => scheduler_turn;; scheduler_turns n'
  end.

Definition proc_scheduler (n : nat) : M (pstate D) unit :=
  modify (set_cur None);;
  scheduler_turns n.
End Ops.
