(* ===== verification/ProcSpec.v ===== *)
(** * ProcSpec: process locks, [proc_wakeup] and [proc_sleep] (kernel/proc/proc.c)

    The operations take and drop the lock of every process they look at, which
    leaves traces in the locks and in the interrupt state that nothing depends
    on: states are compared up to these traces. *)

From S2P Require Import Prelude Bytes Kstring Spinlock Kernel Disk Buf Bitmap Inode Dir Pmem Vmem Uvm File Proc.

(** ** States up to the traces of balanced critical sections *)

Definition bare (p : proc) : proc := set_p_lk zero_lock p.

Definition bare_cpu (c : cpu) : cpu := mk_cpu (hartid c) (sie c) (noff c) false.

Definition bare_state {D} (s : pstate D) : pstate D :=
  set_procs (bare <$> procs s) (set_ps_k (set_k_cpu (bare_cpu (k_cpu (ps_k s))) (ps_k s)) s).

#[export] Instance pstate_equiv {D} : Equiv (pstate D) := fun s s' => bare_state s = bare_state s'.
#[export] Instance pstate_equivalence {D} : Equivalence (≡@{pstate D}).
Proof. split; unfold equiv, pstate_equiv; repeat intro; congruence. Qed.

Lemma bare_bare p : bare (bare p) = bare p.
Proof. done. Qed.

Section Spec.
Context {D : Type} `{!DiskDriver D}.
Implicit Types (s : pstate D) (i j : nat) (p : proc).

Abbreviation pcpu s := (k_cpu (ps_k s)).

#[export] Instance procs_proper : Proper ((≡) ==> eq) (fun s : pstate D => bare <$> procs s).
Proof. intros s s' Hs. apply (f_equal procs) in Hs. exact Hs. Qed.
#[export] Instance cur_proper : Proper ((≡) ==> eq) (cur (D:=D)).
Proof. intros s s' Hs. by apply (f_equal cur) in Hs. Qed.
#[export] Instance last_proper : Proper ((≡) ==> eq) (last_scheduled (D:=D)).
Proof. intros s s' Hs. by apply (f_equal last_scheduled) in Hs. Qed.
#[export] Instance set_cur_proper c : Proper ((≡) ==> (≡)) (set_cur (D:=D) c).
Proof. intros s s' Hs. apply (f_equal (set_cur c)) in Hs. exact Hs. Qed.
#[export] Instance set_last_proper z : Proper ((≡) ==> (≡)) (set_last_scheduled (D:=D) z).
Proof. intros s s' Hs. apply (f_equal (set_last_scheduled z)) in Hs. exact Hs. Qed.

(** An update of the table that does not depend on the locks. *)
Class Bare (F : nat -> proc -> proc) : Prop := bare_upd i p : bare (F i p) = F i (bare p).

Definition upd_procs (F : nat -> proc -> proc) s : pstate D := set_procs (imap F (procs s)) s.

Lemma upd_procs_bare F s : Bare F -> bare_state (upd_procs F s) = upd_procs F (bare_state s).
Proof.
  intros HF. unfold bare_state, upd_procs. destruct s; unfold set_procs, set_ps_k; simpl. f_equal.
  apply list_eq. intros i. rewrite list_lookup_fmap, !list_lookup_imap, list_lookup_fmap.
  destruct (_ !! i); simpl; [by rewrite bare_upd | done].
Qed.

Lemma upd_procs_proper F s s' : Bare F -> s ≡ s' -> upd_procs F s ≡ upd_procs F s'.
Proof. intros HF Hs. unfold equiv, pstate_equiv in *. by rewrite !upd_procs_bare, Hs. Qed.

Lemma upd_procs_comp F G s : upd_procs F (upd_procs G s) = upd_procs (fun i p => F i (G i p)) s.
Proof.
  unfold upd_procs. destruct s; unfold set_procs; simpl. f_equal.
  apply list_eq. intros i. rewrite !list_lookup_imap. by destruct (_ !! i).
Qed.

Lemma upd_procs_ext F G s : (forall i p, procs s !! i = Some p -> F i p = G i p) -> upd_procs F s = upd_procs G s.
Proof. intros HFG. unfold upd_procs. f_equal. by apply imap_ext. Qed.

Lemma upd_procs_id s : upd_procs (fun _ p => p) s = s.
Proof.
  unfold upd_procs. destruct s as [k ps z g lk c ie ls]; simpl. unfold set_procs; simpl. f_equal.
  apply list_eq. intros i. rewrite list_lookup_imap. by destruct (ps !! i).
Qed.

(** ** The locks *)

Definition all_free s : Prop := forall i p, procs s !! i = Some p -> is_free (p_lk p).

(** No process lock is held. *)
Record quiet s : Prop := {
  q_len : length (procs s) = Z.to_nat NPROC;
  q_cpu : cpu_wf (pcpu s);
  q_free : all_free s
}.

Lemma quiet_lookup s i : quiet s -> (i < Z.to_nat NPROC)%nat -> exists p, proc_of s i = Some p /\ is_free (p_lk p).
Proof.
  intros Hq Hi. destruct (lookup_lt_is_Some_2 (procs s) i) as [p Hp]; [by rewrite (q_len s Hq)|].
  exists p. split; [done | by apply (q_free s Hq i)].
Qed.

Lemma get_proc_eq {A B} i (f : proc -> A) (k : A -> M (pstate D) B) s p : proc_of s i = Some p -> (get_proc i f ≫= k) s = k (f p) s.
Proof. intros Hp. unfold get_proc. mrun. by rewrite Hp. Qed.

Lemma upd_proc_eq {B} i (f : proc -> proc) (k : unit -> M (pstate D) B) s p : proc_of s i = Some p ->
  (upd_proc i f ≫= k) s = k tt (put_proc i (f p) s).
Proof. intros Hp. unfold upd_proc. mrun. by rewrite Hp. Qed.

Lemma on_k_ret {A B} (m : M (kstate D) A) (f : A -> M (pstate D) B) s (x : A) k : m (ps_k s) = Ret x k -> (on_k m ≫= f) s = f x (set_ps_k k s).
Proof. intros Hm. unfold mbind, M_bind, on_k. by rewrite Hm. Qed.

Lemma proc_of_put i p s : (i < length (procs s))%nat -> proc_of (put_proc i p s) i = Some p.
Proof. intros Hi. unfold proc_of, put_proc. destruct s; simpl in *. by rewrite list_lookup_insert_eq. Qed.

Lemma proc_of_put_ne i j p s : i <> j -> proc_of (put_proc i p s) j = proc_of s j.
Proof. intros Hi. unfold proc_of, put_proc. destruct s; simpl in *. by rewrite list_lookup_insert_ne. Qed.

Lemma put_put i p q s : put_proc i p (put_proc i q s) = put_proc i p s.
Proof. unfold put_proc. destruct s; simpl. by rewrite list_insert_insert_eq. Qed.

Lemma proc_of_lt s i p : proc_of s i = Some p -> (i < length (procs s))%nat.
Proof. apply lookup_lt_Some. Qed.

(** This hart has taken the lock of process [i]. *)
Definition locked_at i p s : pstate D :=
  put_proc i (set_p_lk (take_lock (hartid (pcpu s)) (p_lk p)) p) (set_ps_k (set_k_cpu (cpu_push (pcpu s)) (ps_k s)) s).

(** Process [i] is [q] after its critical section. *)
Definition section_post i p q s : pstate D :=
  put_proc i (set_p_lk (drop_lock (p_lk p)) q) (set_ps_k (set_k_cpu (cpu_touch (pcpu s)) (ps_k s)) s).

Lemma plock_acquire s i p : proc_of s i = Some p -> is_free (p_lk p) -> plock i spinlock_acquire s = Ret tt (locked_at i p s).
Proof.
  intros Hp Hf. unfold plock, on_lock. rewrite Hp. simpl. rewrite spinlock_acquire_free by done.
  unfold put_plk, locked_at. destruct s; simpl in *. unfold proc_of in *; simpl in *. by rewrite Hp.
Qed.

Lemma proc_of_locked s i p : proc_of s i = Some p -> proc_of (locked_at i p s) i = Some (set_p_lk (take_lock (hartid (pcpu s)) (p_lk p)) p).
Proof. intros Hp. apply proc_of_put. apply proc_of_lt in Hp. by destruct s. Qed.

Lemma plock_release s i p q : cpu_wf (pcpu s) -> proc_of s i = Some p -> p_lk q = take_lock (hartid (pcpu s)) (p_lk p) ->
  plock i spinlock_release (put_proc i q (locked_at i p s)) = Ret tt (section_post i p q s).
Proof.
  intros Hc Hp Hq. pose proof (proc_of_lt _ _ _ Hp) as Hi. unfold locked_at. rewrite put_put.
  unfold plock, on_lock. rewrite proc_of_put by (by destruct s). simpl.
  rewrite Hq, spinlock_release_held; simpl; [| auto with locks | destruct Hc; simpl; lia | done].
  rewrite cpu_pop_push by done. unfold put_plk, section_post. destruct s; simpl in *. unfold proc_of, put_proc; simpl in *.
  rewrite list_lookup_insert_eq by done. simpl. by rewrite list_insert_insert_eq.
Qed.

Lemma put_self i p s : proc_of s i = Some p -> put_proc i p s = s.
Proof. intros Hp. unfold put_proc. destruct s; unfold set_procs; simpl. f_equal. by apply list_insert_id. Qed.

Lemma section_equiv s i p q (F : nat -> proc -> proc) : proc_of s i = Some p -> bare q = bare (F i p) -> (forall j r, j <> i -> F j r = r) ->
  section_post i p q s ≡ upd_procs F s.
Proof.
  intros Hp Hq HF. pose proof (proc_of_lt _ _ _ Hp) as Hi. unfold equiv, pstate_equiv, bare_state, section_post, upd_procs, put_proc. destruct s as [k ps z g lk c ie ls]; simpl in *.
  unfold set_procs, set_ps_k; simpl. f_equal.
  apply list_eq. intros j. rewrite !list_lookup_fmap, list_lookup_imap. unfold proc_of in Hp; simpl in Hp.
  destruct (decide (j = i)) as [->|Hne].
  - rewrite list_lookup_insert_eq, Hp by done. simpl. f_equal. exact Hq.
  - rewrite list_lookup_insert_ne by done. destruct (ps !! j); simpl; [by rewrite HF | done].
Qed.

Lemma section_quiet s i p q : quiet s -> proc_of s i = Some p -> quiet (section_post i p q s).
Proof.
  intros [Hl Hc Hf] Hp. pose proof (proc_of_lt _ _ _ Hp) as Hi. unfold section_post. destruct s; simpl in *. split; simpl.
  - by rewrite length_insert.
  - auto with locks.
  - intros j r. simpl. destruct (decide (j = i)) as [->|Hne].
    + rewrite list_lookup_insert_eq by done. intros [= <-]. done.
    + rewrite list_lookup_insert_ne by done. apply Hf.
Qed.

Lemma section_cpu s i p q : pcpu (section_post i p q s) = cpu_touch (pcpu s).
Proof. by destruct s as [[] ? ? ? ? ? ? ?]. Qed.

Lemma release_same s i p : quiet s -> proc_of s i = Some p -> plock i spinlock_release (locked_at i p s) = Ret tt (section_post i p p s).
Proof.
  intros Hq Hp. pose proof (plock_release s i p (set_p_lk (take_lock (hartid (pcpu s)) (p_lk p)) p) (q_cpu s Hq) Hp eq_refl) as Hr.
  by rewrite put_self in Hr by (by apply proc_of_locked).
Qed.

Lemma update_release s i p (f : proc -> proc) : quiet s -> proc_of s i = Some p -> (forall q, p_lk (f q) = p_lk q) ->
  (upd_proc i f;; plock i spinlock_release) (locked_at i p s) =
  Ret tt (section_post i p (f (set_p_lk (take_lock (hartid (pcpu s)) (p_lk p)) p)) s).
Proof.
  intros Hq Hp Hf. rewrite (upd_proc_eq _ _ _ _ _ (proc_of_locked _ _ _ Hp)).
  apply (plock_release s i p); [apply Hq | done | by rewrite Hf].
Qed.

Lemma equiv_lookup s s' i p : s ≡ s' -> proc_of s i = Some p -> exists p', proc_of s' i = Some p' /\ bare p' = bare p.
Proof.
  intros Hs Hp. apply procs_proper, (f_equal (fun l => l !! i)) in Hs. rewrite !list_lookup_fmap in Hs.
  unfold proc_of in Hp. rewrite Hp in Hs. unfold proc_of. simpl in Hs. destruct (procs s' !! i) as [q|]; [|done].
  exists q. split; [done|]. by apply (inj Some) in Hs.
Qed.

(** No process [i], or one in another state than [st]. *)
Definition not_in (st : proc_state) s i : Prop := forall p, proc_of s i = Some p -> p_state p <> st.

Lemma not_in_equiv st s s' i : s ≡ s' -> not_in st s i -> not_in st s' i.
Proof.
  intros Hs Hn p Hp. symmetry in Hs. destruct (equiv_lookup s' s i p Hs Hp) as (q & Hq & Hb).
  apply (f_equal p_state) in Hb. simpl in Hb. rewrite <- Hb. by apply Hn.
Qed.

(** A scan of the table skips the processes that are not in the state looked for. *)
Lemma scan_skip {I R} (body : I -> M (pstate D) (option R)) (at_ : I -> nat) st (rest l : list I) : forall s,
  (forall s (i : I) p, i ∈ l -> quiet s -> proc_of s (at_ i) = Some p -> p_state p <> st -> exists s', body i s = Ret None s' /\ quiet s' /\ s' ≡ s) ->
  quiet s -> (forall i : I, i ∈ l -> (at_ i < Z.to_nat NPROC)%nat /\ not_in st s (at_ i)) ->
  exists s', for_return (l ++ rest) body s = for_return rest body s' /\ quiet s' /\ s' ≡ s.
Proof.
  induction l as [|i l IH]; intros s Hb Hq Hl; [by exists s|]. cbn [app for_return].
  destruct (Hl i) as [Hi Hn]; [apply elem_of_cons; by left|]. destruct (quiet_lookup s _ Hq Hi) as (p & Hp & _).
  destruct (Hb s i p) as (s1 & H1 & Hq1 & He1); [apply elem_of_cons; by left | done | done | by apply Hn |].
  destruct (IH s1) as (s2 & H2 & Hq2 & He2).
  - intros s0 j q Hj. apply Hb. apply elem_of_cons. by right.
  - done.
  - intros j Hj. destruct (Hl j) as [? Hnj]; [apply elem_of_cons; by right|]. split; [done|]. apply (not_in_equiv st s); [by symmetry | done].
  - exists s2. split_and!; [| done | by rewrite He2, He1]. by rewrite (bind_ret_eq _ _ _ _ _ H1).
Qed.

(** ** [proc_wakeup] *)

(** The process [i] is woken by [proc_wakeup ch] on a hart that runs [c]. *)
Definition sleeps_on (ch : chan) (c : option nat) i p : Prop := c <> Some i /\ p_state p = SLEEPING /\ sleep_space p = ch.

#[export] Instance sleeps_on_dec ch c i p : Decision (sleeps_on ch c i p).
Proof. unfold sleeps_on. apply _. Defined.

Definition woken (ch : chan) (c : option nat) (l : list nat) i p : proc :=
  if decide (i ∈ l /\ sleeps_on ch c i p) then set_p_state RUNNABLE p else p.

#[export] Instance woken_bare ch c l : Bare (woken ch c l).
Proof. intros i p. unfold woken, sleeps_on. simpl. by repeat case_decide. Qed.

Definition wakeup_body (ch : chan) (p : nat) : M (pstate D) unit :=
  c ← gets cur;
  when (negb (bool_decide (c = Some p))) (
    plock p spinlock_acquire;;
    q ← get_proc p id;
    when (bool_decide (p_state q = SLEEPING /\ sleep_space q = ch)) (upd_proc p (set_p_state RUNNABLE));;
    plock p spinlock_release).

Lemma wakeup_one s ch i : quiet s -> (i < Z.to_nat NPROC)%nat ->
  exists s', wakeup_body ch i s = Ret tt s' /\ quiet s' /\ s' ≡ upd_procs (woken ch (cur s) [i]) s.
Proof.
  intros Hq Hi. destruct (quiet_lookup s i Hq Hi) as (p & Hp & Hf). unfold wakeup_body. mrun. case_bool_decide as Hc.
  - exists s. split_and!; [done..|]. rewrite (upd_procs_ext _ (fun _ q => q)); [by rewrite upd_procs_id|].
    intros j q _. unfold woken. case_decide as Hw; [|done]. destruct Hw as [->%list_elem_of_singleton [Hw _]]. by rewrite Hc in Hw.
  - cbn [negb]. unfold when at 1. mstep ltac:(by apply plock_acquire).
    rewrite (get_proc_eq _ _ _ _ _ (proc_of_locked _ _ _ Hp)). simpl p_state. simpl sleep_space. case_bool_decide as Hw.
    + unfold when. eexists. split_and!; [by apply update_release | by apply section_quiet |].
      apply section_equiv; [done | | intros j r Hj; unfold woken; case_decide as Hd; [by destruct Hd as [->%list_elem_of_singleton _] | done]].
      unfold woken. rewrite decide_True; [done|]. split; [by apply list_elem_of_singleton | done].
    + unfold when. mrun. eexists. split_and!; [by apply release_same | by apply section_quiet |].
      apply section_equiv; [done | | intros j r Hj; unfold woken; case_decide as Hd; [by destruct Hd as [->%list_elem_of_singleton _] | done]].
      unfold woken. rewrite decide_False; [done|]. intros [_ [_ ?]]. tauto.
Qed.

Lemma woken_compose ch c i l j p : woken ch c l j (woken ch c [i] j p) = woken ch c (i :: l) j p.
Proof.
  assert (sleeps_on ch c j p -> ~ sleeps_on ch c j (set_p_state RUNNABLE p)) as Hw by (intros _ (_ & [=] & _)).
  unfold woken. destruct (decide (j ∈ [i] /\ _)) as [[->%list_elem_of_singleton Hs]|Hn].
  - rewrite decide_False by naive_solver. rewrite decide_True; [done|]. split; [apply elem_of_cons; by left | done].
  - apply decide_ext. rewrite elem_of_cons. rewrite list_elem_of_singleton in Hn. tauto.
Qed.

Lemma wakeup_loop ch l : forall s, quiet s -> (forall i, i ∈ l -> (i < Z.to_nat NPROC)%nat) ->
  exists s', for_each l (wakeup_body ch) s = Ret tt s' /\ quiet s' /\ s' ≡ upd_procs (woken ch (cur s) l) s.
Proof.
  induction l as [|i l IH]; intros s Hq Hl; cbn [for_each].
  - exists s. split_and!; [done..|]. rewrite (upd_procs_ext _ (fun _ q => q)); [by rewrite upd_procs_id|].
    intros j q _. unfold woken. rewrite decide_False; [done | intros [Hin _]; by apply elem_of_nil in Hin].
  - destruct (wakeup_one s ch i Hq) as (s1 & H1 & Hq1 & He1); [apply Hl, elem_of_cons; by left|].
    destruct (IH s1 Hq1) as (s2 & H2 & Hq2 & He2); [intros j Hj; apply Hl, elem_of_cons; by right|].
    exists s2. split_and!; [mstep ltac:(exact H1); exact H2 | done |]. 
    assert (cur s1 = cur s) as Hc by (by rewrite He1). rewrite He2, Hc, (upd_procs_proper _ _ _ _ He1), upd_procs_comp. apply reflexive_eq, upd_procs_ext. intros j q _. apply woken_compose.
Qed.

Lemma wakeup_run s ch : quiet s -> exists s', proc_wakeup ch s = Ret tt s' /\ quiet s' /\
  s' ≡ upd_procs (fun i p => if decide (sleeps_on ch (cur s) i p) then set_p_state RUNNABLE p else p) s.
Proof.
  intros Hq. destruct (wakeup_loop ch pseq s Hq) as (s' & Hs' & Hq' & He').
  { intros i Hi%elem_of_seq. lia. }
  exists s'. split_and!; [exact Hs' | done |]. rewrite He'. apply reflexive_eq, upd_procs_ext. intros i p Hp.
  unfold woken. apply lookup_lt_Some in Hp. rewrite (q_len s Hq) in Hp.
  repeat case_decide; try done; [tauto | destruct H; split; [apply elem_of_seq; lia | done]].
Qed.

(** [proc_wakeup] makes exactly the processes runnable that sleep on the channel
    and are not the one that calls it; every other field of every process stays
    as it is, no lock is left held and the interrupt state is restored. *)
Theorem proc_wakeup_wakes s ch : quiet s -> exists s', proc_wakeup ch s = Ret tt s' /\ quiet s' /\
  s' ≡ upd_procs (fun i p => if decide (sleeps_on ch (cur s) i p) then set_p_state RUNNABLE p else p) s.
Proof. apply wakeup_run. Qed.

(** ** [proc_sleep] *)

(** The operation run by another hart, with its own [cpu_t]. *)
Definition on_hart {A} (c : cpu) (cu : option nat) (m : M (pstate D) A) : M (pstate D) A := fun s =>
  let back s' := set_cur (cur s) (set_ps_k (set_k_cpu (pcpu s) (ps_k s')) s') in
  match m (set_cur cu (set_ps_k (set_k_cpu c (ps_k s)) s)) with
  | Ret a s' => Ret a (back s')
  | Panic msg s' => Panic msg (back s')
  | Spin => Spin
  | Fault => Fault
  | NoFuel => NoFuel
  end.

(** The checks of [proc_sched] pass: the process switches away. *)
Lemma sched_switches (sw : M (pstate D) unit) s i p : cur s = Some i -> proc_of s i = Some p -> held_by (hartid (pcpu s)) (p_lk p) ->
  p_state p <> RUNNING -> sie (pcpu s) = false -> proc_sched sw s = (sw;; modify (set_intena (intena s))) s.
Proof.
  intros Hc Hp [Hl Hh] Hs Hi. unfold proc_sched, myproc. mrun. rewrite Hc. mrun.
  rewrite (bind_ret_eq _ _ _ true s).
  - cbn [negb]. rewrite (get_proc_eq _ _ _ _ _ Hp), bool_decide_false by done. mrun. by rewrite Hi.
  - unfold plock, on_lock. rewrite Hp. simpl. rewrite (proj2 (Z.eqb_neq _ _) Hl), Hh, Z.eqb_refl. simpl.
    f_equal. unfold put_plk. destruct s as [[] ? ? ? ? ? ? ?]; simpl in *. unfold proc_of, put_proc, set_ps_k, set_k_cpu in *; simpl in *. rewrite Hp.
    unfold set_procs; simpl. f_equal. apply list_insert_id. by destruct p.
Qed.

(** Process [i] is asleep on [ch] and holds its lock. *)
Definition asleep_at i p ch s : pstate D :=
  put_proc i (set_p_state SLEEPING (set_sleep_space ch (set_p_lk (take_lock (hartid (pcpu s)) (p_lk p)) p))) (locked_at i p s).

Lemma asleep_self i p ch s : proc_of s i = Some p -> proc_of (asleep_at i p ch s) i =
  Some (set_p_state SLEEPING (set_sleep_space ch (set_p_lk (take_lock (hartid (pcpu s)) (p_lk p)) p))).
Proof. intros Hp%proc_of_lt. apply proc_of_put. unfold locked_at, put_proc; simpl. by rewrite length_insert. Qed.

Lemma asleep_other i p ch s j : j <> i -> proc_of (asleep_at i p ch s) j = proc_of s j.
Proof. intros Hj. unfold asleep_at, locked_at. by rewrite !proc_of_put_ne by done. Qed.

(** The process is asleep when [sleep_tail] switches away. *)
Lemma sleep_tail_eq s i p ch : cur s = Some i -> proc_of s i = Some p -> is_free (p_lk p) ->
  sleep_tail (panic "swtch") ch s = Panic "swtch" (asleep_at i p ch s).
Proof.
  intros Hc Hp Hf. pose proof (proc_of_lt _ _ _ Hp) as Hlt.
  unfold sleep_tail, myproc. mrun. rewrite Hc. mrun. mstep ltac:(by apply plock_acquire).
  rewrite (upd_proc_eq _ _ _ _ _ (proc_of_locked _ _ _ Hp)). erewrite upd_proc_eq; [|apply proc_of_put; unfold locked_at, put_proc; simpl; by rewrite length_insert].
  rewrite put_put. fold (asleep_at i p ch s). apply bind_panic_eq.
  by erewrite sched_switches; [| exact Hc | by apply asleep_self | by split | |].
Qed.

Lemma sleep_tail_stops s i p ch : quiet s -> cur s = Some i -> proc_of s i = Some p ->
  panics (sleep_tail (panic "swtch") ch) s "swtch" (fun s' =>
    exists p', proc_of s' i = Some p' /\ p_state p' = SLEEPING /\ sleep_space p' = ch).
Proof.
  intros Hq Hc Hp. unfold panics. rewrite (sleep_tail_eq s i p ch Hc Hp) by (by apply (q_free s Hq i)).
  split; [done|]. eexists. split; [by apply asleep_self | done].
Qed.

Lemma quiet_set_k s k : quiet s -> cpu_wf (k_cpu k) -> quiet (set_ps_k k s).
Proof. intros [Hl Hc Hf] Hk. destruct s; split; done. Qed.

Lemma quiet_set_cur s c : quiet s -> quiet (set_cur c s).
Proof. intros [Hl Hc Hf]. destruct s; split; done. Qed.

Lemma wakeup_elsewhere s ch c cu i p : quiet s -> cpu_wf c -> proc_of s i = Some p -> p_state p <> SLEEPING ->
  exists s' p', on_hart c cu (proc_wakeup ch) s = Ret tt s' /\ quiet s' /\ cur s' = cur s /\ proc_of s' i = Some p' /\ bare p' = bare p.
Proof.
  intros Hq Hc Hp Hs. unfold on_hart. set (s0 := set_cur cu _).
  destruct (wakeup_run s0 ch) as (s1 & H1 & Hq1 & He1); [by apply quiet_set_cur, quiet_set_k|]. symmetry in He1.
  destruct (equiv_lookup _ _ i p He1) as (p1 & Hp1 & Hb).
  { unfold proc_of, upd_procs. simpl. rewrite list_lookup_imap. unfold proc_of in Hp. rewrite Hp. simpl.
    rewrite decide_False; [done|]. by intros (_ & ? & _). }
  rewrite H1. eexists _, p1. split_and!; [done | | done | by destruct s1 | done].
  apply quiet_set_cur, quiet_set_k; [done | apply Hq].
Qed.

(** C19: [proc_sleep] can miss the wakeup it waits for.  It releases the lock [x] that
    protects the condition before it takes the process's own lock: when another hart
    calls [proc_wakeup] in between, as [virtio_disk_intr] does, it finds the process
    awake, and the process falls asleep afterwards. *)
Theorem sleep_lost_wakeup s (x : lockref D) ch c cu i p : quiet s -> cur s = Some i -> proc_of s i = Some p -> p_state p <> SLEEPING ->
  0 < noff (pcpu s) -> held_by (hartid (pcpu s)) (lk_get x (ps_k s)) -> cpu_wf c ->
  (forall sw, proc_sleep sw ch (Some x) = (on_k (release x);; sleep_tail sw ch;; on_k (acquire x))) /\
  exists s1 s2, on_k (release x) s = Ret tt s1 /\ on_hart c cu (proc_wakeup ch) s1 = Ret tt s2 /\
    (exists p2, proc_of s2 i = Some p2 /\ bare p2 = bare p) /\
    panics (sleep_tail (panic "swtch") ch) s2 "swtch" (fun s3 =>
      exists p', proc_of s3 i = Some p' /\ p_state p' = SLEEPING /\ sleep_space p' = ch).
Proof.
  intros Hq Hc Hp Hs Hn Hx Hcw. split; [done|].
  set (k1 := set_k_cpu (cpu_pop (pcpu s)) (lk_set x (drop_lock (lk_get x (ps_k s))) (ps_k s))).
  assert (quiet (set_ps_k k1 s)) as Hq1 by (apply quiet_set_k; [done | apply cpu_pop_wf; [apply Hq | done]]).
  destruct (wakeup_elsewhere (set_ps_k k1 s) ch c cu i p Hq1 Hcw Hp Hs) as (s2 & p2 & H2 & Hq2 & Hc2 & Hp2 & Hb2).
  exists (set_ps_k k1 s), s2. split_and!; [| exact H2 | by exists p2 | by apply (sleep_tail_stops s2 i p2); [| by rewrite Hc2 |]].
  unfold on_k. rewrite release_eq; [done | apply Hq | done | done].
Qed.
End Spec.

(** ** A concrete table *)

(** The table's demonstrations use no disk. *)
#[export] Instance no_disk : DiskDriver unit := fun _ _ => mret tt.

Definition demo_proc (st : proc_state) : proc :=
  mk_proc zero_lock 0 st None 0 ch_null (replicate 16 None) TIME_SLICE 0 0 0 0 0 0 0 [].

(** Process 0 runs next to three runnable processes and one that sleeps. *)
Definition demo_table : list proc :=
  [demo_proc RUNNABLE; demo_proc RUNNABLE; set_sleep_space (ch_addr 7) (demo_proc SLEEPING); demo_proc RUNNABLE] ++ replicate 60 (demo_proc UNUSED).

Definition demo_ps (cu : option nat) : pstate unit := mk_pstate (bss tt 0) demo_table (Some 0%nat) 5 zero_lock cu 0 1.

Lemma demo_quiet cu : quiet (demo_ps cu).
Proof.
  split; [done | split; simpl; lia |]. intros i p Hp. apply (Forall_lookup_1 (fun q => is_free (p_lk q)) demo_table i p); [|exact Hp].
  apply (bool_decide_unpack _). by vm_compute.
Qed.

Lemma proc_wakeup_wakes_witness : exists s', proc_wakeup (ch_addr 7) (demo_ps (Some 0%nat)) = Ret tt s' /\
  exists p, proc_of s' 2 = Some p /\ p_state p = RUNNABLE.
Proof.
  destruct (proc_wakeup_wakes (demo_ps (Some 0%nat)) (ch_addr 7) (demo_quiet _)) as (s' & H & _ & He).
  exists s'. split; [exact H|]. symmetry in He. destruct (equiv_lookup _ _ 2 (set_p_state RUNNABLE (set_sleep_space (ch_addr 7) (demo_proc SLEEPING))) He) as (p & Hp & Hb).
  - reflexivity.
  - exists p. split; [exact Hp|]. apply (f_equal p_state) in Hb. exact Hb.
Defined.

(** Process 0 runs and holds the lock of the file table. *)
Definition demo_holds : pstate unit :=
  set_ps_k (set_k_cpu (mk_cpu 0 false 1 false) (lk_set ft_lk (mk_spinlock 1 "ftable" 0) (bss tt 0))) (demo_ps (Some 0%nat)).

Lemma sleep_lost_wakeup_witness : exists s1 s2, on_k (release ft_lk) demo_holds = Ret tt s1 /\
  on_hart (mk_cpu 1 false 0 false) None (proc_wakeup (ch_addr 7)) s1 = Ret tt s2 /\
  panics (sleep_tail (panic "swtch") (ch_addr 7)) s2 "swtch" (fun s3 => exists p', proc_of s3 0 = Some p' /\ p_state p' = SLEEPING /\ sleep_space p' = ch_addr 7).
Proof.
  destruct (sleep_lost_wakeup demo_holds ft_lk (ch_addr 7) (mk_cpu 1 false 0 false) None 0 (demo_proc RUNNABLE)) as (_ & s1 & s2 & H1 & H2 & _ & H3).
  - apply quiet_set_k; [apply demo_quiet | split; simpl; (lia || done)].
  - reflexivity.
  - reflexivity.
  - done.
  - reflexivity.
  - split; [discriminate | reflexivity].
  - split; simpl; lia.
  - exists s1, s2. split; [exact H1 | split; [exact H2 | exact H3]].
Defined.
