(* ===== verification/SchedSpec.v ===== *)
(** * SchedSpec: the round-robin scheduler (kernel/proc/proc.c, proc_scheduler)

    One hart runs the scheduler, as in kernel/boot/main.c. *)

From S2P Require Import Prelude Bytes Kstring Spinlock Kernel Disk Buf Bitmap Inode Dir Pmem Vmem Uvm File Proc ProcSpec.

(** The [e]-th process that is looked at after [last], and the reverse. *)
Definition slot (last e : Z) : nat := Z.to_nat ((last + 1 + e) mod NPROC).
Definition dist (last : Z) (k : nat) : Z := (Z.of_nat k - last - 1) mod NPROC.

Lemma slot_lt last e : (slot last e < Z.to_nat NPROC)%nat.
Proof. unfold slot. pose proof (Z.mod_pos_bound (last + 1 + e) NPROC ltac:(done)). lia. Qed.

Lemma dist_range last k : 0 <= dist last k < NPROC.
Proof. by apply Z.mod_pos_bound. Qed.

Lemma slot_dist last k : (k < Z.to_nat NPROC)%nat -> slot last (dist last k) = k.
Proof.
  intros Hk. unfold slot, dist. rewrite Zplus_mod_idemp_r. replace (last + 1 + (Z.of_nat k - last - 1)) with (Z.of_nat k) by lia.
  rewrite Z.mod_small by (unfold NPROC in *; lia). lia.
Qed.

Lemma slot_idx last e : -1 <= last < NPROC -> 0 <= e ->
  Z.rem (Z.rem (last + 1) NPROC + e) NPROC = Z.of_nat (slot last e).
Proof.
  intros Hl He. unfold slot. rewrite Z2Nat.id by (by apply Z.mod_pos_bound).
  rewrite (Z.rem_mod_nonneg (last + 1)) by (unfold NPROC; lia).
  pose proof (Z.mod_pos_bound (last + 1) NPROC ltac:(done)). rewrite Z.rem_mod_nonneg by (unfold NPROC in *; lia).
  by rewrite Zplus_mod_idemp_l.
Qed.

(** A turn that stops before [k] brings [k] closer. *)
Lemma dist_step last e k : 0 <= e < dist last k -> dist (Z.of_nat (slot last e)) k = dist last k - e - 1.
Proof.
  intros He. pose proof (dist_range last k) as Hd. unfold slot. rewrite Z2Nat.id by (by apply Z.mod_pos_bound).
  unfold dist in *. set (d := (Z.of_nat k - last - 1) mod NPROC) in *.
  rewrite <- (Z.mod_small (d - e - 1) NPROC) by lia. subst d.
  rewrite (Z.mod_eq (last + 1 + e)), (Z.mod_eq (Z.of_nat k - last - 1)) by done.
  set (a := (last + 1 + e) / NPROC). set (b := (Z.of_nat k - last - 1) / NPROC).
  replace (Z.of_nat k - (last + 1 + e - NPROC * a) - 1) with (Z.of_nat k - last - 1 - NPROC * b - e - 1 + (a + b) * NPROC) by lia.
  by rewrite Z.mod_add.
Qed.

Section Sched.
Context {D : Type} `{!DiskDriver D}.
Variable swtch : M (pstate D) unit.
Implicit Types (s : pstate D) (i j k : nat) (p : proc).

Abbreviation pcpu s := (k_cpu (ps_k s)).

(** The process [i] holds its lock, nothing else is held. *)
Record held_only i s : Prop := {
  h_len : length (procs s) = Z.to_nat NPROC;
  h_cpu : cpu_wf (pcpu s);
  h_noff : noff (pcpu s) = 1;
  h_lock : exists p, proc_of s i = Some p /\ held_by (hartid (pcpu s)) (p_lk p);
  h_free : forall j p, j <> i -> proc_of s j = Some p -> is_free (p_lk p)
}.

Definition run_proc i j p : proc := if decide (j = i) then set_time_slice TIME_SLICE (set_p_state RUNNING p) else p.

#[export] Instance run_proc_bare i : Bare (run_proc i).
Proof. intros j p. unfold run_proc. by case_decide. Qed.

(** What the scheduler does before it switches to [i]. *)
Definition dispatch i s : pstate D :=
  set_last_scheduled (Z.of_nat i) (set_cur (Some i) (upd_procs (run_proc i) (set_ps_k (set_k_cpu (cpu_push (pcpu s)) (ps_k s)) s))).

Definition after_switch i : M (pstate D) (option nat) :=
  swtch;; modify (set_cur None);; plock i spinlock_release;; mret (Some i).

Definition sched_body (last e : Z) : M (pstate D) (option nat) :=
  let idx := Z.rem (last + e) NPROC in
  let p := Z.to_nat idx in
  plock p spinlock_acquire;;
  st ← get_proc p p_state;
  if bool_decide (st = RUNNABLE) then
    upd_proc p (set_p_state RUNNING);;
    modify (set_cur (Some p));;
    modify (set_last_scheduled idx);;
    proc_reset_time_slice p;;
    swtch;;
    modify (set_cur None);;
    plock p spinlock_release;;
    mret (Some p)
  else
    plock p spinlock_release;;
    mret None.

Lemma body_idle s last e p : quiet s -> -1 <= last < NPROC -> 0 <= e -> proc_of s (slot last e) = Some p -> p_state p <> RUNNABLE ->
  exists s', sched_body (Z.rem (last + 1) NPROC) e s = Ret None s' /\ quiet s' /\ s' ≡ s.
Proof.
  intros Hq Hl He Hp Hs. unfold sched_body. rewrite slot_idx, Nat2Z.id by done. cbv zeta.
  mstep ltac:(apply plock_acquire; [exact Hp | by apply (q_free s Hq (slot last e))]).
  rewrite (get_proc_eq _ _ _ _ _ (proc_of_locked _ _ _ Hp)), bool_decide_false by done. mstep ltac:(by apply release_same).
  eexists. split_and!; [done | by apply section_quiet |].
  etransitivity; [apply (section_equiv _ _ _ _ (fun _ q => q)); done | by rewrite upd_procs_id].
Qed.

Lemma scan_idle last es rest s : quiet s -> -1 <= last < NPROC -> (forall e, e ∈ es -> 0 <= e /\ not_in RUNNABLE s (slot last e)) ->
  exists s', for_return (es ++ rest) (sched_body (Z.rem (last + 1) NPROC)) s = for_return rest (sched_body (Z.rem (last + 1) NPROC)) s' /\
    quiet s' /\ s' ≡ s.
Proof.
  intros Hq Hl Hes. apply (scan_skip _ (slot last) RUNNABLE); [| done | intros e He; split; [apply slot_lt | by apply Hes]].
  intros s0 e p He Hq0 Hp Hs. apply (body_idle s0 last e p); try done. by apply Hes.
Qed.

Lemma body_runs s last e p : quiet s -> noff (pcpu s) = 0 -> -1 <= last < NPROC -> 0 <= e -> proc_of s (slot last e) = Some p -> p_state p = RUNNABLE ->
  exists s', sched_body (Z.rem (last + 1) NPROC) e s = after_switch (slot last e) s' /\
    held_only (slot last e) s' /\ s' ≡ dispatch (slot last e) s.
Proof.
  intros Hq Hn Hl He Hp Hs. unfold sched_body. rewrite slot_idx, Nat2Z.id by done. cbv zeta.
  set (i := slot last e) in *. pose proof (proc_of_lt _ _ _ Hp) as Hlt.
  rewrite (bind_ret_eq _ _ _ _ _ (plock_acquire s i p Hp (q_free s Hq i p Hp))).
  rewrite (get_proc_eq _ _ _ _ _ (proc_of_locked _ _ _ Hp)), bool_decide_true by done.
  rewrite (upd_proc_eq _ _ _ _ _ (proc_of_locked _ _ _ Hp)). unfold locked_at. rewrite put_put, !bind_modify.
  set (q := set_p_state RUNNING _). unfold proc_reset_time_slice.
  erewrite (upd_proc_eq i _ _ _ q) by (unfold proc_of, put_proc; destruct s; simpl in *; by rewrite list_lookup_insert_eq).
  eexists. split; [reflexivity|]. destruct s as [k ps z g lk c ie ls]. unfold dispatch, upd_procs, put_proc, proc_of in *; simpl in *. split.
  - split; simpl; unfold proc_of; simpl.
    + rewrite !length_insert. exact (q_len _ Hq).
    + apply cpu_push_wf, Hq.
    + lia.
    + eexists. rewrite list_lookup_insert_eq by (by rewrite length_insert). split; [done|]. by split.
    + intros j r Hj. rewrite !list_lookup_insert_ne by done. apply (q_free _ Hq j).
  - unfold equiv, pstate_equiv, bare_state. simpl. unfold set_procs, set_ps_k; simpl. f_equal.
    rewrite list_insert_insert_eq. apply list_eq. intros j. rewrite !list_lookup_fmap, list_lookup_imap. destruct (decide (j = i)) as [->|Hne].
    + rewrite list_lookup_insert_eq, Hp by done. simpl. unfold run_proc. by rewrite decide_True.
    + rewrite list_lookup_insert_ne by done. destruct (ps !! j); simpl; [|done]. unfold run_proc. by rewrite decide_False.
Qed.

(** The scheduler's state at the start of the scan. *)
Definition off s : pstate D := set_ps_k (set_k_cpu (mk_cpu (hartid (pcpu s)) false (noff (pcpu s)) (origin (pcpu s))) (ps_k s)) s.

Lemma turn_scan s : scheduler_turn swtch s = for_return (seqZ 0 NPROC) (sched_body (Z.rem (last_scheduled s + 1) NPROC)) (off s).
Proof. by destruct s as [[[] ? ? ? ? ? ? ? ? ? ?] ? ? ? ? ? ? ?]. Qed.

Lemma quiet_off s : quiet s -> quiet (off s).
Proof. intros [Hl Hc Hf]. destruct s as [[[] ? ? ? ? ? ? ? ? ? ?] ? ? ? ? ? ? ?]; unfold off; simpl in *. split; simpl; [done | split; [apply Hc | done] | done]. Qed.

Lemma proc_of_off s i : proc_of (off s) i = proc_of s i.
Proof. by destruct s. Qed.

Lemma dispatch_proper i s s' : s ≡ s' -> dispatch i s ≡ dispatch i s'.
Proof.
  intros Hs. unfold dispatch. apply set_last_proper, set_cur_proper, upd_procs_proper; [apply _|].
  apply (f_equal (fun x => set_ps_k (set_k_cpu (bare_cpu (cpu_push (pcpu x))) (ps_k x)) x)) in Hs. exact Hs.
Qed.

Lemma equiv_noff s s' : s ≡ s' -> noff (pcpu s) = noff (pcpu s').
Proof. intros Hs. apply (f_equal (fun x => noff (pcpu x))) in Hs. by destruct s as [[] ? ? ? ? ? ? ?], s' as [[] ? ? ? ? ? ? ?]. Qed.

Lemma turn_picks s e p : quiet s -> noff (pcpu s) = 0 -> -1 <= last_scheduled s < NPROC -> 0 <= e < NPROC ->
  proc_of s (slot (last_scheduled s) e) = Some p -> p_state p = RUNNABLE ->
  (forall e' q, 0 <= e' < e -> proc_of s (slot (last_scheduled s) e') = Some q -> p_state q <> RUNNABLE) ->
  exists s', scheduler_turn swtch s = after_switch (slot (last_scheduled s) e) s' /\
    held_only (slot (last_scheduled s) e) s' /\ s' ≡ dispatch (slot (last_scheduled s) e) (off s).
Proof.
  intros Hq Hn Hl He Hp Hs Hidle. rewrite turn_scan, (seqZ_split NPROC e) by done. set (last := last_scheduled s) in *.
  destruct (scan_idle last (seqZ 0 e) (e :: seqZ (e + 1) (NPROC - e - 1)) (off s)) as (s1 & H1 & Hq1 & He1);
    [by apply quiet_off | done | |].
  { intros e' He'%elem_of_seqZ. split; [lia|]. intros q. rewrite proc_of_off. apply Hidle. lia. }
  rewrite H1. symmetry in He1. destruct (equiv_lookup _ _ (slot last e) p He1) as (p1 & Hp1 & Hb1); [by rewrite proc_of_off|]. symmetry in He1.
  destruct (body_runs s1 last e p1 Hq1) as (s2 & H2 & Hh2 & He2); [| done | lia | done | |].
  { rewrite (equiv_noff _ _ He1). by destruct s as [[] ? ? ? ? ? ? ?]. }
  { apply (f_equal p_state) in Hb1. simpl in Hb1. by rewrite Hb1. }
  exists s2. split_and!; [| done | rewrite He2; by apply dispatch_proper].
  cbn [for_return]. unfold mbind at 1, M_bind at 1. rewrite H2. unfold after_switch, mbind, M_bind.
  destruct (swtch s2) as [[] s3| | | |]; try done. cbn. by destruct (plock _ _ _).
Qed.

Lemma turn_idle s : quiet s -> -1 <= last_scheduled s < NPROC -> (forall i p, proc_of s i = Some p -> p_state p <> RUNNABLE) ->
  exists s', scheduler_turn swtch s = Ret None s' /\ quiet s' /\ s' ≡ off s.
Proof.
  intros Hq Hl Hidle. rewrite turn_scan, <- (app_nil_r (seqZ 0 NPROC)).
  destruct (scan_idle (last_scheduled s) (seqZ 0 NPROC) [] (off s)) as (s1 & H1 & Hq1 & He1); [by apply quiet_off | done | |].
  { intros e' He'%elem_of_seqZ. split; [lia|]. intros q. rewrite proc_of_off. apply Hidle. }
  exists s1. by rewrite H1.
Qed.

(** one turn of the scheduler starts behind the process that ran last and takes
    the first runnable process in cyclic order: it becomes the running process of
    this hart with a full time slice and its lock held, every other process is
    unchanged, and the hart switches to it.  When no process is runnable the turn
    ends with every lock free and nothing changed. *)
Theorem scheduler_turn_picks s : quiet s -> noff (pcpu s) = 0 -> -1 <= last_scheduled s < NPROC ->
  (forall e p, 0 <= e < NPROC -> proc_of s (slot (last_scheduled s) e) = Some p -> p_state p = RUNNABLE ->
     (forall e' q, 0 <= e' < e -> proc_of s (slot (last_scheduled s) e') = Some q -> p_state q <> RUNNABLE) ->
     exists s', scheduler_turn swtch s = after_switch (slot (last_scheduled s) e) s' /\
       held_only (slot (last_scheduled s) e) s' /\ s' ≡ dispatch (slot (last_scheduled s) e) (off s)) /\
  ((forall i p, proc_of s i = Some p -> p_state p <> RUNNABLE) ->
     exists s', scheduler_turn swtch s = Ret None s' /\ quiet s' /\ s' ≡ off s).
Proof. intros Hq Hn Hl. split; [intros e p; by apply turn_picks | by apply turn_idle]. Qed.

(** ** No process starves *)

(** What the switch to [i] and back keeps: [i] comes back with its lock held, and
    the processes that were runnable still are (only the scheduler makes a
    runnable process run). *)
Definition switch_ok : Prop := forall i s, held_only i s -> cur s = Some i -> exists s', swtch s = Ret tt s' /\
  held_only i s' /\ last_scheduled s' = last_scheduled s /\
  forall j p, j <> i -> proc_of s j = Some p -> p_state p = RUNNABLE -> exists p', proc_of s' j = Some p' /\ p_state p' = RUNNABLE.

Definition runnable k s : Prop := exists p, proc_of s k = Some p /\ p_state p = RUNNABLE.

Lemma release_after i s : held_only i s -> exists s', plock i spinlock_release (set_cur None s) = Ret tt s' /\ quiet s' /\ noff (pcpu s') = 0 /\
  last_scheduled s' = last_scheduled s /\ forall k, k <> i -> runnable k s -> runnable k s'.
Proof.
  intros [Hl Hc Hn (p & Hp & Hh) Hf]. pose proof (proc_of_lt _ _ _ Hp) as Hlt.
  destruct s as [k ps z g lk c ie ls]. unfold proc_of in *; simpl in *.
  eexists. split_and!.
  - unfold plock, on_lock, proc_of. simpl. rewrite Hp. simpl. rewrite spinlock_release_held by (done || lia).
    unfold put_plk, proc_of. simpl. rewrite Hp. reflexivity.
  - unfold put_proc. split; simpl.
    + by rewrite length_insert.
    + apply cpu_pop_wf; [done | simpl in *; lia].
    + intros j q. simpl. destruct (decide (j = i)) as [->|Hne].
      * rewrite list_lookup_insert_eq by done. by intros [= <-].
      * rewrite list_lookup_insert_ne by done. by apply Hf.
  - simpl. simpl in Hn. lia.
  - done.
  - intros j Hj (q & Hq & Hr). exists q. split; [|done]. unfold proc_of, put_proc. simpl. by rewrite list_lookup_insert_ne.
Qed.

Lemma first_runnable s d : forall n, 0 <= n -> (exists e, 0 <= e < n /\ runnable (slot d e) s) ->
  exists e, 0 <= e < n /\ runnable (slot d e) s /\ forall e' q, 0 <= e' < e -> proc_of s (slot d e') = Some q -> p_state q <> RUNNABLE.
Proof.
  apply (natlike_ind (fun n => (exists e, 0 <= e < n /\ runnable (slot d e) s) -> exists e, 0 <= e < n /\ runnable (slot d e) s /\
    forall e' q, 0 <= e' < e -> proc_of s (slot d e') = Some q -> p_state q <> RUNNABLE)).
  - intros (e & He & _). lia.
  - intros n Hn IH (e & He & Hr).
    assert (forall k, Decision (runnable k s)) as Hdec.
    { intros k. unfold runnable. destruct (proc_of s k) as [p|]; [|right; by intros (? & ? & _)].
      destruct (decide (p_state p = RUNNABLE)); [left; by exists p | right; by intros (? & [= <-] & ?)]. }
    destruct (decide (Exists (fun e' => runnable (slot d e') s) (seqZ 0 n))) as [(e' & He'%elem_of_seqZ & Hr')%list.Exists_exists|Hno].
    + assert (exists e, 0 <= e < n /\ runnable (slot d e) s) as Hex by (exists e'; split; [lia | done]).
      destruct (IH Hex) as (e1 & He1 & Hr1 & Hm). exists e1. split_and!; [lia | lia | done | done].
    + assert (e = n) as -> by (destruct (decide (e < n)); [destruct Hno; apply list.Exists_exists; exists e; split; [apply elem_of_seqZ; lia | done] | lia]).
      exists n. split_and!; [lia | lia | done |]. intros e' q He' Hq Hr'. apply Hno, list.Exists_exists. exists e'. split; [apply elem_of_seqZ; lia | by exists q].
Qed.

(** A runnable process is picked, or another one is and it has come closer. *)
Lemma turn_progress s k : switch_ok -> quiet s -> noff (pcpu s) = 0 -> -1 <= last_scheduled s < NPROC -> (k < Z.to_nat NPROC)%nat -> runnable k s ->
  exists j s', scheduler_turn swtch s = Ret (Some j) s' /\ quiet s' /\ noff (pcpu s') = 0 /\ -1 <= last_scheduled s' < NPROC /\
    (j = k \/ runnable k s' /\ dist (last_scheduled s') k < dist (last_scheduled s) k).
Proof.
  intros Hsw Hq Hn Hl Hk Hr. set (last := last_scheduled s) in *. pose proof (dist_range last k) as Hd.
  destruct (first_runnable s last (dist last k + 1)) as (e & He & (p & Hp & Hs) & Hmin); [lia | exists (dist last k); rewrite slot_dist by done; split; [lia | done] |].
  destruct (turn_picks s e p Hq Hn Hl) as (s1 & H1 & Hh1 & He1); [lia | done..|].
  assert (cur s1 = Some (slot last e)) as Hc1 by (by rewrite He1).
  assert (last_scheduled s1 = Z.of_nat (slot last e)) as Hl1 by (by rewrite He1).
  destruct (Hsw _ s1 Hh1 Hc1) as (s2 & H2 & Hh2 & Hl2 & Hr2). destruct (release_after _ s2 Hh2) as (s3 & H3 & Hq3 & Hn3 & Hl3 & Hr3).
  pose proof (slot_lt last e) as Hlt. exists (slot last e), s3. split_and!.
  - rewrite H1. unfold after_switch. mstep ltac:(exact H2). mstep ltac:(exact H3). done.
  - done.
  - done.
  - lia.
  - rewrite Hl3, Hl2, Hl1. unfold NPROC in *. lia.
  - destruct (decide (slot last e = k)) as [|Hne]; [by left | right]. split.
    + apply Hr3; [done|]. destruct Hr as (pk & Hpk & Hsk).
      assert (exists q, proc_of s1 k = Some q /\ p_state q = RUNNABLE) as (q & Hq1 & Hs1).
      { symmetry in He1. destruct (equiv_lookup _ _ k pk He1) as (q & ? & Hb); [|exists q; split; [done|]].
        - unfold proc_of, dispatch, upd_procs. simpl. rewrite list_lookup_imap. unfold proc_of in Hpk. rewrite Hpk. simpl.
          unfold run_proc. by rewrite decide_False.
        - apply (f_equal p_state) in Hb. simpl in Hb. by rewrite Hb. }
      by apply (Hr2 k q).
    + rewrite Hl3, Hl2, Hl1. assert (e <> dist last k) by (intros ->; by rewrite slot_dist in Hne).
      rewrite dist_step by lia. lia.
Qed.

Lemma picked_within n : forall s k, switch_ok -> quiet s -> noff (pcpu s) = 0 -> -1 <= last_scheduled s < NPROC -> (k < Z.to_nat NPROC)%nat -> runnable k s ->
  dist (last_scheduled s) k < Z.of_nat n -> exists m s1 s2, (m < n)%nat /\ scheduler_turns swtch m s = Ret tt s1 /\ scheduler_turn swtch s1 = Ret (Some k) s2.
Proof.
  induction n as [|n IH]; intros s k Hsw Hq Hn Hl Hk Hr Hd; [pose proof (dist_range (last_scheduled s) k); lia|].
  destruct (turn_progress s k Hsw Hq Hn Hl Hk Hr) as (j & s1 & H1 & Hq1 & Hn1 & Hl1 & [->|[Hr1 Hd1]]).
  - exists 0%nat, s, s1. split_and!; [lia | done | done].
  - destruct (IH s1 k Hsw Hq1 Hn1 Hl1 Hk Hr1) as (m & s2 & s3 & Hm & H2 & H3); [lia|].
    exists (S m), s2, s3. split_and!; [lia | | done]. cbn [scheduler_turns]. by rewrite (bind_ret_eq _ _ _ _ _ H1).
Qed.

(** C18: no process starves: a process that is runnable when a turn of the scheduler
    starts is picked within [NPROC] turns, whatever the other processes do
    while they run, as long as they switch back and leave it runnable. *)
Theorem scheduler_no_starvation s k : switch_ok -> quiet s -> noff (pcpu s) = 0 -> -1 <= last_scheduled s < NPROC ->
  (k < Z.to_nat NPROC)%nat -> runnable k s ->
  exists m s1 s2, (m < Z.to_nat NPROC)%nat /\ scheduler_turns swtch m s = Ret tt s1 /\ scheduler_turn swtch s1 = Ret (Some k) s2.
Proof.
  intros Hsw Hq Hn Hl Hk Hr. apply picked_within; try done. pose proof (dist_range (last_scheduled s) k). lia.
Qed.
End Sched.

(** A process that gives the hart back at once, as [proc_yield] does. *)
Definition yields : M (pstate unit) unit := fun s =>
  match cur s with Some i => match proc_of s i with Some p => Ret tt (put_proc i (set_p_state RUNNABLE p) s) | None => Ret tt s end | None => Ret tt s end.

Lemma yields_ok : switch_ok yields.
Proof.
  intros i s [Hl Hc Hn (p & Hp & Hh) Hf] Hcur. pose proof (proc_of_lt _ _ _ Hp) as Hlt.
  exists (put_proc i (set_p_state RUNNABLE p) s). split_and!.
  - unfold yields. by rewrite Hcur, Hp.
  - split; [unfold put_proc; simpl; by rewrite length_insert | done | done | |].
    + eexists. split; [by apply proc_of_put | done].
    + intros j q Hj Hq. rewrite proc_of_put_ne in Hq by done. by apply (Hf j).
  - done.
  - intros j q Hj Hq Hr. exists q. by rewrite proc_of_put_ne.
Qed.

Lemma scheduler_turn_picks_witness : exists s', scheduler_turn yields (demo_ps None) = after_switch yields 3 s' /\ cur s' = Some 3%nat.
Proof.
  destruct (proj1 (scheduler_turn_picks yields (demo_ps None) (demo_quiet None) eq_refl ltac:(by vm_compute)) 1 (demo_proc RUNNABLE)) as (s' & H & _ & He).
  - by vm_compute.
  - reflexivity.
  - reflexivity.
  - intros e q He Hq. assert (e = 0) as -> by lia. vm_compute in Hq. by injection Hq as <-.
  - exists s'. split; [exact H | by rewrite He].
Defined.

Lemma scheduler_no_starvation_witness : exists m s1 s2, (m < 64)%nat /\ scheduler_turns yields m (demo_ps None) = Ret tt s1 /\
  scheduler_turn yields s1 = Ret (Some 0%nat) s2.
Proof.
  apply (scheduler_no_starvation yields (demo_ps None) 0 yields_ok (demo_quiet None) eq_refl); [by vm_compute | apply Nat.ltb_lt; reflexivity | by exists (demo_proc RUNNABLE)].
Defined.
