(* ===== verification/ProcAlloc.v ===== *)
(** * ProcAlloc: new processes (kernel/proc/proc.c, alloc_pid, proc_pgtbl_init, proc_alloc) *)

From S2P Require Import Prelude Bytes Kstring Spinlock Kernel Disk Buf Bitmap Inode Dir Pmem Vmem VmemTree VmemSpec Uvm UvmSpec UvmHeap UvmDestroy UvmCopy File Proc ProcSpec.

Lemma bind_fault_eq {S A B} (m : M S A) (k : A -> M S B) s : m s = Fault -> (m ≫= k) s = Fault.
Proof. unfold mbind, M_bind. by intros ->. Qed.

(** The mappings of a new address space. *)
Definition user_map (trampoline trapframe x : Z) : option Z :=
  if decide (page_of x = page_of TRAPFRAME) then Some (mk_pte trapframe 0x7)
  else if decide (page_of x = page_of TRAMPOLINE) then Some (mk_pte trampoline 0xb) else None.

Section Pgtbl.
Context {D : Type}.
Implicit Types (s : kstate D) (kp up : list Z).

(** What stays of the space [old] and of the pages in use while a space [new] is made. *)
Record made s s' old new kp kp' up : Prop := {
  m_spaces : two_spaces s' old new kp' up;
  m_frame : frame_vm s s';
  m_cpu : cpu_touch (k_cpu s') = cpu_touch (k_cpu s);
  m_tree : same_tree (k_mem s) (k_mem s') old;
  m_keep : forall q, data_page s old kp up q -> private s' old new kp' up q /\ forall x, q <= x < q + PGSIZE -> load8 (k_mem s') x = load8 (k_mem s) x
}.

Lemma made_grow s s1 s2 old new kp kp1 kp2 up : made s s1 old new kp kp1 up -> grows s1 s2 new kp1 kp2 up -> made s s2 old new kp kp2 up.
Proof.
  intros [H1 H2 Hc H3 H4] Hg. destruct (two_spaces_grow s1 s2 old new kp1 kp2 up H1 Hg) as (Hts & Hst & Hk). split; [done | | | |].
  - etransitivity; [exact H2 | apply Hg].
  - by rewrite (g_cpu _ _ _ _ _ _ Hg).
  - intros r a i Hr Ha Hi. rewrite (Hst r a i Hr); [by apply (H3 r) | by rewrite (same_tree_node _ _ _ H3 r Hr) | done].
  - intros q Hq. destruct (H4 q Hq) as [Hp Hx]. destruct (Hk q Hp) as [Hp' Hx']. split; [done|]. intros x Hx1. by rewrite Hx', Hx.
Qed.

(** A cleared root has no tables below it. *)
Lemma zero_tables m p : (forall i, 0 <= i < 512 -> load64 m (p + 8 * i) = 0) ->
  regular m p /\ forall r t, path_ok r -> node m p r = Some t -> t = p.
Proof.
  intros Hz. assert (forall i r, 0 <= i < 512 -> node m p (i :: r) = None) as Hn by (intros i r Hi; cbn [node]; by rewrite Hz).
  split; [split|].
  - intros [|j r] t i Hp Ht Hv.
    + injection Ht as <-. rewrite Hz in Hv; [done|]. by destruct (path_ok_snoc [] i Hp) as (_ & ? & _).
    + rewrite Hn in Ht; [done|]. destruct Hp as [_ Hp]. by apply list.Forall_cons in Hp as [? _].
  - intros i Hi. apply Hn. lia.
  - intros [|i r] t [_ Hr]; [by intros [= <-]|]. rewrite Hn; [done|]. by apply list.Forall_cons in Hr as [? _].
Qed.

(** The trampoline's and the trapframe's entries are in the same table. *)
Lemma trapframe_table m root a : leaf m root TRAMPOLINE = Some a -> missing m root TRAPFRAME = 0%nat.
Proof. intros H. apply (missing_same_block m root TRAMPOLINE TRAPFRAME a H). by vm_compute. Qed.

Lemma pgtbl_init_ok s old new kp up trampoline trapframe : vm_ok s old (new :: kp) up -> page_ok trampoline -> trampoline < 2 ^ 63 ->
  page_ok trapframe -> trapframe < 2 ^ 63 -> 2 <= Z.of_nat (length kp) ->
  exists s' kp', proc_pgtbl_init trampoline trapframe s = Ret new s' /\ made s s' old new (new :: kp) kp' up /\
    Z.of_nat (length kp) <= Z.of_nat (length kp') + 2 /\ new <> 0 /\ (exists used, kp = used ++ kp') /\
    (forall x, 0 <= x < VA_MAX -> pt_map (k_mem s') new x = user_map trampoline trapframe x) /\
    regular (k_mem s') new /\ forall r t, path_ok r -> node (k_mem s') new r = Some t -> t ∈ new :: kp.
Proof.
  intros Hv Hta Htal Hfa Hfal Hkp. destruct (new_space s old new kp up Hv) as (s1 & s2 & H1 & H2 & Hts & Hf & Hcpu & Hst & Hnone & Hpriv & Hout & Hz).
  assert ((new ∉ kp ++ up) /\ page_ok new) as [Hnin Hnok].
  { destruct (pools_cons_inv _ _ _ _ (kp ++ up) (vm_pools _ _ _ _ Hv) (reflexivity _)) as (? & _ & ? & _). done. }
  assert (made s s2 old new (new :: kp) kp up) as Hm2.
  { split; [done..|]. intros q Hq. split; [apply Hpriv; by right|]. intros x Hx. apply Hout.
    destruct Hq as (Hok & Hn & _). assert (q <> new) as Hne by (intros ->; apply Hn; cbn [app]; apply elem_of_cons; by left).
    destruct (page_sep q new Hok Hnok Hne); lia. }
  pose proof (missing_le (k_mem s2) new TRAMPOLINE) as Hml.
  destruct (map_page_exact s2 new kp up TRAMPOLINE trampoline (Z.lor PTE_R PTE_X) (ts_new _ _ _ _ _ Hts)) as (s3 & kp3 & H3 & Hg3 & Hl3 & Hmap3);
    [by vm_compute | by vm_compute | by vm_compute | done | done | by vm_compute | lia |].
  assert (missing (k_mem s3) new TRAPFRAME = 0%nat) as Hms.
  { pose proof (Hmap3 TRAMPOLINE ltac:(by vm_compute)) as Hm3. rewrite decide_True in Hm3 by done. apply pt_map_inv in Hm3 as (a & Ha & _).
    by eapply trapframe_table. }
  destruct (map_page_exact s3 new kp3 up TRAPFRAME trapframe (Z.lor PTE_R PTE_W) (g_vm _ _ _ _ _ _ Hg3)) as (s4 & kp4 & H4 & Hg4 & Hl4 & Hmap4);
    [by vm_compute | by vm_compute | by vm_compute | done | done | by vm_compute | lia |].
  destruct (zero_tables (k_mem s2) new Hz) as [Hreg2 Htab2].
  exists s4, kp4. split; [|split; [by eapply made_grow; [eapply made_grow|] | split; [lia | split; [destruct Hnok; lia | split; [|split; [|split]]]]]].
  - unfold proc_pgtbl_init. mstep ltac:(exact H1). rewrite (proj2 (Z.eqb_neq new 0)) by (destruct Hnok; lia).
    mstep ltac:(exact H2). mstep ltac:(exact H3). mstep ltac:(exact H4). done.
  - destruct (g_used _ _ _ _ _ _ Hg3) as [u ->], (g_used _ _ _ _ _ _ Hg4) as [u' ->]. exists (u ++ u'). by rewrite app_assoc.
  - intros x Hx. rewrite Hmap4, Hmap3, Hnone by done. unfold user_map. by repeat case_decide.
  - by apply (g_regular _ _ _ _ _ _ Hg4), (g_regular _ _ _ _ _ _ Hg3).
  - intros r t Hr Ht. apply elem_of_cons. destruct (g_new _ _ _ _ _ _ Hg4 r t Hr Ht) as [Ht3|Hin].
    + destruct (g_new _ _ _ _ _ _ Hg3 r t Hr Ht3) as [Ht2|Hin]; [left; by apply (Htab2 r) | by right].
    + right. destruct (g_used _ _ _ _ _ _ Hg3) as [u ->]. apply elem_of_app. by right.
Qed.

Lemma pools_set_cpu s kp up c : cpu_wf c -> pools s kp up -> pools (set_k_cpu c s) kp up.
Proof. intros Hc [H1 H2 H3 H4 H5 _]. by destruct s; split. Qed.

Lemma frame_set_cpu s c : frame_vm s (set_k_cpu c s).
Proof. by destruct s. Qed.

Lemma vm_ok_cpu s root kp up c : cpu_wf c -> vm_ok s root kp up -> vm_ok (set_k_cpu c s) root kp up.
Proof. intros Hc [Hp Ht]. split; [by apply pools_set_cpu | by destruct s]. Qed.

(** A page of the kernel region for other uses than tables. *)
Lemma take_kern s old t kp up : vm_ok s old (t :: kp) up ->
  exists s', pmem_alloc true s = Ret t s' /\ vm_ok s' old kp up /\ k_mem s' = k_mem s /\ frame_vm s s' /\
    cpu_touch (k_cpu s') = cpu_touch (k_cpu s) /\ data_page s' old kp up t.
Proof.
  intros Hv. destruct (take_page s old t kp up Hv) as (s' & H1 & Hv1 & Hm & Hf & Hc & Hok). exists s'. split_and!; [done..|]. split_and!; [done | |].
  - by destruct (pools_cons_inv _ _ _ _ (kp ++ up) (vm_pools _ _ _ _ Hv) (reflexivity _)) as (? & _).
  - rewrite Hm. intros r Hr Ha. apply (proj2 (pt_pages _ _ _ (vm_tree _ _ _ _ Hv) r t Hr Ha)). apply elem_of_app. left. apply elem_of_cons. by left.
Qed.

(** A table is needed and no page is left: [memset] is called on NULL. *)
Lemma walk_no_page s root up p t levels va (level : Z) : vm_ok s root [] up -> path_ok p -> node (k_mem s) root p = Some t ->
  child (k_mem s) t (VA_TO_VPN va level) = None -> walk_levels (level :: levels) t va true s = Fault.
Proof.
  intros Hv Hp Ht Hc. destruct (pools_alloc_none true s [] up (vm_pools _ _ _ _ Hv) eq_refl) as [Ha _].
  cbn [walk_levels]. rewrite (vm_node_nonzero _ _ _ _ _ _ Hv Hp Ht). unfold mem64. mrun. unfold child in Hc.
  destruct (pte_valid _); [done|]. cbn [negb]. mstep ltac:(exact Ha). done.
Qed.

Lemma map_no_page s root kp up va pa perm : vm_ok s root kp up -> 0 <= va -> va + PGSIZE <= VA_MAX -> (length kp < 2)%nat ->
  (forall i, 0 <= i < 512 -> load64 (k_mem s) (root + 8 * i) = 0) -> vm_mappages root va pa PGSIZE perm s = Fault.
Proof.
  intros Hv H0 Hmax Hl Hz. assert (VA_MAX = 2 ^ 38) as HM by done. assert (0 <= va < VA_MAX) as Hva by (unfold PGSIZE in *; lia).
  assert (child (k_mem s) root (VA_TO_VPN va 2) = None) as Hc by (unfold child; by rewrite Hz by apply VPN_range).
  assert (walk_levels [2; 1] root va true s = Fault) as Hw.
  { destruct kp as [|q [|? ?]]; [by apply (walk_no_page s root up []); [|apply nil_path|..] | | simpl in Hl; lia].
    destruct (walk_alloc_table s root q [] up [] root _ [1] va 2 Hv (vpn_path1 va) (VPN2_low va Hva) eq_refl eq_refl Hc) as (s1 & -> & Hg & Hn & Hno & _).
    apply (walk_no_page s1 root up [VA_TO_VPN va 2] q []); [apply Hg | apply vpn_path1 | done |].
    destruct (Hno (VA_TO_VPN va 1)) as [?|Hx]; [done|]. destruct Hx. apply VPN_range. }
  unfold vm_mappages. rewrite u64_small, npages_one by (unfold PGSIZE in *; lia). cbn [map_loop]. rewrite (proj2 (Z.ltb_lt _ _)) by (unfold PGSIZE; lia).
  unfold vm_getpte. rewrite (vm_node_nonzero s root kp up [] root Hv nil_path eq_refl). mrun. rewrite (proj2 (Z.leb_gt _ _)) by lia.
  unfold mbind at 1, M_bind at 1. by rewrite (bind_fault_eq _ _ _ Hw).
Qed.

(** One or two pages are not enough for the root and the tables below it. *)
Lemma pgtbl_init_faults s old new kp up trampoline trapframe : vm_ok s old (new :: kp) up -> (length kp < 2)%nat ->
  proc_pgtbl_init trampoline trapframe s = Fault.
Proof.
  intros Hv Hl. destruct (take_page s old new kp up Hv) as (s1 & H1 & Hv1 & _ & _ & _ & Hnok).
  destruct (pools_cons_inv _ _ _ _ (kp ++ up) (vm_pools _ _ _ _ Hv) (reflexivity _)) as (Hnin & _).
  destruct (clear_root s1 new kp up (vm_pools _ _ _ _ Hv1) Hnok Hnin) as (s2 & H2 & _ & Hv2 & _ & Hz & _).
  unfold proc_pgtbl_init. mstep ltac:(exact H1). rewrite (proj2 (Z.eqb_neq new 0)) by (destruct Hnok; lia). mstep ltac:(exact H2).
  apply bind_fault_eq. apply (map_no_page s2 new kp up); [done | by vm_compute | by vm_compute | done | done].
Qed.

(** [proc_pgtbl_init] makes an address space that maps two pages and nothing
    else: the trampoline, executable, at the highest address, and the trapframe,
    writable, below it, both out of the user's reach; its tables are new pages,
    and no other address space nor a page in use changes.  Without a free page it
    returns NULL. *)
Theorem proc_pgtbl_init_maps s old kp up trampoline trapframe : vm_ok s old kp up -> page_ok trampoline -> trampoline < 2 ^ 63 ->
  page_ok trapframe -> trapframe < 2 ^ 63 ->
  match kp with
  | [] => exists s', proc_pgtbl_init trampoline trapframe s = Ret 0 s' /\ k_mem s' = k_mem s /\ vm_ok s' old [] up
  | new :: kp1 => 2 <= Z.of_nat (length kp1) ->
      exists s' kp', proc_pgtbl_init trampoline trapframe s = Ret new s' /\ made s s' old new kp kp' up /\ new <> 0 /\
        forall x, 0 <= x < VA_MAX -> pt_map (k_mem s') new x = user_map trampoline trapframe x
  end.
Proof.
  intros Hv Hta Htal Hfa Hfal. destruct kp as [|new kp].
  - pose proof (pools_alloc_none true s [] up (vm_pools _ _ _ _ Hv) eq_refl) as [Ha Hp]. exists (empty_post true s).
    assert (k_mem (empty_post true s) = k_mem s) as Hm by (by destruct s).
    split_and!; [| done | split; [done | rewrite Hm; apply Hv]]. unfold proc_pgtbl_init. by mstep ltac:(exact Ha).
  - intros Hkp. destruct (pgtbl_init_ok s old new kp up trampoline trapframe Hv Hta Htal Hfa Hfal Hkp) as (s' & kp' & H1 & H2 & _ & H3 & _ & H4 & _).
    by exists s', kp'.
Qed.
End Pgtbl.

Section Alloc.
Context {D : Type} `{!DiskDriver D}.
Implicit Types (s : pstate D) (i j : nat) (p q : proc).
Abbreviation pcpu s := (k_cpu (ps_k s)).

(** ** Steps on a state in which process [i] is [q] *)

Lemma upd_at {B} i q f (k : unit -> M (pstate D) B) s : (i < length (procs s))%nat -> (upd_proc i f ≫= k) (put_proc i q s) = k tt (put_proc i (f q) s).
Proof. intros Hi. rewrite (upd_proc_eq _ _ _ _ _ (proc_of_put i q s Hi)). by rewrite put_put. Qed.

Lemma get_at {A B} i q (f : proc -> A) (k : A -> M (pstate D) B) s : (i < length (procs s))%nat -> (get_proc i f ≫= k) (put_proc i q s) = k (f q) (put_proc i q s).
Proof. intros Hi. apply get_proc_eq. by apply proc_of_put. Qed.

Lemma on_k_at {A B} i q (m : M (kstate D) A) (k : A -> M (pstate D) B) s a k' : m (ps_k s) = Ret a k' ->
  (on_k m ≫= k) (put_proc i q s) = k a (put_proc i q (set_ps_k k' s)).
Proof. intros Hm. apply bind_ret_eq. unfold on_k. destruct s; simpl in *. by rewrite Hm. Qed.

(** Run the updates and reads of process [i], in states built from [s]. *)
Local Ltac prun s := repeat first [rewrite bind_bind | rewrite upd_at by (by destruct s) | rewrite get_at by (by destruct s)]; cbv beta.

(** The state after [alloc_pid]. *)
Definition pid_post s : pstate D :=
  set_global_pid (s32 (global_pid s + 1)) (set_lk_pid (drop_lock (lk_pid s)) (set_ps_k (set_k_cpu (cpu_touch (pcpu s)) (ps_k s)) s)).

Lemma alloc_pid_ok s : is_free (lk_pid s) -> cpu_wf (pcpu s) -> 0 <= global_pid s -> alloc_pid s = Ret (global_pid s) (pid_post s).
Proof.
  intros Hf Hc Hg. unfold alloc_pid.
  rewrite (bind_ret_eq _ _ _ tt (set_lk_pid (take_lock (hartid (pcpu s)) (lk_pid s)) (set_ps_k (set_k_cpu (cpu_push (pcpu s)) (ps_k s)) s)))
    by (unfold pidlock, on_lock; by rewrite spinlock_acquire_free).
  mrun. assert (global_pid (set_lk_pid (take_lock (hartid (pcpu s)) (lk_pid s)) (set_ps_k (set_k_cpu (cpu_push (pcpu s)) (ps_k s)) s)) = global_pid s) as -> by done.
  rewrite (proj2 (Z.leb_le 0 (global_pid s)) Hg). change (negb true) with false. mrun.
  rewrite (bind_ret_eq _ _ _ tt (pid_post s)); [done|]. unfold pidlock, on_lock. simpl.
  rewrite spinlock_release_held; simpl; [| auto with locks | destruct Hc; simpl; lia | done]. by rewrite cpu_pop_push.
Qed.

Lemma alloc_pid_at {B} i q (k : Z -> M (pstate D) B) s : is_free (lk_pid s) -> cpu_wf (pcpu s) -> 0 <= global_pid s ->
  (alloc_pid ≫= k) (put_proc i q s) = k (global_pid s) (put_proc i q (pid_post s)).
Proof. intros Hf Hc Hg. rewrite (bind_ret_eq _ _ _ _ _ (alloc_pid_ok (put_proc i q s) Hf Hc Hg)). by destruct s. Qed.

(** Clearing the table of open files. *)
Lemma clear_files_at {B} i q (k : unit -> M (pstate D) B) s l : (i < length (procs s))%nat ->
  (for_each l (fun n => upd_proc i (fun q => set_filelist (<[n := None]> (filelist q)) q)) ≫= k) (put_proc i q s) =
  k tt (put_proc i (set_filelist (foldl (fun fl n => <[n := None]> fl) (filelist q) l) q) s).
Proof.
  intros Hi. revert q. induction l as [|n l IH]; intros q; cbn [for_each foldl].
  - mrun. by destruct q.
  - rewrite bind_bind, upd_at by done. cbv beta. rewrite IH. by destruct q.
Qed.

Lemma clear_files_all (fl : list (option nat)) : length fl = 16%nat -> foldl (fun fl n => <[n := None]> fl) fl fseq = replicate 16 None.
Proof. intros Hl. do 17 (destruct fl as [|? fl]; try discriminate Hl). reflexivity. Qed.

(** The lock is released. *)
Lemma release_at i q s : (i < length (procs s))%nat -> cpu_wf (pcpu s) -> 0 < noff (pcpu s) -> held_by (hartid (pcpu s)) (p_lk q) ->
  plock i spinlock_release (put_proc i q s) =
  Ret tt (put_proc i (set_p_lk (drop_lock (p_lk q)) q) (set_ps_k (set_k_cpu (cpu_pop (pcpu s)) (ps_k s)) s)).
Proof.
  intros Hi Hc Hn Hh. unfold plock, on_lock. rewrite proc_of_put by done. simpl. rewrite spinlock_release_held by done.
  unfold put_plk, proc_of, put_proc. destruct s; simpl in *. rewrite list_lookup_insert_eq by done. simpl. by rewrite list_insert_insert_eq.
Qed.

Lemma acquire_at i q s : (i < length (procs s))%nat -> is_free (p_lk q) ->
  plock i spinlock_acquire (put_proc i q s) =
  Ret tt (put_proc i (set_p_lk (take_lock (hartid (pcpu s)) (p_lk q)) q) (set_ps_k (set_k_cpu (cpu_push (pcpu s)) (ps_k s)) s)).
Proof.
  intros Hi Hf. rewrite (plock_acquire (put_proc i q s) i q); [| by apply proc_of_put | done]. unfold locked_at. f_equal.
  destruct s. unfold put_proc. simpl. by rewrite list_insert_insert_eq.
Qed.

(** ** [proc_free] *)

(** The fields that [proc_free] resets. *)
Definition freed_proc q : proc :=
  set_total_time 0 (set_time_slice TIME_SLICE (set_p_state UNUSED (set_exit_state 0 (set_sleep_space ch_null
    (set_parent None (set_pid 0 (set_heap_top 0 (set_pgtbl 0 (set_tf 0 q))))))))).

Lemma no_files_at {B} i q (k : unit -> M (pstate D) B) s l : (i < length (procs s))%nat -> (forall n, n ∈ l -> filelist q !! n = Some None) ->
  (for_each l (fun n =>
    f ← get_proc i (fun q => filelist q !! n) ≫= some_or_fault;
    match f with
    | Some f => on_k (file_close f);; upd_proc i (fun q => set_filelist (<[n := None]> (filelist q)) q)
    | None => mret tt
    end) ≫= k) (put_proc i q s) = k tt (put_proc i q s).
Proof.
  intros Hi. induction l as [|n l IH]; intros Hl; cbn [for_each]; [done|].
  rewrite !bind_bind. rewrite get_at by done. rewrite Hl by (apply elem_of_cons; by left). cbn [some_or_fault]. mrun.
  apply IH. intros m Hm. apply Hl, elem_of_cons. by right.
Qed.

Lemma proc_free_at {B} i q (k : unit -> M (pstate D) B) s k1 k2 : (i < length (procs s))%nat -> filelist q = replicate 16 None ->
  when (negb (tf q =? 0)) (pmem_free (tf q) true) (ps_k s) = Ret tt k1 ->
  when (negb (pgtbl q =? 0)) (uvm_destroy_pgtbl PGTBL_FUEL (pgtbl q) 3) k1 = Ret tt k2 ->
  (proc_free i ≫= k) (put_proc i q s) = k tt (put_proc i (freed_proc q) (set_ps_k k2 s)).
Proof.
  intros Hi Hf H1 H2. assert (forall b (m : M (kstate D) unit) (K : unit -> M (pstate D) B) r s' k', when b m (ps_k s') = Ret tt k' ->
    (when b (on_k m) ≫= K) (put_proc i r s') = K tt (put_proc i r (set_ps_k k' s'))) as Hwhen.
  { intros [] m K r s' k' Hm; [by apply on_k_at|]. injection Hm as <-. by destruct s'. }
  unfold proc_free. prun s. rewrite (Hwhen _ _ _ _ _ _ H1). prun s. rewrite (Hwhen _ _ _ _ (set_ps_k k1 s) k2) by (by destruct s). prun s.
  rewrite no_files_at; [| by destruct s |]. 2:{ intros n [_ Hn]%elem_of_seq. simpl filelist. rewrite Hf. by apply lookup_replicate_2. }
  prun s. by destruct s.
Qed.

(** ** [proc_alloc] *)

Section ProcAlloc.
Variables (trampoline fork_return : Z).

(** The fields that [proc_alloc] sets. *)
Definition fresh_proc (g t root : Z) i q : proc :=
  set_ctx (new_ctx fork_return (u64 (KSTACK (Z.of_nat i) + PGSIZE))) (set_kstack (KSTACK (Z.of_nat i)) (set_pgtbl root (set_tf t
    (set_total_time 0 (set_time_slice TIME_SLICE (set_filelist (replicate 16 None) (set_p_state RUNNABLE (set_pid g q)))))))).

Definition alloc_body (p : nat) : M (pstate D) (option nat) :=
  plock p spinlock_acquire;;
  st ← get_proc p p_state;
  if bool_decide (st = UNUSED) then mret (Some p)
  else plock p spinlock_release;; mret None.

Definition alloc_found (p : nat) : M (pstate D) (option nat) :=
  n ← alloc_pid;
  upd_proc p (set_pid n);;
  upd_proc p (set_p_state RUNNABLE);;
  for_each fseq (fun i => upd_proc p (fun q => set_filelist (<[i := None]> (filelist q)) q));;
  upd_proc p (set_time_slice TIME_SLICE);;
  upd_proc p (set_total_time 0);;
  t ← on_k (pmem_alloc true);
  upd_proc p (set_tf t);;
  if t =? 0 then
    proc_free p;;
    plock p spinlock_release;;
    mret None
  else
  g ← on_k (proc_pgtbl_init trampoline t);
  upd_proc p (set_pgtbl g);;
  if g =? 0 then
    proc_free p;;
    plock p spinlock_release;;
    mret None
  else
  upd_proc p (set_kstack (KSTACK (Z.of_nat p)));;
  k ← get_proc p kstack;
  upd_proc p (set_ctx (new_ctx fork_return (u64 (k + PGSIZE))));;
  mret (Some p).

Lemma proc_alloc_split s : proc_alloc trampoline fork_return s =
  (r ← for_return pseq alloc_body; match r with None => mret None | Some p => alloc_found p end) s.
Proof. done. Qed.

Lemma alloc_body_used s i p : quiet s -> proc_of s i = Some p -> p_state p <> UNUSED ->
  exists s', alloc_body i s = Ret None s' /\ quiet s' /\ s' ≡ s.
Proof.
  intros Hq Hp Hs. unfold alloc_body. mstep ltac:(apply plock_acquire; [exact Hp | by apply (q_free s Hq i)]).
  rewrite (get_proc_eq _ _ _ _ _ (proc_of_locked _ _ _ Hp)), bool_decide_false by done. mstep ltac:(by apply release_same).
  eexists. split_and!; [done | by apply section_quiet |].
  etransitivity; [apply (section_equiv _ _ _ _ (fun _ q => q)); done | by rewrite upd_procs_id].
Qed.

Lemma alloc_body_unused s i p : quiet s -> proc_of s i = Some p -> p_state p = UNUSED -> alloc_body i s = Ret (Some i) (locked_at i p s).
Proof.
  intros Hq Hp Hs. unfold alloc_body. mstep ltac:(apply plock_acquire; [exact Hp | by apply (q_free s Hq i)]).
  by rewrite (get_proc_eq _ _ _ _ _ (proc_of_locked _ _ _ Hp)), bool_decide_true.
Qed.

Lemma alloc_scan s i p : quiet s -> proc_of s i = Some p -> p_state p = UNUSED -> (forall j, (j < i)%nat -> not_in UNUSED s j) ->
  exists s1 p1, for_return pseq alloc_body s = Ret (Some i) (locked_at i p1 s1) /\ quiet s1 /\ s1 ≡ s /\ proc_of s1 i = Some p1 /\ bare p1 = bare p.
Proof.
  intros Hq Hp Hs Hn. pose proof (proc_of_lt _ _ _ Hp) as Hi. rewrite (q_len s Hq) in Hi. unfold pseq.
  replace (Z.to_nat NPROC) with (i + S (Z.to_nat NPROC - i - 1))%nat by lia. rewrite seq_app, <- cons_seq. cbn [Nat.add].
  destruct (scan_skip alloc_body id UNUSED (i :: seq (S i) (Z.to_nat NPROC - i - 1)) (seq 0 i) s) as (s1 & H1 & Hq1 & He1).
  - intros s0 j q _. apply alloc_body_used.
  - done.
  - intros j [_ Hj]%elem_of_seq. split; [simpl; lia | apply Hn; simpl in *; lia].
  - symmetry in He1. destruct (equiv_lookup _ _ _ _ He1 Hp) as (p1 & Hp1 & Hb). symmetry in He1.
    exists s1, p1. split_and!; try done. rewrite H1. cbn [for_return].
    rewrite (bind_ret_eq _ _ _ _ _ (alloc_body_unused s1 i p1 Hq1 Hp1 ltac:(apply (f_equal p_state) in Hb; simpl in Hb; by rewrite Hb))). done.
Qed.

(** Process [i] becomes a new process. *)
Lemma alloc_found_ok s i q old t root kp up : (i < length (procs s))%nat -> length (filelist q) = 16%nat -> is_free (lk_pid s) -> 0 <= global_pid s ->
  vm_ok (ps_k s) old (t :: root :: kp) up -> page_ok trampoline -> trampoline < 2 ^ 63 -> t < 2 ^ 63 -> 2 <= Z.of_nat (length kp) ->
  exists k' kp', alloc_found i (put_proc i q s) = Ret (Some i) (put_proc i (fresh_proc (global_pid s) t root i q) (set_ps_k k' (pid_post s))) /\
    frame_vm (ps_k s) k' /\ cpu_touch (k_cpu k') = cpu_touch (pcpu s) /\ two_spaces k' old root kp' up /\ same_tree (k_mem (ps_k s)) (k_mem k') old /\ private k' old root kp' up t /\
    (forall x, data_page (ps_k s) old (t :: root :: kp) up x -> private k' old root kp' up x /\ forall a, x <= a < x + PGSIZE -> load8 (k_mem k') a = load8 (k_mem (ps_k s)) a) /\
    (exists used, kp = used ++ kp') /\ Z.of_nat (length kp) <= Z.of_nat (length kp') + 2 /\
    (forall x, 0 <= x < VA_MAX -> pt_map (k_mem k') root x = user_map trampoline t x) /\
    regular (k_mem k') root /\ forall r a, path_ok r -> node (k_mem k') root r = Some a -> a ∈ root :: kp.
Proof.
  intros Hi Hl Hf Hg Hv Hta Htal Htl Hkp. pose proof (pools_cpu _ _ _ (vm_pools _ _ _ _ Hv)) as Hc.
  assert (vm_ok (ps_k (pid_post s)) old (t :: root :: kp) up) as Hv0 by (destruct s; simpl; by apply vm_ok_cpu; [apply cpu_touch_wf|]).
  destruct (take_kern (ps_k (pid_post s)) old t (root :: kp) up Hv0) as (k1 & H1 & Hv1 & Hm1 & Hf1 & Hc1 & Hd1). pose proof (proj1 Hd1) as Htok.
  destruct (pgtbl_init_ok k1 old root kp up trampoline t Hv1 Hta Htal Htok Htl Hkp) as (k2 & kp' & H2 & [M1 M2 Mc M3 M4] & Hlen & Hr0 & Hu & Hmap & Hreg & Htab).
  assert (k_mem (ps_k (pid_post s)) = k_mem (ps_k s)) as Hm0 by (by destruct s as [[] ? ? ? ? ? ? ?]).
  exists k2, kp'. split_and!; try done.
  - unfold alloc_found. rewrite alloc_pid_at by done. cbv beta. rewrite !upd_at by (by destruct s). rewrite clear_files_at by (by destruct s).
    assert (length (procs (pid_post s)) = length (procs s)) as Hps by (by destruct s). rewrite !upd_at by (by rewrite Hps).
    rewrite (on_k_at _ _ _ _ _ _ _ H1). rewrite !upd_at by (by destruct s). rewrite (proj2 (Z.eqb_neq t 0)) by (destruct Htok; lia).
    rewrite (on_k_at i _ _ _ (set_ps_k k1 (pid_post s)) root k2) by (destruct s; exact H2). rewrite !upd_at by (by destruct s).
    rewrite (proj2 (Z.eqb_neq root 0)) by done. rewrite !upd_at by (by destruct s). rewrite get_at by (by destruct s).
    cbv beta. rewrite !upd_at by (by destruct s). unfold mret, M_ret. do 2 f_equal. unfold fresh_proc. rewrite <- (clear_files_all (filelist q)) by done. by destruct q.
  - etransitivity; [| exact M2]. etransitivity; [|exact Hf1]. by destruct s as [[] ? ? ? ? ? ? ?].
  - rewrite Mc, Hc1. by destruct s as [[] ? ? ? ? ? ? ?]; simpl; rewrite cpu_touch_idemp.
  - by rewrite <- Hm0, <- Hm1.
  - by apply M4.
  - intros x (Hok & Hn & Hnn). destruct (M4 x) as [Hp Hx].
    + split_and!; [done | | by rewrite Hm1, Hm0]. intros Hin. apply Hn. cbn [app] in *. apply elem_of_cons. by right.
    + split; [done|]. intros a Ha. by rewrite Hx, Hm1, Hm0.
Qed.

(** The process table is full. *)
Lemma alloc_full s : quiet s -> (forall i, not_in UNUSED s i) -> exists s', proc_alloc trampoline fork_return s = Ret None s' /\ quiet s' /\ s' ≡ s.
Proof.
  intros Hq Hn. destruct (scan_skip alloc_body id UNUSED [] pseq s) as (s1 & H1 & Hq1 & He1).
  - intros s0 j q _. apply alloc_body_used.
  - done.
  - intros j [_ Hj]%elem_of_seq. split; [simpl; lia | apply Hn].
  - exists s1. split_and!; try done. rewrite proc_alloc_split. rewrite app_nil_r in H1. by rewrite (bind_ret_eq _ _ _ _ _ H1).
Qed.

(** What remains of the kernel's state when the slot is given back. *)
Record undone (k k' : kstate D) old kp up : Prop := {
  un_vm : vm_ok k' old kp up;
  un_frame : frame_vm k k';
  un_cpu : hartid (k_cpu k') = hartid (k_cpu k) /\ noff (k_cpu k') = noff (k_cpu k);
  un_mem : forall x, (forall r : Z, r ∈ kp -> ~ (r <= x < r + PGSIZE)) -> load8 (k_mem k') x = load8 (k_mem k) x
}.

Lemma touch_same c c' : cpu_touch c' = cpu_touch c -> hartid c' = hartid c /\ noff c' = noff c.
Proof. destruct c, c'. unfold cpu_touch. simpl. by intros [= -> _ ->]. Qed.

(** The slot, its files cleared and its fields reset, is unlocked. *)
Definition back_proc q : proc := set_p_lk (drop_lock (p_lk q)) (freed_proc (set_filelist (replicate 16 None) q)).
Definition back_state k' s : pstate D := set_ps_k (set_k_cpu (cpu_pop (k_cpu k')) k') (pid_post s).

(** [proc_alloc] up to the allocation of the trapframe. *)
Lemma alloc_found_head s i q : (i < length (procs s))%nat -> length (filelist q) = 16%nat -> is_free (lk_pid s) -> 0 <= global_pid s -> cpu_wf (pcpu s) ->
  exists q1, tf q1 = tf q /\ pgtbl q1 = pgtbl q /\ filelist q1 = replicate 16 None /\ p_lk q1 = p_lk q /\
  (forall t g, freed_proc (set_pgtbl g (set_tf t q1)) = freed_proc (set_filelist (replicate 16 None) q)) /\
  alloc_found i (put_proc i q s) =
    (t ← on_k (pmem_alloc true); upd_proc i (set_tf t);;
     if t =? 0 then proc_free i;; plock i spinlock_release;; mret None
     else g ← on_k (proc_pgtbl_init trampoline t); upd_proc i (set_pgtbl g);;
       if g =? 0 then proc_free i;; plock i spinlock_release;; mret None
       else upd_proc i (set_kstack (KSTACK (Z.of_nat i)));; k ← get_proc i kstack;
         upd_proc i (set_ctx (new_ctx fork_return (u64 (k + PGSIZE))));; mret (Some i)) (put_proc i q1 (pid_post s)).
Proof.
  intros Hi Hl Hf Hg Hc. exists (set_total_time 0 (set_time_slice TIME_SLICE (set_filelist (replicate 16 None) (set_p_state RUNNABLE (set_pid (global_pid s) q))))).
  split_and!; [done..| by destruct q |]. unfold alloc_found. rewrite alloc_pid_at by done. cbv beta. rewrite !upd_at by (by destruct s).
  rewrite clear_files_at by (by destruct s). simpl filelist. rewrite clear_files_all by done. by rewrite !upd_at by (by destruct s).
Qed.

(** The slot is given back. *)
Lemma give_back s i q k1 k2 : (i < length (procs s))%nat -> filelist q = replicate 16 None -> pgtbl q = 0 ->
  when (negb (tf q =? 0)) (pmem_free (tf q) true) k1 = Ret tt k2 -> cpu_wf (k_cpu k2) -> 0 < noff (k_cpu k2) -> held_by (hartid (k_cpu k2)) (p_lk q) ->
  (proc_free i;; plock i spinlock_release;; mret None) (put_proc i q (set_ps_k k1 (pid_post s))) =
    Ret (@None nat) (put_proc i (set_p_lk (drop_lock (p_lk q)) (freed_proc q)) (back_state k2 s)).
Proof.
  intros Hi Hfl Hpg H1 Hc Hn Hh. rewrite (proc_free_at i q _ _ k2 k2); [| by destruct s | done | by destruct s | by rewrite Hpg].
  erewrite bind_ret_eq by (apply release_at; [by destruct s | by destruct s | by destruct s | by destruct s]).
  unfold mret, M_ret, back_state. do 2 f_equal; by destruct s.
Qed.

(** At most one page is left: it is given back, and so is the slot. *)
Lemma alloc_found_back s i q old kp up : (i < length (procs s))%nat -> length (filelist q) = 16%nat -> is_free (lk_pid s) -> 0 <= global_pid s ->
  vm_ok (ps_k s) old kp up -> (length kp <= 1)%nat -> (kp = [] -> pgtbl q = 0) -> 0 < noff (pcpu s) -> held_by (hartid (pcpu s)) (p_lk q) ->
  exists k', alloc_found i (put_proc i q s) = Ret None (put_proc i (back_proc q) (back_state k' s)) /\ cpu_wf (k_cpu k') /\ undone (ps_k s) k' old kp up.
Proof.
  intros Hi Hl Hf Hg Hv Hkp Hpg Hn Hh. pose proof (pools_cpu _ _ _ (vm_pools _ _ _ _ Hv)) as Hc.
  destruct (alloc_found_head s i q Hi Hl Hf Hg Hc) as (q1 & Etf & Epg & Efl & Elk & Efr & Hrun). rewrite Hrun.
  set (k0 := ps_k (pid_post s)). assert (k0 = set_k_cpu (cpu_touch (pcpu s)) (ps_k s)) as Ek0 by (by destruct s).
  assert (vm_ok k0 old kp up) as Hv0 by (rewrite Ek0; by apply vm_ok_cpu; [apply cpu_touch_wf|]).
  assert (undone (ps_k s) k0 old kp up) as Hu0 by (rewrite Ek0; split; [by rewrite <- Ek0 | by destruct s as [[]] | done | by destruct s as [[]]]).
  destruct kp as [|t [|? ?]]; [| | simpl in Hkp; lia].
  - destruct (pools_alloc_none true _ [] up (vm_pools _ _ _ _ Hv0) eq_refl) as [H1 Hp1]. set (k1 := empty_post true k0) in *.
    assert (k_mem k1 = k_mem k0 /\ k_cpu k1 = cpu_touch (k_cpu k0)) as [Em1 Ec1] by (unfold k1; by destruct k0).
    exists k1. assert (undone (ps_k s) k1 old [] up) as Hu1.
    { destruct Hu0 as [U1 U2 U3 U4]. split; [split; [done | rewrite Em1; apply U1] | | by rewrite Ec1 | by rewrite Em1].
      etransitivity; [exact U2|]. unfold k1. by destruct k0. }
    split; [|split; [apply (pools_cpu _ _ _ Hp1) | done]]. rewrite (on_k_at _ _ _ _ _ _ _ H1), upd_at by (by destruct s). cbn [Z.eqb].
    rewrite (give_back s i _ k1 k1); [ | done | done | simpl; rewrite Epg; by apply Hpg | done | apply (pools_cpu _ _ _ Hp1) | | ].
    + assert (freed_proc (set_tf 0 q1) = freed_proc (set_filelist (replicate 16 None) q)) as -> by (rewrite <- (Efr 0 (pgtbl q1)); by destruct q1).
      change (p_lk (set_tf 0 q1)) with (p_lk q1). by rewrite Elk.
    + destruct (un_cpu _ _ _ _ _ Hu1) as [_ ->]. done.
    + destruct (un_cpu _ _ _ _ _ Hu1) as [-> _]. change (held_by (hartid (pcpu s)) (p_lk q1)). by rewrite Elk.
  - destruct (take_kern k0 old t [] up Hv0) as (k1 & H1 & Hv1 & Hm1 & Hf1 & Hc1 & Hd1). pose proof (proj1 Hd1) as Htok.
    destruct (pools_alloc_none true _ [] up (vm_pools _ _ _ _ Hv1) eq_refl) as [H2 Hp2]. set (k2 := empty_post true k1) in *.
    assert (k_mem k2 = k_mem k1 /\ k_cpu k2 = cpu_touch (k_cpu k1)) as [Em2 Ec2] by (unfold k2; by destruct k1).
    assert (vm_ok k2 old [] up) as Hv2 by (split; [done | rewrite Em2; apply Hv1]).
    destruct (free_data k2 old [] up t true [t] up Hv2) as (k3 & H3 & Hv3 & _ & Hf3 & Hc3 & Hm3).
    { destruct Hd1 as (? & ? & ?). split_and!; [done | done | by rewrite Em2]. }
    { pose proof (pools_count _ _ _ (vm_pools _ _ _ _ Hv0)) as Hcnt. cbn [length] in Hcnt |- *. exact Hcnt. }
    { done. }
    exists k3. assert (undone (ps_k s) k3 old [t] up) as Hu3.
    { destruct Hu0 as [U1 U2 U3 U4]. split; [done | | |].
      - etransitivity; [exact U2|]. etransitivity; [exact Hf1|]. etransitivity; [|exact Hf3]. unfold k2. by destruct k1.
      - destruct (touch_same _ _ Hc3) as [-> ->]. rewrite Ec2. destruct (touch_same _ _ Hc1) as [E1 E2]. simpl. rewrite E1, E2. done.
      - intros x Hx. rewrite Hm3, Em2, Hm1 by (apply Hx, list_elem_of_singleton; done). by apply U4. }
    split; [|split; [apply (pools_cpu _ _ _ (vm_pools _ _ _ _ Hv3)) | done]].
    rewrite (on_k_at _ _ _ _ _ _ _ H1), upd_at by (by destruct s). rewrite (proj2 (Z.eqb_neq t 0)) by (destruct Htok; lia).
    assert (proc_pgtbl_init trampoline t k1 = Ret 0 k2) as H2' by (unfold proc_pgtbl_init; by mstep ltac:(exact H2)).
    rewrite (on_k_at i _ _ _ (set_ps_k k1 (pid_post s)) 0 k2) by (destruct s; exact H2'). rewrite upd_at by (by destruct s). cbn [Z.eqb].
    assert (set_ps_k k2 (set_ps_k k1 (pid_post s)) = set_ps_k k2 (pid_post s)) as -> by (by destruct s).
    rewrite (give_back s i _ k2 k3); [| done | done | done | | apply (pools_cpu _ _ _ (vm_pools _ _ _ _ Hv3)) | |].
    + change (p_lk (set_pgtbl 0 (set_tf t q1))) with (p_lk q1). by rewrite Efr, Elk.
    + simpl tf. by rewrite (proj2 (Z.eqb_neq t 0)) by (destruct Htok; lia).
    + destruct (un_cpu _ _ _ _ _ Hu3) as [_ ->]. done.
    + destruct (un_cpu _ _ _ _ _ Hu3) as [-> _]. change (held_by (hartid (pcpu s)) (p_lk q1)). by rewrite Elk.
Qed.

(** Two or three pages are left: the tables of the new address space lack a page. *)
Lemma alloc_found_faults s i q old t root kp up : (i < length (procs s))%nat -> length (filelist q) = 16%nat -> is_free (lk_pid s) -> 0 <= global_pid s ->
  vm_ok (ps_k s) old (t :: root :: kp) up -> (length kp < 2)%nat -> alloc_found i (put_proc i q s) = Fault.
Proof.
  intros Hi Hl Hf Hg Hv Hkp. pose proof (pools_cpu _ _ _ (vm_pools _ _ _ _ Hv)) as Hc.
  destruct (alloc_found_head s i q Hi Hl Hf Hg Hc) as (q1 & _ & _ & _ & _ & _ & Hrun). rewrite Hrun.
  assert (vm_ok (ps_k (pid_post s)) old (t :: root :: kp) up) as Hv0 by (destruct s; simpl; by apply vm_ok_cpu; [apply cpu_touch_wf|]).
  destruct (take_kern _ old t _ up Hv0) as (k1 & H1 & Hv1 & _ & _ & _ & Hd1).
  rewrite (on_k_at _ _ _ _ _ _ _ H1), upd_at by (by destruct s). rewrite (proj2 (Z.eqb_neq t 0)) by (destruct (proj1 Hd1); lia).
  apply bind_fault_eq. unfold on_k. pose proof (pgtbl_init_faults k1 old root kp up trampoline t Hv1 Hkp) as Hfault. destruct s. simpl. by rewrite Hfault.
Qed.

(** The other processes and globals. *)
Record rest_same s s' i : Prop := {
  rs_len : length (procs s') = Z.to_nat NPROC;
  rs_procs : forall j, j <> i -> bare <$> proc_of s' j = bare <$> proc_of s j;
  rs_free : forall j q, j <> i -> proc_of s' j = Some q -> is_free (p_lk q);
  rs_pid : global_pid s' = s32 (global_pid s + 1) /\ is_free (lk_pid s');
  rs_cur : cur s' = cur s /\ proczero s' = proczero s
}.

Lemma equiv_globals s s' : s ≡ s' -> global_pid s = global_pid s' /\ lk_pid s = lk_pid s' /\ cur s = cur s' /\ proczero s = proczero s' /\
  hartid (pcpu s) = hartid (pcpu s') /\ noff (pcpu s) = noff (pcpu s').
Proof.
  intros Hs. assert (forall {A} (f : pstate D -> A), f (bare_state s) = f (bare_state s')) as Hf by (intros A f; by rewrite Hs).
  split_and!; [apply (Hf _ global_pid) | apply (Hf _ lk_pid) | apply (Hf _ cur) | apply (Hf _ proczero) | apply (Hf _ (fun x => hartid (pcpu x))) |
    apply (Hf _ (fun x => noff (pcpu x)))].
Qed.

Lemma equiv_k s s' : s ≡ s' -> ps_k s' = set_k_cpu (pcpu s') (ps_k s).
Proof.
  intros Hs. apply (f_equal (fun x => set_k_cpu (pcpu s') (ps_k x))) in Hs. destruct s as [[] ? ? ? ? ? ? ?], s' as [[] ? ? ? ? ? ? ?].
  unfold bare_state, set_k_cpu in *; simpl in *. congruence.
Qed.

Lemma rest_same_put s s1 i q g lk k : s1 ≡ s -> quiet s1 -> g = s32 (global_pid s + 1) -> is_free lk ->
  rest_same s (put_proc i q (set_ps_k k (set_global_pid g (set_lk_pid lk s1)))) i.
Proof.
  intros He Hq -> Hlk. destruct (equiv_globals _ _ He) as (_ & _ & Hc & Hz & _ & _). split.
  - unfold put_proc. simpl. rewrite length_insert. apply (q_len _ Hq).
  - intros j Hj. rewrite proc_of_put_ne by done. apply procs_proper, (f_equal (fun l => l !! j)) in He.
    rewrite !list_lookup_fmap in He. exact He.
  - intros j r Hj. rewrite proc_of_put_ne by done. apply (q_free _ Hq).
  - done.
  - done.
Qed.

(** Process [i] of [s'] is new: its slot was [p]. *)
Record allocated s s' i p p' old t root kp kp' up : Prop := {
  al_rest : rest_same s s' i;
  al_proc : proc_of s' i = Some p';
  al_bare : bare p' = bare (fresh_proc (global_pid s) t root i p);
  al_lock : held_by (hartid (pcpu s)) (p_lk p');
  al_cpu : hartid (pcpu s') = hartid (pcpu s) /\ noff (pcpu s') = noff (pcpu s) + 1;
  al_frame : frame_vm (ps_k s) (ps_k s');
  al_spaces : two_spaces (ps_k s') old root kp' up;
  al_tree : same_tree (k_mem (ps_k s)) (k_mem (ps_k s')) old;
  al_tf : private (ps_k s') old root kp' up t;
  al_keep : forall x, data_page (ps_k s) old kp up x -> private (ps_k s') old root kp' up x /\
    forall a, x <= a < x + PGSIZE -> load8 (k_mem (ps_k s')) a = load8 (k_mem (ps_k s)) a;
  al_used : (exists used, kp = used ++ kp') /\ Z.of_nat (length kp) <= Z.of_nat (length kp') + 4;
  al_map : forall x, 0 <= x < VA_MAX -> pt_map (k_mem (ps_k s')) root x = user_map trampoline t x;
  al_regular : regular (k_mem (ps_k s')) root;
  al_tables : forall r a, path_ok r -> node (k_mem (ps_k s')) root r = Some a -> a ∈ kp
}.

(** The new address space is its own: [uvm_destroy_pgtbl] gives all of it back. *)
Lemma alloc_owned s s' i p p' old t root kp kp' up : page_ok trampoline -> page_ok t ->  allocated s s' i p p' old t root kp kp' up ->
  Forall (fun a : Z => a < 2 ^ 44) (kp ++ up) -> owned (ps_k s') root kp' up.
Proof.
  intros Hta Ht Ha Hs. assert (forall x v, 0 <= x < VA_MAX -> pt_map (k_mem (ps_k s')) root x = Some v ->
    ~ user_va x /\ PTE_CHECK v = false) as Hm.
  { intros x v Hx. rewrite (al_map _ _ _ _ _ _ _ _ _ _ _ Ha x Hx). unfold user_map, user_va.
    destruct Hta as (H0 & _ & H64), Ht as (H0' & _ & H64'). unfold PGSIZE in *.
    repeat case_decide; intros [= <-]; (split; [tauto|]); rewrite PTE_CHECK_mk by (lia || by vm_compute); by vm_compute. }
  split.
  - apply (ts_new _ _ _ _ _ (al_spaces _ _ _ _ _ _ _ _ _ _ _ Ha)).
  - apply Ha.
  - intros x v Hx Hv. by apply (Hm x v).
  - intros x v Hx Hu Hv. by destruct (Hm x v Hx Hv).
  - intros x y v w Hx _ Hu _ Hv. by destruct (Hm x v Hx Hv).
  - intros q [Hq|[(r & Hr & Hn)|(x & v & Hx & Hu & Hv & _)]]; [| | by destruct (Hm x v Hx Hv)].
    + apply (Forall_elem _ _ _ Hs). destruct (al_used _ _ _ _ _ _ _ _ _ _ _ Ha) as [[u ->] _]. apply elem_of_app. apply elem_of_app in Hq as [Hq|Hq]; [left; apply elem_of_app; by right | by right].
    + apply (Forall_elem _ _ _ Hs), elem_of_app. left. by apply (al_tables _ _ _ _ _ _ _ _ _ _ _ Ha r).
Qed.

(** What the caller of [proc_alloc] needs. *)
Record alloc_ready s old kp up : Prop := {
  ar_quiet : quiet s;
  ar_pid : is_free (lk_pid s) /\ 0 <= global_pid s;
  ar_vm : vm_ok (ps_k s) old kp up;
  ar_trampoline : page_ok trampoline /\ trampoline < 2 ^ 63
}.

Definition first_unused s i p : Prop :=
  proc_of s i = Some p /\ p_state p = UNUSED /\ (forall j, (j < i)%nat -> not_in UNUSED s j) /\ length (filelist p) = 16%nat.

(** The slot is found and locked. *)
Lemma alloc_locked s old kp up i p : alloc_ready s old kp up -> first_unused s i p -> exists s1 p1,
  proc_alloc trampoline fork_return s = alloc_found i (put_proc i (set_p_lk (take_lock (hartid (pcpu s)) (p_lk p1)) p1) (set_ps_k (set_k_cpu (cpu_push (pcpu s1)) (ps_k s1)) s1)) /\
  quiet s1 /\ s1 ≡ s /\ proc_of s1 i = Some p1 /\ bare p1 = bare p /\
  vm_ok (ps_k (set_ps_k (set_k_cpu (cpu_push (pcpu s1)) (ps_k s1)) s1)) old kp up /\
  k_mem (ps_k (set_ps_k (set_k_cpu (cpu_push (pcpu s1)) (ps_k s1)) s1)) = k_mem (ps_k s) /\
  frame_vm (ps_k s) (ps_k (set_ps_k (set_k_cpu (cpu_push (pcpu s1)) (ps_k s1)) s1)).
Proof.
  intros [Hq _ Hv _] (Hp & Hs & Hn & Hl). destruct (alloc_scan s i p Hq Hp Hs Hn) as (s1 & p1 & H1 & Hq1 & He1 & Hp1 & Hb1).
  pose proof (equiv_k s s1 ltac:(by symmetry)) as Ek. destruct (equiv_globals _ _ He1) as (_ & _ & _ & _ & Eh & _).
  exists s1, p1. split_and!; try done.
  - rewrite proc_alloc_split, (bind_ret_eq _ _ _ _ _ H1). unfold locked_at. by rewrite Eh.
  - destruct s1; simpl in *. rewrite Ek. apply vm_ok_cpu; [apply cpu_push_wf, Hq1 | by apply vm_ok_cpu; [apply Hq1|]].
  - destruct s1; simpl in *. rewrite Ek. by destruct s as [[] ? ? ? ? ? ? ?].
  - destruct s1; simpl in *. rewrite Ek. by destruct s as [[] ? ? ? ? ? ? ?].
Qed.

Lemma proc_alloc_faults s old i p t root kp up : alloc_ready s old (t :: root :: kp) up -> first_unused s i p -> (length kp < 2)%nat ->
  proc_alloc trampoline fork_return s = Fault.
Proof.
  intros Hr Hu Hkp. destruct (alloc_locked s old _ up i p Hr Hu) as (s1 & p1 & H1 & Hq1 & He1 & Hp1 & Hb1 & Hv1 & _).
  destruct (equiv_globals _ _ He1) as (Eg & El & _). rewrite H1. apply (alloc_found_faults _ i _ old t root kp up); [by apply proc_of_lt in Hp1 | | | | done | done].
  - apply (f_equal filelist) in Hb1. simpl in *. rewrite Hb1. apply Hu.
  - simpl. rewrite El. apply Hr.
  - simpl. rewrite Eg. apply Hr.
Qed.

Lemma proc_alloc_some s old i p t root kp up : alloc_ready s old (t :: root :: kp) up -> first_unused s i p -> t < 2 ^ 63 -> 2 <= Z.of_nat (length kp) ->
  exists s' p' kp', proc_alloc trampoline fork_return s = Ret (Some i) s' /\ allocated s s' i p p' old t root (t :: root :: kp) kp' up.
Proof.
  intros Hr Hu Ht Hkp. destruct (alloc_locked s old _ up i p Hr Hu) as (s1 & p1 & H1 & Hq1 & He1 & Hp1 & Hb1 & Hv1 & Hm1 & Hf1).
  destruct Hr as [Hq [Hf Hg] _ [Hta Htal]]. destruct Hu as (Hp & Hs & Hn & Hl). destruct (equiv_globals _ _ He1) as (Eg & El & _ & _ & Eh & En).
  set (S1 := set_ps_k _ s1) in *. pose proof (proc_of_lt _ _ _ Hp1) as Hi1.
  assert (is_free (lk_pid S1)) as Hfree by (change (lk_pid S1) with (lk_pid s1); by rewrite El).
  assert (0 <= global_pid S1) as Hg1 by (change (global_pid S1) with (global_pid s1); by rewrite Eg).
  assert (length (filelist p1) = 16%nat) as Hl1 by (apply (f_equal filelist) in Hb1; simpl in Hb1; by rewrite Hb1).
  destruct (alloc_found_ok S1 i (set_p_lk (take_lock (hartid (pcpu s)) (p_lk p1)) p1) old t root kp up) as
    (k' & kp' & H2 & Hf2 & Hc2 & Hts & Hst & Hpt & Hkeep & Hused & Hlen & Hmap & Hreg & Htab); [done.. |].
  eexists _, _, kp'. split; [rewrite H1; exact H2|]. split.
  - apply (rest_same_put s s1); [done | done | by rewrite <- Eg | done].
  - by apply proc_of_put.
  - change (global_pid S1) with (global_pid s1). rewrite Eg. apply (f_equal (fun q => bare (fresh_proc (global_pid s) t root i q))) in Hb1. exact Hb1.
  - by split.
  - change (hartid (cpu_touch (k_cpu k')) = hartid (pcpu s) /\ noff (cpu_touch (k_cpu k')) = noff (pcpu s) + 1). rewrite Hc2. unfold S1. simpl. split; [done | lia].
  - by etransitivity.
  - exact Hts.
  - rewrite <- Hm1. exact Hst.
  - exact Hpt.
  - intros x Hx. rewrite <- Hm1. apply Hkeep. eapply data_page_less; [exact Hm1 | done | exact Hx].
  - destruct Hused as [u ->]. cbn [length] in *. split; [by exists (t :: root :: u) | lia].
  - exact Hmap.
  - exact Hreg.
  - intros r a Hr Ha. apply elem_of_cons. right. by apply (Htab r).
Qed.

(** The slot [i] was taken and given back; the free pages are the same. *)
Record given_back s s' i p old kp up : Prop := {
  gb_quiet : quiet s';
  gb_rest : rest_same s s' i;
  gb_proc : bare <$> proc_of s' i = Some (bare (freed_proc (set_filelist (replicate 16 None) p)));
  gb_vm : vm_ok (ps_k s') old kp up;
  gb_frame : frame_vm (ps_k s) (ps_k s');
  gb_cpu : hartid (pcpu s') = hartid (pcpu s) /\ noff (pcpu s') = noff (pcpu s);
  gb_mem : forall x, (forall r : Z, r ∈ kp -> ~ (r <= x < r + PGSIZE)) -> load8 (k_mem (ps_k s')) x = load8 (k_mem (ps_k s)) x
}.

Lemma proc_alloc_back s old kp up i p : alloc_ready s old kp up -> first_unused s i p -> (length kp <= 1)%nat -> (kp = [] -> pgtbl p = 0) ->
  exists s', proc_alloc trampoline fork_return s = Ret None s' /\ given_back s s' i p old kp up.
Proof.
  intros Hr Hu Hkp Hpg. destruct (alloc_locked s old _ up i p Hr Hu) as (s1 & p1 & H1 & Hq1 & He1 & Hp1 & Hb1 & Hv1 & Hm1 & Hf1).
  destruct (equiv_globals _ _ He1) as (Eg & El & _ & _ & Eh & En). destruct Hr as [Hq [Hf Hg] _ _]. destruct Hu as (Hp & Hs & Hn & Hl).
  set (S1 := set_ps_k _ s1) in *. pose proof (proc_of_lt _ _ _ Hp1) as Hi1.
  destruct (alloc_found_back S1 i (set_p_lk (take_lock (hartid (pcpu s)) (p_lk p1)) p1) old kp up) as (k' & H2 & Hc' & [U1 U2 [U3 U3'] U4]); try done.
  { apply (f_equal filelist) in Hb1. simpl in *. by rewrite Hb1. }
  { change (is_free (lk_pid s1)). by rewrite El. }
  { change (0 <= global_pid s1). by rewrite Eg. }
  { intros Hk. apply (f_equal pgtbl) in Hb1. simpl in *. rewrite Hb1. auto. }
  { simpl. destruct (q_cpu _ Hq1). lia. }
  assert (hartid (pcpu S1) = hartid (pcpu s) /\ noff (pcpu S1) = noff (pcpu s) + 1) as [Ehs Ens] by (unfold S1; simpl; split; [done | lia]).
  assert (rest_same s (put_proc i (back_proc (set_p_lk (take_lock (hartid (pcpu s)) (p_lk p1)) p1)) (back_state k' S1)) i) as Hrest
    by (apply (rest_same_put s s1); [done | done | by rewrite <- Eg | done]).
  assert (cpu_wf (cpu_pop (k_cpu k'))) as Hpop by (apply cpu_pop_wf; [done|]; rewrite U3', Ens; destruct (q_cpu _ Hq); lia).
  eexists. split; [rewrite H1; exact H2|].
  assert (proc_of (put_proc i (back_proc (set_p_lk (take_lock (hartid (pcpu s)) (p_lk p1)) p1)) (back_state k' S1)) i =
    Some (back_proc (set_p_lk (take_lock (hartid (pcpu s)) (p_lk p1)) p1))) as Hpi by (by apply proc_of_put).
  split.
  - split; [apply Hrest | done |]. intros j r. destruct (decide (j = i)) as [->|Hne]; [|by apply Hrest].
    intros Hj. change (proc_of (put_proc i (back_proc (set_p_lk (take_lock (hartid (pcpu s)) (p_lk p1)) p1)) (back_state k' S1)) i = Some r) in Hj.
    rewrite Hpi in Hj. by injection Hj as <-.
  - exact Hrest.
  - rewrite Hpi. simpl. f_equal. apply (f_equal (fun q => bare (freed_proc (set_filelist (replicate 16 None) q)))) in Hb1. exact Hb1.
  - apply (vm_ok_cpu k' old kp up (cpu_pop (k_cpu k'))); [done | done].
  - etransitivity; [exact Hf1|]. etransitivity; [exact U2|]. apply frame_set_cpu.
  - simpl. rewrite U3, U3', Ehs, Ens. split; [done | lia].
  - intros x Hx. rewrite <- Hm1. by apply U4.
Qed.

(** C17: [proc_alloc] turns the first unused slot into a new process: it is runnable,
    has the next pid, a full time slice, no open files, a page for its trapframe,
    an address space that maps the trampoline and that page only, and a context
    that starts in [fork_return] on the process's kernel stack; its lock is held,
    every other process and address space is unchanged.  With every slot in use
    nothing changes and NULL is returned.  With no kernel page left, or one, NULL is
    returned too: the slot is unused again, its lock free, the page of the trapframe
    is free again, and every other process, page and lock is as it was.  With two or
    three pages the tables of the address space lack one, and [vm_getpte] clears
    the NULL it got; four are enough. *)
Theorem proc_alloc_creates s old kp up : alloc_ready s old kp up ->
  ((forall i, not_in UNUSED s i) -> exists s', proc_alloc trampoline fork_return s = Ret None s' /\ quiet s' /\ s' ≡ s) /\
  forall i p, first_unused s i p -> (kp = [] -> pgtbl p = 0) -> Forall (fun t => t < 2 ^ 63) kp ->
  match kp with
  | [] | [_] => exists s', proc_alloc trampoline fork_return s = Ret None s' /\ given_back s s' i p old kp up
  | [_; _] | [_; _; _] => proc_alloc trampoline fork_return s = Fault
  | t :: root :: _ => exists s' p' kp', proc_alloc trampoline fork_return s = Ret (Some i) s' /\ allocated s s' i p p' old t root kp kp' up
  end.
Proof.
  intros Hr. split; [apply alloc_full; apply Hr|]. intros i p Hu Hpg Hsmall.
  assert (forall t root kp1, kp = t :: root :: kp1 -> (length kp1 < 2)%nat -> proc_alloc trampoline fork_return s = Fault) as Hfault.
  { intros t root kp1 -> Hl. by apply (proc_alloc_faults s old i p t root kp1 up). }
  destruct kp as [|t [|root kp1]]; [by apply proc_alloc_back; [..| simpl; lia |] | by apply proc_alloc_back; [..| simpl; lia |] |].
  apply list.Forall_cons in Hsmall as [Ht _].
  destruct kp1 as [|a [|b kp1]]; [by apply (Hfault t root []); [|simpl; lia] | by apply (Hfault t root [a]); [|simpl; lia] |].
  apply proc_alloc_some; [done | done | done | cbn [length]; lia].
Qed.
End ProcAlloc.
End Alloc.

(** ** On a concrete state: the kernel's address space and the table [demo_table] *)

Lemma proc_pgtbl_init_maps_witness : exists s s' : kstate unit, proc_pgtbl_init 0x80001000 0x80130000 s = Ret 0x80021000 s' /\
  pt_map (k_mem s') 0x80021000 (TRAPFRAME + 8) = Some (mk_pte 0x80130000 0x7) /\ pt_map (k_mem s') 0x80021000 0x1000 = None.
Proof.
  destruct demo_vm as (s & Hv & _). change (page_list 255 0x80021000) with (0x80021000 :: page_list 254 0x80022000) in Hv.
  destruct (proc_pgtbl_init_maps s 0x80020000 _ demo_up 0x80001000 0x80130000 Hv) as (s' & kp' & Hrun & _ & _ & Hmap); [by vm_compute..|].
  exists s, s'. split_and!; [exact Hrun | | ]; (rewrite Hmap by (by vm_compute)); by vm_compute.
Defined.

Lemma quiet_demo (k : kstate unit) cu : cpu_wf (k_cpu k) -> quiet (set_ps_k k (demo_ps cu)).
Proof. intros Hc. apply quiet_set_k; [apply demo_quiet | done]. Qed.

Lemma demo_first_unused (k : kstate unit) : first_unused (set_ps_k k (demo_ps None)) 4 (demo_proc UNUSED).
Proof.
  split_and!; [done | done | | done]. intros j Hj p Hp. do 4 (destruct j as [|j]; [vm_compute in Hp; by injection Hp as <-|]). lia.
Qed.

Lemma demo_alloc_ready (k : kstate unit) old kp up : vm_ok k old kp up -> alloc_ready 0x80001000 (set_ps_k k (demo_ps None)) old kp up.
Proof.
  intros Hv. split; [by apply quiet_demo, (pools_cpu _ _ _ (vm_pools _ _ _ _ Hv)) | split; [done | change (global_pid _) with 5; lia] | exact Hv | split; by vm_compute].
Qed.

Lemma proc_alloc_creates_witness :
  (exists (s s' : pstate unit) p', proc_alloc 0x80001000 0x80000100 s = Ret (Some 4%nat) s' /\
    proc_of s' 4 = Some p' /\ pid p' = 5 /\ pgtbl p' = 0x80022000 /\ kstack p' = 0x3f80000000 + 10 * 4096 /\
    pt_map (k_mem (ps_k s')) 0x80022000 TRAPFRAME = Some (mk_pte 0x80021000 0x7)) /\
  exists s' : pstate unit, proc_alloc 0x80001000 0x80000100 (set_ps_k demo_space (demo_ps None)) = Ret None s' /\
    p_state <$> proc_of s' 4 = Some UNUSED /\ pools (ps_k s') [0x80025000] [0x80121000].
Proof.
  split.
  - destruct demo_vm as (k & Hv & _).
    change (page_list 255 0x80021000) with (0x80021000 :: 0x80022000 :: 0x80023000 :: 0x80024000 :: page_list 251 0x80025000) in Hv.
    destruct (proc_alloc_creates 0x80001000 0x80000100 _ _ _ _ (demo_alloc_ready k _ _ _ Hv)) as [_ Halloc].
    destruct (Halloc 4%nat (demo_proc UNUSED) (demo_first_unused k) ltac:(done)) as (s' & p' & kp' & Hrun & Ha); [apply (bool_decide_unpack _); by vm_compute|].
    pose proof (al_bare _ _ _ _ _ _ _ _ _ _ _ _ _ Ha) as Hb.
    exists (set_ps_k k (demo_ps None)), s', p'. split_and!; [exact Hrun | apply Ha | | | |].
    + apply (f_equal pid) in Hb. exact Hb.
    + apply (f_equal pgtbl) in Hb. exact Hb.
    + apply (f_equal kstack) in Hb. exact Hb.
    + rewrite (al_map _ _ _ _ _ _ _ _ _ _ _ _ _ Ha) by (by vm_compute). by vm_compute.
  - destruct (proc_alloc_creates 0x80001000 0x80000100 _ _ _ _ (demo_alloc_ready demo_space _ _ _ (ow_vm _ _ _ _ demo_owned))) as [_ Halloc].
    destruct (Halloc 4%nat (demo_proc UNUSED) (demo_first_unused demo_space) ltac:(done)) as (s' & Hrun & Hb); [apply (bool_decide_unpack _); by vm_compute|].
    exists s'. split; [exact Hrun|]. split; [|apply (gb_vm _ _ _ _ _ _ _ Hb)].
    pose proof (gb_proc _ _ _ _ _ _ _ Hb) as Hp. destruct (proc_of s' 4) as [q|]; [|discriminate Hp].
    apply (f_equal (fmap (M:=option) p_state)) in Hp. exact Hp.
Defined.
