(* ===== verification/ProcFork.v ===== *)
(** * ProcFork: copying a process (kernel/proc/proc.c, proc_fork) *)

From S2P Require Import Prelude Bytes Kstring Spinlock Kernel Disk Buf BufSpec Bitmap BitmapSpec Inode InodeMeta InodeSpec InodeData InodeDataSpec Dir Pmem Vmem VmemTree VmemSpec Uvm UvmSpec UvmHeap UvmCopy File FileSpec Proc ProcSpec ProcAlloc.

(** ** The open files of the child *)

Section Dup.
Context {D : Type} `{!DiskDriver D}.
Implicit Types (s : pstate D) (i j c : nat) (p q : proc) (a : gmap nat Z) (pl fl : list (option nat)).
Abbreviation pcpu s := (k_cpu (ps_k s)).

(** The child's table and the reference counts after the entries [l] of the
    parent's table [pl] were copied. *)
Definition dup_list pl (l : list nat) fl : list (option nat) :=
  foldl (fun fl n => match pl !! n with Some (Some f) => <[n := Some f]> fl | _ => fl end) fl l.
Definition dup_counts pl (l : list nat) a : gmap nat Z :=
  foldl (fun a n => match pl !! n with Some (Some f) => <[f := a !!! f + 1]> a | _ => a end) a l.

Definition dup_body c i (n : nat) : M (pstate D) unit :=
  f ← get_proc c (fun q => filelist q !! n) ≫= some_or_fault;
  match f with
  | Some f =>
      d ← on_k (file_dup f);
      upd_proc i (fun q => set_filelist (<[n := Some d]> (filelist q)) q)
  | None => mret tt
  end.

(** Every open file is in the table, with room for [n] more references. *)
Definition files_ok pl a (n : Z) : Prop :=
  (forall m f, pl !! m = Some (Some f) -> (f < Z.to_nat N_FILE)%nat /\ exists r, a !! f = Some r) /\ forall f r, a !! f = Some r -> r + n < 2 ^ 32.

Lemma files_ok_step pl a n m f r : files_ok pl a (n + 1) -> 0 <= n -> pl !! m = Some (Some f) -> a !! f = Some r -> files_ok pl (<[f := r + 1]> a) n.
Proof.
  intros [H1 H2] Hn Hm Hf. split.
  - intros k g Hg. destruct (H1 k g Hg) as [? [r' Hr']]. split; [done|]. destruct (decide (f = g)) as [->|Hne].
    + exists (r + 1). by rewrite lookup_insert_eq.
    + exists r'. by rewrite lookup_insert_ne.
  - intros g x. destruct (decide (f = g)) as [->|Hne].
    + rewrite lookup_insert_eq. intros [= <-]. specialize (H2 g r Hf). lia.
    + rewrite lookup_insert_ne by done. intros Hx. specialize (H2 g x Hx). lia.
Qed.

Lemma files_ok_less pl a n : files_ok pl a (n + 1) -> files_ok pl a n.
Proof. intros [H1 H2]. split; [done|]. intros f r Hf. specialize (H2 f r Hf). lia. Qed.

Lemma proc_of_set_k k s j : proc_of (set_ps_k k s) j = proc_of s j.
Proof. by destruct s. Qed.

Lemma dup_body_some {B} c i cp n f k' q s (K : unit -> M (pstate D) B) : (i < length (procs s))%nat -> i <> c -> proc_of s c = Some cp ->
  filelist cp !! n = Some (Some f) -> file_dup f (ps_k s) = Ret f k' ->
  (dup_body c i n ≫= K) (put_proc i q s) = K tt (put_proc i (set_filelist (<[n := Some f]> (filelist q)) q) (set_ps_k k' s)).
Proof.
  intros Hi Hne Hc Hn H1. unfold dup_body. rewrite !bind_bind. rewrite (get_proc_eq c _ _ _ cp) by (by rewrite proc_of_put_ne). rewrite Hn. cbn [some_or_fault]. mrun.
  rewrite (on_k_at _ _ _ _ _ _ _ H1). by rewrite upd_at by (by destruct s).
Qed.

Lemma dup_body_none {B} c i cp n q s (K : unit -> M (pstate D) B) : i <> c -> proc_of s c = Some cp -> filelist cp !! n = Some None ->
  (dup_body c i n ≫= K) (put_proc i q s) = K tt (put_proc i q s).
Proof. intros Hne Hc Hn. unfold dup_body. rewrite !bind_bind. rewrite (get_proc_eq c _ _ _ cp) by (by rewrite proc_of_put_ne). by rewrite Hn. Qed.

Lemma dup_loop c i cp l : forall s a q, (i < length (procs s))%nat -> i <> c -> proc_of s c = Some cp ->
  ft_rel (ps_k s) a -> files_ok (filelist cp) a (Z.of_nat (length l)) -> (forall n, n ∈ l -> is_Some (filelist cp !! n)) ->
  exists k', for_each l (dup_body c i) (put_proc i q s) =
      Ret tt (put_proc i (set_filelist (dup_list (filelist cp) l (filelist q)) q) (set_ps_k k' s)) /\
    frame_ft (ps_k s) k' /\ ft_rel k' (dup_counts (filelist cp) l a) /\ cpu_touch (k_cpu k') = cpu_touch (pcpu s).
Proof.
  induction l as [|n l IH]; intros s a q Hi Hne Hc Hr Hok Hl; cbn [for_each dup_list dup_counts foldl length] in *.
  - exists (ps_k s). split_and!; [| by destruct (ps_k s) | done | done]. destruct s, q. done.
  - destruct (Hl n) as [[f|] Hn]; [apply elem_of_cons; by left | |].
    + rewrite Nat2Z.inj_succ, <- Z.add_1_r in Hok. destruct (proj1 Hok n f Hn) as [Hf [r Ha]].
      destruct (file_dup_ok (ps_k s) a f r Hr Ha Hf) as (k1 & H1 & Hr1 & Hf1 & Hc1); [pose proof (proj2 Hok f r Ha); lia|].
      destruct (IH (set_ps_k k1 s) (<[f := r + 1]> a) (set_filelist (<[n := Some f]> (filelist q)) q)) as (k2 & H2 & Hf2 & Hr2 & Hc2).
      * by destruct s.
      * done.
      * by rewrite proc_of_set_k.
      * by destruct s.
      * by eapply files_ok_step; [exact Hok | lia | exact Hn |].
      * intros m Hm. apply Hl, elem_of_cons. by right.
      * exists k2. rewrite Hn. rewrite (lookup_total_correct _ _ _ Ha). split_and!; [| | exact Hr2 |].
        -- rewrite (dup_body_some _ _ cp n f k1) by done. rewrite H2. by destruct s, q.
        -- unfold frame_ft in *. rewrite Hf2. simpl. rewrite Hf1. by destruct (ps_k s), k2.
        -- rewrite Hc2. simpl. rewrite Hc1. apply cpu_touch_idemp.
    + rewrite Nat2Z.inj_succ, <- Z.add_1_r in Hok. destruct (IH s a q Hi Hne Hc Hr (files_ok_less _ _ _ Hok)) as (k2 & H2 & Hf2 & Hr2 & Hc2).
      { intros m Hm. apply Hl, elem_of_cons. by right. }
      exists k2. rewrite Hn. split_and!; [| done | done | done]. rewrite (dup_body_none _ _ cp n) by done. exact H2.
Qed.

Lemma dup_list_lookup pl l fl m : length fl = length pl ->
  dup_list pl l fl !! m = match pl !! m with Some (Some f) => if decide (m ∈ l) then Some (Some f) else fl !! m | _ => fl !! m end.
Proof.
  revert fl. induction l as [|n l IH]; intros fl Hlen.
  - change (dup_list pl [] fl) with fl. destruct (pl !! m) as [[f|]|]; [|done..]. by rewrite decide_False by (by intros ?%elem_of_nil).
  - change (dup_list pl (n :: l) fl) with (dup_list pl l (match pl !! n with Some (Some f) => <[n := Some f]> fl | _ => fl end)). rewrite IH.
    + destruct (decide (n = m)) as [->|Hne].
      * destruct (pl !! m) as [[f|]|] eqn:Hm; try done. rewrite (decide_True (P := m ∈ m :: l)) by (apply elem_of_cons; by left).
        rewrite list_lookup_insert_eq by (rewrite Hlen; by eapply lookup_lt_Some). by case_decide.
      * assert ((m ∈ n :: l) <-> m ∈ l) as Hin by (rewrite elem_of_cons; naive_solver).
        destruct (pl !! m) as [[f|]|]; rewrite ?(decide_ext _ _ _ _ Hin); destruct (pl !! n) as [[g|]|]; rewrite ?list_lookup_insert_ne by done; done.
    + by destruct (pl !! n) as [[f|]|]; rewrite ?length_insert.
Qed.

Lemma dup_list_all pl : length pl = 16%nat -> dup_list pl fseq (replicate 16 None) = pl.
Proof.
  intros Hl. apply list_eq. intros m. rewrite dup_list_lookup by done. destruct (decide (m < 16)%nat) as [Hm|Hm].
  - rewrite lookup_replicate_2 by done. destruct (lookup_lt_is_Some_2 pl m) as [[f|] Hf]; [lia | |]; rewrite Hf; [|done].
    rewrite decide_True; [done|]. apply elem_of_seq. unfold FILE_PER_PROC. lia.
  - rewrite (lookup_ge_None_2 pl m) by lia. apply lookup_ge_None_2. rewrite length_replicate. lia.
Qed.
End Dup.

(** ** [proc_fork] *)

(** The child's trapframe: a copy of the parent's with a result of 0. *)
Definition tf_mem (m : mem) (t ct : Z) : mem := store64 (memcpy m t ct TRAPFRAME_SIZE) (t + TF_A0) 0.

Lemma tf_mem_out m t ct x : ~ (t <= x < t + PGSIZE) -> load8 (tf_mem m t ct) x = load8 m x.
Proof.
  intros Hx. unfold tf_mem, PGSIZE in *. rewrite load8_store64_ne by (unfold TF_A0; lia). unfold memcpy.
  rewrite load8_memmove by (by vm_compute). change (u32 TRAPFRAME_SIZE) with 288. by rewrite decide_False by lia.
Qed.

Lemma tf_mem_in m t ct j : 0 <= j < TRAPFRAME_SIZE -> j < TF_A0 \/ TF_A0 + 8 <= j -> load8 (tf_mem m t ct) (t + j) = load8 m (ct + j).
Proof.
  unfold TRAPFRAME_SIZE, TF_A0. intros Hj Ha. unfold tf_mem. rewrite load8_store64_ne by (unfold TF_A0; lia). unfold memcpy.
  rewrite load8_memmove by (by vm_compute). change (u32 TRAPFRAME_SIZE) with 288. rewrite decide_True by lia. f_equal. lia.
Qed.

Lemma tf_mem_a0 m t ct : load64 (tf_mem m t ct) (t + TF_A0) = 0.
Proof. unfold tf_mem. by apply load64_store64_eq. Qed.

Section Spaces.
Context {D : Type}.
Implicit Types (s : kstate D) (kp up : list Z).

(** Only memory and the allocator matter to the address spaces. *)
Lemma two_spaces_ext s s' old new kp up : k_mem s' = k_mem s -> kern_region s' = kern_region s -> user_region s' = user_region s ->
  cpu_wf (k_cpu s') -> two_spaces s old new kp up -> two_spaces s' old new kp up.
Proof.
  intros Hm Hk Hu Hc [[Hpo Hto] [Hpn Htn] Hs].
  assert (pools s' kp up) as Hp by (destruct Hpo as [H1 H2 H3 H4 H5 _]; split; rewrite ?Hm, ?Hk, ?Hu; done).
  split; [split; [done | by rewrite Hm] | split; [done | by rewrite Hm] |]. intros r a Hr. rewrite Hm. intros Ha.
  eapply data_page_less; [exact Hm | done | by apply (Hs r)].
Qed.
End Spaces.

Section Fork.
Context {D : Type} `{!DiskDriver D}.
Implicit Types (s : pstate D) (i j c : nat) (p q : proc) (a : gmap nat Z).
Variables (trampoline fork_return : Z).
Abbreviation pcpu s := (k_cpu (ps_k s)).

(** What [proc_fork] needs: the process [cp] in slot [c] runs, slot [i] is the first
    unused one, the pages suffice and the parent's pages are its own. *)
Record fork_ready s c cp i p t root kp up a : Prop := {
  fr_alloc : alloc_ready trampoline s (pgtbl cp) (t :: root :: kp) up;
  fr_slot : first_unused s i p;
  fr_cur : cur s = Some c /\ proc_of s c = Some cp /\ p_state cp <> UNUSED;
  fr_t : t < 2 ^ 63;
  fr_files : ft_rel (ps_k s) a /\ length (filelist cp) = 16%nat /\ files_ok (filelist cp) a 16;
  fr_tf : data_page (ps_k s) (pgtbl cp) (t :: root :: kp) up (tf cp);
  fr_pages : forall x v, 0 <= x < VA_MAX -> pt_map (k_mem (ps_k s)) (pgtbl cp) x = Some v ->
    data_page (ps_k s) (pgtbl cp) (t :: root :: kp) up (PTE_TO_PA v);
  fr_top : 0 <= heap_top cp /\ 0 <= ustack_pages cp /\ heap_top cp + ustack_pages cp * PGSIZE <= USTACK_BASE + PGSIZE;
  fr_user : (mapped_count (k_mem (ps_k s)) (pgtbl cp) (heap_vas (heap_top cp) ++ stack_vas (ustack_pages cp)) <= length up)%nat;
  fr_low : Forall (fun n => n < 2 ^ 63) up;
  fr_tables : 2 * (Z.of_nat (npages 0 (heap_top cp)) + ustack_pages cp) + 6 <= Z.of_nat (length kp) < 2 ^ 19
}.

(** The child as it starts. *)
Definition child_proc (g t root : Z) i c cp p : proc :=
  set_parent (Some c) (set_heap_top (heap_top cp) (set_filelist (filelist cp) (fresh_proc fork_return g t root i p))).

Lemma ready_copy s s1 c cp i p p1 t root kp kp1 up a : fork_ready s c cp i p t root kp up a ->
  allocated trampoline fork_return s s1 i p p1 (pgtbl cp) t root (t :: root :: kp) kp1 up ->
  copy_ready (ps_k s1) (pgtbl cp) root kp1 up (heap_top cp) (ustack_pages cp).
Proof.
  intros Hr Ha. pose proof (al_used _ _ _ _ _ _ _ _ _ _ _ _ _ Ha) as [[u Hu] Hlen]. pose proof (fr_tables _ _ _ _ _ _ _ _ _ _ Hr) as Ht.
  pose proof (al_tree _ _ _ _ _ _ _ _ _ _ _ _ _ Ha) as Htree. destruct (fr_top _ _ _ _ _ _ _ _ _ _ Hr) as (H1 & H2 & H3).
  split; try done.
  - intros x v Hx. rewrite (same_tree_map _ _ _ x Htree). intros Hv. by apply (al_keep _ _ _ _ _ _ _ _ _ _ _ _ _ Ha), (fr_pages _ _ _ _ _ _ _ _ _ _ Hr x).
  - rewrite (mapped_count_same _ _ _ _ Htree). apply (fr_user _ _ _ _ _ _ _ _ _ _ Hr).
  - apply (fr_low _ _ _ _ _ _ _ _ _ _ Hr).
  - apply (f_equal length) in Hu. rewrite length_app in Hu. cbn [length] in *. lia.
Qed.

(** The kernel's part: memory, trapframe. *)
Lemma fork_memory s s1 c cp i p p1 t root kp kp1 up a : fork_ready s c cp i p t root kp up a ->
  allocated trampoline fork_return s s1 i p p1 (pgtbl cp) t root (t :: root :: kp) kp1 up ->
  exists k2 kp2 up2, uvm_copy_pgtbl (pgtbl cp) root (heap_top cp) (u32 (ustack_pages cp)) (ps_k s1) = Ret tt k2 /\
    copied_all (ps_k s1) k2 (pgtbl cp) root kp1 kp2 up up2 (heap_vas (heap_top cp) ++ stack_vas (ustack_pages cp)) /\
    two_spaces (set_k_mem (tf_mem (k_mem k2) t (tf cp)) k2) (pgtbl cp) root kp2 up2 /\
    same_tree (k_mem k2) (tf_mem (k_mem k2) t (tf cp)) (pgtbl cp) /\ same_tree (k_mem k2) (tf_mem (k_mem k2) t (tf cp)) root.
Proof.
  intros Hr Ha. pose proof (ready_copy _ _ _ _ _ _ _ _ _ _ _ _ _ Hr Ha) as Hcr.
  destruct (uvm_copy_ok (ps_k s1) (pgtbl cp) root kp1 up _ _ (al_spaces _ _ _ _ _ _ _ _ _ _ _ _ _ Ha) Hcr) as (k2 & kp2 & up2 & H2 & Hc2).
  exists k2, kp2, up2. pose proof (fr_tables _ _ _ _ _ _ _ _ _ _ Hr) as Ht. pose proof (fr_top _ _ _ _ _ _ _ _ _ _ Hr) as Htop.
  rewrite u32_small by lia. destruct (c_keep _ _ _ _ _ _ _ _ _ Hc2 t (al_tf _ _ _ _ _ _ _ _ _ _ _ _ _ Ha)) as [Hpt _].
  destruct (private_outside k2 (pgtbl cp) root kp2 up2 t (tf_mem (k_mem k2) t (tf cp)) (c_ok _ _ _ _ _ _ _ _ _ Hc2) Hpt) as (Hts & Ho & Hn); [apply tf_mem_out|].
  by split_and!.
Qed.

(** [proc_fork] after the child was allocated. *)
Definition fork_rest c i : M (pstate D) Z :=
  cg ← get_proc c pgtbl;
  g ← get_proc i pgtbl;
  h ← get_proc c heap_top;
  u ← get_proc c ustack_pages;
  on_k (uvm_copy_pgtbl cg g h (u32 u));;
  upd_proc i (set_heap_top h);;
  ct ← get_proc c tf;
  t ← get_proc i tf;
  on_k (modify (fun k => set_k_mem (memcpy (k_mem k) t ct TRAPFRAME_SIZE) k));;
  on_k (put64 (t + TF_A0) 0);;
  for_each fseq (dup_body c i);;
  n ← get_proc i pid;
  plock i spinlock_release;;
  upd_proc i (set_parent (Some c));;
  plock i spinlock_acquire;;
  upd_proc i (set_p_state RUNNABLE);;
  plock i spinlock_release;;
  mret n.

Lemma proc_fork_split s c i s1 : cur s = Some c -> proc_alloc trampoline fork_return s = Ret (Some i) s1 ->
  proc_fork trampoline fork_return s = fork_rest c i s1.
Proof. intros Hc Ha. unfold proc_fork, myproc. mrun. rewrite Hc. mrun. by rewrite (bind_ret_eq _ _ _ _ _ Ha). Qed.

Lemma on_k_modify {B} i q (f : kstate D -> kstate D) (K : unit -> M (pstate D) B) s :
  (on_k (modify f) ≫= K) (put_proc i q s) = K tt (put_proc i q (set_ps_k (f (ps_k s)) s)).
Proof. by apply on_k_at. Qed.

Lemma set_k_twice k k' s : set_ps_k k (set_ps_k k' s) = set_ps_k k s.
Proof. done. Qed.

Lemma tf_steps (k : kstate D) t ct :
  set_k_mem (store64 (k_mem (set_k_mem (memcpy (k_mem k) t ct TRAPFRAME_SIZE) k)) (t + TF_A0) 0) (set_k_mem (memcpy (k_mem k) t ct TRAPFRAME_SIZE) k) =
  set_k_mem (tf_mem (k_mem k) t ct) k.
Proof. reflexivity. Qed.

Lemma fork_rest_run s c i cp q k2 a : (i < length (procs s))%nat -> i <> c -> proc_of s c = Some cp -> length (filelist cp) = 16%nat ->
  filelist q = replicate 16 None ->
  uvm_copy_pgtbl (pgtbl cp) (pgtbl q) (heap_top cp) (u32 (ustack_pages cp)) (ps_k s) = Ret tt k2 ->
  cpu_wf (k_cpu k2) -> 0 < noff (k_cpu k2) -> held_by (hartid (k_cpu k2)) (p_lk q) ->
  ft_rel k2 a -> files_ok (filelist cp) a 16 ->
  exists k4 k5, fork_rest c i (put_proc i q s) = Ret (pid q) (put_proc i
      (set_p_lk (drop_lock (take_lock (hartid (k_cpu k2)) (drop_lock (p_lk q))))
        (set_p_state RUNNABLE (set_parent (Some c) (set_heap_top (heap_top cp) (set_filelist (filelist cp) q))))) (set_ps_k k5 s)) /\
    frame_ft (set_k_mem (tf_mem (k_mem k2) (tf q) (tf cp)) k2) k4 /\ ft_rel k4 (dup_counts (filelist cp) fseq a) /\
    k5 = set_k_cpu (k_cpu k5) k4 /\ cpu_wf (k_cpu k5).
Proof.
  intros Hi Hne Hc Hl Hq Hcopy Hcw Hn Hh Hft Hfo. set (k3 := set_k_mem (tf_mem (k_mem k2) (tf q) (tf cp)) k2).
  assert (ft_rel k3 a) as Hft3 by (destruct Hft as [? ? ? ?]; by destruct k2; split).
  assert (forall n, n ∈ fseq -> is_Some (filelist cp !! n)) as Hsome.
  { intros n [_ Hin]%elem_of_seq. apply lookup_lt_is_Some_2. rewrite Hl. unfold FILE_PER_PROC in Hin. lia. }
  destruct (dup_loop c i cp fseq (set_ps_k k3 s) a (set_heap_top (heap_top cp) q)) as (k4 & H4 & Hf4 & Hr4 & Hc4);
    [by destruct s | done | by rewrite proc_of_set_k | by destruct s | done | done |].
  assert (hartid (k_cpu k4) = hartid (k_cpu k2) /\ noff (k_cpu k4) = noff (k_cpu k2)) as [Hh4 Hn4].
  { assert (cpu_touch (k_cpu k4) = cpu_touch (k_cpu k2)) as Ht by (rewrite Hc4; by destruct s, k2).
    split; [apply (f_equal hartid) in Ht | apply (f_equal noff) in Ht]; exact Ht. }
  pose proof (ft_cpu _ _ Hr4) as Hcw4. cbn [filelist] in H4.
  assert (dup_list (filelist cp) fseq (filelist (set_heap_top (heap_top cp) q)) = filelist cp) as Hdup.
  { change (filelist (set_heap_top (heap_top cp) q)) with (filelist q). rewrite Hq. by apply dup_list_all. }
  rewrite Hdup in H4.
  assert (0 < noff (k_cpu k4)) as Hn4' by (by rewrite Hn4).
  assert (cpu_wf (cpu_pop (k_cpu k4))) as Hcw5 by (by apply cpu_pop_wf).
  assert (cpu_wf (cpu_pop (cpu_push (cpu_pop (k_cpu k4))))) as Hcw6.
  { apply cpu_pop_wf; [by apply cpu_push_wf|]. unfold cpu_push, cpu_pop. cbn [noff]. lia. }
  exists k4, (set_k_cpu (cpu_pop (cpu_push (cpu_pop (k_cpu k4)))) k4). split_and!; [| exact Hf4 | exact Hr4 | reflexivity | exact Hcw6].
  assert (forall k, length (procs (set_ps_k k s)) = length (procs s)) as Hlen by (by destruct s).
  assert (forall k r, proc_of (put_proc i r (set_ps_k k s)) c = Some cp) as Hc0 by (intros k r; by rewrite proc_of_put_ne, proc_of_set_k).
  unfold fork_rest. rewrite (get_proc_eq c pgtbl _ _ cp) by (by rewrite proc_of_put_ne). rewrite (get_at i q pgtbl _ s Hi).
  rewrite (get_proc_eq c heap_top _ _ cp) by (by rewrite proc_of_put_ne). rewrite (get_proc_eq c ustack_pages _ _ cp) by (by rewrite proc_of_put_ne).
  rewrite (on_k_at _ _ _ _ _ _ _ Hcopy). rewrite upd_at by (by rewrite Hlen).
  rewrite (get_proc_eq c tf _ _ cp (Hc0 _ _)). rewrite get_at by (by rewrite Hlen). cbv beta.
  unfold put64. rewrite !on_k_modify, !set_k_twice.
  change (ps_k (set_ps_k ?k s)) with k. rewrite tf_steps. change (ps_k (set_ps_k k2 s)) with k2. change (tf (set_heap_top (heap_top cp) q)) with (tf q). fold k3.
  rewrite (bind_ret_eq _ _ _ _ _ H4), set_k_twice. rewrite get_at by (by rewrite Hlen). cbv beta.
  erewrite (bind_ret_eq (plock i spinlock_release)) by (apply release_at; [by rewrite Hlen | exact Hcw4 | exact Hn4' | simpl; by rewrite Hh4]).
  rewrite set_k_twice. rewrite upd_at by (by rewrite Hlen).
  erewrite (bind_ret_eq (plock i spinlock_acquire)) by (apply acquire_at; [by rewrite Hlen | done]). rewrite set_k_twice. rewrite upd_at by (by rewrite Hlen).
  erewrite (bind_ret_eq (plock i spinlock_release)) by (apply release_at; [by rewrite Hlen | by apply cpu_push_wf | simpl; lia | by split]).
  unfold mret, M_ret. rewrite set_k_twice, <- Hh4. reflexivity.
Qed.

Lemma ft_rel_frame (k k' : kstate D) a : ft_rel k a -> frame_vm k k' -> cpu_wf (k_cpu k') -> ft_rel k' a.
Proof.
  intros [H1 H2 H3 H4] Hf Hc. assert (k_ft k' = k_ft k) as He by (rewrite Hf; by destruct k).
  split; [by rewrite He | by rewrite He | done |]. intros i f. unfold file_of. rewrite He. apply H4.
Qed.

(** The state after the fork of [cp] into the slot [i], which held [p]. *)
Record forked s s' c cp i p (t root : Z) (up : list Z) a : Prop := {
  fk_quiet : quiet s';
  fk_child : exists p', proc_of s' i = Some p' /\ bare p' = bare (child_proc (global_pid s) t root i c cp p);
  fk_others : forall j, j <> i -> bare <$> proc_of s' j = bare <$> proc_of s j;
  fk_files : ft_rel (ps_k s') (dup_counts (filelist cp) fseq a);
  fk_spaces : exists kp' up', two_spaces (ps_k s') (pgtbl cp) root kp' up';
  fk_copy : forall x v, 0 <= x < VA_MAX -> covered (heap_top cp) (ustack_pages cp) x -> pt_map (k_mem (ps_k s)) (pgtbl cp) x = Some v ->
    exists n, n ∈ up /\ pt_map (k_mem (ps_k s')) root x = Some (mk_pte n (PTE_FLAGS v)) /\
      uload (k_mem (ps_k s')) root x = uload (k_mem (ps_k s)) (pgtbl cp) x;
  fk_rest : forall x, 0 <= x < VA_MAX -> ~ covered (heap_top cp) (ustack_pages cp) x \/ pt_map (k_mem (ps_k s)) (pgtbl cp) x = None ->
    pt_map (k_mem (ps_k s')) root x = user_map trampoline t x;
  fk_parent : forall x, 0 <= x < VA_MAX -> uload (k_mem (ps_k s')) (pgtbl cp) x = uload (k_mem (ps_k s)) (pgtbl cp) x;
  fk_tf : (forall j : Z, 0 <= j < TRAPFRAME_SIZE -> j < TF_A0 \/ TF_A0 + 8 <= j ->
      load8 (k_mem (ps_k s')) (t + j) = load8 (k_mem (ps_k s)) (tf cp + j)) /\ load64 (k_mem (ps_k s')) (t + TF_A0) = 0
}.

(** The memory of the two processes, from the allocation [s1] to the end. *)
Lemma fork_mem s s1 c cp i p p1 (t root : Z) (kp kp1 kp2 up up2 : list Z) a (k2 : kstate D) (m : mem) : fork_ready s c cp i p t root kp up a ->
  allocated trampoline fork_return s s1 i p p1 (pgtbl cp) t root (t :: root :: kp) kp1 up ->
  copied_all (ps_k s1) k2 (pgtbl cp) root kp1 kp2 up up2 (heap_vas (heap_top cp) ++ stack_vas (ustack_pages cp)) ->
  same_tree (k_mem k2) (tf_mem (k_mem k2) t (tf cp)) (pgtbl cp) -> same_tree (k_mem k2) (tf_mem (k_mem k2) t (tf cp)) root ->
  m = tf_mem (k_mem k2) t (tf cp) ->
  (forall x, 0 <= x < VA_MAX -> uload m (pgtbl cp) x = uload (k_mem (ps_k s)) (pgtbl cp) x) /\
  (forall x, 0 <= x < VA_MAX -> pt_map m root x = pt_map (k_mem k2) root x) /\
  (forall n j : Z, data_page k2 root kp2 up2 n -> n <> t -> 0 <= j < PGSIZE -> load8 m (n + j) = load8 (k_mem k2) (n + j)) /\
  (forall j : Z, 0 <= j < TRAPFRAME_SIZE -> j < TF_A0 \/ TF_A0 + 8 <= j -> load8 m (t + j) = load8 (k_mem (ps_k s)) (tf cp + j)).
Proof.
  intros Hr Ha Hc Hto Htn ->. pose proof (al_tf _ _ _ _ _ _ _ _ _ _ _ _ _ Ha) as Htf.
  pose proof (al_tree _ _ _ _ _ _ _ _ _ _ _ _ _ Ha) as Htree. pose proof (proj1 (proj1 Htf)) as Htok.
  assert (forall q : Z, data_page (ps_k s) (pgtbl cp) (t :: root :: kp) up q -> q <> t /\ forall x : Z, q <= x < q + PGSIZE ->
    load8 (tf_mem (k_mem k2) t (tf cp)) x = load8 (k_mem (ps_k s)) x /\ load8 (k_mem k2) x = load8 (k_mem (ps_k s)) x) as Hpage.
  { intros q Hq. assert (q <> t) as Hne by (intros ->; apply (proj1 (proj2 Hq)); cbn [app]; apply elem_of_cons; by left).
    split; [done|]. intros x Hx. destruct (al_keep _ _ _ _ _ _ _ _ _ _ _ _ _ Ha q Hq) as [Hp1 Hk1]. destruct (c_keep _ _ _ _ _ _ _ _ _ Hc q Hp1) as [_ Hk2].
    assert (load8 (k_mem k2) x = load8 (k_mem (ps_k s)) x) as He by (by rewrite Hk2, Hk1). split; [|done].
    rewrite tf_mem_out; [done|]. destruct (page_sep q t (proj1 Hq) Htok Hne); lia. }
  split_and!.
  - intros x Hx. unfold uload, phys. rewrite (same_tree_map _ _ _ x Hto), (same_tree_map _ _ _ x (c_tree _ _ _ _ _ _ _ _ _ Hc)), (same_tree_map _ _ _ x Htree).
    destruct (pt_map (k_mem (ps_k s)) (pgtbl cp) x) as [v|] eqn:Hv; [|done]. cbn. f_equal.
    destruct (Hpage (PTE_TO_PA v) (fr_pages _ _ _ _ _ _ _ _ _ _ Hr x v Hx Hv)) as [_ Hk]. apply Hk. pose proof (Z.mod_pos_bound x PGSIZE ltac:(done)). lia.
  - intros x Hx. by apply same_tree_map.
  - intros n j Hn Hne Hj. apply tf_mem_out. destruct (page_sep n t (proj1 Hn) Htok Hne); lia.
  - intros j Hj Hout. rewrite tf_mem_in by done. destruct (Hpage (tf cp) (fr_tf _ _ _ _ _ _ _ _ _ _ Hr)) as [_ Hk]. apply Hk.
    unfold TRAPFRAME_SIZE, PGSIZE in *. lia.
Qed.

(** The copied addresses. *)
Lemma fork_copy s s1 c cp i p p1 (t root : Z) (kp kp1 kp2 up up2 : list Z) a (k2 : kstate D) (m : mem) : fork_ready s c cp i p t root kp up a ->
  allocated trampoline fork_return s s1 i p p1 (pgtbl cp) t root (t :: root :: kp) kp1 up ->
  copied_all (ps_k s1) k2 (pgtbl cp) root kp1 kp2 up up2 (heap_vas (heap_top cp) ++ stack_vas (ustack_pages cp)) ->
  (forall x, 0 <= x < VA_MAX -> pt_map m root x = pt_map (k_mem k2) root x) ->
  (forall n j : Z, data_page k2 root kp2 up2 n -> n <> t -> 0 <= j < PGSIZE -> load8 m (n + j) = load8 (k_mem k2) (n + j)) ->
  forall x v, 0 <= x < VA_MAX -> covered (heap_top cp) (ustack_pages cp) x -> pt_map (k_mem (ps_k s)) (pgtbl cp) x = Some v ->
    exists n, n ∈ up /\ pt_map m root x = Some (mk_pte n (PTE_FLAGS v)) /\ uload m root x = uload (k_mem (ps_k s)) (pgtbl cp) x.
Proof.
  intros Hr Ha Hc Hmap Hload x v Hx Hcov Hv. destruct (fr_top _ _ _ _ _ _ _ _ _ _ Hr) as (H1 & H2 & H3).
  apply (covered_page _ _ _ H1 H2 H3 (proj1 Hx)) in Hcov as (va & Hin & Hp).
  destruct (c_copy _ _ _ _ _ _ _ _ _ Hc va x Hin Hx Hp v) as (n & Hn & Hm & Hpn & Hb).
  { by rewrite (same_tree_map _ _ _ x (al_tree _ _ _ _ _ _ _ _ _ _ _ _ _ Ha)). }
  assert (n <> t) as Hne.
  { intros ->. apply (proj1 (proj2 (proj1 (al_tf _ _ _ _ _ _ _ _ _ _ _ _ _ Ha)))). apply elem_of_app. by right. }
  exists n. split_and!; [done | by rewrite Hmap |]. unfold uload, phys. rewrite Hmap, Hm, Hv by done. cbn [mbind option_bind fmap option_fmap option_map].
  destruct (proj1 (proj1 Hpn)) as (Hn0 & Hal & Hn64). rewrite PTE_TO_PA_mk; [| unfold PGSIZE in *; lia | done | apply PTE_FLAGS_range].
  pose proof (Z.mod_pos_bound x PGSIZE ltac:(done)) as Hmod. f_equal. rewrite Hload by (done || apply Hpn). rewrite Hb by done.
  apply (al_keep _ _ _ _ _ _ _ _ _ _ _ _ _ Ha (PTE_TO_PA v) (fr_pages _ _ _ _ _ _ _ _ _ _ Hr x v Hx Hv)). lia.
Qed.

(** The final state, from the child's allocation [s1], the copy [k2] and the open files [k4]. *)
Lemma fork_forked s s1 c cp cp1 i p p1 (t root : Z) (kp kp1 kp2 up up2 : list Z) a (k2 k4 k5 : kstate D) lk : fork_ready s c cp i p t root kp up a ->
  allocated trampoline fork_return s s1 i p p1 (pgtbl cp) t root (t :: root :: kp) kp1 up ->
  copied_all (ps_k s1) k2 (pgtbl cp) root kp1 kp2 up up2 (heap_vas (heap_top cp) ++ stack_vas (ustack_pages cp)) ->
  two_spaces (set_k_mem (tf_mem (k_mem k2) t (tf cp)) k2) (pgtbl cp) root kp2 up2 ->
  same_tree (k_mem k2) (tf_mem (k_mem k2) t (tf cp)) (pgtbl cp) -> same_tree (k_mem k2) (tf_mem (k_mem k2) t (tf cp)) root ->
  bare cp1 = bare cp -> is_free lk ->
  frame_ft (set_k_mem (tf_mem (k_mem k2) t (tf cp)) k2) k4 -> ft_rel k4 (dup_counts (filelist cp) fseq a) ->
  k5 = set_k_cpu (k_cpu k5) k4 -> cpu_wf (k_cpu k5) ->
  forked s (put_proc i (set_p_lk lk (set_p_state RUNNABLE (set_parent (Some c) (set_heap_top (heap_top cp1) (set_filelist (filelist cp1) p1))))) (set_ps_k k5 s1))
    c cp i p t root up a.
Proof.
  intros Hr Ha Hc Hts Hto Htn Hcp Hlk Hf4 Hr4 H5 Hcw.
  assert (k_mem k5 = tf_mem (k_mem k2) t (tf cp)) as Hm by (rewrite H5, Hf4; by destruct k2, k4, k5).
  destruct (fork_mem _ _ _ _ _ _ _ _ _ _ _ _ _ _ _ _ _ Hr Ha Hc Hto Htn Hm) as (Hu & Hmap & Hload & Htf).
  pose proof (al_rest _ _ _ _ _ _ _ _ _ _ _ _ _ Ha) as [Hlen Hprocs Hfree Hpid Hcur].
  pose proof (proc_of_lt _ _ _ (al_proc _ _ _ _ _ _ _ _ _ _ _ _ _ Ha)) as Hi.
  assert (forall k q j, j <> i -> proc_of (put_proc i q (set_ps_k k s1)) j = proc_of s1 j) as Hput by (intros k q j Hj; by rewrite proc_of_put_ne, proc_of_set_k).
  split.
  - split; [simpl; by rewrite length_insert | exact Hcw |]. intros j q. change (procs ?x !! j) with (proc_of x j). destruct (decide (j = i)) as [->|Hj].
    + rewrite proc_of_put by (by destruct s1). by intros [= <-].
    + rewrite Hput by done. by apply Hfree.
  - eexists. split; [apply proc_of_put; by destruct s1|]. pose proof (al_bare _ _ _ _ _ _ _ _ _ _ _ _ _ Ha) as Hb.
    apply (f_equal (fun q => set_p_state RUNNABLE (set_parent (Some c) (set_heap_top (heap_top cp) (set_filelist (filelist cp) q))))) in Hb.
    assert (heap_top cp1 = heap_top cp) as -> by (apply (f_equal heap_top) in Hcp; exact Hcp).
    assert (filelist cp1 = filelist cp) as -> by (apply (f_equal filelist) in Hcp; exact Hcp). exact Hb.
  - intros j Hj. rewrite Hput by done. by apply Hprocs.
  - change (ps_k (put_proc i ?q (set_ps_k k5 s1))) with k5. rewrite H5. destruct Hr4 as [? ? ? ?]. by destruct k4, k5; split.
  - exists kp2, up2. change (ps_k (put_proc i ?q (set_ps_k k5 s1))) with k5. apply (two_spaces_ext (set_k_mem (tf_mem (k_mem k2) t (tf cp)) k2)); [| | | exact Hcw | exact Hts];
      rewrite H5, Hf4; by destruct k2, k4, k5.
  - by apply (fork_copy s s1 c cp i p p1 t root kp kp1 kp2 up up2 a k2 (k_mem k5)).
  - intros x Hx Hno. change (ps_k (put_proc i ?q (set_ps_k k5 s1))) with k5. rewrite Hmap by done.
    destruct (fr_top _ _ _ _ _ _ _ _ _ _ Hr) as (H1 & H2 & H3).
    rewrite (c_other _ _ _ _ _ _ _ _ _ Hc x Hx); [by apply (al_map _ _ _ _ _ _ _ _ _ _ _ _ _ Ha)|].
    destruct Hno as [Hno|Hno]; [left | right; by rewrite (same_tree_map _ _ _ x (al_tree _ _ _ _ _ _ _ _ _ _ _ _ _ Ha))].
    intros va Hin Hp. apply Hno, (covered_page _ _ _ H1 H2 H3 (proj1 Hx)). by exists va.
  - exact Hu.
  - split; [exact Htf|]. change (ps_k (put_proc i ?q (set_ps_k k5 s1))) with k5. rewrite Hm. apply tf_mem_a0.
Qed.

Lemma proc_fork_ok s c cp i p (t root : Z) (kp up : list Z) a : fork_ready s c cp i p t root kp up a ->
  exists s', proc_fork trampoline fork_return s = Ret (global_pid s) s' /\ forked s s' c cp i p t root up a.
Proof.
  intros Hr. destruct (fr_cur _ _ _ _ _ _ _ _ _ _ Hr) as (Hcur & Hc & Hst). pose proof (fr_slot _ _ _ _ _ _ _ _ _ _ Hr) as Hslot.
  pose proof (fr_tables _ _ _ _ _ _ _ _ _ _ Hr) as Ht. pose proof (fr_top _ _ _ _ _ _ _ _ _ _ Hr) as Htop.
  destruct (proc_alloc_some trampoline fork_return s (pgtbl cp) i p t root kp up (fr_alloc _ _ _ _ _ _ _ _ _ _ Hr) Hslot (fr_t _ _ _ _ _ _ _ _ _ _ Hr)) as (s1 & p1 & kp1 & H1 & Ha); [lia|].
  destruct (fork_memory s s1 c cp i p p1 t root kp kp1 up a Hr Ha) as (k2 & kp2 & up2 & H2 & Hc2 & Hts & Hto & Htn).
  assert (i <> c) as Hne by (intros ->; destruct Hslot as (Hp & Hs & _); congruence).
  pose proof (rs_procs _ _ _ (al_rest _ _ _ _ _ _ _ _ _ _ _ _ _ Ha) c ltac:(done)) as Hcp. rewrite Hc in Hcp.
  destruct (proc_of s1 c) as [cp1|] eqn:Hc1; [|done]. apply (inj Some) in Hcp.
  pose proof (al_bare _ _ _ _ _ _ _ _ _ _ _ _ _ Ha) as Hb. pose proof (al_proc _ _ _ _ _ _ _ _ _ _ _ _ _ Ha) as Hp1.
  assert (forall {A} (f : proc -> A), f (bare cp1) = f (bare cp)) as HE by (intros A f; by rewrite Hcp).
  assert (forall {A} (f : proc -> A), f (bare p1) = f (bare (fresh_proc fork_return (global_pid s) t root i p))) as HF by (intros A f; by rewrite Hb).
  pose proof (HE _ pgtbl) as E1. pose proof (HE _ heap_top) as E2. pose proof (HE _ ustack_pages) as E3. pose proof (HE _ tf) as E4. pose proof (HE _ filelist) as E5.
  pose proof (HF _ pgtbl) as F1. pose proof (HF _ tf) as F2. pose proof (HF _ filelist) as F3. pose proof (HF _ pid) as F4. simpl in E1, E2, E3, E4, E5, F1, F2, F3, F4.
  destruct (fr_files _ _ _ _ _ _ _ _ _ _ Hr) as (Hft & Hfl & Hfo). destruct (al_cpu _ _ _ _ _ _ _ _ _ _ _ _ _ Ha) as [Hh Hn].
  assert (hartid (k_cpu k2) = hartid (pcpu s1) /\ noff (k_cpu k2) = noff (pcpu s1)) as [Hh2 Hn2].
  { pose proof (c_cpu _ _ _ _ _ _ _ _ _ Hc2) as Ht2. split; [apply (f_equal hartid) in Ht2 | apply (f_equal noff) in Ht2]; exact Ht2. }
  assert (cpu_wf (k_cpu k2)) as Hcw2 by apply (pools_cpu _ _ _ (vm_pools _ _ _ _ (ts_old _ _ _ _ _ (c_ok _ _ _ _ _ _ _ _ _ Hc2)))).
  destruct (fork_rest_run s1 c i cp1 p1 k2 a) as (k4 & k5 & Hrun & Hf4 & Hr4 & H5 & Hcw5); rewrite ?E1, ?E2, ?E3, ?E5, ?F1; try done.
  - by apply proc_of_lt in Hp1.
  - rewrite Hn2, Hn. pose proof (q_cpu _ (ar_quiet _ _ _ _ _ (fr_alloc _ _ _ _ _ _ _ _ _ _ Hr))) as [? ?]. lia.
  - rewrite Hh2, Hh. apply Ha.
  - apply (ft_rel_frame (ps_k s)); [done | | done]. etransitivity; [apply (al_frame _ _ _ _ _ _ _ _ _ _ _ _ _ Ha) | apply Hc2].
  - rewrite F2, E4 in Hf4. rewrite E5 in Hr4. rewrite (put_self _ _ _ Hp1), F4 in Hrun.
    eexists. split; [rewrite (proc_fork_split s c i s1 Hcur H1); exact Hrun|].
    rewrite E2, E5. rewrite <- E2 at 1. rewrite <- E5 at 1.
    by eapply (fork_forked s s1 c cp cp1 i p p1 t root kp kp1 kp2 up up2 a k2 k4 k5).
Qed.

(** C16: [proc_fork] makes the first unused slot a child of the running process:
    runnable, with the next pid, which the parent is given, the parent's open
    files, each with one more reference, and a copy of its memory in pages of its
    own: every byte of the heap and the stack reads as in the parent, under the
    same permissions.  The child resumes from a copy of the parent's trapframe
    with [a0], the result of its system call, 0.  The parent's memory, the other
    processes and every lock are as before.  If the process table is full the
    result is -1 and nothing changes. *)
Theorem proc_fork_copies s c :
  (quiet s -> cur s = Some c -> (forall i, not_in UNUSED s i) -> exists s', proc_fork trampoline fork_return s = Ret (-1) s' /\ quiet s' /\ s' ≡ s) /\
  forall cp i p (t root : Z) (kp up : list Z) a, fork_ready s c cp i p t root kp up a ->
    exists s', proc_fork trampoline fork_return s = Ret (global_pid s) s' /\ forked s s' c cp i p t root up a.
Proof.
  split; [|intros *; apply proc_fork_ok]. intros Hq Hc Hn. destruct (alloc_full trampoline fork_return s Hq Hn) as (s' & H1 & Hq' & He).
  exists s'. split; [|done]. unfold proc_fork, myproc. mrun. rewrite Hc. mrun. by rewrite (bind_ret_eq _ _ _ _ _ H1).
Qed.
End Fork.

(** ** A parent with one page at 0x1000 and one open file *)

Definition demo_file : file := mk_file FD_FILE true false 1 0 0 None.
Definition demo_ft : ftable := mk_ftable (demo_file :: tail (files (k_ft (bss tt 0)))) zero_lock [].

Definition demo_parent : proc :=
  set_p_state RUNNING (set_pgtbl 0x80020000 (set_heap_top 0x2000 (set_tf 0x80021000 (set_filelist (Some 0%nat :: replicate 15 None) (demo_proc UNUSED))))).

Definition fork_ps (k : kstate unit) : pstate unit :=
  mk_pstate (set_k_ft demo_ft k) (demo_parent :: tail demo_table) (Some 0%nat) 5 zero_lock (Some 0%nat) 0 1.

Lemma vm_ok_ft {D} (k : kstate D) ft root kp up : vm_ok k root kp up -> vm_ok (set_k_ft ft k) root kp up.
Proof. intros [[H1 H2 H3 H4 H5 H6] Ht]. split; [by split | exact Ht]. Qed.

Lemma demo_ft_rel (k : kstate unit) : cpu_wf (k_cpu k) -> ft_rel (set_k_ft demo_ft k) {[0%nat := 1]}.
Proof.
  intros Hc. split; [done | done | exact Hc |]. intros [|i] f Hf; [vm_compute in Hf; injection Hf as <-; rewrite lookup_singleton_eq; by vm_compute|].
  rewrite lookup_singleton_ne by done. apply (Forall_lookup_1 (fun f => f_type f = FD_UNUSED /\ f_ref f = 0) (tail (files (k_ft (bss tt 0)))) i f); [|exact Hf].
  apply (bool_decide_unpack _). by vm_compute.
Qed.

Lemma demo_space : exists (k : kstate unit) t root kp, vm_ok k 0x80020000 (t :: root :: kp) (page_list 255 0x80121000) /\
  (240 <= length kp < 256)%nat /\ t < 2 ^ 63 /\
  data_page k 0x80020000 (t :: root :: kp) (page_list 255 0x80121000) 0x80021000 /\
  data_page k 0x80020000 (t :: root :: kp) (page_list 255 0x80121000) 0x80120000 /\
  forall x, 0 <= x < VA_MAX -> pt_map (k_mem k) 0x80020000 x = if decide (page_of x = 1) then Some (mk_pte 0x80120000 0x17) else None.
Proof.
  destruct demo_vm as (s0 & Hv0 & Hz). change demo_up with (0x80120000 :: page_list 255 0x80121000) in Hv0.
  destruct (take_user s0 _ _ _ _ Hv0) as (s1 & _ & Hv1 & Hm1 & _ & _ & Hd1).
  change (page_list 255 0x80021000) with (0x80021000 :: page_list 254 0x80022000) in Hv1, Hd1.
  destruct (take_kern s1 _ _ _ _ Hv1) as (s2 & _ & Hv2 & Hm2 & _ & _ & Hd2).
  assert (data_page s2 0x80020000 (page_list 254 0x80022000) (page_list 255 0x80121000) 0x80120000) as Hd1'.
  { eapply data_page_less; [exact Hm2 | | exact Hd1]. intros x. cbn [app]. rewrite elem_of_cons. by right. }
  destruct (map_one_page s2 0x80020000 _ _ 0x1000 0x80120000 0x16 Hv2) as (s3 & kp3 & _ & Hg & Hl & Hmap); [by vm_compute..|].
  change (length (page_list 254 0x80022000)) with 254%nat in Hl.
  destruct kp3 as [|t [|root kp]]; [cbn [length] in Hl; lia..|].
  exists s3, t, root, kp. split_and!; [apply Hg | cbn [length] in Hl; lia | cbn [length] in Hl; lia | | | |].
  - destruct (g_used _ _ _ _ _ _ Hg) as [u Hu]. assert (t ∈ page_list 254 0x80022000) as Hin by (rewrite Hu, elem_of_app, elem_of_cons; tauto).
    apply elem_of_page_list in Hin as (j & Hj & ->). unfold PGSIZE. lia.
  - by apply (data_page_grows s2 s3 0x80020000 (page_list 254 0x80022000)).
  - by apply (data_page_grows s2 s3 0x80020000 (page_list 254 0x80022000)).
  - intros x Hx. rewrite Hmap by done. change (page_of 0x1000) with 1. case_decide; [by vm_compute|].
    rewrite Hm2, Hm1. unfold pt_map, leaf. cbn [node]. rewrite Hz by apply VPN_range. done.
Qed.

Lemma demo_fork_ready k t root kp : vm_ok k 0x80020000 (t :: root :: kp) (page_list 255 0x80121000) ->
  (240 <= length kp < 256)%nat -> t < 2 ^ 63 ->
  data_page k 0x80020000 (t :: root :: kp) (page_list 255 0x80121000) 0x80021000 ->
  data_page k 0x80020000 (t :: root :: kp) (page_list 255 0x80121000) 0x80120000 ->
  (forall x, 0 <= x < VA_MAX -> pt_map (k_mem k) 0x80020000 x = if decide (page_of x = 1) then Some (mk_pte 0x80120000 0x17) else None) ->
  fork_ready 0x80001000 (fork_ps k) 0 demo_parent 4 (demo_proc UNUSED) t root kp (page_list 255 0x80121000) {[0%nat := 1]}.
Proof.
  intros Hv Hkp Ht Htf Hpg Hmap. assert (cpu_wf (k_cpu k)) as Hcw by apply (pools_cpu _ _ _ (vm_pools _ _ _ _ Hv)).
  assert (forall i p, proc_of (fork_ps k) i = Some p -> is_free (p_lk p)) as Hfree.
  { intros i p Hp. apply (Forall_lookup_1 (fun q => is_free (p_lk q)) (demo_parent :: tail demo_table) i p); [|exact Hp].
    apply (bool_decide_unpack _). by vm_compute. }
  split.
  - split; [split; [done | exact Hcw | exact Hfree] | split; [done | change (global_pid (fork_ps k)) with 5; lia] | by apply vm_ok_ft | split; by vm_compute].
  - split_and!; [done | done | | done]. intros j Hj p Hp. do 4 (destruct j as [|j]; [vm_compute in Hp; by injection Hp as <-|]). lia.
  - done.
  - done.
  - split_and!; [| done |].
    + by apply demo_ft_rel.
    + split.
      * intros [|m] f Hf; [vm_compute in Hf; injection Hf as <-; split; [apply Nat.ltb_lt; reflexivity | by exists 1; rewrite lookup_singleton_eq]|].
        change (filelist demo_parent !! S m) with (replicate 15 (@None nat) !! m) in Hf. apply lookup_replicate_1 in Hf as [Hf _]. discriminate.
      * intros f r Hf. apply lookup_singleton_Some in Hf as [_ <-]. lia.
  - exact Htf.
  - intros x v Hx. change (k_mem (ps_k (fork_ps k))) with (k_mem k). change (pgtbl demo_parent) with 0x80020000. rewrite Hmap by done.
    case_decide; [|done]. intros [= <-]. exact Hpg.
  - by vm_compute.
  - unfold mapped_count. etransitivity; [apply length_filter|]. apply Nat.leb_le. by vm_compute.
  - apply (bool_decide_unpack _). by vm_compute.
  - change (npages 0 (heap_top demo_parent)) with 2%nat. change (ustack_pages demo_parent) with 0. lia.
Qed.

Lemma proc_fork_copies_witness : exists (s s' : pstate unit) root p', proc_fork 0x80001000 0x80000100 s = Ret 5 s' /\
  proc_of s' 4 = Some p' /\ parent p' = Some 0%nat /\ filelist p' !! 0%nat = Some (Some 0%nat) /\
  uload (k_mem (ps_k s')) root 0x1008 = uload (k_mem (ps_k s)) 0x80020000 0x1008 /\
  (exists f, file_of (ps_k s') 0 = Some f /\ f_ref f = 2).
Proof.
  destruct demo_space as (k & t & root & kp & Hv & Hl & Ht & Htf & Hpg & Hmap).
  destruct (proc_fork_copies 0x80001000 0x80000100 (fork_ps k) 0) as [_ Hok].
  destruct (Hok demo_parent 4%nat (demo_proc UNUSED) t root kp (page_list 255 0x80121000) {[0%nat := 1]}) as (s' & Hrun & Hf); [by apply demo_fork_ready|].
  destruct Hf as [_ (p' & Hp & Hb) _ Hft _ Hcopy _ _ _]. exists (fork_ps k), s', root, p'. split_and!; [exact Hrun | exact Hp | | | |].
  - apply (f_equal parent) in Hb. exact Hb.
  - apply (f_equal filelist) in Hb. change (filelist p' = filelist demo_parent) in Hb. by rewrite Hb.
  - destruct (Hcopy 0x1008 (mk_pte 0x80120000 0x17)) as (n & _ & _ & Hu); [by vm_compute | left; by vm_compute | | exact Hu].
    change (k_mem (ps_k (fork_ps k))) with (k_mem k). change (pgtbl demo_parent) with 0x80020000. rewrite Hmap by (by vm_compute). by vm_compute.
  - destruct (lookup_lt_is_Some_2 (files (k_ft (ps_k s'))) 0) as [f Hf]; [rewrite (ft_len _ _ Hft); apply Nat.ltb_lt; reflexivity|].
    exists f. split; [exact Hf|]. pose proof (ft_entry _ _ Hft 0%nat f Hf) as He.
    assert (dup_counts (filelist demo_parent) fseq {[0%nat := 1]} !! 0%nat = Some 2) as Hd by (by vm_compute). rewrite Hd in He. apply He.
Defined.
