(* ===== verification/ProcExit.v ===== *)
(** * ProcExit: the end of a process (kernel/proc/proc.c, proc_reparent, proc_exit)
    and the scan of [proc_wait] that looks for it *)

From S2P Require Import Prelude Bytes Kstring Spinlock Kernel Disk Buf Bitmap Inode Dir Pmem Vmem Uvm File Proc ProcSpec.

Section Exit.
Context {D : Type} `{!DiskDriver D}.
Implicit Types (s : pstate D) (i j c : nat) (p q : proc) (z : option nat) (l : list nat).
Abbreviation pcpu s := (k_cpu (ps_k s)).

(** ** [proc_reparent] *)

Definition is_child s c i : bool := match proc_of s i with Some p => bool_decide (parent p = Some c) | None => false end.

(** The children of [c] among [l] are given to [z]; [z] is woken when there are any. *)
Definition reparented c z (cu : option nat) (b : bool) l i p : proc :=
  let p' := if decide (i ∈ l /\ parent p = Some c) then set_parent z p else p in
  if decide (b = true /\ sleeps_on (chan_of z) cu i p) then set_p_state RUNNABLE p' else p'.

#[export] Instance reparented_bare c z cu b l : Bare (reparented c z cu b l).
Proof. intros i p. unfold reparented, sleeps_on. simpl. by repeat case_decide. Qed.

Definition reparent_body c i : M (pstate D) unit :=
  q ← get_proc i parent;
  when (bool_decide (q = Some c)) (
    z ← gets proczero;
    upd_proc i (set_parent z);;
    z ← gets proczero;
    proc_wakeup (chan_of z)).

Lemma reparent_one s c i p : quiet s -> proc_of s i = Some p -> parent p = Some c ->
  exists s', reparent_body c i s = Ret tt s' /\ quiet s' /\ s' ≡ upd_procs (reparented c (proczero s) (cur s) true [i]) s.
Proof.
  intros Hq Hp Hpar. pose proof (proc_of_lt _ _ _ Hp) as Hi. set (z := proczero s). set (s1 := put_proc i (set_parent z p) s).
  assert (s1 = upd_procs (fun j q => if decide (j ∈ [i] /\ parent q = Some c) then set_parent z q else q) s) as Hs1.
  { unfold s1, put_proc, upd_procs. f_equal. apply list_eq. intros j. rewrite list_lookup_imap. destruct (decide (j = i)) as [->|Hne].
    - unfold proc_of in Hp. rewrite list_lookup_insert_eq, Hp by done. simpl. by rewrite decide_True by (split; [by apply list_elem_of_singleton | done]).
    - rewrite list_lookup_insert_ne by done. destruct (procs s !! j); simpl; [|done].
      rewrite decide_False; [done|]. by intros [->%list_elem_of_singleton _]. }
  assert (quiet s1) as Hq1.
  { destruct Hq as [Hl Hc Hf]. split; [unfold s1, put_proc; simpl; by rewrite length_insert | done |].
    intros j q. change (procs s1 !! j) with (proc_of s1 j). destruct (decide (j = i)) as [->|Hne].
    - unfold s1. rewrite proc_of_put by done. intros [= <-]. exact (Hf i p Hp).
    - unfold s1. rewrite proc_of_put_ne by done. apply Hf. }
  destruct (wakeup_run s1 (chan_of z) Hq1) as (s2 & H2 & Hq2 & He2). exists s2. split_and!; [| done |].
  - unfold reparent_body. rewrite (get_proc_eq _ _ _ _ _ Hp), Hpar, bool_decide_true by done. cbn [when]. mrun.
    by rewrite (upd_proc_eq _ _ _ _ _ Hp).
  - rewrite He2, Hs1. change (cur (upd_procs _ s)) with (cur s). rewrite upd_procs_comp. apply reflexive_eq, upd_procs_ext. intros j q _.
    unfold reparented. cbv zeta. destruct (decide (j ∈ [i] /\ parent q = Some c)); apply decide_ext; unfold sleeps_on; simpl; tauto.
Qed.

Lemma reparented_compose c z cu b l i j p : i ∉ l ->
  reparented c z cu b l j (reparented c z cu true [i] j p) = reparented c z cu true (i :: l) j p.
Proof.
  intros Hn. unfold reparented. cbv zeta. destruct (decide (j ∈ [i] /\ parent p = Some c)) as [[->%list_elem_of_singleton Hc]|H1].
  - rewrite (decide_True (P := i ∈ i :: l /\ parent p = Some c)) by (split; [apply elem_of_cons; by left | done]).
    rewrite (decide_False (P := i ∈ l /\ _)) by tauto. unfold sleeps_on. by repeat case_decide; simpl in *; first [done | intuition congruence].
  - assert (parent (if decide (true = true /\ sleeps_on (chan_of z) cu j p) then set_p_state RUNNABLE p else p) = parent p) as -> by by case_decide.
    assert ((j ∈ i :: l /\ parent p = Some c) <-> (j ∈ l /\ parent p = Some c)) as Hin.
    { rewrite elem_of_cons. rewrite list_elem_of_singleton in H1. tauto. }
    rewrite (decide_ext _ _ _ _ Hin). unfold sleeps_on. by repeat case_decide; simpl in *; first [done | intuition congruence].
Qed.

Lemma reparented_false c z cu l j p : reparented c z cu false l j p = if decide (j ∈ l /\ parent p = Some c) then set_parent z p else p.
Proof. unfold reparented. cbv zeta. by rewrite (decide_False (P := false = true /\ _)) by (intros [[=] _]). Qed.

Lemma is_child_equiv s s' c i : s ≡ s' -> is_child s c i = is_child s' c i.
Proof.
  intros Hs. unfold is_child. destruct (proc_of s i) as [p|] eqn:Hp.
  - destruct (equiv_lookup s s' i p Hs Hp) as (p' & -> & Hb). apply (f_equal parent) in Hb. simpl in Hb. by rewrite Hb.
  - destruct (proc_of s' i) as [p'|] eqn:Hp'; [|done]. symmetry in Hs. destruct (equiv_lookup s' s i p' Hs Hp') as (? & ? & _). congruence.
Qed.

Lemma reparent_loop c l : forall s, quiet s -> NoDup l -> (forall i, i ∈ l -> (i < Z.to_nat NPROC)%nat) ->
  exists s', for_each l (reparent_body c) s = Ret tt s' /\ quiet s' /\
    s' ≡ upd_procs (reparented c (proczero s) (cur s) (existsb (is_child s c) l) l) s.
Proof.
  induction l as [|i l IH]; intros s Hq Hnd Hl; cbn [for_each existsb].
  { exists s. split_and!; [done..|]. rewrite (upd_procs_ext _ (fun _ q => q)); [by rewrite upd_procs_id|].
    intros j q _. rewrite reparented_false, decide_False; [done | intros [Hin _]; by apply elem_of_nil in Hin]. }
  apply NoDup_cons in Hnd as [Hni Hnd]. destruct (quiet_lookup s i Hq) as (p & Hp & _); [apply Hl, elem_of_cons; by left|].
  destruct (is_child s c i) eqn:Hchild; unfold is_child in Hchild; rewrite Hp in Hchild.
  - apply bool_decide_eq_true in Hchild. destruct (reparent_one s c i p Hq Hp Hchild) as (s1 & H1 & Hq1 & He1).
    destruct (IH s1 Hq1 Hnd) as (s2 & H2 & Hq2 & He2); [intros j Hj; apply Hl, elem_of_cons; by right|].
    exists s2. split_and!; [by rewrite (bind_ret_eq _ _ _ _ _ H1) | done |]. rewrite He2.
    assert (cur s1 = cur s) as -> by (by rewrite He1). assert (proczero s1 = proczero s) as -> by (apply (f_equal proczero) in He1; exact He1).
    rewrite (upd_procs_proper _ _ _ _ He1), upd_procs_comp. apply reflexive_eq, upd_procs_ext. intros j q _. by apply reparented_compose.
  - destruct (IH s Hq Hnd) as (s2 & H2 & Hq2 & He2); [intros j Hj; apply Hl, elem_of_cons; by right|].
    exists s2. split_and!; [| done |].
    + rewrite (bind_ret_eq _ _ _ tt s); [exact H2|]. unfold reparent_body. by rewrite (get_proc_eq _ _ _ _ _ Hp), Hchild.
    + rewrite He2. apply reflexive_eq, upd_procs_ext. intros j q Hj. cbn [orb]. unfold reparented. cbv zeta.
      assert ((j ∈ l /\ parent q = Some c) <-> (j ∈ i :: l /\ parent q = Some c)) as Hin; [|by rewrite (decide_ext _ _ _ _ Hin)].
      rewrite elem_of_cons. split; [tauto|]. intros [[->|Hin] Hc]; [|done]. unfold proc_of in Hp. rewrite Hp in Hj. injection Hj as <-.
      apply bool_decide_eq_false in Hchild. tauto.
Qed.
(** ** [proc_exit] *)

Definition has_children s c : bool := existsb (is_child s c) pseq.

(** What [exit_head] makes of process [j]: the children of [c] go to proczero, which
    is woken when there are any, and so is the parent [par]. *)
Definition orphaned s c (par : option nat) j p : proc :=
  let p' := if decide (parent p = Some c) then set_parent (proczero s) p else p in
  if decide (sleeps_on (chan_of par) (Some c) j p \/ (has_children s c = true /\ sleeps_on (chan_of (proczero s)) (Some c) j p))
  then set_p_state RUNNABLE p' else p'.

#[export] Instance orphaned_bare s c par : Bare (orphaned s c par).
Proof. intros i p. unfold orphaned, sleeps_on. simpl. by repeat case_decide. Qed.

#[export] Instance wake_bare ch cu : Bare (fun i p => if decide (sleeps_on ch cu i p) then set_p_state RUNNABLE p else p).
Proof. intros i p. unfold sleeps_on. simpl. by repeat case_decide. Qed.

Lemma orphaned_self s c par p : parent p <> Some c -> orphaned s c par c p = p.
Proof. intros Hp. unfold orphaned. cbv zeta. rewrite !decide_False; [done | done |]. intros [[Hn _]|[_ [Hn _]]]; by apply Hn. Qed.

Lemma pseq_in i : i ∈ pseq <-> (i < Z.to_nat NPROC)%nat.
Proof. unfold pseq. rewrite elem_of_seq. lia. Qed.

Lemma exit_head_run s c p : quiet s -> cur s = Some c -> proc_of s c = Some p -> parent p <> Some c ->
  exists s', exit_head c s = Ret tt s' /\ quiet s' /\ s' ≡ upd_procs (orphaned s c (parent p)) s.
Proof.
  intros Hq Hc Hp Hpar. unfold exit_head.
  destruct (reparent_loop c pseq s Hq) as (s1 & H1 & Hq1 & He1); [apply NoDup_seq | by intros i ?%pseq_in|].
  change (existsb _ pseq) with (has_children s c) in He1. rewrite Hc in He1.
  symmetry in He1. destruct (equiv_lookup _ _ c p He1) as (p1 & Hp1 & Hb1).
  { unfold proc_of, upd_procs in *. simpl. rewrite list_lookup_imap, Hp. simpl. f_equal. unfold reparented. cbv zeta.
    rewrite decide_False by (intros [_ [Hn _]]; by apply Hn). by rewrite decide_False by tauto. }
  symmetry in He1. destruct (wakeup_run s1 (chan_of (parent p)) Hq1) as (s2 & H2 & Hq2 & He2).
  exists s2. split_and!; [| done |].
  - change (proc_reparent c) with (for_each pseq (reparent_body c)). mstep ltac:(exact H1).
    rewrite (get_proc_eq _ _ _ _ _ Hp1). apply (f_equal parent) in Hb1. simpl in Hb1. by rewrite Hb1.
  - rewrite He2. assert (cur s1 = Some c) as -> by (by rewrite He1).
    rewrite (upd_procs_proper _ _ _ _ He1), upd_procs_comp. apply reflexive_eq, upd_procs_ext. intros j q Hj.
    apply lookup_lt_Some in Hj. rewrite (q_len s Hq) in Hj. apply pseq_in in Hj.
    unfold reparented, orphaned, sleeps_on. cbv zeta. by repeat case_decide; simpl in *; first [done | intuition congruence].
Qed.
(** Process [c] is a zombie that still holds its lock. *)
Definition zombie_at c p st s : pstate D :=
  put_proc c (set_p_state ZOMBIE (set_exit_state st (set_p_lk (take_lock (hartid (pcpu s)) (p_lk p)) p))) (locked_at c p s).

Lemma exit_tail_stops s c p st : cur s = Some c -> proc_of s c = Some p -> is_free (p_lk p) ->
  exit_tail (panic "swtch") c st s = Panic "swtch" (zombie_at c p st s).
Proof.
  intros Hc Hp Hf. pose proof (proc_of_lt _ _ _ Hp) as Hlt. unfold exit_tail. mstep ltac:(by apply plock_acquire).
  rewrite (upd_proc_eq _ _ _ _ _ (proc_of_locked _ _ _ Hp)). erewrite upd_proc_eq; [|apply proc_of_put; unfold locked_at, put_proc; simpl; by rewrite length_insert].
  rewrite put_put. apply bind_panic_eq. fold (zombie_at c p st s).
  assert (proc_of (zombie_at c p st s) c = Some (set_p_state ZOMBIE (set_exit_state st (set_p_lk (take_lock (hartid (pcpu s)) (p_lk p)) p)))) as Hz.
  { apply proc_of_put. unfold locked_at, put_proc; simpl. by rewrite length_insert. }
  by erewrite sched_switches; [| exact Hc | exact Hz | by split | |].
Qed.

Lemma zombie_self c p st s : proc_of s c = Some p -> proc_of (zombie_at c p st s) c =
  Some (set_p_state ZOMBIE (set_exit_state st (set_p_lk (take_lock (hartid (pcpu s)) (p_lk p)) p))).
Proof. intros Hp%proc_of_lt. apply proc_of_put. unfold locked_at, put_proc; simpl. by rewrite length_insert. Qed.

Lemma zombie_other c p st s j : j <> c -> proc_of (zombie_at c p st s) j = proc_of s j.
Proof. intros Hj. unfold zombie_at, locked_at. by rewrite !proc_of_put_ne by done. Qed.

(** Everything but the process table and this hart's interrupt state is the same:
    memory, the allocator, the page tables, the caches, the open files, the disk,
    the pid counter and its lock, the first process, the running process, the
    scheduler's position. *)
Definition only_procs s s' : Prop := s' = set_procs (procs s') (set_ps_k (set_k_cpu (pcpu s') (ps_k s)) s).

#[export] Instance only_procs_trans : Transitive only_procs.
Proof. intros [[]] [[]] [[]]. unfold only_procs, set_k_cpu, set_procs, set_ps_k; simpl. congruence. Qed.

Lemma equiv_only s s' : s ≡ s' -> only_procs s s'.
Proof.
  unfold equiv, pstate_equiv, bare_state, only_procs. destruct s as [[]], s' as [[]]. unfold set_k_cpu, set_procs, set_ps_k; simpl.
  intros [=]. subst. done.
Qed.

Lemma only_upd F s : only_procs s (upd_procs F s).
Proof. by destruct s as [[]]. Qed.

Lemma only_put i p s : only_procs s (put_proc i p s).
Proof. by destruct s as [[]]. Qed.

Lemma only_zombie c p st s : only_procs s (zombie_at c p st s).
Proof. by destruct s as [[]]. Qed.

(** C26: [proc_exit] by a process other than the first one makes it a ZOMBIE with its
    exit state and switches away with its lock held and interrupts off, from which it
    never returns.  Its children are given to the first process, which is woken when
    there are any; its parent is woken if it waits.  Nothing else of any process
    changes and no other lock stays held; the memory, the address spaces, the free
    pages, the files, the disk and the other variables of the kernel are the same:
    what the process used is left to [proc_wait]. *)
Theorem proc_exit_zombie s c p st : quiet s -> cur s = Some c -> proc_of s c = Some p -> proczero s <> Some c -> parent p <> Some c ->
  panics (proc_exit (panic "swtch") st) s "swtch" (fun s' =>
    (exists p', proc_of s' c = Some p' /\ bare p' = bare (set_p_state ZOMBIE (set_exit_state st p)) /\ held_by (hartid (pcpu s)) (p_lk p')) /\
    (forall j q, j <> c -> proc_of s j = Some q ->
      exists q', proc_of s' j = Some q' /\ bare q' = bare (orphaned s c (parent p) j q) /\ is_free (p_lk q')) /\
    length (procs s') = length (procs s) /\ only_procs s s' /\
    hartid (pcpu s') = hartid (pcpu s) /\ noff (pcpu s') = noff (pcpu s) + 1 /\ sie (pcpu s') = false).
Proof.
  intros Hq Hc Hp Hz Hpar. destruct (exit_head_run s c p Hq Hc Hp Hpar) as (s1 & H1 & Hq1 & He1).
  assert (cur s1 = Some c) as Hc1 by (by rewrite He1). assert (hartid (pcpu s1) = hartid (pcpu s) /\ noff (pcpu s1) = noff (pcpu s)) as [Hh Hno].
  { pose proof (f_equal (fun r => (hartid (k_cpu (ps_k r)), noff (k_cpu (ps_k r)))) He1) as He. by injection He. }
  symmetry in He1. assert (forall j q, proc_of s j = Some q -> exists q', proc_of s1 j = Some q' /\ bare q' = bare (orphaned s c (parent p) j q)) as Hat.
  { intros j q Hj. apply (equiv_lookup _ _ _ _ He1). unfold proc_of, upd_procs in *. simpl. by rewrite list_lookup_imap, Hj. }
  destruct (Hat c p Hp) as (p1 & Hp1 & Hb1). rewrite orphaned_self in Hb1 by done.
  assert (is_free (p_lk p1)) as Hf1 by (by apply (q_free s1 Hq1 c)).
  unfold panics, proc_exit, myproc. mrun. rewrite Hc. mrun. rewrite bool_decide_false by done.
  rewrite (bind_ret_eq _ _ _ _ _ H1), (exit_tail_stops s1 c p1 st Hc1 Hp1 Hf1). split; [done|]. split; [|split; [|split; [|split; [|split; [|split]]]]].
  - eexists. split_and!; [by apply zombie_self | |by rewrite Hh; split].
    change (set_p_state ZOMBIE (set_exit_state st (bare p1)) = set_p_state ZOMBIE (set_exit_state st (bare p))). by rewrite Hb1.
  - intros j q Hj Hjq. destruct (Hat j q Hjq) as (q' & Hq' & Hb'). exists q'. split_and!; [by rewrite zombie_other | done | by apply (q_free s1 Hq1 j)].
  - unfold zombie_at, locked_at, put_proc. simpl. rewrite !length_insert. by rewrite (q_len _ Hq1), (q_len _ Hq).
  - etransitivity; [apply (only_upd (orphaned s c (parent p))) | etransitivity; [by apply equiv_only | apply only_zombie]].
  - exact Hh.
  - simpl. by rewrite Hno.
  - done.
Qed.
(** ** [proc_wait] *)

Lemma is_child_lookup s c i p : proc_of s i = Some p -> is_child s c i = bool_decide (parent p = Some c).
Proof. intros Hp. unfold is_child. by rewrite Hp. Qed.

(** A scan that meets no zombie child changes nothing. *)
Lemma wait_scan_none (ea : nat -> Z) w addr l : forall s b, quiet s -> (forall i, i ∈ l -> (i < Z.to_nat NPROC)%nat) ->
  (forall i, i ∈ l -> is_child s w i = true -> not_in ZOMBIE s i) ->
  exists s', wait_scan ea l w addr b s = Ret (b || existsb (is_child s w) l, None) s' /\ quiet s' /\ s' ≡ s.
Proof.
  induction l as [|i l IH]; intros s b Hq Hl Hz; cbn [wait_scan existsb].
  { exists s. by rewrite orb_false_r. }
  destruct (quiet_lookup s i Hq) as (p & Hp & Hf); [apply Hl, elem_of_cons; by left|].
  rewrite (get_proc_eq _ _ _ _ _ Hp), (is_child_lookup s w i p Hp). case_bool_decide as Hc.
  - mstep ltac:(by apply plock_acquire). rewrite (get_proc_eq _ _ _ _ _ (proc_of_locked _ _ _ Hp)).
    rewrite bool_decide_false. 2:{ refine (Hz i _ _ p Hp); [apply elem_of_cons; by left|]. by rewrite (is_child_lookup s w i p Hp), bool_decide_true. }
    rewrite (bind_ret_eq _ _ _ _ _ (release_same _ _ _ Hq Hp)).
    assert (section_post i p p s ≡ s) as He.
    { rewrite (section_equiv s i p p (fun _ q => q)) by done. by rewrite upd_procs_id. }
    destruct (IH (section_post i p p s) true) as (s' & H' & Hq' & He'); [by apply section_quiet | intros j Hj; apply Hl, elem_of_cons; by right | |].
    { intros j Hj Hcj. apply (not_in_equiv _ s); [done|]. apply Hz; [apply elem_of_cons; by right|]. by rewrite <- (is_child_equiv _ _ w j He). }
    exists s'. split_and!; [| done | by rewrite He', He]. rewrite H'. cbn [orb]. by rewrite orb_true_r.
  - destruct (IH s b Hq) as (s' & H' & Hq' & He'); [intros j Hj; apply Hl, elem_of_cons; by right | intros j Hj; apply Hz, elem_of_cons; by right|].
    by exists s'.
Qed.

(** The rest of the scan at a zombie child [i], whose lock is held. *)
Definition reap_child (ea : nat -> Z) w i p addr : M (pstate D) (bool * option Z) :=
  when (negb (addr =? 0)) (
    g ← get_proc w pgtbl;
    on_k (mem_put (ea i) (le_bytes 4 (u32 (exit_state p))));;
    on_k (uvm_copyout g addr (ea i) 4));;
  proc_free i;;
  plock i spinlock_release;;
  mret (true, Some (pid p)).

(** The scan up to the first zombie child [i], which is then released. *)
Lemma wait_scan_zombie (ea : nat -> Z) w addr i rest l : forall s b, quiet s -> (forall j, j ∈ l ++ [i] -> (j < Z.to_nat NPROC)%nat) ->
  (forall j, j ∈ l -> is_child s w j = true -> not_in ZOMBIE s j) ->
  (exists p, proc_of s i = Some p /\ parent p = Some w /\ p_state p = ZOMBIE) ->
  exists s1 p, quiet s1 /\ s1 ≡ s /\ proc_of s1 i = Some p /\
    wait_scan ea (l ++ i :: rest) w addr b s = reap_child ea w i p addr (locked_at i p s1).
Proof.
  induction l as [|j l IH]; intros s b Hq Hl Hz (p & Hp & Hpar & Hst); cbn [app wait_scan].
  - exists s, p. split_and!; [done..|]. rewrite (get_proc_eq _ _ _ _ _ Hp), bool_decide_true by done.
    mstep ltac:(apply plock_acquire; [done | by apply (q_free s Hq i)]). rewrite (get_proc_eq _ _ _ _ _ (proc_of_locked _ _ _ Hp)).
    by rewrite bool_decide_true by done.
  - destruct (quiet_lookup s j Hq) as (q & Hj & Hf); [apply Hl, elem_of_cons; by left|].
    destruct (wait_scan_none ea w addr [j] s b Hq) as (s1 & H1 & Hq1 & He1).
    { intros ? ->%list_elem_of_singleton. apply Hl, elem_of_cons. by left. }
    { intros ? ->%list_elem_of_singleton. apply Hz, elem_of_cons. by left. }
    destruct (equiv_lookup s s1 i p ltac:(by symmetry) Hp) as (p1 & Hp1 & Hb1).
    generalize dependent (b || existsb (is_child s w) [j]). intros b1 H1.
    destruct (IH s1 b1) as (s2 & p2 & Hq2 & He2 & Hp2 & H2).
    + done.
    + intros k Hk. apply Hl, elem_of_cons. by right.
    + intros k Hk Hc. apply (not_in_equiv _ s); [by symmetry|]. apply Hz; [apply elem_of_cons; by right|]. by rewrite <- (is_child_equiv _ _ w k He1).
    + exists p1. split_and!; [done | by apply (f_equal parent) in Hb1; simpl in Hb1; rewrite Hb1 | by apply (f_equal p_state) in Hb1; simpl in Hb1; rewrite Hb1].
    + exists s2, p2. split_and!; [done | by rewrite He2, He1 | done |]. rewrite <- H2. clear H2 IH.
      revert H1. cbn [wait_scan]. rewrite !(get_proc_eq _ _ _ _ _ Hj). case_bool_decide as Hc; [|intros [= <- <-]; done].
      rewrite !(bind_ret_eq _ _ _ _ _ (plock_acquire _ _ _ Hj Hf)), !(get_proc_eq _ _ _ _ _ (proc_of_locked _ _ _ Hj)).
      rewrite bool_decide_false. 2:{ refine (Hz j _ _ q Hj); [apply elem_of_cons; by left|]. by rewrite (is_child_lookup s w j q Hj), bool_decide_true. }
      rewrite !(bind_ret_eq _ _ _ _ _ (release_same _ _ _ Hq Hj)). intros [= <- <-]. done.
Qed.

Lemma proc_wait_unfold (ea : nat -> Z) sw s w fuel addr : cur s = Some w ->
  proc_wait ea sw (S fuel) addr s = ('(havekids, r) ← wait_scan ea pseq w addr false;
    match r with
    | Some n => mret n
    | None => if negb havekids then mret (-1) else proc_sleep sw (ch_proc w) None;; proc_wait ea sw fuel addr
    end) s.
Proof. intros Hc. cbn [proc_wait]. unfold myproc. mrun. rewrite Hc. by mrun. Qed.

(** ** The parent that misses the exit *)

Lemma not_zombie_orphaned s c par i : not_in ZOMBIE s i -> not_in ZOMBIE (upd_procs (orphaned s c par) s) i.
Proof.
  unfold not_in, upd_procs, proc_of. simpl. rewrite list_lookup_imap. intros Hn q. destruct (procs s !! i) as [p|]; [|done]. intros [= <-].
  specialize (Hn p eq_refl). unfold orphaned. cbv zeta. by repeat case_decide.
Qed.

(** C28: [proc_exit] can lose the wakeup of its parent [w]: it wakes the parent before it
    becomes a ZOMBIE, and holds no lock that [proc_wait] takes.  When the parent looks
    at its children in between, it finds none that has ended and falls asleep; the child
    then ends, and nothing wakes the parent any more. *)
Theorem exit_misses_parent (ea : nat -> Z) s c w p q hc st : quiet s -> cur s = Some c -> cpu_wf hc -> w <> c ->
  proc_of s c = Some p -> parent p = Some w -> proc_of s w = Some q ->
  (forall i, not_in ZOMBIE s i) ->
  (forall sw, proczero s <> Some c -> proc_exit sw st s = (exit_head c;; exit_tail sw c st) s) /\
  (forall sw fuel addr, proc_wait ea sw (S fuel) addr = (w ← myproc; '(havekids, r) ← wait_scan ea pseq w addr false;
    match r with Some n => mret n | None => if negb havekids then mret (-1) else (sleep_tail sw (ch_proc w);; mret tt);; proc_wait ea sw fuel addr end)) /\
  exists s1 s2 s3, exit_head c s = Ret tt s1 /\
    on_hart hc (Some w) (wait_scan ea pseq w 0 false) s1 = Ret (true, None) s2 /\
    on_hart hc (Some w) (sleep_tail (panic "swtch") (ch_proc w)) s2 = Panic "swtch" s3 /\
    panics (exit_tail (panic "swtch") c st) s3 "swtch" (fun s4 =>
      (exists p', proc_of s4 c = Some p' /\ p_state p' = ZOMBIE /\ parent p' = Some w) /\
      exists q', proc_of s4 w = Some q' /\ p_state q' = SLEEPING /\ sleep_space q' = ch_proc w).
Proof.
  intros Hq Hc Hhc Hne Hp Hpar Hw Hnz. split; [|split; [done|]].
  { intros sw Hz. unfold proc_exit, myproc. mrun. rewrite Hc. mrun. by rewrite bool_decide_false. }
  destruct (exit_head_run s c p Hq Hc Hp) as (s1 & H1 & Hq1 & He1); [congruence|]. exists s1.
  assert (proc_of (upd_procs (orphaned s c (parent p)) s) c = Some p) as Hpo.
  { unfold proc_of, upd_procs in *. simpl. rewrite list_lookup_imap, Hp. simpl. by rewrite orphaned_self by congruence. }
  set (s1' := set_cur (Some w) (set_ps_k (set_k_cpu hc (ps_k s1)) s1)).
  assert (quiet s1') as Hq1' by (by apply quiet_set_cur, quiet_set_k).
  destruct (wait_scan_none ea w 0 pseq s1' false Hq1') as (s2 & H2 & Hq2 & He2).
  { by intros i ?%pseq_in. }
  { intros i _ _. change (not_in ZOMBIE s1 i). apply (not_in_equiv _ (upd_procs (orphaned s c (parent p)) s)); [by symmetry|].
    by apply not_zombie_orphaned. }
  destruct (equiv_lookup _ s1 c p ltac:(by symmetry) Hpo) as (p1 & Hp1 & Hb1).
  destruct (equiv_lookup s1' s2 c p1 ltac:(by symmetry) Hp1) as (p2 & Hp2 & Hb2).
  destruct (quiet_lookup s2 w Hq2) as (q2 & Hw2 & Hf2). { apply proc_of_lt in Hw. by rewrite (q_len s Hq) in Hw. }
  set (s2b := set_cur (cur s1) (set_ps_k (set_k_cpu (pcpu s1) (ps_k s2)) s2)).
  assert (cur s1 = Some c) as Hc1 by (by rewrite He1).
  exists s2b. set (s3 := asleep_at w q2 (ch_proc w) (set_cur (Some w) (set_ps_k (set_k_cpu hc (ps_k s2b)) s2b))).
  exists (set_cur (Some c) (set_ps_k (set_k_cpu (pcpu s1) (ps_k s3)) s3)). split_and!; [done | | |].
  - assert (existsb (is_child s1' w) pseq = true) as Hex.
    { apply existsb_exists. exists c. split; [apply list_elem_of_In, pseq_in; apply proc_of_lt in Hp; by rewrite (q_len s Hq) in Hp|].
      rewrite (is_child_lookup s1' w c p1 Hp1). apply (f_equal parent) in Hb1. simpl in Hb1. by rewrite Hb1, Hpar, bool_decide_true. }
    unfold on_hart. fold s1'. rewrite H2, Hex. done.
  - unfold on_hart. fold s3. rewrite (sleep_tail_eq _ w q2) by done. by rewrite <- Hc1.
  - unfold panics. rewrite (exit_tail_stops _ c p2); [| done | | by apply (q_free s2 Hq2 c)].
    2:{ change (proc_of s3 c = Some p2). unfold s3. by rewrite asleep_other by done. }
    split; [done|]. split.
    + eexists. split; [apply zombie_self; change (proc_of s3 c = Some p2); unfold s3; by rewrite asleep_other by done|].
      split; [done|]. apply (f_equal parent) in Hb1, Hb2. change (parent p1 = parent p) in Hb1. change (parent p2 = parent p1) in Hb2. change (parent p2 = Some w). congruence.
    + eexists. split; [rewrite zombie_other by done; exact (asleep_self w q2 (ch_proc w) (set_cur (Some w) (set_ps_k (set_k_cpu hc (ps_k s2b)) s2b)) Hw2) | done].
Qed.
End Exit.

(** ** A concrete table: process 2 is the child of process 1, which is the child of
    process 0, the first one, that sleeps in [proc_wait] *)

Definition exit_table : list proc :=
  [set_sleep_space (ch_proc 0) (demo_proc SLEEPING); set_parent (Some 0%nat) (demo_proc RUNNING);
   set_parent (Some 1%nat) (set_pid 7 (demo_proc RUNNABLE))] ++ replicate 61 (demo_proc UNUSED).

Definition exit_ps (t : list proc) (cu : option nat) : pstate unit := mk_pstate (bss tt 0) t (Some 0%nat) 5 zero_lock cu 0 1.

Lemma exit_quiet t cu : length t = 64%nat -> forallb (fun q => bool_decide (is_free (p_lk q))) t = true -> quiet (exit_ps t cu).
Proof.
  intros Ht Hf. split; [done | split; simpl; lia |]. intros i p Hp. rewrite forallb_forall in Hf.
  apply (bool_decide_unpack _), Is_true_true, Hf, list_elem_of_In, list_elem_of_lookup. by exists i.
Qed.

Lemma proc_exit_zombie_witness : panics (proc_exit (panic "swtch") 3) (exit_ps exit_table (Some 1%nat)) "swtch" (fun s' =>
  (exists p, proc_of s' 1 = Some p /\ p_state p = ZOMBIE /\ exit_state p = 3) /\
  (exists q, proc_of s' 2 = Some q /\ parent q = Some 0%nat /\ p_state q = RUNNABLE) /\
  (exists q, proc_of s' 0 = Some q /\ p_state q = RUNNABLE) /\ global_pid s' = 5).
Proof.
  destruct (panics_elim _ _ _ _ (proc_exit_zombie (exit_ps exit_table (Some 1%nat)) 1 (set_parent (Some 0%nat) (demo_proc RUNNING)) 3
    (exit_quiet exit_table (Some 1%nat) eq_refl eq_refl) eq_refl eq_refl ltac:(done) ltac:(done))) as (s' & Hrun & (p & Hp & Hb & _) & Ho & _ & Hk & _).
  apply (panics_intro _ _ _ s'); [exact Hrun|]. split_and!.
  - exists p. split; [exact Hp|]. split; [apply (f_equal p_state) in Hb | apply (f_equal exit_state) in Hb]; exact Hb.
  - destruct (Ho 2%nat (set_parent (Some 1%nat) (set_pid 7 (demo_proc RUNNABLE))) ltac:(done) eq_refl) as (q & Hq & Hbq & _).
    exists q. split; [exact Hq|]. split; [apply (f_equal parent) in Hbq | apply (f_equal p_state) in Hbq]; exact Hbq.
  - destruct (Ho 0%nat (set_sleep_space (ch_proc 0) (demo_proc SLEEPING)) ltac:(done) eq_refl) as (q & Hq & Hbq & _).
    exists q. split; [exact Hq|]. apply (f_equal p_state) in Hbq. exact Hbq.
  - apply (f_equal global_pid) in Hk. exact Hk.
Defined.

Lemma exit_misses_parent_witness : exists s3 : pstate unit, panics (exit_tail (panic "swtch") 2 3) s3 "swtch" (fun s4 =>
  (exists p', proc_of s4 2 = Some p' /\ p_state p' = ZOMBIE /\ parent p' = Some 1%nat) /\
  exists q', proc_of s4 1 = Some q' /\ p_state q' = SLEEPING /\ sleep_space q' = ch_proc 1).
Proof.
  destruct (exit_misses_parent (fun _ => 0) (exit_ps exit_table (Some 2%nat)) 2 1 (set_parent (Some 1%nat) (set_pid 7 (demo_proc RUNNABLE)))
    (set_parent (Some 0%nat) (demo_proc RUNNING)) (mk_cpu 1 false 0 false) 3 (exit_quiet exit_table (Some 2%nat) eq_refl eq_refl)) as (_ & _ & s1 & s2 & s3 & _ & _ & _ & H).
  - reflexivity.
  - split; simpl; (lia || done).
  - done.
  - reflexivity.
  - reflexivity.
  - reflexivity.
  - intros i p Hp. apply (Forall_lookup_1 (fun q => p_state q <> ZOMBIE) exit_table i p); [|exact Hp]. apply (bool_decide_unpack _). by vm_compute.
  - by exists (set_cur (cur s3) s3); destruct s3.
Defined.
