(* ===== verification/SwitchSpec.v ===== *)
(** * SwitchSpec: a process that leaves the processor and comes back (kernel/proc/proc.c)

    [proc_sched] hands the processor to the scheduler and returns when the scheduler
    has picked the process again.  [resumed m] is that detour on one hart, with [m]
    for what happens while the process does not run. *)

From S2P Require Import Prelude Bytes Kstring Spinlock Kernel Disk Buf Bitmap Inode Dir Pmem Vmem Uvm File Proc ProcSpec.

Section Spec.
Context {D : Type} `{!DiskDriver D}.
Implicit Types (s : pstate D) (j c : nat) (p q : proc) (i : Z).
Abbreviation pcpu s := (k_cpu (ps_k s)).

(** From [proc_scheduler]'s return from [swtch] to its next call for the same
    process: the rest of one turn of its loop, [m], and the beginning of another turn. *)
Definition resumed (m : M (pstate D) unit) : M (pstate D) unit :=
  c ← myproc;
  modify (set_cur None);;
  plock c spinlock_release;;
  on_cpuf intr_on;;
  on_cpuf intr_off;;
  m;;
  plock c spinlock_acquire;;
  st ← get_proc c p_state;
  if bool_decide (st = RUNNABLE) then
    upd_proc c (set_p_state RUNNING);;
    modify (set_cur (Some c));;
    modify (set_last_scheduled (Z.of_nat c));;
    proc_reset_time_slice c
  else fault.

(** The processor is given up: the scheduler has dropped the lock and switched
    interrupts off. *)
Definition idle_cpu (c : cpu) : cpu := mk_cpu (hartid c) false (noff c) (if noff c =? 0 then sie c else origin c).
Definition away c q s : pstate D :=
  set_cur None (put_proc c (set_p_lk (drop_lock (p_lk q)) q) (set_ps_k (set_k_cpu (idle_cpu (pcpu s)) (ps_k s)) s)).

(** The process runs again. *)
Definition back c q s : pstate D :=
  set_last_scheduled (Z.of_nat c) (set_cur (Some c) (put_proc c (set_time_slice TIME_SLICE (set_p_state RUNNING (set_p_lk (take_lock (hartid (pcpu s)) (p_lk q)) q)))
    (set_ps_k (set_k_cpu (cpu_push (pcpu s)) (ps_k s)) s))).

Lemma away_quiet s c q : quiet s -> (c < Z.to_nat NPROC)%nat -> quiet (away c q s).
Proof.
  intros [Hl [Hn Hc] Hf] Hi. split; [unfold away, put_proc; simpl; by rewrite length_insert | by split; simpl |].
  intros j r. simpl. destruct (decide (j = c)) as [->|Hne].
  - rewrite list_lookup_insert_eq by lia. by intros [= <-].
  - rewrite list_lookup_insert_ne by done. apply Hf.
Qed.

Lemma away_lookup s c q : (c < length (procs s))%nat -> proc_of (away c q s) c = Some (set_p_lk (drop_lock (p_lk q)) q).
Proof. intros Hi. unfold away, proc_of, put_proc. simpl. by rewrite list_lookup_insert_eq. Qed.

Lemma cpuf_on s : on_cpuf intr_on s = Ret tt (set_ps_k (set_k_cpu (mk_cpu (hartid (pcpu s)) true (noff (pcpu s)) (origin (pcpu s))) (ps_k s)) s).
Proof. done. Qed.

Lemma cpuf_off s : on_cpuf intr_off s = Ret tt (set_ps_k (set_k_cpu (mk_cpu (hartid (pcpu s)) false (noff (pcpu s)) (origin (pcpu s))) (ps_k s)) s).
Proof. done. Qed.

Lemma away_post s c p q e : p_lk q = take_lock (hartid (pcpu s)) (p_lk p) ->
  (let s1 := set_cur None (section_post c p (set_p_lk (drop_lock (p_lk q)) q) s) in
   let s2 := set_ps_k (set_k_cpu (mk_cpu (hartid (pcpu s1)) e (noff (pcpu s1)) (origin (pcpu s1))) (ps_k s1)) s1 in
   set_ps_k (set_k_cpu (mk_cpu (hartid (pcpu s2)) false (noff (pcpu s2)) (origin (pcpu s2))) (ps_k s2)) s2) = away c q s.
Proof. intros Hlk. unfold away, section_post. rewrite Hlk. by destruct s as [[[] ? ? ? ? ? ? ? ? ? ?] ? ? ? ? ? ? ?]. Qed.

(** The locked process [q] gives the processor up and gets it back. *)
Lemma resumed_run m s c p q s1 q1 : quiet s -> cur s = Some c -> proc_of s c = Some p -> p_lk q = take_lock (hartid (pcpu s)) (p_lk p) ->
  m (away c q s) = Ret tt s1 -> quiet s1 -> proc_of s1 c = Some q1 -> p_state q1 = RUNNABLE ->
  resumed m (put_proc c q (locked_at c p s)) = Ret tt (back c q1 s1).
Proof.
  intros Hq Hc Hp Hlk Hm Hq1 Hp1 Hst. pose proof (proc_of_lt _ _ _ Hp) as Hi. pose proof (proc_of_lt _ _ _ Hp1) as Hi1.
  unfold resumed, myproc. mrun. change (cur (put_proc c q (locked_at c p s))) with (cur s). rewrite Hc. mrun.
  assert (plock c spinlock_release (set_cur None (put_proc c q (locked_at c p s))) = Ret tt (set_cur None (section_post c p (set_p_lk (drop_lock (p_lk q)) q) s))) as Hr.
  { pose proof (plock_release (set_cur None s) c p q (q_cpu s Hq) Hp Hlk) as Hrel. rewrite Hlk. exact Hrel. }
  mstep ltac:(exact Hr). rewrite (bind_ret_eq _ _ _ _ _ (cpuf_on _)), (bind_ret_eq _ _ _ _ _ (cpuf_off _)), away_post by done.
  mstep ltac:(exact Hm). mstep ltac:(apply plock_acquire; [exact Hp1 | by apply (q_free s1 Hq1 c)]).
  rewrite (get_proc_eq _ _ _ _ _ (proc_of_locked _ _ _ Hp1)). simpl p_state. rewrite bool_decide_true by done.
  rewrite (upd_proc_eq _ _ _ _ _ (proc_of_locked _ _ _ Hp1)). mrun. unfold proc_reset_time_slice, upd_proc. mrun.
  unfold locked_at. rewrite put_put. change (proc_of (set_last_scheduled ?a (set_cur ?b ?x)) c) with (proc_of x c). rewrite proc_of_put by (by destruct s1). mrun.
  unfold back, put_proc. destruct s1; simpl. unfold modify, set_procs, set_cur, set_last_scheduled; simpl. by rewrite list_insert_insert_eq.
Qed.

(** The process is back as [r] and has dropped its lock. *)
Definition came_back c q r i s : pstate D :=
  section_post c q r (set_intena i (set_last_scheduled (Z.of_nat c) (set_cur (Some c) s))).

Lemma back_release c q r q' i s : quiet s -> proc_of s c = Some q ->
  p_lk q' = take_lock (hartid (pcpu s)) (p_lk q) -> set_p_lk (p_lk q) q' = set_p_lk (p_lk q) r ->
  plock c spinlock_release (set_intena i (put_proc c q' (back c q s))) = Ret tt (came_back c q r i s).
Proof.
  intros Hq Hp Hlk Hq'. set (s1 := set_intena i (set_last_scheduled (Z.of_nat c) (set_cur (Some c) s))).
  pose proof (plock_release s1 c q q' (q_cpu s Hq) Hp Hlk) as Hr. unfold came_back. fold s1.
  unfold section_post in *. change (set_p_lk (drop_lock (p_lk q)) r) with (set_p_lk (drop_lock (p_lk q)) (set_p_lk (p_lk q) r)). rewrite <- Hq'. change (set_p_lk (drop_lock (p_lk q)) (set_p_lk (p_lk q) q')) with (set_p_lk (drop_lock (p_lk q)) q').
  rewrite <- Hr. f_equal. unfold back, locked_at, s1, put_proc, set_procs, set_intena, set_last_scheduled, set_cur, set_ps_k; simpl.
  by rewrite !list_insert_insert_eq.
Qed.

Lemma came_back_eq c q1 s1 (i : Z) : quiet s1 -> proc_of s1 c = Some q1 ->
  plock c spinlock_release (set_intena i (back c q1 s1)) = Ret tt (came_back c q1 (set_time_slice TIME_SLICE (set_p_state RUNNING q1)) i s1).
Proof.
  intros Hq Hp.
  refine (eq_trans _ (back_release c q1 _ (set_time_slice TIME_SLICE (set_p_state RUNNING (set_p_lk (take_lock (hartid (pcpu s1)) (p_lk q1)) q1))) i s1 Hq Hp eq_refl eq_refl)).
  do 2 f_equal. unfold back, put_proc, set_procs, set_last_scheduled, set_cur, set_ps_k; simpl. by rewrite list_insert_insert_eq.
Qed.

Lemma sched_resumed m s c p q s1 q1 : quiet s -> cur s = Some c -> proc_of s c = Some p -> p_lk q = take_lock (hartid (pcpu s)) (p_lk p) ->
  p_state q <> RUNNING -> m (away c q s) = Ret tt s1 -> quiet s1 -> proc_of s1 c = Some q1 -> p_state q1 = RUNNABLE ->
  proc_sched (resumed m) (put_proc c q (locked_at c p s)) = Ret tt (set_intena (intena s) (back c q1 s1)).
Proof.
  intros Hq Hc Hp Hlk Hst Hm Hq1 Hp1 Hst1. pose proof (proc_of_lt _ _ _ Hp) as Hi.
  assert (c < length (procs (locked_at c p s)))%nat as Hi' by (unfold locked_at, put_proc; simpl; by rewrite length_insert).
  erewrite sched_switches; [| exact Hc | by apply proc_of_put | rewrite Hlk; by split | done | done].
  by rewrite (bind_ret_eq _ _ _ _ _ (resumed_run m s c p q s1 q1 Hq Hc Hp Hlk Hm Hq1 Hp1 Hst1)).
Qed.

Lemma came_back_lookup c q r i s : (c < length (procs s))%nat ->
  proc_of (came_back c q r i s) c = Some (set_p_lk (drop_lock (p_lk q)) r).
Proof. intros Hi. unfold came_back, section_post. by apply proc_of_put. Qed.

Lemma came_back_quiet c q r i s : quiet s -> proc_of s c = Some q -> quiet (came_back c q r i s).
Proof.
  intros Hq Hp. apply section_quiet; [|exact Hp]. destruct Hq as [Hl Hc Hf]. by split.
Qed.

(** The process yields, runs elsewhere, and comes back. *)
Lemma yield_run s c p : quiet s -> cur s = Some c -> proc_of s c = Some p ->
  let q := set_p_state RUNNABLE (set_p_lk (take_lock (hartid (pcpu s)) (p_lk p)) p) in
  let s1 := away c q s in
  proc_yield (resumed (mret tt)) s = Ret tt (came_back c (set_p_lk (drop_lock (p_lk p)) (set_p_state RUNNABLE p)) (set_time_slice TIME_SLICE (set_p_state RUNNING p)) (intena s) s1).
Proof.
  intros Hq Hc Hp q s1. pose proof (proc_of_lt _ _ _ Hp) as Hi. assert (quiet s1) as Hq1 by (apply away_quiet; [done | by rewrite <- (q_len s Hq)]).
  pose proof (away_lookup s c q Hi) as Hp1. fold s1 in Hp1.
  unfold proc_yield, myproc. mrun. rewrite Hc. mrun. mstep ltac:(apply plock_acquire; [done | by apply (q_free s Hq c)]).
  rewrite (upd_proc_eq _ _ _ _ _ (proc_of_locked _ _ _ Hp)). fold q.
  assert (p_state q <> RUNNING) as Hst by (unfold q; simpl; discriminate).
  assert ((mret tt : M (pstate D) unit) (away c q s) = Ret tt s1) as Hm by done.
  rewrite (bind_ret_eq _ _ _ _ _ (sched_resumed (mret tt) s c p q s1 _ Hq Hc Hp eq_refl Hst Hm Hq1 Hp1 eq_refl)).
  refine (eq_trans _ (back_release c _ _ (set_time_slice TIME_SLICE (set_p_state RUNNING (set_p_lk (take_lock (hartid (pcpu s)) (drop_lock (p_lk p))) p))) (intena s) s1 Hq1 Hp1 eq_refl eq_refl)).
  f_equal. unfold back, put_proc, set_procs, set_intena, set_last_scheduled, set_cur, set_ps_k; simpl. by rewrite !list_insert_insert_eq.
Qed.

(** What a process is when it wakes from a sleep. *)
Definition awake q : proc := set_sleep_space ch_null (set_time_slice TIME_SLICE (set_p_state RUNNING q)).

Definition sleeper ch s p : proc := set_p_state SLEEPING (set_sleep_space ch (set_p_lk (take_lock (hartid (pcpu s)) (p_lk p)) p)).

(** The process sleeps until [m] has made it runnable. *)
Lemma sleep_run m s c p ch s1 q1 : quiet s -> cur s = Some c -> proc_of s c = Some p ->
  m (away c (sleeper ch s p) s) = Ret tt s1 -> quiet s1 -> proc_of s1 c = Some q1 -> p_state q1 = RUNNABLE ->
  sleep_tail (resumed m) ch s = Ret tt (came_back c q1 (awake q1) (intena s) s1).
Proof.
  intros Hq Hc Hp Hm Hq1 Hp1 Hst. pose proof (proc_of_lt _ _ _ Hp) as Hi. pose proof (proc_of_lt _ _ _ Hp1) as Hi1.
  unfold sleep_tail, myproc. mrun. rewrite Hc. mrun. mstep ltac:(apply plock_acquire; [done | by apply (q_free s Hq c)]).
  rewrite (upd_proc_eq _ _ _ _ _ (proc_of_locked _ _ _ Hp)). erewrite upd_proc_eq; [|apply proc_of_put; unfold locked_at, put_proc; simpl; by rewrite length_insert].
  rewrite put_put. fold (sleeper ch s p). assert (p_state (sleeper ch s p) <> RUNNING) as Hns by (unfold sleeper; simpl; discriminate).
  rewrite (bind_ret_eq _ _ _ _ _ (sched_resumed m s c p (sleeper ch s p) s1 q1 Hq Hc Hp eq_refl Hns Hm Hq1 Hp1 Hst)).
  assert (proc_of (set_intena (intena s) (back c q1 s1)) c = Some (set_time_slice TIME_SLICE (set_p_state RUNNING (set_p_lk (take_lock (hartid (pcpu s1)) (p_lk q1)) q1)))) as Hb.
  { change (proc_of (put_proc c (set_time_slice TIME_SLICE (set_p_state RUNNING (set_p_lk (take_lock (hartid (pcpu s1)) (p_lk q1)) q1))) s1) c =
      Some (set_time_slice TIME_SLICE (set_p_state RUNNING (set_p_lk (take_lock (hartid (pcpu s1)) (p_lk q1)) q1)))). by apply proc_of_put. }
  rewrite (upd_proc_eq _ _ _ _ _ Hb). exact (back_release c q1 (awake q1) (set_sleep_space ch_null (set_time_slice TIME_SLICE (set_p_state RUNNING (set_p_lk (take_lock (hartid (pcpu s1)) (p_lk q1)) q1)))) (intena s) s1 Hq1 Hp1 eq_refl eq_refl).
Qed.

(** C29: a process that gives the processor up with [proc_yield] runs on with interrupts
    disabled when it is scheduled again, although they were enabled before:
    [proc_sched] saves and restores [intena], which nothing else uses, while [pop_off]
    restores from [origin], which the scheduler has overwritten in the meantime. *)
Theorem yield_loses_interrupts s c p : quiet s -> cur s = Some c -> proc_of s c = Some p -> noff (pcpu s) = 0 -> sie (pcpu s) = true ->
  exists s', proc_yield (resumed (mret tt)) s = Ret tt s' /\ cur s' = Some c /\ noff (pcpu s') = 0 /\ sie (pcpu s') = false /\ intena s' = intena s /\
    exists p', proc_of s' c = Some p' /\ bare p' = bare (set_time_slice TIME_SLICE (set_p_state RUNNING p)).
Proof.
  intros Hq Hc Hp Hn He. pose proof (proc_of_lt _ _ _ Hp) as Hi. rewrite (yield_run s c p Hq Hc Hp).
  eexists. split_and!; [done | done | exact Hn | done | done |]. eexists. split; [apply came_back_lookup; unfold away, put_proc; simpl; by rewrite length_insert | done].
Qed.
End Spec.

Lemma yield_loses_interrupts_witness : let s := set_ps_k (set_k_cpu (mk_cpu 0 true 0 false) (bss tt 0)) (demo_ps (Some 1%nat)) in
  exists s', proc_yield (resumed (mret tt)) s = Ret tt s' /\ sie (k_cpu (ps_k s)) = true /\ sie (k_cpu (ps_k s')) = false.
Proof.
  intros s. destruct (yield_loses_interrupts s 1 (demo_proc RUNNABLE)) as (s' & H & _ & _ & Hs & _).
  - apply quiet_set_k; [apply demo_quiet | split; simpl; lia].
  - reflexivity.
  - reflexivity.
  - reflexivity.
  - reflexivity.
  - exists s'. split; [exact H | split; [reflexivity | exact Hs]].
Defined.
