(* ===== verification/Syscall.v ===== *)
(** * Syscall: kernel/syscall, the system calls

    The arguments of a system call are in the trapframe of the process, in memory.
    [local n] is the address of the [n]-th local array of a system call on the
    kernel stack, [data_addr i] the address of [buf->data] of buffer [i], whose
    bytes the model keeps in the buffer cache.  Printed messages are left out. *)

From S2P Require Import Prelude Bytes Kstring Spinlock Kernel Disk Buf Bitmap Inode Dir Pmem Vmem Uvm File Proc.

(** The numbers of include/syscall/sysnum.h. *)
Definition SYS_print : Z := 0.
Definition SYS_brk : Z := 1.
Definition SYS_mmap : Z := 2.
Definition SYS_munmap : Z := 3.
Definition SYS_fork : Z := 4.
Definition SYS_wait : Z := 5.
Definition SYS_exit : Z := 6.
Definition SYS_sleep : Z := 7.
Definition SYS_open : Z := 8.
Definition SYS_close : Z := 9.
Definition SYS_read : Z := 10.
Definition SYS_write : Z := 11.
Definition SYS_lseek : Z := 12.
Definition SYS_dup : Z := 13.
Definition SYS_fstat : Z := 14.
Definition SYS_getdir : Z := 15.
Definition SYS_mkdir : Z := 16.
Definition SYS_chdir : Z := 17.
Definition SYS_link : Z := 18.
Definition SYS_unlink : Z := 19.
Definition SYS_alloc_block : Z := 20.
Definition SYS_free_block : Z := 21.
Definition SYS_show_buf : Z := 22.
Definition SYS_read_block : Z := 23.
Definition SYS_write_block : Z := 24.
Definition SYS_release_block : Z := 25.

Definition DIR_PATH_LEN : Z := 128.

(** [(uint64)-1] *)
Definition FAIL : Z := 2 ^ 64 - 1.

(** The bytes of the C string at [a], if it ends within [fuel] bytes. *)
Fixpoint str_at (fuel : nat) (m : mem) (a : Z) : option (list Z) :=
  match fuel with
  | O => None
  | S fuel' => if load8 m a =? 0 then Some [] else l ← str_at fuel' m (a + 1); Some (load8 m a :: l)
  end.

Section Ops.
Context {D : Type} `{!DiskDriver D}.
(** The parameters of the components that are called. *)
Variables (trampoline fork_return : Z) (exit_addr : nat -> Z) (swtch : M (pstate D) unit)
  (dev_fn : Z -> Z -> Z -> bool -> M (kstate D) Z) (wait_fuel : nat).
Variables (local : nat -> Z) (data_addr : nat -> Z).

(** ** Arguments (syscall.c) *)

Definition tf_word (off : Z) : M (pstate D) Z :=
  p ← myproc;
  t ← get_proc p tf;
  on_k (mem64 (t + off)).

Definition arg_raw (n : Z) : M (pstate D) Z :=
  if (0 <=? n) && (n <=? 5) then tf_word (TF_A0 + 8 * n)
  else myproc;; panic "arg_raw: illegal arg num".

Definition arg_uint32 (n : Z) : M (pstate D) Z := v ← arg_raw n; mret (u32 v).
Definition arg_uint64 (n : Z) : M (pstate D) Z := arg_raw n.

(** Copies the string to [buf]. *)
Definition arg_str (n buf maxlen : Z) : M (pstate D) unit :=
  p ← myproc;
  addr ← arg_uint64 n;
  g ← get_proc p pgtbl;
  on_k (uvm_copyin_str g buf addr maxlen).

(** The string in a local array, for a function that takes it as a [char*]. *)
Definition c_str (a : Z) : M (pstate D) (list Z) :=
  m ← gets (fun s => k_mem (ps_k s));
  match str_at NAME_FUEL m a with Some l => mret l | None => no_fuel end.

(** ** Processes and memory (sysfunc.c) *)

Definition sys_brk : M (pstate D) Z :=
  p ← myproc;
  new_brk ← arg_uint64 0;
  old_heap_top ← get_proc p heap_top;
  if new_brk =? 0 then mret old_heap_top else
  g ← get_proc p pgtbl;
  if old_heap_top <? new_brk then
    let grow_size := u64 (new_brk - old_heap_top) in
    new_heap_top ← on_k (uvm_heap_grow g old_heap_top (u32 grow_size));
    if negb (new_heap_top =? new_brk) then mret FAIL else
    upd_proc p (set_heap_top new_heap_top);;
    mret new_heap_top
  else if new_brk <? old_heap_top then
    let shrink_size := u64 (old_heap_top - new_brk) in
    new_heap_top ← on_k (uvm_heap_ungrow g old_heap_top (u32 shrink_size));
    upd_proc p (set_heap_top new_heap_top);;
    mret new_heap_top
  else mret old_heap_top.

Definition sys_mmap : M (pstate D) Z := mret 0.
Definition sys_munmap : M (pstate D) Z := mret 0.

(** [tmp] is the first local variable. *)
Definition sys_copyin : M (pstate D) Z :=
  p ← myproc;
  addr ← arg_uint64 0;
  len ← arg_uint32 1;
  for_each (seqZ 0 len) (fun i =>
    g ← get_proc p pgtbl;
    on_k (uvm_copyin g (local 0) (u64 (addr + u64 (s32 i * 4))) 4));;
  mret 0.

Definition sys_copyout : M (pstate D) Z :=
  on_k (mem_put (local 0) (concat (le_bytes 4 <$> [1; 2; 3; 4; 5])));;
  p ← myproc;
  addr ← arg_uint64 0;
  g ← get_proc p pgtbl;
  on_k (uvm_copyout g addr (local 0) (4 * 5));;
  mret 5.

Definition sys_copyinstr : M (pstate D) Z :=
  arg_str 0 (local 0) 64;;
  mret 0.

(** [while (buffer\[len\] != 0 && len < sizeof(buffer) - 1) len++] *)
Fixpoint print_len (fuel : nat) (m : mem) (a : Z) : Z :=
  match fuel with
  | O => 0
  | S fuel' => if load8 m a =? 0 then 0 else 1 + print_len fuel' m (a + 1)
  end.

Definition sys_print : M (pstate D) Z :=
  arg_str 0 (local 0) 256;;
  m ← gets (fun s => k_mem (ps_k s));
  mret (print_len 255 m (local 0)).

Definition sys_wait : M (pstate D) Z :=
  status_addr ← arg_uint64 0;
  child_pid ← proc_wait exit_addr swtch wait_fuel status_addr;
  if 0 <? child_pid then mret child_pid else mret FAIL.

Definition sys_exit : M (pstate D) Z :=
  exit_status ← arg_uint32 0;
  proc_exit swtch (s32 exit_status);;
  mret 0.

Fixpoint yield_loop (n : nat) : M (pstate D) unit :=
  match n with
  | O => mret tt
  | S n' => proc_yield swtch;; yield_loop n'
  end.

Definition sys_sleep : M (pstate D) Z :=
  seconds ← arg_uint32 0;
  yield_loop (Z.to_nat seconds);;
  mret 0.

Definition sys_fork : M (pstate D) Z :=
  child_pid ← proc_fork trampoline fork_return;
  if 0 <? child_pid then mret child_pid
  else if child_pid =? 0 then mret 0
  else mret FAIL.

(** ** Files (sysfile.c) *)

(** The number and the file; [None] is the result -1. *)
Definition arg_fd (n : Z) : M (pstate D) (option (nat * nat)) :=
  fd ← arg_uint32 n;
  let fd := s32 fd in
  if (fd <? 0) || (FILE_PER_PROC <=? fd) then mret None else
  p ← myproc;
  file ← get_proc p (fun q => filelist q !! Z.to_nat fd) ≫= some_or_fault;
  mret (file ← file; Some (Z.to_nat fd, file)).

(** [None] is the result -1. *)
Definition fd_alloc (file : nat) : M (pstate D) (option nat) :=
  p ← myproc;
  for_return fseq (fun fd =>
    f ← get_proc p (fun q => filelist q !! fd) ≫= some_or_fault;
    match f with
    | None => upd_proc p (fun q => set_filelist (<[fd := Some file]> (filelist q)) q);; mret (Some fd)
    | Some _ => mret None
    end).

(** An [int] that is returned as an [uint64]. *)
Definition fd_result (fd : option nat) : Z := match fd with Some fd => Z.of_nat fd | None => FAIL end.

Definition sys_open : M (pstate D) Z :=
  arg_str 0 (local 0) DIR_PATH_LEN;;
  open_mode ← arg_uint32 1;
  path ← c_str (local 0);
  file ← on_k (file_open path open_mode);
  match file with
  | None => mret FAIL
  | Some file =>
      fd ← fd_alloc file;
      when (bool_decide (fd = None)) (on_k (file_close file));;
      mret (fd_result fd)
  end.

Definition sys_close : M (pstate D) Z :=
  f ← arg_fd 0;
  match f with
  | None => mret FAIL
  | Some (fd, file) =>
      p ← myproc;
      upd_proc p (fun q => set_filelist (<[fd := None]> (filelist q)) q);;
      on_k (file_close file);;
      mret 0
  end.

Definition sys_read : M (pstate D) Z :=
  f ← arg_fd 0;
  match f with
  | None => mret FAIL
  | Some (_, file) =>
      len ← arg_uint32 1;
      addr ← arg_uint64 2;
      on_k (file_read dev_fn file len addr true)
  end.

Definition sys_write : M (pstate D) Z :=
  f ← arg_fd 0;
  match f with
  | None => mret FAIL
  | Some (_, file) =>
      len ← arg_uint32 1;
      addr ← arg_uint64 2;
      on_k (file_write dev_fn file len addr true)
  end.

Definition sys_lseek : M (pstate D) Z :=
  f ← arg_fd 0;
  match f with
  | None => mret FAIL
  | Some (_, file) =>
      offset ← arg_uint32 1;
      flags ← arg_uint32 2;
      on_k (file_lseek file offset (s32 flags))
  end.

Definition sys_dup : M (pstate D) Z :=
  f ← arg_fd 0;
  match f with
  | None => mret FAIL
  | Some (_, file) =>
      new_fd ← fd_alloc file;
      on_k (file_dup file);;
      mret (fd_result new_fd)
  end.

(** The state is put together in a local variable. *)
Definition sys_fstat : M (pstate D) Z :=
  f ← arg_fd 0;
  match f with
  | None => mret FAIL
  | Some (_, file) =>
      addr ← arg_uint64 1;
      p ← myproc;
      g ← get_proc p pgtbl;
      r ← on_k (file_stat g (local 0) file addr);
      mret (u64 r)
  end.

Definition sys_getdir : M (pstate D) Z :=
  f ← arg_fd 0;
  match f with
  | None => mret FAIL
  | Some (_, file) =>
      addr ← arg_uint64 1;
      len ← arg_uint32 2;
      t ← on_k (get_file file f_type);
      ip ← on_k (get_file file f_ip);
      match ip with
      | None => mret FAIL
      | Some ip =>
          if negb (t =? FD_DIR) then mret FAIL else
          on_k (inode_lock (Some ip));;
          len ← on_k (dir_get_entries ip len (fun off bytes => mem_put (addr + off) bytes));
          on_k (inode_unlock ip);;
          mret len
      end
  end.

Definition sys_mkdir : M (pstate D) Z :=
  arg_str 0 (local 0) DIR_PATH_LEN;;
  path ← c_str (local 0);
  inode ← on_k (path_create_inode path FT_DIR 0 0);
  mret (if bool_decide (inode = None) then FAIL else 0).

Definition sys_chdir : M (pstate D) Z :=
  arg_str 0 (local 0) DIR_PATH_LEN;;
  path ← c_str (local 0);
  on_k (dir_change path).

Definition sys_link : M (pstate D) Z :=
  arg_str 0 (local 0) DIR_PATH_LEN;;
  arg_str 1 (local 1) DIR_PATH_LEN;;
  old_path ← c_str (local 0);
  new_path ← c_str (local 1);
  on_k (path_link old_path new_path).

Definition sys_unlink : M (pstate D) Z :=
  arg_str 0 (local 0) DIR_PATH_LEN;;
  path ← c_str (local 0);
  on_k (path_unlink path).

Definition sys_alloc_block : M (pstate D) Z := on_k bitmap_alloc_block.

Definition sys_free_block : M (pstate D) Z :=
  block_num ← arg_uint32 0;
  on_k (bitmap_free_block block_num);;
  mret 0.

(** [buf_print] only prints. *)
Definition sys_show_buf : M (pstate D) Z := mret 0.

(** The kernel panics when no buffer is free, so [buf_read] is not NULL. *)
Definition sys_read_block : M (pstate D) Z :=
  block_num ← arg_uint32 0;
  addr ← arg_uint64 1;
  buf ← on_k (buf_read block_num);
  p ← myproc;
  when (negb (addr =? 0)) (
    g ← get_proc p pgtbl;
    l ← on_k (get_buf buf data);
    on_k (mem_put (data_addr buf) l);;
    on_k (uvm_copyout g addr (data_addr buf) BLOCK_SIZE));;
  let index := buf_to_index buf in
  if index <? 0 then mret 0 else
  mret (u64 (s32 (index + 1))).

(** The handle is the index of the buffer plus 1. *)
Definition sys_write_block : M (pstate D) Z :=
  buf_handle ← arg_uint64 0;
  addr ← arg_uint64 1;
  if buf_handle =? 0 then mret FAIL else
  match index_to_buf (s32 (buf_handle - 1)) with
  | None => mret FAIL
  | Some buf =>
      p ← myproc;
      when (negb (addr =? 0)) (
        g ← get_proc p pgtbl;
        on_k (uvm_copyin g (data_addr buf) addr BLOCK_SIZE);;
        l ← on_k (mem_get (data_addr buf) BLOCK_SIZE);
        on_k (set_buf_data buf l));;
      on_k (buf_write buf);;
      mret 0
  end.

Definition sys_release_block : M (pstate D) Z :=
  buf_handle ← arg_uint64 0;
  if buf_handle =? 0 then mret FAIL else
  match index_to_buf (s32 (buf_handle - 1)) with
  | None => mret FAIL
  | Some buf => on_k (buf_release buf);; mret 0
  end.

(** ** The dispatcher (syscall.c) *)

Definition dispatch (num : Z) : M (pstate D) Z :=
  if num =? SYS_print then sys_print
  else if num =? SYS_brk then sys_brk
  else if num =? SYS_mmap then sys_mmap
  else if num =? SYS_munmap then sys_munmap
  else if num =? SYS_fork then sys_fork
  else if num =? SYS_wait then sys_wait
  else if num =? SYS_exit then sys_exit
  else if num =? SYS_sleep then sys_sleep
  else if num =? SYS_open then sys_open
  else if num =? SYS_close then sys_close
  else if num =? SYS_read then sys_read
  else if num =? SYS_write then sys_write
  else if num =? SYS_lseek then sys_lseek
  else if num =? SYS_dup then sys_dup
  else if num =? SYS_fstat then sys_fstat
  else if num =? SYS_getdir then sys_getdir
  else if num =? SYS_mkdir then sys_mkdir
  else if num =? SYS_chdir then sys_chdir
  else if num =? SYS_link then sys_link
  else if num =? SYS_unlink then sys_unlink
  else if num =? SYS_alloc_block then sys_alloc_block
  else if num =? SYS_free_block then sys_free_block
  else if num =? SYS_show_buf then sys_show_buf
  else if num =? SYS_read_block then sys_read_block
  else if num =? SYS_write_block then sys_write_block
  else if num =? SYS_release_block then sys_release_block
  else mret FAIL.

Definition syscall : M (pstate D) unit :=
  p ← myproc;
  t ← get_proc p tf;
  num ← on_k (mem64 (t + TF_A7));
  ret ← dispatch num;
  t ← get_proc p tf;
  on_k (put64 (t + TF_A0) ret).
End Ops.
