(* ===== verification/SyscallSpec.v ===== *)
(** * SyscallSpec: what the system calls promise *)

From S2P Require Import Prelude Bytes Kstring Spinlock Kernel Disk Buf Bitmap Inode Dir Pmem Vmem Uvm File FileSpec Proc ProcSpec ProcAlloc ProcFork Syscall.

Section Spec.
Context {D : Type} `{!DiskDriver D}.
Implicit Types (s : pstate D) (i : nat) (p : proc) (a : gmap nat Z).

(** ** Arguments *)

(** Process [i], with record [p], makes the call. *)
Definition caller s i p : Prop := cur s = Some i /\ proc_of s i = Some p.

(** Argument [n] of the call. *)
Definition arg s p (n : Z) : Z := load64 (k_mem (ps_k s)) (tf p + (TF_A0 + 8 * n)).

Lemma myproc_eq {B} s i p (k : nat -> M (pstate D) B) : caller s i p -> (myproc ≫= k) s = k i s.
Proof. intros [Hc _]. unfold myproc. mrun. rewrite Hc. by mrun. Qed.

Lemma on_k_gets {A B} (f : kstate D -> A) (k : A -> M (pstate D) B) s : (on_k (gets f) ≫= k) s = k (f (ps_k s)) s.
Proof. unfold mbind, M_bind, on_k. simpl. by destruct s. Qed.

Lemma arg_raw_eq {B} s i p n (k : Z -> M (pstate D) B) : caller s i p -> 0 <= n <= 5 -> (arg_raw n ≫= k) s = k (arg s p n) s.
Proof.
  intros Hc Hn. unfold arg_raw. rewrite (proj2 (Z.leb_le 0 n)), (proj2 (Z.leb_le n 5)) by lia. cbn [andb]. unfold tf_word. mrun.
  rewrite (myproc_eq _ _ _ _ Hc). mrun. rewrite (get_proc_eq _ _ _ _ _ (proj2 Hc)). unfold mem64. by rewrite on_k_gets.
Qed.

Lemma arg_uint64_eq {B} s i p n (k : Z -> M (pstate D) B) : caller s i p -> 0 <= n <= 5 -> (arg_uint64 n ≫= k) s = k (arg s p n) s.
Proof. apply arg_raw_eq. Qed.

Lemma arg_uint32_eq {B} s i p n (k : Z -> M (pstate D) B) : caller s i p -> 0 <= n <= 5 -> (arg_uint32 n ≫= k) s = k (u32 (arg s p n)) s.
Proof. intros Hc Hn. unfold arg_uint32. mrun. rewrite (arg_raw_eq _ _ _ _ _ Hc Hn). by mrun. Qed.

(** ** Descriptors *)

(** The file behind a descriptor argument. *)
Definition fd_of (w : Z) p : option (nat * nat) :=
  let fd := s32 (u32 w) in
  if (fd <? 0) || (FILE_PER_PROC <=? fd) then None
  else f ← mjoin (filelist p !! Z.to_nat fd); Some (Z.to_nat fd, f).

Lemma arg_fd_eq {B} s i p n (k : option (nat * nat) -> M (pstate D) B) : caller s i p -> 0 <= n <= 5 -> length (filelist p) = 16%nat ->
  (arg_fd n ≫= k) s = k (fd_of (arg s p n) p) s.
Proof.
  intros Hc Hn Hl. unfold arg_fd, fd_of. mrun. rewrite (arg_uint32_eq _ _ _ _ _ Hc Hn). cbv zeta. set (fd := s32 (u32 (arg s p n))).
  destruct ((fd <? 0) || (FILE_PER_PROC <=? fd)) eqn:Hb; [done|]. apply orb_false_iff in Hb as [H0%Z.ltb_ge H16%Z.leb_gt]. unfold FILE_PER_PROC in H16.
  mrun. rewrite (myproc_eq _ _ _ _ Hc). mrun. rewrite (get_proc_eq _ _ _ _ _ (proj2 Hc)).
  destruct (lookup_lt_is_Some_2 (filelist p) (Z.to_nat fd)) as [o Ho]; [lia|]. rewrite Ho. mrun. by destruct o.
Qed.

Lemma fd_of_Some w p fd f : fd_of w p = Some (fd, f) -> (fd < 16)%nat /\ filelist p !! fd = Some (Some f).
Proof.
  unfold fd_of. cbv zeta. set (z := s32 (u32 w)). destruct ((z <? 0) || (FILE_PER_PROC <=? z)) eqn:Hb; [done|].
  apply orb_false_iff in Hb as [H0%Z.ltb_ge H16%Z.leb_gt]. unfold FILE_PER_PROC in H16.
  destruct (filelist p !! Z.to_nat z) as [[g|]|] eqn:Ho; [|done..]. cbn. intros [= <- <-]. split; [lia | done].
Qed.

(** The first free descriptor. *)
Definition first_free p (fd : nat) : Prop := filelist p !! fd = Some None /\ forall j, (j < fd)%nat -> exists f, filelist p !! j = Some (Some f).

Lemma fd_skip s i p file j f : caller s i p -> filelist p !! j = Some (Some f) ->
  (f ← get_proc i (fun q => filelist q !! j) ≫= some_or_fault;
   match f with
   | None => upd_proc i (fun q => set_filelist (<[j := Some file]> (filelist q)) q);; mret (Some j)
   | Some _ => mret None
   end) s = Ret None s.
Proof. intros [_ Hp] Hj. mrun. rewrite (get_proc_eq _ _ _ _ _ Hp), Hj. by mrun. Qed.

Lemma fd_alloc_some s i p file fd : caller s i p -> length (filelist p) = 16%nat -> first_free p fd ->
  fd_alloc file s = Ret (Some fd) (put_proc i (set_filelist (<[fd := Some file]> (filelist p)) p) s).
Proof.
  intros Hc Hl [Hfd Hj]. pose proof (lookup_lt_Some _ _ _ Hfd) as Hlt. unfold fd_alloc. rewrite (myproc_eq _ _ _ _ Hc).
  unfold fseq. change (Z.to_nat FILE_PER_PROC) with 16%nat. replace 16%nat with (fd + S (16 - fd - 1))%nat by lia. rewrite seq_app, <- cons_seq. cbn [Nat.add].
  apply for_return_hit.
  - intros j [_ Hjl]%elem_of_seq. destruct (Hj j ltac:(lia)) as [f Hf]. by apply (fd_skip s i p file j f).
  - mrun. rewrite (get_proc_eq _ _ _ _ _ (proj2 Hc)), Hfd. mrun. by rewrite (upd_proc_eq _ _ _ _ _ (proj2 Hc)).
Qed.

Lemma fd_alloc_full s i p file : caller s i p -> length (filelist p) = 16%nat -> (forall j, (j < 16)%nat -> exists f, filelist p !! j = Some (Some f)) ->
  fd_alloc file s = Ret None s.
Proof.
  intros Hc Hl Hj. unfold fd_alloc. rewrite (myproc_eq _ _ _ _ Hc). apply for_return_none.
  intros j [_ Hjl]%elem_of_seq. unfold FILE_PER_PROC in Hjl. destruct (Hj j ltac:(lia)) as [f Hf]. by apply (fd_skip s i p file j f).
Qed.

(** ** The reference counts are the numbers of descriptors *)

Definition refs_in (fl : list (option nat)) (f : nat) : Z := Z.of_nat (length (filter (fun o => o = Some f) fl)).
Definition fd_count (ps : list proc) (f : nat) : Z := foldr (fun q n => refs_in (filelist q) f + n) 0 ps.

Record counted s a : Prop := {
  fc_table : ft_rel (ps_k s) a;
  fc_count : forall f, default 0 (a !! f) = fd_count (procs s) f;
  fc_dom : forall f r, a !! f = Some r -> (f < Z.to_nat N_FILE)%nat;
  fc_lists : forall j q, proc_of s j = Some q -> length (filelist q) = 16%nat;
  fc_procs : length (procs s) = Z.to_nat NPROC
}.

Lemma refs_in_insert fl n o o' f : fl !! n = Some o ->
  refs_in (<[n := o']> fl) f = refs_in fl f + (if decide (o' = Some f) then 1 else 0) - (if decide (o = Some f) then 1 else 0).
Proof.
  unfold refs_in. revert n. induction fl as [|x fl IH]; intros [|n] Hn; [done..| |].
  - injection Hn as ->. cbn [insert list_insert]. rewrite !filter_cons. repeat case_decide; cbn [length]; lia.
  - change (<[S n := o']> (x :: fl)) with (x :: <[n := o']> fl). rewrite !filter_cons. specialize (IH n Hn).
    revert IH. repeat case_decide; cbn [length]; lia.
Qed.

Lemma fd_count_insert (ps : list proc) i p q f : ps !! i = Some p ->
  fd_count (<[i := q]> ps) f = fd_count ps f + refs_in (filelist q) f - refs_in (filelist p) f.
Proof.
  unfold fd_count. revert i. induction ps as [|x ps IH]; intros [|i] Hi; [done..| |].
  - injection Hi as ->. cbn [insert list_insert foldr]. lia.
  - change (<[S i := q]> (x :: ps)) with (x :: <[i := q]> ps). cbn [foldr]. rewrite (IH i Hi). lia.
Qed.

(** A process has 16 descriptors: a count stays far below 2^32. *)
Lemma fd_count_bound (ps : list proc) f : Forall (fun q => length (filelist q) = 16%nat) ps -> 0 <= fd_count ps f <= 16 * Z.of_nat (length ps).
Proof.
  unfold fd_count. induction 1 as [|q ps Hq _ IH]; cbn [foldr length]; [lia|].
  assert (0 <= refs_in (filelist q) f <= 16); [|lia]. unfold refs_in. pose proof (length_filter (fun o => o = Some f) (filelist q)). lia.
Qed.

Lemma counted_bound s a f r : counted s a -> a !! f = Some r -> r + 1 < 2 ^ 32.
Proof.
  intros [_ H1 _ H2 H3] Ha. specialize (H1 f). rewrite Ha in H1. cbn in H1. subst r.
  pose proof (fd_count_bound (procs s) f) as Hb. rewrite H3 in Hb. change (Z.of_nat (Z.to_nat NPROC)) with 64 in Hb.
  assert (fd_count (procs s) f <= 16 * 64); [|lia]. apply Hb. apply Forall_lookup_2. intros j q. apply H2.
Qed.

Lemma counted_open s a i p fd f : counted s a -> proc_of s i = Some p -> filelist p !! fd = Some (Some f) -> exists r, a !! f = Some r /\ 1 <= r.
Proof.
  intros Hc Hp Hf. pose proof (fc_count _ _ Hc f) as H1. destruct (a !! f) as [r|] eqn:Ha; cbn in H1.
  - exists r. split; [done|]. destruct (ft_lookup _ _ f (fc_table _ _ Hc) (fc_dom _ _ Hc f r Ha)) as [x Hx].
    pose proof (ft_entry _ _ (fc_table _ _ Hc) f x Hx) as He. rewrite Ha in He. lia.
  - exfalso. pose proof (fd_count_insert (procs s) i p (set_filelist (<[fd := None]> (filelist p)) p) f Hp) as He.
    change (filelist (set_filelist ?l p)) with l in He. rewrite (refs_in_insert _ _ _ _ _ Hf), decide_False, decide_True in He by done.
    pose proof (fd_count_bound (<[i := set_filelist (<[fd := None]> (filelist p)) p]> (procs s)) f) as Hb.
    assert (0 <= fd_count (<[i := set_filelist (<[fd := None]> (filelist p)) p]> (procs s)) f); [|lia]. apply Hb.
    apply Forall_insert; [apply Forall_lookup_2; intros j q; apply (fc_lists _ _ Hc) |]. cbn. rewrite length_insert. by apply (fc_lists _ _ Hc i).
Qed.

(** Descriptor [fd] of process [i] changes together with the counts. *)
Lemma counted_update s a a' i p fd o o' k : counted s a -> proc_of s i = Some p -> filelist p !! fd = Some o -> ft_rel k a' ->
  (forall f, default 0 (a' !! f) = default 0 (a !! f) + (if decide (o' = Some f) then 1 else 0) - (if decide (o = Some f) then 1 else 0)) ->
  (forall f r, a' !! f = Some r -> (f < Z.to_nat N_FILE)%nat) ->
  counted (put_proc i (set_filelist (<[fd := o']> (filelist p)) p) (set_ps_k k s)) a'.
Proof.
  intros Hc Hp Ho Hk Ha Hd. split; [done | | done | |].
  - intros f. rewrite Ha, (fc_count _ _ Hc). unfold put_proc. simpl. rewrite (fd_count_insert _ _ p) by done. simpl. rewrite (refs_in_insert _ _ _ _ _ Ho). lia.
  - intros j q. destruct (decide (j = i)) as [->|Hne].
    + rewrite proc_of_put by (by apply proc_of_lt in Hp). intros [= <-]. simpl. rewrite length_insert. by apply (fc_lists _ _ Hc i).
    + rewrite proc_of_put_ne by done. apply (fc_lists _ _ Hc j).
  - unfold put_proc. simpl. rewrite length_insert. apply Hc.
Qed.

Lemma dup_counted s a i p fd f : counted s a -> proc_of s i = Some p -> filelist p !! fd = Some (Some f) ->
  exists r k', a !! f = Some r /\ file_dup f (ps_k s) = Ret f k' /\ ft_rel k' (<[f := r + 1]> a) /\ frame_ft (ps_k s) k'.
Proof.
  intros Hcnt Hp Hf. destruct (counted_open s a i p fd f Hcnt Hp Hf) as (r & Ha & Hr).
  destruct (file_dup_ok (ps_k s) a f r (fc_table _ _ Hcnt) Ha) as (k' & H1 & H2 & H3 & _); [by apply (fc_dom _ _ Hcnt f r) | by apply (counted_bound s a f) |].
  by exists r, k'.
Qed.

(** C23: [sys_dup]: a descriptor argument that is out of range or not open gives -1
    and changes nothing; otherwise the first free descriptor refers to the same
    file, whose reference count grows with it, so that every count is still the
    number of descriptors that refer to the file.  When all descriptors are in use
    the result is -1, but the count has grown all the same: the file can then never
    be closed. *)
Theorem sys_dup_counts s a i p : caller s i p -> counted s a ->
  (fd_of (arg s p 0) p = None -> sys_dup s = Ret FAIL s) /\
  forall fd f, fd_of (arg s p 0) p = Some (fd, f) -> exists r, a !! f = Some r /\
    (forall n, first_free p n -> exists k', sys_dup s = Ret (Z.of_nat n) (put_proc i (set_filelist (<[n := Some f]> (filelist p)) p) (set_ps_k k' s)) /\
       frame_ft (ps_k s) k' /\ counted (put_proc i (set_filelist (<[n := Some f]> (filelist p)) p) (set_ps_k k' s)) (<[f := r + 1]> a)) /\
    ((forall j, (j < 16)%nat -> exists g, filelist p !! j = Some (Some g)) ->
       exists k', sys_dup s = Ret FAIL (set_ps_k k' s) /\ ft_rel k' (<[f := r + 1]> a) /\ fd_count (procs s) f = r).
Proof.
  intros Hc Hcnt. pose proof (fc_lists _ _ Hcnt i p (proj2 Hc)) as Hl. unfold sys_dup. rewrite (arg_fd_eq s i p 0 _ Hc) by (lia || done).
  split; [by intros ->|]. intros fd f Hfd. rewrite Hfd. destruct (fd_of_Some _ _ _ _ Hfd) as [_ Hf].
  destruct (dup_counted s a i p fd f Hcnt (proj2 Hc) Hf) as (r & k' & Ha & Hdup & Hr' & Hfr). exists r. split_and!; [done | |].
  - intros n Hn. exists k'. split_and!; [| done |].
    + rewrite (bind_ret_eq _ _ _ _ _ (fd_alloc_some s i p f n Hc Hl Hn)). by rewrite (on_k_at _ _ _ _ _ _ _ Hdup).
    + apply (counted_update s a _ i p n None (Some f)); [done | apply Hc | apply Hn | done | |].
      * intros g. rewrite (decide_False (P := None = Some g)) by done. destruct (decide (f = g)) as [->|Hne].
        -- rewrite lookup_insert_eq, Ha, decide_True by done. cbn. lia.
        -- rewrite lookup_insert_ne by done. rewrite decide_False by congruence. lia.
      * intros g x. destruct (decide (f = g)) as [->|Hne]; [intros _; by apply (fc_dom _ _ Hcnt g r)|].
        rewrite lookup_insert_ne by done. apply (fc_dom _ _ Hcnt).
  - intros Hfull. exists k'. rewrite (bind_ret_eq _ _ _ _ _ (fd_alloc_full s i p f Hc Hl Hfull)). rewrite (on_k_ret _ _ _ _ _ Hdup).
    split_and!; [done | done |]. pose proof (fc_count _ _ Hcnt f) as H. rewrite Ha in H. cbn in H. lia.
Qed.

(** [sys_close] frees exactly the descriptor it is given and takes one reference
    from the file: the counts are still the numbers of descriptors.  With the last
    descriptor the entry of the file table becomes free and its inode is released.
    Other arguments give -1 and change nothing. *)
Theorem sys_close_counts s a i p : caller s i p -> counted s a ->
  (fd_of (arg s p 0) p = None -> sys_close s = Ret FAIL s) /\
  forall fd f, fd_of (arg s p 0) p = Some (fd, f) -> exists r x k', a !! f = Some r /\ file_of (ps_k s) f = Some x /\ frame_ft (ps_k s) k' /\
    let s' := put_proc i (set_filelist (<[fd := None]> (filelist p)) p) (set_ps_k k' s) in
    (1 < r -> sys_close s = Ret 0 s' /\ counted s' (<[f := r - 1]> a)) /\
    (r = 1 -> sys_close s = match f_ip x with Some ip => (on_k (inode_free ip);; mret 0) s' | None => Ret 0 s' end /\ counted s' (delete f a)).
Proof.
  intros Hc Hcnt. pose proof (fc_lists _ _ Hcnt i p (proj2 Hc)) as Hl. unfold sys_close. rewrite (arg_fd_eq s i p 0 _ Hc) by (lia || done).
  split; [by intros ->|]. intros fd f Hfd. rewrite Hfd. destruct (fd_of_Some _ _ _ _ Hfd) as [_ Hf].
  destruct (counted_open s a i p fd f Hcnt (proj2 Hc) Hf) as (r & Ha & Hr).
  destruct (ft_lookup _ _ f (fc_table _ _ Hcnt) (fc_dom _ _ Hcnt f r Ha)) as [x Hx].
  destruct (file_close_ok (ps_k s) a f r x (fc_table _ _ Hcnt) Ha Hx) as (k' & Hfr & Hmore & Hlast & _).
  set (q := set_filelist (<[fd := None]> (filelist p)) p).
  assert (forall A (K : unit -> M (pstate D) A), (p ← myproc; upd_proc p (fun q => set_filelist (<[fd := None]> (filelist q)) q);; on_k (file_close f) ≫= K) s =
    (on_k (file_close f) ≫= K) (put_proc i q s)) as Hrun.
  { intros A K. rewrite (myproc_eq _ _ _ _ Hc). by rewrite (upd_proc_eq _ _ _ _ _ (proj2 Hc)). }
  assert (forall a', ft_rel k' a' -> (forall g, default 0 (a' !! g) = default 0 (a !! g) - (if decide (f = g) then 1 else 0)) ->
    (forall g y, a' !! g = Some y -> a !! g <> None) -> counted (put_proc i q (set_ps_k k' s)) a') as Hcount.
  { intros a' Hk Hg Hd. apply (counted_update s a a' i p fd (Some f) None); [done | apply Hc | done | done | |].
    - intros g. rewrite Hg, (decide_False (P := None = Some g)) by done. destruct (decide (f = g)) as [->|Hne].
      + rewrite decide_True by done. lia.
      + rewrite (decide_False (P := Some f = Some g)) by congruence. lia.
    - intros g y Hy. destruct (a !! g) as [z|] eqn:Hz; [by apply (fc_dom _ _ Hcnt g z) | by apply Hd in Hy]. }
  exists r, x, k'. split_and!; [done..| |]; fold q.
  - intros Hr1. destruct (Hmore Hr1) as [Hclose Hk]. split.
    + rewrite Hrun. by rewrite (on_k_at _ _ _ _ _ _ _ Hclose).
    + apply (Hcount _ Hk).
      * intros g. destruct (decide (f = g)) as [->|Hne]; [by rewrite lookup_insert_eq, Ha | rewrite lookup_insert_ne by done; lia].
      * intros g y. destruct (decide (f = g)) as [->|Hne]; [by rewrite Ha | rewrite lookup_insert_ne by done; by intros ->].
  - intros Hr1. destruct (Hlast Hr1) as [Hclose Hk]. split.
    + rewrite Hrun. unfold mbind, M_bind, on_k at 1. change (ps_k (put_proc i q s)) with (ps_k s). rewrite Hclose. by destruct (f_ip x), s.
    + apply (Hcount _ Hk).
      * intros g. destruct (decide (f = g)) as [->|Hne]; [rewrite lookup_delete_eq, Ha; cbn; lia | rewrite lookup_delete_ne by done; lia].
      * intros g y. destruct (decide (f = g)) as [->|Hne]; [by rewrite Ha | rewrite lookup_delete_ne by done; by intros ->].
Qed.
End Spec.

(** ** The process of [demo_parent], with file 0 behind descriptor 0 and 0 for every argument *)

Definition demo_caller : pstate unit := fork_ps (bss tt 0).

Lemma demo_counted : counted demo_caller {[0%nat := 1]}.
Proof.
  split.
  - apply (demo_ft_rel (bss tt 0)). split; simpl; (lia || done).
  - intros [|f]; [by vm_compute|]. rewrite lookup_singleton_ne by done. vm_compute. reflexivity.
  - intros f r [<- _]%lookup_singleton_Some. apply Nat.ltb_lt. reflexivity.
  - intros j q Hq. apply (Forall_lookup_1 (fun q => length (filelist q) = 16%nat) (demo_parent :: tail demo_table) j q); [|exact Hq].
    apply (bool_decide_unpack _). by vm_compute.
  - reflexivity.
Qed.

Lemma demo_fd : fd_of (arg demo_caller demo_parent 0) demo_parent = Some (0%nat, 0%nat).
Proof. by vm_compute. Qed.

Lemma sys_dup_counts_witness : exists s', sys_dup demo_caller = Ret 1 s' /\ counted s' {[0%nat := 2]}.
Proof.
  destruct (sys_dup_counts demo_caller {[0%nat := 1]} 0 demo_parent) as [_ H]; [by split | apply demo_counted |].
  destruct (H 0%nat 0%nat demo_fd) as (r & Ha & Hok & _). rewrite lookup_singleton_eq in Ha. injection Ha as <-.
  destruct (Hok 1%nat) as (k' & Hrun & _ & Hc).
  { split; [done|]. intros [|j] Hj; [by exists 0%nat | lia]. }
  eexists. split; [exact Hrun|]. by rewrite insert_singleton_eq in Hc.
Defined.

Lemma sys_close_counts_witness : exists s', sys_close demo_caller = Ret 0 s' /\ counted s' ∅.
Proof.
  destruct (sys_close_counts demo_caller {[0%nat := 1]} 0 demo_parent) as [_ H]; [by split | apply demo_counted |].
  destruct (H 0%nat 0%nat demo_fd) as (r & x & k' & Ha & Hx & _ & _ & Hok). rewrite lookup_singleton_eq in Ha. injection Ha as <-.
  destruct (Hok eq_refl) as [Hrun Hc]. vm_compute in Hx. injection Hx as <-.
  eexists. split; [exact Hrun|]. by rewrite delete_singleton_eq in Hc.
Defined.
