(* ===== verification/ProcWait.v ===== *)
(** * ProcWait: the parent takes what an ended child leaves (kernel/proc/proc.c,
    proc_wait, proc_free)

    [proc_wait] copies the exit state to the parent's memory and gives back the
    trapframe, the address space and the open files of the child. *)

From stdpp Require Import fin_sets.
From S2P Require Import Prelude Bytes Kstring Spinlock Kernel Disk Buf Bitmap Inode InodeMeta Dir Pmem Vmem VmemTree VmemSpec Uvm UvmSpec UvmHeap UvmDestroy UvmCopy File FileSpec Proc ProcSpec ProcAlloc ProcExit SyscallSpec.

(** ** Closing files *)

Section Files.
Context {D : Type} `{!DiskDriver D}.
Implicit Types (k : kstate D) (a : gmap nat Z) (f ip : nat).

(** Only the open files, the inodes in memory and this hart's interrupt state differ. *)
Definition frame_fi k k' : Prop := k' = set_k_cpu (k_cpu k') (set_k_ft (k_ft k') (set_k_ic (k_ic k') k)).

#[export] Instance frame_fi_trans : Transitive frame_fi.
Proof. intros k1 k2 k3 H1 H2. refine (eq_trans H2 _). rewrite H1. by destruct k1. Qed.

Lemma frame_ft_fi k k' : frame_ft k k' -> frame_fi k k'.
Proof. destruct k, k'. unfold frame_ft, frame_fi, set_k_cpu, set_k_ft, set_k_ic; simpl. congruence. Qed.

(** A reference to an inode that still has links. *)
Definition unref_state ip n k : kstate D :=
  set_k_cpu (cpu_touch (k_cpu k)) (set_k_ic (ic_put ip (set_i_ref (u32 (i_ref n - 1)) n) (ic_touched k)) k).

Lemma inode_free_linked k ip n : is_free (lk_icache (k_ic k)) -> cpu_wf (k_cpu k) -> inode_of k ip = Some n -> d_nlink (i_d n) <> 0 ->
  inode_free ip k = Ret tt (unref_state ip n k).
Proof.
  intros Hf Hw Hn Hl. unfold inode_free. pose proof (inode_of_lt _ _ _ Hn) as Hlt. set (n' := set_i_ref (u32 (i_ref n - 1)) n).
  mstep ltac:(by apply acquire_eq). set (s1 := set_k_cpu _ _).
  assert (inode_of s1 ip = Some n) as Hn1 by done.
  mstep ltac:(exact (upd_inode_eq _ _ _ _ Hn1)). fold n'.
  assert (inode_of (put_inode ip n' s1) ip = Some n') as Hn2 by (rewrite inode_of_put by done; by rewrite decide_True).
  rewrite (bind_get_inode _ _ _ _ _ Hn2), (bind_get_inode _ _ _ _ _ Hn2).
  assert ((i_ref n' =? 0) && (d_nlink (i_d n') =? 0) = false) as -> by (apply andb_false_iff; right; by apply Z.eqb_neq).
  mrun. rewrite release_eq; [|by apply cpu_push_wf | destruct Hw; simpl; lia | done].
  unfold unref_state. rewrite <- (cpu_pop_push (k_cpu k)) by done. by destruct k as [? ? ? ? ? ? ? ? ? [] ?].
Qed.

Lemma unref_inode ip n k j m : inode_of k ip = Some n -> inode_of k j = Some m ->
  inode_of (unref_state ip n k) j = Some (if decide (j = ip) then set_i_ref (u32 (i_ref m - 1)) m else m).
Proof.
  unfold inode_of, unref_state. intros Hn Hm. destruct k as [? ? ? ? ? ? ? ? ? [] ?]. unfold ic_put, ic_touched in *. simpl in *.
  destruct (decide (j = ip)) as [->|Hne].
  - rewrite list_lookup_insert_eq by (by eapply lookup_lt_Some). congruence.
  - by rewrite list_lookup_insert_ne.
Qed.

(** The inodes behind open files have links, as every inode that a path leads to. *)
Definition linked k a : Prop := is_free (lk_icache (k_ic k)) /\
  forall f ip, a !! f <> None -> inode_behind k f = Some ip -> exists n, inode_of k ip = Some n /\ d_nlink (i_d n) <> 0.

(** One descriptor of file [f] less. *)
Definition close_one a f : gmap nat Z := match a !! f with Some r => if r =? 1 then delete f a else <[f := r - 1]> a | None => a end.

Lemma close_one_dom a f r : a !! f = Some r -> dom (close_one a f) = if decide (r = 1) then dom a ∖ {[f]} else dom a.
Proof.
  intros Ha. unfold close_one. rewrite Ha. destruct (Z.eqb_spec r 1) as [->|Hne]; case_decide; try done.
  - apply dom_delete_L.
  - rewrite dom_insert_L. apply elem_of_dom_2 in Ha. set_solver.
Qed.

Lemma close_one_other a f j : j <> f -> close_one a f !! j = a !! j.
Proof.
  intros Hne. unfold close_one. destruct (a !! f) as [r|]; [|done]. destruct (r =? 1); [by rewrite lookup_delete_ne | by rewrite lookup_insert_ne].
Qed.

Record closed_one k k' a f (r : Z) : Prop := {
  co_table : ft_rel k' (close_one a f);
  co_linked : linked k' (close_one a f);
  co_frame : frame_fi k k';
  co_cpu : cpu_touch (k_cpu k') = cpu_touch (k_cpu k);
  co_behind : forall j, close_one a f !! j <> None -> inode_behind k' j = inode_behind k j;
  co_inodes : forall ip n, inode_of k ip = Some n ->
    inode_of k' ip = Some (if decide (r = 1 /\ inode_behind k f = Some ip) then set_i_ref (u32 (i_ref n - 1)) n else n)
}.

Lemma close_step k a f r : ft_rel k a -> linked k a -> a !! f = Some r -> (f < Z.to_nat N_FILE)%nat ->
  exists k', file_close f k = Ret tt k' /\ closed_one k k' a f r.
Proof.
  intros Hr [Hic Hlk] Ha Hf. destruct (ft_lookup _ _ f Hr Hf) as [x Hx]. pose proof (ft_entry _ _ Hr f x Hx) as He. rewrite Ha in He.
  destruct (file_close_ok k a f r x Hr Ha Hx) as (k1 & Hfr & Hmore & Hlast & Hbe & Hcpu).
  assert (k_ic k1 = k_ic k) as Eic by (by rewrite Hfr; destruct k).
  assert (forall j, close_one a f !! j <> None -> inode_behind k1 j = inode_behind k j /\ a !! j <> None) as Hb.
  { intros j Hj. destruct (decide (j = f)) as [->|Hne]; [|rewrite close_one_other in Hj by done; split; [by apply Hbe | done]].
    split; [|by rewrite Ha]. apply Hbe. intros _. unfold close_one in Hj. rewrite Ha in Hj. destruct (Z.eqb_spec r 1) as [->|]; [by rewrite lookup_delete_eq in Hj | lia]. }
  assert (linked k1 (close_one a f)) as Hl1.
  { split; [by rewrite Eic|]. intros j ip Hj. destruct (Hb j Hj) as [-> Hj']. intros Hip. destruct (Hlk j ip Hj' Hip) as (n & Hn & ?). exists n.
    unfold inode_of in *. by rewrite Eic. }
  assert (inode_behind k f = f_ip x) as Hbx by (unfold inode_behind; by rewrite Hx).
  destruct (Z.eq_dec r 1) as [->|Hr1].
  - destruct (Hlast eq_refl) as [Hrun Hr']. assert (close_one a f = delete f a) as Hd by (unfold close_one; by rewrite Ha). rewrite <- Hd in Hr'.
    destruct (f_ip x) as [ip|] eqn:Hip.
    + destruct (Hlk f ip ltac:(by rewrite Ha) Hbx) as (n & Hn & Hnl). assert (inode_of k1 ip = Some n) as Hn1 by (unfold inode_of in *; by rewrite Eic).
      exists (unref_state ip n k1). split; [rewrite Hrun; apply inode_free_linked; [by rewrite Eic | apply Hr' | done | done]|].
      assert (forall j m, inode_of k j = Some m -> inode_of (unref_state ip n k1) j = Some (if decide (j = ip) then set_i_ref (u32 (i_ref m - 1)) m else m)) as Hi.
      { intros j m Hm. apply unref_inode; [done|]. unfold inode_of in *. by rewrite Eic. }
      split.
      * destruct Hr' as [? ? ? ?]. split; [done | done | by apply cpu_touch_wf | done].
      * split; [done|]. intros j jp Hj Hjp. destruct (proj2 Hl1 j jp Hj Hjp) as (m & Hm & Hml). assert (inode_of k jp = Some m) as Hm0 by (unfold inode_of in *; by rewrite <- Eic).
        eexists. split; [by apply Hi|]. by case_decide.
      * etransitivity; [by apply frame_ft_fi|]. unfold frame_fi, unref_state. by destruct k1.
      * unfold unref_state. simpl. rewrite Hcpu. by rewrite !cpu_touch_idemp.
      * intros j Hj. by apply Hb.
      * intros j m Hm. rewrite (Hi j m Hm), Hbx. destruct (decide (j = ip)) as [->|Hne]; [by rewrite decide_True|]. rewrite decide_False; [done|]. intros [_ [= ->]]. done.
    + exists k1. split; [done|]. split; [done | done | by apply frame_ft_fi | by rewrite Hcpu, cpu_touch_idemp | intros j Hj; by apply Hb |].
      intros j m Hm. rewrite Hbx, decide_False by (by intros [_ [=]]). unfold inode_of in *. by rewrite Eic.
  - destruct (Hmore ltac:(destruct He as (_ & _ & ?); lia)) as [Hrun Hr']. exists k1. split; [done|].
    assert (close_one a f = <[f := r - 1]> a) as Hd by (unfold close_one; by rewrite Ha, (proj2 (Z.eqb_neq r 1) Hr1)). rewrite <- Hd in Hr'.
    split; [done | done | by apply frame_ft_fi | by rewrite Hcpu, cpu_touch_idemp | intros j Hj; by apply Hb |].
    intros j m Hm. rewrite decide_False by (by intros [? _]). unfold inode_of in *. by rewrite Eic.
Qed.
(** The files that were open and are not any more, with [ip] behind them. *)
Definition released k a a' ip : nat := size (filter (fun f => inode_behind k f = Some ip) (dom a ∖ dom a')).

(** Every inode has lost one reference for each of them. *)
Definition inodes_released k k' a a' : Prop := forall ip n, inode_of k ip = Some n -> 0 <= i_ref n < 2 ^ 32 ->
  inode_of k' ip = Some (set_i_ref (u32 (i_ref n - Z.of_nat (released k a a' ip))) n).

Lemma released_same k a ip : released k a a ip = 0%nat.
Proof. unfold released. apply size_empty_iff. set_solver. Qed.

Lemma inodes_same k a : inodes_released k k a a.
Proof. intros ip n Hn Hr. rewrite released_same, Z.sub_0_r, u32_small by lia. by destruct n. Qed.

Lemma released_ext k k1 a a' ip : (forall j, a !! j <> None -> inode_behind k1 j = inode_behind k j) -> released k1 a a' ip = released k a a' ip.
Proof.
  intros Hb. unfold released. f_equal. apply set_eq. intros j. rewrite !elem_of_filter, elem_of_difference.
  split; intros [Hj [Hd Hn]]; (split; [|done]); apply elem_of_dom in Hd as [r Hr]; specialize (Hb j); rewrite Hr in Hb; [by rewrite <- Hb | by rewrite Hb].
Qed.

Lemma released_step k a a' f (r : Z) ip : a !! f = Some r -> dom a' ⊆ dom (close_one a f) ->
  released k a a' ip = ((if decide (r = 1%Z /\ inode_behind k f = Some ip) then 1 else 0) + released k (close_one a f) a' ip)%nat.
Proof.
  intros Ha Hsub. unfold released. pose proof (close_one_dom a f r Ha) as Hd. rewrite Hd in Hsub |- *. case_decide as Hr; subst.
  - assert (dom a ∖ dom a' = {[f]} ∪ (dom a ∖ {[f]} ∖ dom a')) as ->.
    { apply set_eq. intros j. rewrite elem_of_union, !elem_of_difference, elem_of_singleton. destruct (decide (j = f)) as [->|Hne]; [|tauto].
      apply elem_of_dom_2 in Ha. assert (f ∉ dom a') by set_solver. tauto. }
    rewrite filter_union_L, size_union.
    2:{ intros j [_ Hj]%elem_of_filter [_ Hj']%elem_of_filter. apply elem_of_singleton in Hj as ->.
        rewrite !elem_of_difference, elem_of_singleton in Hj'. tauto. }
    f_equal. destruct (decide (1 = 1 /\ inode_behind k f = Some ip)) as [Hb|Hb].
    + assert (filter (fun f0 => inode_behind k f0 = Some ip) ({[f]} : gset nat) = {[f]}) as -> by set_solver. apply size_singleton.
    + assert (filter (fun f0 => inode_behind k f0 = Some ip) ({[f]} : gset nat) = ∅) as -> by set_solver. apply size_empty.
    + apply _.
  - by rewrite (decide_False (P := r = 1 /\ _)) by tauto.
Qed.

Lemma inodes_step k k1 k' a f r a' : closed_one k k1 a f r -> a !! f = Some r -> dom a' ⊆ dom (close_one a f) ->
  inodes_released k1 k' (close_one a f) a' -> inodes_released k k' a a'.
Proof.
  intros Hc Ha Hsub Hrel ip n Hn Hr. pose proof (co_inodes _ _ _ _ _ Hc ip n Hn) as Hn1.
  rewrite (released_step k a a' f r ip Ha Hsub), <- (released_ext k k1) by apply Hc. case_decide as Hd.
  - rewrite (Hrel ip _ Hn1) by (apply u32_range). f_equal. destruct n. unfold set_i_ref. simpl. f_equal. unfold u32.
    rewrite Zminus_mod_idemp_l. f_equal. lia.
  - by rewrite (Hrel ip _ Hn1).
Qed.

End Files.

(** ** [proc_free] *)

Section Free.
Context {D : Type} `{!DiskDriver D}.
Implicit Types (s : pstate D) (i j : nat) (p q : proc) (a : gmap nat Z).
Abbreviation pcpu s := (k_cpu (ps_k s)).

(** The counts depend on the descriptors and the table of files only. *)
Lemma counted_put s s' i p q k a : counted s a -> proc_of s i = Some p -> filelist q = filelist p -> procs s' = procs s -> ft_rel k a ->
  counted (put_proc i q (set_ps_k k s')) a.
Proof.
  intros Hc Hp Hq Hs Hk. split; [done | | apply Hc | |].
  - intros f. rewrite (fc_count _ _ Hc). unfold put_proc. simpl. rewrite Hs, (fd_count_insert _ _ p) by done. rewrite Hq. lia.
  - intros j r. unfold proc_of, put_proc. simpl. rewrite Hs. destruct (decide (j = i)) as [->|Hne].
    + rewrite list_lookup_insert_eq by (by eapply lookup_lt_Some). intros [= <-]. rewrite Hq. by apply (fc_lists _ _ Hc i).
    + rewrite list_lookup_insert_ne by done. apply (fc_lists _ _ Hc).
  - unfold put_proc. simpl. rewrite length_insert, Hs. apply Hc.
Qed.

Definition close_body i (n : nat) : M (pstate D) unit :=
  f ← get_proc i (fun q => filelist q !! n) ≫= some_or_fault;
  match f with
  | Some f => on_k (file_close f);; upd_proc i (fun q => set_filelist (<[n := None]> (filelist q)) q)
  | None => mret tt
  end.

Lemma close_some {B} i n f q s k' (K : unit -> M (pstate D) B) : (i < length (procs s))%nat -> filelist q !! n = Some (Some f) ->
  file_close f (ps_k s) = Ret tt k' ->
  (close_body i n ≫= K) (put_proc i q s) = K tt (put_proc i (set_filelist (<[n := None]> (filelist q)) q) (set_ps_k k' s)).
Proof.
  intros Hi Hf H1. unfold close_body. rewrite !bind_bind, get_at by done. rewrite Hf. cbn [some_or_fault]. mrun.
  rewrite (on_k_at _ _ _ _ _ _ _ H1). by rewrite upd_at by (by destruct s).
Qed.

Lemma close_none {B} i n q s (K : unit -> M (pstate D) B) : (i < length (procs s))%nat -> filelist q !! n = Some None ->
  (close_body i n ≫= K) (put_proc i q s) = K tt (put_proc i q s).
Proof. intros Hi Hf. unfold close_body. rewrite !bind_bind, get_at by done. rewrite Hf. cbn [some_or_fault]. by mrun. Qed.

Definition cleared (l : list nat) (fl : list (option nat)) : list (option nat) := foldl (fun fl n => <[n := None]> fl) fl l.

(** What the closing of descriptors makes of the counts [a]. *)
Record files_closed k k' a a' : Prop := {
  fcl_linked : linked k' a';
  fcl_frame : frame_fi k k';
  fcl_cpu : cpu_touch (k_cpu k') = cpu_touch (k_cpu k);
  fcl_dom : dom a' ⊆ dom a;
  fcl_inodes : inodes_released (D:=D) k k' a a'
}.

Lemma close_loop i l : forall s q a, (i < length (procs s))%nat -> counted (put_proc i q s) a -> linked (ps_k s) a -> (forall n, n ∈ l -> (n < 16)%nat) ->
  exists k' a', for_each l (close_body i) (put_proc i q s) = Ret tt (put_proc i (set_filelist (cleared l (filelist q)) q) (set_ps_k k' s)) /\
    counted (put_proc i (set_filelist (cleared l (filelist q)) q) (set_ps_k k' s)) a' /\ files_closed (ps_k s) k' a a'.
Proof.
  induction l as [|n l IH]; intros s q a Hi Hc Hl Hlt; cbn [for_each cleared foldl].
  { exists (ps_k s), a. assert (set_filelist (filelist q) q = q) as -> by (by destruct q). assert (set_ps_k (ps_k s) s = s) as -> by (by destruct s).
    split; [done|]. split; [done|]. split; [done | by destruct (ps_k s) | done | done | apply inodes_same]. }
  pose proof (proc_of_put i q s Hi) as Hq. destruct (lookup_lt_is_Some_2 (filelist q) n) as [o Ho].
  { rewrite (fc_lists _ _ Hc i q Hq). apply Hlt, elem_of_cons. by left. }
  destruct o as [f|].
  - destruct (counted_open _ a i q n f Hc Hq Ho) as (r & Ha & Hr1).
    destruct (close_step (ps_k s) a f r (fc_table _ _ Hc) Hl Ha (fc_dom _ _ Hc f r Ha)) as (k1 & H1 & Hone).
    rewrite (close_some i n f q s k1 _ Hi Ho H1). set (q1 := set_filelist (<[n := None]> (filelist q)) q).
    assert (counted (put_proc i q1 (set_ps_k k1 s)) (close_one a f)) as Hc1.
    { pose proof (counted_update _ a (close_one a f) i q n (Some f) None k1 Hc Hq Ho (co_table _ _ _ _ _ Hone)) as Hcu.
      assert (put_proc i q1 (set_ps_k k1 (put_proc i q s)) = put_proc i q1 (set_ps_k k1 s)) as Heq
        by (unfold put_proc; destruct s; simpl; by rewrite list_insert_insert_eq).
      fold q1 in Hcu. rewrite Heq in Hcu. apply Hcu.
      - intros g. rewrite (decide_False (P := None = Some g)) by done. destruct (decide (g = f)) as [->|Hne].
        + rewrite (decide_True (P := Some f = Some f)), Ha by done. unfold close_one. rewrite Ha.
          destruct (Z.eqb_spec r 1) as [->|]; [rewrite lookup_delete_eq | rewrite lookup_insert_eq]; cbn; lia.
        + rewrite close_one_other by done. rewrite decide_False by congruence. lia.
      - intros g x. destruct (decide (g = f)) as [->|Hne]; [by intros _; apply (fc_dom _ _ Hc f r)|]. rewrite close_one_other by done. apply (fc_dom _ _ Hc). }
    destruct (IH (set_ps_k k1 s) q1 (close_one a f)) as (k' & a' & H2 & Hc2 & [L1 L2 L3 L4 L5]).
    { done. } { done. } { apply Hone. } { intros m Hm. apply Hlt, elem_of_cons. by right. }
    exists k', a'. assert (set_filelist (cleared l (filelist q1)) q1 = set_filelist (foldl (fun fl n => <[n := None]> fl) (<[n := None]> (filelist q)) l) q) as <- by done.
    assert (set_ps_k k' (set_ps_k k1 s) = set_ps_k k' s) as E by (by destruct s). rewrite E in H2, Hc2. split; [exact H2|]. split; [exact Hc2|].
    split; [done | etransitivity; [apply Hone | done] | by rewrite L3; apply Hone | | by eapply inodes_step].
    rewrite L4, (close_one_dom a f r Ha). case_decide; set_solver.
  - rewrite (close_none i n q s _ Hi Ho), list_insert_id by done. apply IH; [done | done | done |]. intros m Hm. apply Hlt, elem_of_cons. by right.
Qed.
End Free.

(** ** The pages of the child *)

Section Space.
Context {D : Type}.
Implicit Types (k : kstate D) (kp up ps : list Z).

(** Changes in pages that are none of its tables keep an address space. *)
Lemma off_tree m m' root avoid ps : pt_ok m root avoid -> Forall page_ok ps -> same_off m m' ps ->
  (forall r a, path_ok r -> node m root r = Some a -> a ∉ ps) -> same_tree m m' root.
Proof.
  intros [Hpg _] Hps Hoff Hno r a i Hr Ha Hi. destruct (Hpg r a Hr Ha) as [Hok _]. apply load64_ext. intros x Hx. apply Hoff.
  intros q Hq Hqx. assert (a <> q) as Hne by (intros ->; by apply (Hno r q Hr Ha)).
  destruct (page_sep a q Hok (Forall_elem _ _ _ Hps Hq) Hne); unfold PGSIZE in *; lia.
Qed.

Lemma owned_page k root kp up q : owned k root kp up -> space_page (k_mem k) root q -> page_ok q /\ q ∉ kp ++ up.
Proof.
  intros Ho [(r & Hr & Hn)|(x & v & Hx & Hu & Hm & <-)].
  - by apply (pt_pages _ _ _ (vm_tree _ _ _ _ (ow_vm _ _ _ _ Ho)) r q).
  - by destruct (ow_data _ _ _ _ Ho x v Hx Hu Hm) as (? & ? & _).
Qed.

(** The pages that an ended process leaves: its trapframe and its address space. *)
Definition left_page (m : mem) (root t q : Z) : Prop := space_page m root q \/ q = t.

Definition leaves k old root t kp up : Prop :=
  vm_ok k old kp up /\ owned k root kp up /\ data_page k root kp up t /\ t < 2 ^ 44 /\ ~ space_page (k_mem k) root t /\
  forall r a, path_ok r -> node (k_mem k) old r = Some a -> ~ left_page (k_mem k) root t a.

Lemma free_left k old root t kp up fuel level : leaves k old root t kp up -> (3 <= fuel)%nat ->
  exists k1 k2 ps, pmem_free t true k = Ret tt k1 /\ uvm_destroy_pgtbl fuel root level k1 = Ret tt k2 /\ frame_vm k k2 /\
    cpu_touch (k_cpu k2) = cpu_touch (k_cpu k) /\ vm_ok k2 old (t :: kp) (root :: ps ++ up) /\ NoDup (t :: root :: ps) /\
    (forall q, q ∈ t :: root :: ps <-> left_page (k_mem k) root t q) /\ same_off (k_mem k) (k_mem k2) (t :: root :: ps) /\
    same_tree (k_mem k) (k_mem k2) old.
Proof.
  intros (Hvo & How & Hd & Ht44 & Hts & Hsep) Hfuel. pose proof (ow_vm _ _ _ _ How) as Hvr. pose proof (vm_pools _ _ _ _ Hvr) as Hp.
  assert (NoDup (t :: kp ++ up) /\ Forall (fun q => page_ok q /\ q < 2 ^ 44) (t :: kp ++ up)) as [Hnd Hall].
  { destruct Hd as (Hok & Hn & _). split; [by apply NoDup_cons; split; [|apply (pools_nodup _ _ _ Hp)]|]. apply list.Forall_cons. split; [done|].
    apply Forall_of_elem. intros q Hq. split; [apply (Forall_elem _ _ _ (pools_pages _ _ _ Hp) Hq) | apply (ow_small _ _ _ _ How); by left]. }
  assert (Z.of_nat (S (length kp + length up)) < 2 ^ 32) as Hcnt.
  { pose proof (pages_count (2 ^ 32) (t :: kp ++ up) ltac:(done) Hnd) as Hc. cbn [length] in Hc. rewrite length_app in Hc. apply Hc. exact Hall. }
  destruct (free_data k root kp up t true (t :: kp) up Hvr Hd Hcnt eq_refl) as (k1 & H1 & Hv1 & Hst1 & Hf1 & Hc1 & Hm1).
  assert (owned k1 root (t :: kp) up) as How1.
  { apply (owned_tree k k1 root kp up); [done | done | apply Hv1 |]. intros q Hq. split; [|by apply (Forall_elem _ _ _ Hall Hq)].
    change ((t :: kp) ++ up) with (t :: kp ++ up) in Hq. apply elem_of_cons in Hq as [->|Hq]; [done|].
    intros Hs. by apply (owned_page k root kp up q How Hs). }
  destruct (destroy_owned k1 root (t :: kp) up fuel level How1 Hfuel) as (k2 & ps & H2 & Hp2 & Hnd2 & Hin2 & Hoff2 & Hf2 & Hc2).
  assert (forall q, q ∈ t :: root :: ps <-> left_page (k_mem k) root t q) as Hin.
  { intros q. rewrite elem_of_cons, Hin2, (same_tree_space _ _ _ _ Hst1). unfold left_page. tauto. }
  assert (same_off (k_mem k) (k_mem k2) (t :: root :: ps)) as Hoff.
  { apply (same_off_trans _ (k_mem k1) _ [t]); [|exact Hoff2]. intros x Hx. apply Hm1, Hx. by apply list_elem_of_singleton. }
  assert (forall r a, path_ok r -> node (k_mem k) old r = Some a -> a ∉ t :: root :: ps) as Hno by (intros r a Hr Ha Hq%Hin; by apply (Hsep r a Hr Ha)).
  assert (Forall page_ok (t :: root :: ps)) as Hpok.
  { apply Forall_of_elem. intros q [Hq| ->]%Hin; [by apply (owned_page k root kp up q) | apply Hd]. }
  pose proof (off_tree _ _ old (kp ++ up) _ (vm_tree _ _ _ _ Hvo) Hpok Hoff Hno) as Hst.
  exists k1, k2, ps. split_and!; [done | done | by etransitivity | congruence | | | done | done | done].
  - split; [done|]. apply (same_tree_pt _ _ _ _ _ Hst (vm_tree _ _ _ _ Hvo)). intros r a Hr Ha. pose proof (Hno r a Hr Ha) as Hn.
    destruct (pt_pages _ _ _ (vm_tree _ _ _ _ Hvo) r a Hr Ha) as [_ Hfree]. revert Hn Hfree. rewrite !elem_of_app, !elem_of_cons, elem_of_app. tauto.
  - apply NoDup_cons. split; [|done]. rewrite Hin2, (same_tree_space _ _ _ _ Hst1). done.
Qed.

(** *** The exit state in the parent's memory *)

(** A byte that is neither free nor in a table nor left by the child. *)
Definition used_byte k old root t kp up (x : Z) : Prop :=
  plain (k_mem k) old kp up x /\ forall q, left_page (k_mem k) root t q -> ~ (q <= x < q + PGSIZE).

(** Changing such bytes changes no address space. *)
Lemma leaves_write k old root t kp up m' : leaves k old root t kp up ->
  (forall x, ~ used_byte k old root t kp up x -> load8 m' x = load8 (k_mem k) x) ->
  leaves (set_k_mem m' k) old root t kp up /\ same_tree (k_mem k) m' old /\ same_tree (k_mem k) m' root.
Proof.
  intros (Hvo & How & Hd & Ht44 & Hts & Hsep) Hm. pose proof (ow_vm _ _ _ _ How) as Hvr.
  destruct (plain_write k old kp up m' Hvo) as [Hvo' Hsto].
  { intros x Hx. apply Hm. intros [Hpl _]. by apply Hx. }
  destruct (plain_write k root kp up m' Hvr) as [Hvr' Hstr].
  { intros x Hx. apply Hm. intros [[_ Hfr] Hl]. apply Hx. split; [|done]. intros r a Hr Ha. apply Hl. left. left. by exists r. }
  assert (forall q, left_page (k_mem (set_k_mem m' k)) root t q <-> left_page (k_mem k) root t q) as Hlp.
  { intros q. unfold left_page. rewrite k_mem_set. by rewrite (same_tree_space _ _ _ _ Hstr). }
  split; [|done]. split; [done|]. split; [|split; [|split; [done|split]]].
  - apply (owned_tree k _ root kp up); [done | by rewrite k_mem_set | apply Hvr' |]. intros q Hq. split; [|apply (ow_small _ _ _ _ How); by left].
    intros Hs. by apply (owned_page k root kp up q How Hs).
  - destruct Hd as (? & ? & Hn). split_and!; [done | done |]. intros r Hr. rewrite k_mem_set, (same_tree_node _ _ _ Hstr r Hr). by apply Hn.
  - rewrite k_mem_set, (same_tree_space _ _ _ _ Hstr). done.
  - intros r a Hr. rewrite Hlp, k_mem_set, (same_tree_node _ _ _ Hsto r Hr). by apply Hsep.
Qed.

(** The process table entry of the child lies at [ea], the parent's variable at
    [addr]: both are memory that nothing else uses. *)
Record status_to k old root t kp up (ea addr : Z) : Prop := {
  st_src : 0 < ea /\ ea + 4 < 2 ^ 64 /\ forall x, ea <= x < ea + 4 -> used_byte k old root t kp up x;
  st_dst : 0 <= addr /\ addr + 4 <= VA_MAX;
  st_phys : forall j, 0 <= j < 4 -> exists x, phys (k_mem k) old (addr + j) = Some x /\ 0 < x /\ used_byte k old root t kp up x /\ ~ (ea <= x < ea + 4);
  st_once : forall i j x, 0 <= i < 4 -> 0 <= j < 4 -> phys (k_mem k) old (addr + i) = Some x -> phys (k_mem k) old (addr + j) = Some x -> i = j
}.

Lemma status_out k old root t kp up ea addr v : leaves k old root t kp up -> status_to k old root t kp up ea addr ->
  exists k1 m', mem_put ea (le_bytes 4 v) k = Ret tt k1 /\ uvm_copyout old addr ea 4 k1 = Ret tt (set_k_mem m' k) /\
    (forall j, 0 <= j < 4 -> uload m' old (addr + j) = le_bytes 4 v !! Z.to_nat j) /\
    (forall x, ~ (ea <= x < ea + 4) -> (forall j, 0 <= j < 4 -> phys (k_mem k) old (addr + j) <> Some x) -> load8 m' x = load8 (k_mem k) x) /\
    leaves (set_k_mem m' k) old root t kp up /\ same_tree (k_mem k) m' old /\ same_tree (k_mem k) m' root.
Proof.
  intros Hl [(H0 & H64 & Hea) Hdst Hphys Honce]. set (m1 := write_bytes (k_mem k) ea (le_bytes 4 v)).
  assert (length (le_bytes 4 v) = 4%nat) as Hlen by apply length_le_bytes.
  assert (forall x, ~ (ea <= x < ea + 4) -> load8 m1 x = load8 (k_mem k) x) as Hm1 by (intros x Hx; apply load8_write_bytes_out; rewrite Hlen; lia).
  destruct (leaves_write k old root t kp up m1 Hl) as ((Hv1 & _) & Hst1 & _); [intros x Hx; apply Hm1; intros Hr; by apply Hx, Hea|].
  assert (forall va, phys m1 old va = phys (k_mem k) old va) as Hph by (intros va; by apply same_tree_phys).
  destruct (uvm_copyout_copies (set_k_mem m1 k) old kp up addr ea 4 4 Hv1) as (m' & Hrun & Hin & _ & Hout).
  - unfold copy_args. lia.
  - rewrite k_mem_set. split; [lia|]. split; [|by left]. intros j Hj. rewrite Hph. destruct (Hphys j Hj) as (x & -> & _). done.
  - rewrite k_mem_set. intros j x Hj. rewrite Hph. destruct (Hphys j Hj) as (y & -> & Hy & [Hpl _] & Hr). intros [= <-].
    split; [done|]. split; [by apply (plain_same_tree _ _ _ _ _ _ Hst1) | done].
  - rewrite k_mem_set. intros i j x Hi Hj. rewrite !Hph. by apply Honce.
  - rewrite k_mem_set in Hin, Hout. rewrite decide_True, set_k_mem_twice in Hrun by done. exists (set_k_mem m1 k), m'.
    assert (forall x, ~ (ea <= x < ea + 4) -> (forall j, 0 <= j < 4 -> phys (k_mem k) old (addr + j) <> Some x) -> load8 m' x = load8 (k_mem k) x) as Hsame.
    { intros x Hx Hn. rewrite Hout; [by apply Hm1|]. intros j Hj. rewrite Hph. by apply Hn. }
    split; [done|]. split; [done|]. split; [|split; [done|]].
    + intros j Hj. rewrite Hin by done. destruct (lookup_lt_is_Some_2 (le_bytes 4 v) (Z.to_nat j)) as [b Hb]; [lia|]. rewrite Hb.
      f_equal. unfold m1. rewrite load8_write_bytes, decide_True by (rewrite Hlen; lia). replace (ea + j - ea) with j by lia.
      rewrite (list_lookup_total_correct _ _ _ Hb). apply Z.mod_small. by apply (Forall_lookup_1 _ _ _ _ (is_bytes_le_bytes 4 v) Hb).
    + apply leaves_write; [done|]. intros x Hx. apply Hsame; [intros Hr; by apply Hx, Hea|]. intros j Hj Hp.
      destruct (Hphys j Hj) as (y & Hy & _ & Hu & _). rewrite Hp in Hy. injection Hy as <-. done.
Qed.
End Space.

Section Reap.
Context {D : Type} `{!DiskDriver D}.
Implicit Types (s : pstate D) (i j : nat) (p q : proc) (a : gmap nat Z) (k : kstate D) (kp up ps : list Z).
Abbreviation pcpu s := (k_cpu (ps_k s)).
Local Ltac prun s := repeat first [rewrite bind_bind | rewrite upd_at by (by destruct s) | rewrite get_at by (by destruct s)]; cbv beta.

(** What [proc_free] may change of the kernel's state. *)
Definition frame_free k k' : Prop :=
  k' = set_k_cpu (k_cpu k') (set_k_mem (k_mem k') (set_kern_region (kern_region k') (set_user_region (user_region k')
    (set_k_ft (k_ft k') (set_k_ic (k_ic k') k))))).

#[export] Instance frame_free_trans : Transitive frame_free.
Proof. intros k1 k2 k3 H1 H2. refine (eq_trans H2 _). rewrite H1. by destruct k1. Qed.

Lemma frame_vm_free k k' : frame_vm k k' -> frame_free k k'.
Proof. intros H. unfold frame_free. rewrite H. by destruct k. Qed.

Lemma frame_fi_free k k' : frame_fi k k' -> frame_free k k'.
Proof. intros H. unfold frame_free. rewrite H. by destruct k. Qed.

Lemma frame_vm_same k k' : frame_vm k k' -> k_ft k' = k_ft k /\ k_ic k' = k_ic k.
Proof. intros ->. by destruct k. Qed.

Lemma frame_fi_mem k k' : frame_fi k k' -> k_mem k' = k_mem k.
Proof. intros ->. by destruct k. Qed.

Lemma vm_ok_fi k k' root kp up : frame_fi k k' -> cpu_wf (k_cpu k') -> vm_ok k root kp up -> vm_ok k' root kp up.
Proof.
  intros Hf Hc [[H1 H2 H3 H4 H5 _] Ht]. pose proof (frame_fi_mem _ _ Hf) as Hm. assert (kern_region k' = kern_region k /\ user_region k' = user_region k) as [Ek Eu] by (rewrite Hf; by destruct k).
  split; [split; rewrite ?Hm, ?Ek, ?Eu; done | by rewrite Hm].
Qed.

Lemma ft_rel_vm k k' a : frame_vm k k' -> cpu_wf (k_cpu k') -> ft_rel k a -> ft_rel k' a.
Proof.
  intros Hf Hc [H1 H2 _ H4]. destruct (frame_vm_same _ _ Hf) as [Ef _]. split; [by rewrite Ef | by rewrite Ef | done |].
  intros i f. unfold file_of. rewrite Ef. apply H4.
Qed.

Lemma linked_vm k k' a : frame_vm k k' -> linked k a -> linked k' a.
Proof. intros Hf [H1 H2]. destruct (frame_vm_same _ _ Hf) as [Ef Ei]. unfold linked, inode_behind, file_of, inode_of in *. by rewrite Ef, Ei. Qed.

Lemma released_vm k k1 k' a a' : frame_vm k k1 -> inodes_released k1 k' a a' -> inodes_released k k' a a'.
Proof.
  intros Hf H ip n Hn Hr. destruct (frame_vm_same _ _ Hf) as [Ef Ei]. rewrite <- (released_ext k k1).
  - apply (H ip); [|done]. unfold inode_of in *. by rewrite Ei.
  - intros j _. unfold inode_behind, file_of. by rewrite Ef.
Qed.

(** What [proc_free] makes of the kernel's state [k] and of the counts [a] of the open files. *)
Record taken k k' old root t kp up ps a a' : Prop := {
  tk_vm : vm_ok k' old (t :: kp) (root :: ps ++ up);
  tk_pages : NoDup (t :: root :: ps) /\ forall x : Z, x ∈ t :: root :: ps <-> left_page (k_mem k) root t x;
  tk_mem : same_off (k_mem k) (k_mem k') (t :: root :: ps);
  tk_tree : same_tree (k_mem k) (k_mem k') old;
  tk_frame : frame_free k k';
  tk_cpu : cpu_touch (k_cpu k') = cpu_touch (k_cpu k);
  tk_linked : linked k' a';
  tk_inodes : inodes_released k k' a a'
}.

Definition emptied q : proc := set_parent None (set_pid 0 (set_heap_top 0 (set_pgtbl 0 (set_tf 0 q)))).

Lemma proc_free_run {B} i q (K : unit -> M (pstate D) B) s k1 k2 k3 fl : (i < length (procs s))%nat -> tf q <> 0 -> pgtbl q <> 0 ->
  pmem_free (tf q) true (ps_k s) = Ret tt k1 -> uvm_destroy_pgtbl PGTBL_FUEL (pgtbl q) 3 k1 = Ret tt k2 ->
  for_each fseq (close_body i) (put_proc i (emptied q) (set_ps_k k2 s)) = Ret tt (put_proc i (set_filelist fl (emptied q)) (set_ps_k k3 s)) ->
  (proc_free i ≫= K) (put_proc i q s) = K tt (put_proc i (freed_proc (set_filelist fl q)) (set_ps_k k3 s)).
Proof.
  intros Hi Ht Hg H1 H2 H3.
  unfold proc_free. prun s. rewrite (proj2 (Z.eqb_neq (tf q) 0)) by done. cbn [negb when]. rewrite (on_k_at _ _ _ _ _ _ _ H1). prun s.
  change (pgtbl (set_tf 0 q)) with (pgtbl q). rewrite (proj2 (Z.eqb_neq (pgtbl q) 0)) by done. cbn [negb when].
  rewrite (on_k_at i _ _ _ (set_ps_k k1 s) tt k2) by (destruct s; exact H2).
  assert (set_ps_k k2 (set_ps_k k1 s) = set_ps_k k2 s) as -> by (by destruct s). prun s.
  fold (emptied q). erewrite bind_ret_eq by exact H3. prun s. by destruct q.
Qed.

Lemma proc_free_left {B} i q s old kp up a (K : unit -> M (pstate D) B) : (i < length (procs s))%nat -> counted (put_proc i q s) a ->
  linked (ps_k s) a -> leaves (ps_k s) old (pgtbl q) (tf q) kp up ->
  let q' := freed_proc (set_filelist (replicate 16 None) q) in
  exists k' ps a', (proc_free i ≫= K) (put_proc i q s) = K tt (put_proc i q' (set_ps_k k' s)) /\
    counted (put_proc i q' (set_ps_k k' s)) a' /\ taken (ps_k s) k' old (pgtbl q) (tf q) kp up ps a a'.
Proof.
  intros Hi Hc Hlk Hlv q'. pose proof (proc_of_put i q s Hi) as Hq. pose proof (fc_lists _ _ Hc i q Hq) as Hfl.
  destruct (free_left (ps_k s) old (pgtbl q) (tf q) kp up PGTBL_FUEL 3 Hlv ltac:(unfold PGTBL_FUEL; lia)) as
    (k1 & k2 & ps & H1 & H2 & Hf2 & Hc2 & Hv2 & Hnd & Hin & Hoff & Hst).
  assert (0 < tf q /\ 0 < pgtbl q) as [Ht0 Hg0].
  { destruct Hlv as (_ & How & (Ht & _) & _). split; [apply Ht|]. by destruct (pt_pages _ _ _ (vm_tree _ _ _ _ (ow_vm _ _ _ _ How)) [] _ nil_path eq_refl) as [[? _] _]. }
  set (q1 := emptied q).
  assert (counted (put_proc i q1 (set_ps_k k2 s)) a) as Hc1.
  { assert (put_proc i q1 (set_ps_k k2 s) = put_proc i q1 (set_ps_k k2 (put_proc i q s))) as -> by (unfold put_proc; destruct s; simpl; by rewrite list_insert_insert_eq).
    apply (counted_put _ _ i q q1 k2 a Hc Hq); [done | done |]. apply (ft_rel_vm (ps_k s)); [done | apply (pools_cpu _ _ _ (vm_pools _ _ _ _ Hv2)) | apply Hc]. }
  destruct (close_loop i fseq (set_ps_k k2 s) q1 a) as (k3 & a' & H3 & Hc3 & [L1 L2 L3 L4 L5]); [by destruct s | done | by apply (linked_vm (ps_k s)) | by intros n [_ Hn]%elem_of_seq |].
  change (filelist q1) with (filelist q) in H3, Hc3. assert (cleared fseq (filelist q) = replicate 16 None) as Hcl by (by apply clear_files_all). rewrite Hcl in H3, Hc3.
  assert (set_ps_k k3 (set_ps_k k2 s) = set_ps_k k3 s) as E3 by (by destruct s). rewrite E3 in H3, Hc3.
  assert (forall r, counted (put_proc i r (set_ps_k k3 s)) a' -> filelist q' = filelist r -> counted (put_proc i q' (set_ps_k k3 s)) a') as Hput.
  { intros r Hr He. assert (put_proc i q' (set_ps_k k3 s) = put_proc i q' (set_ps_k k3 (put_proc i r (set_ps_k k3 s)))) as -> by (unfold put_proc; destruct s; simpl; by rewrite list_insert_insert_eq).
    apply (counted_put _ _ i r q' k3 a' Hr); [apply proc_of_put; by destruct s | done | done | apply Hr]. }
  exists k3, ps, a'. split; [|split; [by apply (Hput _ Hc3)|]].
  - by apply (proc_free_run i q K s k1 k2 k3); [done | lia | lia | done | done |].
  - split.
    + apply (vm_ok_fi k2); [done | apply Hc3 | done].
    + done.
    + intros x Hx. rewrite (frame_fi_mem _ _ L2). by apply Hoff.
    + intros r b n Hr Hb Hn. rewrite (frame_fi_mem _ _ L2). by apply (Hst r).
    + etransitivity; [by apply frame_vm_free | by apply frame_fi_free].
    + rewrite L3. exact Hc2.
    + done.
    + by apply (released_vm (ps_k s) k2).
Qed.

(** *** One child, from its lock to its pid *)

Lemma cpu_frame_vm k c : frame_vm k (set_k_cpu c k).
Proof. by destruct k. Qed.

Lemma leaves_cpu k old root t kp up c : cpu_wf c -> leaves k old root t kp up -> leaves (set_k_cpu c k) old root t kp up.
Proof.
  intros Hc (H1 & H2 & H3 & H4). pose proof (vm_ok_cpu _ _ _ _ c Hc (ow_vm _ _ _ _ H2)) as Hv.
  split; [by apply vm_ok_cpu|]. split; [|by split]. apply (owned_tree k _ root kp up); [done | done | apply Hv |].
  intros q Hq. split; [|apply (ow_small _ _ _ _ H2); by left]. intros Hs. by apply (owned_page k root kp up q H2 Hs).
Qed.

(** The first ended child in the table is [i], whose entry is [p]; the waiting
    process is [w], whose entry is [pw].  Their address spaces share nothing. *)
Record reaping (ea : nat -> Z) s w pw i p addr kp up a : Prop := {
  rp_parent : proc_of s w = Some pw;
  rp_child : proc_of s i = Some p;
  rp_counted : counted s a;
  rp_linked : linked (ps_k s) a;
  rp_leaves : leaves (ps_k s) (pgtbl pw) (pgtbl p) (tf p) kp up;
  rp_status : addr <> 0 -> status_to (ps_k s) (pgtbl pw) (pgtbl p) (tf p) kp up (ea i) addr
}.

(** Memory that taking the child may write: the pages it leaves and, when there is
    a place for it, its exit state and the copy of it. *)
Definition reap_writes (m : mem) (old root t eai addr x : Z) : Prop :=
  (exists y : Z, left_page m root t y /\ y <= x < y + PGSIZE) \/
  (addr <> 0 /\ (eai <= x < eai + 4 \/ exists j : Z, 0 <= j < 4 /\ phys m old (addr + j) = Some x)).

Record reaped (ea : nat -> Z) s s' pw i p addr kp up ps a a' : Prop := {
  re_quiet : quiet s';
  re_procs : forall j q, proc_of s j = Some q -> exists q', proc_of s' j = Some q' /\
    bare q' = bare (if decide (j = i) then freed_proc (set_filelist (replicate 16 None) q) else q);
  re_globals : s' = set_procs (procs s') (set_ps_k (ps_k s') s);
  re_vm : vm_ok (ps_k s') (pgtbl pw) (tf p :: kp) (pgtbl p :: ps ++ up);
  re_pages : NoDup (tf p :: pgtbl p :: ps) /\ forall x : Z, x ∈ tf p :: pgtbl p :: ps <-> left_page (k_mem (ps_k s)) (pgtbl p) (tf p) x;
  re_status : addr <> 0 -> forall j : Z, 0 <= j < 4 -> uload (k_mem (ps_k s')) (pgtbl pw) (addr + j) = le_bytes 4 (u32 (exit_state p)) !! Z.to_nat j;
  re_tree : same_tree (k_mem (ps_k s)) (k_mem (ps_k s')) (pgtbl pw);
  re_mem : forall x, ~ reap_writes (k_mem (ps_k s)) (pgtbl pw) (pgtbl p) (tf p) (ea i) addr x -> load8 (k_mem (ps_k s')) x = load8 (k_mem (ps_k s)) x;
  re_frame : frame_free (ps_k s) (ps_k s');
  re_cpu : hartid (pcpu s') = hartid (pcpu s) /\ noff (pcpu s') = noff (pcpu s);
  re_counted : counted s' a';
  re_linked : linked (ps_k s') a';
  re_inodes : inodes_released (ps_k s) (ps_k s') a a'
}.

(** Copying the exit state, when there is a place for it. *)
Lemma status_step k old root t kp up eai addr v : leaves k old root t kp up -> (addr <> 0 -> status_to k old root t kp up eai addr) ->
  exists m', leaves (set_k_mem m' k) old root t kp up /\ same_tree (k_mem k) m' old /\ same_tree (k_mem k) m' root /\
    (addr <> 0 -> (forall j : Z, 0 <= j < 4 -> uload m' old (addr + j) = le_bytes 4 v !! Z.to_nat j) /\
      exists k1, mem_put eai (le_bytes 4 v) k = Ret tt k1 /\ uvm_copyout old addr eai 4 k1 = Ret tt (set_k_mem m' k)) /\
    (addr = 0 -> m' = k_mem k) /\
    (forall x, ~ (addr <> 0 /\ (eai <= x < eai + 4 \/ exists j : Z, 0 <= j < 4 /\ phys (k_mem k) old (addr + j) = Some x)) -> load8 m' x = load8 (k_mem k) x).
Proof.
  intros Hl Hs. destruct (Z.eq_dec addr 0) as [->|Ha].
  - exists (k_mem k). assert (set_k_mem (k_mem k) k = k) as -> by (by destruct k). by split_and!.
  - destruct (status_out k old root t kp up eai addr v Hl (Hs Ha)) as (k1 & m' & H1 & H2 & H3 & H4 & H5 & H6 & H7). exists m'.
    split; [done|]. split; [done|]. split; [done|]. split; [|split; [done|]].
    + intros _. split; [done|]. by exists k1.
    + intros x Hx. apply H4; [tauto|]. intros j Hj Hp. apply Hx. split; [done|]. right. by exists j.
Qed.

Lemma reap_head (ea : nat -> Z) s w pw i q addr k m' v : (i < length (procs s))%nat -> w <> i -> proc_of s w = Some pw ->
  (addr <> 0 -> exists k1, mem_put (ea i) (le_bytes 4 v) k = Ret tt k1 /\ uvm_copyout (pgtbl pw) addr (ea i) 4 k1 = Ret tt (set_k_mem m' k)) ->
  (addr = 0 -> m' = k_mem k) ->
  when (negb (addr =? 0)) (g ← get_proc w pgtbl; on_k (mem_put (ea i) (le_bytes 4 v));; on_k (uvm_copyout g addr (ea i) 4))
    (put_proc i q (set_ps_k k s)) = Ret tt (put_proc i q (set_ps_k (set_k_mem m' k) s)).
Proof.
  intros Hi Hwi Hw Hrun H0. destruct (Z.eqb_spec addr 0) as [Ha|Ha]; cbn [negb when].
  - rewrite (H0 Ha). assert (set_k_mem (k_mem k) k = k) as -> by (by destruct k). done.
  - destruct (Hrun Ha) as (k1 & H1 & H2).
    rewrite (get_proc_eq _ _ _ _ pw) by (rewrite proc_of_put_ne by done; exact Hw).
    rewrite (on_k_at i q _ _ (set_ps_k k s) tt k1) by (by destruct s).
    unfold on_k. change (ps_k (put_proc i q (set_ps_k k1 (set_ps_k k s)))) with k1. rewrite H2. by destruct s.
Qed.

Lemma reaped_mem (m m' m2 : mem) old root t ps eai addr : (forall x : Z, x ∈ ps <-> left_page m root t x) ->
  (forall x, ~ (addr <> 0 /\ (eai <= x < eai + 4 \/ exists j : Z, 0 <= j < 4 /\ phys m old (addr + j) = Some x)) -> load8 m' x = load8 m x) ->
  same_off m' m2 ps -> forall x, ~ reap_writes m old root t eai addr x -> load8 m2 x = load8 m x.
Proof.
  intros Hps Hm Hoff x Hx. rewrite Hoff.
  - apply Hm. intros Hy. apply Hx. by right.
  - intros y Hy Hr. apply Hx. left. exists y. split; [by apply Hps | done].
Qed.

(** The copied bytes are not in what the child leaves. *)
Lemma reaped_status k m' m2 old root t kp up ps eai addr v : status_to k old root t kp up eai addr ->
  (forall x : Z, x ∈ ps <-> left_page (k_mem k) root t x) -> same_tree (k_mem k) m' old -> same_tree m' m2 old -> same_off m' m2 ps ->
  (forall j : Z, 0 <= j < 4 -> uload m' old (addr + j) = le_bytes 4 v !! Z.to_nat j) ->
  forall j : Z, 0 <= j < 4 -> uload m2 old (addr + j) = le_bytes 4 v !! Z.to_nat j.
Proof.
  intros [_ _ Hphys _] Hps Ht1 Ht2 Hoff Hval j Hj. rewrite <- (Hval j Hj). unfold uload.
  rewrite (same_tree_phys _ _ _ _ Ht2), (same_tree_phys _ _ _ _ Ht1).
  destruct (Hphys j Hj) as (x & -> & _ & [_ Hu] & _). simpl. f_equal. apply Hoff. intros y Hy. by apply Hu, Hps.
Qed.

(** The state when the child [q], which was [p], is unlocked. *)
Definition reap_post i q k s : pstate D := put_proc i (set_p_lk (drop_lock (p_lk q)) q) (set_ps_k (set_k_cpu (cpu_pop (k_cpu k)) k) s).

Lemma reap_post_quiet s i q k : quiet s -> is_free (drop_lock (p_lk q)) -> cpu_wf (k_cpu k) -> 0 < noff (k_cpu k) -> quiet (reap_post i q k s).
Proof.
  intros [Hl _ Hf] Hq Hc Hn. split; [unfold reap_post, put_proc; simpl; by rewrite length_insert | by apply cpu_pop_wf |].
  intros j r. unfold reap_post, put_proc. simpl. intros Hj. destruct (decide (j = i)) as [->|Hne].
  - rewrite list_lookup_insert_eq in Hj by (apply lookup_lt_Some in Hj; by rewrite length_insert in Hj). by injection Hj as <-.
  - rewrite list_lookup_insert_ne in Hj by done. by apply (Hf j).
Qed.

Lemma reap_post_procs s i p q k j r : proc_of s i = Some p -> bare q = bare (freed_proc (set_filelist (replicate 16 None) p)) -> proc_of s j = Some r ->
  exists q', proc_of (reap_post i q k s) j = Some q' /\ bare q' = bare (if decide (j = i) then freed_proc (set_filelist (replicate 16 None) r) else r).
Proof.
  intros Hp Hq Hj. pose proof (proc_of_lt _ _ _ Hp) as Hi. unfold reap_post. destruct (decide (j = i)) as [->|Hne].
  - rewrite proc_of_put by (by destruct s). eexists. split; [done|]. rewrite Hp in Hj. injection Hj as <-. exact Hq.
  - rewrite proc_of_put_ne by done. by exists r.
Qed.

Lemma reap_post_counted s i q k a : (i < length (procs s))%nat -> cpu_wf (k_cpu k) -> 0 < noff (k_cpu k) -> counted (put_proc i q (set_ps_k k s)) a ->
  counted (reap_post i q k s) a.
Proof.
  intros Hi Hw Hn Hc. assert (reap_post i q k s = put_proc i (set_p_lk (drop_lock (p_lk q)) q) (set_ps_k (set_k_cpu (cpu_pop (k_cpu k)) k) (put_proc i q (set_ps_k k s)))) as ->
    by (unfold reap_post, put_proc; destruct s; simpl; by rewrite list_insert_insert_eq).
  apply (counted_put _ _ i q _ _ a Hc); [apply proc_of_put; by destruct s | done | done |].
  apply (ft_rel_vm k); [apply cpu_frame_vm | by apply cpu_pop_wf | apply Hc].
Qed.

Lemma reaping_apart (ea : nat -> Z) s w pw i p addr kp up a : reaping ea s w pw i p addr kp up a -> w <> i.
Proof.
  intros [Hw Hp _ _ (_ & _ & _ & _ & _ & Hsep) _] ->. rewrite Hw in Hp. injection Hp as ->.
  apply (Hsep [] (pgtbl p) nil_path eq_refl). left. left. exists []. split; [apply nil_path | done].
Qed.

Lemma same_tree_trans (m1 m2 m3 : mem) root : same_tree m1 m2 root -> same_tree m2 m3 root -> same_tree m1 m3 root.
Proof. intros H1 H2 r b n Hr Hb Hn. rewrite (H2 r b n) by (by rewrite ?(same_tree_node _ _ _ H1)). by apply (H1 r). Qed.

Lemma reap_child_run (ea : nat -> Z) s w pw i p addr kp up a : quiet s -> reaping ea s w pw i p addr kp up a ->
  exists s' ps a', reap_child ea w i p addr (locked_at i p s) = Ret (true, Some (pid p)) s' /\ reaped ea s s' pw i p addr kp up ps a a'.
Proof.
  intros Hq Hr. pose proof (reaping_apart _ _ _ _ _ _ _ _ _ _ Hr) as Hwi. destruct Hr as [Hw Hp Hc Hlk Hlv Hst].
  pose proof (proc_of_lt _ _ _ Hp) as Hi. pose proof (q_cpu s Hq) as Hcw.
  set (K1 := set_k_cpu (cpu_push (pcpu s)) (ps_k s)). set (q0 := set_p_lk (take_lock (hartid (pcpu s)) (p_lk p)) p).
  change (locked_at i p s) with (put_proc i q0 (set_ps_k K1 s)).
  destruct (status_step K1 (pgtbl pw) (pgtbl p) (tf p) kp up (ea i) addr (u32 (exit_state p))) as (m' & Hlv2 & Ht1 & Ht2 & Hrun & H0 & Hm').
  { apply leaves_cpu; [by apply cpu_push_wf | done]. } { intros Ha. destruct (Hst Ha) as [H1 H2 H3 H4]. by split. }
  set (K2 := set_k_mem m' K1) in *. assert (frame_vm (ps_k s) K2) as Hf2 by (unfold K2, K1; by destruct (ps_k s)).
  assert (frame_vm (ps_k s) K2 /\ cpu_wf (k_cpu K2)) as [_ Hcw2] by (split; [done | by apply cpu_push_wf]).
  assert (counted (put_proc i q0 (set_ps_k K2 s)) a) as Hc2 by (apply (counted_put s s i p); [done | done | done | done | by apply (ft_rel_vm (ps_k s)); [| | apply Hc]]).
  unfold reap_child. rewrite (bind_ret_eq _ _ _ _ _ (reap_head ea s w pw i q0 addr K1 m' _ Hi Hwi Hw (fun Ha => proj2 (Hrun Ha)) H0)). fold K2.
  destruct (proc_free_left i q0 (set_ps_k K2 s) (pgtbl pw) kp up a (fun _ => plock i spinlock_release;; mret (true, Some (pid p)))) as (k' & ps & a' & Hfree & Hc3 & Hk);
    [by destruct s | by destruct s | by apply (linked_vm (ps_k s)) | exact Hlv2 |].
  rewrite Hfree. set (q1 := freed_proc (set_filelist (replicate 16 None) q0)) in *. assert (set_ps_k k' (set_ps_k K2 s) = set_ps_k k' s) as E by (by destruct s). rewrite E in Hc3 |- *.
  destruct (touch_same _ _ (tk_cpu _ _ _ _ _ _ _ _ _ _ Hk)) as [Eh En]. change (hartid (k_cpu k') = hartid (pcpu s)) in Eh. change (noff (k_cpu k') = noff (pcpu s) + 1) in En.
  pose proof (pools_cpu _ _ _ (vm_pools _ _ _ _ (tk_vm _ _ _ _ _ _ _ _ _ _ Hk))) as Hcw3. destruct (Hcw) as [Hn0 _]. destruct Hk as [V1 V2 V3 V4 V5 _ V7 V8].
  assert (forall x : Z, x ∈ tf p :: pgtbl p :: ps <-> left_page (k_mem (ps_k s)) (pgtbl p) (tf p) x) as Hps.
  { intros x. etransitivity; [apply V2|]. unfold left_page. apply or_iff_compat_r. exact (same_tree_space (k_mem (ps_k s)) m' (pgtbl p) x Ht2). }
  assert (held_by (hartid (k_cpu k')) (p_lk q1)) as Hheld by (rewrite Eh; by split).
  exists (reap_post i q1 k' s), ps, a'. split.
  - rewrite (bind_ret_eq _ _ _ _ _ (release_at i q1 (set_ps_k k' s) Hi Hcw3 ltac:(change (0 < noff (k_cpu k')); lia) Hheld)).
    done.
  - split.
    + apply reap_post_quiet; [done | done | done | lia].
    + intros j r. by apply (reap_post_procs s i p).
    + unfold reap_post, put_proc. by destruct s.
    + apply vm_ok_cpu; [apply cpu_pop_wf; [done | lia] | exact V1].
    + split; [apply V2 | exact Hps].
    + intros Ha. apply (reaped_status (ps_k s) m' (k_mem k') (pgtbl pw) (pgtbl p) (tf p) kp up (tf p :: pgtbl p :: ps) (ea i)); [by apply Hst | exact Hps | done | exact V4 | exact V3 | by apply Hrun].
    + apply (same_tree_trans _ m'); [exact Ht1 | exact V4].
    + apply (reaped_mem _ m' _ _ _ _ (tf p :: pgtbl p :: ps)); [exact Hps | exact Hm' | exact V3].
    + etransitivity; [by apply frame_vm_free|]. etransitivity; [exact V5|]. unfold frame_free. by destruct k'.
    + split; [exact Eh|]. change (noff (k_cpu k') - 1 = noff (pcpu s)). lia.
    + apply reap_post_counted; [done | done | lia | done].
    + apply (linked_vm k'); [apply cpu_frame_vm | done].
    + apply (released_vm (ps_k s) K2); [done | exact V8].
Qed.

(** *** After the scan *)

Lemma fd_count_bare (l l' : list proc) f : bare <$> l = bare <$> l' -> fd_count l f = fd_count l' f.
Proof.
  revert l'. induction l as [|p l IH]; intros [|p' l'] He; [done..|]. change (bare p :: (bare <$> l) = bare p' :: (bare <$> l')) in He.
  pose proof (f_equal tail He) as Ht. apply (f_equal (fun x => filelist <$> head x)) in He. cbn in He, Ht.
  unfold fd_count in *. cbn [foldr]. f_equal; [congruence | by apply IH].
Qed.

Lemma counted_equiv s s1 a : s1 ≡ s -> cpu_wf (pcpu s1) -> counted s a -> counted s1 a.
Proof.
  intros He Hw [C1 C2 C3 C4 C5]. pose proof (procs_proper _ _ He) as Hp. cbv beta in Hp. split; [| | done | |].
  - rewrite (equiv_k s s1) by (by symmetry). apply (ft_rel_vm (ps_k s)); [apply cpu_frame_vm | done | done].
  - intros f. by rewrite C2, (fd_count_bare _ _ f Hp).
  - intros j q Hj. destruct (equiv_lookup s1 s j q He Hj) as (q' & Hj' & Hb). apply (f_equal filelist) in Hb. change (filelist q' = filelist q) in Hb.
    rewrite <- Hb. by apply (C4 j).
  - apply (f_equal length) in Hp. rewrite !length_fmap in Hp. by rewrite Hp.
Qed.

Lemma bare_same p q : bare p = bare q -> pgtbl p = pgtbl q /\ tf p = tf q /\ exit_state p = exit_state q /\ pid p = pid q.
Proof.
  intros Hb. split_and!; [apply (f_equal pgtbl) in Hb | apply (f_equal tf) in Hb | apply (f_equal exit_state) in Hb | apply (f_equal pid) in Hb]; exact Hb.
Qed.

Lemma reaping_equiv (ea : nat -> Z) s s1 w pw i p addr kp up a : quiet s1 -> s1 ≡ s -> reaping ea s w pw i p addr kp up a ->
  exists pw1 p1, bare pw1 = bare pw /\ bare p1 = bare p /\ reaping ea s1 w pw1 i p1 addr kp up a.
Proof.
  intros Hq He [Hw Hp Hc Hlk Hlv Hst]. pose proof (equiv_k s s1 ltac:(by symmetry)) as Ek. symmetry in He.
  destruct (equiv_lookup s s1 w pw He Hw) as (pw1 & Hw1 & Hbw). destruct (equiv_lookup s s1 i p He Hp) as (p1 & Hp1 & Hbp). symmetry in He.
  exists pw1, p1. split; [done|]. split; [done|]. destruct (bare_same _ _ Hbw) as (Egw & _). destruct (bare_same _ _ Hbp) as (Egp & Etp & _).
  split; rewrite ?Egw, ?Egp, ?Etp; [done | done | | | |].
  - by apply (counted_equiv s); [| apply Hq |].
  - rewrite Ek. apply (linked_vm (ps_k s)); [apply cpu_frame_vm | done].
  - rewrite Ek. apply leaves_cpu; [apply Hq | done].
  - intros Ha. destruct (Hst Ha) as [H1 H2 H3 H4]. rewrite Ek. by split.
Qed.

Lemma reaped_equiv (ea : nat -> Z) s s1 s' pw pw1 i p p1 addr kp up ps a a' : s1 ≡ s -> bare pw1 = bare pw -> bare p1 = bare p ->
  reaped ea s1 s' pw1 i p1 addr kp up ps a a' -> reaped ea s s' pw i p addr kp up ps a a'.
Proof.
  intros He Hbw Hbp [R1 R2 R3 R4 R5 R6 R7 R8 R9 R10 R11 R12 R13]. pose proof (equiv_k s s1 ltac:(by symmetry)) as Ek.
  destruct (bare_same _ _ Hbw) as (Egw & _). destruct (bare_same _ _ Hbp) as (Egp & Etp & Exp & _). rewrite ?Egw, ?Egp, ?Etp, ?Exp in *.
  assert (k_mem (ps_k s1) = k_mem (ps_k s)) as Em by (rewrite Ek; by destruct (ps_k s)). rewrite Em in *.
  destruct (equiv_globals _ _ He) as (_ & _ & _ & _ & Eh & En). symmetry in He. split; [done | | | done | done | done | done | done | | | done | done |].
  - intros j q Hj. destruct (equiv_lookup s s1 j q He Hj) as (q1 & Hj1 & Hb1). destruct (R2 j q1 Hj1) as (q' & Hj' & Hb').
    exists q'. split; [done|]. rewrite Hb'. case_decide; [|done]. apply (f_equal (fun x => freed_proc (set_filelist (replicate 16 None) x))) in Hb1. exact Hb1.
  - rewrite R3 at 1. rewrite (equiv_only s s1 He). by destruct s.
  - refine (frame_free_trans _ _ _ _ R9). rewrite Ek. unfold frame_free. by destruct (ps_k s).
  - by rewrite <- Eh, <- En.
  - apply (released_vm (ps_k s) (ps_k s1)); [rewrite Ek; apply cpu_frame_vm | done].
Qed.

(** ** [proc_wait] *)

Lemma proc_sleep_stops s w p : cur s = Some w -> proc_of s w = Some p -> is_free (p_lk p) ->
  proc_sleep (panic "swtch") (ch_proc w) None s = Panic "swtch" (asleep_at w p (ch_proc w) s).
Proof. intros Hc Hp Hf. unfold proc_sleep. mrun. apply bind_panic_eq. by apply sleep_tail_eq. Qed.

Lemma asleep_only s s' w q : s' ≡ s -> proc_of s' w = Some q -> only_procs s (asleep_at w q (ch_proc w) s') /\
  forall j r, proc_of s j = Some r -> exists r', proc_of (asleep_at w q (ch_proc w) s') j = Some r' /\
    bare r' = bare (if decide (j = w) then set_p_state SLEEPING (set_sleep_space (ch_proc w) r) else r).
Proof.
  intros He Hq. symmetry in He. split.
  - etransitivity; [by apply equiv_only|]. unfold asleep_at, locked_at. by destruct s' as [[]].
  - intros j r Hj. destruct (equiv_lookup s s' j r He Hj) as (r1 & Hr1 & Hb). destruct (decide (j = w)) as [->|Hne].
    + eexists. split; [by apply asleep_self|]. rewrite Hq in Hr1. injection Hr1 as <-.
      apply (f_equal (fun x => set_p_state SLEEPING (set_sleep_space (ch_proc w) x))) in Hb. exact Hb.
    + exists r1. by rewrite asleep_other.
Qed.

(** C27: [proc_wait] with any address for the exit state.  While none of its children
    has ended, a process without children gets -1 and nothing has changed; one with
    children goes to sleep on its own process entry, nothing else of the kernel having
    changed, and looks again when it is woken.  Otherwise the first ended child of the
    table is taken and its pid returned: its exit state is in the four bytes at the
    address, unless that is 0; its trapframe and every table and page of its address
    space are free pages again, each one once; its files are closed and the inodes
    behind files that nobody else has open have lost a reference; its entry is UNUSED
    and its lock free.  The other processes, the address space of the parent and the
    rest of memory and of the kernel are the same. *)
Theorem proc_wait_reaps (ea : nat -> Z) s w fuel addr : quiet s -> cur s = Some w -> (w < Z.to_nat NPROC)%nat ->
  ((forall i, (i < Z.to_nat NPROC)%nat -> is_child s w i = true -> not_in ZOMBIE s i) ->
    exists s', quiet s' /\ s' ≡ s /\
      (forall sw, proc_wait ea sw (S fuel) addr s =
        if has_children s w then (proc_sleep sw (ch_proc w) None;; proc_wait ea sw fuel addr) s' else Ret (-1) s') /\
      (has_children s w = true -> panics (proc_wait ea (panic "swtch") (S fuel) addr) s "swtch" (fun s2 => only_procs s s2 /\
        forall j q, proc_of s j = Some q -> exists q', proc_of s2 j = Some q' /\
          bare q' = bare (if decide (j = w) then set_p_state SLEEPING (set_sleep_space (ch_proc w) q) else q)))) /\
  (forall i pw p kp up a, (forall j, (j < i)%nat -> is_child s w j = true -> not_in ZOMBIE s j) ->
    parent p = Some w -> p_state p = ZOMBIE -> reaping ea s w pw i p addr kp up a ->
    exists s' ps a', (forall sw, proc_wait ea sw (S fuel) addr s = Ret (pid p) s') /\ reaped ea s s' pw i p addr kp up ps a a').
Proof.
  intros Hq Hc Hw. split.
  - intros Hz. destruct (wait_scan_none ea w addr pseq s false Hq) as (s' & H & Hq' & He); [by intros i ?%pseq_in | intros i Hi; by apply Hz, pseq_in |].
    assert (forall sw, proc_wait ea sw (S fuel) addr s =
      if has_children s w then (proc_sleep sw (ch_proc w) None;; proc_wait ea sw fuel addr) s' else Ret (-1) s') as Hrun.
    { intros sw. rewrite (proc_wait_unfold ea sw s w fuel addr Hc), (bind_ret_eq _ _ _ _ _ H). cbn [orb]. change (existsb _ pseq) with (has_children s w). by destruct (has_children s w). }
    exists s'. split; [done|]. split; [done|]. split; [done|]. intros Hk.
    destruct (quiet_lookup s' w Hq' Hw) as (q & Hqw & Hf). apply (panics_intro _ _ _ (asleep_at w q (ch_proc w) s')).
    + rewrite Hrun, Hk. apply bind_panic_eq, proc_sleep_stops; [by rewrite He | done | done].
    + by apply asleep_only.
  - intros i pw p kp up a Hbef Hpar Hst Hr. pose proof (rp_child _ _ _ _ _ _ _ _ _ _ Hr) as Hp. pose proof (proc_of_lt _ _ _ Hp) as Hi. rewrite (q_len s Hq) in Hi.
    assert (exists rest, pseq = seq 0 i ++ i :: rest) as [rest Hrest].
    { exists (seq (S i) (Z.to_nat NPROC - S i)). unfold pseq. replace (Z.to_nat NPROC) with (i + S (Z.to_nat NPROC - S i))%nat at 1 by lia. by rewrite seq_app. }
    destruct (wait_scan_zombie ea w addr i rest (seq 0 i) s false Hq) as (s1 & p1 & Hq1 & He1 & Hp1 & H1).
    + intros j Hj. apply pseq_in. rewrite Hrest, cons_middle, app_assoc. apply elem_of_app. by left.
    + intros j Hj%elem_of_seq. apply Hbef. lia.
    + by exists p.
    + destruct (reaping_equiv ea s s1 w pw i p addr kp up a Hq1 He1 Hr) as (pw1 & p1' & Hbw & Hbp & Hr1).
      pose proof (rp_child _ _ _ _ _ _ _ _ _ _ Hr1) as Hp1'. rewrite Hp1 in Hp1'. injection Hp1' as <-.
      destruct (reap_child_run ea s1 w pw1 i p1 addr kp up a Hq1 Hr1) as (s' & ps & a' & Hrun & Hd). exists s', ps, a'.
      split; [|by apply (reaped_equiv ea s s1 s' pw pw1 i p p1)].
      intros sw. rewrite (proc_wait_unfold ea sw s w fuel addr Hc), Hrest, <- (proj2 (proj2 (proj2 (bare_same _ _ Hbp)))).
      by rewrite (bind_ret_eq _ _ _ _ _ (eq_trans H1 Hrun)).
Qed.
End Reap.

(** ** Process 0 waits for process 1, which has ended with the state 3 and one open file *)

(** The address space of the parent: a page of data at 0. *)
Definition waiter_nodes : list (list Z * Z) :=
  [([], 0x80040000); ([0], 0x80041000); ([0; 0], 0x80042000); ([0; 0; 0], 0x80130000)].

Definition wait_entries : list (Z * Z) :=
  [(0x80040000, mk_pte 0x80041000 PTE_V); (0x80041000, mk_pte 0x80042000 PTE_V); (0x80042000, mk_pte 0x80130000 0x17)] ++ demo_entries.

Definition wait_ft : ftable := mk_ftable (mk_file FD_FILE true false 1 0 0 (Some 0%nat) :: replicate 31 zero_file) zero_lock [].
Definition wait_ic : icache := mk_icache (mk_inode (mk_dinode 2 0 0 1 0 []) 1 2 true zero_lock :: replicate 31 zero_inode) zero_lock.

Definition wait_k : kstate unit := set_k_mem (mem_of wait_entries) (set_k_ft wait_ft (set_k_ic wait_ic demo_space)).

Definition waiter : proc := set_pgtbl 0x80040000 (demo_proc RUNNING).
Definition ended : proc :=
  set_parent (Some 0%nat) (set_pid 7 (set_exit_state 3 (set_pgtbl 0x80020000 (set_tf 0x80030000
    (set_filelist (Some 0%nat :: replicate 15 None) (demo_proc ZOMBIE)))))).

Definition wait_ps : pstate unit := mk_pstate wait_k ([waiter; ended] ++ replicate 62 (demo_proc UNUSED)) (Some 0%nat) 8 zero_lock (Some 0%nat) 0 1.

Lemma wait_nodes : entries_ok wait_entries /\ nodes_of wait_entries demo_nodes /\ nodes_of wait_entries waiter_nodes /\
  ([], 0x80020000) ∈ demo_nodes /\ ([], 0x80040000) ∈ waiter_nodes.
Proof. split_and!; apply (bool_decide_unpack _); by vm_compute. Qed.

Lemma wait_pools : pools wait_k [0x80025000] [0x80121000].
Proof.
  assert (forall a, a = 0x80025000 \/ a = 0x80121000 -> load64 (mem_of wait_entries) a = 0) as H0.
  { intros a Ha. apply mem_of_none; [apply wait_nodes | by destruct Ha as [-> | ->]|]. destruct Ha as [-> | ->]; apply (bool_decide_unpack _); by vm_compute. }
  split; [split_and!; [split; [done | by apply H0; left] | done..] | split_and!; [split; [done | by apply H0; right] | done..] | | | done | split; simpl; (lia || done)];
    apply (bool_decide_unpack _); by vm_compute.
Qed.

Lemma wait_owned : owned wait_k 0x80040000 [0x80025000] [0x80121000] /\ owned wait_k 0x80020000 [0x80025000] [0x80121000].
Proof.
  destruct wait_nodes as (He & Hd & Hw & Hrd & Hrw). split.
  - apply (nodes_owned wait_entries waiter_nodes _ He Hw Hrw); [done | apply wait_pools | apply (bool_decide_unpack _); by vm_compute..].
  - apply (nodes_owned wait_entries demo_nodes _ He Hd Hrd); [done | apply wait_pools | apply (bool_decide_unpack _); by vm_compute..].
Qed.

(** What the child leaves, among its nodes. *)
Lemma wait_left q : left_page (k_mem wait_k) 0x80020000 0x80030000 q -> (exists r, (r, q) ∈ demo_nodes /\ ~ borrowed r) \/ q = 0x80030000.
Proof.
  intros [Hs| ->]; [left | by right]. apply (space_page_path _ _ _ (proj2 (ow_regular _ _ _ _ (proj2 wait_owned)))) in Hs as (r & Hr & Hb & Hn).
  destruct wait_nodes as (He & Hd & _ & Hrd & _). exists r. split; [|done]. by apply (nodes_node wait_entries demo_nodes _ He Hd Hrd).
Qed.

Lemma waiter_node r a : path_ok r -> node (k_mem wait_k) 0x80040000 r = Some a -> (r, a) ∈ waiter_nodes /\ (length r <= 2)%nat.
Proof.
  intros Hr Hn. destruct wait_nodes as (He & _ & Hw & _ & Hrw). split; [|apply Hr].
  apply (nodes_node wait_entries waiter_nodes _ He Hw Hrw); [by apply path_full | done].
Qed.

Lemma wait_leaves : leaves wait_k 0x80040000 0x80020000 0x80030000 [0x80025000] [0x80121000].
Proof.
  destruct wait_owned as [How Hod]. destruct wait_nodes as (He & Hd & _ & Hrd & _). split; [apply How|]. split; [done|]. split; [|split; [done|split]].
  - split_and!; [done | apply (bool_decide_unpack _); by vm_compute |]. intros r Hr Hn.
    apply (nodes_node wait_entries demo_nodes _ He Hd Hrd) in Hn; [|by apply path_full]. destruct Hr as [Hl _].
    assert (Forall (fun n => (length n.1 <= 2)%nat -> n.2 <> 0x80030000) demo_nodes) as Hno by (apply (bool_decide_unpack _); by vm_compute).
    by apply (Forall_elem _ _ _ Hno Hn).
  - intros Hs. apply (space_page_path _ _ _ (proj2 (ow_regular _ _ _ _ Hod))) in Hs as (r & Hr & Hb & Hn).
    apply (nodes_node wait_entries demo_nodes _ He Hd Hrd) in Hn; [|done].
    assert (Forall (fun n => ~ borrowed n.1 -> n.2 <> 0x80030000) demo_nodes) as Hno by (apply (bool_decide_unpack _); by vm_compute).
    by apply (Forall_elem _ _ _ Hno Hn).
  - intros r a Hr Hn Hl. apply waiter_node in Hn as [Hn Hlen]; [|done].
    assert (Forall (fun n => (length n.1 <= 2)%nat -> n.2 <> 0x80030000 /\ Forall (fun n' => ~ borrowed n'.1 -> n.2 <> n'.2) demo_nodes) waiter_nodes) as Hno by (apply (bool_decide_unpack _); by vm_compute).
    destruct (Forall_elem _ _ _ Hno Hn Hlen) as [H1 H2]. destruct (wait_left a Hl) as [(r' & Hr' & Hb)|Ha]; [|done]. by apply (Forall_elem _ _ _ H2 Hr' Hb).
Qed.

Lemma wait_used lo hi x : lo <= x < hi ->
  Forall (fun n => (length n.1 <= 2)%nat -> n.2 + PGSIZE <= lo \/ hi <= n.2) waiter_nodes ->
  Forall (fun n => ~ borrowed n.1 -> n.2 + PGSIZE <= lo \/ hi <= n.2) demo_nodes ->
  Forall (fun p => p + PGSIZE <= lo \/ hi <= p) [0x80025000; 0x80121000; 0x80030000] ->
  used_byte wait_k 0x80040000 0x80020000 0x80030000 [0x80025000] [0x80121000] x.
Proof.
  intros Hx Hw Hd Hp. split; [split|].
  - intros r a Hr Hn. apply waiter_node in Hn as [Hn Hl]; [|done]. pose proof (Forall_elem _ _ _ Hw Hn Hl) as H. simpl in H. lia.
  - intros p Hin. assert (p ∈ [0x80025000; 0x80121000; 0x80030000]) as Hin' by set_solver. pose proof (Forall_elem _ _ _ Hp Hin') as H. simpl in H. lia.
  - intros p [(r & Hr & Hb)| ->]%wait_left.
    + pose proof (Forall_elem _ _ _ Hd Hr Hb) as H. simpl in H. lia.
    + assert (0x80030000 ∈ [0x80025000; 0x80121000; 0x80030000]) as Hin by set_solver. pose proof (Forall_elem _ _ _ Hp Hin) as H. simpl in H. lia.
Qed.

Lemma wait_phys j : 0 <= j < 4 -> phys (k_mem wait_k) 0x80040000 (16 + j) = Some (0x80130010 + j).
Proof. intros Hj. assert (j = 0 \/ j = 1 \/ j = 2 \/ j = 3) as [-> | [-> | [-> | ->]]] by lia; by vm_compute. Qed.

Lemma wait_status : status_to wait_k 0x80040000 0x80020000 0x80030000 [0x80025000] [0x80121000] 0x80008000 16.
Proof.
  split.
  - split; [done|]. split; [done|]. intros x Hx. apply (wait_used 0x80008000 0x80008004 x); [lia | apply (bool_decide_unpack _); by vm_compute..].
  - change VA_MAX with (2 ^ 38). lia.
  - intros j Hj. exists (0x80130010 + j). split; [by apply wait_phys|]. split; [lia|]. split; [|lia].
    apply (wait_used 0x80130010 0x80130014); [lia | apply (bool_decide_unpack _); by vm_compute..].
  - intros i j x Hi Hj. rewrite !wait_phys by done. intros [= <-] [= E]. lia.
Qed.

Lemma wait_counted : counted wait_ps {[0%nat := 1]}.
Proof.
  split.
  - split; [done | done | split; simpl; (lia || done) |].
    intros [|i] f Hf; [vm_compute in Hf; injection Hf as <-; rewrite lookup_singleton_eq; by vm_compute|]. rewrite lookup_singleton_ne by done.
    change (replicate 31 zero_file !! i = Some f) in Hf. by apply lookup_replicate in Hf as [-> _].
  - intros [|f]; [rewrite lookup_singleton_eq; by vm_compute|]. rewrite lookup_singleton_ne by done. symmetry. cbn [default].
    assert (forall n, fd_count (replicate n (demo_proc UNUSED)) (S f) = 0) as Hz.
    { induction n as [|n IH]; [done|]. change (refs_in (replicate 16 None) (S f) + fd_count (replicate n (demo_proc UNUSED)) (S f) = 0). by rewrite IH. }
    specialize (Hz 62%nat). change (fd_count (procs wait_ps) (S f)) with
      (refs_in (replicate 16 None) (S f) + (refs_in (Some 0%nat :: replicate 15 None) (S f) + fd_count (replicate 62 (demo_proc UNUSED)) (S f))).
    rewrite Hz. done.
  - intros f r [<- _]%lookup_singleton_Some. apply Nat.ltb_lt. reflexivity.
  - intros [|[|j]] q Hq; [by injection Hq as <- | by injection Hq as <-|]. change (replicate 62 (demo_proc UNUSED) !! j = Some q) in Hq. by apply lookup_replicate in Hq as [-> _].
  - done.
Qed.

Lemma wait_reaping : reaping (fun _ => 0x80008000) wait_ps 0 waiter 1 ended 16 [0x80025000] [0x80121000] {[0%nat := 1]}.
Proof.
  split; [done | done | apply wait_counted | | apply wait_leaves | intros _; apply wait_status].
  split; [done|]. intros [|f] ip Hf Hip; [|by rewrite lookup_singleton_ne in Hf].
  assert (inode_behind wait_k 0 = Some 0%nat) as E by done. change (inode_behind wait_k 0 = Some ip) in Hip. rewrite E in Hip. injection Hip as <-. eexists. split; [reflexivity | done].
Qed.

Lemma wait_quiet : quiet wait_ps.
Proof.
  split; [done | split; simpl; (lia || done) |].
  intros [|[|j]] q Hq; [by injection Hq as <- | by injection Hq as <-|]. change (replicate 62 (demo_proc UNUSED) !! j = Some q) in Hq. by apply lookup_replicate in Hq as [-> _].
Qed.

(** No descriptor refers to the child's file any more. *)
Lemma wait_released s' pw addr kp up ps a' : reaped (fun _ => 0x80008000) wait_ps s' pw 1 ended addr kp up ps {[0%nat := 1]} a' ->
  a' !! 0%nat = None /\ released wait_k {[0%nat := 1]} a' 0 = 1%nat.
Proof.
  intros Hr. set (l := [waiter; freed_proc (set_filelist (replicate 16 None) ended)] ++ replicate 62 (demo_proc UNUSED)).
  assert (bare <$> procs s' = bare <$> l) as Hb.
  { apply list_eq. intros j. rewrite !list_lookup_fmap. destruct (procs wait_ps !! j) as [q|] eqn:Hj.
    - destruct (re_procs _ _ _ _ _ _ _ _ _ _ _ _ Hr j q Hj) as (q' & Hq' & Hb). unfold proc_of in Hq'. rewrite Hq'. simpl. rewrite Hb.
      destruct j as [|[|j]]; [by injection Hj as <- | by injection Hj as <-|].
      change (replicate 62 (demo_proc UNUSED) !! j = Some q) in Hj. change (l !! S (S j)) with (replicate 62 (demo_proc UNUSED) !! j). by rewrite Hj.
    - apply lookup_ge_None in Hj. assert (procs s' !! j = None /\ l !! j = None) as [-> ->]; [|done].
      split; apply lookup_ge_None; [rewrite (q_len _ (re_quiet _ _ _ _ _ _ _ _ _ _ _ _ Hr)) |]; exact Hj. }
  assert (a' !! 0%nat = None) as Ha.
  { destruct (a' !! 0%nat) as [r|] eqn:Ha; [|done]. exfalso. pose proof (re_counted _ _ _ _ _ _ _ _ _ _ _ _ Hr) as Hc.
    pose proof (fc_count _ _ Hc 0) as Hn. rewrite Ha, (fd_count_bare _ _ 0 Hb) in Hn. assert (fd_count l 0 = 0) as Hz by (by vm_compute). rewrite Hz in Hn. cbn in Hn.
    destruct (ft_lookup _ _ 0 (fc_table _ _ Hc) (fc_dom _ _ Hc 0 r Ha)) as [x Hx]. pose proof (ft_entry _ _ (fc_table _ _ Hc) 0 x Hx) as He. rewrite Ha in He. lia. }
  split; [done|]. unfold released. assert (dom ({[0%nat := 1]} : gmap nat Z) ∖ dom a' = {[0%nat]}) as ->.
  { rewrite dom_singleton_L. apply not_elem_of_dom in Ha. set_solver. }
  assert (filter (fun f => inode_behind wait_k f = Some 0%nat) ({[0%nat]} : gset nat) = {[0%nat]}) as ->; [|apply size_singleton].
  assert (inode_behind wait_k 0 = Some 0%nat) as E by done. set_solver.
Qed.

(** The child's code page and trapframe are free again, the parent reads 3 at 16 and
    the inode behind the child's file has lost one of its two references. *)
Lemma proc_wait_reaps_witness : exists s' ps, (forall sw, proc_wait (fun _ => 0x80008000) sw 1 16 wait_ps = Ret 7 s') /\
  vm_ok (ps_k s') 0x80040000 [0x80030000; 0x80025000] (0x80020000 :: ps ++ [0x80121000]) /\ 0x80120000 ∈ ps /\
  uload (k_mem (ps_k s')) 0x80040000 16 = Some 3 /\
  (exists q, proc_of s' 1 = Some q /\ p_state q = UNUSED /\ pid q = 0) /\ (exists n, inode_of (ps_k s') 0 = Some n /\ i_ref n = 1).
Proof.
  destruct (proc_wait_reaps (fun _ => 0x80008000) wait_ps 0 0 16 wait_quiet eq_refl ltac:(apply Nat.ltb_lt; reflexivity)) as [_ H].
  destruct (H 1%nat waiter ended [0x80025000] [0x80121000] {[0%nat := 1]}) as (s' & ps & a' & Hrun & Hr).
  - intros j Hj. assert (j = 0)%nat as -> by lia. intros [=].
  - reflexivity.
  - reflexivity.
  - exact wait_reaping.
  - exists s', ps. destruct (wait_released _ _ _ _ _ _ _ Hr) as [_ Hrel]. destruct Hr as [_ R2 _ R4 [_ R5] R6 _ _ _ _ _ _ R13].
    split; [exact Hrun|]. split; [exact R4|]. split; [|split; [|split]].
    + assert (0x80120000 ∈ 0x80030000 :: 0x80020000 :: ps) as Hin.
      { apply R5. left. right. exists 0, (mk_pte 0x80120000 0x17). split; [change VA_MAX with (2 ^ 38); lia|]. split; [split; apply (bool_decide_unpack _); by vm_compute|].
        split; apply (bool_decide_unpack _); by vm_compute. }
      apply elem_of_cons in Hin as [[=]|Hin]. by apply elem_of_cons in Hin as [[=]|Hin].
    + exact (R6 ltac:(done) 0 ltac:(lia)).
    + destruct (R2 1%nat ended eq_refl) as (q & Hq & Hb). exists q. split; [exact Hq|].
      split; [apply (f_equal p_state) in Hb | apply (f_equal pid) in Hb]; exact Hb.
    + eexists. split; [apply (R13 0%nat _ eq_refl); simpl; lia|]. change (ps_k wait_ps) with wait_k. rewrite Hrel. reflexivity.
Defined.
