(* ===== verification/SyscallMem.v ===== *)
(** * SyscallMem: the system call brk (kernel/syscall/sysfunc.c) *)

From S2P Require Import Prelude Bytes Kstring Spinlock Kernel Disk Buf Bitmap Inode Dir Pmem Vmem VmemTree VmemSpec Uvm UvmSpec UvmHeap UvmCopy File FileSpec Proc ProcSpec ProcAlloc ProcFork Syscall SyscallSpec.

Section Brk.
Context {D : Type}.
Implicit Types (s : pstate D) (i : nat) (p : proc) (kp up : list Z).

(** A process and its address space, with pages for [2 * heap_pages] tables. *)
Record brk_ready s i p kp up (len : Z) : Prop := {
  br_caller : caller s i p;
  br_vm : vm_ok (ps_k s) (pgtbl p) kp up;
  br_top : 0 <= heap_top p /\ page_up (heap_top p + len) <= VA_MAX /\ heap_top p + len + PGSIZE < 2 ^ 64;
  br_low : Forall (fun q => q < 2 ^ 63) up;
  br_tables : 2 * Z.of_nat (heap_pages (heap_top p) len) <= Z.of_nat (length kp)
}.

(** The heap of [root] was extended from [old] by zeroed pages up to [new]. *)
Definition extended (m m' : mem) (root old new : Z) : Prop :=
  (forall x, page_up old <= x < page_up new -> uload m' root x = Some 0 /\
     exists v, pt_map m' root x = Some v /\ PTE_FLAGS v = Z.lor HEAP_PERM PTE_V) /\
  forall x, 0 <= x < VA_MAX -> ~ (page_up old <= x < page_up new) -> pt_map m' root x = pt_map m root x.

Definition unchanged (m m' : mem) (root : Z) : Prop := forall x, 0 <= x < VA_MAX -> pt_map m' root x = pt_map m root x.

Lemma grow_some s i p kp up len : brk_ready s i p kp up len -> 0 <= len -> (heap_pages (heap_top p) len <= length up)%nat ->
  exists k' kp', uvm_heap_grow (pgtbl p) (heap_top p) len (ps_k s) = Ret (heap_top p + len) k' /\ vm_ok k' (pgtbl p) kp' (drop (heap_pages (heap_top p) len) up) /\
    extended (k_mem (ps_k s)) (k_mem k') (pgtbl p) (heap_top p) (heap_top p + len).
Proof.
  intros [Hc Hv (H0 & H1 & H2) Hlow Hkp] Hl Hup.
  destruct (uvm_heap_grow_grows (ps_k s) (pgtbl p) kp up (heap_top p) len Hv H0 Hl H1 Hlow H2 Hkp) as [Hok _].
  destruct (Hok Hup) as (k' & kp' & Hrun & _ & Hv' & Hnew & Hold). exists k', kp'. by split_and!.
Qed.

Lemma grow_none s i p kp up len : brk_ready s i p kp up len -> 0 <= len -> (length up < heap_pages (heap_top p) len)%nat ->
  (forall x, page_up (heap_top p) <= x < page_up (heap_top p + len) -> pt_map (k_mem (ps_k s)) (pgtbl p) x = None) ->
  exists k' kp', uvm_heap_grow (pgtbl p) (heap_top p) len (ps_k s) = Ret (heap_top p) k' /\ vm_ok k' (pgtbl p) kp' (rev up) /\
    unchanged (k_mem (ps_k s)) (k_mem k') (pgtbl p).
Proof.
  intros [Hc Hv (H0 & H1 & H2) Hlow Hkp] Hl Hup Hnone.
  destruct (uvm_heap_grow_grows (ps_k s) (pgtbl p) kp up (heap_top p) len Hv H0 Hl H1 Hlow H2 Hkp) as [_ Hno].
  destruct (Hno Hup Hnone) as (k' & kp' & Hrun & _ & Hv' & Hold). exists k', kp'. by split_and!.
Qed.

(** The head of [sys_brk]. *)
Lemma brk_head s i p : caller s i p -> sys_brk s =
  (let new := arg s p 0 in
   if new =? 0 then Ret (heap_top p) s
   else if heap_top p <? new then
     (new_heap_top ← on_k (uvm_heap_grow (pgtbl p) (heap_top p) (u32 (u64 (new - heap_top p))));
      if negb (new_heap_top =? new) then mret FAIL else upd_proc i (set_heap_top new_heap_top);; mret new_heap_top) s
   else if new <? heap_top p then
     (new_heap_top ← on_k (uvm_heap_ungrow (pgtbl p) (heap_top p) (u32 (u64 (heap_top p - new))));
      upd_proc i (set_heap_top new_heap_top);; mret new_heap_top) s
   else Ret (heap_top p) s).
Proof.
  intros Hc. unfold sys_brk. rewrite (myproc_eq _ _ _ _ Hc), (arg_uint64_eq _ _ _ _ _ Hc) by lia. rewrite (get_proc_eq _ _ _ _ _ (proj2 Hc)).
  cbv zeta. destruct (_ =? 0); [done|]. rewrite (get_proc_eq _ _ _ _ _ (proj2 Hc)). by repeat case_match.
Qed.

(** The heap top was moved. *)
Definition brk_post s i p (new : Z) (k' : kstate D) : pstate D := put_proc i (set_heap_top new p) (set_ps_k k' s).

Lemma brk_store s i p new (k' : kstate D) : caller s i p ->
  (upd_proc i (set_heap_top new);; mret new) (set_ps_k k' s) = Ret new (brk_post s i p new k').
Proof.
  intros [_ Hp]. assert (proc_of (set_ps_k k' s) i = Some p) as Hp' by (by destruct s). by rewrite (upd_proc_eq _ _ _ _ _ Hp').
Qed.

(** C24: [sys_brk]: 0 asks for the top of the heap and the old top is confirmed; a
    larger top within 4 GB maps zeroed pages, writable by the user, exactly between
    the old top and the new, or, when the pages run out, gives -1 and leaves the
    top and every mapping as they were; a smaller top unmaps exactly the pages
    between the new top and the old. *)
Theorem sys_brk_moves s i p kp up : caller s i p -> vm_ok (ps_k s) (pgtbl p) kp up ->
  let new := arg s p 0 in let old := heap_top p in let m := k_mem (ps_k s) in
  (new = 0 \/ new = old -> sys_brk s = Ret old s) /\
  (0 < old < new -> new - old < 2 ^ 32 -> brk_ready s i p kp up (new - old) ->
     ((heap_pages old (new - old) <= length up)%nat -> exists k', sys_brk s = Ret new (brk_post s i p new k') /\ extended m (k_mem k') (pgtbl p) old new) /\
     ((length up < heap_pages old (new - old))%nat -> (forall x, page_up old <= x < page_up new -> pt_map m (pgtbl p) x = None) ->
        exists k', sys_brk s = Ret FAIL (set_ps_k k' s) /\ unchanged m (k_mem k') (pgtbl p))) /\
  (0 < new < old -> old - new < 2 ^ 32 -> old <= VA_MAX - PGSIZE ->
     let ps := range_pages m (pgtbl p) (page_up new) (npages (page_up new) (page_up old)) in
     NoDup ps -> Forall (data_page (ps_k s) (pgtbl p) kp up) ps -> Z.of_nat (length ps + length kp + length up) < 2 ^ 32 ->
     exists k', sys_brk s = Ret new (brk_post s i p new k') /\ vm_ok k' (pgtbl p) kp (rev ps ++ up) /\
       forall x, 0 <= x < VA_MAX -> pt_map (k_mem k') (pgtbl p) x = if decide (page_up new <= x < page_up old) then None else pt_map m (pgtbl p) x).
Proof.
  intros Hc Hv new old m. rewrite (brk_head s i p Hc). cbv zeta. fold new old. split_and!.
  - intros [-> | ->]; [done|]. destruct (old =? 0); [done|]. by rewrite Z.ltb_irrefl.
  - intros Hlt H32 Hr. rewrite (proj2 (Z.eqb_neq new 0)), (proj2 (Z.ltb_lt old new)) by lia. rewrite u64_small, u32_small by lia. split.
    + intros Hup. destruct (grow_some s i p kp up _ Hr ltac:(lia) Hup) as (k' & kp' & Hrun & _ & Hext). fold old in Hrun, Hext.
      replace (old + (new - old)) with new in * by lia. exists k'. split; [|exact Hext].
      rewrite (on_k_ret _ _ _ _ _ Hrun), Z.eqb_refl. cbn [negb]. by apply brk_store.
    + intros Hup Hnone. destruct (grow_none s i p kp up _ Hr ltac:(lia) Hup) as (k' & kp' & Hrun & _ & Hun).
      { fold old. by replace (old + (new - old)) with new by lia. }
      exists k'. split; [|exact Hun]. fold old in Hrun. rewrite (on_k_ret _ _ _ _ _ Hrun). by rewrite (proj2 (Z.eqb_neq old new)) by lia.
  - intros Hlt H32 Hmax Hnd Hd Hct. rewrite (proj2 (Z.eqb_neq new 0)), (proj2 (Z.ltb_ge old new)), (proj2 (Z.ltb_lt new old)) by lia.
    assert (VA_MAX = 2 ^ 38) as HM by done. rewrite u64_small, u32_small by (unfold PGSIZE in *; lia).
    pose proof (uvm_heap_ungrow_shrinks (ps_k s) (pgtbl p) kp up old (old - new) Hv ltac:(lia) ltac:(lia) Hmax) as Hu.
    rewrite decide_True in Hu by lia. replace (old - (old - new)) with new in Hu by lia.
    destruct (Hu Hnd Hd Hct) as (k' & Hrun & Hv' & _ & Hm'). exists k'. split_and!; [| done | done].
    rewrite (on_k_ret _ _ _ _ _ Hrun). by apply brk_store.
Qed.

(** C25: The length that [sys_brk] computes is passed to [uvm_heap_grow] as an
    [uint32].  When a program asks for 4 GB or more, the low 32 bits of the
    difference are mapped, the call still fails with -1, and the top of the heap
    stays where it was: the new pages are below no heap top, so that no later
    call, nor the end of the process, accounts for them. *)
Theorem sys_brk_truncates s i p kp up len : caller s i p -> 0 < heap_top p -> 2 ^ 32 <= arg s p 0 - heap_top p ->
  len = (arg s p 0 - heap_top p) mod 2 ^ 32 -> brk_ready s i p kp up len -> (heap_pages (heap_top p) len <= length up)%nat ->
  exists k', sys_brk s = Ret FAIL (set_ps_k k' s) /\ proc_of (set_ps_k k' s) i = Some p /\
    extended (k_mem (ps_k s)) (k_mem k') (pgtbl p) (heap_top p) (heap_top p + len).
Proof.
  intros Hc Ht Hbig -> Hr Hup. rewrite (brk_head s i p Hc). cbv zeta. set (new := arg s p 0) in *. set (old := heap_top p) in *.
  pose proof (load64_range (k_mem (ps_k s)) (tf p + (TF_A0 + 8 * 0))) as H64. fold (arg s p 0) new in H64.
  rewrite (proj2 (Z.eqb_neq new 0)), (proj2 (Z.ltb_lt old new)) by lia. rewrite (u64_small (new - old)) by lia. unfold u32.
  pose proof (Z.mod_pos_bound (new - old) (2 ^ 32) ltac:(lia)) as Hm. pose proof (Z.div_mod (new - old) (2 ^ 32) ltac:(lia)) as Hd.
  destruct (grow_some s i p kp up _ Hr ltac:(lia) Hup) as (k' & kp' & Hrun & _ & Hext). fold old in Hrun, Hext.
  exists k'. split_and!; [| apply Hc | exact Hext]. rewrite (on_k_ret _ _ _ _ _ Hrun). by rewrite (proj2 (Z.eqb_neq _ new)) by lia.
Qed.
End Brk.

(** ** The process of [demo_parent], with [new] in register a0 of its trapframe *)

Lemma demo_brk new : 0 <= new < 2 ^ 64 -> exists (s : pstate unit) kp, caller s 0 demo_parent /\ arg s demo_parent 0 = new /\
  vm_ok (ps_k s) 0x80020000 kp (page_list 255 0x80121000) /\ (240 <= length kp)%nat.
Proof.
  intros Hn. destruct demo_space as (k & t & root & kp & Hv & Hl & _ & Htf & _).
  set (m := store64 (k_mem k) (0x80021000 + (TF_A0 + 8 * 0)) new).
  destruct (plain_write k 0x80020000 (t :: root :: kp) (page_list 255 0x80121000) m Hv) as [Hv' _].
  { intros x Hx. apply load8_store64_ne. intros Hin. apply Hx. apply (data_page_plain k 0x80020000 (t :: root :: kp) (page_list 255 0x80121000) 0x80021000); [done | done |].
    unfold TF_A0, PGSIZE in *. lia. }
  exists (fork_ps (set_k_mem m k)), (t :: root :: kp). split_and!; [by split | | by apply vm_ok_ft | cbn [length]; lia].
  unfold arg. change (k_mem (ps_k (fork_ps (set_k_mem m k)))) with m. change (tf demo_parent) with 0x80021000. by apply load64_store64_eq.
Qed.

Lemma demo_brk_ready (s : pstate unit) kp len : caller s 0 demo_parent -> vm_ok (ps_k s) 0x80020000 kp (page_list 255 0x80121000) -> (240 <= length kp)%nat ->
  len = 0x1000 -> brk_ready s 0 demo_parent kp (page_list 255 0x80121000) len.
Proof.
  intros Hc Hv Hl ->. split; [done | done | by vm_compute | apply (bool_decide_unpack _); by vm_compute |].
  change (heap_pages (heap_top demo_parent) 0x1000) with 1%nat. lia.
Qed.

Lemma sys_brk_moves_witness : exists s s' : pstate unit, sys_brk s = Ret 0x3000 s' /\ uload (k_mem (ps_k s')) 0x80020000 0x2008 = Some 0.
Proof.
  destruct (demo_brk 0x3000 ltac:(lia)) as (s & kp & Hc & Ha & Hv & Hl).
  destruct (sys_brk_moves s 0 demo_parent kp (page_list 255 0x80121000) Hc Hv) as (_ & Hgrow & _). rewrite Ha in Hgrow.
  destruct Hgrow as [Hok _]; [by vm_compute | by vm_compute | by apply demo_brk_ready |].
  destruct Hok as (k' & Hrun & Hext & _); [apply Nat.leb_le; by vm_compute|]. eexists s, _. split; [exact Hrun|]. by apply Hext.
Defined.

Lemma sys_brk_truncates_witness : exists s s' : pstate unit, sys_brk s = Ret FAIL s' /\ proc_of s' 0 = Some demo_parent /\
  uload (k_mem (ps_k s')) 0x80020000 0x2008 = Some 0.
Proof.
  destruct (demo_brk (0x3000 + 2 ^ 32) ltac:(lia)) as (s & kp & Hc & Ha & Hv & Hl).
  destruct (sys_brk_truncates s 0 demo_parent kp (page_list 255 0x80121000) 0x1000 Hc) as (k' & Hrun & Hp & Hext & _);
    [by vm_compute | by rewrite Ha | by rewrite Ha | by apply demo_brk_ready | apply Nat.leb_le; by vm_compute |].
  eexists s, _. split_and!; [exact Hrun | exact Hp |]. by apply Hext.
Defined.
