(* ===== verification/Virtio.v ===== *)
(** * Virtio: kernel/dev/virtio.c, the driver of the virtual disk

    The queue is the record [vdisk]; what lies in the two pages shared with the
    device ([desc], [avail], [used]) are its fields.  The device's registers are the
    interface [VirtioRegs] of the medium.  The device works between the steps of
    the driver: what it does while a process sleeps is part of [swtch].  Pointers
    that only serve as sleep channels are parameters. *)

From S2P Require Import Prelude Bytes Kstring Spinlock Kernel Disk Buf Bitmap Inode Dir Pmem Vmem Uvm File Proc.

(** ** Registers and constants (include/dev/virtio.h) *)

Class VirtioRegs (D : Type) : Type := {
  reg_read : Z -> D -> Z;
  reg_write : Z -> Z -> D -> D
}.

Definition VIRTIO_MMIO_MAGIC_VALUE : Z := 0x000.
Definition VIRTIO_MMIO_VERSION : Z := 0x004.
Definition VIRTIO_MMIO_DEVICE_ID : Z := 0x008.
Definition VIRTIO_MMIO_VENDOR_ID : Z := 0x00c.
Definition VIRTIO_MMIO_DEVICE_FEATURES : Z := 0x010.
Definition VIRTIO_MMIO_DRIVER_FEATURES : Z := 0x020.
Definition VIRTIO_MMIO_GUEST_PAGE_SIZE : Z := 0x028.
Definition VIRTIO_MMIO_QUEUE_SEL : Z := 0x030.
Definition VIRTIO_MMIO_QUEUE_NUM_MAX : Z := 0x034.
Definition VIRTIO_MMIO_QUEUE_NUM : Z := 0x038.
Definition VIRTIO_MMIO_QUEUE_PFN : Z := 0x040.
Definition VIRTIO_MMIO_QUEUE_NOTIFY : Z := 0x050.
Definition VIRTIO_MMIO_INTERRUPT_STATUS : Z := 0x060.
Definition VIRTIO_MMIO_INTERRUPT_ACK : Z := 0x064.
Definition VIRTIO_MMIO_STATUS : Z := 0x070.
Definition VIRTIO_CONFIG_S_ACKNOWLEDGE : Z := 1.
Definition VIRTIO_CONFIG_S_DRIVER : Z := 2.
Definition VIRTIO_CONFIG_S_DRIVER_OK : Z := 4.
Definition VIRTIO_CONFIG_S_FEATURES_OK : Z := 8.
Definition VIRTIO_BLK_F_RO : Z := 5.
Definition VIRTIO_BLK_F_SCSI : Z := 7.
Definition VIRTIO_BLK_F_CONFIG_WCE : Z := 11.
Definition VIRTIO_BLK_F_MQ : Z := 12.
Definition VIRTIO_F_ANY_LAYOUT : Z := 27.
Definition VIRTIO_RING_F_INDIRECT_DESC : Z := 28.
Definition VIRTIO_RING_F_EVENT_IDX : Z := 29.
Definition NUM : Z := 8.
Definition VRING_DESC_F_NEXT : Z := 1.
Definition VRING_DESC_F_WRITE : Z := 2.
Definition VIRTIO_BLK_T_IN : Z := 0.
Definition VIRTIO_BLK_T_OUT : Z := 1.

(** Sizes of [struct virtio_blk_outhdr]. *)
Definition OUTHDR_SIZE : Z := 16.

(** [features &= ~(1 << bit)] *)
Definition clear_feature (features bit : Z) : Z := Z.land features (Z.lnot (Z.shiftl 1 bit)).

Definition ALIGN_DOWN (a align : Z) : Z := Z.land a (Z.lnot (align - 1)).

Section Ops.
Context {D : Type} `{!DiskDriver D, !VirtioRegs D}.
(** The physical address of [disk.pages], the addresses of [disk.free] and of the
    buffers, and of the local variable [buf0] on the kernel stack of a process. *)
Variables (pages free_addr : Z) (buf_addr : nat -> Z) (buf0 : nat -> Z).
Variable swtch : M (pstate D) unit.
(** How often a process is woken while there are still no free descriptors, or its
    request is still not done. *)
Variable wait_fuel : nat.

Definition R (r : Z) : M (kstate D) Z := gets (fun k => u32 (reg_read r (k_dev k))).
Definition set_R (r v : Z) : M (kstate D) unit := modify (fun k => set_k_dev (reg_write r (u32 v) (k_dev k)) k).

Definition vd_lk : lockref D :=
  mk_lockref (fun k => vdisk_lock (k_vd k)) (fun l k => set_k_vd (set_vdisk_lock l (k_vd k)) k).

Definition upd_vd (f : vdisk -> vdisk) : M (kstate D) unit := modify (fun k => set_k_vd (f (k_vd k)) k).
Definition get_vd {A} (f : vdisk -> option A) : M (kstate D) A := gets (fun k => f (k_vd k)) ≫= some_or_fault.
Definition upd_desc (i : nat) (f : vring_desc -> vring_desc) : M (kstate D) unit :=
  d ← get_vd (fun v => desc v !! i); upd_vd (fun v => set_desc (<[i := f d]> (desc v)) v).
Definition upd_info (i : nat) (f : option nat * Z -> option nat * Z) : M (kstate D) unit :=
  r ← get_vd (fun v => info v !! i); upd_vd (fun v => set_info (<[i := f r]> (info v)) v).

Definition virtio_disk_init : M (kstate D) unit :=
  with_lock vd_lk (spinlock_init "virtio_disk");;
  magic ← R VIRTIO_MMIO_MAGIC_VALUE;
  version ← R VIRTIO_MMIO_VERSION;
  device ← R VIRTIO_MMIO_DEVICE_ID;
  vendor ← R VIRTIO_MMIO_VENDOR_ID;
  when (negb (magic =? 0x74726976) || negb (version =? 1) || negb (device =? 2) || negb (vendor =? 0x554d4551))
    (panic "could not find virtio disk");;
  let status := VIRTIO_CONFIG_S_ACKNOWLEDGE in
  set_R VIRTIO_MMIO_STATUS status;;
  let status := Z.lor status VIRTIO_CONFIG_S_DRIVER in
  set_R VIRTIO_MMIO_STATUS status;;
  features ← R VIRTIO_MMIO_DEVICE_FEATURES;
  let features := clear_feature features VIRTIO_BLK_F_RO in
  let features := clear_feature features VIRTIO_BLK_F_SCSI in
  let features := clear_feature features VIRTIO_BLK_F_CONFIG_WCE in
  let features := clear_feature features VIRTIO_BLK_F_MQ in
  let features := clear_feature features VIRTIO_F_ANY_LAYOUT in
  let features := clear_feature features VIRTIO_RING_F_EVENT_IDX in
  let features := clear_feature features VIRTIO_RING_F_INDIRECT_DESC in
  set_R VIRTIO_MMIO_DRIVER_FEATURES features;;
  let status := Z.lor status VIRTIO_CONFIG_S_FEATURES_OK in
  set_R VIRTIO_MMIO_STATUS status;;
  let status := Z.lor status VIRTIO_CONFIG_S_DRIVER_OK in
  set_R VIRTIO_MMIO_STATUS status;;
  set_R VIRTIO_MMIO_GUEST_PAGE_SIZE PGSIZE;;
  set_R VIRTIO_MMIO_QUEUE_SEL 0;;
  max ← R VIRTIO_MMIO_QUEUE_NUM_MAX;
  when (max =? 0) (panic "virtio disk has no queue 0");;
  when (max <? NUM) (panic "virtio disk max queue too short");;
  set_R VIRTIO_MMIO_QUEUE_NUM NUM;;
  set_R VIRTIO_MMIO_QUEUE_PFN (Z.shiftr pages 12);;
  for_each (seq 0 (Z.to_nat NUM)) (fun i => upd_vd (fun v => set_free (<[i := true]> (free v)) v)).

(** ** Descriptors *)

(** [None] is the result -1. *)
Definition alloc_desc : M (kstate D) (option nat) :=
  for_return (seq 0 (Z.to_nat NUM)) (fun i =>
    f ← get_vd (fun v => free v !! i);
    if (f : bool) then upd_vd (fun v => set_free (<[i := false]> (free v)) v);; mret (Some i)
    else mret None).

Definition free_desc (i : nat) : M (pstate D) unit :=
  when (NUM <=? Z.of_nat i) (panic "virtio_disk_intr 1");;
  f ← on_k (get_vd (fun v => free v !! i));
  when f (panic "virtio_disk_intr 2");;
  on_k (upd_desc i (fun d => mk_desc dma_null (len d) (flags d) (next d)));;
  on_k (upd_vd (fun v => set_free (<[i := true]> (free v)) v));;
  proc_wakeup (ch_addr free_addr).

(** Every turn frees a descriptor that was not free, or panics: NUM + 1 turns are
    enough. *)
Fixpoint free_chain (fuel : nat) (i : nat) : M (pstate D) unit :=
  match fuel with
  | O => no_fuel
  | S fuel' =>
      free_desc i;;
      d ← on_k (get_vd (fun v => desc v !! i));
      if negb (Z.land (flags d) VRING_DESC_F_NEXT =? 0) then free_chain fuel' (Z.to_nat (next d)) else mret tt
  end.

(** The descriptors still to take, and those taken. *)
Fixpoint alloc_descs (n : nat) (idx : list nat) : M (pstate D) (option (list nat)) :=
  match n with
  | O => mret (Some idx)
  | S n' =>
      d ← on_k alloc_desc;
      match d with
      | Some d => alloc_descs n' (idx ++ [d])
      | None => for_each idx free_desc;; mret None
      end
  end.

Definition alloc3_desc : M (pstate D) (option (list nat)) := alloc_descs 3 [].

(** ** Requests *)

Fixpoint alloc3_wait (fuel : nat) : M (pstate D) (list nat) :=
  match fuel with
  | O => no_fuel
  | S fuel' =>
      r ← alloc3_desc;
      match r with
      | Some idx => mret idx
      | None => proc_sleep swtch (ch_addr free_addr) (Some vd_lk);; alloc3_wait fuel'
      end
  end.

(** The bus address of [buf0]: its page, as the kernel's page table maps it. *)
Definition hdr_pa (a : Z) : M (kstate D) Z :=
  pte ← vm_getpte 0 (ALIGN_DOWN a PGSIZE) false;
  match pte with
  | None => fault
  | Some pte => v ← mem64 pte; mret (u64 (PTE_TO_PA v + a mod PGSIZE))
  end.

Definition fill_descs (idx0 idx1 idx2 : nat) (b : nat) (write : bool) (sector : Z) : M (pstate D) unit :=
  let type := if write then VIRTIO_BLK_T_OUT else VIRTIO_BLK_T_IN in
  p ← myproc;
  pa ← on_k (hdr_pa (buf0 p));
  on_k (upd_desc idx0 (fun _ => mk_desc (dma_hdr pa type sector) OUTHDR_SIZE VRING_DESC_F_NEXT (Z.of_nat idx1)));;
  let f := if write then 0 else VRING_DESC_F_WRITE in
  on_k (upd_desc idx1 (fun _ => mk_desc (dma_data b) BLOCK_SIZE (Z.lor f VRING_DESC_F_NEXT) (Z.of_nat idx2)));;
  on_k (upd_info idx0 (fun r => (r.1, 0)));;
  on_k (upd_desc idx2 (fun _ => mk_desc (dma_status idx0) 1 VRING_DESC_F_WRITE 0)).

(** [avail\[2 + (avail\[1\] % NUM)\] = idx\[0\]; avail\[1\] = avail\[1\] + 1] *)
Definition submit (idx0 : nat) : M (kstate D) unit :=
  upd_vd (fun v => set_avail_ring (<[Z.to_nat (avail_idx v mod NUM) := Z.of_nat idx0]> (avail_ring v)) v);;
  upd_vd (fun v => set_avail_idx (u16 (avail_idx v + 1)) v);;
  set_R VIRTIO_MMIO_QUEUE_NOTIFY 0.

Fixpoint disk_wait (fuel : nat) (b : nat) : M (pstate D) unit :=
  match fuel with
  | O => no_fuel
  | S fuel' =>
      busy ← on_k (get_buf b disk);
      if (busy : bool) then proc_sleep swtch (ch_addr (buf_addr b)) (Some vd_lk);; disk_wait fuel' b
      else mret tt
  end.

Definition vio_rw (b : nat) (write : bool) : M (pstate D) unit :=
  sector ← on_k (get_buf b (fun q => sector_of (block_num q)));
  on_k (acquire vd_lk);;
  idx ← alloc3_wait wait_fuel;
  match idx with
  | [idx0; idx1; idx2] =>
      fill_descs idx0 idx1 idx2 b write sector;;
      on_k (upd_buf b (set_disk true));;
      on_k (upd_info idx0 (fun r => (Some b, r.2)));;
      on_k (submit idx0);;
      disk_wait wait_fuel b;;
      on_k (upd_info idx0 (fun r => (None, r.2)));;
      free_chain (S (Z.to_nat NUM)) idx0;;
      on_k (release vd_lk)
  | _ => fault
  end.

(** ** Interrupts *)

(** [used->id] is read again in every turn; the device does not move it during the
    handler, so NUM turns are enough. *)
Fixpoint intr_loop (fuel : nat) : M (pstate D) unit :=
  more ← on_k (gets (fun k => negb (used_idx (k_vd k) mod NUM =? used_id (k_vd k) mod NUM)));
  if (more : bool) then
    match fuel with
    | O => no_fuel
    | S fuel' =>
        id ← on_k (get_vd (fun v => used_elems v !! Z.to_nat (used_idx v)));
        r ← on_k (get_vd (fun v => info v !! Z.to_nat id));
        when (negb (r.2 =? 0)) (panic "virtio_disk_intr status");;
        b ← some_or_fault r.1;
        on_k (upd_buf b (set_disk false));;
        proc_wakeup (ch_addr (buf_addr b));;
        on_k (upd_vd (fun v => set_used_idx ((used_idx v + 1) mod NUM) v));;
        intr_loop fuel'
    end
  else mret tt.

Definition virtio_disk_intr : M (pstate D) unit :=
  on_k (acquire vd_lk);;
  intr_loop (Z.to_nat NUM);;
  on_k (st ← R VIRTIO_MMIO_INTERRUPT_STATUS; set_R VIRTIO_MMIO_INTERRUPT_ACK (Z.land st 0x3));;
  on_k (release vd_lk).
End Ops.
