(* ===== verification/VirtioSpec.v ===== *)
(** * VirtioSpec: the driver against the device (kernel/dev/virtio.c)

    The device is an interface: what it does with a request that the driver has
    put into the queue, as the virtio specification describes it for a block device
    with the legacy interface.  A request is followed from [virtio_disk_rw] through
    the process's sleep, the device, the interrupt and the wakeup back to the caller. *)

From S2P Require Import Prelude Bytes Kstring Spinlock Kernel Disk Buf Bitmap Inode Dir Pmem Vmem Uvm File Proc ProcSpec ProcAlloc SwitchSpec Virtio.

(** ** The device *)

(** The chain of descriptors that starts at [id] and is next in the queue. *)
Record chain {D} (k : kstate D) (id : nat) (ty pa sector : Z) (b : nat) (fl : Z) : Prop := {
  ch_next : avail_idx (k_vd k) = u16 (used_id (k_vd k) + 1);
  ch_ring : avail_ring (k_vd k) !! Z.to_nat (used_id (k_vd k) mod NUM) = Some (Z.of_nat id);
  ch_desc : exists n1 n2 : nat, desc (k_vd k) !! id = Some (mk_desc (dma_hdr pa ty sector) OUTHDR_SIZE VRING_DESC_F_NEXT (Z.of_nat n1)) /\
    desc (k_vd k) !! n1 = Some (mk_desc (dma_data b) BLOCK_SIZE fl (Z.of_nat n2)) /\
    desc (k_vd k) !! n2 = Some (mk_desc (dma_status id) 1 VRING_DESC_F_WRITE 0)
}.

(** The status byte is 0 and the chain is in the ring of used elements. *)
Definition answered {D} (id : nat) (k : kstate D) : kstate D :=
  let v := k_vd k in
  set_k_vd (set_used_id (u16 (used_id v + 1)) (set_used_elems (<[Z.to_nat (used_id v mod NUM) := Z.of_nat id]> (used_elems v))
    (set_info (alter (fun r => (r.1, 0)) id (info v)) v))) k.

Class VioDevice (D : Type) `{!BlockDev D, !VirtioRegs D} := {
  serve : kstate D -> kstate D;
  serve_read k id pa sector b q : chain k id VIRTIO_BLK_T_IN pa sector b (Z.lor VRING_DESC_F_WRITE VRING_DESC_F_NEXT) -> buf_of k b = Some q ->
    serve k = answered id (put_buf b (set_data (dev_read (k_dev k) sector) q) k);
  serve_write k id pa sector b q : chain k id VIRTIO_BLK_T_OUT pa sector b VRING_DESC_F_NEXT -> buf_of k b = Some q ->
    serve k = answered id (set_k_dev (dev_write (k_dev k) sector (data q)) k);
  reg_medium r v d x : dev_read (reg_write r v d) x = dev_read d x
}.

(** The driver between requests: nothing is in flight. *)
Record idle (v : vdisk) : Prop := {
  id_len : length (desc v) = 8%nat /\ length (info v) = 8%nat /\ length (avail_ring v) = 8%nat /\ length (used_elems v) = 8%nat;
  id_free : free v = replicate 8 true;
  id_used : used_id v = avail_idx v /\ used_idx v = used_id v mod NUM;
  id_idx : 0 <= avail_idx v < 2 ^ 16;
  id_lock : is_free (vdisk_lock v)
}.

Lemma list_eight {A} (l : list A) : length l = 8%nat -> exists a0 a1 a2 a3 a4 a5 a6 a7, l = [a0; a1; a2; a3; a4; a5; a6; a7].
Proof. intros Hl. do 8 (destruct l as [|? l]; [done|]). destruct l; [|done]. by do 8 eexists. Qed.

Section Spec.
Context {D : Type} `{!DiskDriver D, !BlockDev D, !VirtioRegs D, !VioDevice D}.
Variables (pages free_addr : Z) (buf_addr : nat -> Z) (buf0 : nat -> Z).
Implicit Types (s : pstate D) (k kS : kstate D) (c b : nat) (p : proc) (q : buf).
Abbreviation pcpu s := (k_cpu (ps_k s)).

Lemma on_k_get {A B} (m : M (kstate D) A) (f : A -> M (pstate D) B) s a : m (ps_k s) = Ret a (ps_k s) -> (on_k m ≫= f) s = f a s.
Proof. intros Hm. rewrite (on_k_ret _ _ _ _ _ Hm). by destruct s. Qed.

(** ** Steps on the driver's state *)

Definition vd_take k : kstate D := set_k_cpu (cpu_push (k_cpu k)) (set_k_vd (set_vdisk_lock (take_lock (hartid (k_cpu k)) (vdisk_lock (k_vd k))) (k_vd k)) k).
Definition vd_drop k : kstate D := set_k_cpu (cpu_pop (k_cpu k)) (set_k_vd (set_vdisk_lock (drop_lock (vdisk_lock (k_vd k))) (k_vd k)) k).
Definition kdesc (i : nat) d k : kstate D := set_k_vd (set_desc (<[i := d]> (desc (k_vd k))) (k_vd k)) k.
Definition kinfo (i : nat) r k : kstate D := set_k_vd (set_info (<[i := r]> (info (k_vd k))) (k_vd k)) k.
Definition kfree (l : list bool) k : kstate D := set_k_vd (set_free l (k_vd k)) k.
Definition ksubmit (i : nat) k : kstate D :=
  let v := k_vd k in
  set_k_dev (reg_write VIRTIO_MMIO_QUEUE_NOTIFY 0 (k_dev k))
    (set_k_vd (set_avail_idx (u16 (avail_idx v + 1)) (set_avail_ring (<[Z.to_nat (avail_idx v mod NUM) := Z.of_nat i]> (avail_ring v)) v)) k).

Lemma vd_acquire k : is_free (vdisk_lock (k_vd k)) -> acquire vd_lk k = Ret tt (vd_take k).
Proof. intros Hf. rewrite acquire_eq by done. by destruct k. Qed.

Lemma vd_release k : cpu_wf (k_cpu k) -> 0 < noff (k_cpu k) -> held_by (hartid (k_cpu k)) (vdisk_lock (k_vd k)) -> release vd_lk k = Ret tt (vd_drop k).
Proof. intros ? ? ?. rewrite release_eq by done. by destruct k. Qed.

Lemma upd_desc_eq i f d k : desc (k_vd k) !! i = Some d -> upd_desc i f k = Ret tt (kdesc i (f d) k).
Proof. intros Hd. unfold upd_desc, get_vd. mrun. rewrite Hd. by mrun. Qed.

Lemma upd_info_eq i f r k : info (k_vd k) !! i = Some r -> upd_info i f k = Ret tt (kinfo i (f r) k).
Proof. intros Hr. unfold upd_info, get_vd. mrun. rewrite Hr. by mrun. Qed.

(** The first free descriptor is taken. *)
Lemma alloc_desc_first n k : (n < 8)%nat -> (forall m, (m < n)%nat -> free (k_vd k) !! m = Some false) -> free (k_vd k) !! n = Some true ->
  alloc_desc k = Ret (Some n) (kfree (<[n := false]> (free (k_vd k))) k).
Proof.
  intros Hn Hm Hf. unfold alloc_desc. replace (seq 0 (Z.to_nat NUM)) with (seq 0 n ++ n :: seq (S n) (7 - n)).
  2:{ transitivity (seq 0 (n + S (7 - n))); [by rewrite seq_app|]. change (Z.to_nat NUM) with 8%nat. f_equal. lia. }
  apply for_return_hit.
  - intros m Hin%elem_of_seq. unfold get_vd. mrun. rewrite (Hm m) by lia. by mrun.
  - unfold get_vd. mrun. rewrite Hf. by mrun.
Qed.

(** Three descriptors from an idle queue. *)
Lemma alloc3_idle s : free (k_vd (ps_k s)) = replicate 8 true ->
  alloc3_desc free_addr s = Ret (Some [0; 1; 2]%nat) (set_ps_k (kfree [false; false; false; true; true; true; true; true] (ps_k s)) s).
Proof.
  intros Hf. unfold alloc3_desc. cbn [alloc_descs app].
  rewrite (on_k_ret _ _ _ _ _ (alloc_desc_first 0 (ps_k s) ltac:(lia) ltac:(lia) ltac:(by rewrite Hf))). cbn [app]. rewrite Hf.
  set (s1 := set_ps_k _ _).
  rewrite (on_k_ret _ _ s1 _ _ (alloc_desc_first 1 (ps_k s1) ltac:(lia) ltac:(by intros [|]; [|lia]) ltac:(done))).
  set (s2 := set_ps_k _ s1). cbn [app].
  rewrite (on_k_ret _ _ s2 _ _ (alloc_desc_first 2 (ps_k s2) ltac:(lia) ltac:(by intros [|[|]]; [| |lia]) ltac:(done))).
  by destruct s as [[] ? ? ? ? ? ? ?].
Qed.

(** ** A request is put into the queue *)

(** The page of [buf0] is mapped: the header is at the physical address [pa]. *)
Definition hdr_at k a pa : Prop := forall k', k_mem k' = k_mem k -> kernel_pgtbl k' = kernel_pgtbl k -> hdr_pa a k' = Ret pa k'.

Definition data_flags (write : bool) : Z := Z.lor (if write then 0 else VRING_DESC_F_WRITE) VRING_DESC_F_NEXT.

Definition filled b q (write : bool) pa k : kstate D :=
  kdesc 2 (mk_desc (dma_status 0) 1 VRING_DESC_F_WRITE 0) (kinfo 0 (Some b, 0) (put_buf b (set_disk true q)
    (kdesc 1 (mk_desc (dma_data b) BLOCK_SIZE (data_flags write) 2)
      (kdesc 0 (mk_desc (dma_hdr pa (if write then VIRTIO_BLK_T_OUT else VIRTIO_BLK_T_IN) (sector_of (block_num q))) OUTHDR_SIZE VRING_DESC_F_NEXT 1) k)))).

Definition requested b q write pa k : kstate D :=
  ksubmit 0 (filled b q write pa (kfree [false; false; false; true; true; true; true; true] (vd_take k))).

Lemma fill_run s c b q write pa : cur s = Some c -> hdr_at (ps_k s) (buf0 c) pa -> length (desc (k_vd (ps_k s))) = 8%nat -> length (info (k_vd (ps_k s))) = 8%nat ->
  buf_of (ps_k s) b = Some q ->
  (fill_descs buf0 0 1 2 b write (sector_of (block_num q));; on_k (upd_buf b (set_disk true));; on_k (upd_info 0 (fun r => (Some b, r.2))))
    s = Ret tt (set_ps_k (filled b q write pa (ps_k s)) s).
Proof.
  intros Hc Hh Hd Hi Hb. destruct (list_eight _ Hd) as (d0 & d1 & d2 & d3 & d4 & d5 & d6 & d7 & Ed).
  destruct (list_eight _ Hi) as (i0 & i1 & i2 & i3 & i4 & i5 & i6 & i7 & Ei).
  destruct s as [[kc km kr ur kp kb [de ai ar ui ue fr us inf lk] kd ksb kic kft] ps z g lp cu ie ls]; simpl in Hc, Hd, Hi, Hb, Ed, Ei; subst.
  unfold fill_descs, myproc. mrun. cbn [cur]. mrun. rewrite (on_k_ret _ _ _ pa _ (Hh _ eq_refl eq_refl)).
  do 2 (mrun; erewrite on_k_ret by (by apply upd_desc_eq)).
  mrun; erewrite on_k_ret by (by apply upd_info_eq). mrun; erewrite bind_ret_eq by (unfold on_k; erewrite upd_desc_eq by done; reflexivity).
  mrun; erewrite on_k_ret. 2:{ unfold upd_buf. mrun. unfold buf_of in *. simpl in *. rewrite Hb. by mrun. }
  unfold on_k. erewrite upd_info_eq by done. done.
Qed.

(** ** The interrupt *)

Definition bare_k k : kstate D := set_k_cpu (bare_cpu (k_cpu k)) k.

Lemma equiv_set_k s s' k k' : s ≡ s' -> bare_k k = bare_k k' -> set_ps_k k s ≡ set_ps_k k' s'.
Proof.
  intros Hs Hk. unfold equiv, pstate_equiv, bare_state in *. destruct s, s'. unfold set_ps_k, set_procs, bare_k in *; simpl in *. congruence.
Qed.

Lemma equiv_bare_k s s' : s ≡ s' -> bare_k (ps_k s) = bare_k (ps_k s').
Proof. intros Hs. apply (f_equal ps_k) in Hs. exact Hs. Qed.

(** The processes that sleep on [ch] become runnable. *)
Definition wake ch (cu : option nat) (i : nat) p : proc := if decide (sleeps_on ch cu i p) then set_p_state RUNNABLE p else p.

#[export] Instance wake_bare' ch cu : Bare (wake ch cu).
Proof. intros i p. unfold wake, sleeps_on. simpl. by repeat case_decide. Qed.

Definition no_sleeper ch s : Prop := forall i p, proc_of s i = Some p -> ~ (p_state p = SLEEPING /\ sleep_space p = ch).

Lemma wake_none s ch : quiet s -> no_sleeper ch s -> exists s', proc_wakeup ch s = Ret tt s' /\ quiet s' /\ s' ≡ s.
Proof.
  intros Hq Hn. destruct (wakeup_run s ch Hq) as (s' & H & Hq' & He). exists s'. split_and!; [done..|]. rewrite He.
  rewrite (upd_procs_ext _ (fun _ p => p)); [by rewrite upd_procs_id|]. intros i p Hp.
  rewrite decide_False; [done|]. intros (_ & Hs). by apply (Hn i p).
Qed.

(** The request is taken from the ring of used elements. *)
Definition kdone b q k : kstate D := set_k_vd (set_used_idx ((used_idx (k_vd k) + 1) mod NUM) (k_vd k)) (put_buf b (set_disk false q) k).
Definition kack k : kstate D :=
  set_k_dev (reg_write VIRTIO_MMIO_INTERRUPT_ACK (u32 (Z.land (u32 (reg_read VIRTIO_MMIO_INTERRUPT_STATUS (k_dev k))) 0x3)) (k_dev k)) k.

(** A balanced critical section of the driver's lock. *)
Definition vd_touch k : kstate D := set_k_vd (set_vdisk_lock (drop_lock (vdisk_lock (k_vd k))) (k_vd k)) k.

Lemma bare_take_drop k k1 : cpu_wf (k_cpu k) -> 0 < noff (k_cpu k) -> bare_cpu (k_cpu k1) = bare_cpu (cpu_push (k_cpu k)) ->
  bare_cpu (cpu_pop (k_cpu k1)) = bare_cpu (k_cpu k).
Proof.
  intros [_ He] Hn. specialize (He Hn). unfold bare_cpu, cpu_pop, cpu_push. simpl. intros [= -> Hs ->]. rewrite Hs.
  replace (noff (k_cpu k) + 1 - 1) with (noff (k_cpu k)) by lia. rewrite (proj2 (Z.eqb_neq _ _)) by lia. by rewrite He.
Qed.

Lemma intr_turn fuel s s3 b q (id : nat) : 0 <= used_idx (k_vd (ps_k s)) < NUM ->
  used_id (k_vd (ps_k s)) mod NUM = (used_idx (k_vd (ps_k s)) + 1) mod NUM ->
  used_elems (k_vd (ps_k s)) !! Z.to_nat (used_idx (k_vd (ps_k s))) = Some (Z.of_nat id) ->
  info (k_vd (ps_k s)) !! id = Some (Some b, 0) -> buf_of (ps_k s) b = Some q ->
  proc_wakeup (ch_addr (buf_addr b)) (set_ps_k (put_buf b (set_disk false q) (ps_k s)) s) = Ret tt s3 ->
  intr_loop buf_addr (S fuel) s = intr_loop buf_addr fuel (set_ps_k (set_k_vd (set_used_idx ((used_idx (k_vd (ps_k s3)) + 1) mod NUM) (k_vd (ps_k s3))) (ps_k s3)) s3).
Proof.
  intros Hu Hid Hel Hin Hb Hw. cbn [intr_loop]. erewrite on_k_get by done. rewrite Hid.
  assert ((used_idx (k_vd (ps_k s)) mod NUM =? (used_idx (k_vd (ps_k s)) + 1) mod NUM) = false) as ->.
  { apply Z.eqb_neq. unfold NUM in *. rewrite Z.mod_small by lia. destruct (decide (used_idx (k_vd (ps_k s)) = 7)) as [->|]; [done|]. rewrite Z.mod_small by lia. lia. }
  cbn [negb]. erewrite on_k_get. 2:{ unfold get_vd. mrun. rewrite Hel. by mrun. }
  erewrite on_k_get. 2:{ unfold get_vd. mrun. rewrite Nat2Z.id, Hin. by mrun. }
  cbn [snd fst]. change (negb (0 =? 0)) with false. mrun. erewrite on_k_ret. 2:{ unfold upd_buf. mrun. rewrite Hb. by mrun. }
  mstep ltac:(exact Hw). by erewrite on_k_ret by done.
Qed.

Lemma intr_stop fuel s : used_idx (k_vd (ps_k s)) mod NUM = used_id (k_vd (ps_k s)) mod NUM -> intr_loop buf_addr fuel s = Ret tt s.
Proof.
  intros He. destruct fuel; cbn [intr_loop]; erewrite on_k_ret by done; rewrite He, Z.eqb_refl; cbn [negb]; by destruct s.
Qed.

Lemma intr_run s b q (id : nat) : quiet s -> 0 < noff (pcpu s) -> is_free (vdisk_lock (k_vd (ps_k s))) ->
  0 <= used_idx (k_vd (ps_k s)) < NUM -> used_id (k_vd (ps_k s)) mod NUM = (used_idx (k_vd (ps_k s)) + 1) mod NUM ->
  used_elems (k_vd (ps_k s)) !! Z.to_nat (used_idx (k_vd (ps_k s))) = Some (Z.of_nat id) ->
  info (k_vd (ps_k s)) !! id = Some (Some b, 0) -> buf_of (ps_k s) b = Some q ->
  exists s', virtio_disk_intr buf_addr s = Ret tt s' /\ quiet s' /\
    s' ≡ upd_procs (wake (ch_addr (buf_addr b)) (cur s)) (set_ps_k (kack (kdone b q (vd_touch (ps_k s)))) s).
Proof.
  intros Hq Hn Hf Hu Hid Hel Hin Hb. pose proof (q_cpu s Hq) as Hc. set (k1 := vd_take (ps_k s)).
  set (k2 := put_buf b (set_disk false q) k1). set (s2 := set_ps_k k2 s).
  assert (quiet s2) as Hq2 by (apply quiet_set_k; [done | by apply cpu_push_wf]).
  destruct (wakeup_run s2 (ch_addr (buf_addr b)) Hq2) as (s3 & H3 & Hq3 & He3).
  assert (bare_k (ps_k s3) = bare_k k2) as Hk3 by (by apply equiv_bare_k in He3).
  pose proof (equiv_k _ _ ltac:(symmetry; exact He3)) as Ek. change (ps_k (upd_procs _ s2)) with k2 in Ek.
  assert (hartid (pcpu s3) = hartid (pcpu s) /\ noff (pcpu s3) = noff (pcpu s) + 1) as [Hh3 Hn3].
  { split; [apply (f_equal (fun k => hartid (k_cpu k))) in Hk3 | apply (f_equal (fun k => noff (k_cpu k))) in Hk3]; exact Hk3. }
  set (k4 := kack (set_k_vd (set_used_idx ((used_idx (k_vd (ps_k s)) + 1) mod NUM) (k_vd k2)) (set_k_cpu (pcpu s3) k2))).
  exists (set_ps_k (vd_drop k4) s3). split_and!.
  - unfold virtio_disk_intr. rewrite (on_k_ret _ _ _ _ _ (vd_acquire _ Hf)). change (Z.to_nat NUM) with (S 7).
    assert (ps_k s3 = set_k_cpu (pcpu s3) k2) as Ek3 by exact Ek.
    erewrite bind_ret_eq. 2:{ refine (eq_trans (intr_turn 7 (set_ps_k k1 s) s3 b q id Hu Hid Hel Hin Hb H3) _). rewrite Ek3. apply intr_stop.
      simpl. rewrite Zmod_mod. symmetry. exact Hid. }
    rewrite (on_k_ret _ _ _ tt k4). 2:{ unfold R, set_R. by mrun. }
    unfold on_k. simpl ps_k. rewrite vd_release; [done | apply Hq3 | simpl; lia |].
    change (held_by (hartid (pcpu s3)) (take_lock (hartid (pcpu s)) (vdisk_lock (k_vd (ps_k s))))). rewrite Hh3. apply take_lock_held.
  - apply quiet_set_k; [done|]. apply cpu_pop_wf; [apply Hq3 | simpl; lia].
  - rewrite (equiv_set_k s3 (upd_procs (wake (ch_addr (buf_addr b)) (cur s)) s2) (vd_drop k4) (kack (kdone b q (vd_touch (ps_k s))))); [done | exact He3 |].
    unfold bare_k. change (k_cpu (vd_drop k4)) with (cpu_pop (k_cpu (ps_k s3))). rewrite (bare_take_drop (ps_k s)); [| done | done |].
    + by destruct s as [[] ? ? ? ? ? ? ?].
    + apply (f_equal k_cpu) in Hk3. exact Hk3.
Qed.

(** ** The wait for the device *)

Lemma equiv_intro s s' : bare_k (ps_k s) = bare_k (ps_k s') -> (forall j, bare <$> proc_of s j = bare <$> proc_of s' j) ->
  proczero s = proczero s' -> global_pid s = global_pid s' -> lk_pid s = lk_pid s' -> cur s = cur s' -> intena s = intena s' ->
  last_scheduled s = last_scheduled s' -> s ≡ s'.
Proof.
  intros Hk Hp. unfold equiv, pstate_equiv, bare_state, bare_k, proc_of in *. destruct s, s'; unfold set_procs, set_ps_k; simpl in *.
  intros -> -> -> -> -> ->. f_equal; [done|]. apply list_eq. intros j. by rewrite !list_lookup_fmap.
Qed.

Lemma equiv_proc s s' j : s ≡ s' -> bare <$> proc_of s j = bare <$> proc_of s' j.
Proof. intros He. apply procs_proper, (f_equal (fun l => l !! j)) in He. by rewrite !list_lookup_fmap in He. Qed.

(** The device works and interrupts the hart while it is in the scheduler. *)
Definition device_turn : M (pstate D) unit := on_k (modify serve);; virtio_disk_intr buf_addr.

(** The caller was away from the processor. *)
Definition resched c p s : pstate D := set_last_scheduled (Z.of_nat c) (put_proc c (set_time_slice TIME_SLICE p) s).

(** The state of the kernel when the process is at sleep, and what is left of the
    device's answer [kS] when it is back. *)
Definition asleep_k k : kstate D := set_k_cpu (idle_cpu (cpu_pop (k_cpu k))) (set_k_vd (set_vdisk_lock (drop_lock (vdisk_lock (k_vd k))) (k_vd k)) k).
Definition woken_k k b q kS : kstate D :=
  let k' := kack (kdone b q kS) in set_k_cpu (k_cpu k) (set_k_vd (set_vdisk_lock (vdisk_lock (k_vd k)) (k_vd k')) k').

(** What the device must have done. *)
Record served k b q kS : Prop := {
  sv_cpu : k_cpu kS = k_cpu (asleep_k k);
  sv_lock : vdisk_lock (k_vd kS) = vdisk_lock (k_vd (asleep_k k));
  sv_used : used_idx (k_vd kS) = used_idx (k_vd k) /\ used_id (k_vd kS) = u16 (used_id (k_vd k) + 1);
  sv_elem : used_elems (k_vd kS) !! Z.to_nat (used_idx (k_vd k)) = Some 0;
  sv_info : info (k_vd kS) !! 0%nat = Some (Some b, 0);
  sv_buf : buf_of kS b = Some q
}.

Lemma wake_sleeper s c p ch : proc_of s c = Some p -> bare (wake ch None c (set_p_lk (drop_lock (p_lk (sleeper ch s p))) (sleeper ch s p))) =
  bare (set_p_state RUNNABLE (set_sleep_space ch p)).
Proof. intros _. unfold wake. rewrite decide_True; [done|]. by split_and!. Qed.

Lemma wait_turn s c p b q kS : quiet s -> cur s = Some c -> proc_of s c = Some p -> 1 < noff (pcpu s) ->
  held_by (hartid (pcpu s)) (vdisk_lock (k_vd (ps_k s))) -> used_idx (k_vd (ps_k s)) = used_id (k_vd (ps_k s)) mod NUM ->
  serve (asleep_k (ps_k s)) = kS -> served (ps_k s) b q kS ->
  exists s1 p1, device_turn (away c (sleeper (ch_addr (buf_addr b)) s p) (set_ps_k (vd_drop (ps_k s)) s)) = Ret tt s1 /\ quiet s1 /\
    proc_of s1 c = Some p1 /\ bare p1 = bare (set_p_state RUNNABLE (set_sleep_space (ch_addr (buf_addr b)) p)) /\
    s1 ≡ upd_procs (wake (ch_addr (buf_addr b)) None) (set_ps_k (kack (kdone b q (vd_touch kS))) (away c (sleeper (ch_addr (buf_addr b)) s p) s)).
Proof.
  intros Hq Hc Hp Hn [Hl Hh] Hu Hs [Hkc Hkl [Hu1 Hu2] Hel Hin Hb]. pose proof (proc_of_lt _ _ _ Hp) as Hi.
  set (ch := ch_addr (buf_addr b)) in *. set (s0 := set_ps_k (vd_drop (ps_k s)) s).
  assert (quiet s0) as Hq0 by (apply quiet_set_k; [done | apply cpu_pop_wf; [apply Hq | lia]]).
  set (s2 := set_ps_k kS (away c (sleeper ch s p) s0)).
  assert (quiet s2) as Hq2.
  { apply quiet_set_k; [apply away_quiet; [done | by rewrite <- (q_len s Hq)]|]. rewrite Hkc. split; simpl; [lia | done]. }
  destruct (intr_run s2 b q 0 Hq2) as (s1 & H1 & Hp1 & He1).
  - simpl. rewrite Hkc. simpl. lia.
  - simpl. by rewrite Hkl.
  - simpl. rewrite Hu1, Hu. apply Z.mod_pos_bound. done.
  - simpl. rewrite Hu1, Hu2, Hu. unfold u16, NUM. rewrite Z.mod_mod_divide by (by exists (2 ^ 13)). by rewrite Zplus_mod_idemp_l.
  - simpl. rewrite Hu1. exact Hel.
  - done.
  - done.
  - assert (s1 ≡ upd_procs (wake ch None) (set_ps_k (kack (kdone b q (vd_touch kS))) (away c (sleeper ch s p) s))) as He by exact He1.
    assert (proc_of (upd_procs (wake ch None) (set_ps_k (kack (kdone b q (vd_touch kS))) (away c (sleeper ch s p) s))) c =
      Some (wake ch None c (set_p_lk (drop_lock (p_lk (sleeper ch s p))) (sleeper ch s p)))) as Hw.
    { unfold proc_of, upd_procs. simpl. by rewrite list_lookup_imap, list_lookup_insert_eq. }
    symmetry in He. destruct (equiv_lookup _ s1 c _ He Hw) as (p1 & Hp1' & Hb1). exists s1, p1. split_and!; try done.
    + unfold device_turn. erewrite on_k_ret by done. change (serve (ps_k (away c (sleeper ch s p) s0))) with (serve (asleep_k (ps_k s))). rewrite Hs. exact H1.
    + by rewrite Hb1, wake_sleeper.
Qed.

Lemma woken_bare k b q kS : cpu_wf (k_cpu k) -> 1 < noff (k_cpu k) -> held_by (hartid (k_cpu k)) (vdisk_lock (k_vd k)) -> served k b q kS ->
  vdisk_lock (k_vd k) = take_lock (hartid (k_cpu k)) (vdisk_lock (k_vd k)) -> forall k1, bare_k k1 = bare_k (kack (kdone b q (vd_touch kS))) ->
  bare_k (vd_take k1) = bare_k (woken_k k b q kS).
Proof.
  intros [_ He] Hn Hh [Hkc Hkl _ _ _ _] Hl k1 Hk1. specialize (He ltac:(lia)).
  apply (f_equal (fun k0 => (k_cpu k0, k_vd k0, set_k_cpu (k_cpu k) (set_k_vd (k_vd k) k0)))) in Hk1.
  change ((bare_cpu (k_cpu k1), k_vd k1, set_k_cpu (k_cpu k) (set_k_vd (k_vd k) k1)) =
    (bare_cpu (k_cpu kS), k_vd (kack (kdone b q (vd_touch kS))), set_k_cpu (k_cpu k) (set_k_vd (k_vd k) (kack (kdone b q (vd_touch kS)))))) in Hk1.
  rewrite Hkc in Hk1. injection Hk1 as Hh1 Hs1 Hn1 Hv1 Hr1.
  unfold bare_k. assert (bare_cpu (k_cpu (vd_take k1)) = bare_cpu (k_cpu k)) as Hcpu.
  { unfold bare_cpu, vd_take, cpu_push. simpl. rewrite Hh1, Hn1, He. f_equal. lia. }
  rewrite Hcpu. change (k_cpu (woken_k k b q kS)) with (k_cpu k). clear Hcpu Hs1 Hn1 Hh He Hn.
  destruct k1, kS as [kcS ? ? ? ? ? [] ? ? ? ?]; simpl in *; subst. unfold vd_take, woken_k, kack, kdone, put_buf; simpl. rewrite Hh1. unfold set_k_cpu, set_k_vd; simpl. f_equal.
  unfold set_vdisk_lock; simpl. f_equal. by rewrite Hl.
Qed.

Lemma wake_others ch s k c (q : proc) j : no_sleeper ch s -> j <> c ->
  bare <$> proc_of (upd_procs (wake ch None) (set_ps_k k (away c q s))) j = bare <$> proc_of s j.
Proof.
  intros Hn Hj. unfold upd_procs, away, proc_of, put_proc in *. simpl. rewrite list_lookup_imap, list_lookup_insert_ne by done.
  destruct (procs s !! j) as [r|] eqn:Hr; [|done]. simpl. f_equal. unfold wake. rewrite decide_False; [done|].
  intros (_ & Hs). by apply (Hn j r).
Qed.

(** The request is done when the process is back. *)
Lemma wait_run s c p b q kS qb fuel : quiet s -> cur s = Some c -> proc_of s c = Some p -> p_state p = RUNNING -> sleep_space p = ch_null ->
  no_sleeper (ch_addr (buf_addr b)) s -> 1 < noff (pcpu s) -> vdisk_lock (k_vd (ps_k s)) = take_lock (hartid (pcpu s)) (vdisk_lock (k_vd (ps_k s))) ->
  used_idx (k_vd (ps_k s)) = used_id (k_vd (ps_k s)) mod NUM -> buf_of (ps_k s) b = Some qb -> disk qb = true ->
  serve (asleep_k (ps_k s)) = kS -> served (ps_k s) b q kS ->
  exists s1, disk_wait buf_addr (resumed device_turn) (S (S fuel)) b s = Ret tt s1 /\ quiet s1 /\ s1 ≡ resched c p (set_ps_k (woken_k (ps_k s) b q kS) s).
Proof.
  intros Hq Hc Hp Hrun Hnull Hns Hn Hl Hu Hb Hd Hs Hsv. pose proof (proc_of_lt _ _ _ Hp) as Hi.
  assert (held_by (hartid (pcpu s)) (vdisk_lock (k_vd (ps_k s)))) as Hh by (rewrite Hl; apply take_lock_held).
  destruct (wait_turn s c p b q kS Hq Hc Hp Hn Hh Hu Hs Hsv) as (s1 & p1 & H1 & Hq1 & Hp1 & Hb1 & He1).
  set (s0 := set_ps_k (vd_drop (ps_k s)) s) in *.
  assert (quiet s0) as Hq0 by (apply quiet_set_k; [done | apply cpu_pop_wf; [apply Hq | lia]]).
  assert (p_state p1 = RUNNABLE) as Hst1 by (apply (f_equal p_state) in Hb1; exact Hb1).
  pose proof (sleep_run device_turn s0 c p (ch_addr (buf_addr b)) s1 p1 Hq0 Hc Hp H1 Hq1 Hp1 Hst1) as Hsl.
  set (s2 := came_back c p1 (awake p1) (intena s0) s1) in *.
  assert (quiet s2) as Hq2 by (by apply came_back_quiet).
  assert (bare_k (ps_k s2) = bare_k (kack (kdone b q (vd_touch kS)))) as Hk2.
  { apply equiv_bare_k in He1. exact He1. }
  assert (is_free (vdisk_lock (k_vd (ps_k s2)))) as Hf2.
  { apply (f_equal (fun k => vdisk_lock (k_vd k))) in Hk2. change (vdisk_lock (k_vd (ps_k s2)) = drop_lock (vdisk_lock (k_vd kS))) in Hk2. by rewrite Hk2. }
  assert (buf_of (vd_take (ps_k s2)) b = Some (set_disk false q)) as Hb2.
  { apply (f_equal (fun k => buf_of k b)) in Hk2. change (buf_of (ps_k s2) b = buf_of (put_buf b (set_disk false q) kS) b) in Hk2.
    change (buf_of (ps_k s2) b = Some (set_disk false q)). rewrite Hk2. unfold buf_of, put_buf. simpl. apply list_lookup_insert_eq.
    apply (lookup_lt_Some _ _ _ (sv_buf _ _ _ _ Hsv)). }
  exists (set_ps_k (vd_take (ps_k s2)) s2). split_and!.
  - cbn [disk_wait]. erewrite on_k_get. 2:{ unfold get_buf. mrun. by rewrite Hb. } rewrite Hd. unfold proc_sleep. mrun.
    erewrite on_k_ret by (apply vd_release; [apply Hq | lia | done]). fold s0. mrun. mstep ltac:(exact Hsl).
    mrun. erewrite on_k_ret by (by apply vd_acquire).
    erewrite on_k_get; [|unfold get_buf; mrun; cbn [ps_k set_ps_k]; by rewrite Hb2].
    done.
  - apply quiet_set_k; [done|]. apply cpu_push_wf, Hq2.
  - assert (forall {A} (f : pstate D -> A), f (bare_state s1) = f (bare_state (upd_procs (wake (ch_addr (buf_addr b)) None)
      (set_ps_k (kack (kdone b q (vd_touch kS))) (away c (sleeper (ch_addr (buf_addr b)) s p) s))))) as Hf by (intros A f; by rewrite He1).
    apply equiv_intro.
    + apply woken_bare; [apply Hq | done..].
    + intros j. change (bare <$> proc_of s2 j = bare <$> proc_of (put_proc c (set_time_slice TIME_SLICE p) s) j). destruct (decide (j = c)) as [->|Hj].
      * rewrite proc_of_put by done. unfold s2. rewrite came_back_lookup by (by apply proc_of_lt in Hp1). simpl. f_equal.
        change (awake (bare p1) = bare (set_time_slice TIME_SLICE p)). rewrite Hb1. destruct p; simpl in *; by subst.
      * rewrite proc_of_put_ne by done. unfold s2, came_back, section_post. rewrite proc_of_put_ne by done.
        change (bare <$> proc_of s1 j = bare <$> proc_of s j). rewrite (equiv_proc _ _ j He1). by apply wake_others.
    + apply (Hf _ proczero).
    + apply (Hf _ global_pid).
    + apply (Hf _ lk_pid).
    + symmetry. exact Hc.
    + done.
    + done.
Qed.

(** ** What the device does with the request *)

Definition sector q : Z := sector_of (block_num q).

(** The buffer when the device has worked. *)
Definition got k q (write : bool) : buf :=
  if write then set_disk true q else set_data (block (k_dev k) (block_num q)) (set_disk true q).

(** The kernel's state, in which the device has answered. *)
Definition device_k b q (write : bool) pa k : kstate D :=
  let K := asleep_k (requested b q write pa k) in
  answered 0 (if write then set_k_dev (dev_write (k_dev K) (sector q) (data q)) K else put_buf b (set_data (dev_read (k_dev K) (sector q)) (set_disk true q)) K).

Lemma ring_index z : (Z.to_nat (z mod NUM) < 8)%nat.
Proof. pose proof (Z.mod_pos_bound z NUM ltac:(done)). unfold NUM in *. lia. Qed.

Lemma requested_chain k b q write pa : idle (k_vd k) ->
  chain (asleep_k (requested b q write pa k)) 0 (if write then VIRTIO_BLK_T_OUT else VIRTIO_BLK_T_IN) pa (sector q) b (data_flags write).
Proof.
  intros [(Hd & Hi & Hr & _) _ (Hu & _) _ _]. destruct (list_eight _ Hd) as (d0 & d1 & d2 & d3 & d4 & d5 & d6 & d7 & Ed).
  destruct k as [kc km kr ur kp kb [de ai ar ui ue fr us inf lk] kd ksb kic kft]; simpl in *; subst. split; simpl.
  - done.
  - apply list_lookup_insert_eq. rewrite Hr. apply ring_index.
  - by exists 1%nat, 2%nat.
Qed.

Lemma device_answers k b q write pa : idle (k_vd k) -> buf_of k b = Some q -> serve (asleep_k (requested b q write pa k)) = device_k b q write pa k.
Proof.
  intros Hid Hb. pose proof (requested_chain k b q write pa Hid) as Hch. pose proof (lookup_lt_Some _ _ _ Hb) as Hlt.
  assert (buf_of (asleep_k (requested b q write pa k)) b = Some (set_disk true q)) as Hb'.
  { unfold buf_of. simpl. by apply list_lookup_insert_eq. }
  unfold device_k. cbv zeta. destruct write.
  - by rewrite (serve_write _ _ _ _ _ _ Hch Hb').
  - by rewrite (serve_read _ _ _ _ _ _ Hch Hb').
Qed.

Lemma device_served k b q write pa : idle (k_vd k) -> buf_of k b = Some q -> served (requested b q write pa k) b (got k q write) (device_k b q write pa k).
Proof.
  intros Hid Hb. pose proof (lookup_lt_Some _ _ _ Hb) as Hlt. destruct Hid as [(Hd & Hi & Hr & He) _ (Hu & Hu') _ _].
  destruct (list_eight _ Hi) as (i0 & i1 & i2 & i3 & i4 & i5 & i6 & i7 & Ei).
  destruct k as [kc km kr ur kp kb [de ai ar ui ue fr us inf lk] kd ksb kic kft]; simpl in Hd, Hi, Hr, He, Hu, Hu', Hlt, Ei; subst.
  split; try (destruct write; simpl; (reflexivity || split; reflexivity)).
  - destruct write; simpl; apply list_lookup_insert_eq; rewrite He; apply ring_index.
  - assert (forall q' q'' : buf, <[b:=q'']> (<[b:=q']> (bufs kb)) !! b = Some q'') as Hbb.
    { intros q' q''. apply list_lookup_insert_eq. by rewrite length_insert. }
    destruct write; unfold buf_of; simpl; [by apply list_lookup_insert_eq|]. rewrite Hbb. unfold got, block, sector. by rewrite reg_medium.
Qed.

(** ** The descriptors are given back *)

Definition kfreed (i : nat) d k : kstate D :=
  kfree (<[i := true]> (free (k_vd k))) (kdesc i (mk_desc dma_null (len d) (flags d) (next d)) k).

Lemma no_sleeper_equiv ch s s' : s ≡ s' -> no_sleeper ch s' -> no_sleeper ch s.
Proof.
  intros He Hn i p Hp [H1 H2]. destruct (equiv_lookup s s' i p He Hp) as (p' & Hp' & Hb). apply (Hn i p' Hp').
  apply (f_equal (fun r => (p_state r, sleep_space r))) in Hb. change ((p_state p', sleep_space p') = (p_state p, sleep_space p)) in Hb.
  injection Hb as -> ->. done.
Qed.

Lemma free_desc_run s (i : nat) d : quiet s -> (i < 8)%nat -> free (k_vd (ps_k s)) !! i = Some false -> desc (k_vd (ps_k s)) !! i = Some d ->
  no_sleeper (ch_addr free_addr) s -> exists s', free_desc free_addr i s = Ret tt s' /\ quiet s' /\ s' ≡ set_ps_k (kfreed i d (ps_k s)) s.
Proof.
  intros Hq Hi Hf Hd Hn. destruct (wake_none (set_ps_k (kfreed i d (ps_k s)) s) (ch_addr free_addr)) as (s' & H & Hq' & He).
  { apply quiet_set_k; [done | apply Hq]. }
  { exact Hn. }
  exists s'. split_and!; [|done..]. unfold free_desc. rewrite (proj2 (Z.leb_gt _ _)) by (unfold NUM; lia). mrun.
  erewrite on_k_get; [|unfold get_vd; mrun; by rewrite Hf]. mrun. erewrite on_k_ret by (by apply upd_desc_eq).
  erewrite on_k_ret by done. exact H.
Qed.

Lemma kfreed_equiv (i : nat) d s s' : s ≡ s' -> set_ps_k (kfreed i d (ps_k s)) s ≡ set_ps_k (kfreed i d (ps_k s')) s'.
Proof.
  intros He. apply equiv_set_k; [done|]. apply equiv_bare_k, (f_equal (kfreed i d)) in He. exact He.
Qed.

Lemma free_chain_step fuel s (i : nat) d : quiet s -> (i < 8)%nat -> free (k_vd (ps_k s)) !! i = Some false -> desc (k_vd (ps_k s)) !! i = Some d ->
  no_sleeper (ch_addr free_addr) s -> exists s', quiet s' /\ s' ≡ set_ps_k (kfreed i d (ps_k s)) s /\ k_vd (ps_k s') = k_vd (kfreed i d (ps_k s)) /\
    no_sleeper (ch_addr free_addr) s' /\
    free_chain free_addr (S fuel) i s = (if negb (Z.land (flags d) VRING_DESC_F_NEXT =? 0) then free_chain free_addr fuel (Z.to_nat (next d)) else mret tt) s'.
Proof.
  intros Hq Hi Hf Hd Hn. destruct (free_desc_run s i d Hq Hi Hf Hd Hn) as (s1 & E1 & Hq1 & He1).
  assert (k_vd (ps_k s1) = k_vd (kfreed i d (ps_k s))) as Hv by (by apply equiv_bare_k, (f_equal k_vd) in He1).
  exists s1. split_and!; [done | done | done | by apply (no_sleeper_equiv _ _ _ He1) |].
  cbn [free_chain]. mstep ltac:(exact E1). rewrite (on_k_get _ _ s1 (mk_desc dma_null (len d) (flags d) (next d))); [done|].
  unfold get_vd. mrun. rewrite Hv. change (desc (k_vd (kfreed i d (ps_k s)))) with (<[i := mk_desc dma_null (len d) (flags d) (next d)]> (desc (k_vd (ps_k s)))).
  rewrite list_lookup_insert_eq; [by mrun | exact (lookup_lt_Some _ _ _ Hd)].
Qed.

(** A chain of three descriptors. *)
Lemma free3_run s d0 d1 d2 : quiet s -> no_sleeper (ch_addr free_addr) s ->
  (forall i : nat, (i < 3)%nat -> free (k_vd (ps_k s)) !! i = Some false) ->
  desc (k_vd (ps_k s)) !! 0%nat = Some d0 -> desc (k_vd (ps_k s)) !! 1%nat = Some d1 -> desc (k_vd (ps_k s)) !! 2%nat = Some d2 ->
  (Z.land (flags d0) VRING_DESC_F_NEXT =? 0) = false -> (Z.land (flags d1) VRING_DESC_F_NEXT =? 0) = false -> (Z.land (flags d2) VRING_DESC_F_NEXT =? 0) = true ->
  next d0 = 1 -> next d1 = 2 ->
  exists s', free_chain free_addr 9 0 s = Ret tt s' /\ quiet s' /\ s' ≡ set_ps_k (kfreed 2 d2 (kfreed 1 d1 (kfreed 0 d0 (ps_k s)))) s.
Proof.
  intros Hq Hn Hf H0 H1 H2 F0 F1 F2 N0 N1.
  destruct (free_chain_step 8 s 0 d0 Hq ltac:(lia) (Hf 0%nat ltac:(lia)) H0 Hn) as (s1 & Hq1 & He1 & Hv1 & Hn1 & E1).
  destruct (free_chain_step 7 s1 1 d1 Hq1 ltac:(lia)) as (s2 & Hq2 & He2 & Hv2 & Hn2 & E2); [| |done|].
  { rewrite Hv1. simpl. rewrite list_lookup_insert_ne by done. apply Hf. lia. }
  { rewrite Hv1. simpl. by rewrite list_lookup_insert_ne. }
  destruct (free_chain_step 6 s2 2 d2 Hq2 ltac:(lia)) as (s3 & Hq3 & He3 & _ & _ & E3); [| |done|].
  { rewrite Hv2. simpl. rewrite Hv1. simpl. rewrite !list_lookup_insert_ne by done. apply Hf. lia. }
  { rewrite Hv2. simpl. rewrite Hv1. simpl. by rewrite !list_lookup_insert_ne. }
  rewrite F0, N0 in E1. rewrite F1, N1 in E2. rewrite F2 in E3. exists s3. split_and!; [rewrite E1; refine (eq_trans E2 _); exact E3 | done |].
  rewrite He3, (kfreed_equiv 2 d2 _ _ He2). change (ps_k (set_ps_k ?a ?b)) with a. 
  pose proof (kfreed_equiv 1 d1 _ _ He1) as He12. apply (kfreed_equiv 2 d2) in He12. exact He12.
Qed.

(** ** A whole request *)

Definition e0 q (write : bool) pa : vring_desc :=
  mk_desc (dma_hdr pa (if write then VIRTIO_BLK_T_OUT else VIRTIO_BLK_T_IN) (sector q)) OUTHDR_SIZE VRING_DESC_F_NEXT 1.
Definition e1 b (write : bool) : vring_desc := mk_desc (dma_data b) BLOCK_SIZE (data_flags write) 2.
Definition e2 : vring_desc := mk_desc (dma_status 0) 1 VRING_DESC_F_WRITE 0.

(** The kernel's state when the caller is back, and when the request is over. *)
Definition returned b q write pa k : kstate D := woken_k (requested b q write pa k) b (got k q write) (device_k b q write pa k).
Definition finished b q write pa k : kstate D :=
  vd_drop (kfreed 2 e2 (kfreed 1 (e1 b write) (kfreed 0 (e0 q write pa) (kinfo 0 (None, 0) (returned b q write pa k))))).

Lemma returned_vd b q write pa k : idle (k_vd k) -> 
  free (k_vd (returned b q write pa k)) = [false; false; false; true; true; true; true; true] /\
  desc (k_vd (returned b q write pa k)) = e0 q write pa :: e1 b write :: e2 :: drop 3 (desc (k_vd k)) /\
  info (k_vd (returned b q write pa k)) = (Some b, 0) :: drop 1 (info (k_vd k)).
Proof.
  intros [(Hd & Hi & _) _ _ _ _].
  destruct (list_eight _ Hd) as (d0 & d1 & d2 & d3 & d4 & d5 & d6 & d7 & Ed). destruct (list_eight _ Hi) as (i0 & i1 & i2 & i3 & i4 & i5 & i6 & i7 & Ei).
  destruct k as [kc km kr ur kp kb [de ai ar ui ue fr us inf lk] kd ksb kic kft]; simpl in Ed, Ei; subst.
  by destruct write.
Qed.

Lemma kstate_ext k k' : k_cpu k = k_cpu k' -> k_mem k = k_mem k' -> kern_region k = kern_region k' -> user_region k = user_region k' ->
  kernel_pgtbl k = kernel_pgtbl k' -> k_bc k = k_bc k' -> k_vd k = k_vd k' -> k_dev k = k_dev k' -> k_sb k = k_sb k' -> k_ic k = k_ic k' -> k_ft k = k_ft k' -> k = k'.
Proof. destruct k, k'. simpl. congruence. Qed.

(** The driver is idle again; of the rest, the buffer and the disk have changed. *)
Lemma finished_ok b q write pa k : idle (k_vd k) -> cpu_wf (k_cpu k) -> 0 < noff (k_cpu k) -> buf_of k b = Some q ->
  idle (k_vd (finished b q write pa k)) /\
  bare_k (finished b q write pa k) = bare_k (set_k_vd (k_vd (finished b q write pa k)) (set_k_dev (k_dev (finished b q write pa k))
    (put_buf b (set_disk false (got k q write)) k))).
Proof.
  intros Hid Hc Hn Hb. destruct Hid as [(Hd & Hi & Hr & He) _ (Hu & Hu') Hx Hl].
  destruct (list_eight _ Hd) as (d0 & d1 & d2 & d3 & d4 & d5 & d6 & d7 & Ed). destruct (list_eight _ Hi) as (i0 & i1 & i2 & i3 & i4 & i5 & i6 & i7 & Ei).
  split.
  - destruct k as [kc km kr ur kp kb [de ai ar ui ue fr us inf lk] kd ksb kic kft]; simpl in Hr, He, Hu, Hu', Hx, Ed, Ei; subst.
    assert (u16 (ai + 1) mod NUM = (ai mod NUM + 1) mod NUM) as Hm.
    { unfold u16, NUM. rewrite Z.mod_mod_divide by (by exists (2 ^ 13)). by rewrite Zplus_mod_idemp_l. }
    split; destruct write; simpl; try done; try (by rewrite ?length_insert); (apply Z.mod_pos_bound; done).
  - unfold bare_k. assert (bare_cpu (k_cpu (finished b q write pa k)) = bare_cpu (k_cpu k)) as -> by (by apply (bare_take_drop k)).
    destruct k as [kc km kr ur kp kb [de ai ar ui ue fr us inf lk] kd ksb kic kft].
    destruct write; apply kstate_ext; simpl; try reflexivity; by rewrite !list_insert_insert_eq.
Qed.

Lemma finished_medium `{!BlockDevLaws D} b q (write : bool) pa k n : 0 <= block_num q < 2 ^ 31 -> 0 <= n < 2 ^ 31 ->
  length (data q) = Z.to_nat BLOCK_SIZE -> is_bytes (data q) ->
  block (k_dev (finished b q write pa k)) n = if decide (write = true /\ n = block_num q) then data q else block (k_dev k) n.
Proof.
  intros Hq Hn Hl Hb. unfold block at 1.
  change (k_dev (finished b q write pa k)) with (k_dev (kack (device_k b q write pa k))). unfold kack. cbn [k_dev set_k_dev]. rewrite reg_medium.
  destruct write.
  - change (k_dev (device_k b q true pa k)) with (put_block (reg_write VIRTIO_MMIO_QUEUE_NOTIFY 0 (k_dev k)) (block_num q) (data q)).
    case_decide as Hd.
    + destruct Hd as [_ ->]. by apply block_put_eq.
    + refine (eq_trans (block_put_ne (reg_write VIRTIO_MMIO_QUEUE_NOTIFY 0 (k_dev k)) (block_num q) n (data q) Hq Hn _) _); [naive_solver | apply reg_medium].
  - rewrite decide_False by (by intros [[=] _]). unfold block. apply reg_medium.
Qed.

(** Nobody waits for the driver. *)
Definition unwatched b s : Prop := no_sleeper (ch_addr free_addr) s /\ no_sleeper (ch_addr (buf_addr b)) s.

Lemma no_sleeper_resched ch c p k s : no_sleeper ch s -> proc_of s c = Some p -> p_state p = RUNNING -> no_sleeper ch (resched c p (set_ps_k k s)).
Proof.
  intros Hn Hp Hr i r. pose proof (proc_of_lt _ _ _ Hp) as Hi. change (proc_of (resched c p (set_ps_k k s)) i) with (proc_of (put_proc c (set_time_slice TIME_SLICE p) s) i).
  destruct (decide (i = c)) as [->|Hne].
  - rewrite proc_of_put by done. intros [= <-] [Hs _]. change (p_state p = SLEEPING) in Hs. congruence.
  - rewrite proc_of_put_ne by done. apply Hn.
Qed.

Lemma set_k_again s k k' : set_ps_k k (set_ps_k k' s) = set_ps_k k s.
Proof. done. Qed.

Lemma submit_eq (i : nat) k : submit i k = Ret tt (ksubmit i k).
Proof. done. Qed.

Lemma equiv_other s s' k1 k k' : s ≡ set_ps_k k1 s' -> bare_k k = bare_k k' -> set_ps_k k s ≡ set_ps_k k' s'.
Proof. intros Hs Hk. rewrite (equiv_set_k _ _ _ _ Hs Hk). by rewrite set_k_again. Qed.

Lemma bare_k_vd k k' : bare_k k = bare_k k' -> k_vd k = k_vd k'.
Proof. intros He. exact (f_equal k_vd He). Qed.

Lemma bare_kfreed (i : nat) d k k' : bare_k k = bare_k k' -> bare_k (kfreed i d k) = bare_k (kfreed i d k').
Proof. intros He. exact (f_equal (kfreed i d) He). Qed.

Lemma bare_kinfo (i : nat) r k k' : bare_k k = bare_k k' -> bare_k (kinfo i r k) = bare_k (kinfo i r k').
Proof. intros He. exact (f_equal (kinfo i r) He). Qed.

Lemma bare_k_set s s' k : s ≡ set_ps_k k s' -> bare_k (ps_k s) = bare_k k.
Proof. intros He. exact (equiv_bare_k _ _ He). Qed.

Lemma bare_k_resched c p s s' k : s ≡ resched c p (set_ps_k k s') -> bare_k (ps_k s) = bare_k k.
Proof. intros He. exact (equiv_bare_k _ _ He). Qed.

Lemma set_k_resched c p s k k' : set_ps_k k (resched c p (set_ps_k k' s)) = resched c p (set_ps_k k s).
Proof. done. Qed.

Lemma bare_drop k k' : bare_k k = bare_k k' -> 1 < noff (k_cpu k) -> bare_k (vd_drop k) = bare_k (vd_drop k').
Proof.
  intros He Hn. destruct k as [[h e n o] ? ? ? ? ? ? ? ? ? ?], k' as [[h' e' n' o'] ? ? ? ? ? ? ? ? ? ?].
  unfold bare_k, vd_drop, bare_cpu, cpu_pop, set_k_cpu, set_k_vd in *. simpl in *. injection He as -> -> -> -> -> -> -> -> -> -> -> -> ->.
  by rewrite (proj2 (Z.eqb_neq _ _)) by lia.
Qed.

(** Everything up to the wait. *)
Lemma request_head s c b q write pa fuel : cur s = Some c -> idle (k_vd (ps_k s)) -> buf_of (ps_k s) b = Some q -> hdr_at (ps_k s) (buf0 c) pa ->
  vio_rw free_addr buf_addr buf0 (resumed device_turn) (S fuel) b write s =
  (disk_wait buf_addr (resumed device_turn) (S fuel) b;; on_k (upd_info 0 (fun r => (None, r.2)));; free_chain free_addr (S (Z.to_nat NUM)) 0;; on_k (release vd_lk))
    (set_ps_k (requested b q write pa (ps_k s)) s).
Proof.
  intros Hc [(Hd & Hi & _) Hf _ _ Hl] Hb Hh. unfold vio_rw. erewrite on_k_get by (unfold get_buf; mrun; by rewrite Hb).
  rewrite (on_k_ret _ _ _ _ _ (vd_acquire _ Hl)). cbn [alloc3_wait]. mrun. mstep ltac:(by apply alloc3_idle).
  set (s1 := set_ps_k _ (set_ps_k (vd_take (ps_k s)) s)).
  pose proof (fill_run s1 c b q write pa Hc Hh Hd Hi Hb) as Hfill. 
  transitivity ((((fill_descs buf0 0 1 2 b write (sector_of (block_num q));; on_k (upd_buf b (set_disk true));; on_k (upd_info 0 (fun r => (Some b, r.2))));;
    on_k (submit 0);; disk_wait buf_addr (resumed device_turn) (S fuel) b;; on_k (upd_info 0 (fun r => (None, r.2)));; free_chain free_addr (S (Z.to_nat NUM)) 0;; on_k (release vd_lk)) : M (pstate D) unit) s1).
  { mrun. unfold mbind, M_bind. destruct (fill_descs _ _ _ _ _ _ _ s1) as [[] s2| | | |]; [|done..]. by destruct (on_k (upd_buf b (set_disk true)) s2). }
  rewrite (bind_ret_eq _ _ _ _ _ Hfill). rewrite (on_k_ret _ _ _ tt (ksubmit 0 (filled b q write pa (ps_k s1)))) by apply submit_eq.
  unfold s1. rewrite !set_k_again. reflexivity.
Qed.

Lemma request_run s c p b q write pa fuel : quiet s -> cur s = Some c -> proc_of s c = Some p -> p_state p = RUNNING -> sleep_space p = ch_null ->
  unwatched b s -> 0 < noff (pcpu s) -> idle (k_vd (ps_k s)) -> buf_of (ps_k s) b = Some q -> hdr_at (ps_k s) (buf0 c) pa ->
  exists s', vio_rw free_addr buf_addr buf0 (resumed device_turn) (S (S fuel)) b write s = Ret tt s' /\ quiet s' /\
    s' ≡ resched c p (set_ps_k (finished b q write pa (ps_k s)) s).
Proof.
  intros Hq Hc Hp Hr Hnull [Hw1 Hw2] Hn Hid Hb Hh. pose proof Hid as [(Hd & Hi & _) Hfr [_ Hu'] _ Hl].
  set (kr := requested b q write pa (ps_k s)). set (s1 := set_ps_k kr s).
  assert (quiet s1) as Hq1 by (apply quiet_set_k; [done | apply cpu_push_wf, Hq]).
  destruct (wait_run s1 c p b (got (ps_k s) q write) (device_k b q write pa (ps_k s)) (set_disk true q) fuel Hq1 Hc Hp Hr Hnull Hw2) as (s2 & H2 & Hq2 & He2);
    [simpl; lia | done | done | apply list_lookup_insert_eq; exact (lookup_lt_Some _ _ _ Hb) | done | by apply device_answers | by apply device_served |].
  assert (bare_k (ps_k s2) = bare_k (returned b q write pa (ps_k s))) as Hk2 by exact (bare_k_resched _ _ _ _ _ He2).
  pose proof (bare_k_vd _ _ Hk2) as Hv2.
  destruct (returned_vd b q write pa (ps_k s) Hid) as (Hrf & Hrd & Hri).
  set (s3 := set_ps_k (kinfo 0 (None, 0) (ps_k s2)) s2). assert (quiet s3) as Hq3 by (apply quiet_set_k; [done | apply Hq2]).
  assert (no_sleeper (ch_addr free_addr) s3) as Hw3.
  { apply (no_sleeper_equiv _ s2 _ He2). by apply no_sleeper_resched. }
  destruct (free3_run s3 (e0 q write pa) (e1 b write) e2 Hq3 Hw3) as (s4 & H4 & Hq4 & He4).
  { intros i Hi3. change (free (k_vd (ps_k s2)) !! i = Some false). rewrite Hv2, Hrf. by destruct i as [|[|[|]]]; [..|lia]. }
  { change (desc (k_vd (ps_k s2)) !! 0%nat = Some (e0 q write pa)). by rewrite Hv2, Hrd. }
  { change (desc (k_vd (ps_k s2)) !! 1%nat = Some (e1 b write)). by rewrite Hv2, Hrd. }
  { change (desc (k_vd (ps_k s2)) !! 2%nat = Some e2). by rewrite Hv2, Hrd. }
  { done. } { by destruct write. } { done. } { done. } { done. }
  pose proof (bare_k_set _ _ _ He4) as Hk4. change (ps_k s3) with (kinfo 0 (None, 0) (ps_k s2)) in Hk4.
  rewrite (bare_kfreed 2 e2 _ _ (bare_kfreed 1 (e1 b write) _ _ (bare_kfreed 0 (e0 q write pa) _ _ (bare_kinfo 0 (None, 0) _ _ Hk2)))) in Hk4.
  assert (k_cpu (ps_k s4) = k_cpu (ps_k s4) /\ noff (pcpu s4) = noff (pcpu s) + 1 /\ hartid (pcpu s4) = hartid (pcpu s)) as (_ & Hn4 & Hh4).
  { split_and!; [done | apply (f_equal (fun k => noff (k_cpu k))) in Hk4 | apply (f_equal (fun k => hartid (k_cpu k))) in Hk4]; exact Hk4. }
  assert (held_by (hartid (pcpu s4)) (vdisk_lock (k_vd (ps_k s4)))) as Hl4.
  { apply (f_equal (fun k => vdisk_lock (k_vd k))) in Hk4. change (vdisk_lock (k_vd (ps_k s4)) = take_lock (hartid (pcpu s)) (vdisk_lock (k_vd (ps_k s)))) in Hk4.
    rewrite Hk4, Hh4. apply take_lock_held. }
  pose proof (q_cpu s4 Hq4) as Hc4. assert (0 < noff (pcpu s4)) as Hp4 by lia. assert (1 < noff (pcpu s4)) as Hp4' by lia.
  exists (set_ps_k (vd_drop (ps_k s4)) s4). split_and!.
  - rewrite (request_head s c b q write pa (S fuel) Hc Hid Hb Hh). fold kr s1. mstep ltac:(exact H2).
    
    rewrite (on_k_ret _ _ s2 tt (kinfo 0 (None, 0) (ps_k s2))).
    2:{ apply (upd_info_eq 0 (fun r => (None, r.2)) (Some b, 0)). rewrite Hv2, Hri. reflexivity. }
    fold s3. mstep ltac:(exact H4).
    unfold on_k. by rewrite vd_release.
  - by apply quiet_set_k, cpu_pop_wf.
  - rewrite (equiv_other s4 s3 _ _ (vd_drop (ps_k s4)) He4 eq_refl). unfold s3. rewrite set_k_again.
    rewrite <- (set_k_resched c p s (finished b q write pa (ps_k s)) (returned b q write pa (ps_k s))). apply equiv_set_k; [exact He2 | by apply bare_drop].
Qed.
(** The walk through the kernel's page table that finds the header. *)
Lemma hdr_at_walk k a v2 v1 v0 : kernel_pgtbl k <> 0 -> ALIGN_DOWN a PGSIZE < VA_MAX ->
  load64 (k_mem k) (kernel_pgtbl k + 8 * VA_TO_VPN (ALIGN_DOWN a PGSIZE) 2) = v2 -> pte_valid v2 = true -> PTE_TO_PA v2 <> 0 ->
  load64 (k_mem k) (PTE_TO_PA v2 + 8 * VA_TO_VPN (ALIGN_DOWN a PGSIZE) 1) = v1 -> pte_valid v1 = true ->
  load64 (k_mem k) (PTE_TO_PA v1 + 8 * VA_TO_VPN (ALIGN_DOWN a PGSIZE) 0) = v0 -> hdr_at k a (u64 (PTE_TO_PA v0 + a mod PGSIZE)).
Proof.
  intros Hr Hva H2 V2 P2 H1 V1 H0 k' Hm Hp. unfold hdr_pa, vm_getpte. cbn [Z.eqb]. mrun. rewrite Hp.
  rewrite (proj2 (Z.leb_gt _ _)) by done. cbn [walk_levels]. rewrite (proj2 (Z.eqb_neq _ _)) by done. unfold mem64. mrun.
  rewrite Hm, H2, V2. rewrite (proj2 (Z.eqb_neq _ _)) by done. mrun. rewrite Hm, H1, V1. mrun. by rewrite Hm, H0.
Qed.

(** C30: the driver implements the disk it promises.  A process that calls
    [virtio_disk_rw] while the driver is idle queues its request, sleeps, is woken by
    the device's interrupt when the scheduler has the processor, and returns: for a read with the block
    of the disk in the buffer, for a write with the buffer's data as the block's content
    and every other block unchanged.  The driver is idle again, with all descriptors free;
    otherwise only the caller's time slice is new. *)
Theorem vio_rw_transfers `{!BlockDevLaws D} s c p b q write pa fuel : quiet s -> cur s = Some c -> proc_of s c = Some p -> p_state p = RUNNING -> sleep_space p = ch_null ->
  unwatched b s -> 0 < noff (pcpu s) -> idle (k_vd (ps_k s)) -> hdr_at (ps_k s) (buf0 c) pa ->
  buf_of (ps_k s) b = Some q -> 0 <= block_num q < 2 ^ 31 -> length (data q) = Z.to_nat BLOCK_SIZE -> is_bytes (data q) ->
  exists s' k', vio_rw free_addr buf_addr buf0 (resumed device_turn) (S (S fuel)) b write s = Ret tt s' /\ quiet s' /\
    s' ≡ resched c p (set_ps_k k' s) /\ idle (k_vd k') /\
    bare_k k' = bare_k (set_k_vd (k_vd k') (set_k_dev (k_dev k') (put_buf b (set_disk false (got (ps_k s) q write)) (ps_k s)))) /\
    (forall n, 0 <= n < 2 ^ 31 -> block (k_dev k') n = if decide (write = true /\ n = block_num q) then data q else block (k_dev (ps_k s)) n).
Proof.
  intros Hq Hc Hp Hr Hnull Hw Hn Hid Hh Hb Hbn Hl Hbytes.
  destruct (request_run s c p b q write pa fuel Hq Hc Hp Hr Hnull Hw Hn Hid Hb Hh) as (s' & H & Hq' & He).
  destruct (finished_ok b q write pa (ps_k s) Hid (q_cpu s Hq) Hn Hb) as [Hid' Hfr].
  exists s', (finished b q write pa (ps_k s)). split_and!; [done..|]. intros n Hnn. by apply finished_medium.
Qed.
End Spec.

(** ** A device and a request *)

#[export] Instance demo_regs : VirtioRegs memdisk := { reg_read _ _ := 0; reg_write _ _ d := d }.

(** The device finds its request in the ring. *)
Definition demo_request (k : kstate memdisk) : option (nat * Z * Z * nat * buf) :=
  id ← avail_ring (k_vd k) !! Z.to_nat (used_id (k_vd k) mod NUM);
  d0 ← desc (k_vd k) !! Z.to_nat id;
  d1 ← desc (k_vd k) !! Z.to_nat (next d0);
  match addr d0, addr d1 with
  | dma_hdr _ ty sec, dma_data b => q ← buf_of k b; Some (Z.to_nat id, ty, sec, b, q)
  | _, _ => None
  end.

Definition demo_serve (k : kstate memdisk) : kstate memdisk :=
  match demo_request k with
  | Some (id, ty, sec, b, q) =>
      if ty =? VIRTIO_BLK_T_IN then answered id (put_buf b (set_data (dev_read (k_dev k) sec) q) k)
      else answered id (set_k_dev (dev_write (k_dev k) sec (data q)) k)
  | None => k
  end.

Lemma demo_request_chain k id ty pa sec b fl q : chain k id ty pa sec b fl -> buf_of k b = Some q -> demo_request k = Some (id, ty, sec, b, q).
Proof.
  intros [_ Hr (n1 & n2 & H0 & H1 & _)] Hb. unfold demo_request. rewrite Hr. cbn [mbind option_bind]. rewrite Nat2Z.id, H0. cbn [mbind option_bind next].
  rewrite Nat2Z.id, H1. cbn [mbind option_bind addr]. by rewrite Hb.
Qed.

#[export] Instance demo_device : VioDevice memdisk.
Proof.
  refine {| serve := demo_serve |}.
  - intros k id pa sec b q Hc Hb. unfold demo_serve. by rewrite (demo_request_chain _ _ _ _ _ _ _ _ Hc Hb).
  - intros k id pa sec b q Hc Hb. unfold demo_serve. by rewrite (demo_request_chain _ _ _ _ _ _ _ _ Hc Hb).
  - done.
Defined.

(** Process 0 runs; its kernel stack is mapped; buffer 3 holds block 5. *)
Definition demo_stack : Z := KSTACK 0 + 0x800.
Definition demo_mem : mem :=
  store64 (store64 (store64 ∅ (0x1000 + 8 * VA_TO_VPN (KSTACK 0) 2) (Z.lor (PA_TO_PTE 0x2000) PTE_V))
    (0x2000 + 8 * VA_TO_VPN (KSTACK 0) 1) (Z.lor (PA_TO_PTE 0x3000) PTE_V))
    (0x3000 + 8 * VA_TO_VPN (KSTACK 0) 0) (Z.lor (PA_TO_PTE 0x80400000) PTE_V).
Definition demo_buf : buf := set_data (replicate (Z.to_nat BLOCK_SIZE) 7) (set_block_num 5 zero_buf).
Definition demo_k : kstate memdisk :=
  let k := bss (mk_memdisk ∅) 0 in
  put_buf 3 demo_buf (set_k_vd (set_free (replicate 8 true) (k_vd k)) (set_k_cpu (mk_cpu 0 false 1 false) (set_k_mem demo_mem (set_kernel_pgtbl 0x1000 k)))).
Definition demo_vio : pstate memdisk :=
  mk_pstate demo_k (demo_proc RUNNING :: replicate 63 (demo_proc UNUSED)) (Some 0%nat) 5 zero_lock (Some 0%nat) 0 0.

Lemma demo_vio_quiet : quiet demo_vio.
Proof.
  split; [done | split; simpl; (lia || done) |]. intros i p Hp.
  apply (Forall_lookup_1 (fun q => is_free (p_lk q)) (procs demo_vio) i p); [|exact Hp]. apply (bool_decide_unpack _). by vm_compute.
Qed.

Lemma demo_no_sleeper ch : no_sleeper ch demo_vio.
Proof.
  intros i p Hp [Hs _]. revert Hs. apply (Forall_lookup_1 (fun q => p_state q <> SLEEPING) (procs demo_vio) i p); [|exact Hp].
  apply (bool_decide_unpack _). by vm_compute.
Qed.

Lemma demo_hdr : hdr_at demo_k demo_stack 0x80400800.
Proof.
  apply (hdr_at_walk demo_k demo_stack (Z.lor (PA_TO_PTE 0x2000) PTE_V) (Z.lor (PA_TO_PTE 0x3000) PTE_V) (Z.lor (PA_TO_PTE 0x80400000) PTE_V));
    vm_compute; (reflexivity || discriminate).
Qed.

Lemma demo_idle : idle (k_vd demo_k).
Proof. split; [done | done | done | simpl; lia | done]. Qed.

Lemma vio_rw_transfers_witness : exists s' k', vio_rw 100 (fun i => 200 + Z.of_nat i) (fun _ => demo_stack) (resumed (device_turn (fun i => 200 + Z.of_nat i))) 2 3 true demo_vio = Ret tt s' /\
  s' ≡ resched 0 (demo_proc RUNNING) (set_ps_k k' demo_vio) /\ block (k_dev k') 5 = data demo_buf.
Proof.
  destruct (vio_rw_transfers 100 (fun i => 200 + Z.of_nat i) (fun _ => demo_stack) demo_vio 0 (demo_proc RUNNING) 3 demo_buf true 0x80400800 0) as (s' & k' & H & _ & He & _ & _ & Hb).
  - exact demo_vio_quiet.
  - reflexivity.
  - reflexivity.
  - reflexivity.
  - reflexivity.
  - split; apply demo_no_sleeper.
  - reflexivity.
  - exact demo_idle.
  - exact demo_hdr.
  - reflexivity.
  - split; [discriminate | reflexivity].
  - apply length_replicate.
  - apply Forall_replicate. split; [discriminate | reflexivity].
  - exists s', k'. split; [exact H|]. split; [exact He|]. rewrite (Hb 5) by (split; [discriminate | reflexivity]). apply decide_True. split; reflexivity.
Defined.
