(* ===== verification/Trap.v ===== *)
(** * Trap: kernel/trap, kernel/dev/timer.c (S-mode) and kernel/dev/plic.c

    What a hart does when an interrupt or an exception takes it to the kernel.  The
    control registers of the hart that the handlers use are the record [csrs]; bit
    SIE of sstatus is the field [sie] of the hart's [cpu].  Printed messages are left
    out, as in [Proc] and [Syscall]. *)

From S2P Require Import Prelude Bytes Kstring Spinlock Console Kernel Disk Buf Bitmap Inode Dir Pmem Vmem Uvm File Proc Syscall Virtio.

(** ** Registers (include/riscv.h) *)

Definition SSTATUS_SPP : Z := Z.shiftl 1 8.
Definition SSTATUS_SPIE : Z := Z.shiftl 1 5.
Definition SSTATUS_SIE : Z := Z.shiftl 1 1.
Definition SIE_SEIE : Z := Z.shiftl 1 9.
Definition SIE_STIE : Z := Z.shiftl 1 5.
Definition SIE_SSIE : Z := Z.shiftl 1 1.

Record csrs := mk_csrs {
  sepc : Z;
  sstatus : Z;
  scause : Z;
  stval : Z;
  stvec : Z;
  sip : Z;
  csr_sie : Z;
  satp : Z
}.

Definition set_sepc (v : Z) (c : csrs) : csrs := mk_csrs v (sstatus c) (scause c) (stval c) (stvec c) (sip c) (csr_sie c) (satp c).
Definition set_sstatus (v : Z) (c : csrs) : csrs := mk_csrs (sepc c) v (scause c) (stval c) (stvec c) (sip c) (csr_sie c) (satp c).
Definition set_stvec (v : Z) (c : csrs) : csrs := mk_csrs (sepc c) (sstatus c) (scause c) (stval c) v (sip c) (csr_sie c) (satp c).
Definition set_sip (v : Z) (c : csrs) : csrs := mk_csrs (sepc c) (sstatus c) (scause c) (stval c) (stvec c) v (csr_sie c) (satp c).
Definition set_csr_sie (v : Z) (c : csrs) : csrs := mk_csrs (sepc c) (sstatus c) (scause c) (stval c) (stvec c) (sip c) v (satp c).

(** ** The interrupt controller (include/memlayout.h) *)

Definition UART_IRQ : Z := 10.
Definition VIRTIO_IRQ : Z := 1.
Definition PLIC_BASE : Z := 0x0c000000.
Definition PLIC_PRIORITY (id : Z) : Z := PLIC_BASE + id * 4.
Definition PLIC_SENABLE (hart : Z) : Z := PLIC_BASE + 0x2080 + hart * 0x100.
Definition PLIC_SPRIORITY (hart : Z) : Z := PLIC_BASE + 0x201000 + hart * 0x2000.
Definition PLIC_SCLAIM (hart : Z) : Z := PLIC_BASE + 0x201004 + hart * 0x2000.

(** Reads and writes of its 32-bit registers; a read of the claim register claims. *)
Class Plic (P : Type) : Type := {
  plic_load : Z -> P -> Z * P;
  plic_store : Z -> Z -> P -> P
}.

(** The hart's registers and what the handlers use besides the processes: the
    system timer (timer.c), the console, the interrupt controller. *)
Record hw {U P : Type} := mk_hw {
  h_csr : csrs;
  ticks : Z;
  timer_lk : spinlock;
  h_con : console U;
  h_plic : P
}.
Arguments hw U P : clear implicits.
Arguments mk_hw {U P}.

Definition set_h_csr {U P} (v : csrs) (h : hw U P) : hw U P := mk_hw v (ticks h) (timer_lk h) (h_con h) (h_plic h).
Definition set_ticks {U P} (v : Z) (h : hw U P) : hw U P := mk_hw (h_csr h) v (timer_lk h) (h_con h) (h_plic h).
Definition set_timer_lk {U P} (v : spinlock) (h : hw U P) : hw U P := mk_hw (h_csr h) (ticks h) v (h_con h) (h_plic h).
Definition set_h_con {U P} (v : console U) (h : hw U P) : hw U P := mk_hw (h_csr h) (ticks h) (timer_lk h) v (h_plic h).
Definition set_h_plic {U P} (v : P) (h : hw U P) : hw U P := mk_hw (h_csr h) (ticks h) (timer_lk h) (h_con h) v.

Record tstate {D U P : Type} := mk_tstate { t_ps : pstate D; t_hw : hw U P }.
Arguments tstate D U P : clear implicits.
Arguments mk_tstate {D U P}.

Definition set_t_ps {D U P} (v : pstate D) (s : tstate D U P) : tstate D U P := mk_tstate v (t_hw s).
Definition set_t_hw {D U P} (v : hw U P) (s : tstate D U P) : tstate D U P := mk_tstate (t_ps s) v.

Section Ops.
Context {D U P : Type} `{!DiskDriver D, !VirtioRegs D, !Uart U, !Plic P}.
(** Addresses: trampoline.S ([trampoline], [user_vector], [user_return]), [kernel_vector]
    of trap.S, [trap_user_handler]; parameters of the components that are called. *)
Variables (trampoline user_vector user_return kernel_vector trap_user_handler_addr fork_return : Z) (exit_addr : nat -> Z)
  (buf_addr : nat -> Z) (polls : nat).
Variables (swtch : M (pstate D) unit) (dev_fn : Z -> Z -> Z -> bool -> M (kstate D) Z) (wait_fuel : nat) (local data_addr : nat -> Z).
(** What the hart's registers and the devices are when the processor was given up in between. *)
Variable elsewhere : hw U P -> hw U P.
(** The jump to [user_return] in the trampoline page. *)
Variable jump : Z -> Z -> Z -> M (tstate D U P) unit.

Definition on_ps {A} (m : M (pstate D) A) : M (tstate D U P) A := fun s =>
  match m (t_ps s) with
  | Ret a p => Ret a (set_t_ps p s)
  | Panic msg p => Panic msg (set_t_ps p s)
  | Spin => Spin
  | Fault => Fault
  | NoFuel => NoFuel
  end.

Definition hart_cpu (s : tstate D U P) : cpu := k_cpu (ps_k (t_ps s)).
Definition set_hart_cpu (c : cpu) (s : tstate D U P) : tstate D U P := set_t_ps (set_ps_k (set_k_cpu c (ps_k (t_ps s))) (t_ps s)) s.

Definition on_hw (f : hw U P -> hw U P) : M (tstate D U P) unit := modify (fun s => set_t_hw (f (t_hw s)) s).
Definition csr (f : csrs -> Z) : M (tstate D U P) Z := gets (fun s => f (h_csr (t_hw s))).
Definition upd_csr (f : csrs -> csrs) : M (tstate D U P) unit := on_hw (fun h => set_h_csr (f (h_csr h)) h).

(** An operation of the console, on the hart's [cpu_t]. *)
Definition on_con {A} (m : M (console U) A) : M (tstate D U P) A := fun s =>
  let back c := set_hart_cpu (c_cpu c) (set_t_hw (set_h_con c (t_hw s)) s) in
  match m (set_c_cpu (hart_cpu s) (h_con (t_hw s))) with
  | Ret a c => Ret a (back c)
  | Panic msg c => Panic msg (back c)
  | Spin => Spin
  | Fault => Fault
  | NoFuel => NoFuel
  end.

Definition on_timer {A} (m : M (cpu * spinlock) A) : M (tstate D U P) A := fun s =>
  let back '(c, l) := set_hart_cpu c (set_t_hw (set_timer_lk l (t_hw s)) s) in
  match m (hart_cpu s, timer_lk (t_hw s)) with
  | Ret a cl => Ret a (back cl)
  | Panic msg cl => Panic msg (back cl)
  | Spin => Spin
  | Fault => Fault
  | NoFuel => NoFuel
  end.

Definition t_panic {A} (msg : string) : M (tstate D U P) A := panic msg.
Definition t_assert (condition : bool) (warning : string) : M (tstate D U P) unit := when (negb condition) (t_panic warning).

Definition mycpuid : M (tstate D U P) Z := gets (fun s => hartid (hart_cpu s)).

Definition r_sstatus : M (tstate D U P) Z :=
  gets (fun s => Z.lor (Z.land (sstatus (h_csr (t_hw s))) (Z.lnot SSTATUS_SIE)) (if sie (hart_cpu s) then SSTATUS_SIE else 0)).
Definition w_sstatus (x : Z) : M (tstate D U P) unit :=
  upd_csr (set_sstatus x);;
  modify (fun s => let c := hart_cpu s in set_hart_cpu (mk_cpu (hartid c) (negb (Z.land x SSTATUS_SIE =? 0)) (noff c) (origin c)) s).

(** ** The system timer (timer.c) *)

Definition timer_create : M (tstate D U P) unit :=
  on_hw (set_ticks 0);;
  on_timer (spinlock_init "sys_timer").

Definition timer_update : M (tstate D U P) unit :=
  on_timer spinlock_acquire;;
  on_hw (fun h => set_ticks (u64 (ticks h + 1)) h);;
  on_timer spinlock_release.

Definition timer_get_ticks : M (tstate D U P) Z :=
  on_timer spinlock_acquire;;
  t ← gets (fun s => ticks (t_hw s));
  on_timer spinlock_release;;
  mret t.

(** ** The interrupt controller (plic.c) *)

Definition plic_r (a : Z) : M (tstate D U P) Z :=
  r ← gets (fun s => plic_load a (h_plic (t_hw s)));
  on_hw (set_h_plic r.2);;
  mret (u32 r.1).
Definition plic_w (a v : Z) : M (tstate D U P) unit := on_hw (fun h => set_h_plic (plic_store a (u32 v) (h_plic h)) h).

Definition plic_init : M (tstate D U P) unit :=
  plic_w (PLIC_PRIORITY UART_IRQ) 1;;
  plic_w (PLIC_PRIORITY VIRTIO_IRQ) 1.

Definition plic_inithart : M (tstate D U P) unit :=
  h ← mycpuid;
  plic_w (PLIC_SENABLE h) (Z.lor (Z.shiftl 1 UART_IRQ) (Z.shiftl 1 VIRTIO_IRQ));;
  plic_w (PLIC_SPRIORITY h) 0.

Definition plic_claim : M (tstate D U P) Z :=
  h ← mycpuid;
  irq ← plic_r (PLIC_SCLAIM h);
  mret (s32 irq).

Definition plic_complete (irq : Z) : M (tstate D U P) unit :=
  h ← mycpuid;
  plic_w (PLIC_SCLAIM h) irq.

(** ** Traps from the kernel (trap_kernel.c) *)

Definition trap_kernel_init : M (tstate D U P) unit := plic_init.

Definition trap_kernel_inithart : M (tstate D U P) unit :=
  upd_csr (set_stvec kernel_vector);;
  plic_inithart;;
  upd_csr (fun c => set_csr_sie (Z.lor (Z.lor (Z.lor (csr_sie c) SIE_SSIE) SIE_SEIE) SIE_STIE) c).

(** [uart_intr] reads until the input is empty; [polls] bounds it, and the waits for
    the transmitter. *)
Definition external_interrupt_handler : M (tstate D U P) unit :=
  irq ← plic_claim;
  (if irq =? UART_IRQ then on_con (uart_intr polls polls)
   else if irq =? VIRTIO_IRQ then on_ps (virtio_disk_intr buf_addr)
   else mret tt);;
  when (negb (irq =? 0)) (plic_complete irq).

(** One tick of the time slice of process [p]. *)
Definition tick_proc (p : nat) : M (pstate D) unit :=
  plock p spinlock_acquire;;
  upd_proc p (fun q => set_total_time (u64 (total_time q + 1)) q);;
  t ← get_proc p time_slice;
  when (0 <? t) (upd_proc p (fun q => set_time_slice (time_slice q - 1) q));;
  plock p spinlock_release.

Definition timer_interrupt_handler : M (tstate D U P) unit :=
  h ← mycpuid;
  when (h =? 0) timer_update;;
  p ← on_ps (gets cur);
  match p with
  | Some p => on_ps (tick_proc p)
  | None => mret tt
  end.

Definition INTERRUPT : Z := 0x8000000000000000.

(** The [switch] on an interrupt, the same in both handlers. *)
Definition handle_interrupt (id : Z) : M (tstate D U P) unit :=
  if id =? 1 then
    timer_interrupt_handler;;
    upd_csr (fun c => set_sip (Z.land (sip c) (Z.lnot 2)) c)
  else if id =? 5 then timer_interrupt_handler
  else if id =? 9 then external_interrupt_handler
  else mret tt.

(** The end of a time slice: the process gives the processor up. *)
Definition end_slice (p : nat) : M (tstate D U P) unit :=
  on_ps (plock p spinlock_acquire);;
  t ← on_ps (get_proc p time_slice);
  when (t =? 0) (
    on_ps (upd_proc p (set_time_slice TIME_SLICE));;
    on_ps (upd_proc p (set_p_state RUNNABLE));;
    on_ps (proc_sched swtch);;
    on_hw elsewhere);;
  on_ps (plock p spinlock_release).

Definition trap_kernel_handler : M (tstate D U P) unit :=
  st ← r_sstatus;
  cause ← csr scause;
  t_assert (negb (Z.land st SSTATUS_SPP =? 0)) "trap_kernel_handler: not from s-mode";;
  on ← gets (fun s => sie (hart_cpu s));
  t_assert (negb on) "trap_kernel_handler: interreput enabled";;
  (if negb (Z.land cause INTERRUPT =? 0) then handle_interrupt (Z.land cause 0xf)
   else t_panic "Unhandled exception");;
  when (negb (Z.land cause INTERRUPT =? 0)) (
    let id := Z.land cause 0xf in
    when ((id =? 1) || (id =? 5)) (
      p ← on_ps (gets cur);
      match p with
      | Some p => end_slice p
      | None => mret tt
      end)).

(** ** Traps from user mode (trap_user.c) *)

Definition put_tf (p : nat) (off v : Z) : M (tstate D U P) unit :=
  t ← on_ps (get_proc p tf);
  on_ps (on_k (put64 (t + off) v)).
Definition get_tf (p : nat) (off : Z) : M (tstate D U P) Z :=
  t ← on_ps (get_proc p tf);
  on_ps (on_k (mem64 (t + off))).

Definition trap_user_return : M (tstate D U P) unit :=
  p ← on_ps myproc;
  on_ps (on_cpuf intr_off);;
  upd_csr (set_stvec (u64 (TRAMPOLINE + (user_vector - trampoline))));;
  v ← csr satp;
  put_tf p TF_KERNEL_SATP v;;
  k ← on_ps (get_proc p kstack);
  put_tf p TF_KERNEL_SP (u64 (k + PGSIZE));;
  put_tf p TF_KERNEL_TRAP trap_user_handler_addr;;
  h ← mycpuid;
  put_tf p TF_KERNEL_HARTID h;;
  x ← r_sstatus;
  let x := Z.land x (Z.lnot SSTATUS_SPP) in
  let x := Z.lor x SSTATUS_SPIE in
  w_sstatus x;;
  e ← get_tf p TF_EPC;
  upd_csr (set_sepc e);;
  g ← on_ps (get_proc p pgtbl);
  jump (u64 (TRAMPOLINE + (user_return - trampoline))) TRAPFRAME (MAKE_SATP g).

Definition trap_user_handler : M (tstate D U P) unit :=
  pc ← csr sepc;
  st ← r_sstatus;
  cause ← csr scause;
  p ← on_ps myproc;
  t_assert (Z.land st SSTATUS_SPP =? 0) "trap_user_handler: not from u-mode";;
  upd_csr (set_stvec kernel_vector);;
  put_tf p TF_EPC pc;;
  (if negb (Z.land cause INTERRUPT =? 0) then handle_interrupt (Z.land cause 0xf)
   else
     let id := Z.land cause 0xf in
     if id =? 8 then
       e ← get_tf p TF_EPC;
       put_tf p TF_EPC (u64 (e + 4));;
       on_ps (syscall trampoline fork_return exit_addr swtch dev_fn wait_fuel local data_addr);;
       on_hw elsewhere
     else if (id =? 12) || (id =? 13) || (id =? 15) then t_panic "Page fault not implemented"
     else t_panic "Unhandled user exception");;
  end_slice p;;
  trap_user_return.
End Ops.
