(* ===== verification/TrapSpec.v ===== *)
(** * TrapSpec: what the trap handlers promise (kernel/trap, kernel/dev/timer.c) *)

From S2P Require Import Prelude Bytes Kstring Spinlock Console Kernel Disk Buf Bitmap Inode Dir Pmem Vmem Uvm File Proc ProcSpec SwitchSpec Syscall Virtio Trap.

Section Spec.
Context {D U P : Type} `{!DiskDriver D, !VirtioRegs D, !Uart U, !Plic P}.
Variables (trampoline user_vector user_return kernel_vector handler fork_return : Z) (exit_addr : nat -> Z) (buf_addr : nat -> Z) (polls : nat).
Variables (dev_fn : Z -> Z -> Z -> bool -> M (kstate D) Z) (wait_fuel : nat) (local data_addr : nat -> Z).
Variable elsewhere : hw U P -> hw U P.
Variable jump : Z -> Z -> Z -> M (tstate D U P) unit.
Implicit Types (s : tstate D U P) (c j : nat) (p : proc) (sw : M (pstate D) unit).

Abbreviation user_handler sw := (trap_user_handler trampoline user_vector user_return kernel_vector handler fork_return exit_addr buf_addr polls sw dev_fn wait_fuel local data_addr elsewhere jump).

(** ** Steps *)

Lemma on_ps_ret {A B} (m : M (pstate D) A) (f : A -> M (tstate D U P) B) s a t : m (t_ps s) = Ret a t -> (on_ps m ≫= f) s = f a (set_t_ps t s).
Proof. intros Hm. unfold mbind, M_bind, on_ps. by rewrite Hm. Qed.

Lemma on_ps_get {A B} (m : M (pstate D) A) (f : A -> M (tstate D U P) B) s a : m (t_ps s) = Ret a (t_ps s) -> (on_ps m ≫= f) s = f a s.
Proof. intros Hm. rewrite (on_ps_ret _ _ _ _ _ Hm). by destruct s. Qed.

Lemma on_ps_panic {A B} (m : M (pstate D) A) (f : A -> M (tstate D U P) B) s msg t : m (t_ps s) = Panic msg t -> (on_ps m ≫= f) s = Panic msg (set_t_ps t s).
Proof. intros Hm. unfold mbind, M_bind, on_ps. by rewrite Hm. Qed.

Lemma get_proc_at {A} c (f : proc -> A) (t : pstate D) p : proc_of t c = Some p -> get_proc c f t = Ret (f p) t.
Proof. intros Hp. unfold get_proc. mrun. by rewrite Hp. Qed.

(** Memory is written. *)
Definition tstore (a v : Z) s : tstate D U P := set_t_ps (set_ps_k (set_k_mem (store64 (k_mem (ps_k (t_ps s))) a v) (ps_k (t_ps s))) (t_ps s)) s.
Definition mem_of s : mem := k_mem (ps_k (t_ps s)).

Lemma put_tf_run c off v s p : proc_of (t_ps s) c = Some p -> put_tf c off v s = Ret tt (tstore (tf p + off) v s).
Proof. intros Hp. unfold put_tf. rewrite (on_ps_get _ _ _ _ (get_proc_at c tf _ _ Hp)). done. Qed.

Lemma get_tf_run c off s p : proc_of (t_ps s) c = Some p -> get_tf c off s = Ret (load64 (mem_of s) (tf p + off)) s.
Proof. intros Hp. unfold get_tf. rewrite (on_ps_get _ _ _ _ (get_proc_at c tf _ _ Hp)). unfold on_ps, on_k, mem64, gets. by destruct s as [[] ?]. Qed.

(** One tick of the clock of process [p]. *)
Definition ticked p : proc := 
  let p' := set_total_time (u64 (total_time p + 1)) p in if 0 <? time_slice p then set_time_slice (time_slice p - 1) p' else p'.

Lemma tick_proc_run (t : pstate D) c p : quiet t -> proc_of t c = Some p -> tick_proc c t = Ret tt (section_post c p (ticked p) t).
Proof.
  intros Hq Hp. pose proof (proc_of_lt _ _ _ Hp) as Hi. unfold tick_proc. mstep ltac:(apply plock_acquire; [done | by apply (q_free t Hq c)]).
  rewrite (upd_proc_eq _ _ _ _ _ (proc_of_locked _ _ _ Hp)). set (q := set_total_time _ _).
  assert (proc_of (put_proc c q (locked_at c p t)) c = Some q) as Hq1 by (apply proc_of_put; unfold locked_at, put_proc; simpl; by rewrite length_insert).
  rewrite (get_proc_eq _ _ _ _ _ Hq1). change (time_slice q) with (time_slice p). destruct (0 <? time_slice p) eqn:Hts; unfold when.
  - rewrite (upd_proc_eq _ _ _ _ _ Hq1), put_put. rewrite (plock_release t c p) by (try done; apply Hq). unfold ticked. by rewrite Hts.
  - mrun. rewrite (plock_release t c p) by (try done; apply Hq). unfold ticked. by rewrite Hts.
Qed.

Lemma on_timer_ret {A} (m : M (cpu * spinlock) A) s a (k : cpu) l : m (hart_cpu s, timer_lk (t_hw s)) = Ret a (k, l) ->
  on_timer m s = Ret a (set_hart_cpu k (set_t_hw (set_timer_lk l (t_hw s)) s)).
Proof. intros Hm. unfold on_timer. by rewrite Hm. Qed.

(** The clock of hart 0. *)
Definition clocked s : tstate D U P :=
  set_hart_cpu (cpu_touch (hart_cpu s)) (set_t_hw (set_timer_lk (drop_lock (timer_lk (t_hw s))) (set_ticks (u64 (ticks (t_hw s) + 1)) (t_hw s))) s).

Lemma timer_update_run s : is_free (timer_lk (t_hw s)) -> cpu_wf (hart_cpu s) -> timer_update s = Ret tt (clocked s).
Proof.
  intros Hf Hc. unfold timer_update. rewrite (bind_ret_eq _ _ _ _ _ (on_timer_ret _ _ _ _ _ (spinlock_acquire_free _ _ Hf))).
  unfold on_hw. mrun. set (s1 := set_t_hw _ _).
  rewrite (on_timer_ret spinlock_release s1 tt (cpu_touch (hart_cpu s)) (drop_lock (timer_lk (t_hw s)))); [done|].
  change (spinlock_release (cpu_push (hart_cpu s), take_lock (hartid (hart_cpu s)) (timer_lk (t_hw s))) = Ret tt (cpu_touch (hart_cpu s), drop_lock (timer_lk (t_hw s)))).
  rewrite spinlock_release_held; [by rewrite cpu_pop_push | auto with locks | destruct Hc; simpl; lia | by split].
Qed.

(** ** A timer interrupt *)

Definition timer_cause (cause : Z) : Prop := Z.land cause INTERRUPT <> 0 /\ (Z.land cause 0xf = 1 \/ Z.land cause 0xf = 5).

(** What [handle_interrupt] does with it while process [c] runs. *)
Definition after_timer c p s : tstate D U P :=
  let s1 := if hartid (hart_cpu s) =? 0 then clocked s else s in
  let s2 := set_t_ps (section_post c p (ticked p) (t_ps s1)) s1 in
  if Z.land (scause (h_csr (t_hw s))) 0xf =? 1 then set_t_hw (set_h_csr (set_sip (Z.land (sip (h_csr (t_hw s))) (Z.lnot 2)) (h_csr (t_hw s2))) (t_hw s2)) s2 else s2.

Lemma timer_interrupt_run s c p : quiet (t_ps s) -> cur (t_ps s) = Some c -> proc_of (t_ps s) c = Some p -> is_free (timer_lk (t_hw s)) ->
  timer_interrupt_handler s = let s1 := if hartid (hart_cpu s) =? 0 then clocked s else s in Ret tt (set_t_ps (section_post c p (ticked p) (t_ps s1)) s1).
Proof.
  intros Hq Hc Hp Hf. unfold timer_interrupt_handler, mycpuid. mrun. set (s1 := if hartid (hart_cpu s) =? 0 then clocked s else s).
  rewrite (bind_ret_eq _ _ _ tt s1).
  2:{ unfold s1. destruct (hartid (hart_cpu s) =? 0); [|done]. unfold when. by apply timer_update_run, Hq. }
  assert (quiet (t_ps s1) /\ cur (t_ps s1) = Some c /\ proc_of (t_ps s1) c = Some p) as (Hq1 & Hc1 & Hp1).
  { unfold s1. destruct (hartid (hart_cpu s) =? 0); [|done]. split_and!; [apply quiet_set_k; [done | apply Hq] | done | done]. }
  rewrite (on_ps_get _ _ _ (Some c)) by (unfold gets; by rewrite Hc1). unfold on_ps. by rewrite (tick_proc_run _ _ _ Hq1 Hp1).
Qed.

Lemma handle_timer_run s c p : quiet (t_ps s) -> cur (t_ps s) = Some c -> proc_of (t_ps s) c = Some p -> is_free (timer_lk (t_hw s)) ->
  timer_cause (scause (h_csr (t_hw s))) -> handle_interrupt buf_addr polls (Z.land (scause (h_csr (t_hw s))) 0xf) s = Ret tt (after_timer c p s).
Proof.
  intros Hq Hc Hp Hf [_ Hid]. unfold handle_interrupt, after_timer. destruct Hid as [-> | ->]; cbn [Z.eqb Pos.eqb].
  - rewrite (bind_ret_eq _ _ _ _ _ (timer_interrupt_run s c p Hq Hc Hp Hf)). unfold upd_csr, on_hw. mrun.
    unfold modify. do 2 f_equal. by destruct (hartid (hart_cpu s) =? 0).
  - apply (timer_interrupt_run s c p Hq Hc Hp Hf).
Qed.

(** ** The way back to user mode *)

Definition with_csr (f : csrs -> csrs) s : tstate D U P := set_t_hw (set_h_csr (f (h_csr (t_hw s))) (t_hw s)) s.
Definition csrs_of s : csrs := h_csr (t_hw s).
Definition masked s : tstate D U P := let k := hart_cpu s in set_hart_cpu (mk_cpu (hartid k) false (noff k) (origin k)) s.

Definition user_entry : Z := u64 (TRAMPOLINE + (user_vector - trampoline)).
Definition to_user_status (x : Z) : Z := Z.lor (Z.land (Z.lor (Z.land x (Z.lnot SSTATUS_SIE)) 0) (Z.lnot SSTATUS_SPP)) SSTATUS_SPIE.

(** The trapframe's words for the next trap. *)
Definition frame_saved p s : tstate D U P :=
  let s1 := tstore (tf p + TF_KERNEL_SATP) (satp (csrs_of s)) s in
  let s2 := tstore (tf p + TF_KERNEL_SP) (u64 (kstack p + PGSIZE)) s1 in
  let s3 := tstore (tf p + TF_KERNEL_TRAP) handler s2 in
  tstore (tf p + TF_KERNEL_HARTID) (hartid (hart_cpu s)) s3.

Definition to_user p s : tstate D U P :=
  let s' := frame_saved p (with_csr (set_stvec user_entry) (masked s)) in
  with_csr (fun k => set_sepc (load64 (mem_of s') (tf p + TF_EPC)) (set_sstatus (to_user_status (sstatus k)) k)) s'.

Lemma put_tf_step {B} c off v s p (f : unit -> M (tstate D U P) B) : proc_of (t_ps s) c = Some p -> (put_tf c off v ≫= f) s = f tt (tstore (tf p + off) v s).
Proof. intros Hp. by rewrite (bind_ret_eq _ _ _ _ _ (put_tf_run c off v s p Hp)). Qed.

Lemma frame_saved_run {B} c p s (f : unit -> M (tstate D U P) B) : proc_of (t_ps s) c = Some p ->
  (v ← csr satp; put_tf c TF_KERNEL_SATP v;; k ← on_ps (get_proc c kstack); put_tf c TF_KERNEL_SP (u64 (k + PGSIZE));;
    put_tf c TF_KERNEL_TRAP handler;; h ← mycpuid; (put_tf c TF_KERNEL_HARTID h ≫= f)) s = f tt (frame_saved p s).
Proof.
  intros Hp. unfold csr, mycpuid. mrun. rewrite (put_tf_step _ _ _ _ p) by done. rewrite (on_ps_get _ _ _ (kstack p)) by (by apply get_proc_at).
  rewrite (put_tf_step _ _ _ _ p) by done. rewrite (put_tf_step _ _ _ _ p) by done. mrun. by rewrite (put_tf_step _ _ _ _ p) by done.
Qed.

Lemma upd_csr_step {B} f s (k : unit -> M (tstate D U P) B) : (upd_csr f ≫= k) s = k tt (with_csr f s).
Proof. done. Qed.

(** Bits of the status register. *)
Lemma user_status_bits x : Z.land (to_user_status x) SSTATUS_SIE = 0 /\ Z.land (to_user_status x) SSTATUS_SPP = 0 /\ Z.land (to_user_status x) SSTATUS_SPIE = SSTATUS_SPIE.
Proof.
  unfold to_user_status. rewrite Z.lor_0_r, !Z.land_lor_distr_l, <- !Z.land_assoc.
  change (Z.land (Z.lnot SSTATUS_SPP) SSTATUS_SIE) with SSTATUS_SIE. change (Z.land (Z.lnot SSTATUS_SIE) SSTATUS_SIE) with 0.
  change (Z.land (Z.lnot SSTATUS_SPP) SSTATUS_SPP) with 0. change (Z.land SSTATUS_SPIE SSTATUS_SPIE) with SSTATUS_SPIE.
  rewrite !Z.land_0_r, !Z.lor_0_l. split_and!; [done | done |].
  apply Z.bits_inj'. intros n Hn. rewrite Z.lor_spec, !Z.land_spec. change SSTATUS_SPIE with (2 ^ 5). rewrite Z.pow2_bits_eqb by lia.
  destruct (5 =? n) eqn:E; [by rewrite !orb_true_r | by rewrite !andb_false_r].
Qed.

Lemma user_status_run {B} s (f : unit -> M (tstate D U P) B) : sie (hart_cpu s) = false ->
  (x ← r_sstatus; w_sstatus (Z.lor (Z.land x (Z.lnot SSTATUS_SPP)) SSTATUS_SPIE) ≫= f) s = f tt (with_csr (fun k => set_sstatus (to_user_status (sstatus k)) k) s).
Proof.
  intros Hs. unfold r_sstatus, w_sstatus, upd_csr, on_hw. mrun. rewrite Hs. unfold with_csr. f_equal.
  change (Z.lor (Z.land _ _) SSTATUS_SPIE) with (to_user_status (sstatus (h_csr (t_hw s)))). rewrite (proj1 (user_status_bits _)).
  destruct s as [[[] ? ? ? ? ? ? ?] [? ? ? ? ?]]. unfold set_hart_cpu, set_t_hw, set_t_ps, set_ps_k, set_k_cpu; simpl. do 3 f_equal.
  unfold hart_cpu in *; simpl in *. by destruct k_cpu; simpl in *; subst.
Qed.

Lemma trap_user_return_run s c p : cur (t_ps s) = Some c -> proc_of (t_ps s) c = Some p ->
  trap_user_return trampoline user_vector user_return handler jump s =
  jump (u64 (TRAMPOLINE + (user_return - trampoline))) TRAPFRAME (MAKE_SATP (pgtbl p)) (to_user p s).
Proof.
  intros Hc Hp. unfold trap_user_return. rewrite (on_ps_get _ _ _ c) by (unfold myproc, mbind, M_bind, gets; by rewrite Hc).
  rewrite (on_ps_ret _ _ _ tt (t_ps (masked s))) by done. cbv beta. rewrite upd_csr_step. change (set_t_ps (t_ps (masked s)) s) with (masked s).
  set (s1 := with_csr _ _). assert (proc_of (t_ps s1) c = Some p) as Hp1 by done.
  rewrite (frame_saved_run c p s1) by done. rewrite user_status_run by done. set (s2 := with_csr _ (frame_saved p s1)).
  assert (proc_of (t_ps s2) c = Some p) as Hp2 by done. rewrite (bind_ret_eq _ _ _ _ _ (get_tf_run c TF_EPC s2 p Hp2)).
  rewrite upd_csr_step. rewrite (on_ps_get _ _ _ (pgtbl p)) by (by apply get_proc_at).
  cbv beta. change (to_user p s) with (with_csr (fun k => set_sepc (load64 (mem_of (frame_saved p s1)) (tf p + TF_EPC)) (set_sstatus (to_user_status (sstatus k)) k)) (frame_saved p s1)).
  change (mem_of s2) with (mem_of (frame_saved p s1)). unfold s2. generalize (frame_saved p s1). intros s3. done.
Qed.

(** ** The end of a time slice *)

Lemma end_slice_goes_on sw s c p : quiet (t_ps s) -> proc_of (t_ps s) c = Some p -> time_slice p <> 0 ->
  end_slice sw elsewhere c s = Ret tt (set_t_ps (section_post c p p (t_ps s)) s).
Proof.
  intros Hq Hp Hts. unfold end_slice. rewrite (on_ps_ret _ _ _ _ _ (plock_acquire (t_ps s) c p Hp (q_free _ Hq c p Hp))).
  rewrite (on_ps_get _ _ _ (time_slice p)) by (apply (get_proc_at c time_slice _ _ (proc_of_locked _ _ _ Hp))).
  rewrite (proj2 (Z.eqb_neq _ _)) by done. rewrite bind_when_false. unfold on_ps. change (t_ps (set_t_ps ?a ?b)) with a.
  by rewrite (release_same _ _ _ Hq Hp).
Qed.

(** The process at the end of its time slice, as the scheduler finds it. *)
Definition expired c p (t : pstate D) : proc :=
  set_p_state RUNNABLE (set_time_slice TIME_SLICE (set_p_lk (take_lock (hartid (k_cpu (ps_k t))) (p_lk p)) p)).

Lemma on_ps_upd {B} c f r (t : pstate D) (k : unit -> M (tstate D U P) B) x : proc_of t c = Some r ->
  (on_ps (upd_proc c f) ≫= k) (set_t_ps t x) = k tt (set_t_ps (put_proc c (f r) t) x).
Proof.
  intros Ht. refine (on_ps_ret (upd_proc c f) k (set_t_ps t x) tt (put_proc c (f r) t) _).
  change (t_ps (set_t_ps t x)) with t. unfold upd_proc. mrun. by rewrite Ht.
Qed.

Lemma end_slice_switches (m : M (pstate D) unit) s c p (s1 : pstate D) (q1 : proc) : quiet (t_ps s) -> cur (t_ps s) = Some c -> proc_of (t_ps s) c = Some p -> time_slice p = 0 ->
  m (away c (expired c p (t_ps s)) (t_ps s)) = Ret tt s1 -> quiet s1 -> proc_of s1 c = Some q1 -> p_state q1 = RUNNABLE ->
  end_slice (resumed m) elsewhere c s =
  Ret tt (set_t_ps (came_back c q1 (set_time_slice TIME_SLICE (set_p_state RUNNING q1)) (intena (t_ps s)) s1) (set_t_hw (elsewhere (t_hw s)) s)).
Proof.
  intros Hq Hc Hp Hts Hm Hq1 Hp1 Hst. pose proof (proc_of_lt _ _ _ Hp) as Hi. set (q := expired c p (t_ps s)).
  unfold end_slice. rewrite (on_ps_ret _ _ _ _ _ (plock_acquire (t_ps s) c p Hp (q_free _ Hq c p Hp))). set (t1 := locked_at c p (t_ps s)).
  assert (proc_of t1 c = Some (set_p_lk (take_lock (hartid (k_cpu (ps_k (t_ps s)))) (p_lk p)) p)) as Hl by (by apply proc_of_locked).
  rewrite (on_ps_get _ _ _ (time_slice p)) by (apply (get_proc_at c time_slice _ _ Hl)). rewrite (proj2 (Z.eqb_eq _ _)) by done. rewrite bind_when_true.
  rewrite !bind_bind, (on_ps_upd _ _ _ _ _ _ Hl). cbv beta. rewrite bind_bind. erewrite on_ps_upd by (apply proc_of_put; exact (proc_of_lt _ _ _ Hl)). cbv beta.
  rewrite put_put, bind_bind. assert (p_state q <> RUNNING) as Hrun by discriminate.
  change (set_p_state RUNNABLE _) with q. unfold t1.
  erewrite on_ps_ret by (exact (sched_resumed m (t_ps s) c p q s1 q1 Hq Hc Hp eq_refl Hrun Hm Hq1 Hp1 Hst)).
  unfold on_hw. cbv beta. rewrite bind_modify. unfold on_ps. change (t_ps (set_t_hw ?a (set_t_ps ?b ?x))) with b.
  by rewrite (came_back_eq _ _ _ _ Hq1 Hp1).
Qed.

(** ** A timer interrupt while a process runs in user mode *)

(** Process [p] runs and takes a timer interrupt in user mode. *)
Record user_tick s c p : Prop := {
  ut_quiet : quiet (t_ps s);
  ut_cur : cur (t_ps s) = Some c;
  ut_proc : proc_of (t_ps s) c = Some p;
  ut_running : p_state p = RUNNING;
  ut_timer : is_free (timer_lk (t_hw s));
  ut_mode : Z.land (sstatus (csrs_of s)) SSTATUS_SPP = 0;
  ut_cause : timer_cause (scause (csrs_of s));
  ut_pc : 0 <= sepc (csrs_of s) < 2 ^ 64
}.

(** The handler has saved the pc. *)
Definition trapped p s : tstate D U P := tstore (tf p + TF_EPC) (sepc (csrs_of s)) (with_csr (set_stvec kernel_vector) s).

Lemma status_spp x (b : bool) : Z.land (Z.lor (Z.land x (Z.lnot SSTATUS_SIE)) (if b then SSTATUS_SIE else 0)) SSTATUS_SPP = Z.land x SSTATUS_SPP.
Proof.
  rewrite Z.land_lor_distr_l, <- Z.land_assoc. change (Z.land (Z.lnot SSTATUS_SIE) SSTATUS_SPP) with SSTATUS_SPP.
  by destruct b; rewrite Z.lor_0_r.
Qed.

Lemma handler_prologue sw s c p : user_tick s c p ->
  user_handler sw s = (handle_interrupt buf_addr polls (Z.land (scause (csrs_of s)) 0xf);; end_slice sw elsewhere c;; trap_user_return trampoline user_vector user_return handler jump) (trapped p s).
Proof.
  intros [Hq Hc Hp _ _ Hm [Hi _] _]. unfold csrs_of in Hm, Hi. unfold trap_user_handler, csr, r_sstatus, t_assert. mrun.
  rewrite (on_ps_get _ _ _ c) by (unfold myproc, mbind, M_bind, gets; by rewrite Hc). cbv beta.
  rewrite status_spp, (proj2 (Z.eqb_eq _ _) Hm). cbn [negb]. rewrite bind_when_false, upd_csr_step.
  rewrite (put_tf_step _ _ _ _ p) by done. by rewrite (proj2 (Z.eqb_neq _ _) Hi).
Qed.

Lemma after_timer_state c p s : cur (t_ps s) = Some c -> (c < length (procs (t_ps s)))%nat ->
  cur (t_ps (after_timer c p s)) = Some c /\ proc_of (t_ps (after_timer c p s)) c = Some (set_p_lk (drop_lock (p_lk p)) (ticked p)) /\
  mem_of (after_timer c p s) = mem_of s.
Proof.
  intros Hc Hi. unfold after_timer, proc_of. destruct (_ =? 1), (hartid (hart_cpu s) =? 0); simpl; by rewrite list_lookup_insert_eq by done.
Qed.

Lemma after_timer_quiet c p s : quiet (t_ps s) -> proc_of (t_ps s) c = Some p -> quiet (t_ps (after_timer c p s)).
Proof.
  intros Hq Hp. set (s1 := if hartid (hart_cpu s) =? 0 then clocked s else s).
  assert (quiet (t_ps s1) /\ proc_of (t_ps s1) c = Some p) as [Hq1 Hp1].
  { unfold s1. destruct (hartid (hart_cpu s) =? 0); [|done]. split; [|done]. apply quiet_set_k; [done | apply cpu_touch_wf, Hq]. }
  pose proof (section_quiet _ c p (ticked p) Hq1 Hp1). unfold after_timer. fold s1. by destruct (_ =? 1).
Qed.

(** The hart is about to go on in user mode at [pc]. *)
Definition back_in_user (pc : Z) s : Prop :=
  sepc (csrs_of s) = pc /\ stvec (csrs_of s) = user_entry /\ Z.land (sstatus (csrs_of s)) SSTATUS_SPP = 0 /\
  Z.land (sstatus (csrs_of s)) SSTATUS_SPIE = SSTATUS_SPIE /\ sie (hart_cpu s) = false.

Lemma frame_saved_epc p s : load64 (mem_of (frame_saved p s)) (tf p + TF_EPC) = load64 (mem_of s) (tf p + TF_EPC).
Proof. unfold frame_saved, mem_of, tstore, TF_KERNEL_SATP, TF_KERNEL_SP, TF_KERNEL_TRAP, TF_KERNEL_HARTID, TF_EPC. simpl. rewrite !load64_store64_ne by lia. done. Qed.

Lemma to_user_ready p s : back_in_user (load64 (mem_of s) (tf p + TF_EPC)) (to_user p s).
Proof.
  set (s1 := with_csr (set_stvec user_entry) (masked s)). destruct (user_status_bits (sstatus (csrs_of (frame_saved p s1)))) as (_ & Hp & Hi).
  split_and!; [exact (frame_saved_epc p s1) | done | exact Hp | exact Hi | done].
Qed.

(** The other processes, run by [m], leave process [c] and its saved pc alone. *)
Definition leaves_alone (m : M (pstate D) unit) c : Prop := forall (t : pstate D) q, quiet t -> proc_of t c = Some q -> p_state q = RUNNABLE ->
  exists t' q', m t = Ret tt t' /\ quiet t' /\ proc_of t' c = Some q' /\ bare q' = bare q /\
    load64 (k_mem (ps_k t')) (tf q + TF_EPC) = load64 (k_mem (ps_k t)) (tf q + TF_EPC).

(** The clock of a process after an interrupt: a new time slice when it has used up its own. *)
Definition next_slice p : proc :=
  set_time_slice (if time_slice p <=? 1 then TIME_SLICE else time_slice p - 1) (set_total_time (u64 (total_time p + 1)) p).

Lemma ticked_expires p : 0 <= time_slice p -> (time_slice (ticked p) =? 0) = (time_slice p <=? 1).
Proof. intros Hts. unfold ticked. destruct (Z.ltb_spec 0 (time_slice p)); simpl time_slice; destruct (Z.leb_spec (time_slice p) 1); (apply Z.eqb_eq || apply Z.eqb_neq); lia. Qed.

Lemma next_slice_ticked p : 0 <= time_slice p ->
  let q := set_p_lk (drop_lock (p_lk p)) (ticked p) in bare (if time_slice q =? 0 then set_time_slice TIME_SLICE q else q) = bare (next_slice p).
Proof.
  intros Hts. unfold next_slice, ticked. destruct (Z.ltb_spec 0 (time_slice p)) as [E0|E0]; simpl time_slice; destruct (Z.leb_spec (time_slice p) 1) as [E1|E1]; try lia.
  - by replace (time_slice p - 1) with 0 by lia.
  - by rewrite (proj2 (Z.eqb_neq _ _)) by lia.
  - by replace (time_slice p) with 0 by lia.
Qed.

Lemma end_slice_next m s c p : quiet (t_ps s) -> cur (t_ps s) = Some c -> proc_of (t_ps s) c = Some p -> p_state p = RUNNING -> leaves_alone m c ->
  exists s' p', end_slice (resumed m) elsewhere c s = Ret tt s' /\ cur (t_ps s') = Some c /\ proc_of (t_ps s') c = Some p' /\
    bare p' = bare (if time_slice p =? 0 then set_time_slice TIME_SLICE p else p) /\
    load64 (mem_of s') (tf p + TF_EPC) = load64 (mem_of s) (tf p + TF_EPC) /\
    t_hw s' = if time_slice p =? 0 then elsewhere (t_hw s) else t_hw s.
Proof.
  intros Hq Hc Hp Hr Hm. pose proof (proc_of_lt _ _ _ Hp) as Hi. destruct (time_slice p =? 0) eqn:Hts.
  - set (q := expired c p (t_ps s)). destruct (Hm (away c q (t_ps s)) (set_p_lk (drop_lock (p_lk q)) q)) as (t' & q' & H & Hq' & Hp' & Hb & Hl).
    { apply away_quiet; [done | by rewrite <- (q_len _ Hq)]. } { by apply away_lookup. } { done. }
    assert (p_state q' = RUNNABLE /\ tf q' = tf p) as [Hst Htf] by (split; [apply (f_equal p_state) in Hb | apply (f_equal tf) in Hb]; exact Hb).
    eexists _, _. split_and!; [exact (end_slice_switches m s c p t' q' Hq Hc Hp (proj1 (Z.eqb_eq _ _) Hts) H Hq' Hp' Hst) | done | | | exact Hl | done].
    + apply came_back_lookup. by apply proc_of_lt in Hp'.
    + change (bare (set_time_slice TIME_SLICE (set_p_state RUNNING q')) = bare (set_time_slice TIME_SLICE p)).
      change (set_time_slice TIME_SLICE (set_p_state RUNNING (bare q')) = bare (set_time_slice TIME_SLICE p)). rewrite Hb, <- Hr. by destruct p.
  - eexists _, (set_p_lk (drop_lock (p_lk p)) p). split_and!; [exact (end_slice_goes_on _ s c p Hq Hp (proj1 (Z.eqb_neq _ _) Hts)) | done | by apply proc_of_put | done | done | done].
Qed.

(** C31: a timer interrupt in user mode always ends with the interrupted process back in
    user mode at the pc it was interrupted at, with interrupts enabled and the traps
    of user mode installed, whether its time slice lasts or it has to give the
    processor up to the other processes and gets a new slice. *)
Theorem user_timer_resumes m s c p : user_tick s c p -> 0 <= time_slice p -> leaves_alone m c ->
  exists s', user_handler (resumed m) s = jump (u64 (TRAMPOLINE + (user_return - trampoline))) TRAPFRAME (MAKE_SATP (pgtbl p)) s' /\
    back_in_user (sepc (csrs_of s)) s' /\ cur (t_ps s') = Some c /\ exists p', proc_of (t_ps s') c = Some p' /\ bare p' = bare (next_slice p).
Proof.
  intros Hu Hts Hm. rewrite (handler_prologue _ s c p Hu). destruct Hu as [Hq Hc Hp Hr Ht _ Hcause Hpc]. set (s0 := trapped p s).
  assert (quiet (t_ps s0)) as Hq0 by (apply quiet_set_k; [done | apply Hq]).
  rewrite (bind_ret_eq _ _ _ _ _ (handle_timer_run s0 c p Hq0 Hc Hp Ht Hcause)). pose proof (proc_of_lt _ _ _ Hp) as Hi.
  destruct (after_timer_state c p s0 Hc Hi) as (Hc1 & Hp1 & Hm1). pose proof (after_timer_quiet c p s0 Hq0 Hp) as Hq1. set (s1 := after_timer c p s0) in *.
  assert (tf (ticked p) = tf p /\ pgtbl (ticked p) = pgtbl p /\ p_state (ticked p) = p_state p) as (Htf & Hpg & Hst) by (unfold ticked; by destruct (0 <? time_slice p)).
  destruct (end_slice_next m s1 c _ Hq1 Hc1 Hp1 (eq_trans Hst Hr) Hm) as (s2 & p2 & H2 & Hc2 & Hp2 & Hb2 & Hl2 & _).
  rewrite (bind_ret_eq _ _ _ _ _ H2), (trap_user_return_run s2 c p2 Hc2 Hp2).
  assert (bare p2 = bare (next_slice p)) as Hb by (rewrite Hb2; by apply next_slice_ticked).
  assert (pgtbl p2 = pgtbl p /\ tf p2 = tf p) as [Hpg2 Htf2] by (split; [apply (f_equal pgtbl) in Hb | apply (f_equal tf) in Hb]; exact Hb).
  rewrite Hpg2. eexists. split_and!; [done | | exact Hc2 | exists p2; by split].
  pose proof (to_user_ready p2 s2) as Hu. rewrite Htf2 in Hu. simpl tf in Hl2. rewrite Htf in Hl2. rewrite Hl2, Hm1 in Hu.
  unfold s0, trapped, mem_of, tstore in Hu. simpl k_mem in Hu. by rewrite load64_store64_eq in Hu.
Qed.

(** ** A timer interrupt in the kernel *)

(** Process [p] runs in the kernel, with interrupts enabled until the hart takes one. *)
Record kernel_tick s c p : Prop := {
  kt_quiet : quiet (t_ps s);
  kt_cur : cur (t_ps s) = Some c;
  kt_proc : proc_of (t_ps s) c = Some p;
  kt_running : p_state p = RUNNING;
  kt_timer : is_free (timer_lk (t_hw s));
  kt_mode : Z.land (sstatus (csrs_of s)) SSTATUS_SPP <> 0;
  kt_masked : sie (hart_cpu s) = false;
  kt_cause : timer_cause (scause (csrs_of s))
}.

Lemma kernel_handler_split sw s c p : kernel_tick s c p ->
  trap_kernel_handler buf_addr polls sw elsewhere s = end_slice sw elsewhere c (after_timer c p s).
Proof.
  intros [Hq Hc Hp _ Ht Hm He [Hi Hid]]. pose proof (handle_timer_run s c p Hq Hc Hp Ht (conj Hi Hid)) as Hrun. unfold csrs_of in *.
  unfold trap_kernel_handler, csr, r_sstatus, t_assert. mrun. rewrite status_spp, (proj2 (Z.eqb_neq _ _) Hm). cbn [negb]. rewrite bind_when_false.
  mrun. rewrite He. cbn [negb]. rewrite bind_when_false, (proj2 (Z.eqb_neq _ _) Hi). cbn [negb].
  rewrite (bind_ret_eq _ _ _ _ _ Hrun). unfold when. replace (_ || _) with true by (by destruct Hid as [-> | ->]).
  rewrite (on_ps_get _ _ _ (Some c)); [done|]. unfold gets. by rewrite (proj1 (after_timer_state c p s Hc (proc_of_lt _ _ _ Hp))).
Qed.

Lemma after_timer_sepc c p s : sepc (csrs_of (after_timer c p s)) = sepc (csrs_of s).
Proof. unfold after_timer. by destruct (_ =? 1), (hartid (hart_cpu s) =? 0). Qed.
End Spec.

Section Kernel.
Context {D U P : Type} `{!DiskDriver D, !VirtioRegs D, !Uart U, !Plic P}.
Implicit Types (s : tstate D U P) (c : nat) (p : proc).

(** C32: a kernel thread that loses the processor in a timer interrupt goes on at the
    pc at which another one was interrupted: [trap_kernel_handler] reads sepc but does
    not write it back when [proc_sched] returns, and [kernel_vector] ends with [sret].
    Here [x] is what sepc holds when the process is scheduled again; an interrupt that does not
    end the time slice returns to where it came from. *)
Theorem kernel_timer_loses_pc buf_addr polls m s c p x : kernel_tick s c p -> 0 <= time_slice p -> leaves_alone m c ->
  exists s', trap_kernel_handler buf_addr polls (resumed m) (fun h => set_h_csr (set_sepc x (h_csr h)) h) s = Ret tt s' /\
    sepc (csrs_of s') = (if time_slice p <=? 1 then x else sepc (csrs_of s)) /\
    cur (t_ps s') = Some c /\ exists p', proc_of (t_ps s') c = Some p' /\ bare p' = bare (next_slice p).
Proof.
  intros Hk Hts Hm. rewrite (kernel_handler_split buf_addr polls _ _ s c p Hk). destruct Hk as [Hq Hc Hp Hr _ _ _ _].
  destruct (after_timer_state c p s Hc (proc_of_lt _ _ _ Hp)) as (Hc1 & Hp1 & _). pose proof (after_timer_quiet c p s Hq Hp) as Hq1.
  assert (p_state (ticked p) = p_state p) as Hst by (unfold ticked; by destruct (0 <? time_slice p)).
  destruct (end_slice_next (fun h => set_h_csr (set_sepc x (h_csr h)) h) m _ c _ Hq1 Hc1 Hp1 (eq_trans Hst Hr) Hm) as (s2 & p2 & H2 & Hc2 & Hp2 & Hb2 & _ & Hw).
  exists s2. split_and!; [exact H2 | | exact Hc2 | exists p2; split; [exact Hp2 | rewrite Hb2; by apply next_slice_ticked]].
  unfold csrs_of at 1. rewrite Hw. change (time_slice (set_p_lk _ (ticked p))) with (time_slice (ticked p)).
  rewrite (ticked_expires p Hts), <- (after_timer_sepc c p s). by destruct (time_slice p <=? 1).
Qed.
End Kernel.

(** ** A tick of the clock *)

#[export] Instance no_virtio : VirtioRegs unit := { reg_read _ _ := 0; reg_write _ _ d := d }.
#[export] Instance no_uart : Uart unit := { reg_read _ _ := (0, tt); reg_write _ _ d := d }.
#[export] Instance no_plic : Plic unit := { plic_load _ _ := (0, tt); plic_store _ _ d := d }.

(** Process 0 runs on hart 0; the interrupt came from user mode or from the kernel. *)
Definition demo_tick (mode pc : Z) (c : cpu) (slice : Z) : tstate unit unit unit :=
  mk_tstate
    (set_ps_k (set_k_cpu c (bss tt 0)) (put_proc 0 (set_time_slice slice (demo_proc RUNNING)) (demo_ps (Some 0%nat))))
    (mk_hw (mk_csrs pc mode (INTERRUPT + 5) 0 0 0 0 0) 0 zero_lock (mk_console c tt zero_lock 0) tt).

Lemma demo_tick_quiet mode pc c slice : cpu_wf c -> quiet (t_ps (demo_tick mode pc c slice)).
Proof.
  intros Hc. apply quiet_set_k; [|done]. destruct (demo_quiet (Some 0%nat)) as [Hl Hw Hf]. split; [done | done |].
  intros i p. destruct i as [|i]; [by intros [= <-] | apply (Hf (S i))].
Qed.

Lemma demo_idle_others : leaves_alone (mret tt : M (pstate unit) unit) 0.
Proof. intros t q Hq Hp _. by exists t, q. Qed.

Lemma user_timer_resumes_witness : let s := demo_tick 0 0x1234 (mk_cpu 0 false 0 false) 1 in
  exists s', trap_user_handler 0 0x10 0x90 0 0 0 (fun _ => 0) (fun _ => 0) 0 (resumed (mret tt)) (fun _ _ _ _ => mret 0) 0 (fun _ => 0) (fun _ => 0) (fun h => set_h_csr (set_sepc 0x80000000 (h_csr h)) h)
    (fun _ _ _ => mret tt) s = Ret tt s' /\ sepc (csrs_of s') = 0x1234 /\ stvec (csrs_of s') = TRAMPOLINE + 0x10.
Proof.
  intros s. destruct (user_timer_resumes 0 0x10 0x90 0 0 0 (fun _ => 0) (fun _ => 0) 0 (fun _ _ _ _ => mret 0) 0 (fun _ => 0) (fun _ => 0) (fun h => set_h_csr (set_sepc 0x80000000 (h_csr h)) h)
    (fun _ _ _ => mret tt) (mret tt) s 0 (set_time_slice 1 (demo_proc RUNNING))) as (s' & H & (Hpc & Hv & _) & _).
  - split; try reflexivity; [apply demo_tick_quiet; split; simpl; (lia || done) | split; [discriminate | by right] | split; [discriminate | reflexivity]].
  - discriminate.
  - apply demo_idle_others.
  - exists s'. split; [exact H|]. split; [exact Hpc | exact Hv].
Defined.

Lemma kernel_timer_loses_pc_witness : let s := demo_tick SSTATUS_SPP 0x80001234 (mk_cpu 0 false 0 false) 1 in
  exists s', trap_kernel_handler (fun _ => 0) 0 (resumed (mret tt)) (fun h => set_h_csr (set_sepc 0x80005678 (h_csr h)) h) s = Ret tt s' /\ sepc (csrs_of s') = 0x80005678.
Proof.
  intros s. destruct (kernel_timer_loses_pc (fun _ => 0) 0 (mret tt) s 0 (set_time_slice 1 (demo_proc RUNNING)) 0x80005678) as (s' & H & Hpc & _).
  - split; try reflexivity; [apply demo_tick_quiet; split; simpl; (lia || done) | discriminate | split; [discriminate | by right]].
  - discriminate.
  - apply demo_idle_others.
  - exists s'. split; [exact H | exact Hpc].
Defined.
