(* ===== verification/Boot.v ===== *)
(** * Boot: kernel/boot/start.c, kernel/boot/main.c, [timer_init] and [fork_return]

    A hart enters [start] in machine mode, programs its timer and leaves with [mret]
    to [main] in supervisor mode; [main] calls the initialisations of the components
    in order and becomes the scheduler.  The first process starts in [fork_return],
    which mounts the file system.  The messages that [main] prints are left out. *)

From S2P Require Import Prelude Bytes Kstring Spinlock Console Kernel Disk Buf Bitmap Inode Dir Fs Pmem Vmem Uvm File Proc Syscall Virtio Trap.

(** ** Machine mode (start.c, timer.c) *)

Definition MSTATUS_MPP_MASK : Z := Z.shiftl 3 11.
Definition MSTATUS_MPP_S : Z := Z.shiftl 1 11.
Definition MIE_MTIE : Z := Z.shiftl 1 7.
Definition INTERVAL : Z := 1000000.
Definition CLINT_MTIMECMP (hart : Z) : Z := CLINT_BASE + 0x4000 + 8 * hart.
Definition CLINT_MTIME : Z := CLINT_BASE + 0xBFF8.

(** The registers of one hart that [start] and [timer_init] write. *)
Record mregs := mk_mregs {
  mhartid : Z; m_tp : Z; mstatus : Z; medeleg : Z; mideleg : Z; m_sie : Z; mepc : Z;
  pmpaddr0 : Z; pmpcfg0 : Z; r_mscratch : Z; mtvec : Z; mie : Z
}.

(** A hart in machine mode: its registers, the array [mscratch] and the 64-bit
    registers of the CLINT by address. *)
Record machine := mk_machine { m_regs : mregs; scratch : list (list Z); clint : gmap Z Z }.

Definition set_m_regs (v : mregs) (s : machine) : machine := mk_machine v (scratch s) (clint s).
Definition set_scratch (v : list (list Z)) (s : machine) : machine := mk_machine (m_regs s) v (clint s).
Definition set_clint (v : gmap Z Z) (s : machine) : machine := mk_machine (m_regs s) (scratch s) v.

Definition mreg (f : mregs -> Z) : M machine Z := gets (fun s => f (m_regs s)).
Definition set_mreg (f : mregs -> mregs) : M machine unit := modify (fun s => set_m_regs (f (m_regs s)) s).

Definition w_tp (x : Z) (r : mregs) : mregs :=
  mk_mregs (mhartid r) x (mstatus r) (medeleg r) (mideleg r) (m_sie r) (mepc r) (pmpaddr0 r) (pmpcfg0 r) (r_mscratch r) (mtvec r) (mie r).
Definition w_mstatus (x : Z) (r : mregs) : mregs :=
  mk_mregs (mhartid r) (m_tp r) x (medeleg r) (mideleg r) (m_sie r) (mepc r) (pmpaddr0 r) (pmpcfg0 r) (r_mscratch r) (mtvec r) (mie r).
Definition w_medeleg (x : Z) (r : mregs) : mregs :=
  mk_mregs (mhartid r) (m_tp r) (mstatus r) x (mideleg r) (m_sie r) (mepc r) (pmpaddr0 r) (pmpcfg0 r) (r_mscratch r) (mtvec r) (mie r).
Definition w_mideleg (x : Z) (r : mregs) : mregs :=
  mk_mregs (mhartid r) (m_tp r) (mstatus r) (medeleg r) x (m_sie r) (mepc r) (pmpaddr0 r) (pmpcfg0 r) (r_mscratch r) (mtvec r) (mie r).
Definition w_sie (x : Z) (r : mregs) : mregs :=
  mk_mregs (mhartid r) (m_tp r) (mstatus r) (medeleg r) (mideleg r) x (mepc r) (pmpaddr0 r) (pmpcfg0 r) (r_mscratch r) (mtvec r) (mie r).
Definition w_mepc (x : Z) (r : mregs) : mregs :=
  mk_mregs (mhartid r) (m_tp r) (mstatus r) (medeleg r) (mideleg r) (m_sie r) x (pmpaddr0 r) (pmpcfg0 r) (r_mscratch r) (mtvec r) (mie r).
Definition w_pmpaddr0 (x : Z) (r : mregs) : mregs :=
  mk_mregs (mhartid r) (m_tp r) (mstatus r) (medeleg r) (mideleg r) (m_sie r) (mepc r) x (pmpcfg0 r) (r_mscratch r) (mtvec r) (mie r).
Definition w_pmpcfg0 (x : Z) (r : mregs) : mregs :=
  mk_mregs (mhartid r) (m_tp r) (mstatus r) (medeleg r) (mideleg r) (m_sie r) (mepc r) (pmpaddr0 r) x (r_mscratch r) (mtvec r) (mie r).
Definition w_mscratch (x : Z) (r : mregs) : mregs :=
  mk_mregs (mhartid r) (m_tp r) (mstatus r) (medeleg r) (mideleg r) (m_sie r) (mepc r) (pmpaddr0 r) (pmpcfg0 r) x (mtvec r) (mie r).
Definition w_mtvec (x : Z) (r : mregs) : mregs :=
  mk_mregs (mhartid r) (m_tp r) (mstatus r) (medeleg r) (mideleg r) (m_sie r) (mepc r) (pmpaddr0 r) (pmpcfg0 r) (r_mscratch r) x (mie r).
Definition w_mie (x : Z) (r : mregs) : mregs :=
  mk_mregs (mhartid r) (m_tp r) (mstatus r) (medeleg r) (mideleg r) (m_sie r) (mepc r) (pmpaddr0 r) (pmpcfg0 r) (r_mscratch r) (mtvec r) x.

Section Machine.
(** Addresses: [main], [timer_vector] of trap.S, the array [mscratch]. *)
Variables (main_addr timer_vector mscratch_addr : Z).

(** [mscratch\[h\]\[i\] = v] *)
Definition put_scratch (h i v : Z) : M machine unit :=
  row ← gets (fun s => scratch s !! Z.to_nat h) ≫= some_or_fault;
  modify (fun s => set_scratch (<[Z.to_nat h := <[Z.to_nat i := v]> row]> (scratch s)) s).

Definition timer_init : M machine unit :=
  h ← mreg mhartid;
  let hartid := s32 h in
  put_scratch hartid 3 (CLINT_MTIMECMP hartid);;
  put_scratch hartid 4 INTERVAL;;
  set_mreg (w_mscratch (mscratch_addr + 40 * hartid));;
  set_mreg (w_mtvec timer_vector);;
  t ← gets (fun s => default 0 (clint s !! CLINT_MTIME));
  modify (fun s => set_clint (<[CLINT_MTIMECMP hartid := u64 (t + INTERVAL)]> (clint s)) s);;
  e ← mreg mie;
  set_mreg (w_mie (Z.lor e MIE_MTIE)).

(** [asm volatile("mret")] follows. *)
Definition start : M machine unit :=
  h ← mreg mhartid;
  set_mreg (w_tp h);;
  x ← mreg mstatus;
  let x := Z.land x (Z.lnot MSTATUS_MPP_MASK) in
  let x := Z.lor x MSTATUS_MPP_S in
  set_mreg (w_medeleg 0xffff);;
  set_mreg (w_mideleg (Z.land 0xffff (Z.lnot (Z.shiftl 1 7))));;
  e ← mreg m_sie;
  set_mreg (w_sie (Z.lor e (Z.lor SIE_SEIE SIE_SSIE)));;
  set_mreg (w_mstatus x);;
  set_mreg (w_mepc main_addr);;
  set_mreg (w_pmpaddr0 0x3fffffffffffff);;
  set_mreg (w_pmpcfg0 0xf);;
  timer_init.
End Machine.

(** ** Supervisor mode (main.c, proc.c) *)

(** With the static variables [started] of main.c and [first] of [fork_return]. *)
Record bstate {D U P : Type} := mk_bstate { b_ts : tstate D U P; started : Z; first : Z }.
Arguments bstate D U P : clear implicits.
Arguments mk_bstate {D U P}.

Definition set_b_ts {D U P} (v : tstate D U P) (s : bstate D U P) : bstate D U P := mk_bstate v (started s) (first s).
Definition set_started {D U P} (v : Z) (s : bstate D U P) : bstate D U P := mk_bstate (b_ts s) v (first s).
Definition set_first {D U P} (v : Z) (s : bstate D U P) : bstate D U P := mk_bstate (b_ts s) (started s) v.

Section Supervisor.
Context {D U P : Type} `{!DiskDriver D, !VirtioRegs D, !Uart U, !Plic P}.
(** Addresses, as in [Trap]; [ALLOC_BEGIN] and [ALLOC_END] of the linker script; the disk's
    ring pages; the program [initcode]; the arrays of [fs_init]. *)
Variables (trampoline user_vector user_return kernel_vector handler fork_return_addr trap_user_return_addr : Z)
  (exit_addr : nat -> Z) (ALLOC_BEGIN ALLOC_END pages : Z) (initcode : list Z) (str tmp hello str_local : Z).
Variable swtch : M (pstate D) unit.
Variable jump : Z -> Z -> Z -> M (tstate D U P) unit.

Definition on_ts {A} (m : M (tstate D U P) A) : M (bstate D U P) A := fun s =>
  match m (b_ts s) with
  | Ret a t => Ret a (set_b_ts t s)
  | Panic msg t => Panic msg (set_b_ts t s)
  | Spin => Spin
  | Fault => Fault
  | NoFuel => NoFuel
  end.
Definition on_kernel {A} (m : M (kstate D) A) : M (bstate D U P) A := on_ts (on_ps (on_k m)).

(** [w_satp(...)] with the two fences. *)
Definition init_satp : M (bstate D U P) unit :=
  v ← on_kernel kvm_inithart;
  on_ts (upd_csr (fun c => mk_csrs (sepc c) (sstatus c) (scause c) (stval c) (stvec c) (sip c) (csr_sie c) v)).

(** [turns] bounds the endless loop of [proc_scheduler]; another hart's loops are [Spin]. *)
Definition main (turns : nat) : M (bstate D U P) Z :=
  cpuid ← on_ts mycpuid;
  (if cpuid =? 0 then
    on_ts (on_con uart_init);;
    on_ts (on_con print_init);;
    on_ts timer_create;;
    on_kernel (pmem_init ALLOC_BEGIN ALLOC_END);;
    on_kernel (kvm_init trampoline);;
    init_satp;;
    on_ts trap_kernel_init;;
    on_ts (trap_kernel_inithart kernel_vector);;
    on_ts (on_ps proc_init);;
    on_kernel (virtio_disk_init pages);;
    modify (set_started 1)
  else
    st ← gets started;
    if st =? 0 then spin else
    init_satp;;
    on_ts (trap_kernel_inithart kernel_vector));;
  on_ts (on_ps (on_cpuf intr_on));;
  if cpuid =? 0 then
    v ← on_ts (csr satp);
    on_ts (on_ps (proc_make_first trampoline fork_return_addr trap_user_return_addr v initcode));;
    on_ts (on_ps (proc_scheduler swtch turns));;
    mret 0
  else spin.

Definition fork_return : M (bstate D U P) unit :=
  p ← on_ts (on_ps myproc);
  on_ts (on_ps (plock p spinlock_release));;
  f ← gets first;
  when (negb (f =? 0)) (
    on_kernel (fs_init str tmp hello str_local);;
    modify (set_first 0));;
  on_ts (trap_user_return trampoline user_vector user_return handler jump).
End Supervisor.
