(* ===== verification/BootSpec.v ===== *)
(** * BootSpec: what a hart looks like when it leaves machine mode (kernel/boot/start.c) *)

From S2P Require Import Prelude Bytes Spinlock Trap Boot.

Implicit Types (s : machine) (h : Z).

(** Two words that agree outside the bits [P]. *)
Definition bits_but (P : Z -> bool) (x y : Z) : Prop := forall i, 0 <= i -> P i = false -> Z.testbit y i = Z.testbit x i.

Definition mpp_bit (i : Z) : bool := (i =? 11) || (i =? 12).

Lemma mpp_set x : let y := Z.lor (Z.land x (Z.lnot MSTATUS_MPP_MASK)) MSTATUS_MPP_S in
  Z.testbit y 11 = true /\ Z.testbit y 12 = false /\ bits_but mpp_bit x y.
Proof.
  cbv zeta. split_and!.
  - rewrite Z.lor_spec. change (Z.testbit MSTATUS_MPP_S 11) with true. apply orb_true_r.
  - rewrite Z.lor_spec, Z.land_spec. change (Z.testbit (Z.lnot MSTATUS_MPP_MASK) 12) with false. change (Z.testbit MSTATUS_MPP_S 12) with false. by rewrite andb_false_r.
  - intros i Hi Hp. rewrite Z.lor_spec, Z.land_spec, Z.lnot_spec by done. unfold MSTATUS_MPP_MASK, MSTATUS_MPP_S, mpp_bit in *. apply orb_false_iff in Hp as [H1%Z.eqb_neq H2%Z.eqb_neq].
    rewrite !Z.shiftl_spec by done. assert (Z.testbit 3 (i - 11) = false /\ Z.testbit 1 (i - 11) = false) as [-> ->]; [|by rewrite andb_true_r, orb_false_r].
    destruct (Z.ltb_spec i 11); [split; apply Z.testbit_neg_r; lia|]. split; apply Z.bits_above_log2; try lia; [change (Z.log2 3) with 1 | change (Z.log2 1) with 0]; lia.
Qed.

(** A bit that is or-ed in is set, and the others stay. *)
Lemma lor_bit x n : 0 <= n -> Z.testbit (Z.lor x (Z.shiftl 1 n)) n = true /\ bits_but (Z.eqb n) x (Z.lor x (Z.shiftl 1 n)).
Proof.
  intros Hn. split.
  - rewrite Z.lor_spec, Z.shiftl_1_l, Z.pow2_bits_true by done. apply orb_true_r.
  - intros i Hi He%Z.eqb_neq. by rewrite Z.lor_spec, Z.shiftl_1_l, Z.pow2_bits_false, orb_false_r by done.
Qed.

(** A hart with its row of the array [mscratch]. *)
Definition ready s h : Prop := mhartid (m_regs s) = h /\ 0 <= h < 2 ^ 31 /\ exists row, scratch s !! Z.to_nat h = Some row /\ length row = 5%nat.

(** Which interrupts and exceptions the supervisor handles itself. *)
Definition delegated (x : Z) (except : Z -> bool) : Prop := forall i, 0 <= i -> Z.testbit x i = (i <? 16) && negb (except i).

Lemma delegated_all : delegated 0xffff (fun _ => false) /\ delegated (Z.land 0xffff (Z.lnot (Z.shiftl 1 7))) (Z.eqb 7).
Proof.
  assert (forall i, 0 <= i -> Z.testbit 0xffff i = (i <? 16)) as Hall.
  { intros i Hi. change 0xffff with (Z.ones 16). destruct (Z.ltb_spec i 16); [apply Z.ones_spec_low; lia | apply Z.ones_spec_high; lia]. }
  split; intros i Hi; rewrite ?Z.land_spec, Hall by done; cbn [negb]; [by rewrite andb_true_r|]. f_equal.
  rewrite Z.lnot_spec by done. f_equal. rewrite Z.shiftl_1_l. destruct (Z.eqb_spec 7 i) as [<-|Hne]; [done | by apply Z.pow2_bits_false].
Qed.

Lemma sie_set x : let y := Z.lor x (Z.lor SIE_SEIE SIE_SSIE) in
  Z.testbit y 9 = true /\ Z.testbit y 1 = true /\ bits_but (fun i => (i =? 9) || (i =? 1)) x y.
Proof.
  cbv zeta. unfold SIE_SEIE, SIE_SSIE. rewrite !Z.lor_assoc. destruct (lor_bit x 9 ltac:(done)) as [H9 H9']. set (z := Z.lor x (Z.shiftl 1 9)) in *.
  destruct (lor_bit z 1 ltac:(done)) as [H1 H1']. split_and!; [by rewrite H1' | done |].
  intros i Hi [Ha%Z.eqb_neq Hb%Z.eqb_neq]%orb_false_iff. rewrite H1', H9'; [done | done | apply Z.eqb_neq; congruence | done | apply Z.eqb_neq; congruence].
Qed.

Lemma s32_id x : 0 <= x < 2 ^ 31 -> s32 x = x.
Proof. intros Hx. unfold s32. rewrite u32_small by lia. by rewrite (proj2 (Z.ltb_lt _ _)) by lia. Qed.

Section Start.
Variables (main_addr timer_vector mscratch_addr : Z).

(** The hart in supervisor mode, before [main]. *)
Record entered s h s' : Prop := {
  en_tp : m_tp (m_regs s') = h;
  en_mpp : Z.testbit (mstatus (m_regs s')) 11 = true /\ Z.testbit (mstatus (m_regs s')) 12 = false /\ bits_but mpp_bit (mstatus (m_regs s)) (mstatus (m_regs s'));
  en_exceptions : delegated (medeleg (m_regs s')) (fun _ => false);
  en_interrupts : delegated (mideleg (m_regs s')) (Z.eqb 7);
  en_sie : Z.testbit (m_sie (m_regs s')) 9 = true /\ Z.testbit (m_sie (m_regs s')) 1 = true /\
    bits_but (fun i => (i =? 9) || (i =? 1)) (m_sie (m_regs s)) (m_sie (m_regs s'));
  en_mepc : mepc (m_regs s') = main_addr;
  en_mtvec : mtvec (m_regs s') = timer_vector;
  en_mtie : Z.testbit (mie (m_regs s')) 7 = true /\ bits_but (Z.eqb 7) (mie (m_regs s)) (mie (m_regs s'))
}.

(** Its timer: the first interrupt, and what [timer_vector] reads in its row. *)
Record timer_set s h s' : Prop := {
  ts_cmp : clint s' = <[CLINT_MTIMECMP h := u64 (default 0 (clint s !! CLINT_MTIME) + INTERVAL)]> (clint s);
  ts_mscratch : r_mscratch (m_regs s') = mscratch_addr + 40 * h;
  ts_row : exists row row', scratch s !! Z.to_nat h = Some row /\ scratch s' = <[Z.to_nat h := row']> (scratch s) /\
    row' = take 3 row ++ [CLINT_MTIMECMP h; INTERVAL]
}.

Lemma put_row s h row i v : scratch s !! Z.to_nat h = Some row ->
  put_scratch h i v s = Ret tt (set_scratch (<[Z.to_nat h := <[Z.to_nat i := v]> row]> (scratch s)) s).
Proof. intros Hr. unfold put_scratch. mrun. rewrite Hr. by mrun. Qed.

Lemma timer_init_run s h : ready s h ->
  exists s', timer_init timer_vector mscratch_addr s = Ret tt s' /\ timer_set s h s' /\
    m_regs s' = w_mie (Z.lor (mie (m_regs s)) MIE_MTIE) (w_mtvec timer_vector (w_mscratch (mscratch_addr + 40 * h) (m_regs s))).
Proof.
  intros (Hh & Hr & row & Hrow & Hlen). unfold timer_init, mreg, set_mreg. mrun. rewrite Hh, s32_id by lia.
  rewrite (bind_ret_eq _ _ _ _ _ (put_row s h row 3 _ Hrow)). set (s1 := set_scratch _ s). pose proof (lookup_lt_Some _ _ _ Hrow) as Hlt.
  rewrite (bind_ret_eq _ _ _ _ _ (put_row s1 h (<[3%nat := CLINT_MTIMECMP h]> row) 4 INTERVAL ltac:(by apply list_lookup_insert_eq))). mrun.
  eexists. split; [reflexivity|]. split; [|done]. split; [done | done |]. exists row, (<[4%nat := INTERVAL]> (<[3%nat := CLINT_MTIMECMP h]> row)).
  split_and!; [done | unfold s1; simpl; by rewrite list_insert_insert_eq |].
  by destruct row as [|? [|? [|? [|? [|? [|]]]]]].
Qed.

(** C36: [start] returns with the hart prepared for [mret] into [main] in supervisor mode:
    previous mode S, all exceptions and all interrupts but the machine timer's
    delegated, external and software interrupts enabled, every other bit of the
    status registers as it was; its own timer is armed one interval ahead, with the
    row of [mscratch] that [timer_vector] reads, and nothing of the other harts changes.  *)
Theorem start_enters_supervisor s h : ready s h ->
  exists s', start main_addr timer_vector mscratch_addr s = Ret tt s' /\ entered s h s' /\ timer_set s h s'.
Proof.
  intros Hready. destruct Hready as (Hh & Hr & Hrow). unfold start, mreg, set_mreg. mrun. rewrite Hh.
  match goal with |- exists s', timer_init _ _ ?x = _ /\ _ => set (s1 := x) end.
  destruct (timer_init_run s1 h) as (s' & Hs' & Ht & Hregs); [by split|].
  exists s'. split; [exact Hs'|]. split.
  - destruct delegated_all as [He Hi]. split; rewrite Hregs; try done; [apply mpp_set | apply sie_set | apply (lor_bit _ 7); done].
  - destruct Ht as [Hc Hm Hrw]. by split.
Qed.
End Start.

Lemma start_enters_supervisor_witness : exists s s', start 0x80001000 0x80002000 0x80003000 s = Ret tt s' /\
  mepc (m_regs s') = 0x80001000 /\ clint s' !! CLINT_MTIMECMP 1 = Some 1000007.
Proof.
  set (s := mk_machine (mk_mregs 1 0 0 0 0 0 0 0 0 0 0 0) (replicate 2 (replicate 5 0)) {[CLINT_MTIME := 7]}).
  destruct (start_enters_supervisor 0x80001000 0x80002000 0x80003000 s 1) as (s' & Hs' & He & Ht).
  - split; [reflexivity|]. split; [lia|]. exists (replicate 5 0). by split.
  - exists s, s'. split; [exact Hs'|]. split; [apply He|]. rewrite (ts_cmp _ _ _ _ Ht). rewrite lookup_insert_eq. reflexivity.
Defined.
