(* ===== verification/Asm.v ===== *)
(** * Asm: the assembly of the kernel (entry.S, trampoline.S, trap.S, swtch.S)

    The instructions that these files use, what they do to one hart, and the files
    as lists of instructions.  A jump, [ret], [sret] or [mret] ends a list.  In
    supervisor mode an address is translated with the page table in satp; how, is
    the parameter [translate] of the hardware.  Stores do not trap. *)

From S2P Require Import Prelude Bytes.

(** ** The machine *)

Inductive reg : Type :=
| RA | SP | GP | TP | T0 | T1 | T2 | S0 | S1 | A0 | A1 | A2 | A3 | A4 | A5 | A6 | A7
| S2 | S3 | S4 | S5 | S6 | S7 | S8 | S9 | S10 | S11 | T3 | T4 | T5 | T6.

#[export] Instance reg_eq_dec : EqDecision reg.
Proof. solve_decision. Defined.

Inductive csr_name : Type := Satp | Sscratch | Mscratch | Sip | Mhartid.

#[export] Instance csr_name_eq_dec : EqDecision csr_name.
Proof. solve_decision. Defined.

Inductive instr : Type :=
| Sd (src : reg) (offset : Z) (base : reg)
| Ld (dst : reg) (offset : Z) (base : reg)
| Add (dst a b : reg)
| Mul (dst a b : reg)
| Addi (dst a : reg) (imm : Z)
| Li (dst : reg) (imm : Z)
| Csrr (dst : reg) (c : csr_name)
| Csrw (c : csr_name) (src : reg)
| Csrrw (dst : reg) (c : csr_name) (src : reg)
| SfenceVma.

Record hart := mk_hart { xreg : reg -> Z; csrs : csr_name -> Z; words : mem; m_mode : bool }.

Definition upd {K} `{EqDecision K} (f : K -> Z) (k : K) (v : Z) : K -> Z := fun k' => if decide (k = k') then v else f k'.

Definition set_x (r : reg) (v : Z) (s : hart) : hart := mk_hart (upd (xreg s) r v) (csrs s) (words s) (m_mode s).
Definition set_csr (c : csr_name) (v : Z) (s : hart) : hart := mk_hart (xreg s) (upd (csrs s) c v) (words s) (m_mode s).
Definition set_words (v : mem) (s : hart) : hart := mk_hart (xreg s) (csrs s) v (m_mode s).

Section Machine.
(** The physical address of a virtual one under a value of satp, [None] if it is not mapped. *)
Variable translate : Z -> Z -> option Z.

Definition physical (a : Z) (s : hart) : option Z := if m_mode s then Some a else translate (csrs s Satp) a.

Definition step (i : instr) : M hart unit :=
  match i with
  | Sd src offset base =>
      a ← gets (fun s => physical (u64 (xreg s base + offset)) s) ≫= some_or_fault;
      modify (fun s => set_words (store64 (words s) a (xreg s src)) s)
  | Ld dst offset base =>
      a ← gets (fun s => physical (u64 (xreg s base + offset)) s) ≫= some_or_fault;
      modify (fun s => set_x dst (load64 (words s) a) s)
  | Add dst a b => modify (fun s => set_x dst (u64 (xreg s a + xreg s b)) s)
  | Mul dst a b => modify (fun s => set_x dst (u64 (xreg s a * xreg s b)) s)
  | Addi dst a imm => modify (fun s => set_x dst (u64 (xreg s a + imm)) s)
  | Li dst imm => modify (set_x dst imm)
  | Csrr dst c => modify (fun s => set_x dst (csrs s c) s)
  | Csrw c src => modify (fun s => set_csr c (xreg s src) s)
  | Csrrw dst c src => modify (fun s => set_x dst (csrs s c) (set_csr c (xreg s src) s))
  | SfenceVma => mret tt
  end.

Fixpoint run (code : list instr) : M hart unit :=
  match code with
  | [] => mret tt
  | i :: code' => step i;; run code'
  end.
End Machine.

(** ** Layouts that the C code declares (include/proc/proc.h) *)

(** The registers of [trapframe_t] and of [context_t], in the order of the fields. *)
Definition trapframe_regs : list reg :=
  [RA; SP; GP; TP; T0; T1; T2; S0; S1; A0; A1; A2; A3; A4; A5; A6; A7; S2; S3; S4; S5; S6; S7; S8; S9; S10; S11; T3; T4; T5; T6].
Definition context_regs : list reg := [RA; SP; S0; S1; S2; S3; S4; S5; S6; S7; S8; S9; S10; S11].

Fixpoint index (r : reg) (l : list reg) : Z :=
  match l with
  | [] => 0
  | r' :: l' => if decide (r = r') then 0 else 1 + index r l'
  end.

(** [offsetof(trapframe_t, r)]; five words of the kernel come first. *)
Definition tf_offset (r : reg) : Z := 40 + 8 * index r trapframe_regs.
Definition ctx_offset (r : reg) : Z := 8 * index r context_regs.
Definition TRAPFRAME_SIZE : Z := 288.
Definition CONTEXT_SIZE : Z := 112.

(** ** entry.S *)

(** Up to [call start]; [la] is an [li] of the address of the array CPU_stack. *)
Definition entry (CPU_stack : Z) : list instr :=
  [Li SP CPU_stack; Li A0 4096; Csrr A1 Mhartid; Addi A1 A1 1; Mul A0 A0 A1; Add SP SP A0].

(** ** trampoline.S *)

(** The block of [sd] and [ld] instructions that both routines have. *)
Definition frame_slots : list (reg * Z) :=
  [(RA, 40); (SP, 48); (GP, 56); (TP, 64); (T0, 72); (T1, 80); (T2, 88); (S0, 96); (S1, 104);
   (A1, 120); (A2, 128); (A3, 136); (A4, 144); (A5, 152); (A6, 160); (A7, 168);
   (S2, 176); (S3, 184); (S4, 192); (S5, 200); (S6, 208); (S7, 216); (S8, 224); (S9, 232); (S10, 240); (S11, 248);
   (T3, 256); (T4, 264); (T5, 272); (T6, 280)].

Definition save (base : reg) (slots : list (reg * Z)) : list instr := (fun p => Sd p.1 p.2 base) <$> slots.
Definition restore (base : reg) (slots : list (reg * Z)) : list instr := (fun p => Ld p.1 p.2 base) <$> slots.

(** Up to [jr t0]. *)
Definition user_vector : list instr :=
  Csrrw A0 Sscratch A0 ::
  save A0 frame_slots ++
  [Csrr T0 Sscratch; Sd T0 112 A0;
   Ld SP 8 A0; Ld TP 32 A0; Ld T0 16 A0; Ld T1 0 A0; Csrw Satp T1; SfenceVma].

(** Up to [sret]. *)
Definition user_return : list instr :=
  [Csrw Satp A1; SfenceVma; Ld T0 112 A0; Csrw Sscratch T0] ++
  restore A0 frame_slots ++
  [Csrrw A0 Sscratch A0].

(** ** swtch.S *)

Definition context_slots : list (reg * Z) :=
  [(RA, 0); (SP, 8); (S0, 16); (S1, 24); (S2, 32); (S3, 40); (S4, 48); (S5, 56); (S6, 64); (S7, 72); (S8, 80); (S9, 88);
   (S10, 96); (S11, 104)].

(** Up to [ret]. *)
Definition swtch_code : list instr := save A0 context_slots ++ restore A1 context_slots.

(** ** trap.S *)

Definition stack_slots : list (reg * Z) :=
  [(GP, 16); (TP, 24); (T0, 32); (T1, 40); (T2, 48); (S0, 56); (S1, 64);
   (A0, 72); (A1, 80); (A2, 88); (A3, 96); (A4, 104); (A5, 112); (A6, 120); (A7, 128);
   (S2, 136); (S3, 144); (S4, 152); (S5, 160); (S6, 168); (S7, 176); (S8, 184); (S9, 192); (S10, 200); (S11, 208);
   (T3, 216); (T4, 224); (T5, 232); (T6, 240)].

(** Before and after [call trap_kernel_handler]; tp is saved but not restored. *)
Definition kernel_vector_enter : list instr := Addi SP SP (-256) :: save SP ((RA, 0) :: (SP, 8) :: stack_slots).
Definition kernel_vector_leave : list instr :=
  restore SP ((RA, 0) :: (SP, 8) :: filter (fun p => p.1 <> TP) stack_slots) ++ [Addi SP SP 256].

(** Up to [mret]. *)
Definition timer_vector : list instr :=
  [Csrrw A0 Mscratch A0; Sd A1 0 A0; Sd A2 8 A0; Sd A3 16 A0;
   Ld A1 24 A0; Ld A2 32 A0; Ld A3 0 A1; Add A3 A3 A2; Sd A3 0 A1;
   Li A1 2; Csrw Sip A1;
   Ld A3 16 A0; Ld A2 8 A0; Ld A1 0 A0; Csrrw A0 Mscratch A0].
