(* ===== verification/AsmSpec.v ===== *)
(** * AsmSpec: what the assembly routines promise to the C code *)

From S2P Require Import Prelude Bytes Asm.

Implicit Types (s : hart) (m : mem) (r : reg) (slots : list (reg * Z)).

(** ** Blocks of stores and loads *)

(** What a block of stores leaves in memory, and a block of loads in the registers. *)
Definition stored_regs (f : reg -> Z) (pa : Z) slots m : mem := foldl (fun m p => store64 m (pa + p.2) (f p.1)) m slots.
Definition loaded_regs m (pa : Z) slots (f : reg -> Z) : reg -> Z := foldl (fun f p => upd f p.1 (load64 m (pa + p.2))) f slots.

(** Slots of eight bytes below [size]. *)
Definition slots_ok (size : Z) slots : Prop :=
  Forall (fun p => 0 <= p.2 /\ p.2 + 8 <= size /\ p.2 mod 8 = 0) slots /\ NoDup (snd <$> slots).

Definition slots_okb (size : Z) slots : bool :=
  forallb (fun p => (0 <=? p.2) && (p.2 + 8 <=? size) && (p.2 mod 8 =? 0)) slots && bool_decide (NoDup (snd <$> slots)).

Lemma slots_okb_ok size slots : slots_okb size slots = true -> slots_ok size slots.
Proof.
  intros [Hf Hd%bool_decide_eq_true]%andb_true_iff. split; [|exact Hd]. apply Forall_forall. intros p Hp.
  rewrite forallb_forall in Hf. apply list_elem_of_In in Hp. specialize (Hf p Hp). lia.
Qed.

Lemma upd_eq {K} `{EqDecision K} (f : K -> Z) k v : upd f k v k = v.
Proof. unfold upd. by rewrite decide_True. Qed.
Lemma upd_ne {K} `{EqDecision K} (f : K -> Z) k k' v : k <> k' -> upd f k v k' = f k'.
Proof. intros H. unfold upd. by rewrite decide_False. Qed.

Lemma stored_regs_out f pa slots size m a : slots_ok size slots -> a < pa \/ pa + size <= a -> load8 (stored_regs f pa slots m) a = load8 m a.
Proof.
  intros [Hs _] Ha. revert m. induction Hs as [|p slots Hp _ IH]; intros m; [done|]. cbn [stored_regs foldl]. fold (stored_regs f pa slots (store64 m (pa + p.2) (f p.1))).
  rewrite IH. apply load8_store64_ne. lia.
Qed.

Lemma stored_regs_other f pa slots size m o : slots_ok size slots -> o mod 8 = 0 -> o ∉ snd <$> slots -> load64 (stored_regs f pa slots m) (pa + o) = load64 m (pa + o).
Proof.
  intros [Hs _] Ho. revert m. induction Hs as [|p slots Hp _ IH]; intros m Hn; [done|]. rewrite fmap_cons in Hn. apply not_elem_of_cons in Hn as [Hne Hn].
  cbn [stored_regs foldl]. fold (stored_regs f pa slots (store64 m (pa + p.2) (f p.1))). rewrite IH by done. apply load64_store64_ne.
  pose proof (Z.div_mod o 8). pose proof (Z.div_mod p.2 8). lia.
Qed.

Lemma stored_regs_slot f pa slots size m r o : slots_ok size slots -> (r, o) ∈ slots -> 0 <= f r < 2 ^ 64 -> load64 (stored_regs f pa slots m) (pa + o) = f r.
Proof.
  intros [Hs Hd] Hin Hr. revert m. induction Hs as [|p slots Hp Hs IH]; intros m; [by apply elem_of_nil in Hin|]. rewrite fmap_cons in Hd. apply NoDup_cons in Hd as [Hn Hd].
  cbn [stored_regs foldl]. fold (stored_regs f pa slots (store64 m (pa + p.2) (f p.1))). apply elem_of_cons in Hin as [<-|Hin]; [|by apply IH].
  rewrite (stored_regs_other _ _ _ size) by (done || apply Hp). by apply load64_store64_eq.
Qed.

Lemma loaded_regs_other m pa slots f r : r ∉ fst <$> slots -> loaded_regs m pa slots f r = f r.
Proof.
  revert f. induction slots as [|p slots IH]; intros f Hn; [done|]. rewrite fmap_cons in Hn. apply not_elem_of_cons in Hn as [Hne Hn].
  cbn [loaded_regs foldl]. fold (loaded_regs m pa slots (upd f p.1 (load64 m (pa + p.2)))). rewrite IH by done. by apply upd_ne.
Qed.

Lemma loaded_regs_slot m pa slots f r o : NoDup (fst <$> slots) -> (r, o) ∈ slots -> loaded_regs m pa slots f r = load64 m (pa + o).
Proof.
  revert f. induction slots as [|p slots IH]; intros f Hd Hin; [by apply elem_of_nil in Hin|]. rewrite fmap_cons in Hd. apply NoDup_cons in Hd as [Hn Hd].
  cbn [loaded_regs foldl]. fold (loaded_regs m pa slots (upd f p.1 (load64 m (pa + p.2)))). apply elem_of_cons in Hin as [<-|Hin]; [|by apply IH].
  rewrite loaded_regs_other by done. apply upd_eq.
Qed.

Section Blocks.
Variable translate : Z -> Z -> option Z.

Lemma run_app c1 c2 s : run translate (c1 ++ c2) s = (run translate c1;; run translate c2) s.
Proof.
  revert s. induction c1 as [|i c1 IH]; intros s; [cbn [Asm.run app]; by mrun|]. cbn [app Asm.run].
  unfold mbind, M_bind. destruct (step translate i s) as [[] s'| | | |]; [|done..]. specialize (IH s'). exact IH.
Qed.

Lemma run_ret c1 c2 s s' : run translate c1 s = Ret tt s' -> run translate (c1 ++ c2) s = run translate c2 s'.
Proof. intros H. rewrite run_app. by rewrite (bind_ret_eq _ _ _ _ _ H). Qed.

(** The [size] bytes from the virtual address [va] are mapped to [pa]. *)
Definition window s (va pa size : Z) : Prop := forall o, 0 <= o < size -> physical translate (u64 (va + o)) s = Some (pa + o).

Lemma window_ext s s' va pa size : csrs s' Satp = csrs s Satp -> m_mode s' = m_mode s -> window s va pa size -> window s' va pa size.
Proof. intros Hc Hm Hw o Ho. specialize (Hw o Ho). unfold physical in *. by rewrite Hc, Hm. Qed.

Lemma save_run base slots size va pa s : window s va pa size -> slots_ok size slots -> xreg s base = va ->
  run translate (save base slots) s = Ret tt (set_words (stored_regs (xreg s) pa slots (words s)) s).
Proof.
  intros Hw [Hs _] Hb. revert s Hw Hb. induction Hs as [|p slots Hp _ IH]; intros s Hw Hb; [by destruct s|].
  cbn [save fmap list_fmap Asm.run step]. mrun. rewrite Hb, Hw by lia. mrun. fold (save base slots).
  set (s1 := set_words (store64 (words s) (pa + p.2) (xreg s p.1)) s). refine (eq_trans (IH s1 _ _) _); [by apply (window_ext s) | done | done].
Qed.

Lemma restore_run base slots size va pa s : window s va pa size -> slots_ok size slots -> base ∉ fst <$> slots -> xreg s base = va ->
  run translate (restore base slots) s = Ret tt (mk_hart (loaded_regs (words s) pa slots (xreg s)) (csrs s) (words s) (m_mode s)).
Proof.
  intros Hw [Hs _] Hn Hb. revert s Hw Hb. induction Hs as [|p slots Hp _ IH]; intros s Hw Hb; [by destruct s|].
  rewrite fmap_cons in Hn. apply not_elem_of_cons in Hn as [Hne Hn]. cbn [restore fmap list_fmap Asm.run step]. mrun. rewrite Hb, Hw by lia. mrun. fold (restore base slots).
  set (s1 := set_x p.1 (load64 (words s) (pa + p.2)) s). refine (eq_trans (IH Hn s1 _ _) _); [by apply (window_ext s) | unfold s1; simpl; by rewrite upd_ne | done].
Qed.

(** ** Into and out of the kernel (trampoline.S) *)

Definition regs_ok s : Prop := forall r, 0 <= xreg s r < 2 ^ 64.

(** The trapframe page [pa] is mapped at [t] by the page table [user]. *)
Definition trapframe_at (user t pa : Z) : Prop := forall o, 0 <= o < TRAPFRAME_SIZE -> translate user (u64 (t + o)) = Some (pa + o).

Lemma window_user s user t pa : m_mode s = false -> csrs s Satp = user -> trapframe_at user t pa -> window s t pa TRAPFRAME_SIZE.
Proof. intros Hm Hs Ht o Ho. unfold physical. rewrite Hm, Hs. by apply Ht. Qed.

Lemma frame_slots_ok : slots_ok TRAPFRAME_SIZE frame_slots /\ NoDup (fst <$> frame_slots) /\ A0 ∉ fst <$> frame_slots.
Proof. split; [by apply slots_okb_ok|]. split; apply (bool_decide_unpack _); reflexivity. Qed.

Lemma frame_slots_above : Forall (fun o => 40 <= o) (snd <$> frame_slots).
Proof. repeat constructor; discriminate. Qed.

(** The offsets in the assembly are those of the struct. *)
Lemma frame_slot r : r <> A0 -> (r, tf_offset r) ∈ frame_slots.
Proof. intros Hr. destruct r; try done; apply (bool_decide_unpack _); reflexivity. Qed.

Lemma tf_offset_a0 r : r <> A0 -> tf_offset r + 8 <= 112 \/ 112 + 8 <= tf_offset r.
Proof. intros Hr. destruct r; try done; (left; vm_compute; discriminate) || (right; vm_compute; discriminate). Qed.

(** The registers and the other fields of a state after some instructions. *)
Ltac regs := cbn [xreg csrs words m_mode set_x set_csr set_words]; repeat first [rewrite upd_eq | rewrite upd_ne by discriminate].

(** One instruction of a list. *)
Lemma run_sd src o base code s a : physical translate (u64 (xreg s base + o)) s = Some a ->
  run translate (Sd src o base :: code) s = run translate code (set_words (store64 (words s) a (xreg s src)) s).
Proof. intros H. cbn [Asm.run step]. mrun. rewrite H. by mrun. Qed.
Lemma run_ld dst o base code s a : physical translate (u64 (xreg s base + o)) s = Some a ->
  run translate (Ld dst o base :: code) s = run translate code (set_x dst (load64 (words s) a) s).
Proof. intros H. cbn [Asm.run step]. mrun. rewrite H. by mrun. Qed.
Lemma run_csrr dst c code s : run translate (Csrr dst c :: code) s = run translate code (set_x dst (csrs s c) s).
Proof. done. Qed.
Lemma run_csrw c src code s : run translate (Csrw c src :: code) s = run translate code (set_csr c (xreg s src) s).
Proof. done. Qed.
Lemma run_csrrw dst c src code s : run translate (Csrrw dst c src :: code) s = run translate code (set_x dst (csrs s c) (set_csr c (xreg s src) s)).
Proof. done. Qed.
Lemma run_fence code s : run translate (SfenceVma :: code) s = run translate code s.
Proof. done. Qed.
Lemma run_add dst a b code s : run translate (Add dst a b :: code) s = run translate code (set_x dst (u64 (xreg s a + xreg s b)) s).
Proof. done. Qed.
Lemma run_addi dst a imm code s : run translate (Addi dst a imm :: code) s = run translate code (set_x dst (u64 (xreg s a + imm)) s).
Proof. done. Qed.
Lemma run_li dst imm code s : run translate (Li dst imm :: code) s = run translate code (set_x dst imm s).
Proof. done. Qed.
Lemma run_mul dst a b code s : run translate (Mul dst a b :: code) s = run translate code (set_x dst (u64 (xreg s a * xreg s b)) s).
Proof. done. Qed.
Lemma run_nil s : run translate [] s = Ret tt s.
Proof. done. Qed.

(** Run the first instruction; [mem] proves that its address is mapped. *)
Ltac istep mem :=
  first [rewrite run_csrr | rewrite run_csrw | rewrite run_csrrw | rewrite run_fence | rewrite run_add | rewrite run_mul | rewrite run_addi | rewrite run_li
    | erewrite run_sd by mem | erewrite run_ld by mem | rewrite run_nil]; regs.

Lemma user_tail s user t pa : m_mode s = false -> csrs s Satp = user -> trapframe_at user t pa -> xreg s A0 = t ->
  let m := store64 (words s) (pa + 112) (csrs s Sscratch) in
  exists s', run translate [Csrr T0 Sscratch; Sd T0 112 A0; Ld SP 8 A0; Ld TP 32 A0; Ld T0 16 A0; Ld T1 0 A0; Csrw Satp T1; SfenceVma] s = Ret tt s' /\
    words s' = m /\ xreg s' SP = load64 m (pa + 8) /\ xreg s' TP = load64 m (pa + 32) /\ xreg s' T0 = load64 m (pa + 16) /\ xreg s' A0 = t /\
    csrs s' Satp = load64 m (pa + 0) /\ csrs s' Sscratch = csrs s Sscratch.
Proof.
  intros Hm Hs Ht Ha m. assert (forall s1 o, m_mode s1 = false -> csrs s1 Satp = user -> xreg s1 A0 = t -> 0 <= o < TRAPFRAME_SIZE ->
    physical translate (u64 (xreg s1 A0 + o)) s1 = Some (pa + o)) as Hp by (intros s1 o Hm1 Hs1 ->; by apply (window_user s1 user)).
  eexists. split.
  - do 8 istep ltac:(apply Hp; [exact Hm | regs; exact Hs | regs; exact Ha | unfold TRAPFRAME_SIZE; lia]). reflexivity.
  - by regs.
Qed.

(** Everything that a program has in its registers is in its trapframe, and the
    kernel goes on with its own stack, hart number, page table and handler. *)
Record user_saved s s' (pa : Z) : Prop := {
  us_regs : forall r, load64 (words s') (pa + tf_offset r) = xreg s r;
  us_kernel : forall o, 0 <= o <= 32 -> o mod 8 = 0 -> load64 (words s') (pa + o) = load64 (words s) (pa + o);
  us_out : forall a, a < pa \/ pa + TRAPFRAME_SIZE <= a -> load8 (words s') a = load8 (words s) a;
  us_sp : xreg s' SP = load64 (words s) (pa + 8);
  us_tp : xreg s' TP = load64 (words s) (pa + 32);
  us_handler : xreg s' T0 = load64 (words s) (pa + 16);
  us_satp : csrs s' Satp = load64 (words s) (pa + 0);
}.

Theorem user_vector_saves s user t pa : m_mode s = false -> csrs s Satp = user -> csrs s Sscratch = t -> trapframe_at user t pa -> regs_ok s ->
  exists s', run translate user_vector s = Ret tt s' /\ user_saved s s' pa.
Proof.
  intros Hm Hs Hscr Ht Hregs. destruct frame_slots_ok as (Hslots & _ & Hn). unfold user_vector. rewrite run_csrrw.
  set (s1 := set_x A0 (csrs s Sscratch) (set_csr Sscratch (xreg s A0) s)).
  assert (csrs s1 Satp = user /\ xreg s1 A0 = t /\ csrs s1 Sscratch = xreg s A0) as (Hs1 & Ha1 & Hc1) by (unfold s1; by regs).
  erewrite run_ret by (apply (save_run A0 frame_slots TRAPFRAME_SIZE t pa s1); [by apply (window_user s1 user) | exact Hslots | exact Ha1]).
  set (s2 := set_words (stored_regs (xreg s1) pa frame_slots (words s1)) s1).
  destruct (user_tail s2 user t pa Hm Hs1 Ht Ha1) as (s' & H' & Hw & Hsp & Htp & Ht0 & _ & Hsatp & _). exists s'. split; [exact H'|].
  change (csrs s2 Sscratch) with (csrs s1 Sscratch) in *. rewrite Hc1 in *. change (words s2) with (stored_regs (xreg s1) pa frame_slots (words s)) in *.
  assert (forall o, 0 <= o <= 32 -> o mod 8 = 0 -> load64 (words s') (pa + o) = load64 (words s) (pa + o)) as Hk.
  { intros o Ho Ho8. rewrite Hw, load64_store64_ne by lia. apply (stored_regs_other _ _ _ TRAPFRAME_SIZE); [exact Hslots | exact Ho8 |].
    intros Hin. pose proof (proj1 (Forall_forall _ _) frame_slots_above o Hin). simpl in *. lia. }
  rewrite <- Hw in *. split; rewrite ?Hsp, ?Htp, ?Ht0, ?Hsatp; try (apply Hk; [lia | reflexivity]).
  - intros r. rewrite Hw. destruct (decide (r = A0)) as [->|Hr]; [by apply load64_store64_eq|].
    pose proof (tf_offset_a0 r Hr). rewrite load64_store64_ne by lia.
    assert (xreg s1 r = xreg s r) as <- by (unfold s1; cbn [xreg set_x set_csr]; by rewrite upd_ne).
    apply (stored_regs_slot _ _ _ TRAPFRAME_SIZE); [exact Hslots | by apply frame_slot |]. unfold s1. cbn [xreg set_x set_csr]. rewrite upd_ne by done. apply Hregs.
  - exact Hk.
  - intros a Ha. rewrite Hw. unfold TRAPFRAME_SIZE in *. rewrite load8_store64_ne by lia. by apply (stored_regs_out _ _ _ TRAPFRAME_SIZE).
Qed.

Lemma user_return_restores s user t pa g : m_mode s = false -> xreg s A0 = t -> xreg s A1 = user -> trapframe_at user t pa ->
  (forall r, load64 (words s) (pa + tf_offset r) = g r) ->
  exists s', run translate user_return s = Ret tt s' /\ (forall r, xreg s' r = g r) /\ csrs s' Satp = user /\ csrs s' Sscratch = t /\ words s' = words s.
Proof.
  intros Hm Ha0 Ha1 Ht Hg. destruct frame_slots_ok as (Hslots & Hnd & Hn). unfold user_return. cbn [app].
  istep idtac. istep idtac. rewrite Ha1. set (s1 := set_csr Satp user s).
  assert (csrs s1 Satp = user) as Hs1 by (unfold s1; by regs). pose proof (window_user s1 user t pa Hm Hs1 Ht) as Hw1.
  erewrite run_ld by (change (xreg s1 A0) with (xreg s A0); rewrite Ha0; apply Hw1; unfold TRAPFRAME_SIZE; lia).
  change (words s1) with (words s). rewrite (Hg A0 : load64 (words s) (pa + 112) = _). istep idtac.
  set (s2 := set_csr Sscratch (g A0) (set_x T0 (g A0) s1)).
  assert (csrs s2 Satp = user /\ xreg s2 A0 = t) as [Hs2 Ha2] by (unfold s2, s1; by regs).
  erewrite run_ret by (apply (restore_run A0 frame_slots TRAPFRAME_SIZE t pa s2); [by apply (window_user s2 user) | exact Hslots | exact Hn | exact Ha2]).
  rewrite run_csrrw, run_nil. eexists. split; [reflexivity|]. split; [|by unfold s2, s1; regs; rewrite loaded_regs_other].
  intros r. unfold s2, s1. cbn [xreg csrs words m_mode set_x set_csr set_words]. rewrite upd_eq.
  destruct (decide (r = A0)) as [->|Hr]; [apply upd_eq|]. rewrite upd_ne by done.
  rewrite (loaded_regs_slot _ _ _ _ r (tf_offset r) Hnd) by (by apply frame_slot). apply Hg.
Qed.

(** C37: [user_vector] puts every register of a program into the field of the trapframe
    that the C struct gives it and goes on with the kernel's stack, hart number, page
    table and handler; [user_return] brings every register back, a0 with what the
    kernel has left in its field, and the program's page table. *)
Theorem trap_roundtrip s user t pa : m_mode s = false -> csrs s Satp = user -> csrs s Sscratch = t -> trapframe_at user t pa -> regs_ok s ->
  exists s1, run translate user_vector s = Ret tt s1 /\ user_saved s s1 pa /\
    forall s2, m_mode s2 = false -> xreg s2 A0 = t -> xreg s2 A1 = user ->
      (forall r, r <> A0 -> load64 (words s2) (pa + tf_offset r) = load64 (words s1) (pa + tf_offset r)) ->
      exists s3, run translate user_return s2 = Ret tt s3 /\
        (forall r, xreg s3 r = if decide (r = A0) then load64 (words s2) (pa + tf_offset A0) else xreg s r) /\
        csrs s3 Satp = user /\ csrs s3 Sscratch = t /\ words s3 = words s2.
Proof.
  intros Hm Hs Hscr Ht Hregs. destruct (user_vector_saves s user t pa Hm Hs Hscr Ht Hregs) as (s1 & H1 & Hsaved). exists s1. split; [exact H1|]. split; [exact Hsaved|].
  intros s2 Hm2 Ha0 Ha1 Hsame. apply (user_return_restores s2 user t pa); try assumption.
  intros r. case_decide as Hr; [by subst|]. rewrite Hsame by done. apply (us_regs _ _ _ Hsaved).
Qed.

(** ** From one process to another (swtch.S) *)

Lemma context_slots_ok : slots_ok CONTEXT_SIZE context_slots /\ NoDup (fst <$> context_slots) /\ A1 ∉ fst <$> context_slots.
Proof. split; [by apply slots_okb_ok|]. split; apply (bool_decide_unpack _); reflexivity. Qed.

Lemma context_slot r : r ∈ context_regs <-> (r, ctx_offset r) ∈ context_slots.
Proof.
  split; [|intros H; apply (list_elem_of_fmap_2 fst) in H; exact H].
  assert (Forall (fun r => (r, ctx_offset r) ∈ context_slots) context_regs) as Hall by (apply (bool_decide_unpack _); reflexivity).
  exact (proj1 (Forall_forall _ _) Hall r).
Qed.

(** The callee-saved registers are in the context at [pa]. *)
Definition context_of m (pa : Z) (g : reg -> Z) : Prop := forall r, r ∈ context_regs -> load64 m (pa + ctx_offset r) = g r.

(** C38: [swtch] saves the callee-saved registers in the fields of the old context,
    loads them from the new one, and changes nothing else. *)
Theorem swtch_switches s (old new : Z) g : regs_ok s ->
  window s (xreg s A0) old CONTEXT_SIZE -> window s (xreg s A1) new CONTEXT_SIZE -> old + CONTEXT_SIZE <= new \/ new + CONTEXT_SIZE <= old ->
  context_of (words s) new g ->
  exists s', run translate swtch_code s = Ret tt s' /\
    context_of (words s') old (xreg s) /\ context_of (words s') new g /\
    (forall r, xreg s' r = if decide (r ∈ context_regs) then g r else xreg s r) /\
    csrs s' = csrs s /\ (forall a, a < old \/ old + CONTEXT_SIZE <= a -> load8 (words s') a = load8 (words s) a).
Proof.
  intros Hregs Hw0 Hw1 Hsep Hg. destruct context_slots_ok as (Hslots & Hnd & Hn). unfold swtch_code.
  erewrite run_ret by (apply (save_run A0 context_slots CONTEXT_SIZE (xreg s A0) old s); done).
  set (m1 := stored_regs (xreg s) old context_slots (words s)). set (s1 := set_words m1 s).
  assert (forall a, a < old \/ old + CONTEXT_SIZE <= a -> load8 m1 a = load8 (words s) a) as Hout by (intros a Ha; by apply (stored_regs_out _ _ _ CONTEXT_SIZE)).
  assert (context_of m1 new g) as Hg1.
  { intros r Hr. rewrite <- (Hg r Hr). apply load64_ext. intros a Ha. apply Hout.
    assert (0 <= ctx_offset r /\ ctx_offset r + 8 <= CONTEXT_SIZE); [|lia]. apply context_slot in Hr. destruct Hslots as [Hf _].
    pose proof (proj1 (Forall_forall _ _) Hf _ Hr) as Hb. simpl in Hb. lia. }
  eexists. split; [by apply (restore_run A1 context_slots CONTEXT_SIZE (xreg s A1) new s1)|]. cbn [words xreg csrs s1 set_words].
  split; [|split; [exact Hg1 | split; [|by split]]].
  - intros r Hr. apply (stored_regs_slot _ _ _ CONTEXT_SIZE); [exact Hslots | by apply context_slot | apply Hregs].
  - intros r. case_decide as Hr; [|exact (loaded_regs_other _ _ context_slots _ r Hr)].
    rewrite (loaded_regs_slot _ _ _ _ r (ctx_offset r) Hnd) by (by apply context_slot). by apply Hg1.
Qed.

(** ** Interrupts of the kernel (trap.S) *)

Lemma stack_slots_ok : slots_ok 256 ((RA, 0) :: (SP, 8) :: stack_slots) /\ slots_ok 256 (filter (fun p => p.1 <> TP) stack_slots) /\
  NoDup (fst <$> filter (fun p => p.1 <> TP) stack_slots) /\ SP ∉ fst <$> filter (fun p => p.1 <> TP) stack_slots.
Proof. split; [by apply slots_okb_ok|]. split; [by apply slots_okb_ok|]. split; apply (bool_decide_unpack _); reflexivity. Qed.

Definition stack_offset r : Z := default 0 (snd <$> List.find (fun p => bool_decide (p.1 = r)) ((RA, 0) :: (SP, 8) :: stack_slots)).

Lemma stack_slot r : r <> TP -> r = RA \/ r = SP \/ (r, stack_offset r) ∈ filter (fun p => p.1 <> TP) stack_slots.
Proof. intros Hr. destruct r; try done; (by left) || (by right; left) || (right; right; apply (bool_decide_unpack _); reflexivity). Qed.

(** What [kernel_vector] leaves for the handler: the interrupted thread's registers
    below its stack pointer. *)
Record interrupted s s' (pa : Z) : Prop := {
  in_sp : xreg s' SP = u64 (xreg s SP - 256);
  in_regs : forall r, r <> SP -> xreg s' r = xreg s r /\ load64 (words s') (pa + stack_offset r) = xreg s r;
  in_saved_sp : load64 (words s') (pa + stack_offset SP) = u64 (xreg s SP - 256);
  in_out : forall a, a < pa \/ pa + 256 <= a -> load8 (words s') a = load8 (words s) a;
  in_csrs : csrs s' = csrs s
}.

Lemma kernel_enter s (pa : Z) : regs_ok s -> window s (u64 (xreg s SP - 256)) pa 256 ->
  exists s', run translate kernel_vector_enter s = Ret tt s' /\ interrupted s s' pa /\ m_mode s' = m_mode s.
Proof.
  intros Hregs Hw. destruct stack_slots_ok as (Hslots & _). unfold kernel_vector_enter. rewrite run_addi. change (xreg s SP + -256) with (xreg s SP - 256). set (v := u64 (xreg s SP - 256)) in *. set (s1 := set_x SP v s).
  eexists. split; [apply (save_run SP _ 256 v pa s1); [exact Hw | exact Hslots | apply upd_eq]|]. cbn [words xreg csrs m_mode s1 set_words set_x]. split; [|done].
  assert (forall r, (r, stack_offset r) ∈ (RA, 0) :: (SP, 8) :: stack_slots) as Hin by (intros r; destruct r; apply (bool_decide_unpack _); reflexivity).
  assert (forall r, r <> SP -> upd (xreg s) SP v r = xreg s r) as Hne by (intros r Hr; by apply upd_ne).
  split; cbn [words xreg csrs].
  - apply upd_eq.
  - intros r Hr. split; [by apply Hne|]. rewrite <- (Hne r Hr). apply (stored_regs_slot _ _ _ 256); [exact Hslots | apply Hin | rewrite Hne by done; apply Hregs].
  - etransitivity; [|apply (upd_eq (xreg s) SP v)]. apply (stored_regs_slot _ _ _ 256); [exact Hslots | apply Hin | rewrite upd_eq; apply u64_range].
  - intros a Ha. by apply (stored_regs_out _ _ _ 256).
  - done.
Qed.

(** An interrupt of the kernel that leaves the saved frame and sp alone gives the
    interrupted thread every register back but tp, which stays as the handler leaves it. *)
Theorem kernel_vector_roundtrip s (pa : Z) : regs_ok s -> window s (u64 (xreg s SP - 256)) pa 256 ->
  exists s1, run translate kernel_vector_enter s = Ret tt s1 /\ interrupted s s1 pa /\
    forall s2, m_mode s2 = m_mode s1 -> csrs s2 Satp = csrs s1 Satp -> xreg s2 SP = xreg s1 SP ->
      (forall o, 0 <= o < 256 -> load8 (words s2) (pa + o) = load8 (words s1) (pa + o)) ->
      exists s3, run translate kernel_vector_leave s2 = Ret tt s3 /\
        (forall r, xreg s3 r = if decide (r = TP) then xreg s2 TP else xreg s r) /\ words s3 = words s2 /\ csrs s3 = csrs s2.
Proof.
  intros Hregs Hw. destruct (kernel_enter s pa Hregs Hw) as (s1 & H1 & Hi & Hm1). exists s1. split; [exact H1|]. split; [exact Hi|].
  intros s2 Hm2 Hc2 Hsp Hsame. destruct stack_slots_ok as (_ & Hok & Hnd & Hn). set (slots := filter (fun p => p.1 <> TP) stack_slots) in *.
  assert (forall o, 0 <= o <= 248 -> load64 (words s2) (pa + o) = load64 (words s1) (pa + o)) as Hload.
  { intros o Ho. apply load64_ext. intros a Ha. replace a with (pa + (a - pa)) by lia. apply Hsame. lia. }
  rewrite (in_sp _ _ _ Hi) in Hsp. set (v := u64 (xreg s SP - 256)) in *.
  assert (window s2 v pa 256) as Hw2 by (apply (window_ext s); [rewrite Hc2, (in_csrs _ _ _ Hi); done | congruence | exact Hw]).
  change kernel_vector_leave with (Ld RA 0 SP :: Ld SP 8 SP :: restore SP slots ++ [Addi SP SP 256]).
  istep ltac:(rewrite Hsp; apply Hw2; lia). set (s3 := set_x RA _ s2).
  assert (window s3 v pa 256 /\ xreg s3 SP = v) as [Hw3 Hsp3] by (split; [by apply (window_ext s2) | unfold s3; by regs]).
  istep ltac:(rewrite Hsp3; apply Hw3; lia). change (words s3) with (words s2). rewrite (Hload 8), (in_saved_sp _ _ _ Hi : load64 (words s1) (pa + 8) = v) by lia.
  set (s4 := set_x SP v s3). assert (window s4 v pa 256) as Hw4 by (by apply (window_ext s2)).
  erewrite run_ret by (apply (restore_run SP slots 256 v pa s4); [exact Hw4 | exact Hok | exact Hn | exact (upd_eq (xreg s3) SP v)]).
  rewrite run_addi, run_nil. eexists. split; [reflexivity|]. cbn [words xreg csrs s4 s3 set_x]. split; [|by split].
  assert (upd (upd (xreg s2) RA (load64 (words s2) (pa + 0))) SP v SP = v) as Hv by apply upd_eq. 
  intros r. destruct (decide (r = SP)) as [->|HneSP].
  - rewrite upd_eq, loaded_regs_other, upd_eq by exact Hn. rewrite decide_False by done. unfold v, u64. rewrite Zplus_mod_idemp_l.
    replace (xreg s SP - 256 + 256) with (xreg s SP) by lia. apply Z.mod_small, Hregs.
  - rewrite upd_ne by done. case_decide as HTP; [subst r|].
    + rewrite loaded_regs_other by (apply (bool_decide_unpack _); reflexivity). by regs.
    + destruct (in_regs _ _ _ Hi r HneSP) as [_ Hr]. destruct (stack_slot r HTP) as [->|[->|Hin]]; [|done|].
      * rewrite loaded_regs_other by (apply (bool_decide_unpack _); reflexivity). regs. rewrite Hload by lia. exact Hr.
      * rewrite (loaded_regs_slot _ _ _ _ r (stack_offset r) Hnd Hin). rewrite Hload; [exact Hr|].
        destruct Hok as [Hf _]. pose proof (proj1 (Forall_forall _ _) Hf _ Hin) as Hb. simpl in Hb. lia.
Qed.

(** ** The first instructions (entry.S) *)

(** Every hart starts on a page of its own of the array CPU_stack. *)
Lemma entry_stack s (CPU_stack h : Z) : csrs s Mhartid = h -> 0 <= h < 2 ^ 32 -> 0 <= CPU_stack < 2 ^ 56 ->
  exists s', run translate (entry CPU_stack) s = Ret tt s' /\ xreg s' SP = CPU_stack + 4096 * h + 4096 /\ words s' = words s /\ csrs s' = csrs s.
Proof.
  intros Hh Hr Hc. unfold entry. do 6 istep idtac. rewrite run_nil. eexists. split; [reflexivity|]. cbn [words csrs xreg set_x]. split; [|done].
  rewrite upd_eq, Hh, (u64_small (h + 1)), (u64_small (4096 * (h + 1))), u64_small by lia. lia.
Qed.

(** ** The machine timer (trap.S) *)

(** The handler of the machine timer with its row of [mscratch] at [row]. *)
Record timer_row s (row cmp interval : Z) : Prop := {
  tr_mode : m_mode s = true;
  tr_mscratch : csrs s Mscratch = row;
  tr_row : 0 <= row /\ row + 40 <= 2 ^ 64;
  tr_cmp : load64 (words s) (row + 24) = cmp;
  tr_interval : load64 (words s) (row + 32) = interval;
  tr_apart : cmp + 8 <= row \/ row + 40 <= cmp
}.

Lemma timer_vector_run s row cmp interval : regs_ok s -> timer_row s row cmp interval ->
  exists s', run translate timer_vector s = Ret tt s' /\ timer_row s' row cmp interval /\
    (forall r, xreg s' r = xreg s r) /\ csrs s' Sip = 2 /\ csrs s' Satp = csrs s Satp /\ csrs s' Sscratch = csrs s Sscratch /\
    load64 (words s') cmp = u64 (load64 (words s) cmp + interval) /\
    (forall a, a < row \/ row + 24 <= a -> a < cmp \/ cmp + 8 <= a -> load8 (words s') a = load8 (words s) a).
Proof.
  intros Hregs [Hm Hc Hr Hcmp Hint Hap]. assert (0 <= cmp < 2 ^ 64) as Hcr by (rewrite <- Hcmp; apply load64_range).
  assert (forall s1 b o a, m_mode s1 = true -> xreg s1 b = a -> 0 <= a + o < 2 ^ 64 -> physical translate (u64 (xreg s1 b + o)) s1 = Some (a + o)) as Hp.
  { intros s1 b o a Hm1 Ha Hao. unfold physical. rewrite Hm1, Ha. by rewrite u64_small. }
  unfold timer_vector. istep idtac. rewrite Hc.
  do 3 istep ltac:(apply (Hp _ _ _ row); [exact Hm | regs; done | lia]).
  set (m := store64 (store64 (store64 (words s) (row + 0) (xreg s A1)) (row + 8) (xreg s A2)) (row + 16) (xreg s A3)).
  assert (load64 m (row + 0) = xreg s A1 /\ load64 m (row + 8) = xreg s A2 /\ load64 m (row + 16) = xreg s A3) as (Hm1 & Hm2 & Hm3)
    by (unfold m; split_and!; rewrite ?load64_store64_ne by lia; rewrite load64_store64_eq by apply Hregs; done).
  assert (load64 m (row + 24) = cmp /\ load64 m (row + 32) = interval /\ load64 m cmp = load64 (words s) cmp) as (Hm4 & Hm5 & Hm6)
    by (unfold m; rewrite !load64_store64_ne by lia; done).
  do 2 istep ltac:(apply (Hp _ _ _ row); [exact Hm | regs; done | lia]). rewrite Hm4, Hm5.
  istep ltac:(apply (Hp _ _ _ cmp); [exact Hm | regs; done | lia]). rewrite Z.add_0_r, Hm6. istep idtac.
  istep ltac:(apply (Hp _ _ _ cmp); [exact Hm | regs; done | lia]). rewrite Z.add_0_r. set (new := u64 (load64 (words s) cmp + interval)).
  assert (forall a, a + 8 <= cmp \/ cmp + 8 <= a -> load64 (store64 m cmp new) a = load64 m a) as Hnew by (intros a Ha; by apply load64_store64_ne; lia).
  do 2 istep idtac. do 3 istep ltac:(apply (Hp _ _ _ row); [exact Hm | regs; done | lia]). istep idtac. rewrite !Hnew, Hm1, Hm2, Hm3, run_nil by lia.
  eexists. split; [reflexivity|]. cbn [words xreg csrs m_mode set_x set_csr set_words]. split_and!.
  - split; cbn [words csrs m_mode]; [exact Hm | regs; done | exact Hr | rewrite Hnew by lia; exact Hm4 | rewrite Hnew by lia; exact Hm5 | exact Hap].
  - intros r. destruct r; regs; done.
  - by regs.
  - by regs.
  - by regs.
  - apply load64_store64_eq, u64_range.
  - intros a Ha Hac. rewrite load8_store64_ne by lia. unfold m. by rewrite !load8_store64_ne by lia.
Qed.
End Blocks.

(** ** Witnesses: a machine without translation *)

Definition no_translation (_ a : Z) : option Z := Some a.
Definition demo_hart : hart := mk_hart (fun r => if decide (r = A1) then 0x80020000 else 0x80010000) (fun _ => 0x80010000) ∅ false.

Lemma demo_regs_ok : regs_ok demo_hart.
Proof. intros r. unfold demo_hart. cbn [xreg]. case_decide; lia. Qed.

Lemma demo_trapframe : trapframe_at no_translation 0x80010000 0x80010000 0x80010000.
Proof. intros o Ho. unfold no_translation, TRAPFRAME_SIZE in *. by rewrite u64_small by lia. Qed.

Lemma trap_roundtrip_witness : exists s1 s2 s3, run no_translation user_vector demo_hart = Ret tt s1 /\
  words s2 = store64 (words s1) (0x80010000 + tf_offset A0) 42 /\
  run no_translation user_return s2 = Ret tt s3 /\ xreg s3 A0 = 42 /\ xreg s3 A1 = 0x80020000 /\ xreg s3 T6 = 0x80010000.
Proof.
  destruct (trap_roundtrip no_translation demo_hart 0x80010000 0x80010000 0x80010000) as (s1 & H1 & _ & Hret); [reflexivity | reflexivity | reflexivity | exact demo_trapframe | exact demo_regs_ok |].
  set (s2 := mk_hart (fun _ => 0x80010000) (csrs s1) (store64 (words s1) (0x80010000 + tf_offset A0) 42) false).
  destruct (Hret s2) as (s3 & H3 & Hx & _); [reflexivity | reflexivity | reflexivity | |].
  - intros r Hr. apply load64_store64_ne. pose proof (tf_offset_a0 r Hr). change (tf_offset A0) with 112. lia.
  - exists s1, s2, s3. split; [exact H1|]. split; [reflexivity|]. split; [exact H3|]. rewrite !Hx. rewrite decide_True by reflexivity.
    split; [apply load64_store64_eq; lia | split; reflexivity].
Defined.

Lemma swtch_switches_witness : exists s', run no_translation swtch_code demo_hart = Ret tt s' /\
  load64 (words s') (0x80010000 + ctx_offset S11) = 0x80010000 /\ xreg s' S11 = 0 /\ xreg s' A1 = 0x80020000.
Proof.
  destruct (swtch_switches no_translation demo_hart 0x80010000 0x80020000 (fun _ => 0)) as (s' & Hs' & Hold & _ & Hx & _).
  - exact demo_regs_ok.
  - intros o Ho. change (xreg demo_hart A0) with 0x80010000. unfold physical, no_translation, CONTEXT_SIZE in *. cbn [m_mode demo_hart]. by rewrite u64_small by lia.
  - intros o Ho. change (xreg demo_hart A1) with 0x80020000. unfold physical, no_translation, CONTEXT_SIZE in *. cbn [m_mode demo_hart]. by rewrite u64_small by lia.
  - left. unfold CONTEXT_SIZE. lia.
  - intros r _. apply load64_empty.
  - exists s'. split; [exact Hs'|]. split; [apply Hold; apply (bool_decide_unpack _); reflexivity|]. rewrite !Hx. split; reflexivity.
Defined.

Lemma kernel_vector_roundtrip_witness : exists s1 s2 s3, run no_translation kernel_vector_enter demo_hart = Ret tt s1 /\
  xreg s2 = upd (upd (xreg s1) TP 3) A0 5 /\ run no_translation kernel_vector_leave s2 = Ret tt s3 /\ xreg s3 A0 = 0x80010000 /\ xreg s3 TP = 3.
Proof.
  destruct (kernel_vector_roundtrip no_translation demo_hart (0x80010000 - 256)) as (s1 & H1 & _ & Hret).
  - exact demo_regs_ok.
  - intros o Ho. unfold physical, no_translation. cbn [m_mode demo_hart]. assert (u64 (xreg demo_hart SP - 256) = 0x80010000 - 256) as -> by reflexivity.
    by rewrite u64_small by lia.
  - set (s2 := mk_hart (upd (upd (xreg s1) TP 3) A0 5) (csrs s1) (words s1) (m_mode s1)).
    destruct (Hret s2) as (s3 & H3 & Hx & _); [reflexivity | reflexivity | | intros o _; reflexivity |].
    + unfold s2. cbn [xreg]. by rewrite !upd_ne.
    + exists s1, s2, s3. split; [exact H1|]. split; [reflexivity|]. split; [exact H3|]. rewrite !Hx. split; reflexivity.
Defined.
