(* ===== verification/User.v ===== *)
(** * User: src/user, the system-call stubs and the first program

    A program calls the kernel with [ecall]: the hart traps, and when it is back in
    the program a0 holds the result.  What happens in between is the parameter
    [ecall].  The variables of a C function are in memory where their address is
    used and values of the model elsewhere.  The numbers of syscall_num.h are those
    of include/syscall/sysnum.h, so the definitions of [Syscall] stand for both. *)

From S2P Require Import Prelude Bytes Syscall Asm.

Section User.
Variable translate : Z -> Z -> option Z.
Variable ecall : M hart unit.

(** [register long r __asm__("r") = v] *)
Definition register (r : reg) (v : Z) : M hart unit := modify (set_x r v).
Definition a0 : M hart Z := gets (fun s => xreg s A0).

Definition __syscall0 (n : Z) : M hart Z := register A7 n;; ecall;; a0.
Definition __syscall1 (n a : Z) : M hart Z := register A7 n;; register A0 a;; ecall;; a0.
Definition __syscall2 (n a b : Z) : M hart Z := register A7 n;; register A0 a;; register A1 b;; ecall;; a0.
Definition __syscall3 (n a b c : Z) : M hart Z := register A7 n;; register A0 a;; register A1 b;; register A2 c;; ecall;; a0.
Definition __syscall4 (n a b c d : Z) : M hart Z :=
  register A7 n;; register A0 a;; register A1 b;; register A2 c;; register A3 d;; ecall;; a0.
Definition __syscall5 (n a b c d e : Z) : M hart Z :=
  register A7 n;; register A0 a;; register A1 b;; register A2 c;; register A3 d;; register A4 e;; ecall;; a0.
Definition __syscall6 (n a b c d e f : Z) : M hart Z :=
  register A7 n;; register A0 a;; register A1 b;; register A2 c;; register A3 d;; register A4 e;; register A5 f;; ecall;; a0.

(** The macro [syscall] counts its arguments. *)
Definition syscall (n : Z) (args : list Z) : M hart Z :=
  match args with
  | [] => __syscall0 n
  | [a] => __syscall1 n a
  | [a; b] => __syscall2 n a b
  | [a; b; c] => __syscall3 n a b c
  | [a; b; c; d] => __syscall4 n a b c d
  | [a; b; c; d; e] => __syscall5 n a b c d e
  | [a; b; c; d; e; f] => __syscall6 n a b c d e f
  | _ => fault
  end.

(** ** initcode.c *)

(** Addresses of [buf] and of the five strings. *)
Variables (buf state_1 state_2 state_3 state_4 state_5 : Z).

Definition put_char (a v : Z) : M hart unit :=
  pa ← gets (physical translate a) ≫= some_or_fault;
  modify (fun s => set_words (store8 (words s) pa v) s).

(** The loop over [i]; the values that it puts into [buf_in_kernel]. *)
Fixpoint exhaust (l : list Z) : M hart (list Z) :=
  match l with
  | [] => mret []
  | i :: l' =>
      h ← syscall SYS_read_block [100 + i; buf];
      put_char (u64 (buf + i)) 0xFF;;
      syscall SYS_write_block [h; buf];;
      hs ← exhaust l';
      mret (h :: hs)
  end.

Definition show (state : Z) : M hart unit :=
  syscall SYS_print [state];;
  syscall SYS_show_buf [];;
  mret tt.

Definition release (hs : list Z) (i : nat) : M hart unit :=
  h ← some_or_fault (hs !! i);
  syscall SYS_release_block [h];;
  mret tt.

Definition main : M hart unit :=
  show state_1;;
  hs ← exhaust (seqZ 0 6);
  show state_2;;
  release hs 3;;
  release hs 0;;
  show state_3;;
  h6 ← syscall SYS_read_block [106; buf];
  h7 ← syscall SYS_read_block [103; buf];
  let hs := hs ++ [h6; h7] in
  show state_4;;
  release hs 7;;
  release hs 6;;
  release hs 5;;
  release hs 4;;
  release hs 2;;
  release hs 1;;
  show state_5;;
  spin.
End User.
