(* ===== verification/AsmLink.v ===== *)
(** * AsmLink: the assembly together with the C code on both sides of it

    The row that [timer_init] fills is the one that [timer_vector] works on, and the
    registers that the stubs of a program load are the words that [arg_raw] reads. *)

From S2P Require Import Prelude Bytes Spinlock Kernel Disk Proc ProcSpec Syscall SyscallSpec Boot BootSpec Asm AsmSpec User.

Implicit Types (s : hart).

Section Link.
Variable translate : Z -> Z -> option Z.

(** ** The timer (start.c, timer.c, trap.S) *)

(** The array of 64-bit words at [a]. *)
Definition array_at (m : mem) (a : Z) (l : list Z) : Prop := forall i v, l !! i = Some v -> load64 m (a + 8 * Z.of_nat i) = v.

(** The hart runs in machine mode with what [start] has left for its timer. *)
Record timer_armed (mscratch_addr h : Z) (k : machine) s : Prop := {
  ta_mode : m_mode s = true;
  ta_mscratch : csrs s Mscratch = r_mscratch (m_regs k);
  ta_row : exists row, scratch k !! Z.to_nat h = Some row /\ array_at (words s) (mscratch_addr + 40 * h) row
}.

Lemma armed_row mscratch_addr h k k' s : 0 <= h < 2 ^ 31 -> 0x80000000 <= mscratch_addr < 2 ^ 56 ->
  (exists row, scratch k !! Z.to_nat h = Some row /\ length row = 5%nat) ->
  timer_set mscratch_addr k h k' -> timer_armed mscratch_addr h k' s ->
  timer_row s (mscratch_addr + 40 * h) (CLINT_MTIMECMP h) INTERVAL.
Proof.
  intros Hh Ha (row0 & Hrow0 & Hlen) [_ Hm (row & row' & Hrow & Hs & Hr)] [Hmode Hmscr (row1 & Hrow1 & Hat)].
  rewrite Hrow in Hrow0. injection Hrow0 as ->. rewrite Hs, list_lookup_insert_eq in Hrow1 by (by eapply lookup_lt_Some). injection Hrow1 as <-.
  assert (forall v j, row' !! (3 + j)%nat = Some v -> load64 (words s) (mscratch_addr + 40 * h + 8 * (3 + Z.of_nat j)) = v) as Hw
    by (intros v j Hv; replace (3 + Z.of_nat j) with (Z.of_nat (3 + j)) by lia; by apply Hat).
  assert (forall j, row' !! (3 + j)%nat = [CLINT_MTIMECMP h; INTERVAL] !! j) as Htail
    by (intros j; rewrite Hr, lookup_app_r by (rewrite length_take; lia); f_equal; rewrite length_take; lia).
  split; [exact Hmode | by rewrite Hmscr | lia | exact (Hw _ 0%nat (Htail 0%nat)) | exact (Hw _ 1%nat (Htail 1%nat)) |].
  left. unfold CLINT_MTIMECMP, Vmem.CLINT_BASE. lia.
Qed.

(** [n] timer interrupts. *)
Fixpoint timer_interrupts (n : nat) : M hart unit :=
  match n with
  | O => mret tt
  | S n' => run translate timer_vector;; timer_interrupts n'
  end.

Lemma interrupts_run n : forall s row cmp interval, regs_ok s -> timer_row s row cmp interval ->
  exists s', timer_interrupts n s = Ret tt s' /\ timer_row s' row cmp interval /\ (forall r, xreg s' r = xreg s r) /\
    ((0 < n)%nat -> csrs s' Sip = 2) /\ u64 (load64 (words s') cmp) = u64 (load64 (words s) cmp + Z.of_nat n * interval).
Proof.
  induction n as [|n IH]; intros s row cmp interval Hregs Hrow.
  - exists s. split_and!; [done | done | done | lia | f_equal; lia].
  - destruct (timer_vector_run translate s row cmp interval Hregs Hrow) as (s1 & H1 & Hrow1 & Hx1 & Hsip & _ & _ & Hcmp1 & _).
    assert (regs_ok s1) as Hregs1 by (intros r; rewrite Hx1; apply Hregs).
    destruct (IH s1 row cmp interval Hregs1 Hrow1) as (s2 & H2 & Hrow2 & Hx2 & Hsip2 & Hcmp2). exists s2. split_and!; [| exact Hrow2 | | |].
    + cbn [timer_interrupts]. by rewrite (bind_ret_eq _ _ _ _ _ H1).
    + intros r. by rewrite Hx2, Hx1.
    + intros _. destruct n as [|n]; [|apply Hsip2; lia]. injection H2 as <-. exact Hsip.
    + rewrite Hcmp2, Hcmp1. unfold u64. rewrite Zplus_mod_idemp_l. f_equal. lia.
Qed.

(** C39: after [start], each timer interrupt gives the interrupted program every
    register back, raises a software interrupt for the supervisor, and sets the next
    interrupt one interval after the last one was due: the ticks do not drift. *)
Theorem timer_ticks_periodic mscratch_addr h k k' s n : 0 <= h < 2 ^ 31 -> 0x80000000 <= mscratch_addr < 2 ^ 56 ->
  (exists row, scratch k !! Z.to_nat h = Some row /\ length row = 5%nat) ->
  timer_set mscratch_addr k h k' -> timer_armed mscratch_addr h k' s -> regs_ok s ->
  load64 (words s) (CLINT_MTIMECMP h) = default 0 (clint k' !! CLINT_MTIMECMP h) ->
  exists s', timer_interrupts n s = Ret tt s' /\ (forall r, xreg s' r = xreg s r) /\ csrs s' Mscratch = csrs s Mscratch /\
    ((0 < n)%nat -> csrs s' Sip = 2) /\
    load64 (words s') (CLINT_MTIMECMP h) = u64 (default 0 (clint k !! CLINT_MTIME) + (1 + Z.of_nat n) * INTERVAL).
Proof.
  intros Hh Ha Hlen Hset Harmed Hregs Hcmp. pose proof (armed_row _ _ _ _ _ Hh Ha Hlen Hset Harmed) as Hrow.
  destruct (interrupts_run n s _ _ _ Hregs Hrow) as (s' & Hs' & Hrow' & Hx & Hsip & Hc). exists s'. split_and!; [exact Hs' | exact Hx | | exact Hsip |].
  - by rewrite (tr_mscratch _ _ _ _ Hrow'), (tr_mscratch _ _ _ _ Hrow).
  - rewrite u64_small in Hc by apply load64_range. rewrite Hc, Hcmp, (ts_cmp _ _ _ _ Hset), lookup_insert_eq. set (t := default 0 (clint k !! CLINT_MTIME)).
    change (default 0 (Some (u64 (t + INTERVAL)))) with (u64 (t + INTERVAL)). unfold u64. rewrite Zplus_mod_idemp_l. f_equal. lia.
Qed.

(** ** The arguments of a system call (user/syscall_arch.h, trampoline.S, syscall.c) *)

(** The register of argument [i]. *)
Definition arg_reg (i : nat) : reg := nth i [A0; A1; A2; A3; A4; A5] A0.

Lemma arg_reg_offset i : (i < 6)%nat -> tf_offset (arg_reg i) = TF_A0 + 8 * Z.of_nat i.
Proof. intros Hi. do 6 (destruct i as [|i]; [done|]). lia. Qed.

(** The registers when the stub executes [ecall]. *)
Fixpoint with_args (args : list Z) (i : nat) s : hart :=
  match args with
  | [] => s
  | a :: args' => with_args args' (S i) (set_x (arg_reg i) a s)
  end.

Lemma syscall_stub (e : M hart unit) n args s : (length args <= 6)%nat ->
  User.syscall e n args s = (e;; User.a0) (with_args args 0 (set_x A7 n s)).
Proof. intros Hl. do 7 (destruct args as [|? args]; [done|]). simpl in Hl. lia. Qed.

Lemma with_args_other args : forall i s r, (forall j, (i <= j < i + length args)%nat -> arg_reg j <> r) -> xreg (with_args args i s) r = xreg s r.
Proof.
  induction args as [|a args IH]; intros i s r Hr; [done|]. cbn [with_args]. rewrite IH by (intros j Hj; apply Hr; simpl; lia).
  cbn [xreg set_x]. apply upd_ne, Hr. simpl. lia.
Qed.

Lemma arg_reg_inj i j : (i < 6)%nat -> (j < 6)%nat -> arg_reg i = arg_reg j -> i = j.
Proof. intros Hi Hj. do 6 (destruct i as [|i]; [do 6 (destruct j as [|j]; [done|]); lia|]). lia. Qed.

Lemma arg_reg_a7 i : arg_reg i <> A7.
Proof. by do 7 (destruct i as [|i]; [done|]). Qed.

Lemma with_args_nth args : forall i s j a, (i + length args <= 6)%nat -> args !! j = Some a -> xreg (with_args args i s) (arg_reg (i + j)) = a.
Proof.
  induction args as [|b args IH]; intros i s j a Hl Hj; [done|]. cbn [with_args length] in *. destruct j as [|j]; simpl in Hj.
  - injection Hj as ->. rewrite Nat.add_0_r, with_args_other; [apply upd_eq|]. intros j Hj He. apply arg_reg_inj in He; lia.
  - rewrite Nat.add_succ_r, <- Nat.add_succ_l. apply IH; [lia | exact Hj].
Qed.

Lemma with_args_rest args : forall i s, csrs (with_args args i s) = csrs s /\ m_mode (with_args args i s) = m_mode s /\ words (with_args args i s) = words s.
Proof. induction args as [|a args IH]; intros i s; [done|]. exact (IH (S i) (set_x (arg_reg i) a s)). Qed.

Lemma with_args_ok args : forall i s, regs_ok s -> Forall (fun a => 0 <= a < 2 ^ 64) args -> regs_ok (with_args args i s).
Proof.
  induction args as [|a args IH]; intros i s Hs Ha; [done|]. apply Forall_cons in Ha as [Ha Hargs]. cbn [with_args]. apply IH; [|exact Hargs].
  intros r. cbn [xreg set_x]. unfold upd. case_decide; [exact Ha | apply Hs].
Qed.

Context {D : Type} `{!DiskDriver D}.

(** C40: [ecall] of a stub with up to six arguments takes the number to the field a7 of
    the trapframe and each argument to the word that [arg_raw] reads for its position. *)
Theorem syscall_args_arrive s (user t pa n : Z) (args : list Z) :
  m_mode s = false -> csrs s Satp = user -> csrs s Sscratch = t -> trapframe_at translate user t pa -> regs_ok s ->
  (length args <= 6)%nat -> 0 <= n < 2 ^ 64 -> Forall (fun a => 0 <= a < 2 ^ 64) args ->
  exists s' v, User.syscall (run translate user_vector) n args s = Ret v s' /\
    load64 (words s') (pa + TF_A7) = n /\
    forall (k : pstate D) i p, caller k i p -> tf p = pa -> k_mem (ps_k k) = words s' ->
      forall j a, args !! j = Some a -> arg_raw (Z.of_nat j) k = Ret a k.
Proof.
  intros Hm Hs Hscr Ht Hregs Hlen Hn Hargs. set (s1 := with_args args 0 (set_x A7 n s)).
  destruct (with_args_rest args 0 (set_x A7 n s)) as (Hcs & Hmm & _). fold s1 in Hcs, Hmm.
  assert (regs_ok s1) as Hok by (apply with_args_ok; [|exact Hargs]; intros r; cbn [xreg set_x]; unfold upd; case_decide; [exact Hn | apply Hregs]).
  destruct (user_vector_saves translate s1 user t pa) as (s2 & H2 & Hsaved); [by rewrite Hmm | by rewrite Hcs | by rewrite Hcs | exact Ht | exact Hok |].
  exists s2, (xreg s2 A0). split; [|split].
  - rewrite syscall_stub by exact Hlen. fold s1. by rewrite (bind_ret_eq _ _ _ _ _ H2).
  - rewrite (us_regs _ _ _ Hsaved A7 : load64 (words s2) (pa + TF_A7) = _). unfold s1. rewrite with_args_other by (intros j _; apply arg_reg_a7). apply upd_eq.
  - intros k i p Hc Htf Hk j a Hj. pose proof (lookup_lt_Some _ _ _ Hj) as Hlt.
    pose proof (arg_raw_eq k i p (Z.of_nat j) mret Hc ltac:(lia)) as Ha. rewrite bind_ret_r in Ha. rewrite Ha. unfold arg.
    rewrite Hk, Htf, <- arg_reg_offset, (us_regs _ _ _ Hsaved) by lia. unfold s1.
    pose proof (with_args_nth args 0 (set_x A7 n s) j a Hlen Hj) as Hnth. cbn [Nat.add] in Hnth. by rewrite Hnth.
Qed.
End Link.

(** ** Witnesses *)

Definition timer_regs : mregs := mk_mregs 1 0 0 0 0 0 0 0 0 0 0 0.
Definition timer_machine : machine := mk_machine timer_regs (replicate 2 (replicate 5 0)) {[CLINT_MTIME := 7]}.
Definition timer_words : mem :=
  store64 (store64 (store64 ∅ (0x80003000 + 40 + 24) (CLINT_MTIMECMP 1)) (0x80003000 + 40 + 32) INTERVAL) (CLINT_MTIMECMP 1) (7 + INTERVAL).

Lemma timer_words_row v i : [0; 0; 0; CLINT_MTIMECMP 1; INTERVAL] !! i = Some v -> load64 timer_words (0x80003000 + 40 + 8 * Z.of_nat i) = v.
Proof.
  intros Hv. unfold timer_words. assert (CLINT_MTIMECMP 1 = 0x2004008) as Hc by reflexivity. rewrite Hc in *.
  do 3 (destruct i as [|i]; [injection Hv as <-; rewrite !load64_store64_ne by lia; apply load64_empty|]).
  destruct i as [|i]; [injection Hv as <-; do 2 rewrite load64_store64_ne by lia; apply load64_store64_eq; lia|].
  destruct i as [|i]; [injection Hv as <-; rewrite load64_store64_ne by lia; apply load64_store64_eq; unfold INTERVAL; lia | done].
Qed.

Lemma timer_ticks_periodic_witness : exists s s' : hart, timer_interrupts no_translation 3 s = Ret tt s' /\
  csrs s' Sip = 2 /\ load64 (words s') (CLINT_MTIMECMP 1) = 4000007.
Proof.
  destruct (timer_init_run 0x80002000 0x80003000 timer_machine 1) as (k' & _ & Hset & _).
  { split; [reflexivity|]. split; [lia|]. exists (replicate 5 0). by split. }
  set (s := mk_hart (fun _ => 5) (fun _ => 0x80003000 + 40) timer_words true). exists s.
  destruct (timer_ticks_periodic no_translation 0x80003000 1 timer_machine k' s 3) as (s' & Hs' & _ & _ & Hsip & Hcmp); [lia | lia | | exact Hset | | | |].
  - exists (replicate 5 0). by split.
  - split; [reflexivity | by rewrite (ts_mscratch _ _ _ _ Hset)|]. destruct (ts_row _ _ _ _ Hset) as (row & row' & Hrow & Hk & Hr).
    exists row'. rewrite Hk. split; [reflexivity|]. injection Hrow as <-. rewrite Hr. intros i v Hv. exact (timer_words_row v i Hv).
  - intros r. cbn [xreg s]. lia.
  - rewrite (ts_cmp _ _ _ _ Hset), lookup_insert_eq. refine (eq_trans (load64_store64_eq _ _ (7 + INTERVAL) _) _); [unfold INTERVAL; lia | reflexivity].
  - exists s'. split; [exact Hs'|]. split; [apply Hsip; lia | exact Hcmp].
Defined.

Lemma syscall_args_arrive_witness : exists s' v, User.syscall (run no_translation user_vector) SYS_read [3; 0x1000; 64] demo_hart = Ret v s' /\
  load64 (words s') (0x80010000 + TF_A7) = 10 /\
  forall (k : pstate memdisk) i p, caller k i p -> tf p = 0x80010000 -> k_mem (ps_k k) = words s' -> arg_raw 1 k = Ret 0x1000 k.
Proof.
  destruct (syscall_args_arrive (D := memdisk) no_translation demo_hart 0x80010000 0x80010000 0x80010000 SYS_read [3; 0x1000; 64]) as (s' & v & Hs' & Hn & Hall);
    [reflexivity | reflexivity | reflexivity | exact demo_trapframe | exact demo_regs_ok | simpl; lia | unfold SYS_read; lia | repeat constructor; lia |].
  exists s', v. split; [exact Hs'|]. split; [exact Hn|]. intros k i p Hc Ht Hk. exact (Hall k i p Hc Ht Hk 1%nat _ eq_refl).
Defined.
